(* ===== verification/_CoqProject ===== *)
-Q . S2P
Prelude.v
GoStr.v
GoText.v
Sql.v
Json.v
JsonValue.v
JsonRound.v
GoFlag.v
Models.v
Schema.v
Store.v
Frame.v
WellFormed.v
Tunnels.v
Tasks.v
TaskAttempts.v
Events.v
Idempotency.v
Decisions.v
Reminders.v
Users.v
Endpoints.v
ImChats.v
Channels.v
Deliveries.v
Routes.v
Messages.v
Threads.v
AgentRuns.v
SessionQueue.v
Proto.v
RpcText.v
Rpc.v
RpcOnce.v
RpcConv.v
RpcAgents.v
RpcTasks.v
RpcMessages.v
RpcReminders.v
RpcMemory.v
RpcPrompt.v
RuntimeCatalog.v
RuntimeAdapter.v
AgentInstances.v
RpcServer.v
TunnelRegistry.v
RpcProxy.v
Base64.v
Auth.v
Http.v
Preview.v
Media.v
HttpBase.v
DaemonConfig.v
Daemon.v
DaemonRun.v
DaemonSupervisor.v
TunnelPump.v
DaemonTunnel.v
TunnelSocket.v
ServerConfig.v
Enrollment.v
ImPolicy.v
ImAdapter.v
ImBinding.v
ImInbound.v
ImNormalize.v
ImRender.v
ImCoord.v
HttpRooms.v
HttpWork.v
ImChannels.v
HttpIm.v
HttpBridge.v
HttpPublic.v
HttpServer.v
HttpMoves.v
HttpGuard.v
HttpAuthors.v
HttpEvents.v
