(* ===== verification/Prelude.v ===== *)
(** * Nekode verification library

    Nekode is a server that coordinates people, chat rooms and coding agents, and a daemon
    that runs the agents on the computers of its users.  The durable state lives behind
    [storage.Store] ([src/internal/storage]), a layer of more than a hundred operations over
    a SQL database, written against the client that ent generates from the schemas of
    [src/internal/ent/schema].  On top of it are the RPC server that daemons and agents talk
    to ([src/internal/daemonrpc]); the HTTP server of the console ([src/internal/server])
    with its accounts ([src/internal/auth]) and its preview tunnels
    ([src/internal/tunnelregistry]); and the integrations with instant messengers
    ([src/internal/im*]).  The daemon is [src/cmd/nekode-daemon].  This library models these
    parts operation by operation, up to the whole server as one dispatch over its routes and
    the daemon as programs over what it asks of the world, and proves what the parts promise
    each other and their users.

    ** How the model is built

    An operation [Op] of the code is the definition [Op]; a record has the fields of its
    struct.  The layers of the model are those of the program.

    Language and libraries:
    - [Prelude]: notations, automation, list and boolean lemmas.
    - [GoStr], [GoText], [GoFlag]: what the code uses of Go's [strings], [strconv],
      [unicode/utf8], [flag] and integer types: [TrimSpace] with its Unicode white space,
      [ToLower], searching, numbers, durations, 32- and 64-bit wrap-around ([u32], [i64]).
    - [Json], [JsonValue], [JsonRound]: [encoding/json]: the scanner as its state machine,
      decoding into structs, and writing; [JsonRound] shows that what is written reads back.
    - [Base64]: the unpadded URL alphabet.
    - [Sql]: the database as an interface.  [SqlEngine] is a family of tables with
      insert, select, update and delete; [SqlLaws] is what the store relies on (unique
      indexes enforced, selected rows exactly the matching ones in an order the
      [ORDER BY] allows, ties undetermined).  [list_engine] is an engine that satisfies
      the laws; the witnesses run on it.

    Storage ([src/internal/storage]):
    - [Models], [Schema]: the structs of [models.go], field by field with their setters,
      and per entity the primary key, unique indexes and validators of its ent schema.
    - [Store]: the state (one table per entity and the number of open transactions), the
      state-and-error monad [M], the builders of the ent client with their error
      classes, transactions ([in_tx], with the errors on which a path really rolls
      back), and a weakest-precondition calculus with one rule per builder.  [history]
      and [progress] state how a table evolves: rows stay in place, change by a step,
      and keep the table's invariant.
    - [Frame]: which tables an operation leaves alone, decided from its definition.
      [WellFormed]: the rows of every table valid and apart by their keys, and the rules by
      which operations keep them so.
    - [Users] to [AgentRuns]: the components of the store, listed below.

    RPC server ([src/internal/daemonrpc]):
    - [Proto]: the generated messages.  [Rpc]: the server's maps next to the store, the
      monad [R] of handlers (a handler stops at its first status error, which undoes
      nothing), [replay], [reserve] and [remember].  [RpcConv], [RpcText]: conversions
      and the redaction of text.
    - [RpcAgents], [RpcTasks], [RpcMessages], [RpcReminders], [RpcMemory], [RpcPrompt],
      [AgentInstances]: the handlers, by theme.  [RuntimeCatalog], [RuntimeAdapter]: the
      runtimes of agents, their templates and command lines, and the inventory a daemon
      reports.
    - [RpcServer]: the requests as one type, their dispatch [serve], and sequences of
      requests and restarts; the methods that the console calls besides are among them.
      [RpcOnce]: the calculus that shows a request runs once.
    - [TunnelRegistry], [RpcProxy]: the registry of tunnel streams, and the handler of a
      stream as a machine over it.

    HTTP server ([src/internal/server]):
    - [Http], [HttpBase]: requests, replies, bodies and the middleware; a handler is a
      computation of [R] that ends in a reply.  [Auth]: accounts.
    - [HttpRooms], [HttpWork], [HttpIm], [HttpBridge], [HttpPublic], [Media],
      [Enrollment], [Preview], [TunnelPump]: the handlers, by theme.
    - [HttpServer]: a request names a [route], [serve] dispatches it over the [Site], all
      the state that requests share; a request is one step.
    - [HttpMoves], [HttpGuard], [HttpAuthors], [HttpEvents]: what every request can and
      cannot do to the site.
    - [ServerConfig]: the configuration and the entry point.

    Instant messengers ([src/internal/im*]): [ImAdapter] (providers and their
    configurations), [ImNormalize] and [ImInbound] (what comes in), [ImRender] (what goes
    out), [ImPolicy] (who may talk to an agent), [ImBinding] (linking an endpoint to an
    account), [ImCoord] (what becomes of a message) with [SessionQueue] (the per-chat queue
    of commands), [ImChannels] (the webhooks).

    Daemon ([src/cmd/nekode-daemon]):
    - [DaemonConfig]: the configuration.  [Daemon]: functions as trees of effects (calls,
      clock, random source, operating system), whose branches are the answers the world may
      give, and a calculus of monitors over their traces.
    - [DaemonRun]: executing one run.  [DaemonSupervisor]: the goroutines that start runs.
    - [DaemonTunnel], [TunnelSocket]: the daemon's end of a preview request, and the four
      loops of a WebSocket.

    A reading of the clock and a freshly drawn identifier are arguments ([now], [fresh_id])
    in the store, and functions of a counter in the servers (class [Env]).  An error does
    not undo what an operation wrote before it, unless a transaction does.  Operations made
    of several statements are one step only where the code opens a transaction; [Events]
    models the interleaving of the statements of concurrent calls.  An RPC handler is one
    step, as it holds the server's mutex for most of its body, and so is an HTTP handler.
    Where interleaving is the point ([SessionQueue], [TunnelRegistry], [RpcProxy],
    [DaemonSupervisor], [DaemonTunnel], [TunnelSocket], the open streams of [HttpEvents])
    each critical section, effect or turn of a loop is a step.

    What is not under [src/] is a parameter, with what the code relies on as laws:
    - the database ([SqlEngine]) and the [LIKE] of messages with the encoding of their
      attachments ([TextLib]); the clock and random identifiers ([Env]); what a build fixes
      ([Build]);
    - Go's tables beyond ASCII ([Unicode], [UpperCase], [Quoter]), its floating point
      ([Floats], [FloatScale], [Seconds]), the parsing of times and URLs ([TimeLib],
      [Rfc3339], [UrlLib]), its printing of values ([Sprinter]), the order in which it visits
      a map ([MapOrder]);
    - digests, ciphers and decoders ([Sha256], [Sha1], [Crypto], [Aes], [Xml], [Sniffer]) and
      the codec of messages ([ProtoJSON]);
    - the files behind attachments ([Loader]) and the service that links accounts ([ILink]).
    Each is instantiated by concrete functions in the witnesses.

    ** The components and their theorems

    Storage:
    - [Users]: accounts, the bootstrap of the first administrator (at most one ever
      succeeds, and then the server is initialised), sessions and their expiry.
    - [Tasks]: task states and versions; the claim, a conditional update, gives a task
      to exactly one agent whatever claims race for it.  [TaskAttempts]: one row per task
      and number; claims are idempotent.
    - [Events]: the event log; sequences have no gap and no repetition under any
      interleaving of concurrent appends; the retry loop (five attempts, as in the code)
      is modelled with its bound.
    - [Idempotency]: at most one reservation of a request key wins.
    - [Decisions]: proposals and votes; counters, quorum, supersession.
    - [Reminders]: every change writes its event in the same transaction.
    - [Tunnels]: the tunnel lifecycle as a transition relation that every operation
      follows, the expiry loop as one bulk update, and the race its statements allow.
    - [Endpoints]: the referential guard of an endpoint's deletion.
    - [ImChats]: authorization requests and their approval into one subscription, at most
      once per request.
    - [Channels]: rooms and members; every member is in a room that exists.
    - [Messages]: messages, search, saved messages; the paged listing equals filtering the
      whole history, and its loop ends within the fuel it is given: one round more than
      the table has rows, since every round skips at least fifty.
    - [Threads]: unread counts and read marks.
    - [Deliveries]: outbound deliveries and the retry policy; the doubling loop gets fuel
      six because thirty seconds doubled five times exceed the cap.
    - [Routes]: the resolution of notification routes against its documented contract.
    - [AgentRuns]: the event log of a run; the run's row counts its events.

    RPC server:
    - [RpcServer]: whatever requests arrive in whatever order, restarts between them
      included, the body of an idempotent method runs at most once per key, and a retry
      of an answered request gets the stored answer and changes nothing.
    - [RpcText], [RpcPrompt]: truncation stays within its limit; no secret of a key the
      server knows reaches the launch prompt.  [RpcMemory]: the approval of a tunnel over
      RPC asks for no role.
    - [RuntimeAdapter]: a runtime that is reported healthy can be started, and which options
      nothing reads.  [AgentInstances]: what the daemon writes of a template the server reads
      back, and each healthy runtime of an inventory can be given agents.
    - [TunnelRegistry]: streams, responders and their maps stay consistent; a handler
      that detaches removes its own stream only.  [RpcProxy]: a stream's handler ends.

    HTTP server:
    - [HttpGuard]: the routes of accounts are closed without an open session; rooms change
      only by those who manage them; and whatever requests arrive, the database stays well
      formed.  [HttpAuthors]: the history of messages only grows, and each message is signed
      by who wrote it.
    - [HttpEvents]: a stream of server events delivers every event of its scope once and in
      order, whatever others append.
    - [Auth]: logging in then authenticating gives the account until the session expires.
      [Enrollment]: a revoked enrollment is never accepted again.
    - [Preview]: who passes the guards of a preview, and the relay of a response.
    - [ServerConfig]: the configuration that is served with has been checked.

    Instant messengers:
    - [ImCoord]: a message is stored only where it is authorized, and once while its mark
      lasts.  [SessionQueue]: one request of a chat at a time, in order, each answered, under
      any interleaving.
    - [ImAdapter]: redaction hides sensitive fields.  [ImRender]: a text is cut into pieces
      within the messenger's length, nothing of it lost.  [ImPolicy]: when the order of a map
      decides nothing.  [ImNormalize]: what is normalised is valid.

    Daemon:
    - [DaemonRun]: every execution of a run follows the protocol of permit, report, command
      and release, whatever the world answers; its verdict and its archive are determined by
      how the command ended.
    - [DaemonSupervisor]: one process per run under any interleaving.
    - [DaemonTunnel], with [Preview] and [TunnelPump]: a preview request gets the answer of
      the local service, and its body arrives in order.  [TunnelSocket]: the bytes of a
      WebSocket arrive in order, and why neither half ends.
    - [DaemonConfig]: a configuration that loads is usable.

    Several theorems and many examples show where the code does not do what it means to, or
    what a comment says: a tunnel that is rejected while it expires, a late vote that leaves
    its transaction open, a visitor that picks the daemon's port.

    ** What is not modelled

    Commit failures and lost connections (a statement either succeeds or fails with an
    error class of ent), the opening and migration of the database, the drawing of random
    identifiers, the cache, the generated client of ent.  In the RPC server: a nil store,
    the text of an error's cause, the interleaving of two handlers, the wrappers of streams.
    In the HTTP server: the static answers, the web console, the texts of scripts, and the
    rate limiters, which compute in floating point (their verdict is an argument).  Of the
    messengers: the clients that send, QQ, ServerChan and the terminal.  Of the daemon: its
    tickers and reconnects, and what is only logged. *)
From stdpp Require Export base tactics list strings sorting gmap.
From Stdlib Require Export Ascii ZArith Lia.

(** ** Notations *)

Declare Scope go_scope.
Delimit Scope go_scope with go.

(** Go's [==] and [!=] on strings, as decided by the code's conditions. *)
Infix "=s" := String.eqb (at level 70, no associativity) : go_scope.
Notation "a <>s b" := (negb (String.eqb a b)) (at level 70, no associativity) : go_scope.

(** ** Automation databases *)

Create HintDb nekode discriminated.

(** ** Options *)

Definition from_opt {A} (d : A) (o : option A) : A := match o with Some a => a | None => d end.

(** ** Booleans and strings *)

Lemma eqb_refl_str (s : string) : String.eqb s s = true.
Proof. apply String.eqb_refl. Qed.

Lemma eqb_eq_str (s t : string) : String.eqb s t = true ↔ s = t.
Proof. apply String.eqb_eq. Qed.

Lemma eqb_neq_str (s t : string) : String.eqb s t = false ↔ s ≠ t.
Proof. apply String.eqb_neq. Qed.

Lemma eqb_sym_str (s t : string) : String.eqb s t = String.eqb t s.
Proof. apply String.eqb_sym. Qed.

#[export] Hint Rewrite eqb_refl_str : nekode.

(** Turns every boolean test of the context and of the goal into the proposition
    it decides. *)
Ltac reflect_bools :=
  cbv beta in * |-;
  repeat match goal with
  | H : String.eqb _ _ = true |- _ => apply eqb_eq_str in H
  | H : String.eqb _ _ = false |- _ => apply eqb_neq_str in H
  | H : negb _ = true |- _ => apply negb_true_iff in H
  | H : negb _ = false |- _ => apply negb_false_iff in H
  | H : _ && _ = true |- _ => apply andb_true_iff in H; destruct H
  | H : _ || _ = false |- _ => apply orb_false_iff in H; destruct H
  | H : (_ =? _)%Z = true |- _ => apply Z.eqb_eq in H
  | H : (_ =? _)%Z = false |- _ => apply Z.eqb_neq in H
  | H : (_ <=? _)%Z = true |- _ => apply Z.leb_le in H
  | H : (_ <=? _)%Z = false |- _ => apply Z.leb_gt in H
  | H : (_ <? _)%Z = true |- _ => apply Z.ltb_lt in H
  | H : (_ <? _)%Z = false |- _ => apply Z.ltb_ge in H
  end.

(** Case analysis on the first test the goal branches on. *)
Ltac split_if :=
  match goal with
  | |- context [if ?b then _ else _] => let E := fresh "E" in destruct b eqn:E
  end.

(** ** Lists *)

(** [SELECT ... LIMIT lim OFFSET off] on an already ordered list of rows. *)
Definition window {A} (off : nat) (lim : option nat) (l : list A) : list A :=
  match lim with
  | Some n => take n (drop off l)
  | None => drop off l
  end.

(** A [Limit] that counts only when it is positive, and the code's way of replacing
    a limit that is not within bounds by a default. *)
Definition positive_limit (n : Z) : option nat := if (0 <? n)%Z then Some (Z.to_nat n) else None.

Definition bounded_limit (limit max default : Z) : Z :=
  if ((limit <=? 0) || (max <? limit))%Z then default else limit.

(** The boolean filter the query layer uses (stdpp's [filter] takes a decidable
    proposition). *)
Fixpoint bfilter {A} (p : A → bool) (l : list A) : list A :=
  match l with
  | [] => []
  | x :: l => if p x then x :: bfilter p l else bfilter p l
  end.

Section bfilter.
Context {A : Type}.
Implicit Types (p q : A → bool) (l : list A).

Lemma elem_of_bfilter p l x : x ∈ bfilter p l ↔ x ∈ l ∧ p x = true.
Proof.
  induction l as [|y l IH]; simpl; [set_solver|].
  destruct (p y) eqn:E; rewrite ?elem_of_cons, IH; intuition (subst; congruence).
Qed.

Lemma bfilter_app p l1 l2 : bfilter p (l1 ++ l2) = bfilter p l1 ++ bfilter p l2.
Proof. induction l1 as [|y l IH]; simpl; [done|]. destruct (p y); simpl; by rewrite IH. Qed.

Lemma bfilter_perm p l1 l2 : l1 ≡ₚ l2 → bfilter p l1 ≡ₚ bfilter p l2.
Proof.
  induction 1; simpl; try done.
  - destruct (p x); [by constructor|done].
  - destruct (p x), (p y); try done. by constructor.
  - by etrans.
Qed.

Lemma bfilter_all p l : (∀ x, x ∈ l → p x = true) → bfilter p l = l.
Proof.
  induction l as [|y l IH]; simpl; [done|]. intros H.
  rewrite (H y) by set_solver. rewrite IH; [done|]. set_solver.
Qed.

Lemma bfilter_none p l : (∀ x, x ∈ l → p x = false) → bfilter p l = [].
Proof.
  induction l as [|y l IH]; simpl; [done|]. intros H.
  rewrite (H y) by set_solver. apply IH. set_solver.
Qed.

Lemma bfilter_nil_inv p l x : bfilter p l = [] → x ∈ l → p x = false.
Proof.
  intros E Hx. destruct (p x) eqn:Ep; [|done].
  assert (x ∈ bfilter p l) as H by by apply elem_of_bfilter. rewrite E in H.
  by apply elem_of_nil in H.
Qed.

Lemma bfilter_ext p q l : (∀ x, x ∈ l → p x = q x) → bfilter p l = bfilter q l.
Proof.
  induction l as [|y l IH]; simpl; [done|]. intros H.
  rewrite (H y) by set_solver. rewrite IH; [done|]. set_solver.
Qed.

Lemma bfilter_bfilter p q l : bfilter p (bfilter q l) = bfilter (λ x, q x && p x) l.
Proof.
  induction l as [|y l IH]; simpl; [done|].
  destruct (q y); simpl; [|done]. destruct (p y); by rewrite IH.
Qed.

Lemma length_bfilter p l : length (bfilter p l) ≤ length l.
Proof. induction l as [|y l IH]; simpl; [lia|]. destruct (p y); simpl; lia. Qed.

Lemma bfilter_sublist p l : bfilter p l `sublist_of` l.
Proof. induction l as [|y l IH]; simpl; [done|]. destruct (p y); by constructor. Qed.

End bfilter.

#[export] Instance bfilter_perm_proper {A} (p : A → bool) : Proper ((≡ₚ) ==> (≡ₚ)) (bfilter p).
Proof. intros l1 l2. apply bfilter_perm. Qed.

Lemma StronglySorted_weaken {A} (P Q : A → A → Prop) l :
  (∀ x y, P x y → Q x y) → StronglySorted P l → StronglySorted Q l.
Proof.
  intros HPQ. induction 1 as [|x l _ IH Hx]; constructor; [done|].
  eapply Forall_impl; [exact Hx|auto].
Qed.

(** A stable sort by an integer key. *)
Fixpoint insert_by {A} (f : A → Z) (x : A) (l : list A) : list A :=
  match l with
  | [] => [x]
  | y :: l' => if (f x <=? f y)%Z then x :: l else y :: insert_by f x l'
  end.

Fixpoint stable_sort {A} (f : A → Z) (l : list A) : list A :=
  match l with
  | [] => []
  | x :: l => insert_by f x (stable_sort f l)
  end.

Lemma insert_by_perm {A} (f : A → Z) x l : insert_by f x l ≡ₚ x :: l.
Proof.
  induction l as [|y l IH]; simpl; [done|]. destruct (f x <=? f y)%Z; [done|].
  rewrite IH. apply perm_swap.
Qed.

Lemma stable_sort_perm {A} (f : A → Z) l : stable_sort f l ≡ₚ l.
Proof. induction l as [|x l IH]; simpl; [done|]. by rewrite insert_by_perm, IH. Qed.

Lemma insert_by_sorted {A} (f : A → Z) x l :
  StronglySorted (λ a b, (f a ≤ f b)%Z) l → StronglySorted (λ a b, (f a ≤ f b)%Z) (insert_by f x l).
Proof.
  induction 1 as [|y l Hs IH Hy]; simpl; [by repeat constructor|].
  destruct (Z.leb_spec (f x) (f y)).
  - constructor; [by constructor|]. constructor; [done|].
    eapply Forall_impl; [exact Hy|]. cbn. lia.
  - constructor; [done|]. rewrite insert_by_perm. constructor; [lia|done].
Qed.

Lemma stable_sort_sorted {A} (f : A → Z) l : StronglySorted (λ a b, (f a ≤ f b)%Z) (stable_sort f l).
Proof. induction l as [|x l IH]; simpl; [constructor|]. by apply insert_by_sorted. Qed.

(** Sorting by a comparison ([sort.Strings]). *)
Fixpoint insert_with {A} (leb : A → A → bool) (x : A) (l : list A) : list A :=
  match l with
  | [] => [x]
  | y :: l' => if leb x y then x :: l else y :: insert_with leb x l'
  end.

Fixpoint sort_with {A} (leb : A → A → bool) (l : list A) : list A :=
  match l with
  | [] => []
  | x :: l => insert_with leb x (sort_with leb l)
  end.

Lemma insert_with_perm {A} (leb : A → A → bool) x l : insert_with leb x l ≡ₚ x :: l.
Proof.
  induction l as [|y l IH]; simpl; [done|]. destruct (leb x y); [done|].
  rewrite IH. apply perm_swap.
Qed.

Lemma sort_with_perm {A} (leb : A → A → bool) l : sort_with leb l ≡ₚ l.
Proof. induction l as [|x l IH]; simpl; [done|]. by rewrite insert_with_perm, IH. Qed.

(** ** Maps *)

(** The order in which Go visits a map is not determined: [visit] is the order of
    one run. *)
Class MapOrder := {
  visit : ∀ {A}, list A → list A;
  visit_perm : ∀ {A} (l : list A), visit l ≡ₚ l
}.
