(* ===== verification/GoStr.v ===== *)
(** * Go strings and machine integers

    The part of Go's [strings] package the modelled code calls, on byte strings
    (a Go string is a sequence of bytes, here a [string] of 8-bit [ascii]), and
    the wrap-around of Go's fixed-width integers.  [TrimSpace] removes the
    Unicode White_Space characters, recognised by their UTF-8 encodings;
    [ToLower] maps ASCII letters itself and leaves strings that hold other bytes
    to [lower_unicode], Go's Unicode case table, which is a parameter. *)
From S2P Require Import Prelude.

(** ** Fixed-width integers *)

(** The value an unsigned 32-bit Go variable holds after arithmetic. *)
Definition u32 (z : Z) : Z := z mod 2 ^ 32.

(** The value a signed 64-bit Go variable holds after arithmetic. *)
Definition i64 (z : Z) : Z := (z + 2 ^ 63) mod 2 ^ 64 - 2 ^ 63.

Definition in_u32 (z : Z) : Prop := (0 ≤ z < 2 ^ 32)%Z.
Definition in_i64 (z : Z) : Prop := (- 2 ^ 63 ≤ z < 2 ^ 63)%Z.

(** ** Unicode tables *)

Class Unicode := { lower_unicode : string → string }.

(** ** White space and trimming *)

Definition nat_of (c : ascii) : nat := Ascii.nat_of_ascii c.

(** U+0009..U+000D and U+0020. *)
Definition space1 (c : ascii) : bool :=
  let n := nat_of c in ((9 <=? n) && (n <=? 13)) || (n =? 32).

(** U+0085 and U+00A0. *)
Definition space2 (a b : ascii) : bool :=
  (nat_of a =? 194) && ((nat_of b =? 133) || (nat_of b =? 160)).

(** U+1680, U+2000..U+200A, U+2028, U+2029, U+202F, U+205F and U+3000. *)
Definition space3 (a b c : ascii) : bool :=
  let x := nat_of a in let y := nat_of b in let z := nat_of c in
  ((x =? 225) && (y =? 154) && (z =? 128)) ||
  ((x =? 226) && (y =? 128) &&
     (((128 <=? z) && (z <=? 138)) || (z =? 168) || (z =? 169) || (z =? 175))) ||
  ((x =? 226) && (y =? 129) && (z =? 159)) ||
  ((x =? 227) && (y =? 128) && (z =? 128)).

(** Drops the leading white space of a string read in the direction the two
    multi-byte tests read it. *)
Fixpoint trim_with (sp2 : ascii → ascii → bool) (sp3 : ascii → ascii → ascii → bool)
    (s : string) : string :=
  match s with
  | EmptyString => EmptyString
  | String a s1 =>
      if space1 a then trim_with sp2 sp3 s1
      else match s1 with
           | EmptyString => s
           | String b s2 =>
               if sp2 a b then trim_with sp2 sp3 s2
               else match s2 with
                    | EmptyString => s
                    | String c s3 => if sp3 a b c then trim_with sp2 sp3 s3 else s
                    end
           end
  end.

Definition trim_left : string → string := trim_with space2 space3.

Definition trim_right (s : string) : string :=
  String.rev (trim_with (λ a b, space2 b a) (λ a b c, space3 c b a) (String.rev s)).

(** [strings.TrimSpace]. *)
Definition TrimSpace (s : string) : string := trim_right (trim_left s).

(** ** Case *)

Definition lower_ascii (c : ascii) : ascii :=
  let n := nat_of c in
  if (65 <=? n) && (n <=? 90) then Ascii.ascii_of_nat (n + 32) else c.

Fixpoint smap (f : ascii → ascii) (s : string) : string :=
  match s with
  | EmptyString => EmptyString
  | String c s => String (f c) (smap f s)
  end.

Fixpoint is_ascii (s : string) : bool :=
  match s with
  | EmptyString => true
  | String c s => (nat_of c <? 128) && is_ascii s
  end.

(** [strings.ToLower]. *)
Definition ToLower `{!Unicode} (s : string) : string :=
  if is_ascii s then smap lower_ascii s else lower_unicode s.

(** ** Prefixes, searching, joining *)

Definition HasPrefix (s prefix : string) : bool := String.prefix prefix s.

Definition sdrop (n : nat) (s : string) : string :=
  String.substring n (String.length s - n) s.

Definition stake (n : nat) (s : string) : string := String.substring 0 n s.

(** [strings.TrimPrefix]. *)
Definition TrimPrefix (s prefix : string) : string :=
  if HasPrefix s prefix then sdrop (String.length prefix) s else s.

(** [strings.Contains]. *)
Fixpoint Contains (s sub : string) : bool :=
  HasPrefix s sub ||
  match s with
  | EmptyString => false
  | String _ s => Contains s sub
  end.

(** [strings.Cut] around the first occurrence of a one-byte separator. *)
Fixpoint Cut (s : string) (sep : ascii) : string * string * bool :=
  match s with
  | EmptyString => (EmptyString, EmptyString, false)
  | String c s' =>
      if Ascii.eqb c sep then (EmptyString, s', true)
      else let '(a, b, found) := Cut s' sep in (String c a, b, found)
  end.

(** [strings.ReplaceAll] of one byte by another. *)
Definition replace_byte (a b : ascii) : string → string :=
  smap (λ c, if Ascii.eqb c a then b else c).

(** [strings.Join]. *)
Fixpoint Join (l : list string) (sep : string) : string :=
  match l with
  | [] => EmptyString
  | [x] => x
  | x :: l => x +:+ sep +:+ Join l sep
  end.

(** ** Helpers the packages share *)

(** [firstNonEmpty]: the first value that is not blank, trimmed. *)
Fixpoint firstNonEmpty (values : list string) : string :=
  match values with
  | [] => EmptyString
  | v :: values =>
      if negb (String.eqb (TrimSpace v) "") then TrimSpace v else firstNonEmpty values
  end.

(** The loop of [cleanStrings]: [seen] is the map of the values already kept. *)
Fixpoint clean_go (seen : list string) (values : list string) : list string :=
  match values with
  | [] => []
  | v :: values =>
      let v := TrimSpace v in
      if String.eqb v "" then clean_go seen values
      else if bool_decide (v ∈ seen) then clean_go seen values
      else v :: clean_go (v :: seen) values
  end.

(** [cleanStrings]: trims, drops blanks and later duplicates, keeps the order. *)
Definition cleanStrings (values : list string) : list string := clean_go [] values.

Example trim_ex : TrimSpace "  a b  " = "a b". Proof. reflexivity. Qed.
Example trim_nbsp_ex : TrimSpace (String (ascii_of_nat 194) (String (ascii_of_nat 160) "x")) = "x".
Proof. reflexivity. Qed.
Example clean_ex : cleanStrings [" b"; ""; "a"; "b "; "a"] = ["b"; "a"]. Proof. reflexivity. Qed.
Example cut_ex : Cut "/agent bob x" " "%char = ("/agent", "bob x", true). Proof. reflexivity. Qed.

(** ** Facts *)

Lemma rev_app_spec s t : String.rev_app s t = String.rev s +:+ t.
Proof.
  unfold String.rev. revert t. induction s as [|c s IH]; intros t; [done|].
  simpl. rewrite IH, (IH (String c "")). clear IH.
  generalize (String.rev_app s ""). intros u. induction u as [|d u IHu]; [done|].
  simpl. unfold String.app in *. simpl. f_equal. exact IHu.
Qed.

Lemma sapp_nil_r s : s +:+ "" = s.
Proof. induction s as [|c s IH]; [done|]. unfold String.app in *. simpl. by f_equal. Qed.

Lemma sapp_assoc s t u : s +:+ (t +:+ u) = (s +:+ t) +:+ u.
Proof. induction s as [|c s IH]; [done|]. unfold String.app in *. simpl. by f_equal. Qed.

Lemma srev_app s t : String.rev (s +:+ t) = String.rev t +:+ String.rev s.
Proof.
  induction s as [|c s IH].
  - by rewrite sapp_nil_r.
  - change (String c s +:+ t) with (String c (s +:+ t)). unfold String.rev at 1 3. simpl.
    rewrite !rev_app_spec, IH. by rewrite sapp_assoc.
Qed.

Lemma srev_involutive s : String.rev (String.rev s) = s.
Proof.
  induction s as [|c s IH]; [done|].
  unfold String.rev at 2. simpl. rewrite rev_app_spec, srev_app, IH. done.
Qed.

Lemma slength_app s t : String.length (s +:+ t) = String.length s + String.length t.
Proof. induction s as [|c s IH]; [done|]. unfold String.app in *. simpl. by f_equal. Qed.

Lemma slength_rev s : String.length (String.rev s) = String.length s.
Proof.
  induction s as [|c s IH]; [done|].
  unfold String.rev. simpl. rewrite rev_app_spec, slength_app, IH. simpl. lia.
Qed.

(** A string whose reading starts with white space. *)
Definition leads (sp2 : ascii → ascii → bool) (sp3 : ascii → ascii → ascii → bool)
    (s : string) : bool :=
  match s with
  | EmptyString => false
  | String a s1 =>
      space1 a ||
      match s1 with
      | EmptyString => false
      | String b s2 =>
          sp2 a b || match s2 with EmptyString => false | String c _ => sp3 a b c end
      end
  end.

Section trim.
Variables (sp2 : ascii → ascii → bool) (sp3 : ascii → ascii → ascii → bool).
Implicit Types s t : string.

Lemma trim_with_ind (P : string → Prop) :
  (∀ s, leads sp2 sp3 s = false → P s) →
  (∀ s t, leads sp2 sp3 s = true → (∃ w, s = w +:+ t ∧ w ≠ "") → 
     trim_with sp2 sp3 s = trim_with sp2 sp3 t → P t → P s) →
  ∀ s, P s.
Proof.
  intros Hno Hstep s.
  remember (String.length s) as n eqn:Hn. revert s Hn.
  induction n as [n IH] using lt_wf_ind. intros s ->.
  destruct (leads sp2 sp3 s) eqn:E; [|by apply Hno].
  destruct s as [|a s1]; [done|]. simpl in E.
  destruct (space1 a) eqn:Ea; simpl in E.
  { apply (Hstep _ s1); [simpl; by rewrite Ea|by exists (String a "")|simpl; by rewrite Ea|].
    eapply IH; [|done]. simpl. lia. }
  destruct s1 as [|b s2]; [done|]. destruct (sp2 a b) eqn:Eb; simpl in E.
  { apply (Hstep _ s2); [simpl; by rewrite Ea, Eb|by exists (String a (String b ""))|
      simpl; by rewrite Ea, Eb|].
    eapply IH; [|done]. simpl. lia. }
  destruct s2 as [|c s3]; [done|].
  apply (Hstep _ s3); [simpl; by rewrite Ea, Eb|
    by exists (String a (String b (String c "")))|simpl; by rewrite Ea, Eb, E|].
  eapply IH; [|done]. simpl. lia.
Qed.

Lemma trim_with_id s : leads sp2 sp3 s = false → trim_with sp2 sp3 s = s.
Proof.
  destruct s as [|a s1]; [done|]. simpl. destruct (space1 a); [done|]. simpl.
  destruct s1 as [|b s2]; [done|]. destruct (sp2 a b); [done|]. simpl.
  destruct s2 as [|c s3]; [done|]. by intros ->.
Qed.

Lemma trim_with_leads s : leads sp2 sp3 (trim_with sp2 sp3 s) = false.
Proof.
  induction s as [s H|s t _ _ Heq IH] using trim_with_ind.
  - by rewrite trim_with_id.
  - by rewrite Heq.
Qed.

Lemma trim_with_suffix s : ∃ w, s = w +:+ trim_with sp2 sp3 s.
Proof.
  induction s as [s H|s t _ (w & -> & _) Heq [w' IH]] using trim_with_ind.
  - exists "". by rewrite trim_with_id.
  - exists (w +:+ w'). rewrite Heq, <-sapp_assoc. by f_equal.
Qed.

Lemma leads_prefix s t : leads sp2 sp3 (s +:+ t) = false → leads sp2 sp3 s = false.
Proof.
  destruct s as [|a [|b [|c s]]]; [done| | |done].
  - unfold String.app; simpl; intros H; apply orb_false_iff in H as [-> _]; done.
  - unfold String.app; simpl. destruct (space1 a); [done|]. simpl.
    intros H; apply orb_false_iff in H as [-> _]; done.
Qed.

End trim.

Lemma trim_left_idemp s : trim_left (trim_left s) = trim_left s.
Proof. apply trim_with_id, trim_with_leads. Qed.

Lemma trim_right_idemp s : trim_right (trim_right s) = trim_right s.
Proof.
  unfold trim_right. rewrite srev_involutive.
  f_equal. apply trim_with_id, trim_with_leads.
Qed.

Lemma trim_right_prefix s : ∃ w, s = trim_right s +:+ w.
Proof.
  destruct (trim_with_suffix (λ a b, space2 b a) (λ a b c, space3 c b a) (String.rev s)) as [w Hw].
  exists (String.rev w). unfold trim_right. rewrite <-srev_app, <-Hw. by rewrite srev_involutive.
Qed.

Lemma TrimSpace_idemp s : TrimSpace (TrimSpace s) = TrimSpace s.
Proof.
  unfold TrimSpace.
  assert (trim_left (trim_right (trim_left s)) = trim_right (trim_left s)) as ->.
  - destruct (trim_right_prefix (trim_left s)) as [w Hw].
    apply trim_with_id, leads_prefix with (t := w). rewrite <-Hw. apply trim_with_leads.
  - apply trim_right_idemp.
Qed.

#[export] Hint Rewrite TrimSpace_idemp : nekode.

(** [s] is trimmed: [TrimSpace] leaves it alone. *)
Definition trimmed (s : string) : Prop := TrimSpace s = s.

Lemma TrimSpace_trimmed s : trimmed (TrimSpace s).
Proof. apply TrimSpace_idemp. Qed.

#[export] Hint Resolve TrimSpace_trimmed : nekode.

Lemma trimmed_leads s : trimmed s →
  leads (λ a b, space2 b a) (λ a b c, space3 c b a) (String.rev s) = false.
Proof.
  intros H. rewrite <-H. unfold TrimSpace, trim_right. rewrite srev_involutive. apply trim_with_leads.
Qed.

(** A hash in front of a trimmed string leaves it trimmed. *)
Lemma trimmed_hash s : trimmed s → trimmed ("#" +:+ s).
Proof.
  intros Ht%trimmed_leads. unfold trimmed, TrimSpace.
  assert (trim_left ("#" +:+ s) = "#" +:+ s) as ->.
  { apply trim_with_id. destruct s as [|b [|c s]]; done. }
  unfold trim_right. rewrite trim_with_id; [apply srev_involutive|].
  rewrite srev_app. change (String.rev "#") with "#". revert Ht.
  destruct (String.rev s) as [|a [|b [|c t]]]; unfold String.app; simpl; [done| | |done].
  - rewrite orb_false_r. intros ->. unfold space2, space3; simpl. done.
  - destruct (space1 a); [done|]; simpl. destruct (space2 b a); done.
Qed.

Lemma prefix_nil s : String.prefix "" s = true.
Proof. by destruct s. Qed.

Lemma substring_all s : String.substring 0 (String.length s) s = s.
Proof. induction s as [|a s IH]; simpl; [done|by rewrite IH]. Qed.

(** [TrimPrefix] of a one-character prefix. *)
Lemma TrimPrefix_hash s : TrimPrefix ("#" +:+ s) "#" = s.
Proof.
  unfold TrimPrefix, HasPrefix, sdrop, String.app. simpl. rewrite prefix_nil.
  rewrite Nat.sub_0_r. apply substring_all.
Qed.

Lemma TrimPrefix_hash_cases s :
  ("#" +:+ TrimPrefix s "#" = s ∧ HasPrefix s "#" = true) ∨
  (TrimPrefix s "#" = s ∧ HasPrefix s "#" = false).
Proof.
  destruct (HasPrefix s "#") eqn:E.
  - left. split; [|done]. destruct s as [|a s]; unfold HasPrefix in E; simpl in E; [done|].
    repeat case_match; try done. subst. change (String "#" s) with ("#" +:+ s).
    by rewrite TrimPrefix_hash.
  - right. unfold TrimPrefix. by rewrite E.
Qed.

Lemma firstNonEmpty_trimmed l : trimmed (firstNonEmpty l).
Proof. induction l as [|v l IH]; simpl; [done|]. destruct (negb _); auto with nekode. Qed.

Lemma elem_of_clean_go seen l x :
  x ∈ clean_go seen l ↔ x ∉ seen ∧ x ≠ "" ∧ x ∈ TrimSpace <$> l.
Proof.
  revert seen. induction l as [|v l IH]; intros seen; csimpl.
  { split; [intros H; by apply elem_of_nil in H|intros (_ & _ & H); by apply elem_of_nil in H]. }
  rewrite elem_of_cons.
  destruct (String.eqb (TrimSpace v) "") eqn:E; reflect_bools.
  { rewrite IH, E. intuition congruence. }
  case_bool_decide as Hin; rewrite ?elem_of_cons, IH; rewrite ?not_elem_of_cons.
  - intuition congruence.
  - destruct (decide (x = TrimSpace v)) as [->|]; tauto.
Qed.

Lemma NoDup_clean_go seen l : NoDup (clean_go seen l).
Proof.
  revert seen. induction l as [|v l IH]; intros seen; simpl; [constructor|].
  destruct (String.eqb (TrimSpace v) ""); [done|].
  case_bool_decide; [done|]. constructor; [|done]. rewrite elem_of_clean_go. set_solver.
Qed.

Lemma elem_of_cleanStrings l x : x ∈ cleanStrings l ↔ x ≠ "" ∧ x ∈ TrimSpace <$> l.
Proof. unfold cleanStrings. rewrite elem_of_clean_go. set_solver. Qed.

Lemma NoDup_cleanStrings l : NoDup (cleanStrings l).
Proof. apply NoDup_clean_go. Qed.

(** A list [cleanStrings] has nothing left to do on. *)
Lemma clean_go_id seen l :
  NoDup l → (∀ x, x ∈ l → trimmed x ∧ x ≠ "" ∧ x ∉ seen) → clean_go seen l = l.
Proof.
  revert seen. induction l as [|v l IH]; intros seen Hnd Hl; simpl; [done|].
  apply NoDup_cons in Hnd as [Hv Hnd].
  destruct (Hl v) as (Ht & Hne & Hs); [set_solver|]. unfold trimmed in Ht. rewrite Ht.
  destruct (String.eqb v "") eqn:E; reflect_bools; [done|].
  rewrite bool_decide_false by done. f_equal. apply IH; [done|].
  intros x Hx. destruct (Hl x) as (? & ? & ?); [set_solver|].
  repeat split; [done..|]. set_solver.
Qed.

Lemma cleanStrings_idemp l : cleanStrings (cleanStrings l) = cleanStrings l.
Proof.
  apply clean_go_id; [apply NoDup_cleanStrings|]. intros x Hx.
  apply elem_of_cleanStrings in Hx as [Hne [y [-> _]]%list_elem_of_fmap].
  split; [apply TrimSpace_trimmed|]. split; [done|set_solver].
Qed.

#[export] Hint Rewrite cleanStrings_idemp : nekode.

Lemma i64_id z : in_i64 z → i64 z = z.
Proof. unfold in_i64, i64. intros ?. rewrite Z.mod_small; lia. Qed.

Lemma u32_id z : in_u32 z → u32 z = z.
Proof. unfold in_u32, u32. intros ?. rewrite Z.mod_small; lia. Qed.

(** ** Lower case and white space *)

(** What the code relies on of the Unicode case table: lower case is a fixed point,
    and lower-casing goes rune by rune and neither makes nor unmakes white space. *)
Class UnicodeLaws `{!Unicode} : Prop := {
  ToLower_idemp s : ToLower (ToLower s) = ToLower s;
  ToLower_TrimSpace s : ToLower (TrimSpace s) = TrimSpace (ToLower s);
  ToLower_nonempty s : ToLower s = "" → s = ""
}.

Lemma ToLower_trimmed `{UnicodeLaws} s : trimmed s → trimmed (ToLower s).
Proof. unfold trimmed. intros Ht. by rewrite <-ToLower_TrimSpace, Ht. Qed.

Lemma lower_trim_idemp `{UnicodeLaws} s :
  ToLower (TrimSpace (ToLower (TrimSpace s))) = ToLower (TrimSpace s).
Proof. rewrite (ToLower_trimmed (TrimSpace s)) by auto with nekode. apply ToLower_idemp. Qed.

#[export] Hint Rewrite @lower_trim_idemp using typeclasses eauto : nekode.

(** A case table for strings without letters outside ASCII. *)
Definition ascii_unicode : Unicode := {| lower_unicode := smap lower_ascii |}.

Lemma lower_ascii_keeps (P : ascii → bool) :
  (∀ n, 65 <= n → n <= 90 → P (ascii_of_nat n) = P (ascii_of_nat (n + 32))) →
  ∀ c, P (lower_ascii c) = P c.
Proof.
  intros H c. unfold lower_ascii, nat_of. destruct (_ && _) eqn:E; [|done].
  apply andb_true_iff in E as [H1%Nat.leb_le H2%Nat.leb_le].
  rewrite <-H by done. by rewrite ascii_nat_embedding.
Qed.

Ltac by_letters :=
  intros n Hlo Hhi; do 65 (destruct n as [|n]; [lia|]);
  do 26 (destruct n as [|n]; [reflexivity|]); lia.

Lemma space1_lower c : space1 (lower_ascii c) = space1 c.
Proof. revert c. apply lower_ascii_keeps. by_letters. Qed.

(** Tests of a byte that letters never pass. *)
Lemma byte_lower m c : m < 65 ∨ 123 <= m → (nat_of (lower_ascii c) =? m) = (nat_of c =? m).
Proof.
  intros Hm. unfold lower_ascii. destruct (_ && _) eqn:E; [|done].
  apply andb_true_iff in E as [H1%Nat.leb_le H2%Nat.leb_le].
  unfold nat_of in *. rewrite nat_ascii_embedding by lia.
  destruct (Nat.eqb_spec (nat_of_ascii c + 32) m), (Nat.eqb_spec (nat_of_ascii c) m); lia || done.
Qed.

Lemma byte_range_lower lo hi c : 123 <= lo →
  ((lo <=? nat_of (lower_ascii c)) && (nat_of (lower_ascii c) <=? hi)) =
  ((lo <=? nat_of c) && (nat_of c <=? hi)).
Proof.
  intros Hm. unfold lower_ascii. destruct (_ && (nat_of c <=? 90)) eqn:E; [|done].
  apply andb_true_iff in E as [H1%Nat.leb_le H2%Nat.leb_le].
  unfold nat_of in *. rewrite nat_ascii_embedding by lia.
  rewrite (proj2 (Nat.leb_gt lo _)) by lia. rewrite (proj2 (Nat.leb_gt lo _)) by lia. done.
Qed.

Lemma space2_lower a b : space2 (lower_ascii a) (lower_ascii b) = space2 a b.
Proof. unfold space2. by rewrite !byte_lower by lia. Qed.

Lemma space3_lower a b c :
  space3 (lower_ascii a) (lower_ascii b) (lower_ascii c) = space3 a b c.
Proof. unfold space3. by rewrite !byte_lower, byte_range_lower by lia. Qed.

Lemma smap_app f s t : smap f (s +:+ t) = smap f s +:+ smap f t.
Proof. induction s as [|c s IH]; [done|]. unfold String.app in *. simpl. by f_equal. Qed.

Lemma smap_rev f s : smap f (String.rev s) = String.rev (smap f s).
Proof.
  induction s as [|c s IH]; [done|].
  unfold String.rev. simpl. rewrite !rev_app_spec, smap_app, IH. done.
Qed.

Lemma trim_with_smap f sp2 sp3 s :
  (∀ c, space1 (f c) = space1 c) → (∀ a b, sp2 (f a) (f b) = sp2 a b) →
  (∀ a b c, sp3 (f a) (f b) (f c) = sp3 a b c) →
  trim_with sp2 sp3 (smap f s) = smap f (trim_with sp2 sp3 s).
Proof.
  intros H1 H2 H3. remember (String.length s) as n eqn:Hn. revert s Hn.
  induction n as [n IH] using lt_wf_ind. intros s ->.
  destruct s as [|a s1]; [done|]. cbn [smap trim_with]. rewrite H1.
  destruct (space1 a); [eapply IH; [|done]; simpl; lia|].
  destruct s1 as [|b s2]; [done|]. cbn [smap]. rewrite H2.
  destruct (sp2 a b); [eapply IH; [|done]; simpl; lia|].
  destruct s2 as [|c s3]; [done|]. cbn [smap]. rewrite H3.
  destruct (sp3 a b c); [eapply IH; [|done]; simpl; lia|done].
Qed.

Lemma TrimSpace_lower s : TrimSpace (smap lower_ascii s) = smap lower_ascii (TrimSpace s).
Proof.
  unfold TrimSpace, trim_left, trim_right.
  rewrite trim_with_smap by (intros; first [apply space1_lower | apply space2_lower | apply space3_lower]).
  rewrite <-smap_rev, trim_with_smap by (intros; first [apply space1_lower | apply space2_lower | apply space3_lower]).
  by rewrite smap_rev.
Qed.

#[export] Instance ascii_unicode_laws : @UnicodeLaws ascii_unicode.
Proof.
  assert (∀ s, @ToLower ascii_unicode s = smap lower_ascii s) as E
    by (intros s; unfold ToLower; by destruct (is_ascii s)).
  constructor; intros s; rewrite !E.
  - induction s as [|c s IH]; [done|]. simpl. rewrite IH. f_equal.
    destruct c as [[] [] [] [] [] [] [] []]; reflexivity.
  - by rewrite TrimSpace_lower.
  - by destruct s.
Qed.
