(* ===== verification/GoText.v ===== *)
(** * Go strings as text: UTF-8, searching, numbers

    What the packages above the store use of Go's [unicode/utf8], [strings] and
    [strconv] beyond [GoStr]. *)
From S2P Require Import Prelude GoStr.
From stdpp Require Import pretty.

(** ** UTF-8 *)

Definition between (lo hi : nat) (c : ascii) : bool := (lo <=? nat_of c) && (nat_of c <=? hi).
Definition continuation (c : ascii) : bool := between 128 191 c.

(** The well-formed sequences of two, three and four bytes of UTF-8. *)
Definition rune2 (a b : ascii) : bool := between 194 223 a && continuation b.
Definition rune3 (a b c : ascii) : bool :=
  (if nat_of a =? 224 then between 160 191 b
   else if nat_of a =? 237 then between 128 159 b
   else between 225 239 a && continuation b) && continuation c.
Definition rune4 (a b c d : ascii) : bool :=
  (if nat_of a =? 240 then between 144 191 b
   else if nat_of a =? 244 then between 128 143 b
   else between 241 243 a && continuation b) && continuation c && continuation d.

(** The encoding of U+FFFD, which stands for a byte that starts no rune. *)
Definition rune_error : string :=
  String (Ascii.ascii_of_nat 239) (String (Ascii.ascii_of_nat 191) (String (Ascii.ascii_of_nat 189) "")).

(** [[]rune(s)], each rune as the bytes [string] gives it back as. *)
Fixpoint runes (s : string) : list string :=
  match s with
  | EmptyString => []
  | String a s1 =>
      if nat_of a <? 128 then String a "" :: runes s1
      else match s1 with
      | EmptyString => [rune_error]
      | String b s2 =>
          if rune2 a b then String a (String b "") :: runes s2
          else match s2 with
          | EmptyString => rune_error :: runes s1
          | String c s3 =>
              if rune3 a b c then String a (String b (String c "")) :: runes s3
              else match s3 with
              | EmptyString => rune_error :: runes s1
              | String d s4 =>
                  if rune4 a b c d then String a (String b (String c (String d ""))) :: runes s4
                  else rune_error :: runes s1
              end
          end
      end
  end.

(** [utf8.DecodeRune] of a non-empty string: the first rune, as its bytes, and how many
    bytes it takes; [rune_error] with one byte when no rune starts there. *)
Definition DecodeRune (s : string) : string * nat :=
  match s with
  | EmptyString => (rune_error, 0)
  | String a s1 =>
      if nat_of a <? 128 then (String a "", 1)
      else match s1 with
      | EmptyString => (rune_error, 1)
      | String b s2 =>
          if rune2 a b then (String a (String b ""), 2)
          else match s2 with
          | EmptyString => (rune_error, 1)
          | String c s3 =>
              if rune3 a b c then (String a (String b (String c "")), 3)
              else match s3 with
              | EmptyString => (rune_error, 1)
              | String d _ =>
                  if rune4 a b c d then (String a (String b (String c (String d ""))), 4)
                  else (rune_error, 1)
              end
          end
      end
  end.

(** [utf8.RuneStart]. *)
Definition RuneStart (c : ascii) : bool := negb (between 128 191 c).

Definition byte (n : Z) : ascii := Ascii.ascii_of_N (Z.to_N n).

(** [utf8.AppendRune]: surrogates and values above U+10FFFF become U+FFFD. *)
Definition EncodeRune (r : Z) : string :=
  if (r <? 0)%Z || (1114111 <? r)%Z || ((55296 <=? r)%Z && (r <=? 57343)%Z) then rune_error
  else if (r <? 128)%Z then String (byte r) ""
  else if (r <? 2048)%Z then
    String (byte (192 + r / 64)) (String (byte (128 + r mod 64)) "")
  else if (r <? 65536)%Z then
    String (byte (224 + r / 4096)) (String (byte (128 + r / 64 mod 64)) (String (byte (128 + r mod 64)) ""))
  else
    String (byte (240 + r / 262144)) (String (byte (128 + r / 4096 mod 64))
      (String (byte (128 + r / 64 mod 64)) (String (byte (128 + r mod 64)) ""))).

Example encode_euro : runes (EncodeRune 8364) = [EncodeRune 8364]. Proof. reflexivity. Qed.
Example encode_clef : runes (EncodeRune 119070) = [EncodeRune 119070]. Proof. reflexivity. Qed.

(** ** Searching *)

(** [strings.Index]: the first occurrence of [sub]. *)
Fixpoint Index (s sub : string) : option nat :=
  if HasPrefix s sub then Some 0
  else match s with
       | EmptyString => None
       | String _ s => option_map S (Index s sub)
       end.

(** [strings.LastIndex] of one byte. *)
Fixpoint LastIndexByte (s : string) (b : ascii) : option nat :=
  match s with
  | EmptyString => None
  | String c s =>
      match LastIndexByte s b with
      | Some i => Some (S i)
      | None => if Ascii.eqb c b then Some 0 else None
      end
  end.

(** [strings.ReplaceAll] of a non-empty [old]; every round consumes a byte. *)
Fixpoint replace_all (fuel : nat) (s old new : string) : string :=
  match fuel with
  | 0 => s
  | S fuel =>
      match s with
      | EmptyString => EmptyString
      | String c s' =>
          if HasPrefix s old then new +:+ replace_all fuel (sdrop (String.length old) s) old new
          else String c (replace_all fuel s' old new)
      end
  end.

Definition ReplaceAll (s old new : string) : string := replace_all (String.length s) s old new.

(** [strings.TrimRight] of one byte. *)
Fixpoint trim_left_byte (b : ascii) (s : string) : string :=
  match s with
  | EmptyString => EmptyString
  | String c s' => if Ascii.eqb c b then trim_left_byte b s' else s
  end.

Definition TrimRightByte (b : ascii) (s : string) : string :=
  String.rev (trim_left_byte b (String.rev s)).

Definition HasSuffix (s suffix : string) : bool := HasPrefix (String.rev s) (String.rev suffix).

(** [strings.ContainsAny], the bytes as their codes. *)
Fixpoint contains_any (s : string) (chars : list nat) : bool :=
  match s with
  | EmptyString => false
  | String c s => existsb (λ n, nat_of c =? n) chars || contains_any s chars
  end.

(** [strings.Split] around a one-byte separator. *)
Fixpoint Split (s : string) (sep : ascii) : list string :=
  match s with
  | EmptyString => [EmptyString]
  | String c s =>
      if Ascii.eqb c sep then EmptyString :: Split s sep
      else match Split s sep with
           | [] => [String c EmptyString]
           | x :: l => String c x :: l
           end
  end.

(** Case folding of the runes that fold to an ASCII one: letters, U+017F and U+212A. *)
Definition upper_ascii (c : ascii) : ascii :=
  if between 97 122 c then Ascii.ascii_of_nat (nat_of c - 32) else c.

Fixpoint fold_name (s : string) : string :=
  match s with
  | EmptyString => EmptyString
  | String a s1 =>
      match s1 with
      | String b s2 =>
          if (nat_of a =? 197) && (nat_of b =? 191) then String "S" (fold_name s2)
          else match s2 with
          | String c s3 =>
              if (nat_of a =? 226) && (nat_of b =? 132) && (nat_of c =? 170) then String "K" (fold_name s3)
              else String (upper_ascii a) (fold_name s1)
          | EmptyString => String (upper_ascii a) (fold_name s1)
          end
      | EmptyString => String (upper_ascii a) (fold_name s1)
      end
  end.

(** [strings.EqualFold] against an ASCII string. *)
Definition EqualFold (s t : string) : bool := String.eqb (fold_name s) (fold_name t).

Example index_ex : Index "a@_user_1" "@_user_" = Some 1. Proof. reflexivity. Qed.
Example split_ex : Split "dm, group" ","%char = ["dm"; " group"]. Proof. reflexivity. Qed.
Example replace_ex : ReplaceAll "a@x b@x" "@x" "" = "a b". Proof. reflexivity. Qed.

(** ** Numbers *)

(** [strconv.FormatInt(value, 10)]. *)
Definition FormatInt (z : Z) : string := pretty z.

Definition decimal_digit (c : ascii) : option Z :=
  if between 48 57 c then Some (Z.of_nat (nat_of c) - 48)%Z else None.

Fixpoint decimal (acc : Z) (s : string) : option Z :=
  match s with
  | EmptyString => Some acc
  | String c s =>
      match decimal_digit c with
      | Some d => decimal (acc * 10 + d)%Z s
      | None => None
      end
  end.

(** [strconv.ParseInt(value, 10, 64)]; [None] is any of its errors. *)
Definition ParseInt (s : string) : option Z :=
  let number (neg : bool) (digits : string) :=
    match digits with
    | EmptyString => None
    | _ =>
        match decimal 0 digits with
        | None => None
        | Some n =>
            let z := if neg then (- n)%Z else n in
            if (- 2 ^ 63 <=? z)%Z && (z <? 2 ^ 63)%Z then Some z else None
        end
    end in
  match s with
  | String c digits =>
      if Ascii.eqb c "-" then number true digits
      else if Ascii.eqb c "+" then number false digits
      else number false s
  | EmptyString => None
  end.

Example parse_ex : ParseInt "-12" = Some (-12)%Z. Proof. reflexivity. Qed.
Example parse_over : ParseInt "9223372036854775808" = None. Proof. reflexivity. Qed.
Example format_ex : FormatInt (-120) = "-120". Proof. reflexivity. Qed.

(** ** Keys made of two parts

    The first colon of [m:k] separates the parts when [m] has none. *)

Fixpoint no_colon (s : string) : bool :=
  match s with
  | EmptyString => true
  | String c s => negb (Ascii.eqb c ":") && no_colon s
  end.

Lemma colon_split m k m' k' :
  no_colon m = true → no_colon m' = true → m +:+ ":" +:+ k = m' +:+ ":" +:+ k' → m = m' ∧ k = k'.
Proof.
  revert m'. induction m as [|c m IH]; intros [|c' m'] H H' E; cbn in *; try done.
  - by injection E.
  - injection E as <- E. by destruct m'.
  - injection E as -> E. by destruct m.
  - injection E as -> E. apply andb_true_iff in H as [_ H], H' as [_ H'].
    by destruct (IH m' H H' E) as [-> ->].
Qed.

(** ** Searching *)

Lemma HasPrefix_app s t sub : HasPrefix s sub = true → HasPrefix (s +:+ t) sub = true.
Proof.
  unfold HasPrefix. revert sub. induction s as [|c s IH]; intros [|d sub]; cbn; try done; [by destruct t|].
  destruct (ascii_dec d c) as [->|]; [|done]. intros H. change (String.prefix (String c sub) (String c (s +:+ t)) = true).
  cbn. destruct (ascii_dec c c); [by apply IH|done].
Qed.

Lemma HasPrefix_length s sub : HasPrefix s sub = true → String.length sub ≤ String.length s.
Proof.
  unfold HasPrefix. revert sub. induction s as [|c s IH]; intros [|d sub]; cbn; try done; [lia|].
  destruct (ascii_dec d c); [intros H%IH; lia|done].
Qed.

Lemma Index_app_l s t sub : Index (s +:+ t) sub = None → Index s sub = None.
Proof.
  induction s as [|c s IH].
  - cbn [Index]. destruct (HasPrefix "" sub) eqn:E; [|done]. apply (HasPrefix_app _ t) in E.
    change ("" +:+ t) with t in *. by destruct t; cbn [Index]; rewrite E.
  - pose proof (HasPrefix_app (String c s) t sub) as Hp.
    change (String c s +:+ t) with (String c (s +:+ t)) in *. cbn [Index].
    destruct (HasPrefix (String c s) sub); [by rewrite Hp|].
    destruct (HasPrefix (String c (s +:+ t)) sub); [done|]. intros H.
    destruct (Index (s +:+ t) sub); [done|]. by rewrite IH.
Qed.

Lemma Index_app_r s t sub : Index (s +:+ t) sub = None → Index t sub = None.
Proof.
  induction s as [|c s IH]; [done|]. change (String c s +:+ t) with (String c (s +:+ t)). cbn [Index].
  destruct (HasPrefix _ sub); [done|]. intros H. apply IH. by destruct (Index (s +:+ t) sub).
Qed.

Lemma Index_TrimSpace s sub : Index s sub = None → Index (TrimSpace s) sub = None.
Proof.
  intros H. unfold TrimSpace. destruct (trim_with_suffix space2 space3 s) as [w Hw].
  change (s = w +:+ trim_left s) in Hw. rewrite Hw in H. apply Index_app_r in H.
  destruct (trim_right_prefix (trim_left s)) as [v Hv]. rewrite Hv in H. by apply Index_app_l in H.
Qed.

Lemma Index_bound s sub n : Index s sub = Some n → n + String.length sub ≤ String.length s.
Proof.
  revert n. induction s as [|c s IH]; intros n; cbn [Index].
  - destruct (HasPrefix "" sub) eqn:E; [|done]. intros [= <-]. by apply HasPrefix_length in E.
  - destruct (HasPrefix (String c s) sub) eqn:E; [intros [= <-]; by apply HasPrefix_length in E|].
    destruct (Index s sub) as [m|]; [|done]. intros [= <-]. specialize (IH m eq_refl). cbn. lia.
Qed.

Lemma slength_stake n s : n ≤ String.length s → String.length (stake n s) = n.
Proof.
  unfold stake. revert s. induction n as [|n IH]; intros [|c s] H; cbn in *; try lia.
  rewrite IH; [done|lia].
Qed.

Lemma slength_sdrop n s : String.length (sdrop n s) = String.length s - n.
Proof.
  assert (∀ t m, m ≤ String.length t → String.length (String.substring 0 m t) = m) as T
    by (intros t m Hm; exact (slength_stake m t Hm)).
  unfold sdrop. revert s. induction n as [|n IH]; intros s.
  - rewrite T; lia.
  - destruct s as [|c s]; [done|]. cbn [String.length Nat.sub]. cbn [String.substring]. apply IH.
Qed.

(** ** Digests *)

(** [hex.EncodeToString] of [sha256.Sum256]. *)
Class Sha256 := { Sum256_hex : string → string }.

(** ** Slash-separated paths ([path/filepath] on Unix) *)

(** The components that [Clean] keeps, last first. *)
Definition clean_component (rooted : bool) (kept : list string) (c : string) : list string :=
  if (String.eqb c "") || String.eqb c "." then kept
  else if String.eqb c ".." then
    match kept with
    | [] => if rooted then [] else [".."]
    | last :: rest => if String.eqb last ".." then ".." :: kept else rest
    end
  else c :: kept.

Definition path_Clean (path : string) : string :=
  let rooted := HasPrefix path "/" in
  let kept := rev (fold_left (clean_component rooted) (Split path "/") []) in
  let joined := GoStr.Join kept "/" in
  if rooted then "/" +:+ joined else if String.eqb joined "" then "." else joined.

Definition path_Join (elements : list string) : string :=
  match bfilter (λ e, negb (String.eqb e "")) elements with
  | [] => ""
  | elements => path_Clean (GoStr.Join elements "/")
  end.

Example clean_paths :
  path_Clean <$> ["a//b/./c/.."; "/../x/"; "../../a/.."; ""; "/"] = ["a/b"; "/x"; "../.."; "."; "/"].
Proof. reflexivity. Qed.
