(* ===== verification/Sql.v ===== *)
(** * The SQL engine behind the store

    [internal/storage] talks to a SQL database through the generated ent client.
    The database is not part of the program: it is the parameter [SqlEngine], a
    family of tables with the four statements the store issues, and [SqlLaws]
    states what the store relies on (unique indexes are enforced, a [SELECT]
    returns exactly the matching rows in an order its [ORDER BY] allows, [UPDATE]
    and [DELETE] touch exactly the matching rows).  [list_engine] is a concrete
    engine that satisfies the laws; the witnesses run the store on it. *)
From S2P Require Import Prelude.

(** ** Errors *)

(** The errors the store returns: its own sentinels ([internal/storage/models.go]
    and [decisions.go]), ent's error classes, driver failures, and errors that
    only carry a text. *)
Inductive error :=
| ErrConflict
| ErrInProgress
| ErrInvalidState
| ErrNotFound
| ErrInvalid
| EntConstraint
| EntNotFound
| EntNotSingular
| EntValidation
| ErrDriver
| ErrText (message : string).

#[export] Instance error_eq_dec : EqDecision error.
Proof. solve_decision. Defined.

(** ** Rows and orders *)

(** What a schema declares of a row: its primary key, the pairs of rows its other
    unique indexes reject, and the field validators ent runs before an insert. *)
Class Entity (R : Type) := {
  entID : R → string;
  uniq_index : R → R → bool;
  validators : R → bool
}.

(** A new row that the primary key or a unique index rejects beside [r]. *)
Definition clash `{Entity R} (r r' : R) : bool :=
  String.eqb (entID r) (entID r') || uniq_index r r'.

Definition has_clash `{Entity R} (r : R) (l : list R) : bool := existsb (clash r) l.

Fixpoint unique_rows `{Entity R} (l : list R) : bool :=
  match l with
  | [] => true
  | r :: l => negb (has_clash r l) && unique_rows l
  end.

(** One [ORDER BY] term. *)
Inductive order_term (R : Type) :=
| AscZ (f : R → Z)
| DescZ (f : R → Z)
| AscS (f : R → string)
| DescS (f : R → string).
Arguments AscZ {R} f.
Arguments DescZ {R} f.
Arguments AscS {R} f.
Arguments DescS {R} f.

(** [UPDATE ... SET ... WHERE p]. *)
Definition update_rows {R} (p : R → bool) (f : R → R) (l : list R) : list R :=
  map (λ r, if p r then f r else r) l.

(** ** The engine *)

Class SqlEngine := {
  tbl : Type → Type;
  tbl_rows : ∀ {R}, tbl R → list R;
  collate : string → string → bool;
  sql_insert : ∀ {R} `{Entity R}, R → tbl R → error + tbl R;
  sql_select : ∀ {R} `{Entity R}, (R → bool) → list (order_term R) → nat → option nat →
    tbl R → error + list R;
  sql_update : ∀ {R} `{Entity R}, (R → bool) → (R → R) → tbl R → error + (nat * tbl R);
  sql_delete : ∀ {R} `{Entity R}, (R → bool) → tbl R → error + (nat * tbl R)
}.

(** Strictly before, by one term. *)
Definition term_lt (coll : string → string → bool) {R} (t : order_term R) (a b : R) : bool :=
  match t with
  | AscZ f => (f a <? f b)%Z
  | DescZ f => (f b <? f a)%Z
  | AscS f => negb (coll (f b) (f a))
  | DescS f => negb (coll (f a) (f b))
  end.

(** Not after, by the terms in turn. *)
Fixpoint order_le (coll : string → string → bool) {R} (ts : list (order_term R)) (a b : R) : bool :=
  match ts with
  | [] => true
  | t :: ts =>
      if term_lt coll t a b then true
      else if term_lt coll t b a then false
      else order_le coll ts a b
  end.

Definition sorted_by (coll : string → string → bool) {R} (ts : list (order_term R)) : list R → Prop :=
  StronglySorted (λ a b, order_le coll ts a b = true).

(** What the store relies on. *)
Class SqlLaws `{SqlEngine} : Prop := {
  collate_total : ∀ a b, collate a b = true ∨ collate b a = true;
  collate_trans : ∀ a b c, collate a b = true → collate b c = true → collate a c = true;
  collate_antisym : ∀ a b, collate a b = true → collate b a = true → a = b;
  insert_law : ∀ R `{Entity R} (r : R) t,
    match sql_insert r t with
    | inl e => e = EntConstraint ∧ has_clash r (tbl_rows t) = true
    | inr t' => has_clash r (tbl_rows t) = false ∧ tbl_rows t' = tbl_rows t ++ [r]
    end;
  select_law : ∀ R `{Entity R} (p : R → bool) ts off lim t,
    ∃ l, l ≡ₚ bfilter p (tbl_rows t) ∧ sorted_by collate ts l ∧
         sql_select p ts off lim t = inr (window off lim l);
  update_law : ∀ R `{Entity R} (p : R → bool) (f : R → R) t,
    let l := update_rows p f (tbl_rows t) in
    match sql_update p f t with
    | inl e => e = EntConstraint ∧ unique_rows l = false
    | inr (n, t') => n = length (bfilter p (tbl_rows t)) ∧ tbl_rows t' = l ∧
                     (unique_rows (tbl_rows t) = true → unique_rows l = true)
    end;
  delete_law : ∀ R `{Entity R} (p : R → bool) t,
    ∃ t', sql_delete p t = inr (length (bfilter p (tbl_rows t)), t') ∧
          tbl_rows t' = bfilter (λ r, negb (p r)) (tbl_rows t)
}.

(** ** A concrete engine: a table is the list of its rows *)

(** Byte order on strings. *)
Fixpoint byte_le (a b : string) : bool :=
  match a, b with
  | EmptyString, _ => true
  | String _ _, EmptyString => false
  | String x a, String y b =>
      let n := Ascii.nat_of_ascii x in let m := Ascii.nat_of_ascii y in
      if n <? m then true else if m <? n then false else byte_le a b
  end.

Fixpoint insert_sorted {R} (le : R → R → bool) (x : R) (l : list R) : list R :=
  match l with
  | [] => [x]
  | y :: l' => if le x y then x :: l else y :: insert_sorted le x l'
  end.

Fixpoint isort {R} (le : R → R → bool) (l : list R) : list R :=
  match l with
  | [] => []
  | x :: l => insert_sorted le x (isort le l)
  end.

Definition list_engine : SqlEngine := {|
  tbl := list;
  tbl_rows R t := t;
  collate := byte_le;
  sql_insert R _ r t := if has_clash r t then inl EntConstraint else inr (t ++ [r]);
  sql_select R _ p ts off lim t := inr (window off lim (isort (order_le byte_le ts) (bfilter p t)));
  sql_update R _ p f t :=
    let t' := update_rows p f t in
    if unique_rows t' then inr (length (bfilter p t), t') else inl EntConstraint;
  sql_delete R _ p t := inr (length (bfilter p t), bfilter (λ r, negb (p r)) t)
|}.

(** ** Facts about orders *)

Section order.
Context (coll : string → string → bool).
Context (coll_total : ∀ a b, coll a b = true ∨ coll b a = true).
Context (coll_trans : ∀ a b c, coll a b = true → coll b c = true → coll a c = true).
Context {R : Type}.
Implicit Types (t : order_term R) (a b c : R).

Lemma term_lt_asym t a b : term_lt coll t a b = true → term_lt coll t b a = false.
Proof.
  destruct t as [f|f|f|f]; simpl.
  - intros ?%Z.ltb_lt. apply Z.ltb_ge. lia.
  - intros ?%Z.ltb_lt. apply Z.ltb_ge. lia.
  - destruct (coll_total (f a) (f b)) as [->| ->]; [done|simpl; congruence].
  - destruct (coll_total (f a) (f b)) as [->| ->]; [simpl; congruence|done].
Qed.

(** "Not after" by one term is transitive. *)
Lemma term_le_trans t a b c :
  term_lt coll t b a = false → term_lt coll t c b = false → term_lt coll t c a = false.
Proof.
  destruct t as [f|f|f|f]; simpl; rewrite ?Z.ltb_ge, ?negb_false_iff; try lia; eauto.
Qed.

Lemma order_le_total ts a b : order_le coll ts a b = true ∨ order_le coll ts b a = true.
Proof.
  induction ts as [|t ts IH]; simpl; [by left|].
  destruct (term_lt coll t a b) eqn:E1; [by left|].
  destruct (term_lt coll t b a) eqn:E2; [by right|]. done.
Qed.

Lemma order_le_refl ts a : order_le coll ts a a = true.
Proof. by destruct (order_le_total ts a a). Qed.

Lemma order_le_trans ts a b c :
  order_le coll ts a b = true → order_le coll ts b c = true → order_le coll ts a c = true.
Proof.
  induction ts as [|t ts IH]; simpl; [done|].
  destruct (term_lt coll t a b) eqn:E1.
  - intros _. destruct (term_lt coll t b c) eqn:E2; intros H2.
    + destruct (term_lt coll t a c) eqn:E3; [done|].
      rewrite (term_le_trans t c a b) in E2; [done|done|]. by apply term_lt_asym.
    + destruct (term_lt coll t c b) eqn:E4; [done|].
      destruct (term_lt coll t a c) eqn:E3; [done|].
      by rewrite (term_le_trans t b c a) in E1.
  - destruct (term_lt coll t b a) eqn:E1'; [done|]. intros H1.
    destruct (term_lt coll t b c) eqn:E2; intros H2.
    + destruct (term_lt coll t a c) eqn:E3; [done|].
      by rewrite (term_le_trans t c a b) in E2.
    + destruct (term_lt coll t c b) eqn:E2'; [done|].
      rewrite (term_le_trans t c b a), (term_le_trans t a b c) by done. eauto.
Qed.

(** Two rows neither of which is before the other agree on every term. *)
Lemma order_le_antisym ts a b :
  (∀ x y, coll x y = true → coll y x = true → x = y) →
  order_le coll ts a b = true → order_le coll ts b a = true →
  Forall (λ t, match t with
               | AscZ f | DescZ f => f a = f b
               | AscS f | DescS f => f a = f b
               end) ts.
Proof.
  intros Hanti. induction ts as [|t ts IH]; simpl; [constructor|].
  destruct (term_lt coll t a b) eqn:E1.
  { rewrite (term_lt_asym _ _ _ E1). done. }
  destruct (term_lt coll t b a) eqn:E2; [done|]. intros H1 H2. constructor; [|auto].
  destruct t as [f|f|f|f]; simpl in E1, E2;
    rewrite ?Z.ltb_ge, ?negb_false_iff in E1, E2; first [lia|by apply Hanti].
Qed.

End order.

(** Rows in an order that tells them apart can only be listed in one way. *)
Lemma sorted_by_unique `{SqlLaws} {R} (ts : list (order_term R)) l1 l2 :
  (∀ a b, a ∈ l1 → b ∈ l1 → order_le collate ts a b = true → order_le collate ts b a = true → a = b) →
  l1 ≡ₚ l2 → sorted_by collate ts l1 → sorted_by collate ts l2 → l1 = l2.
Proof.
  intros Ha Hp H1 H2. eapply StronglySorted_unique_strong; [|exact H1|exact H2|exact Hp].
  intros a b Hin1 Hin2. apply Ha; [done|]. by rewrite Hp.
Qed.

Section isort.
Context {R : Type} (le : R → R → bool).

Lemma insert_sorted_perm x l : insert_sorted le x l ≡ₚ x :: l.
Proof.
  induction l as [|y l IH]; simpl; [done|]. destruct (le x y); [done|].
  rewrite IH. by constructor.
Qed.

Lemma isort_perm l : isort le l ≡ₚ l.
Proof. induction l as [|x l IH]; simpl; [done|]. by rewrite insert_sorted_perm, IH. Qed.

Context (le_total : ∀ a b, le a b = true ∨ le b a = true).
Context (le_trans : ∀ a b c, le a b = true → le b c = true → le a c = true).

Lemma insert_sorted_ok x l :
  StronglySorted (λ a b, le a b = true) l → StronglySorted (λ a b, le a b = true) (insert_sorted le x l).
Proof.
  induction 1 as [|y l Hl IH Hy]; simpl; [by repeat constructor|].
  destruct (le x y) eqn:E.
  - constructor; [by constructor|]. constructor; [done|].
    eapply Forall_impl; [exact Hy|]. eauto.
  - constructor; [done|]. rewrite insert_sorted_perm. constructor; [|done].
    destruct (le_total x y); congruence.
Qed.

Lemma isort_ok l : StronglySorted (λ a b, le a b = true) (isort le l).
Proof. induction l as [|x l IH]; simpl; [constructor|]. by apply insert_sorted_ok. Qed.

End isort.

Lemma byte_le_total a b : byte_le a b = true ∨ byte_le b a = true.
Proof.
  revert b. induction a as [|x a IH]; intros [|y b]; simpl; auto.
  destruct (Nat.ltb_spec (Ascii.nat_of_ascii x) (Ascii.nat_of_ascii y)); [by left|].
  destruct (Nat.ltb_spec (Ascii.nat_of_ascii y) (Ascii.nat_of_ascii x)); [by right|]. done.
Qed.

Lemma byte_le_trans a b c : byte_le a b = true → byte_le b c = true → byte_le a c = true.
Proof.
  revert b c. induction a as [|x a IH]; intros [|y b] [|z c]; simpl; try done.
  repeat case_match; try done; repeat match goal with
  | H : (_ <? _) = true |- _ => apply Nat.ltb_lt in H
  | H : (_ <? _) = false |- _ => apply Nat.ltb_ge in H end; try lia; eauto.
Qed.

Lemma nat_of_ascii_inj x y : Ascii.nat_of_ascii x = Ascii.nat_of_ascii y → x = y.
Proof. intros H. rewrite <-(Ascii.ascii_nat_embedding x), H. apply Ascii.ascii_nat_embedding. Qed.

Lemma byte_le_antisym a b : byte_le a b = true → byte_le b a = true → a = b.
Proof.
  revert b. induction a as [|x a IH]; intros [|y b]; simpl; try done.
  destruct (Nat.ltb_spec (Ascii.nat_of_ascii x) (Ascii.nat_of_ascii y)).
  - destruct (Nat.ltb_spec (Ascii.nat_of_ascii y) (Ascii.nat_of_ascii x)); [lia|done].
  - destruct (Nat.ltb_spec (Ascii.nat_of_ascii y) (Ascii.nat_of_ascii x)); [done|].
    intros. f_equal; [|by apply IH]. apply nat_of_ascii_inj. lia.
Qed.

#[export] Instance list_engine_laws : @SqlLaws list_engine.
Proof.
  constructor; simpl.
  - apply byte_le_total.
  - apply byte_le_trans.
  - apply byte_le_antisym.
  - intros R ? r t. by destruct (has_clash r t) eqn:E.
  - intros R ? p ts off lim t. eexists. split; [|split; [|done]].
    + apply isort_perm.
    + apply isort_ok.
      * intros. apply order_le_total.
      * intros ???. apply order_le_trans; [apply byte_le_total|apply byte_le_trans].
  - intros R ? p f t. by destruct (unique_rows _) eqn:E.
  - intros R ? p t. by eexists.
Qed.
