(* ===== verification/Json.v ===== *)
(** * JSON documents

    Go's [encoding/json] scanner as a pushdown automaton, one byte at a time, and
    [json.Compact] and [json.Valid] on top of it, the way the store uses them:
    [normalizeJSONDocument], [normalizeOptionalJSON] and [compactJSON] of
    [internal/storage/store.go].  The nesting limit of the scanner is the standard
    library's. *)
From S2P Require Import Prelude GoStr Sql.

(** What the scanner is inside of. *)
Inductive parse_state := parseObjectKey | parseObjectValue | parseArrayValue.

(** The scanner's [step] function. *)
Inductive jstate :=
| BeginValueOrEmpty | BeginValue | BeginStringOrEmpty | BeginString | EndValue | EndTop
| InString | InStringEsc | InStringEscU (togo : nat)
| Neg | Digits1 | Digits0 | Dot | Dot0 | ExpE | ESign | E0
| T | Tr | Tru | F | Fa | Fal | Fals | Nn | Nu | Nul.

Record scanner := mkScanner { stp : jstate; parseState : list parse_state }.

Definition maxNestingDepth : Z := 10000.

(** [isSpace]. *)
Definition jspace (c : ascii) : bool :=
  let n := nat_of c in (n =? 32) || (n =? 9) || (n =? 13) || (n =? 10).

Definition ch (c : ascii) (n : nat) : bool := nat_of c =? n.
Definition digit (c : ascii) : bool := (48 <=? nat_of c) && (nat_of c <=? 57).
Definition hex (c : ascii) : bool :=
  digit c || ((97 <=? nat_of c) && (nat_of c <=? 102)) || ((65 <=? nat_of c) && (nat_of c <=? 70)).

(** The outcome of a byte: an error, or the scanner after it and whether [Compact]
    keeps the byte ([false] for [scanSkipSpace] and [scanEnd]). *)
Definition outcome : Type := option (scanner * bool).

Definition keep (st : jstate) (ps : list parse_state) : outcome := Some (mkScanner st ps, true).
Definition skip (st : jstate) (ps : list parse_state) : outcome := Some (mkScanner st ps, false).

Definition stateEndTop (ps : list parse_state) (c : ascii) : outcome :=
  if jspace c then skip EndTop ps else None.

Definition popParseState (ps : list parse_state) : outcome :=
  match ps with
  | [] => None
  | _ :: [] => keep EndTop []
  | _ :: ps => keep EndValue ps
  end.

Definition pushParseState (new : parse_state) (st : jstate) (ps : list parse_state) : outcome :=
  if (Z.of_nat (length (new :: ps)) <=? maxNestingDepth)%Z then keep st (new :: ps) else None.

Definition stateEndValue (ps : list parse_state) (c : ascii) : outcome :=
  match ps with
  | [] => stateEndTop [] c
  | p :: rest =>
      if jspace c then skip EndValue ps
      else match p with
      | parseObjectKey => if ch c 58 then keep BeginValue (parseObjectValue :: rest) else None
      | parseObjectValue =>
          if ch c 44 then keep BeginString (parseObjectKey :: rest)
          else if ch c 125 then popParseState ps else None
      | parseArrayValue =>
          if ch c 44 then keep BeginValue ps
          else if ch c 93 then popParseState ps else None
      end
  end.

Definition stateBeginString (st : jstate) (ps : list parse_state) (c : ascii) : outcome :=
  if jspace c then skip st ps
  else if ch c 34 then keep InString ps else None.

Definition stateBeginValue (st : jstate) (ps : list parse_state) (c : ascii) : outcome :=
  if jspace c then skip st ps
  else if ch c 123 then pushParseState parseObjectKey BeginStringOrEmpty ps
  else if ch c 91 then pushParseState parseArrayValue BeginValueOrEmpty ps
  else if ch c 34 then keep InString ps
  else if ch c 45 then keep Neg ps
  else if ch c 48 then keep Digits0 ps
  else if ch c 116 then keep T ps
  else if ch c 102 then keep F ps
  else if ch c 110 then keep Nn ps
  else if digit c then keep Digits1 ps
  else None.

Definition state0 (ps : list parse_state) (c : ascii) : outcome :=
  if ch c 46 then keep Dot ps
  else if ch c 101 || ch c 69 then keep ExpE ps
  else stateEndValue ps c.

Definition stateESign (ps : list parse_state) (c : ascii) : outcome :=
  if digit c then keep E0 ps else None.

(** [s.step(s, c)]. *)
Definition jstep (s : scanner) (c : ascii) : outcome :=
  let ps := parseState s in
  match stp s with
  | BeginValueOrEmpty =>
      if jspace c then skip BeginValueOrEmpty ps
      else if ch c 93 then stateEndValue ps c else stateBeginValue BeginValueOrEmpty ps c
  | BeginValue => stateBeginValue BeginValue ps c
  | BeginStringOrEmpty =>
      if jspace c then skip BeginStringOrEmpty ps
      else if ch c 125 then
        match ps with
        | _ :: rest => stateEndValue (parseObjectValue :: rest) c
        | [] => None
        end
      else stateBeginString BeginStringOrEmpty ps c
  | BeginString => stateBeginString BeginString ps c
  | EndValue => stateEndValue ps c
  | EndTop => stateEndTop ps c
  | InString =>
      if ch c 34 then keep EndValue ps
      else if ch c 92 then keep InStringEsc ps
      else if nat_of c <? 32 then None else keep InString ps
  | InStringEsc =>
      if existsb (ch c) [98; 102; 110; 114; 116; 92; 47; 34] then keep InString ps
      else if ch c 117 then keep (InStringEscU 3) ps else None
  | InStringEscU togo =>
      if hex c then keep (match togo with 0 => InString | S n => InStringEscU n end) ps else None
  | Neg => if ch c 48 then keep Digits0 ps else if digit c then keep Digits1 ps else None
  | Digits1 => if digit c then keep Digits1 ps else state0 ps c
  | Digits0 => state0 ps c
  | Dot => if digit c then keep Dot0 ps else None
  | Dot0 => if digit c then keep Dot0 ps
            else if ch c 101 || ch c 69 then keep ExpE ps else stateEndValue ps c
  | ExpE => if ch c 43 || ch c 45 then keep ESign ps else stateESign ps c
  | ESign => stateESign ps c
  | E0 => if digit c then keep E0 ps else stateEndValue ps c
  | T => if ch c 114 then keep Tr ps else None
  | Tr => if ch c 117 then keep Tru ps else None
  | Tru => if ch c 101 then keep EndValue ps else None
  | F => if ch c 97 then keep Fa ps else None
  | Fa => if ch c 108 then keep Fal ps else None
  | Fal => if ch c 115 then keep Fals ps else None
  | Fals => if ch c 101 then keep EndValue ps else None
  | Nn => if ch c 117 then keep Nu ps else None
  | Nu => if ch c 108 then keep Nul ps else None
  | Nul => if ch c 108 then keep EndValue ps else None
  end.

(** [scan.reset()]. *)
Definition jstart : scanner := mkScanner BeginValue [].

(** [scan.eof()] succeeds: the document is complete, or a space would complete it. *)
Definition jeof (s : scanner) : bool :=
  match stp s with
  | EndTop => true
  | _ => match jstep s (ascii_of_nat 32) with
         | Some (s', _) => match stp s' with EndTop => true | _ => false end
         | None => false
         end
  end.

(** The loop of [compact]. *)
Fixpoint compact_from (s : scanner) (src : string) : option string :=
  match src with
  | EmptyString => if jeof s then Some EmptyString else None
  | String c src =>
      match jstep s c with
      | None => None
      | Some (s', k) =>
          match compact_from s' src with
          | None => None
          | Some out => Some (if k then String c out else out)
          end
      end
  end.

(** [json.Compact] and [json.Valid]. *)
Definition Compact (src : string) : option string := compact_from jstart src.
Definition Valid (src : string) : bool := match Compact src with Some _ => true | None => false end.

(** A syntax error of the standard library. *)
Definition ErrSyntax : error := ErrText "invalid JSON".

Definition normalizeJSONDocument (value : string) : error + string :=
  let value := TrimSpace value in
  if String.eqb value "" then inr "{}"
  else match Compact value with Some out => inr out | None => inl ErrSyntax end.

Definition compactJSON (value : string) : error + string :=
  match Compact value with Some out => inr out | None => inl ErrSyntax end.

Definition normalizeOptionalJSON (value : string) : error + string :=
  let value := TrimSpace value in
  if String.eqb value "" then inr ""
  else match compactJSON value with inr compact => inr compact | inl _ => inl ErrInvalid end.

Definition dq : string := String (ascii_of_nat 34) "".
Example compact_ex : Compact ("{ " +:+ dq +:+ "a b" +:+ dq +:+ " : [1, 2.5e3 ,true] }")
  = Some ("{" +:+ dq +:+ "a b" +:+ dq +:+ ":[1,2.5e3,true]}").
Proof. reflexivity. Qed.
Example compact_bad_ex : Compact "[1 2]" = None. Proof. reflexivity. Qed.
Example compact_top_ex : Compact " 12 " = Some "12". Proof. reflexivity. Qed.

(** ** Compacting twice changes nothing *)

(** The states that end a number when the next byte does not continue it. *)
Definition number_end (st : jstate) : bool :=
  match st with Digits1 | Digits0 | Dot0 | E0 => true | _ => false end.

(** The scanner of the source against the scanner of the compacted source: white
    space may have told the former that a value is over. *)
Inductive sim : scanner → scanner → Prop :=
| sim_refl s : sim s s
| sim_number st ps : number_end st = true → sim (mkScanner EndValue ps) (mkScanner st ps)
| sim_top st : number_end st || (match st with EndValue => true | _ => false end) = true →
    sim (mkScanner EndTop []) (mkScanner st []).

Ltac unfold_steps :=
  unfold jstep, state0, stateESign, stateBeginValue, stateBeginString, stateEndValue, stateEndTop,
    popParseState, pushParseState, keep, skip in *; cbn [stp parseState] in *.

Lemma jspace_not c n : jspace c = true → ch c n = true → n = 32 ∨ n = 9 ∨ n = 13 ∨ n = 10.
Proof. unfold jspace, ch. rewrite !orb_true_iff, !Nat.eqb_eq. lia. Qed.

Lemma sim_skip s s' c s1 : sim s s' → jstep s c = Some (s1, false) → sim s1 s'.
Proof.
  intros [ [st ps] | st ps Hn | st Hn ] H.
  - destruct st; unfold_steps; repeat case_match; simplify_eq; try constructor; done.
  - unfold_steps; repeat case_match; simplify_eq; try (by constructor).
    constructor. by rewrite Hn.
  - unfold_steps; repeat case_match; simplify_eq; by constructor.
Qed.

Lemma sim_keep s s' c s1 : sim s s' → jstep s c = Some (s1, true) →
  ∃ s1', jstep s' c = Some (s1', true) ∧ sim s1 s1'.
Proof.
  intros [ [st ps] | st ps Hn | st Hn ] H.
  - eexists. split; [done|constructor].
  - exists s1. split; [|constructor].
    assert (digit c = false ∧ ch c 46 = false ∧ ch c 101 = false ∧ ch c 69 = false) as (H1 & H2 & H3 & H4).
    { unfold_steps. unfold digit, ch in *. repeat case_match; simplify_eq;
        repeat match goal with H : (_ =? _) = true |- _ => apply Nat.eqb_eq in H; rewrite H end; done. }
    destruct st; try done; unfold jstep, state0; cbn [stp parseState];
      rewrite ?H1, ?H2, ?H3, ?H4; exact H.
  - unfold_steps; repeat case_match; simplify_eq.
Qed.

Lemma sim_eof s s' : sim s s' → jeof s = true → jeof s' = true.
Proof.
  intros [ s0 | st ps Hn | st Hn ] H; [done| |].
  - destruct st; try done; destruct ps as [|p ps]; try done.
  - destruct st; done.
Qed.

Lemma compact_from_idem s s' src out :
  sim s s' → compact_from s src = Some out → compact_from s' out = Some out.
Proof.
  revert s s' out. induction src as [|c src IH]; intros s s' out Hs; simpl.
  - destruct (jeof s) eqn:E; [|done]. intros [= <-]. simpl. by rewrite (sim_eof _ _ Hs).
  - destruct (jstep s c) as [[s1 []]|] eqn:E; [| |done].
    + destruct (compact_from s1 src) as [o|] eqn:Eo; [|done]. intros [= <-].
      destruct (sim_keep _ _ _ _ Hs E) as (s1' & E' & Hs'). simpl. rewrite E'.
      by rewrite (IH _ _ _ Hs' Eo).
    + destruct (compact_from s1 src) as [o|] eqn:Eo; [|done]. intros [= <-].
      apply (IH s1); [|done]. by eapply sim_skip.
Qed.

(** ** What compacting keeps *)

(** The bytes that are not white space to the scanner. *)
Fixpoint solid (s : string) : string :=
  match s with
  | EmptyString => EmptyString
  | String c s => if jspace c then solid s else String c (solid s)
  end.

Lemma jstep_skip_space s c s1 : jstep s c = Some (s1, false) → jspace c = true.
Proof. destruct s as [st ps]. destruct st; unfold_steps; intros; repeat case_match; simplify_eq; done. Qed.

Lemma compact_from_solid s src out : compact_from s src = Some out → solid out = solid src.
Proof.
  revert s out. induction src as [|c src IH]; intros s out; simpl.
  - destruct (jeof s); [by intros [= <-]|done].
  - destruct (jstep s c) as [[s1 k]|] eqn:E; [|done].
    destruct (compact_from s1 src) as [o|] eqn:Eo; [|done]. intros [= <-].
    specialize (IH _ _ Eo). destruct k; simpl.
    + by rewrite IH.
    + by rewrite (jstep_skip_space _ _ _ E).
Qed.

(** ** The output of [Compact] is trimmed *)

(** A byte no white space starts or ends with. *)
Definition plain (c : ascii) : bool :=
  (33 <=? nat_of c) && (nat_of c <? 128).

(** The states in which the rest of the document may be white space only. *)
Definition closing (s : scanner) : bool :=
  match stp s, parseState s with
  | EndTop, _ => true
  | EndValue, [] => true
  | st, [] => number_end st
  | _, _ => false
  end.

Lemma jeof_closing s : jeof s = true → closing s = true.
Proof.
  destruct s as [st ps]. destruct st; try done; destruct ps as [|[] ps]; try done.
Qed.

Lemma closing_skip s c s1 :
  jstep s c = Some (s1, false) → closing s1 = true → closing s = true.
Proof.
  destruct s as [st ps]. destruct st; unfold_steps; intros H Hc;
    repeat case_match; simplify_eq; try done.
Qed.

Lemma compact_from_empty s src : compact_from s src = Some "" → closing s = true.
Proof.
  revert s. induction src as [|c src IH]; intros s; simpl.
  - destruct (jeof s) eqn:E; [|done]. intros _. by apply jeof_closing.
  - destruct (jstep s c) as [[s1 []]|] eqn:E; [..|done];
      destruct (compact_from s1 src) as [o|] eqn:Eo; try done.
    intros [= ->]. eapply closing_skip; [done|by apply IH].
Qed.

Lemma keep_closing_plain s c s1 :
  jstep s c = Some (s1, true) → closing s1 = true → plain c = true.
Proof.
  destruct s as [st ps]. unfold plain. intros H Hc.
  assert (∀ n, ch c n = true → 33 <= n → n < 128 → (33 <=? nat_of c) && (nat_of c <? 128) = true) as Hch.
  { intros n Hn%Nat.eqb_eq ? ?. rewrite Hn. apply andb_true_iff.
    rewrite Nat.leb_le, Nat.ltb_lt. lia. }
  assert (digit c = true → (33 <=? nat_of c) && (nat_of c <? 128) = true) as Hd.
  { unfold digit. rewrite !andb_true_iff, !Nat.leb_le, Nat.ltb_lt. lia. }
  destruct st; unfold_steps; repeat case_match; simplify_eq;
    try (by apply Hd); try (eapply Hch; [eassumption|lia|lia]); try done;
    unfold closing in Hc; cbn in Hc; by case_match.
Qed.

Lemma compact_from_first src out :
  compact_from jstart src = Some out → ∃ c o, out = String c o ∧ plain c = true.
Proof.
  revert out. induction src as [|c src IH]; intros out; simpl; [done|].
  destruct (jstep jstart c) as [[s1 k]|] eqn:E; [|done].
  destruct (compact_from s1 src) as [o|] eqn:Eo; [|done]. intros [= <-]. destruct k.
  - exists c, o. split; [done|]. clear -E. unfold jstart in E. unfold_steps. unfold plain.
    repeat case_match; simplify_eq; unfold ch, digit in *; reflect_bools;
    repeat match goal with H : (_ =? _) = true |- _ => apply Nat.eqb_eq in H; rewrite H end; try done.
    apply andb_true_iff. rewrite Nat.leb_le, Nat.ltb_lt.
    repeat match goal with H : (_ <=? _) = true |- _ => apply Nat.leb_le in H end. lia.
  - assert (s1 = jstart) as ->; [|by apply IH].
    clear -E. unfold jstart in *. unfold_steps. repeat case_match; by simplify_eq.
Qed.

Lemma compact_from_last s src out :
  compact_from s src = Some out → out ≠ "" → ∃ c o, out = o +:+ String c "" ∧ plain c = true.
Proof.
  revert s out. induction src as [|c src IH]; intros s out; simpl.
  - destruct (jeof s); [by intros [= <-]|done].
  - destruct (jstep s c) as [[s1 k]|] eqn:E; [|done].
    destruct (compact_from s1 src) as [o|] eqn:Eo; [|done]. intros [= <-] Hne. destruct k.
    + destruct o as [|d o].
      * exists c, "". split; [done|]. eapply keep_closing_plain; [done|]. by eapply compact_from_empty.
      * destruct (IH _ _ Eo) as (e & p & Hp & Hpl); [done|]. exists e, (String c p).
        split; [|done]. rewrite Hp. done.
    + eauto.
Qed.

Lemma plain_trimmed c d o p :
  plain c = true → plain d = true → String c o = p +:+ String d "" → trimmed (String c o).
Proof.
  assert (∀ x, plain x = true → space1 x = false ∧ nat_of x < 128) as Hpl.
  { intros x Hx. unfold plain in Hx. apply andb_true_iff in Hx as [H1%Nat.leb_le H2%Nat.ltb_lt].
    split; [|done]. unfold space1. apply orb_false_iff. rewrite andb_false_iff, Nat.eqb_neq, !Nat.leb_gt. lia. }
  intros [Hc1 Hc2]%Hpl [Hd1 Hd2]%Hpl E.
  assert (∀ x n, nat_of x < 128 → 128 <= n → (nat_of x =? n) = false) as Hno.
  { intros x n ? ?. apply Nat.eqb_neq. lia. }
  assert (∀ x n, nat_of x < 128 → 128 <= n → (n <=? nat_of x) = false) as Hno'.
  { intros x n ? ?. apply Nat.leb_gt. lia. }
  unfold trimmed, TrimSpace.
  assert (trim_left (String c o) = String c o) as ->.
  { apply trim_with_id. cbn [leads]. rewrite Hc1. destruct o as [|x o]; [done|].
    unfold space2, space3. rewrite !(Hno c) by (done || lia). by destruct o. }
  unfold trim_right. rewrite E, srev_app. change (String.rev (String d "")) with (String d "").
  rewrite trim_with_id.
  - change (String d "" +:+ String.rev p) with (String.rev (String d "") +:+ String.rev p).
    by rewrite <-srev_app, srev_involutive.
  - change (String d "" +:+ String.rev p) with (String d (String.rev p)).
    cbn [leads]. rewrite Hd1. destruct (String.rev p) as [|x q]; [done|].
    unfold space2, space3. rewrite !(Hno d) by (done || lia). rewrite (Hno' d) by (done || lia).
    rewrite !andb_false_r. cbn. by destruct q; rewrite ?andb_false_r.
Qed.

Lemma Compact_trimmed src out : Compact src = Some out → trimmed out ∧ out ≠ "".
Proof.
  unfold Compact. intros H. destruct (compact_from_first _ _ H) as (c & o & -> & Hc).
  destruct (compact_from_last _ _ _ H) as (d & p & E & Hd); [done|].
  split; [by eapply plain_trimmed|done].
Qed.

(** Normalising a JSON document is idempotent and loses nothing: a document
    [normalizeJSONDocument] returned is one it returns unchanged, it is valid
    JSON, and it has every byte of the argument that is not white space, in
    order; the same holds of [normalizeOptionalJSON], which keeps the empty
    document empty. *)
Theorem normalize_json_idempotent value out :
  normalizeJSONDocument value = inr out →
  normalizeJSONDocument out = inr out ∧ normalizeOptionalJSON out = inr out ∧ Valid out = true ∧
  (TrimSpace value ≠ "" → solid out = solid (TrimSpace value) ∧
     normalizeOptionalJSON value = inr out).
Proof.
  unfold normalizeJSONDocument, normalizeOptionalJSON, compactJSON, Valid.
  destruct (TrimSpace value =s "")%go eqn:Ev; [intros [= <-]; reflect_bools; by rewrite Ev|].
  destruct (Compact (TrimSpace value)) as [o|] eqn:E; [|done]. intros [= ->].
  destruct (Compact_trimmed _ _ E) as [Ht Hne]. rewrite Ht.
  apply eqb_neq_str in Hne. rewrite Hne. unfold Compact in *.
  rewrite (compact_from_idem _ _ _ _ (sim_refl jstart) E). repeat split.
  by apply (compact_from_solid jstart).
Qed.

Lemma normalize_json_idempotent_witness :
  normalizeJSONDocument "[ 1,  {} ]" = inr "[1,{}]" ∧ normalizeJSONDocument "[1,{}]" = inr "[1,{}]".
Proof.
  split; [reflexivity|].
  apply (proj1 (normalize_json_idempotent "[ 1,  {} ]" "[1,{}]" ltac:(reflexivity))).
Defined.
