(* ===== verification/JsonValue.v ===== *)
(** * Decoding JSON documents

    What [json.Unmarshal] makes of a document: the value tree the scanner of [Json]
    drives a builder to ([parse]), and decoders into Go types on top of it.  As in
    Go, an invalid document changes nothing; a value of the wrong type is skipped and
    reported once the rest is decoded; [null] leaves what it decodes into alone;
    struct fields are found by name, exactly or else up to case folding; later
    members of an object overwrite earlier ones. *)

From S2P Require Import Prelude GoStr GoText Sql Json.

(** Numbers keep their literal, objects the order of their members. *)
Inductive json :=
| JNull
| JBool (b : bool)
| JNum (lit : string)
| JStr (s : string)
| JArr (items : list json)
| JObj (members : list (string * json)).

(** ** Strings *)

Definition hex_digit (c : ascii) : option Z :=
  let n := Z.of_nat (nat_of c) in
  if between 48 57 c then Some (n - 48)%Z
  else if between 97 102 c then Some (n - 87)%Z
  else if between 65 70 c then Some (n - 55)%Z
  else None.

(** [getu4] after the backslash and the [u]. *)
Definition getu4 (s : string) : option (Z * string) :=
  match s with
  | String a (String b (String c (String d rest))) =>
      match hex_digit a, hex_digit b, hex_digit c, hex_digit d with
      | Some a, Some b, Some c, Some d => Some (((a * 16 + b) * 16 + c) * 16 + d, rest)%Z
      | _, _, _, _ => None
      end
  | _ => None
  end.

Definition is_surrogate (r : Z) : bool := (55296 <=? r)%Z && (r <=? 57343)%Z.

(** [utf16.DecodeRune] of a valid pair. *)
Definition DecodePair (r r1 : Z) : option Z :=
  if (55296 <=? r)%Z && (r <? 56320)%Z && (56320 <=? r1)%Z && (r1 <? 57344)%Z
  then Some ((r - 55296) * 1024 + (r1 - 56320) + 65536)%Z else None.

Definition simple_escape (c : ascii) : ascii :=
  if ch c 98 then byte 8 else if ch c 102 then byte 12 else if ch c 110 then byte 10
  else if ch c 114 then byte 13 else if ch c 116 then byte 9 else c.

(** [unquote] between the quotes; [fuel] bounds the bytes read, the length is enough. *)
Fixpoint unquote_go (fuel : nat) (s : string) : string :=
  match fuel with
  | 0 => EmptyString
  | S fuel =>
      match s with
      | EmptyString => EmptyString
      | String a rest =>
          if ch a 92 then
            match rest with
            | EmptyString => EmptyString
            | String c rest =>
                if ch c 117 then
                  match getu4 rest with
                  | None => EmptyString
                  | Some (r, rest) =>
                      if is_surrogate r then
                        match rest with
                        | String x (String y rest') =>
                            match (if ch x 92 && ch y 117 then getu4 rest' else None) with
                            | Some (r1, rest'') =>
                                match DecodePair r r1 with
                                | Some r => EncodeRune r +:+ unquote_go fuel rest''
                                | None => rune_error +:+ unquote_go fuel rest
                                end
                            | None => rune_error +:+ unquote_go fuel rest
                            end
                        | _ => rune_error +:+ unquote_go fuel rest
                        end
                      else EncodeRune r +:+ unquote_go fuel rest
                  end
                else String (simple_escape c) (unquote_go fuel rest)
            end
          else
            let (r, size) := DecodeRune s in r +:+ unquote_go fuel (sdrop size s)
      end
  end.

Definition unquote (s : string) : string := unquote_go (String.length s) s.

(** ** The builder *)

Inductive frame :=
| FArr (items : list json)
| FObj (members : list (string * json)) (key : option string).

Record builder := mkBuilder { frames : list frame; lit : string; result : option json }.

(** A completed value goes to the innermost container, newest first. *)
Definition emit (v : json) (b : builder) : builder :=
  match frames b with
  | [] => mkBuilder [] "" (Some v)
  | FArr l :: fs => mkBuilder (FArr (v :: l) :: fs) "" (result b)
  | FObj l None :: fs =>
      mkBuilder (FObj l (match v with JStr k => Some k | _ => None end) :: fs) "" (result b)
  | FObj l (Some k) :: fs => mkBuilder (FObj ((k, v) :: l) None :: fs) "" (result b)
  end.

Definition push (f : frame) (b : builder) : builder := mkBuilder (f :: frames b) (lit b) (result b).

Definition pop (b : builder) : builder :=
  match frames b with
  | [] => b
  | f :: fs =>
      emit (match f with FArr l => JArr (rev l) | FObj l _ => JObj (rev l) end)
        (mkBuilder fs (lit b) (result b))
  end.

Definition set_lit (v : string) (b : builder) : builder := mkBuilder (frames b) v (result b).

Definition in_number (st : jstate) : bool :=
  match st with Neg | Digits1 | Digits0 | Dot | Dot0 | ExpE | ESign | E0 => true | _ => false end.

Definition in_string (st : jstate) : bool :=
  match st with InString | InStringEsc | InStringEscU _ => true | _ => false end.

(** A byte outside literals: brackets, separators, white space, the start of a literal. *)
Definition structural (st' : jstate) (c : ascii) (b : builder) : builder :=
  if in_number st' then set_lit (String c "") b
  else if in_string st' then set_lit "" b
  else if ch c 123 then push (FObj [] None) b
  else if ch c 91 then push (FArr []) b
  else if ch c 125 || ch c 93 then pop b
  else b.

(** The literal collected so far is reversed. *)
Definition build_step (st st' : jstate) (c : ascii) (b : builder) : builder :=
  if in_string st then
    if in_string st' then set_lit (String c (lit b)) b
    else emit (JStr (unquote (String.rev (lit b)))) b
  else if in_number st then
    if in_number st' then set_lit (String c (lit b)) b
    else structural st' c (emit (JNum (String.rev (lit b))) b)
  else match st with
  | Tru => emit (JBool true) b
  | Fals => emit (JBool false) b
  | Nul => emit JNull b
  | T | Tr | F | Fa | Fal | Nn | Nu => b
  | _ => structural st' c b
  end.

Definition finish (st : jstate) (b : builder) : option json :=
  result (if in_number st then emit (JNum (String.rev (lit b))) b else b).

Fixpoint parse_from (s : scanner) (b : builder) (src : string) : option json :=
  match src with
  | EmptyString => if jeof s then finish (stp s) b else None
  | String c src =>
      match jstep s c with
      | None => None
      | Some (s', _) => parse_from s' (build_step (stp s) (stp s') c b) src
      end
  end.

Definition parse (src : string) : option json := parse_from jstart (mkBuilder [] "" None) src.

Definition q (s : string) : string := dq +:+ s +:+ dq.
Example parse_obj : parse (" {" +:+ q "a" +:+ ": [1, -2.5e3,true,null], " +:+ q "b\u00e9\n" +:+ ":{}} ")
  = Some (JObj [("a", JArr [JNum "1"; JNum "-2.5e3"; JBool true; JNull]);
                ("b" +:+ EncodeRune 233 +:+ String (byte 10) "", JObj [])]).
Proof. reflexivity. Qed.
Example parse_num : parse "12" = Some (JNum "12"). Proof. reflexivity. Qed.
Example parse_pair : parse (q "\ud834\udd1e\ud834") = Some (JStr (EncodeRune 119070 +:+ rune_error)).
Proof. reflexivity. Qed.
Example parse_bad : parse "[1" = None. Proof. reflexivity. Qed.

(** ** Decoding into Go values *)

(** A decoder updates the value it decodes into and tells whether the types fit. *)
Definition decoder (A : Type) : Type := json → A → A * bool.

Definition dec_string : decoder string := λ v a,
  match v with JStr s => (s, true) | JNull => (a, true) | _ => (a, false) end.

Definition dec_bool : decoder bool := λ v a,
  match v with JBool b => (b, true) | JNull => (a, true) | _ => (a, false) end.

(** An integer literal out of range, or with a fraction or an exponent, does not fit. *)
Definition dec_int64 : decoder Z := λ v a,
  match v with
  | JNum l => match ParseInt l with Some n => (n, true) | None => (a, false) end
  | JNull => (a, true)
  | _ => (a, false)
  end.

(** [any]. *)
Definition dec_any : decoder json := λ v _, (v, true).

(** A struct field: its JSON name and how its value updates the struct. *)
Definition field (A : Type) : Type := string * decoder A.

Definition find_field {A} (fields : list (field A)) (name : string) : option (decoder A) :=
  match List.find (λ f, String.eqb f.1 name) fields with
  | Some f => Some f.2
  | None => option_map snd (List.find (λ f, String.eqb (fold_name f.1) (fold_name name)) fields)
  end.

Definition dec_struct {A} (fields : list (field A)) : decoder A := λ v a,
  match v with
  | JObj members =>
      fold_left (λ '(a, ok) '(k, x),
        match find_field fields k with
        | None => (a, ok)
        | Some d => let (a', ok') := d x a in (a', ok && ok')
        end) members (a, true)
  | JNull => (a, true)
  | _ => (a, false)
  end.

(** Decodes into the part of a struct that [get] reads and [set] writes. *)
Definition into {A B} (get : A → B) (set : B → A → A) (d : decoder B) : decoder A := λ v a,
  let (b, ok) := d v (get a) in (set b a, ok).

(** The elements a slice has already are decoded into, the others start from the zero
    value (elements that an earlier, shorter duplicate of the array cut off are taken to
    be gone). *)
Fixpoint dec_items {A} (zero : A) (d : decoder A) (items : list json) (old : list A) : list A * bool :=
  match items with
  | [] => ([], true)
  | x :: items =>
      let (a, ok) := d x (from_opt zero (head old)) in
      let (l, ok') := dec_items zero d items (tail old) in (a :: l, ok && ok')
  end.

Definition dec_slice {A} (zero : A) (d : decoder A) : decoder (list A) := λ v a,
  match v with
  | JArr items => dec_items zero d items a
  | JNull => ([], true)
  | _ => (a, false)
  end.

(** A pointer to a struct: [null] clears it, an object is decoded into what it points
    to. *)
Definition dec_pointer {A} (zero : A) (d : decoder A) : decoder (option A) := λ v a,
  match v with
  | JNull => (None, true)
  | _ => let (x, ok) := d v (from_opt zero a) in (Some x, ok)
  end.

(** A map from strings, every member decoded afresh; a member that does not fit is
    stored with what was decoded of it. *)
Definition dec_map {A} (zero : A) (d : decoder A) : decoder (gmap string A) := λ v m,
  match v with
  | JObj members =>
      fold_left (λ '(m, ok) '(k, x), let (a, ok') := d x zero in (<[k := a]> m, ok && ok'))
        members (m, true)
  | JNull => (∅, true)
  | _ => (m, false)
  end.

(** [json.Unmarshal]: what is decoded and whether it returns [nil]. *)
Definition Unmarshal {A} (d : decoder A) (src : string) (a : A) : A * bool :=
  match parse src with None => (a, false) | Some v => d v a end.

(** ** The builder completes every valid document *)

(** What the innermost container is waiting for, in each state of the scanner. *)
Definition top_ok (st : jstate) (p : parse_state) (f : frame) : Prop :=
  match p, f with
  | parseObjectKey, FObj _ k =>
      match st with
      | BeginStringOrEmpty | BeginString | InString | InStringEsc | InStringEscU _ => k = None
      | EndValue => is_Some k
      | _ => False
      end
  | parseObjectValue, FObj _ k => match st with EndValue => k = None | _ => is_Some k end
  | parseArrayValue, FArr _ => True
  | _, _ => False
  end.

(** A container around the innermost one. *)
Definition outer_ok (p : parse_state) (f : frame) : Prop :=
  match p, f with
  | parseObjectValue, FObj _ k => is_Some k
  | parseArrayValue, FArr _ => True
  | _, _ => False
  end.

Definition build_inv (s : scanner) (b : builder) : Prop :=
  match parseState s with
  | [] => frames b = [] ∧ match stp s with EndValue | EndTop => is_Some (result b) | _ => True end
  | p :: ps => stp s ≠ EndTop ∧
      match frames b with
      | [] => False
      | f :: fs => top_ok (stp s) p f ∧ Forall2 outer_ok ps fs
      end
  end.

(** Handing a value to an outer container leaves it waiting for a separator. *)
Lemma emit_outer v p ps fs l r :
  Forall2 outer_ok (p :: ps) fs →
  ∃ f fs', frames (emit v (mkBuilder fs l r)) = f :: fs' ∧ top_ok EndValue p f ∧ Forall2 outer_ok ps fs'.
Proof.
  inversion 1 as [|? f ? fs' Hf Hfs]; subst.
  destruct p, f as [items|mem [k|]]; simpl in Hf; try done; unfold emit; simpl; eauto.
Qed.

Lemma pop_inv p ps b st :
  match frames b with [] => False | f :: fs => Forall2 outer_ok ps fs end →
  popParseState (p :: ps) = Some (st, true) → build_inv st (pop b).
Proof.
  unfold pop. destruct (frames b) as [|f fs]; [done|]. intros Hfs Hp. unfold popParseState, keep in Hp.
  destruct ps as [|p' ps]; injection Hp as <-; unfold build_inv; simpl.
  - inversion Hfs; subst. unfold emit. simpl. split; [done|by eexists].
  - destruct (emit_outer (match f with FArr l => JArr (rev l) | FObj l _ => JObj (rev l) end)
      p' ps fs (lit b) (result b) Hfs) as (g & gs & -> & ? & ?). done.
Qed.

Lemma emit_value st ps b v :
  in_number st || match st with Tru | Fals | Nul => true | _ => false end = true →
  build_inv (mkScanner st ps) b → build_inv (mkScanner EndValue ps) (emit v b).
Proof.
  intros Hst. unfold build_inv. simpl. destruct ps as [|p ps].
  - intros [Hf _]. unfold emit. rewrite Hf. simpl. split; [done|by eexists].
  - intros [_ H]. split; [done|]. unfold emit. destruct (frames b) as [|[l|l [k|]] fs]; [done|..];
      destruct H as [Ht Ho]; destruct p; simpl in Ht; try done; by destruct st.
Qed.

Lemma emit_string ps b k :
  build_inv (mkScanner InString ps) b → build_inv (mkScanner EndValue ps) (emit (JStr k) b).
Proof.
  unfold build_inv. simpl. destruct ps as [|p ps].
  - intros [Hf _]. unfold emit. rewrite Hf. simpl. split; [done|by eexists].
  - intros [_ H]. split; [done|]. unfold emit. destruct (frames b) as [|[l|l [x|]] fs]; [done|..];
      destruct H as [Ht Ho]; destruct p; by simpl in *.
Qed.

Lemma structural_space st c b :
  jspace c = true → in_number st = false → in_string st = false → structural st c b = b.
Proof.
  intros Hc Hn Hs. unfold structural. rewrite Hn, Hs. unfold jspace, ch in *.
  rewrite !orb_true_iff, !Nat.eqb_eq in Hc. by destruct Hc as [[[-> | ->] | ->] | ->].
Qed.

Lemma structural_end ps c s' k b :
  build_inv (mkScanner EndValue ps) b → stateEndValue ps c = Some (s', k) →
  build_inv s' (structural (stp s') c b).
Proof.
  intros Hi E. unfold stateEndValue, stateEndTop in E. destruct ps as [|p ps].
  { destruct (jspace c) eqn:Hc; [|done]. injection E as <- <-.
    rewrite structural_space by done. exact Hi. }
  destruct (jspace c) eqn:Hc.
  { injection E as <- <-. rewrite structural_space by done. exact Hi. }
  unfold build_inv in Hi. simpl in Hi. destruct Hi as [_ Hi].
  destruct (frames b) as [|f fs] eqn:Ef; [done|]. destruct Hi as [Ht Ho].
  assert (∀ n, ch c n = true → ch c 125 || ch c 93 = true → ch c 123 = false → ch c 91 = false →
    popParseState (p :: ps) = Some (s', k) → build_inv s' (structural (stp s') c b)) as Hpop.
  { intros n _ Hb H1 H2 Hp.
    assert (in_number (stp s') = false ∧ in_string (stp s') = false ∧ k = true) as (Hn & Hs & ->).
    { unfold popParseState, keep in Hp. by destruct ps; injection Hp as <- <-. }
    unfold structural. rewrite Hn, Hs, H1, H2, Hb. eapply pop_inv; [|done]. by rewrite Ef. }
  assert (∀ st p', s' = mkScanner st (p' :: ps) → in_number st = false → in_string st = false →
    ch c 123 = false → ch c 91 = false → ch c 125 = false → ch c 93 = false → st ≠ EndTop →
    top_ok st p' f → build_inv s' (structural (stp s') c b)) as Hmove.
  { intros st p' -> Hn Hs H1 H2 H3 H4 Hne Hk. unfold structural. simpl. rewrite Hn, Hs, H1, H2, H3, H4.
    unfold build_inv. simpl. rewrite Ef. done. }
  assert (∀ n m, ch c n = true → n ≠ m → ch c m = false) as Hch.
  { unfold ch. intros n m Hn%Nat.eqb_eq ?. apply Nat.eqb_neq. congruence. }
  destruct p.
  - destruct (ch c 58) eqn:H1; [|done]. injection E as <- <-.
    eapply Hmove; [done|done|done|by eapply Hch..|done|].
    destruct f as [|l o]; simpl in *; done.
  - destruct (ch c 44) eqn:H1.
    + injection E as <- <-. eapply Hmove; [done|done|done|by eapply Hch..|done|].
      destruct f as [|l o]; simpl in *; done.
    + destruct (ch c 125) eqn:H2; [|done]. eapply (Hpop 125); try done; by eapply Hch.
  - destruct (ch c 44) eqn:H1.
    + injection E as <- <-. eapply Hmove; [done|done|done|by eapply Hch..|done|].
      destruct f as [|l o]; simpl in *; done.
    + destruct (ch c 93) eqn:H2; [|done].
      eapply (Hpop 93); try done; [by rewrite orb_true_r|by eapply Hch..].
Qed.

(** Moving between states that are not the end of a value keeps the invariant, in a
    value position; the literal does not matter. *)
Lemma build_inv_state st st' ps b b' :
  build_inv (mkScanner st ps) b → frames b' = frames b → st ≠ EndValue → st' ≠ EndValue →
  st' ≠ EndTop →
  (match st with BeginStringOrEmpty | BeginString | InString | InStringEsc | InStringEscU _ =>
     match st' with BeginStringOrEmpty | BeginString | InString | InStringEsc | InStringEscU _ => True
     | _ => False end | _ => True end) →
  build_inv (mkScanner st' ps) b'.
Proof.
  unfold build_inv. simpl. intros Hi Hf Hne Hne' Hnt Hk. destruct ps as [|p ps].
  - destruct Hi as [H _]. rewrite Hf. split; [done|]. by destruct st'.
  - destruct Hi as [_ Hi]. rewrite Hf. split; [done|].
    destruct (frames b) as [|[l|l k] fs]; [done|..]; destruct Hi as [Ht Ho]; (split; [|done]);
      destruct p; simpl in *; try done; by destruct st, st'.
Qed.

Lemma build_inv_push st ps b p' f st' :
  build_inv (mkScanner st ps) b →
  match st with BeginValue | BeginValueOrEmpty => True | _ => False end →
  top_ok st' p' f → st' ≠ EndTop → build_inv (mkScanner st' (p' :: ps)) (push f b).
Proof.
  unfold build_inv. simpl. intros Hi Hst Hf Hne. split; [done|]. split; [done|].
  destruct ps as [|p ps].
  - destruct Hi as [-> _]. constructor.
  - destruct Hi as [_ Hi]. destruct (frames b) as [|g fs]; [done|]. destruct Hi as [Ht Ho].
    constructor; [|done]. by destruct p, g, st.
Qed.

Lemma begin_value st ps c s' k b :
  match st with BeginValue | BeginValueOrEmpty => True | _ => False end →
  build_inv (mkScanner st ps) b → stateBeginValue st ps c = Some (s', k) →
  build_inv s' (structural (stp s') c b).
Proof.
  intros Hst Hi E. unfold stateBeginValue, pushParseState, keep, skip in E.
  assert (∀ n m, ch c n = true → n ≠ m → ch c m = false) as Hch.
  { unfold ch. intros n m Hn%Nat.eqb_eq ?. apply Nat.eqb_neq. congruence. }
  assert (∀ st', in_number st' || in_string st' = true →
    build_inv (mkScanner st' ps) (structural st' c b)) as Hlit.
  { intros st' H'. unfold structural. destruct (in_number st') eqn:E1; [|destruct (in_string st') eqn:E2; [|done]];
      (eapply build_inv_state; [exact Hi|done|by destruct st|by destruct st'|by destruct st'|by destruct st]). }
  assert (∀ st', match st' with T | F | Nn => True | _ => False end →
    ch c 123 = false → ch c 91 = false → ch c 125 = false → ch c 93 = false →
    build_inv (mkScanner st' ps) (structural st' c b)) as Hword.
  { intros st' H' H1 H2 H3 H4. unfold structural.
    assert (in_number st' = false) as -> by (by destruct st').
    assert (in_string st' = false) as -> by (by destruct st'). rewrite H1, H2, H3, H4.
    eapply build_inv_state; [exact Hi|done|by destruct st|by destruct st'|by destruct st'|by destruct st]. }
  destruct (jspace c) eqn:Hc.
  { injection E as <- <-. simpl. rewrite structural_space; [done|done|by destruct st..]. }
  destruct (ch c 123) eqn:H1.
  { destruct (_ <=? _)%Z; [|done]. injection E as <- <-. unfold structural. simpl. rewrite H1.
    by apply (build_inv_push st). }
  destruct (ch c 91) eqn:H2.
  { destruct (_ <=? _)%Z; [|done]. injection E as <- <-. unfold structural. simpl. rewrite H1, H2.
    by apply (build_inv_push st). }
  destruct (ch c 34) eqn:H3; [injection E as <- <-; by apply Hlit|].
  destruct (ch c 45) eqn:H4; [injection E as <- <-; by apply Hlit|].
  destruct (ch c 48) eqn:H5; [injection E as <- <-; by apply Hlit|].
  destruct (ch c 116) eqn:H6; [injection E as <- <-; apply Hword; try done; by eapply Hch|].
  destruct (ch c 102) eqn:H7; [injection E as <- <-; apply Hword; try done; by eapply Hch|].
  destruct (ch c 110) eqn:H8; [injection E as <- <-; apply Hword; try done; by eapply Hch|].
  destruct (digit c); [injection E as <- <-; by apply Hlit|done].
Qed.

Lemma begin_string st ps c s' k b :
  match st with BeginString | BeginStringOrEmpty => True | _ => False end →
  build_inv (mkScanner st ps) b → stateBeginString st ps c = Some (s', k) →
  build_inv s' (structural (stp s') c b).
Proof.
  intros Hst Hi E. unfold stateBeginString, keep, skip in E. destruct (jspace c) eqn:Hc.
  { injection E as <- <-. simpl. rewrite structural_space; [done|done|by destruct st..]. }
  destruct (ch c 34); [|done]. injection E as <- <-. unfold structural. simpl.
  eapply build_inv_state; [exact Hi|done|by destruct st|done|done|by destruct st].
Qed.

(** An empty array or object closes like one that has elements. *)
Lemma close_array ps b :
  build_inv (mkScanner BeginValueOrEmpty (parseArrayValue :: ps)) b →
  build_inv (mkScanner EndValue (parseArrayValue :: ps)) b.
Proof.
  unfold build_inv. simpl. intros [_ H]. split; [done|]. destruct (frames b) as [|[l|l o] fs]; [done|exact H|by destruct H].
Qed.

Lemma close_object p ps c s' k b :
  build_inv (mkScanner BeginStringOrEmpty (p :: ps)) b → jspace c = false → ch c 125 = true →
  stateEndValue (parseObjectValue :: ps) c = Some (s', k) →
  build_inv s' (structural (stp s') c b).
Proof.
  intros Hi Hs Hc E. unfold stateEndValue in E. rewrite Hs, Hc in E.
  assert (∀ n, n ≠ 125 → ch c n = false) as Hch.
  { unfold ch in *. intros n ?. apply Nat.eqb_eq in Hc. apply Nat.eqb_neq. congruence. }
  rewrite (Hch 44) in E by done.
  assert (in_number (stp s') = false ∧ in_string (stp s') = false ∧ k = true) as (H1 & H2 & ->).
  { unfold popParseState, keep in E. by destruct ps; injection E as <- <-. }
  unfold structural. rewrite H1, H2, Hc, (Hch 123), (Hch 91) by done. eapply pop_inv; [|exact E].
  unfold build_inv in Hi. simpl in Hi. destruct Hi as [_ Hi]. destruct (frames b); [done|apply Hi].
Qed.

Lemma build_inv_step s c s' k b :
  build_inv s b → jstep s c = Some (s', k) → build_inv s' (build_step (stp s) (stp s') c b).
Proof.
  destruct s as [st ps]. intros Hi E.
  assert (∀ st' b', frames b' = frames b → st ≠ EndValue → st' ≠ EndValue → st' ≠ EndTop →
     in_string st = in_string st' →
     match st with BeginStringOrEmpty | BeginString => False | _ => True end →
     build_inv (mkScanner st' ps) b') as Hstay.
  { intros st' b' H0 H1 H2 H3 H4 H5. eapply build_inv_state; [exact Hi|done..|by destruct st, st']. }
  assert (in_number st = true → stateEndValue ps c = Some (s', k) →
    build_inv s' (build_step st (stp s') c b)) as Hnum.
  { intros Hn He. pose proof (structural_end ps c s' k _ (emit_value st ps b (JNum (String.rev (lit b)))
      ltac:(by rewrite Hn) Hi) He) as Hs. unfold build_step.
    assert (in_string st = false) as -> by (by destruct st). rewrite Hn.
    assert (in_number (stp s') = false) as ->; [|exact Hs].
    unfold stateEndValue, stateEndTop, popParseState, keep, skip in He.
    repeat case_match; simplify_eq; done. }
  assert (state0 ps c = Some (s', k) → in_number st = true →
    build_inv s' (build_step st (stp s') c b)) as Hstate0.
  { unfold state0, keep. intros He Hn. unfold build_step.
    assert (in_string st = false) as -> by (by destruct st).
    destruct (ch c 46); [simplify_eq; rewrite Hn; cbn [stp in_number]; apply Hstay; by destruct st|].
    destruct (ch c 101 || ch c 69); [simplify_eq; rewrite Hn; cbn [stp in_number]; apply Hstay; by destruct st|].
    pose proof (Hnum Hn He) as Hs. unfold build_step in Hs.
    assert (in_string st = false) as Hst by (by destruct st). by rewrite Hst in Hs. }
  destruct st; cbn [jstep stp parseState] in E |- *;
    try (by apply Hstate0); unfold stateESign in E;
    repeat match type of E with (if ?x then _ else _) = Some _ => let F := fresh "C" in destruct x eqn:F end;
    unfold keep, skip in E; simplify_eq; cbn [build_step in_number in_string stp];
    try (by apply Hnum); try (by apply Hstay); try (by eapply begin_value; [|exact Hi|exact E]);
    try (by eapply begin_string; [|exact Hi|exact E]);
    try (by eapply structural_end; [exact Hi|exact E]); try (by eapply emit_value; [|exact Hi]);
    try (by apply emit_string);
    try (by rewrite structural_space).
  - eapply structural_end; [|exact E]. destruct ps as [|[] ps].
    + unfold stateEndValue, stateEndTop in E. by rewrite C in E.
    + unfold stateEndValue in E. rewrite C in E. unfold ch in *. apply Nat.eqb_eq in C0.
      by rewrite C0 in E.
    + unfold stateEndValue in E. rewrite C in E. unfold ch in *. apply Nat.eqb_eq in C0.
      by rewrite C0 in E.
    + by apply close_array.
  - destruct ps as [|p ps]; [done|]. by eapply close_object.
  - destruct ps as [|p ps]; [|by destruct Hi].
    unfold stateEndTop, skip in E. destruct (jspace c) eqn:Hc; [|done]. injection E as <- <-.
    by rewrite structural_space.
  - destruct togo; cbn [in_string]; by apply Hstay.
  - exact (Hstate0 E eq_refl).
Qed.

Lemma finish_closed s b : build_inv s b → jeof s = true → is_Some (finish (stp s) b).
Proof.
  intros Hi Hc%jeof_closing. destruct s as [st ps]. unfold closing in Hc. simpl in *.
  assert (ps = []) as -> by (destruct ps; [done|]; destruct st; try done; by destruct Hi).
  unfold build_inv in Hi. simpl in Hi. destruct Hi as [Hf Hr]. unfold finish.
  destruct st; try done; simpl; unfold emit; rewrite Hf; by eexists.
Qed.

(** [parse] succeeds exactly on what [json.Valid] accepts. *)
Lemma parse_from_total src : ∀ s b,
  build_inv s b → is_Some (parse_from s b src) ↔ is_Some (compact_from s src).
Proof.
  induction src as [|c src IH]; intros s b Hi; simpl.
  - destruct (jeof s) eqn:E; [|by split; intros [? ?]].
    split; [intros _; by eexists|intros _; by apply finish_closed].
  - destruct (jstep s c) as [[s' k]|] eqn:E; [|by split; intros [? ?]].
    rewrite (IH s') by (by eapply build_inv_step). destruct (compact_from s' src).
    + split; intros _; by eexists.
    + by split; intros [? ?].
Qed.

Lemma parse_valid src : is_Some (parse src) ↔ Valid src = true.
Proof.
  unfold parse, Valid, Compact. rewrite parse_from_total by done.
  destruct (compact_from jstart src); split; intros H; try done; by destruct H.
Qed.

(** * Writing JSON

    What [json.Marshal] writes of a value decoded into an [any]: objects with their keys
    sorted, each once, strings escaped (also for HTML), no space.  How a number literal
    reads as a [float64] and writes back is the parameter [Floats]. *)

(** [strconv.ParseFloat(literal, 64)] and the text [encoding/json] gives the number;
    [None] is a literal out of range. *)
Class Floats := { float_text : string → option string }.

Definition hex_text (n : nat) : ascii := Ascii.ascii_of_nat (if n <? 10 then 48 + n else 87 + n).

(** The ASCII bytes [htmlSafeSet] lets through. *)
Definition html_safe (c : ascii) : bool :=
  (32 <=? nat_of c) && negb (ch c 34 || ch c 38 || ch c 60 || ch c 62 || ch c 92).

(** How an ASCII byte appears inside a string. *)
Definition escape_byte (c : ascii) : string :=
  if html_safe c then String c ""
  else if ch c 92 || ch c 34 then String "\" (String c "")
  else if ch c 8 then "\b"
  else if ch c 12 then "\f"
  else if ch c 10 then "\n"
  else if ch c 13 then "\r"
  else if ch c 9 then "\t"
  else "\u00" +:+ String (hex_text (nat_of c / 16)) (String (hex_text (nat_of c mod 16)) "").

(** The line and paragraph separators. *)
Definition separator (rune : string) : option string :=
  if String.eqb rune (EncodeRune 8232) then Some "\u2028"
  else if String.eqb rune (EncodeRune 8233) then Some "\u2029"
  else None.

Fixpoint escape (fuel : nat) (s : string) : string :=
  match fuel with
  | 0 => ""
  | S fuel =>
      match s with
      | EmptyString => ""
      | String c rest =>
          if nat_of c <? 128 then escape_byte c +:+ escape fuel rest
          else
            let (rune, size) := DecodeRune s in
            if String.eqb rune rune_error && (size =? 1) then "\ufffd" +:+ escape fuel rest
            else from_opt rune (separator rune) +:+ escape fuel (sdrop size s)
      end
  end.

Definition quote (s : string) : string := q (escape (String.length s) s).

(** Each key once, with its last value, in the order of the keys. *)
Definition canonical {A} (members : list (string * A)) : list (string * A) :=
  sort_with (λ a b : string * A, String.leb a.1 b.1)
    (map_to_list (fold_left (λ m p, <[p.1 := p.2]> m) members (∅ : gmap string A))).

Section write.
Context {Fl : Floats}.

Fixpoint encode (v : json) : string :=
  match v with
  | JNull => "null"
  | JBool b => if b then "true" else "false"
  | JNum l => from_opt "" (float_text l)
  | JStr s => quote s
  | JArr items => "[" +:+ Join (map encode items) "," +:+ "]"
  | JObj members =>
      "{" +:+ Join (map (λ p, quote p.1 +:+ ":" +:+ p.2)
        (canonical (map (λ p, (p.1, encode p.2)) members))) "," +:+ "}"
  end.

(** Every number of the value is in range. *)
Fixpoint numbers_ok (v : json) : bool :=
  match v with
  | JNum l => match float_text l with Some _ => true | None => false end
  | JArr items => forallb numbers_ok items
  | JObj members => forallb (λ p, numbers_ok p.2) members
  | _ => true
  end.

(** An [any] decoded with its numbers: each has to be in range. *)
Definition dec_dyn : decoder json := λ v _, (v, numbers_ok v).

(** [json.Unmarshal] into a nil [map[string]any]: [None] is an error, [Some None] a map
    that is still nil. *)
Definition decode_any_map (src : string) : option (option (gmap string json)) :=
  match parse src with
  | Some JNull => Some None
  | Some (JObj members) =>
      if numbers_ok (JObj members) then Some (Some (dec_map JNull dec_any (JObj members) ∅).1) else None
  | _ => None
  end.

(** [json.Marshal] of such a map. *)
Definition encode_any_map (m : option (gmap string json)) : string :=
  match m with
  | None => "null"
  | Some m => encode (JObj (map_to_list m))
  end.

End write.

Definition same_text : Floats := {| float_text := Some |}.

Example encode_ex :
  encode (Fl := same_text) (JObj [("b", JArr [JNum "1"; JNull]); ("a", JStr "x<y"); ("b", JBool true)])
  = "{" +:+ q "a" +:+ ":" +:+ q "x\u003cy" +:+ "," +:+ q "b" +:+ ":true}".
Proof. vm_compute. reflexivity. Qed.
Example quote_ex : quote (String (Ascii.ascii_of_nat 255) (String (byte 10) "é")) = q "\ufffd\né".
Proof. vm_compute. reflexivity. Qed.

(** ** Values that [json.Marshal] is given

    Decoded JSON, and what code builds from structs and maps.  The fields of a struct
    keep their order, the keys of a map are sorted. *)
Inductive wire :=
| WJson (v : json)
| WInt (n : Z)
| WBool (b : bool)
| WList (items : list wire)
| WStruct (fields : list (string * wire))
| WMap (members : list (string * wire)).

Definition WStr (s : string) : wire := WJson (JStr s).

Definition object_text (members : list (string * string)) : string :=
  "{" +:+ Join (map (λ p, quote p.1 +:+ ":" +:+ p.2) members) "," +:+ "}".

Fixpoint wire_text `{!Floats} (w : wire) : string :=
  match w with
  | WJson v => encode v
  | WInt n => FormatInt n
  | WBool b => if b then "true" else "false"
  | WList items => "[" +:+ Join (map wire_text items) "," +:+ "]"
  | WStruct fields => object_text (map (λ p, (p.1, wire_text p.2)) fields)
  | WMap members => object_text (canonical (map (λ p, (p.1, wire_text p.2)) members))
  end.

(** A field that [omitempty] may leave out. *)
Definition str_field (name value : string) : list (string * wire) :=
  if String.eqb value "" then [] else [(name, WStr value)].
Definition int_field (name : string) (value : Z) : list (string * wire) :=
  if (value =? 0)%Z then [] else [(name, WInt value)].
Definition list_field (name : string) (value : list string) : list (string * wire) :=
  match value with [] => [] | _ => [(name, WList (map WStr value))] end.
Definition map_field (name : string) (value : gmap string wire) : list (string * wire) :=
  if size value =? 0 then [] else [(name, WMap (map_to_list value))].
