(* ===== verification/JsonRound.v ===== *)
(** * What is written in JSON reads back

    The text [json.Marshal] gives a value, read by [json.Unmarshal], is the value again;
    in its strings each byte that is no part of a rune comes back as U+FFFD, as both ends
    of the codec do. *)
From S2P Require Import Prelude GoStr GoText Sql Json JsonValue.

(** ** Strings rune by rune *)

(** A string as UTF-8: the runes Go reads in it, written out. *)
Definition as_utf8 (s : string) : string := GoStr.Join (runes s) "".

(** A rune of more than one byte. *)
Definition multibyte (r : string) : Prop :=
  (∃ a b, r = String a (String b "") ∧ rune2 a b = true) ∨
  (∃ a b c, r = String a (String b (String c "")) ∧ rune3 a b c = true) ∨
  (∃ a b c d, r = String a (String b (String c (String d ""))) ∧ rune4 a b c d = true).

Lemma join_cons x l : GoStr.Join (x :: l) "" = x +:+ GoStr.Join l "".
Proof. destruct l; [by rewrite sapp_nil_r|done]. Qed.

Lemma substring_whole t : String.substring 0 (String.length t) t = t.
Proof. induction t as [|c t IH]; cbn; [done|by rewrite IH]. Qed.

Lemma sdrop_front r t : sdrop (String.length r) (r +:+ t) = t.
Proof.
  unfold sdrop. rewrite slength_app. replace (String.length r + String.length t - String.length r) with (String.length t) by lia.
  induction r as [|c r IH]; [apply substring_whole|exact IH].
Qed.

(** What [DecodeRune] finds: an ASCII byte, a byte that is no part of a rune, or a rune of
    several bytes. *)
Inductive first_rune : string → Prop :=
| first_ascii c t : nat_of c < 128 → first_rune (String c t)
| first_stray c t : 128 ≤ nat_of c → DecodeRune (String c t) = (rune_error, 1) → runes (String c t) = rune_error :: runes t →
    first_rune (String c t)
| first_multibyte r t : multibyte r → first_rune (r +:+ t).

Lemma first_rune_of s : s ≠ "" → first_rune s.
Proof.
  destruct s as [|a s1]; [done|]. intros _. destruct (Nat.ltb_spec (nat_of a) 128) as [A|A]; [by constructor|].
  assert (Stray : DecodeRune (String a s1) = (rune_error, 1) → runes (String a s1) = rune_error :: runes s1 →
    first_rune (String a s1)) by (by constructor).
  cbn [DecodeRune runes] in Stray. apply Nat.ltb_ge in A as A'. rewrite A' in Stray.
  destruct s1 as [|b s2]; [by apply Stray|].
  destruct (rune2 a b) eqn:R; [apply (first_multibyte (String a (String b "")) s2); left; eauto|].
  destruct s2 as [|c s3]; [by apply Stray|].
  destruct (rune3 a b c) eqn:R3; [apply (first_multibyte (String a (String b (String c ""))) s3); right; left; eauto|].
  destruct s3 as [|d s4]; [by apply Stray|].
  destruct (rune4 a b c d) eqn:R4; [|by apply Stray].
  apply (first_multibyte (String a (String b (String c (String d "")))) s4). right; right; eauto 6.
Qed.

Lemma lead_bytes a b c d :
  (rune2 a b = true → 194 ≤ nat_of a ≤ 223 ∧ 128 ≤ nat_of b) ∧
  (rune3 a b c = true → 224 ≤ nat_of a ≤ 239 ∧ 128 ≤ nat_of b ∧ 128 ≤ nat_of c) ∧
  (rune4 a b c d = true → 240 ≤ nat_of a ∧ 128 ≤ nat_of b ∧ 128 ≤ nat_of c ∧ 128 ≤ nat_of d).
Proof.
  unfold rune2, rune3, rune4, continuation, between.
  split; [|split]; intros R; repeat case_match; rewrite ?andb_true_iff, ?Nat.leb_le, ?Nat.eqb_eq in *; lia.
Qed.

(** A rune of several bytes is decoded and listed whole, whatever comes after it. *)
Lemma multibyte_decodes r t : multibyte r →
  DecodeRune (r +:+ t) = (r, String.length r) ∧ runes (r +:+ t) = r :: runes t.
Proof.
  intros [(a & b & -> & R)|[(a & b & c & -> & R)|(a & b & c & d & -> & R)]];
    [change (_ +:+ t) with (String a (String b t))
    |change (_ +:+ t) with (String a (String b (String c t)))
    |change (_ +:+ t) with (String a (String b (String c (String d t))))]; cbn [DecodeRune runes].
  all: pose proof (lead_bytes a b a a) as [L2 _].
  - specialize (L2 R). replace (nat_of a <? 128) with false by (symmetry; apply Nat.ltb_ge; lia). by rewrite R.
  - destruct (lead_bytes a b c a) as (_ & L & _). specialize (L R).
    replace (nat_of a <? 128) with false by (symmetry; apply Nat.ltb_ge; lia).
    destruct (rune2 a b); [specialize (L2 eq_refl); lia|]. by rewrite R.
  - destruct (lead_bytes a b c d) as (_ & _ & L). specialize (L R).
    replace (nat_of a <? 128) with false by (symmetry; apply Nat.ltb_ge; lia).
    destruct (rune2 a b); [specialize (L2 eq_refl); lia|].
    destruct (rune3 a b c) eqn:R3; [destruct (lead_bytes a b c a) as (_ & L3 & _); specialize (L3 R3); lia|].
    by rewrite R.
Qed.

Lemma multibyte_bytes r : multibyte r → Forall (λ c, 128 ≤ nat_of c) (String.list_ascii_of_string r).
Proof.
  intros [(a & b & -> & R)|[(a & b & c & -> & R)|(a & b & c & d & -> & R)]]; cbn.
  - apply (lead_bytes a b a a) in R. repeat constructor; lia.
  - apply (lead_bytes a b c a) in R. repeat constructor; lia.
  - apply (lead_bytes a b c d) in R. repeat constructor; lia.
Qed.

(** ** Escapes *)

(** The scanner inside a string: it stays there over the whole text. *)
Fixpoint string_run (st : jstate) (t : string) : option jstate :=
  match t with
  | EmptyString => Some st
  | String c t =>
      match jstep (mkScanner st []) c with
      | Some (s, _) => if in_string (stp s) then string_run (stp s) t else None
      | None => None
      end
  end.

Lemma string_run_app st t u : string_run st (t +:+ u) = match string_run st t with Some st' => string_run st' u | None => None end.
Proof.
  revert st. induction t as [|c t IH]; intros st; [reflexivity|].
  change (String c t +:+ u) with (String c (t +:+ u)). cbn [string_run].
  destruct (jstep _ c) as [[s k]|]; [|done]. destruct (in_string (stp s)); [apply IH|done].
Qed.

Lemma high_bytes_stay t : Forall (λ c, 128 ≤ nat_of c) (String.list_ascii_of_string t) → string_run InString t = Some InString.
Proof.
  induction t as [|c t IH]; [done|]. cbn [String.list_ascii_of_string string_run]. intros [C H]%Forall_cons.
  unfold jstep, ch. cbn [stp parseState].
  replace (nat_of c =? 34) with false by (symmetry; apply Nat.eqb_neq; lia).
  replace (nat_of c =? 92) with false by (symmetry; apply Nat.eqb_neq; lia).
  replace (nat_of c <? 32) with false by (symmetry; apply Nat.ltb_ge; lia). exact (IH H).
Qed.

(** The text of one rune: it keeps the scanner in the string and is read back as it. *)
Definition piece (t r : string) : Prop :=
  1 ≤ String.length t ∧ string_run InString t = Some InString ∧ ∀ f u, unquote_go (S f) (t +:+ u) = r +:+ unquote_go f u.

Ltac reads_alone :=
  split; [apply Nat.leb_le; reflexivity|split; [reflexivity|]];
  let f := fresh "f" in let u := fresh "u" in intros f u;
  first [reflexivity
        |match goal with |- _ = ?r +:+ _ =>
           transitivity (r +:+ unquote_go f (sdrop 1 (r +:+ u))); 
             [reflexivity|exact (f_equal (λ x, r +:+ unquote_go f x) (sdrop_front r u))] end].

Lemma ascii_piece c : nat_of c < 128 → piece (escape_byte c) (String c "").
Proof.
  intros H. destruct c as [[] [] [] [] [] [] [] []]; first [reads_alone | exfalso; revert H; vm_compute; lia].
Qed.

Lemma stray_piece : piece "\ufffd" rune_error.
Proof. reads_alone. Qed.

Lemma plain_piece r : multibyte r → piece r r.
Proof.
  intros M. split; [destruct M as [(a & b & -> & _)|[(a & b & c & -> & _)|(a & b & c & d & -> & _)]]; cbn; lia|].
  split; [by apply high_bytes_stay, multibyte_bytes|]. intros f u.
  destruct (multibyte_decodes r u M) as [D _].
  assert (H : ∃ c r', r = String c r' ∧ 128 ≤ nat_of c).
  { pose proof (multibyte_bytes r M) as B.
    destruct M as [(a & b & -> & _)|[(a & b & c & -> & _)|(a & b & c & d & -> & _)]]; apply Forall_cons in B as [B _]; eauto. }
  destruct H as (c & r' & -> & C). change (String c r' +:+ u) with (String c (r' +:+ u)) in *. cbn [unquote_go].
  unfold ch. replace (nat_of c =? 92) with false by (symmetry; apply Nat.eqb_neq; lia). rewrite D.
  f_equal. f_equal. exact (sdrop_front (String c r') u).
Qed.

Lemma multibyte_piece r : multibyte r → piece (from_opt r (separator r)) r.
Proof.
  intros M. unfold separator.
  destruct (String.eqb_spec r (EncodeRune 8232)) as [->|]; [reads_alone|].
  destruct (String.eqb_spec r (EncodeRune 8233)) as [->|]; [reads_alone|].
  by apply plain_piece.
Qed.

(** Escaping goes rune by rune. *)
Lemma escape_step s n : s ≠ "" → ∃ t r u, escape (S n) s = t +:+ escape n u ∧ piece t r ∧ runes s = r :: runes u
  ∧ String.length u < String.length s.
Proof.
  intros N. destruct (first_rune_of s N) as [c t A|c t A D R|r t M].
  - exists (escape_byte c), (String c ""), t. cbn [escape runes]. apply Nat.ltb_lt in A as A'. rewrite A'.
    split; [done|]. split; [by apply ascii_piece|]. split; [done|]. cbn. lia.
  - exists "\ufffd", rune_error, t. apply Nat.ltb_ge in A as A'.
    split; [|split; [apply stray_piece|split; [done|]]].
    2:{ cbn. lia. }
    cbn [escape]. rewrite A', D. reflexivity.
  - destruct (multibyte_decodes r t M) as [D R]. exists (from_opt r (separator r)), r, t.
    split; [|split; [by apply multibyte_piece|split; [done|]]].
    2:{ rewrite slength_app. destruct M as [(a & b & -> & _)|[(a & b & c & -> & _)|(a & b & c & d & -> & _)]]; cbn; lia. }
    pose proof (multibyte_bytes r M) as B.
    assert (L : 2 ≤ String.length r).
    { destruct M as [(a & b & -> & _)|[(a & b & c & -> & _)|(a & b & c & d & -> & _)]]; cbn; lia. }
    destruct r as [|c r']; [cbn in L; lia|]. apply Forall_cons in B as [B _].
    change (String c r' +:+ t) with (String c (r' +:+ t)) in *. cbn [escape]. apply Nat.ltb_ge in B. rewrite B, D.
    replace (String.length (String c r') =? 1) with false by (symmetry; apply Nat.eqb_neq; lia).
    rewrite andb_false_r. f_equal. f_equal. exact (sdrop_front (String c r') t).
Qed.

(** The escaped text keeps the scanner in the string, and unquoting it gives the string. *)
Lemma escape_reads s : ∀ n, String.length s ≤ n →
  string_run InString (escape n s) = Some InString
  ∧ ∀ f, String.length (escape n s) ≤ f → unquote_go f (escape n s) = as_utf8 s.
Proof.
  intros n. revert s. induction n as [|n IH]; intros s L.
  { destruct s; [|cbn in L; lia]. split; [done|]. by intros [|f]. }
  destruct (decide (s = "")) as [->|N]; [split; [done|]; by intros [|f]|].
  destruct (escape_step s n N) as (t & r & u & -> & (P & Run & Read) & R & Lu).
  destruct (IH u) as [RunU ReadU]; [lia|]. split; [by rewrite string_run_app, Run|].
  intros [|f]; rewrite slength_app; intros Lf; [lia|]. rewrite Read, ReadU by lia.
  unfold as_utf8. by rewrite R, join_cons.
Qed.

Lemma unquote_escape s : unquote (escape (String.length s) s) = as_utf8 s.
Proof. by apply escape_reads. Qed.

(** ** Values *)

(** The value a written value reads as. *)
Fixpoint wire_tree (w : wire) : json :=
  match w with
  | WJson (JStr s) => JStr (as_utf8 s)
  | WJson v => v
  | WInt n => JNum (FormatInt n)
  | WBool b => JBool b
  | WList items => JArr (map wire_tree items)
  | WStruct fields => JObj (map (λ p, (as_utf8 p.1, wire_tree p.2)) fields)
  | WMap members => JObj (map (λ p, (as_utf8 p.1, p.2)) (canonical (map (λ p, (p.1, wire_tree p.2)) members)))
  end.

(** Values without numbers; decoded ones only as scalars. *)
Fixpoint numberless (w : wire) : bool :=
  match w with
  | WJson (JStr _) | WJson JNull | WJson (JBool _) | WBool _ => true
  | WJson _ | WInt _ => false
  | WList items => forallb numberless items
  | WStruct fields => forallb (λ p, numberless p.2) fields
  | WMap members => forallb (λ p, numberless p.2) members
  end.

Fixpoint wire_depth (w : wire) : nat :=
  match w with
  | WList items => S (list_max (map wire_depth items))
  | WStruct fields => S (list_max (map (λ p, wire_depth p.2) fields))
  | WMap members => S (list_max (map (λ p, wire_depth p.2) members))
  | _ => 0
  end.

(** Where a value begins, and where it ends inside a container. *)
Definition at_value (st : jstate) : Prop := st = BeginValue ∨ st = BeginValueOrEmpty.
Definition at_key (st : jstate) : Prop := st = BeginString ∨ st = BeginStringOrEmpty.
Definition popped (ps : list parse_state) : scanner := match ps with [] => mkScanner EndTop [] | _ => mkScanner EndValue ps end.

(** So many levels more are within the scanner's limit. *)
Definition deep (ps : list parse_state) (d : nat) : Prop := (Z.of_nat (length ps + d) <= maxNestingDepth)%Z.

(** A text that reads as a value of so many levels. *)
Definition reads (d : nat) (t : string) (v : json) : Prop := ∀ st ps b rest,
  at_value st → ps ≠ [] → deep ps d →
  parse_from (mkScanner st ps) b (t +:+ rest) = parse_from (mkScanner EndValue ps) (emit v b) rest.

Lemma reads_deeper d d' t v : d ≤ d' → reads d t v → reads d' t v.
Proof. unfold reads, deep. intros L H st ps b rest A N D. apply H; [done|done|lia]. Qed.

Lemma emit_lit v fs l l' r : emit v (mkBuilder fs l r) = emit v (mkBuilder fs l' r).
Proof. by destruct fs as [|[|? [|]] ?]. Qed.

Lemma cons_app c t u : String c t +:+ u = String c (t +:+ u).
Proof. done. Qed.

(** A string up to its closing quote. *)
Lemma string_step st c s k ps : in_string st = true → jstep (mkScanner st []) c = Some (s, k) → in_string (stp s) = true →
  jstep (mkScanner st ps) c = Some (mkScanner (stp s) ps, k).
Proof.
  intros I J S. destruct st; try done; unfold jstep, keep in *; cbn [stp parseState] in *;
    repeat case_match; simplify_eq; done.
Qed.

Lemma string_body_reads t : ∀ st ps fs l r rest,
  in_string st = true → string_run st t = Some InString →
  parse_from (mkScanner st ps) (mkBuilder fs l r) (t +:+ dq +:+ rest)
  = parse_from (mkScanner EndValue ps) (emit (JStr (unquote (String.rev_app l t))) (mkBuilder fs "" r)) rest.
Proof.
  induction t as [|c t IH]; intros st ps fs l r rest I R.
  - cbn in R. injection R as ->. change ("" +:+ dq +:+ rest) with (String (ascii_of_nat 34) rest). cbn [parse_from].
    rewrite (emit_lit _ fs "" l). reflexivity.
  - rewrite cons_app. cbn [parse_from]. cbn [string_run] in R.
    destruct (jstep (mkScanner st []) c) as [[s k]|] eqn:J; [|done]. destruct (in_string (stp s)) eqn:S; [|done].
    rewrite (string_step _ _ _ _ ps I J S). cbn [stp]. unfold build_step. rewrite I, S.
    unfold set_lit. cbn [frames lit result]. by apply IH.
Qed.

Lemma quote_reads_any s st ps b rest : at_value st ∨ at_key st →
  parse_from (mkScanner st ps) b (quote s +:+ rest) = parse_from (mkScanner EndValue ps) (emit (JStr (as_utf8 s)) b) rest.
Proof.
  intros A. unfold quote, q. rewrite <- !sapp_assoc. change (dq +:+ ?x) with (String (ascii_of_nat 34) x).
  cbn [parse_from].
  assert (jstep (mkScanner st ps) (ascii_of_nat 34) = Some (mkScanner InString ps, true)) as ->
    by (destruct A as [[->| ->]|[->| ->]]; reflexivity).
  destruct (escape_reads s (String.length s) (le_n _)) as [Run _].
  destruct b as [fs l r].
  cbn [stp]. assert (build_step st InString (ascii_of_nat 34) (mkBuilder fs l r) = mkBuilder fs "" r) as ->
    by (destruct A as [[->| ->]|[->| ->]]; reflexivity).
  rewrite string_body_reads by done. cbn [String.rev_app]. rewrite unquote_escape. by rewrite (emit_lit _ _ "" l).
Qed.

Lemma quote_reads s d : reads d (quote s) (JStr (as_utf8 s)).
Proof. intros st ps b rest A _ _. apply quote_reads_any. by left. Qed.

Lemma word_reads d : reads d "null" JNull ∧ reads d "true" (JBool true) ∧ reads d "false" (JBool false).
Proof. split; [|split]; intros st ps b rest [->| ->] _ _; reflexivity. Qed.

(** ** Containers *)

Lemma deep_push ps d p : deep ps (S d) → deep (p :: ps) d.
Proof. unfold deep. cbn [length]. intros H. by replace (S (length ps) + d) with (length ps + S d) by lia. Qed.

Lemma push_allowed new st ps d : deep ps (S d) → pushParseState new st ps = Some (mkScanner st (new :: ps), true).
Proof. unfold deep, pushParseState, keep. cbn [length]. intros H. rewrite (proj2 (Z.leb_le _ _)); [done|lia]. Qed.

(** The bracket that closes a container. *)
Lemma close_reads p c f ps fs r rest : p = parseArrayValue ∧ c = ascii_of_nat 93 ∨ p = parseObjectValue ∧ c = ascii_of_nat 125 →
  parse_from (mkScanner EndValue (p :: ps)) (mkBuilder (f :: fs) "" r) (String c rest)
  = parse_from (popped ps) (pop (mkBuilder (f :: fs) "" r)) rest.
Proof. intros [[-> ->]|[-> ->]]; destruct ps; reflexivity. Qed.

Lemma items_read d ts vs : Forall2 (reads d) ts vs → ts ≠ [] → ∀ st ps acc fs l r rest,
  at_value st → deep ps (S d) →
  parse_from (mkScanner st (parseArrayValue :: ps)) (mkBuilder (FArr acc :: fs) l r) (GoStr.Join ts "," +:+ "]" +:+ rest)
  = parse_from (popped ps) (emit (JArr (rev acc ++ vs)) (mkBuilder fs "" r)) rest.
Proof.
  induction 1 as [|t v ts vs H Hs IH]; [done|]. intros _ st ps acc fs l r rest A D.
  destruct ts as [|t' ts].
  - inversion Hs; subst. cbn [GoStr.Join]. rewrite H by (done || by apply deep_push).
    cbn [emit frames result]. rewrite cons_app, close_reads by (left; done). unfold pop. by cbn [frames lit result rev].
  - change (GoStr.Join (t :: t' :: ts) ",") with (t +:+ "," +:+ GoStr.Join (t' :: ts) ","). rewrite <- !sapp_assoc.
    rewrite H by (done || by apply deep_push). cbn [emit frames result].
    change ("," +:+ ?x) with (String (ascii_of_nat 44) x). cbn [parse_from].
    change (jstep _ (ascii_of_nat 44)) with (Some (mkScanner BeginValue (parseArrayValue :: ps), true)). cbn [stp].
    change (build_step _ _ _ ?b) with b.
    rewrite IH by (done || by left). cbn [rev]. by rewrite <- app_assoc.
Qed.

Lemma array_reads d ts vs : Forall2 (reads d) ts vs → ∀ st ps b rest, at_value st → deep ps (S d) →
  parse_from (mkScanner st ps) b ("[" +:+ GoStr.Join ts "," +:+ "]" +:+ rest) = parse_from (popped ps) (emit (JArr vs) b) rest.
Proof.
  intros H st ps [fs l r] rest A D. change ("[" +:+ ?x) with (String (ascii_of_nat 91) x). cbn [parse_from].
  assert (jstep (mkScanner st ps) (ascii_of_nat 91) = Some (mkScanner BeginValueOrEmpty (parseArrayValue :: ps), true)) as ->
    by (destruct A as [->| ->]; exact (push_allowed parseArrayValue BeginValueOrEmpty ps d D)).
  cbn [stp]. assert (build_step st BeginValueOrEmpty (ascii_of_nat 91) (mkBuilder fs l r) = mkBuilder (FArr [] :: fs) l r) as ->
    by (by destruct A as [->| ->]).
  destruct H as [|t v ts vs H Hs].
  - cbn [GoStr.Join]. rewrite (emit_lit _ fs l ""). destruct ps; destruct fs as [|[|? [|]] ?]; reflexivity.
  - rewrite (items_read d (t :: ts) (v :: vs)) by (done || by constructor || by right). cbn [rev app]. by rewrite (emit_lit _ fs l "").
Qed.

(** A member: its key, and its text with the value. *)
Definition reads_member (d : nat) (m : string * string) (p : string * json) : Prop := p.1 = as_utf8 m.1 ∧ reads d m.2 p.2.

Definition member_text (m : string * string) : string := quote m.1 +:+ ":" +:+ m.2.

Lemma member_reads d m p : reads_member d m p → ∀ st ps acc fs l r rest, at_key st → deep ps (S d) →
  parse_from (mkScanner st (parseObjectKey :: ps)) (mkBuilder (FObj acc None :: fs) l r) (member_text m +:+ rest)
  = parse_from (mkScanner EndValue (parseObjectValue :: ps)) (mkBuilder (FObj (p :: acc) None :: fs) "" r) rest.
Proof.
  intros [K H] st ps acc fs l r rest A D. unfold member_text. rewrite <- !sapp_assoc, quote_reads_any by (by right).
  cbn [emit frames result]. change (":" +:+ ?x) with (String (ascii_of_nat 58) x). cbn [parse_from].
  change (jstep _ (ascii_of_nat 58)) with (Some (mkScanner BeginValue (parseObjectValue :: ps), true)). cbn [stp].
  change (build_step _ _ _ ?b) with b. rewrite H by (by left || done || by apply deep_push).
  cbn [emit frames result]. rewrite <- K. by destruct p.
Qed.

Lemma members_read d ms ps' : Forall2 (reads_member d) ms ps' → ms ≠ [] → ∀ st ps acc fs l r rest,
  at_key st → deep ps (S d) →
  parse_from (mkScanner st (parseObjectKey :: ps)) (mkBuilder (FObj acc None :: fs) l r)
    (GoStr.Join (map member_text ms) "," +:+ "}" +:+ rest)
  = parse_from (popped ps) (emit (JObj (rev acc ++ ps')) (mkBuilder fs "" r)) rest.
Proof.
  induction 1 as [|m p ms ps' H Hs IH]; [done|]. intros _ st ps acc fs l r rest A D.
  destruct ms as [|m' ms].
  - inversion Hs; subst. cbn [map GoStr.Join]. rewrite (member_reads d m p) by done.
    rewrite cons_app, close_reads by (right; done). unfold pop. by cbn [frames lit result rev].
  - change (GoStr.Join (map member_text (m :: m' :: ms)) ",")
      with (member_text m +:+ "," +:+ GoStr.Join (map member_text (m' :: ms)) ","). rewrite <- !sapp_assoc.
    rewrite (member_reads d m p) by done. change ("," +:+ ?x) with (String (ascii_of_nat 44) x). cbn [parse_from].
    change (jstep _ (ascii_of_nat 44)) with (Some (mkScanner BeginString (parseObjectKey :: ps), true)). cbn [stp].
    change (build_step _ _ _ ?b) with b. rewrite IH by (done || by left). cbn [rev]. by rewrite <- app_assoc.
Qed.

Lemma object_reads d ms ps' : Forall2 (reads_member d) ms ps' → ∀ st ps b rest, at_value st → deep ps (S d) →
  parse_from (mkScanner st ps) b (object_text ms +:+ rest) = parse_from (popped ps) (emit (JObj ps') b) rest.
Proof.
  intros H st ps [fs l r] rest A D. unfold object_text. rewrite <- !sapp_assoc.
  change ("{" +:+ ?x) with (String (ascii_of_nat 123) x). cbn [parse_from].
  assert (jstep (mkScanner st ps) (ascii_of_nat 123) = Some (mkScanner BeginStringOrEmpty (parseObjectKey :: ps), true)) as ->
    by (destruct A as [->| ->]; exact (push_allowed parseObjectKey BeginStringOrEmpty ps d D)).
  cbn [stp]. assert (build_step st BeginStringOrEmpty (ascii_of_nat 123) (mkBuilder fs l r) = mkBuilder (FObj [] None :: fs) l r) as ->
    by (by destruct A as [->| ->]).
  destruct H as [|m p ms ps' H Hs].
  - cbn [map GoStr.Join]. rewrite (emit_lit _ fs l ""). destruct ps; destruct fs as [|[|? [|]] ?]; reflexivity.
  - change (λ p0 : string * string, quote p0.1 +:+ ":" +:+ p0.2) with member_text.
    rewrite (members_read d (m :: ms) (p :: ps')) by (done || by constructor || by right). cbn [rev app]. by rewrite (emit_lit _ fs l "").
Qed.

(** ** The keys of a map *)

Lemma sort_with_map {A B} (leb : A → A → bool) (leb' : B → B → bool) (g : A → B) l :
  (∀ a b, leb' (g a) (g b) = leb a b) → sort_with leb' (map g l) = map g (sort_with leb l).
Proof.
  intros H. induction l as [|x l IH]; [done|]. cbn. rewrite IH. generalize (sort_with leb l). intros l'.
  induction l' as [|y l' IH']; [done|]. cbn. rewrite H. destruct (leb x y); [done|]. cbn. by rewrite IH'.
Qed.

(** Putting keys in order does not look at what they stand for. *)
Lemma canonical_map {A B} (f : A → B) l :
  canonical (map (λ p, (p.1, f p.2)) l) = map (λ p : string * A, (p.1, f p.2)) (canonical l).
Proof.
  unfold canonical.
  assert (∀ m : gmap string A, fold_left (λ m p, <[p.1 := p.2]> m) (map (λ p : string * A, (p.1, f p.2)) l) (f <$> m)
          = f <$> fold_left (λ m p, <[p.1 := p.2]> m) l m) as F.
  { induction l as [|p l IH]; intros m; [done|]. cbn. by rewrite <- fmap_insert, IH. }
  specialize (F ∅). rewrite fmap_empty in F. rewrite F, map_to_list_fmap. by apply sort_with_map.
Qed.

Lemma canonical_elem {A} (l : list (string * A)) p : p ∈ canonical l → p ∈ l.
Proof.
  unfold canonical. rewrite sort_with_perm. destruct p as [k v]. rewrite elem_of_map_to_list.
  assert (∀ m : gmap string A, fold_left (λ m p, <[p.1 := p.2]> m) l m !! k = Some v → (k, v) ∈ l ∨ m !! k = Some v) as F.
  { induction l as [|[k' v'] l IH]; intros m; cbn; [by right|]. intros [H|H]%IH; [left; by right|].
    destruct (decide (k' = k)) as [->|N].
    - rewrite lookup_insert_eq in H. injection H as ->. left. by left.
    - rewrite lookup_insert_ne in H by done. by right. }
  intros [H|H]%F; [done|]. by rewrite lookup_empty in H.
Qed.

(** ** The round trip *)

Section round.
Context {Fl : Floats}.

Lemma max_depth l d : list_max l ≤ d ↔ ∀ x, x ∈ l → x ≤ d.
Proof. rewrite list_max_le, Forall_forall. done. Qed.

Lemma fields_read d (fields : list (string * wire)) :
  (∀ p, p ∈ fields → reads d (wire_text p.2) (wire_tree p.2)) →
  Forall2 (reads_member d) (map (λ p, (p.1, wire_text p.2)) fields) (map (λ p, (as_utf8 p.1, wire_tree p.2)) fields).
Proof.
  induction fields as [|p fields IH]; intros H; constructor; [split; [done|apply H; left]|apply IH].
  intros p' Hp. apply H. by right.
Qed.

Lemma container_reads d t v : (∀ st ps b rest, at_value st → deep ps (S d) →
    parse_from (mkScanner st ps) b (t +:+ rest) = parse_from (popped ps) (emit v b) rest) → reads (S d) t v.
Proof. intros H st ps b rest A N D. rewrite H by done. by destruct ps. Qed.

(** What a container reads as, at the end of a document too. *)
Definition reads_here (d : nat) (t : string) (v : json) : Prop := ∀ st ps b rest, at_value st → deep ps d →
  parse_from (mkScanner st ps) b (t +:+ rest) = parse_from (popped ps) (emit v b) rest.

Definition is_object (w : wire) : bool := match w with WStruct _ | WMap _ => true | _ => false end.

Lemma reads_here_reads d t v : reads_here d t v → reads d t v.
Proof. intros H st ps b rest A N D. rewrite H by done. by destruct ps. Qed.

Lemma object_here d w : is_object w = true → wire_depth w ≤ S d → numberless w = true →
  (∀ w', wire_depth w' ≤ d → numberless w' = true → reads d (wire_text w') (wire_tree w')) →
  reads_here (S d) (wire_text w) (wire_tree w).
Proof.
  intros O D P IH.
  assert (Sub : ∀ fields : list (string * wire), list_max (map (λ p, wire_depth p.2) fields) ≤ d →
    forallb (λ p, numberless p.2) fields = true → ∀ p, p ∈ fields → reads d (wire_text p.2) (wire_tree p.2)).
  { intros fields L N p Hp. apply IH.
    - apply (proj1 (max_depth _ _) L). apply list_elem_of_In, in_map_iff. exists p. split; [done|by apply list_elem_of_In].
    - apply forallb_forall with (x := p) in N; [done|by apply list_elem_of_In]. }
  destruct w as [| | | |fields|members]; try done; cbn [wire_depth numberless] in *;
    intros st ps b rest A Dp; cbn [wire_text wire_tree].
  - apply (object_reads d); [|done..]. apply fields_read, Sub; [lia|done].
  - rewrite !canonical_map, map_map. cbn [fst snd]. apply (object_reads d); [|done..].
    apply fields_read. intros p Hp. apply (Sub members); [lia|done|by apply canonical_elem].
Qed.

(** Every value without numbers, however deep the scanner allows. *)
Lemma wire_reads d : ∀ w, wire_depth w ≤ d → numberless w = true → reads d (wire_text w) (wire_tree w).
Proof.
  induction d as [|d IH]; intros w D P.
  - destruct w as [[|[]| |s| |]| |[]| | |]; try done; cbn [wire_text encode wire_tree]; try apply word_reads; try apply quote_reads;
      cbn in D; lia.
  - destruct (is_object w) eqn:O; [by apply reads_here_reads, object_here|].
    destruct w as [[|[]| |s| |]| |[]|items| |]; try done; cbn [wire_text encode wire_tree];
      try apply word_reads; try apply quote_reads.
    apply container_reads. intros st ps b rest A Dp. rewrite <- !sapp_assoc. apply (array_reads d); [|done..].
    cbn [wire_depth numberless] in *. apply Forall2_fmap_2, Forall_Forall2_diag, Forall_forall. intros x Hx. apply IH.
    + apply (proj1 (max_depth (map wire_depth items) d)); [lia|]. by apply list_elem_of_fmap_2.
    + apply forallb_forall with (x := x) in P; [done|by apply list_elem_of_In].
Qed.

(** An object written by [json.Marshal] parses to the object. *)
Lemma parse_written w : is_object w = true → numberless w = true → (Z.of_nat (wire_depth w) <= maxNestingDepth)%Z →
  parse (wire_text w) = Some (wire_tree w).
Proof.
  intros O P D. assert (exists d, wire_depth w = S d) as [d E] by (destruct w; try done; by eexists).
  unfold parse, jstart. rewrite <- (sapp_nil_r (wire_text w)), (object_here d w); try done.
  - by rewrite E.
  - apply wire_reads.
  - by left.
  - unfold deep. by rewrite <- E.
Qed.

(** Values the round trip covers, of so many levels at most. *)
Definition fits (d : nat) (w : wire) : Prop := numberless w = true ∧ wire_depth w ≤ d.
Definition fields_fit (d : nat) (fields : list (string * wire)) : Prop := ∀ p, p ∈ fields → fits d p.2.

Lemma fits_deeper d d' w : d ≤ d' → fits d w → fits d' w.
Proof. intros L [P D]. split; [done|lia]. Qed.

Lemma fits_str d s : fits d (WStr s).
Proof. split; [done|cbn; lia]. Qed.

Lemma fits_bool d b : fits d (WBool b).
Proof. split; [done|cbn; lia]. Qed.

Lemma fits_null d : fits d (WJson JNull).
Proof. split; [done|cbn; lia]. Qed.

Lemma fits_list d l : (∀ x, x ∈ l → fits d x) → fits (S d) (WList l).
Proof.
  intros H. split; cbn [numberless wire_depth].
  - apply forallb_forall. intros x Hx. by apply H, list_elem_of_In.
  - apply le_n_S, max_depth. intros n Hn. apply list_elem_of_fmap in Hn as (x & -> & Hx). by apply H.
Qed.

Lemma fits_struct d fields : fields_fit d fields → fits (S d) (WStruct fields).
Proof.
  intros H. split; cbn [numberless wire_depth].
  - apply forallb_forall. intros x Hx. by apply H, list_elem_of_In.
  - apply le_n_S, max_depth. intros n Hn. apply list_elem_of_fmap in Hn as (x & -> & Hx). by apply H.
Qed.

Lemma fields_fit_nil d : fields_fit d [].
Proof. intros p Hp. by apply elem_of_nil in Hp. Qed.

Lemma fields_fit_cons d name w fields : fits d w → fields_fit d fields → fields_fit d ((name, w) :: fields).
Proof. intros W F p Hp. apply elem_of_cons in Hp as [->|Hp]; [done|by apply F]. Qed.

Lemma fields_fit_app d f1 f2 : fields_fit d f1 → fields_fit d f2 → fields_fit d (f1 ++ f2).
Proof. intros F1 F2 p Hp. apply elem_of_app in Hp as [Hp|Hp]; auto. Qed.

Lemma str_field_fits d name v : fields_fit d (str_field name v).
Proof. unfold str_field. destruct (String.eqb v ""); [apply fields_fit_nil|apply fields_fit_cons, fields_fit_nil; apply fits_str]. Qed.

Lemma strings_fit d l : fits (S d) (WList (map WStr l)).
Proof. apply fits_list. intros x Hx. apply list_elem_of_fmap in Hx as (s & -> & _). apply fits_str. Qed.

Lemma list_field_fits d name l : fields_fit (S d) (list_field name l).
Proof. destruct l; [apply fields_fit_nil|apply fields_fit_cons, fields_fit_nil; apply (strings_fit d (s :: l))]. Qed.

End round.

#[export] Hint Resolve fits_str fits_bool fits_null fits_list fits_struct strings_fit : fits.
#[export] Hint Resolve fields_fit_nil fields_fit_cons fields_fit_app str_field_fits list_field_fits : fits.

Example selected_options_read :
  parse (@wire_text same_text (WStruct [("target", WStr ("#a<b" +:+ String (byte 255) "")); ("args", WList [WBool true; WJson JNull]);
    ("options", WMap [("z", WStr "1"); ("a", WStr "2")])]))
  = Some (JObj [("target", JStr ("#a<b" +:+ rune_error)); ("args", JArr [JBool true; JNull]);
                ("options", JObj [("a", JStr "2"); ("z", JStr "1")])]).
Proof. reflexivity. Qed.
