(* ===== verification/GoFlag.v ===== *)
(** * Reading numbers and settings ([strconv], [time], [flag])

    Durations, fields and the flags of a command line, and the numbers they are made of.
    Which strings [strconv.ParseFloat(s, 64)] accepts: the special values, decimal and
    hexadecimal literals with their underscores, and the bound beyond which a number is out
    of range.  The value itself is not modelled: the program only asks whether there is one.
    And [strconv.ParseInt(s, 0, 64)], which reads the prefix of a base. *)

From S2P Require Import Prelude GoStr GoText.

Definition lower_byte (c : ascii) : ascii := lower_ascii c.

Definition hex_letter (c : ascii) : option Z :=
  let c := lower_byte c in if between 97 102 c then Some (Z.of_nat (nat_of c) - 87)%Z else None.

(** ** Special values ([special]) *)

Definition special (s : string) : bool :=
  let s := smap lower_ascii s in
  let unsigned := match s with
                  | String c rest => if Ascii.eqb c "+" || Ascii.eqb c "-" then rest else s
                  | EmptyString => s
                  end in
  String.eqb s "nan" || String.eqb unsigned "inf" || String.eqb unsigned "infinity".

(** ** Underscores ([underscoreOK]) *)

Inductive saw := SawStart | SawDigit | SawUnderscore | SawOther.

Fixpoint underscores_go (hex : bool) (last : saw) (s : string) : bool :=
  match s with
  | EmptyString => match last with SawUnderscore => false | _ => true end
  | String c s =>
      if between 48 57 c || (hex && match hex_letter c with Some _ => true | None => false end)
      then underscores_go hex SawDigit s
      else if Ascii.eqb c "_" then match last with SawDigit => underscores_go hex SawUnderscore s | _ => false end
      else match last with SawUnderscore => false | _ => underscores_go hex SawOther s end
  end.

Definition underscoreOK (s : string) : bool :=
  let s := match s with
           | String c rest => if Ascii.eqb c "+" || Ascii.eqb c "-" then rest else s
           | EmptyString => s
           end in
  match s with
  | String z (String b rest) =>
      let b := lower_byte b in
      if Ascii.eqb z "0" && (Ascii.eqb b "b" || Ascii.eqb b "o" || Ascii.eqb b "x")
      then underscores_go (Ascii.eqb b "x") SawDigit rest
      else underscores_go false SawStart s
  | _ => underscores_go false SawStart s
  end.

(** ** Numbers ([readFloat]) *)

(** The digits read so far: their value, how many follow the point, whether a point, a
    digit or an underscore was seen. *)
Record mantissa := mkMantissa { value : Z; fraction : Z; sawdot : bool; sawdigits : bool; underscored : bool }.

Fixpoint read_digits (hex : bool) (m : mantissa) (s : string) : mantissa * string :=
  match s with
  | EmptyString => (m, s)
  | String c rest =>
      let digit (d : Z) :=
        read_digits hex (mkMantissa (value m * (if hex then 16 else 10) + d)
                           (if sawdot m then fraction m + 1 else fraction m) (sawdot m) true (underscored m)) rest in
      if Ascii.eqb c "_" then read_digits hex (mkMantissa (value m) (fraction m) (sawdot m) (sawdigits m) true) rest
      else if Ascii.eqb c "." then
        if sawdot m then (m, s) else read_digits hex (mkMantissa (value m) (fraction m) true (sawdigits m) (underscored m)) rest
      else match decimal_digit c with
           | Some d => digit d
           | None => match (if hex then hex_letter c else None) with Some d => digit d | None => (m, s) end
           end
  end.

(** The digits of an exponent; beyond 10000 they are read and ignored. *)
Fixpoint read_exponent (e : Z) (underscored : bool) (s : string) : Z * bool * string :=
  match s with
  | EmptyString => (e, underscored, s)
  | String c rest =>
      if Ascii.eqb c "_" then read_exponent e true rest
      else match decimal_digit c with
           | Some d => read_exponent (if (e <? 10000)%Z then e * 10 + d else e)%Z underscored rest
           | None => (e, underscored, s)
           end
  end.

(** The least number that rounds to infinity lies halfway between the largest double and
    [2 ^ 1024]. *)
Definition overflows (hex : bool) (value exponent : Z) : bool :=
  let limit := (2 ^ 1024 - 2 ^ 970)%Z in
  let base := if hex then 2%Z else 10%Z in
  if (0 <=? exponent)%Z then (limit <=? value * base ^ exponent)%Z
  else (limit * base ^ (- exponent) <=? value)%Z.

Definition in_range (hex : bool) (m : mantissa) (e : Z) : bool :=
  negb (overflows hex (value m) (e - (if hex then 4 else 1) * fraction m)).

(** [None] stands for a syntax error and for [ErrRange]. *)
Definition read_number (text : string) (hex : bool) (digits : string) : bool :=
  let (m, rest) := read_digits hex (mkMantissa 0 0 false false false) digits in
  let accept e underscored rest :=
    (match rest with EmptyString => true | _ => false end)
    && (negb underscored || underscoreOK text) && in_range hex m e in
  sawdigits m
  && match rest with
     | String c exponent =>
         if Ascii.eqb (lower_byte c) (if hex then "p" else "e") then
           let (sign, exponent) :=
             match exponent with
             | String d rest => if Ascii.eqb d "+" then (1%Z, rest) else if Ascii.eqb d "-" then ((-1)%Z, rest) else (1%Z, exponent)
             | EmptyString => (1%Z, exponent)
             end in
           match exponent with
           | String d _ =>
               between 48 57 d
               && (let '(e, underscored, rest) := read_exponent 0 (underscored m) exponent in
                   accept (sign * e)%Z underscored rest)
           | EmptyString => false
           end
         else false
     | EmptyString => negb hex && accept 0%Z (underscored m) ""
     end.

Definition ParseFloat (s : string) : bool :=
  special s
  || (let digits := match s with
                    | String c rest => if Ascii.eqb c "+" || Ascii.eqb c "-" then rest else s
                    | EmptyString => s
                    end in
      match digits with
      | String z (String x (String c rest)) =>
          if Ascii.eqb z "0" && Ascii.eqb (lower_byte x) "x" then read_number s true (String c rest)
          else read_number s false digits
      | _ => read_number s false digits
      end).

Example floats_read :
  ParseFloat <$> ["0"; "-12.5e3"; "+.5"; "5."; "0x1p-2"; "Inf"; "-Infinity"; "NaN"; "1_000.5"; "1e308"]
  = replicate 10 true.
Proof. vm_compute. reflexivity. Qed.

Example floats_refused :
  ParseFloat <$> [""; "."; "1e"; "1e+"; "0x1"; "+NaN"; "1__0"; "_1"; "1.2.3"; "1e309"; "ten"; "1 "]
  = replicate 12 false.
Proof. vm_compute. reflexivity. Qed.

(** ** Integers in any base ([strconv.ParseInt] with base 0) *)

Definition any_digit (c : ascii) : option Z :=
  match decimal_digit c with
  | Some d => Some d
  | None => let c := lower_byte c in if between 97 122 c then Some (Z.of_nat (nat_of c) - 87)%Z else None
  end.

(** The value of the digits of a base and whether an underscore was seen. *)
Fixpoint based (base acc : Z) (underscored : bool) (s : string) : option (Z * bool) :=
  match s with
  | EmptyString => Some (acc, underscored)
  | String c s =>
      if Ascii.eqb c "_" then based base acc true s
      else match any_digit c with
           | Some d => if (d <? base)%Z then based base (acc * base + d)%Z underscored s else None
           | None => None
           end
  end.

Definition base_of (s : string) : Z * string :=
  match s with
  | String z rest =>
      if negb (Ascii.eqb z "0") then (10%Z, s)
      else match rest with
           | String b (String _ _ as digits) =>
               let b := lower_byte b in
               if Ascii.eqb b "b" then (2%Z, digits)
               else if Ascii.eqb b "o" then (8%Z, digits)
               else if Ascii.eqb b "x" then (16%Z, digits)
               else (8%Z, rest)
           | _ => (8%Z, rest)
           end
  | EmptyString => (10%Z, s)
  end.

(** [None] stands for a syntax error and for [ErrRange]. *)
Definition ParseInt0 (s : string) : option Z :=
  let (neg, s) :=
    match s with
    | String c rest => if Ascii.eqb c "-" then (true, rest) else if Ascii.eqb c "+" then (false, rest) else (false, s)
    | EmptyString => (false, s)
    end in
  if String.eqb s "" then None
  else
    let (base, digits) := base_of s in
    match based base 0 false digits with
    | None => None
    | Some (n, underscored) =>
        if underscored && negb (underscoreOK s) then None
        else
          let z := if neg then (- n)%Z else n in
          if (- 2 ^ 63 <=? z)%Z && (z <? 2 ^ 63)%Z then Some z else None
    end.

Example integers_read :
  ParseInt0 <$> ["0"; "-12"; "0x1F"; "0b101"; "017"; "1_000"; "0x"; "_1"; "08"; "9223372036854775808"; ""]
  = [Some 0%Z; Some (-12)%Z; Some 31%Z; Some 5%Z; Some 15%Z; Some 1000%Z; None; None; None; None; None].
Proof. vm_compute. reflexivity. Qed.

(** * Reading settings: durations, fields and flags

    What the daemon's start-up uses of [time.ParseDuration], [strings.Fields] and the
    [flag] package. *)

(** ** Durations ([time.ParseDuration]) *)

(** [leadingInt]: [None] is an overflow. *)
Fixpoint leadingInt (x : Z) (s : string) : option (Z * string) :=
  match s with
  | EmptyString => Some (x, s)
  | String c rest =>
      match decimal_digit c with
      | None => Some (x, s)
      | Some d =>
          if (2 ^ 63 / 10 <? x)%Z then None
          else let x := (x * 10 + d)%Z in if (2 ^ 63 <? x)%Z then None else leadingInt x rest
      end
  end.

(** [leadingFraction]: the digits as a number, their scale, the rest. *)
Fixpoint leadingFraction (overflow : bool) (x scale : Z) (s : string) : Z * Z * string :=
  match s with
  | EmptyString => (x, scale, s)
  | String c rest =>
      match decimal_digit c with
      | None => (x, scale, s)
      | Some d =>
          if overflow || ((2 ^ 63 - 1) / 10 <? x)%Z then leadingFraction true x scale rest
          else let y := (x * 10 + d)%Z in
               if (2 ^ 63 <? y)%Z then leadingFraction true x scale rest
               else leadingFraction false y (scale * 10)%Z rest
      end
  end.

(** The letters up to the next digit or point. *)
Fixpoint unit_name (s : string) : string * string :=
  match s with
  | EmptyString => ("", "")
  | String c rest =>
      if Ascii.eqb c "." || between 48 57 c then ("", s)
      else let (u, rest) := unit_name rest in (String c u, rest)
  end.

(** [unitMap], in nanoseconds. *)
Definition unit_of (u : string) : option Z :=
  if String.eqb u "ns" then Some 1%Z
  else if String.eqb u "us" || String.eqb u (EncodeRune 181 +:+ "s") || String.eqb u (EncodeRune 956 +:+ "s") then Some 1000%Z
  else if String.eqb u "ms" then Some 1000000%Z
  else if String.eqb u "s" then Some 1000000000%Z
  else if String.eqb u "m" then Some 60000000000%Z
  else if String.eqb u "h" then Some 3600000000000%Z
  else None.

(** [uint64(float64(f) * (float64(unit) / scale))], which rounds as floating point does. *)
Class FloatScale := { scaled : Z → Z → Z → Z }.

Section duration.
Context {Fs : FloatScale}.

(** One number with its unit, added to [d]; [None] is any error. *)
Definition duration_term (d : Z) (s : string) : option (Z * string) :=
  match s with
  | EmptyString => None
  | String c _ =>
      if negb (Ascii.eqb c "." || between 48 57 c) then None
      else
        match leadingInt 0 s with
        | None => None
        | Some (v, rest) =>
            let pre := negb (String.length rest =? String.length s) in
            let '(f, scale, post, rest) :=
              match rest with
              | String p digits =>
                  if Ascii.eqb p "." then
                    let '(f, scale, rest) := leadingFraction false 0 1 digits in
                    (f, scale, negb (String.length rest =? String.length digits), rest)
                  else (0%Z, 1%Z, false, rest)
              | EmptyString => (0%Z, 1%Z, false, rest)
              end in
            if negb pre && negb post then None
            else
              let (u, rest) := unit_name rest in
              match unit_of u with
              | None => None
              | Some unit =>
                  if (2 ^ 63 / unit <? v)%Z then None
                  else
                    let v := (v * unit)%Z in
                    let v := if (0 <? f)%Z then (v + scaled f unit scale)%Z else v in
                    if (2 ^ 63 <? v)%Z then None
                    else let d := (d + v)%Z in if (2 ^ 63 <? d)%Z then None else Some (d, rest)
              end
        end
  end.

(** A term is not empty, so the text's length is fuel enough. *)
Fixpoint duration_terms (fuel : nat) (d : Z) (s : string) : option Z :=
  match fuel, s with
  | _, EmptyString => Some d
  | 0, _ => None
  | S fuel, _ =>
      match duration_term d s with
      | None => None
      | Some (d, rest) => duration_terms fuel d rest
      end
  end.

Definition ParseDuration (s : string) : option Z :=
  let (neg, s) :=
    match s with
    | String c rest => if Ascii.eqb c "-" then (true, rest) else if Ascii.eqb c "+" then (false, rest) else (false, s)
    | EmptyString => (false, s)
    end in
  if String.eqb s "0" then Some 0%Z
  else if String.eqb s "" then None
  else match duration_terms (String.length s) 0 s with
       | None => None
       | Some d =>
           if neg then Some (- d)%Z
           else if (2 ^ 63 - 1 <? d)%Z then None else Some d
       end.

Lemma leadingInt_rest s : ∀ x v rest, leadingInt x s = Some (v, rest) → String.length rest ≤ String.length s.
Proof.
  induction s as [|c s IH]; intros x v rest; simpl; [by intros [= _ <-]|].
  destruct (decimal_digit c); [|by intros [= _ <-]].
  destruct (_ <? x)%Z; [done|]. destruct (_ <? _)%Z; [done|]. intros H%IH. lia.
Qed.

Lemma leadingFraction_rest s : ∀ o x k f scale rest,
  leadingFraction o x k s = (f, scale, rest) → String.length rest ≤ String.length s.
Proof.
  induction s as [|c s IH]; intros o x k f scale rest; simpl; [by intros [= _ _ <-]|].
  destruct (decimal_digit c); [|by intros [= _ _ <-]].
  destruct (_ || _); [intros H%IH; lia|]. destruct (_ <? _)%Z; intros H%IH; lia.
Qed.

Lemma unit_name_rest s u rest : unit_name s = (u, rest) → String.length rest + String.length u = String.length s.
Proof.
  revert u rest. induction s as [|c s IH]; intros u rest; simpl; [by intros [= <- <-]|].
  destruct (_ || _); [by intros [= <- <-]|]. destruct (unit_name s) as [u' rest'].
  intros [= <- <-]. specialize (IH _ _ eq_refl). simpl. lia.
Qed.

(** Every term makes the text shorter: the fuel of [ParseDuration] never runs out. *)
Lemma duration_term_shorter d s d' rest :
  duration_term d s = Some (d', rest) → String.length rest < String.length s.
Proof.
  unfold duration_term. destruct s as [|c s]; [done|]. destruct (negb _); [done|].
  destruct (leadingInt 0 _) as [[v r]|] eqn:L; [|done]. apply leadingInt_rest in L.
  remember (String.length (String c s)) as n eqn:En.
  assert (Step : ∀ f scale post r', String.length r' ≤ String.length r →
    (if negb (negb (String.length r =? n)) && negb post then None
     else let (u, rest) := unit_name r' in
          match unit_of u with
          | None => None
          | Some unit =>
              if (2 ^ 63 / unit <? v)%Z then None
              else let v := (v * unit)%Z in
                   let v := if (0 <? f)%Z then (v + scaled f unit scale)%Z else v in
                   if (2 ^ 63 <? v)%Z then None
                   else let d := (d + v)%Z in if (2 ^ 63 <? d)%Z then None else Some (d, rest)
          end) = Some (d', rest) → String.length rest < n).
  { intros f scale post r' Hr. destruct (_ && _); [done|]. destruct (unit_name r') as [u r''] eqn:U.
    apply unit_name_rest in U. destruct (unit_of u) eqn:Uo; [|done]. repeat (destruct (_ <? _)%Z; [done|]).
    cbn zeta. destruct (_ <? _)%Z; [done|]. destruct (_ <? _)%Z; [done|]. intros [= _ <-].
    destruct u; [done|]. simpl in U. lia. }
  destruct r as [|p digits]; [by apply Step|].
  destruct (Ascii.eqb p "."); [|by apply Step].
  destruct (leadingFraction false 0 1 digits) as [[f scale] r'] eqn:F. apply leadingFraction_rest in F.
  apply Step. simpl. lia.
Qed.

Lemma duration_terms_fuel fuel d s : String.length s ≤ fuel → ∀ more, duration_terms (fuel + more) d s = duration_terms fuel d s.
Proof.
  revert d s. induction fuel as [|fuel IH]; intros d s H more.
  - destruct s; [|simpl in H; lia]. by destruct more.
  - destruct s as [|c s]; [done|]. cbn [duration_terms Nat.add].
    destruct (duration_term d (String c s)) as [[d' rest]|] eqn:T; [|done].
    apply duration_term_shorter in T. apply IH. lia.
Qed.

End duration.

(** ** Fields ([strings.Fields]) *)

Definition keep_field (current : string) (rest : list string) : list string :=
  if String.eqb current "" then rest else String.rev current :: rest.

(** [current] is the field so far, reversed. *)
Fixpoint fields_go (current : string) (s : string) : list string :=
  match s with
  | EmptyString => keep_field current []
  | String a s1 =>
      if space1 a then keep_field current (fields_go "" s1)
      else match s1 with
           | EmptyString => keep_field (String a current) []
           | String b s2 =>
               if space2 a b then keep_field current (fields_go "" s2)
               else match s2 with
                    | String c s3 => if space3 a b c then keep_field current (fields_go "" s3) else fields_go (String a current) s1
                    | EmptyString => fields_go (String a current) s1
                    end
           end
  end.

Definition Fields (s : string) : list string := fields_go "" s.

(** ** Flags ([flag.FlagSet]) *)

(** What a flag does with its value: [None] is a value it refuses.  A boolean flag may
    come without one. *)
Record flag (A : Type) := mkFlag { flag_name : string; is_bool : bool; set_flag : string → A → option A }.
Arguments mkFlag {A}. Arguments flag_name {A}. Arguments is_bool {A}. Arguments set_flag {A}.

Inductive flag_error :=
| BadSyntax (arg : string)
| Undefined (name : string)
| Help
| NeedsArgument (name : string)
| InvalidValue (name value : string).

(** The name and the value after an equals sign, which cannot come first. *)
Fixpoint cut_equals (s : string) : string * option string :=
  match s with
  | EmptyString => ("", None)
  | String c rest =>
      if Ascii.eqb c "=" then ("", Some rest)
      else let (name, value) := cut_equals rest in (String c name, value)
  end.

Definition find_flag {A} (flags : list (flag A)) (name : string) : option (flag A) :=
  List.find (λ f, String.eqb (flag_name f) name) flags.

(** What [parseOne] makes of an argument: the end of the flags, an error, or a flag. *)
Inductive shape := Terminator | NotAFlag | Malformed | Named (name : string) (value : option string).

Definition shape_of (arg : string) : shape :=
  match arg with
  | String d (String c rest) =>
      if negb (Ascii.eqb d "-") then NotAFlag
      else
        let double := Ascii.eqb c "-" in
        if double && String.eqb rest "" then Terminator
        else
          let name := if double then rest else String c rest in
          match name with
          | String c _ => if Ascii.eqb c "-" || Ascii.eqb c "=" then Malformed
                          else let (name, value) := cut_equals name in Named name value
          | EmptyString => Malformed
          end
  | _ => NotAFlag
  end.

(** [FlagSet.Parse]; the arguments left over are not used. *)
Fixpoint parse_flags {A} (flags : list (flag A)) (a : A) (args : list string) : flag_error + A :=
  match args with
  | [] => inr a
  | arg :: args =>
      match shape_of arg with
      | Terminator | NotAFlag => inr a
      | Malformed => inl (BadSyntax arg)
      | Named name value =>
          match find_flag flags name with
          | None => inl (if String.eqb name "help" || String.eqb name "h" then Help else Undefined name)
          | Some f =>
              let set value args' :=
                match set_flag f value a with
                | None => inl (InvalidValue name value)
                | Some a => parse_flags flags a args'
                end in
              if is_bool f then set (from_opt "true" value) args
              else match value, args with
                   | Some value, _ => set value args
                   | None, next :: rest =>
                       match set_flag f next a with
                       | None => inl (InvalidValue name next)
                       | Some a => parse_flags flags a rest
                       end
                   | None, [] => inl (NeedsArgument name)
                   end
          end
      end
  end.

(** A flag that stores its text. *)
Definition string_flag {A} (name : string) (set : string → A → A) : flag A := mkFlag name false (λ v a, Some (set v a)).

Definition exact_scale : FloatScale := {| scaled f unit scale := (f * unit / scale)%Z |}.

Example durations :
  (@ParseDuration exact_scale) <$> ["30s"; "1h15m30.918s"; "-1.5h"; ".5m"; "0"; "+5us"; ""; "3"; "1d"; "."; "9223372036855s"]
  = [Some 30000000000%Z; Some 4530918000000%Z; Some (-5400000000000)%Z; Some 30000000000%Z; Some 0%Z; Some 5000%Z;
     None; None; None; None; None].
Proof. vm_compute. reflexivity. Qed.

Example fields_ex : Fields "  run --model  opus " = ["run"; "--model"; "opus"]. Proof. reflexivity. Qed.

Example flags_ex :
  let flags := [string_flag "name" (λ v _, (v, false)); mkFlag "once" true (λ v a, Some (a.1, String.eqb v "true"))] in
  (parse_flags flags ("", false) ["-name"; "x"; "--once"], parse_flags flags ("", false) ["--name=y"; "--"; "-once"],
   parse_flags flags ("", false) ["--name"], parse_flags flags ("", false) ["-other"])
  = (inr ("x", true), inr ("y", false), inl (NeedsArgument "name"), inl (Undefined "other")).
Proof. reflexivity. Qed.
