(* ===== verification/Models.v ===== *)
(** * The store's data

    The structs of [internal/storage/models.go] (and [TunnelRecord] of
    [tunnels.go]), one module each, with the source's field names, a zero value
    and one setter per field (the [SetX] methods of ent's builders).  A Go
    [int64], [int32], [int] or [uint32] is a [Z]; the operations that compute
    with one write its wrap-around out.  A pointer field of a patch is an
    [option].

    ent's row type of an entity has the fields of the struct that mirrors it, and
    the [xFromEnt] conversions copy them one for one, so one record stands for
    both.  The entities whose row differs from the struct have a record of their
    own at the end of the file: channels, channel members, messages, saved
    messages, and the thread read state, which no struct mirrors. *)
From S2P Require Import Prelude.

Module User.
Record User := mk {
  ID : string;
  Username : string;
  DisplayName : string;
  PasswordHash : string;
  Role : string;
  CreatedUnix : Z;
  UpdatedUnix : Z
}.
Definition zero : User := mk "" "" "" "" "" 0%Z 0%Z.
Definition set_ID (v : string) (r : User) : User := mk v (Username r) (DisplayName r) (PasswordHash r) (Role r) (CreatedUnix r) (UpdatedUnix r).
Definition set_Username (v : string) (r : User) : User := mk (ID r) v (DisplayName r) (PasswordHash r) (Role r) (CreatedUnix r) (UpdatedUnix r).
Definition set_DisplayName (v : string) (r : User) : User := mk (ID r) (Username r) v (PasswordHash r) (Role r) (CreatedUnix r) (UpdatedUnix r).
Definition set_PasswordHash (v : string) (r : User) : User := mk (ID r) (Username r) (DisplayName r) v (Role r) (CreatedUnix r) (UpdatedUnix r).
Definition set_Role (v : string) (r : User) : User := mk (ID r) (Username r) (DisplayName r) (PasswordHash r) v (CreatedUnix r) (UpdatedUnix r).
Definition set_CreatedUnix (v : Z) (r : User) : User := mk (ID r) (Username r) (DisplayName r) (PasswordHash r) (Role r) v (UpdatedUnix r).
Definition set_UpdatedUnix (v : Z) (r : User) : User := mk (ID r) (Username r) (DisplayName r) (PasswordHash r) (Role r) (CreatedUnix r) v.
End User.
Abbreviation User := User.User.

Module Session.
Record Session := mk {
  ID : string;
  TokenHash : string;
  UserID : string;
  ExpiresUnix : Z;
  CreatedUnix : Z
}.
Definition zero : Session := mk "" "" "" 0%Z 0%Z.
Definition set_ID (v : string) (r : Session) : Session := mk v (TokenHash r) (UserID r) (ExpiresUnix r) (CreatedUnix r).
Definition set_TokenHash (v : string) (r : Session) : Session := mk (ID r) v (UserID r) (ExpiresUnix r) (CreatedUnix r).
Definition set_UserID (v : string) (r : Session) : Session := mk (ID r) (TokenHash r) v (ExpiresUnix r) (CreatedUnix r).
Definition set_ExpiresUnix (v : Z) (r : Session) : Session := mk (ID r) (TokenHash r) (UserID r) v (CreatedUnix r).
Definition set_CreatedUnix (v : Z) (r : Session) : Session := mk (ID r) (TokenHash r) (UserID r) (ExpiresUnix r) v.
End Session.
Abbreviation Session := Session.Session.

Module InteractionEndpoint.
Record InteractionEndpoint := mk {
  ID : string;
  Kind : string;
  Provider : string;
  DisplayName : string;
  TargetPrefix : string;
  InboundEnabled : bool;
  OutboundEnabled : bool;
  AuthMode : string;
  ConfigJSON : string;
  CreatedUnix : Z;
  UpdatedUnix : Z
}.
Definition zero : InteractionEndpoint := mk "" "" "" "" "" false false "" "" 0%Z 0%Z.
Definition set_ID (v : string) (r : InteractionEndpoint) : InteractionEndpoint := mk v (Kind r) (Provider r) (DisplayName r) (TargetPrefix r) (InboundEnabled r) (OutboundEnabled r) (AuthMode r) (ConfigJSON r) (CreatedUnix r) (UpdatedUnix r).
Definition set_Kind (v : string) (r : InteractionEndpoint) : InteractionEndpoint := mk (ID r) v (Provider r) (DisplayName r) (TargetPrefix r) (InboundEnabled r) (OutboundEnabled r) (AuthMode r) (ConfigJSON r) (CreatedUnix r) (UpdatedUnix r).
Definition set_Provider (v : string) (r : InteractionEndpoint) : InteractionEndpoint := mk (ID r) (Kind r) v (DisplayName r) (TargetPrefix r) (InboundEnabled r) (OutboundEnabled r) (AuthMode r) (ConfigJSON r) (CreatedUnix r) (UpdatedUnix r).
Definition set_DisplayName (v : string) (r : InteractionEndpoint) : InteractionEndpoint := mk (ID r) (Kind r) (Provider r) v (TargetPrefix r) (InboundEnabled r) (OutboundEnabled r) (AuthMode r) (ConfigJSON r) (CreatedUnix r) (UpdatedUnix r).
Definition set_TargetPrefix (v : string) (r : InteractionEndpoint) : InteractionEndpoint := mk (ID r) (Kind r) (Provider r) (DisplayName r) v (InboundEnabled r) (OutboundEnabled r) (AuthMode r) (ConfigJSON r) (CreatedUnix r) (UpdatedUnix r).
Definition set_InboundEnabled (v : bool) (r : InteractionEndpoint) : InteractionEndpoint := mk (ID r) (Kind r) (Provider r) (DisplayName r) (TargetPrefix r) v (OutboundEnabled r) (AuthMode r) (ConfigJSON r) (CreatedUnix r) (UpdatedUnix r).
Definition set_OutboundEnabled (v : bool) (r : InteractionEndpoint) : InteractionEndpoint := mk (ID r) (Kind r) (Provider r) (DisplayName r) (TargetPrefix r) (InboundEnabled r) v (AuthMode r) (ConfigJSON r) (CreatedUnix r) (UpdatedUnix r).
Definition set_AuthMode (v : string) (r : InteractionEndpoint) : InteractionEndpoint := mk (ID r) (Kind r) (Provider r) (DisplayName r) (TargetPrefix r) (InboundEnabled r) (OutboundEnabled r) v (ConfigJSON r) (CreatedUnix r) (UpdatedUnix r).
Definition set_ConfigJSON (v : string) (r : InteractionEndpoint) : InteractionEndpoint := mk (ID r) (Kind r) (Provider r) (DisplayName r) (TargetPrefix r) (InboundEnabled r) (OutboundEnabled r) (AuthMode r) v (CreatedUnix r) (UpdatedUnix r).
Definition set_CreatedUnix (v : Z) (r : InteractionEndpoint) : InteractionEndpoint := mk (ID r) (Kind r) (Provider r) (DisplayName r) (TargetPrefix r) (InboundEnabled r) (OutboundEnabled r) (AuthMode r) (ConfigJSON r) v (UpdatedUnix r).
Definition set_UpdatedUnix (v : Z) (r : InteractionEndpoint) : InteractionEndpoint := mk (ID r) (Kind r) (Provider r) (DisplayName r) (TargetPrefix r) (InboundEnabled r) (OutboundEnabled r) (AuthMode r) (ConfigJSON r) (CreatedUnix r) v.
End InteractionEndpoint.
Abbreviation InteractionEndpoint := InteractionEndpoint.InteractionEndpoint.

Module InteractionEndpointPatch.
Record InteractionEndpointPatch := mk {
  DisplayName : option string;
  TargetPrefix : option string;
  InboundEnabled : option bool;
  OutboundEnabled : option bool;
  AuthMode : option string;
  ConfigJSON : option string
}.
Definition zero : InteractionEndpointPatch := mk None None None None None None.
Definition set_DisplayName (v : option string) (r : InteractionEndpointPatch) : InteractionEndpointPatch := mk v (TargetPrefix r) (InboundEnabled r) (OutboundEnabled r) (AuthMode r) (ConfigJSON r).
Definition set_TargetPrefix (v : option string) (r : InteractionEndpointPatch) : InteractionEndpointPatch := mk (DisplayName r) v (InboundEnabled r) (OutboundEnabled r) (AuthMode r) (ConfigJSON r).
Definition set_InboundEnabled (v : option bool) (r : InteractionEndpointPatch) : InteractionEndpointPatch := mk (DisplayName r) (TargetPrefix r) v (OutboundEnabled r) (AuthMode r) (ConfigJSON r).
Definition set_OutboundEnabled (v : option bool) (r : InteractionEndpointPatch) : InteractionEndpointPatch := mk (DisplayName r) (TargetPrefix r) (InboundEnabled r) v (AuthMode r) (ConfigJSON r).
Definition set_AuthMode (v : option string) (r : InteractionEndpointPatch) : InteractionEndpointPatch := mk (DisplayName r) (TargetPrefix r) (InboundEnabled r) (OutboundEnabled r) v (ConfigJSON r).
Definition set_ConfigJSON (v : option string) (r : InteractionEndpointPatch) : InteractionEndpointPatch := mk (DisplayName r) (TargetPrefix r) (InboundEnabled r) (OutboundEnabled r) (AuthMode r) v.
End InteractionEndpointPatch.
Abbreviation InteractionEndpointPatch := InteractionEndpointPatch.InteractionEndpointPatch.

Module IMChatAuthRequest.
Record IMChatAuthRequest := mk {
  ID : string;
  EndpointID : string;
  Provider : string;
  ConversationID : string;
  ExternalThreadID : string;
  ChatTitle : string;
  SenderExternalID : string;
  TokenHash : string;
  TokenPrefix : string;
  Status : string;
  RequestedTarget : string;
  RequestedThreadID : string;
  ExpiresUnix : Z;
  ResolvedByUserID : string;
  ResolvedUnix : Z;
  CreatedUnix : Z;
  UpdatedUnix : Z
}.
Definition zero : IMChatAuthRequest := mk "" "" "" "" "" "" "" "" "" "" "" "" 0%Z "" 0%Z 0%Z 0%Z.
Definition set_ID (v : string) (r : IMChatAuthRequest) : IMChatAuthRequest := mk v (EndpointID r) (Provider r) (ConversationID r) (ExternalThreadID r) (ChatTitle r) (SenderExternalID r) (TokenHash r) (TokenPrefix r) (Status r) (RequestedTarget r) (RequestedThreadID r) (ExpiresUnix r) (ResolvedByUserID r) (ResolvedUnix r) (CreatedUnix r) (UpdatedUnix r).
Definition set_EndpointID (v : string) (r : IMChatAuthRequest) : IMChatAuthRequest := mk (ID r) v (Provider r) (ConversationID r) (ExternalThreadID r) (ChatTitle r) (SenderExternalID r) (TokenHash r) (TokenPrefix r) (Status r) (RequestedTarget r) (RequestedThreadID r) (ExpiresUnix r) (ResolvedByUserID r) (ResolvedUnix r) (CreatedUnix r) (UpdatedUnix r).
Definition set_Provider (v : string) (r : IMChatAuthRequest) : IMChatAuthRequest := mk (ID r) (EndpointID r) v (ConversationID r) (ExternalThreadID r) (ChatTitle r) (SenderExternalID r) (TokenHash r) (TokenPrefix r) (Status r) (RequestedTarget r) (RequestedThreadID r) (ExpiresUnix r) (ResolvedByUserID r) (ResolvedUnix r) (CreatedUnix r) (UpdatedUnix r).
Definition set_ConversationID (v : string) (r : IMChatAuthRequest) : IMChatAuthRequest := mk (ID r) (EndpointID r) (Provider r) v (ExternalThreadID r) (ChatTitle r) (SenderExternalID r) (TokenHash r) (TokenPrefix r) (Status r) (RequestedTarget r) (RequestedThreadID r) (ExpiresUnix r) (ResolvedByUserID r) (ResolvedUnix r) (CreatedUnix r) (UpdatedUnix r).
Definition set_ExternalThreadID (v : string) (r : IMChatAuthRequest) : IMChatAuthRequest := mk (ID r) (EndpointID r) (Provider r) (ConversationID r) v (ChatTitle r) (SenderExternalID r) (TokenHash r) (TokenPrefix r) (Status r) (RequestedTarget r) (RequestedThreadID r) (ExpiresUnix r) (ResolvedByUserID r) (ResolvedUnix r) (CreatedUnix r) (UpdatedUnix r).
Definition set_ChatTitle (v : string) (r : IMChatAuthRequest) : IMChatAuthRequest := mk (ID r) (EndpointID r) (Provider r) (ConversationID r) (ExternalThreadID r) v (SenderExternalID r) (TokenHash r) (TokenPrefix r) (Status r) (RequestedTarget r) (RequestedThreadID r) (ExpiresUnix r) (ResolvedByUserID r) (ResolvedUnix r) (CreatedUnix r) (UpdatedUnix r).
Definition set_SenderExternalID (v : string) (r : IMChatAuthRequest) : IMChatAuthRequest := mk (ID r) (EndpointID r) (Provider r) (ConversationID r) (ExternalThreadID r) (ChatTitle r) v (TokenHash r) (TokenPrefix r) (Status r) (RequestedTarget r) (RequestedThreadID r) (ExpiresUnix r) (ResolvedByUserID r) (ResolvedUnix r) (CreatedUnix r) (UpdatedUnix r).
Definition set_TokenHash (v : string) (r : IMChatAuthRequest) : IMChatAuthRequest := mk (ID r) (EndpointID r) (Provider r) (ConversationID r) (ExternalThreadID r) (ChatTitle r) (SenderExternalID r) v (TokenPrefix r) (Status r) (RequestedTarget r) (RequestedThreadID r) (ExpiresUnix r) (ResolvedByUserID r) (ResolvedUnix r) (CreatedUnix r) (UpdatedUnix r).
Definition set_TokenPrefix (v : string) (r : IMChatAuthRequest) : IMChatAuthRequest := mk (ID r) (EndpointID r) (Provider r) (ConversationID r) (ExternalThreadID r) (ChatTitle r) (SenderExternalID r) (TokenHash r) v (Status r) (RequestedTarget r) (RequestedThreadID r) (ExpiresUnix r) (ResolvedByUserID r) (ResolvedUnix r) (CreatedUnix r) (UpdatedUnix r).
Definition set_Status (v : string) (r : IMChatAuthRequest) : IMChatAuthRequest := mk (ID r) (EndpointID r) (Provider r) (ConversationID r) (ExternalThreadID r) (ChatTitle r) (SenderExternalID r) (TokenHash r) (TokenPrefix r) v (RequestedTarget r) (RequestedThreadID r) (ExpiresUnix r) (ResolvedByUserID r) (ResolvedUnix r) (CreatedUnix r) (UpdatedUnix r).
Definition set_RequestedTarget (v : string) (r : IMChatAuthRequest) : IMChatAuthRequest := mk (ID r) (EndpointID r) (Provider r) (ConversationID r) (ExternalThreadID r) (ChatTitle r) (SenderExternalID r) (TokenHash r) (TokenPrefix r) (Status r) v (RequestedThreadID r) (ExpiresUnix r) (ResolvedByUserID r) (ResolvedUnix r) (CreatedUnix r) (UpdatedUnix r).
Definition set_RequestedThreadID (v : string) (r : IMChatAuthRequest) : IMChatAuthRequest := mk (ID r) (EndpointID r) (Provider r) (ConversationID r) (ExternalThreadID r) (ChatTitle r) (SenderExternalID r) (TokenHash r) (TokenPrefix r) (Status r) (RequestedTarget r) v (ExpiresUnix r) (ResolvedByUserID r) (ResolvedUnix r) (CreatedUnix r) (UpdatedUnix r).
Definition set_ExpiresUnix (v : Z) (r : IMChatAuthRequest) : IMChatAuthRequest := mk (ID r) (EndpointID r) (Provider r) (ConversationID r) (ExternalThreadID r) (ChatTitle r) (SenderExternalID r) (TokenHash r) (TokenPrefix r) (Status r) (RequestedTarget r) (RequestedThreadID r) v (ResolvedByUserID r) (ResolvedUnix r) (CreatedUnix r) (UpdatedUnix r).
Definition set_ResolvedByUserID (v : string) (r : IMChatAuthRequest) : IMChatAuthRequest := mk (ID r) (EndpointID r) (Provider r) (ConversationID r) (ExternalThreadID r) (ChatTitle r) (SenderExternalID r) (TokenHash r) (TokenPrefix r) (Status r) (RequestedTarget r) (RequestedThreadID r) (ExpiresUnix r) v (ResolvedUnix r) (CreatedUnix r) (UpdatedUnix r).
Definition set_ResolvedUnix (v : Z) (r : IMChatAuthRequest) : IMChatAuthRequest := mk (ID r) (EndpointID r) (Provider r) (ConversationID r) (ExternalThreadID r) (ChatTitle r) (SenderExternalID r) (TokenHash r) (TokenPrefix r) (Status r) (RequestedTarget r) (RequestedThreadID r) (ExpiresUnix r) (ResolvedByUserID r) v (CreatedUnix r) (UpdatedUnix r).
Definition set_CreatedUnix (v : Z) (r : IMChatAuthRequest) : IMChatAuthRequest := mk (ID r) (EndpointID r) (Provider r) (ConversationID r) (ExternalThreadID r) (ChatTitle r) (SenderExternalID r) (TokenHash r) (TokenPrefix r) (Status r) (RequestedTarget r) (RequestedThreadID r) (ExpiresUnix r) (ResolvedByUserID r) (ResolvedUnix r) v (UpdatedUnix r).
Definition set_UpdatedUnix (v : Z) (r : IMChatAuthRequest) : IMChatAuthRequest := mk (ID r) (EndpointID r) (Provider r) (ConversationID r) (ExternalThreadID r) (ChatTitle r) (SenderExternalID r) (TokenHash r) (TokenPrefix r) (Status r) (RequestedTarget r) (RequestedThreadID r) (ExpiresUnix r) (ResolvedByUserID r) (ResolvedUnix r) (CreatedUnix r) v.
End IMChatAuthRequest.
Abbreviation IMChatAuthRequest := IMChatAuthRequest.IMChatAuthRequest.

Module IMChatAuthRequestListOptions.
Record IMChatAuthRequestListOptions := mk {
  EndpointID : string;
  Status : string;
  IncludeExpired : bool;
  Limit : Z
}.
Definition zero : IMChatAuthRequestListOptions := mk "" "" false 0%Z.
Definition set_EndpointID (v : string) (r : IMChatAuthRequestListOptions) : IMChatAuthRequestListOptions := mk v (Status r) (IncludeExpired r) (Limit r).
Definition set_Status (v : string) (r : IMChatAuthRequestListOptions) : IMChatAuthRequestListOptions := mk (EndpointID r) v (IncludeExpired r) (Limit r).
Definition set_IncludeExpired (v : bool) (r : IMChatAuthRequestListOptions) : IMChatAuthRequestListOptions := mk (EndpointID r) (Status r) v (Limit r).
Definition set_Limit (v : Z) (r : IMChatAuthRequestListOptions) : IMChatAuthRequestListOptions := mk (EndpointID r) (Status r) (IncludeExpired r) v.
End IMChatAuthRequestListOptions.
Abbreviation IMChatAuthRequestListOptions := IMChatAuthRequestListOptions.IMChatAuthRequestListOptions.

Module IMChatSubscription.
Record IMChatSubscription := mk {
  ID : string;
  EndpointID : string;
  Provider : string;
  ConversationID : string;
  ExternalThreadID : string;
  ChatTitle : string;
  Target : string;
  ThreadID : string;
  SenderExternalID : string;
  AuthorizedByRequestID : string;
  Subscribed : bool;
  Verbose : bool;
  AuthorizedUnix : Z;
  SubscribedUnix : Z;
  CreatedUnix : Z;
  UpdatedUnix : Z
}.
Definition zero : IMChatSubscription := mk "" "" "" "" "" "" "" "" "" "" false false 0%Z 0%Z 0%Z 0%Z.
Definition set_ID (v : string) (r : IMChatSubscription) : IMChatSubscription := mk v (EndpointID r) (Provider r) (ConversationID r) (ExternalThreadID r) (ChatTitle r) (Target r) (ThreadID r) (SenderExternalID r) (AuthorizedByRequestID r) (Subscribed r) (Verbose r) (AuthorizedUnix r) (SubscribedUnix r) (CreatedUnix r) (UpdatedUnix r).
Definition set_EndpointID (v : string) (r : IMChatSubscription) : IMChatSubscription := mk (ID r) v (Provider r) (ConversationID r) (ExternalThreadID r) (ChatTitle r) (Target r) (ThreadID r) (SenderExternalID r) (AuthorizedByRequestID r) (Subscribed r) (Verbose r) (AuthorizedUnix r) (SubscribedUnix r) (CreatedUnix r) (UpdatedUnix r).
Definition set_Provider (v : string) (r : IMChatSubscription) : IMChatSubscription := mk (ID r) (EndpointID r) v (ConversationID r) (ExternalThreadID r) (ChatTitle r) (Target r) (ThreadID r) (SenderExternalID r) (AuthorizedByRequestID r) (Subscribed r) (Verbose r) (AuthorizedUnix r) (SubscribedUnix r) (CreatedUnix r) (UpdatedUnix r).
Definition set_ConversationID (v : string) (r : IMChatSubscription) : IMChatSubscription := mk (ID r) (EndpointID r) (Provider r) v (ExternalThreadID r) (ChatTitle r) (Target r) (ThreadID r) (SenderExternalID r) (AuthorizedByRequestID r) (Subscribed r) (Verbose r) (AuthorizedUnix r) (SubscribedUnix r) (CreatedUnix r) (UpdatedUnix r).
Definition set_ExternalThreadID (v : string) (r : IMChatSubscription) : IMChatSubscription := mk (ID r) (EndpointID r) (Provider r) (ConversationID r) v (ChatTitle r) (Target r) (ThreadID r) (SenderExternalID r) (AuthorizedByRequestID r) (Subscribed r) (Verbose r) (AuthorizedUnix r) (SubscribedUnix r) (CreatedUnix r) (UpdatedUnix r).
Definition set_ChatTitle (v : string) (r : IMChatSubscription) : IMChatSubscription := mk (ID r) (EndpointID r) (Provider r) (ConversationID r) (ExternalThreadID r) v (Target r) (ThreadID r) (SenderExternalID r) (AuthorizedByRequestID r) (Subscribed r) (Verbose r) (AuthorizedUnix r) (SubscribedUnix r) (CreatedUnix r) (UpdatedUnix r).
Definition set_Target (v : string) (r : IMChatSubscription) : IMChatSubscription := mk (ID r) (EndpointID r) (Provider r) (ConversationID r) (ExternalThreadID r) (ChatTitle r) v (ThreadID r) (SenderExternalID r) (AuthorizedByRequestID r) (Subscribed r) (Verbose r) (AuthorizedUnix r) (SubscribedUnix r) (CreatedUnix r) (UpdatedUnix r).
Definition set_ThreadID (v : string) (r : IMChatSubscription) : IMChatSubscription := mk (ID r) (EndpointID r) (Provider r) (ConversationID r) (ExternalThreadID r) (ChatTitle r) (Target r) v (SenderExternalID r) (AuthorizedByRequestID r) (Subscribed r) (Verbose r) (AuthorizedUnix r) (SubscribedUnix r) (CreatedUnix r) (UpdatedUnix r).
Definition set_SenderExternalID (v : string) (r : IMChatSubscription) : IMChatSubscription := mk (ID r) (EndpointID r) (Provider r) (ConversationID r) (ExternalThreadID r) (ChatTitle r) (Target r) (ThreadID r) v (AuthorizedByRequestID r) (Subscribed r) (Verbose r) (AuthorizedUnix r) (SubscribedUnix r) (CreatedUnix r) (UpdatedUnix r).
Definition set_AuthorizedByRequestID (v : string) (r : IMChatSubscription) : IMChatSubscription := mk (ID r) (EndpointID r) (Provider r) (ConversationID r) (ExternalThreadID r) (ChatTitle r) (Target r) (ThreadID r) (SenderExternalID r) v (Subscribed r) (Verbose r) (AuthorizedUnix r) (SubscribedUnix r) (CreatedUnix r) (UpdatedUnix r).
Definition set_Subscribed (v : bool) (r : IMChatSubscription) : IMChatSubscription := mk (ID r) (EndpointID r) (Provider r) (ConversationID r) (ExternalThreadID r) (ChatTitle r) (Target r) (ThreadID r) (SenderExternalID r) (AuthorizedByRequestID r) v (Verbose r) (AuthorizedUnix r) (SubscribedUnix r) (CreatedUnix r) (UpdatedUnix r).
Definition set_Verbose (v : bool) (r : IMChatSubscription) : IMChatSubscription := mk (ID r) (EndpointID r) (Provider r) (ConversationID r) (ExternalThreadID r) (ChatTitle r) (Target r) (ThreadID r) (SenderExternalID r) (AuthorizedByRequestID r) (Subscribed r) v (AuthorizedUnix r) (SubscribedUnix r) (CreatedUnix r) (UpdatedUnix r).
Definition set_AuthorizedUnix (v : Z) (r : IMChatSubscription) : IMChatSubscription := mk (ID r) (EndpointID r) (Provider r) (ConversationID r) (ExternalThreadID r) (ChatTitle r) (Target r) (ThreadID r) (SenderExternalID r) (AuthorizedByRequestID r) (Subscribed r) (Verbose r) v (SubscribedUnix r) (CreatedUnix r) (UpdatedUnix r).
Definition set_SubscribedUnix (v : Z) (r : IMChatSubscription) : IMChatSubscription := mk (ID r) (EndpointID r) (Provider r) (ConversationID r) (ExternalThreadID r) (ChatTitle r) (Target r) (ThreadID r) (SenderExternalID r) (AuthorizedByRequestID r) (Subscribed r) (Verbose r) (AuthorizedUnix r) v (CreatedUnix r) (UpdatedUnix r).
Definition set_CreatedUnix (v : Z) (r : IMChatSubscription) : IMChatSubscription := mk (ID r) (EndpointID r) (Provider r) (ConversationID r) (ExternalThreadID r) (ChatTitle r) (Target r) (ThreadID r) (SenderExternalID r) (AuthorizedByRequestID r) (Subscribed r) (Verbose r) (AuthorizedUnix r) (SubscribedUnix r) v (UpdatedUnix r).
Definition set_UpdatedUnix (v : Z) (r : IMChatSubscription) : IMChatSubscription := mk (ID r) (EndpointID r) (Provider r) (ConversationID r) (ExternalThreadID r) (ChatTitle r) (Target r) (ThreadID r) (SenderExternalID r) (AuthorizedByRequestID r) (Subscribed r) (Verbose r) (AuthorizedUnix r) (SubscribedUnix r) (CreatedUnix r) v.
End IMChatSubscription.
Abbreviation IMChatSubscription := IMChatSubscription.IMChatSubscription.

Module IMChatSubscriptionPatch.
Record IMChatSubscriptionPatch := mk {
  ChatTitle : option string;
  Target : option string;
  ThreadID : option string;
  Subscribed : option bool;
  Verbose : option bool
}.
Definition zero : IMChatSubscriptionPatch := mk None None None None None.
Definition set_ChatTitle (v : option string) (r : IMChatSubscriptionPatch) : IMChatSubscriptionPatch := mk v (Target r) (ThreadID r) (Subscribed r) (Verbose r).
Definition set_Target (v : option string) (r : IMChatSubscriptionPatch) : IMChatSubscriptionPatch := mk (ChatTitle r) v (ThreadID r) (Subscribed r) (Verbose r).
Definition set_ThreadID (v : option string) (r : IMChatSubscriptionPatch) : IMChatSubscriptionPatch := mk (ChatTitle r) (Target r) v (Subscribed r) (Verbose r).
Definition set_Subscribed (v : option bool) (r : IMChatSubscriptionPatch) : IMChatSubscriptionPatch := mk (ChatTitle r) (Target r) (ThreadID r) v (Verbose r).
Definition set_Verbose (v : option bool) (r : IMChatSubscriptionPatch) : IMChatSubscriptionPatch := mk (ChatTitle r) (Target r) (ThreadID r) (Subscribed r) v.
End IMChatSubscriptionPatch.
Abbreviation IMChatSubscriptionPatch := IMChatSubscriptionPatch.IMChatSubscriptionPatch.

Module IMChatSubscriptionListOptions.
Record IMChatSubscriptionListOptions := mk {
  EndpointID : string;
  Provider : string;
  Subscribed : option bool;
  Limit : Z
}.
Definition zero : IMChatSubscriptionListOptions := mk "" "" None 0%Z.
Definition set_EndpointID (v : string) (r : IMChatSubscriptionListOptions) : IMChatSubscriptionListOptions := mk v (Provider r) (Subscribed r) (Limit r).
Definition set_Provider (v : string) (r : IMChatSubscriptionListOptions) : IMChatSubscriptionListOptions := mk (EndpointID r) v (Subscribed r) (Limit r).
Definition set_Subscribed (v : option bool) (r : IMChatSubscriptionListOptions) : IMChatSubscriptionListOptions := mk (EndpointID r) (Provider r) v (Limit r).
Definition set_Limit (v : Z) (r : IMChatSubscriptionListOptions) : IMChatSubscriptionListOptions := mk (EndpointID r) (Provider r) (Subscribed r) v.
End IMChatSubscriptionListOptions.
Abbreviation IMChatSubscriptionListOptions := IMChatSubscriptionListOptions.IMChatSubscriptionListOptions.

Module ChannelSummary.
Record ChannelSummary := mk {
  Target : string;
  DisplayName : string;
  ChannelType : string;
  Visibility : string;
  Joined : bool;
  MemberCount : Z;
  CurrentUserRole : string;
  CreatedByUserID : string;
  CreatedUnix : Z;
  UpdatedUnix : Z
}.
Definition zero : ChannelSummary := mk "" "" "" "" false 0%Z "" "" 0%Z 0%Z.
Definition set_Target (v : string) (r : ChannelSummary) : ChannelSummary := mk v (DisplayName r) (ChannelType r) (Visibility r) (Joined r) (MemberCount r) (CurrentUserRole r) (CreatedByUserID r) (CreatedUnix r) (UpdatedUnix r).
Definition set_DisplayName (v : string) (r : ChannelSummary) : ChannelSummary := mk (Target r) v (ChannelType r) (Visibility r) (Joined r) (MemberCount r) (CurrentUserRole r) (CreatedByUserID r) (CreatedUnix r) (UpdatedUnix r).
Definition set_ChannelType (v : string) (r : ChannelSummary) : ChannelSummary := mk (Target r) (DisplayName r) v (Visibility r) (Joined r) (MemberCount r) (CurrentUserRole r) (CreatedByUserID r) (CreatedUnix r) (UpdatedUnix r).
Definition set_Visibility (v : string) (r : ChannelSummary) : ChannelSummary := mk (Target r) (DisplayName r) (ChannelType r) v (Joined r) (MemberCount r) (CurrentUserRole r) (CreatedByUserID r) (CreatedUnix r) (UpdatedUnix r).
Definition set_Joined (v : bool) (r : ChannelSummary) : ChannelSummary := mk (Target r) (DisplayName r) (ChannelType r) (Visibility r) v (MemberCount r) (CurrentUserRole r) (CreatedByUserID r) (CreatedUnix r) (UpdatedUnix r).
Definition set_MemberCount (v : Z) (r : ChannelSummary) : ChannelSummary := mk (Target r) (DisplayName r) (ChannelType r) (Visibility r) (Joined r) v (CurrentUserRole r) (CreatedByUserID r) (CreatedUnix r) (UpdatedUnix r).
Definition set_CurrentUserRole (v : string) (r : ChannelSummary) : ChannelSummary := mk (Target r) (DisplayName r) (ChannelType r) (Visibility r) (Joined r) (MemberCount r) v (CreatedByUserID r) (CreatedUnix r) (UpdatedUnix r).
Definition set_CreatedByUserID (v : string) (r : ChannelSummary) : ChannelSummary := mk (Target r) (DisplayName r) (ChannelType r) (Visibility r) (Joined r) (MemberCount r) (CurrentUserRole r) v (CreatedUnix r) (UpdatedUnix r).
Definition set_CreatedUnix (v : Z) (r : ChannelSummary) : ChannelSummary := mk (Target r) (DisplayName r) (ChannelType r) (Visibility r) (Joined r) (MemberCount r) (CurrentUserRole r) (CreatedByUserID r) v (UpdatedUnix r).
Definition set_UpdatedUnix (v : Z) (r : ChannelSummary) : ChannelSummary := mk (Target r) (DisplayName r) (ChannelType r) (Visibility r) (Joined r) (MemberCount r) (CurrentUserRole r) (CreatedByUserID r) (CreatedUnix r) v.
End ChannelSummary.
Abbreviation ChannelSummary := ChannelSummary.ChannelSummary.

Module ChannelPatch.
Record ChannelPatch := mk {
  DisplayName : option string;
  Visibility : option string
}.
Definition zero : ChannelPatch := mk None None.
Definition set_DisplayName (v : option string) (r : ChannelPatch) : ChannelPatch := mk v (Visibility r).
Definition set_Visibility (v : option string) (r : ChannelPatch) : ChannelPatch := mk (DisplayName r) v.
End ChannelPatch.
Abbreviation ChannelPatch := ChannelPatch.ChannelPatch.

Module ChannelListOptions.
Record ChannelListOptions := mk {
  JoinedOnly : bool;
  UserID : string;
  Limit : Z
}.
Definition zero : ChannelListOptions := mk false "" 0%Z.
Definition set_JoinedOnly (v : bool) (r : ChannelListOptions) : ChannelListOptions := mk v (UserID r) (Limit r).
Definition set_UserID (v : string) (r : ChannelListOptions) : ChannelListOptions := mk (JoinedOnly r) v (Limit r).
Definition set_Limit (v : Z) (r : ChannelListOptions) : ChannelListOptions := mk (JoinedOnly r) (UserID r) v.
End ChannelListOptions.
Abbreviation ChannelListOptions := ChannelListOptions.ChannelListOptions.

Module ChannelMember.
Record ChannelMember := mk {
  Target : string;
  MemberID : string;
  Username : string;
  DisplayName : string;
  Kind : string;
  Role : string;
  JoinedTimeUnix : Z;
  UpdatedUnix : Z
}.
Definition zero : ChannelMember := mk "" "" "" "" "" "" 0%Z 0%Z.
Definition set_Target (v : string) (r : ChannelMember) : ChannelMember := mk v (MemberID r) (Username r) (DisplayName r) (Kind r) (Role r) (JoinedTimeUnix r) (UpdatedUnix r).
Definition set_MemberID (v : string) (r : ChannelMember) : ChannelMember := mk (Target r) v (Username r) (DisplayName r) (Kind r) (Role r) (JoinedTimeUnix r) (UpdatedUnix r).
Definition set_Username (v : string) (r : ChannelMember) : ChannelMember := mk (Target r) (MemberID r) v (DisplayName r) (Kind r) (Role r) (JoinedTimeUnix r) (UpdatedUnix r).
Definition set_DisplayName (v : string) (r : ChannelMember) : ChannelMember := mk (Target r) (MemberID r) (Username r) v (Kind r) (Role r) (JoinedTimeUnix r) (UpdatedUnix r).
Definition set_Kind (v : string) (r : ChannelMember) : ChannelMember := mk (Target r) (MemberID r) (Username r) (DisplayName r) v (Role r) (JoinedTimeUnix r) (UpdatedUnix r).
Definition set_Role (v : string) (r : ChannelMember) : ChannelMember := mk (Target r) (MemberID r) (Username r) (DisplayName r) (Kind r) v (JoinedTimeUnix r) (UpdatedUnix r).
Definition set_JoinedTimeUnix (v : Z) (r : ChannelMember) : ChannelMember := mk (Target r) (MemberID r) (Username r) (DisplayName r) (Kind r) (Role r) v (UpdatedUnix r).
Definition set_UpdatedUnix (v : Z) (r : ChannelMember) : ChannelMember := mk (Target r) (MemberID r) (Username r) (DisplayName r) (Kind r) (Role r) (JoinedTimeUnix r) v.
End ChannelMember.
Abbreviation ChannelMember := ChannelMember.ChannelMember.

Module ChannelMemberPatch.
Record ChannelMemberPatch := mk {
  Username : option string;
  DisplayName : option string;
  Role : option string
}.
Definition zero : ChannelMemberPatch := mk None None None.
Definition set_Username (v : option string) (r : ChannelMemberPatch) : ChannelMemberPatch := mk v (DisplayName r) (Role r).
Definition set_DisplayName (v : option string) (r : ChannelMemberPatch) : ChannelMemberPatch := mk (Username r) v (Role r).
Definition set_Role (v : option string) (r : ChannelMemberPatch) : ChannelMemberPatch := mk (Username r) (DisplayName r) v.
End ChannelMemberPatch.
Abbreviation ChannelMemberPatch := ChannelMemberPatch.ChannelMemberPatch.

Module Attachment.
Record Attachment := mk {
  ID : string;
  Target : string;
  OwnerID : string;
  Filename : string;
  MimeType : string;
  SizeBytes : Z;
  StorageRef : string;
  DownloadURL : string;
  UploadURL : string;
  ExpiresTimeUnix : Z;
  CreatedUnix : Z
}.
Definition zero : Attachment := mk "" "" "" "" "" 0%Z "" "" "" 0%Z 0%Z.
Definition set_ID (v : string) (r : Attachment) : Attachment := mk v (Target r) (OwnerID r) (Filename r) (MimeType r) (SizeBytes r) (StorageRef r) (DownloadURL r) (UploadURL r) (ExpiresTimeUnix r) (CreatedUnix r).
Definition set_Target (v : string) (r : Attachment) : Attachment := mk (ID r) v (OwnerID r) (Filename r) (MimeType r) (SizeBytes r) (StorageRef r) (DownloadURL r) (UploadURL r) (ExpiresTimeUnix r) (CreatedUnix r).
Definition set_OwnerID (v : string) (r : Attachment) : Attachment := mk (ID r) (Target r) v (Filename r) (MimeType r) (SizeBytes r) (StorageRef r) (DownloadURL r) (UploadURL r) (ExpiresTimeUnix r) (CreatedUnix r).
Definition set_Filename (v : string) (r : Attachment) : Attachment := mk (ID r) (Target r) (OwnerID r) v (MimeType r) (SizeBytes r) (StorageRef r) (DownloadURL r) (UploadURL r) (ExpiresTimeUnix r) (CreatedUnix r).
Definition set_MimeType (v : string) (r : Attachment) : Attachment := mk (ID r) (Target r) (OwnerID r) (Filename r) v (SizeBytes r) (StorageRef r) (DownloadURL r) (UploadURL r) (ExpiresTimeUnix r) (CreatedUnix r).
Definition set_SizeBytes (v : Z) (r : Attachment) : Attachment := mk (ID r) (Target r) (OwnerID r) (Filename r) (MimeType r) v (StorageRef r) (DownloadURL r) (UploadURL r) (ExpiresTimeUnix r) (CreatedUnix r).
Definition set_StorageRef (v : string) (r : Attachment) : Attachment := mk (ID r) (Target r) (OwnerID r) (Filename r) (MimeType r) (SizeBytes r) v (DownloadURL r) (UploadURL r) (ExpiresTimeUnix r) (CreatedUnix r).
Definition set_DownloadURL (v : string) (r : Attachment) : Attachment := mk (ID r) (Target r) (OwnerID r) (Filename r) (MimeType r) (SizeBytes r) (StorageRef r) v (UploadURL r) (ExpiresTimeUnix r) (CreatedUnix r).
Definition set_UploadURL (v : string) (r : Attachment) : Attachment := mk (ID r) (Target r) (OwnerID r) (Filename r) (MimeType r) (SizeBytes r) (StorageRef r) (DownloadURL r) v (ExpiresTimeUnix r) (CreatedUnix r).
Definition set_ExpiresTimeUnix (v : Z) (r : Attachment) : Attachment := mk (ID r) (Target r) (OwnerID r) (Filename r) (MimeType r) (SizeBytes r) (StorageRef r) (DownloadURL r) (UploadURL r) v (CreatedUnix r).
Definition set_CreatedUnix (v : Z) (r : Attachment) : Attachment := mk (ID r) (Target r) (OwnerID r) (Filename r) (MimeType r) (SizeBytes r) (StorageRef r) (DownloadURL r) (UploadURL r) (ExpiresTimeUnix r) v.
End Attachment.
Abbreviation Attachment := Attachment.Attachment.

Module Message.
Record Message := mk {
  ID : string;
  Target : string;
  ThreadID : string;
  Role : string;
  Content : string;
  ReplyToMessageID : string;
  SenderUserID : string;
  SenderAgentID : string;
  SenderDisplayName : string;
  SenderKind : string;
  SourceEndpointID : string;
  ExternalMessageID : string;
  MetadataJSON : string;
  Attachments : list Attachment.Attachment;
  RequestID : string;
  CreatedUnix : Z;
  Kind : string
}.
Definition zero : Message := mk "" "" "" "" "" "" "" "" "" "" "" "" "" [] "" 0%Z "".
Definition set_ID (v : string) (r : Message) : Message := mk v (Target r) (ThreadID r) (Role r) (Content r) (ReplyToMessageID r) (SenderUserID r) (SenderAgentID r) (SenderDisplayName r) (SenderKind r) (SourceEndpointID r) (ExternalMessageID r) (MetadataJSON r) (Attachments r) (RequestID r) (CreatedUnix r) (Kind r).
Definition set_Target (v : string) (r : Message) : Message := mk (ID r) v (ThreadID r) (Role r) (Content r) (ReplyToMessageID r) (SenderUserID r) (SenderAgentID r) (SenderDisplayName r) (SenderKind r) (SourceEndpointID r) (ExternalMessageID r) (MetadataJSON r) (Attachments r) (RequestID r) (CreatedUnix r) (Kind r).
Definition set_ThreadID (v : string) (r : Message) : Message := mk (ID r) (Target r) v (Role r) (Content r) (ReplyToMessageID r) (SenderUserID r) (SenderAgentID r) (SenderDisplayName r) (SenderKind r) (SourceEndpointID r) (ExternalMessageID r) (MetadataJSON r) (Attachments r) (RequestID r) (CreatedUnix r) (Kind r).
Definition set_Role (v : string) (r : Message) : Message := mk (ID r) (Target r) (ThreadID r) v (Content r) (ReplyToMessageID r) (SenderUserID r) (SenderAgentID r) (SenderDisplayName r) (SenderKind r) (SourceEndpointID r) (ExternalMessageID r) (MetadataJSON r) (Attachments r) (RequestID r) (CreatedUnix r) (Kind r).
Definition set_Content (v : string) (r : Message) : Message := mk (ID r) (Target r) (ThreadID r) (Role r) v (ReplyToMessageID r) (SenderUserID r) (SenderAgentID r) (SenderDisplayName r) (SenderKind r) (SourceEndpointID r) (ExternalMessageID r) (MetadataJSON r) (Attachments r) (RequestID r) (CreatedUnix r) (Kind r).
Definition set_ReplyToMessageID (v : string) (r : Message) : Message := mk (ID r) (Target r) (ThreadID r) (Role r) (Content r) v (SenderUserID r) (SenderAgentID r) (SenderDisplayName r) (SenderKind r) (SourceEndpointID r) (ExternalMessageID r) (MetadataJSON r) (Attachments r) (RequestID r) (CreatedUnix r) (Kind r).
Definition set_SenderUserID (v : string) (r : Message) : Message := mk (ID r) (Target r) (ThreadID r) (Role r) (Content r) (ReplyToMessageID r) v (SenderAgentID r) (SenderDisplayName r) (SenderKind r) (SourceEndpointID r) (ExternalMessageID r) (MetadataJSON r) (Attachments r) (RequestID r) (CreatedUnix r) (Kind r).
Definition set_SenderAgentID (v : string) (r : Message) : Message := mk (ID r) (Target r) (ThreadID r) (Role r) (Content r) (ReplyToMessageID r) (SenderUserID r) v (SenderDisplayName r) (SenderKind r) (SourceEndpointID r) (ExternalMessageID r) (MetadataJSON r) (Attachments r) (RequestID r) (CreatedUnix r) (Kind r).
Definition set_SenderDisplayName (v : string) (r : Message) : Message := mk (ID r) (Target r) (ThreadID r) (Role r) (Content r) (ReplyToMessageID r) (SenderUserID r) (SenderAgentID r) v (SenderKind r) (SourceEndpointID r) (ExternalMessageID r) (MetadataJSON r) (Attachments r) (RequestID r) (CreatedUnix r) (Kind r).
Definition set_SenderKind (v : string) (r : Message) : Message := mk (ID r) (Target r) (ThreadID r) (Role r) (Content r) (ReplyToMessageID r) (SenderUserID r) (SenderAgentID r) (SenderDisplayName r) v (SourceEndpointID r) (ExternalMessageID r) (MetadataJSON r) (Attachments r) (RequestID r) (CreatedUnix r) (Kind r).
Definition set_SourceEndpointID (v : string) (r : Message) : Message := mk (ID r) (Target r) (ThreadID r) (Role r) (Content r) (ReplyToMessageID r) (SenderUserID r) (SenderAgentID r) (SenderDisplayName r) (SenderKind r) v (ExternalMessageID r) (MetadataJSON r) (Attachments r) (RequestID r) (CreatedUnix r) (Kind r).
Definition set_ExternalMessageID (v : string) (r : Message) : Message := mk (ID r) (Target r) (ThreadID r) (Role r) (Content r) (ReplyToMessageID r) (SenderUserID r) (SenderAgentID r) (SenderDisplayName r) (SenderKind r) (SourceEndpointID r) v (MetadataJSON r) (Attachments r) (RequestID r) (CreatedUnix r) (Kind r).
Definition set_MetadataJSON (v : string) (r : Message) : Message := mk (ID r) (Target r) (ThreadID r) (Role r) (Content r) (ReplyToMessageID r) (SenderUserID r) (SenderAgentID r) (SenderDisplayName r) (SenderKind r) (SourceEndpointID r) (ExternalMessageID r) v (Attachments r) (RequestID r) (CreatedUnix r) (Kind r).
Definition set_Attachments (v : list Attachment.Attachment) (r : Message) : Message := mk (ID r) (Target r) (ThreadID r) (Role r) (Content r) (ReplyToMessageID r) (SenderUserID r) (SenderAgentID r) (SenderDisplayName r) (SenderKind r) (SourceEndpointID r) (ExternalMessageID r) (MetadataJSON r) v (RequestID r) (CreatedUnix r) (Kind r).
Definition set_RequestID (v : string) (r : Message) : Message := mk (ID r) (Target r) (ThreadID r) (Role r) (Content r) (ReplyToMessageID r) (SenderUserID r) (SenderAgentID r) (SenderDisplayName r) (SenderKind r) (SourceEndpointID r) (ExternalMessageID r) (MetadataJSON r) (Attachments r) v (CreatedUnix r) (Kind r).
Definition set_CreatedUnix (v : Z) (r : Message) : Message := mk (ID r) (Target r) (ThreadID r) (Role r) (Content r) (ReplyToMessageID r) (SenderUserID r) (SenderAgentID r) (SenderDisplayName r) (SenderKind r) (SourceEndpointID r) (ExternalMessageID r) (MetadataJSON r) (Attachments r) (RequestID r) v (Kind r).
Definition set_Kind (v : string) (r : Message) : Message := mk (ID r) (Target r) (ThreadID r) (Role r) (Content r) (ReplyToMessageID r) (SenderUserID r) (SenderAgentID r) (SenderDisplayName r) (SenderKind r) (SourceEndpointID r) (ExternalMessageID r) (MetadataJSON r) (Attachments r) (RequestID r) (CreatedUnix r) v.
End Message.
Abbreviation Message := Message.Message.

Module OutboundDelivery.
Record OutboundDelivery := mk {
  ID : string;
  Target : string;
  MessageID : string;
  EndpointID : string;
  EndpointKind : string;
  ExternalMessageID : string;
  Status : string;
  AttemptCount : Z;
  NextRetryTimeUnix : Z;
  DeliveredTimeUnix : Z;
  LastError : string;
  RequestID : string;
  CreatedUnix : Z;
  UpdatedUnix : Z
}.
Definition zero : OutboundDelivery := mk "" "" "" "" "" "" "" 0%Z 0%Z 0%Z "" "" 0%Z 0%Z.
Definition set_ID (v : string) (r : OutboundDelivery) : OutboundDelivery := mk v (Target r) (MessageID r) (EndpointID r) (EndpointKind r) (ExternalMessageID r) (Status r) (AttemptCount r) (NextRetryTimeUnix r) (DeliveredTimeUnix r) (LastError r) (RequestID r) (CreatedUnix r) (UpdatedUnix r).
Definition set_Target (v : string) (r : OutboundDelivery) : OutboundDelivery := mk (ID r) v (MessageID r) (EndpointID r) (EndpointKind r) (ExternalMessageID r) (Status r) (AttemptCount r) (NextRetryTimeUnix r) (DeliveredTimeUnix r) (LastError r) (RequestID r) (CreatedUnix r) (UpdatedUnix r).
Definition set_MessageID (v : string) (r : OutboundDelivery) : OutboundDelivery := mk (ID r) (Target r) v (EndpointID r) (EndpointKind r) (ExternalMessageID r) (Status r) (AttemptCount r) (NextRetryTimeUnix r) (DeliveredTimeUnix r) (LastError r) (RequestID r) (CreatedUnix r) (UpdatedUnix r).
Definition set_EndpointID (v : string) (r : OutboundDelivery) : OutboundDelivery := mk (ID r) (Target r) (MessageID r) v (EndpointKind r) (ExternalMessageID r) (Status r) (AttemptCount r) (NextRetryTimeUnix r) (DeliveredTimeUnix r) (LastError r) (RequestID r) (CreatedUnix r) (UpdatedUnix r).
Definition set_EndpointKind (v : string) (r : OutboundDelivery) : OutboundDelivery := mk (ID r) (Target r) (MessageID r) (EndpointID r) v (ExternalMessageID r) (Status r) (AttemptCount r) (NextRetryTimeUnix r) (DeliveredTimeUnix r) (LastError r) (RequestID r) (CreatedUnix r) (UpdatedUnix r).
Definition set_ExternalMessageID (v : string) (r : OutboundDelivery) : OutboundDelivery := mk (ID r) (Target r) (MessageID r) (EndpointID r) (EndpointKind r) v (Status r) (AttemptCount r) (NextRetryTimeUnix r) (DeliveredTimeUnix r) (LastError r) (RequestID r) (CreatedUnix r) (UpdatedUnix r).
Definition set_Status (v : string) (r : OutboundDelivery) : OutboundDelivery := mk (ID r) (Target r) (MessageID r) (EndpointID r) (EndpointKind r) (ExternalMessageID r) v (AttemptCount r) (NextRetryTimeUnix r) (DeliveredTimeUnix r) (LastError r) (RequestID r) (CreatedUnix r) (UpdatedUnix r).
Definition set_AttemptCount (v : Z) (r : OutboundDelivery) : OutboundDelivery := mk (ID r) (Target r) (MessageID r) (EndpointID r) (EndpointKind r) (ExternalMessageID r) (Status r) v (NextRetryTimeUnix r) (DeliveredTimeUnix r) (LastError r) (RequestID r) (CreatedUnix r) (UpdatedUnix r).
Definition set_NextRetryTimeUnix (v : Z) (r : OutboundDelivery) : OutboundDelivery := mk (ID r) (Target r) (MessageID r) (EndpointID r) (EndpointKind r) (ExternalMessageID r) (Status r) (AttemptCount r) v (DeliveredTimeUnix r) (LastError r) (RequestID r) (CreatedUnix r) (UpdatedUnix r).
Definition set_DeliveredTimeUnix (v : Z) (r : OutboundDelivery) : OutboundDelivery := mk (ID r) (Target r) (MessageID r) (EndpointID r) (EndpointKind r) (ExternalMessageID r) (Status r) (AttemptCount r) (NextRetryTimeUnix r) v (LastError r) (RequestID r) (CreatedUnix r) (UpdatedUnix r).
Definition set_LastError (v : string) (r : OutboundDelivery) : OutboundDelivery := mk (ID r) (Target r) (MessageID r) (EndpointID r) (EndpointKind r) (ExternalMessageID r) (Status r) (AttemptCount r) (NextRetryTimeUnix r) (DeliveredTimeUnix r) v (RequestID r) (CreatedUnix r) (UpdatedUnix r).
Definition set_RequestID (v : string) (r : OutboundDelivery) : OutboundDelivery := mk (ID r) (Target r) (MessageID r) (EndpointID r) (EndpointKind r) (ExternalMessageID r) (Status r) (AttemptCount r) (NextRetryTimeUnix r) (DeliveredTimeUnix r) (LastError r) v (CreatedUnix r) (UpdatedUnix r).
Definition set_CreatedUnix (v : Z) (r : OutboundDelivery) : OutboundDelivery := mk (ID r) (Target r) (MessageID r) (EndpointID r) (EndpointKind r) (ExternalMessageID r) (Status r) (AttemptCount r) (NextRetryTimeUnix r) (DeliveredTimeUnix r) (LastError r) (RequestID r) v (UpdatedUnix r).
Definition set_UpdatedUnix (v : Z) (r : OutboundDelivery) : OutboundDelivery := mk (ID r) (Target r) (MessageID r) (EndpointID r) (EndpointKind r) (ExternalMessageID r) (Status r) (AttemptCount r) (NextRetryTimeUnix r) (DeliveredTimeUnix r) (LastError r) (RequestID r) (CreatedUnix r) v.
End OutboundDelivery.
Abbreviation OutboundDelivery := OutboundDelivery.OutboundDelivery.

Module OutboundDeliveryListOptions.
Record OutboundDeliveryListOptions := mk {
  Target : string;
  MessageID : string;
  EndpointID : string;
  Statuses : list string;
  Limit : Z;
  ReadyUnix : Z
}.
Definition zero : OutboundDeliveryListOptions := mk "" "" "" [] 0%Z 0%Z.
Definition set_Target (v : string) (r : OutboundDeliveryListOptions) : OutboundDeliveryListOptions := mk v (MessageID r) (EndpointID r) (Statuses r) (Limit r) (ReadyUnix r).
Definition set_MessageID (v : string) (r : OutboundDeliveryListOptions) : OutboundDeliveryListOptions := mk (Target r) v (EndpointID r) (Statuses r) (Limit r) (ReadyUnix r).
Definition set_EndpointID (v : string) (r : OutboundDeliveryListOptions) : OutboundDeliveryListOptions := mk (Target r) (MessageID r) v (Statuses r) (Limit r) (ReadyUnix r).
Definition set_Statuses (v : list string) (r : OutboundDeliveryListOptions) : OutboundDeliveryListOptions := mk (Target r) (MessageID r) (EndpointID r) v (Limit r) (ReadyUnix r).
Definition set_Limit (v : Z) (r : OutboundDeliveryListOptions) : OutboundDeliveryListOptions := mk (Target r) (MessageID r) (EndpointID r) (Statuses r) v (ReadyUnix r).
Definition set_ReadyUnix (v : Z) (r : OutboundDeliveryListOptions) : OutboundDeliveryListOptions := mk (Target r) (MessageID r) (EndpointID r) (Statuses r) (Limit r) v.
End OutboundDeliveryListOptions.
Abbreviation OutboundDeliveryListOptions := OutboundDeliveryListOptions.OutboundDeliveryListOptions.

Module NotificationRoute.
Record NotificationRoute := mk {
  ID : string;
  Target : string;
  ThreadID : string;
  EndpointID : string;
  EventKind : string;
  Preference : string;
  Enabled : bool;
  ConfigJSON : string;
  CreatedUnix : Z;
  UpdatedUnix : Z
}.
Definition zero : NotificationRoute := mk "" "" "" "" "" "" false "" 0%Z 0%Z.
Definition set_ID (v : string) (r : NotificationRoute) : NotificationRoute := mk v (Target r) (ThreadID r) (EndpointID r) (EventKind r) (Preference r) (Enabled r) (ConfigJSON r) (CreatedUnix r) (UpdatedUnix r).
Definition set_Target (v : string) (r : NotificationRoute) : NotificationRoute := mk (ID r) v (ThreadID r) (EndpointID r) (EventKind r) (Preference r) (Enabled r) (ConfigJSON r) (CreatedUnix r) (UpdatedUnix r).
Definition set_ThreadID (v : string) (r : NotificationRoute) : NotificationRoute := mk (ID r) (Target r) v (EndpointID r) (EventKind r) (Preference r) (Enabled r) (ConfigJSON r) (CreatedUnix r) (UpdatedUnix r).
Definition set_EndpointID (v : string) (r : NotificationRoute) : NotificationRoute := mk (ID r) (Target r) (ThreadID r) v (EventKind r) (Preference r) (Enabled r) (ConfigJSON r) (CreatedUnix r) (UpdatedUnix r).
Definition set_EventKind (v : string) (r : NotificationRoute) : NotificationRoute := mk (ID r) (Target r) (ThreadID r) (EndpointID r) v (Preference r) (Enabled r) (ConfigJSON r) (CreatedUnix r) (UpdatedUnix r).
Definition set_Preference (v : string) (r : NotificationRoute) : NotificationRoute := mk (ID r) (Target r) (ThreadID r) (EndpointID r) (EventKind r) v (Enabled r) (ConfigJSON r) (CreatedUnix r) (UpdatedUnix r).
Definition set_Enabled (v : bool) (r : NotificationRoute) : NotificationRoute := mk (ID r) (Target r) (ThreadID r) (EndpointID r) (EventKind r) (Preference r) v (ConfigJSON r) (CreatedUnix r) (UpdatedUnix r).
Definition set_ConfigJSON (v : string) (r : NotificationRoute) : NotificationRoute := mk (ID r) (Target r) (ThreadID r) (EndpointID r) (EventKind r) (Preference r) (Enabled r) v (CreatedUnix r) (UpdatedUnix r).
Definition set_CreatedUnix (v : Z) (r : NotificationRoute) : NotificationRoute := mk (ID r) (Target r) (ThreadID r) (EndpointID r) (EventKind r) (Preference r) (Enabled r) (ConfigJSON r) v (UpdatedUnix r).
Definition set_UpdatedUnix (v : Z) (r : NotificationRoute) : NotificationRoute := mk (ID r) (Target r) (ThreadID r) (EndpointID r) (EventKind r) (Preference r) (Enabled r) (ConfigJSON r) (CreatedUnix r) v.
End NotificationRoute.
Abbreviation NotificationRoute := NotificationRoute.NotificationRoute.

Module NotificationRouteListOptions.
Record NotificationRouteListOptions := mk {
  Target : string;
  ThreadID : string;
  EndpointID : string;
  EventKind : string;
  Enabled : option bool;
  Limit : Z
}.
Definition zero : NotificationRouteListOptions := mk "" "" "" "" None 0%Z.
Definition set_Target (v : string) (r : NotificationRouteListOptions) : NotificationRouteListOptions := mk v (ThreadID r) (EndpointID r) (EventKind r) (Enabled r) (Limit r).
Definition set_ThreadID (v : string) (r : NotificationRouteListOptions) : NotificationRouteListOptions := mk (Target r) v (EndpointID r) (EventKind r) (Enabled r) (Limit r).
Definition set_EndpointID (v : string) (r : NotificationRouteListOptions) : NotificationRouteListOptions := mk (Target r) (ThreadID r) v (EventKind r) (Enabled r) (Limit r).
Definition set_EventKind (v : string) (r : NotificationRouteListOptions) : NotificationRouteListOptions := mk (Target r) (ThreadID r) (EndpointID r) v (Enabled r) (Limit r).
Definition set_Enabled (v : option bool) (r : NotificationRouteListOptions) : NotificationRouteListOptions := mk (Target r) (ThreadID r) (EndpointID r) (EventKind r) v (Limit r).
Definition set_Limit (v : Z) (r : NotificationRouteListOptions) : NotificationRouteListOptions := mk (Target r) (ThreadID r) (EndpointID r) (EventKind r) (Enabled r) v.
End NotificationRouteListOptions.
Abbreviation NotificationRouteListOptions := NotificationRouteListOptions.NotificationRouteListOptions.

Module NotificationRouteResolveOptions.
Record NotificationRouteResolveOptions := mk {
  Target : string;
  ThreadID : string;
  EventKind : string;
  Limit : Z
}.
Definition zero : NotificationRouteResolveOptions := mk "" "" "" 0%Z.
Definition set_Target (v : string) (r : NotificationRouteResolveOptions) : NotificationRouteResolveOptions := mk v (ThreadID r) (EventKind r) (Limit r).
Definition set_ThreadID (v : string) (r : NotificationRouteResolveOptions) : NotificationRouteResolveOptions := mk (Target r) v (EventKind r) (Limit r).
Definition set_EventKind (v : string) (r : NotificationRouteResolveOptions) : NotificationRouteResolveOptions := mk (Target r) (ThreadID r) v (Limit r).
Definition set_Limit (v : Z) (r : NotificationRouteResolveOptions) : NotificationRouteResolveOptions := mk (Target r) (ThreadID r) (EventKind r) v.
End NotificationRouteResolveOptions.
Abbreviation NotificationRouteResolveOptions := NotificationRouteResolveOptions.NotificationRouteResolveOptions.

Module NotificationRoutePatch.
Record NotificationRoutePatch := mk {
  Target : option string;
  ThreadID : option string;
  EndpointID : option string;
  EventKind : option string;
  Preference : option string;
  Enabled : option bool;
  ConfigJSON : option string
}.
Definition zero : NotificationRoutePatch := mk None None None None None None None.
Definition set_Target (v : option string) (r : NotificationRoutePatch) : NotificationRoutePatch := mk v (ThreadID r) (EndpointID r) (EventKind r) (Preference r) (Enabled r) (ConfigJSON r).
Definition set_ThreadID (v : option string) (r : NotificationRoutePatch) : NotificationRoutePatch := mk (Target r) v (EndpointID r) (EventKind r) (Preference r) (Enabled r) (ConfigJSON r).
Definition set_EndpointID (v : option string) (r : NotificationRoutePatch) : NotificationRoutePatch := mk (Target r) (ThreadID r) v (EventKind r) (Preference r) (Enabled r) (ConfigJSON r).
Definition set_EventKind (v : option string) (r : NotificationRoutePatch) : NotificationRoutePatch := mk (Target r) (ThreadID r) (EndpointID r) v (Preference r) (Enabled r) (ConfigJSON r).
Definition set_Preference (v : option string) (r : NotificationRoutePatch) : NotificationRoutePatch := mk (Target r) (ThreadID r) (EndpointID r) (EventKind r) v (Enabled r) (ConfigJSON r).
Definition set_Enabled (v : option bool) (r : NotificationRoutePatch) : NotificationRoutePatch := mk (Target r) (ThreadID r) (EndpointID r) (EventKind r) (Preference r) v (ConfigJSON r).
Definition set_ConfigJSON (v : option string) (r : NotificationRoutePatch) : NotificationRoutePatch := mk (Target r) (ThreadID r) (EndpointID r) (EventKind r) (Preference r) (Enabled r) v.
End NotificationRoutePatch.
Abbreviation NotificationRoutePatch := NotificationRoutePatch.NotificationRoutePatch.

Module ThreadInboxItem.
Record ThreadInboxItem := mk {
  Target : string;
  ThreadID : string;
  Topic : string;
  MessageCount : Z;
  UnreadCount : Z;
  LastReadUnix : Z;
  LastReadMessageID : string;
  FirstMessage : Message.Message;
  LatestMessage : Message.Message;
  UpdatedUnix : Z
}.
Definition zero : ThreadInboxItem := mk "" "" "" 0%Z 0%Z 0%Z "" Message.zero Message.zero 0%Z.
Definition set_Target (v : string) (r : ThreadInboxItem) : ThreadInboxItem := mk v (ThreadID r) (Topic r) (MessageCount r) (UnreadCount r) (LastReadUnix r) (LastReadMessageID r) (FirstMessage r) (LatestMessage r) (UpdatedUnix r).
Definition set_ThreadID (v : string) (r : ThreadInboxItem) : ThreadInboxItem := mk (Target r) v (Topic r) (MessageCount r) (UnreadCount r) (LastReadUnix r) (LastReadMessageID r) (FirstMessage r) (LatestMessage r) (UpdatedUnix r).
Definition set_Topic (v : string) (r : ThreadInboxItem) : ThreadInboxItem := mk (Target r) (ThreadID r) v (MessageCount r) (UnreadCount r) (LastReadUnix r) (LastReadMessageID r) (FirstMessage r) (LatestMessage r) (UpdatedUnix r).
Definition set_MessageCount (v : Z) (r : ThreadInboxItem) : ThreadInboxItem := mk (Target r) (ThreadID r) (Topic r) v (UnreadCount r) (LastReadUnix r) (LastReadMessageID r) (FirstMessage r) (LatestMessage r) (UpdatedUnix r).
Definition set_UnreadCount (v : Z) (r : ThreadInboxItem) : ThreadInboxItem := mk (Target r) (ThreadID r) (Topic r) (MessageCount r) v (LastReadUnix r) (LastReadMessageID r) (FirstMessage r) (LatestMessage r) (UpdatedUnix r).
Definition set_LastReadUnix (v : Z) (r : ThreadInboxItem) : ThreadInboxItem := mk (Target r) (ThreadID r) (Topic r) (MessageCount r) (UnreadCount r) v (LastReadMessageID r) (FirstMessage r) (LatestMessage r) (UpdatedUnix r).
Definition set_LastReadMessageID (v : string) (r : ThreadInboxItem) : ThreadInboxItem := mk (Target r) (ThreadID r) (Topic r) (MessageCount r) (UnreadCount r) (LastReadUnix r) v (FirstMessage r) (LatestMessage r) (UpdatedUnix r).
Definition set_FirstMessage (v : Message.Message) (r : ThreadInboxItem) : ThreadInboxItem := mk (Target r) (ThreadID r) (Topic r) (MessageCount r) (UnreadCount r) (LastReadUnix r) (LastReadMessageID r) v (LatestMessage r) (UpdatedUnix r).
Definition set_LatestMessage (v : Message.Message) (r : ThreadInboxItem) : ThreadInboxItem := mk (Target r) (ThreadID r) (Topic r) (MessageCount r) (UnreadCount r) (LastReadUnix r) (LastReadMessageID r) (FirstMessage r) v (UpdatedUnix r).
Definition set_UpdatedUnix (v : Z) (r : ThreadInboxItem) : ThreadInboxItem := mk (Target r) (ThreadID r) (Topic r) (MessageCount r) (UnreadCount r) (LastReadUnix r) (LastReadMessageID r) (FirstMessage r) (LatestMessage r) v.
End ThreadInboxItem.
Abbreviation ThreadInboxItem := ThreadInboxItem.ThreadInboxItem.

Module MessageSearchOptions.
Record MessageSearchOptions := mk {
  Query : string;
  Target : string;
  SenderHandle : string;
  HasAttachment : bool;
  Sort : string;
  Limit : Z
}.
Definition zero : MessageSearchOptions := mk "" "" "" false "" 0%Z.
Definition set_Query (v : string) (r : MessageSearchOptions) : MessageSearchOptions := mk v (Target r) (SenderHandle r) (HasAttachment r) (Sort r) (Limit r).
Definition set_Target (v : string) (r : MessageSearchOptions) : MessageSearchOptions := mk (Query r) v (SenderHandle r) (HasAttachment r) (Sort r) (Limit r).
Definition set_SenderHandle (v : string) (r : MessageSearchOptions) : MessageSearchOptions := mk (Query r) (Target r) v (HasAttachment r) (Sort r) (Limit r).
Definition set_HasAttachment (v : bool) (r : MessageSearchOptions) : MessageSearchOptions := mk (Query r) (Target r) (SenderHandle r) v (Sort r) (Limit r).
Definition set_Sort (v : string) (r : MessageSearchOptions) : MessageSearchOptions := mk (Query r) (Target r) (SenderHandle r) (HasAttachment r) v (Limit r).
Definition set_Limit (v : Z) (r : MessageSearchOptions) : MessageSearchOptions := mk (Query r) (Target r) (SenderHandle r) (HasAttachment r) (Sort r) v.
End MessageSearchOptions.
Abbreviation MessageSearchOptions := MessageSearchOptions.MessageSearchOptions.

Module SavedMessageListOptions.
Record SavedMessageListOptions := mk {
  Target : string;
  UserID : string;
  AgentID : string;
  Query : string;
  HasAttachment : bool;
  Limit : Z
}.
Definition zero : SavedMessageListOptions := mk "" "" "" "" false 0%Z.
Definition set_Target (v : string) (r : SavedMessageListOptions) : SavedMessageListOptions := mk v (UserID r) (AgentID r) (Query r) (HasAttachment r) (Limit r).
Definition set_UserID (v : string) (r : SavedMessageListOptions) : SavedMessageListOptions := mk (Target r) v (AgentID r) (Query r) (HasAttachment r) (Limit r).
Definition set_AgentID (v : string) (r : SavedMessageListOptions) : SavedMessageListOptions := mk (Target r) (UserID r) v (Query r) (HasAttachment r) (Limit r).
Definition set_Query (v : string) (r : SavedMessageListOptions) : SavedMessageListOptions := mk (Target r) (UserID r) (AgentID r) v (HasAttachment r) (Limit r).
Definition set_HasAttachment (v : bool) (r : SavedMessageListOptions) : SavedMessageListOptions := mk (Target r) (UserID r) (AgentID r) (Query r) v (Limit r).
Definition set_Limit (v : Z) (r : SavedMessageListOptions) : SavedMessageListOptions := mk (Target r) (UserID r) (AgentID r) (Query r) (HasAttachment r) v.
End SavedMessageListOptions.
Abbreviation SavedMessageListOptions := SavedMessageListOptions.SavedMessageListOptions.

Module SavedMessage.
Record SavedMessage := mk {
  ID : string;
  Target : string;
  MessageID : string;
  SavedByUserID : string;
  SavedByAgentID : string;
  CreatedUnix : Z;
  Message : Message.Message
}.
Definition zero : SavedMessage := mk "" "" "" "" "" 0%Z Message.zero.
Definition set_ID (v : string) (r : SavedMessage) : SavedMessage := mk v (Target r) (MessageID r) (SavedByUserID r) (SavedByAgentID r) (CreatedUnix r) (Message r).
Definition set_Target (v : string) (r : SavedMessage) : SavedMessage := mk (ID r) v (MessageID r) (SavedByUserID r) (SavedByAgentID r) (CreatedUnix r) (Message r).
Definition set_MessageID (v : string) (r : SavedMessage) : SavedMessage := mk (ID r) (Target r) v (SavedByUserID r) (SavedByAgentID r) (CreatedUnix r) (Message r).
Definition set_SavedByUserID (v : string) (r : SavedMessage) : SavedMessage := mk (ID r) (Target r) (MessageID r) v (SavedByAgentID r) (CreatedUnix r) (Message r).
Definition set_SavedByAgentID (v : string) (r : SavedMessage) : SavedMessage := mk (ID r) (Target r) (MessageID r) (SavedByUserID r) v (CreatedUnix r) (Message r).
Definition set_CreatedUnix (v : Z) (r : SavedMessage) : SavedMessage := mk (ID r) (Target r) (MessageID r) (SavedByUserID r) (SavedByAgentID r) v (Message r).
Definition set_Message (v : Message.Message) (r : SavedMessage) : SavedMessage := mk (ID r) (Target r) (MessageID r) (SavedByUserID r) (SavedByAgentID r) (CreatedUnix r) v.
End SavedMessage.
Abbreviation SavedMessage := SavedMessage.SavedMessage.

Module Task.
Record Task := mk {
  ID : string;
  Summary : string;
  Description : string;
  State : string;
  Target : string;
  AssigneeID : string;
  CreatedByUserID : string;
  BlockedReason : string;
  Version : Z;
  ClaimLeaseID : string;
  CreatedUnix : Z;
  UpdatedUnix : Z
}.
Definition zero : Task := mk "" "" "" "" "" "" "" "" 0%Z "" 0%Z 0%Z.
Definition set_ID (v : string) (r : Task) : Task := mk v (Summary r) (Description r) (State r) (Target r) (AssigneeID r) (CreatedByUserID r) (BlockedReason r) (Version r) (ClaimLeaseID r) (CreatedUnix r) (UpdatedUnix r).
Definition set_Summary (v : string) (r : Task) : Task := mk (ID r) v (Description r) (State r) (Target r) (AssigneeID r) (CreatedByUserID r) (BlockedReason r) (Version r) (ClaimLeaseID r) (CreatedUnix r) (UpdatedUnix r).
Definition set_Description (v : string) (r : Task) : Task := mk (ID r) (Summary r) v (State r) (Target r) (AssigneeID r) (CreatedByUserID r) (BlockedReason r) (Version r) (ClaimLeaseID r) (CreatedUnix r) (UpdatedUnix r).
Definition set_State (v : string) (r : Task) : Task := mk (ID r) (Summary r) (Description r) v (Target r) (AssigneeID r) (CreatedByUserID r) (BlockedReason r) (Version r) (ClaimLeaseID r) (CreatedUnix r) (UpdatedUnix r).
Definition set_Target (v : string) (r : Task) : Task := mk (ID r) (Summary r) (Description r) (State r) v (AssigneeID r) (CreatedByUserID r) (BlockedReason r) (Version r) (ClaimLeaseID r) (CreatedUnix r) (UpdatedUnix r).
Definition set_AssigneeID (v : string) (r : Task) : Task := mk (ID r) (Summary r) (Description r) (State r) (Target r) v (CreatedByUserID r) (BlockedReason r) (Version r) (ClaimLeaseID r) (CreatedUnix r) (UpdatedUnix r).
Definition set_CreatedByUserID (v : string) (r : Task) : Task := mk (ID r) (Summary r) (Description r) (State r) (Target r) (AssigneeID r) v (BlockedReason r) (Version r) (ClaimLeaseID r) (CreatedUnix r) (UpdatedUnix r).
Definition set_BlockedReason (v : string) (r : Task) : Task := mk (ID r) (Summary r) (Description r) (State r) (Target r) (AssigneeID r) (CreatedByUserID r) v (Version r) (ClaimLeaseID r) (CreatedUnix r) (UpdatedUnix r).
Definition set_Version (v : Z) (r : Task) : Task := mk (ID r) (Summary r) (Description r) (State r) (Target r) (AssigneeID r) (CreatedByUserID r) (BlockedReason r) v (ClaimLeaseID r) (CreatedUnix r) (UpdatedUnix r).
Definition set_ClaimLeaseID (v : string) (r : Task) : Task := mk (ID r) (Summary r) (Description r) (State r) (Target r) (AssigneeID r) (CreatedByUserID r) (BlockedReason r) (Version r) v (CreatedUnix r) (UpdatedUnix r).
Definition set_CreatedUnix (v : Z) (r : Task) : Task := mk (ID r) (Summary r) (Description r) (State r) (Target r) (AssigneeID r) (CreatedByUserID r) (BlockedReason r) (Version r) (ClaimLeaseID r) v (UpdatedUnix r).
Definition set_UpdatedUnix (v : Z) (r : Task) : Task := mk (ID r) (Summary r) (Description r) (State r) (Target r) (AssigneeID r) (CreatedByUserID r) (BlockedReason r) (Version r) (ClaimLeaseID r) (CreatedUnix r) v.
End Task.
Abbreviation Task := Task.Task.

Module TaskAttempt.
Record TaskAttempt := mk {
  ID : string;
  TaskID : string;
  Attempt : Z;
  RunID : string;
  AgentID : string;
  ClaimLeaseID : string;
  Status : string;
  OutputJSON : string;
  OutputDigest : string;
  OutputSignature : string;
  SignaturePublicKey : string;
  ErrorMessage : string;
  ClaimedUnix : Z;
  StartedUnix : Z;
  CompletedUnix : Z;
  UpdatedUnix : Z
}.
Definition zero : TaskAttempt := mk "" "" 0%Z "" "" "" "" "" "" "" "" "" 0%Z 0%Z 0%Z 0%Z.
Definition set_ID (v : string) (r : TaskAttempt) : TaskAttempt := mk v (TaskID r) (Attempt r) (RunID r) (AgentID r) (ClaimLeaseID r) (Status r) (OutputJSON r) (OutputDigest r) (OutputSignature r) (SignaturePublicKey r) (ErrorMessage r) (ClaimedUnix r) (StartedUnix r) (CompletedUnix r) (UpdatedUnix r).
Definition set_TaskID (v : string) (r : TaskAttempt) : TaskAttempt := mk (ID r) v (Attempt r) (RunID r) (AgentID r) (ClaimLeaseID r) (Status r) (OutputJSON r) (OutputDigest r) (OutputSignature r) (SignaturePublicKey r) (ErrorMessage r) (ClaimedUnix r) (StartedUnix r) (CompletedUnix r) (UpdatedUnix r).
Definition set_Attempt (v : Z) (r : TaskAttempt) : TaskAttempt := mk (ID r) (TaskID r) v (RunID r) (AgentID r) (ClaimLeaseID r) (Status r) (OutputJSON r) (OutputDigest r) (OutputSignature r) (SignaturePublicKey r) (ErrorMessage r) (ClaimedUnix r) (StartedUnix r) (CompletedUnix r) (UpdatedUnix r).
Definition set_RunID (v : string) (r : TaskAttempt) : TaskAttempt := mk (ID r) (TaskID r) (Attempt r) v (AgentID r) (ClaimLeaseID r) (Status r) (OutputJSON r) (OutputDigest r) (OutputSignature r) (SignaturePublicKey r) (ErrorMessage r) (ClaimedUnix r) (StartedUnix r) (CompletedUnix r) (UpdatedUnix r).
Definition set_AgentID (v : string) (r : TaskAttempt) : TaskAttempt := mk (ID r) (TaskID r) (Attempt r) (RunID r) v (ClaimLeaseID r) (Status r) (OutputJSON r) (OutputDigest r) (OutputSignature r) (SignaturePublicKey r) (ErrorMessage r) (ClaimedUnix r) (StartedUnix r) (CompletedUnix r) (UpdatedUnix r).
Definition set_ClaimLeaseID (v : string) (r : TaskAttempt) : TaskAttempt := mk (ID r) (TaskID r) (Attempt r) (RunID r) (AgentID r) v (Status r) (OutputJSON r) (OutputDigest r) (OutputSignature r) (SignaturePublicKey r) (ErrorMessage r) (ClaimedUnix r) (StartedUnix r) (CompletedUnix r) (UpdatedUnix r).
Definition set_Status (v : string) (r : TaskAttempt) : TaskAttempt := mk (ID r) (TaskID r) (Attempt r) (RunID r) (AgentID r) (ClaimLeaseID r) v (OutputJSON r) (OutputDigest r) (OutputSignature r) (SignaturePublicKey r) (ErrorMessage r) (ClaimedUnix r) (StartedUnix r) (CompletedUnix r) (UpdatedUnix r).
Definition set_OutputJSON (v : string) (r : TaskAttempt) : TaskAttempt := mk (ID r) (TaskID r) (Attempt r) (RunID r) (AgentID r) (ClaimLeaseID r) (Status r) v (OutputDigest r) (OutputSignature r) (SignaturePublicKey r) (ErrorMessage r) (ClaimedUnix r) (StartedUnix r) (CompletedUnix r) (UpdatedUnix r).
Definition set_OutputDigest (v : string) (r : TaskAttempt) : TaskAttempt := mk (ID r) (TaskID r) (Attempt r) (RunID r) (AgentID r) (ClaimLeaseID r) (Status r) (OutputJSON r) v (OutputSignature r) (SignaturePublicKey r) (ErrorMessage r) (ClaimedUnix r) (StartedUnix r) (CompletedUnix r) (UpdatedUnix r).
Definition set_OutputSignature (v : string) (r : TaskAttempt) : TaskAttempt := mk (ID r) (TaskID r) (Attempt r) (RunID r) (AgentID r) (ClaimLeaseID r) (Status r) (OutputJSON r) (OutputDigest r) v (SignaturePublicKey r) (ErrorMessage r) (ClaimedUnix r) (StartedUnix r) (CompletedUnix r) (UpdatedUnix r).
Definition set_SignaturePublicKey (v : string) (r : TaskAttempt) : TaskAttempt := mk (ID r) (TaskID r) (Attempt r) (RunID r) (AgentID r) (ClaimLeaseID r) (Status r) (OutputJSON r) (OutputDigest r) (OutputSignature r) v (ErrorMessage r) (ClaimedUnix r) (StartedUnix r) (CompletedUnix r) (UpdatedUnix r).
Definition set_ErrorMessage (v : string) (r : TaskAttempt) : TaskAttempt := mk (ID r) (TaskID r) (Attempt r) (RunID r) (AgentID r) (ClaimLeaseID r) (Status r) (OutputJSON r) (OutputDigest r) (OutputSignature r) (SignaturePublicKey r) v (ClaimedUnix r) (StartedUnix r) (CompletedUnix r) (UpdatedUnix r).
Definition set_ClaimedUnix (v : Z) (r : TaskAttempt) : TaskAttempt := mk (ID r) (TaskID r) (Attempt r) (RunID r) (AgentID r) (ClaimLeaseID r) (Status r) (OutputJSON r) (OutputDigest r) (OutputSignature r) (SignaturePublicKey r) (ErrorMessage r) v (StartedUnix r) (CompletedUnix r) (UpdatedUnix r).
Definition set_StartedUnix (v : Z) (r : TaskAttempt) : TaskAttempt := mk (ID r) (TaskID r) (Attempt r) (RunID r) (AgentID r) (ClaimLeaseID r) (Status r) (OutputJSON r) (OutputDigest r) (OutputSignature r) (SignaturePublicKey r) (ErrorMessage r) (ClaimedUnix r) v (CompletedUnix r) (UpdatedUnix r).
Definition set_CompletedUnix (v : Z) (r : TaskAttempt) : TaskAttempt := mk (ID r) (TaskID r) (Attempt r) (RunID r) (AgentID r) (ClaimLeaseID r) (Status r) (OutputJSON r) (OutputDigest r) (OutputSignature r) (SignaturePublicKey r) (ErrorMessage r) (ClaimedUnix r) (StartedUnix r) v (UpdatedUnix r).
Definition set_UpdatedUnix (v : Z) (r : TaskAttempt) : TaskAttempt := mk (ID r) (TaskID r) (Attempt r) (RunID r) (AgentID r) (ClaimLeaseID r) (Status r) (OutputJSON r) (OutputDigest r) (OutputSignature r) (SignaturePublicKey r) (ErrorMessage r) (ClaimedUnix r) (StartedUnix r) (CompletedUnix r) v.
End TaskAttempt.
Abbreviation TaskAttempt := TaskAttempt.TaskAttempt.

Module TaskPatch.
Record TaskPatch := mk {
  Summary : option string;
  Description : option string;
  State : option string;
  AssigneeID : option string;
  BlockedReason : option string
}.
Definition zero : TaskPatch := mk None None None None None.
Definition set_Summary (v : option string) (r : TaskPatch) : TaskPatch := mk v (Description r) (State r) (AssigneeID r) (BlockedReason r).
Definition set_Description (v : option string) (r : TaskPatch) : TaskPatch := mk (Summary r) v (State r) (AssigneeID r) (BlockedReason r).
Definition set_State (v : option string) (r : TaskPatch) : TaskPatch := mk (Summary r) (Description r) v (AssigneeID r) (BlockedReason r).
Definition set_AssigneeID (v : option string) (r : TaskPatch) : TaskPatch := mk (Summary r) (Description r) (State r) v (BlockedReason r).
Definition set_BlockedReason (v : option string) (r : TaskPatch) : TaskPatch := mk (Summary r) (Description r) (State r) (AssigneeID r) v.
End TaskPatch.
Abbreviation TaskPatch := TaskPatch.TaskPatch.

Module Reminder.
Record Reminder := mk {
  ID : string;
  Target : string;
  ScheduleKind : string;
  Schedule : string;
  Prompt : string;
  Enabled : bool;
  NextRunUnix : Z;
  LastRunUnix : Z;
  RunCount : Z;
  LastError : string;
  Title : string;
  Status : string;
  MsgRef : string;
  RecurrenceRule : string;
  RecurrenceDescription : string;
  RecurrenceTimezone : string;
  CancelToken : string;
  CreatedUnix : Z;
  UpdatedUnix : Z
}.
Definition zero : Reminder := mk "" "" "" "" "" false 0%Z 0%Z 0%Z "" "" "" "" "" "" "" "" 0%Z 0%Z.
Definition set_ID (v : string) (r : Reminder) : Reminder := mk v (Target r) (ScheduleKind r) (Schedule r) (Prompt r) (Enabled r) (NextRunUnix r) (LastRunUnix r) (RunCount r) (LastError r) (Title r) (Status r) (MsgRef r) (RecurrenceRule r) (RecurrenceDescription r) (RecurrenceTimezone r) (CancelToken r) (CreatedUnix r) (UpdatedUnix r).
Definition set_Target (v : string) (r : Reminder) : Reminder := mk (ID r) v (ScheduleKind r) (Schedule r) (Prompt r) (Enabled r) (NextRunUnix r) (LastRunUnix r) (RunCount r) (LastError r) (Title r) (Status r) (MsgRef r) (RecurrenceRule r) (RecurrenceDescription r) (RecurrenceTimezone r) (CancelToken r) (CreatedUnix r) (UpdatedUnix r).
Definition set_ScheduleKind (v : string) (r : Reminder) : Reminder := mk (ID r) (Target r) v (Schedule r) (Prompt r) (Enabled r) (NextRunUnix r) (LastRunUnix r) (RunCount r) (LastError r) (Title r) (Status r) (MsgRef r) (RecurrenceRule r) (RecurrenceDescription r) (RecurrenceTimezone r) (CancelToken r) (CreatedUnix r) (UpdatedUnix r).
Definition set_Schedule (v : string) (r : Reminder) : Reminder := mk (ID r) (Target r) (ScheduleKind r) v (Prompt r) (Enabled r) (NextRunUnix r) (LastRunUnix r) (RunCount r) (LastError r) (Title r) (Status r) (MsgRef r) (RecurrenceRule r) (RecurrenceDescription r) (RecurrenceTimezone r) (CancelToken r) (CreatedUnix r) (UpdatedUnix r).
Definition set_Prompt (v : string) (r : Reminder) : Reminder := mk (ID r) (Target r) (ScheduleKind r) (Schedule r) v (Enabled r) (NextRunUnix r) (LastRunUnix r) (RunCount r) (LastError r) (Title r) (Status r) (MsgRef r) (RecurrenceRule r) (RecurrenceDescription r) (RecurrenceTimezone r) (CancelToken r) (CreatedUnix r) (UpdatedUnix r).
Definition set_Enabled (v : bool) (r : Reminder) : Reminder := mk (ID r) (Target r) (ScheduleKind r) (Schedule r) (Prompt r) v (NextRunUnix r) (LastRunUnix r) (RunCount r) (LastError r) (Title r) (Status r) (MsgRef r) (RecurrenceRule r) (RecurrenceDescription r) (RecurrenceTimezone r) (CancelToken r) (CreatedUnix r) (UpdatedUnix r).
Definition set_NextRunUnix (v : Z) (r : Reminder) : Reminder := mk (ID r) (Target r) (ScheduleKind r) (Schedule r) (Prompt r) (Enabled r) v (LastRunUnix r) (RunCount r) (LastError r) (Title r) (Status r) (MsgRef r) (RecurrenceRule r) (RecurrenceDescription r) (RecurrenceTimezone r) (CancelToken r) (CreatedUnix r) (UpdatedUnix r).
Definition set_LastRunUnix (v : Z) (r : Reminder) : Reminder := mk (ID r) (Target r) (ScheduleKind r) (Schedule r) (Prompt r) (Enabled r) (NextRunUnix r) v (RunCount r) (LastError r) (Title r) (Status r) (MsgRef r) (RecurrenceRule r) (RecurrenceDescription r) (RecurrenceTimezone r) (CancelToken r) (CreatedUnix r) (UpdatedUnix r).
Definition set_RunCount (v : Z) (r : Reminder) : Reminder := mk (ID r) (Target r) (ScheduleKind r) (Schedule r) (Prompt r) (Enabled r) (NextRunUnix r) (LastRunUnix r) v (LastError r) (Title r) (Status r) (MsgRef r) (RecurrenceRule r) (RecurrenceDescription r) (RecurrenceTimezone r) (CancelToken r) (CreatedUnix r) (UpdatedUnix r).
Definition set_LastError (v : string) (r : Reminder) : Reminder := mk (ID r) (Target r) (ScheduleKind r) (Schedule r) (Prompt r) (Enabled r) (NextRunUnix r) (LastRunUnix r) (RunCount r) v (Title r) (Status r) (MsgRef r) (RecurrenceRule r) (RecurrenceDescription r) (RecurrenceTimezone r) (CancelToken r) (CreatedUnix r) (UpdatedUnix r).
Definition set_Title (v : string) (r : Reminder) : Reminder := mk (ID r) (Target r) (ScheduleKind r) (Schedule r) (Prompt r) (Enabled r) (NextRunUnix r) (LastRunUnix r) (RunCount r) (LastError r) v (Status r) (MsgRef r) (RecurrenceRule r) (RecurrenceDescription r) (RecurrenceTimezone r) (CancelToken r) (CreatedUnix r) (UpdatedUnix r).
Definition set_Status (v : string) (r : Reminder) : Reminder := mk (ID r) (Target r) (ScheduleKind r) (Schedule r) (Prompt r) (Enabled r) (NextRunUnix r) (LastRunUnix r) (RunCount r) (LastError r) (Title r) v (MsgRef r) (RecurrenceRule r) (RecurrenceDescription r) (RecurrenceTimezone r) (CancelToken r) (CreatedUnix r) (UpdatedUnix r).
Definition set_MsgRef (v : string) (r : Reminder) : Reminder := mk (ID r) (Target r) (ScheduleKind r) (Schedule r) (Prompt r) (Enabled r) (NextRunUnix r) (LastRunUnix r) (RunCount r) (LastError r) (Title r) (Status r) v (RecurrenceRule r) (RecurrenceDescription r) (RecurrenceTimezone r) (CancelToken r) (CreatedUnix r) (UpdatedUnix r).
Definition set_RecurrenceRule (v : string) (r : Reminder) : Reminder := mk (ID r) (Target r) (ScheduleKind r) (Schedule r) (Prompt r) (Enabled r) (NextRunUnix r) (LastRunUnix r) (RunCount r) (LastError r) (Title r) (Status r) (MsgRef r) v (RecurrenceDescription r) (RecurrenceTimezone r) (CancelToken r) (CreatedUnix r) (UpdatedUnix r).
Definition set_RecurrenceDescription (v : string) (r : Reminder) : Reminder := mk (ID r) (Target r) (ScheduleKind r) (Schedule r) (Prompt r) (Enabled r) (NextRunUnix r) (LastRunUnix r) (RunCount r) (LastError r) (Title r) (Status r) (MsgRef r) (RecurrenceRule r) v (RecurrenceTimezone r) (CancelToken r) (CreatedUnix r) (UpdatedUnix r).
Definition set_RecurrenceTimezone (v : string) (r : Reminder) : Reminder := mk (ID r) (Target r) (ScheduleKind r) (Schedule r) (Prompt r) (Enabled r) (NextRunUnix r) (LastRunUnix r) (RunCount r) (LastError r) (Title r) (Status r) (MsgRef r) (RecurrenceRule r) (RecurrenceDescription r) v (CancelToken r) (CreatedUnix r) (UpdatedUnix r).
Definition set_CancelToken (v : string) (r : Reminder) : Reminder := mk (ID r) (Target r) (ScheduleKind r) (Schedule r) (Prompt r) (Enabled r) (NextRunUnix r) (LastRunUnix r) (RunCount r) (LastError r) (Title r) (Status r) (MsgRef r) (RecurrenceRule r) (RecurrenceDescription r) (RecurrenceTimezone r) v (CreatedUnix r) (UpdatedUnix r).
Definition set_CreatedUnix (v : Z) (r : Reminder) : Reminder := mk (ID r) (Target r) (ScheduleKind r) (Schedule r) (Prompt r) (Enabled r) (NextRunUnix r) (LastRunUnix r) (RunCount r) (LastError r) (Title r) (Status r) (MsgRef r) (RecurrenceRule r) (RecurrenceDescription r) (RecurrenceTimezone r) (CancelToken r) v (UpdatedUnix r).
Definition set_UpdatedUnix (v : Z) (r : Reminder) : Reminder := mk (ID r) (Target r) (ScheduleKind r) (Schedule r) (Prompt r) (Enabled r) (NextRunUnix r) (LastRunUnix r) (RunCount r) (LastError r) (Title r) (Status r) (MsgRef r) (RecurrenceRule r) (RecurrenceDescription r) (RecurrenceTimezone r) (CancelToken r) (CreatedUnix r) v.
End Reminder.
Abbreviation Reminder := Reminder.Reminder.

Module ReminderPatch.
Record ReminderPatch := mk {
  Title : option string;
  ScheduleKind : option string;
  Schedule : option string;
  NextRunUnix : option Z;
  RecurrenceRule : option string;
  RecurrenceDescription : option string;
  RecurrenceTimezone : option string
}.
Definition zero : ReminderPatch := mk None None None None None None None.
Definition set_Title (v : option string) (r : ReminderPatch) : ReminderPatch := mk v (ScheduleKind r) (Schedule r) (NextRunUnix r) (RecurrenceRule r) (RecurrenceDescription r) (RecurrenceTimezone r).
Definition set_ScheduleKind (v : option string) (r : ReminderPatch) : ReminderPatch := mk (Title r) v (Schedule r) (NextRunUnix r) (RecurrenceRule r) (RecurrenceDescription r) (RecurrenceTimezone r).
Definition set_Schedule (v : option string) (r : ReminderPatch) : ReminderPatch := mk (Title r) (ScheduleKind r) v (NextRunUnix r) (RecurrenceRule r) (RecurrenceDescription r) (RecurrenceTimezone r).
Definition set_NextRunUnix (v : option Z) (r : ReminderPatch) : ReminderPatch := mk (Title r) (ScheduleKind r) (Schedule r) v (RecurrenceRule r) (RecurrenceDescription r) (RecurrenceTimezone r).
Definition set_RecurrenceRule (v : option string) (r : ReminderPatch) : ReminderPatch := mk (Title r) (ScheduleKind r) (Schedule r) (NextRunUnix r) v (RecurrenceDescription r) (RecurrenceTimezone r).
Definition set_RecurrenceDescription (v : option string) (r : ReminderPatch) : ReminderPatch := mk (Title r) (ScheduleKind r) (Schedule r) (NextRunUnix r) (RecurrenceRule r) v (RecurrenceTimezone r).
Definition set_RecurrenceTimezone (v : option string) (r : ReminderPatch) : ReminderPatch := mk (Title r) (ScheduleKind r) (Schedule r) (NextRunUnix r) (RecurrenceRule r) (RecurrenceDescription r) v.
End ReminderPatch.
Abbreviation ReminderPatch := ReminderPatch.ReminderPatch.

Module ChannelDecision.
Record ChannelDecision := mk {
  ID : string;
  Target : string;
  Title : string;
  Body : string;
  Status : string;
  ProposerID : string;
  ProposerKind : string;
  CreatedUnix : Z;
  RatifiedUnix : Z;
  RetiredUnix : Z;
  RetiredBy : string;
  RetireReason : string;
  SupersedesDecisionID : string;
  ApproveCount : Z;
  RejectCount : Z;
  AbstainCount : Z
}.
Definition zero : ChannelDecision := mk "" "" "" "" "" "" "" 0%Z 0%Z 0%Z "" "" "" 0%Z 0%Z 0%Z.
Definition set_ID (v : string) (r : ChannelDecision) : ChannelDecision := mk v (Target r) (Title r) (Body r) (Status r) (ProposerID r) (ProposerKind r) (CreatedUnix r) (RatifiedUnix r) (RetiredUnix r) (RetiredBy r) (RetireReason r) (SupersedesDecisionID r) (ApproveCount r) (RejectCount r) (AbstainCount r).
Definition set_Target (v : string) (r : ChannelDecision) : ChannelDecision := mk (ID r) v (Title r) (Body r) (Status r) (ProposerID r) (ProposerKind r) (CreatedUnix r) (RatifiedUnix r) (RetiredUnix r) (RetiredBy r) (RetireReason r) (SupersedesDecisionID r) (ApproveCount r) (RejectCount r) (AbstainCount r).
Definition set_Title (v : string) (r : ChannelDecision) : ChannelDecision := mk (ID r) (Target r) v (Body r) (Status r) (ProposerID r) (ProposerKind r) (CreatedUnix r) (RatifiedUnix r) (RetiredUnix r) (RetiredBy r) (RetireReason r) (SupersedesDecisionID r) (ApproveCount r) (RejectCount r) (AbstainCount r).
Definition set_Body (v : string) (r : ChannelDecision) : ChannelDecision := mk (ID r) (Target r) (Title r) v (Status r) (ProposerID r) (ProposerKind r) (CreatedUnix r) (RatifiedUnix r) (RetiredUnix r) (RetiredBy r) (RetireReason r) (SupersedesDecisionID r) (ApproveCount r) (RejectCount r) (AbstainCount r).
Definition set_Status (v : string) (r : ChannelDecision) : ChannelDecision := mk (ID r) (Target r) (Title r) (Body r) v (ProposerID r) (ProposerKind r) (CreatedUnix r) (RatifiedUnix r) (RetiredUnix r) (RetiredBy r) (RetireReason r) (SupersedesDecisionID r) (ApproveCount r) (RejectCount r) (AbstainCount r).
Definition set_ProposerID (v : string) (r : ChannelDecision) : ChannelDecision := mk (ID r) (Target r) (Title r) (Body r) (Status r) v (ProposerKind r) (CreatedUnix r) (RatifiedUnix r) (RetiredUnix r) (RetiredBy r) (RetireReason r) (SupersedesDecisionID r) (ApproveCount r) (RejectCount r) (AbstainCount r).
Definition set_ProposerKind (v : string) (r : ChannelDecision) : ChannelDecision := mk (ID r) (Target r) (Title r) (Body r) (Status r) (ProposerID r) v (CreatedUnix r) (RatifiedUnix r) (RetiredUnix r) (RetiredBy r) (RetireReason r) (SupersedesDecisionID r) (ApproveCount r) (RejectCount r) (AbstainCount r).
Definition set_CreatedUnix (v : Z) (r : ChannelDecision) : ChannelDecision := mk (ID r) (Target r) (Title r) (Body r) (Status r) (ProposerID r) (ProposerKind r) v (RatifiedUnix r) (RetiredUnix r) (RetiredBy r) (RetireReason r) (SupersedesDecisionID r) (ApproveCount r) (RejectCount r) (AbstainCount r).
Definition set_RatifiedUnix (v : Z) (r : ChannelDecision) : ChannelDecision := mk (ID r) (Target r) (Title r) (Body r) (Status r) (ProposerID r) (ProposerKind r) (CreatedUnix r) v (RetiredUnix r) (RetiredBy r) (RetireReason r) (SupersedesDecisionID r) (ApproveCount r) (RejectCount r) (AbstainCount r).
Definition set_RetiredUnix (v : Z) (r : ChannelDecision) : ChannelDecision := mk (ID r) (Target r) (Title r) (Body r) (Status r) (ProposerID r) (ProposerKind r) (CreatedUnix r) (RatifiedUnix r) v (RetiredBy r) (RetireReason r) (SupersedesDecisionID r) (ApproveCount r) (RejectCount r) (AbstainCount r).
Definition set_RetiredBy (v : string) (r : ChannelDecision) : ChannelDecision := mk (ID r) (Target r) (Title r) (Body r) (Status r) (ProposerID r) (ProposerKind r) (CreatedUnix r) (RatifiedUnix r) (RetiredUnix r) v (RetireReason r) (SupersedesDecisionID r) (ApproveCount r) (RejectCount r) (AbstainCount r).
Definition set_RetireReason (v : string) (r : ChannelDecision) : ChannelDecision := mk (ID r) (Target r) (Title r) (Body r) (Status r) (ProposerID r) (ProposerKind r) (CreatedUnix r) (RatifiedUnix r) (RetiredUnix r) (RetiredBy r) v (SupersedesDecisionID r) (ApproveCount r) (RejectCount r) (AbstainCount r).
Definition set_SupersedesDecisionID (v : string) (r : ChannelDecision) : ChannelDecision := mk (ID r) (Target r) (Title r) (Body r) (Status r) (ProposerID r) (ProposerKind r) (CreatedUnix r) (RatifiedUnix r) (RetiredUnix r) (RetiredBy r) (RetireReason r) v (ApproveCount r) (RejectCount r) (AbstainCount r).
Definition set_ApproveCount (v : Z) (r : ChannelDecision) : ChannelDecision := mk (ID r) (Target r) (Title r) (Body r) (Status r) (ProposerID r) (ProposerKind r) (CreatedUnix r) (RatifiedUnix r) (RetiredUnix r) (RetiredBy r) (RetireReason r) (SupersedesDecisionID r) v (RejectCount r) (AbstainCount r).
Definition set_RejectCount (v : Z) (r : ChannelDecision) : ChannelDecision := mk (ID r) (Target r) (Title r) (Body r) (Status r) (ProposerID r) (ProposerKind r) (CreatedUnix r) (RatifiedUnix r) (RetiredUnix r) (RetiredBy r) (RetireReason r) (SupersedesDecisionID r) (ApproveCount r) v (AbstainCount r).
Definition set_AbstainCount (v : Z) (r : ChannelDecision) : ChannelDecision := mk (ID r) (Target r) (Title r) (Body r) (Status r) (ProposerID r) (ProposerKind r) (CreatedUnix r) (RatifiedUnix r) (RetiredUnix r) (RetiredBy r) (RetireReason r) (SupersedesDecisionID r) (ApproveCount r) (RejectCount r) v.
End ChannelDecision.
Abbreviation ChannelDecision := ChannelDecision.ChannelDecision.

Module ChannelDecisionListOptions.
Record ChannelDecisionListOptions := mk {
  Target : string;
  StatusFilter : list string;
  Limit : Z;
  AfterCreated : Z
}.
Definition zero : ChannelDecisionListOptions := mk "" [] 0%Z 0%Z.
Definition set_Target (v : string) (r : ChannelDecisionListOptions) : ChannelDecisionListOptions := mk v (StatusFilter r) (Limit r) (AfterCreated r).
Definition set_StatusFilter (v : list string) (r : ChannelDecisionListOptions) : ChannelDecisionListOptions := mk (Target r) v (Limit r) (AfterCreated r).
Definition set_Limit (v : Z) (r : ChannelDecisionListOptions) : ChannelDecisionListOptions := mk (Target r) (StatusFilter r) v (AfterCreated r).
Definition set_AfterCreated (v : Z) (r : ChannelDecisionListOptions) : ChannelDecisionListOptions := mk (Target r) (StatusFilter r) (Limit r) v.
End ChannelDecisionListOptions.
Abbreviation ChannelDecisionListOptions := ChannelDecisionListOptions.ChannelDecisionListOptions.

Module ChannelDecisionVote.
Record ChannelDecisionVote := mk {
  ID : string;
  DecisionID : string;
  VoterID : string;
  VoterKind : string;
  Decision : string;
  VotedUnix : Z;
  Reason : string
}.
Definition zero : ChannelDecisionVote := mk "" "" "" "" "" 0%Z "".
Definition set_ID (v : string) (r : ChannelDecisionVote) : ChannelDecisionVote := mk v (DecisionID r) (VoterID r) (VoterKind r) (Decision r) (VotedUnix r) (Reason r).
Definition set_DecisionID (v : string) (r : ChannelDecisionVote) : ChannelDecisionVote := mk (ID r) v (VoterID r) (VoterKind r) (Decision r) (VotedUnix r) (Reason r).
Definition set_VoterID (v : string) (r : ChannelDecisionVote) : ChannelDecisionVote := mk (ID r) (DecisionID r) v (VoterKind r) (Decision r) (VotedUnix r) (Reason r).
Definition set_VoterKind (v : string) (r : ChannelDecisionVote) : ChannelDecisionVote := mk (ID r) (DecisionID r) (VoterID r) v (Decision r) (VotedUnix r) (Reason r).
Definition set_Decision (v : string) (r : ChannelDecisionVote) : ChannelDecisionVote := mk (ID r) (DecisionID r) (VoterID r) (VoterKind r) v (VotedUnix r) (Reason r).
Definition set_VotedUnix (v : Z) (r : ChannelDecisionVote) : ChannelDecisionVote := mk (ID r) (DecisionID r) (VoterID r) (VoterKind r) (Decision r) v (Reason r).
Definition set_Reason (v : string) (r : ChannelDecisionVote) : ChannelDecisionVote := mk (ID r) (DecisionID r) (VoterID r) (VoterKind r) (Decision r) (VotedUnix r) v.
End ChannelDecisionVote.
Abbreviation ChannelDecisionVote := ChannelDecisionVote.ChannelDecisionVote.

Module AgentRun.
Record AgentRun := mk {
  ID : string;
  AgentID : string;
  ComputerID : string;
  StartedUnix : Z;
  EndedUnix : Z;
  ExitCode : Z;
  Summary : string;
  Error : string;
  EventCount : Z
}.
Definition zero : AgentRun := mk "" "" "" 0%Z 0%Z 0%Z "" "" 0%Z.
Definition set_ID (v : string) (r : AgentRun) : AgentRun := mk v (AgentID r) (ComputerID r) (StartedUnix r) (EndedUnix r) (ExitCode r) (Summary r) (Error r) (EventCount r).
Definition set_AgentID (v : string) (r : AgentRun) : AgentRun := mk (ID r) v (ComputerID r) (StartedUnix r) (EndedUnix r) (ExitCode r) (Summary r) (Error r) (EventCount r).
Definition set_ComputerID (v : string) (r : AgentRun) : AgentRun := mk (ID r) (AgentID r) v (StartedUnix r) (EndedUnix r) (ExitCode r) (Summary r) (Error r) (EventCount r).
Definition set_StartedUnix (v : Z) (r : AgentRun) : AgentRun := mk (ID r) (AgentID r) (ComputerID r) v (EndedUnix r) (ExitCode r) (Summary r) (Error r) (EventCount r).
Definition set_EndedUnix (v : Z) (r : AgentRun) : AgentRun := mk (ID r) (AgentID r) (ComputerID r) (StartedUnix r) v (ExitCode r) (Summary r) (Error r) (EventCount r).
Definition set_ExitCode (v : Z) (r : AgentRun) : AgentRun := mk (ID r) (AgentID r) (ComputerID r) (StartedUnix r) (EndedUnix r) v (Summary r) (Error r) (EventCount r).
Definition set_Summary (v : string) (r : AgentRun) : AgentRun := mk (ID r) (AgentID r) (ComputerID r) (StartedUnix r) (EndedUnix r) (ExitCode r) v (Error r) (EventCount r).
Definition set_Error (v : string) (r : AgentRun) : AgentRun := mk (ID r) (AgentID r) (ComputerID r) (StartedUnix r) (EndedUnix r) (ExitCode r) (Summary r) v (EventCount r).
Definition set_EventCount (v : Z) (r : AgentRun) : AgentRun := mk (ID r) (AgentID r) (ComputerID r) (StartedUnix r) (EndedUnix r) (ExitCode r) (Summary r) (Error r) v.
End AgentRun.
Abbreviation AgentRun := AgentRun.AgentRun.

Module AgentRunListOptions.
Record AgentRunListOptions := mk {
  AgentID : string;
  ComputerID : string;
  Limit : Z;
  BeforeStarted : Z
}.
Definition zero : AgentRunListOptions := mk "" "" 0%Z 0%Z.
Definition set_AgentID (v : string) (r : AgentRunListOptions) : AgentRunListOptions := mk v (ComputerID r) (Limit r) (BeforeStarted r).
Definition set_ComputerID (v : string) (r : AgentRunListOptions) : AgentRunListOptions := mk (AgentID r) v (Limit r) (BeforeStarted r).
Definition set_Limit (v : Z) (r : AgentRunListOptions) : AgentRunListOptions := mk (AgentID r) (ComputerID r) v (BeforeStarted r).
Definition set_BeforeStarted (v : Z) (r : AgentRunListOptions) : AgentRunListOptions := mk (AgentID r) (ComputerID r) (Limit r) v.
End AgentRunListOptions.
Abbreviation AgentRunListOptions := AgentRunListOptions.AgentRunListOptions.

Module AgentRunEvent.
Record AgentRunEvent := mk {
  ID : string;
  RunID : string;
  AtUnixNano : Z;
  Phase : string;
  Summary : string;
  PayloadJSON : string;
  ExitCode : Z;
  ErrorMessage : string
}.
Definition zero : AgentRunEvent := mk "" "" 0%Z "" "" "" 0%Z "".
Definition set_ID (v : string) (r : AgentRunEvent) : AgentRunEvent := mk v (RunID r) (AtUnixNano r) (Phase r) (Summary r) (PayloadJSON r) (ExitCode r) (ErrorMessage r).
Definition set_RunID (v : string) (r : AgentRunEvent) : AgentRunEvent := mk (ID r) v (AtUnixNano r) (Phase r) (Summary r) (PayloadJSON r) (ExitCode r) (ErrorMessage r).
Definition set_AtUnixNano (v : Z) (r : AgentRunEvent) : AgentRunEvent := mk (ID r) (RunID r) v (Phase r) (Summary r) (PayloadJSON r) (ExitCode r) (ErrorMessage r).
Definition set_Phase (v : string) (r : AgentRunEvent) : AgentRunEvent := mk (ID r) (RunID r) (AtUnixNano r) v (Summary r) (PayloadJSON r) (ExitCode r) (ErrorMessage r).
Definition set_Summary (v : string) (r : AgentRunEvent) : AgentRunEvent := mk (ID r) (RunID r) (AtUnixNano r) (Phase r) v (PayloadJSON r) (ExitCode r) (ErrorMessage r).
Definition set_PayloadJSON (v : string) (r : AgentRunEvent) : AgentRunEvent := mk (ID r) (RunID r) (AtUnixNano r) (Phase r) (Summary r) v (ExitCode r) (ErrorMessage r).
Definition set_ExitCode (v : Z) (r : AgentRunEvent) : AgentRunEvent := mk (ID r) (RunID r) (AtUnixNano r) (Phase r) (Summary r) (PayloadJSON r) v (ErrorMessage r).
Definition set_ErrorMessage (v : string) (r : AgentRunEvent) : AgentRunEvent := mk (ID r) (RunID r) (AtUnixNano r) (Phase r) (Summary r) (PayloadJSON r) (ExitCode r) v.
End AgentRunEvent.
Abbreviation AgentRunEvent := AgentRunEvent.AgentRunEvent.

Module AgentRunSearchOptions.
Record AgentRunSearchOptions := mk {
  Query : string;
  AgentID : string;
  ComputerID : string;
  Limit : Z
}.
Definition zero : AgentRunSearchOptions := mk "" "" "" 0%Z.
Definition set_Query (v : string) (r : AgentRunSearchOptions) : AgentRunSearchOptions := mk v (AgentID r) (ComputerID r) (Limit r).
Definition set_AgentID (v : string) (r : AgentRunSearchOptions) : AgentRunSearchOptions := mk (Query r) v (ComputerID r) (Limit r).
Definition set_ComputerID (v : string) (r : AgentRunSearchOptions) : AgentRunSearchOptions := mk (Query r) (AgentID r) v (Limit r).
Definition set_Limit (v : Z) (r : AgentRunSearchOptions) : AgentRunSearchOptions := mk (Query r) (AgentID r) (ComputerID r) v.
End AgentRunSearchOptions.
Abbreviation AgentRunSearchOptions := AgentRunSearchOptions.AgentRunSearchOptions.

Module AgentRunSearchHit.
Record AgentRunSearchHit := mk {
  Run : AgentRun.AgentRun;
  Event : AgentRunEvent.AgentRunEvent;
  Highlight : string
}.
Definition zero : AgentRunSearchHit := mk AgentRun.zero AgentRunEvent.zero "".
Definition set_Run (v : AgentRun.AgentRun) (r : AgentRunSearchHit) : AgentRunSearchHit := mk v (Event r) (Highlight r).
Definition set_Event (v : AgentRunEvent.AgentRunEvent) (r : AgentRunSearchHit) : AgentRunSearchHit := mk (Run r) v (Highlight r).
Definition set_Highlight (v : string) (r : AgentRunSearchHit) : AgentRunSearchHit := mk (Run r) (Event r) v.
End AgentRunSearchHit.
Abbreviation AgentRunSearchHit := AgentRunSearchHit.AgentRunSearchHit.

Module ReminderEvent.
Record ReminderEvent := mk {
  ID : string;
  ReminderID : string;
  EventType : string;
  ActorType : string;
  ActorID : string;
  OccurredTimeUnix : Z;
  NextFireTimeUnix : Z;
  Detail : string
}.
Definition zero : ReminderEvent := mk "" "" "" "" "" 0%Z 0%Z "".
Definition set_ID (v : string) (r : ReminderEvent) : ReminderEvent := mk v (ReminderID r) (EventType r) (ActorType r) (ActorID r) (OccurredTimeUnix r) (NextFireTimeUnix r) (Detail r).
Definition set_ReminderID (v : string) (r : ReminderEvent) : ReminderEvent := mk (ID r) v (EventType r) (ActorType r) (ActorID r) (OccurredTimeUnix r) (NextFireTimeUnix r) (Detail r).
Definition set_EventType (v : string) (r : ReminderEvent) : ReminderEvent := mk (ID r) (ReminderID r) v (ActorType r) (ActorID r) (OccurredTimeUnix r) (NextFireTimeUnix r) (Detail r).
Definition set_ActorType (v : string) (r : ReminderEvent) : ReminderEvent := mk (ID r) (ReminderID r) (EventType r) v (ActorID r) (OccurredTimeUnix r) (NextFireTimeUnix r) (Detail r).
Definition set_ActorID (v : string) (r : ReminderEvent) : ReminderEvent := mk (ID r) (ReminderID r) (EventType r) (ActorType r) v (OccurredTimeUnix r) (NextFireTimeUnix r) (Detail r).
Definition set_OccurredTimeUnix (v : Z) (r : ReminderEvent) : ReminderEvent := mk (ID r) (ReminderID r) (EventType r) (ActorType r) (ActorID r) v (NextFireTimeUnix r) (Detail r).
Definition set_NextFireTimeUnix (v : Z) (r : ReminderEvent) : ReminderEvent := mk (ID r) (ReminderID r) (EventType r) (ActorType r) (ActorID r) (OccurredTimeUnix r) v (Detail r).
Definition set_Detail (v : string) (r : ReminderEvent) : ReminderEvent := mk (ID r) (ReminderID r) (EventType r) (ActorType r) (ActorID r) (OccurredTimeUnix r) (NextFireTimeUnix r) v.
End ReminderEvent.
Abbreviation ReminderEvent := ReminderEvent.ReminderEvent.

Module CollaborationEvent.
Record CollaborationEvent := mk {
  ID : string;
  ServerID : string;
  Sequence : Z;
  EventID : string;
  Target : string;
  AggregateID : string;
  Kind : string;
  Operation : string;
  ScopeType : string;
  ScopeID : string;
  WorkspaceID : string;
  ActivityID : string;
  PayloadJSON : string;
  CreatedUnix : Z;
  ProtocolVersion : Z
}.
Definition zero : CollaborationEvent := mk "" "" 0%Z "" "" "" "" "" "" "" "" "" "" 0%Z 0%Z.
Definition set_ID (v : string) (r : CollaborationEvent) : CollaborationEvent := mk v (ServerID r) (Sequence r) (EventID r) (Target r) (AggregateID r) (Kind r) (Operation r) (ScopeType r) (ScopeID r) (WorkspaceID r) (ActivityID r) (PayloadJSON r) (CreatedUnix r) (ProtocolVersion r).
Definition set_ServerID (v : string) (r : CollaborationEvent) : CollaborationEvent := mk (ID r) v (Sequence r) (EventID r) (Target r) (AggregateID r) (Kind r) (Operation r) (ScopeType r) (ScopeID r) (WorkspaceID r) (ActivityID r) (PayloadJSON r) (CreatedUnix r) (ProtocolVersion r).
Definition set_Sequence (v : Z) (r : CollaborationEvent) : CollaborationEvent := mk (ID r) (ServerID r) v (EventID r) (Target r) (AggregateID r) (Kind r) (Operation r) (ScopeType r) (ScopeID r) (WorkspaceID r) (ActivityID r) (PayloadJSON r) (CreatedUnix r) (ProtocolVersion r).
Definition set_EventID (v : string) (r : CollaborationEvent) : CollaborationEvent := mk (ID r) (ServerID r) (Sequence r) v (Target r) (AggregateID r) (Kind r) (Operation r) (ScopeType r) (ScopeID r) (WorkspaceID r) (ActivityID r) (PayloadJSON r) (CreatedUnix r) (ProtocolVersion r).
Definition set_Target (v : string) (r : CollaborationEvent) : CollaborationEvent := mk (ID r) (ServerID r) (Sequence r) (EventID r) v (AggregateID r) (Kind r) (Operation r) (ScopeType r) (ScopeID r) (WorkspaceID r) (ActivityID r) (PayloadJSON r) (CreatedUnix r) (ProtocolVersion r).
Definition set_AggregateID (v : string) (r : CollaborationEvent) : CollaborationEvent := mk (ID r) (ServerID r) (Sequence r) (EventID r) (Target r) v (Kind r) (Operation r) (ScopeType r) (ScopeID r) (WorkspaceID r) (ActivityID r) (PayloadJSON r) (CreatedUnix r) (ProtocolVersion r).
Definition set_Kind (v : string) (r : CollaborationEvent) : CollaborationEvent := mk (ID r) (ServerID r) (Sequence r) (EventID r) (Target r) (AggregateID r) v (Operation r) (ScopeType r) (ScopeID r) (WorkspaceID r) (ActivityID r) (PayloadJSON r) (CreatedUnix r) (ProtocolVersion r).
Definition set_Operation (v : string) (r : CollaborationEvent) : CollaborationEvent := mk (ID r) (ServerID r) (Sequence r) (EventID r) (Target r) (AggregateID r) (Kind r) v (ScopeType r) (ScopeID r) (WorkspaceID r) (ActivityID r) (PayloadJSON r) (CreatedUnix r) (ProtocolVersion r).
Definition set_ScopeType (v : string) (r : CollaborationEvent) : CollaborationEvent := mk (ID r) (ServerID r) (Sequence r) (EventID r) (Target r) (AggregateID r) (Kind r) (Operation r) v (ScopeID r) (WorkspaceID r) (ActivityID r) (PayloadJSON r) (CreatedUnix r) (ProtocolVersion r).
Definition set_ScopeID (v : string) (r : CollaborationEvent) : CollaborationEvent := mk (ID r) (ServerID r) (Sequence r) (EventID r) (Target r) (AggregateID r) (Kind r) (Operation r) (ScopeType r) v (WorkspaceID r) (ActivityID r) (PayloadJSON r) (CreatedUnix r) (ProtocolVersion r).
Definition set_WorkspaceID (v : string) (r : CollaborationEvent) : CollaborationEvent := mk (ID r) (ServerID r) (Sequence r) (EventID r) (Target r) (AggregateID r) (Kind r) (Operation r) (ScopeType r) (ScopeID r) v (ActivityID r) (PayloadJSON r) (CreatedUnix r) (ProtocolVersion r).
Definition set_ActivityID (v : string) (r : CollaborationEvent) : CollaborationEvent := mk (ID r) (ServerID r) (Sequence r) (EventID r) (Target r) (AggregateID r) (Kind r) (Operation r) (ScopeType r) (ScopeID r) (WorkspaceID r) v (PayloadJSON r) (CreatedUnix r) (ProtocolVersion r).
Definition set_PayloadJSON (v : string) (r : CollaborationEvent) : CollaborationEvent := mk (ID r) (ServerID r) (Sequence r) (EventID r) (Target r) (AggregateID r) (Kind r) (Operation r) (ScopeType r) (ScopeID r) (WorkspaceID r) (ActivityID r) v (CreatedUnix r) (ProtocolVersion r).
Definition set_CreatedUnix (v : Z) (r : CollaborationEvent) : CollaborationEvent := mk (ID r) (ServerID r) (Sequence r) (EventID r) (Target r) (AggregateID r) (Kind r) (Operation r) (ScopeType r) (ScopeID r) (WorkspaceID r) (ActivityID r) (PayloadJSON r) v (ProtocolVersion r).
Definition set_ProtocolVersion (v : Z) (r : CollaborationEvent) : CollaborationEvent := mk (ID r) (ServerID r) (Sequence r) (EventID r) (Target r) (AggregateID r) (Kind r) (Operation r) (ScopeType r) (ScopeID r) (WorkspaceID r) (ActivityID r) (PayloadJSON r) (CreatedUnix r) v.
End CollaborationEvent.
Abbreviation CollaborationEvent := CollaborationEvent.CollaborationEvent.

Module IdempotencyRecord.
Record IdempotencyRecord := mk {
  ID : string;
  Scope : string;
  Method : string;
  ActorID : string;
  IdempotencyKey : string;
  RequestHash : string;
  ResponseType : string;
  ResponseJSON : string;
  ResourceType : string;
  ResourceID : string;
  Status : string;
  CreatedUnix : Z;
  ExpiresUnix : Z
}.
Definition zero : IdempotencyRecord := mk "" "" "" "" "" "" "" "" "" "" "" 0%Z 0%Z.
Definition set_ID (v : string) (r : IdempotencyRecord) : IdempotencyRecord := mk v (Scope r) (Method r) (ActorID r) (IdempotencyKey r) (RequestHash r) (ResponseType r) (ResponseJSON r) (ResourceType r) (ResourceID r) (Status r) (CreatedUnix r) (ExpiresUnix r).
Definition set_Scope (v : string) (r : IdempotencyRecord) : IdempotencyRecord := mk (ID r) v (Method r) (ActorID r) (IdempotencyKey r) (RequestHash r) (ResponseType r) (ResponseJSON r) (ResourceType r) (ResourceID r) (Status r) (CreatedUnix r) (ExpiresUnix r).
Definition set_Method (v : string) (r : IdempotencyRecord) : IdempotencyRecord := mk (ID r) (Scope r) v (ActorID r) (IdempotencyKey r) (RequestHash r) (ResponseType r) (ResponseJSON r) (ResourceType r) (ResourceID r) (Status r) (CreatedUnix r) (ExpiresUnix r).
Definition set_ActorID (v : string) (r : IdempotencyRecord) : IdempotencyRecord := mk (ID r) (Scope r) (Method r) v (IdempotencyKey r) (RequestHash r) (ResponseType r) (ResponseJSON r) (ResourceType r) (ResourceID r) (Status r) (CreatedUnix r) (ExpiresUnix r).
Definition set_IdempotencyKey (v : string) (r : IdempotencyRecord) : IdempotencyRecord := mk (ID r) (Scope r) (Method r) (ActorID r) v (RequestHash r) (ResponseType r) (ResponseJSON r) (ResourceType r) (ResourceID r) (Status r) (CreatedUnix r) (ExpiresUnix r).
Definition set_RequestHash (v : string) (r : IdempotencyRecord) : IdempotencyRecord := mk (ID r) (Scope r) (Method r) (ActorID r) (IdempotencyKey r) v (ResponseType r) (ResponseJSON r) (ResourceType r) (ResourceID r) (Status r) (CreatedUnix r) (ExpiresUnix r).
Definition set_ResponseType (v : string) (r : IdempotencyRecord) : IdempotencyRecord := mk (ID r) (Scope r) (Method r) (ActorID r) (IdempotencyKey r) (RequestHash r) v (ResponseJSON r) (ResourceType r) (ResourceID r) (Status r) (CreatedUnix r) (ExpiresUnix r).
Definition set_ResponseJSON (v : string) (r : IdempotencyRecord) : IdempotencyRecord := mk (ID r) (Scope r) (Method r) (ActorID r) (IdempotencyKey r) (RequestHash r) (ResponseType r) v (ResourceType r) (ResourceID r) (Status r) (CreatedUnix r) (ExpiresUnix r).
Definition set_ResourceType (v : string) (r : IdempotencyRecord) : IdempotencyRecord := mk (ID r) (Scope r) (Method r) (ActorID r) (IdempotencyKey r) (RequestHash r) (ResponseType r) (ResponseJSON r) v (ResourceID r) (Status r) (CreatedUnix r) (ExpiresUnix r).
Definition set_ResourceID (v : string) (r : IdempotencyRecord) : IdempotencyRecord := mk (ID r) (Scope r) (Method r) (ActorID r) (IdempotencyKey r) (RequestHash r) (ResponseType r) (ResponseJSON r) (ResourceType r) v (Status r) (CreatedUnix r) (ExpiresUnix r).
Definition set_Status (v : string) (r : IdempotencyRecord) : IdempotencyRecord := mk (ID r) (Scope r) (Method r) (ActorID r) (IdempotencyKey r) (RequestHash r) (ResponseType r) (ResponseJSON r) (ResourceType r) (ResourceID r) v (CreatedUnix r) (ExpiresUnix r).
Definition set_CreatedUnix (v : Z) (r : IdempotencyRecord) : IdempotencyRecord := mk (ID r) (Scope r) (Method r) (ActorID r) (IdempotencyKey r) (RequestHash r) (ResponseType r) (ResponseJSON r) (ResourceType r) (ResourceID r) (Status r) v (ExpiresUnix r).
Definition set_ExpiresUnix (v : Z) (r : IdempotencyRecord) : IdempotencyRecord := mk (ID r) (Scope r) (Method r) (ActorID r) (IdempotencyKey r) (RequestHash r) (ResponseType r) (ResponseJSON r) (ResourceType r) (ResourceID r) (Status r) (CreatedUnix r) v.
End IdempotencyRecord.
Abbreviation IdempotencyRecord := IdempotencyRecord.IdempotencyRecord.

Module TunnelRecord.
Record TunnelRecord := mk {
  ID : string;
  Token : string;
  ComputerID : string;
  DaemonID : string;
  LocalPort : Z;
  Label : string;
  State : string;
  AccessPolicy : string;
  CreatorID : string;
  CreatorKind : string;
  CreatedUnix : Z;
  ExpiresUnix : Z;
  ApprovedUnix : Z;
  ApprovedBy : string;
  ClosedUnix : Z;
  CloseReason : string;
  PublicURL : string
}.
Definition zero : TunnelRecord := mk "" "" "" "" 0%Z "" "" "" "" "" 0%Z 0%Z 0%Z "" 0%Z "" "".
Definition set_ID (v : string) (r : TunnelRecord) : TunnelRecord := mk v (Token r) (ComputerID r) (DaemonID r) (LocalPort r) (Label r) (State r) (AccessPolicy r) (CreatorID r) (CreatorKind r) (CreatedUnix r) (ExpiresUnix r) (ApprovedUnix r) (ApprovedBy r) (ClosedUnix r) (CloseReason r) (PublicURL r).
Definition set_Token (v : string) (r : TunnelRecord) : TunnelRecord := mk (ID r) v (ComputerID r) (DaemonID r) (LocalPort r) (Label r) (State r) (AccessPolicy r) (CreatorID r) (CreatorKind r) (CreatedUnix r) (ExpiresUnix r) (ApprovedUnix r) (ApprovedBy r) (ClosedUnix r) (CloseReason r) (PublicURL r).
Definition set_ComputerID (v : string) (r : TunnelRecord) : TunnelRecord := mk (ID r) (Token r) v (DaemonID r) (LocalPort r) (Label r) (State r) (AccessPolicy r) (CreatorID r) (CreatorKind r) (CreatedUnix r) (ExpiresUnix r) (ApprovedUnix r) (ApprovedBy r) (ClosedUnix r) (CloseReason r) (PublicURL r).
Definition set_DaemonID (v : string) (r : TunnelRecord) : TunnelRecord := mk (ID r) (Token r) (ComputerID r) v (LocalPort r) (Label r) (State r) (AccessPolicy r) (CreatorID r) (CreatorKind r) (CreatedUnix r) (ExpiresUnix r) (ApprovedUnix r) (ApprovedBy r) (ClosedUnix r) (CloseReason r) (PublicURL r).
Definition set_LocalPort (v : Z) (r : TunnelRecord) : TunnelRecord := mk (ID r) (Token r) (ComputerID r) (DaemonID r) v (Label r) (State r) (AccessPolicy r) (CreatorID r) (CreatorKind r) (CreatedUnix r) (ExpiresUnix r) (ApprovedUnix r) (ApprovedBy r) (ClosedUnix r) (CloseReason r) (PublicURL r).
Definition set_Label (v : string) (r : TunnelRecord) : TunnelRecord := mk (ID r) (Token r) (ComputerID r) (DaemonID r) (LocalPort r) v (State r) (AccessPolicy r) (CreatorID r) (CreatorKind r) (CreatedUnix r) (ExpiresUnix r) (ApprovedUnix r) (ApprovedBy r) (ClosedUnix r) (CloseReason r) (PublicURL r).
Definition set_State (v : string) (r : TunnelRecord) : TunnelRecord := mk (ID r) (Token r) (ComputerID r) (DaemonID r) (LocalPort r) (Label r) v (AccessPolicy r) (CreatorID r) (CreatorKind r) (CreatedUnix r) (ExpiresUnix r) (ApprovedUnix r) (ApprovedBy r) (ClosedUnix r) (CloseReason r) (PublicURL r).
Definition set_AccessPolicy (v : string) (r : TunnelRecord) : TunnelRecord := mk (ID r) (Token r) (ComputerID r) (DaemonID r) (LocalPort r) (Label r) (State r) v (CreatorID r) (CreatorKind r) (CreatedUnix r) (ExpiresUnix r) (ApprovedUnix r) (ApprovedBy r) (ClosedUnix r) (CloseReason r) (PublicURL r).
Definition set_CreatorID (v : string) (r : TunnelRecord) : TunnelRecord := mk (ID r) (Token r) (ComputerID r) (DaemonID r) (LocalPort r) (Label r) (State r) (AccessPolicy r) v (CreatorKind r) (CreatedUnix r) (ExpiresUnix r) (ApprovedUnix r) (ApprovedBy r) (ClosedUnix r) (CloseReason r) (PublicURL r).
Definition set_CreatorKind (v : string) (r : TunnelRecord) : TunnelRecord := mk (ID r) (Token r) (ComputerID r) (DaemonID r) (LocalPort r) (Label r) (State r) (AccessPolicy r) (CreatorID r) v (CreatedUnix r) (ExpiresUnix r) (ApprovedUnix r) (ApprovedBy r) (ClosedUnix r) (CloseReason r) (PublicURL r).
Definition set_CreatedUnix (v : Z) (r : TunnelRecord) : TunnelRecord := mk (ID r) (Token r) (ComputerID r) (DaemonID r) (LocalPort r) (Label r) (State r) (AccessPolicy r) (CreatorID r) (CreatorKind r) v (ExpiresUnix r) (ApprovedUnix r) (ApprovedBy r) (ClosedUnix r) (CloseReason r) (PublicURL r).
Definition set_ExpiresUnix (v : Z) (r : TunnelRecord) : TunnelRecord := mk (ID r) (Token r) (ComputerID r) (DaemonID r) (LocalPort r) (Label r) (State r) (AccessPolicy r) (CreatorID r) (CreatorKind r) (CreatedUnix r) v (ApprovedUnix r) (ApprovedBy r) (ClosedUnix r) (CloseReason r) (PublicURL r).
Definition set_ApprovedUnix (v : Z) (r : TunnelRecord) : TunnelRecord := mk (ID r) (Token r) (ComputerID r) (DaemonID r) (LocalPort r) (Label r) (State r) (AccessPolicy r) (CreatorID r) (CreatorKind r) (CreatedUnix r) (ExpiresUnix r) v (ApprovedBy r) (ClosedUnix r) (CloseReason r) (PublicURL r).
Definition set_ApprovedBy (v : string) (r : TunnelRecord) : TunnelRecord := mk (ID r) (Token r) (ComputerID r) (DaemonID r) (LocalPort r) (Label r) (State r) (AccessPolicy r) (CreatorID r) (CreatorKind r) (CreatedUnix r) (ExpiresUnix r) (ApprovedUnix r) v (ClosedUnix r) (CloseReason r) (PublicURL r).
Definition set_ClosedUnix (v : Z) (r : TunnelRecord) : TunnelRecord := mk (ID r) (Token r) (ComputerID r) (DaemonID r) (LocalPort r) (Label r) (State r) (AccessPolicy r) (CreatorID r) (CreatorKind r) (CreatedUnix r) (ExpiresUnix r) (ApprovedUnix r) (ApprovedBy r) v (CloseReason r) (PublicURL r).
Definition set_CloseReason (v : string) (r : TunnelRecord) : TunnelRecord := mk (ID r) (Token r) (ComputerID r) (DaemonID r) (LocalPort r) (Label r) (State r) (AccessPolicy r) (CreatorID r) (CreatorKind r) (CreatedUnix r) (ExpiresUnix r) (ApprovedUnix r) (ApprovedBy r) (ClosedUnix r) v (PublicURL r).
Definition set_PublicURL (v : string) (r : TunnelRecord) : TunnelRecord := mk (ID r) (Token r) (ComputerID r) (DaemonID r) (LocalPort r) (Label r) (State r) (AccessPolicy r) (CreatorID r) (CreatorKind r) (CreatedUnix r) (ExpiresUnix r) (ApprovedUnix r) (ApprovedBy r) (ClosedUnix r) (CloseReason r) v.
End TunnelRecord.
Abbreviation TunnelRecord := TunnelRecord.TunnelRecord.

Module TunnelListOptions.
Record TunnelListOptions := mk {
  ComputerID : string;
  StateFilter : string;
  Limit : Z
}.
Definition zero : TunnelListOptions := mk "" "" 0%Z.
Definition set_ComputerID (v : string) (r : TunnelListOptions) : TunnelListOptions := mk v (StateFilter r) (Limit r).
Definition set_StateFilter (v : string) (r : TunnelListOptions) : TunnelListOptions := mk (ComputerID r) v (Limit r).
Definition set_Limit (v : Z) (r : TunnelListOptions) : TunnelListOptions := mk (ComputerID r) (StateFilter r) v.
End TunnelListOptions.
Abbreviation TunnelListOptions := TunnelListOptions.TunnelListOptions.

(** The row of [internal/ent/schema/channel.go]. *)
Module ChannelRow.
Record ChannelRow := mk {
  ID : string;
  Target : string;
  DisplayName : string;
  ChannelType : string;
  Visibility : string;
  CreatedByUserID : string;
  CreatedUnix : Z;
  UpdatedUnix : Z
}.
Definition zero : ChannelRow := mk "" "" "" "" "" "" 0%Z 0%Z.
Definition set_ID (v : string) (r : ChannelRow) : ChannelRow := mk v (Target r) (DisplayName r) (ChannelType r) (Visibility r) (CreatedByUserID r) (CreatedUnix r) (UpdatedUnix r).
Definition set_Target (v : string) (r : ChannelRow) : ChannelRow := mk (ID r) v (DisplayName r) (ChannelType r) (Visibility r) (CreatedByUserID r) (CreatedUnix r) (UpdatedUnix r).
Definition set_DisplayName (v : string) (r : ChannelRow) : ChannelRow := mk (ID r) (Target r) v (ChannelType r) (Visibility r) (CreatedByUserID r) (CreatedUnix r) (UpdatedUnix r).
Definition set_ChannelType (v : string) (r : ChannelRow) : ChannelRow := mk (ID r) (Target r) (DisplayName r) v (Visibility r) (CreatedByUserID r) (CreatedUnix r) (UpdatedUnix r).
Definition set_Visibility (v : string) (r : ChannelRow) : ChannelRow := mk (ID r) (Target r) (DisplayName r) (ChannelType r) v (CreatedByUserID r) (CreatedUnix r) (UpdatedUnix r).
Definition set_CreatedByUserID (v : string) (r : ChannelRow) : ChannelRow := mk (ID r) (Target r) (DisplayName r) (ChannelType r) (Visibility r) v (CreatedUnix r) (UpdatedUnix r).
Definition set_CreatedUnix (v : Z) (r : ChannelRow) : ChannelRow := mk (ID r) (Target r) (DisplayName r) (ChannelType r) (Visibility r) (CreatedByUserID r) v (UpdatedUnix r).
Definition set_UpdatedUnix (v : Z) (r : ChannelRow) : ChannelRow := mk (ID r) (Target r) (DisplayName r) (ChannelType r) (Visibility r) (CreatedByUserID r) (CreatedUnix r) v.
End ChannelRow.
Abbreviation ChannelRow := ChannelRow.ChannelRow.

(** The row of [internal/ent/schema/channelmember.go]. *)
Module ChannelMemberRow.
Record ChannelMemberRow := mk {
  ID : string;
  Target : string;
  MemberID : string;
  Username : string;
  DisplayName : string;
  Kind : string;
  Role : string;
  JoinedTimeUnix : Z;
  UpdatedUnix : Z
}.
Definition zero : ChannelMemberRow := mk "" "" "" "" "" "" "" 0%Z 0%Z.
Definition set_ID (v : string) (r : ChannelMemberRow) : ChannelMemberRow := mk v (Target r) (MemberID r) (Username r) (DisplayName r) (Kind r) (Role r) (JoinedTimeUnix r) (UpdatedUnix r).
Definition set_Target (v : string) (r : ChannelMemberRow) : ChannelMemberRow := mk (ID r) v (MemberID r) (Username r) (DisplayName r) (Kind r) (Role r) (JoinedTimeUnix r) (UpdatedUnix r).
Definition set_MemberID (v : string) (r : ChannelMemberRow) : ChannelMemberRow := mk (ID r) (Target r) v (Username r) (DisplayName r) (Kind r) (Role r) (JoinedTimeUnix r) (UpdatedUnix r).
Definition set_Username (v : string) (r : ChannelMemberRow) : ChannelMemberRow := mk (ID r) (Target r) (MemberID r) v (DisplayName r) (Kind r) (Role r) (JoinedTimeUnix r) (UpdatedUnix r).
Definition set_DisplayName (v : string) (r : ChannelMemberRow) : ChannelMemberRow := mk (ID r) (Target r) (MemberID r) (Username r) v (Kind r) (Role r) (JoinedTimeUnix r) (UpdatedUnix r).
Definition set_Kind (v : string) (r : ChannelMemberRow) : ChannelMemberRow := mk (ID r) (Target r) (MemberID r) (Username r) (DisplayName r) v (Role r) (JoinedTimeUnix r) (UpdatedUnix r).
Definition set_Role (v : string) (r : ChannelMemberRow) : ChannelMemberRow := mk (ID r) (Target r) (MemberID r) (Username r) (DisplayName r) (Kind r) v (JoinedTimeUnix r) (UpdatedUnix r).
Definition set_JoinedTimeUnix (v : Z) (r : ChannelMemberRow) : ChannelMemberRow := mk (ID r) (Target r) (MemberID r) (Username r) (DisplayName r) (Kind r) (Role r) v (UpdatedUnix r).
Definition set_UpdatedUnix (v : Z) (r : ChannelMemberRow) : ChannelMemberRow := mk (ID r) (Target r) (MemberID r) (Username r) (DisplayName r) (Kind r) (Role r) (JoinedTimeUnix r) v.
End ChannelMemberRow.
Abbreviation ChannelMemberRow := ChannelMemberRow.ChannelMemberRow.

(** The row of [internal/ent/schema/message.go]: the attachments are stored as JSON text. *)
Module MessageRow.
Record MessageRow := mk {
  ID : string;
  Target : string;
  ThreadID : string;
  Role : string;
  Content : string;
  ReplyToMessageID : string;
  SenderUserID : string;
  SenderAgentID : string;
  SenderDisplayName : string;
  SenderKind : string;
  SourceEndpointID : string;
  ExternalMessageID : string;
  MetadataJSON : string;
  AttachmentsJSON : string;
  RequestID : string;
  CreatedUnix : Z;
  Kind : string
}.
Definition zero : MessageRow := mk "" "" "" "" "" "" "" "" "" "" "" "" "" "" "" 0%Z "".
Definition set_ID (v : string) (r : MessageRow) : MessageRow := mk v (Target r) (ThreadID r) (Role r) (Content r) (ReplyToMessageID r) (SenderUserID r) (SenderAgentID r) (SenderDisplayName r) (SenderKind r) (SourceEndpointID r) (ExternalMessageID r) (MetadataJSON r) (AttachmentsJSON r) (RequestID r) (CreatedUnix r) (Kind r).
Definition set_Target (v : string) (r : MessageRow) : MessageRow := mk (ID r) v (ThreadID r) (Role r) (Content r) (ReplyToMessageID r) (SenderUserID r) (SenderAgentID r) (SenderDisplayName r) (SenderKind r) (SourceEndpointID r) (ExternalMessageID r) (MetadataJSON r) (AttachmentsJSON r) (RequestID r) (CreatedUnix r) (Kind r).
Definition set_ThreadID (v : string) (r : MessageRow) : MessageRow := mk (ID r) (Target r) v (Role r) (Content r) (ReplyToMessageID r) (SenderUserID r) (SenderAgentID r) (SenderDisplayName r) (SenderKind r) (SourceEndpointID r) (ExternalMessageID r) (MetadataJSON r) (AttachmentsJSON r) (RequestID r) (CreatedUnix r) (Kind r).
Definition set_Role (v : string) (r : MessageRow) : MessageRow := mk (ID r) (Target r) (ThreadID r) v (Content r) (ReplyToMessageID r) (SenderUserID r) (SenderAgentID r) (SenderDisplayName r) (SenderKind r) (SourceEndpointID r) (ExternalMessageID r) (MetadataJSON r) (AttachmentsJSON r) (RequestID r) (CreatedUnix r) (Kind r).
Definition set_Content (v : string) (r : MessageRow) : MessageRow := mk (ID r) (Target r) (ThreadID r) (Role r) v (ReplyToMessageID r) (SenderUserID r) (SenderAgentID r) (SenderDisplayName r) (SenderKind r) (SourceEndpointID r) (ExternalMessageID r) (MetadataJSON r) (AttachmentsJSON r) (RequestID r) (CreatedUnix r) (Kind r).
Definition set_ReplyToMessageID (v : string) (r : MessageRow) : MessageRow := mk (ID r) (Target r) (ThreadID r) (Role r) (Content r) v (SenderUserID r) (SenderAgentID r) (SenderDisplayName r) (SenderKind r) (SourceEndpointID r) (ExternalMessageID r) (MetadataJSON r) (AttachmentsJSON r) (RequestID r) (CreatedUnix r) (Kind r).
Definition set_SenderUserID (v : string) (r : MessageRow) : MessageRow := mk (ID r) (Target r) (ThreadID r) (Role r) (Content r) (ReplyToMessageID r) v (SenderAgentID r) (SenderDisplayName r) (SenderKind r) (SourceEndpointID r) (ExternalMessageID r) (MetadataJSON r) (AttachmentsJSON r) (RequestID r) (CreatedUnix r) (Kind r).
Definition set_SenderAgentID (v : string) (r : MessageRow) : MessageRow := mk (ID r) (Target r) (ThreadID r) (Role r) (Content r) (ReplyToMessageID r) (SenderUserID r) v (SenderDisplayName r) (SenderKind r) (SourceEndpointID r) (ExternalMessageID r) (MetadataJSON r) (AttachmentsJSON r) (RequestID r) (CreatedUnix r) (Kind r).
Definition set_SenderDisplayName (v : string) (r : MessageRow) : MessageRow := mk (ID r) (Target r) (ThreadID r) (Role r) (Content r) (ReplyToMessageID r) (SenderUserID r) (SenderAgentID r) v (SenderKind r) (SourceEndpointID r) (ExternalMessageID r) (MetadataJSON r) (AttachmentsJSON r) (RequestID r) (CreatedUnix r) (Kind r).
Definition set_SenderKind (v : string) (r : MessageRow) : MessageRow := mk (ID r) (Target r) (ThreadID r) (Role r) (Content r) (ReplyToMessageID r) (SenderUserID r) (SenderAgentID r) (SenderDisplayName r) v (SourceEndpointID r) (ExternalMessageID r) (MetadataJSON r) (AttachmentsJSON r) (RequestID r) (CreatedUnix r) (Kind r).
Definition set_SourceEndpointID (v : string) (r : MessageRow) : MessageRow := mk (ID r) (Target r) (ThreadID r) (Role r) (Content r) (ReplyToMessageID r) (SenderUserID r) (SenderAgentID r) (SenderDisplayName r) (SenderKind r) v (ExternalMessageID r) (MetadataJSON r) (AttachmentsJSON r) (RequestID r) (CreatedUnix r) (Kind r).
Definition set_ExternalMessageID (v : string) (r : MessageRow) : MessageRow := mk (ID r) (Target r) (ThreadID r) (Role r) (Content r) (ReplyToMessageID r) (SenderUserID r) (SenderAgentID r) (SenderDisplayName r) (SenderKind r) (SourceEndpointID r) v (MetadataJSON r) (AttachmentsJSON r) (RequestID r) (CreatedUnix r) (Kind r).
Definition set_MetadataJSON (v : string) (r : MessageRow) : MessageRow := mk (ID r) (Target r) (ThreadID r) (Role r) (Content r) (ReplyToMessageID r) (SenderUserID r) (SenderAgentID r) (SenderDisplayName r) (SenderKind r) (SourceEndpointID r) (ExternalMessageID r) v (AttachmentsJSON r) (RequestID r) (CreatedUnix r) (Kind r).
Definition set_AttachmentsJSON (v : string) (r : MessageRow) : MessageRow := mk (ID r) (Target r) (ThreadID r) (Role r) (Content r) (ReplyToMessageID r) (SenderUserID r) (SenderAgentID r) (SenderDisplayName r) (SenderKind r) (SourceEndpointID r) (ExternalMessageID r) (MetadataJSON r) v (RequestID r) (CreatedUnix r) (Kind r).
Definition set_RequestID (v : string) (r : MessageRow) : MessageRow := mk (ID r) (Target r) (ThreadID r) (Role r) (Content r) (ReplyToMessageID r) (SenderUserID r) (SenderAgentID r) (SenderDisplayName r) (SenderKind r) (SourceEndpointID r) (ExternalMessageID r) (MetadataJSON r) (AttachmentsJSON r) v (CreatedUnix r) (Kind r).
Definition set_CreatedUnix (v : Z) (r : MessageRow) : MessageRow := mk (ID r) (Target r) (ThreadID r) (Role r) (Content r) (ReplyToMessageID r) (SenderUserID r) (SenderAgentID r) (SenderDisplayName r) (SenderKind r) (SourceEndpointID r) (ExternalMessageID r) (MetadataJSON r) (AttachmentsJSON r) (RequestID r) v (Kind r).
Definition set_Kind (v : string) (r : MessageRow) : MessageRow := mk (ID r) (Target r) (ThreadID r) (Role r) (Content r) (ReplyToMessageID r) (SenderUserID r) (SenderAgentID r) (SenderDisplayName r) (SenderKind r) (SourceEndpointID r) (ExternalMessageID r) (MetadataJSON r) (AttachmentsJSON r) (RequestID r) (CreatedUnix r) v.
End MessageRow.
Abbreviation MessageRow := MessageRow.MessageRow.

(** The row of [internal/ent/schema/savedmessage.go]. *)
Module SavedMessageRow.
Record SavedMessageRow := mk {
  ID : string;
  Target : string;
  MessageID : string;
  SavedByUserID : string;
  SavedByAgentID : string;
  CreatedUnix : Z
}.
Definition zero : SavedMessageRow := mk "" "" "" "" "" 0%Z.
Definition set_ID (v : string) (r : SavedMessageRow) : SavedMessageRow := mk v (Target r) (MessageID r) (SavedByUserID r) (SavedByAgentID r) (CreatedUnix r).
Definition set_Target (v : string) (r : SavedMessageRow) : SavedMessageRow := mk (ID r) v (MessageID r) (SavedByUserID r) (SavedByAgentID r) (CreatedUnix r).
Definition set_MessageID (v : string) (r : SavedMessageRow) : SavedMessageRow := mk (ID r) (Target r) v (SavedByUserID r) (SavedByAgentID r) (CreatedUnix r).
Definition set_SavedByUserID (v : string) (r : SavedMessageRow) : SavedMessageRow := mk (ID r) (Target r) (MessageID r) v (SavedByAgentID r) (CreatedUnix r).
Definition set_SavedByAgentID (v : string) (r : SavedMessageRow) : SavedMessageRow := mk (ID r) (Target r) (MessageID r) (SavedByUserID r) v (CreatedUnix r).
Definition set_CreatedUnix (v : Z) (r : SavedMessageRow) : SavedMessageRow := mk (ID r) (Target r) (MessageID r) (SavedByUserID r) (SavedByAgentID r) v.
End SavedMessageRow.
Abbreviation SavedMessageRow := SavedMessageRow.SavedMessageRow.

(** The row of [internal/ent/schema/threadreadstate.go]. *)
Module ThreadReadState.
Record ThreadReadState := mk {
  ID : string;
  UserID : string;
  Target : string;
  ThreadID : string;
  LastReadMessageID : string;
  LastReadUnix : Z;
  UpdatedUnix : Z
}.
Definition zero : ThreadReadState := mk "" "" "" "" "" 0%Z 0%Z.
Definition set_ID (v : string) (r : ThreadReadState) : ThreadReadState := mk v (UserID r) (Target r) (ThreadID r) (LastReadMessageID r) (LastReadUnix r) (UpdatedUnix r).
Definition set_UserID (v : string) (r : ThreadReadState) : ThreadReadState := mk (ID r) v (Target r) (ThreadID r) (LastReadMessageID r) (LastReadUnix r) (UpdatedUnix r).
Definition set_Target (v : string) (r : ThreadReadState) : ThreadReadState := mk (ID r) (UserID r) v (ThreadID r) (LastReadMessageID r) (LastReadUnix r) (UpdatedUnix r).
Definition set_ThreadID (v : string) (r : ThreadReadState) : ThreadReadState := mk (ID r) (UserID r) (Target r) v (LastReadMessageID r) (LastReadUnix r) (UpdatedUnix r).
Definition set_LastReadMessageID (v : string) (r : ThreadReadState) : ThreadReadState := mk (ID r) (UserID r) (Target r) (ThreadID r) v (LastReadUnix r) (UpdatedUnix r).
Definition set_LastReadUnix (v : Z) (r : ThreadReadState) : ThreadReadState := mk (ID r) (UserID r) (Target r) (ThreadID r) (LastReadMessageID r) v (UpdatedUnix r).
Definition set_UpdatedUnix (v : Z) (r : ThreadReadState) : ThreadReadState := mk (ID r) (UserID r) (Target r) (ThreadID r) (LastReadMessageID r) (LastReadUnix r) v.
End ThreadReadState.
Abbreviation ThreadReadState := ThreadReadState.ThreadReadState.

