(* ===== verification/Schema.v ===== *)
(** * The schema

    The declarations of [internal/ent/schema]: per entity its primary key, its
    unique indexes and its [NotEmpty]/[Positive] validators. *)
From S2P Require Import Prelude Sql Models.

Definition User_unique (a b : User) : bool :=
    (String.eqb (User.Username a) (User.Username b)).

Definition User_check (r : User) : bool :=
    negb (String.eqb (User.Username r) "") && negb (String.eqb (User.DisplayName r) "") && negb (String.eqb (User.PasswordHash r) "").

#[export] Instance User_entity : Entity User := {
  entID := User.ID; uniq_index := User_unique; validators := User_check
}.

Definition Session_unique (a b : Session) : bool :=
    (String.eqb (Session.TokenHash a) (Session.TokenHash b)).

Definition Session_check (r : Session) : bool :=
    negb (String.eqb (Session.TokenHash r) "") && negb (String.eqb (Session.UserID r) "").

#[export] Instance Session_entity : Entity Session := {
  entID := Session.ID; uniq_index := Session_unique; validators := Session_check
}.

Definition InteractionEndpoint_unique (a b : InteractionEndpoint) : bool :=
    false.

Definition InteractionEndpoint_check (r : InteractionEndpoint) : bool :=
    negb (String.eqb (InteractionEndpoint.Kind r) "") && negb (String.eqb (InteractionEndpoint.Provider r) "") && negb (String.eqb (InteractionEndpoint.DisplayName r) "").

#[export] Instance InteractionEndpoint_entity : Entity InteractionEndpoint := {
  entID := InteractionEndpoint.ID; uniq_index := InteractionEndpoint_unique; validators := InteractionEndpoint_check
}.

Definition IMChatAuthRequest_unique (a b : IMChatAuthRequest) : bool :=
    (String.eqb (IMChatAuthRequest.TokenHash a) (IMChatAuthRequest.TokenHash b)).

Definition IMChatAuthRequest_check (r : IMChatAuthRequest) : bool :=
    negb (String.eqb (IMChatAuthRequest.EndpointID r) "") && negb (String.eqb (IMChatAuthRequest.ConversationID r) "") && negb (String.eqb (IMChatAuthRequest.TokenHash r) "").

#[export] Instance IMChatAuthRequest_entity : Entity IMChatAuthRequest := {
  entID := IMChatAuthRequest.ID; uniq_index := IMChatAuthRequest_unique; validators := IMChatAuthRequest_check
}.

Definition IMChatSubscription_unique (a b : IMChatSubscription) : bool :=
    (String.eqb (IMChatSubscription.EndpointID a) (IMChatSubscription.EndpointID b) && String.eqb (IMChatSubscription.ConversationID a) (IMChatSubscription.ConversationID b) && String.eqb (IMChatSubscription.ExternalThreadID a) (IMChatSubscription.ExternalThreadID b)).

Definition IMChatSubscription_check (r : IMChatSubscription) : bool :=
    negb (String.eqb (IMChatSubscription.EndpointID r) "") && negb (String.eqb (IMChatSubscription.ConversationID r) "").

#[export] Instance IMChatSubscription_entity : Entity IMChatSubscription := {
  entID := IMChatSubscription.ID; uniq_index := IMChatSubscription_unique; validators := IMChatSubscription_check
}.

Definition ChannelRow_unique (a b : ChannelRow) : bool :=
    (String.eqb (ChannelRow.Target a) (ChannelRow.Target b)).

Definition ChannelRow_check (r : ChannelRow) : bool :=
    negb (String.eqb (ChannelRow.Target r) "") && negb (String.eqb (ChannelRow.DisplayName r) "").

#[export] Instance ChannelRow_entity : Entity ChannelRow := {
  entID := ChannelRow.ID; uniq_index := ChannelRow_unique; validators := ChannelRow_check
}.

Definition ChannelMemberRow_unique (a b : ChannelMemberRow) : bool :=
    (String.eqb (ChannelMemberRow.Target a) (ChannelMemberRow.Target b) && String.eqb (ChannelMemberRow.Kind a) (ChannelMemberRow.Kind b) && String.eqb (ChannelMemberRow.MemberID a) (ChannelMemberRow.MemberID b)).

Definition ChannelMemberRow_check (r : ChannelMemberRow) : bool :=
    negb (String.eqb (ChannelMemberRow.Target r) "") && negb (String.eqb (ChannelMemberRow.MemberID r) "") && negb (String.eqb (ChannelMemberRow.DisplayName r) "").

#[export] Instance ChannelMemberRow_entity : Entity ChannelMemberRow := {
  entID := ChannelMemberRow.ID; uniq_index := ChannelMemberRow_unique; validators := ChannelMemberRow_check
}.

Definition MessageRow_unique (a b : MessageRow) : bool :=
    false.

Definition MessageRow_check (r : MessageRow) : bool :=
    negb (String.eqb (MessageRow.Target r) "") && negb (String.eqb (MessageRow.Role r) "") && negb (String.eqb (MessageRow.Content r) "") && negb (String.eqb (MessageRow.SenderKind r) "").

#[export] Instance MessageRow_entity : Entity MessageRow := {
  entID := MessageRow.ID; uniq_index := MessageRow_unique; validators := MessageRow_check
}.

Definition SavedMessageRow_unique (a b : SavedMessageRow) : bool :=
    (String.eqb (SavedMessageRow.Target a) (SavedMessageRow.Target b) && String.eqb (SavedMessageRow.MessageID a) (SavedMessageRow.MessageID b) && String.eqb (SavedMessageRow.SavedByUserID a) (SavedMessageRow.SavedByUserID b) && String.eqb (SavedMessageRow.SavedByAgentID a) (SavedMessageRow.SavedByAgentID b)).

Definition SavedMessageRow_check (r : SavedMessageRow) : bool :=
    negb (String.eqb (SavedMessageRow.Target r) "") && negb (String.eqb (SavedMessageRow.MessageID r) "").

#[export] Instance SavedMessageRow_entity : Entity SavedMessageRow := {
  entID := SavedMessageRow.ID; uniq_index := SavedMessageRow_unique; validators := SavedMessageRow_check
}.

Definition ThreadReadState_unique (a b : ThreadReadState) : bool :=
    (String.eqb (ThreadReadState.UserID a) (ThreadReadState.UserID b) && String.eqb (ThreadReadState.Target a) (ThreadReadState.Target b) && String.eqb (ThreadReadState.ThreadID a) (ThreadReadState.ThreadID b)).

Definition ThreadReadState_check (r : ThreadReadState) : bool :=
    negb (String.eqb (ThreadReadState.UserID r) "") && negb (String.eqb (ThreadReadState.Target r) "") && negb (String.eqb (ThreadReadState.ThreadID r) "").

#[export] Instance ThreadReadState_entity : Entity ThreadReadState := {
  entID := ThreadReadState.ID; uniq_index := ThreadReadState_unique; validators := ThreadReadState_check
}.

Definition OutboundDelivery_unique (a b : OutboundDelivery) : bool :=
    false.

Definition OutboundDelivery_check (r : OutboundDelivery) : bool :=
    negb (String.eqb (OutboundDelivery.Target r) "") && negb (String.eqb (OutboundDelivery.MessageID r) "") && negb (String.eqb (OutboundDelivery.EndpointID r) "").

#[export] Instance OutboundDelivery_entity : Entity OutboundDelivery := {
  entID := OutboundDelivery.ID; uniq_index := OutboundDelivery_unique; validators := OutboundDelivery_check
}.

Definition NotificationRoute_unique (a b : NotificationRoute) : bool :=
    (String.eqb (NotificationRoute.Target a) (NotificationRoute.Target b) && String.eqb (NotificationRoute.EndpointID a) (NotificationRoute.EndpointID b) && String.eqb (NotificationRoute.EventKind a) (NotificationRoute.EventKind b) && String.eqb (NotificationRoute.ThreadID a) (NotificationRoute.ThreadID b)).

Definition NotificationRoute_check (r : NotificationRoute) : bool :=
    negb (String.eqb (NotificationRoute.Target r) "") && negb (String.eqb (NotificationRoute.EndpointID r) "").

#[export] Instance NotificationRoute_entity : Entity NotificationRoute := {
  entID := NotificationRoute.ID; uniq_index := NotificationRoute_unique; validators := NotificationRoute_check
}.

Definition Task_unique (a b : Task) : bool :=
    false.

Definition Task_check (r : Task) : bool :=
    negb (String.eqb (Task.Summary r) "") && negb (String.eqb (Task.Target r) "").

#[export] Instance Task_entity : Entity Task := {
  entID := Task.ID; uniq_index := Task_unique; validators := Task_check
}.

Definition TaskAttempt_unique (a b : TaskAttempt) : bool :=
    (String.eqb (TaskAttempt.TaskID a) (TaskAttempt.TaskID b) && (TaskAttempt.Attempt a =? TaskAttempt.Attempt b)%Z).

Definition TaskAttempt_check (r : TaskAttempt) : bool :=
    negb (String.eqb (TaskAttempt.TaskID r) "").

#[export] Instance TaskAttempt_entity : Entity TaskAttempt := {
  entID := TaskAttempt.ID; uniq_index := TaskAttempt_unique; validators := TaskAttempt_check
}.

Definition Reminder_unique (a b : Reminder) : bool :=
    false.

Definition Reminder_check (r : Reminder) : bool :=
    negb (String.eqb (Reminder.Target r) "").

#[export] Instance Reminder_entity : Entity Reminder := {
  entID := Reminder.ID; uniq_index := Reminder_unique; validators := Reminder_check
}.

Definition ReminderEvent_unique (a b : ReminderEvent) : bool :=
    false.

Definition ReminderEvent_check (r : ReminderEvent) : bool :=
    negb (String.eqb (ReminderEvent.ReminderID r) "") && negb (String.eqb (ReminderEvent.EventType r) "").

#[export] Instance ReminderEvent_entity : Entity ReminderEvent := {
  entID := ReminderEvent.ID; uniq_index := ReminderEvent_unique; validators := ReminderEvent_check
}.

Definition ChannelDecision_unique (a b : ChannelDecision) : bool :=
    false.

Definition ChannelDecision_check (r : ChannelDecision) : bool :=
    negb (String.eqb (ChannelDecision.Target r) "") && negb (String.eqb (ChannelDecision.Title r) "") && negb (String.eqb (ChannelDecision.Body r) "") && negb (String.eqb (ChannelDecision.Status r) "") && negb (String.eqb (ChannelDecision.ProposerID r) "") && negb (String.eqb (ChannelDecision.ProposerKind r) "").

#[export] Instance ChannelDecision_entity : Entity ChannelDecision := {
  entID := ChannelDecision.ID; uniq_index := ChannelDecision_unique; validators := ChannelDecision_check
}.

Definition ChannelDecisionVote_unique (a b : ChannelDecisionVote) : bool :=
    (String.eqb (ChannelDecisionVote.DecisionID a) (ChannelDecisionVote.DecisionID b) && String.eqb (ChannelDecisionVote.VoterID a) (ChannelDecisionVote.VoterID b)).

Definition ChannelDecisionVote_check (r : ChannelDecisionVote) : bool :=
    negb (String.eqb (ChannelDecisionVote.DecisionID r) "") && negb (String.eqb (ChannelDecisionVote.VoterID r) "") && negb (String.eqb (ChannelDecisionVote.VoterKind r) "") && negb (String.eqb (ChannelDecisionVote.Decision r) "").

#[export] Instance ChannelDecisionVote_entity : Entity ChannelDecisionVote := {
  entID := ChannelDecisionVote.ID; uniq_index := ChannelDecisionVote_unique; validators := ChannelDecisionVote_check
}.

Definition AgentRun_unique (a b : AgentRun) : bool :=
    false.

Definition AgentRun_check (r : AgentRun) : bool :=
    negb (String.eqb (AgentRun.ID r) "") && negb (String.eqb (AgentRun.AgentID r) "") && negb (String.eqb (AgentRun.ComputerID r) "").

#[export] Instance AgentRun_entity : Entity AgentRun := {
  entID := AgentRun.ID; uniq_index := AgentRun_unique; validators := AgentRun_check
}.

Definition AgentRunEvent_unique (a b : AgentRunEvent) : bool :=
    false.

Definition AgentRunEvent_check (r : AgentRunEvent) : bool :=
    negb (String.eqb (AgentRunEvent.RunID r) "") && negb (String.eqb (AgentRunEvent.Phase r) "").

#[export] Instance AgentRunEvent_entity : Entity AgentRunEvent := {
  entID := AgentRunEvent.ID; uniq_index := AgentRunEvent_unique; validators := AgentRunEvent_check
}.

Definition CollaborationEvent_unique (a b : CollaborationEvent) : bool :=
    (String.eqb (CollaborationEvent.ServerID a) (CollaborationEvent.ServerID b) && (CollaborationEvent.Sequence a =? CollaborationEvent.Sequence b)%Z) ||
    (String.eqb (CollaborationEvent.EventID a) (CollaborationEvent.EventID b)).

Definition CollaborationEvent_check (r : CollaborationEvent) : bool :=
    negb (String.eqb (CollaborationEvent.ServerID r) "") && negb (String.eqb (CollaborationEvent.EventID r) "") && negb (String.eqb (CollaborationEvent.Kind r) "") && (0 <? CollaborationEvent.Sequence r)%Z && (0 <? CollaborationEvent.ProtocolVersion r)%Z.

#[export] Instance CollaborationEvent_entity : Entity CollaborationEvent := {
  entID := CollaborationEvent.ID; uniq_index := CollaborationEvent_unique; validators := CollaborationEvent_check
}.

Definition IdempotencyRecord_unique (a b : IdempotencyRecord) : bool :=
    (String.eqb (IdempotencyRecord.Scope a) (IdempotencyRecord.Scope b) && String.eqb (IdempotencyRecord.Method a) (IdempotencyRecord.Method b) && String.eqb (IdempotencyRecord.ActorID a) (IdempotencyRecord.ActorID b) && String.eqb (IdempotencyRecord.IdempotencyKey a) (IdempotencyRecord.IdempotencyKey b)).

Definition IdempotencyRecord_check (r : IdempotencyRecord) : bool :=
    negb (String.eqb (IdempotencyRecord.Scope r) "") && negb (String.eqb (IdempotencyRecord.Method r) "") && negb (String.eqb (IdempotencyRecord.IdempotencyKey r) "").

#[export] Instance IdempotencyRecord_entity : Entity IdempotencyRecord := {
  entID := IdempotencyRecord.ID; uniq_index := IdempotencyRecord_unique; validators := IdempotencyRecord_check
}.

Definition TunnelRecord_unique (a b : TunnelRecord) : bool :=
    (String.eqb (TunnelRecord.Token a) (TunnelRecord.Token b)).

Definition TunnelRecord_check (r : TunnelRecord) : bool :=
    negb (String.eqb (TunnelRecord.Token r) "") && negb (String.eqb (TunnelRecord.ComputerID r) "") && negb (String.eqb (TunnelRecord.State r) "") && negb (String.eqb (TunnelRecord.AccessPolicy r) "") && negb (String.eqb (TunnelRecord.CreatorID r) "") && negb (String.eqb (TunnelRecord.CreatorKind r) "").

#[export] Instance TunnelRecord_entity : Entity TunnelRecord := {
  entID := TunnelRecord.ID; uniq_index := TunnelRecord_unique; validators := TunnelRecord_check
}.


(** Unique indexes are symmetric. *)
Class SymEntity (R : Type) `{!Entity R} : Prop := clash_sym : ∀ a b : R, clash a b = clash b a.

Ltac solve_sym U :=
  intros a b; unfold clash; cbn; unfold U;
  repeat first [reflexivity | apply String.eqb_sym | apply Z.eqb_sym | f_equal].

#[export] Instance User_sym : SymEntity User.
Proof. solve_sym User_unique. Qed.
#[export] Instance Session_sym : SymEntity Session.
Proof. solve_sym Session_unique. Qed.
#[export] Instance InteractionEndpoint_sym : SymEntity InteractionEndpoint.
Proof. solve_sym InteractionEndpoint_unique. Qed.
#[export] Instance IMChatAuthRequest_sym : SymEntity IMChatAuthRequest.
Proof. solve_sym IMChatAuthRequest_unique. Qed.
#[export] Instance IMChatSubscription_sym : SymEntity IMChatSubscription.
Proof. solve_sym IMChatSubscription_unique. Qed.
#[export] Instance ChannelRow_sym : SymEntity ChannelRow.
Proof. solve_sym ChannelRow_unique. Qed.
#[export] Instance ChannelMemberRow_sym : SymEntity ChannelMemberRow.
Proof. solve_sym ChannelMemberRow_unique. Qed.
#[export] Instance MessageRow_sym : SymEntity MessageRow.
Proof. solve_sym MessageRow_unique. Qed.
#[export] Instance SavedMessageRow_sym : SymEntity SavedMessageRow.
Proof. solve_sym SavedMessageRow_unique. Qed.
#[export] Instance ThreadReadState_sym : SymEntity ThreadReadState.
Proof. solve_sym ThreadReadState_unique. Qed.
#[export] Instance OutboundDelivery_sym : SymEntity OutboundDelivery.
Proof. solve_sym OutboundDelivery_unique. Qed.
#[export] Instance NotificationRoute_sym : SymEntity NotificationRoute.
Proof. solve_sym NotificationRoute_unique. Qed.
#[export] Instance Task_sym : SymEntity Task.
Proof. solve_sym Task_unique. Qed.
#[export] Instance TaskAttempt_sym : SymEntity TaskAttempt.
Proof. solve_sym TaskAttempt_unique. Qed.
#[export] Instance Reminder_sym : SymEntity Reminder.
Proof. solve_sym Reminder_unique. Qed.
#[export] Instance ReminderEvent_sym : SymEntity ReminderEvent.
Proof. solve_sym ReminderEvent_unique. Qed.
#[export] Instance ChannelDecision_sym : SymEntity ChannelDecision.
Proof. solve_sym ChannelDecision_unique. Qed.
#[export] Instance ChannelDecisionVote_sym : SymEntity ChannelDecisionVote.
Proof. solve_sym ChannelDecisionVote_unique. Qed.
#[export] Instance AgentRun_sym : SymEntity AgentRun.
Proof. solve_sym AgentRun_unique. Qed.
#[export] Instance AgentRunEvent_sym : SymEntity AgentRunEvent.
Proof. solve_sym AgentRunEvent_unique. Qed.
#[export] Instance CollaborationEvent_sym : SymEntity CollaborationEvent.
Proof. solve_sym CollaborationEvent_unique. Qed.
#[export] Instance IdempotencyRecord_sym : SymEntity IdempotencyRecord.
Proof. solve_sym IdempotencyRecord_unique. Qed.
#[export] Instance TunnelRecord_sym : SymEntity TunnelRecord.
Proof. solve_sym TunnelRecord_unique. Qed.
