(* ===== verification/Store.v ===== *)
(** * The store and the ent client

    [Store] is what [storage.Store] persists: one table per entity, and the
    number of transactions begun and not yet ended.  An operation of the store is
    a computation of the monad [M], which threads the store and stops at the
    first error; an error does not undo what the operation did before it, unless
    [in_tx] runs it.  The readings of the clock and the freshly drawn identifiers
    of an operation are its arguments.

    The [ent_] operations are the ones the generated client offers
    ([internal/ent]): create, query, update and delete builders with their
    validators and error classes.  Each has a weakest-precondition rule; the
    components' proofs use only those rules. *)
From S2P Require Import Prelude GoStr Sql Models Schema.

(** [r |> f |> g]: a chain of the builder's [Set] methods. *)
Notation "x |> f" := (f x%go) (at level 50, left associativity, only parsing) : go_scope.
#[global] Open Scope go_scope.

(** A [Set] guarded by a test, or by a pointer that is not [nil]. *)
Definition when {R} (b : bool) (f : R → R) (r : R) : R := if b then f r else r.
Definition when_some {A R} (o : option A) (f : A → R → R) (r : R) : R :=
  match o with Some v => f v r | None => r end.

Lemma when_proj {R A} (g : R → A) b f r : (∀ x, g (f x) = g x) → g (when b f r) = g r.
Proof. destruct b; simpl; auto. Qed.

Lemma when_field {R A} (g : R → A) b f r : g (when b f r) = if b then g (f r) else g r.
Proof. by destruct b. Qed.

(** Reads a field through the optional [Set]s that do not touch it. *)
Ltac through g := repeat rewrite (when_proj g) by (intros; reflexivity).

(** A validator that runs only on a field the update sets. *)
Definition check_some {A} (o : option A) (ok : A → bool) : bool :=
  match o with Some v => ok v | None => true end.

Definition not_empty (v : string) : bool := negb (String.eqb v "").

Section store.
Context {Eng : SqlEngine}.

(** ** State *)

Record Store := mkStore {
  users : tbl User;
  sessions : tbl Session;
  endpoints : tbl InteractionEndpoint;
  auth_requests : tbl IMChatAuthRequest;
  subscriptions : tbl IMChatSubscription;
  channels : tbl ChannelRow;
  channel_members : tbl ChannelMemberRow;
  messages : tbl MessageRow;
  saved_messages : tbl SavedMessageRow;
  thread_read_states : tbl ThreadReadState;
  outbound_deliveries : tbl OutboundDelivery;
  notification_routes : tbl NotificationRoute;
  tasks : tbl Task;
  task_attempts : tbl TaskAttempt;
  reminders : tbl Reminder;
  reminder_events : tbl ReminderEvent;
  decisions : tbl ChannelDecision;
  decision_votes : tbl ChannelDecisionVote;
  agent_runs : tbl AgentRun;
  agent_run_events : tbl AgentRunEvent;
  collaboration_events : tbl CollaborationEvent;
  idempotency_records : tbl IdempotencyRecord;
  tunnels : tbl TunnelRecord;
  open_txs : nat
}.

Definition set_users (v : tbl User) (s : Store) : Store := mkStore v (sessions s) (endpoints s) (auth_requests s) (subscriptions s) (channels s) (channel_members s) (messages s) (saved_messages s) (thread_read_states s) (outbound_deliveries s) (notification_routes s) (tasks s) (task_attempts s) (reminders s) (reminder_events s) (decisions s) (decision_votes s) (agent_runs s) (agent_run_events s) (collaboration_events s) (idempotency_records s) (tunnels s) (open_txs s).
Definition set_sessions (v : tbl Session) (s : Store) : Store := mkStore (users s) v (endpoints s) (auth_requests s) (subscriptions s) (channels s) (channel_members s) (messages s) (saved_messages s) (thread_read_states s) (outbound_deliveries s) (notification_routes s) (tasks s) (task_attempts s) (reminders s) (reminder_events s) (decisions s) (decision_votes s) (agent_runs s) (agent_run_events s) (collaboration_events s) (idempotency_records s) (tunnels s) (open_txs s).
Definition set_endpoints (v : tbl InteractionEndpoint) (s : Store) : Store := mkStore (users s) (sessions s) v (auth_requests s) (subscriptions s) (channels s) (channel_members s) (messages s) (saved_messages s) (thread_read_states s) (outbound_deliveries s) (notification_routes s) (tasks s) (task_attempts s) (reminders s) (reminder_events s) (decisions s) (decision_votes s) (agent_runs s) (agent_run_events s) (collaboration_events s) (idempotency_records s) (tunnels s) (open_txs s).
Definition set_auth_requests (v : tbl IMChatAuthRequest) (s : Store) : Store := mkStore (users s) (sessions s) (endpoints s) v (subscriptions s) (channels s) (channel_members s) (messages s) (saved_messages s) (thread_read_states s) (outbound_deliveries s) (notification_routes s) (tasks s) (task_attempts s) (reminders s) (reminder_events s) (decisions s) (decision_votes s) (agent_runs s) (agent_run_events s) (collaboration_events s) (idempotency_records s) (tunnels s) (open_txs s).
Definition set_subscriptions (v : tbl IMChatSubscription) (s : Store) : Store := mkStore (users s) (sessions s) (endpoints s) (auth_requests s) v (channels s) (channel_members s) (messages s) (saved_messages s) (thread_read_states s) (outbound_deliveries s) (notification_routes s) (tasks s) (task_attempts s) (reminders s) (reminder_events s) (decisions s) (decision_votes s) (agent_runs s) (agent_run_events s) (collaboration_events s) (idempotency_records s) (tunnels s) (open_txs s).
Definition set_channels (v : tbl ChannelRow) (s : Store) : Store := mkStore (users s) (sessions s) (endpoints s) (auth_requests s) (subscriptions s) v (channel_members s) (messages s) (saved_messages s) (thread_read_states s) (outbound_deliveries s) (notification_routes s) (tasks s) (task_attempts s) (reminders s) (reminder_events s) (decisions s) (decision_votes s) (agent_runs s) (agent_run_events s) (collaboration_events s) (idempotency_records s) (tunnels s) (open_txs s).
Definition set_channel_members (v : tbl ChannelMemberRow) (s : Store) : Store := mkStore (users s) (sessions s) (endpoints s) (auth_requests s) (subscriptions s) (channels s) v (messages s) (saved_messages s) (thread_read_states s) (outbound_deliveries s) (notification_routes s) (tasks s) (task_attempts s) (reminders s) (reminder_events s) (decisions s) (decision_votes s) (agent_runs s) (agent_run_events s) (collaboration_events s) (idempotency_records s) (tunnels s) (open_txs s).
Definition set_messages (v : tbl MessageRow) (s : Store) : Store := mkStore (users s) (sessions s) (endpoints s) (auth_requests s) (subscriptions s) (channels s) (channel_members s) v (saved_messages s) (thread_read_states s) (outbound_deliveries s) (notification_routes s) (tasks s) (task_attempts s) (reminders s) (reminder_events s) (decisions s) (decision_votes s) (agent_runs s) (agent_run_events s) (collaboration_events s) (idempotency_records s) (tunnels s) (open_txs s).
Definition set_saved_messages (v : tbl SavedMessageRow) (s : Store) : Store := mkStore (users s) (sessions s) (endpoints s) (auth_requests s) (subscriptions s) (channels s) (channel_members s) (messages s) v (thread_read_states s) (outbound_deliveries s) (notification_routes s) (tasks s) (task_attempts s) (reminders s) (reminder_events s) (decisions s) (decision_votes s) (agent_runs s) (agent_run_events s) (collaboration_events s) (idempotency_records s) (tunnels s) (open_txs s).
Definition set_thread_read_states (v : tbl ThreadReadState) (s : Store) : Store := mkStore (users s) (sessions s) (endpoints s) (auth_requests s) (subscriptions s) (channels s) (channel_members s) (messages s) (saved_messages s) v (outbound_deliveries s) (notification_routes s) (tasks s) (task_attempts s) (reminders s) (reminder_events s) (decisions s) (decision_votes s) (agent_runs s) (agent_run_events s) (collaboration_events s) (idempotency_records s) (tunnels s) (open_txs s).
Definition set_outbound_deliveries (v : tbl OutboundDelivery) (s : Store) : Store := mkStore (users s) (sessions s) (endpoints s) (auth_requests s) (subscriptions s) (channels s) (channel_members s) (messages s) (saved_messages s) (thread_read_states s) v (notification_routes s) (tasks s) (task_attempts s) (reminders s) (reminder_events s) (decisions s) (decision_votes s) (agent_runs s) (agent_run_events s) (collaboration_events s) (idempotency_records s) (tunnels s) (open_txs s).
Definition set_notification_routes (v : tbl NotificationRoute) (s : Store) : Store := mkStore (users s) (sessions s) (endpoints s) (auth_requests s) (subscriptions s) (channels s) (channel_members s) (messages s) (saved_messages s) (thread_read_states s) (outbound_deliveries s) v (tasks s) (task_attempts s) (reminders s) (reminder_events s) (decisions s) (decision_votes s) (agent_runs s) (agent_run_events s) (collaboration_events s) (idempotency_records s) (tunnels s) (open_txs s).
Definition set_tasks (v : tbl Task) (s : Store) : Store := mkStore (users s) (sessions s) (endpoints s) (auth_requests s) (subscriptions s) (channels s) (channel_members s) (messages s) (saved_messages s) (thread_read_states s) (outbound_deliveries s) (notification_routes s) v (task_attempts s) (reminders s) (reminder_events s) (decisions s) (decision_votes s) (agent_runs s) (agent_run_events s) (collaboration_events s) (idempotency_records s) (tunnels s) (open_txs s).
Definition set_task_attempts (v : tbl TaskAttempt) (s : Store) : Store := mkStore (users s) (sessions s) (endpoints s) (auth_requests s) (subscriptions s) (channels s) (channel_members s) (messages s) (saved_messages s) (thread_read_states s) (outbound_deliveries s) (notification_routes s) (tasks s) v (reminders s) (reminder_events s) (decisions s) (decision_votes s) (agent_runs s) (agent_run_events s) (collaboration_events s) (idempotency_records s) (tunnels s) (open_txs s).
Definition set_reminders (v : tbl Reminder) (s : Store) : Store := mkStore (users s) (sessions s) (endpoints s) (auth_requests s) (subscriptions s) (channels s) (channel_members s) (messages s) (saved_messages s) (thread_read_states s) (outbound_deliveries s) (notification_routes s) (tasks s) (task_attempts s) v (reminder_events s) (decisions s) (decision_votes s) (agent_runs s) (agent_run_events s) (collaboration_events s) (idempotency_records s) (tunnels s) (open_txs s).
Definition set_reminder_events (v : tbl ReminderEvent) (s : Store) : Store := mkStore (users s) (sessions s) (endpoints s) (auth_requests s) (subscriptions s) (channels s) (channel_members s) (messages s) (saved_messages s) (thread_read_states s) (outbound_deliveries s) (notification_routes s) (tasks s) (task_attempts s) (reminders s) v (decisions s) (decision_votes s) (agent_runs s) (agent_run_events s) (collaboration_events s) (idempotency_records s) (tunnels s) (open_txs s).
Definition set_decisions (v : tbl ChannelDecision) (s : Store) : Store := mkStore (users s) (sessions s) (endpoints s) (auth_requests s) (subscriptions s) (channels s) (channel_members s) (messages s) (saved_messages s) (thread_read_states s) (outbound_deliveries s) (notification_routes s) (tasks s) (task_attempts s) (reminders s) (reminder_events s) v (decision_votes s) (agent_runs s) (agent_run_events s) (collaboration_events s) (idempotency_records s) (tunnels s) (open_txs s).
Definition set_decision_votes (v : tbl ChannelDecisionVote) (s : Store) : Store := mkStore (users s) (sessions s) (endpoints s) (auth_requests s) (subscriptions s) (channels s) (channel_members s) (messages s) (saved_messages s) (thread_read_states s) (outbound_deliveries s) (notification_routes s) (tasks s) (task_attempts s) (reminders s) (reminder_events s) (decisions s) v (agent_runs s) (agent_run_events s) (collaboration_events s) (idempotency_records s) (tunnels s) (open_txs s).
Definition set_agent_runs (v : tbl AgentRun) (s : Store) : Store := mkStore (users s) (sessions s) (endpoints s) (auth_requests s) (subscriptions s) (channels s) (channel_members s) (messages s) (saved_messages s) (thread_read_states s) (outbound_deliveries s) (notification_routes s) (tasks s) (task_attempts s) (reminders s) (reminder_events s) (decisions s) (decision_votes s) v (agent_run_events s) (collaboration_events s) (idempotency_records s) (tunnels s) (open_txs s).
Definition set_agent_run_events (v : tbl AgentRunEvent) (s : Store) : Store := mkStore (users s) (sessions s) (endpoints s) (auth_requests s) (subscriptions s) (channels s) (channel_members s) (messages s) (saved_messages s) (thread_read_states s) (outbound_deliveries s) (notification_routes s) (tasks s) (task_attempts s) (reminders s) (reminder_events s) (decisions s) (decision_votes s) (agent_runs s) v (collaboration_events s) (idempotency_records s) (tunnels s) (open_txs s).
Definition set_collaboration_events (v : tbl CollaborationEvent) (s : Store) : Store := mkStore (users s) (sessions s) (endpoints s) (auth_requests s) (subscriptions s) (channels s) (channel_members s) (messages s) (saved_messages s) (thread_read_states s) (outbound_deliveries s) (notification_routes s) (tasks s) (task_attempts s) (reminders s) (reminder_events s) (decisions s) (decision_votes s) (agent_runs s) (agent_run_events s) v (idempotency_records s) (tunnels s) (open_txs s).
Definition set_idempotency_records (v : tbl IdempotencyRecord) (s : Store) : Store := mkStore (users s) (sessions s) (endpoints s) (auth_requests s) (subscriptions s) (channels s) (channel_members s) (messages s) (saved_messages s) (thread_read_states s) (outbound_deliveries s) (notification_routes s) (tasks s) (task_attempts s) (reminders s) (reminder_events s) (decisions s) (decision_votes s) (agent_runs s) (agent_run_events s) (collaboration_events s) v (tunnels s) (open_txs s).
Definition set_tunnels (v : tbl TunnelRecord) (s : Store) : Store := mkStore (users s) (sessions s) (endpoints s) (auth_requests s) (subscriptions s) (channels s) (channel_members s) (messages s) (saved_messages s) (thread_read_states s) (outbound_deliveries s) (notification_routes s) (tasks s) (task_attempts s) (reminders s) (reminder_events s) (decisions s) (decision_votes s) (agent_runs s) (agent_run_events s) (collaboration_events s) (idempotency_records s) v (open_txs s).
Definition set_open_txs (v : nat) (s : Store) : Store := mkStore (users s) (sessions s) (endpoints s) (auth_requests s) (subscriptions s) (channels s) (channel_members s) (messages s) (saved_messages s) (thread_read_states s) (outbound_deliveries s) (notification_routes s) (tasks s) (task_attempts s) (reminders s) (reminder_events s) (decisions s) (decision_votes s) (agent_runs s) (agent_run_events s) (collaboration_events s) (idempotency_records s) (tunnels s) v.


Class Table (R : Type) := {
  get_tbl : Store → tbl R;
  put_tbl : tbl R → Store → Store
}.

Class TableLaws (R : Type) `{!Table R} : Prop := {
  get_put : ∀ t s, get_tbl (put_tbl t s) = t;
  put_put : ∀ t t' s, put_tbl t' (put_tbl t s) = put_tbl t' s;
  open_put : ∀ t s, open_txs (put_tbl t s) = open_txs s
}.

#[export] Instance users_table : Table User := { get_tbl := users; put_tbl := set_users }.
#[export] Instance sessions_table : Table Session := { get_tbl := sessions; put_tbl := set_sessions }.
#[export] Instance endpoints_table : Table InteractionEndpoint := { get_tbl := endpoints; put_tbl := set_endpoints }.
#[export] Instance auth_requests_table : Table IMChatAuthRequest := { get_tbl := auth_requests; put_tbl := set_auth_requests }.
#[export] Instance subscriptions_table : Table IMChatSubscription := { get_tbl := subscriptions; put_tbl := set_subscriptions }.
#[export] Instance channels_table : Table ChannelRow := { get_tbl := channels; put_tbl := set_channels }.
#[export] Instance channel_members_table : Table ChannelMemberRow := { get_tbl := channel_members; put_tbl := set_channel_members }.
#[export] Instance messages_table : Table MessageRow := { get_tbl := messages; put_tbl := set_messages }.
#[export] Instance saved_messages_table : Table SavedMessageRow := { get_tbl := saved_messages; put_tbl := set_saved_messages }.
#[export] Instance thread_read_states_table : Table ThreadReadState := { get_tbl := thread_read_states; put_tbl := set_thread_read_states }.
#[export] Instance outbound_deliveries_table : Table OutboundDelivery := { get_tbl := outbound_deliveries; put_tbl := set_outbound_deliveries }.
#[export] Instance notification_routes_table : Table NotificationRoute := { get_tbl := notification_routes; put_tbl := set_notification_routes }.
#[export] Instance tasks_table : Table Task := { get_tbl := tasks; put_tbl := set_tasks }.
#[export] Instance task_attempts_table : Table TaskAttempt := { get_tbl := task_attempts; put_tbl := set_task_attempts }.
#[export] Instance reminders_table : Table Reminder := { get_tbl := reminders; put_tbl := set_reminders }.
#[export] Instance reminder_events_table : Table ReminderEvent := { get_tbl := reminder_events; put_tbl := set_reminder_events }.
#[export] Instance decisions_table : Table ChannelDecision := { get_tbl := decisions; put_tbl := set_decisions }.
#[export] Instance decision_votes_table : Table ChannelDecisionVote := { get_tbl := decision_votes; put_tbl := set_decision_votes }.
#[export] Instance agent_runs_table : Table AgentRun := { get_tbl := agent_runs; put_tbl := set_agent_runs }.
#[export] Instance agent_run_events_table : Table AgentRunEvent := { get_tbl := agent_run_events; put_tbl := set_agent_run_events }.
#[export] Instance collaboration_events_table : Table CollaborationEvent := { get_tbl := collaboration_events; put_tbl := set_collaboration_events }.
#[export] Instance idempotency_records_table : Table IdempotencyRecord := { get_tbl := idempotency_records; put_tbl := set_idempotency_records }.
#[export] Instance tunnels_table : Table TunnelRecord := { get_tbl := tunnels; put_tbl := set_tunnels }.

Ltac solve_table := split; intros; reflexivity.

#[export] Instance users_table_laws : TableLaws User.
Proof. solve_table. Qed.
#[export] Instance sessions_table_laws : TableLaws Session.
Proof. solve_table. Qed.
#[export] Instance endpoints_table_laws : TableLaws InteractionEndpoint.
Proof. solve_table. Qed.
#[export] Instance auth_requests_table_laws : TableLaws IMChatAuthRequest.
Proof. solve_table. Qed.
#[export] Instance subscriptions_table_laws : TableLaws IMChatSubscription.
Proof. solve_table. Qed.
#[export] Instance channels_table_laws : TableLaws ChannelRow.
Proof. solve_table. Qed.
#[export] Instance channel_members_table_laws : TableLaws ChannelMemberRow.
Proof. solve_table. Qed.
#[export] Instance messages_table_laws : TableLaws MessageRow.
Proof. solve_table. Qed.
#[export] Instance saved_messages_table_laws : TableLaws SavedMessageRow.
Proof. solve_table. Qed.
#[export] Instance thread_read_states_table_laws : TableLaws ThreadReadState.
Proof. solve_table. Qed.
#[export] Instance outbound_deliveries_table_laws : TableLaws OutboundDelivery.
Proof. solve_table. Qed.
#[export] Instance notification_routes_table_laws : TableLaws NotificationRoute.
Proof. solve_table. Qed.
#[export] Instance tasks_table_laws : TableLaws Task.
Proof. solve_table. Qed.
#[export] Instance task_attempts_table_laws : TableLaws TaskAttempt.
Proof. solve_table. Qed.
#[export] Instance reminders_table_laws : TableLaws Reminder.
Proof. solve_table. Qed.
#[export] Instance reminder_events_table_laws : TableLaws ReminderEvent.
Proof. solve_table. Qed.
#[export] Instance decisions_table_laws : TableLaws ChannelDecision.
Proof. solve_table. Qed.
#[export] Instance decision_votes_table_laws : TableLaws ChannelDecisionVote.
Proof. solve_table. Qed.
#[export] Instance agent_runs_table_laws : TableLaws AgentRun.
Proof. solve_table. Qed.
#[export] Instance agent_run_events_table_laws : TableLaws AgentRunEvent.
Proof. solve_table. Qed.
#[export] Instance collaboration_events_table_laws : TableLaws CollaborationEvent.
Proof. solve_table. Qed.
#[export] Instance idempotency_records_table_laws : TableLaws IdempotencyRecord.
Proof. solve_table. Qed.
#[export] Instance tunnels_table_laws : TableLaws TunnelRecord.
Proof. solve_table. Qed.

(** The rows of an entity's table. *)
Definition rows (R : Type) `{!Table R} (s : Store) : list R := tbl_rows (get_tbl s).

(** ** Operations *)

Definition M (A : Type) : Type := Store → (error + A) * Store.

#[export] Instance M_ret : MRet M := λ A a s, (inr a, s).
#[export] Instance M_bind : MBind M := λ A B k m s,
  match m s with
  | (inr a, s') => k a s'
  | (inl e, s') => (inl e, s')
  end.

Definition throw {A} (e : error) : M A := λ s, (inl e, s).

(** Runs [m] and hands its outcome, error or value, to [k]. *)
Definition try {A B} (m : M A) (k : error + A → M B) : M B := λ s,
  let '(r, s') := m s in k r s'.

(** [if ent.IsNotFound(err) { return ErrNotFound }] and its siblings. *)
Definition map_error {A} (f : error → error) (m : M A) : M A :=
  try m (λ r, match r with inl e => throw (f e) | inr a => mret a end).

Definition IsNotFound (e : error) : bool := bool_decide (e = EntNotFound).
Definition IsConstraintError (e : error) : bool := bool_decide (e = EntConstraint).

Definition or_not_found {A} : M A → M A :=
  map_error (λ e, if IsNotFound e then ErrNotFound else e).
Definition or_conflict {A} : M A → M A :=
  map_error (λ e, if IsConstraintError e then ErrConflict else e).

Definition guard (b : bool) (e : error) : M unit := if b then mret () else throw e.

(** *** Builders *)

Definition ent_insert {R} `{Entity R, !Table R} (r : R) : M R := λ s,
  match sql_insert r (get_tbl s) with
  | inl e => (inl e, s)
  | inr t => (inr r, put_tbl t s)
  end.

(** [Create().Set...().Save]: the validators run first. *)
Definition ent_create {R} `{Entity R, !Table R} (r : R) : M R :=
  if validators r then ent_insert r else throw EntValidation.

(** [Query().Where(p).Order(ts).Offset(off).Limit(lim).All]. *)
Definition ent_query {R} `{Entity R, !Table R} (p : R → bool) (ts : list (order_term R))
    (off : nat) (lim : option nat) : M (list R) := λ s,
  (sql_select p ts off lim (get_tbl s), s).

(** [Only]: at most two rows are read. *)
Definition ent_only {R} `{Entity R, !Table R} (p : R → bool) : M R :=
  nodes ← ent_query p [] 0 (Some 2);
  match nodes with
  | [node] => mret node
  | [] => throw EntNotFound
  | _ => throw EntNotSingular
  end.

(** [Get]: [Only] on the primary key. *)
Definition ent_get {R} `{Entity R, !Table R} (id : string) : M R :=
  ent_only (λ r, String.eqb (entID r) id).

(** [First]. *)
Definition ent_first {R} `{Entity R, !Table R} (p : R → bool) (ts : list (order_term R)) : M R :=
  nodes ← ent_query p ts 0 (Some 1);
  match nodes with
  | [] => throw EntNotFound
  | node :: _ => mret node
  end.

(** [Query().Where(p).Select(f).Unique(true).Order(f).Limit(lim).All]: the distinct
    values of a column, in order. *)
Fixpoint drop_repeats (l : list string) : list string :=
  match l with
  | x :: (y :: _) as l' => if String.eqb x y then drop_repeats l' else x :: drop_repeats l'
  | _ => l
  end.

Definition ent_distinct {R} `{Entity R, !Table R} (p : R → bool) (f : R → string) (lim : nat) :
    M (list string) :=
  nodes ← ent_query p [AscS f] 0 None;
  mret (take lim (drop_repeats (f <$> nodes))).

(** [Count]. *)
Definition ent_count {R} `{Entity R, !Table R} (p : R → bool) : M nat :=
  nodes ← ent_query p [] 0 None;
  mret (length nodes).

(** [Update().Where(p).Set...().Save]: the number of rows touched; [ok] is the
    verdict of the validators of the fields the update sets. *)
Definition ent_update {R} `{Entity R, !Table R} (p : R → bool) (ok : bool) (f : R → R) : M nat :=
  if ok then λ s,
    match sql_update p f (get_tbl s) with
    | inl e => (inl e, s)
    | inr (n, t) => (inr n, put_tbl t s)
    end
  else throw EntValidation.

(** [UpdateOneID(id).Set...().Save]: the updated row, or a not-found error. *)
Definition ent_update_one {R} `{Entity R, !Table R} (id : string) (ok : bool) (f : R → R) : M R :=
  if ok then
    nodes ← ent_query (λ r, String.eqb (entID r) id) [] 0 None;
    match nodes with
    | [] => throw EntNotFound
    | node :: _ =>
        _ ← ent_update (λ r, String.eqb (entID r) id) true f;
        mret (f node)
    end
  else throw EntValidation.

(** [Delete().Where(p).Exec]. *)
Definition ent_delete {R} `{Entity R, !Table R} (p : R → bool) : M nat := λ s,
  match sql_delete p (get_tbl s) with
  | inl e => (inl e, s)
  | inr (n, t) => (inr n, put_tbl t s)
  end.

(** [DeleteOneID(id).Exec]. *)
Definition ent_delete_one {R} `{Entity R, !Table R} (id : string) : M unit :=
  n ← ent_delete (R := R) (λ r, String.eqb (entID r) id);
  if n =? 0 then throw EntNotFound else mret ().

(** A transaction around [body]: committed when it succeeds; when it fails, rolled
    back where [rolls_back] says the failing path calls [Rollback], and otherwise
    left open with its work invisible to everyone else. *)
Definition in_tx {A} (rolls_back : error → bool) (body : M A) : M A := λ s,
  match body (set_open_txs (S (open_txs s)) s) with
  | (inr a, s') => (inr a, set_open_txs (pred (open_txs s')) s')
  | (inl e, _) => (inl e, if rolls_back e then s else set_open_txs (S (open_txs s)) s)
  end.

(** Runs an operation for each element in turn. *)
Fixpoint for_each {A} (l : list A) (f : A → M unit) : M unit :=
  match l with
  | [] => mret ()
  | x :: l => _ ← f x; for_each l f
  end.

Fixpoint map_m {A B} (f : A → M B) (l : list A) : M (list B) :=
  match l with
  | [] => mret []
  | x :: l => y ← f x; ys ← map_m f l; mret (y :: ys)
  end.

#[global] Arguments ent_insert : simpl never.
#[global] Arguments ent_create : simpl never.
#[global] Arguments ent_query : simpl never.
#[global] Arguments ent_only : simpl never.
#[global] Arguments ent_get : simpl never.
#[global] Arguments ent_first : simpl never.
#[global] Arguments ent_count : simpl never.
#[global] Arguments ent_update : simpl never.
#[global] Arguments ent_update_one : simpl never.
#[global] Arguments ent_delete : simpl never.
#[global] Arguments ent_delete_one : simpl never.
#[global] Arguments in_tx : simpl never.
#[global] Arguments try : simpl never.
#[global] Arguments map_error : simpl never.

(** ** Weakest preconditions *)

Definition wp {A} (m : M A) (Q : error + A → Store → Prop) (s : Store) : Prop :=
  Q (m s).1 (m s).2.

Lemma wp_ret {A} (a : A) Q s : Q (inr a) s → wp (mret a) Q s.
Proof. done. Qed.

Lemma wp_throw {A} e (Q : error + A → Store → Prop) s : Q (inl e) s → wp (throw e) Q s.
Proof. done. Qed.

Lemma wp_bind {A B} (m : M A) (k : A → M B) Q s :
  wp m (λ r s', match r with inl e => Q (inl e) s' | inr a => wp (k a) Q s' end) s →
  wp (m ≫= k) Q s.
Proof. unfold wp, mbind, M_bind. by destruct (m s) as [[e|a] s']. Qed.

Lemma wp_try {A B} (m : M A) (k : error + A → M B) Q s :
  wp m (λ r s', wp (k r) Q s') s → wp (try m k) Q s.
Proof. unfold wp, try. by destruct (m s) as [r s']. Qed.

Lemma wp_map_error {A} f (m : M A) Q s :
  wp m (λ r s', Q (match r with inl e => inl (f e) | inr a => inr a end) s') s →
  wp (map_error f m) Q s.
Proof. intros H. apply wp_try. revert H. unfold wp. by destruct (m s) as [[e|a] s']. Qed.

Lemma wp_mono {A} (m : M A) (P Q : error + A → Store → Prop) s :
  wp m P s → (∀ r s', P r s' → Q r s') → wp m Q s.
Proof. unfold wp. eauto. Qed.

Lemma wp_guard b e Q s :
  (b = true → Q (inr ()) s) → (b = false → Q (inl e) s) → wp (guard b e) Q s.
Proof. destruct b; intros H1 H2; [by apply H1|by apply H2]. Qed.

Lemma wp_tx {A} (rb : error → bool) (body : M A) Q s :
  wp body (λ (r : error + A) s', match r with
    | inr a => Q (inr a) (set_open_txs (pred (open_txs s')) s')
    | inl e => Q (inl e) (if rb e then s else set_open_txs (S (open_txs s)) s)
    end) (set_open_txs (S (open_txs s)) s) →
  wp (in_tx rb body) Q s.
Proof. unfold wp, in_tx. by destruct (body _) as [[e|a] s']. Qed.

(** A transaction that fails on a path that rolls back changes nothing, whatever
    the engine did. *)
Lemma in_tx_atomic {A} (rb : error → bool) (body : M A) s e s' :
  in_tx rb body s = (inl e, s') → rb e = true → s' = s.
Proof.
  unfold in_tx. destruct (body _) as [[e'|a] s1]; [|done].
  intros [= -> <-] ->. done.
Qed.

(** The loop rule: [Inv] relates the elements already visited to the store. *)
Lemma wp_for_each {A} (Inv : list A → Store → Prop) (f : A → M unit) l
    (Q : error + unit → Store → Prop) s :
  Inv [] s →
  (∀ done x todo s, l = done ++ x :: todo → Inv done s →
     wp (f x) (λ r s', match r with inl e => Q (inl e) s' | inr _ => Inv (done ++ [x]) s' end) s) →
  (∀ s', Inv l s' → Q (inr ()) s') →
  wp (for_each l f) Q s.
Proof.
  intros H0 Hs HQ.
  enough (∀ todo done s, l = done ++ todo → Inv done s → wp (for_each todo f) Q s) as H by
    by eapply (H l []).
  clear s H0. induction todo as [|x todo IH]; intros d s -> Hi; simpl.
  - apply wp_ret, HQ. by rewrite app_nil_r.
  - apply wp_bind. eapply wp_mono; [by eapply Hs|].
    intros [e|[]] s' Hr; [done|]. apply (IH (d ++ [x])); [|done]. by rewrite <-app_assoc.
Qed.

Section rules.
Context {Laws : SqlLaws}.
Context {R : Type} {ER : Entity R} {TR : Table R} {TLR : TableLaws R}.

Lemma rows_put t s : rows R (put_tbl t s) = tbl_rows t.
Proof. unfold rows. by rewrite get_put. Qed.

Lemma wp_create (r : R) Q s :
  (validators r = false → Q (inl EntValidation) s) →
  (validators r = true → has_clash r (rows R s) = true → Q (inl EntConstraint) s) →
  (validators r = true → has_clash r (rows R s) = false → ∀ t, 
     tbl_rows t = rows R s ++ [r] → Q (inr r) (put_tbl t s)) →
  wp (ent_create r) Q s.
Proof.
  unfold ent_create, ent_insert, wp. intros H1 H2 H3.
  destruct (validators r); [|by apply H1]. pose proof (insert_law R r (get_tbl s)) as Hl.
  destruct (sql_insert r (get_tbl s)) as [e|t]; simpl.
  - destruct Hl as [-> Hl]. auto.
  - destruct Hl as [Hc Hl]. auto.
Qed.

Lemma wp_query (p : R → bool) ts off lim Q s :
  (∀ l, l ≡ₚ bfilter p (rows R s) → sorted_by collate ts l → Q (inr (window off lim l)) s) →
  wp (ent_query p ts off lim) Q s.
Proof.
  unfold wp, ent_query. intros HQ.
  destruct (select_law R p ts off lim (get_tbl s)) as (l & Hp & Hs & ->). simpl. auto.
Qed.

Lemma wp_query_all (p : R → bool) ts Q s :
  (∀ l, l ≡ₚ bfilter p (rows R s) → sorted_by collate ts l → Q (inr l) s) →
  wp (ent_query p ts 0 None) Q s.
Proof. intros H. apply (wp_query p ts 0 None). exact H. Qed.

Lemma wp_only (p : R → bool) Q s :
  (bfilter p (rows R s) = [] → Q (inl EntNotFound) s) →
  (∀ r, bfilter p (rows R s) = [r] → Q (inr r) s) →
  (∀ r r' l, bfilter p (rows R s) ≡ₚ r :: r' :: l → Q (inl EntNotSingular) s) →
  wp (ent_only p) Q s.
Proof.
  intros H1 H2 H3. unfold ent_only. apply wp_bind, wp_query.
  intros [|r [|r' l]] Hl _; simpl.
  - apply H1. symmetry in Hl. by apply Permutation_nil_r in Hl.
  - apply H2. apply Permutation_length_1_inv. done.
  - eapply H3. by symmetry.
Qed.

Lemma wp_only_one (p : R → bool) r Q s :
  bfilter p (rows R s) = [r] → Q (inr r) s → wp (ent_only p) Q s.
Proof.
  intros E HQ. apply wp_only; rewrite E; [done|by intros ? [= <-]|].
  intros r1 r2 l Hl%Permutation_length. done.
Qed.

Lemma wp_only_none (p : R → bool) Q s :
  bfilter p (rows R s) = [] → Q (inl EntNotFound) s → wp (ent_only p) Q s.
Proof.
  intros E HQ. apply wp_only; rewrite E; [done..|].
  intros r1 r2 l Hl%Permutation_length. done.
Qed.

Lemma wp_first (p : R → bool) ts Q s :
  (bfilter p (rows R s) = [] → Q (inl EntNotFound) s) →
  (∀ r l, r :: l ≡ₚ bfilter p (rows R s) → sorted_by collate ts (r :: l) → Q (inr r) s) →
  wp (ent_first p ts) Q s.
Proof.
  intros H1 H2. unfold ent_first. apply wp_bind, wp_query.
  intros [|r l] Hl Hs; simpl.
  - apply H1. symmetry in Hl. by apply Permutation_nil_r in Hl.
  - eapply H2; eauto.
Qed.

Lemma wp_count (p : R → bool) Q s :
  Q (inr (length (bfilter p (rows R s)))) s → wp (ent_count p) Q s.
Proof.
  intros HQ. unfold ent_count. apply wp_bind, wp_query.
  intros l Hl _. simpl. by rewrite Hl.
Qed.

Lemma wp_update (p : R → bool) ok f Q s :
  (ok = false → Q (inl EntValidation) s) →
  (ok = true → unique_rows (update_rows p f (rows R s)) = false → Q (inl EntConstraint) s) →
  (ok = true → ∀ t, tbl_rows t = update_rows p f (rows R s) →
     (unique_rows (rows R s) = true → unique_rows (tbl_rows t) = true) →
     Q (inr (length (bfilter p (rows R s)))) (put_tbl t s)) →
  wp (ent_update p ok f) Q s.
Proof.
  unfold ent_update, wp. intros H1 H2 H3. destruct ok; [|by apply H1].
  pose proof (update_law R p f (get_tbl s)) as Hl. simpl in Hl.
  destruct (sql_update p f (get_tbl s)) as [e|[n t]]; simpl.
  - destruct Hl as [-> Hl]. auto.
  - destruct Hl as (-> & Hl & Hu). apply H3; [done..|]. by rewrite Hl.
Qed.

Lemma wp_delete (p : R → bool) Q s :
  (∀ t, tbl_rows t = bfilter (λ r, negb (p r)) (rows R s) →
     Q (inr (length (bfilter p (rows R s)))) (put_tbl t s)) →
  wp (ent_delete p) Q s.
Proof.
  unfold ent_delete, wp. intros HQ.
  destruct (delete_law R p (get_tbl s)) as (t & -> & Ht). simpl. auto.
Qed.

Lemma wp_delete_one id Q s :
  (bfilter (λ r, String.eqb (entID r) id) (rows R s) = [] → ∀ t, 
     tbl_rows t = bfilter (λ r, negb (String.eqb (entID r) id)) (rows R s) →
     Q (inl EntNotFound) (put_tbl t s)) →
  (bfilter (λ r, String.eqb (entID r) id) (rows R s) ≠ [] → ∀ t,
     tbl_rows t = bfilter (λ r, negb (String.eqb (entID r) id)) (rows R s) →
     Q (inr ()) (put_tbl t s)) →
  wp (ent_delete_one (R := R) id) Q s.
Proof.
  intros H1 H2. unfold ent_delete_one. apply wp_bind, wp_delete. intros t Ht.
  destruct (bfilter (λ r : R, String.eqb (entID r) id) (rows R s)) as [|r l] eqn:E; simpl.
  - by apply H1.
  - by apply H2.
Qed.

(** *** Unique rows *)

Lemma has_clash_false (r : R) l :
  has_clash r l = false ↔ ∀ r', r' ∈ l → clash r r' = false.
Proof.
  unfold has_clash. induction l as [|x l IH]; simpl.
  - split; [|done]. intros _ r' H'. by apply elem_of_nil in H'.
  - rewrite orb_false_iff, IH. split.
    + intros [? ?] r' [->|?]%elem_of_cons; auto.
    + intros Hx. split; [apply Hx; by left|]. intros; apply Hx; by right.
Qed.

(** A test two different rows of a table cannot both pass. *)
Definition key_test (p : R → bool) : Prop :=
  ∀ a b, p a = true → p b = true → clash a b = true.

Lemma id_key_test id : key_test (λ r, String.eqb (entID r) id).
Proof.
  intros a b Ha Hb. reflect_bools. unfold clash. rewrite Ha, Hb.
  by rewrite eqb_refl_str.
Qed.

Lemma unique_filter (p : R → bool) l :
  unique_rows l = true → key_test p → bfilter p l = [] ∨ ∃ r, bfilter p l = [r].
Proof.
  intros Hu Hk. induction l as [|x l IH]; simpl in *; [by left|].
  apply andb_true_iff in Hu as [Hx Hu]. destruct (p x) eqn:E; [|auto].
  right. exists x. f_equal. apply bfilter_none. intros y Hy.
  apply negb_true_iff in Hx. rewrite has_clash_false in Hx.
  destruct (p y) eqn:Ey; [|done]. by rewrite <-(Hx y Hy), (Hk x y).
Qed.

Lemma wp_only_key (p : R → bool) Q s :
  unique_rows (rows R s) = true → key_test p →
  (bfilter p (rows R s) = [] → Q (inl EntNotFound) s) →
  (∀ r, bfilter p (rows R s) = [r] → Q (inr r) s) →
  wp (ent_only p) Q s.
Proof.
  intros Hu Hk H1 H2. apply wp_only; [done..|]. intros r r' l Hl.
  apply Permutation_length in Hl.
  destruct (unique_filter p _ Hu Hk) as [E|[x E]]; rewrite E in Hl; simpl in Hl; lia.
Qed.

(** An update that touches neither the primary key nor a unique index. *)
Definition keeps_keys (f : R → R) : Prop :=
  (∀ a, entID (f a) = entID a) ∧
  (∀ a b, clash (f a) b = clash a b) ∧ (∀ a b, clash a (f b) = clash a b).

Lemma keeps_when b (F h : R → R) :
  keeps_keys F → keeps_keys h → keeps_keys (λ r, when b F (h r)).
Proof.
  intros (F1 & F2 & F3) (h1 & h2 & h3). destruct b; simpl; [|by repeat split].
  repeat split; intros; by rewrite ?F1, ?F2, ?F3.
Qed.

Lemma keeps_when_some {A} (o : option A) (F : A → R → R) (h : R → R) :
  (∀ v, keeps_keys (F v)) → keeps_keys h → keeps_keys (λ r, when_some o F (h r)).
Proof.
  intros HF (h1 & h2 & h3). destruct o as [v|]; simpl; [|by repeat split].
  destruct (HF v) as (F1 & F2 & F3). repeat split; intros; by rewrite ?F1, ?F2, ?F3.
Qed.

Lemma has_clash_update (p : R → bool) f r l :
  keeps_keys f → has_clash r (update_rows p f l) = has_clash r l.
Proof.
  intros (_ & _ & Hk). unfold has_clash, update_rows. induction l as [|x l IH]; simpl; [done|].
  rewrite IH. destruct (p x); [by rewrite Hk|done].
Qed.

Lemma unique_update (p : R → bool) f l :
  keeps_keys f → unique_rows (update_rows p f l) = unique_rows l.
Proof.
  intros Hk. induction l as [|x l IH]; simpl; [done|].
  rewrite IH. fold (update_rows p f l). rewrite (has_clash_update p f _ l Hk). do 2 f_equal.
  destruct (p x); [|done]. unfold has_clash. destruct Hk as (_ & Hk & _).
  clear IH. induction l as [|y l IHl]; simpl; [done|]. by rewrite Hk, IHl.
Qed.

Lemma unique_app_one `{!SymEntity R} r l :
  unique_rows l = true → has_clash r l = false → unique_rows (l ++ [r]) = true.
Proof.
  intros Hu Hc. induction l as [|x l IH]; simpl; [done|].
  simpl in Hu. apply andb_true_iff in Hu as [Hx Hu].
  unfold has_clash in Hc. simpl in Hc. apply orb_false_iff in Hc as [Hrx Hc].
  rewrite IH by done. rewrite andb_true_r, negb_true_iff. apply negb_true_iff in Hx.
  rewrite has_clash_false in Hx |- *. intros y [?|?]%elem_of_app; [auto|].
  assert (y = r) as -> by (by apply list_elem_of_singleton). by rewrite clash_sym.
Qed.

Lemma unique_bfilter (p : R → bool) l : unique_rows l = true → unique_rows (bfilter p l) = true.
Proof.
  induction l as [|x l IH]; simpl; [done|]. intros [Hx Hu]%andb_true_iff.
  destruct (p x); [|auto]. simpl. rewrite IH by done. rewrite andb_true_r, negb_true_iff.
  apply negb_true_iff in Hx. rewrite has_clash_false in Hx |- *.
  intros y [Hy _]%elem_of_bfilter. auto.
Qed.

Lemma wp_update_keys (p : R → bool) ok f Q s :
  unique_rows (rows R s) = true → keeps_keys f →
  (ok = false → Q (inl EntValidation) s) →
  (ok = true → ∀ t, tbl_rows t = update_rows p f (rows R s) → unique_rows (tbl_rows t) = true →
     Q (inr (length (bfilter p (rows R s)))) (put_tbl t s)) →
  wp (ent_update p ok f) Q s.
Proof.
  intros Hu Hk H1 H2. apply wp_update; [done|by rewrite unique_update, Hu|]. auto.
Qed.

Lemma wp_update_one id ok f Q s :
  unique_rows (rows R s) = true → keeps_keys f →
  (ok = false → Q (inl EntValidation) s) →
  (ok = true → bfilter (λ r, String.eqb (entID r) id) (rows R s) = [] → Q (inl EntNotFound) s) →
  (ok = true → ∀ r, bfilter (λ r, String.eqb (entID r) id) (rows R s) = [r] → ∀ t,
     tbl_rows t = update_rows (λ r, String.eqb (entID r) id) f (rows R s) →
     unique_rows (tbl_rows t) = true → Q (inr (f r)) (put_tbl t s)) →
  wp (ent_update_one id ok f) Q s.
Proof.
  intros Hu Hk H1 H2 H3. unfold ent_update_one. destruct ok; [|by apply H1].
  apply wp_bind, wp_query. intros l Hl _. simpl.
  destruct (unique_filter _ _ Hu (id_key_test id)) as [E|[r E]]; rewrite E in Hl.
  - apply Permutation_nil_r in Hl as ->. by apply wp_throw, H2.
  - apply Permutation_singleton_r in Hl as ->. simpl.
    apply wp_bind, wp_update_keys; [done..|]. intros _ t Ht Hut. apply wp_ret. eauto.
Qed.

(** *** Reading an updated table *)

Lemma elem_of_update_rows (p : R → bool) f l x :
  x ∈ update_rows p f l ↔ ∃ y, y ∈ l ∧ x = if p y then f y else y.
Proof. unfold update_rows. rewrite list_elem_of_fmap. naive_solver. Qed.

Lemma bfilter_update (p q : R → bool) f l :
  (∀ a, p (f a) = p a) →
  bfilter p (update_rows q f l) = update_rows q f (bfilter p l).
Proof.
  intros Hp. unfold update_rows. induction l as [|x l IH]; simpl; [done|]. destruct (q x) eqn:E.
  - rewrite Hp. destruct (p x); simpl; [rewrite E|]; by rewrite IH.
  - destruct (p x); simpl; [rewrite E|]; by rewrite IH.
Qed.

Lemma update_rows_none (p : R → bool) f l :
  (∀ x, x ∈ l → p x = false) → update_rows p f l = l.
Proof.
  unfold update_rows. induction l as [|x l IH]; simpl; [done|]. intros H.
  rewrite (H x) by (by left). f_equal. apply IH. intros y Hy. apply H. by right.
Qed.

Lemma update_rows_ext (p q : R → bool) f l :
  (∀ x, x ∈ l → p x = q x) → update_rows p f l = update_rows q f l.
Proof.
  unfold update_rows. induction l as [|x l IH]; simpl; [done|]. intros H.
  rewrite (H x) by (by left). f_equal. apply IH. intros y Hy. apply H. by right.
Qed.

(** Updating one more row by its key. *)
Lemma update_rows_snoc_id ids id f l :
  (∀ a : R, entID (f a) = entID a) → id ∉ ids →
  update_rows (λ r, bool_decide (entID r ∈ ids ++ [id])) f l =
  update_rows (λ r, String.eqb (entID r) id) f
    (update_rows (λ r, bool_decide (entID r ∈ ids)) f l).
Proof.
  intros Hf Hid. unfold update_rows. rewrite map_map. apply map_ext. intros a.
  destruct (String.eqb (entID a) id) eqn:E; reflect_bools.
  - rewrite bool_decide_true by (rewrite E; apply elem_of_app; right; by left).
    rewrite bool_decide_false by (by rewrite E). by rewrite E, eqb_refl_str.
  - rewrite (bool_decide_ext (entID a ∈ ids ++ [id]) (entID a ∈ ids)).
    2:{ rewrite elem_of_app, list_elem_of_singleton. tauto. }
    case_bool_decide; [rewrite Hf|]; by rewrite (proj2 (eqb_neq_str _ _) E).
Qed.

(** One more step of a loop that updates the selected rows one at a time. *)
Lemma update_rows_visit (visited todo : list R) x f l :
  (∀ a : R, entID (f a) = entID a) → NoDup (entID <$> visited ++ x :: todo) →
  update_rows (λ r, bool_decide (entID r ∈ entID <$> visited ++ [x])) f l =
  update_rows (λ r, String.eqb (entID r) (entID x)) f
    (update_rows (λ r, bool_decide (entID r ∈ entID <$> visited)) f l).
Proof.
  intros Hf Hnd. rewrite fmap_app in Hnd. apply NoDup_app in Hnd as (_ & Hnd & _).
  rewrite <-update_rows_snoc_id; [by rewrite fmap_app|done|].
  intros Hx. apply (Hnd _ Hx). by left.
Qed.

Lemma unique_NoDup_ids (l : list R) : unique_rows l = true → NoDup (entID <$> l).
Proof.
  induction l as [|x l IH]; csimpl; [constructor|]. intros [Hx Hu]%andb_true_iff.
  constructor; [|auto]. intros [y [He Hy]]%list_elem_of_fmap.
  apply negb_true_iff in Hx. rewrite has_clash_false in Hx. specialize (Hx y Hy).
  unfold clash in Hx. rewrite He, eqb_refl_str in Hx. done.
Qed.

Lemma unique_id_eq (l : list R) x y :
  unique_rows l = true → x ∈ l → y ∈ l → entID x = entID y → x = y.
Proof.
  intros Hu Hx Hy He. apply unique_NoDup_ids in Hu.
  apply list_elem_of_lookup in Hx as [i Hi], Hy as [j Hj].
  assert (i = j) as ->; [|congruence].
  eapply NoDup_lookup; [exact Hu|..]; rewrite list_lookup_fmap.
  - by rewrite Hi.
  - rewrite Hj. simpl. by rewrite He.
Qed.

(** The rows a query selected, told apart by their keys. *)
Lemma selected_ids (p : R → bool) l nodes x :
  unique_rows l = true → nodes ≡ₚ bfilter p l → x ∈ l →
  bool_decide (entID x ∈ entID <$> nodes) = p x.
Proof.
  intros Hu Hn Hx. destruct (p x) eqn:E.
  - apply bool_decide_true. rewrite Hn. apply list_elem_of_fmap_2.
    by apply elem_of_bfilter.
  - apply bool_decide_false. rewrite Hn. intros [y [He Hy]]%list_elem_of_fmap.
    apply elem_of_bfilter in Hy as [Hy Hp].
    assert (x = y) as ->; [by eapply unique_id_eq|congruence].
Qed.

Lemma unique_selected_ids (p : R → bool) l nodes :
  unique_rows l = true → nodes ≡ₚ bfilter p l → NoDup (entID <$> nodes).
Proof. intros Hu Hn. rewrite Hn. by apply unique_NoDup_ids, unique_bfilter. Qed.

Lemma bfilter_singleton_inv (p : R → bool) l r :
  bfilter p l = [r] → r ∈ l ∧ p r = true ∧ ∀ x, x ∈ l → p x = true → x = r.
Proof.
  intros E. split; [|split].
  - apply (elem_of_bfilter p l r). rewrite E. by left.
  - apply (elem_of_bfilter p l r). rewrite E. by left.
  - intros x Hx Hp. assert (x ∈ [r]) as Hin; [rewrite <-E; by apply elem_of_bfilter|].
    by apply list_elem_of_singleton in Hin.
Qed.

(** One update by primary key of a row that was read before. *)
Lemma wp_update_read (f : R → R) existing s
    (Q : error + R → Store → Prop) :
  unique_rows (rows R s) = true → existing ∈ rows R s → keeps_keys f →
  (∀ t, tbl_rows t = update_rows (λ r, String.eqb (entID r) (entID existing)) f (rows R s) →
        unique_rows (tbl_rows t) = true → Q (inr (f existing)) (put_tbl t s)) →
  wp (ent_update_one (entID existing) true f) Q s.
Proof.
  intros Hu Hin Hk HQ. apply wp_update_one; [done..| |].
  - intros _ Hn. pose proof (bfilter_nil_inv _ _ _ Hn Hin) as Hx. cbn in Hx.
    by rewrite eqb_refl_str in Hx.
  - intros _ r Hr t Ht Hut. apply bfilter_singleton_inv in Hr as (_ & _ & Hr).
    rewrite <-(Hr existing); [|done|apply eqb_refl_str]. auto.
Qed.

(** *** Histories of a table *)

(** [l'] is [l] some operations later: every row of [l] is still there, at its
    place, related by [step] to what it was; the rows after them are [fresh]. *)
Definition history (step : R → R → Prop) (fresh : R → Prop) (l l' : list R) : Prop :=
  ∃ old new, l' = old ++ new ∧ Forall2 step l old ∧ Forall fresh new.

Section history.
Context (step : R → R → Prop) (fresh : R → Prop).

Lemma history_refl `{!Reflexive step} l : history step fresh l l.
Proof. exists l, []. rewrite app_nil_r. split; [done|]. split; [by reflexivity|constructor]. Qed.

Lemma history_snoc `{!Reflexive step} l r : fresh r → history step fresh l (l ++ [r]).
Proof. exists l, [r]. split; [done|]. split; [by reflexivity|by repeat constructor]. Qed.

Lemma history_update `{!Reflexive step} (p : R → bool) f l :
  (∀ x, x ∈ l → p x = true → step x (f x)) → history step fresh l (update_rows p f l).
Proof.
  intros H. exists (update_rows p f l), []. rewrite app_nil_r. split; [done|]. split; [|constructor].
  unfold update_rows. induction l as [|x l IH]; simpl; constructor.
  - destruct (p x) eqn:E; [|done]. apply H; [by left|done].
  - apply IH. intros y Hy. apply H. by right.
Qed.

Lemma history_trans `{!Transitive step} l1 l2 l3 :
  (∀ x y, fresh x → step x y → fresh y) →
  history step fresh l1 l2 → history step fresh l2 l3 → history step fresh l1 l3.
Proof.
  intros Hf (o1 & n1 & -> & H1 & Hn1) (o2 & n2 & -> & H2 & Hn2).
  apply Forall2_app_inv_l in H2 as (o3 & n3 & H3 & H4 & ->).
  exists o3, (n3 ++ n2). rewrite (assoc_L (++)). split; [done|]. split.
  - by etrans.
  - apply Forall_app. split; [|done]. clear -Hf Hn1 H4. induction H4; [done|].
    inversion Hn1; subst. constructor; eauto.
Qed.

Lemma history_elem l l' x :
  history step fresh l l' → x ∈ l → ∃ y, y ∈ l' ∧ step x y.
Proof.
  intros (o & n & -> & H & _) Hx. apply list_elem_of_lookup in Hx as [i Hi].
  destruct (Forall2_lookup_l _ _ _ _ _ H Hi) as (y & Hy & ?).
  exists y. split; [|done]. apply elem_of_app. left. by eapply list_elem_of_lookup_2.
Qed.

Lemma history_elem_inv l l' y :
  history step fresh l l' → y ∈ l' → (∃ x, x ∈ l ∧ step x y) ∨ fresh y.
Proof.
  intros (o & n & -> & H & Hn) [Hy|Hy]%elem_of_app.
  - left. apply list_elem_of_lookup in Hy as [i Hi].
    destruct (Forall2_lookup_r _ _ _ _ _ H Hi) as (x & Hx & ?).
    exists x. split; [|done]. by eapply list_elem_of_lookup_2.
  - right. rewrite Forall_forall in Hn. by apply Hn.
Qed.

End history.

(** *** The obligation of an operation on a table *)

(** The table evolved along [step], every row is still [ok], the unique indexes
    hold and no transaction was left open. *)
Definition progress (step : R → R → Prop) (ok : R → Prop) (s s' : Store) : Prop :=
  history step ok (rows R s) (rows R s') ∧ Forall ok (rows R s') ∧
  unique_rows (rows R s') = true ∧ open_txs s' = open_txs s.

Section progress.
Context (step : R → R → Prop) (ok : R → Prop) `{!Reflexive step}.
Context (step_ok : ∀ x y, ok x → step x y → ok y).

Lemma progress_same s s' :
  rows R s' = rows R s → open_txs s' = open_txs s →
  unique_rows (rows R s) = true → Forall ok (rows R s) → progress step ok s s'.
Proof.
  intros Hr Ho Hu Hok. unfold progress. rewrite Hr. split; [by apply history_refl|done].
Qed.

Lemma progress_update p f s s' :
  rows R s' = update_rows p f (rows R s) → open_txs s' = open_txs s →
  unique_rows (rows R s') = true → Forall ok (rows R s) →
  (∀ x, x ∈ rows R s → ok x → p x = true → step x (f x)) →
  progress step ok s s'.
Proof.
  intros Hr Ho Hu Hok Hf. unfold progress. rewrite Hr in Hu |- *. rewrite Forall_forall in Hok.
  assert (history step ok (rows R s) (update_rows p f (rows R s))) as Hh
    by (apply history_update; eauto).
  split; [done|]. split; [|done]. apply Forall_forall. intros y Hy.
  apply (history_elem_inv _ _ _ _ _ Hh) in Hy as [(x & Hx & Hs)|]; eauto.
Qed.

Lemma progress_insert `{!SymEntity R} row l s s' :
  rows R s' = l → open_txs s' = open_txs s →
  l = rows R s ++ [row] → has_clash row (rows R s) = false →
  unique_rows (rows R s) = true → Forall ok (rows R s) → ok row → progress step ok s s'.
Proof.
  intros Hr Ho Ht Hc Hu Hok Hrow. unfold progress. rewrite Hr, Ht.
  split; [by apply history_snoc|]. split; [|split; [|done]].
  - apply Forall_app. split; [done|by apply Forall_singleton].
  - by apply unique_app_one.
Qed.

End progress.

End rules.

End store.

Arguments rows {_} R {_} s.
Arguments key_test {R _} p.
Arguments keeps_keys {R _} f.

(** The store a fresh database holds, on the list engine. *)
Definition empty_store : @Store list_engine :=
  @mkStore list_engine [] [] [] [] [] [] [] [] [] [] [] [] [] [] [] [] [] [] [] [] [] [] [] 0.

(** Reads through the table lenses. *)
Ltac simpl_store :=
  unfold rows in *;
  cbn [get_tbl put_tbl open_txs set_open_txs users set_users users_table sessions set_sessions sessions_table endpoints set_endpoints endpoints_table auth_requests set_auth_requests auth_requests_table subscriptions set_subscriptions subscriptions_table channels set_channels channels_table channel_members set_channel_members channel_members_table messages set_messages messages_table saved_messages set_saved_messages saved_messages_table thread_read_states set_thread_read_states thread_read_states_table outbound_deliveries set_outbound_deliveries outbound_deliveries_table notification_routes set_notification_routes notification_routes_table tasks set_tasks tasks_table task_attempts set_task_attempts task_attempts_table reminders set_reminders reminders_table reminder_events set_reminder_events reminder_events_table decisions set_decisions decisions_table decision_votes set_decision_votes decision_votes_table agent_runs set_agent_runs agent_runs_table agent_run_events set_agent_run_events agent_run_events_table collaboration_events set_collaboration_events collaboration_events_table idempotency_records set_idempotency_records idempotency_records_table tunnels set_tunnels tunnels_table] in *.

(** Closes [keeps_keys] goals: the update leaves every key field alone. *)
Ltac unfold_head f :=
  lazymatch f with
  | ?g _ => unfold_head g
  | _ => unfold f
  end.

Ltac solve_keeps :=
  try match goal with |- keeps_keys ?f => unfold_head f end;
  repeat first [apply keeps_when | apply keeps_when_some; [intros|]];
  repeat split; intros; first [reflexivity|unfold when, when_some; repeat case_match; reflexivity].

(** One step of symbolic execution: applies the rule of the computation's head. *)
Ltac wp_step :=
  lazymatch goal with
  | |- wp (mbind _ _) _ _ => apply wp_bind
  | |- wp (mret _) _ _ => apply wp_ret
  | |- wp (throw _) _ _ => apply wp_throw
  | |- wp (try _ _) _ _ => apply wp_try
  | |- wp (or_not_found _) _ _ => unfold or_not_found; apply wp_map_error
  | |- wp (or_conflict _) _ _ => unfold or_conflict; apply wp_map_error
  | |- wp (map_error _ _) _ _ => apply wp_map_error
  | |- wp (guard _ _) _ _ => apply wp_guard; intros
  | |- wp (in_tx _ _) _ _ => apply wp_tx
  | |- wp (ent_create ?r) _ _ => let row := fresh "row" in set (row := r); apply wp_create; intros
  | |- wp (ent_query _ _ 0 None) _ _ => apply wp_query_all; intros
  | |- wp (ent_query _ _ _ _) _ _ => apply wp_query; intros
  | |- wp (ent_get _) _ _ => unfold ent_get
  | |- wp (ent_only _) _ _ => apply wp_only; intros
  | |- wp (ent_first _ _) _ _ => apply wp_first; intros
  | |- wp (ent_count _) _ _ => apply wp_count
  | |- wp (ent_delete _) _ _ => apply wp_delete; intros
  | |- wp (ent_delete_one _) _ _ => apply wp_delete_one; intros
  | |- wp (ent_update_one _ _ _) _ _ =>
      apply wp_update_one; [try done; try solve_keeps..|intros|intros|intros]
  | |- wp (ent_update _ _ _) _ _ =>
      apply wp_update_keys; [try done; try solve_keeps..|intros|intros]
  | |- wp (if ?b then _ else _) _ _ => let E := fresh "E" in destruct b eqn:E
  | |- wp (match ?o with _ => _ end) _ _ => let E := fresh "E" in destruct o eqn:E
  end.

(** A row that a unique key finds. *)
Lemma only_key_found {Eng : SqlEngine} {Laws : SqlLaws} {T} `{Entity T, !Table T} (p : T → bool) r s
    (Q : error + T → Store → Prop) :
  unique_rows (rows T s) = true → key_test p → r ∈ rows T s → p r = true →
  Q (inr r) s → wp (ent_only p) Q s.
Proof.
  intros Hu Hk Hr Hp HQ. apply wp_only_key; [done..| |].
  - intros Hn. pose proof (bfilter_nil_inv _ _ _ Hn Hr). congruence.
  - intros r' Hr'. apply bfilter_singleton_inv in Hr' as (_ & _ & Hall). by rewrite <-(Hall r Hr Hp).
Qed.

(** Closes the goals an unchanged table leaves. *)
Ltac unchanged := solve [apply progress_same; [apply _|done..]].

(** The table got one row, or one update; what is left is that the row is well
    formed, or that the update is a step. *)
Ltac inserted :=
  eapply progress_insert;
    [apply _|apply _|by rewrite rows_put|by rewrite open_put|
     first [eassumption|reflexivity]..|].

Ltac updated step_ok :=
  eapply progress_update;
    [apply _|exact step_ok|
     first [rewrite rows_put; eassumption|unfold rows; eassumption|eassumption]|
     first [done|by rewrite open_put]|
     first [by rewrite rows_put|unfold rows; eassumption|eassumption]|done|].

Ltac wp_steps := repeat (wp_step; cbn beta iota); try discriminate.
