(* ===== verification/Frame.v ===== *)
(** * Frames: which tables an operation leaves alone

    [untouched R m]: the computation [m] of the store leaves the table of [R] as it
    was, whatever its outcome.  The rules follow the constructs of [M];
    [solve_untouched] applies them to an operation's definition. *)
From S2P Require Import Prelude GoStr Sql Models Schema Store.

Section frame.
Context {Eng : SqlEngine}.

(** Writing the table of [R'] does not change the one of [R]. *)
Definition apart (R R' : Type) `{!Table R, !Table R'} : Prop :=
  ∀ t s, get_tbl (R := R) (put_tbl (R := R') t s) = get_tbl s.

Definition untouched (R : Type) `{!Table R} {A} (m : M A) : Prop :=
  ∀ s, get_tbl (R := R) (m s).2 = get_tbl s.

Context {R : Type} `{!Table R}.

Lemma untouched_ret {A} (a : A) : untouched R (mret a).
Proof. done. Qed.

Lemma untouched_throw {A} e : untouched R (throw (A := A) e).
Proof. done. Qed.

Lemma untouched_bind {A B} (m : M A) (k : A → M B) :
  untouched R m → (∀ a, untouched R (k a)) → untouched R (mbind k m).
Proof.
  intros Hm Hk s. unfold mbind, M_bind. specialize (Hm s). destruct (m s) as [[e|a] s']; cbn in *; [done|].
  by rewrite Hk.
Qed.

Lemma untouched_try {A B} (m : M A) (k : error + A → M B) :
  untouched R m → (∀ r, untouched R (k r)) → untouched R (try m k).
Proof.
  intros Hm Hk s. unfold try. specialize (Hm s). destruct (m s) as [r s']; cbn in *. by rewrite Hk.
Qed.

Lemma untouched_map_error {A} f (m : M A) : untouched R m → untouched R (map_error f m).
Proof. intros Hm. apply untouched_try; [done|]. intros [e|a]; done. Qed.

Lemma untouched_guard b e : untouched R (guard b e).
Proof. by destruct b. Qed.

Lemma untouched_tx {A} rb (m : M A) :
  (∀ n s, get_tbl (R := R) (set_open_txs n s) = get_tbl s) → untouched R m → untouched R (in_tx rb m).
Proof.
  intros Ho Hm s. unfold in_tx. specialize (Hm (set_open_txs (S (open_txs s)) s)).
  destruct (m _) as [[e|a] s']; cbn in *; [by destruct (rb e)|]. by rewrite Ho, Hm, Ho.
Qed.

Lemma untouched_for_each {A} (l : list A) f : (∀ x, untouched R (f x)) → untouched R (for_each l f).
Proof.
  intros Hf. induction l as [|x l IH]; [done|]. cbn. apply untouched_bind; auto.
Qed.

Lemma untouched_map_m {A B} (f : A → M B) l : (∀ x, untouched R (f x)) → untouched R (map_m f l).
Proof.
  intros Hf. induction l as [|x l IH]; [done|]. cbn. apply untouched_bind; [done|]. intros y.
  apply untouched_bind; [done|]. intros ys. done.
Qed.

Section other.
Context {R' : Type} `{Entity R', !Table R'}.

Lemma untouched_query p (ts : list (order_term R')) off lim : untouched R (ent_query p ts off lim).
Proof. done. Qed.

Lemma untouched_only (p : R' → bool) : untouched R (ent_only p).
Proof.
  apply untouched_bind; [apply untouched_query|]. intros l. repeat case_match; done.
Qed.

Lemma untouched_first (p : R' → bool) ts : untouched R (ent_first p ts).
Proof.
  apply untouched_bind; [apply untouched_query|]. intros l. repeat case_match; done.
Qed.

Lemma untouched_distinct (p : R' → bool) f lim : untouched R (ent_distinct p f lim).
Proof. apply untouched_bind; [apply untouched_query|]. done. Qed.

Lemma untouched_count (p : R' → bool) : untouched R (ent_count p).
Proof. apply untouched_bind; [apply untouched_query|]. done. Qed.

Context (Hap : apart R R').

Lemma untouched_create (r : R') : untouched R (ent_create r).
Proof.
  unfold ent_create. destruct (validators r); [|done]. intros s. unfold ent_insert.
  destruct (sql_insert r (get_tbl s)); cbn; [done|apply Hap].
Qed.

Lemma untouched_update (p : R' → bool) ok f : untouched R (ent_update p ok f).
Proof.
  unfold ent_update. destruct ok; [|done]. intros s.
  destruct (sql_update p f (get_tbl s)) as [e|[n t]]; cbn; [done|apply Hap].
Qed.

Lemma untouched_update_one id ok f : untouched R (ent_update_one (R := R') id ok f).
Proof.
  unfold ent_update_one. destruct ok; [|done]. apply untouched_bind; [apply untouched_query|].
  intros [|node l]; [done|]. apply untouched_bind; [apply untouched_update|done].
Qed.

Lemma untouched_delete (p : R' → bool) : untouched R (ent_delete p).
Proof.
  intros s. unfold ent_delete. destruct (sql_delete p (get_tbl s)) as [e|[n t]]; cbn; [done|apply Hap].
Qed.

Lemma untouched_delete_one id : untouched R (ent_delete_one (R := R') id).
Proof. apply untouched_bind; [apply untouched_delete|]. intros n. by destruct (n =? 0). Qed.
End other.
End frame.

(** The constant an application begins with. *)
Ltac head_of t := lazymatch t with ?f _ => head_of f | _ => t end.

(** For [P (let x := v in b x)], prove [P (b x)] for every [x]. *)
Ltac generalize_let P v b :=
  let H := fresh in enough (∀ y, P (b y)) as H by exact (H v); intros.

Create HintDb frame discriminated.

(** One rule of [untouched]: the computation's head decides which.  A computation without
    a rule is looked up among the lemmas of [frame], then unfolded. *)
Ltac untouched_step :=
  cbv beta;
  lazymatch goal with
  | |- ?P (let x := ?v in @?b x) => generalize_let P v b
  | |- untouched _ (match ?x with _ => _ end) => destruct x
  | |- untouched _ (mbind _ _) => apply untouched_bind; [|intros]
  | |- untouched _ (mret _) => apply untouched_ret
  | |- untouched _ (throw _) => apply untouched_throw
  | |- untouched _ (guard _ _) => apply untouched_guard
  | |- untouched _ (ent_query _ _ _ _) => apply untouched_query
  | |- untouched _ (ent_only _) => apply untouched_only
  | |- untouched _ (ent_first _ _) => apply untouched_first
  | |- untouched _ (ent_distinct _ _ _) => apply untouched_distinct
  | |- untouched _ (ent_count _) => apply untouched_count
  | |- untouched _ (ent_create _) => apply untouched_create; by intros ? ?
  | |- untouched _ (ent_update _ _ _) => apply untouched_update; by intros ? ?
  | |- untouched _ (ent_update_one _ _ _) => apply untouched_update_one; by intros ? ?
  | |- untouched _ (ent_delete _) => apply untouched_delete; by intros ? ?
  | |- untouched _ (ent_delete_one _) => apply untouched_delete_one; by intros ? ?
  | |- untouched _ (try _ _) => apply untouched_try; [|intros]
  | |- untouched _ (map_error _ _) => apply untouched_map_error
  | |- untouched _ (in_tx _ _) => apply untouched_tx; [by intros ? ?|]
  | |- untouched _ (for_each _ _) => apply untouched_for_each; intros
  | |- untouched _ (map_m _ _) => apply untouched_map_m; intros
  | |- untouched _ ?m => first [assumption | solve [auto with frame nocore] | let h := head_of m in unfold h]
  end.

Ltac solve_untouched := repeat untouched_step.
