(* ===== verification/WellFormed.v ===== *)
(** * Well-formed stores

    The schema's promise for a whole database: in every table the rows are apart by the
    primary key and by the unique indexes, and every row passes its validators.
    [keeps_form m] says that a transaction, whatever its outcome, leaves a well-formed
    database well formed.  The rules follow the constructs of [M]; what there is to show is
    that the fields an update sets are still valid.  [solve_keeps] applies the rules to an
    operation's definition. *)
From S2P Require Import Prelude GoStr Sql Models Schema Store Frame.

(** ** Tables *)

Section rows.
Context {R : Type} `{Entity R}.

(** What the schema asks of the rows of a table. *)
Definition sound (l : list R) : Prop := unique_rows l = true ∧ ∀ r, r ∈ l → validators r = true.

Lemma sound_app `{!SymEntity R} l r : sound l → validators r = true → has_clash r l = false → sound (l ++ [r]).
Proof.
  intros [Hu Hv] Hr Hc. split; [by apply unique_app_one|].
  intros x [Hx| ->%list_elem_of_singleton]%elem_of_app; auto.
Qed.

Lemma sound_bfilter p l : sound l → sound (bfilter p l).
Proof.
  intros [Hu Hv]. split; [by apply unique_bfilter|]. intros r [Hr _]%elem_of_bfilter. auto.
Qed.
End rows.

(** ** The database *)

Section form.
Context {Eng : SqlEngine}.

Definition well_formed (s : Store) : Prop :=
  (sound (rows User s) ∧ sound (rows Session s) ∧ sound (rows InteractionEndpoint s) ∧
   sound (rows IMChatAuthRequest s) ∧ sound (rows IMChatSubscription s)) ∧
  (sound (rows ChannelRow s) ∧ sound (rows ChannelMemberRow s) ∧ sound (rows MessageRow s) ∧
   sound (rows SavedMessageRow s) ∧ sound (rows ThreadReadState s)) ∧
  (sound (rows OutboundDelivery s) ∧ sound (rows NotificationRoute s) ∧ sound (rows Task s) ∧
   sound (rows TaskAttempt s) ∧ sound (rows Reminder s) ∧ sound (rows ReminderEvent s)) ∧
  (sound (rows ChannelDecision s) ∧ sound (rows ChannelDecisionVote s) ∧ sound (rows AgentRun s) ∧
   sound (rows AgentRunEvent s)) ∧
  (sound (rows CollaborationEvent s) ∧ sound (rows IdempotencyRecord s) ∧ sound (rows TunnelRecord s)).

(** A table of the schema: it is sound in a well-formed database, and another sound content
    of it leaves the database well formed. *)
Class SchemaTable (R : Type) `{Entity R, !Table R} : Prop := {
  table_sound s : well_formed s → sound (rows R s);
  put_sound t s : well_formed s → sound (tbl_rows t) → well_formed (put_tbl t s)
}.

Ltac solve_schema := split; [intros s H; apply H | intros t s H Ht; repeat split; first [apply Ht | apply H]].

#[export] Instance User_schema : SchemaTable User.
Proof. solve_schema. Qed.
#[export] Instance Session_schema : SchemaTable Session.
Proof. solve_schema. Qed.
#[export] Instance InteractionEndpoint_schema : SchemaTable InteractionEndpoint.
Proof. solve_schema. Qed.
#[export] Instance IMChatAuthRequest_schema : SchemaTable IMChatAuthRequest.
Proof. solve_schema. Qed.
#[export] Instance IMChatSubscription_schema : SchemaTable IMChatSubscription.
Proof. solve_schema. Qed.
#[export] Instance ChannelRow_schema : SchemaTable ChannelRow.
Proof. solve_schema. Qed.
#[export] Instance ChannelMemberRow_schema : SchemaTable ChannelMemberRow.
Proof. solve_schema. Qed.
#[export] Instance MessageRow_schema : SchemaTable MessageRow.
Proof. solve_schema. Qed.
#[export] Instance SavedMessageRow_schema : SchemaTable SavedMessageRow.
Proof. solve_schema. Qed.
#[export] Instance ThreadReadState_schema : SchemaTable ThreadReadState.
Proof. solve_schema. Qed.
#[export] Instance OutboundDelivery_schema : SchemaTable OutboundDelivery.
Proof. solve_schema. Qed.
#[export] Instance NotificationRoute_schema : SchemaTable NotificationRoute.
Proof. solve_schema. Qed.
#[export] Instance Task_schema : SchemaTable Task.
Proof. solve_schema. Qed.
#[export] Instance TaskAttempt_schema : SchemaTable TaskAttempt.
Proof. solve_schema. Qed.
#[export] Instance Reminder_schema : SchemaTable Reminder.
Proof. solve_schema. Qed.
#[export] Instance ReminderEvent_schema : SchemaTable ReminderEvent.
Proof. solve_schema. Qed.
#[export] Instance ChannelDecision_schema : SchemaTable ChannelDecision.
Proof. solve_schema. Qed.
#[export] Instance ChannelDecisionVote_schema : SchemaTable ChannelDecisionVote.
Proof. solve_schema. Qed.
#[export] Instance AgentRun_schema : SchemaTable AgentRun.
Proof. solve_schema. Qed.
#[export] Instance AgentRunEvent_schema : SchemaTable AgentRunEvent.
Proof. solve_schema. Qed.
#[export] Instance CollaborationEvent_schema : SchemaTable CollaborationEvent.
Proof. solve_schema. Qed.
#[export] Instance IdempotencyRecord_schema : SchemaTable IdempotencyRecord.
Proof. solve_schema. Qed.
#[export] Instance TunnelRecord_schema : SchemaTable TunnelRecord.
Proof. solve_schema. Qed.

(** ** The rules *)

Definition keeps_form {A} (m : M A) : Prop := ∀ s, well_formed s → well_formed (m s).2.

Lemma form_ret {A} (a : A) : keeps_form (mret a).
Proof. by intros s. Qed.

Lemma form_throw {A} e : keeps_form (throw (A := A) e).
Proof. by intros s. Qed.

Lemma form_bind {A B} (m : M A) (k : A → M B) :
  keeps_form m → (∀ a, keeps_form (k a)) → keeps_form (mbind k m).
Proof.
  intros Hm Hk s Hs. unfold mbind, M_bind. specialize (Hm s Hs). destruct (m s) as [[e|a] s']; cbn in *; [done|].
  by apply Hk.
Qed.

Lemma form_try {A B} (m : M A) (k : error + A → M B) :
  keeps_form m → (∀ r, keeps_form (k r)) → keeps_form (try m k).
Proof.
  intros Hm Hk s Hs. unfold try. specialize (Hm s Hs). destruct (m s) as [r s']; cbn in *. by apply Hk.
Qed.

Lemma form_map_error {A} f (m : M A) : keeps_form m → keeps_form (map_error f m).
Proof. intros Hm. apply form_try; [done|]. intros [e|a]; by intros s. Qed.

Lemma form_guard b e : keeps_form (guard b e).
Proof. destruct b; by intros s. Qed.

Lemma form_open n s : well_formed s → well_formed (set_open_txs n s).
Proof. intros H. exact H. Qed.

(** A transaction that fails leaves no trace of its work. *)
Lemma form_tx {A} rb (m : M A) : keeps_form m → keeps_form (in_tx rb m).
Proof.
  intros Hm s Hs. unfold in_tx. specialize (Hm _ (form_open (S (open_txs s)) s Hs)).
  destruct (m _) as [[e|a] s']; cbn in *; [by destruct (rb e)|]. by apply form_open.
Qed.

Lemma form_for_each {A} (l : list A) f : (∀ x, keeps_form (f x)) → keeps_form (for_each l f).
Proof. intros Hf. induction l as [|x l IH]; [by intros s|]. cbn. apply form_bind; auto. Qed.

Lemma form_map_m {A B} (f : A → M B) l : (∀ x, keeps_form (f x)) → keeps_form (map_m f l).
Proof.
  intros Hf. induction l as [|x l IH]; [by intros s|]. cbn. apply form_bind; [done|]. intros y.
  apply form_bind; [done|]. intros ys. apply form_ret.
Qed.

Section table.
Context {R : Type} `{Entity R, !Table R, !SchemaTable R}.

Lemma form_query p (ts : list (order_term R)) off lim : keeps_form (ent_query p ts off lim).
Proof. by intros s. Qed.

Lemma form_only (p : R → bool) : keeps_form (ent_only p).
Proof. apply form_bind; [apply form_query|]. intros l. repeat case_match; by intros s. Qed.

Lemma form_first (p : R → bool) ts : keeps_form (ent_first p ts).
Proof. apply form_bind; [apply form_query|]. intros l. repeat case_match; by intros s. Qed.

Lemma form_distinct (p : R → bool) f lim : keeps_form (ent_distinct p f lim).
Proof. apply form_bind; [apply form_query|]. intros l. apply form_ret. Qed.

Lemma form_count (p : R → bool) : keeps_form (ent_count p).
Proof. apply form_bind; [apply form_query|]. intros l. apply form_ret. Qed.

Context {Laws : SqlLaws} {Sym : SymEntity R}.

Lemma form_create (r : R) : keeps_form (ent_create r).
Proof.
  intros s Hs. unfold ent_create, ent_insert. destruct (validators r) eqn:Hv; [|exact Hs].
  pose proof (insert_law R r (get_tbl s)) as Hl. destruct (sql_insert r (get_tbl s)) as [e|t]; [exact Hs|].
  destruct Hl as [Hc Hr]. apply put_sound; [exact Hs|]. rewrite Hr. apply sound_app; [|done..].
  by apply table_sound.
Qed.

(** An update sets fields to values that pass the validators of the fields it sets, and must
    leave the other ones valid. *)
Lemma form_update (p : R → bool) ok f :
  (ok = true → ∀ r, validators r = true → validators (f r) = true) → keeps_form (ent_update p ok f).
Proof.
  intros Hf s Hs. unfold ent_update. destruct ok; [|exact Hs].
  pose proof (update_law R p f (get_tbl s)) as Hl. cbv zeta in Hl.
  destruct (sql_update p f (get_tbl s)) as [e|[n t]]; [exact Hs|]. destruct Hl as (_ & Hr & Hu).
  destruct (table_sound (R := R) s Hs) as [Hu' Hv]. apply put_sound; [exact Hs|]. rewrite Hr. split; [by apply Hu|].
  unfold update_rows. intros r Hin. apply list_elem_of_fmap in Hin as (x & -> & Hx).
  specialize (Hv x Hx). destruct (p x); auto.
Qed.

Lemma form_update_one id ok f :
  (ok = true → ∀ r, validators r = true → validators (f r) = true) → keeps_form (ent_update_one (R := R) id ok f).
Proof.
  intros Hf. unfold ent_update_one. destruct ok; [|by intros s]. apply form_bind; [apply form_query|].
  intros [|node l]; [by intros s|]. apply form_bind; [by apply form_update|]. intros n. apply form_ret.
Qed.

Lemma form_delete (p : R → bool) : keeps_form (ent_delete p).
Proof.
  intros s Hs. unfold ent_delete. destruct (delete_law R p (get_tbl s)) as (t & -> & Hr).
  apply put_sound; [exact Hs|]. rewrite Hr. apply sound_bfilter. by apply table_sound.
Qed.

Lemma form_delete_one id : keeps_form (ent_delete_one (R := R) id).
Proof. apply form_bind; [apply form_delete|]. intros n. destruct (n =? 0); by intros s. Qed.
End table.
End form.

(** ** Fields an update sets *)

Section fields.
Context {R : Type} `{Entity R}.

Lemma valid_when b f (r : R) :
  (∀ r, validators r = true → validators (f r) = true) → validators r = true → validators (when b f r) = true.
Proof. destruct b; cbn; auto. Qed.

Lemma valid_when_some {A} (o : option A) f (r : R) :
  (∀ v r, o = Some v → validators r = true → validators (f v r) = true) → validators r = true →
  validators (when_some o f r) = true.
Proof. destruct o; cbn; auto. Qed.

Lemma valid_set (f : R → R) r :
  (∀ r, validators r = true → validators (f r) = true) → validators r = true → validators (f r) = true.
Proof. auto. Qed.
End fields.

(** The last steps: the validators of the row with one field set. *)
Ltac valid_field :=
  repeat match goal with Ho : ?o = Some _, Hok : context [?o] |- _ => progress rewrite Ho in Hok end;
  cbn in *;
  match goal with |- ?c _ = true => unfold c in * end;
  cbn in *; unfold check_some, not_empty in *; rewrite ?andb_true_iff in *;
  unfold when, when_some in *; repeat (case_match; cbn in * ); intuition.

(** Peels the fields an update sets, the last one first. *)
Ltac solve_valid :=
  cbv beta;
  lazymatch goal with
  | |- validators (when _ _ _) = true => apply valid_when; [intros; solve_valid|solve_valid]
  | |- validators ((if ?b then _ else _) _) = true => destruct b; solve_valid
  | |- validators (when_some _ _ _) = true => apply valid_when_some; [intros; solve_valid|solve_valid]
  | Hr : validators ?r = true |- validators ?r = true => exact Hr
  | |- validators (?f ?r) = true =>
      first [ is_var r; valid_field
            | apply (valid_set f); [intros; valid_field|solve_valid] ]
  end.

Create HintDb form discriminated.

(** One rule of [keeps_form], by the computation's head. *)
Ltac keeps_step :=
  cbv beta;
  lazymatch goal with
  | |- ?P (let x := ?v in @?b x) => generalize_let P v b
  | |- keeps_form (match ?x with _ => _ end) => destruct x
  | |- keeps_form (mbind _ _) => apply form_bind; [|intros]
  | |- keeps_form (mret _) => apply form_ret
  | |- keeps_form (throw _) => apply form_throw
  | |- keeps_form (guard _ _) => apply form_guard
  | |- keeps_form (ent_query _ _ _ _) => apply form_query
  | |- keeps_form (ent_only _) => apply form_only
  | |- keeps_form (ent_first _ _) => apply form_first
  | |- keeps_form (ent_distinct _ _ _) => apply form_distinct
  | |- keeps_form (ent_count _) => apply form_count
  | |- keeps_form (ent_create _) => apply form_create
  | |- keeps_form (ent_update _ _ _) => apply form_update; let Hok := fresh "Hok" in intros Hok ? ?
  | |- keeps_form (ent_update_one _ _ _) => apply form_update_one; let Hok := fresh "Hok" in intros Hok ? ?
  | |- keeps_form (ent_delete _) => apply form_delete
  | |- keeps_form (ent_delete_one _) => apply form_delete_one
  | |- keeps_form (try _ _) => apply form_try; [|intros]
  | |- keeps_form (map_error _ _) => apply form_map_error
  | |- keeps_form (in_tx _ _) => apply form_tx
  | |- keeps_form (for_each _ _) => apply form_for_each; intros
  | |- keeps_form (map_m _ _) => apply form_map_m; intros
  | |- keeps_form ?m => first [assumption | solve [auto with form nocore] | let h := head_of m in unfold h]
  | |- validators (?f _) = true => first [solve [solve_valid] | let h := head_of f in unfold h; solve_valid]
  end.

Ltac solve_keeps := repeat keeps_step.
