(* ===== verification/Tunnels.v ===== *)
(** * Preview tunnels ([internal/storage/tunnels.go])

    The lifecycle of a tunnel row: the operations of the store, an abstract state
    machine, and the proof that every operation moves every row along it. *)
From S2P Require Import Prelude GoStr Sql Models Schema Store.
Import TunnelRecord.

Definition TunnelStatePending := "pending_approval".
Definition TunnelStateActive := "active".
Definition TunnelStateRejected := "rejected".
Definition TunnelStateClosed := "closed".

Definition TunnelAccessPolicyPrivate := "private".
Definition TunnelAccessPolicyMembers := "members".
Definition TunnelAccessPolicyPublic := "public".

Definition validTunnelStates (s : string) : bool :=
  (s =s TunnelStatePending) || (s =s TunnelStateActive) ||
  (s =s TunnelStateRejected) || (s =s TunnelStateClosed).

Definition validTunnelAccessPolicies (s : string) : bool :=
  (s =s TunnelAccessPolicyPrivate) || (s =s TunnelAccessPolicyMembers) ||
  (s =s TunnelAccessPolicyPublic).

Definition validTunnelTransition (from to : string) : bool :=
  if from =s TunnelStatePending then
    (to =s TunnelStateActive) || (to =s TunnelStateRejected) || (to =s TunnelStateClosed)
  else if from =s TunnelStateActive then to =s TunnelStateClosed
  else false.

Definition tunnelFromEnt (row : TunnelRecord) : TunnelRecord := set_PublicURL "" row.

(** Pending or active: the states the store still closes. *)
Definition open_state (s : string) : bool := (s =s TunnelStatePending) || (s =s TunnelStateActive).

Section tunnels.
Context {Eng : SqlEngine}.

(** [fresh_token] is what [NewTunnelToken] returns, [fresh_id] the schema's default
    identifier, [clock] the reading of [unixNow]. *)
Definition CreateTunnel (clock : Z) (fresh_token : error + string) (fresh_id : string)
    (record : TunnelRecord) : M TunnelRecord :=
  let state := TrimSpace (State record) in
  _ ← guard (validTunnelStates state) ErrInvalid;
  let policy := TrimSpace (AccessPolicy record) in
  _ ← guard (validTunnelAccessPolicies policy) ErrInvalid;
  let record := record |> when (CreatedUnix record =? 0)%Z (set_CreatedUnix clock) in
  record ← (if Token record =s "" then
              match fresh_token with
              | inl e => throw e
              | inr token => mret (set_Token token record)
              end
            else mret record);
  row ← or_conflict (ent_create (zero
    |> set_ID fresh_id
    |> set_Token (Token record)
    |> set_ComputerID (ComputerID record)
    |> set_DaemonID (DaemonID record)
    |> set_LocalPort (LocalPort record)
    |> set_Label (Label record)
    |> set_State state
    |> set_AccessPolicy policy
    |> set_CreatorID (CreatorID record)
    |> set_CreatorKind (CreatorKind record)
    |> set_CreatedUnix (CreatedUnix record)
    |> set_ExpiresUnix (ExpiresUnix record)
    |> set_ApprovedUnix (ApprovedUnix record)
    |> set_ApprovedBy (ApprovedBy record)
    |> set_ClosedUnix (ClosedUnix record)
    |> set_CloseReason (CloseReason record)
    |> when (ID record <>s "") (set_ID (ID record))));
  mret (tunnelFromEnt row).

Definition GetTunnel (id : string) : M TunnelRecord :=
  row ← or_not_found (ent_get id);
  mret (tunnelFromEnt row).

Definition GetTunnelByToken (token : string) : M TunnelRecord :=
  row ← or_not_found (ent_only (λ r, Token r =s token));
  mret (tunnelFromEnt row).

Definition ListTunnels (opts : TunnelListOptions) : M (list TunnelRecord) :=
  nodes ← ent_query
    (λ r, (if TunnelListOptions.ComputerID opts <>s "" then ComputerID r =s TunnelListOptions.ComputerID opts else true) &&
          (if TunnelListOptions.StateFilter opts <>s "" then State r =s TunnelListOptions.StateFilter opts else true))
    [DescZ CreatedUnix] 0 (positive_limit (TunnelListOptions.Limit opts));
  mret (tunnelFromEnt <$> nodes).

(** The fields a transition to [toState] sets. *)
Definition transition_fields (now : Z) (toState actor reason : string) (r : TunnelRecord) :
    TunnelRecord :=
  r |> set_State toState
    |> when (toState =s TunnelStateActive) (λ r, r |> set_ApprovedUnix now |> set_ApprovedBy actor)
    |> when ((toState =s TunnelStateRejected) || (toState =s TunnelStateClosed))
         (λ r, r |> set_ClosedUnix now |> set_CloseReason reason).

Definition UpdateTunnelState (now : Z) (id toState actor reason : string) : M TunnelRecord :=
  _ ← guard (validTunnelStates toState) ErrInvalid;
  updated ← in_tx (λ _, true) (
    row ← or_not_found (ent_get id);
    _ ← guard (validTunnelTransition (State row) toState) ErrInvalid;
    ent_update_one id (not_empty toState) (transition_fields now toState actor reason));
  mret (tunnelFromEnt updated).

(** The rows [CloseExpiredTunnels] selects. *)
Definition expired (now : Z) (r : TunnelRecord) : bool :=
  open_state (State r) && (0 <? ExpiresUnix r)%Z && (ExpiresUnix r <=? now)%Z.

Definition close_fields (now : Z) (reason : string) (r : TunnelRecord) : TunnelRecord :=
  r |> set_State TunnelStateClosed |> set_ClosedUnix now |> set_CloseReason reason.

(** The body of the loop of [CloseExpiredTunnels]: one statement per row. *)
Definition close_expired_row (now : Z) (id : string) : M unit :=
  try (ent_update_one id true (close_fields now "ttl_expired")) (λ res,
    match res with
    | inl e => if IsNotFound e then mret () else throw e
    | inr _ => mret ()
    end).

Definition CloseExpiredTunnels (clock now : Z) : M nat :=
  let now := if (now <=? 0)%Z then clock else now in
  nodes ← ent_query (expired now) [] 0 None;
  _ ← for_each nodes (λ row, close_expired_row now (ID row));
  mret (length nodes).

Definition CloseTunnelsForComputer (now : Z) (computerID reason : string) : M unit :=
  _ ← guard (computerID <>s "") (ErrText "computer id is required");
  _ ← ent_update (λ r, (ComputerID r =s computerID) && open_state (State r)) true
        (close_fields now reason);
  mret ().

(** ** The abstract lifecycle *)

Inductive phase := Pending | Active | Rejected | Closed.

#[export] Instance phase_eq_dec : EqDecision phase.
Proof. solve_decision. Defined.

Inductive lifecycle : phase → phase → Prop :=
| approve_step : lifecycle Pending Active
| reject_step : lifecycle Pending Rejected
| close_step : lifecycle Active Closed
| cancel_step : lifecycle Pending Closed.

Definition phase_of (s : string) : option phase :=
  if s =s TunnelStatePending then Some Pending
  else if s =s TunnelStateActive then Some Active
  else if s =s TunnelStateRejected then Some Rejected
  else if s =s TunnelStateClosed then Some Closed
  else None.

(** What an operation may do to a row: keep its identity, its grant and its
    expiry, and either leave it alone or move it along the lifecycle. *)
Definition tunnel_step (r r' : TunnelRecord) : Prop :=
  r' = r ∨
  (∃ p p', phase_of (State r) = Some p ∧ phase_of (State r') = Some p' ∧ rtc lifecycle p p') ∧
  (ID r', Token r', ComputerID r', LocalPort r', AccessPolicy r', CreatorID r', CreatedUnix r',
   ExpiresUnix r') =
  (ID r, Token r, ComputerID r, LocalPort r, AccessPolicy r, CreatorID r, CreatedUnix r,
   ExpiresUnix r).

Definition tunnel_ok (r : TunnelRecord) : Prop :=
  validTunnelStates (State r) = true ∧ validTunnelAccessPolicies (AccessPolicy r) = true ∧
  Token r ≠ "".

(** The operations, with everything they take. *)
Inductive tunnel_op :=
| OpCreateTunnel (clock : Z) (token : error + string) (id : string) (record : TunnelRecord)
| OpGetTunnel (id : string)
| OpGetTunnelByToken (token : string)
| OpListTunnels (opts : TunnelListOptions)
| OpUpdateTunnelState (now : Z) (id toState actor reason : string)
| OpCloseExpiredTunnels (clock now : Z)
| OpCloseTunnelsForComputer (now : Z) (computerID reason : string).

Definition run_tunnel_op (op : tunnel_op) : M unit :=
  match op with
  | OpCreateTunnel c t i r => _ ← CreateTunnel c t i r; mret ()
  | OpGetTunnel i => _ ← GetTunnel i; mret ()
  | OpGetTunnelByToken t => _ ← GetTunnelByToken t; mret ()
  | OpListTunnels o => _ ← ListTunnels o; mret ()
  | OpUpdateTunnelState n i t a r => _ ← UpdateTunnelState n i t a r; mret ()
  | OpCloseExpiredTunnels c n => _ ← CloseExpiredTunnels c n; mret ()
  | OpCloseTunnelsForComputer n c r => CloseTunnelsForComputer n c r
  end.

(** ** Correctness *)

Context {Laws : SqlLaws}.

#[local] Instance tunnel_step_refl : Reflexive tunnel_step.
Proof. by left. Qed.

#[local] Instance tunnel_step_trans : Transitive tunnel_step.
Proof.
  intros a b c [->|[(p & q & Hp & Hq & Hpq) Hi]]; [done|].
  intros [->|[(q' & r & Hq' & Hr & Hqr) Hi']].
  { right. eauto 10. }
  right. split; [|congruence]. exists p, r. repeat split; [done..|].
  assert (q' = q) as -> by congruence. by etrans.
Qed.

Lemma phase_of_valid s : validTunnelStates s = true → ∃ p, phase_of s = Some p.
Proof.
  unfold validTunnelStates, phase_of. repeat case_match; eauto. done.
Qed.

Lemma validTunnelTransition_lifecycle from to p :
  phase_of from = Some p → validTunnelTransition from to = true →
  ∃ p', phase_of to = Some p' ∧ lifecycle p p'.
Proof.
  unfold validTunnelTransition, phase_of. intros Hp Ht.
  destruct (from =s TunnelStatePending); simplify_eq.
  - destruct (to =s TunnelStateActive) eqn:E1; reflect_bools; [subst; eexists; split; [done|constructor]|].
    destruct (to =s TunnelStateRejected) eqn:E2; reflect_bools; [subst; eexists; split; [done|constructor]|].
    destruct (to =s TunnelStateClosed) eqn:E3; reflect_bools; [subst; eexists; split; [done|constructor]|done].
  - destruct (from =s TunnelStateActive); simplify_eq.
    reflect_bools. subst. eexists; split; [done|constructor].
Qed.

Lemma tunnel_step_ok r r' : tunnel_ok r → tunnel_step r r' → tunnel_ok r'.
Proof.
  intros Hok [->|[(p & p' & _ & Hp' & _) Hi]]; [done|]. destruct Hok as (_ & Ha & Ht).
  injection Hi. intros. repeat split; [|congruence..].
  clear -Hp'. unfold phase_of in Hp'. unfold validTunnelStates. by repeat case_match.
Qed.

Lemma transition_fields_step now toState actor reason r :
  tunnel_ok r → validTunnelTransition (State r) toState = true →
  tunnel_step r (transition_fields now toState actor reason r).
Proof.
  intros [Hv _] Ht. right. apply phase_of_valid in Hv as [p Hp].
  destruct (validTunnelTransition_lifecycle _ _ _ Hp Ht) as (p' & Hp' & Hs).
  unfold transition_fields, when. split; [|by repeat case_match].
  exists p, p'. split; [done|]. split; [by repeat case_match|]. by apply rtc_once.
Qed.

Lemma close_fields_step now reason r :
  open_state (State r) = true → tunnel_step r (close_fields now reason r).
Proof.
  unfold open_state. intros Ho. right. split; [|done].
  destruct (State r =s TunnelStatePending) eqn:E1; reflect_bools.
  - exists Pending, Closed. rewrite E1. repeat split. apply rtc_once. constructor.
  - destruct (State r =s TunnelStateActive) eqn:E2; reflect_bools; [|done].
    exists Active, Closed. rewrite E2. repeat split. apply rtc_once. constructor.
Qed.

(** The store after one pass of [CloseExpiredTunnels]: one bulk update. *)
Lemma wp_CloseExpiredTunnels clock now s (Q : error + nat → Store → Prop) :
  let now' := if (now <=? 0)%Z then clock else now in
  unique_rows (rows TunnelRecord s) = true →
  (∀ s', rows TunnelRecord s' =
           update_rows (expired now') (close_fields now' "ttl_expired") (rows TunnelRecord s) →
         unique_rows (rows TunnelRecord s') = true → open_txs s' = open_txs s →
         Q (inr (length (bfilter (expired now') (rows TunnelRecord s)))) s') →
  wp (CloseExpiredTunnels clock now) Q s.
Proof.
  intros now' Hu HQ. unfold CloseExpiredTunnels. fold now'. wp_step. wp_step. cbn beta iota.
  rename l into nodes. assert (NoDup (ID <$> nodes)) as Hnd by by eapply (unique_selected_ids _ _ nodes Hu).
  wp_step. cbn beta iota.
  apply (wp_for_each (λ visited s', rows TunnelRecord s' =
      update_rows (λ r, bool_decide (entID r ∈ entID <$> visited)) (close_fields now' "ttl_expired")
        (rows TunnelRecord s) ∧ unique_rows (rows TunnelRecord s') = true ∧ open_txs s' = open_txs s)).
  - split; [|done]. symmetry. apply update_rows_none. intros x _. by apply bool_decide_false, not_elem_of_nil.
  - intros visited x todo s' -> (Hr & Hu' & Ho). unfold close_expired_row. wp_steps.
    + rewrite (update_rows_visit _ todo) by done. rewrite <-Hr, update_rows_none; [done|].
      intros y Hy. by apply (bfilter_nil_inv _ _ _ H2).
    + rewrite (update_rows_visit _ todo) by done. rewrite <-Hr. unfold rows.
      by rewrite get_put, open_put.
  - intros s' (Hr & Hu' & Ho). wp_step. rewrite H. apply HQ; [|done..].
    rewrite Hr. apply update_rows_ext. intros x Hx. by apply (selected_ids _ (rows TunnelRecord s)).
Qed.

Lemma wp_CreateTunnel c t i r s :
  unique_rows (rows TunnelRecord s) = true → Forall tunnel_ok (rows TunnelRecord s) →
  wp (CreateTunnel c t i r) (λ _ s', progress tunnel_step tunnel_ok s s') s.
Proof.
  intros Hu Hok. unfold CreateTunnel.
  wp_steps; try unchanged.
  all: inserted.
  all: assert (State row = TrimSpace (State r) ∧ AccessPolicy row = TrimSpace (AccessPolicy r)) as [Es Ea]
    by (subst row; unfold when; by repeat case_match).
  all: unfold tunnel_ok; rewrite Es, Ea; repeat split; [done..|].
  all: cbn in H1; unfold TunnelRecord_check in H1; reflect_bools; done.
Qed.

Lemma wp_UpdateTunnelState n i t a r s :
  unique_rows (rows TunnelRecord s) = true → Forall tunnel_ok (rows TunnelRecord s) →
  wp (UpdateTunnelState n i t a r) (λ _ s', progress tunnel_step tunnel_ok s s') s.
Proof.
  intros Hu Hok. unfold UpdateTunnelState.
  wp_steps; try unchanged.
  apply bfilter_singleton_inv in H0 as (_ & _ & Hall).
  updated tunnel_step_ok.
  intros x Hx Hok1 Hp. apply transition_fields_step; [done|].
  by rewrite (Hall x).
Qed.

(** C8. Every operation of the tunnel store moves every row along the documented
    lifecycle and nowhere else: no row disappears, a row keeps its identity, its
    token and its grant, its state changes only by (a sequence of) the four
    documented transitions, rows that appear are well formed, the unique indexes
    keep holding and no transaction stays open, on success and on every error. *)
Theorem tunnel_ops_follow_lifecycle op s :
  unique_rows (rows TunnelRecord s) = true → Forall tunnel_ok (rows TunnelRecord s) →
  wp (run_tunnel_op op) (λ _ s', progress tunnel_step tunnel_ok s s') s.
Proof.
  intros Hu Hok. destruct op as [c t i r|i|t|o|n i t a r|c n|n c r]; cbn [run_tunnel_op].
  - wp_step. eapply wp_mono; [by apply wp_CreateTunnel|]. by intros [] s'.
  - unfold GetTunnel. wp_steps; unchanged.
  - unfold GetTunnelByToken. wp_steps; unchanged.
  - unfold ListTunnels. wp_steps; unchanged.
  - wp_step. eapply wp_mono; [by apply wp_UpdateTunnelState|]. by intros [] s'.
  - wp_step. apply wp_CloseExpiredTunnels; [done|]. intros s' Hr Hu' Ho. apply wp_ret.
    updated tunnel_step_ok. intros x _ _ Hp.
    apply close_fields_step. unfold expired in Hp. by reflect_bools.
  - unfold CloseTunnelsForComputer. wp_steps; try unchanged.
    updated tunnel_step_ok.
    intros x _ _ Hp. apply close_fields_step. by reflect_bools.
Qed.

(** [CloseExpiredTunnels] on its own (no other writer between its statements)
    succeeds, closes exactly the open tunnels whose expiry has passed, stamps them
    with the time and the reason, leaves every other row alone, and returns how
    many it closed: its row-by-row loop is one bulk update. *)
Theorem CloseExpiredTunnels_bulk clock now s :
  let now' := if (now <=? 0)%Z then clock else now in
  unique_rows (rows TunnelRecord s) = true →
  wp (CloseExpiredTunnels clock now) (λ r s',
    r = inr (length (bfilter (expired now') (rows TunnelRecord s))) ∧
    rows TunnelRecord s' =
      update_rows (expired now') (close_fields now' "ttl_expired") (rows TunnelRecord s)) s.
Proof. intros now' Hu. apply wp_CloseExpiredTunnels; [done|]. by intros s' Hr _ _. Qed.

(** The statement [CloseExpiredTunnels] issues for a row it selected earlier
    does not test the state again: a tunnel that a concurrent [UpdateTunnelState]
    moved to a terminal state in between is overwritten to [closed] with the
    reason [ttl_expired], a transition the lifecycle does not have. *)
Theorem close_expired_row_ignores_state now row s :
  unique_rows (rows TunnelRecord s) = true → row ∈ rows TunnelRecord s →
  State row = TunnelStateRejected →
  wp (close_expired_row now (ID row)) (λ r s',
    r = inr () ∧
    close_fields now "ttl_expired" row ∈ rows TunnelRecord s' ∧
    validTunnelTransition (State row) (State (close_fields now "ttl_expired" row)) = false) s.
Proof.
  intros Hu Hin Hst. unfold close_expired_row. wp_steps.
  - pose proof (bfilter_nil_inv _ _ _ H0 Hin) as Hn. cbn in Hn. by rewrite eqb_refl_str in Hn.
  - split; [done|]. split; [|by rewrite Hst]. rewrite rows_put, H1. apply elem_of_update_rows.
    exists row. split; [done|]. cbn. by rewrite eqb_refl_str.
Qed.

End tunnels.

(** ** Witnesses *)

Definition tunnel_a : TunnelRecord := zero |> set_ID "tun_1" |> set_Token "tok"
  |> set_ComputerID "pc" |> set_State TunnelStatePending |> set_AccessPolicy "private"
  |> set_CreatorID "u1" |> set_CreatorKind "user" |> set_CreatedUnix 10 |> set_ExpiresUnix 50.

Definition tunnel_store (r : TunnelRecord) : @Store list_engine :=
  set_tunnels (Eng := list_engine) [r] empty_store.

Lemma tunnel_ops_follow_lifecycle_witness :
  wp (Eng := list_engine) (run_tunnel_op (OpUpdateTunnelState 20 "tun_1" "active" "bob" ""))
    (λ _ s', progress tunnel_step tunnel_ok (tunnel_store tunnel_a) s') (tunnel_store tunnel_a).
Proof.
  apply (tunnel_ops_follow_lifecycle (Eng := list_engine)); [reflexivity|].
  apply Forall_singleton. repeat split. discriminate.
Defined.

Lemma CloseExpiredTunnels_bulk_witness :
  wp (Eng := list_engine) (CloseExpiredTunnels 60 0) (λ r s',
    r = inr 1 ∧
    rows TunnelRecord s' = [close_fields 60 "ttl_expired" tunnel_a]) (tunnel_store tunnel_a).
Proof. apply (CloseExpiredTunnels_bulk (Eng := list_engine) 60 0). reflexivity. Defined.

Lemma close_expired_row_ignores_state_witness :
  let row := set_State TunnelStateRejected tunnel_a in
  wp (Eng := list_engine) (close_expired_row 60 "tun_1") (λ r s',
    r = inr () ∧ close_fields 60 "ttl_expired" row ∈ rows TunnelRecord s' ∧
    validTunnelTransition TunnelStateRejected TunnelStateClosed = false) (tunnel_store row).
Proof.
  intros row. apply (close_expired_row_ignores_state (Eng := list_engine) 60 row);
    [reflexivity|by left|reflexivity].
Defined.
