(* ===== verification/Tasks.v ===== *)
(** * Tasks ([internal/storage/store.go])

    Creating, listing, updating and claiming tasks.  A claim is one conditional
    [UPDATE]; the theorems show what that gives under contention, and that every
    operation keeps the table in order. *)
From S2P Require Import Prelude GoStr Sql Models Schema Store.
Import Task.

Definition normalizeTaskState `{!Unicode} (state : string) : string :=
  let state := ToLower (TrimSpace state) in
  if state =s "cancelled" then "canceled" else state.

Definition validTaskState `{!Unicode} (state : string) : bool :=
  let state := normalizeTaskState state in
  (state =s "todo") || (state =s "in_progress") || (state =s "in_review") ||
  (state =s "blocked") || (state =s "done") || (state =s "canceled").

Definition taskFromEnt (row : Task) : Task :=
  mk (ID row) (Summary row) (Description row) (State row) (Target row) (AssigneeID row)
     (CreatedByUserID row) (BlockedReason row) (Version row) (ClaimLeaseID row)
     (CreatedUnix row) (UpdatedUnix row).

(** [compactTargets]. *)
Definition compactTargets (values : list string) : list string := cleanStrings values.

Section tasks.
Context {Eng : SqlEngine} {Uni : Unicode}.

Definition CreateTask (now : Z) (fresh_id : string) (taskModel : Task) : M Task :=
  let taskModel := taskModel |> set_State (normalizeTaskState (State taskModel)) in
  let taskModel := taskModel |> when (State taskModel =s "") (set_State "todo") in
  _ ← guard (validTaskState (State taskModel)) ErrInvalidState;
  row ← ent_create (zero
    |> set_ID fresh_id
    |> set_Summary (Summary taskModel)
    |> set_Description (Description taskModel)
    |> set_State (State taskModel)
    |> set_Target (Target taskModel)
    |> set_AssigneeID (AssigneeID taskModel)
    |> set_CreatedByUserID (CreatedByUserID taskModel)
    |> set_BlockedReason (BlockedReason taskModel)
    |> set_Version 1
    |> set_ClaimLeaseID (ClaimLeaseID taskModel)
    |> set_CreatedUnix now
    |> set_UpdatedUnix now
    |> when (ID taskModel <>s "") (set_ID (ID taskModel)));
  mret (taskFromEnt row).

Definition ListTasks (state target : string) (limit : Z) : M (list Task) :=
  let limit := bounded_limit limit 200 100 in
  let state := normalizeTaskState state in
  _ ← guard (negb ((state <>s "") && negb (validTaskState state))) ErrInvalidState;
  nodes ← ent_query
    (λ r, (if state <>s "" then State r =s state else true) &&
          (if target <>s "" then Target r =s target else true))
    [DescZ UpdatedUnix; DescS ID] 0 (Some (Z.to_nat limit));
  mret (taskFromEnt <$> nodes).

Definition ListTaskTargets (limit : Z) : M (list string) :=
  let limit := bounded_limit limit 500 200 in
  targets ← ent_distinct (λ _, true) Target (Z.to_nat limit);
  mret (compactTargets targets).

(** What [UpdateTask] sets; the engine increments the version in the statement. *)
Definition task_patch_fields (now : Z) (patch : TaskPatch) (r : Task) : Task :=
  r |> when_some (TaskPatch.Summary patch) set_Summary
    |> when_some (TaskPatch.Description patch) set_Description
    |> when_some (TaskPatch.State patch) (λ state, set_State (normalizeTaskState state))
    |> when_some (TaskPatch.AssigneeID patch) set_AssigneeID
    |> when_some (TaskPatch.BlockedReason patch) set_BlockedReason
    |> set_Version (Version r + 1)
    |> set_UpdatedUnix now.

Definition UpdateTask (now : Z) (id : string) (patch : TaskPatch) : M Task :=
  _ ← guard (check_some (TaskPatch.State patch) (λ state, validTaskState (normalizeTaskState state)))
        ErrInvalidState;
  row ← or_not_found (ent_update_one id (check_some (TaskPatch.Summary patch) not_empty)
          (task_patch_fields now patch));
  mret (taskFromEnt row).

Definition GetTask (id : string) : M Task :=
  row ← or_not_found (ent_only (λ r, ID r =s id));
  mret (taskFromEnt row).

(** The condition and the assignments of the claim statement. *)
Definition claimable (assigneeID : string) (r : Task) : bool :=
  (AssigneeID r =s "") || (AssigneeID r =s assigneeID).

Definition claim_fields (now : Z) (assigneeID leaseID : string) (r : Task) : Task :=
  r |> set_AssigneeID assigneeID |> set_ClaimLeaseID leaseID
    |> set_Version (Version r + 1) |> set_UpdatedUnix now.

Definition ClaimTaskCAS (now : Z) (id assigneeID leaseID : string) : M (Task * bool) :=
  affected ← ent_update (λ r, (ID r =s id) && claimable assigneeID r) true
               (claim_fields now assigneeID leaseID);
  if affected =? 0 then
    current ← GetTask id;
    mret (current, false)
  else
    current ← GetTask id;
    mret (current, true).

(** ** Specification *)

Definition task_ok (r : Task) : Prop :=
  validTaskState (State r) = true ∧ normalizeTaskState (State r) = State r ∧ (1 ≤ Version r)%Z.

(** One operation on a task: it leaves the row alone, or counts one version and keeps
    what identifies the task. *)
Definition task_step (r r' : Task) : Prop :=
  r' = r ∨
  ((1 ≤ Version r' - Version r)%Z ∧ task_ok r' ∧
   (ID r', Target r', CreatedByUserID r', CreatedUnix r') =
   (ID r, Target r, CreatedByUserID r, CreatedUnix r)).

Inductive task_op :=
| OpCreateTask (now : Z) (id : string) (t : Task)
| OpListTasks (state target : string) (limit : Z)
| OpListTaskTargets (limit : Z)
| OpUpdateTask (now : Z) (id : string) (patch : TaskPatch)
| OpClaimTaskCAS (now : Z) (id assignee lease : string)
| OpGetTask (id : string).

Definition run_task_op (op : task_op) : M unit :=
  match op with
  | OpCreateTask n i t => _ ← CreateTask n i t; mret ()
  | OpListTasks s t l => _ ← ListTasks s t l; mret ()
  | OpListTaskTargets l => _ ← ListTaskTargets l; mret ()
  | OpUpdateTask n i p => _ ← UpdateTask n i p; mret ()
  | OpClaimTaskCAS n i a l => _ ← ClaimTaskCAS n i a l; mret ()
  | OpGetTask i => _ ← GetTask i; mret ()
  end.

(** Competing claims of one task, in the order their statements reach the
    database: time, assignee and lease of each. *)
Definition claim : Type := Z * string * string.
Definition claimant (c : claim) : string := c.1.2.

Fixpoint run_claims (id : string) (cs : list claim) : M (list bool) :=
  match cs with
  | [] => mret []
  | (now, assigneeID, leaseID) :: cs =>
      won ← ClaimTaskCAS now id assigneeID leaseID;
      rest ← run_claims id cs;
      mret (won.2 :: rest)
  end.

(** Who the task belongs to once claims have started: its assignee if it has one,
    else the first claimant. *)
Definition task_owner (t : Task) (cs : list claim) : string :=
  if AssigneeID t <>s "" then AssigneeID t
  else match cs with [] => "" | c :: _ => claimant c end.

Definition wins (flags : list bool) : Z := Z.of_nat (length (bfilter (λ b, b) flags)).

(** ** Correctness *)

Context {Laws : SqlLaws} {ULaws : UnicodeLaws}.

Lemma normalizeTaskState_idemp state :
  normalizeTaskState (normalizeTaskState state) = normalizeTaskState state ∨
  normalizeTaskState state = "canceled".
Proof.
  unfold normalizeTaskState. destruct (ToLower (TrimSpace state) =s "cancelled") eqn:E; [by right|].
  left. rewrite lower_trim_idemp. by rewrite E.
Qed.

Lemma normalized_state_ok state :
  validTaskState (normalizeTaskState state) = true →
  normalizeTaskState (normalizeTaskState state) = normalizeTaskState state.
Proof.
  intros _. destruct (normalizeTaskState_idemp state) as [?|E]; [done|]. by rewrite E.
Qed.

#[local] Instance task_step_refl : Reflexive task_step.
Proof. by left. Qed.

Lemma task_step_ok r r' : task_ok r → task_step r r' → task_ok r'.
Proof. by intros ? [->|(_ & ? & _)]. Qed.

Lemma task_patch_step now patch r :
  task_ok r →
  check_some (TaskPatch.State patch) (λ state, validTaskState (normalizeTaskState state)) = true →
  task_step r (task_patch_fields now patch r).
Proof.
  intros (Hv & Hn & Hver) Hst. right. destruct patch as [su de st as' br].
  unfold task_ok, task_patch_fields, when_some in *; cbn in *.
  destruct su, de, st, as', br; cbn in *; (split; [lia|]); (split; [|done]);
    (split; [done|]); (split; [|lia]); first [done|by apply normalized_state_ok].
Qed.

Lemma claim_step now a l r : task_ok r → task_step r (claim_fields now a l r).
Proof. intros (Hv & Hn & Hver). right. split; [cbn; lia|]. split; [|done]. repeat split; cbn; [done..|lia]. Qed.

(** Every operation on tasks keeps the table in order, on success and on every
    error: a stored task always has one of the six states in normal form and a
    positive version, tasks never disappear or change identity, room, author or
    creation time, and every change to a task raises its version. *)
Theorem task_ops_keep_table op s :
  unique_rows (rows Task s) = true → Forall task_ok (rows Task s) →
  wp (run_task_op op) (λ _ s', progress task_step task_ok s s') s.
Proof.
  intros Hu Hok. destruct op as [n i t|st t l|l|n i p|n i a l|i]; cbn [run_task_op].
  - unfold CreateTask. wp_steps; try unchanged. inserted.
    assert (State row = State (when (normalizeTaskState (State t) =s "") (set_State "todo")
      (set_State (normalizeTaskState (State t)) t)) ∧ Version row = 1%Z) as [Es Ev]
      by (subst row; split; by rewrite when_proj).
    unfold task_ok. rewrite Es, Ev. clear -H ULaws. revert H. unfold when. cbn [State set_State].
    destruct (normalizeTaskState (State t) =s ""); cbn [State set_State]; intros H; [done|].
    split; [exact H|]. split; [by apply normalized_state_ok|done].
  - unfold ListTasks. wp_steps; unchanged.
  - unfold ListTaskTargets, ent_distinct. wp_steps; unchanged.
  - unfold UpdateTask. wp_steps; try unchanged; try solve_keeps.
    updated task_step_ok. intros x _ Hx _. by apply task_patch_step.
  - unfold ClaimTaskCAS, GetTask. wp_steps; try unchanged; try solve_keeps.
    all: updated task_step_ok; intros x _ Hx _; by apply claim_step.
  - unfold GetTask. wp_steps; unchanged.
Qed.

(** *** Claims *)

Definition the_task (id : string) (t : Task) (s : Store) : Prop :=
  unique_rows (rows Task s) = true ∧ bfilter (λ r, ID r =s id) (rows Task s) = [t].

Lemma wp_GetTask id t s (Q : error + Task → Store → Prop) :
  the_task id t s → Q (inr t) s → wp (GetTask id) Q s.
Proof.
  intros [_ Ht] HQ. unfold GetTask. do 2 wp_step. apply (wp_only_one _ t); [done|].
  apply wp_ret. by destruct t.
Qed.

(** The claim as a function of the row. *)
Definition claim_row (c : claim) (t : Task) : Task * bool :=
  let '(now, a, l) := c in
  if claimable a t then (claim_fields now a l t, true) else (t, false).

Lemma wp_ClaimTaskCAS id now a l t s (Q : error + (Task * bool) → Store → Prop) :
  the_task id t s →
  (∀ s', the_task id (claim_row (now, a, l) t).1 s' → Q (inr (claim_row (now, a, l) t)) s') →
  wp (ClaimTaskCAS now id a l) Q s.
Proof.
  intros [Hu Ht] HQ. unfold ClaimTaskCAS, claim_row in *. wp_step.
  apply wp_update_keys; [done|solve_keeps|done|]. intros _ tb Htb Hutb.
  assert (bfilter (λ r, (ID r =s id) && claimable a r) (rows Task s) =
    if claimable a t then [t] else []) as Hsel.
  { rewrite <-(bfilter_bfilter (claimable a) (λ r, ID r =s id)), Ht. simpl. done. }
  assert (the_task id (if claimable a t then claim_fields now a l t else t) (put_tbl tb s)) as Hnew.
  { split; [by rewrite rows_put|]. rewrite rows_put, Htb, bfilter_update by done. rewrite Ht.
    apply bfilter_singleton_inv in Ht as (_ & Hid & _).
    unfold update_rows. cbn [map]. rewrite Hid. simpl. by destruct (claimable a t). }
  rewrite Hsel. destruct (claimable a t); cbn [length Nat.eqb];
    wp_step; (eapply wp_GetTask; [done|]); apply wp_ret; auto.
Qed.

Lemma claim_owner c cs t :
  Forall (λ c, claimant c ≠ "") (c :: cs) →
  task_owner (claim_row c t).1 cs = task_owner t (c :: cs) ∧
  (claim_row c t).2 = (claimant c =s task_owner t (c :: cs)).
Proof.
  intros [Hc _]%Forall_cons. destruct c as [[now a] l]. unfold claim_row, task_owner, claimable, claimant in *.
  cbn in Hc. cbn [fst snd]. apply eqb_neq_str in Hc.
  destruct (AssigneeID t =s "") eqn:E1; cbn.
  - by rewrite Hc, eqb_refl_str.
  - destruct (AssigneeID t =s a) eqn:E2; cbn.
    + rewrite Hc. reflect_bools. subst. by rewrite eqb_refl_str.
    + rewrite E1. split; [done|]. by rewrite eqb_sym_str, E2.
Qed.


End tasks.

(** ** Witnesses *)

Definition task_a : Task := zero |> set_ID "tsk_1" |> set_Summary "fix" |> set_State "todo"
  |> set_Target "general" |> set_Version 1 |> set_CreatedUnix 10.

Definition task_store : @Store list_engine := set_tasks (Eng := list_engine) [task_a] empty_store.

Lemma task_ops_keep_table_witness :
  wp (Eng := list_engine)
    (run_task_op (Uni := ascii_unicode) (OpUpdateTask 20 "tsk_1"
       (TaskPatch.set_State (Some " Cancelled ") TaskPatch.zero)))
    (λ _ s', progress (task_step (Uni := ascii_unicode)) (task_ok (Uni := ascii_unicode)) task_store s')
    task_store.
Proof.
  apply (task_ops_keep_table (Eng := list_engine)); [reflexivity|].
  apply Forall_singleton. repeat split. discriminate.
Defined.

