(* ===== verification/TaskAttempts.v ===== *)
(** * Task attempts ([internal/storage/store.go])

    One row per task and attempt number, created by the claim or by the run,
    whichever is heard of first. *)
From S2P Require Import Prelude GoStr Sql Json Models Schema Store.
Import TaskAttempt.

Definition TaskAttemptStatusClaimed := "claimed".
Definition TaskAttemptStatusRunning := "running".
Definition TaskAttemptStatusCompleted := "completed".
Definition TaskAttemptStatusFailed := "failed".
Definition TaskAttemptStatusCanceled := "canceled".

Definition validTaskAttemptStatuses (s : string) : bool :=
  (s =s TaskAttemptStatusClaimed) || (s =s TaskAttemptStatusRunning) ||
  (s =s TaskAttemptStatusCompleted) || (s =s TaskAttemptStatusFailed) ||
  (s =s TaskAttemptStatusCanceled).

Definition normalizeTaskAttemptStatus `{!Unicode} (status : string) : string :=
  let status := ToLower (TrimSpace status) in
  if status =s "cancelled" then TaskAttemptStatusCanceled else status.

Definition validTaskAttemptStatus `{!Unicode} (status : string) : bool :=
  validTaskAttemptStatuses (normalizeTaskAttemptStatus status).

Definition terminalTaskAttemptStatus `{!Unicode} (status : string) : bool :=
  let status := normalizeTaskAttemptStatus status in
  (status =s TaskAttemptStatusCompleted) || (status =s TaskAttemptStatusFailed) ||
  (status =s TaskAttemptStatusCanceled).

Definition taskAttemptFromEnt (row : TaskAttempt) : TaskAttempt :=
  mk (ID row) (TaskID row) (Attempt row) (RunID row) (AgentID row) (ClaimLeaseID row)
     (Status row) (OutputJSON row) (OutputDigest row) (OutputSignature row)
     (SignaturePublicKey row) (ErrorMessage row) (ClaimedUnix row) (StartedUnix row)
     (CompletedUnix row) (UpdatedUnix row).

Section attempts.
Context {Eng : SqlEngine} {Uni : Unicode}.

(** The trims both operations start with. *)
Definition trim_attempt (attempt : TaskAttempt) : TaskAttempt :=
  attempt |> set_TaskID (TrimSpace (TaskID attempt))
          |> set_RunID (TrimSpace (RunID attempt))
          |> set_AgentID (TrimSpace (AgentID attempt))
          |> set_ClaimLeaseID (TrimSpace (ClaimLeaseID attempt)).

(** [Where(TaskIDEQ, AttemptEQ)]. *)
Definition attempt_key (taskID : string) (attempt : Z) (r : TaskAttempt) : bool :=
  (TaskID r =s taskID) && (Attempt r =? attempt)%Z.

(** [status], or [default] for none. *)
Definition status_or (default : string) (status : string) : string :=
  let status := normalizeTaskAttemptStatus status in
  if status =s "" then default else status.

Definition claim_update (now : Z) (status : string) (attempt existing : TaskAttempt)
    (r : TaskAttempt) : TaskAttempt :=
  r |> set_Status status
    |> set_UpdatedUnix now
    |> when (RunID attempt <>s "") (set_RunID (RunID attempt))
    |> when (AgentID attempt <>s "") (set_AgentID (AgentID attempt))
    |> when (ClaimLeaseID attempt <>s "") (set_ClaimLeaseID (ClaimLeaseID attempt))
    |> when (ClaimedUnix existing =? 0)%Z (set_ClaimedUnix now).

Definition RecordTaskAttemptClaim (now : Z) (fresh_id : string) (attempt : TaskAttempt) :
    M TaskAttempt :=
  let attempt := trim_attempt attempt in
  _ ← guard (negb ((TaskID attempt =s "") || (Attempt attempt =? 0)%Z)) ErrInvalid;
  let status := status_or TaskAttemptStatusClaimed (Status attempt) in
  _ ← guard (validTaskAttemptStatus status) ErrInvalid;
  try (ent_only (attempt_key (TaskID attempt) (Attempt attempt))) (λ res,
    match res with
    | inr existing =>
        row ← ent_update_one (ID existing) true (claim_update now status attempt existing);
        mret (taskAttemptFromEnt row)
    | inl e =>
        if negb (IsNotFound e) then throw e else
        let claimedUnix := if (ClaimedUnix attempt =? 0)%Z then now else ClaimedUnix attempt in
        try (ent_create (zero
          |> set_ID fresh_id
          |> set_TaskID (TaskID attempt)
          |> set_Attempt (Attempt attempt)
          |> set_RunID (RunID attempt)
          |> set_AgentID (AgentID attempt)
          |> set_ClaimLeaseID (ClaimLeaseID attempt)
          |> set_Status status
          |> set_ClaimedUnix claimedUnix
          |> set_UpdatedUnix now
          |> when (ID attempt <>s "") (set_ID (ID attempt)))) (λ res,
          match res with
          | inr row => mret (taskAttemptFromEnt row)
          | inl e =>
              if IsConstraintError e then
                row ← ent_only (attempt_key (TaskID attempt) (Attempt attempt));
                mret (taskAttemptFromEnt row)
              else throw e
          end)
    end).

Definition lookupTaskAttempt (taskID : string) (attempt : Z) (runID : string) : M TaskAttempt :=
  let by_attempt := or_not_found (ent_only (attempt_key taskID attempt)) in
  if runID <>s "" then
    try (ent_only (λ r, RunID r =s runID)) (λ res,
      match res with
      | inr row => mret row
      | inl e => if negb (IsNotFound e) then throw e else by_attempt
      end)
  else by_attempt.

Definition run_update (now : Z) (status outputJSON : string) (u existing : TaskAttempt)
    (r : TaskAttempt) : TaskAttempt :=
  r |> set_Status status
    |> set_UpdatedUnix now
    |> when (RunID u <>s "") (set_RunID (RunID u))
    |> when (AgentID u <>s "") (set_AgentID (AgentID u))
    |> when (ClaimLeaseID u <>s "") (set_ClaimLeaseID (ClaimLeaseID u))
    |> when (outputJSON <>s "") (set_OutputJSON outputJSON)
    |> when (OutputDigest u <>s "") (set_OutputDigest (OutputDigest u))
    |> when (OutputSignature u <>s "") (set_OutputSignature (OutputSignature u))
    |> when (SignaturePublicKey u <>s "") (set_SignaturePublicKey (SignaturePublicKey u))
    |> when (ErrorMessage u <>s "") (set_ErrorMessage (ErrorMessage u))
    |> when (ClaimedUnix existing =? 0)%Z (set_ClaimedUnix now)
    |> when ((StartedUnix existing =? 0)%Z && (status <>s TaskAttemptStatusClaimed))
         (set_StartedUnix now)
    |> when (terminalTaskAttemptStatus status && (CompletedUnix existing =? 0)%Z)
         (set_CompletedUnix now).

(** The row [UpdateTaskAttemptFromRun] creates when it finds none. *)
Definition attempt_from_run (now : Z) (fresh_id status outputJSON : string) (u : TaskAttempt) :
    TaskAttempt :=
  let claimedUnix := if (ClaimedUnix u =? 0)%Z then now else ClaimedUnix u in
  let startedUnix :=
    if (StartedUnix u =? 0)%Z && (status <>s TaskAttemptStatusClaimed) then now else StartedUnix u in
  let completedUnix :=
    if (CompletedUnix u =? 0)%Z && terminalTaskAttemptStatus status then now else CompletedUnix u in
  mk fresh_id (TaskID u) (Attempt u) (RunID u) (AgentID u) (ClaimLeaseID u) status outputJSON
     (OutputDigest u) (OutputSignature u) (SignaturePublicKey u) (ErrorMessage u)
     claimedUnix startedUnix completedUnix now.

Definition UpdateTaskAttemptFromRun (now : Z) (fresh_id : string) (updateAttempt : TaskAttempt) :
    M TaskAttempt :=
  let u := trim_attempt updateAttempt in
  _ ← guard (negb ((TaskID u =s "") || (Attempt u =? 0)%Z)) ErrInvalid;
  let status := status_or TaskAttemptStatusRunning (Status u) in
  _ ← guard (validTaskAttemptStatus status) ErrInvalid;
  match normalizeOptionalJSON (OutputJSON u) with
  | inl e => throw e
  | inr outputJSON =>
      try (lookupTaskAttempt (TaskID u) (Attempt u) (RunID u)) (λ res,
        match res with
        | inl e =>
            if negb (bool_decide (e = ErrNotFound)) then throw e else
            row ← ent_create (attempt_from_run now fresh_id status outputJSON u);
            mret (taskAttemptFromEnt row)
        | inr existing =>
            row ← ent_update_one (ID existing) true (run_update now status outputJSON u existing);
            mret (taskAttemptFromEnt row)
        end)
  end.

Definition ListTaskAttempts (taskID : string) : M (list TaskAttempt) :=
  let taskID := TrimSpace taskID in
  _ ← guard (taskID <>s "") ErrInvalid;
  nodes ← ent_query (λ r, TaskID r =s taskID) [AscZ Attempt] 0 None;
  mret (taskAttemptFromEnt <$> nodes).

(** ** Specification *)

Definition attempt_ok (r : TaskAttempt) : Prop :=
  validTaskAttemptStatus (Status r) = true ∧ TaskID r ≠ "" ∧ Attempt r ≠ 0%Z.

(** An instant that is written once. *)
Definition write_once (a b : Z) : Prop := a = b ∨ a = 0%Z.

Definition attempt_step (r r' : TaskAttempt) : Prop :=
  ID r' = ID r ∧ TaskID r' = TaskID r ∧ Attempt r' = Attempt r ∧
  write_once (ClaimedUnix r) (ClaimedUnix r') ∧
  write_once (StartedUnix r) (StartedUnix r') ∧
  write_once (CompletedUnix r) (CompletedUnix r') ∧
  (validTaskAttemptStatus (Status r) = true → validTaskAttemptStatus (Status r') = true).

Inductive attempt_op :=
| OpRecordClaim (now : Z) (id : string) (a : TaskAttempt)
| OpUpdateFromRun (now : Z) (id : string) (a : TaskAttempt)
| OpListAttempts (taskID : string).

Definition run_attempt_op (op : attempt_op) : M unit :=
  match op with
  | OpRecordClaim n i a => _ ← RecordTaskAttemptClaim n i a; mret ()
  | OpUpdateFromRun n i a => _ ← UpdateTaskAttemptFromRun n i a; mret ()
  | OpListAttempts t => _ ← ListTaskAttempts t; mret ()
  end.

(** ** Correctness *)

Context {Laws : SqlLaws}.

#[local] Instance attempt_step_refl : Reflexive attempt_step.
Proof. intros r. unfold attempt_step, write_once. tauto. Qed.

Lemma attempt_step_ok r r' : attempt_ok r → attempt_step r r' → attempt_ok r'.
Proof. unfold attempt_ok, attempt_step. intros (?&?&?) (?&->&->&_&_&_&?). auto. Qed.

Lemma write_once_when (b : bool) now z : (b = true → z = 0%Z) → write_once z (if b then now else z).
Proof. destruct b; [right; auto|by left]. Qed.

Lemma claim_update_step now status a r :
  validTaskAttemptStatus status = true → attempt_step r (claim_update now status a r r).
Proof.
  intros Hs. unfold attempt_step, claim_update, when, write_once.
  repeat case_match; reflect_bools; cbn; auto 10.
Qed.

Lemma run_update_step now status out u r :
  validTaskAttemptStatus status = true → attempt_step r (run_update now status out u r r).
Proof.
  intros Hs. unfold attempt_step, run_update, write_once.
  through ID. through TaskID. through Attempt. through Status.
  through ClaimedUnix. rewrite (when_field ClaimedUnix). cbn [ClaimedUnix set_ClaimedUnix].
  through ClaimedUnix. through StartedUnix. rewrite (when_field StartedUnix).
  cbn [StartedUnix set_StartedUnix]. through StartedUnix.
  rewrite (when_field CompletedUnix). cbn [CompletedUnix set_CompletedUnix]. through CompletedUnix.
  cbn. repeat case_match; reflect_bools; auto 10.
Qed.

Lemma keeps_claim_update now status a e : keeps_keys (claim_update now status a e).
Proof. solve_keeps. Qed.

Lemma keeps_run_update now status out u e : keeps_keys (run_update now status out u e).
Proof. solve_keeps. Qed.

Lemma wp_lookupTaskAttempt t a i s (Q : error + TaskAttempt → Store → Prop) :
  (∀ e, Q (inl e) s) → (∀ r, r ∈ rows TaskAttempt s → Q (inr r) s) →
  wp (lookupTaskAttempt t a i) Q s.
Proof.
  intros He Hr. unfold lookupTaskAttempt. wp_steps; try apply He; apply Hr;
    (eapply proj1, bfilter_singleton_inv; eassumption).
Qed.

Lemma status_or_valid default status :
  status_or default status = default ∨ status_or default status = normalizeTaskAttemptStatus status.
Proof. unfold status_or. destruct (_ =s ""); auto. Qed.

Lemma guard_attempt taskID (attempt : Z) :
  negb ((taskID =s "") || (attempt =? 0)%Z) = true → taskID ≠ "" ∧ attempt ≠ 0%Z.
Proof. by intros [? ?]%negb_true_iff%orb_false_iff; reflect_bools. Qed.

(** Every operation on attempts keeps the table in order: there is one row per
    task and attempt number, its status stays one of the five, rows never disappear
    or change task or number, and the claim, start and completion times are each
    written at most once. *)
Theorem attempt_ops_keep_table op s :
  unique_rows (rows TaskAttempt s) = true → Forall attempt_ok (rows TaskAttempt s) →
  wp (run_attempt_op op) (λ _ s', progress attempt_step attempt_ok s s') s.
Proof.
  intros Hu Hok. destruct op as [n i a|n i a|t]; cbn [run_attempt_op].
  - unfold RecordTaskAttemptClaim. set (u := trim_attempt a).
    wp_steps; try unchanged; try apply keeps_claim_update.
    + inserted. apply guard_attempt in H as [? ?]. unfold attempt_ok. subst row.
      through Status. through TaskID. by through Attempt.
    + updated attempt_step_ok. intros x Hx _ Hid. reflect_bools.
      apply bfilter_singleton_inv in H1 as (Hr & _ & _).
      rewrite (unique_id_eq _ x r Hu Hx Hr Hid). by apply claim_update_step.
  - unfold UpdateTaskAttemptFromRun. set (u := trim_attempt a). wp_steps; try unchanged.
    apply wp_lookupTaskAttempt; [intros e|intros r Hr]; wp_steps; try unchanged;
      try apply keeps_run_update.
    + inserted. apply guard_attempt in H as [? ?]. done.
    + updated attempt_step_ok. intros x Hx _ Hid. reflect_bools.
      rewrite (unique_id_eq _ x r Hu Hx Hr Hid). by apply run_update_step.
  - unfold ListTaskAttempts. wp_steps; unchanged.
Qed.

(** The row an attempt leaves behind. *)
Definition one_attempt (a row : TaskAttempt) (s : Store) : Prop :=
  bfilter (attempt_key (TrimSpace (TaskID a)) (Attempt a)) (rows TaskAttempt s) = [row].

(** What recording a claim owes: the row it returns is the attempt's only row, and
    an attempt that had a row gets no other and keeps its first claim time. *)
Definition claim_recorded (a : TaskAttempt) (s : Store) (r : error + TaskAttempt) (s' : Store) : Prop :=
  (∀ row, r = inr row → one_attempt a row s') ∧
  (∀ old, one_attempt a old s → length (rows TaskAttempt s') = length (rows TaskAttempt s) ∧
     ∀ row, r = inr row → ID row = ID old ∧ write_once (ClaimedUnix old) (ClaimedUnix row)).

Lemma claim_recorded_error a s e : claim_recorded a s (inl e) s.
Proof. done. Qed.

Lemma taskAttemptFromEnt_id r : taskAttemptFromEnt r = r.
Proof. by destruct r. Qed.

(** Recording a claim is idempotent for a task and an attempt number: when it
    succeeds the table has exactly one row for them, which is the row returned;
    and if there was one already, no row is added and its first claim time stays. *)
Theorem RecordTaskAttemptClaim_idempotent now id a s :
  unique_rows (rows TaskAttempt s) = true →
  wp (RecordTaskAttemptClaim now id a) (claim_recorded a s) s.
Proof.
  intros Hu. unfold RecordTaskAttemptClaim. set (u := trim_attempt a).
  wp_steps; try apply keeps_claim_update; try apply claim_recorded_error;
    rewrite ?taskAttemptFromEnt_id; unfold claim_recorded, one_attempt;
    change (TrimSpace (TaskID a)) with (TaskID u); change (Attempt a) with (Attempt u).
  - congruence.
  - split; [|intros old Ho; congruence]. intros _ [= <-].
    assert (attempt_key (TaskID u) (Attempt u) row = true) as Hkey.
    { unfold attempt_key. subst row. through TaskID. through Attempt. cbn.
      by rewrite eqb_refl_str, Z.eqb_refl. }
    rewrite rows_put, H4, bfilter_app, H1. cbn [bfilter app]. by rewrite Hkey.
  - assert (r0 = r) as ->.
    { apply bfilter_singleton_inv in H1 as (Hr & _ & _), H3 as (Hr0 & He & _). reflect_bools.
      by apply (unique_id_eq _ _ _ Hu Hr0 Hr). }
    set (f := claim_update _ _ _ _) in *.
    assert (∀ x, attempt_key (TaskID u) (Attempt u) (f x) = attempt_key (TaskID u) (Attempt u) x) as Hk.
    { intros x. unfold attempt_key, f, claim_update. through TaskID. by through Attempt. }
    assert (claim_update now (status_or TaskAttemptStatusClaimed (Status u)) u r r = f r) as Hf by done.
    split.
    + intros _ [= <-]. rewrite rows_put, H4, bfilter_update, H1 by done.
      unfold update_rows. cbn [map]. by rewrite eqb_refl_str.
    + intros old Ho. assert (old = r) as -> by congruence. split.
      * rewrite rows_put, H4. unfold update_rows. apply length_map.
      * intros _ [= <-]. destruct (claim_update_step now _ u r H0) as (? & _ & _ & ? & _). done.
Qed.

End attempts.

(** ** Witnesses *)

Definition attempt_a : TaskAttempt := zero |> set_ID "tat_1" |> set_TaskID "tsk_1"
  |> set_Attempt 1 |> set_Status "claimed" |> set_ClaimedUnix 5.

Definition attempt_store : @Store list_engine :=
  set_task_attempts (Eng := list_engine) [attempt_a] empty_store.

Lemma attempt_ops_keep_table_witness :
  wp (Eng := list_engine)
    (run_attempt_op (Uni := ascii_unicode) (OpUpdateFromRun 9 "tat_2" (set_Status "DONE" attempt_a)))
    (λ _ s', progress (attempt_step (Uni := ascii_unicode)) (attempt_ok (Uni := ascii_unicode))
       attempt_store s') attempt_store.
Proof.
  apply (attempt_ops_keep_table (Eng := list_engine)); [reflexivity|].
  apply Forall_singleton. repeat split; discriminate.
Defined.

Lemma RecordTaskAttemptClaim_idempotent_witness :
  wp (Eng := list_engine) (RecordTaskAttemptClaim (Uni := ascii_unicode) 9 "tat_2" attempt_a)
    (claim_recorded attempt_a attempt_store) attempt_store.
Proof. apply (RecordTaskAttemptClaim_idempotent (Eng := list_engine)). reflexivity. Defined.
