(* ===== verification/Events.v ===== *)
(** * Collaboration events ([internal/storage/store.go])

    The per-server event log: [AppendCollaborationEvent] numbers events by reading
    the last number and inserting the next one, and retries when another writer
    took it.  Its transaction has two statements, and the second part of the file
    interleaves those statements between any number of appenders. *)
From S2P Require Import Prelude GoStr Sql Models Schema Store.
Import CollaborationEvent.

Definition collaborationEventFromEnt (row : CollaborationEvent) : CollaborationEvent :=
  mk (ID row) (ServerID row) (Sequence row) (EventID row) (Target row) (AggregateID row)
     (Kind row) (Operation row) (ScopeType row) (ScopeID row) (WorkspaceID row)
     (ActivityID row) (PayloadJSON row) (CreatedUnix row) (ProtocolVersion row).

Section events.
Context {Eng : SqlEngine}.

(** The defaults the function fills in before its loop. *)
Definition prepare_event (clock : Z) (fresh_event_id : string) (event : CollaborationEvent) :
    CollaborationEvent :=
  let event := event |> when (EventID event =s "") (set_EventID fresh_event_id) in
  let event := event |> when (CreatedUnix event =? 0)%Z (set_CreatedUnix clock) in
  let event := event |> when (ProtocolVersion event =? 0)%Z (set_ProtocolVersion 1) in
  let event := event |> when (PayloadJSON event =s "") (set_PayloadJSON "{}") in
  event |> when (ScopeID event =s "")
             (set_ScopeID (firstNonEmpty [AggregateID event; Target event])).

(** The first statement of an attempt. *)
Definition next_sequence (serverID : string) : M Z :=
  try (ent_first (λ r, ServerID r =s serverID) [DescZ Sequence]) (λ res,
    match res with
    | inl e => if IsNotFound e then mret 1%Z else throw e
    | inr last => mret (i64 (Sequence last + 1))
    end).

(** The second one. *)
Definition insert_event (row_id : string) (event : CollaborationEvent) (sequence : Z) :
    M CollaborationEvent :=
  ent_create (zero
    |> set_ID row_id
    |> set_ServerID (ServerID event)
    |> set_Sequence sequence
    |> set_EventID (EventID event)
    |> set_Target (Target event)
    |> set_AggregateID (AggregateID event)
    |> set_Kind (Kind event)
    |> set_Operation (Operation event)
    |> set_ScopeType (ScopeType event)
    |> set_ScopeID (ScopeID event)
    |> set_WorkspaceID (WorkspaceID event)
    |> set_ActivityID (ActivityID event)
    |> set_PayloadJSON (PayloadJSON event)
    |> set_CreatedUnix (CreatedUnix event)
    |> set_ProtocolVersion (ProtocolVersion event)).

(** The retry loop; [row_id] draws the row's identifier of each attempt. *)
Fixpoint append_loop (attempts : nat) (row_id : nat → string) (event : CollaborationEvent) :
    M CollaborationEvent :=
  match attempts with
  | 0 => throw ErrConflict
  | S attempts' =>
      try (in_tx (λ _, true) (
             sequence ← next_sequence (ServerID event);
             insert_event (row_id attempts') event sequence)) (λ res,
        match res with
        | inr row => mret (collaborationEventFromEnt row)
        | inl e => if IsConstraintError e then append_loop attempts' row_id event else throw e
        end)
  end.

Definition append_attempts : nat := 5.

Definition AppendCollaborationEvent (clock : Z) (fresh_event_id : string) (row_id : nat → string)
    (event : CollaborationEvent) : M CollaborationEvent :=
  _ ← guard (ServerID event <>s "") (ErrText "server_id is required");
  append_loop append_attempts row_id (prepare_event clock fresh_event_id event).

Definition ListCollaborationEvents (serverID target aggregateID : string) (afterSequence limit : Z) :
    M (list CollaborationEvent) :=
  let limit := bounded_limit limit 200 100 in
  nodes ← ent_query
    (λ r, (ServerID r =s serverID) && (afterSequence <? Sequence r)%Z &&
          (if target <>s "" then Target r =s target else true) &&
          (if aggregateID <>s "" then AggregateID r =s aggregateID else true))
    [AscZ Sequence] 0 (Some (Z.to_nat limit));
  mret (collaborationEventFromEnt <$> nodes).

Definition ListRecentCollaborationEvents (serverID target kind : string) (limit : Z) :
    M (list CollaborationEvent) :=
  let limit := bounded_limit limit 200 100 in
  nodes ← ent_query
    (λ r, (ServerID r =s serverID) &&
          (if target <>s "" then Target r =s target else true) &&
          (if kind <>s "" then Kind r =s kind else true))
    [DescZ Sequence] 0 (Some (Z.to_nat limit));
  mret (collaborationEventFromEnt <$> nodes).

(** ** Concurrent appenders *)

Inductive phase :=
| Begin
| Numbered (sequence : Z)
| Finished (result : error + CollaborationEvent).

(** One call in progress: its prepared event and the attempts it has left. *)
Record appender := mkAppender {
  ap_event : CollaborationEvent;
  ap_row_id : nat → string;
  ap_left : nat;
  ap_phase : phase
}.

Definition with_phase (p : appender) (left : nat) (ph : phase) : appender :=
  mkAppender (ap_event p) (ap_row_id p) left ph.

(** The call's next statement. *)
Definition appender_step (p : appender) : M appender :=
  match ap_phase p, ap_left p with
  | Finished _, _ => mret p
  | Begin, 0 => mret (with_phase p 0 (Finished (inl ErrConflict)))
  | Begin, S k =>
      try (next_sequence (ServerID (ap_event p))) (λ res,
        match res with
        | inl e => mret (with_phase p (S k) (Finished (inl e)))
        | inr sequence => mret (with_phase p (S k) (Numbered sequence))
        end)
  | Numbered sequence, k =>
      try (insert_event (ap_row_id p (pred k)) (ap_event p) sequence) (λ res,
        match res with
        | inr row => mret (with_phase p (pred k) (Finished (inr (collaborationEventFromEnt row))))
        | inl e =>
            if IsConstraintError e then mret (with_phase p (pred k) Begin)
            else mret (with_phase p (pred k) (Finished (inl e)))
        end)
  end.

Definition system : Type := Store * list appender.

(** Any call in progress executes its next statement, or a new call starts. *)
Inductive system_step : system → system → Prop :=
| call_step s ps i p p' s' :
    ps !! i = Some p → appender_step p s = (inr p', s') →
    system_step (s, ps) (s', <[i := p']> ps)
| call_starts s ps clock id row_id event :
    ServerID event ≠ "" →
    system_step (s, ps)
      (s, ps ++ [mkAppender (prepare_event clock id event) row_id append_attempts Begin]).

(** The numbers of a server's events, in the order they were written. *)
Definition sequences (server : string) (s : Store) : list Z :=
  Sequence <$> bfilter (λ r, ServerID r =s server) (rows CollaborationEvent s).

(** Numbered 1, 2, 3, ... with no gap and no repetition. *)
Definition gap_free (s : Store) : Prop :=
  ∀ server, sequences server s = seqZ 1 (Z.of_nat (length (sequences server s))).

(** ** Correctness *)

Context {Laws : SqlLaws}.

(** How many events a server has. *)
Definition count (server : string) (s : Store) : Z := Z.of_nat (length (sequences server s)).

Lemma gap_free_in s server k :
  gap_free s → k ∈ sequences server s ↔ (1 ≤ k ≤ count server s)%Z.
Proof. intros Hg. rewrite Hg, elem_of_seqZ. unfold count. lia. Qed.

Lemma elem_of_sequences s server k :
  k ∈ sequences server s ↔
  ∃ r, r ∈ rows CollaborationEvent s ∧ ServerID r = server ∧ Sequence r = k.
Proof.
  unfold sequences. rewrite list_elem_of_fmap. split.
  - intros (r & -> & [Hr Hs]%elem_of_bfilter). reflect_bools. eauto.
  - intros (r & Hr & <- & <-). exists r. split; [done|]. apply elem_of_bfilter.
    by rewrite eqb_refl_str.
Qed.

(** The first statement reads the number after the last one. *)
Lemma wp_next_sequence server s (Q : error + Z → Store → Prop) :
  gap_free s → Q (inr (i64 (count server s + 1))) s → wp (next_sequence server) Q s.
Proof.
  intros Hg HQ. unfold next_sequence. wp_step. wp_step; cbn beta iota.
  - change (IsNotFound EntNotFound) with true. cbn beta iota. wp_step.
    unfold count, sequences in HQ. rewrite H in HQ. exact HQ.
  - wp_step. assert (Sequence r = count server s) as ->; [|done].
    assert (∀ x, x ∈ r :: l → (Sequence x ≤ Sequence r)%Z) as Hmax.
    { apply StronglySorted_inv in H0 as [_ Hall]. intros x [->|Hx]%elem_of_cons; [done|].
      rewrite Forall_forall in Hall. specialize (Hall x Hx). cbn in Hall.
      destruct (Z.ltb_spec (Sequence x) (Sequence r)); [lia|].
      destruct (Z.ltb_spec (Sequence r) (Sequence x)); [done|lia]. }
    assert (r ∈ bfilter (λ r, ServerID r =s server) (rows CollaborationEvent s)) as Hr
      by (rewrite <-H; by left).
    assert (Sequence r ∈ sequences server s) as Hin by by apply list_elem_of_fmap_2.
    rewrite gap_free_in in Hin by done.
    assert (count server s ∈ sequences server s) as Hlast by (apply gap_free_in; [done|lia]).
    unfold sequences in Hlast. apply list_elem_of_fmap in Hlast as (y & Hy & Hyin).
    rewrite <-H in Hyin. apply Hmax in Hyin. lia.
Qed.

(** The second one appends the next number or nothing. *)
Lemma wp_insert_event id ev q s (Q : error + CollaborationEvent → Store → Prop) :
  gap_free s → unique_rows (rows CollaborationEvent s) = true →
  (q ≤ count (ServerID ev) s + 1)%Z →
  (∀ e, Q (inl e) s) →
  (∀ row s', ServerID row = ServerID ev → EventID row = EventID ev →
     Sequence row = q → q = (count (ServerID ev) s + 1)%Z → ID row = id →
     rows CollaborationEvent s' = rows CollaborationEvent s ++ [row] →
     unique_rows (rows CollaborationEvent s') = true → open_txs s' = open_txs s →
     Q (inr row) s') →
  wp (insert_event id ev q) Q s.
Proof.
  intros Hg Hu Hq He Hr. unfold insert_event. wp_step; [auto..|].
  assert (ServerID row = ServerID ev ∧ Sequence row = q) as [Es Eq] by done.
  apply Hr; [done|done|done| |done| | |by rewrite open_put].
  - cbn in H. unfold CollaborationEvent_check in H. rewrite Es, Eq in H. reflect_bools.
    assert (q ∉ sequences (ServerID ev) s) as Hn.
    { intros (x & Hx & Hs & Hk)%elem_of_sequences. apply has_clash_false with (r' := x) in H0; [|done].
      unfold clash in H0. cbn in H0. unfold CollaborationEvent_unique in H0.
      rewrite Es, Eq, Hs, Hk, eqb_refl_str, Z.eqb_refl in H0. cbn in H0.
      by rewrite orb_true_r in H0. }
    rewrite gap_free_in in Hn by done. lia.
  - by rewrite rows_put.
  - rewrite rows_put, H1. by apply unique_app_one.
Qed.

Lemma gap_free_append s s' row :
  gap_free s → rows CollaborationEvent s' = rows CollaborationEvent s ++ [row] →
  Sequence row = (count (ServerID row) s + 1)%Z →
  gap_free s' ∧ (∀ server, (count server s ≤ count server s')%Z).
Proof.
  intros Hg Hr Hq.
  assert (∀ server, sequences server s' =
    sequences server s ++ (if ServerID row =s server then [Sequence row] else [])) as Hs.
  { intros server. unfold sequences. rewrite Hr, bfilter_app, fmap_app. simpl. by destruct (_ =s _). }
  split.
  - intros server. rewrite Hs, length_app. destruct (ServerID row =s server) eqn:E; reflect_bools.
    + subst server. rewrite Nat2Z.inj_add, seqZ_app by lia.
      f_equal; [apply Hg|]. rewrite Hq. unfold count. cbn. by rewrite Z.add_comm.
    + rewrite Nat.add_0_r, app_nil_r. apply Hg.
  - intros server. unfold count. rewrite Hs, length_app. lia.
Qed.

(** *** Any interleaving *)

Definition appender_inv (s : Store) (p : appender) : Prop :=
  match ap_phase p with
  | Begin => True
  | Numbered q => (q ≤ count (ServerID (ap_event p)) s + 1)%Z
  | Finished (inl _) => True
  | Finished (inr row) => row ∈ rows CollaborationEvent s
  end.

(** Two successful calls for one server got different numbers. *)
Definition apart (p p' : appender) : Prop :=
  ∀ r r', ap_phase p = Finished (inr r) → ap_phase p' = Finished (inr r') →
    ServerID r = ServerID r' → Sequence r ≠ Sequence r'.

Definition system_inv (σ : system) : Prop :=
  gap_free σ.1 ∧ unique_rows (rows CollaborationEvent σ.1) = true ∧
  (∀ i p, σ.2 !! i = Some p → appender_inv σ.1 p) ∧
  (∀ i j p p', i ≠ j → σ.2 !! i = Some p → σ.2 !! j = Some p' → apart p p').

(** What one statement of a call does: the table is untouched, or it gets one row
    that the call returns and whose number is the next one. *)
Definition statement (p : appender) (s : Store) (p' : appender) (s' : Store) : Prop :=
  appender_inv s' p' ∧ unique_rows (rows CollaborationEvent s') = true ∧ gap_free s' ∧
  ((rows CollaborationEvent s' = rows CollaborationEvent s ∧
    (∀ r, ap_phase p' = Finished (inr r) → p' = p)) ∨
   ∃ r, ap_phase p' = Finished (inr r) ∧ Sequence r = (count (ServerID r) s + 1)%Z ∧
     rows CollaborationEvent s' = rows CollaborationEvent s ++ [r]).

Lemma collaborationEventFromEnt_id r : collaborationEventFromEnt r = r.
Proof. by destruct r. Qed.

Lemma i64_next n : (0 ≤ n)%Z → (i64 (n + 1) ≤ n + 1)%Z.
Proof. intros Hn. unfold i64. pose proof (Z.mod_le (n + 1 + 2 ^ 63) (2 ^ 64)). lia. Qed.

Lemma wp_appender_step p s :
  gap_free s → unique_rows (rows CollaborationEvent s) = true → appender_inv s p →
  wp (appender_step p) (λ r s', ∃ p', r = inr p' ∧ statement p s p' s') s.
Proof.
  intros Hg Hu Hi.
  assert (∀ k ph, (∀ r, ph ≠ Finished (inr r)) → (∀ q, ph ≠ Numbered q) →
    statement p s (with_phase p k ph) s) as Hquiet.
  { intros k ph H1 H2. split; [|split; [done|split; [done|left; split; [done|]]]].
    - destruct ph as [| |[]]; naive_solver.
    - intros r Hr. by destruct (H1 r). }
  unfold appender_step. destruct (ap_phase p) as [|q|res] eqn:E.
  - destruct (ap_left p) as [|k]; wp_step; [eexists; split; [done|by apply Hquiet]|].
    apply wp_next_sequence; [done|]. wp_step. eexists. split; [done|].
    split; [|split; [done|split; [done|by left]]].
    apply i64_next. unfold count. lia.
  - wp_step. unfold appender_inv in Hi. rewrite E in Hi. apply wp_insert_event; [done..| |].
    + intros e. wp_step; wp_step; eexists; (split; [done|by apply Hquiet]).
    + intros row s' Hs _ Hq Hq' _ Hr Hu' _. wp_step. rewrite collaborationEventFromEnt_id.
      eexists. split; [done|]. rewrite Hq' in Hq. rewrite <-Hs in Hq.
      split; [|split; [done|split; [by eapply gap_free_append|right; by exists row]]].
      cbn. rewrite Hr. apply elem_of_app. right. by left.
  - wp_step. exists p. split; [done|]. split; [done|]. split; [done|]. split; [done|]. by left.
Qed.

Lemma count_mono s s' server :
  (∃ rs, rows CollaborationEvent s' = rows CollaborationEvent s ++ rs) →
  (count server s ≤ count server s')%Z.
Proof.
  intros [rs Hr]. unfold count, sequences. rewrite Hr, bfilter_app, fmap_app, length_app. lia.
Qed.

Lemma appender_inv_mono s s' p :
  (∃ rs, rows CollaborationEvent s' = rows CollaborationEvent s ++ rs) →
  appender_inv s p → appender_inv s' p.
Proof.
  intros Hr. unfold appender_inv. destruct (ap_phase p) as [|q|[e|row]]; try done.
  - pose proof (count_mono s s' (ServerID (ap_event p)) Hr). lia.
  - destruct Hr as [rs ->]. intros ?. apply elem_of_app. by left.
Qed.

Lemma row_sequence_le s r :
  gap_free s → r ∈ rows CollaborationEvent s → (Sequence r ≤ count (ServerID r) s)%Z.
Proof.
  intros Hg Hr. assert (Sequence r ∈ sequences (ServerID r) s) as H
    by (apply elem_of_sequences; eauto). apply gap_free_in in H; [lia|done].
Qed.

Lemma system_inv_step σ σ' : system_inv σ → system_step σ σ' → system_inv σ'.
Proof.
  intros (Hg & Hu & Hi & Ha) Hs. destruct Hs as [s ps i p p' s' Hp Hstep|]; cbn [fst snd] in *.
  - pose proof (wp_appender_step p s Hg Hu (Hi _ _ Hp)) as Hw. unfold wp in Hw. rewrite Hstep in Hw. cbn [fst snd] in Hw.
    destruct Hw as (? & [= <-] & (Hi' & Hu' & Hg' & Hcase)).
    assert (∃ rs, rows CollaborationEvent s' = rows CollaborationEvent s ++ rs) as Hgrow.
    { destruct Hcase as [[-> _]|(r & _ & _ & ->)]; [exists []; by rewrite app_nil_r|by eexists]. }
    repeat split; [done|done| |].
    + intros j q [[-> [-> _]]|[_ Hq]]%list_lookup_insert_Some; [done|].
      eapply appender_inv_mono; [done|by eapply Hi].
    + assert (∀ j q, i ≠ j → ps !! j = Some q → apart p' q) as Hnew.
      { intros j q Hij Hq. destruct Hcase as [[_ Hsame]|(r & Hr & Hseq & _)].
        - intros r r' Hr Hr'. rewrite (Hsame _ Hr) in Hr. by eapply (Ha i j p q).
        - intros r0 r' Hr0 Hr' Hsrv. assert (r0 = r) as -> by congruence.
          specialize (Hi _ _ Hq). unfold appender_inv in Hi. rewrite Hr' in Hi.
          apply row_sequence_le in Hi; [|done]. rewrite Hseq, Hsrv. lia. }
      intros j k q q' Hjk Hj Hk.
      apply list_lookup_insert_Some in Hj as [[<- [<- _]]|[? Hj]],
        Hk as [[<- [<- _]]|[? Hk]]; [done|by apply (Hnew k)| |by apply (Ha j k)].
      intros r r' Hr Hr' Hsrv Heq. apply (Hnew j q) with r' r; congruence.
  - repeat split; [done|done| |].
    + intros i p Hp. apply lookup_app_Some in Hp as [Hp|[_ Hp]]; [by eapply Hi|].
      apply list_lookup_singleton_Some in Hp as [_ <-]. done.
    + intros i j p p' Hij Hp Hp'.
      apply lookup_app_Some in Hp as [Hp|[? Hp]], Hp' as [Hp'|[? Hp']];
        [by eapply (Ha i j)|..];
        repeat match goal with H : [_] !! _ = Some _ |- _ =>
          apply list_lookup_singleton_Some in H as [? <-] end; try done; lia.
Qed.

(** C2. However the statements of concurrent [AppendCollaborationEvent] calls
    interleave, in whatever number, each server's events stay numbered 1, 2, 3, ...
    without a gap or a repetition; every call that succeeded has its event in the
    table, and no two successful calls of one server got the same number. *)
Theorem append_sequences_gap_free s0 s ps :
  gap_free s0 → unique_rows (rows CollaborationEvent s0) = true →
  rtc system_step (s0, []) (s, ps) →
  gap_free s ∧
  (∀ i p r, ps !! i = Some p → ap_phase p = Finished (inr r) → r ∈ rows CollaborationEvent s) ∧
  (∀ i j p p', i ≠ j → ps !! i = Some p → ps !! j = Some p' → apart p p').
Proof.
  intros Hg Hu Hr.
  assert (system_inv (s, ps)) as (Hg' & _ & Hi & Ha).
  { assert (system_inv (s0, [])) as H0 by by repeat split.
    revert H0. generalize (s0, @nil appender), (s, ps), Hr. clear -Laws. intros σ σ' Hr.
    induction Hr as [|σ1 σ2 σ3 H12 _ IH]; [done|]. intros H1. by eapply IH, system_inv_step. }
  split; [done|]. split; [|done]. intros i p r Hp Hph. specialize (Hi _ _ Hp).
  unfold appender_inv in Hi. by rewrite Hph in Hi.
Qed.

(** A call that runs alone is the sequential function: its statements give the same
    result and the same store as the transaction loop. *)
Fixpoint run_alone (fuel : nat) (p : appender) : M (option (error + CollaborationEvent)) :=
  match ap_phase p with
  | Finished res => mret (Some res)
  | _ => match fuel with
         | 0 => mret None
         | S fuel => p' ← appender_step p; run_alone fuel p'
         end
  end.

Lemma commit_id (t : tbl CollaborationEvent) s :
  set_open_txs (pred (open_txs (put_tbl t (set_open_txs (S (open_txs s)) s))))
    (put_tbl t (set_open_txs (S (open_txs s)) s)) = put_tbl t s.
Proof. by destruct s. Qed.

(** Neither statement depends on the transaction it runs in. *)
Lemma next_sequence_reads server s : ∃ q, next_sequence server s = (inr q, s) ∧
  ∀ n, next_sequence server (set_open_txs n s) = (inr q, set_open_txs n s).
Proof.
  unfold next_sequence, try, ent_first, ent_query, mbind, M_bind, mret, M_ret, throw.
  destruct (select_law _ (λ r, ServerID r =s server) [DescZ Sequence] 0 (Some 1) (get_tbl s))
    as (l & _ & _ & E).
  destruct s. cbn in *. rewrite E. destruct (take 1 (drop 0 l)) as [|r l']; (eexists; by split).
Qed.

Lemma insert_event_reads id ev q s :
  (∃ e, insert_event id ev q s = (inl e, s) ∧
     ∀ n, insert_event id ev q (set_open_txs n s) = (inl e, set_open_txs n s)) ∨
  (∃ row (t : tbl CollaborationEvent), insert_event id ev q s = (inr row, put_tbl t s) ∧
     ∀ n, insert_event id ev q (set_open_txs n s) = (inr row, put_tbl t (set_open_txs n s))).
Proof.
  unfold insert_event, ent_create, ent_insert, throw. set (row := set_ProtocolVersion _ _). destruct (validators row);
    [|left; exists EntValidation; by split].
  destruct (sql_insert row (get_tbl s)) as [e|t] eqn:E.
  - left. exists e. split; [done|]. intros n. 
    change (get_tbl (set_open_txs n s)) with (get_tbl (R := CollaborationEvent) s). by rewrite E.
  - right. exists row, t. split; [done|]. intros n.
    change (get_tbl (set_open_txs n s)) with (get_tbl (R := CollaborationEvent) s). by rewrite E.
Qed.

Lemma append_alone k row_id ev s :
  let '(res, s') := append_loop k row_id ev s in
  run_alone (2 * k + 1) (mkAppender ev row_id k Begin) s = (inr (Some res), s').
Proof.
  revert s. induction k as [|k IH]; intros s; [done|].
  replace (2 * S k + 1) with (S (S (2 * k + 1))) by lia.
  cbn [append_loop run_alone ap_phase]. unfold mbind, M_bind, try, in_tx.
  unfold appender_step at 1. cbn [ap_phase ap_left ap_event]. unfold try.
  destruct (next_sequence_reads (ServerID ev) s) as (q & -> & Hq). rewrite Hq.
  cbn [mret M_ret run_alone ap_phase with_phase]. unfold mbind, M_bind.
  unfold appender_step at 1. cbn [ap_phase ap_left ap_event ap_row_id with_phase pred]. unfold try.
  destruct (insert_event_reads (row_id k) ev q s) as [(e & -> & He)|(row & t & -> & He)]; rewrite He.
  - destruct (IsConstraintError e); [exact (IH s)|].
    unfold mret, M_ret, throw. by replace (2 * k + 1) with (S (2 * k)) by lia.
  - rewrite commit_id. unfold mret, M_ret. by replace (2 * k + 1) with (S (2 * k)) by lia.
Qed.

(** *** One call at a time *)

Lemma gap_free_open n s : gap_free (set_open_txs n s) ↔ gap_free s.
Proof. done. Qed.

(** Nothing but the table and the transaction counter matters to the loop. *)
Lemma wp_append_loop k row_id ev s :
  gap_free s → unique_rows (rows CollaborationEvent s) = true →
  wp (append_loop (S k) row_id ev) (λ r s',
    open_txs s' = open_txs s ∧
    match r with
    | inl e => rows CollaborationEvent s' = rows CollaborationEvent s
    | inr row => Sequence row = (count (ServerID ev) s + 1)%Z ∧ ServerID row = ServerID ev ∧
        EventID row = EventID ev ∧
        rows CollaborationEvent s' = rows CollaborationEvent s ++ [row]
    end) s.
Proof.
  intros Hg Hu. generalize (S k). clear k. intros k. induction k as [|k IH]; cbn [append_loop].
  - by wp_step.
  - wp_step. wp_step. wp_step. apply wp_next_sequence; [done|].
    apply wp_insert_event; [done|done| | |].
    + apply i64_next. unfold count. lia.
    + intros e. cbn beta iota. wp_step; [done|by wp_step].
    + intros row s' Hs He Hq Hq' _ Hr _ Ho. cbn beta iota. wp_step.
      rewrite collaborationEventFromEnt_id. split; [|split; [by rewrite Hq, Hq'|done]].
      change (pred (open_txs s') = open_txs s). by rewrite Ho.
Qed.

(** An event whose fields pass the validators and whose row identifiers are new. *)
Definition appendable (ev : CollaborationEvent) (row_id : nat → string) (s : Store) : Prop :=
  ServerID ev ≠ "" ∧ EventID ev ≠ "" ∧ Kind ev ≠ "" ∧ (0 < ProtocolVersion ev)%Z ∧
  (count (ServerID ev) s + 1 < 2 ^ 63)%Z ∧
  ∀ k r, r ∈ rows CollaborationEvent s → ID r ≠ row_id k.

Lemma wp_append_loop_result k row_id ev s :
  gap_free s → appendable ev row_id s →
  wp (append_loop (S k) row_id ev) (λ r _,
    if bool_decide (EventID ev ∈ EventID <$> rows CollaborationEvent s)
    then r = inl ErrConflict else ∃ row, r = inr row) s.
Proof.
  intros Hg Ha. cut (∀ n, n = 0 ∧ EventID ev ∈ EventID <$> rows CollaborationEvent s ∨ 0 < n →
    wp (append_loop n row_id ev) (λ r _,
    if bool_decide (EventID ev ∈ EventID <$> rows CollaborationEvent s)
    then r = inl ErrConflict else ∃ row, r = inr row) s); [intros H; apply H; right; lia|].
  clear k. intros n. destruct Ha as (H1 & H2 & H3 & H4 & H5 & H6).
  assert (i64 (count (ServerID ev) s + 1) = count (ServerID ev) s + 1)%Z as Hi
    by (apply i64_id; unfold in_i64, count in *; lia).
  induction n as [|n IH]; cbn [append_loop]; intros Hn.
  - destruct Hn as [[_ Hd]|]; [|lia]. wp_step. by rewrite bool_decide_true.
  - wp_step. wp_step. wp_step. apply wp_next_sequence; [done|].
    change (count (ServerID ev) (set_open_txs (S (open_txs s)) s)) with (count (ServerID ev) s).
    rewrite Hi. unfold insert_event. wp_step; cbn beta iota.
    + exfalso. cbn in H. unfold CollaborationEvent_check in H. cbn in H.
      apply eqb_neq_str in H1, H2, H3. rewrite H1, H2, H3 in H. cbn in H.
      apply andb_false_iff in H as [?%Z.ltb_ge|?%Z.ltb_ge]; [unfold count in *; lia|lia].
    + assert (EventID ev ∈ EventID <$> rows CollaborationEvent s) as Hd.
      { unfold has_clash in H0. apply existsb_exists in H0 as (x & Hx & Hc).
        apply list_elem_of_In in Hx. apply list_elem_of_fmap. exists x. split; [|done].
        unfold clash in Hc. cbn in Hc. unfold CollaborationEvent_unique in Hc. cbn in Hc.
        apply orb_true_iff in Hc as [Hc|Hc]; reflect_bools; [by edestruct (H6 n x)|].
        apply orb_true_iff in Hc as [Hc|Hc]; reflect_bools; [|done].
        exfalso. assert (Sequence x ∈ sequences (ServerID ev) s) as Hin
          by (apply elem_of_sequences; eauto).
        apply gap_free_in in Hin; [lia|done]. }
      change (IsConstraintError EntConstraint) with true. cbn beta iota.
      apply IH. destruct n; [by left|right; lia].
    + wp_step. rewrite bool_decide_false; [by eexists|]. intros (x & Hx & Hin)%list_elem_of_fmap.
      apply has_clash_false with (r' := x) in H0; [|done]. unfold clash in H0.
      cbn in H0. unfold CollaborationEvent_unique in H0. cbn in H0.
      by rewrite Hx, eqb_refl_str, !orb_true_r in H0.
Qed.

Lemma prepare_event_fields clock id event :
  ServerID (prepare_event clock id event) = ServerID event ∧
  Kind (prepare_event clock id event) = Kind event.
Proof.
  unfold prepare_event. cbv zeta. through ServerID. by through Kind.
Qed.

(** A call of [AppendCollaborationEvent] that runs alone: it fails with
    [ErrConflict], and changes nothing, exactly when the event's identifier is
    already logged (the five attempts all meet the same clash); otherwise it
    appends one event with the number after the server's last, and returns it. *)
Theorem AppendCollaborationEvent_spec clock id row_id event s :
  let ev := prepare_event clock id event in
  gap_free s → unique_rows (rows CollaborationEvent s) = true → appendable ev row_id s →
  wp (AppendCollaborationEvent clock id row_id event) (λ r s',
    open_txs s' = open_txs s ∧
    if bool_decide (EventID ev ∈ EventID <$> rows CollaborationEvent s)
    then r = inl ErrConflict ∧ rows CollaborationEvent s' = rows CollaborationEvent s
    else ∃ row, r = inr row ∧ Sequence row = (count (ServerID event) s + 1)%Z ∧
      ServerID row = ServerID event ∧ EventID row = EventID ev ∧
      rows CollaborationEvent s' = rows CollaborationEvent s ++ [row]) s.
Proof.
  intros ev Hg Hu Ha. destruct (prepare_event_fields clock id event) as [Hsrv _]. fold ev in Hsrv.
  unfold AppendCollaborationEvent. wp_step. wp_step; cbn beta iota.
  - fold ev. pose proof (wp_append_loop 4 row_id ev s Hg Hu) as W1.
    pose proof (wp_append_loop_result 4 row_id ev s Hg Ha) as W2. unfold wp in *.
    unfold append_attempts. destruct (append_loop 5 row_id ev s) as [[e|row] s']; cbn [fst snd] in *.
    + destruct W1 as [Ho W1]. split; [done|]. case_bool_decide; [done|by destruct W2].
    + destruct W1 as [Ho W1]. split; [done|]. case_bool_decide; [done|].
      exists row. rewrite <-Hsrv. split; [done|exact W1].
  - destruct Ha as (Hne & _). reflect_bools. by rewrite Hsrv in Hne.
Qed.

End events.

(** ** Witnesses *)

Definition event_a : CollaborationEvent := zero |> set_ServerID "srv" |> set_Kind "message".

Definition event_row (k : nat) : string := match k with 0 => "r0" | 1 => "r1" | 2 => "r2" | 3 => "r3" | _ => "r4" end.
Definition event_row' (k : nat) : string := "x" +:+ event_row k.

Lemma AppendCollaborationEvent_spec_witness :
  wp (Eng := list_engine) (AppendCollaborationEvent 7 "ev1" event_row event_a) (λ r s',
    open_txs s' = 0 ∧ ∃ row, r = inr row ∧ Sequence row = 1%Z ∧ ServerID row = "srv" ∧
      EventID row = "ev1" ∧ rows CollaborationEvent s' = [] ++ [row]) empty_store.
Proof.
  apply (AppendCollaborationEvent_spec (Eng := list_engine) 7 "ev1" event_row event_a empty_store).
  - intros server. reflexivity.
  - reflexivity.
  - repeat split; try discriminate. intros k r Hr. by apply elem_of_nil in Hr.
Defined.

(** Two calls read the same number; the first to insert gets it, the other starts over. *)
Definition call (id : string) (row_id : nat → string) : appender :=
  mkAppender (prepare_event 7 id event_a) row_id append_attempts Begin.

Definition after (p : @appender) (s : @Store list_engine) : appender :=
  match (appender_step (Eng := list_engine) p s).1 with inr p' => p' | inl _ => p end.
Definition store_after (p : @appender) (s : @Store list_engine) : @Store list_engine :=
  (appender_step (Eng := list_engine) p s).2.

Definition race_a : appender := Eval vm_compute in after (call "ev1" event_row) empty_store.
Definition race_b : appender := Eval vm_compute in after (call "ev2" event_row') empty_store.
Definition race_store : @Store list_engine := Eval vm_compute in store_after race_a empty_store.
Definition won_a : appender := Eval vm_compute in after race_a empty_store.
Definition lost_b : appender := Eval vm_compute in after race_b race_store.
Definition again_b : appender := Eval vm_compute in after lost_b race_store.

Example race_lost : ap_phase lost_b = Begin ∧ ap_phase again_b = Numbered 2.
Proof. split; reflexivity. Qed.

Lemma append_sequences_gap_free_witness : gap_free (Eng := list_engine) race_store.
Proof.
  refine (proj1 (append_sequences_gap_free (Eng := list_engine) empty_store race_store
    [won_a; again_b] _ _ _)).
  - intros server. reflexivity.
  - reflexivity.
  - eapply rtc_l; [apply (call_starts _ _ 7 "ev1" event_row event_a); discriminate|].
    eapply rtc_l; [apply (call_starts _ _ 7 "ev2" event_row' event_a); discriminate|].
    eapply rtc_l; [apply (call_step _ _ 0 (call "ev1" event_row) race_a empty_store);
      vm_compute; reflexivity|].
    eapply rtc_l; [apply (call_step _ _ 1 (call "ev2" event_row') race_b empty_store);
      vm_compute; reflexivity|].
    eapply rtc_l; [apply (call_step _ _ 0 race_a won_a race_store); vm_compute; reflexivity|].
    eapply rtc_l; [apply (call_step _ _ 1 race_b lost_b race_store); vm_compute; reflexivity|].
    eapply rtc_l; [apply (call_step _ _ 1 lost_b again_b race_store); vm_compute; reflexivity|].
    apply rtc_refl.
Defined.
