(* ===== verification/Idempotency.v ===== *)
(** * Idempotency records ([internal/storage/store.go])

    A request reserves its key by inserting a row; the unique index decides among
    concurrent requests with the same key, and the losers read the winner's row. *)
From S2P Require Import Prelude GoStr Sql Models Schema Store.
Import IdempotencyRecord.

Definition idempotencyRecordFromEnt (row : IdempotencyRecord) : IdempotencyRecord :=
  mk (ID row) (Scope row) (Method row) (ActorID row) (IdempotencyKey row) (RequestHash row)
     (ResponseType row) (ResponseJSON row) (ResourceType row) (ResourceID row) (Status row)
     (CreatedUnix row) (ExpiresUnix row).

(** The four columns of the unique index. *)
Definition idem_key : Type := string * string * string * string.

Definition key_of (r : IdempotencyRecord) : idem_key :=
  (Scope r, Method r, ActorID r, IdempotencyKey r).

Definition has_key (scope method actorID key : string) (r : IdempotencyRecord) : bool :=
  (Scope r =s scope) && (Method r =s method) && (ActorID r =s actorID) && (IdempotencyKey r =s key).

Section idempotency.
Context {Eng : SqlEngine}.

Definition GetIdempotencyRecord (scope method actorID key : string) : M IdempotencyRecord :=
  row ← or_not_found (ent_only (has_key scope method actorID key));
  mret (idempotencyRecordFromEnt row).

Definition ReserveIdempotencyRecord (now : Z) (fresh_id : string) (record : IdempotencyRecord) :
    M (IdempotencyRecord * bool) :=
  let record := record |> when (CreatedUnix record =? 0)%Z (set_CreatedUnix now) in
  let record := record |> when (ExpiresUnix record =? 0)%Z (set_ExpiresUnix (i64 (now + 86400))) in
  let record := record |> when (Status record =s "") (set_Status "pending") in
  try (ent_create (zero
    |> set_ID fresh_id
    |> set_Scope (Scope record)
    |> set_Method (Method record)
    |> set_ActorID (ActorID record)
    |> set_IdempotencyKey (IdempotencyKey record)
    |> set_RequestHash (RequestHash record)
    |> set_ResponseType (ResponseType record)
    |> set_ResponseJSON (ResponseJSON record)
    |> set_ResourceType (ResourceType record)
    |> set_ResourceID (ResourceID record)
    |> set_Status (Status record)
    |> set_CreatedUnix (CreatedUnix record)
    |> set_ExpiresUnix (ExpiresUnix record))) (λ res,
    match res with
    | inr row => mret (idempotencyRecordFromEnt row, true)
    | inl e =>
        if IsConstraintError e then
          existing ← GetIdempotencyRecord (Scope record) (Method record) (ActorID record)
                       (IdempotencyKey record);
          mret (existing, false)
        else throw e
    end).

Definition complete_fields (record r : IdempotencyRecord) : IdempotencyRecord :=
  r |> set_RequestHash (RequestHash record)
    |> set_ResponseType (ResponseType record)
    |> set_ResponseJSON (ResponseJSON record)
    |> set_ResourceType (ResourceType record)
    |> set_ResourceID (ResourceID record)
    |> set_Status "completed".

Definition CompleteIdempotencyRecord (record : IdempotencyRecord) : M unit :=
  affected ← ent_update
    (has_key (Scope record) (Method record) (ActorID record) (IdempotencyKey record)) true
    (complete_fields record);
  if affected =? 0 then throw ErrNotFound else mret ().

(** ** Sequences of requests *)

Inductive idem_op :=
| OpReserve (now : Z) (fresh_id : string) (record : IdempotencyRecord)
| OpComplete (record : IdempotencyRecord)
| OpGet (scope method actorID key : string).

(** Runs one operation, whatever its outcome; tells the key a reservation won. *)
Definition idem_step (op : idem_op) : M (option idem_key) :=
  match op with
  | OpReserve now id record =>
      try (ReserveIdempotencyRecord now id record) (λ res,
        match res with
        | inr (_, true) => mret (Some (key_of record))
        | _ => mret None
        end)
  | OpComplete record => try (CompleteIdempotencyRecord record) (λ _, mret None)
  | OpGet s m a k => try (GetIdempotencyRecord s m a k) (λ _, mret None)
  end.

Definition key_eqb (k : idem_key) (o : option idem_key) : bool := bool_decide (o = Some k).

(** How many reservations of a key won, and how many rows the table has for it. *)
Definition won (k : idem_key) (outs : list (option idem_key)) : nat :=
  length (bfilter (key_eqb k) outs).

Definition rows_of_key (k : idem_key) (s : Store) : nat :=
  length (bfilter (λ r, bool_decide (key_of r = k)) (rows IdempotencyRecord s)).

(** ** Correctness *)

Context {Laws : SqlLaws}.

Lemma has_key_spec s m a k r : has_key s m a k r = bool_decide (key_of r = (s, m, a, k)).
Proof.
  unfold has_key, key_of. case_bool_decide as H.
  - injection H as -> -> -> ->. by rewrite !eqb_refl_str.
  - repeat (destruct (_ =s _) eqn:?; reflect_bools; subst; cbn; [|done]). done.
Qed.

Lemma same_key_clash r r' : key_of r = key_of r' → clash r r' = true.
Proof.
  unfold key_of. intros [= H1 H2 H3 H4]. unfold clash. cbn. unfold IdempotencyRecord_unique.
  by rewrite H1, H2, H3, H4, !eqb_refl_str, !orb_true_r.
Qed.

Lemma rows_of_key_le k s : unique_rows (rows IdempotencyRecord s) = true → rows_of_key k s ≤ 1.
Proof.
  intros Hu. unfold rows_of_key.
  destruct (unique_filter (λ r, bool_decide (key_of r = k)) (rows IdempotencyRecord s) Hu)
    as [->|[r ->]]; [|cbn; lia..].
  intros a b Ha%bool_decide_eq_true Hb%bool_decide_eq_true. apply same_key_clash. congruence.
Qed.

Lemma rows_of_key_same k s s' :
  rows IdempotencyRecord s' = rows IdempotencyRecord s → rows_of_key k s' = rows_of_key k s.
Proof. unfold rows_of_key. by intros ->. Qed.

Lemma wp_idem_step op s :
  unique_rows (rows IdempotencyRecord s) = true →
  wp (idem_step op) (λ r s', ∃ o, r = inr o ∧ unique_rows (rows IdempotencyRecord s') = true ∧
    ∀ k, won k [o] + rows_of_key k s = rows_of_key k s') s.
Proof.
  intros Hu.
  assert (∀ s', rows IdempotencyRecord s' = rows IdempotencyRecord s →
    ∃ o, inr (A := error) None = inr o ∧ unique_rows (rows IdempotencyRecord s') = true ∧
    ∀ k, won k [o] + rows_of_key k s = rows_of_key k s') as Hsame.
  { intros s' Hs. exists None. rewrite Hs. split; [done|]. split; [done|].
    intros k. by rewrite (rows_of_key_same k s s'). }
  destruct op as [n i r|r|sc m a k]; cbn [idem_step]; wp_step.
  - unfold ReserveIdempotencyRecord, GetIdempotencyRecord. wp_steps; try (by apply Hsame).
    eexists. split; [done|]. rewrite rows_put, H1. split; [by apply unique_app_one|].
    intros k. unfold rows_of_key. rewrite rows_put, H1, bfilter_app, length_app.
    assert (key_of row = key_of r) as Hk.
    { subst row. unfold key_of. cbn. by rewrite !(when_proj Scope), !(when_proj Method),
        !(when_proj ActorID), !(when_proj IdempotencyKey). }
    unfold won, key_eqb. cbn. rewrite Hk.
    destruct (decide (key_of r = k)) as [->|Hne].
    + rewrite !bool_decide_true by done. cbn. lia.
    + rewrite !bool_decide_false by congruence. cbn. lia.
  - unfold CompleteIdempotencyRecord. wp_steps; try (by apply Hsame).
    all: exists None; split; [done|]; rewrite rows_put; split; [done|].
    all: intros k; unfold rows_of_key; rewrite rows_put, H0, bfilter_update by done.
    all: unfold update_rows; rewrite length_map; done.
  - unfold GetIdempotencyRecord. wp_steps; by apply Hsame.
Qed.

Lemma won_cons k o outs : won k (o :: outs) = won k [o] + won k outs.
Proof. unfold won. cbn. destruct (key_eqb k o); cbn; lia. Qed.

(** C26. Whatever reservations, completions and lookups reach the database, in
    whatever order: a key is granted (a reservation reports [true]) exactly when
    its row appears, so at most once ever, and not at all if the table had it
    already; nothing takes a granted key back. *)
Theorem reserve_at_most_once ops s :
  unique_rows (rows IdempotencyRecord s) = true →
  wp (map_m idem_step ops) (λ r s', ∃ outs, r = inr outs ∧
    ∀ k, won k outs + rows_of_key k s = rows_of_key k s' ∧ rows_of_key k s' ≤ 1) s.
Proof.
  revert s. induction ops as [|op ops IH]; intros s Hu; cbn [map_m].
  - wp_step. eexists. split; [done|]. intros k. split; [done|by apply rows_of_key_le].
  - wp_step. eapply wp_mono; [by apply wp_idem_step|]. intros r s1 (o & -> & Hu1 & H1).
    wp_step. eapply wp_mono; [by apply IH|]. intros r s2 (outs & -> & H2). wp_step.
    eexists. split; [done|]. intros k. destruct (H2 k) as [H3 H4]. split; [|done].
    rewrite won_cons, <-H3, <-H1. lia.
Qed.

(** A reservation that finds its key taken returns the stored row and changes
    nothing: a retried request sees what the first one left, whatever its own
    fields say. *)
Theorem reserve_returns_stored now id record row s :
  unique_rows (rows IdempotencyRecord s) = true → row ∈ rows IdempotencyRecord s →
  key_of row = key_of record →
  Scope record ≠ "" → Method record ≠ "" → IdempotencyKey record ≠ "" →
  wp (ReserveIdempotencyRecord now id record) (λ r s', r = inr (row, false) ∧ s' = s) s.
Proof.
  intros Hu Hin Hk H1 H2 H3. unfold ReserveIdempotencyRecord. set (u := when _ _ (when _ _ _)).
  assert (key_of u = key_of record) as Hku.
  { subst u. unfold key_of. by rewrite !(when_proj Scope), !(when_proj Method),
        !(when_proj ActorID), !(when_proj IdempotencyKey). }
  wp_step. wp_step; cbn beta iota.
  - exfalso. unfold key_of in Hku. injection Hku as E1 E2 E3 E4. subst row0.
    cbn in H. unfold IdempotencyRecord_check in H. cbn in H. rewrite E1, E2, E4 in H.
    apply eqb_neq_str in H1, H2, H3. by rewrite H1, H2, H3 in H.
  - change (IsConstraintError EntConstraint) with true. cbn beta iota.
    unfold GetIdempotencyRecord. wp_step. wp_step. wp_step.
    apply (wp_only_one _ row); [|wp_step; wp_step; split; [by destruct row|done]].
    rewrite (bfilter_ext _ (λ r, bool_decide (key_of r = key_of row))).
    2:{ intros x _. rewrite has_key_spec. apply bool_decide_ext. rewrite Hk, <-Hku. done. }
    destruct (unique_filter (λ r, bool_decide (key_of r = key_of row)) (rows IdempotencyRecord s) Hu)
      as [E|[x E]].
    + intros a b Ha%bool_decide_eq_true Hb%bool_decide_eq_true. apply same_key_clash. congruence.
    + pose proof (bfilter_nil_inv _ _ _ E Hin) as Hf. by apply bool_decide_eq_false in Hf.
    + rewrite E. f_equal. symmetry. apply bfilter_singleton_inv in E as (_ & _ & E).
      apply E; [done|by apply bool_decide_true].
  - exfalso. apply has_clash_false with (r' := row) in H0; [|done].
    rewrite same_key_clash in H0; [done|]. rewrite Hk, <-Hku. done.
Qed.

End idempotency.

(** ** Witnesses *)

Definition record_a : IdempotencyRecord := zero |> set_Scope "server" |> set_Method "send"
  |> set_ActorID "u1" |> set_IdempotencyKey "k1" |> set_RequestHash "h".

Definition reserved_a : IdempotencyRecord := record_a |> set_ID "i0" |> set_Status "completed".

Lemma reserve_at_most_once_witness :
  wp (Eng := list_engine)
    (map_m idem_step [OpReserve 1 "i1" record_a; OpReserve 2 "i2" record_a; OpComplete record_a])
    (λ r s', ∃ outs, r = inr outs ∧
       ∀ k, won k outs + rows_of_key k empty_store = rows_of_key k s' ∧ rows_of_key k s' ≤ 1)
    empty_store.
Proof. apply (reserve_at_most_once (Eng := list_engine)). reflexivity. Defined.

Lemma reserve_returns_stored_witness :
  wp (Eng := list_engine) (ReserveIdempotencyRecord 1 "i1" record_a)
    (λ r s', r = inr (reserved_a, false) ∧
       s' = set_idempotency_records (Eng := list_engine) [reserved_a] empty_store)
    (set_idempotency_records (Eng := list_engine) [reserved_a] empty_store).
Proof.
  apply (reserve_returns_stored (Eng := list_engine)); [reflexivity|by left|reflexivity|discriminate..].
Defined.
