(* ===== verification/Decisions.v ===== *)
(** * Channel decisions and votes ([internal/storage/decisions.go])

    Proposals, votes, the quorum rule, supersession, and the administrator's
    overrides. *)
From S2P Require Import Prelude GoStr Sql Models Schema Store.
Import ChannelDecision.
Module V := ChannelDecisionVote.
Module O := ChannelDecisionListOptions.

Definition DecisionStatusProposed := "proposed".
Definition DecisionStatusRatified := "ratified".
Definition DecisionStatusRejected := "rejected".
Definition DecisionStatusRetired := "retired".
Definition DecisionVoteApprove := "approve".
Definition DecisionVoteReject := "reject".
Definition DecisionVoteAbstain := "abstain".

Definition validDecisionStatuses (s : string) : bool :=
  (s =s DecisionStatusProposed) || (s =s DecisionStatusRatified) ||
  (s =s DecisionStatusRejected) || (s =s DecisionStatusRetired).

Definition validDecisionVotes (s : string) : bool :=
  (s =s DecisionVoteApprove) || (s =s DecisionVoteReject) || (s =s DecisionVoteAbstain).

(** Note kinds are stored as the empty string. *)
Definition normalizeMessageKind `{!Unicode} (kind : string) : string :=
  let kind := ToLower (TrimSpace kind) in
  if (kind =s "") || (kind =s "note") then ""
  else if kind =s "decision" then "decision"
  else if kind =s "blocker" then "blocker"
  else if kind =s "status" then "status"
  else "".

Definition decisionFromEnt (row : ChannelDecision) : ChannelDecision :=
  mk (ID row) (Target row) (Title row) (Body row) (Status row) (ProposerID row)
     (ProposerKind row) (CreatedUnix row) (RatifiedUnix row) (RetiredUnix row) (RetiredBy row)
     (RetireReason row) (SupersedesDecisionID row) (ApproveCount row) (RejectCount row)
     (AbstainCount row).

Definition decisionVoteFromEnt (row : ChannelDecisionVote) : ChannelDecisionVote :=
  V.mk (V.ID row) (V.DecisionID row) (V.VoterID row) (V.VoterKind row) (V.Decision row)
       (V.VotedUnix row) (V.Reason row).

Section decisions.
Context {Eng : SqlEngine}.

Definition CreateDecision (clock : Z) (fresh_id : string) (decision : ChannelDecision) :
    M ChannelDecision :=
  let decision := decision |> when (CreatedUnix decision =? 0)%Z (set_CreatedUnix clock) in
  let decision := decision |> when (Status decision =s "") (set_Status DecisionStatusProposed) in
  _ ← guard (validDecisionStatuses (Status decision)) ErrInvalid;
  row ← or_conflict (ent_create
    (set_ID (if ID decision <>s "" then ID decision else fresh_id) decision));
  mret (decisionFromEnt row).

Definition GetDecision (id : string) : M ChannelDecision :=
  row ← or_not_found (ent_get id);
  mret (decisionFromEnt row).

Definition ListDecisions (opts : ChannelDecisionListOptions) : M (list ChannelDecision) :=
  nodes ← ent_query
    (λ r, (Target r =s O.Target opts) &&
          match O.StatusFilter opts with
          | [] => true
          | statuses => bool_decide (Status r ∈ statuses)
          end &&
          (if (0 <? O.AfterCreated opts)%Z then (O.AfterCreated opts <? CreatedUnix r)%Z else true))
    [DescZ CreatedUnix] 0 (positive_limit (O.Limit opts));
  mret (decisionFromEnt <$> nodes).

(** The counting loop, in [uint32]. *)
Definition tally_step (acc : Z * Z * Z) (v : ChannelDecisionVote) : Z * Z * Z :=
  let '(approve, reject, abstain) := acc in
  if V.Decision v =s DecisionVoteApprove then (u32 (approve + 1), reject, abstain)
  else if V.Decision v =s DecisionVoteReject then (approve, u32 (reject + 1), abstain)
  else if V.Decision v =s DecisionVoteAbstain then (approve, reject, u32 (abstain + 1))
  else acc.

Definition tally (votes : list ChannelDecisionVote) : Z * Z * Z :=
  fold_left tally_step votes (0, 0, 0)%Z.

(** At least two approvals and no rejection. *)
Definition quorum (approve reject : Z) : bool := (2 <=? approve)%Z && (reject =? 0)%Z.

(** The voter's row of a decision. *)
Definition vote_key (decisionID voterID : string) (v : ChannelDecisionVote) : bool :=
  (V.DecisionID v =s decisionID) && (V.VoterID v =s voterID).

Definition vote_fields (vote v : ChannelDecisionVote) : ChannelDecisionVote :=
  v |> V.set_VoterKind (V.VoterKind vote) |> V.set_Decision (V.Decision vote)
    |> V.set_VotedUnix (V.VotedUnix vote) |> V.set_Reason (V.Reason vote).

(** Inserts the voter's row, or changes it; [existing] is what the lookup found. *)
Definition save_vote (fresh_id : string) (vote : ChannelDecisionVote)
    (existing : option ChannelDecisionVote) : M ChannelDecisionVote :=
  match existing with
  | None => ent_create
      (vote |> V.set_ID (if V.ID vote <>s "" then V.ID vote else fresh_id))
  | Some existing => ent_update_one (V.ID existing) (not_empty (V.VoterKind vote) && not_empty (V.Decision vote)) (vote_fields vote)
  end.

(** What the recount writes on the decision. *)
Definition count_fields (now approve reject abstain : Z) (r : ChannelDecision) : ChannelDecision :=
  r |> set_ApproveCount approve |> set_RejectCount reject |> set_AbstainCount abstain
    |> when (quorum approve reject) (λ r, r |> set_Status DecisionStatusRatified |> set_RatifiedUnix now).

Definition retire_fields (now : Z) (by_ reason : string) (r : ChannelDecision) : ChannelDecision :=
  r |> set_Status DecisionStatusRetired |> set_RetiredUnix now |> set_RetiredBy by_
    |> set_RetireReason reason.

(** The second half of the transaction: recount, ratify, retire what is superseded. *)
Definition recount (t2 t3 : Z) (vote : ChannelDecisionVote) (decisionRow : ChannelDecision) : M unit :=
  votes ← ent_query (λ v, V.DecisionID v =s V.DecisionID vote) [] 0 None;
  let '(approve, reject, abstain) := tally votes in
  updated ← ent_update_one (V.DecisionID vote) true (count_fields t2 approve reject abstain);
  let ratified := if quorum approve reject then DecisionStatusRatified else Status decisionRow in
  if (ratified =s DecisionStatusRatified) && (SupersedesDecisionID updated <>s "") then
    try (ent_update_one (SupersedesDecisionID updated) true
           (retire_fields t3 (V.VoterID vote) ("superseded-by=" +:+ ID updated))) (λ res,
      match res with
      | inl e => if negb (IsNotFound e) then throw e else mret ()
      | inr _ => mret ()
      end)
  else mret ().

(** The transaction's body; the clock is read when the vote is stamped, when the
    decision is ratified and when the superseded one is retired. *)
Definition vote_body (t2 t3 : Z) (fresh_id : string) (vote : ChannelDecisionVote) :
    M (option ChannelDecisionVote) :=
  decisionRow ← or_not_found (ent_get (V.DecisionID vote));
  _ ← guard (Status decisionRow =s DecisionStatusProposed) ErrInvalid;
  existing ← try (ent_only (vote_key (V.DecisionID vote) (V.VoterID vote))) (λ res,
    match res with
    | inr v => mret (Some v)
    | inl e => if negb (IsNotFound e) then throw e else mret None
    end);
  _ ← save_vote fresh_id vote existing;
  _ ← recount t2 t3 vote decisionRow;
  mret existing.

(** The deferred [Rollback] runs when the variable [err] is set; the return of
    [ErrInvalid] inside the transaction leaves it unset. *)
Definition vote_rolls_back (e : error) : bool := negb (bool_decide (e = ErrInvalid)).

Definition UpsertDecisionVote (t1 t2 t3 : Z) (fresh_id : string) (vote : ChannelDecisionVote) :
    M (ChannelDecision * ChannelDecisionVote) :=
  _ ← guard (validDecisionVotes (V.Decision vote)) ErrInvalid;
  let vote := vote |> when (V.VotedUnix vote =? 0)%Z (V.set_VotedUnix t1) in
  existing ← in_tx vote_rolls_back (vote_body t2 t3 fresh_id vote);
  final ← GetDecision (V.DecisionID vote);
  mret (final, match existing with
               | Some v => vote |> when (V.ID vote =s "") (V.set_ID (V.ID v))
               | None => vote
               end).

Definition ForceRatifyDecision (now : Z) (id : string) : M ChannelDecision :=
  row ← or_not_found (ent_update_one id true
          (λ r, r |> set_Status DecisionStatusRatified |> set_RatifiedUnix now));
  mret (decisionFromEnt row).

Definition RetireDecision (now : Z) (id retiredBy reason : string) : M ChannelDecision :=
  row ← or_not_found (ent_update_one id true (retire_fields now retiredBy reason));
  mret (decisionFromEnt row).

Definition ListDecisionVotes (decisionID : string) : M (list ChannelDecisionVote) :=
  nodes ← ent_query (λ v, V.DecisionID v =s decisionID) [AscZ V.VotedUnix] 0 None;
  mret (decisionVoteFromEnt <$> nodes).

(** ** Correctness *)

Context {Laws : SqlLaws}.

Definition votes_of (id kind : string) (l : list ChannelDecisionVote) : Z :=
  Z.of_nat (length (bfilter (λ v, (V.DecisionID v =s id) && (V.Decision v =s kind)) l)).

(** The voter has exactly one vote, with the stance just cast; nobody else's vote
    changed. *)
Definition voted (vote : ChannelDecisionVote) (l l' : list ChannelDecisionVote) : Prop :=
  let key := vote_key (V.DecisionID vote) (V.VoterID vote) in
  (∃ v, bfilter key l' = [v] ∧ V.Decision v = V.Decision vote) ∧
  bfilter (λ v, negb (key v)) l' = bfilter (λ v, negb (key v)) l.

Lemma u32_succ z : u32 (u32 z + 1) = u32 (z + 1).
Proof. unfold u32. by rewrite Zplus_mod_idemp_l. Qed.

Lemma votes_of_cons id kind v l :
  V.DecisionID v = id →
  votes_of id kind (v :: l) = ((if V.Decision v =s kind then 1 else 0) + votes_of id kind l)%Z.
Proof.
  intros Hid. unfold votes_of. cbn [bfilter]. rewrite Hid, eqb_refl_str. cbn [andb].
  destruct (V.Decision v =s kind); [|done]. rewrite length_cons. lia.
Qed.

(** The loop counts. *)
Lemma tally_counts id l :
  (∀ v, v ∈ l → V.DecisionID v = id) →
  tally l = (u32 (votes_of id DecisionVoteApprove l), u32 (votes_of id DecisionVoteReject l),
             u32 (votes_of id DecisionVoteAbstain l)).
Proof.
  unfold tally. intros Hid.
  cut (∀ a r b, fold_left tally_step l (u32 a, u32 r, u32 b) =
    (u32 (a + votes_of id DecisionVoteApprove l), u32 (r + votes_of id DecisionVoteReject l),
     u32 (b + votes_of id DecisionVoteAbstain l))); [intros H; apply (H 0 0 0)%Z|].
  induction l as [|v l IH]; intros a r b.
  - cbn. by rewrite !Z.add_0_r.
  - cbn [fold_left]. rewrite !votes_of_cons by (apply Hid; by left). unfold tally_step at 2.
    assert (∀ x, x ∈ l → V.DecisionID x = id) as Hid' by (intros x Hx; apply Hid; by right).
    destruct (V.Decision v =s DecisionVoteApprove) eqn:E1.
    { apply eqb_eq_str in E1. rewrite E1, u32_succ, IH by done. cbn. by rewrite !Z.add_assoc, ?Z.add_0_r. }
    destruct (V.Decision v =s DecisionVoteReject) eqn:E2.
    { apply eqb_eq_str in E2. rewrite E2, u32_succ, IH by done. cbn. by rewrite !Z.add_assoc, ?Z.add_0_r. }
    destruct (V.Decision v =s DecisionVoteAbstain) eqn:E3.
    { rewrite u32_succ, IH by done. by rewrite !Z.add_assoc, ?Z.add_0_r. }
    by rewrite IH, !Z.add_0_l.
Qed.

Lemma votes_of_selected id kind l nodes :
  nodes ≡ₚ bfilter (λ v, V.DecisionID v =s id) l → votes_of id kind nodes = votes_of id kind l.
Proof.
  intros Hn. unfold votes_of. rewrite Hn, bfilter_bfilter. do 2 f_equal. apply bfilter_ext.
  intros v _. destruct (V.DecisionID v =s id); [done|done].
Qed.

Lemma vote_key_test d v : key_test (vote_key d v).
Proof.
  unfold vote_key. intros a b [Ha1%eqb_eq_str Ha2%eqb_eq_str]%andb_true_iff
    [Hb1%eqb_eq_str Hb2%eqb_eq_str]%andb_true_iff. unfold clash. cbn.
  unfold ChannelDecisionVote_unique. by rewrite Ha1, Ha2, Hb1, Hb2, !eqb_refl_str, orb_true_r.
Qed.

(** The rows of the voter, as the lookup found them. *)
Definition found (vote : ChannelDecisionVote) (existing : option ChannelDecisionVote)
    (l : list ChannelDecisionVote) : Prop :=
  bfilter (vote_key (V.DecisionID vote) (V.VoterID vote)) l =
  match existing with Some v => [v] | None => [] end.

Lemma wp_save_vote fresh_id vote existing s (Q : error + ChannelDecisionVote → Store → Prop) :
  unique_rows (rows ChannelDecisionVote s) = true →
  found vote existing (rows ChannelDecisionVote s) →
  (∀ e, e ≠ ErrInvalid → Q (inl e) s) →
  (∀ row t, tbl_rows t = rows ChannelDecisionVote (put_tbl t s) →
     voted vote (rows ChannelDecisionVote s) (tbl_rows t) → 
     unique_rows (tbl_rows t) = true → Q (inr row) (put_tbl t s)) →
  wp (save_vote fresh_id vote existing) Q s.
Proof.
  intros Hu Hf He Hq. unfold save_vote, found, voted in *.
  set (key := vote_key (V.DecisionID vote) (V.VoterID vote)) in *.
  destruct existing as [v|].
  - apply wp_update_one; [done|solve_keeps|intros; by apply He|intros; by apply He|].
    intros _ r Hr t Ht Hut. apply Hq; [by rewrite rows_put| |done].
    assert (∀ x, key (vote_fields vote x) = key x) as Hk by done.
    pose proof (bfilter_singleton_inv _ _ _ Hf) as (Hin & Hkv & _).
    assert (∀ x, x ∈ rows ChannelDecisionVote s → V.ID x = V.ID v → x = v) as Hid
      by (intros x Hx E; exact (unique_id_eq _ x v Hu Hx Hin E)).
    rewrite Ht. split.
    + exists (vote_fields vote v). rewrite bfilter_update, Hf by done. unfold update_rows.
      cbn [map]. cbn [entID ChannelDecisionVote_entity]. by rewrite eqb_refl_str.
    + rewrite bfilter_update by (intros x; by rewrite Hk). apply update_rows_none.
      intros x [Hx Hn]%elem_of_bfilter. apply eqb_neq_str. intros E. apply Hid in E; [|done].
      subst x. by rewrite Hkv in Hn.
  - apply wp_create; [intros; by apply He|intros; by apply He|].
    set (row := V.set_ID _ vote). intros _ Hc t Ht. apply Hq; [by rewrite rows_put| |].
    + assert (key row = true) as Hk by (unfold key, vote_key; cbn; by rewrite !eqb_refl_str).
      rewrite Ht, !bfilter_app, Hf. cbn [bfilter]. rewrite Hk. cbn. split.
      * by exists row.
      * by rewrite app_nil_r.
    + rewrite Ht. by apply unique_app_one.
Qed.

(** The decisions after the recount, given the votes. *)
Definition recounted (id : string) (d : ChannelDecision) (l : list ChannelDecisionVote) (s' : Store) :
    Prop :=
  let approve := u32 (votes_of id DecisionVoteApprove l) in
  let reject := u32 (votes_of id DecisionVoteReject l) in
  ∃ d', bfilter (λ r, ID r =s id) (rows ChannelDecision s') = [d'] ∧
    ApproveCount d' = approve ∧ RejectCount d' = reject ∧
    AbstainCount d' = u32 (votes_of id DecisionVoteAbstain l) ∧
    (SupersedesDecisionID d ≠ id →
       Status d' = if bool_decide (2 ≤ approve ∧ reject = 0)%Z then DecisionStatusRatified
                   else DecisionStatusProposed) ∧
    (bool_decide (2 ≤ approve ∧ reject = 0)%Z = true → SupersedesDecisionID d ≠ "" →
       ∀ x, x ∈ rows ChannelDecision s' → ID x = SupersedesDecisionID d →
         Status x = DecisionStatusRetired).

Lemma quorum_spec a r : quorum a r = bool_decide (2 ≤ a ∧ r = 0)%Z.
Proof.
  unfold quorum. destruct (Z.leb_spec 2 a), (Z.eqb_spec r 0); cbn; symmetry;
    first [apply bool_decide_true; lia|apply bool_decide_false; lia].
Qed.

Lemma keeps_count_fields n a r b : keeps_keys (count_fields n a r b).
Proof. solve_keeps. Qed.

Lemma count_fields_proj {A} (g : ChannelDecision → A) n a r b d :
  (∀ v x, g (set_Status v x) = g x) → (∀ v x, g (set_RatifiedUnix v x) = g x) →
  g (count_fields n a r b d) =
  g (d |> set_ApproveCount a |> set_RejectCount r |> set_AbstainCount b).
Proof. intros H1 H2. unfold count_fields. rewrite when_proj; [done|]. intros x. by rewrite H2, H1. Qed.

Lemma wp_recount t2 t3 vote d s (Q : error + unit → Store → Prop) :
  let id := V.DecisionID vote in
  unique_rows (rows ChannelDecision s) = true →
  bfilter (λ r, ID r =s id) (rows ChannelDecision s) = [d] →
  Status d = DecisionStatusProposed →
  (∀ s', rows ChannelDecisionVote s' = rows ChannelDecisionVote s → open_txs s' = open_txs s →
     recounted id d (rows ChannelDecisionVote s) s' → Q (inr ()) s') →
  wp (recount t2 t3 vote d) Q s.
Proof.
  intros id Hu Hd Hst HQ. unfold recount. fold id. wp_step. wp_step.
  rewrite (tally_counts id).
  2:{ intros v Hv. rewrite H in Hv. apply elem_of_bfilter in Hv as [_ Hv]. by apply eqb_eq_str. }
  rewrite !(votes_of_selected id _ _ _ H).
  set (a := u32 (votes_of id DecisionVoteApprove _)). set (r := u32 (votes_of id DecisionVoteReject _)).
  set (b := u32 (votes_of id DecisionVoteAbstain _)).
  pose proof (bfilter_singleton_inv _ _ _ Hd) as (Hin & Hid & Hall). apply eqb_eq_str in Hid.
  wp_step. rewrite <-Hid at 1.
  change (ent_update_one (ID d)) with (ent_update_one (R := ChannelDecision) (entID d)).
  apply (wp_update_read _ d); [done|done|apply keeps_count_fields|].
  intros t1 Ht1 Hu1. cbn beta iota. change (entID d) with (ID d) in Ht1. rewrite Hid in Ht1.
  assert (bfilter (λ r, ID r =s id) (tbl_rows t1) = [count_fields t2 a r b d]) as Hd1.
  { rewrite Ht1, bfilter_update, Hd by (intros x; by rewrite (count_fields_proj ID)).
    unfold update_rows. cbn [map]. cbn [entID ChannelDecision_entity]. by rewrite Hid, eqb_refl_str. }
  assert (∀ s', rows ChannelDecision s' = tbl_rows t1 → 
    (quorum a r = true → SupersedesDecisionID d = "") → recounted id d (rows ChannelDecisionVote s) s')
    as Hplain.
  { intros s' Hs' Hno. unfold recounted. rewrite <-!quorum_spec. fold a r b. exists (count_fields t2 a r b d). rewrite Hs'. split; [done|].
    rewrite (count_fields_proj ApproveCount), (count_fields_proj RejectCount),
      (count_fields_proj AbstainCount) by done.
    do 3 (split; [done|]). split; [|intros Hq Hne; by destruct (Hne (Hno Hq))].
    intros _. unfold count_fields. rewrite (when_field Status). cbn. by rewrite Hst. }
  set (sup := SupersedesDecisionID (count_fields t2 a r b d)).
  assert (sup = SupersedesDecisionID d) as Hsup by by apply (count_fields_proj SupersedesDecisionID).
  assert (∀ f, (∀ x, f x = retire_fields t3 (V.VoterID vote) ("superseded-by=" +:+ ID (count_fields t2 a r b d)) x) →
    ∀ s', rows ChannelDecision s' = update_rows (λ x, ID x =s sup) f (tbl_rows t1) →
    recounted id d (rows ChannelDecisionVote s) s') as Hretired.
  { intros f Hf s' Hs'. unfold recounted. rewrite <-!quorum_spec. fold a r b. exists (if ID d =s sup then f (count_fields t2 a r b d) else count_fields t2 a r b d).
    rewrite Hs', bfilter_update, Hd1 by (intros x; by rewrite Hf).
    split; [unfold update_rows; cbn [map]; by rewrite (count_fields_proj ID)|].
    rewrite !Hf. split_and!.
    - destruct (_ =s sup); cbn; by rewrite (count_fields_proj ApproveCount).
    - destruct (_ =s sup); cbn; by rewrite (count_fields_proj RejectCount).
    - destruct (_ =s sup); cbn; by rewrite (count_fields_proj AbstainCount).
    - intros Hne. rewrite Hid. destruct (id =s sup) eqn:E; [apply eqb_eq_str in E; congruence|].
      unfold count_fields. rewrite (when_field Status). cbn. by rewrite Hst.
    - intros _ _ x (y & Hy & ->)%elem_of_update_rows Hx.
      destruct (ID y =s sup) eqn:E; [by rewrite Hf|]. apply eqb_neq_str in E. congruence. }
  rewrite Hst. wp_step.
  - wp_step. fold sup. apply wp_update_one; [by rewrite rows_put|solve_keeps|done| |]; cbn beta iota.
    + intros _ Hnone. change (negb (IsNotFound EntNotFound)) with false. cbn beta iota. wp_step.
      apply HQ; [done|by rewrite open_put|]. eapply Hretired; [done|].
      symmetry. rewrite rows_put in *. apply update_rows_none. intros x Hx.
      by apply (bfilter_nil_inv _ _ x Hnone).
    + intros _ x _ t Ht _. wp_step. apply HQ; [done|by rewrite !open_put|]. eapply Hretired; [done|].
      rewrite rows_put in *. done.
  - wp_step. apply HQ; [done|by rewrite open_put|]. apply Hplain; [by rewrite rows_put|].
    fold sup in E. rewrite Hsup in E. intros Hq. rewrite Hq in E. cbn in E.
    by apply negb_false_iff, eqb_eq_str in E.
Qed.

(** The state after a vote that went through. *)
Definition vote_outcome (vote : ChannelDecisionVote) (d : ChannelDecision) (s s' : Store) : Prop :=
  voted vote (rows ChannelDecisionVote s) (rows ChannelDecisionVote s') ∧
  recounted (V.DecisionID vote) d (rows ChannelDecisionVote s') s'.

Lemma wp_vote_body t2 t3 fresh_id vote d s (Q : error + option ChannelDecisionVote → Store → Prop) :
  unique_rows (rows ChannelDecision s) = true →
  unique_rows (rows ChannelDecisionVote s) = true →
  bfilter (λ r, ID r =s V.DecisionID vote) (rows ChannelDecision s) = [d] →
  Status d = DecisionStatusProposed →
  (∀ e s', e ≠ ErrInvalid → Q (inl e) s') →
  (∀ v s', vote_outcome vote d s s' → open_txs s' = open_txs s → Q (inr v) s') →
  wp (vote_body t2 t3 fresh_id vote) Q s.
Proof.
  intros Hu Huv Hd Hst He Hq. unfold vote_body. wp_step. wp_step. wp_step.
  apply (wp_only_one _ d); [done|].
  cbn beta iota. wp_step. rewrite Hst. wp_step; [|done]. cbn beta iota. wp_step. wp_step.
  apply wp_only_key; [done|apply vote_key_test|..]; cbn beta iota.
  - intros Hn. change (negb (IsNotFound EntNotFound)) with false. cbn beta iota. wp_step.
    wp_step. apply wp_save_vote; [done|done|by intros; apply He|]. intros row t Ht Hv Hut.
    wp_step. apply (wp_recount _ _ _ d); [done..|]. intros s' Hv' Ho Hr. wp_step.
    apply Hq; [|by rewrite Ho, open_put]. unfold vote_outcome. by rewrite Hv', <-Ht in *.
  - intros v Hn. wp_step.
    wp_step. apply wp_save_vote; [done|done|by intros; apply He|]. intros row t Ht Hv Hut.
    wp_step. apply (wp_recount _ _ _ d); [done..|]. intros s' Hv' Ho Hr. wp_step.
    apply Hq; [|by rewrite Ho, open_put]. unfold vote_outcome. by rewrite Hv', <-Ht in *.
Qed.

(** C27. Voting on a proposed decision.  It succeeds or changes nothing, and leaves
    no transaction open.  When it succeeds the voter has exactly one vote, the one
    just cast, and nobody else's changed; the decision's counters are the counts of
    the votes in the table; it is ratified exactly when at least two approve and
    nobody rejects, and then the decision it supersedes, if it still exists, is
    retired.  The decision returned is the stored one. *)
Theorem UpsertDecisionVote_spec t1 t2 t3 fresh_id vote d s :
  unique_rows (rows ChannelDecision s) = true →
  unique_rows (rows ChannelDecisionVote s) = true →
  bfilter (λ r, ID r =s V.DecisionID vote) (rows ChannelDecision s) = [d] →
  Status d = DecisionStatusProposed →
  wp (UpsertDecisionVote t1 t2 t3 fresh_id vote) (λ r s', open_txs s' = open_txs s ∧
    match r with
    | inl _ => s' = s
    | inr (final, _) => vote_outcome vote d s s' ∧
        bfilter (λ r, ID r =s V.DecisionID vote) (rows ChannelDecision s') = [final]
    end) s.
Proof.
  intros Hu Huv Hd Hst. unfold UpsertDecisionVote. wp_step. wp_step; [|done]. cbn beta iota.
  set (vote' := when _ _ vote).
  assert (V.DecisionID vote' = V.DecisionID vote ∧ V.VoterID vote' = V.VoterID vote ∧
    V.Decision vote' = V.Decision vote) as (E1 & E2 & E3) by (subst vote'; by destruct (_ =? _)%Z).
  wp_step. wp_step. apply (wp_vote_body _ _ _ _ d); [done|done|by rewrite E1|done|..].
  - intros e s' Hne. cbn beta iota. unfold vote_rolls_back. by rewrite bool_decide_false.
  - intros v s' Hout Ho. cbn beta iota. wp_step. unfold GetDecision. do 3 wp_step.
    destruct Hout as [Hv (d' & Hd' & Hrest)]. rewrite E1 in Hd'.
    apply (wp_only_one _ d'); [by rewrite E1|]. wp_step. wp_step. cbn beta iota.
    split; [cbn; by rewrite Ho|]. split; [|by destruct d'].
    split; [unfold voted in *; by rewrite E1, E2, E3 in Hv|].
    exists d'. split; [done|]. by rewrite E1 in Hrest.
Qed.

(** Votes are frozen once a decision left [proposed]: a later vote is refused
    with [ErrInvalid] and changes no table.  But the refusal is returned while the
    variable the deferred rollback tests is unset, so the transaction it began is
    never ended: each such call leaves one more open. *)
Theorem UpsertDecisionVote_frozen_leaks t1 t2 t3 fresh_id vote d s :
  bfilter (λ r, ID r =s V.DecisionID vote) (rows ChannelDecision s) = [d] →
  Status d ≠ DecisionStatusProposed → validDecisionVotes (V.Decision vote) = true →
  wp (UpsertDecisionVote t1 t2 t3 fresh_id vote) (λ r s',
    r = inl ErrInvalid ∧ s' = set_open_txs (S (open_txs s)) s) s.
Proof.
  intros Hd Hst Hv. unfold UpsertDecisionVote. rewrite Hv. wp_step. wp_step; [|done]. cbn beta iota.
  wp_step. wp_step. unfold vote_body. do 3 wp_step. apply (wp_only_one _ d).
  { rewrite <-Hd. apply bfilter_ext. intros x _. unfold when. by destruct (_ =? _)%Z. }
  cbn beta iota. wp_step. wp_step; [by apply eqb_eq_str in H0|]. done.
Qed.

(** [ForceRatifyDecision] does not look at the status: it ratifies a retired or
    a rejected decision as well as a proposed one. *)
Theorem ForceRatifyDecision_any_status now id d s :
  unique_rows (rows ChannelDecision s) = true →
  bfilter (λ r, ID r =s id) (rows ChannelDecision s) = [d] →
  wp (ForceRatifyDecision now id) (λ r s',
    r = inr (d |> set_Status DecisionStatusRatified |> set_RatifiedUnix now) ∧
    rows ChannelDecision s' = update_rows (λ r, ID r =s id)
      (λ r, r |> set_Status DecisionStatusRatified |> set_RatifiedUnix now)
      (rows ChannelDecision s)) s.
Proof.
  intros Hu Hd. unfold ForceRatifyDecision. do 2 wp_step. wp_step; [done| |].
  - change (bfilter (λ r : ChannelDecision, ID r =s id) (rows ChannelDecision s) = []) in H0. congruence.
  - change (bfilter (λ r : ChannelDecision, ID r =s id) (rows ChannelDecision s) = [r]) in H0.
    assert (r = d) as -> by congruence. wp_step. rewrite rows_put. split; [by destruct d|done].
Qed.

End decisions.

(** ** Witnesses *)

Definition decision_a : ChannelDecision := zero |> set_ID "d1" |> set_Target "general"
  |> set_Title "t" |> set_Body "b" |> set_Status "proposed" |> set_ProposerID "u" |> set_ProposerKind "user".

Definition vote_a : ChannelDecisionVote := V.zero |> V.set_DecisionID "d1" |> V.set_VoterID "bob"
  |> V.set_VoterKind "user" |> V.set_Decision "approve".

Definition vote_b : ChannelDecisionVote := vote_a |> V.set_ID "v0" |> V.set_VoterID "eve".

Definition decision_store (d : ChannelDecision) : @Store list_engine :=
  set_decision_votes (Eng := list_engine) [vote_b] (set_decisions (Eng := list_engine) [d] empty_store).

Lemma UpsertDecisionVote_spec_witness :
  wp (Eng := list_engine) (UpsertDecisionVote 1 2 3 "v1" vote_a) (λ r s', open_txs s' = 0 ∧
    match r with
    | inl _ => s' = decision_store decision_a
    | inr (final, _) => vote_outcome vote_a decision_a (decision_store decision_a) s' ∧
        bfilter (λ r, ID r =s "d1") (rows ChannelDecision s') = [final]
    end) (decision_store decision_a).
Proof. apply (UpsertDecisionVote_spec (Eng := list_engine)); reflexivity. Defined.

Example second_approval_ratifies :
  match (UpsertDecisionVote (Eng := list_engine) 1 2 3 "v1" vote_a (decision_store decision_a)).1 with
  | inr (final, _) => Status final = DecisionStatusRatified ∧ ApproveCount final = 2%Z
  | inl _ => False
  end.
Proof. split; reflexivity. Qed.

Lemma UpsertDecisionVote_frozen_leaks_witness :
  let s := decision_store (set_Status "retired" decision_a) in
  wp (Eng := list_engine) (UpsertDecisionVote 1 2 3 "v1" vote_a)
    (λ r s', r = inl ErrInvalid ∧ s' = set_open_txs 1 s) s.
Proof.
  apply (UpsertDecisionVote_frozen_leaks (Eng := list_engine) 1 2 3 "v1" vote_a
    (set_Status "retired" decision_a)); [reflexivity|discriminate|reflexivity].
Defined.

Lemma ForceRatifyDecision_any_status_witness :
  let d := set_Status "retired" decision_a in
  wp (Eng := list_engine) (ForceRatifyDecision 9 "d1") (λ r s',
    r = inr (d |> set_Status DecisionStatusRatified |> set_RatifiedUnix 9) ∧
    rows ChannelDecision s' = [d |> set_Status DecisionStatusRatified |> set_RatifiedUnix 9])
    (decision_store d).
Proof. apply (ForceRatifyDecision_any_status (Eng := list_engine)); reflexivity. Defined.
