(* ===== verification/Reminders.v ===== *)
(** * Reminders ([internal/storage/reminders.go])

    Every change of a reminder writes an event beside it in one transaction. *)
From S2P Require Import Prelude GoStr Sql Models Schema Store.
Import Reminder.
Module P := ReminderPatch.
Module Ev := ReminderEvent.

Section normalizers.
Context `{!Unicode}.

Definition normalizeReminderStatus (value : string) : string :=
  let value := ToLower (TrimSpace value) in
  if value =s "cancelled" then "canceled" else value.

Definition validReminderStatus (value : string) : bool :=
  let value := normalizeReminderStatus value in
  (value =s "active") || (value =s "done") || (value =s "canceled") ||
  (value =s "paused") || (value =s "failed").

Definition normalizeReminderScheduleKind (value : string) : string :=
  let value := ToLower (TrimSpace value) in
  if value =s "reminder_schedule_kind_cron" then "cron"
  else if value =s "reminder_schedule_kind_every" then "every"
  else if value =s "reminder_schedule_kind_at" then "at"
  else if value =s "reminder_schedule_kind_rrule" then "rrule"
  else if value =s "reminder_schedule_kind_natural" then "natural"
  else value.

Definition validReminderScheduleKind (value : string) : bool :=
  let value := normalizeReminderScheduleKind value in
  (value =s "cron") || (value =s "every") || (value =s "at") || (value =s "rrule") ||
  (value =s "natural").

Definition normalizeReminderEventType (value : string) : string :=
  let value := ToLower (TrimSpace value) in
  if value =s "reminder_event_type_created" then "created"
  else if value =s "reminder_event_type_fired" then "fired"
  else if value =s "reminder_event_type_snoozed" then "snoozed"
  else if value =s "reminder_event_type_updated" then "updated"
  else if (value =s "reminder_event_type_canceled") || (value =s "cancelled") then "canceled"
  else if value =s "reminder_event_type_failed" then "failed"
  else value.

Definition normalizeReminderActorType (value : string) : string :=
  let value := ToLower (TrimSpace value) in
  if (value =s "human") || (value =s "agent") || (value =s "system") then value
  else "system".

End normalizers.

Definition reminderFromEnt (row : Reminder) : Reminder :=
  mk (ID row) (Target row) (ScheduleKind row) (Schedule row) (Prompt row) (Enabled row)
     (NextRunUnix row) (LastRunUnix row) (RunCount row) (LastError row) (Title row) (Status row)
     (MsgRef row) (RecurrenceRule row) (RecurrenceDescription row) (RecurrenceTimezone row)
     (CancelToken row) (CreatedUnix row) (UpdatedUnix row).

Definition reminderEventFromEnt (row : ReminderEvent) : ReminderEvent :=
  Ev.mk (Ev.ID row) (Ev.ReminderID row) (Ev.EventType row) (Ev.ActorType row) (Ev.ActorID row)
        (Ev.OccurredTimeUnix row) (Ev.NextFireTimeUnix row) (Ev.Detail row).

Section reminders.
Context {Eng : SqlEngine} {Uni : Unicode}.

(** Who did it and why. *)
Record actor := mkActor { actorType : string; actorID : string; detail : string }.

Definition createReminderEvent (clock : Z) (fresh_id : string) (event : ReminderEvent) :
    M ReminderEvent :=
  let event := event |> when (Ev.OccurredTimeUnix event =? 0)%Z (Ev.set_OccurredTimeUnix clock) in
  let event := event |> Ev.set_EventType (normalizeReminderEventType (Ev.EventType event)) in
  _ ← guard (Ev.EventType event <>s "") ErrInvalidState;
  let event := event |> Ev.set_ActorType (normalizeReminderActorType (Ev.ActorType event)) in
  row ← ent_create (Ev.set_ID fresh_id event);
  mret (reminderEventFromEnt row).

(** The event an operation records. *)
Definition event_for (now : Z) (id kind : string) (a : actor) (next : Z) : ReminderEvent :=
  Ev.mk "" id kind (normalizeReminderActorType (actorType a)) (TrimSpace (actorID a)) now next
        (TrimSpace (detail a)).

Definition CreateReminder (now : Z) (fresh_id event_id : string) (reminderModel : Reminder)
    (a : actor) : M Reminder :=
  let r := reminderModel |> set_Status (normalizeReminderStatus (Status reminderModel)) in
  let r := r |> when (Status r =s "") (set_Status "active") in
  _ ← guard (validReminderStatus (Status r)) ErrInvalidState;
  let r := r |> set_ScheduleKind (normalizeReminderScheduleKind (ScheduleKind r)) in
  let r := r |> when (ScheduleKind r =s "") (set_ScheduleKind "at") in
  _ ← guard (validReminderScheduleKind (ScheduleKind r)) ErrInvalidState;
  let r := r |> when (CreatedUnix r =? 0)%Z (set_CreatedUnix now) in
  let r := r |> set_UpdatedUnix now in
  let r := r |> set_Enabled (Status r =s "active") in
  in_tx (λ _, true) (
    row ← or_conflict (ent_create (set_ID (if ID r <>s "" then ID r else fresh_id) r));
    _ ← createReminderEvent now event_id (event_for now (ID row) "created" a (NextRunUnix row));
    mret (reminderFromEnt row)).

(** The loop that normalises the statuses of a filter. *)
Fixpoint normalize_statuses (statuses : list string) : error + list string :=
  match statuses with
  | [] => inr []
  | status :: statuses =>
      let status := normalizeReminderStatus status in
      if status =s "" then normalize_statuses statuses
      else if negb (validReminderStatus status) then inl ErrInvalidState
      else match normalize_statuses statuses with
           | inl e => inl e
           | inr rest => inr (status :: rest)
           end
  end.

(** The status filter [ListReminders] adds to its query. *)
Definition status_filter (statuses : list string) (includeCanceled : bool) :
    error + (string → bool) :=
  match statuses with
  | [] => inr (λ s, if includeCanceled then true else s <>s "canceled")
  | _ => match normalize_statuses statuses with
         | inl e => inl e
         | inr [] => inr (λ _, true)
         | inr l => inr (λ s, bool_decide (s ∈ l))
         end
  end.

Definition ListReminders (target : string) (statuses : list string) (includeCanceled : bool)
    (limit : Z) : M (list Reminder) :=
  let limit := bounded_limit limit 200 100 in
  match status_filter statuses includeCanceled with
  | inl e => throw e
  | inr wanted =>
      nodes ← ent_query
        (λ r, (if TrimSpace target <>s "" then Target r =s TrimSpace target else true) &&
              wanted (Status r))
        [DescZ UpdatedUnix; DescS ID] 0 (Some (Z.to_nat limit));
      mret (reminderFromEnt <$> nodes)
  end.

Definition GetReminder (id : string) : M Reminder :=
  row ← or_not_found (ent_only (λ r, ID r =s id));
  mret (reminderFromEnt row).

Definition cancel_fields (now : Z) (r : Reminder) : Reminder :=
  r |> set_Status "canceled" |> set_Enabled false |> set_UpdatedUnix now.

Definition CancelReminder (now : Z) (id event_id : string) (a : actor) : M Reminder :=
  in_tx (λ _, true) (
    row ← or_not_found (ent_update_one id true (cancel_fields now));
    _ ← createReminderEvent now event_id (event_for now id "canceled" a (NextRunUnix row));
    mret (reminderFromEnt row)).

Definition snooze_fields (now nextRunUnix : Z) (schedule : string) (r : Reminder) : Reminder :=
  r |> set_ScheduleKind "at" |> set_Schedule (TrimSpace schedule) |> set_NextRunUnix nextRunUnix
    |> set_Status "active" |> set_Enabled true |> set_UpdatedUnix now.

Definition SnoozeReminder (now : Z) (id event_id : string) (nextRunUnix : Z) (schedule : string)
    (a : actor) : M Reminder :=
  in_tx (λ _, true) (
    row ← or_not_found (ent_update_one id true (snooze_fields now nextRunUnix schedule));
    _ ← createReminderEvent now event_id (event_for now id "snoozed" a nextRunUnix);
    mret (reminderFromEnt row)).

Definition activate (r : Reminder) : Reminder := r |> set_Status "active" |> set_Enabled true.

Definition patch_fields (now : Z) (patch : ReminderPatch) (r : Reminder) : Reminder :=
  r |> set_UpdatedUnix now
    |> when_some (P.Title patch) (λ v, set_Title (TrimSpace v))
    |> when_some (P.ScheduleKind patch)
         (λ v r, r |> set_ScheduleKind (normalizeReminderScheduleKind v) |> activate)
    |> when_some (P.Schedule patch) (λ v r, r |> set_Schedule (TrimSpace v) |> activate)
    |> when_some (P.NextRunUnix patch) (λ v r, r |> set_NextRunUnix v |> activate)
    |> when_some (P.RecurrenceRule patch) (λ v, set_RecurrenceRule (TrimSpace v))
    |> when_some (P.RecurrenceDescription patch) (λ v, set_RecurrenceDescription (TrimSpace v))
    |> when_some (P.RecurrenceTimezone patch) (λ v, set_RecurrenceTimezone (TrimSpace v)).

Definition UpdateReminder (now : Z) (id event_id : string) (patch : ReminderPatch) (a : actor) :
    M Reminder :=
  in_tx (λ _, true) (
    _ ← guard (check_some (P.ScheduleKind patch)
                 (λ v, validReminderScheduleKind (normalizeReminderScheduleKind v))) ErrInvalidState;
    row ← or_not_found (ent_update_one id true (patch_fields now patch));
    _ ← createReminderEvent now event_id (event_for now id "updated" a (NextRunUnix row));
    mret (reminderFromEnt row)).

Definition ListReminderEvents (id : string) (limit : Z) : M (list ReminderEvent) :=
  let limit := bounded_limit limit 200 100 in
  _ ← GetReminder id;
  nodes ← ent_query (λ e, Ev.ReminderID e =s id) [AscZ Ev.OccurredTimeUnix; AscS Ev.ID] 0
            (Some (Z.to_nat limit));
  mret (reminderEventFromEnt <$> nodes).

(** ** Specification *)

(** A reminder is armed exactly when it is active. *)
Definition reminder_ok (r : Reminder) : Prop :=
  validReminderStatus (Status r) = true ∧ validReminderScheduleKind (ScheduleKind r) = true ∧
  Enabled r = (Status r =s "active").

Inductive reminder_op :=
| OpCreateReminder (now : Z) (fresh_id event_id : string) (r : Reminder) (a : actor)
| OpCancelReminder (now : Z) (id event_id : string) (a : actor)
| OpSnoozeReminder (now : Z) (id event_id : string) (next : Z) (schedule : string) (a : actor)
| OpUpdateReminder (now : Z) (id event_id : string) (patch : ReminderPatch) (a : actor).

Definition run_reminder_op (op : reminder_op) : M Reminder :=
  match op with
  | OpCreateReminder n i e r a => CreateReminder n i e r a
  | OpCancelReminder n i e a => CancelReminder n i e a
  | OpSnoozeReminder n i e x s a => SnoozeReminder n i e x s a
  | OpUpdateReminder n i e p a => UpdateReminder n i e p a
  end.

(** The kind of event an operation leaves. *)
Definition op_event (op : reminder_op) : string :=
  match op with
  | OpCreateReminder _ _ _ _ _ => "created"
  | OpCancelReminder _ _ _ _ => "canceled"
  | OpSnoozeReminder _ _ _ _ _ _ => "snoozed"
  | OpUpdateReminder _ _ _ _ _ => "updated"
  end.

(** A change of the reminder [row] and nothing else, with its event. *)
Definition reminder_change (kind : string) (row : Reminder) (s s' : Store) : Prop :=
  Forall reminder_ok (rows Reminder s') ∧ unique_rows (rows Reminder s') = true ∧
  open_txs s' = open_txs s ∧ row ∈ rows Reminder s' ∧
  history (λ a b, ID b = ID a ∧ (ID a ≠ ID row → b = a)) (λ r, r = row)
    (rows Reminder s) (rows Reminder s') ∧
  ∃ ev, rows ReminderEvent s' = rows ReminderEvent s ++ [ev] ∧ Ev.ReminderID ev = ID row ∧
    Ev.EventType ev = kind ∧ Ev.ActorType ev ∈ ["human"; "agent"; "system"] ∧
    Ev.NextFireTimeUnix ev = NextRunUnix row.

(** ** Correctness *)

Context {Laws : SqlLaws}.

Lemma normalizeReminderActorType_known v :
  normalizeReminderActorType v ∈ ["human"; "agent"; "system"].
Proof.
  unfold normalizeReminderActorType. set (w := ToLower _).
  destruct (w =s "human") eqn:E1; reflect_bools; [rewrite E1; by left|].
  destruct (w =s "agent") eqn:E2; reflect_bools; [rewrite E2; by right; left|].
  destruct (w =s "system") eqn:E3; reflect_bools; [rewrite E3|]; by right; right; left.
Qed.

Lemma wp_createReminderEvent now eid id kind a next s (Q : error + ReminderEvent → Store → Prop) :
  normalizeReminderEventType kind = kind →
  (∀ e, Q (inl e) s) →
  (∀ ev t, tbl_rows t = rows ReminderEvent s ++ [ev] → Ev.ReminderID ev = id →
     Ev.EventType ev = kind → Ev.ActorType ev ∈ ["human"; "agent"; "system"] →
     Ev.NextFireTimeUnix ev = next → Q (inr (reminderEventFromEnt ev)) (put_tbl t s)) →
  wp (createReminderEvent now eid (event_for now id kind a next)) Q s.
Proof.
  intros Hk He HQ. unfold createReminderEvent, event_for. wp_step. wp_step; [|done].
  cbn beta iota. wp_step. wp_step; [done..|]. cbn beta iota. wp_step.
  apply HQ; [done|..]; subst row; unfold when; destruct (_ =? _)%Z; try done;
    apply normalizeReminderActorType_known.
Qed.

(** The common shape of cancelling, snoozing and updating. *)
Definition change (now : Z) (id event_id kind : string) (a : actor) (f : Reminder → Reminder)
    (next : Reminder → Z) : M Reminder :=
  row ← or_not_found (ent_update_one id true f);
  _ ← createReminderEvent now event_id (event_for now id kind a (next row));
  mret (reminderFromEnt row).

Lemma wp_change now id eid kind a f next s :
  normalizeReminderEventType kind = kind → keeps_keys f →
  (∀ x, reminder_ok x → reminder_ok (f x)) → (∀ x, next (f x) = NextRunUnix (f x)) →
  unique_rows (rows Reminder s) = true → Forall reminder_ok (rows Reminder s) →
  wp (in_tx (λ _, true) (change now id eid kind a f next)) (λ r s',
    match r with inl _ => s' = s | inr row => reminder_change kind row s s' end) s.
Proof.
  intros Hk Hf Hok Hn Hu Hall. wp_step. unfold change. wp_step. wp_step.
  apply wp_update_one; [done|done|done|done|]. intros _ r Hr t Ht Hut. cbn beta iota.
  wp_step. apply wp_createReminderEvent; [done|done|].
  intros ev t' Hev H1 H2 H3 H4. cbn beta iota. wp_step. cbn beta iota.
  apply bfilter_singleton_inv in Hr as (Hin & Hid & Huniq). apply eqb_eq_str in Hid.
  assert (ID (f r) = id) as Hidf by (destruct Hf as [Hf _]; change (entID (f r) = id); by rewrite Hf).
  assert (reminderFromEnt (f r) = f r) as -> by by destruct (f r).
  unfold reminder_change. simpl_store. change (tbl_rows (reminders s)) with (rows Reminder s) in *.
  rewrite Ht in Hut |- *. split_and!; [|done|done|..].
  - apply Forall_forall. intros x (y & Hy & ->)%elem_of_update_rows.
    rewrite Forall_forall in Hall. destruct (entID y =s id); auto.
  - apply elem_of_update_rows. exists r. split; [done|]. by rewrite (proj2 (eqb_eq_str _ _) Hid).
  - apply history_update; [intros x; done|]. intros x Hx Hp. destruct Hf as [Hf _]. split; [apply Hf|].
    intros Hne. apply eqb_eq_str in Hp. change (entID x) with (ID x) in Hp. congruence.
  - exists ev. rewrite H4, Hidf. by rewrite Hn.
Qed.

Lemma activate_ok r : reminder_ok r → reminder_ok (activate r).
Proof. by intros (_ & ? & _). Qed.

Lemma patch_fields_ok now p r :
  check_some (P.ScheduleKind p) (λ v, validReminderScheduleKind (normalizeReminderScheduleKind v)) = true →
  reminder_ok r → reminder_ok (patch_fields now p r).
Proof.
  intros Hp Hr. unfold patch_fields.
  assert (∀ A (o : option A) F x, (∀ v x, o = Some v → reminder_ok x → reminder_ok (F v x)) →
    reminder_ok x → reminder_ok (when_some o F x)) as Hw by (intros A [v|] F x HF Hx; cbn; auto).
  repeat match goal with |- reminder_ok (when_some ?o ?F ?x) => apply (Hw _ o F x);
    [intros v y Hv Hy|] end; try done; try (by apply activate_ok).
  apply activate_ok. destruct Hy as (H1 & _ & H3). split; [done|]. split; [|done].
  by rewrite Hv in Hp.
Qed.

Lemma keeps_patch_fields now p : keeps_keys (patch_fields now p).
Proof. solve_keeps. Qed.

(** C39. Every change of a reminder is all or nothing.  On any error the store is as
    before; on success exactly one reminder changed or appeared, exactly one event
    was added, for that reminder, of the operation's kind, with a known kind of
    actor and the reminder's next run; and a reminder is enabled exactly when its
    status is [active], with a known status and schedule kind, in every row. *)
Theorem reminder_ops_atomic op s :
  unique_rows (rows Reminder s) = true → Forall reminder_ok (rows Reminder s) →
  wp (run_reminder_op op) (λ r s',
    match r with inl _ => s' = s | inr row => reminder_change (op_event op) row s s' end) s.
Proof.
  intros Hu Hok.
  destruct op as [n i e r a|n i e a|n i e x sch a|n i e p a]; cbn [run_reminder_op op_event].
  - unfold CreateReminder. wp_step. wp_step; [|done]. cbn beta iota. wp_step. wp_step; [|done].
    cbn beta iota. wp_step. do 2 wp_step. wp_step; [done|done|]. cbn beta iota. wp_step.
    apply wp_createReminderEvent; [done|done|]. intros ev t' Hev E1 E2 E3 E4. cbn beta iota.
    wp_step. cbn beta iota.
    assert (reminderFromEnt row = row) as -> by by destruct row.
    assert (reminder_ok row) as Hrow.
    { split_and!; [| |done]; unfold row; cbn [Status ScheduleKind set_ID set_Enabled set_UpdatedUnix].
      - through Status. cbn [Status set_ScheduleKind]. by through Status.
      - by through ScheduleKind. }
    unfold reminder_change. simpl_store. change (tbl_rows (reminders s)) with (rows Reminder s) in *.
    rewrite H3. split_and!; [|by apply unique_app_one|done| | |].
    + apply Forall_app. split; [done|by apply Forall_singleton].
    + apply elem_of_app. right. by left.
    + apply history_snoc; [by intros x|done].
    + exists ev. by rewrite E4.
  - apply (wp_change _ _ _ _ _ (cancel_fields n) NextRunUnix); [done|solve_keeps| |done..].
    by intros x (_ & ? & _).
  - apply (wp_change _ _ _ _ _ (snooze_fields n x sch) (λ _, x)); [done|solve_keeps| |done..]. done.
  - unfold UpdateReminder. destruct (check_some _ _) eqn:H; [|done].
    pose proof (wp_change n i e "updated" a (patch_fields n p) NextRunUnix s eq_refl
      (keeps_patch_fields n p) (λ x, patch_fields_ok n p x H) (λ _, eq_refl) Hu Hok) as W.
    exact W.
Qed.

End reminders.

(** ** Witness *)

Definition reminder_a : Reminder := zero |> set_ID "r1" |> set_Target "general"
  |> set_ScheduleKind "at" |> set_Status "active" |> set_Enabled true |> set_NextRunUnix 50.

Definition reminder_store : @Store list_engine := set_reminders (Eng := list_engine) [reminder_a] empty_store.

Definition actor_a : actor := mkActor "robot" " u1 " "".

Lemma reminder_ops_atomic_witness :
  wp (Eng := list_engine) (run_reminder_op (Uni := ascii_unicode) (OpCancelReminder 20 "r1" "e1" actor_a))
    (λ r s', match r with inl _ => s' = reminder_store
             | inr row => reminder_change (Uni := ascii_unicode) "canceled" row reminder_store s' end)
    reminder_store.
Proof.
  apply (reminder_ops_atomic (Eng := list_engine) (Uni := ascii_unicode) (OpCancelReminder 20 "r1" "e1" actor_a));
    [reflexivity|]. apply Forall_singleton. by split_and!.
Defined.
