(* ===== verification/Users.v ===== *)
(** * Users and sessions ([internal/storage/store.go])

    Accounts, the bootstrap of the first administrator, and login sessions with
    their expiry. *)
From S2P Require Import Prelude GoStr Sql Models Schema Store.
Import User.
Module Ss := Session.
Module Ir := IdempotencyRecord.

Definition userFromEnt (row : User) : User :=
  mk (ID row) (Username row) (DisplayName row) (PasswordHash row) (Role row) (CreatedUnix row)
     (UpdatedUnix row).

Definition sessionFromEnt (row : Session) : Session :=
  Ss.mk (Ss.ID row) (Ss.TokenHash row) (Ss.UserID row) (Ss.ExpiresUnix row) (Ss.CreatedUnix row).

Section users.
Context {Eng : SqlEngine}.

Definition CountUsers : M nat := ent_count (R := User) (λ _, true).

(** The bootstrap record: scope, method and key of the query, without the actor. *)
Definition is_bootstrap (r : IdempotencyRecord) : bool :=
  (Ir.Scope r =s "server") && (Ir.Method r =s "bootstrap") && (Ir.IdempotencyKey r =s "first_admin").

Definition IsInitialized : M bool :=
  count ← CountUsers;
  if 0 <? count then mret true
  else try (ent_only is_bootstrap) (λ res,
    match res with
    | inr _ => mret true
    | inl e => if IsNotFound e then mret false else throw e
    end).

Definition CreateUser (now : Z) (fresh_id : string) (userModel : User) : M User :=
  let role := if Role userModel =s "" then "member" else Role userModel in
  row ← or_conflict (ent_create
    (mk (if ID userModel <>s "" then ID userModel else fresh_id) (Username userModel)
        (DisplayName userModel) (PasswordHash userModel) role now now));
  mret (userFromEnt row).

Definition bootstrap_record (now : Z) (fresh_id : string) : IdempotencyRecord :=
  Ir.zero |> Ir.set_ID fresh_id |> Ir.set_Scope "server" |> Ir.set_Method "bootstrap"
    |> Ir.set_ActorID "" |> Ir.set_IdempotencyKey "first_admin" |> Ir.set_Status "completed"
    |> Ir.set_CreatedUnix now |> Ir.set_ExpiresUnix 0.

Definition CreateFirstAdmin (now : Z) (record_id fresh_id : string) (userModel : User) : M User :=
  in_tx (λ _, true) (
    _ ← or_conflict (ent_create (bootstrap_record now record_id));
    count ← ent_count (R := User) (λ _, true);
    _ ← guard (count =? 0) ErrConflict;
    let role := if Role userModel =s "" then "admin" else Role userModel in
    row ← or_conflict (ent_create
      (mk fresh_id (Username userModel) (DisplayName userModel) (PasswordHash userModel) role now now));
    mret (userFromEnt row)).

Definition GetUser (id : string) : M User :=
  row ← or_not_found (ent_only (λ r, ID r =s id));
  mret (userFromEnt row).

Definition GetUserByUsername (username : string) : M User :=
  row ← or_not_found (ent_only (λ r, Username r =s username));
  mret (userFromEnt row).

Definition CreateSession (now : Z) (fresh_id : string) (sessionModel : Session) : M Session :=
  row ← ent_create (Ss.mk (if Ss.ID sessionModel <>s "" then Ss.ID sessionModel else fresh_id)
    (Ss.TokenHash sessionModel) (Ss.UserID sessionModel) (Ss.ExpiresUnix sessionModel) now);
  mret (sessionFromEnt row).

Definition DeleteSession (id : string) : M unit := ent_delete_one (R := Session) id.

Definition GetSessionByTokenHash (now : Z) (tokenHash : string) : M Session :=
  row ← or_not_found (ent_only (λ r, Ss.TokenHash r =s tokenHash));
  if (Ss.ExpiresUnix row <=? now)%Z then
    try (DeleteSession (Ss.ID row)) (λ _, throw ErrNotFound)
  else mret (sessionFromEnt row).

(** ** Correctness *)

Context {Laws : SqlLaws}.

Lemma wp_CreateFirstAdmin now rid id u s (Q : error + User → Store → Prop) :
  (∀ e, Q (inl e) s) →
  (∀ row s', rows User s = [] → rows User s' = [row] → open_txs s' = open_txs s →
     Role row = (if Role u =s "" then "admin" else Role u) → Username row = Username u →
     rows IdempotencyRecord s' = rows IdempotencyRecord s ++ [bootstrap_record now rid] →
     has_clash (bootstrap_record now rid) (rows IdempotencyRecord s) = false →
     Q (inr row) s') →
  wp (CreateFirstAdmin now rid id u) Q s.
Proof.
  intros He HQ. unfold CreateFirstAdmin. wp_step. wp_step. wp_step. wp_step; [done|done|].
  cbn beta iota. wp_step. wp_step. wp_step. wp_step; [|done]. cbn beta iota.
  assert (rows User s = []) as Hnil.
  { rewrite bfilter_all in H2 by done. apply Nat.eqb_eq in H2. by apply nil_length_inv in H2. }
  wp_step. wp_step. wp_step; [done|done|]. cbn beta iota. wp_step. cbn beta iota.
  assert (userFromEnt row0 = row0) as -> by done.
  apply HQ; [done| |done|done|done|exact H1|exact H0].
  change (tbl_rows t0 = [row0]). rewrite H5. change (rows User s ++ [row0] = [row0]). by rewrite Hnil.
Qed.

(** Requests that create accounts, in the order they are served. *)
Inductive account_op :=
| OpCreateUser (now : Z) (id : string) (u : User)
| OpCreateFirstAdmin (now : Z) (record_id id : string) (u : User)
| OpIsInitialized.

(** Runs one of them, whatever its outcome; tells whether a first admin was made. *)
Definition account_step (op : account_op) : M bool :=
  match op with
  | OpCreateUser n i u => try (CreateUser n i u) (λ _, mret false)
  | OpCreateFirstAdmin n r i u =>
      try (CreateFirstAdmin n r i u) (λ res, mret (match res with inr _ => true | inl _ => false end))
  | OpIsInitialized => try IsInitialized (λ _, mret false)
  end.

Definition admins_made (outs : list bool) : nat := length (bfilter (λ b, b) outs).

Definition populated (s : Store) : nat := match rows User s with [] => 0 | _ => 1 end.

Lemma wp_account_step op s :
  wp (account_step op) (λ r s', ∃ b, r = inr b ∧ populated s ≤ populated s' ∧
    (b = true → populated s = 0 ∧ populated s' = 1)) s.
Proof.
  assert (∃ b, inr (A := error) false = inr b ∧ populated s ≤ populated s ∧
    (b = true → populated s = 0 ∧ populated s = 1)) as Hsame by by exists false.
  destruct op as [n i u|n r i u|]; cbn [account_step]; wp_step.
  - unfold CreateUser. wp_steps; try done. exists false. split; [done|]. split; [|done].
    unfold populated. rewrite rows_put, H1. by destruct (rows User s); cbn; lia.
  - apply wp_CreateFirstAdmin; [done|]. intros row s' Hnil Hs' _ _ _ _ _. wp_step.
    exists true. split; [done|]. unfold populated. rewrite Hnil, Hs'. lia.
  - unfold IsInitialized, CountUsers. wp_steps; done.
Qed.

(** The first administrator is made at most once: whatever bootstrap and
    sign-up requests are served, in whatever order, at most one
    [CreateFirstAdmin] succeeds, and none does if the server already has a user. *)
Theorem CreateFirstAdmin_once ops s :
  wp (map_m account_step ops) (λ r s', ∃ outs, r = inr outs ∧
    admins_made outs + populated s ≤ 1 ∧ admins_made outs + populated s ≤ populated s') s.
Proof.
  cut (wp (map_m account_step ops) (λ r s', ∃ outs, r = inr outs ∧
    admins_made outs + populated s ≤ populated s') s).
  { intros H. eapply wp_mono; [exact H|]. intros r s' (outs & -> & Hle). exists outs.
    split; [done|]. split; [|done]. unfold populated in Hle at 2. destruct (rows User s'); lia. }
  revert s. induction ops as [|op ops IH]; intros s; cbn [map_m].
  - wp_step. by exists [].
  - wp_step. eapply wp_mono; [apply wp_account_step|]. intros r s1 (b & -> & Hle & Hb).
    wp_step. eapply wp_mono; [apply IH|]. intros r s2 (outs & -> & H2). wp_step.
    eexists. split; [done|]. unfold admins_made in *. cbn. destruct b; cbn; [|lia].
    destruct (Hb eq_refl). lia.
Qed.

(** Once [CreateFirstAdmin] succeeded, the server is initialised: the account
    it returned is the only one, it is an administrator unless the request named
    another role, and [IsInitialized] says [true]; a call that fails changes
    nothing and leaves no transaction open. *)
Theorem CreateFirstAdmin_spec now rid id u s :
  wp (CreateFirstAdmin now rid id u) (λ r s', open_txs s' = open_txs s ∧
    match r with
    | inl _ => s' = s
    | inr row => rows User s = [] ∧ rows User s' = [row] ∧
        Role row = (if Role u =s "" then "admin" else Role u) ∧ Username row = Username u ∧
        wp IsInitialized (λ r' _, r' = inr true) s'
    end) s.
Proof.
  apply wp_CreateFirstAdmin; [done|]. intros row s' Hnil Hs' Ho Hrole Hname _ _.
  do 5 (split; [done|]). unfold IsInitialized, CountUsers. wp_step. wp_step.
  rewrite bfilter_all by done. rewrite Hs'. cbn. by wp_step.
Qed.

(** Looking a session up by its token never returns an expired session: what
    it returns is stored, has that token and expires later than now; a session
    that expired is removed and reported as not found, and nothing else is
    touched. *)
Theorem GetSessionByTokenHash_expiry now tokenHash s :
  unique_rows (rows Session s) = true →
  wp (GetSessionByTokenHash now tokenHash) (λ r s',
    match r with
    | inr row => s' = s ∧ row ∈ rows Session s ∧ Ss.TokenHash row = tokenHash ∧
        (now < Ss.ExpiresUnix row)%Z
    | inl e => e = ErrNotFound ∧
        rows Session s' = bfilter (λ x, negb ((Ss.TokenHash x =s tokenHash) &&
                                              (Ss.ExpiresUnix x <=? now)%Z)) (rows Session s) ∧
        ∀ x, x ∈ rows Session s' → Ss.TokenHash x ≠ tokenHash
    end) s.
Proof.
  intros Hu. unfold GetSessionByTokenHash. wp_step. wp_step.
  assert (key_test (λ r : Session, Ss.TokenHash r =s tokenHash)) as Hk.
  { intros a b Ha%eqb_eq_str Hb%eqb_eq_str. unfold clash. cbn. unfold Session_unique.
    by rewrite Ha, Hb, eqb_refl_str, orb_true_r. }
  apply wp_only_key; [done|done|..]; cbn beta iota.
  - intros Hn. split; [done|]. split.
    + symmetry. apply bfilter_all. intros x Hx. by rewrite (bfilter_nil_inv _ _ x Hn Hx).
    + intros x Hx. apply eqb_neq_str. exact (bfilter_nil_inv _ _ x Hn Hx).
  - intros row Hrow. apply bfilter_singleton_inv in Hrow as (Hin & Ht & Huniq).
    wp_step.
    + wp_step. unfold DeleteSession.
      assert (∀ t, tbl_rows t = bfilter (λ r, negb (entID r =s Ss.ID row)) (rows Session s) →
        tbl_rows t = bfilter (λ x, negb ((Ss.TokenHash x =s tokenHash) &&
                                              (Ss.ExpiresUnix x <=? now)%Z)) (rows Session s) ∧
        (∀ x, x ∈ tbl_rows t → Ss.TokenHash x ≠ tokenHash)) as Hdel.
      { intros t Htr. rewrite Htr. split.
        - apply bfilter_ext. intros x Hx. f_equal. destruct (Ss.TokenHash x =s tokenHash) eqn:Ex; cbn.
          + rewrite (Huniq x Hx Ex), E. apply eqb_refl_str.
          + apply eqb_neq_str. intros Eid. rewrite (unique_id_eq _ x row Hu Hx Hin Eid) in Ex. congruence.
        - intros x [Hx Hn]%elem_of_bfilter Ex. apply eqb_eq_str in Ex.
          rewrite (Huniq x Hx Ex) in Hn. cbn in Hn. by rewrite eqb_refl_str in Hn. }
      wp_step; wp_step; rewrite rows_put; (split; [done|]); by apply Hdel.
    + wp_step. assert (sessionFromEnt row = row) as -> by by destruct row.
      split; [done|]. split; [done|]. apply eqb_eq_str in Ht. apply Z.leb_gt in E. done.
Qed.

End users.

(** ** Witnesses *)

Definition session_a : Session := Ss.zero |> Ss.set_ID "s1" |> Ss.set_TokenHash "h"
  |> Ss.set_UserID "u1" |> Ss.set_ExpiresUnix 100.

Lemma GetSessionByTokenHash_expiry_witness :
  let s := set_sessions (Eng := list_engine) [session_a] empty_store in
  wp (Eng := list_engine) (GetSessionByTokenHash 200 "h") (λ r s',
    match r with
    | inr row => s' = s ∧ row ∈ [session_a] ∧ Ss.TokenHash row = "h" ∧ (200 < Ss.ExpiresUnix row)%Z
    | inl e => e = ErrNotFound ∧
        rows Session s' = bfilter (λ x, negb ((Ss.TokenHash x =s "h") &&
                                              (Ss.ExpiresUnix x <=? 200)%Z)) [session_a] ∧
        ∀ x, x ∈ rows Session s' → Ss.TokenHash x ≠ "h"
    end) s.
Proof. apply (GetSessionByTokenHash_expiry (Eng := list_engine)). reflexivity. Defined.

Definition admin_a : User := zero |> set_Username "ann" |> set_PasswordHash "h".

Lemma CreateFirstAdmin_once_witness :
  wp (Eng := list_engine)
    (map_m account_step [OpCreateFirstAdmin 5 "r1" "u1" admin_a; OpCreateFirstAdmin 6 "r2" "u2" admin_a])
    (λ r s', ∃ outs, r = inr outs ∧ admins_made outs + populated empty_store ≤ 1 ∧
       admins_made outs + populated empty_store ≤ populated s') empty_store.
Proof. apply (CreateFirstAdmin_once (Eng := list_engine)). Defined.

Lemma CreateFirstAdmin_spec_witness :
  wp (Eng := list_engine) (CreateFirstAdmin 5 "r1" "u1" admin_a) (λ r s', open_txs s' = 0 ∧
    match r with
    | inl _ => s' = empty_store
    | inr row => rows User empty_store = [] ∧ rows User s' = [row] ∧
        Role row = "admin" ∧ Username row = "ann" ∧
        wp (Eng := list_engine) IsInitialized (λ r' _, r' = inr true) s'
    end) empty_store.
Proof. apply (CreateFirstAdmin_spec (Eng := list_engine)). Defined.
