(* ===== verification/Endpoints.v ===== *)
(** * Interaction endpoints ([internal/storage/store.go])

    The IM providers a server talks through.  Routes, deliveries, authorization
    requests and subscriptions refer to an endpoint by its identifier; deleting
    one is refused while anything does. *)
From S2P Require Import Prelude GoStr Sql Json Models Schema Store.
Import InteractionEndpoint.
Module Ep := InteractionEndpointPatch.

Definition endpointFromEnt (row : InteractionEndpoint) : InteractionEndpoint :=
  mk (ID row) (Kind row) (Provider row) (DisplayName row) (TargetPrefix row) (InboundEnabled row)
     (OutboundEnabled row) (AuthMode row) (ConfigJSON row) (CreatedUnix row) (UpdatedUnix row).

Section endpoints.
Context {Eng : SqlEngine}.

Definition CreateInteractionEndpoint (now : Z) (fresh_id : string) (endpoint : InteractionEndpoint) :
    M InteractionEndpoint :=
  row ← or_conflict (ent_create (endpoint
    |> set_ID (if ID endpoint <>s "" then ID endpoint else fresh_id)
    |> set_CreatedUnix now |> set_UpdatedUnix now));
  mret (endpointFromEnt row).

Definition ListInteractionEndpoints (limit : Z) : M (list InteractionEndpoint) :=
  let limit := bounded_limit limit 200 100 in
  nodes ← ent_query (λ _, true) [DescZ CreatedUnix; DescS ID] 0 (Some (Z.to_nat limit));
  mret (endpointFromEnt <$> nodes).

Definition GetInteractionEndpoint (id : string) : M InteractionEndpoint :=
  row ← or_not_found (ent_only (λ r, ID r =s id));
  mret (endpointFromEnt row).

(** The normalised configuration of a patch. *)
Definition patched_config (patch : InteractionEndpointPatch) : error + option string :=
  match Ep.ConfigJSON patch with
  | None => inr None
  | Some v => match normalizeJSONDocument v with inl _ => inl ErrInvalidState | inr c => inr (Some c) end
  end.

Definition endpoint_fields (now : Z) (patch : InteractionEndpointPatch) (config : option string)
    (r : InteractionEndpoint) : InteractionEndpoint :=
  r |> set_UpdatedUnix now
    |> when_some (Ep.DisplayName patch) (λ v, set_DisplayName (TrimSpace v))
    |> when_some (Ep.TargetPrefix patch) (λ v, set_TargetPrefix (TrimSpace v))
    |> when_some (Ep.InboundEnabled patch) set_InboundEnabled
    |> when_some (Ep.OutboundEnabled patch) set_OutboundEnabled
    |> when_some (Ep.AuthMode patch) (λ v, set_AuthMode (TrimSpace v))
    |> when_some config set_ConfigJSON.

(** A field a patch sets must not be blank. *)
Definition set_nonblank (o : option string) : bool := check_some o (λ v, TrimSpace v <>s "").

Definition UpdateInteractionEndpoint (now : Z) (id : string) (patch : InteractionEndpointPatch) :
    M InteractionEndpoint :=
  _ ← guard (set_nonblank (Ep.DisplayName patch)) ErrInvalidState;
  _ ← guard (set_nonblank (Ep.TargetPrefix patch)) ErrInvalidState;
  _ ← guard (set_nonblank (Ep.AuthMode patch)) ErrInvalidState;
  match patched_config patch with
  | inl e => throw e
  | inr config =>
      row ← or_conflict (or_not_found (ent_update_one (TrimSpace id)
              (check_some (Ep.DisplayName patch) (λ v, not_empty (TrimSpace v)))
              (endpoint_fields now patch config)));
      mret (endpointFromEnt row)
  end.

Definition DeleteInteractionEndpoint (id : string) : M unit :=
  let id := TrimSpace id in
  _ ← guard (id <>s "") ErrNotFound;
  routeCount ← ent_count (λ r, NotificationRoute.EndpointID r =s id);
  deliveryCount ← ent_count (λ r, OutboundDelivery.EndpointID r =s id);
  authRequestCount ← ent_count (λ r, IMChatAuthRequest.EndpointID r =s id);
  subscriptionCount ← ent_count (λ r, IMChatSubscription.EndpointID r =s id);
  _ ← guard (negb ((0 <? routeCount) || (0 <? deliveryCount) || (0 <? authRequestCount) ||
                   (0 <? subscriptionCount))) ErrConflict;
  or_not_found (ent_delete_one (R := InteractionEndpoint) id).

(** ** Correctness *)

Context {Laws : SqlLaws}.

(** The endpoints something in the database refers to. *)
Definition referenced (s : Store) (id : string) : Prop :=
  (∃ r, r ∈ rows NotificationRoute s ∧ NotificationRoute.EndpointID r = id) ∨
  (∃ r, r ∈ rows OutboundDelivery s ∧ OutboundDelivery.EndpointID r = id) ∨
  (∃ r, r ∈ rows IMChatAuthRequest s ∧ IMChatAuthRequest.EndpointID r = id) ∨
  (∃ r, r ∈ rows IMChatSubscription s ∧ IMChatSubscription.EndpointID r = id).

Definition endpoint_ids (s : Store) : list string := ID <$> rows InteractionEndpoint s.

Lemma count_zero {A} (f : A → string) id l :
  length (bfilter (λ r, f r =s id) l) = 0 ↔ ¬ ∃ r, r ∈ l ∧ f r = id.
Proof.
  split.
  - intros H%nil_length_inv (r & Hr & Hid). apply eqb_eq_str in Hid.
    pose proof (bfilter_nil_inv _ _ _ H Hr) as Hf. cbn in Hf. congruence.
  - intros Hno. rewrite bfilter_none; [done|]. intros r Hr. apply eqb_neq_str.
    intros Hid. apply Hno. eauto.
Qed.

(** The four counts of the guard. *)
Lemma any_count_false s id :
  (0 <? length (bfilter (λ r, NotificationRoute.EndpointID r =s id) (rows NotificationRoute s))) ||
  (0 <? length (bfilter (λ r, OutboundDelivery.EndpointID r =s id) (rows OutboundDelivery s))) ||
  (0 <? length (bfilter (λ r, IMChatAuthRequest.EndpointID r =s id) (rows IMChatAuthRequest s))) ||
  (0 <? length (bfilter (λ r, IMChatSubscription.EndpointID r =s id) (rows IMChatSubscription s)))
  = false ↔ ¬ referenced s id.
Proof.
  unfold referenced. rewrite !orb_false_iff, !Nat.ltb_ge, !Nat.le_0_r, !count_zero. tauto.
Qed.

Lemma any_count_true s id :
  (0 <? length (bfilter (λ r, NotificationRoute.EndpointID r =s id) (rows NotificationRoute s))) ||
  (0 <? length (bfilter (λ r, OutboundDelivery.EndpointID r =s id) (rows OutboundDelivery s))) ||
  (0 <? length (bfilter (λ r, IMChatAuthRequest.EndpointID r =s id) (rows IMChatAuthRequest s))) ||
  (0 <? length (bfilter (λ r, IMChatSubscription.EndpointID r =s id) (rows IMChatSubscription s)))
  = true ↔ ¬ ¬ referenced s id.
Proof. rewrite <-any_count_false. symmetry. apply not_false_iff_true. Qed.

Lemma ids_none id s :
  bfilter (λ e, ID e =s id) (rows InteractionEndpoint s) = [] ↔ id ∉ endpoint_ids s.
Proof.
  unfold endpoint_ids. split.
  - intros E (x & Hid & Hx)%list_elem_of_fmap. pose proof (bfilter_nil_inv _ _ _ E Hx) as Hf.
    cbn in Hf. by rewrite Hid, eqb_refl_str in Hf.
  - intros Hno. apply bfilter_none. intros x Hx. apply eqb_neq_str. intros <-.
    apply Hno. by apply list_elem_of_fmap_2.
Qed.

(** Deleting an endpoint never leaves anything pointing at nothing: it is
    refused with [ErrConflict], changing nothing, while a route, a delivery, an
    authorization request or a subscription refers to the endpoint; otherwise it
    removes exactly that endpoint, or reports it missing. *)
Theorem DeleteInteractionEndpoint_referential id s :
  unique_rows (rows InteractionEndpoint s) = true → TrimSpace id ≠ "" →
  wp (DeleteInteractionEndpoint id) (λ r s',
    let id := TrimSpace id in
    (referenced s id → r = inl ErrConflict ∧ s' = s) ∧
    (¬ referenced s id →
       rows InteractionEndpoint s' = bfilter (λ e, ID e <>s id) (rows InteractionEndpoint s) ∧
       (r = inr () ∧ id ∈ endpoint_ids s ∨ r = inl ErrNotFound ∧ id ∉ endpoint_ids s)) ∧
    (∀ e, e ∈ endpoint_ids s → referenced s' e → e ∈ endpoint_ids s')) s.
Proof.
  intros Hu Hne. unfold DeleteInteractionEndpoint. set (i := TrimSpace id) in *.
  apply eqb_neq_str in Hne. wp_step. rewrite Hne. wp_step; [|done]. cbn beta iota.
  do 8 wp_step. wp_step. wp_step; cbn beta iota.
  - rewrite negb_true_iff, any_count_false in H0. wp_step.
    assert (∀ (r : error + unit) (t : tbl InteractionEndpoint),
      tbl_rows t = bfilter (λ e, ID e <>s i) (rows InteractionEndpoint s) →
      (r = inr () ∧ i ∈ endpoint_ids s ∨ r = inl ErrNotFound ∧ i ∉ endpoint_ids s) →
      let s' := put_tbl t s in
      (referenced s i → r = inl ErrConflict ∧ s' = s) ∧
      (¬ referenced s i →
         rows InteractionEndpoint s' = bfilter (λ e, ID e <>s i) (rows InteractionEndpoint s) ∧
         (r = inr () ∧ i ∈ endpoint_ids s ∨ r = inl ErrNotFound ∧ i ∉ endpoint_ids s)) ∧
      (∀ e, e ∈ endpoint_ids s → referenced s' e → e ∈ endpoint_ids s')) as Hpost.
    { intros r t Ht Hr s'. split; [done|]. split; [intros _; by rewrite <-Ht|].
      intros e He Hre. change (referenced s e) in Hre.
      assert (e ≠ i) as Hei by (intros ->; done).
      unfold endpoint_ids. unfold s'. rewrite rows_put, Ht.
      apply list_elem_of_fmap in He as (x & -> & Hx). apply list_elem_of_fmap_2.
      apply elem_of_bfilter. split; [done|]. by apply negb_true_iff, eqb_neq_str. }
    wp_step; cbn; (apply Hpost; [done|]).
    + right. split; [done|]. by apply ids_none.
    + left. split; [done|]. destruct (decide (i ∈ endpoint_ids s)) as [|Hn]; [done|].
      by apply ids_none in Hn.
  - rewrite negb_false_iff, any_count_true in H0. split; [done|]. split; [done|]. done.
Qed.

End endpoints.

(** ** Witness *)

Definition endpoint_a : InteractionEndpoint := zero |> set_ID "ep_1" |> set_Kind "im".
Definition route_a : NotificationRoute.NotificationRoute :=
  NotificationRoute.zero |> NotificationRoute.set_ID "rt_1" |> NotificationRoute.set_EndpointID "ep_1".

Definition endpoint_store : @Store list_engine :=
  set_notification_routes (Eng := list_engine) [route_a]
    (set_endpoints (Eng := list_engine) [endpoint_a] empty_store).

Lemma DeleteInteractionEndpoint_referential_witness :
  unique_rows (rows (Eng := list_engine) InteractionEndpoint endpoint_store) = true ∧
  (DeleteInteractionEndpoint (Eng := list_engine) " ep_1" endpoint_store).1 = inl ErrConflict.
Proof.
  split; [reflexivity|].
  apply (DeleteInteractionEndpoint_referential (Eng := list_engine) " ep_1" endpoint_store);
    [reflexivity|discriminate|].
  left. exists route_a. split; [by left|reflexivity].
Defined.
