(* ===== verification/ImChats.v ===== *)
(** * IM chat authorization ([internal/storage/store.go])

    A chat asks to be connected ([IMChatAuthRequest]); approving the request turns
    it into the chat's one subscription ([IMChatSubscription]) in the same
    transaction. *)
From S2P Require Import Prelude GoStr Sql Models Schema Store.
Module Rq := IMChatAuthRequest.
Module RqOpts := IMChatAuthRequestListOptions.
Module Sb := IMChatSubscription.
Module SbPatch := IMChatSubscriptionPatch.
Module SbOpts := IMChatSubscriptionListOptions.

Definition IMChatAuthRequestStatusPending := "pending".
Definition IMChatAuthRequestStatusApproved := "approved".
Definition IMChatAuthRequestStatusRejected := "rejected".
Definition IMChatAuthRequestStatusExpired := "expired".

Definition normalizeIMChatAuthRequestStatus `{!Unicode} (status : string) : string :=
  let s := ToLower (TrimSpace status) in
  if (s =s "") || (s =s IMChatAuthRequestStatusPending) then IMChatAuthRequestStatusPending
  else if s =s IMChatAuthRequestStatusApproved then IMChatAuthRequestStatusApproved
  else if s =s IMChatAuthRequestStatusRejected then IMChatAuthRequestStatusRejected
  else if s =s IMChatAuthRequestStatusExpired then IMChatAuthRequestStatusExpired
  else s.

Definition validIMChatAuthRequestStatus (status : string) : bool :=
  (status =s IMChatAuthRequestStatusPending) || (status =s IMChatAuthRequestStatusApproved) ||
  (status =s IMChatAuthRequestStatusRejected) || (status =s IMChatAuthRequestStatusExpired).

Definition normalizeIMChatAuthRequest `{!Unicode} (r : Rq.IMChatAuthRequest) : Rq.IMChatAuthRequest :=
  Rq.mk (TrimSpace (Rq.ID r)) (TrimSpace (Rq.EndpointID r)) (TrimSpace (Rq.Provider r))
    (TrimSpace (Rq.ConversationID r)) (TrimSpace (Rq.ExternalThreadID r)) (TrimSpace (Rq.ChatTitle r))
    (TrimSpace (Rq.SenderExternalID r)) (TrimSpace (Rq.TokenHash r)) (TrimSpace (Rq.TokenPrefix r))
    (normalizeIMChatAuthRequestStatus (Rq.Status r)) (TrimSpace (Rq.RequestedTarget r))
    (TrimSpace (Rq.RequestedThreadID r))
    (if (Rq.ExpiresUnix r <? 0)%Z then 0%Z else Rq.ExpiresUnix r)
    (TrimSpace (Rq.ResolvedByUserID r))
    (if (Rq.ResolvedUnix r <? 0)%Z then 0%Z else Rq.ResolvedUnix r)
    (Rq.CreatedUnix r) (Rq.UpdatedUnix r).

Definition normalizeIMChatSubscription (r : Sb.IMChatSubscription) : Sb.IMChatSubscription :=
  Sb.mk (TrimSpace (Sb.ID r)) (TrimSpace (Sb.EndpointID r)) (TrimSpace (Sb.Provider r))
    (TrimSpace (Sb.ConversationID r)) (TrimSpace (Sb.ExternalThreadID r)) (TrimSpace (Sb.ChatTitle r))
    (TrimSpace (Sb.Target r)) (TrimSpace (Sb.ThreadID r)) (TrimSpace (Sb.SenderExternalID r))
    (TrimSpace (Sb.AuthorizedByRequestID r)) (Sb.Subscribed r) (Sb.Verbose r)
    (if (Sb.AuthorizedUnix r <? 0)%Z then 0%Z else Sb.AuthorizedUnix r)
    (if (Sb.SubscribedUnix r <? 0)%Z then 0%Z else Sb.SubscribedUnix r)
    (Sb.CreatedUnix r) (Sb.UpdatedUnix r).

(** The token hash is not handed out. *)
Definition imChatAuthRequestFromEnt (row : Rq.IMChatAuthRequest) : Rq.IMChatAuthRequest :=
  Rq.mk (Rq.ID row) (Rq.EndpointID row) (Rq.Provider row) (Rq.ConversationID row)
    (Rq.ExternalThreadID row) (Rq.ChatTitle row) (Rq.SenderExternalID row) ""
    (Rq.TokenPrefix row) (Rq.Status row) (Rq.RequestedTarget row) (Rq.RequestedThreadID row)
    (Rq.ExpiresUnix row) (Rq.ResolvedByUserID row) (Rq.ResolvedUnix row) (Rq.CreatedUnix row)
    (Rq.UpdatedUnix row).

Definition imChatSubscriptionFromEnt (row : Sb.IMChatSubscription) : Sb.IMChatSubscription :=
  Sb.mk (Sb.ID row) (Sb.EndpointID row) (Sb.Provider row) (Sb.ConversationID row)
    (Sb.ExternalThreadID row) (Sb.ChatTitle row) (Sb.Target row) (Sb.ThreadID row)
    (Sb.SenderExternalID row) (Sb.AuthorizedByRequestID row) (Sb.Subscribed row) (Sb.Verbose row)
    (Sb.AuthorizedUnix row) (Sb.SubscribedUnix row) (Sb.CreatedUnix row) (Sb.UpdatedUnix row).

(** The chat a subscription is for: the columns of its unique index. *)
Definition has_chat (endpointID conversationID externalThreadID : string)
    (r : Sb.IMChatSubscription) : bool :=
  (Sb.EndpointID r =s endpointID) && (Sb.ConversationID r =s conversationID) &&
  (Sb.ExternalThreadID r =s externalThreadID).

(** The assignments of the update branch; [existing] is the row read before it. *)
Definition resubscribe_fields (now : Z) (sub existing r : Sb.IMChatSubscription) :
    Sb.IMChatSubscription :=
  r |> Sb.set_Provider (Sb.Provider sub)
    |> Sb.set_ChatTitle (Sb.ChatTitle sub)
    |> Sb.set_Target (Sb.Target sub)
    |> Sb.set_ThreadID (Sb.ThreadID sub)
    |> Sb.set_SenderExternalID (Sb.SenderExternalID sub)
    |> Sb.set_AuthorizedByRequestID (Sb.AuthorizedByRequestID sub)
    |> Sb.set_Subscribed (Sb.Subscribed sub)
    |> Sb.set_Verbose (Sb.Verbose sub)
    |> Sb.set_UpdatedUnix now
    |> (if (0 <? Sb.AuthorizedUnix sub)%Z then Sb.set_AuthorizedUnix (Sb.AuthorizedUnix sub)
        else when (Sb.AuthorizedUnix existing =? 0)%Z (Sb.set_AuthorizedUnix now))
    |> when (Sb.Subscribed sub)
         (if (0 <? Sb.SubscribedUnix sub)%Z then Sb.set_SubscribedUnix (Sb.SubscribedUnix sub)
          else when (negb (Sb.Subscribed existing) || (Sb.SubscribedUnix existing =? 0)%Z)
                 (Sb.set_SubscribedUnix now)).

(** The row of the create branch. *)
Definition new_subscription (now : Z) (fresh_id : string) (sub : Sb.IMChatSubscription) :
    Sb.IMChatSubscription :=
  Sb.zero |> Sb.set_ID (if Sb.ID sub <>s "" then Sb.ID sub else fresh_id)
    |> Sb.set_EndpointID (Sb.EndpointID sub)
    |> Sb.set_Provider (Sb.Provider sub)
    |> Sb.set_ConversationID (Sb.ConversationID sub)
    |> Sb.set_ExternalThreadID (Sb.ExternalThreadID sub)
    |> Sb.set_ChatTitle (Sb.ChatTitle sub)
    |> Sb.set_Target (Sb.Target sub)
    |> Sb.set_ThreadID (Sb.ThreadID sub)
    |> Sb.set_SenderExternalID (Sb.SenderExternalID sub)
    |> Sb.set_AuthorizedByRequestID (Sb.AuthorizedByRequestID sub)
    |> Sb.set_Subscribed (Sb.Subscribed sub)
    |> Sb.set_Verbose (Sb.Verbose sub)
    |> Sb.set_AuthorizedUnix
         (if (Sb.AuthorizedUnix sub =? 0)%Z then now else Sb.AuthorizedUnix sub)
    |> Sb.set_SubscribedUnix
         (if Sb.Subscribed sub && (Sb.SubscribedUnix sub =? 0)%Z then now else Sb.SubscribedUnix sub)
    |> Sb.set_CreatedUnix now |> Sb.set_UpdatedUnix now.

(** One attempt at an approval: its time, the identifier it would draw, the request,
    the user and what it grants. *)
Record approval := mkApproval {
  a_now : Z; a_fresh : string; a_request : string; a_user : string; a_grant : Sb.IMChatSubscription
}.

Section imchats.
Context {Eng : SqlEngine} {Uni : Unicode}.

(** ** Authorization requests *)

Definition CreateIMChatAuthRequest (now : Z) (fresh_id : string) (request : Rq.IMChatAuthRequest) :
    M Rq.IMChatAuthRequest :=
  let request := normalizeIMChatAuthRequest request in
  _ ← guard (negb ((Rq.EndpointID request =s "") || (Rq.ConversationID request =s "") ||
                   (Rq.TokenHash request =s ""))) ErrInvalidState;
  _ ← guard (validIMChatAuthRequestStatus (Rq.Status request)) ErrInvalidState;
  row ← or_conflict (ent_create (Rq.zero
    |> Rq.set_ID (if Rq.ID request <>s "" then Rq.ID request else fresh_id)
    |> Rq.set_EndpointID (Rq.EndpointID request)
    |> Rq.set_Provider (Rq.Provider request)
    |> Rq.set_ConversationID (Rq.ConversationID request)
    |> Rq.set_ExternalThreadID (Rq.ExternalThreadID request)
    |> Rq.set_ChatTitle (Rq.ChatTitle request)
    |> Rq.set_SenderExternalID (Rq.SenderExternalID request)
    |> Rq.set_TokenHash (Rq.TokenHash request)
    |> Rq.set_TokenPrefix (Rq.TokenPrefix request)
    |> Rq.set_Status (Rq.Status request)
    |> Rq.set_RequestedTarget (Rq.RequestedTarget request)
    |> Rq.set_RequestedThreadID (Rq.RequestedThreadID request)
    |> Rq.set_ExpiresUnix (Rq.ExpiresUnix request)
    |> Rq.set_CreatedUnix now |> Rq.set_UpdatedUnix now));
  mret (imChatAuthRequestFromEnt row).

(** The condition of the listing. *)
Definition listed_request (now : Z) (opts : RqOpts.IMChatAuthRequestListOptions)
    (r : Rq.IMChatAuthRequest) : bool :=
  let endpointID := TrimSpace (RqOpts.EndpointID opts) in
  let status := normalizeIMChatAuthRequestStatus (RqOpts.Status opts) in
  (if endpointID <>s "" then Rq.EndpointID r =s endpointID else true) &&
  (if status <>s "" then
     (Rq.Status r =s status) &&
     (if (status =s IMChatAuthRequestStatusPending) && negb (RqOpts.IncludeExpired opts)
      then (Rq.ExpiresUnix r =? 0)%Z || (now <? Rq.ExpiresUnix r)%Z else true)
   else true).

Definition ListIMChatAuthRequests (now : Z) (opts : RqOpts.IMChatAuthRequestListOptions) :
    M (list Rq.IMChatAuthRequest) :=
  let limit := bounded_limit (RqOpts.Limit opts) 200 100 in
  nodes ← ent_query (listed_request now opts) [DescZ Rq.CreatedUnix; DescS Rq.ID] 0
            (Some (Z.to_nat limit));
  mret (imChatAuthRequestFromEnt <$> nodes).

Definition GetIMChatAuthRequestByTokenHash (tokenHash : string) : M Rq.IMChatAuthRequest :=
  let tokenHash := TrimSpace tokenHash in
  _ ← guard (tokenHash <>s "") ErrNotFound;
  row ← or_not_found (ent_only (λ r, Rq.TokenHash r =s tokenHash));
  mret (imChatAuthRequestFromEnt row).

Definition GetIMChatAuthRequest (id : string) : M Rq.IMChatAuthRequest :=
  let id := TrimSpace id in
  _ ← guard (id <>s "") ErrNotFound;
  row ← or_not_found (ent_only (λ r, Rq.ID r =s id));
  mret (imChatAuthRequestFromEnt row).

Definition resolve_fields (now : Z) (statusValue resolvedByUserID : string)
    (r : Rq.IMChatAuthRequest) : Rq.IMChatAuthRequest :=
  r |> Rq.set_Status statusValue |> Rq.set_UpdatedUnix now
    |> (if statusValue =s IMChatAuthRequestStatusPending
        then λ r, r |> Rq.set_ResolvedByUserID "" |> Rq.set_ResolvedUnix 0
        else λ r, r |> Rq.set_ResolvedByUserID (TrimSpace resolvedByUserID) |> Rq.set_ResolvedUnix now).

Definition UpdateIMChatAuthRequestStatus (now : Z) (id statusValue resolvedByUserID : string) :
    M Rq.IMChatAuthRequest :=
  let id := TrimSpace id in
  let statusValue := normalizeIMChatAuthRequestStatus statusValue in
  _ ← guard (id <>s "") ErrNotFound;
  _ ← guard (validIMChatAuthRequestStatus statusValue) ErrInvalidState;
  row ← or_not_found (ent_update_one id true (resolve_fields now statusValue resolvedByUserID));
  mret (imChatAuthRequestFromEnt row).

Definition approve_fields (now : Z) (resolvedByUserID : string) (r : Rq.IMChatAuthRequest) :
    Rq.IMChatAuthRequest :=
  r |> Rq.set_Status IMChatAuthRequestStatusApproved
    |> Rq.set_ResolvedByUserID (TrimSpace resolvedByUserID)
    |> Rq.set_ResolvedUnix now |> Rq.set_UpdatedUnix now.

(** The second half of an approval, inside its transaction: the chat's subscription
    is written over, or created. *)
Definition write_subscription (now : Z) (fresh_id : string) (sub : Sb.IMChatSubscription) :
    M Sb.IMChatSubscription :=
  try (ent_only (has_chat (Sb.EndpointID sub) (Sb.ConversationID sub) (Sb.ExternalThreadID sub)))
    (λ res, match res with
     | inr existing =>
         or_not_found (ent_update_one (Sb.ID existing) true (resubscribe_fields now sub existing))
     | inl e =>
         if IsNotFound e then or_conflict (ent_create (new_subscription now fresh_id sub))
         else throw e
     end).

Definition ApproveIMChatAuthRequest (now : Z) (fresh_id id resolvedByUserID : string)
    (subscription : Sb.IMChatSubscription) : M (Rq.IMChatAuthRequest * Sb.IMChatSubscription) :=
  let id := TrimSpace id in
  let subscription := normalizeIMChatSubscription subscription in
  _ ← guard (id <>s "") ErrNotFound;
  _ ← guard (negb ((Sb.EndpointID subscription =s "") || (Sb.ConversationID subscription =s "")))
        ErrInvalidState;
  in_tx (λ _, true) (
    requestRow ← or_not_found (ent_only (λ r, Rq.ID r =s id));
    _ ← guard (Rq.Status requestRow =s IMChatAuthRequestStatusPending) ErrInvalidState;
    requestRow ← or_not_found (ent_update_one id true (approve_fields now resolvedByUserID));
    subscriptionRow ← write_subscription now fresh_id subscription;
    mret (imChatAuthRequestFromEnt requestRow, imChatSubscriptionFromEnt subscriptionRow)).

(** ** Subscriptions *)

Definition GetIMChatSubscription (endpointID conversationID externalThreadID : string) :
    M Sb.IMChatSubscription :=
  let endpointID := TrimSpace endpointID in
  let conversationID := TrimSpace conversationID in
  let externalThreadID := TrimSpace externalThreadID in
  _ ← guard (negb ((endpointID =s "") || (conversationID =s ""))) ErrNotFound;
  row ← or_not_found (ent_only (has_chat endpointID conversationID externalThreadID));
  mret (imChatSubscriptionFromEnt row).

Definition UpsertIMChatSubscription (now : Z) (fresh_id : string)
    (subscription : Sb.IMChatSubscription) : M Sb.IMChatSubscription :=
  let subscription := normalizeIMChatSubscription subscription in
  _ ← guard (negb ((Sb.EndpointID subscription =s "") || (Sb.ConversationID subscription =s "")))
        ErrInvalidState;
  try (GetIMChatSubscription (Sb.EndpointID subscription) (Sb.ConversationID subscription)
         (Sb.ExternalThreadID subscription))
    (λ res, match res with
     | inr existing =>
         row ← or_not_found (ent_update_one (Sb.ID existing) true
                 (resubscribe_fields now subscription existing));
         mret (imChatSubscriptionFromEnt row)
     | inl e =>
         if bool_decide (e = ErrNotFound) then
           row ← or_conflict (ent_create (new_subscription now fresh_id subscription));
           mret (imChatSubscriptionFromEnt row)
         else throw e
     end).

Definition ListIMChatSubscriptions (opts : SbOpts.IMChatSubscriptionListOptions) :
    M (list Sb.IMChatSubscription) :=
  let limit := bounded_limit (SbOpts.Limit opts) 200 100 in
  let endpointID := TrimSpace (SbOpts.EndpointID opts) in
  let provider := TrimSpace (SbOpts.Provider opts) in
  nodes ← ent_query
    (λ r, (if endpointID <>s "" then Sb.EndpointID r =s endpointID else true) &&
          (if provider <>s "" then Sb.Provider r =s provider else true) &&
          check_some (SbOpts.Subscribed opts) (λ b, Bool.eqb (Sb.Subscribed r) b))
    [DescZ Sb.UpdatedUnix; DescS Sb.ID] 0 (Some (Z.to_nat limit));
  mret (imChatSubscriptionFromEnt <$> nodes).

Definition subscription_patch_fields (now : Z) (patch : SbPatch.IMChatSubscriptionPatch)
    (r : Sb.IMChatSubscription) : Sb.IMChatSubscription :=
  r |> Sb.set_UpdatedUnix now
    |> when_some (SbPatch.ChatTitle patch) (λ v, Sb.set_ChatTitle (TrimSpace v))
    |> when_some (SbPatch.Target patch) (λ v, Sb.set_Target (TrimSpace v))
    |> when_some (SbPatch.ThreadID patch) (λ v, Sb.set_ThreadID (TrimSpace v))
    |> when_some (SbPatch.Subscribed patch)
         (λ v r, r |> Sb.set_Subscribed v |> when v (Sb.set_SubscribedUnix now))
    |> when_some (SbPatch.Verbose patch) Sb.set_Verbose.

Definition UpdateIMChatSubscription (now : Z) (id : string)
    (patch : SbPatch.IMChatSubscriptionPatch) : M Sb.IMChatSubscription :=
  let id := TrimSpace id in
  _ ← guard (id <>s "") ErrNotFound;
  row ← or_not_found (ent_update_one id true (subscription_patch_fields now patch));
  mret (imChatSubscriptionFromEnt row).

(** ** Correctness *)

Context {Laws : SqlLaws}.

Definition sub_chat (sub : Sb.IMChatSubscription) : Sb.IMChatSubscription → bool :=
  has_chat (Sb.EndpointID sub) (Sb.ConversationID sub) (Sb.ExternalThreadID sub).

(** What a subscription grants the chat. *)
Definition grant (sub : Sb.IMChatSubscription) : string * string * bool * bool * string :=
  (Sb.Target sub, Sb.ThreadID sub, Sb.Subscribed sub, Sb.Verbose sub, Sb.AuthorizedByRequestID sub).

(** From [s] to [s'] only the subscription of [sub]'s chat was written: [row] is
    its only row and carries the grant of [sub]. *)
Definition chat_written (sub row : Sb.IMChatSubscription) (s s' : Store) : Prop :=
  bfilter (sub_chat sub) (rows Sb.IMChatSubscription s') = [row] ∧ grant row = grant sub ∧
  bfilter (λ r, negb (sub_chat sub r)) (rows Sb.IMChatSubscription s') =
  bfilter (λ r, negb (sub_chat sub r)) (rows Sb.IMChatSubscription s).

Lemma chat_key e c t : key_test (has_chat e c t).
Proof.
  intros a b Ha Hb. unfold has_chat in *. reflect_bools.
  unfold clash. cbn. unfold IMChatSubscription_unique. apply orb_true_iff. right.
  repeat match goal with H : _ = _ |- _ => rewrite H; clear H end. by rewrite !eqb_refl_str.
Qed.

Lemma resubscribe_fixes now sub existing r :
  let r' := resubscribe_fields now sub existing r in
  (Sb.ID r', Sb.EndpointID r', Sb.ConversationID r', Sb.ExternalThreadID r') =
  (Sb.ID r, Sb.EndpointID r, Sb.ConversationID r, Sb.ExternalThreadID r) ∧ grant r' = grant sub.
Proof. unfold resubscribe_fields, when, grant. repeat case_match; done. Qed.

Lemma resubscribe_keeps now sub existing : keeps_keys (resubscribe_fields now sub existing).
Proof.
  repeat split; intros; unfold clash; cbn; unfold IMChatSubscription_unique;
    match goal with |- context [resubscribe_fields ?n ?s ?e ?r] =>
      destruct (resubscribe_fixes n s e r) as [[= -> H1 H2 H3] _] end; by rewrite ?H1, ?H2, ?H3.
Qed.

Lemma sub_chat_resubscribe sub now sub' existing r :
  sub_chat sub (resubscribe_fields now sub' existing r) = sub_chat sub r.
Proof.
  unfold sub_chat, has_chat.
  by destruct (resubscribe_fixes now sub' existing r) as [[= _ -> -> ->] _].
Qed.

Lemma sub_chat_new now fid sub : sub_chat sub (new_subscription now fid sub) = true.
Proof. unfold sub_chat, has_chat. cbn. by rewrite !eqb_refl_str. Qed.

(** Writing over the row that was read. *)
Lemma chat_rewritten now sub existing s (t : tbl Sb.IMChatSubscription) :
  bfilter (sub_chat sub) (rows Sb.IMChatSubscription s) = [existing] →
  unique_rows (rows Sb.IMChatSubscription s) = true →
  tbl_rows t = update_rows (λ r, entID r =s Sb.ID existing) (resubscribe_fields now sub existing)
                 (rows Sb.IMChatSubscription s) →
  chat_written sub (resubscribe_fields now sub existing existing) s (put_tbl t s).
Proof.
  intros He Hu Ht. unfold chat_written. rewrite rows_put, Ht.
  rewrite (update_rows_ext (λ r, entID r =s Sb.ID existing) (sub_chat sub)).
  2:{ intros x Hx. destruct (bfilter_singleton_inv _ _ _ He) as (Hin & Hp & Honly).
      destruct (sub_chat sub x) eqn:E.
      - rewrite (Honly x) by done. apply eqb_refl_str.
      - apply eqb_neq_str. intros Hid. assert (x = existing) by (by eapply unique_id_eq).
        congruence. }
  rewrite bfilter_update by apply sub_chat_resubscribe. rewrite He. split; [|split].
  - unfold update_rows. cbn [map]. destruct (bfilter_singleton_inv _ _ _ He) as (_ & -> & _). done.
  - apply resubscribe_fixes.
  - rewrite bfilter_update by (intros; by rewrite sub_chat_resubscribe).
    apply update_rows_none. intros x [_ Hx]%elem_of_bfilter. by apply negb_true_iff.
Qed.

(** Adding the chat's first row. *)
Lemma chat_added now fid sub s (t : tbl Sb.IMChatSubscription) :
  bfilter (sub_chat sub) (rows Sb.IMChatSubscription s) = [] →
  tbl_rows t = rows Sb.IMChatSubscription s ++ [new_subscription now fid sub] →
  chat_written sub (new_subscription now fid sub) s (put_tbl t s).
Proof.
  intros He Ht. unfold chat_written. rewrite rows_put, Ht, !bfilter_app, He. cbn [bfilter].
  rewrite sub_chat_new. split; [done|]. split; [done|]. cbn. by rewrite app_nil_r.
Qed.

Lemma wp_write_subscription now fid sub s (Q : error + Sb.IMChatSubscription → Store → Prop) :
  unique_rows (rows Sb.IMChatSubscription s) = true →
  (∀ e s', Q (inl e) s') →
  (∀ row t, let s' := put_tbl (R := Sb.IMChatSubscription) t s in
     unique_rows (tbl_rows t) = true → chat_written sub row s s' → Q (inr row) s') →
  wp (write_subscription now fid sub) Q s.
Proof.
  intros Hu He HQ. unfold write_subscription. apply wp_try, wp_only_key; [done|apply chat_key|..].
  - intros E. wp_step; [|done]. unfold or_conflict.
    apply wp_map_error, wp_create; [intros; apply He..|]. intros _ Hc t Ht. apply HQ.
    + rewrite Ht. by apply unique_app_one.
    + by apply chat_added.
  - intros existing E. unfold or_not_found. apply wp_map_error.
    change (Sb.ID existing) with (entID existing).
    apply wp_update_read; [done| |apply resubscribe_keeps|].
    + by apply bfilter_singleton_inv in E as (? & _).
    + intros t Ht Hut. apply HQ; [done|]. by apply chat_rewritten.
Qed.

(** The outcome of an approval. *)
Definition approval_post (now : Z) (id by_user : string) (sub : Sb.IMChatSubscription) (s : Store)
    (r : error + (Rq.IMChatAuthRequest * Sb.IMChatSubscription)) (s' : Store) : Prop :=
  match r with
  | inl _ => s' = s
  | inr (request, row) =>
      rows Rq.IMChatAuthRequest s' =
        update_rows (λ r, Rq.ID r =s TrimSpace id) (approve_fields now by_user)
          (rows Rq.IMChatAuthRequest s) ∧
      (∃ old, bfilter (λ r, Rq.ID r =s TrimSpace id) (rows Rq.IMChatAuthRequest s) = [old] ∧
         Rq.Status old = IMChatAuthRequestStatusPending ∧
         request = imChatAuthRequestFromEnt (approve_fields now by_user old)) ∧
      chat_written (normalizeIMChatSubscription sub) row s s' ∧
      unique_rows (rows Rq.IMChatAuthRequest s') = true ∧
      unique_rows (rows Sb.IMChatSubscription s') = true ∧
      open_txs s' = open_txs s
  end.

Lemma wp_approve now fid id by_user sub s :
  unique_rows (rows Rq.IMChatAuthRequest s) = true →
  unique_rows (rows Sb.IMChatSubscription s) = true →
  wp (ApproveIMChatAuthRequest now fid id by_user sub) (approval_post now id by_user sub s) s.
Proof.
  intros Hr Hs. unfold ApproveIMChatAuthRequest, approval_post.
  do 2 (wp_step; wp_step; [|done]; cbn beta iota).
  wp_step. do 2 wp_step. apply wp_only_key; [done|exact (id_key_test (R := Rq.IMChatAuthRequest) (TrimSpace id))|done|].
  intros old Hold. wp_step. wp_step; [|done]. reflect_bools. cbn beta iota.
  do 2 wp_step. wp_step; cbn; [done..|].
  injection (eq_trans (eq_sym Hold) H4) as <-.
  wp_step. apply wp_write_subscription; [done|done|]. intros row t' s' Hu Hc. wp_step.
  split; [exact H5|]. split; [by exists old|]. split; [by destruct row|]. split; [done|]. split; [|done].
  subst s'. by unfold rows.
Qed.

(** C28. Approving an authorization request is one atomic step: on any error the
    database is as it was; on success the request, and no other, went from pending
    to approved with the resolver on record, and the chat named by the grant has
    exactly one subscription row, which carries the grant, while the other chats'
    rows are untouched. *)
Theorem ApproveIMChatAuthRequest_atomic now fid id by_user sub s :
  unique_rows (rows Rq.IMChatAuthRequest s) = true →
  unique_rows (rows Sb.IMChatSubscription s) = true →
  wp (ApproveIMChatAuthRequest now fid id by_user sub) (λ r s',
    match r with
    | inl _ => s' = s
    | inr (request, row) =>
        rows Rq.IMChatAuthRequest s' =
          update_rows (λ r, Rq.ID r =s TrimSpace id) (approve_fields now by_user)
            (rows Rq.IMChatAuthRequest s) ∧
        (∃ old, bfilter (λ r, Rq.ID r =s TrimSpace id) (rows Rq.IMChatAuthRequest s) = [old] ∧
           Rq.Status old = IMChatAuthRequestStatusPending ∧
           request = imChatAuthRequestFromEnt (approve_fields now by_user old)) ∧
        chat_written (normalizeIMChatSubscription sub) row s s' ∧
        unique_rows (rows Rq.IMChatAuthRequest s') = true ∧
        unique_rows (rows Sb.IMChatSubscription s') = true ∧
        open_txs s' = open_txs s
    end) s.
Proof. apply wp_approve. Qed.

(** *** Approvals racing for the same requests *)

Definition run_approval (a : approval) : M (option string) :=
  try (ApproveIMChatAuthRequest (a_now a) (a_fresh a) (a_request a) (a_user a) (a_grant a))
    (λ res, mret (match res with inr _ => Some (TrimSpace (a_request a)) | inl _ => None end)).

(** How many requests of an identifier are pending: at most one. *)
Definition pending_test (id : string) (r : Rq.IMChatAuthRequest) : bool :=
  (Rq.ID r =s id) && (Rq.Status r =s IMChatAuthRequestStatusPending).

Definition pending (id : string) (s : Store) : nat :=
  length (bfilter (pending_test id) (rows Rq.IMChatAuthRequest s)).

Definition granted (id : string) (outs : list (option string)) : nat :=
  length (bfilter (λ o, bool_decide (o = Some id)) outs).

Lemma pending_approved now by_user id id' l old :
  bfilter (λ r, Rq.ID r =s id) l = [old] → Rq.Status old = IMChatAuthRequestStatusPending →
  length (bfilter (pending_test id') l) =
  (if decide (id = id') then 1 else 0) +
  length (bfilter (pending_test id') (update_rows (λ r, Rq.ID r =s id) (approve_fields now by_user) l)).
Proof.
  intros Hold Hp. destruct (decide (id = id')) as [<-|Hne].
  - rewrite (bfilter_none _ (update_rows _ _ _)).
    + unfold pending_test. rewrite <-(bfilter_bfilter (λ r, Rq.Status r =s _) (λ r, Rq.ID r =s id)).
      rewrite Hold. cbn [bfilter]. by rewrite Hp, eqb_refl_str.
    + intros x (y & Hy & ->)%elem_of_update_rows. unfold pending_test.
      destruct (Rq.ID y =s id) eqn:E; [|by rewrite E]. cbn. by rewrite andb_false_r.
  - cbn. clear Hold. induction l as [|y l IH]; [done|]. unfold update_rows in *. cbn [map bfilter].
    destruct (Rq.ID y =s id) eqn:E.
    + assert (∀ r, Rq.ID r = id → pending_test id' r = false) as Hf.
      { intros r Hr. unfold pending_test. rewrite Hr. by rewrite (proj2 (eqb_neq_str id id')). }
      reflect_bools. by rewrite !Hf.
    + destruct (pending_test id' y); cbn; by rewrite IH.
Qed.

Lemma pending_le_1 id s : unique_rows (rows Rq.IMChatAuthRequest s) = true → pending id s ≤ 1.
Proof.
  intros Hu. unfold pending. destruct (unique_filter (pending_test id) _ Hu) as [->|[r ->]]; cbn; [|lia..].
  intros a b Ha Hb. unfold pending_test in *. reflect_bools. unfold clash. cbn.
  rewrite H1, H. by rewrite eqb_refl_str.
Qed.

(** However many approvals race for a request, in whatever order their
    transactions run, at most one of them is granted: each grant uses up one
    pending request, and there is at most one per identifier. *)
Theorem approvals_granted_once l s :
  unique_rows (rows Rq.IMChatAuthRequest s) = true →
  unique_rows (rows Sb.IMChatSubscription s) = true →
  wp (map_m run_approval l) (λ r s', ∃ outs, r = inr outs ∧
    ∀ id, granted id outs + pending id s' = pending id s ∧ granted id outs ≤ 1) s.
Proof.
  intros Hr Hs. enough (wp (map_m run_approval l) (λ r s', ∃ outs, r = inr outs ∧
    ∀ id, granted id outs + pending id s' = pending id s) s) as H.
  { eapply wp_mono; [exact H|]. cbn. intros r s' (outs & -> & Ho). exists outs. split; [done|].
    intros id. split; [done|]. pose proof (pending_le_1 id s Hr). specialize (Ho id). lia. }
  revert s Hr Hs. induction l as [|a l IH]; intros s Hr Hs; cbn [map_m].
  - wp_step. by exists [].
  - wp_step. unfold run_approval at 1. wp_step.
    eapply wp_mono; [by apply wp_approve|]. unfold approval_post. intros [e|[rq sb]] s1 Hpost; wp_step.
    + subst s1. wp_step. eapply wp_mono; [by apply IH|]. cbn. intros r s2 (outs & -> & Ho).
      exists (None :: outs). split; [done|]. intros id. apply Ho.
    + destruct Hpost as (Hrows & (old & Hold & Hp & _) & _ & Hr1 & Hs1 & _).
      wp_step. eapply wp_mono; [by apply IH|]. cbn. intros r s2 (outs & -> & Ho).
      exists (Some (TrimSpace (a_request a)) :: outs). split; [done|]. intros id.
      unfold pending at 2. rewrite (pending_approved (a_now a) (a_user a) _ id _ _ Hold Hp), <-Hrows.
      specialize (Ho id). fold (pending id s1). rewrite <-Ho. unfold granted. cbn [bfilter].
      case_bool_decide as Hd; case_decide; simplify_eq; cbn; lia.
Qed.

End imchats.

(** ** Witnesses *)

Definition request_a : Rq.IMChatAuthRequest := Rq.zero |> Rq.set_ID "imreq_1"
  |> Rq.set_EndpointID "ep_1" |> Rq.set_ConversationID "c1" |> Rq.set_TokenHash "h"
  |> Rq.set_Status "pending".

Definition grant_a : Sb.IMChatSubscription := Sb.zero |> Sb.set_EndpointID " ep_1"
  |> Sb.set_ConversationID "c1" |> Sb.set_Target "#general" |> Sb.set_Subscribed true.

Definition request_store : @Store list_engine :=
  set_auth_requests (Eng := list_engine) [request_a] empty_store.

Definition approve_a : M (Eng := list_engine) (Rq.IMChatAuthRequest * Sb.IMChatSubscription) :=
  ApproveIMChatAuthRequest 20 "imsub_1" "imreq_1" "usr_1" grant_a.

Definition is_ok {A} (r : error + A) : bool := match r with inr _ => true | inl _ => false end.

Lemma ApproveIMChatAuthRequest_atomic_witness :
  is_ok (approve_a request_store).1 = true ∧
  wp approve_a (approval_post 20 "imreq_1" "usr_1" grant_a request_store) request_store.
Proof.
  split; [vm_compute; reflexivity|].
  apply (ApproveIMChatAuthRequest_atomic (Eng := list_engine)); reflexivity.
Defined.

Lemma approvals_granted_once_witness :
  wp (Eng := list_engine)
    (map_m run_approval [mkApproval 20 "imsub_1" "imreq_1" "usr_1" grant_a;
                         mkApproval 21 "imsub_2" "imreq_1" "usr_2" grant_a])
    (λ r s', ∃ outs, r = inr outs ∧
       ∀ id, granted id outs + pending id s' = pending id request_store ∧ granted id outs ≤ 1)
    request_store.
Proof. apply (approvals_granted_once (Eng := list_engine)); reflexivity. Defined.
