(* ===== verification/Channels.v ===== *)
(** * Channels and their members ([internal/storage/store.go])

    A channel is known by its target, normalised to start with one hash; members
    are told apart by target, kind and identifier. *)
From S2P Require Import Prelude GoStr Sql Models Schema Store.
Module Sum := ChannelSummary.
Module Mem := ChannelMember.
Module Ch := ChannelRow.
Module Mr := ChannelMemberRow.

Section normalizers.
Context `{!Unicode}.

Definition normalizeChannelTarget (target : string) : string :=
  let target := TrimSpace target in
  if target =s "" then "" else "#" +:+ TrimPrefix target "#".

Definition normalizeChannelVisibility (visibility : string) : string :=
  let v := ToLower (TrimSpace visibility) in
  if (v =s "") || (v =s "public") then "public" else if v =s "private" then "private" else v.

Definition validChannelVisibility (visibility : string) : bool :=
  (visibility =s "public") || (visibility =s "private").

Definition normalizeChannelMemberKind (kind : string) : string :=
  let k := ToLower (TrimSpace kind) in
  if (k =s "") || (k =s "human") || (k =s "user") then "human"
  else if k =s "agent" then "agent" else k.

Definition validChannelMemberKind (kind : string) : bool := (kind =s "human") || (kind =s "agent").

Definition normalizeChannelMemberRole (role : string) : string :=
  let r := ToLower (TrimSpace role) in
  if (r =s "") || (r =s "member") then "member" else r.

Definition validChannelMemberRole (role : string) : bool :=
  (role =s "admin") || (role =s "member") || (role =s "viewer").

Definition normalizeChannelSummary (c : Sum.ChannelSummary) : error + Sum.ChannelSummary :=
  let c := c |> Sum.set_Target (normalizeChannelTarget (Sum.Target c))
             |> Sum.set_DisplayName (TrimSpace (Sum.DisplayName c))
             |> Sum.set_ChannelType (ToLower (TrimSpace (Sum.ChannelType c)))
             |> Sum.set_Visibility (normalizeChannelVisibility (Sum.Visibility c)) in
  let c := c |> when (Sum.ChannelType c =s "") (Sum.set_ChannelType "channel") in
  let c := c |> when (Sum.DisplayName c =s "")
                  (Sum.set_DisplayName (TrimPrefix (Sum.Target c) "#")) in
  if (Sum.Target c =s "") || negb (HasPrefix (Sum.Target c) "#") || (Sum.DisplayName c =s "")
  then inl ErrInvalidState
  else if (Sum.ChannelType c <>s "channel") || negb (validChannelVisibility (Sum.Visibility c))
  then inl ErrInvalidState
  else inr c.

Definition normalizeChannelMember (m : Mem.ChannelMember) : error + Mem.ChannelMember :=
  let m := m |> Mem.set_Target (normalizeChannelTarget (Mem.Target m))
             |> Mem.set_MemberID (TrimSpace (Mem.MemberID m))
             |> Mem.set_Username (TrimSpace (Mem.Username m))
             |> Mem.set_DisplayName (TrimSpace (Mem.DisplayName m))
             |> Mem.set_Kind (normalizeChannelMemberKind (Mem.Kind m))
             |> Mem.set_Role (normalizeChannelMemberRole (Mem.Role m)) in
  let m := m |> when (Mem.DisplayName m =s "")
                  (Mem.set_DisplayName (firstNonEmpty [Mem.Username m; Mem.MemberID m])) in
  if (Mem.Target m =s "") || (Mem.MemberID m =s "") || (Mem.DisplayName m =s "")
  then inl ErrInvalidState
  else if negb (validChannelMemberKind (Mem.Kind m)) || negb (validChannelMemberRole (Mem.Role m))
  then inl ErrInvalidState
  else inr m.

End normalizers.

(** The fields the row does not have stay at their zero values. *)
Definition channelFromEnt (row : Ch.ChannelRow) : Sum.ChannelSummary :=
  Sum.mk (Ch.Target row) (Ch.DisplayName row) (Ch.ChannelType row) (Ch.Visibility row) false 0 ""
    (Ch.CreatedByUserID row) (Ch.CreatedUnix row) (Ch.UpdatedUnix row).

Definition channelMemberFromEnt (row : Mr.ChannelMemberRow) : Mem.ChannelMember :=
  Mem.mk (Mr.Target row) (Mr.MemberID row) (Mr.Username row) (Mr.DisplayName row) (Mr.Kind row)
    (Mr.Role row) (Mr.JoinedTimeUnix row) (Mr.UpdatedUnix row).

(** The columns of the members' unique index. *)
Definition is_member (target kind memberID : string) (r : Mr.ChannelMemberRow) : bool :=
  (Mr.Target r =s target) && (Mr.Kind r =s kind) && (Mr.MemberID r =s memberID).

(** The targets of the rows, the first of each: the loop over [seen]. *)
Fixpoint distinct_targets (seen : list string) (l : list Mr.ChannelMemberRow) : list string :=
  match l with
  | [] => []
  | row :: l =>
      if bool_decide (Mr.Target row ∈ seen) then distinct_targets seen l
      else Mr.Target row :: distinct_targets (Mr.Target row :: seen) l
  end.

Section channels.
Context {Eng : SqlEngine} {Uni : Unicode}.

(** ** Channels *)

Definition CreateChannel (now : Z) (fresh_id : string) (channelModel : Sum.ChannelSummary) :
    M Sum.ChannelSummary :=
  match normalizeChannelSummary channelModel with
  | inl e => throw e
  | inr normalized =>
      row ← or_conflict (ent_create
        (Ch.mk fresh_id (Sum.Target normalized) (Sum.DisplayName normalized)
           (Sum.ChannelType normalized) (Sum.Visibility normalized)
           (TrimSpace (Sum.CreatedByUserID normalized)) now now));
      mret (channelFromEnt row)
  end.

Definition channelMemberTargets (userID : string) : M (list string) :=
  let userID := TrimSpace userID in
  if userID =s "" then mret []
  else
    nodes ← ent_query (λ r, (Mr.Kind r =s "human") && (Mr.MemberID r =s userID)) [] 0 None;
    mret (distinct_targets [] nodes).

Definition ListChannels (opts : ChannelListOptions.ChannelListOptions) :
    M (list Sum.ChannelSummary) :=
  let limit := bounded_limit (ChannelListOptions.Limit opts) 200 100 in
  let all (p : Ch.ChannelRow → bool) : M (list Sum.ChannelSummary) :=
    nodes ← ent_query p [AscS Ch.Target] 0 (Some (Z.to_nat limit));
    mret (channelFromEnt <$> nodes) in
  if ChannelListOptions.JoinedOnly opts then
    targets ← channelMemberTargets (ChannelListOptions.UserID opts);
    match targets with
    | [] => mret []
    | _ => all (λ r, bool_decide (Ch.Target r ∈ targets))
    end
  else all (λ _, true).

Definition GetChannel (target : string) : M Sum.ChannelSummary :=
  let target := normalizeChannelTarget target in
  _ ← guard (target <>s "") ErrNotFound;
  row ← or_not_found (ent_only (λ r, Ch.Target r =s target));
  mret (channelFromEnt row).

Definition channel_patch_fields (now : Z) (patch : ChannelPatch.ChannelPatch) (r : Ch.ChannelRow) :
    Ch.ChannelRow :=
  r |> Ch.set_UpdatedUnix now
    |> when_some (ChannelPatch.DisplayName patch) (λ v, Ch.set_DisplayName (TrimSpace v))
    |> when_some (ChannelPatch.Visibility patch) (λ v, Ch.set_Visibility (normalizeChannelVisibility v)).

Definition UpdateChannel (now : Z) (target : string) (patch : ChannelPatch.ChannelPatch) :
    M Sum.ChannelSummary :=
  let target := normalizeChannelTarget target in
  _ ← guard (target <>s "") ErrNotFound;
  _ ← guard (check_some (ChannelPatch.DisplayName patch) (λ v, TrimSpace v <>s "")) ErrInvalidState;
  _ ← guard (check_some (ChannelPatch.Visibility patch)
               (λ v, validChannelVisibility (normalizeChannelVisibility v))) ErrInvalidState;
  affected ← ent_update (λ r, Ch.Target r =s target)
    (check_some (ChannelPatch.DisplayName patch) (λ v, not_empty (TrimSpace v)))
    (channel_patch_fields now patch);
  if affected =? 0 then throw ErrNotFound else GetChannel target.

Definition DeleteChannel (target : string) : M unit :=
  let target := normalizeChannelTarget target in
  _ ← guard (target <>s "") ErrNotFound;
  memberCount ← ent_count (λ r, Mr.Target r =s target);
  messageCount ← ent_count (λ r, MessageRow.Target r =s target);
  taskCount ← ent_count (λ r, Task.Target r =s target);
  _ ← guard (negb ((0 <? memberCount) || (0 <? messageCount) || (0 <? taskCount))) ErrConflict;
  affected ← ent_delete (λ r, Ch.Target r =s target);
  if affected =? 0 then throw ErrNotFound else mret ().

(** ** Members *)

Definition member_fields (now : Z) (m : Mem.ChannelMember) (r : Mr.ChannelMemberRow) :
    Mr.ChannelMemberRow :=
  r |> Mr.set_Username (Mem.Username m) |> Mr.set_DisplayName (Mem.DisplayName m)
    |> Mr.set_Role (Mem.Role m) |> Mr.set_UpdatedUnix now.

Definition UpsertChannelMember (now : Z) (fresh_id : string) (member : Mem.ChannelMember) :
    M Mem.ChannelMember :=
  match normalizeChannelMember member with
  | inl e => throw e
  | inr n =>
      _ ← GetChannel (Mem.Target n);
      try (ent_only (is_member (Mem.Target n) (Mem.Kind n) (Mem.MemberID n))) (λ res,
        match res with
        | inl e =>
            if IsNotFound e then
              row ← or_conflict (ent_create
                (Mr.mk fresh_id (Mem.Target n) (Mem.MemberID n) (Mem.Username n)
                   (Mem.DisplayName n) (Mem.Kind n) (Mem.Role n) now now));
              mret (channelMemberFromEnt row)
            else throw e
        | inr row =>
            row ← ent_update_one (Mr.ID row) (not_empty (Mem.DisplayName n)) (member_fields now n);
            mret (channelMemberFromEnt row)
        end)
  end.

Definition ListChannelMembers (target : string) (limit : Z) : M (list Mem.ChannelMember) :=
  let target := normalizeChannelTarget target in
  _ ← guard (target <>s "") ErrNotFound;
  let limit := bounded_limit limit 200 100 in
  nodes ← ent_query (λ r, Mr.Target r =s target)
            [AscS Mr.Kind; AscS Mr.DisplayName; AscS Mr.MemberID] 0 (Some (Z.to_nat limit));
  mret (channelMemberFromEnt <$> nodes).

Definition member_patch_fields (now : Z) (patch : ChannelMemberPatch.ChannelMemberPatch)
    (r : Mr.ChannelMemberRow) : Mr.ChannelMemberRow :=
  r |> Mr.set_UpdatedUnix now
    |> when_some (ChannelMemberPatch.Username patch) (λ v, Mr.set_Username (TrimSpace v))
    |> when_some (ChannelMemberPatch.DisplayName patch) (λ v, Mr.set_DisplayName (TrimSpace v))
    |> when_some (ChannelMemberPatch.Role patch) (λ v, Mr.set_Role (normalizeChannelMemberRole v)).

Definition UpdateChannelMember (now : Z) (target kind memberID : string)
    (patch : ChannelMemberPatch.ChannelMemberPatch) : M Mem.ChannelMember :=
  let target := normalizeChannelTarget target in
  let kind := normalizeChannelMemberKind kind in
  let memberID := TrimSpace memberID in
  _ ← guard (negb ((target =s "") || (kind =s "") || (memberID =s ""))) ErrNotFound;
  _ ← guard (check_some (ChannelMemberPatch.DisplayName patch) (λ v, TrimSpace v <>s ""))
        ErrInvalidState;
  _ ← guard (check_some (ChannelMemberPatch.Role patch)
               (λ v, validChannelMemberRole (normalizeChannelMemberRole v))) ErrInvalidState;
  affected ← ent_update (is_member target kind memberID)
    (check_some (ChannelMemberPatch.DisplayName patch) (λ v, not_empty (TrimSpace v)))
    (member_patch_fields now patch);
  if affected =? 0 then throw ErrNotFound
  else
    row ← ent_only (is_member target kind memberID);
    mret (channelMemberFromEnt row).

Definition DeleteChannelMember (target kind memberID : string) : M unit :=
  let target := normalizeChannelTarget target in
  let kind := normalizeChannelMemberKind kind in
  let memberID := TrimSpace memberID in
  _ ← guard (negb ((target =s "") || (kind =s "") || (memberID =s ""))) ErrNotFound;
  affected ← ent_delete (is_member target kind memberID);
  if affected =? 0 then throw ErrNotFound else mret ().

(** ** Specification *)

Inductive channel_op :=
| OpCreateChannel (now : Z) (id : string) (c : Sum.ChannelSummary)
| OpListChannels (opts : ChannelListOptions.ChannelListOptions)
| OpGetChannel (target : string)
| OpUpdateChannel (now : Z) (target : string) (patch : ChannelPatch.ChannelPatch)
| OpDeleteChannel (target : string)
| OpUpsertMember (now : Z) (id : string) (m : Mem.ChannelMember)
| OpListMembers (target : string) (limit : Z)
| OpUpdateMember (now : Z) (target kind id : string) (patch : ChannelMemberPatch.ChannelMemberPatch)
| OpDeleteMember (target kind id : string).

Definition run_channel_op (op : channel_op) : M unit :=
  match op with
  | OpCreateChannel n i c => _ ← CreateChannel n i c; mret ()
  | OpListChannels o => _ ← ListChannels o; mret ()
  | OpGetChannel t => _ ← GetChannel t; mret ()
  | OpUpdateChannel n t p => _ ← UpdateChannel n t p; mret ()
  | OpDeleteChannel t => DeleteChannel t
  | OpUpsertMember n i m => _ ← UpsertChannelMember n i m; mret ()
  | OpListMembers t l => _ ← ListChannelMembers t l; mret ()
  | OpUpdateMember n t k i p => _ ← UpdateChannelMember n t k i p; mret ()
  | OpDeleteMember t k i => DeleteChannelMember t k i
  end.

Definition channel_ok (c : Ch.ChannelRow) : Prop :=
  HasPrefix (Ch.Target c) "#" = true ∧ Ch.DisplayName c ≠ "" ∧ Ch.ChannelType c = "channel" ∧
  validChannelVisibility (Ch.Visibility c) = true.

Definition member_ok (m : Mr.ChannelMemberRow) : Prop :=
  Mr.MemberID m ≠ "" ∧ Mr.DisplayName m ≠ "" ∧ validChannelMemberKind (Mr.Kind m) = true ∧
  validChannelMemberRole (Mr.Role m) = true.

(** Well-formed channels and members, no two the same, and every member in a channel
    that exists. *)
Record housed (cs : list Ch.ChannelRow) (ms : list Mr.ChannelMemberRow) : Prop := {
  channels_unique : unique_rows cs = true;
  members_unique : unique_rows ms = true;
  channels_ok : Forall channel_ok cs;
  members_ok : Forall member_ok ms;
  members_in : ∀ m, m ∈ ms → ∃ c, c ∈ cs ∧ Ch.Target c = Mr.Target m
}.

Definition rooms_housed (s : Store) : Prop :=
  housed (rows Ch.ChannelRow s) (rows Mr.ChannelMemberRow s).

(** ** Correctness *)

Context {Laws : SqlLaws}.

Lemma normalizeChannelTarget_trimmed t : trimmed (normalizeChannelTarget t).
Proof.
  unfold normalizeChannelTarget. destruct (TrimSpace t =s "") eqn:E; [done|].
  destruct (TrimPrefix_hash_cases (TrimSpace t)) as [[-> _]|[-> _]]; [auto with nekode|].
  apply trimmed_hash. auto with nekode.
Qed.

Lemma normalizeChannelTarget_idemp t :
  normalizeChannelTarget (normalizeChannelTarget t) = normalizeChannelTarget t.
Proof.
  unfold normalizeChannelTarget at 1. rewrite normalizeChannelTarget_trimmed.
  unfold normalizeChannelTarget. destruct (TrimSpace t =s "") eqn:E; [done|].
  destruct (_ +:+ _ =s "") eqn:E2; [by apply eqb_eq_str in E2|]. by rewrite TrimPrefix_hash.
Qed.

Lemma channel_key target : key_test (λ r, Ch.Target r =s target).
Proof.
  intros a b Ha Hb. reflect_bools. unfold clash. cbn. unfold ChannelRow_unique.
  rewrite Ha, Hb, eqb_refl_str. apply orb_true_r.
Qed.

Lemma member_key target kind id : key_test (is_member target kind id).
Proof.
  intros a b Ha Hb. unfold is_member in *. reflect_bools. unfold clash. cbn.
  unfold ChannelMemberRow_unique. apply orb_true_iff. right.
  repeat match goal with H : _ = _ |- _ => rewrite H; clear H end. by rewrite !eqb_refl_str.
Qed.

Lemma normalizeChannelSummary_ok c n :
  normalizeChannelSummary c = inr n → ∀ id by_user now,
  channel_ok (Ch.mk id (Sum.Target n) (Sum.DisplayName n) (Sum.ChannelType n) (Sum.Visibility n)
                by_user now now).
Proof.
  unfold normalizeChannelSummary. intros H id by_user now. repeat case_match; try done.
  injection H as <-. reflect_bools. done.
Qed.

Lemma normalizeChannelMember_ok m n :
  normalizeChannelMember m = inr n →
  Mem.Target n = normalizeChannelTarget (Mem.Target m) ∧
  Mem.MemberID n ≠ "" ∧ Mem.DisplayName n ≠ "" ∧ validChannelMemberKind (Mem.Kind n) = true ∧
  validChannelMemberRole (Mem.Role n) = true.
Proof.
  unfold normalizeChannelMember. intros H. repeat case_match; try done.
  injection H as <-. reflect_bools. through Mem.Target. done.
Qed.

(** *** The steps of the two tables *)

Lemma housed_add_channel cs ms c :
  housed cs ms → has_clash c cs = false → channel_ok c → housed (cs ++ [c]) ms.
Proof.
  intros [] Hc Hok. split; [by apply unique_app_one|done| |done|].
  - apply Forall_app. by rewrite Forall_singleton.
  - intros m (x & Hx & ?)%members_in0. exists x. rewrite elem_of_app. auto.
Qed.

Lemma housed_update_channel cs ms p f :
  housed cs ms → unique_rows (update_rows p f cs) = true →
  (∀ c, channel_ok c → channel_ok (f c) ∧ Ch.Target (f c) = Ch.Target c) →
  housed (update_rows p f cs) ms.
Proof.
  intros [] Hu Hf. split; [done..| |done|].
  - rewrite Forall_forall in channels_ok0 |- *. intros c (x & Hx & ->)%elem_of_update_rows.
    destruct (p x); [apply Hf|]; auto.
  - intros m (x & Hx & Ht)%members_in0. exists (if p x then f x else x).
    rewrite elem_of_update_rows. split; [by exists x|]. rewrite <-Ht.
    destruct (p x); [|done]. apply Hf. rewrite Forall_forall in channels_ok0. auto.
Qed.

Lemma housed_delete_channel cs ms target :
  housed cs ms → bfilter (λ m, Mr.Target m =s target) ms = [] →
  housed (bfilter (λ c, Ch.Target c <>s target) cs) ms.
Proof.
  intros [] Hm. split; [by apply unique_bfilter|done| |done|].
  - rewrite Forall_forall in channels_ok0 |- *. intros c [Hc _]%elem_of_bfilter. auto.
  - intros m Hin. destruct (members_in0 m Hin) as (c & Hc & Ht). exists c.
    split; [|done]. apply elem_of_bfilter. split; [done|]. rewrite Ht.
    by rewrite (bfilter_nil_inv _ _ _ Hm Hin).
Qed.

Lemma housed_add_member cs ms m c :
  housed cs ms → has_clash m ms = false → member_ok m → c ∈ cs → Ch.Target c = Mr.Target m →
  housed cs (ms ++ [m]).
Proof.
  intros [] Hc Hok Hin Ht. split; [done|by apply unique_app_one|done| |].
  - apply Forall_app. by rewrite Forall_singleton.
  - intros x [Hx| ->%list_elem_of_singleton]%elem_of_app; [auto|]. by exists c.
Qed.

Lemma housed_update_member cs ms p f :
  housed cs ms → unique_rows (update_rows p f ms) = true →
  (∀ m, member_ok m → member_ok (f m) ∧ Mr.Target (f m) = Mr.Target m) →
  housed cs (update_rows p f ms).
Proof.
  intros [] Hu Hf. rewrite Forall_forall in members_ok0.
  split; [done..| |].
  - rewrite Forall_forall. intros m (x & Hx & ->)%elem_of_update_rows.
    destruct (p x); [apply Hf|]; auto.
  - intros m (x & Hx & ->)%elem_of_update_rows. destruct (members_in0 x Hx) as (c & Hc & Ht).
    exists c. split; [done|]. destruct (p x); [|done].
    destruct (Hf x) as [_ ->]; auto.
Qed.

Lemma housed_delete_member cs ms p : housed cs ms → housed cs (bfilter p ms).
Proof.
  intros []. split; [done|by apply unique_bfilter|done| |].
  - rewrite Forall_forall in members_ok0 |- *. intros m [? _]%elem_of_bfilter. auto.
  - intros m [? _]%elem_of_bfilter. auto.
Qed.

(** *** The patches keep rows well formed *)

Lemma channel_patch_ok now patch c :
  check_some (ChannelPatch.DisplayName patch) (λ v, TrimSpace v <>s "") = true →
  check_some (ChannelPatch.Visibility patch)
    (λ v, validChannelVisibility (normalizeChannelVisibility v)) = true →
  channel_ok c →
  channel_ok (channel_patch_fields now patch c) ∧
  Ch.Target (channel_patch_fields now patch c) = Ch.Target c.
Proof.
  unfold channel_ok, channel_patch_fields, when_some, check_some. destruct patch as [d v]; cbn.
  intros Hd Hv (H1 & H2 & H3 & H4). destruct d, v; cbn; reflect_bools; done.
Qed.

Lemma member_patch_ok now patch m :
  check_some (ChannelMemberPatch.DisplayName patch) (λ v, TrimSpace v <>s "") = true →
  check_some (ChannelMemberPatch.Role patch)
    (λ v, validChannelMemberRole (normalizeChannelMemberRole v)) = true →
  member_ok m →
  member_ok (member_patch_fields now patch m) ∧
  Mr.Target (member_patch_fields now patch m) = Mr.Target m.
Proof.
  unfold member_ok, member_patch_fields, when_some, check_some. destruct patch as [u d r]; cbn.
  intros Hd Hr (H1 & H2 & H3 & H4). destruct u, d, r; cbn; reflect_bools; done.
Qed.

Lemma wp_GetChannel target s (Q : error + Sum.ChannelSummary → Store → Prop) :
  (∀ e, Q (inl e) s) →
  (∀ c, c ∈ rows Ch.ChannelRow s → Ch.Target c = normalizeChannelTarget target →
     Q (inr (channelFromEnt c)) s) →
  wp (GetChannel target) Q s.
Proof.
  intros H1 H2. unfold GetChannel. wp_step. wp_step; [|done]. do 3 wp_step; [done| |done].
  wp_step. apply bfilter_singleton_inv in H0 as (? & ? & _). apply H2; [done|]. by reflect_bools.
Qed.

(** Settles a goal about the store after a write to one of the two tables. *)
Ltac rooms lem :=
  match goal with
  | |- rooms_housed (put_tbl ?t ?s) =>
      unfold rooms_housed;
      first [change (housed (tbl_rows t) (rows Mr.ChannelMemberRow s))
            |change (housed (rows Ch.ChannelRow s) (tbl_rows t))];
      match goal with H : tbl_rows t = _ |- _ => rewrite H in * end; eapply lem; eauto
  end.

(** Whatever sequence of operations is applied to channels and members, rooms
    stay in order: channels and members are well formed, no target is used twice
    and no membership doubled, and every member is in a channel that exists; a
    channel is only deleted once it has no members. *)
Theorem channel_ops_keep_rooms op s :
  rooms_housed s →
  wp (run_channel_op op) (λ _ s', rooms_housed s') s.
Proof.
  intros Hs. pose proof (channels_unique _ _ Hs) as Huc. pose proof (members_unique _ _ Hs) as Hum.
  destruct op; cbn [run_channel_op].
  - unfold CreateChannel. wp_step. destruct (normalizeChannelSummary c) eqn:E; wp_steps; try done.
    subst row. rooms housed_add_channel. eapply normalizeChannelSummary_ok. exact E.
  - unfold ListChannels, channelMemberTargets. wp_steps; done.
  - wp_step. apply wp_GetChannel; [done|]. intros. by wp_step.
  - unfold UpdateChannel. wp_steps; try done; try solve_keeps.
    2: apply wp_GetChannel; intros; [|wp_step].
    all: rooms housed_update_channel; intros x Hx; by apply channel_patch_ok.
  - unfold DeleteChannel. wp_steps; try done.
    all: rooms housed_delete_channel; reflect_bools; by apply nil_length_inv, Nat.le_0_r, Nat.ltb_ge.
  - unfold UpsertChannelMember. wp_step. destruct (normalizeChannelMember m) as [e|n] eqn:E; [by wp_step|].
    apply normalizeChannelMember_ok in E as (Ht & Hid & Hdn & Hk & Hr).
    wp_step. apply wp_GetChannel; [done|]. intros c Hc Hct.
    rewrite Ht, normalizeChannelTarget_idemp, <-Ht in Hct.
    wp_steps; try done; try solve_keeps.
    + subst row. rooms housed_add_member; done.
    + rooms housed_update_member. intros x (? & ? & ? & ?). split; [|done]. done.
  - unfold ListChannelMembers. wp_steps; done.
  - unfold UpdateChannelMember. wp_steps; try done; try solve_keeps.
    all: rooms housed_update_member; intros x Hx; by apply member_patch_ok.
  - unfold DeleteChannelMember. wp_steps; try done.
    all: rooms housed_delete_member.
Qed.

End channels.

(** ** Witness *)

Definition channel_a : Ch.ChannelRow := Ch.mk "ch_1" "#general" "general" "channel" "public" "usr_1" 1 1.
Definition member_a : Mr.ChannelMemberRow := Mr.mk "m_1" "#general" "usr_1" "ann" "Ann" "human" "admin" 1 1.

Definition channel_store : @Store list_engine :=
  set_channels (Eng := list_engine) [channel_a]
    (set_channel_members (Eng := list_engine) [member_a] empty_store).

Lemma channel_ops_keep_rooms_witness :
  wp (Eng := list_engine)
    (run_channel_op (Uni := ascii_unicode)
       (OpUpsertMember 5 "m_2" (Mem.mk " general " "agt_1" "" "" " Agent" "" 0 0)))
    (λ _ s', rooms_housed s') channel_store.
Proof.
  apply (channel_ops_keep_rooms (Eng := list_engine)). split.
  - reflexivity.
  - reflexivity.
  - apply Forall_singleton. repeat split; discriminate.
  - apply Forall_singleton. repeat split; discriminate.
  - intros m ->%list_elem_of_singleton. exists channel_a. split; [by left|reflexivity].
Defined.
