(* ===== verification/Deliveries.v ===== *)
(** * Outbound deliveries ([internal/storage/store.go])

    Messages on their way to an endpoint: their status, and the retry policy, an
    exponential backoff that gives up after a number of attempts. *)
From S2P Require Import Prelude GoStr Sql Models Schema Store.
Import OutboundDelivery.
Module Opts := OutboundDeliveryListOptions.

Definition normalizeOutboundDeliveryStatus `{!Unicode} (status : string) : string :=
  let s := ToLower (TrimSpace status) in
  if (s =s "") || (s =s "pending") then "pending"
  else if s =s "delivered" then "delivered"
  else if s =s "failed" then "failed"
  else if (s =s "retry") || (s =s "retrying") then "retrying"
  else if (s =s "cancelled") || (s =s "canceled") then "canceled"
  else s.

Definition validOutboundDeliveryStatus (status : string) : bool :=
  (status =s "pending") || (status =s "delivered") || (status =s "failed") ||
  (status =s "retrying") || (status =s "canceled").

(** The doubling loop: [i] counts up to [attempt] while the delay is below the cap.
    It runs at most five times, since the delay starts at 30 and doubles. *)
Fixpoint delay_loop (fuel : nat) (i attempt delay : Z) : Z :=
  match fuel with
  | O => delay
  | S fuel =>
      if (i <? attempt)%Z && (delay <? 900)%Z then delay_loop fuel (u32 (i + 1)) attempt (i64 (delay * 2))
      else delay
  end.

Definition outboundRetryDelaySeconds (attempt : Z) : Z :=
  let attempt := if (attempt =? 0)%Z then 1%Z else attempt in
  let delay := delay_loop 6 1 attempt 30 in
  if (900 <? delay)%Z then 900%Z else delay.

Definition outboundDeliveryFromEnt (row : OutboundDelivery) : OutboundDelivery :=
  mk (ID row) (Target row) (MessageID row) (EndpointID row) (EndpointKind row)
     (ExternalMessageID row) (Status row) (AttemptCount row) (NextRetryTimeUnix row)
     (DeliveredTimeUnix row) (LastError row) (RequestID row) (CreatedUnix row) (UpdatedUnix row).

Section deliveries.
Context {Eng : SqlEngine} {Uni : Unicode}.

Definition CreateOutboundDelivery (now : Z) (fresh_id : string) (delivery : OutboundDelivery) :
    M OutboundDelivery :=
  let status := normalizeOutboundDeliveryStatus (Status delivery) in
  _ ← guard (validOutboundDeliveryStatus status) ErrInvalidState;
  let delivery := delivery |> when (CreatedUnix delivery =? 0)%Z (set_CreatedUnix now) in
  let delivery := delivery |> set_UpdatedUnix now in
  row ← or_conflict (ent_create
    (delivery |> set_Status status
              |> set_ID (if ID delivery <>s "" then ID delivery else fresh_id)));
  mret (outboundDeliveryFromEnt row).

Definition GetOutboundDelivery (id : string) : M OutboundDelivery :=
  row ← or_not_found (ent_only (λ r, ID r =s id));
  mret (outboundDeliveryFromEnt row).

Definition listed_delivery (opts : Opts.OutboundDeliveryListOptions) (r : OutboundDelivery) : bool :=
  (if Opts.Target opts <>s "" then Target r =s Opts.Target opts else true) &&
  (if Opts.MessageID opts <>s "" then MessageID r =s Opts.MessageID opts else true) &&
  (if Opts.EndpointID opts <>s "" then EndpointID r =s Opts.EndpointID opts else true) &&
  (match Opts.Statuses opts with
   | [] => true
   | l => bool_decide (Status r ∈ map normalizeOutboundDeliveryStatus l)
   end) &&
  (if (0 <? Opts.ReadyUnix opts)%Z
   then (Status r <>s "retrying") || (NextRetryTimeUnix r <=? Opts.ReadyUnix opts)%Z else true).

Definition ListOutboundDeliveries (opts : Opts.OutboundDeliveryListOptions) :
    M (list OutboundDelivery) :=
  let limit := bounded_limit (Opts.Limit opts) 200 50 in
  _ ← guard (forallb (λ s, validOutboundDeliveryStatus (normalizeOutboundDeliveryStatus s))
               (Opts.Statuses opts)) ErrInvalidState;
  nodes ← ent_query (listed_delivery opts) [DescZ UpdatedUnix; DescS ID] 0 (Some (Z.to_nat limit));
  mret (outboundDeliveryFromEnt <$> nodes).

Definition status_fields (now : Z) (statusValue lastError : string)
    (nextRetryUnix deliveredUnix : Z) (r : OutboundDelivery) : OutboundDelivery :=
  r |> set_Status statusValue |> set_LastError lastError |> set_NextRetryTimeUnix nextRetryUnix
    |> set_DeliveredTimeUnix deliveredUnix |> set_UpdatedUnix now.

Definition UpdateOutboundDeliveryStatus (now : Z) (id statusValue lastError : string)
    (nextRetryUnix deliveredUnix : Z) : M OutboundDelivery :=
  let statusValue := normalizeOutboundDeliveryStatus statusValue in
  _ ← guard (validOutboundDeliveryStatus statusValue) ErrInvalidState;
  row ← or_not_found (ent_update_one id true
          (status_fields now statusValue lastError nextRetryUnix deliveredUnix));
  mret (outboundDeliveryFromEnt row).

Definition retry_fields (now nextRetryUnix : Z) (r : OutboundDelivery) : OutboundDelivery :=
  r |> set_Status "retrying" |> set_AttemptCount (u32 (AttemptCount r + 1))
    |> set_NextRetryTimeUnix nextRetryUnix |> set_DeliveredTimeUnix 0 |> set_LastError ""
    |> set_UpdatedUnix now.

Definition ScheduleOutboundDeliveryRetry (now : Z) (id : string) (nextRetryUnix : Z) :
    M OutboundDelivery :=
  let nextRetryUnix := if (nextRetryUnix =? 0)%Z then now else nextRetryUnix in
  row ← or_not_found (ent_update_one id true (retry_fields now nextRetryUnix));
  mret (outboundDeliveryFromEnt row).

Definition failure_fields (nowUnix attempt nextRetryUnix : Z) (status lastError : string)
    (r : OutboundDelivery) : OutboundDelivery :=
  r |> set_Status status |> set_AttemptCount attempt |> set_NextRetryTimeUnix nextRetryUnix
    |> set_DeliveredTimeUnix 0 |> set_LastError (TrimSpace lastError) |> set_UpdatedUnix nowUnix.

(** What a failure makes of the attempt count it read. *)
Definition after_failure (nowUnix maxAttempts attemptCount : Z) : Z * string * Z :=
  let attempt := u32 (attemptCount + 1) in
  if (maxAttempts <=? attempt)%Z then (attempt, "failed", 0%Z)
  else (attempt, "retrying", i64 (nowUnix + outboundRetryDelaySeconds attempt)).

Definition RecordOutboundDeliveryFailure (now : Z) (id lastError : string) (maxAttempts nowUnix : Z) :
    M OutboundDelivery :=
  let maxAttempts := if (maxAttempts =? 0)%Z then 3%Z else maxAttempts in
  let nowUnix := if (nowUnix =? 0)%Z then now else nowUnix in
  current ← GetOutboundDelivery id;
  let '(attempt, status, nextRetryUnix) := after_failure nowUnix maxAttempts (AttemptCount current) in
  row ← or_not_found (ent_update_one id true
          (failure_fields nowUnix attempt nextRetryUnix status lastError));
  mret (outboundDeliveryFromEnt row).

(** ** Specification *)

Definition delivery_ok (r : OutboundDelivery) : Prop :=
  validOutboundDeliveryStatus (Status r) = true ∧ in_u32 (AttemptCount r) ∧ Target r ≠ "" ∧
  MessageID r ≠ "" ∧ EndpointID r ≠ "".

(** What identifies a delivery never changes. *)
Definition delivery_step (r r' : OutboundDelivery) : Prop :=
  r' = r ∨
  (delivery_ok r' ∧
   (ID r', Target r', MessageID r', EndpointID r', EndpointKind r', ExternalMessageID r',
    RequestID r', CreatedUnix r') =
   (ID r, Target r, MessageID r, EndpointID r, EndpointKind r, ExternalMessageID r,
    RequestID r, CreatedUnix r)).

Inductive delivery_op :=
| OpCreateDelivery (now : Z) (id : string) (d : OutboundDelivery)
| OpGetDelivery (id : string)
| OpListDeliveries (opts : Opts.OutboundDeliveryListOptions)
| OpDeliveryStatus (now : Z) (id st err : string) (next delivered : Z)
| OpDeliveryRetry (now : Z) (id : string) (next : Z)
| OpDeliveryFailure (now : Z) (id err : string) (max at_unix : Z).

Definition run_delivery_op (op : delivery_op) : M unit :=
  match op with
  | OpCreateDelivery n i d => _ ← CreateOutboundDelivery n i d; mret ()
  | OpGetDelivery i => _ ← GetOutboundDelivery i; mret ()
  | OpListDeliveries o => _ ← ListOutboundDeliveries o; mret ()
  | OpDeliveryStatus n i s e x d => _ ← UpdateOutboundDeliveryStatus n i s e x d; mret ()
  | OpDeliveryRetry n i x => _ ← ScheduleOutboundDeliveryRetry n i x; mret ()
  | OpDeliveryFailure n i e m a => _ ← RecordOutboundDeliveryFailure n i e m a; mret ()
  end.

(** Failures of one delivery in a row, each with its time and its message. *)
Fixpoint run_failures (id : string) (maxAttempts : Z) (fs : list (Z * string)) : M unit :=
  match fs with
  | [] => mret ()
  | (now, err) :: fs =>
      _ ← RecordOutboundDeliveryFailure now id err maxAttempts now;
      run_failures id maxAttempts fs
  end.

(** The documented policy: the delay doubles from half a minute to a quarter of an
    hour. *)
Definition backoff (attempt : Z) : Z := Z.min 900 (30 * 2 ^ (attempt - 1)).

(** ** Correctness *)

Context {Laws : SqlLaws}.

#[local] Instance delivery_step_refl : Reflexive delivery_step.
Proof. by left. Qed.

Lemma delivery_step_ok r r' : delivery_ok r → delivery_step r r' → delivery_ok r'.
Proof. by intros ? [->|(? & _)]. Qed.

Lemma u32_range z : in_u32 (u32 z).
Proof. unfold in_u32, u32. apply Z.mod_pos_bound. lia. Qed.

(** The values the operations' 32-bit arguments can have. *)
Definition op_typed (op : delivery_op) : Prop :=
  match op with OpCreateDelivery _ _ d => in_u32 (AttemptCount d) | _ => True end.

Lemma failure_step now max at_unix err r c :
  delivery_ok r →
  let '(attempt, status, next) := after_failure at_unix max c in
  delivery_step r (failure_fields now attempt next status err r).
Proof.
  intros (Hs & Ha & H1 & H2 & H3). unfold after_failure. pose proof (u32_range (c + 1)).
  destruct (max <=? u32 (c + 1))%Z; right; (split; [|done]); done.
Qed.

Definition at_time (now nowUnix : Z) : Z := if (nowUnix =? 0)%Z then now else nowUnix.
Definition max_of (maxAttempts : Z) : Z := if (maxAttempts =? 0)%Z then 3%Z else maxAttempts.

Lemma wp_failure now id err max at_unix s (Q : error + OutboundDelivery → Store → Prop) :
  unique_rows (rows OutboundDelivery s) = true →
  (bfilter (λ r, ID r =s id) (rows OutboundDelivery s) = [] → Q (inl ErrNotFound) s) →
  (∀ r att st nx t,
     after_failure (at_time now at_unix) (max_of max) (AttemptCount r) = (att, st, nx) →
     bfilter (λ r, ID r =s id) (rows OutboundDelivery s) = [r] →
     let f := failure_fields (at_time now at_unix) att nx st err in
     tbl_rows t = update_rows (λ r, ID r =s id) f (rows OutboundDelivery s) →
     unique_rows (tbl_rows t) = true →
     Q (inr (outboundDeliveryFromEnt (f r))) (put_tbl t s)) →
  wp (RecordOutboundDeliveryFailure now id err max at_unix) Q s.
Proof.
  intros Hu Hno HQ. unfold RecordOutboundDeliveryFailure, GetOutboundDelivery.
  fold (at_time now at_unix). fold (max_of max). do 3 wp_step.
  apply wp_only_key; [done|exact (id_key_test (R := OutboundDelivery) id)|exact Hno|]. intros r Hr.
  wp_step. change (AttemptCount (outboundDeliveryFromEnt r)) with (AttemptCount r).
  destruct (after_failure _ _ _) as [[att st] nx] eqn:E. wp_steps.
  - exact (Hno H0).
  - injection (eq_trans (eq_sym Hr) H0) as <-. by apply (HQ r att st nx).
Qed.

(** Every operation on deliveries keeps the table in order, on success and on
    every error: a delivery always has one of the five statuses, a destination and an
    attempt count within 32 bits, and never disappears or changes its message,
    endpoint, request or creation time. *)
Theorem delivery_ops_keep_table op s :
  op_typed op → unique_rows (rows OutboundDelivery s) = true →
  Forall delivery_ok (rows OutboundDelivery s) →
  wp (run_delivery_op op) (λ _ s', progress delivery_step delivery_ok s s') s.
Proof.
  intros Hop Hu Hok. destruct op as [n i d|i|o|n i st e x dl|n i x|n i e m a]; cbn [run_delivery_op].
  - unfold CreateOutboundDelivery. wp_steps; try unchanged. inserted.
    change (OutboundDelivery_check row = true) in H0. unfold OutboundDelivery_check in H0.
    reflect_bools. split; [exact H|]. split; [|done]. subst row. cbn. by through AttemptCount.
  - unfold GetOutboundDelivery. wp_steps; unchanged.
  - unfold ListOutboundDeliveries. wp_steps; unchanged.
  - unfold UpdateOutboundDeliveryStatus. wp_steps; try unchanged; try solve_keeps.
    updated delivery_step_ok. intros y _ (? & ? & ? & ? & ?) _. right. split; [|done]. done.
  - unfold ScheduleOutboundDeliveryRetry. wp_steps; try unchanged; try solve_keeps.
    updated delivery_step_ok. intros y _ (? & ? & ? & ? & ?) _. right. split; [|done].
    split; [done|]. split; [apply u32_range|done].
  - wp_step. apply wp_failure; [done|intros; try wp_step; unchanged|].
    intros r att st nx t E _ f Ht Hut. wp_step. updated delivery_step_ok. intros y _ Hy _.
    pose proof (failure_step (at_time n a) (max_of m) (at_time n a) e y (AttemptCount r) Hy) as Hstep.
    rewrite E in Hstep. exact Hstep.
Qed.

(** *** The retry policy *)

Lemma retry_delay attempt :
  (1 ≤ attempt)%Z → outboundRetryDelaySeconds attempt = backoff attempt.
Proof.
  intros Ha. unfold outboundRetryDelaySeconds, backoff.
  destruct (decide (attempt < 6)%Z) as [Hlt|Hge].
  - assert (attempt = 1 ∨ attempt = 2 ∨ attempt = 3 ∨ attempt = 4 ∨ attempt = 5)%Z
      as [->|[->|[->|[->| ->]]]] by lia; reflexivity.
  - rewrite (proj2 (Z.eqb_neq attempt 0)) by lia.
    assert (∀ i, (i < 6)%Z → (i <? attempt)%Z = true) as Hi by (intros; apply Z.ltb_lt; lia).
    assert (delay_loop 6 1 attempt 30 = 960%Z) as ->.
    { do 5 (cbn [delay_loop]; rewrite Hi by done;
        match goal with |- context [u32 ?a] => let v := eval vm_compute in (u32 a) in change (u32 a) with v end;
        match goal with |- context [i64 ?a] => let v := eval vm_compute in (i64 a) in change (i64 a) with v end;
        cbn [andb Z.ltb Z.compare]).
      cbn [delay_loop]. by rewrite andb_false_r. }
    assert (2 ^ 5 ≤ 2 ^ (attempt - 1))%Z as Hpow by (apply Z.pow_le_mono_r; lia).
    change (2 ^ 5)%Z with 32%Z in Hpow. change (900 <? 960)%Z with true. cbn iota. lia.
Qed.

(** The one delivery of an identifier. *)
Definition the_delivery (id : string) (d : OutboundDelivery) (s : Store) : Prop :=
  unique_rows (rows OutboundDelivery s) = true ∧
  bfilter (λ r, ID r =s id) (rows OutboundDelivery s) = [d].

Lemma the_delivery_updated id d f s (t : tbl OutboundDelivery) :
  the_delivery id d s → (∀ r, ID (f r) = ID r) →
  tbl_rows t = update_rows (λ r, ID r =s id) f (rows OutboundDelivery s) →
  unique_rows (tbl_rows t) = true → the_delivery id (f d) (put_tbl t s).
Proof.
  intros [_ Hd] Hf Ht Hu. split; [by rewrite rows_put|]. rewrite rows_put, Ht, bfilter_update, Hd
    by (intros; by rewrite Hf).
  apply bfilter_singleton_inv in Hd as (_ & Hid & _). unfold update_rows. cbn [map]. by rewrite Hid.
Qed.

(** C30. A delivery that keeps failing is retried with a delay that doubles from half a
    minute up to a quarter of an hour, and given up exactly when its attempts reach
    the maximum (three when none is given): after a run of failures the count has
    grown by their number, and the status and the time of the next attempt are those
    of the last one. *)
Theorem RecordOutboundDeliveryFailure_backoff id max fs last_unix err d s :
  unique_rows (rows OutboundDelivery s) = true →
  bfilter (λ r, ID r =s id) (rows OutboundDelivery s) = [d] →
  (0 ≤ AttemptCount d)%Z → (AttemptCount d + Z.of_nat (length fs) < 2 ^ 32)%Z →
  Forall (λ f, 0 ≤ f.1 < 2 ^ 62)%Z fs → last fs = Some (last_unix, err) →
  wp (run_failures id max fs) (λ r s', ∃ d',
    r = inr () ∧ bfilter (λ r, ID r =s id) (rows OutboundDelivery s') = [d'] ∧
    AttemptCount d' = (AttemptCount d + Z.of_nat (length fs))%Z ∧ LastError d' = TrimSpace err ∧
    (Status d', NextRetryTimeUnix d') =
      if (max_of max <=? AttemptCount d')%Z then ("failed", 0%Z)
      else ("retrying", (last_unix + backoff (AttemptCount d'))%Z)) s.
Proof.
  intros Hu Hd. assert (the_delivery id d s) as Hthe by done. clear Hu Hd.
  revert d s Hthe. induction fs as [|[now e] fs IH]; [done|]. intros d s Hthe H0 Hlen Hts Hlast.
  cbn [run_failures length] in *. apply Forall_cons in Hts as [Hnow Hts]. cbn in Hnow.
  destruct Hthe as [Hu Hd]. wp_step. apply wp_failure; [done|congruence|].
  intros r att st nx t E Hr f Ht Hut. assert (r = d) as -> by congruence.
  pose proof (the_delivery_updated id d f s t (conj Hu Hd) (λ _, eq_refl) Ht Hut) as Hnext.
  assert (at_time now now = now) as Hat by (unfold at_time; by destruct (now =? 0)%Z).
  rewrite Hat in *. unfold after_failure in E. rewrite (u32_id (AttemptCount d + 1)) in E
    by (unfold in_u32; lia).
  assert (att = AttemptCount d + 1)%Z as Hatt by (destruct (_ <=? _)%Z; congruence).
  destruct fs as [|g fs].
  - cbn [run_failures]. wp_step. exists (f d). injection Hlast as -> ->.
    destruct Hnext as [_ Hnext]. split; [done|]. split; [done|]. split; [cbn; lia|]. split; [done|].
    cbn. rewrite Hatt. destruct (max_of max <=? AttemptCount d + 1)%Z; [congruence|].
    injection E as _ <- <-. rewrite retry_delay by lia. f_equal.
    apply i64_id. unfold in_i64, backoff. pose proof (Z.pow_pos_nonneg 2 (AttemptCount d + 1 - 1)). lia.
  - eapply wp_mono; [apply (IH (f d)); [done|cbn; lia|cbn [length] in *; cbn; lia|done|done]|].
    intros r s' (d' & -> & Hd' & Hc & He & Hst). exists d'. split; [done|]. split; [done|].
    split; [rewrite Hc; cbn [length]; cbn; lia|done].
Qed.

End deliveries.

(** ** Witnesses *)

Definition delivery_a : OutboundDelivery := zero |> set_ID "odl_1" |> set_Target "#general"
  |> set_MessageID "msg_1" |> set_EndpointID "ep_1" |> set_Status "pending".

Definition delivery_store : @Store list_engine :=
  set_outbound_deliveries (Eng := list_engine) [delivery_a] empty_store.

Lemma delivery_ops_keep_table_witness :
  wp (Eng := list_engine)
    (run_delivery_op (Uni := ascii_unicode) (OpDeliveryStatus 9 "odl_1" " Cancelled" "" 0 0))
    (λ _ s', progress delivery_step delivery_ok delivery_store s') delivery_store.
Proof.
  apply (delivery_ops_keep_table (Eng := list_engine)); [exact I|reflexivity|].
  apply Forall_singleton. repeat split; discriminate.
Defined.

Lemma RecordOutboundDeliveryFailure_backoff_witness :
  wp (Eng := list_engine) (run_failures "odl_1" 0 [(100%Z, "a"); (200%Z, " b ")])
    (λ r s', ∃ d', r = inr () ∧
      bfilter (λ r, ID r =s "odl_1") (rows OutboundDelivery s') = [d'] ∧
      AttemptCount d' = 2%Z ∧ LastError d' = "b" ∧
      (Status d', NextRetryTimeUnix d') =
        if (max_of 0 <=? AttemptCount d')%Z then ("failed", 0%Z)
        else ("retrying", (200 + backoff (AttemptCount d'))%Z)) delivery_store.
Proof.
  apply (RecordOutboundDeliveryFailure_backoff (Eng := list_engine) "odl_1" 0
    [(100%Z, "a"); (200%Z, " b ")] 200 " b " delivery_a);
    [reflexivity|reflexivity|cbn; lia|cbn; lia| |reflexivity].
  repeat (apply Forall_cons; split; [cbn; lia|]). apply Forall_nil. exact I.
Defined.
