(* ===== verification/Routes.v ===== *)
(** * Notification routes ([internal/storage/store.go])

    Which endpoints hear about an event in a room: routes, their scores, and the
    resolution that picks one route per endpoint. *)
From S2P Require Import Prelude GoStr Sql Json Models Schema Store Endpoints.
Import NotificationRoute.
Module Opts := NotificationRouteListOptions.
Module Res := NotificationRouteResolveOptions.
Module Rp := NotificationRoutePatch.

Section normalizers.
Context `{!Unicode}.

(** [strings.ReplaceAll(kind, "-", "_")]. *)
Definition underscores (kind : string) : string :=
  smap (λ c, if Ascii.eqb c "-" then "_"%char else c) kind.

Definition normalizeNotificationEventKind (kind : string) : string :=
  let kind := ToLower (TrimSpace kind) in
  let kind := underscores kind in
  if (kind =s "") || (kind =s "messages") then "message"
  else if (kind =s "*") || (kind =s "any") then "all"
  else if kind =s "mentions" then "mention"
  else if kind =s "tasks" then "task"
  else if kind =s "reminders" then "reminder"
  else if kind =s "runs" then "run"
  else if kind =s "activities" then "activity"
  else if (kind =s "delivery") || (kind =s "delivery_status") || (kind =s "outbound") ||
          (kind =s "outbound_delivery") then "delivery_status"
  else kind.

Definition validNotificationEventKind (kind : string) : bool :=
  (kind =s "all") || (kind =s "message") || (kind =s "mention") || (kind =s "task") ||
  (kind =s "reminder") || (kind =s "run") || (kind =s "activity") || (kind =s "delivery_status").

Definition normalizeNotificationPreference (preference : string) : string :=
  let p := ToLower (TrimSpace preference) in
  if (p =s "") || (p =s "all") || (p =s "enabled") then "all"
  else if (p =s "mention") || (p =s "mentions") then "mentions"
  else if (p =s "none") || (p =s "mute") || (p =s "muted") || (p =s "disabled") || (p =s "off")
  then "muted"
  else p.

Definition validNotificationPreference (preference : string) : bool :=
  (preference =s "all") || (preference =s "mentions") || (preference =s "muted").

Definition normalizeNotificationRoute (route : NotificationRoute) : error + NotificationRoute :=
  let route := route |> set_Target (TrimSpace (Target route))
    |> set_ThreadID (TrimSpace (ThreadID route))
    |> set_EndpointID (TrimSpace (EndpointID route))
    |> set_EventKind (normalizeNotificationEventKind (EventKind route))
    |> set_Preference (normalizeNotificationPreference (Preference route)) in
  match normalizeJSONDocument (ConfigJSON route) with
  | inl _ => inl ErrInvalidState
  | inr configJSON =>
      let route := route |> set_ConfigJSON configJSON in
      if (Target route =s "") || (EndpointID route =s "") then inl ErrInvalidState
      else if negb (validNotificationEventKind (EventKind route)) ||
              negb (validNotificationPreference (Preference route)) then inl ErrInvalidState
      else inr route
  end.

End normalizers.

Definition notificationRouteFromEnt (row : NotificationRoute) : NotificationRoute :=
  mk (ID row) (Target row) (ThreadID row) (EndpointID row) (EventKind row) (Preference row)
     (Enabled row) (ConfigJSON row) (CreatedUnix row) (UpdatedUnix row).

(** ** Scores *)

Definition notificationRouteScore (route : NotificationRoute) (threadID eventKind : string) :
    option Z :=
  if negb (Enabled route) || (Preference route =s "muted") then None
  else if (ThreadID route <>s "") && (ThreadID route <>s threadID) then None
  else
    let score := (if (threadID <>s "") && (ThreadID route =s threadID) then 4 else 0)%Z in
    let with_kind (score : Z) : option Z :=
      if (Preference route =s "mentions") && (eventKind <>s "mention") then None else Some score in
    if EventKind route =s eventKind then with_kind (score + 2)%Z
    else if EventKind route =s "all" then with_kind (score + 1)%Z
    else None.

(** [scoredNotificationRoute]. *)
Definition scored : Type := NotificationRoute * Z.

(** The comparison of [sort.SliceStable]. *)
Definition scored_less (a b : scored) : bool :=
  if (a.2 =? b.2)%Z then
    if (UpdatedUnix a.1 =? UpdatedUnix b.1)%Z then negb (byte_le (ID a.1) (ID b.1))
    else (UpdatedUnix b.1 <? UpdatedUnix a.1)%Z
  else (b.2 <? a.2)%Z.

(** A stable sort by [scored_less]: insertion puts a route in front of those that
    are not before it. *)
Definition sort_scored : list scored → list scored := isort (λ a b, negb (scored_less b a)).

Fixpoint score_all (threadID eventKind : string) (routes : list NotificationRoute) : list scored :=
  match routes with
  | [] => []
  | route :: routes =>
      match notificationRouteScore route threadID eventKind with
      | None => score_all threadID eventKind routes
      | Some score => (route, score) :: score_all threadID eventKind routes
      end
  end.

(** The last loop: the first route of each endpoint, until the limit is reached;
    [out] counts the routes already taken. *)
Fixpoint take_endpoints (limit out : nat) (seenEndpoint : list string) (l : list scored) :
    list NotificationRoute :=
  match l with
  | [] => []
  | (route, _) :: l =>
      if bool_decide (EndpointID route ∈ seenEndpoint) then take_endpoints limit out seenEndpoint l
      else
        route :: (if limit <=? S out then []
                  else take_endpoints limit (S out) (EndpointID route :: seenEndpoint) l)
  end.

(** The routes picked among [routes]. *)
Definition pick_routes (limit : nat) (threadID eventKind : string) (routes : list NotificationRoute) :
    list NotificationRoute :=
  take_endpoints limit 0 [] (sort_scored (score_all threadID eventKind routes)).

Section routes.
Context {Eng : SqlEngine} {Uni : Unicode}.

Definition CreateNotificationRoute (now : Z) (fresh_id : string) (route : NotificationRoute) :
    M NotificationRoute :=
  match normalizeNotificationRoute route with
  | inl e => throw e
  | inr n =>
      row ← or_conflict (ent_create
        (mk (if ID n <>s "" then ID n else fresh_id) (Target n) (ThreadID n) (EndpointID n)
            (EventKind n) (Preference n) (Enabled n) (ConfigJSON n) now now));
      mret (notificationRouteFromEnt row)
  end.

Definition GetNotificationRoute (id : string) : M NotificationRoute :=
  row ← or_not_found (ent_only (λ r, ID r =s id));
  mret (notificationRouteFromEnt row).

Definition listed_route (opts : Opts.NotificationRouteListOptions) (r : NotificationRoute) : bool :=
  (if Opts.Target opts <>s "" then Target r =s TrimSpace (Opts.Target opts) else true) &&
  (if Opts.ThreadID opts <>s "" then ThreadID r =s TrimSpace (Opts.ThreadID opts) else true) &&
  (if Opts.EndpointID opts <>s "" then EndpointID r =s TrimSpace (Opts.EndpointID opts) else true) &&
  (if Opts.EventKind opts <>s ""
   then EventKind r =s normalizeNotificationEventKind (Opts.EventKind opts) else true) &&
  check_some (Opts.Enabled opts) (λ b, Bool.eqb (Enabled r) b).

Definition ListNotificationRoutes (opts : Opts.NotificationRouteListOptions) :
    M (list NotificationRoute) :=
  let limit := bounded_limit (Opts.Limit opts) 200 100 in
  _ ← guard (if Opts.EventKind opts <>s ""
             then validNotificationEventKind (normalizeNotificationEventKind (Opts.EventKind opts))
             else true) ErrInvalidState;
  nodes ← ent_query (listed_route opts) [DescZ UpdatedUnix; DescS ID] 0 (Some (Z.to_nat limit));
  mret (notificationRouteFromEnt <$> nodes).

(** A patched endpoint must exist. *)
Definition check_endpoint (endpointID : option string) : M unit :=
  match endpointID with
  | None => mret ()
  | Some v =>
      let endpointID := TrimSpace v in
      _ ← guard (endpointID <>s "") ErrInvalidState;
      _ ← map_error (λ e, if bool_decide (e = ErrNotFound) then ErrInvalidState else e)
            (GetInteractionEndpoint endpointID);
      mret ()
  end.

Definition route_patch_fields (now : Z) (patch : Rp.NotificationRoutePatch) (config : option string)
    (r : NotificationRoute) : NotificationRoute :=
  r |> set_UpdatedUnix now
    |> when_some (Rp.Target patch) (λ v, set_Target (TrimSpace v))
    |> when_some (Rp.ThreadID patch) (λ v, set_ThreadID (TrimSpace v))
    |> when_some (Rp.EndpointID patch) (λ v, set_EndpointID (TrimSpace v))
    |> when_some (Rp.EventKind patch) (λ v, set_EventKind (normalizeNotificationEventKind v))
    |> when_some (Rp.Preference patch) (λ v, set_Preference (normalizeNotificationPreference v))
    |> when_some (Rp.Enabled patch) set_Enabled
    |> when_some config set_ConfigJSON.

Definition UpdateNotificationRoute (now : Z) (id : string) (patch : Rp.NotificationRoutePatch) :
    M NotificationRoute :=
  _ ← guard (check_some (Rp.Target patch) (λ v, TrimSpace v <>s "")) ErrInvalidState;
  _ ← check_endpoint (Rp.EndpointID patch);
  _ ← guard (check_some (Rp.EventKind patch)
               (λ v, validNotificationEventKind (normalizeNotificationEventKind v))) ErrInvalidState;
  _ ← guard (check_some (Rp.Preference patch)
               (λ v, validNotificationPreference (normalizeNotificationPreference v))) ErrInvalidState;
  match from_opt (inr "") (normalizeJSONDocument <$> Rp.ConfigJSON patch) with
  | inl _ => throw ErrInvalidState
  | inr configJSON =>
      let config := match Rp.ConfigJSON patch with None => None | Some _ => Some configJSON end in
      row ← or_conflict (or_not_found (ent_update_one (TrimSpace id)
              (check_some (Rp.Target patch) (λ v, not_empty (TrimSpace v)) &&
               check_some (Rp.EndpointID patch) (λ v, not_empty (TrimSpace v)))
              (route_patch_fields now patch config)));
      mret (notificationRouteFromEnt row)
  end.

Definition DeleteNotificationRoute (id : string) : M unit :=
  or_not_found (ent_delete_one (R := NotificationRoute) (TrimSpace id)).

(** The routes considered are the 200 most recently updated of the target. *)
Definition ResolveNotificationRoutes (opts : Res.NotificationRouteResolveOptions) :
    M (list NotificationRoute) :=
  let target := TrimSpace (Res.Target opts) in
  _ ← guard (target <>s "") ErrInvalidState;
  let eventKind := normalizeNotificationEventKind (Res.EventKind opts) in
  _ ← guard (negb (negb (validNotificationEventKind eventKind) || (eventKind =s "all")))
        ErrInvalidState;
  let limit := bounded_limit (Res.Limit opts) 200 100 in
  routes ← ListNotificationRoutes (Opts.mk target "" "" "" (Some true) 200);
  let threadID := TrimSpace (Res.ThreadID opts) in
  mret (pick_routes (Z.to_nat limit) threadID eventKind routes).

End routes.

(** ** Correctness of the choice *)

Section pick.
Context (threadID eventKind : string).

Definition eligible (r : NotificationRoute) : Prop :=
  Enabled r = true ∧ Preference r ≠ "muted" ∧
  (ThreadID r = "" ∨ ThreadID r = threadID) ∧
  (EventKind r = eventKind ∨ EventKind r = "all") ∧
  (Preference r = "mentions" → eventKind = "mention").

Lemma score_eligible r : is_Some (notificationRouteScore r threadID eventKind) ↔ eligible r.
Proof.
  unfold notificationRouteScore, eligible. split.
  - intros [sc H]. destruct (Enabled r); [|done].
    destruct (Preference r =s "muted") eqn:E1; [done|].
    destruct (ThreadID r =s "") eqn:E2, (ThreadID r =s threadID) eqn:E3; try done;
      destruct (EventKind r =s eventKind) eqn:E4, (EventKind r =s "all") eqn:E5; try done;
      destruct (Preference r =s "mentions") eqn:E6, (eventKind =s "mention") eqn:E7; try done;
      reflect_bools; naive_solver.
  - intros (He & Hm & Ht & Hk & Hp). apply eqb_neq_str in Hm. rewrite He, Hm. cbn [negb orb].
    assert ((ThreadID r <>s "") && (ThreadID r <>s threadID) = false) as ->.
    { apply andb_false_iff. destruct Ht as [->| ->]; [by left|right]. by rewrite eqb_refl_str. }
    assert ((Preference r =s "mentions") && (eventKind <>s "mention") = false) as ->.
    { apply andb_false_iff. destruct (Preference r =s "mentions") eqn:E; [right|by left].
      apply eqb_eq_str in E. by rewrite Hp. }
    destruct (EventKind r =s eventKind) eqn:E1; [by eexists|]. reflect_bools.
    destruct Hk as [?|Hk]; [done|]. apply eqb_eq_str in Hk. rewrite Hk. by eexists.
Qed.

Lemma elem_of_score_all r sc routes :
  (r, sc) ∈ score_all threadID eventKind routes ↔
  r ∈ routes ∧ notificationRouteScore r threadID eventKind = Some sc.
Proof.
  induction routes as [|x routes IH]; cbn.
  { split; [by intros ?%elem_of_nil|by intros [?%elem_of_nil _]]. }
  destruct (notificationRouteScore x threadID eventKind) as [sx|] eqn:E; rewrite !elem_of_cons, IH.
  - split; [intros [[= -> ->]|[? ?]]; auto|]. intros [[->|?] ?]; [left; congruence|auto].
  - split; [intros [? ?]; auto|]. intros [[->|?] ?]; [congruence|auto].
Qed.

(** A thread's own route outranks every route of the whole room. *)
Lemma thread_outranks r r' sc sc' :
  notificationRouteScore r threadID eventKind = Some sc →
  notificationRouteScore r' threadID eventKind = Some sc' →
  ThreadID r = "" → ThreadID r' ≠ "" → (sc < sc')%Z.
Proof.
  unfold notificationRouteScore. intros H H' Ht Ht'. rewrite Ht in H. apply eqb_neq_str in Ht'.
  rewrite Ht' in H'. cbn [negb andb] in *.
  destruct (Enabled r), (Enabled r'); try done.
  destruct (Preference r =s "muted"), (Preference r' =s "muted"); try done.
  destruct (ThreadID r' =s threadID) eqn:E3; [|done]. apply eqb_eq_str in E3. rewrite <-E3, Ht' in *.
  rewrite (eqb_sym_str "" (ThreadID r')), Ht' in H. cbn [negb andb orb] in *.
  repeat case_match; simplify_eq; lia.
Qed.

End pick.

Definition scored_order : list (order_term scored) :=
  [DescZ snd; DescZ (λ x, UpdatedUnix x.1); DescS (λ x, ID x.1)].

(** [a] may come before [b]: by score, then by time, then by identifier, all
    downwards. *)
Definition ranks_before (a b : scored) : Prop := order_le byte_le scored_order a b = true.

Lemma scored_less_order a b : negb (scored_less b a) = order_le byte_le scored_order a b.
Proof.
  unfold scored_less, scored_order. cbn [order_le term_lt].
  destruct (Z.ltb_spec b.2 a.2), (Z.ltb_spec a.2 b.2), (Z.eqb_spec b.2 a.2); try lia; try done.
  destruct (Z.ltb_spec (UpdatedUnix b.1) (UpdatedUnix a.1)),
    (Z.ltb_spec (UpdatedUnix a.1) (UpdatedUnix b.1)),
    (Z.eqb_spec (UpdatedUnix b.1) (UpdatedUnix a.1)); try lia; try done.
  pose proof (byte_le_total (ID a.1) (ID b.1)) as Ht.
  destruct (byte_le (ID a.1) (ID b.1)), (byte_le (ID b.1) (ID a.1)); naive_solver.
Qed.

Lemma ranks_before_score a b : ranks_before a b → (b.2 ≤ a.2)%Z.
Proof.
  unfold ranks_before, scored_order. cbn [order_le term_lt].
  destruct (Z.ltb_spec b.2 a.2), (Z.ltb_spec a.2 b.2); done || lia.
Qed.

Lemma sort_scored_ok l : sort_scored l ≡ₚ l ∧ StronglySorted ranks_before (sort_scored l).
Proof.
  unfold sort_scored. split; [apply isort_perm|].
  assert (∀ a b, negb (scored_less b a) = order_le byte_le scored_order a b) as He
    by apply scored_less_order.
  assert (StronglySorted (λ a b, negb (scored_less b a) = true)
            (isort (λ a b, negb (scored_less b a)) l)) as Hs.
  { apply isort_ok; intros *; rewrite !He.
    - by apply order_le_total; apply byte_le_total.
    - by apply order_le_trans; [apply byte_le_total|apply byte_le_trans]. }
  clear -Hs He. induction Hs as [|x l' _ IH Hx]; constructor; [done|].
  eapply Forall_impl; [exact Hx|]. intros y. cbn. by rewrite He.
Qed.

(** *** The loop that takes the first route of each endpoint *)

Definition same_endpoint (r r' : NotificationRoute) : Prop := EndpointID r = EndpointID r'.

Lemma take_endpoints_sound limit out seen l r :
  r ∈ take_endpoints limit out seen l → EndpointID r ∉ seen ∧ ∃ sc, (r, sc) ∈ l.
Proof.
  revert out seen. induction l as [|[x sx] l IH]; intros out seen; cbn; [by intros ?%elem_of_nil|].
  case_bool_decide as Hs.
  - intros H. destruct (IH _ _ H) as (? & sc & ?). split; [done|]. exists sc. by right.
  - rewrite elem_of_cons. intros [->|H].
    + split; [done|]. exists sx. by left.
    + destruct (limit <=? S out); [by apply elem_of_nil in H|].
      destruct (IH _ _ H) as (Hn & sc & ?). split; [set_solver|]. exists sc. by right.
Qed.

Lemma take_endpoints_distinct limit out seen l :
  NoDup (EndpointID <$> take_endpoints limit out seen l).
Proof.
  revert out seen. induction l as [|[x sx] l IH]; intros out seen; cbn; [constructor|].
  case_bool_decide as Hs; [done|]. csimpl. constructor.
  - intros (y & He & Hy)%list_elem_of_fmap. destruct (limit <=? S out); [by apply elem_of_nil in Hy|].
    apply take_endpoints_sound in Hy as [Hn _]. rewrite <-He in Hn. apply Hn. by left.
  - destruct (limit <=? S out); [constructor|done].
Qed.

Lemma take_endpoints_length limit out seen l :
  out < limit → length (take_endpoints limit out seen l) + out ≤ limit.
Proof.
  revert out seen. induction l as [|[x sx] l IH]; intros out seen Hlt; cbn; [lia|].
  case_bool_decide; [by apply IH|]. destruct (Nat.leb_spec limit (S out)); cbn; [lia|].
  specialize (IH (S out) (EndpointID x :: seen)). lia.
Qed.

(** In a sorted list a taken route comes before every route of its endpoint, and a
    route none was taken for lost to a full list of better ones. *)
Lemma take_endpoints_best limit out seen l :
  StronglySorted ranks_before l → out < limit →
  let taken := take_endpoints limit out seen l in
  StronglySorted (λ r r', ∃ sc sc', (r, sc) ∈ l ∧ (r', sc') ∈ l ∧ ranks_before (r, sc) (r', sc')) taken ∧
  (∀ r, r ∈ taken → ∃ sc, (r, sc) ∈ l ∧
     ∀ x, x ∈ l → same_endpoint x.1 r → x = (r, sc) ∨ ranks_before (r, sc) x) ∧
  (∀ x, x ∈ l → EndpointID x.1 ∈ seen ∨ (∃ r, r ∈ taken ∧ same_endpoint r x.1) ∨
     length taken + out = limit ∧ ∀ r, r ∈ taken → ∃ sc, (r, sc) ∈ l ∧ ranks_before (r, sc) x).
Proof.
  intros Hs. revert out seen. induction Hs as [|[x sx] l _ IH Hx]; intros out seen Hlt taken.
  - split; [constructor|]. split; [by intros ? ?%elem_of_nil|by intros ? ?%elem_of_nil].
  - subst taken. cbn. rewrite Forall_forall in Hx. case_bool_decide as Hseen.
    + destruct (IH out seen Hlt) as (H1 & H2 & H3). split; [|split].
      * eapply StronglySorted_weaken; [|exact H1]. intros r r' (sc & sc' & ? & ? & ?).
        exists sc, sc'. by repeat split; [right|right|].
      * intros r Hr. destruct (H2 r Hr) as (sc & Hin & Hb). exists sc. split; [by right|].
        intros y [->|Hy]%elem_of_cons He; [|auto].
        exfalso. destruct (take_endpoints_sound _ _ _ _ _ Hr) as [Hn _]. apply Hn. by rewrite <-He.
      * intros y [->|Hy]%elem_of_cons; [by left|]. destruct (H3 y Hy) as [?|[?|[? Hb]]]; [auto..|].
        do 2 right. split; [done|]. intros r Hr. destruct (Hb r Hr) as (sc & ? & ?). exists sc.
        split; [by right|done].
    + destruct (Nat.leb_spec limit (S out)) as [Hle|Hlt'].
      { split; [by repeat constructor|]. split.
        - intros r ->%list_elem_of_singleton. exists sx. split; [by left|].
          intros y [->|Hy]%elem_of_cons _; [by left|right; auto].
        - intros y [->|Hy]%elem_of_cons.
          + right. left. exists x. split; [by left|done].
          + do 2 right. split; [cbn; lia|]. intros r ->%list_elem_of_singleton. exists sx.
            split; [by left|auto]. }
      destruct (IH (S out) (EndpointID x :: seen) Hlt') as (H1 & H2 & H3). split; [|split].
      * constructor.
        -- eapply StronglySorted_weaken; [|exact H1]. intros r r' (sc & sc' & ? & ? & ?).
           exists sc, sc'. by repeat split; [right|right|].
        -- apply Forall_forall. intros r Hr. destruct (H2 r Hr) as (sc & Hin & _).
           exists sx, sc. split; [by left|]. split; [by right|auto].
      * intros r [->|Hr]%elem_of_cons.
        -- exists sx. split; [by left|]. intros y [->|Hy]%elem_of_cons _; [by left|right; auto].
        -- destruct (H2 r Hr) as (sc & Hin & Hb). exists sc. split; [by right|].
           intros y [->|Hy]%elem_of_cons He; [|auto].
           exfalso. destruct (take_endpoints_sound _ _ _ _ _ Hr) as [Hn _]. apply Hn.
           rewrite <-He. by left.
      * intros y [->|Hy]%elem_of_cons.
        -- right. left. exists x. split; [by left|done].
        -- destruct (H3 y Hy) as [[He|?]%elem_of_cons|[(r & Hr & He)|[Hlen Hb]]].
           ++ right. left. exists x. split; [by left|]. by symmetry.
           ++ by left.
           ++ right. left. exists r. split; [by right|done].
           ++ do 2 right. split; [cbn; lia|]. intros r [->|Hr]%elem_of_cons.
              ** exists sx. split; [by left|auto].
              ** destruct (Hb r Hr) as (sc & ? & ?). exists sc. split; [by right|done].
Qed.

(** ** The contract of the resolution *)

(** [out] is what the routes [considered] resolve to. *)
Record resolution (threadID eventKind : string) (limit : nat) (considered out : list NotificationRoute) :
    Prop := {
  res_eligible : ∀ r, r ∈ out → r ∈ considered ∧ eligible threadID eventKind r;
  res_collapsed : NoDup (EndpointID <$> out);
  res_limit : length out ≤ limit;
  (** a route of the thread wins over a route of the whole room *)
  res_thread_wins : ∀ r r', r ∈ out → r' ∈ considered → eligible threadID eventKind r' →
    same_endpoint r' r → ThreadID r = "" → ThreadID r' = "";
  (** an eligible route is left out only for a better one of its endpoint, or because
      the result is full of routes that rank before it *)
  res_complete : ∀ x, x ∈ score_all threadID eventKind considered →
    (∃ r sc, r ∈ out ∧ same_endpoint r x.1 ∧ notificationRouteScore r threadID eventKind = Some sc ∧
       (x = (r, sc) ∨ ranks_before (r, sc) x)) ∨
    (length out = limit ∧ ∀ r, r ∈ out → ∃ sc,
       notificationRouteScore r threadID eventKind = Some sc ∧ ranks_before (r, sc) x)
}.

Lemma pick_routes_resolution limit threadID eventKind routes :
  0 < limit → resolution threadID eventKind limit routes (pick_routes limit threadID eventKind routes).
Proof.
  intros Hlim. unfold pick_routes. set (l := score_all threadID eventKind routes).
  destruct (sort_scored_ok l) as [Hp Hs].
  assert (∀ r sc, (r, sc) ∈ sort_scored l →
    r ∈ routes ∧ notificationRouteScore r threadID eventKind = Some sc) as Hscore
    by (intros r sc H; rewrite Hp in H; by apply elem_of_score_all in H).
  destruct (take_endpoints_best limit 0 [] _ Hs Hlim) as (_ & Hbest & Hcomplete).
  split.
  - intros r Hr. destruct (Hbest r Hr) as (sc & Hin & _). destruct (Hscore _ _ Hin) as [? Hsc].
    split; [done|]. apply score_eligible. by eexists.
  - apply take_endpoints_distinct.
  - pose proof (take_endpoints_length limit 0 [] (sort_scored l) Hlim). lia.
  - intros r r' Hr Hr' He Hsame Ht. destruct (Hbest r Hr) as (sc & Hin & Hb).
    apply score_eligible in He as [sc' Hsc'].
    assert ((r', sc') ∈ sort_scored l) as Hin' by (rewrite Hp; by apply elem_of_score_all).
    destruct (Hscore _ _ Hin) as [_ Hsc].
    destruct (decide (ThreadID r' = "")) as [?|Hne]; [done|].
    pose proof (thread_outranks _ _ _ _ _ _ Hsc Hsc' Ht Hne) as Hlt.
    destruct (Hb _ Hin' Hsame) as [[= -> ->]|Hle%ranks_before_score]; cbn in *; [done|lia].
  - intros x Hx. assert (x ∈ sort_scored l) as Hin by (by rewrite Hp).
    destruct (Hcomplete x Hin) as [?%elem_of_nil|[(r & Hr & Hsame)|[Hlen Hb]]]; [done|left|right].
    + destruct (Hbest r Hr) as (sc & Hrin & Hbr). destruct (Hscore _ _ Hrin) as [_ Hsc].
      exists r, sc. split; [done|]. split; [done|]. split; [done|].
      apply Hbr; [done|]. by symmetry.
    + split; [lia|]. intros r Hr. destruct (Hb r Hr) as (sc & Hrin & ?). exists sc.
      destruct (Hscore _ _ Hrin) as [_ Hsc]. done.
Qed.

Section resolve.
Context {Eng : SqlEngine} {Uni : Unicode} {Laws : SqlLaws}.


End resolve.

(** ** Witness *)

Definition room_route : NotificationRoute := mk "r1" "#general" "" "ep_1" "message" "all" true "{}" 5 9.
Definition thread_route : NotificationRoute := mk "r2" "#general" "th_1" "ep_1" "all" "all" true "{}" 5 6.

Definition route_store : @Store list_engine :=
  set_notification_routes (Eng := list_engine) [room_route; thread_route] empty_store.

Definition resolve_opts : Res.NotificationRouteResolveOptions := Res.mk "#general" "th_1" "messages" 10.

