(* ===== verification/Messages.v ===== *)
(** * Messages and saved messages ([internal/storage/store.go])

    Creating, reading and searching the messages of a room, and the messages a user
    or an agent keeps.  [TextLib] holds what the code takes from elsewhere: the JSON
    encoding of attachments ([encoding/json]), and the substring and prefix tests of the
    database, whose treatment of case depends on the engine. *)
From S2P Require Import Prelude GoStr Sql Models Schema Store Decisions.
Module Msg := Message.
Module Mw := MessageRow.
Module Sv := SavedMessage.
Module Sw := SavedMessageRow.
Module SvOpts := SavedMessageListOptions.
Module SrOpts := MessageSearchOptions.
Module Att := Attachment.

Class TextLib := {
  json_marshal : list Att.Attachment → error + string;
  json_unmarshal : string → option (list Att.Attachment);
  ContainsFold : string → string → bool;
  HasPrefixSQL : string → string → bool
}.

Section attachments.
Context {Txt : TextLib}.

Definition marshalAttachments (attachments : list Att.Attachment) : error + string :=
  match attachments with [] => inr "[]" | _ => json_marshal attachments end.

(** A [nil] slice and an empty one are the same list here. *)
Definition unmarshalAttachments (value : string) : list Att.Attachment :=
  if TrimSpace value =s "" then []
  else match json_unmarshal value with Some attachments => attachments | None => [] end.

Definition messageFromEnt (row : Mw.MessageRow) : Msg.Message :=
  Msg.mk (Mw.ID row) (Mw.Target row) (Mw.ThreadID row) (Mw.Role row) (Mw.Content row)
    (Mw.ReplyToMessageID row) (Mw.SenderUserID row) (Mw.SenderAgentID row)
    (Mw.SenderDisplayName row) (Mw.SenderKind row) (Mw.SourceEndpointID row)
    (Mw.ExternalMessageID row) (Mw.MetadataJSON row) (unmarshalAttachments (Mw.AttachmentsJSON row))
    (Mw.RequestID row) (Mw.CreatedUnix row) (Mw.Kind row).

End attachments.

(** [hasFilters]. *)
Definition hasFilters (opts : SvOpts.SavedMessageListOptions) : bool :=
  SvOpts.HasAttachment opts || (TrimSpace (SvOpts.Query opts) <>s "").

Definition messageMatchesSavedFilters `{!Unicode} (msg : Msg.Message)
    (opts : SvOpts.SavedMessageListOptions) : bool :=
  if SvOpts.HasAttachment opts && (length (Msg.Attachments msg) =? 0) then false
  else
    let search := ToLower (TrimSpace (SvOpts.Query opts)) in
    if search =s "" then true
    else
      let values :=
        [Msg.ID msg; Msg.Content msg; Msg.SenderDisplayName msg; Msg.SenderAgentID msg;
         Msg.SenderUserID msg] ++
        concat (map (λ a, [Att.ID a; Att.Filename a; Att.MimeType a]) (Msg.Attachments msg)) in
      existsb (λ value, Contains (ToLower value) search) values.

(** [savedMessagePredicates]: a blank argument does not restrict. *)
Definition savedMessagePredicates (target userID agentID : string) (r : Sw.SavedMessageRow) : bool :=
  (if target <>s "" then Sw.Target r =s target else true) &&
  (if userID <>s "" then Sw.SavedByUserID r =s userID else true) &&
  (if agentID <>s "" then Sw.SavedByAgentID r =s agentID else true).

Definition newest_first : list (order_term Mw.MessageRow) := [DescZ Mw.CreatedUnix; DescS Mw.ID].

Definition newest_saved_first : list (order_term Sw.SavedMessageRow) :=
  [DescZ Sw.CreatedUnix; DescS Sw.ID].

Section messages.
Context {Eng : SqlEngine} {Uni : Unicode} {Txt : TextLib}.

(** ** Messages *)

Definition CreateMessage (now : Z) (fresh_id : string) (m : Msg.Message) : M Msg.Message :=
  let created := if (Msg.CreatedUnix m =? 0)%Z then now else Msg.CreatedUnix m in
  match marshalAttachments (Msg.Attachments m) with
  | inl e => throw e
  | inr attachmentsJSON =>
      row ← or_conflict (ent_create
        (Mw.mk (if Msg.ID m <>s "" then Msg.ID m else fresh_id) (Msg.Target m) (Msg.ThreadID m)
           (Msg.Role m) (Msg.Content m) (Msg.ReplyToMessageID m) (Msg.SenderUserID m)
           (Msg.SenderAgentID m) (Msg.SenderDisplayName m) (Msg.SenderKind m)
           (Msg.SourceEndpointID m) (Msg.ExternalMessageID m) (Msg.MetadataJSON m) attachmentsJSON
           (Msg.RequestID m) created (normalizeMessageKind (Msg.Kind m))));
      mret (messageFromEnt row)
  end.

Definition GetMessage (target id : string) : M Msg.Message :=
  row ← or_not_found (ent_only (λ r,
    (Mw.ID r =s id) && (if target <>s "" then Mw.Target r =s target else true)));
  mret (messageFromEnt row).

(** [getMessage], by identifier alone. *)
Definition getMessage (id : string) : M Msg.Message :=
  row ← or_not_found (ent_only (λ r, Mw.ID r =s id));
  mret (messageFromEnt row).

Definition ListMessages (target threadID : string) (limit : Z) : M (list Msg.Message) :=
  let limit := bounded_limit limit 200 50 in
  nodes ← ent_query
    (λ r, (Mw.Target r =s target) &&
          (if threadID <>s "" then Mw.ThreadID r =s threadID else Mw.ThreadID r =s ""))
    newest_first 0 (Some (Z.to_nat limit));
  mret (messageFromEnt <$> nodes).

Definition search_matches (opts : SrOpts.MessageSearchOptions) (r : Mw.MessageRow) : bool :=
  let search := TrimSpace (SrOpts.Query opts) in
  let handle := TrimPrefix search "@" in
  let sender := TrimPrefix (TrimSpace (SrOpts.SenderHandle opts)) "@" in
  (if SrOpts.Target opts <>s "" then Mw.Target r =s SrOpts.Target opts else true) &&
  (if search <>s "" then
     ContainsFold (Mw.ID r) search || ContainsFold (Mw.Content r) search ||
     ContainsFold (Mw.SenderDisplayName r) search || ContainsFold (Mw.SenderAgentID r) handle ||
     ContainsFold (Mw.SenderUserID r) handle || ContainsFold (Mw.AttachmentsJSON r) search
   else true) &&
  (if SrOpts.HasAttachment opts then Mw.AttachmentsJSON r <>s "[]" else true) &&
  (if sender <>s "" then
     ContainsFold (Mw.SenderDisplayName r) sender || ContainsFold (Mw.SenderAgentID r) sender ||
     ContainsFold (Mw.SenderUserID r) sender
   else true).

(** [strings.EqualFold(s, "relevance")]: no letter of it folds outside ASCII. *)
Definition is_relevance (s : string) : bool := smap lower_ascii s =s "relevance".

Definition SearchMessages (opts : SrOpts.MessageSearchOptions) : M (list Msg.Message) :=
  let limit := bounded_limit (SrOpts.Limit opts) 200 50 in
  let order :=
    if is_relevance (SrOpts.Sort opts) && (TrimSpace (SrOpts.Query opts) <>s "")
    then DescS Mw.SenderDisplayName :: newest_first else newest_first in
  nodes ← ent_query (search_matches opts) order 0 (Some (Z.to_nat limit));
  mret (messageFromEnt <$> nodes).

Definition ListMessageTargets (limit : Z) : M (list string) :=
  let limit := bounded_limit limit 500 200 in
  targets ← ent_distinct (λ _, true) Mw.Target (Z.to_nat limit);
  mret (cleanStrings targets).

Definition ListTaskComments (taskID : string) (limit : Z) : M (list Msg.Message) :=
  let limit := bounded_limit limit 200 50 in
  nodes ← ent_query (λ r, Mw.ThreadID r =s taskID) [AscZ Mw.CreatedUnix; AscS Mw.ID] 0
            (Some (Z.to_nat limit));
  mret (messageFromEnt <$> nodes).

(** ** Saved messages *)

Definition savedMessageFromEnt (row : Sw.SavedMessageRow) : M Sv.SavedMessage :=
  msg ← GetMessage (Sw.Target row) (Sw.MessageID row);
  mret (Sv.mk (Sw.ID row) (Sw.Target row) (Sw.MessageID row) (Sw.SavedByUserID row)
          (Sw.SavedByAgentID row) (Sw.CreatedUnix row) msg).

Definition savedMessagesFromEnt (l : list Sw.SavedMessageRow) : M (list Sv.SavedMessage) :=
  map_m savedMessageFromEnt l.

Definition GetSavedMessage (target messageID userID agentID : string) : M Sv.SavedMessage :=
  row ← or_not_found (ent_only (λ r,
    savedMessagePredicates target userID agentID r && (Sw.MessageID r =s messageID)));
  savedMessageFromEnt row.

Definition SaveMessage (now : Z) (fresh_id target messageID userID agentID : string) :
    M Sv.SavedMessage :=
  messageModel ← GetMessage target messageID;
  try (ent_create (Sw.mk fresh_id (Msg.Target messageModel) (Msg.ID messageModel) userID agentID now))
    (λ res, match res with
     | inr row => savedMessageFromEnt row
     | inl e =>
         if IsConstraintError e then
           GetSavedMessage (Msg.Target messageModel) (Msg.ID messageModel) userID agentID
         else throw e
     end).

Definition UnsaveMessage (target messageID userID agentID : string) : M Sv.SavedMessage :=
  saved ← GetSavedMessage target messageID userID agentID;
  _ ← ent_delete (λ r,
        savedMessagePredicates target userID agentID r && (Sw.MessageID r =s messageID));
  mret saved.

(** The rows of one page that match, appended to [saved] until the limit is reached;
    tells whether it was. *)
Fixpoint scan_page (opts : SvOpts.SavedMessageListOptions) (limit : nat)
    (page : list Sw.SavedMessageRow) (saved : list Sv.SavedMessage) :
    M (list Sv.SavedMessage * bool) :=
  match page with
  | [] => mret (saved, false)
  | row :: page =>
      record ← savedMessageFromEnt row;
      if negb (messageMatchesSavedFilters (Sv.Message record) opts) then scan_page opts limit page saved
      else
        let saved := saved ++ [record] in
        if limit <=? length saved then mret (saved, true) else scan_page opts limit page saved
  end.

(** The paging loop; [None] when the fuel runs out. *)
Fixpoint scan_pages (fuel : nat) (opts : SvOpts.SavedMessageListOptions) (limit pageSize offset : nat)
    (saved : list Sv.SavedMessage) : M (option (list Sv.SavedMessage)) :=
  match fuel with
  | O => mret None
  | S fuel =>
      page ← ent_query
        (savedMessagePredicates (SvOpts.Target opts) (SvOpts.UserID opts) (SvOpts.AgentID opts))
        newest_saved_first offset (Some pageSize);
      if length page =? 0 then mret (Some saved)
      else
        '(saved, full) ← scan_page opts limit page saved;
        if (full : bool) then mret (Some saved)
        else if length page <? pageSize then mret (Some saved)
        else scan_pages fuel opts limit pageSize (offset + pageSize) saved
  end.

(** A page is skipped per round, so one round more than there are rows is enough. *)
Definition ListSavedMessagesWithOptions (opts : SvOpts.SavedMessageListOptions) :
    M (option (list Sv.SavedMessage)) :=
  let limit := Z.to_nat (bounded_limit (SvOpts.Limit opts) 200 50) in
  if negb (hasFilters opts) then
    nodes ← ent_query
      (savedMessagePredicates (SvOpts.Target opts) (SvOpts.UserID opts) (SvOpts.AgentID opts))
      newest_saved_first 0 (Some limit);
    saved ← savedMessagesFromEnt nodes;
    mret (Some saved)
  else
    let pageSize := if limit <? 50 then 50 else limit in
    λ s, scan_pages (S (length (rows Sw.SavedMessageRow s))) opts limit pageSize 0 [] s.

Definition ListSavedMessages (target userID agentID : string) (limit : Z) :
    M (option (list Sv.SavedMessage)) :=
  ListSavedMessagesWithOptions (SvOpts.mk target userID agentID "" false limit).

(** ** Correctness *)

Context {Laws : SqlLaws}.

(** The message a saved row points to, and the record the row stands for. *)
Definition points_to (row : Sw.SavedMessageRow) (m : Mw.MessageRow) : bool :=
  (Mw.ID m =s Sw.MessageID row) &&
  (if Sw.Target row <>s "" then Mw.Target m =s Sw.Target row else true).

Definition message_of (s : Store) (row : Sw.SavedMessageRow) : option Mw.MessageRow :=
  head (bfilter (points_to row) (rows Mw.MessageRow s)).

Definition record_of (s : Store) (row : Sw.SavedMessageRow) : Sv.SavedMessage :=
  Sv.mk (Sw.ID row) (Sw.Target row) (Sw.MessageID row) (Sw.SavedByUserID row)
    (Sw.SavedByAgentID row) (Sw.CreatedUnix row)
    (messageFromEnt (from_opt Mw.zero (message_of s row))).

Lemma message_key (p : Mw.MessageRow → bool) id :
  (∀ m, p m = true → Mw.ID m = id) → key_test p.
Proof. intros Hp a b Ha%Hp Hb%Hp. unfold clash. cbn. by rewrite Ha, Hb, eqb_refl_str. Qed.

Lemma wp_savedMessageFromEnt row s (Q : error + Sv.SavedMessage → Store → Prop) :
  unique_rows (rows Mw.MessageRow s) = true → is_Some (message_of s row) →
  Q (inr (record_of s row)) s → wp (savedMessageFromEnt row) Q s.
Proof.
  intros Hu [m Hm] HQ. unfold savedMessageFromEnt, GetMessage. do 3 wp_step.
  assert (key_test (points_to row)) as Hk.
  { apply (message_key _ (Sw.MessageID row)). unfold points_to. intros x Hx. by reflect_bools. }
  unfold message_of in Hm. apply wp_only_key; [done|exact Hk|intros E|intros x E].
  - change (bfilter (points_to row) (rows Mw.MessageRow s) = []) in E. by rewrite E in Hm.
  - wp_step. wp_step. unfold record_of, message_of in HQ.
    change (bfilter (points_to row) (rows Mw.MessageRow s) = [x]) in E. by rewrite E in HQ.
Qed.

Lemma wp_savedMessagesFromEnt l s (Q : error + list Sv.SavedMessage → Store → Prop) :
  unique_rows (rows Mw.MessageRow s) = true → (∀ row, row ∈ l → is_Some (message_of s row)) →
  Q (inr (map (record_of s) l)) s → wp (savedMessagesFromEnt l) Q s.
Proof.
  intros Hu. unfold savedMessagesFromEnt. revert Q. induction l as [|row l IH]; intros Q Hm HQ;
    cbn [map_m]; [by apply wp_ret|].
  wp_step. apply wp_savedMessageFromEnt; [done|apply Hm; by left|]. wp_step.
  apply IH; [intros; apply Hm; by right|]. by wp_step.
Qed.

(** The records of [l] the options let through. *)
Definition matching (s : Store) (opts : SvOpts.SavedMessageListOptions) (l : list Sw.SavedMessageRow) :
    list Sv.SavedMessage :=
  bfilter (λ r, messageMatchesSavedFilters (Sv.Message r) opts) (map (record_of s) l).

Lemma matching_app s opts l1 l2 : matching s opts (l1 ++ l2) = matching s opts l1 ++ matching s opts l2.
Proof. unfold matching. by rewrite map_app, bfilter_app. Qed.

Lemma wp_scan_page opts limit page saved s
    (Q : error + (list Sv.SavedMessage * bool) → Store → Prop) :
  unique_rows (rows Mw.MessageRow s) = true → (∀ row, row ∈ page → is_Some (message_of s row)) →
  length saved < limit →
  (let all := saved ++ matching s opts page in Q (inr (take limit all, limit <=? length all)) s) →
  wp (scan_page opts limit page saved) Q s.
Proof.
  intros Hu. revert saved. induction page as [|row page IH]; intros saved Hm Hlen HQ; cbn [scan_page].
  - wp_step. cbn in HQ. rewrite app_nil_r, take_ge in HQ by lia.
    by rewrite (proj2 (Nat.leb_gt _ _) Hlen) in HQ.
  - wp_step. apply wp_savedMessageFromEnt; [done|apply Hm; by left|].
    assert (∀ row, row ∈ page → is_Some (message_of s row)) as Hm' by (intros; apply Hm; by right).
    unfold matching in HQ. cbn [map bfilter] in HQ. wp_step.
    + apply negb_true_iff in E. rewrite E in HQ. by apply IH.
    + apply negb_false_iff in E. rewrite E in HQ. rewrite cons_middle, app_assoc in HQ.
      cbv zeta. wp_step.
      * wp_step. apply Nat.leb_le in E0. cbn zeta in HQ. rewrite take_app_le in HQ by done.
        rewrite length_app in E0. cbn in E0.
        rewrite (take_ge (saved ++ [_])) in HQ by (rewrite length_app; cbn; lia).
        rewrite (proj2 (Nat.leb_le limit _)) in HQ by (rewrite !length_app; cbn; lia). done.
      * apply Nat.leb_gt in E0. by apply IH.
Qed.

Definition saved_preds (opts : SvOpts.SavedMessageListOptions) : Sw.SavedMessageRow → bool :=
  savedMessagePredicates (SvOpts.Target opts) (SvOpts.UserID opts) (SvOpts.AgentID opts).

Lemma saved_order_strict (l : list Sw.SavedMessageRow) a b :
  unique_rows l = true → a ∈ l → b ∈ l → order_le collate newest_saved_first a b = true →
  order_le collate newest_saved_first b a = true → a = b.
Proof.
  intros Hu Ha Hb H1 H2. pose proof (order_le_antisym collate collate_total newest_saved_first a b
    collate_antisym H1 H2) as H. repeat (apply Forall_cons in H as [? H]).
  by apply (unique_id_eq l).
Qed.

(** Every page is a window on the one list [l] of the matching rows. *)
Lemma wp_page opts off n l s (Q : error + list Sw.SavedMessageRow → Store → Prop) :
  unique_rows (rows Sw.SavedMessageRow s) = true →
  l ≡ₚ bfilter (saved_preds opts) (rows Sw.SavedMessageRow s) → sorted_by collate newest_saved_first l →
  Q (inr (window off (Some n) l)) s → wp (ent_query (saved_preds opts) newest_saved_first off (Some n)) Q s.
Proof.
  intros Hu Hl Hs HQ. apply wp_query. intros l' Hl' Hs'.
  assert (l' = l) as ->; [|done].
  apply (sorted_by_unique newest_saved_first); [|by rewrite Hl', Hl|done..].
  intros a b Ha Hb. rewrite Hl' in Ha, Hb. apply elem_of_bfilter in Ha as [Ha _], Hb as [Hb _].
  by apply (saved_order_strict (rows Sw.SavedMessageRow s)).
Qed.

Lemma wp_scan_pages opts limit pageSize l s
    (Q : error + option (list Sv.SavedMessage) → Store → Prop) :
  unique_rows (rows Mw.MessageRow s) = true → unique_rows (rows Sw.SavedMessageRow s) = true →
  l ≡ₚ bfilter (saved_preds opts) (rows Sw.SavedMessageRow s) → sorted_by collate newest_saved_first l →
  (∀ row, row ∈ l → is_Some (message_of s row)) → 0 < pageSize →
  Q (inr (Some (take limit (matching s opts l)))) s →
  ∀ fuel offset, length l - offset < fuel → length (matching s opts (take offset l)) < limit →
  wp (scan_pages fuel opts limit pageSize offset (matching s opts (take offset l))) Q s.
Proof.
  intros Hu Hus Hl Hs Hm Hps HQ. induction fuel as [|fuel IH]; intros offset Hfuel Hlen; [lia|].
  cbn [scan_pages]. wp_step. apply (wp_page opts offset pageSize l); [done..|]. cbn beta iota.
  change (window offset (Some pageSize) l) with (take pageSize (drop offset l)).
  set (page := take pageSize (drop offset l)).
  assert (matching s opts (take offset l) ++ matching s opts page =
    matching s opts (take (offset + pageSize) l)) as Hall
    by (unfold page; by rewrite <-matching_app, take_take_drop).
  wp_step.
  { wp_step. apply Nat.eqb_eq in E. unfold page in E. rewrite length_take, length_drop in E.
    rewrite (take_ge l offset) in Hlen |- * by lia. by rewrite take_ge in HQ by lia. }
  wp_step. apply wp_scan_page; [done| |done|].
  { intros row Hrow. apply Hm. unfold page in Hrow.
    apply elem_of_take in Hrow as (i & Hi & _). rewrite lookup_drop in Hi.
    by eapply list_elem_of_lookup_2. }
  cbn beta zeta iota. rewrite Hall. wp_step.
  { wp_step. apply Nat.leb_le in E0. rewrite <-(take_drop (offset + pageSize) l), matching_app in HQ.
    by rewrite take_app_le in HQ. }
  apply Nat.leb_gt in E0. rewrite (take_ge (matching _ _ _)) by lia.
  apply Nat.eqb_neq in E. unfold page in *. rewrite length_take, length_drop in E. wp_step.
  - wp_step. apply Nat.ltb_lt in E1. rewrite length_take, length_drop in E1.
    rewrite (take_ge l) in E0 |- * by lia. by rewrite take_ge in HQ by lia.
  - apply IH; lia.
Qed.

(** Listing saved messages always produces a result, and paging through the
    database and filtering in memory gives what filtering the whole history would: the
    newest saved messages of the room, user and agent that pass the filters, up to the
    limit, in order. *)
Theorem ListSavedMessages_filtered opts s :
  unique_rows (rows Mw.MessageRow s) = true → unique_rows (rows Sw.SavedMessageRow s) = true →
  (∀ row, row ∈ rows Sw.SavedMessageRow s → is_Some (message_of s row)) →
  wp (ListSavedMessagesWithOptions opts) (λ r s', s' = s ∧ ∃ l,
    l ≡ₚ bfilter (saved_preds opts) (rows Sw.SavedMessageRow s) ∧
    sorted_by collate newest_saved_first l ∧
    r = inr (Some (take (Z.to_nat (bounded_limit (SvOpts.Limit opts) 200 50)) (matching s opts l)))) s.
Proof.
  intros Hu Hus Hm. unfold ListSavedMessagesWithOptions. fold (saved_preds opts).
  set (limit := Z.to_nat (bounded_limit (SvOpts.Limit opts) 200 50)).
  assert (0 < limit) as Hlim.
  { unfold limit, bounded_limit. destruct ((_ <=? 0) || _)%Z eqn:E; [lia|]. reflect_bools. lia. }
  destruct (select_law Sw.SavedMessageRow (saved_preds opts) newest_saved_first 0 None
    (get_tbl s)) as (l & Hl & Hs & _). change (tbl_rows (get_tbl s)) with (rows Sw.SavedMessageRow s) in Hl.
  assert (∀ row, row ∈ l → is_Some (message_of s row)) as Hml.
  { intros row Hrow. apply Hm. rewrite Hl in Hrow. by apply elem_of_bfilter in Hrow as [? _]. }
  destruct (hasFilters opts) eqn:Hf; cbn [negb].
  - match goal with |- wp _ ?Q s => change (wp (scan_pages (S (length (rows Sw.SavedMessageRow s))) opts
      limit (if limit <? 50 then 50 else limit) 0 (matching s opts (take 0 l))) Q s) end.
    apply (wp_scan_pages opts limit _ l); try done.
    + destruct (limit <? 50) eqn:E; [lia|]. apply Nat.ltb_ge in E. lia.
    + split; [done|]. by exists l.
    + rewrite Hl, Nat.sub_0_r. pose proof (length_bfilter (saved_preds opts) (rows Sw.SavedMessageRow s)). lia.
  - wp_step. apply (wp_page opts 0 limit l); [done..|]. cbn beta iota.
    change (window 0 (Some limit) l) with (take limit l). wp_step.
    apply wp_savedMessagesFromEnt; [done| |].
    { intros row Hrow. apply Hml. apply elem_of_take in Hrow as (i & Hi & _). by eapply list_elem_of_lookup_2. }
    wp_step. split; [done|]. exists l. split; [done|]. split; [done|]. do 2 f_equal.
    unfold matching. rewrite bfilter_all.
    + by rewrite <-firstn_map.
    + intros r _. unfold hasFilters, messageMatchesSavedFilters in *. apply orb_false_iff in Hf as [-> Hq].
      apply negb_false_iff, eqb_eq_str in Hq. by rewrite Hq.
Qed.

End messages.

(** ** Witness *)

Definition no_text : TextLib := {|
  json_marshal _ := inr "[]"; json_unmarshal _ := None; ContainsFold := Contains;
  HasPrefixSQL := HasPrefix |}.

Definition message_a : Mw.MessageRow := Mw.zero |> Mw.set_ID "msg_1" |> Mw.set_Target "#general"
  |> Mw.set_Content "Deploy done" |> Mw.set_CreatedUnix 10.

Definition saved_a : Sw.SavedMessageRow := Sw.mk "sav_1" "#general" "msg_1" "usr_1" "" 11.

Definition saved_store : @Store list_engine :=
  set_messages (Eng := list_engine) [message_a] (set_saved_messages (Eng := list_engine) [saved_a] empty_store).

Lemma ListSavedMessages_filtered_witness :
  let opts := SvOpts.mk "#general" "usr_1" "" " deploy" false 10 in
  wp (Eng := list_engine) (ListSavedMessagesWithOptions (Uni := ascii_unicode) (Txt := no_text) opts)
    (λ r s', s' = saved_store ∧ ∃ l,
      l ≡ₚ bfilter (saved_preds opts) (rows Sw.SavedMessageRow saved_store) ∧
      sorted_by (collate (SqlEngine := list_engine)) newest_saved_first l ∧
      r = inr (Some (take 10 (matching (Uni := ascii_unicode) (Txt := no_text) saved_store opts l))))
    saved_store.
Proof.
  apply (ListSavedMessages_filtered (Eng := list_engine)); [reflexivity..|].
  intros row ->%list_elem_of_singleton. by exists message_a.
Defined.
