(* ===== verification/Threads.v ===== *)
(** * Threads: what is unread ([internal/storage/store.go])

    The inbox of threads a user sees, with the number of unread messages of each,
    and marking a thread as read. *)
From S2P Require Import Prelude GoStr GoText Sql Models Schema Store Messages.
Module Rd := ThreadReadState.
Module It := ThreadInboxItem.

(** ** Previews *)

Definition previewText (value : string) (limit : nat) : string :=
  let trimmed := TrimSpace value in
  if (limit =? 0) || (length (runes trimmed) <=? limit) then trimmed
  else String.concat "" (take limit (runes trimmed)) +:+ "...".

(** ** Unread messages *)

(** [threadReadSnapshot]. *)
Record threadReadSnapshot := { LastReadMessageID : string; LastReadUnix : Z }.

Definition in_thread (target threadID : string) (r : Mw.MessageRow) : bool :=
  (Mw.Target r =s target) && (Mw.ThreadID r =s threadID).

Definition is_reader (userID target threadID : string) (r : Rd.ThreadReadState) : bool :=
  (Rd.UserID r =s userID) && (Rd.Target r =s target) && (Rd.ThreadID r =s threadID).

(** The loop over the messages of a thread, newest first. *)
Fixpoint count_until (lastReadUnix : Z) (lastReadMessageID : string) (l : list Mw.MessageRow)
    (unread : nat) : nat :=
  match l with
  | [] => unread
  | row :: l =>
      if Mw.ID row =s lastReadMessageID then unread
      else if (0 <? lastReadUnix)%Z && (Mw.CreatedUnix row <? lastReadUnix)%Z then unread
      else count_until lastReadUnix lastReadMessageID l (S unread)
  end.

(** A group of the inbox, keyed by room and thread with a zero byte between. *)
Definition inbox_key (target threadID : string) : string :=
  target +:+ String Ascii.zero "" +:+ threadID.

(** One message more, newest first: it opens a group, or becomes its first message. *)
Fixpoint group_add (key : string) (msg : Msg.Message) (groups : list (string * It.ThreadInboxItem)) :
    list (string * It.ThreadInboxItem) :=
  match groups with
  | [] =>
      [(key, It.zero |> It.set_Target (Msg.Target msg) |> It.set_ThreadID (Msg.ThreadID msg)
               |> It.set_LatestMessage msg |> It.set_UpdatedUnix (Msg.CreatedUnix msg)
               |> It.set_MessageCount 1 |> It.set_FirstMessage msg)]
  | (k, item) :: groups =>
      if k =s key then
        (k, item |> It.set_MessageCount (It.MessageCount item + 1) |> It.set_FirstMessage msg) :: groups
      else (k, item) :: group_add key msg groups
  end.

Definition group_messages (msgs : list Msg.Message) : list (string * It.ThreadInboxItem) :=
  fold_left (λ groups msg, group_add (inbox_key (Msg.Target msg) (Msg.ThreadID msg)) msg groups) msgs [].

(** The comparison of the final sort. *)
Definition item_less (a b : It.ThreadInboxItem) : bool :=
  if (It.UpdatedUnix a =? It.UpdatedUnix b)%Z then negb (byte_le (It.ThreadID a) (It.ThreadID b))
  else (It.UpdatedUnix b <? It.UpdatedUnix a)%Z.

Section threads.
Context {Eng : SqlEngine} {Uni : Unicode} {Txt : TextLib} {Ord : MapOrder}.

Definition getThreadReadState (userID target threadID : string) : M threadReadSnapshot :=
  row ← or_not_found (ent_only (is_reader userID target threadID));
  mret {| LastReadMessageID := Rd.LastReadMessageID row; LastReadUnix := Rd.LastReadUnix row |}.

(** Both exits of the loop's end return the number of rows it read. *)
Definition countUnreadThreadMessages (target threadID : string) (lastReadUnix : Z)
    (lastReadMessageID : string) : M nat :=
  if lastReadMessageID =s "" then
    ent_count (λ r, in_thread target threadID r &&
                    (if (0 <? lastReadUnix)%Z then (lastReadUnix <? Mw.CreatedUnix r)%Z else true))
  else
    nodes ← ent_query (in_thread target threadID) newest_first 0 (Some 5000);
    mret (count_until lastReadUnix lastReadMessageID nodes 0).

Definition latestThreadMessage (target threadID : string) : M Msg.Message :=
  try (ent_first (in_thread target threadID) newest_first) (λ res,
    match res with
    | inr row => mret (messageFromEnt row)
    | inl e =>
        if IsNotFound e then
          parent ← getMessage threadID;
          _ ← guard (Msg.Target parent =s target) ErrNotFound;
          mret parent
        else throw e
    end).

(** The read state of the thread is set to its latest message. *)
Definition read_fields (now : Z) (latest : Msg.Message) (r : Rd.ThreadReadState) : Rd.ThreadReadState :=
  r |> Rd.set_LastReadMessageID (Msg.ID latest) |> Rd.set_LastReadUnix (Msg.CreatedUnix latest)
    |> Rd.set_UpdatedUnix now.

Definition MarkThreadRead (now : Z) (fresh_id userID target threadID : string) : M unit :=
  latest ← latestThreadMessage target threadID;
  affected ← ent_update (is_reader userID target threadID) true (read_fields now latest);
  if 0 <? affected then mret ()
  else
    try (ent_create (Rd.mk fresh_id userID target threadID (Msg.ID latest) (Msg.CreatedUnix latest) now))
      (λ res, match res with
       | inr _ => mret ()
       | inl e =>
           if IsConstraintError e then
             _ ← ent_update (is_reader userID target threadID) true (read_fields now latest);
             mret ()
           else throw e
       end).

(** ** The inbox *)

Definition with_parent (item : It.ThreadInboxItem) : M It.ThreadInboxItem :=
  try (getMessage (It.ThreadID item)) (λ res,
    match res with
    | inr parent =>
        mret (when (Msg.Target parent =s It.Target item) (It.set_FirstMessage parent) item)
    | inl _ => mret item
    end).

Definition finish_item (userID : string) (item : It.ThreadInboxItem) : M It.ThreadInboxItem :=
  item ← with_parent item;
  let item := item |> It.set_Topic (previewText (Msg.Content (It.FirstMessage item)) 96) in
  item ← try (getThreadReadState userID (It.Target item) (It.ThreadID item)) (λ res,
    match res with
    | inr state => mret (item |> It.set_LastReadUnix (LastReadUnix state)
                              |> It.set_LastReadMessageID (LastReadMessageID state))
    | inl e => if bool_decide (e = ErrNotFound) then mret item else throw e
    end);
  unreadCount ← countUnreadThreadMessages (It.Target item) (It.ThreadID item) (It.LastReadUnix item)
                  (It.LastReadMessageID item);
  mret (item |> It.set_UnreadCount (Z.of_nat unreadCount)).

Definition scan_limit (limit : Z) : Z :=
  let scanLimit := (limit * 100)%Z in
  let scanLimit := if (scanLimit <? 500)%Z then 500%Z else scanLimit in
  if (5000 <? scanLimit)%Z then 5000%Z else scanLimit.

Definition ListThreadInbox (userID targetPrefix : string) (limit : Z) : M (list It.ThreadInboxItem) :=
  let limit := bounded_limit limit 200 100 in
  nodes ← ent_query
    (λ r, (Mw.ThreadID r <>s "") &&
          (if TrimSpace targetPrefix <>s "" then HasPrefixSQL (Mw.Target r) (TrimSpace targetPrefix)
           else true))
    newest_first 0 (Some (Z.to_nat (scan_limit limit)));
  let grouped := group_messages (messageFromEnt <$> nodes) in
  items ← map_m (finish_item userID) (visit (snd <$> grouped));
  mret (take (Z.to_nat limit) (isort (λ a b, negb (item_less b a)) items)).

Definition MarkThreadInboxRead (now : Z) (fresh_id : string → string) (userID targetPrefix : string) :
    M unit :=
  items ← ListThreadInbox userID targetPrefix 200;
  for_each items (λ item,
    MarkThreadRead now (fresh_id (inbox_key (It.Target item) (It.ThreadID item))) userID
      (It.Target item) (It.ThreadID item)).

(** ** Correctness *)

Context {Laws : SqlLaws}.

(** [x] ranks after [m] in the order of the code: a later second, or the same second
    and a greater identifier. *)
Definition newer (m x : Mw.MessageRow) : bool :=
  (Mw.CreatedUnix m <? Mw.CreatedUnix x)%Z ||
  ((Mw.CreatedUnix x =? Mw.CreatedUnix m)%Z && negb (collate (Mw.ID x) (Mw.ID m))).

Lemma newer_order m x : newer m x = negb (order_le collate newest_first m x).
Proof.
  unfold newer, newest_first. cbn [order_le term_lt].
  destruct (Z.ltb_spec (Mw.CreatedUnix x) (Mw.CreatedUnix m)),
    (Z.ltb_spec (Mw.CreatedUnix m) (Mw.CreatedUnix x)),
    (Z.eqb_spec (Mw.CreatedUnix x) (Mw.CreatedUnix m)); try lia; try done.
  destruct (collate_total (Mw.ID x) (Mw.ID m)) as [->|E]; cbn.
  - by destruct (collate (Mw.ID m) (Mw.ID x)).
  - rewrite E. cbn. by destruct (collate (Mw.ID x) (Mw.ID m)).
Qed.

(** No two rows share an identifier. *)
Definition ids_apart (l : list Mw.MessageRow) : Prop :=
  ∀ a b, a ∈ l → b ∈ l → Mw.ID a = Mw.ID b → a = b.

Lemma unique_ids_apart (p : Mw.MessageRow → bool) l l' :
  unique_rows l = true → l' ≡ₚ bfilter p l → ids_apart l'.
Proof.
  intros Hu Hl a b Ha Hb He. rewrite Hl in Ha, Hb.
  apply elem_of_bfilter in Ha as [Ha _], Hb as [Hb _]. by eapply unique_id_eq.
Qed.

Lemma message_order_strict (l : list Mw.MessageRow) a b :
  ids_apart l → a ∈ l → b ∈ l → order_le collate newest_first a b = true →
  order_le collate newest_first b a = true → a = b.
Proof.
  intros Hu Ha Hb H1 H2. pose proof (order_le_antisym collate collate_total newest_first a b
    collate_antisym H1 H2) as H. repeat (apply Forall_cons in H as [? H]). by apply Hu.
Qed.

(** In a sorted list the loop stops at the last read message, having counted exactly
    the newer ones. *)
Lemma count_until_sorted l m acc :
  ids_apart l → sorted_by collate newest_first l → m ∈ l →
  count_until (Mw.CreatedUnix m) (Mw.ID m) l acc = acc + length (bfilter (newer m) l).
Proof.
  intros Hu Hs. revert acc Hu. induction Hs as [|x l Hs IH Hx]; intros acc Hu Hm;
    [by apply elem_of_nil in Hm|].
  rewrite Forall_forall in Hx. cbn [count_until bfilter].
  destruct (Mw.ID x =s Mw.ID m) eqn:E.
  - apply eqb_eq_str in E. assert (x = m) as -> by (apply Hu; [by left|done|done]).
    assert (newer m m = false) as ->.
    { rewrite newer_order. apply negb_false_iff. apply order_le_refl. }
    rewrite bfilter_none; [cbn; lia|]. intros y Hy. rewrite newer_order. apply negb_false_iff. auto.
  - apply eqb_neq_str in E. apply elem_of_cons in Hm as [->|Hm]; [done|].
    assert (newer m x = true) as Hn.
    { rewrite newer_order. apply negb_true_iff. destruct (order_le collate newest_first m x) eqn:Ho; [|done].
      assert (x = m) as ->; [|done]. eapply message_order_strict; [exact Hu|by left|by right|auto|done]. }
    assert ((0 <? Mw.CreatedUnix m)%Z && (Mw.CreatedUnix x <? Mw.CreatedUnix m)%Z = false) as ->.
    { apply andb_false_iff. right. apply Z.ltb_ge. unfold newer in Hn.
      apply orb_true_iff in Hn as [Hn|[Hn _]%andb_true_iff]; reflect_bools; lia. }
    rewrite Hn. cbn [length]. rewrite IH; [lia| |done].
    intros a b Ha Hb. apply Hu; by right.
Qed.

Definition thread_rows (target threadID : string) (s : Store) : list Mw.MessageRow :=
  bfilter (in_thread target threadID) (rows Mw.MessageRow s).

Lemma wp_countUnread target threadID m s :
  unique_rows (rows Mw.MessageRow s) = true → m ∈ thread_rows target threadID s → Mw.ID m ≠ "" →
  length (thread_rows target threadID s) ≤ 5000 →
  wp (countUnreadThreadMessages target threadID (Mw.CreatedUnix m) (Mw.ID m)) (λ r s', s' = s ∧
    r = inr (length (bfilter (newer m) (thread_rows target threadID s)))) s.
Proof.
  intros Hu Hm Hid Hlen. unfold countUnreadThreadMessages, thread_rows in *.
  rewrite (proj2 (eqb_neq_str _ _) Hid). wp_step. apply wp_query. intros l Hl Hs.
  cbn [window drop]. rewrite take_ge by (by rewrite Hl). wp_step. split; [done|]. f_equal.
  rewrite count_until_sorted; [|by eapply unique_ids_apart|done|by rewrite Hl]. cbn. by rewrite Hl.
Qed.

(** The unread count of a thread whose last read message is still there is the
    number of its messages that come after that one, where a message of the same
    second comes after it exactly when its identifier, which is random, is greater. *)
Theorem countUnreadThreadMessages_newer target threadID m s :
  unique_rows (rows Mw.MessageRow s) = true → m ∈ thread_rows target threadID s → Mw.ID m ≠ "" →
  length (thread_rows target threadID s) ≤ 5000 →
  wp (countUnreadThreadMessages target threadID (Mw.CreatedUnix m) (Mw.ID m)) (λ r s', s' = s ∧
    r = inr (length (bfilter (newer m) (thread_rows target threadID s)))) s.
Proof. apply wp_countUnread. Qed.

(** A message of the same second as the last read one, with a smaller identifier, is
    never counted: the thread it arrives in shows as many unread messages as before. *)
Theorem same_second_message_stays_read target threadID m x s s' :
  unique_rows (rows Mw.MessageRow s') = true → rows Mw.MessageRow s' = rows Mw.MessageRow s ++ [x] →
  m ∈ thread_rows target threadID s → Mw.ID m ≠ "" → length (thread_rows target threadID s') ≤ 5000 →
  Mw.CreatedUnix x = Mw.CreatedUnix m → collate (Mw.ID x) (Mw.ID m) = true →
  wp (countUnreadThreadMessages target threadID (Mw.CreatedUnix m) (Mw.ID m)) (λ r _,
    r = inr (length (bfilter (newer m) (thread_rows target threadID s)))) s'.
Proof.
  intros Hu Hrows Hm Hid Hlen Hsec Hcoll.
  assert (thread_rows target threadID s' = thread_rows target threadID s ++
    bfilter (in_thread target threadID) [x]) as Hth by (unfold thread_rows; by rewrite Hrows, bfilter_app).
  eapply wp_mono; [apply wp_countUnread; try done|].
  { rewrite Hth. apply elem_of_app. by left. }
  intros r ? [_ ->]. do 2 f_equal. rewrite Hth, bfilter_app.
  assert (newer m x = false) as Hx.
  { unfold newer. rewrite Hsec, Z.ltb_irrefl, Z.eqb_refl, Hcoll. done. }
  cbn [bfilter]. destruct (in_thread target threadID x); cbn [bfilter]; [rewrite Hx|]; by rewrite app_nil_r.
Qed.

(** *** Marking a thread as read *)

(** [m] is the message the thread is read up to: its latest, or the parent of a thread
    without messages. *)
Definition read_up_to (target threadID : string) (m : Msg.Message) (s : Store) : Prop :=
  Msg.ID m ≠ "" ∧
  ((∃ row l, row :: l ≡ₚ thread_rows target threadID s ∧ sorted_by collate newest_first (row :: l) ∧
      m = messageFromEnt row) ∨ thread_rows target threadID s = []).

Lemma wp_latestThreadMessage target threadID s (Q : error + Msg.Message → Store → Prop) :
  unique_rows (rows Mw.MessageRow s) = true → Forall (λ m, Mw.ID m ≠ "") (rows Mw.MessageRow s) →
  (∀ e, thread_rows target threadID s = [] → Q (inl e) s) →
  (∀ m, read_up_to target threadID m s → Q (inr m) s) →
  wp (latestThreadMessage target threadID) Q s.
Proof.
  intros Hu Hids He HQ. rewrite Forall_forall in Hids. unfold latestThreadMessage. wp_step. wp_step.
  - unfold getMessage. wp_steps; try by apply He.
    apply HQ. split; [|by right]. apply Hids.
    by match goal with H : bfilter _ _ = [_] |- _ => apply bfilter_singleton_inv in H as (? & _) end.
  - cbn beta iota. wp_step. apply HQ. split.
    + apply Hids. assert (r ∈ r :: l) as Hr by (by left). rewrite H in Hr.
      by apply elem_of_bfilter in Hr as [? _].
    + left. by exists r, l.
Qed.

(** Nothing of the thread is unread then. *)
Lemma wp_nothing_unread target threadID m s s' (Q : error + nat → Store → Prop) :
  unique_rows (rows Mw.MessageRow s) = true → read_up_to target threadID m s →
  rows Mw.MessageRow s' = rows Mw.MessageRow s → Q (inr 0) s' →
  wp (countUnreadThreadMessages target threadID (Msg.CreatedUnix m) (Msg.ID m)) Q s'.
Proof.
  intros Hu [Hid Hm] Hrows HQ. unfold countUnreadThreadMessages, thread_rows in *.
  rewrite (proj2 (eqb_neq_str _ _) Hid). wp_step. apply wp_query. rewrite Hrows. intros l' Hl' Hs'.
  destruct Hm as [(row & l & Hl & Hs & ->)|E].
  - assert (l' = row :: l) as ->.
    { apply (sorted_by_unique newest_first); [|by rewrite Hl', Hl|done..].
      intros a b Ha Hb. apply (message_order_strict l'); [|done..]. by eapply unique_ids_apart. }
    cbn [window drop take]. wp_step. cbn [count_until messageFromEnt Msg.ID]. by rewrite eqb_refl_str.
  - rewrite E in Hl'. apply Permutation_nil_r in Hl' as ->. by wp_step.
Qed.

Lemma reader_key u t th : key_test (is_reader u t th).
Proof.
  intros a b Ha Hb. unfold is_reader in *. reflect_bools. unfold clash. cbn.
  unfold ThreadReadState_unique. apply orb_true_iff. right.
  repeat match goal with H : _ = _ |- _ => rewrite H; clear H end. by rewrite !eqb_refl_str.
Qed.

(** The read state says [m], in one row of the reader's own. *)
Definition marked (u t th : string) (m : Msg.Message) (s s' : Store) : Prop :=
  (∃ st, bfilter (is_reader u t th) (rows Rd.ThreadReadState s') = [st] ∧
     Rd.LastReadMessageID st = Msg.ID m ∧ Rd.LastReadUnix st = Msg.CreatedUnix m) ∧
  bfilter (λ r, negb (is_reader u t th r)) (rows Rd.ThreadReadState s') =
  bfilter (λ r, negb (is_reader u t th r)) (rows Rd.ThreadReadState s).

Lemma marked_update now u t th m st s (tb : tbl Rd.ThreadReadState) :
  bfilter (is_reader u t th) (rows Rd.ThreadReadState s) = [st] →
  tbl_rows tb = update_rows (is_reader u t th) (read_fields now m) (rows Rd.ThreadReadState s) →
  marked u t th m s (put_tbl tb s).
Proof.
  intros Hst Ht. unfold marked. rewrite rows_put, Ht. rewrite !bfilter_update by done. rewrite Hst.
  destruct (bfilter_singleton_inv _ _ _ Hst) as (_ & Hp & _). split.
  - exists (read_fields now m st). unfold update_rows. cbn [map]. by rewrite Hp.
  - apply update_rows_none. intros x [_ Hx]%elem_of_bfilter. by apply negb_true_iff.
Qed.

Lemma marked_create id now u t th m s (tb : tbl Rd.ThreadReadState) :
  bfilter (is_reader u t th) (rows Rd.ThreadReadState s) = [] →
  tbl_rows tb = rows Rd.ThreadReadState s ++ [Rd.mk id u t th (Msg.ID m) (Msg.CreatedUnix m) now] →
  marked u t th m s (put_tbl tb s).
Proof.
  intros Hno Ht. unfold marked. rewrite rows_put, Ht, !bfilter_app, Hno. cbn [bfilter app].
  assert (is_reader u t th (Rd.mk id u t th (Msg.ID m) (Msg.CreatedUnix m) now) = true) as ->.
  { unfold is_reader. cbn. by rewrite !eqb_refl_str. }
  split; [by eexists|]. cbn. by rewrite app_nil_r.
Qed.

(** Marking a thread as read leaves nothing in it unread: when it succeeds, which it
    does whenever the thread has a message, the reader has exactly one read state for the
    thread, the other readers' are untouched, and counting the thread's unread messages
    from that state gives zero; when it fails nothing has changed. *)
Theorem MarkThreadRead_clears now id u t th s :
  unique_rows (rows Mw.MessageRow s) = true → unique_rows (rows Rd.ThreadReadState s) = true →
  Forall (λ m, Mw.ID m ≠ "") (rows Mw.MessageRow s) →
  u ≠ "" → t ≠ "" → th ≠ "" → id ∉ Rd.ID <$> rows Rd.ThreadReadState s →
  wp (MarkThreadRead now id u t th) (λ r s',
    match r with
    | inl _ => s' = s ∧ thread_rows t th s = []
    | inr _ =>
        (∃ st, bfilter (is_reader u t th) (rows Rd.ThreadReadState s') = [st] ∧
           wp (countUnreadThreadMessages t th (Rd.LastReadUnix st) (Rd.LastReadMessageID st))
              (λ n _, n = inr 0) s') ∧
        bfilter (λ r, negb (is_reader u t th r)) (rows Rd.ThreadReadState s') =
        bfilter (λ r, negb (is_reader u t th r)) (rows Rd.ThreadReadState s)
    end) s.
Proof.
  intros Hu Hur Hids Hne1 Hne2 Hne3 Hfresh. unfold MarkThreadRead. wp_step.
  apply wp_latestThreadMessage; [done..|]. intros m Hm.
  assert (∀ s', rows Mw.MessageRow s' = rows Mw.MessageRow s → marked u t th m s s' →
    (∃ st, bfilter (is_reader u t th) (rows Rd.ThreadReadState s') = [st] ∧
       wp (countUnreadThreadMessages t th (Rd.LastReadUnix st) (Rd.LastReadMessageID st))
          (λ n _, n = inr 0) s') ∧
    bfilter (λ r, negb (is_reader u t th r)) (rows Rd.ThreadReadState s') =
    bfilter (λ r, negb (is_reader u t th r)) (rows Rd.ThreadReadState s)) as Hdone.
  { intros s' Hrows [(st & Hst & Hid & Hun) Hothers]. split; [|done]. exists st. split; [done|].
    rewrite Hid, Hun. by eapply wp_nothing_unread. }
  wp_step. wp_step; [done|]. cbn beta iota.
  destruct (unique_filter _ _ Hur (reader_key u t th)) as [E|[st E]]; rewrite E; cbn [length Nat.ltb Nat.leb].
  - rewrite update_rows_none in H0 by (intros x Hx; by apply (bfilter_nil_inv _ _ _ E)).
    wp_step. set (row := Rd.mk id u t th (Msg.ID m) (Msg.CreatedUnix m) now).
    apply wp_create.
    + intros Hv. exfalso. revert Hv. cbn. unfold ThreadReadState_check. cbn.
      apply eqb_neq_str in Hne1, Hne2, Hne3. by rewrite Hne1, Hne2, Hne3.
    + intros _ Hc. exfalso. rewrite rows_put, H0 in Hc. revert Hc. apply not_true_iff_false.
      apply has_clash_false. intros x Hx. unfold clash. cbn. apply orb_false_iff. split.
      * apply eqb_neq_str. intros ->. apply Hfresh. by apply list_elem_of_fmap_2.
      * pose proof (bfilter_nil_inv _ _ _ E Hx) as Hr. unfold ThreadReadState_unique, is_reader in *. cbn.
        by rewrite (eqb_sym_str u), (eqb_sym_str t), (eqb_sym_str th).
    + intros _ _ tb Htb. cbn beta iota. wp_step. rewrite rows_put, H0 in Htb.
      apply Hdone; [done|]. pose proof (marked_create id now u t th m s tb E Htb) as Hmk.
      by apply Hmk.
  - wp_step. apply Hdone; [done|]. by eapply marked_update.
Qed.

End threads.

(** ** Witnesses *)

Definition thread_msg (id : string) (at_unix : Z) : Mw.MessageRow :=
  Mw.zero |> Mw.set_ID id |> Mw.set_Target "#general" |> Mw.set_ThreadID "th_1" |> Mw.set_CreatedUnix at_unix.

Definition thread_store : @Store list_engine :=
  set_messages (Eng := list_engine) [thread_msg "msg_b" 10; thread_msg "msg_c" 20] empty_store.

Definition late_store : @Store list_engine :=
  set_messages (Eng := list_engine)
    [thread_msg "msg_b" 10; thread_msg "msg_c" 20; thread_msg "msg_a" 20] empty_store.

Lemma countUnreadThreadMessages_newer_witness :
  wp (Eng := list_engine) (countUnreadThreadMessages "#general" "th_1" 10 "msg_b")
    (λ r s', s' = thread_store ∧ r = inr 1) thread_store.
Proof.
  apply (countUnreadThreadMessages_newer (Eng := list_engine) "#general" "th_1" (thread_msg "msg_b" 10));
    [reflexivity|by left|discriminate|cbn; lia].
Defined.

Lemma same_second_message_stays_read_witness :
  wp (Eng := list_engine) (countUnreadThreadMessages "#general" "th_1" 20 "msg_c")
    (λ r _, r = inr 0) late_store.
Proof.
  apply (same_second_message_stays_read (Eng := list_engine) "#general" "th_1" (thread_msg "msg_c" 20)
    (thread_msg "msg_a" 20) thread_store);
    [reflexivity|reflexivity|right; by left|discriminate|cbn; lia|reflexivity|reflexivity].
Defined.

Lemma MarkThreadRead_clears_witness :
  wp (Eng := list_engine) (MarkThreadRead (Txt := no_text) 30 "trs_1" "usr_1" "#general" "th_1") (λ r s',
    match r with
    | inl _ => s' = thread_store ∧ thread_rows "#general" "th_1" thread_store = []
    | inr _ =>
        (∃ st, bfilter (is_reader "usr_1" "#general" "th_1") (rows Rd.ThreadReadState s') = [st] ∧
           wp (Eng := list_engine)
              (countUnreadThreadMessages "#general" "th_1" (Rd.LastReadUnix st) (Rd.LastReadMessageID st))
              (λ n _, n = inr 0) s') ∧
        bfilter (λ r, negb (is_reader "usr_1" "#general" "th_1" r)) (rows Rd.ThreadReadState s') =
        bfilter (λ r, negb (is_reader "usr_1" "#general" "th_1" r)) (rows Rd.ThreadReadState thread_store)
    end) thread_store.
Proof.
  apply (MarkThreadRead_clears (Eng := list_engine)); [reflexivity|reflexivity| |discriminate..|].
  - repeat (apply Forall_cons; split; [discriminate|]). apply Forall_nil. exact I.
  - intros H. by apply elem_of_nil in H.
Defined.
