(* ===== verification/AgentRuns.v ===== *)
(** * Agent runs ([internal/storage/agentruns.go])

    The log of an agent's run: its events, and the run's row, which counts them and
    is finalised by the last one. *)
From S2P Require Import Prelude GoStr Sql Models Schema Store Messages.
Import AgentRun.
Module Ev := AgentRunEvent.
Module LsOpts := AgentRunListOptions.
Module SeOpts := AgentRunSearchOptions.
Module Hit := AgentRunSearchHit.

Definition AgentRunPhaseStart := "start".
Definition AgentRunPhaseToolCall := "tool_call".
Definition AgentRunPhaseToolResult := "tool_result".
Definition AgentRunPhaseError := "error".
Definition AgentRunPhaseOutput := "output".
Definition AgentRunPhaseEnd := "end".

Definition validAgentRunPhases (phase : string) : bool :=
  (phase =s AgentRunPhaseStart) || (phase =s AgentRunPhaseToolCall) ||
  (phase =s AgentRunPhaseToolResult) || (phase =s AgentRunPhaseError) ||
  (phase =s AgentRunPhaseOutput) || (phase =s AgentRunPhaseEnd).

Definition agentRunFromEnt (row : AgentRun) : AgentRun :=
  mk (ID row) (AgentID row) (ComputerID row) (StartedUnix row) (EndedUnix row) (ExitCode row)
     (Summary row) (Error row) (EventCount row).

Definition agentRunEventFromEnt (row : AgentRunEvent) : AgentRunEvent :=
  Ev.mk (Ev.ID row) (Ev.RunID row) (Ev.AtUnixNano row) (Ev.Phase row) (Ev.Summary row)
    (Ev.PayloadJSON row) (Ev.ExitCode row) (Ev.ErrorMessage row).

(** The update of the run's row: one event more, and on the last one the outcome. *)
Definition bump_fields (phase : string) (event : AgentRunEvent) (runInfo r : AgentRun) : AgentRun :=
  r |> set_EventCount (u32 (EventCount r + 1))
    |> when (phase =s AgentRunPhaseEnd) (λ r,
         r |> set_EndedUnix (EndedUnix runInfo) |> set_ExitCode (Ev.ExitCode event)
           |> set_Error (Ev.ErrorMessage event) |> set_Summary (Ev.Summary event)).

Section agentruns.
Context {Eng : SqlEngine} {Uni : Unicode} {Txt : TextLib}.

(** Finds the run, or creates it on a start event. *)
Definition find_or_create (phase : string) (event : AgentRunEvent) (runInfo : AgentRun) : M AgentRun :=
  try (ent_get (Ev.RunID event)) (λ res,
    match res with
    | inr run => mret run
    | inl e =>
        if IsNotFound e then
          _ ← guard (phase =s AgentRunPhaseStart) ErrInvalid;
          ent_create (zero |> set_ID (Ev.RunID event) |> set_AgentID (AgentID runInfo)
            |> set_ComputerID (ComputerID runInfo) |> set_StartedUnix (StartedUnix runInfo))
        else throw e
    end).

(** Every failing path leaves [err] set, so the deferred function rolls back. *)
Definition AppendAgentRunEvent (fresh_id : string) (event : AgentRunEvent) (runInfo : AgentRun) :
    M (AgentRun * AgentRunEvent) :=
  let phase := ToLower (TrimSpace (Ev.Phase event)) in
  _ ← guard (validAgentRunPhases phase) ErrInvalid;
  let event := event |> Ev.set_Phase phase in
  in_tx (λ _, true) (
    _ ← find_or_create phase event runInfo;
    eventRow ← ent_create
      (event |> Ev.set_ID (if Ev.ID event <>s "" then Ev.ID event else fresh_id));
    updated ← ent_update_one (Ev.RunID event) true (bump_fields phase event runInfo);
    mret (agentRunFromEnt updated, agentRunEventFromEnt eventRow)).

Definition ListAgentRuns (opts : LsOpts.AgentRunListOptions) : M (list AgentRun) :=
  nodes ← ent_query
    (λ r, (if LsOpts.AgentID opts <>s "" then AgentID r =s LsOpts.AgentID opts else true) &&
          (if LsOpts.ComputerID opts <>s "" then ComputerID r =s LsOpts.ComputerID opts else true) &&
          (if (0 <? LsOpts.BeforeStarted opts)%Z then (StartedUnix r <? LsOpts.BeforeStarted opts)%Z
           else true))
    [DescZ StartedUnix] 0 (positive_limit (LsOpts.Limit opts));
  mret (agentRunFromEnt <$> nodes).

Definition GetAgentRun (runID : string) (includeEvents : bool) : M (AgentRun * list AgentRunEvent) :=
  row ← or_not_found (ent_get runID);
  let run := agentRunFromEnt row in
  if negb includeEvents then mret (run, [])
  else
    eventRows ← ent_query (λ e, Ev.RunID e =s runID) [AscZ Ev.AtUnixNano] 0 None;
    mret (run, agentRunEventFromEnt <$> eventRows).

(** The hits among the events read: those whose run is there and passes. *)
Fixpoint search_hits (opts : SeOpts.AgentRunSearchOptions) (eventRows : list AgentRunEvent) :
    M (list AgentRunSearchHit) :=
  match eventRows with
  | [] => mret []
  | event :: eventRows =>
      try (ent_get (Ev.RunID event)) (λ res,
        match res with
        | inl _ => search_hits opts eventRows
        | inr runRow =>
            if ((SeOpts.AgentID opts <>s "") && (AgentID runRow <>s SeOpts.AgentID opts)) ||
               ((SeOpts.ComputerID opts <>s "") && (ComputerID runRow <>s SeOpts.ComputerID opts))
            then search_hits opts eventRows
            else
              hits ← search_hits opts eventRows;
              mret (Hit.mk (agentRunFromEnt runRow) (agentRunEventFromEnt event) (Ev.Summary event)
                      :: hits)
        end)
  end.

(** The limit counts the events read, before the filters on their runs. *)
Definition SearchAgentRuns (opts : SeOpts.AgentRunSearchOptions) : M (list AgentRunSearchHit) :=
  eventRows ← ent_query
    (λ e, if SeOpts.Query opts <>s ""
          then ContainsFold (Ev.Summary e) (SeOpts.Query opts) ||
               ContainsFold (Ev.PayloadJSON e) (SeOpts.Query opts)
          else true)
    [DescZ Ev.AtUnixNano] 0 (positive_limit (SeOpts.Limit opts));
  search_hits opts eventRows.

(** ** Specification *)

Definition events_of (id : string) (evs : list AgentRunEvent) : nat :=
  length (bfilter (λ e, Ev.RunID e =s id) evs).

(** The log is in order: every run counts its events (in 32 bits), every event has a
    known phase and a run. *)
Record run_log (runs : list AgentRun) (evs : list AgentRunEvent) : Prop := {
  runs_unique : unique_rows runs = true;
  events_unique : unique_rows evs = true;
  counts : ∀ r, r ∈ runs → EventCount r = u32 (Z.of_nat (events_of (ID r) evs));
  phases : ∀ e, e ∈ evs → validAgentRunPhases (Ev.Phase e) = true;
  runs_of : ∀ e, e ∈ evs → ∃ r, r ∈ runs ∧ ID r = Ev.RunID e
}.

Definition log_ok (s : Store) : Prop := run_log (rows AgentRun s) (rows AgentRunEvent s).

(** ** Correctness *)

Context {Laws : SqlLaws}.

Lemma events_of_app id evs e :
  events_of id (evs ++ [e]) = events_of id evs + (if Ev.RunID e =s id then 1 else 0).
Proof.
  unfold events_of. rewrite bfilter_app, length_app. cbn. by destruct (Ev.RunID e =s id).
Qed.

(** A new run has no events yet. *)
Lemma log_new_run runs evs r :
  run_log runs evs → has_clash r runs = false → EventCount r = 0%Z → run_log (runs ++ [r]) evs.
Proof.
  intros [] Hc Hz. assert (∀ x, x ∈ runs → ID x ≠ ID r) as Hne.
  { rewrite has_clash_false in Hc. intros x Hx He. specialize (Hc x Hx). unfold clash in Hc. cbn in Hc.
    by rewrite He, eqb_refl_str in Hc. }
  split; [by apply unique_app_one|done| |done|].
  - intros x [Hx| ->%list_elem_of_singleton]%elem_of_app; [auto|]. rewrite Hz. unfold events_of.
    rewrite bfilter_none; [done|]. intros e He. apply eqb_neq_str. intros Heq.
    destruct (runs_of0 e He) as (y & Hy & Hid). apply (Hne y Hy). congruence.
  - intros e He. destruct (runs_of0 e He) as (y & Hy & ?). exists y. rewrite elem_of_app. auto.
Qed.

(** One event more, counted by its run. *)
Lemma log_new_event runs evs e f r :
  run_log runs evs → has_clash e evs = false → validAgentRunPhases (Ev.Phase e) = true →
  bfilter (λ x, ID x =s Ev.RunID e) runs = [r] → keeps_keys f →
  (∀ x, EventCount (f x) = u32 (EventCount x + 1)) →
  run_log (update_rows (λ x, ID x =s Ev.RunID e) f runs) (evs ++ [e]).
Proof.
  intros [] Hc Hp Hr Hf Hcount. assert (∀ x, ID (f x) = ID x) as Hid by apply Hf.
  split; [by rewrite unique_update|by apply unique_app_one| | |].
  - intros y (x & Hx & ->)%elem_of_update_rows. rewrite events_of_app.
    destruct (ID x =s Ev.RunID e) eqn:E.
    + rewrite Hcount, Hid, (counts0 x Hx). rewrite (eqb_sym_str (Ev.RunID e)), E.
      unfold u32. rewrite Zplus_mod_idemp_l. f_equal. lia.
    + rewrite (eqb_sym_str (Ev.RunID e)), E, Nat.add_0_r. auto.
  - intros x [Hx| ->%list_elem_of_singleton]%elem_of_app; auto.
  - assert (∀ x, x ∈ runs → ∃ y, y ∈ update_rows (λ x, ID x =s Ev.RunID e) f runs ∧ ID y = ID x) as Hkeep.
    { intros x Hx. exists (if ID x =s Ev.RunID e then f x else x). split.
      - apply elem_of_update_rows. by exists x.
      - destruct (ID x =s Ev.RunID e); [apply Hid|done]. }
    intros x [Hx| ->%list_elem_of_singleton]%elem_of_app.
    + destruct (runs_of0 x Hx) as (y & Hy & <-). by apply Hkeep.
    + apply bfilter_singleton_inv in Hr as (Hin & Hrid & _). apply eqb_eq_str in Hrid.
      destruct (Hkeep r Hin) as (y & Hy & Hyid). exists y. split; [done|congruence].
Qed.

(** The run of an event, found or just created. *)
Lemma wp_find_or_create phase event info s (Q : error + AgentRun → Store → Prop) :
  log_ok s → (∀ e s', Q (inl e) s') →
  (∀ r s', log_ok s' → rows AgentRunEvent s' = rows AgentRunEvent s → open_txs s' = open_txs s →
     bfilter (λ x, ID x =s Ev.RunID event) (rows AgentRun s') = [r] →
     (rows AgentRun s' = rows AgentRun s ∨
      phase = AgentRunPhaseStart ∧ rows AgentRun s' = rows AgentRun s ++ [r] ∧
      (AgentID r, ComputerID r, StartedUnix r) = (AgentID info, ComputerID info, StartedUnix info)) →
     Q (inr r) s') →
  wp (find_or_create phase event info) Q s.
Proof.
  intros Hlog He HQ. unfold find_or_create. wp_step. unfold ent_get.
  apply wp_only_key; [by destruct Hlog|apply id_key_test|intros E|intros r E].
  - cbn beta iota. wp_step; [|by apply He]. wp_step. wp_step; [|by apply He]. cbn beta iota.
    apply eqb_eq_str in H. set (row := set_StartedUnix _ _).
    apply wp_create; [intros; apply He..|]. intros _ Hc t Ht.
    assert (rows AgentRunEvent (put_tbl (R := AgentRun) t s) = rows AgentRunEvent s) as Hev by done.
    apply HQ; [|done|done|..].
    + unfold log_ok. rewrite rows_put, Ht, Hev. by apply log_new_run.
    + rewrite rows_put, Ht, bfilter_app. change (λ x, ID x =s Ev.RunID event) with
        (λ r : AgentRun, entID r =s Ev.RunID event). rewrite E. cbn. by rewrite eqb_refl_str.
    + right. by rewrite rows_put, Ht.
  - cbn beta iota. wp_step. apply HQ; [done..|exact E|by left].
Qed.

Lemma bump_keeps phase event info : keeps_keys (bump_fields phase event info).
Proof. unfold bump_fields. solve_keeps. Qed.

(** Appending a lifecycle event is atomic and keeps the log in order: on any error
    nothing has changed; on success exactly one event was added, its run exists (the
    first event created it and was a start), every run still counts its events, and the
    last event recorded the outcome on the run. *)
Theorem AppendAgentRunEvent_log fresh event info s :
  log_ok s →
  wp (AppendAgentRunEvent fresh event info) (λ r s',
    match r with
    | inl _ => s' = s
    | inr (run, ev) =>
        log_ok s' ∧ open_txs s' = open_txs s ∧
        rows AgentRunEvent s' = rows AgentRunEvent s ++ [ev] ∧ Ev.RunID ev = Ev.RunID event ∧
        bfilter (λ x, ID x =s Ev.RunID event) (rows AgentRun s') = [run] ∧
        (bfilter (λ x, ID x =s Ev.RunID event) (rows AgentRun s) = [] →
           Ev.Phase ev = AgentRunPhaseStart ∧ EventCount run = 1%Z ∧ AgentID run = AgentID info) ∧
        (Ev.Phase ev = AgentRunPhaseEnd →
           (EndedUnix run, ExitCode run, Error run, Summary run) =
           (EndedUnix info, Ev.ExitCode event, Ev.ErrorMessage event, Ev.Summary event))
    end) s.
Proof.
  intros Hlog. unfold AppendAgentRunEvent. set (phase := ToLower _). wp_step. wp_step; [|done].
  cbn beta iota. wp_step. wp_step. set (event' := Ev.set_Phase phase event).
  apply wp_find_or_create; [exact Hlog|done|]. intros r s1 Hlog1 Hev1 Hopen1 Hr1 Hnew.
  wp_step. wp_step; [done..|]. cbn beta iota. wp_step.
  change (Ev.RunID event') with (Ev.RunID event) in *.
  apply wp_update_one; [by destruct Hlog1|apply bump_keeps|done|done|].
  intros _ r' Hr' t' Ht' _. injection (eq_trans (eq_sym Hr1) Hr') as <-. cbn beta iota. wp_step.
  cbn beta iota. assert (agentRunEventFromEnt row = row) as -> by by destruct row.
  set (f := bump_fields phase event' info) in *.
  assert (agentRunFromEnt (f r) = f r) as -> by by destruct (f r).
  assert (∀ x, EventCount (f x) = u32 (EventCount x + 1)) as Hcount
    by (intros x; unfold f, bump_fields; by rewrite when_proj).
  set (s' := set_open_txs _ _).
  assert (rows AgentRun s' = update_rows (λ x, ID x =s Ev.RunID event) f (rows AgentRun s1)) as Hruns
    by exact Ht'.
  assert (rows AgentRunEvent s' = rows AgentRunEvent s1 ++ [row]) as Hevs by exact H2.
  assert (log_ok s') as Hlog'.
  { unfold log_ok. rewrite Hruns, Hevs. apply (log_new_event _ _ row f r); try done. apply bump_keeps. }
  assert (f r ∈ rows AgentRun s' ∧ ID (f r) = Ev.RunID event ∧
    bfilter (λ x, ID x =s Ev.RunID event) (rows AgentRun s') = [f r]) as (Hin & Hid & Hsel).
  { assert (∀ a, ID (f a) = ID a) as Hk by apply (bump_keeps phase event' info).
    apply bfilter_singleton_inv in Hr1 as Hr1'. destruct Hr1' as (Hin & Hid & _).
    assert (bfilter (λ x, ID x =s Ev.RunID event) (rows AgentRun s') = [f r]) as Hsel.
    { rewrite Hruns, bfilter_update by (intros a; by rewrite Hk). rewrite Hr1.
      unfold update_rows. cbn [map]. by rewrite Hid. }
    split; [by apply bfilter_singleton_inv in Hsel as (? & _)|]. split; [|done].
    apply eqb_eq_str in Hid. rewrite <-Hid. apply Hk. }
  split; [done|]. split; [unfold s'; cbn; by rewrite Hopen1|]. split; [by rewrite Hevs, Hev1|].
  split; [done|]. split; [done|]. split.
  - intros Hnone. destruct Hnew as [Hsame|(Hph & Hadd & Hinfo)].
    { change (rows AgentRun s1 = rows AgentRun s) in Hsame. rewrite <-Hsame in Hnone.
      discriminate (eq_trans (eq_sym Hnone) Hr1). }
    split; [exact Hph|]. split; [|unfold f, bump_fields; by rewrite when_proj; injection Hinfo].
    rewrite (counts _ _ Hlog' (f r) Hin), Hid, Hevs, events_of_app, Hev1.
    change (Ev.RunID row) with (Ev.RunID event). rewrite eqb_refl_str.
    unfold events_of. rewrite bfilter_none; [done|]. intros e He. apply eqb_neq_str. intros Heq.
    destruct (runs_of _ _ Hlog e He) as (y & Hy & Hyid).
    pose proof (bfilter_nil_inv _ _ _ Hnone Hy) as Hf. cbn in Hf. by rewrite Hyid, Heq, eqb_refl_str in Hf.
  - intros Hend. change (phase = AgentRunPhaseEnd) in Hend. unfold f, bump_fields. rewrite Hend. done.
Qed.

End agentruns.

(** ** Witness *)

Definition run_a : AgentRun := mk "run_1" "agt_1" "cmp_1" 10 0 0 "" "" 1.
Definition run_event_a : AgentRunEvent := Ev.mk "are_1" "run_1" 100 "start" "" "" 0 "".

Definition run_store : @Store list_engine :=
  set_agent_runs (Eng := list_engine) [run_a]
    (set_agent_run_events (Eng := list_engine) [run_event_a] empty_store).

Definition last_event : AgentRunEvent := Ev.mk "" "run_1" 200 " END " "done" "" 3 "oops".

Lemma AppendAgentRunEvent_log_witness :
  wp (Eng := list_engine)
    (AppendAgentRunEvent (Uni := ascii_unicode) "are_2" last_event (zero |> set_EndedUnix 20))
    (λ r s', match r with
     | inl _ => s' = run_store
     | inr (run, ev) =>
        log_ok s' ∧ open_txs s' = open_txs run_store ∧
        rows AgentRunEvent s' = rows AgentRunEvent run_store ++ [ev] ∧ Ev.RunID ev = "run_1" ∧
        bfilter (λ x, ID x =s "run_1") (rows AgentRun s') = [run] ∧
        (bfilter (λ x, ID x =s "run_1") (rows AgentRun run_store) = [] →
           Ev.Phase ev = AgentRunPhaseStart ∧ EventCount run = 1%Z ∧ AgentID run = "") ∧
        (Ev.Phase ev = AgentRunPhaseEnd →
           (EndedUnix run, ExitCode run, Error run, Summary run) = (20%Z, 3%Z, "oops", "done"))
     end) run_store.
Proof.
  apply (AppendAgentRunEvent_log (Eng := list_engine) "are_2" last_event (zero |> set_EndedUnix 20)).
  split; [reflexivity|reflexivity|..].
  - by intros r ->%list_elem_of_singleton.
  - by intros e ->%list_elem_of_singleton.
  - intros e ->%list_elem_of_singleton. exists run_a. split; [by left|reflexivity].
Defined.
