(* ===== verification/SessionQueue.v ===== *)
(** * The session queue of the IM coordinator ([internal/imcoord/session_queue.go])

    Requests of one session key run one after the other, in a goroutine that lives
    as long as the session has work.  The goroutines interleave freely: each
    [label] is one atomic action of a caller of [enqueue], of a caller of [abort]
    or of a slot's [run] loop, and what happens under a mutex is one action.
    Pointers to slots are positions in the list [slots]; requests and calls of
    [abort] are numbered in the order they begin.  The functions the queue runs are
    not modelled: they return any value of the type [Res], at any time. *)
From S2P Require Import Prelude.

Section queue.
Context {Res : Type}.

(** ** State *)

(** What [resultC] carries. *)
Inductive outcome := Returned (res : Res) | CtxErr.

(** Where the goroutine of a slot is in the body of its loop. *)
Inductive run_at :=
| Selecting
| TimerFired
| Received (r : nat)
| Accepted (r : nat)
| Running (r : nat)
| Finished (r : nat) (res : Res)
| Replying (r : nat) (o : outcome)
| Exited.

Record sessionSlot := mkSlot {
  key : string;
  queue : list nat;
  activeCancel : option nat;
  refs : nat;
  at_run : run_at
}.

(** Where a caller is in [enqueue]; it holds its slot's pointer until it releases it. *)
Inductive enqueue_at :=
| Sending (id : nat)
| Sent (id : nat)
| GaveUp (id : nat)
| Waiting
| Done (o : outcome).

Record queuedRequest := mkReq {
  req_key : string;
  at_enqueue : enqueue_at;
  ctx_done : bool;
  aborted : bool;
  resultC : option outcome
}.

Inductive abort_at :=
| Found (k : string) (id : nat)
| Cancelling (k : string) (r : nat)
| Answered (b : bool).

(** [sent] and [received] are histories: what entered and what left the channels. *)
Record sessionQueue := mkQueue {
  sessions : gmap string nat;
  slots : list sessionSlot;
  reqs : list queuedRequest;
  aborts : list abort_at;
  sent : list (string * nat);
  received : list (string * nat)
}.

Definition newSessionQueue : sessionQueue := mkQueue ∅ [] [] [] [] [].

Definition set_queue (v : list nat) (sl : sessionSlot) : sessionSlot :=
  mkSlot (key sl) v (activeCancel sl) (refs sl) (at_run sl).
Definition set_active (v : option nat) (sl : sessionSlot) : sessionSlot :=
  mkSlot (key sl) (queue sl) v (refs sl) (at_run sl).
Definition set_refs (v : nat) (sl : sessionSlot) : sessionSlot :=
  mkSlot (key sl) (queue sl) (activeCancel sl) v (at_run sl).
Definition set_run (v : run_at) (sl : sessionSlot) : sessionSlot :=
  mkSlot (key sl) (queue sl) (activeCancel sl) (refs sl) v.

Definition set_at (v : enqueue_at) (q : queuedRequest) : queuedRequest :=
  mkReq (req_key q) v (ctx_done q) (aborted q) (resultC q).
Definition set_ctx_done (q : queuedRequest) : queuedRequest :=
  mkReq (req_key q) (at_enqueue q) true (aborted q) (resultC q).
Definition set_aborted (q : queuedRequest) : queuedRequest :=
  mkReq (req_key q) (at_enqueue q) (ctx_done q) true (resultC q).
Definition set_result (o : outcome) (q : queuedRequest) : queuedRequest :=
  mkReq (req_key q) (at_enqueue q) (ctx_done q) (aborted q) (Some o).

Definition put_sessions (v : gmap string nat) (s : sessionQueue) : sessionQueue :=
  mkQueue v (slots s) (reqs s) (aborts s) (sent s) (received s).
Definition on_slot (id : nat) (f : sessionSlot → sessionSlot) (s : sessionQueue) : sessionQueue :=
  mkQueue (sessions s) (alter f id (slots s)) (reqs s) (aborts s) (sent s) (received s).
Definition new_slot (sl : sessionSlot) (s : sessionQueue) : sessionQueue :=
  mkQueue (sessions s) (slots s ++ [sl]) (reqs s) (aborts s) (sent s) (received s).
Definition on_req (r : nat) (f : queuedRequest → queuedRequest) (s : sessionQueue) : sessionQueue :=
  mkQueue (sessions s) (slots s) (alter f r (reqs s)) (aborts s) (sent s) (received s).
Definition new_req (q : queuedRequest) (s : sessionQueue) : sessionQueue :=
  mkQueue (sessions s) (slots s) (reqs s ++ [q]) (aborts s) (sent s) (received s).
Definition put_aborts (v : list abort_at) (s : sessionQueue) : sessionQueue :=
  mkQueue (sessions s) (slots s) (reqs s) v (sent s) (received s).
Definition log_sent (k : string) (r : nat) (s : sessionQueue) : sessionQueue :=
  mkQueue (sessions s) (slots s) (reqs s) (aborts s) (sent s ++ [(k, r)]) (received s).
Definition log_received (k : string) (r : nat) (s : sessionQueue) : sessionQueue :=
  mkQueue (sessions s) (slots s) (reqs s) (aborts s) (sent s) (received s ++ [(k, r)]).

(** ** Operations *)

(** The capacity of a slot's channel. *)
Definition capacity : nat := 64.

Definition getOrCreate (sessionKey : string) (s : sessionQueue) : sessionQueue * nat :=
  match sessions s !! sessionKey with
  | Some id => (on_slot id (λ sl, set_refs (S (refs sl)) sl) s, id)
  | None =>
      let id := length (slots s) in
      (put_sessions (<[sessionKey := id]> (sessions s))
         (new_slot (mkSlot sessionKey [] None 1 Selecting) s), id)
  end.

Definition release (id : nat) (s : sessionQueue) : sessionQueue :=
  match slots s !! id with
  | None => s
  | Some slot =>
      if bool_decide (sessions s !! key slot ≠ Some id) || (refs slot =? 0) then s
      else on_slot id (set_refs (pred (refs slot))) s
  end.

Definition tryDeleteIdle (id : nat) (s : sessionQueue) : sessionQueue * bool :=
  match slots s !! id with
  | None => (s, false)
  | Some slot =>
      if bool_decide (sessions s !! key slot ≠ Some id) || negb (length (queue slot) =? 0) ||
         negb (refs slot =? 0) then (s, false)
      else if bool_decide (activeCancel slot ≠ None) then (s, false)
      else (put_sessions (delete (key slot) (sessions s)) s, true)
  end.

(** One action of the loop of [run].  The check of the request's context, the
    setting and the clearing of [activeCancel] and the reply are separate actions. *)
Inductive run_label :=
| Receive
| FireTimer
| TryDelete
| CheckCtx
| Arm
| Return (res : Res)
| Clear
| Reply.

Definition run_step (id : nat) (l : run_label) (s : sessionQueue) : option sessionQueue :=
  match slots s !! id with
  | None => None
  | Some slot =>
      match l, at_run slot with
      | Receive, Selecting =>
          match queue slot with
          | [] => None
          | r :: rest =>
              Some (log_received (key slot) r
                (on_slot id (λ sl, set_run (Received r) (set_queue rest sl)) s))
          end
      | FireTimer, Selecting => Some (on_slot id (set_run TimerFired) s)
      | TryDelete, TimerFired =>
          let (s', deleted) := tryDeleteIdle id s in
          Some (on_slot id (set_run (if deleted then Exited else Selecting)) s')
      | CheckCtx, Received r =>
          match reqs s !! r with
          | None => None
          | Some q =>
              Some (on_slot id (set_run (if ctx_done q then Replying r CtxErr else Accepted r)) s)
          end
      | Arm, Accepted r => Some (on_slot id (λ sl, set_run (Running r) (set_active (Some r) sl)) s)
      | Return res, Running r => Some (on_slot id (set_run (Finished r res)) s)
      | Clear, Finished r res =>
          Some (on_slot id (λ sl, set_run (Replying r (Returned res)) (set_active None sl)) s)
      | Reply, Replying r o =>
          match reqs s !! r with
          | None => None
          | Some _ => Some (on_slot id (set_run Selecting) (on_req r (set_result o) s))
          end
      | _, _ => None
      end
  end.

(** One action of a call of [enqueue] after [getOrCreate]. *)
Inductive enqueue_label :=
| Send
| GiveUp
| Release
| TakeResult
| Leave.

Definition enqueue_step (r : nat) (l : enqueue_label) (s : sessionQueue) : option sessionQueue :=
  match reqs s !! r with
  | None => None
  | Some q =>
      match l, at_enqueue q with
      | Send, Sending id =>
          match slots s !! id with
          | None => None
          | Some slot =>
              if length (queue slot) <? capacity then
                Some (log_sent (key slot) r (on_req r (set_at (Sent id))
                  (on_slot id (λ sl, set_queue (queue sl ++ [r]) sl) s)))
              else None
          end
      | GiveUp, Sending id => if ctx_done q then Some (on_req r (set_at (GaveUp id)) s) else None
      | Release, Sent id => Some (on_req r (set_at Waiting) (release id s))
      | Release, GaveUp id => Some (on_req r (set_at (Done CtxErr)) (release id s))
      | TakeResult, Waiting =>
          match resultC q with
          | None => None
          | Some o => Some (on_req r (set_at (Done o)) s)
          end
      | Leave, Waiting => if ctx_done q then Some (on_req r (set_at (Done CtxErr)) s) else None
      | _, _ => None
      end
  end.

(** A call of [abort] looks the slot up, reads its cancel function and calls it. *)
Definition abort (sessionKey : string) (s : sessionQueue) : sessionQueue :=
  put_aborts (aborts s ++
    [match sessions s !! sessionKey with
     | None => Answered false
     | Some id => Found sessionKey id
     end]) s.

Definition abort_step (a : nat) (s : sessionQueue) : option sessionQueue :=
  match aborts s !! a with
  | Some (Found k id) =>
      match slots s !! id with
      | None => None
      | Some slot =>
          Some (put_aborts (<[a := match activeCancel slot with
            | None => Answered false
            | Some r => Cancelling k r
            end]> (aborts s)) s)
      end
  | Some (Cancelling k r) =>
      Some (on_req r set_aborted (put_aborts (<[a := Answered true]> (aborts s)) s))
  | _ => None
  end.

Inductive label :=
| Enqueue (sessionKey : string)
| CancelCtx (r : nat)
| Caller (r : nat) (l : enqueue_label)
| Runner (id : nat) (l : run_label)
| Abort_ (sessionKey : string)
| Aborter (a : nat).

Definition step (l : label) (s : sessionQueue) : option sessionQueue :=
  match l with
  | Enqueue k =>
      let (s', id) := getOrCreate k s in
      Some (new_req (mkReq k (Sending id) false false None) s')
  | CancelCtx r => Some (on_req r set_ctx_done s)
  | Caller r l => enqueue_step r l s
  | Runner id l => run_step id l s
  | Abort_ k => Some (abort k s)
  | Aborter a => abort_step a s
  end.

Fixpoint steps (ls : list label) (s : sessionQueue) : option sessionQueue :=
  match ls with
  | [] => Some s
  | l :: ls => match step l s with Some s' => steps ls s' | None => None end
  end.

Definition reachable (s : sessionQueue) : Prop := ∃ ls, steps ls newSessionQueue = Some s.

(** ** Specification *)

(** The request a slot's goroutine has in hand, and how many of its actions are left
    until the reply. *)
Definition in_hand (a : run_at) : option nat :=
  match a with
  | Received r | Accepted r | Running r | Finished r _ | Replying r _ => Some r
  | _ => None
  end.

Definition left_of (a : run_at) : nat :=
  match a with
  | Received _ => 5 | Accepted _ => 4 | Running _ => 3 | Finished _ _ => 2 | Replying _ _ => 1
  | _ => 0
  end.

Definition active_of (a : run_at) : option nat :=
  match a with Running r | Finished r _ => Some r | _ => None end.

(** The slot whose pointer a caller still holds. *)
Definition held (q : queuedRequest) : option nat :=
  match at_enqueue q with Sending id | Sent id | GaveUp id => Some id | _ => None end.

Definition has_sent (q : queuedRequest) : bool :=
  match at_enqueue q with Sending _ | GaveUp _ => false | _ => true end.

Definition of_key (k : string) (log : list (string * nat)) : list nat :=
  snd <$> bfilter (λ p, p.1 =s k)%go log.

Definition queue_of (k : string) (s : sessionQueue) : list nat :=
  match sessions s !! k with
  | Some id => match slots s !! id with Some sl => queue sl | None => [] end
  | None => []
  end.

(** The function of request [r] is running, for session [k]. *)
Definition executing (s : sessionQueue) (k : string) (r : nat) : Prop :=
  ∃ id sl, slots s !! id = Some sl ∧ key sl = k ∧ at_run sl = Running r.

Definition answered (s : sessionQueue) (r : nat) : Prop :=
  ∃ q, reqs s !! r = Some q ∧ resultC q ≠ None.

(** An action that takes the request in hand further. *)
Definition handles (id : nat) (l : label) : bool :=
  match l with
  | Runner id' l =>
      bool_decide (id' = id) && match l with FireTimer | TryDelete => false | _ => true end
  | _ => false
  end.

Definition runs (id : nat) (l : label) : bool :=
  match l with Runner id' _ => bool_decide (id' = id) | _ => false end.

(** Request [r] is answered after [n] more such actions of slot [id]. *)
Definition pending_at (s : sessionQueue) (r id n : nat) : Prop :=
  ∃ sl, slots s !! id = Some sl ∧
    ((in_hand (at_run sl) = Some r ∧ n = left_of (at_run sl)) ∨
     ∃ q1 q2, queue sl = q1 ++ r :: q2 ∧ n = left_of (at_run sl) + 6 * S (length q1)).

(** ** Invariants *)

Definition holders (id : nat) (rs : list queuedRequest) : nat :=
  length (bfilter (λ q, bool_decide (held q = Some id)) rs).

Definition slot_ok (ss : gmap string nat) (rs : list queuedRequest) (id : nat) (sl : sessionSlot) : Prop :=
  refs sl = holders id rs ∧ activeCancel sl = active_of (at_run sl) ∧
  (at_run sl = Exited → queue sl = [] ∧ refs sl = 0) ∧
  (at_run sl ≠ Exited ↔ ss !! key sl = Some id).

Definition slots_inv (s : sessionQueue) : Prop :=
  (∀ id sl, slots s !! id = Some sl → slot_ok (sessions s) (reqs s) id sl) ∧
  (∀ k id, sessions s !! k = Some id → ∃ sl, slots s !! id = Some sl ∧ key sl = k) ∧
  (∀ r q id, reqs s !! r = Some q → held q = Some id →
     ∃ sl, slots s !! id = Some sl ∧ key sl = req_key q).

Definition log_inv (s : sessionQueue) : Prop :=
  (∀ k, of_key k (sent s) = of_key k (received s) ++ queue_of k s) ∧
  NoDup (snd <$> sent s) ∧
  (∀ k r, (k, r) ∈ sent s → ∃ q, reqs s !! r = Some q ∧ req_key q = k ∧ has_sent q = true) ∧
  (∀ k r, (k, r) ∈ received s → answered s r ∨
     ∃ id sl, slots s !! id = Some sl ∧ in_hand (at_run sl) = Some r) ∧
  (∀ id sl r, slots s !! id = Some sl → in_hand (at_run sl) = Some r → (key sl, r) ∈ received s).

(** *** Counting the holders of a slot *)

Lemma holders_alter id f r rs q :
  rs !! r = Some q →
  holders id (alter f r rs) + (if bool_decide (held q = Some id) then 1 else 0) =
  holders id rs + (if bool_decide (held (f q) = Some id) then 1 else 0).
Proof.
  revert r. unfold holders. induction rs as [|x rs IH]; intros [|r]; simpl; try done.
  - intros [= ->]. do 2 case_bool_decide; simpl; lia.
  - intros Hr. specialize (IH r Hr). unfold alter in IH.
    destruct (bool_decide (held x = Some id)); simpl; lia.
Qed.

Lemma holders_same id f r rs :
  (∀ q, rs !! r = Some q → held (f q) = held q) → holders id (alter f r rs) = holders id rs.
Proof.
  intros Hf. destruct (rs !! r) as [q|] eqn:E.
  - pose proof (holders_alter id f r rs q E) as H. rewrite Hf in H by done. lia.
  - assert (alter f r rs = rs) as ->; [|done]. apply list_eq. intros i.
    destruct (decide (i = r)) as [->|].
    + by rewrite list_lookup_alter_eq, E.
    + by rewrite list_lookup_alter_ne.
Qed.

Lemma holders_pos id r rs q : rs !! r = Some q → held q = Some id → 0 < holders id rs.
Proof.
  intros Hr Hq. unfold holders.
  assert (q ∈ bfilter (λ q, bool_decide (held q = Some id)) rs) as Hin.
  { apply elem_of_bfilter. split; [by eapply list_elem_of_lookup_2|by apply bool_decide_eq_true]. }
  destruct (bfilter _ rs); [by apply elem_of_nil in Hin|simpl; lia].
Qed.

(** *** The slots invariant *)

Lemma alter_elem {A} (f : A → A) i j (l : list A) y :
  alter f i l !! j = Some y →
  ∃ x, l !! j = Some x ∧ y = if bool_decide (i = j) then f x else x.
Proof.
  case_bool_decide; subst.
  - rewrite list_lookup_alter_eq. intros (x & -> & ->)%fmap_Some. eauto.
  - rewrite list_lookup_alter_ne by done. eauto.
Qed.

Lemma slots_inv_on_slot id f s :
  slots_inv s →
  (∀ sl, slots s !! id = Some sl → key (f sl) = key sl ∧ slot_ok (sessions s) (reqs s) id (f sl)) →
  slots_inv (on_slot id f s).
Proof.
  intros (H1 & H2 & H3) Hf.
  assert (∀ i sl, slots s !! i = Some sl → ∃ sl', alter f id (slots s) !! i = Some sl' ∧ key sl' = key sl) as Hk.
  { intros i sl Hi. destruct (decide (id = i)) as [->|].
    - rewrite list_lookup_alter_eq, Hi. eexists. split; [done|]. by apply Hf.
    - rewrite list_lookup_alter_ne by done. eauto. }
  split; [|split]; simpl.
  - intros i sl (x & Hx & ->)%alter_elem. case_bool_decide; subst; [by apply Hf|by apply H1].
  - intros k i Hi. destruct (H2 k i Hi) as (sl & Hsl & <-). apply (Hk i sl Hsl).
  - intros r q i Hr Hq. destruct (H3 r q i Hr Hq) as (sl & Hsl & <-). apply (Hk i sl Hsl).
Qed.

Lemma slots_inv_on_req r f s :
  slots_inv s → (∀ q, reqs s !! r = Some q → req_key (f q) = req_key q ∧ held (f q) = held q) →
  slots_inv (on_req r f s).
Proof.
  intros (H1 & H2 & H3) Hf. split; [|split]; simpl; [|done|].
  - intros i sl Hi. unfold slot_ok. rewrite holders_same by (intros q Hq; by apply Hf). by apply H1.
  - intros r' q i (q' & Hr & ->)%alter_elem.
    case_bool_decide; subst; [|by eapply H3]. destruct (Hf q' Hr) as [-> ->]. by eapply H3.
Qed.

(** A caller that still holds the pointer has a live slot. *)
Lemma held_slot r q id s :
  slots_inv s → reqs s !! r = Some q → held q = Some id →
  ∃ sl, slots s !! id = Some sl ∧ key sl = req_key q ∧ 0 < refs sl ∧ at_run sl ≠ Exited ∧
    sessions s !! key sl = Some id.
Proof.
  intros (H1 & H2 & H3) Hr Hq. destruct (H3 r q id Hr Hq) as (sl & Hsl & Hk).
  destruct (H1 id sl Hsl) as (Hrefs & _ & Hex & Hlive).
  pose proof (holders_pos id r _ q Hr Hq).
  assert (at_run sl ≠ Exited) as Hne; [intros [_ ?]%Hex; lia|].
  exists sl. split; [done|]. split; [done|]. split; [lia|]. split; [done|]. by apply Hlive.
Qed.

Lemma slots_inv_release r q id v s :
  slots_inv s → reqs s !! r = Some q → held q = Some id → held (set_at v q) = None →
  slots_inv (on_req r (set_at v) (release id s)).
Proof.
  intros Hi Hr Hq Hv. destruct (held_slot r q id s Hi Hr Hq) as (sl & Hsl & Hk & Hpos & Hlv & Hss).
  destruct Hi as (H1 & H2 & H3). unfold release. rewrite Hsl, bool_decide_false by (intros Hn; by apply Hn).
  destruct (refs sl =? 0) eqn:E; [apply Nat.eqb_eq in E; lia|]. simpl.
  split; [|split]; simpl.
  - intros i x (y & Hy & ->)%alter_elem. pose proof (holders_alter i (set_at v) r (reqs s) q Hr) as Hc.
    rewrite Hq, Hv in Hc. destruct (H1 i y Hy) as (E1 & E2 & E3 & E4).
    destruct (decide (id = i)) as [->|Hne].
    + assert (y = sl) as -> by congruence. rewrite !bool_decide_true in * by done.
      rewrite bool_decide_false in Hc by done. unfold slot_ok. simpl. split; [lia|]. split; [done|]. split; [|done].
      intros [? ->]%E3. done.
    + rewrite !bool_decide_false in * by congruence.
      unfold slot_ok. split; [lia|done].
  - intros k i Hki. destruct (H2 k i Hki) as (y & Hy & <-). destruct (decide (id = i)) as [->|].
    + rewrite list_lookup_alter_eq, Hy. simpl. eauto.
    + rewrite list_lookup_alter_ne by done. eauto.
  - intros r' q' i (x & Hx & ->)%alter_elem. case_bool_decide; subst.
    + assert (x = q) as -> by congruence. by rewrite Hv.
    + intros Hh. destruct (H3 r' x i Hx Hh) as (y & Hy & <-). destruct (decide (id = i)) as [->|].
      * rewrite list_lookup_alter_eq, Hy. simpl. eauto.
      * rewrite list_lookup_alter_ne by done. eauto.
Qed.

Lemma slots_inv_getOrCreate k q s s' id :
  slots_inv s → getOrCreate k s = (s', id) → req_key q = k → held q = Some id →
  slots_inv (new_req q s').
Proof.
  intros (H1 & H2 & H3) E Hqk Hq. unfold getOrCreate in E.
  assert (∀ i, holders i (reqs s ++ [q]) = holders i (reqs s) + (if bool_decide (id = i) then 1 else 0)) as Hh.
  { intros i. unfold holders. rewrite bfilter_app, length_app. simpl. rewrite Hq.
    rewrite (bool_decide_ext (Some id = Some i) (id = i)) by naive_solver. by case_bool_decide. }
  destruct (sessions s !! k) as [i0|] eqn:Ek; injection E as <- <-.
  - destruct (H2 k i0 Ek) as (sl & Hsl & Hk). split; [|split]; simpl.
    + intros i x (y & Hy & ->)%alter_elem. destruct (H1 i y Hy) as (E1 & E2 & E3 & E4).
      specialize (Hh i). case_bool_decide; subst; unfold slot_ok; simpl; rewrite Hh.
      * assert (y = sl) as -> by congruence. split; [lia|]. split; [done|]. split; [|done].
        intros Hex. exfalso. apply E4 in Hex; [done|]. congruence.
      * split; [lia|done].
    + intros k' i Hi. destruct (H2 k' i Hi) as (y & Hy & <-). destruct (decide (i0 = i)) as [->|].
      * rewrite list_lookup_alter_eq, Hy. simpl. eauto.
      * rewrite list_lookup_alter_ne by done. eauto.
    + intros r q' i Hr Hq'.
      assert (∃ y, slots s !! i = Some y ∧ key y = req_key q') as (y & Hy & <-).
      { apply lookup_app_Some in Hr as [Hr|[_ Hr]]; [by eapply H3|].
        apply list_lookup_singleton_Some in Hr as [_ ->].
        assert (i = i0) as -> by congruence. exists sl. by rewrite Hqk. }
      destruct (decide (i0 = i)) as [->|].
      * rewrite list_lookup_alter_eq, Hy. simpl. eauto.
      * rewrite list_lookup_alter_ne by done. eauto.
  - split; [|split]; simpl.
    + intros i x [Hx|[Hi Hx]]%lookup_app_Some.
      * destruct (H1 i x Hx) as (E1 & E2 & E3 & E4). pose proof (lookup_lt_Some _ _ _ Hx).
        specialize (Hh i). rewrite bool_decide_false in Hh by lia.
        unfold slot_ok. rewrite Hh. split; [lia|]. split; [done|]. split; [done|].
        rewrite E4. destruct (decide (key x = k)) as [->|].
        -- rewrite Ek, lookup_insert_eq. split; [done|]. intros [= ?]. lia.
        -- by rewrite lookup_insert_ne.
      * apply list_lookup_singleton_Some in Hx as [Hi0 <-].
        assert (i = length (slots s)) as -> by lia. unfold slot_ok. simpl.
        rewrite Hh, bool_decide_true by done. split; [|split; [done|split; [done|]]].
        -- assert (holders (length (slots s)) (reqs s) = 0) as ->; [|done].
           unfold holders. rewrite bfilter_none; [done|]. intros y Hy.
           apply bool_decide_eq_false. intros Hhy. apply list_elem_of_lookup in Hy as [r Hr].
           destruct (H3 r y _ Hr Hhy) as (z & Hz & _). apply lookup_lt_Some in Hz. lia.
        -- rewrite lookup_insert_eq. done.
    + intros k' i Hi. destruct (decide (k' = k)) as [->|].
      * rewrite lookup_insert_eq in Hi. injection Hi as <-.
        rewrite lookup_app_r, Nat.sub_diag by done. simpl. eauto.
      * rewrite lookup_insert_ne in Hi by done. destruct (H2 k' i Hi) as (y & Hy & <-).
        exists y. split; [|done]. by apply lookup_app_l_Some.
    + intros r q' i Hr Hq'. apply lookup_app_Some in Hr as [Hr|[_ Hr]].
      * destruct (H3 r q' i Hr Hq') as (y & Hy & <-). exists y. split; [|done].
        by apply lookup_app_l_Some.
      * apply list_lookup_singleton_Some in Hr as [_ ->].
        assert (i = length (slots s)) as -> by congruence.
        rewrite lookup_app_r, Nat.sub_diag by done. simpl. eauto.
Qed.

Lemma slots_inv_delete id s sl :
  slots_inv s → slots s !! id = Some sl → at_run sl = TimerFired →
  slots_inv (on_slot id (set_run (if (tryDeleteIdle id s).2 then Exited else Selecting))
    (tryDeleteIdle id s).1).
Proof.
  intros Hi Hsl Hat. pose proof Hi as (H1 & H2 & H3). unfold tryDeleteIdle. rewrite Hsl.
  destruct (H1 id sl Hsl) as (E1 & E2 & E3 & E4). rewrite Hat in E2, E4. simpl in E2.
  assert (slots_inv (on_slot id (set_run Selecting) s)) as Hstay.
  { apply slots_inv_on_slot; [done|]. intros x Hx. assert (x = sl) as -> by congruence.
    split; [done|]. unfold slot_ok. simpl. split; [done|]. split; [by rewrite E2|]. split; [done|].
    rewrite <-E4. done. }
  destruct (bool_decide _ || _ || _) eqn:Eg; [exact Hstay|].
  rewrite E2, bool_decide_false by (intros Hn; by apply Hn). simpl.
  apply orb_false_iff in Eg as [[Es Eq]%orb_false_iff Er]. apply bool_decide_eq_false in Es.
  apply negb_false_iff, Nat.eqb_eq in Eq, Er. apply nil_length_inv in Eq.
  assert (sessions s !! key sl = Some id) as Hs by (destruct (decide (sessions s !! key sl = Some id)); tauto).
  split; [|split]; simpl.
  - intros i x (y & Hy & ->)%alter_elem. destruct (H1 i y Hy) as (F1 & F2 & F3 & F4).
    case_bool_decide; subst; unfold slot_ok; simpl.
    + assert (y = sl) as -> by congruence. split; [done|]. split; [done|]. split; [done|].
      rewrite lookup_delete_eq. done.
    + split; [done|]. split; [done|]. split; [done|]. rewrite F4.
      destruct (decide (key y = key sl)) as [Hk|].
      * rewrite Hk, lookup_delete_eq, Hs. split; [intros [= ?]; done|done].
      * by rewrite lookup_delete_ne.
  - intros k i Hk. apply lookup_delete_Some in Hk as [Hne Hk].
    destruct (H2 k i Hk) as (y & Hy & <-). destruct (decide (id = i)) as [->|].
    + rewrite list_lookup_alter_eq, Hy. simpl. eauto.
    + rewrite list_lookup_alter_ne by done. eauto.
  - intros r q i Hr Hq. destruct (H3 r q i Hr Hq) as (y & Hy & <-). destruct (decide (id = i)) as [->|].
    + rewrite list_lookup_alter_eq, Hy. simpl. eauto.
    + rewrite list_lookup_alter_ne by done. eauto.
Qed.

Lemma slots_inv_run id l s s' : slots_inv s → run_step id l s = Some s' → slots_inv s'.
Proof.
  intros Hi E. unfold run_step in E. destruct (slots s !! id) as [sl|] eqn:Hsl; [|done].
  destruct (proj1 Hi id sl Hsl) as (E1 & E2 & E3 & E4).
  assert (∀ f, key (f sl) = key sl → refs (f sl) = refs sl →
    activeCancel (f sl) = active_of (at_run (f sl)) →
    at_run sl ≠ Exited → at_run (f sl) ≠ Exited → slots_inv (on_slot id f s)) as Hon.
  { intros f Hk Hr Ha Hne Hne'. apply slots_inv_on_slot; [done|]. intros x Hx.
    assert (x = sl) as -> by congruence. split; [done|]. unfold slot_ok. rewrite Hk, Hr.
    split; [done|]. split; [done|]. split; [done|]. rewrite <-E4. done. }
  destruct l, (at_run sl) eqn:Hat; simplify_eq; simpl in E2.
  - destruct (queue sl) as [|r rest]; simplify_eq. by apply Hon.
  - by apply Hon.
  - pose proof (slots_inv_delete id s sl Hi Hsl Hat) as Hd.
    destruct (tryDeleteIdle id s) as [s1 b]; simplify_eq. exact Hd.
  - destruct (reqs s !! r); simplify_eq. apply Hon; simpl; try done; by destruct (ctx_done _).
  - by apply Hon.
  - by apply Hon.
  - by apply Hon.
  - destruct (reqs s !! r) eqn:Hr; simplify_eq.
    apply (slots_inv_on_req r (set_result o) (on_slot id (set_run Selecting) s)); [by apply Hon|done].
Qed.

Lemma slots_inv_caller r l s s' : slots_inv s → enqueue_step r l s = Some s' → slots_inv s'.
Proof.
  intros Hi E. unfold enqueue_step in E. destruct (reqs s !! r) as [q|] eqn:Hr; [|done].
  assert (∀ v s0, slots_inv s0 → reqs s0 = reqs s → held (set_at v q) = held q →
    slots_inv (on_req r (set_at v) s0)) as Hon.
  { intros v s0 Hi0 He Hv. apply slots_inv_on_req; [done|]. rewrite He. intros x Hx.
    by assert (x = q) as -> by congruence. }
  destruct l, (at_enqueue q) eqn:Hat; simplify_eq.
  - destruct (slots s !! id) as [sl|] eqn:Hsl; [|done]. destruct (_ <? _); simplify_eq.
    assert (slots_inv (on_slot id (λ sl, set_queue (queue sl ++ [r]) sl) s)) as Hq.
    { apply slots_inv_on_slot; [done|]. intros x Hx. split; [done|].
      destruct (proj1 Hi id x Hx) as (E1 & E2 & E3 & E4). unfold slot_ok. simpl.
      split; [done|]. split; [done|]. split; [|done]. intros Hex. exfalso.
      destruct (held_slot r q id s Hi Hr) as (y & Hy & _ & _ & Hne & _); [by unfold held; rewrite Hat|].
      congruence. }
    apply (Hon (Sent id) _ Hq); [done|]. unfold held. by rewrite Hat.
  - destruct (ctx_done q); simplify_eq. apply Hon; [done..|]. unfold held. by rewrite Hat.
  - apply (slots_inv_release r q); try done. unfold held. by rewrite Hat.
  - apply (slots_inv_release r q); try done. unfold held. by rewrite Hat.
  - destruct (resultC q); simplify_eq. apply Hon; [done..|]. unfold held. by rewrite Hat.
  - destruct (ctx_done q); simplify_eq. apply Hon; [done..|]. unfold held. by rewrite Hat.
Qed.

Lemma slots_inv_step l s s' : slots_inv s → step l s = Some s' → slots_inv s'.
Proof.
  intros Hi E. destruct l; cbn [step] in E.
  - destruct (getOrCreate sessionKey s) as [s1 id] eqn:Eg. simplify_eq.
    by eapply slots_inv_getOrCreate.
  - simplify_eq. by apply slots_inv_on_req.
  - by eapply slots_inv_caller.
  - by eapply slots_inv_run.
  - by simplify_eq.
  - unfold abort_step in E. repeat (case_match; simplify_eq);
      first [exact Hi|by apply (slots_inv_on_req r set_aborted (put_aborts _ s))].
Qed.

Lemma reachable_ind_steps (P : sessionQueue → Prop) :
  P newSessionQueue → (∀ l s s', P s → step l s = Some s' → P s') → ∀ s, reachable s → P s.
Proof.
  intros H0 Hs s [ls Hls].
  enough (∀ s0, P s0 → steps ls s0 = Some s → P s) by eauto.
  clear Hls. induction ls as [|l ls IH]; simpl; intros s0 H E; simplify_eq; [done|].
  destruct (step l s0) as [s1|] eqn:E1; [|done]. eauto.
Qed.

(** *** The log invariant *)

Lemma of_key_snoc k k' r log :
  of_key k (log ++ [(k', r)]) = of_key k log ++ (if (k' =s k)%go then [r] else []).
Proof.
  unfold of_key. rewrite bfilter_app, fmap_app. simpl. by destruct (String.eqb k' k).
Qed.

Lemma elem_of_of_key k r log : r ∈ of_key k log ↔ (k, r) ∈ log.
Proof.
  unfold of_key. rewrite list_elem_of_fmap. split.
  - intros ([k' r'] & -> & [Hin Hk]%elem_of_bfilter). simpl in *. by apply eqb_eq_str in Hk as ->.
  - intros Hin. exists (k, r). split; [done|]. apply elem_of_bfilter. simpl. by rewrite eqb_refl_str.
Qed.

Lemma received_sent k r s : log_inv s → (k, r) ∈ received s → (k, r) ∈ sent s.
Proof.
  intros (H1 & _) Hin. apply elem_of_of_key. rewrite H1. apply elem_of_app. left.
  by apply elem_of_of_key.
Qed.

(** The queue of a slot holds what its session has sent and not received. *)
Lemma queue_live id sl s :
  slots_inv s → slots s !! id = Some sl → at_run sl ≠ Exited → queue_of (key sl) s = queue sl.
Proof.
  intros (H1 & _) Hsl Hne. destruct (H1 id sl Hsl) as (_ & _ & _ & Hl).
  unfold queue_of. by rewrite (proj1 Hl Hne), Hsl.
Qed.

(** What an action leaves of the logs: one slot changes, keeping its queue. *)
Lemma queue_of_on_slot k id f s :
  (∀ sl, slots s !! id = Some sl → queue (f sl) = queue sl) →
  queue_of k (on_slot id f s) = queue_of k s.
Proof.
  intros Hf. unfold queue_of. simpl. destruct (sessions s !! k) as [i|]; [|done].
  rewrite list_lookup_alter. case_decide; [|done]. subst i.
  destruct (slots s !! id) as [sl|]; [|done]. by apply Hf.
Qed.

(** The parts of the log invariant that look at requests and slots survive an action
    that loses no answer, moves no request back before its send, and keeps in hand or
    answers what was in hand. *)
Lemma log_inv_same s s' :
  log_inv s → sent s' = sent s → received s' = received s →
  (∀ k, queue_of k s' = queue_of k s) →
  (∀ r q, reqs s !! r = Some q → ∃ q', reqs s' !! r = Some q' ∧ req_key q' = req_key q ∧
     (has_sent q = true → has_sent q' = true) ∧ (resultC q ≠ None → resultC q' ≠ None)) →
  (∀ id sl r, slots s !! id = Some sl → in_hand (at_run sl) = Some r → answered s' r ∨
     ∃ id sl, slots s' !! id = Some sl ∧ in_hand (at_run sl) = Some r) →
  (∀ id sl r, slots s' !! id = Some sl → in_hand (at_run sl) = Some r →
     ∃ sl', slots s !! id = Some sl' ∧ key sl' = key sl ∧ in_hand (at_run sl') = Some r) →
  log_inv s'.
Proof.
  intros (H1 & H2 & H3 & H4 & H5) Es Er Hq Hreq Hfwd Hback. unfold log_inv. rewrite Es, Er.
  split; [|split; [done|split; [|split]]].
  - intros k. by rewrite Hq.
  - intros k r Hin. destruct (H3 k r Hin) as (q & Hr & <- & Hs).
    destruct (Hreq r q Hr) as (q' & ? & ? & ? & _). exists q'. auto.
  - intros k r Hin. destruct (H4 k r Hin) as [(q & Hr & Ha)|(id & sl & Hsl & Hh)]; [|by eapply Hfwd].
    left. destruct (Hreq r q Hr) as (q' & ? & _ & _ & ?). exists q'. auto.
  - intros id sl r Hsl Hh. destruct (Hback id sl r Hsl Hh) as (x & Hx & <- & Hh'). by eapply H5.
Qed.

Lemma answered_on_slot id f s r : answered (on_slot id f s) r ↔ answered s r.
Proof. done. Qed.

Lemma log_inv_on_slot id f s :
  log_inv s →
  (∀ sl, slots s !! id = Some sl → key (f sl) = key sl ∧ queue (f sl) = queue sl ∧
     in_hand (at_run (f sl)) = in_hand (at_run sl)) →
  log_inv (on_slot id f s).
Proof.
  intros Hl Hf. apply (log_inv_same s); [done..| | | |].
  - intros k. apply queue_of_on_slot. intros sl Hsl. by destruct (Hf sl Hsl) as (_ & ? & _).
  - eauto.
  - intros i sl r Hsl Hh. right. exists i. simpl. destruct (decide (id = i)) as [->|].
    + rewrite list_lookup_alter_eq, Hsl. eexists. split; [done|].
      destruct (Hf sl Hsl) as (_ & _ & ->). done.
    + rewrite list_lookup_alter_ne by done. eauto.
  - intros i sl r (x & Hx & ->)%alter_elem Hh. exists x. split; [done|].
    case_bool_decide; subst; [|done]. destruct (Hf x Hx) as (-> & _ & <-). done.
Qed.

Lemma log_inv_on_req r g s :
  log_inv s →
  (∀ q, reqs s !! r = Some q → req_key (g q) = req_key q ∧
     (has_sent q = true → has_sent (g q) = true) ∧ (resultC q ≠ None → resultC (g q) ≠ None)) →
  log_inv (on_req r g s).
Proof.
  intros Hl Hg. apply (log_inv_same s); try done.
  - intros i q Hi. simpl. destruct (decide (r = i)) as [->|].
    + rewrite list_lookup_alter_eq, Hi. eexists. split; [done|]. by apply Hg.
    + rewrite list_lookup_alter_ne by done. eauto.
  - intros id sl r' Hsl Hh. right. eauto.
  - eauto.
Qed.

Lemma log_inv_new_req q s : log_inv s → log_inv (new_req q s).
Proof.
  intros Hl. apply (log_inv_same s); try done.
  - intros i x Hi. exists x. split; [by apply lookup_app_l_Some|done].
  - intros id sl r' Hsl Hh. right. eauto.
  - eauto.
Qed.

Lemma log_inv_getOrCreate k s : slots_inv s → log_inv s → log_inv (getOrCreate k s).1.
Proof.
  intros Hi Hl. unfold getOrCreate. destruct (sessions s !! k) as [id|] eqn:Ek; [by apply log_inv_on_slot|].
  destruct Hi as (_ & H2 & _). apply (log_inv_same s); try done; simpl.
  - intros k'. unfold queue_of. simpl. destruct (decide (k' = k)) as [->|].
    + rewrite lookup_insert_eq, Ek, lookup_app_r, Nat.sub_diag by done. done.
    + rewrite lookup_insert_ne by done. destruct (sessions s !! k') as [i|] eqn:Ei; [|done].
      destruct (H2 k' i Ei) as (sl & Hsl & _). rewrite Hsl. by rewrite (lookup_app_l_Some _ _ _ _ Hsl).
  - eauto.
  - intros id sl r Hsl Hh. right. exists id, sl. split; [by apply lookup_app_l_Some|done].
  - intros id sl r [Hsl|[_ Hsl]]%lookup_app_Some Hh; [eauto|].
    apply list_lookup_singleton_Some in Hsl as [_ <-]. done.
Qed.

Lemma log_inv_delete id sl s :
  slots_inv s → log_inv s → slots s !! id = Some sl → at_run sl = TimerFired →
  log_inv (on_slot id (set_run (if (tryDeleteIdle id s).2 then Exited else Selecting))
    (tryDeleteIdle id s).1).
Proof.
  intros Hi Hl Hsl Hat.
  assert (∀ v ss, in_hand v = None → (∀ k, queue_of k (put_sessions ss s) = queue_of k s) →
    log_inv (on_slot id (set_run v) (put_sessions ss s))) as Hon.
  { intros v ss Hv Hq. apply log_inv_on_slot.
    - apply (log_inv_same s); try done; [eauto|eauto|eauto].
    - simpl. intros x Hx. assert (x = sl) as -> by congruence. rewrite Hat. by rewrite Hv. }
  unfold tryDeleteIdle. rewrite Hsl. destruct (bool_decide _ || _ || _) eqn:Eg.
  { apply log_inv_on_slot; [done|]. simpl. intros x Hx. assert (x = sl) as -> by congruence.
    by rewrite Hat. }
  destruct (bool_decide (activeCancel sl ≠ None)); simpl.
  { apply log_inv_on_slot; [done|]. simpl. intros x Hx. assert (x = sl) as -> by congruence.
    by rewrite Hat. }
  apply Hon; [done|]. intros k. unfold queue_of. simpl.
  apply orb_false_iff in Eg as [[Es%bool_decide_eq_false Eq]%orb_false_iff _].
  apply negb_false_iff, Nat.eqb_eq, nil_length_inv in Eq.
  destruct (decide (k = key sl)) as [->|]; [|by rewrite lookup_delete_ne].
  rewrite lookup_delete_eq. destruct (decide (sessions s !! key sl = Some id)) as [E|]; [|done].
  by rewrite E, Hsl.
Qed.

Lemma log_inv_receive id sl r rest s :
  slots_inv s → log_inv s → slots s !! id = Some sl → at_run sl = Selecting → queue sl = r :: rest →
  log_inv (log_received (key sl) r (on_slot id (λ sl, set_run (Received r) (set_queue rest sl)) s)).
Proof.
  intros Hi Hl Hsl Hat Hqu. pose proof Hl as (H1 & H2 & H3 & H4 & H5).
  destruct (proj1 Hi id sl Hsl) as (_ & _ & _ & Hlive).
  assert (sessions s !! key sl = Some id) as Hk by (apply Hlive; by rewrite Hat).
  split; [|split; [done|split; [done|split]]]; simpl.
  - intros k. rewrite of_key_snoc, H1. unfold queue_of. simpl.
    destruct (key sl =s k)%go eqn:E; reflect_bools.
    + subst k. rewrite Hk, Hsl, list_lookup_alter_eq, Hsl, Hqu. simpl. by rewrite <-(assoc_L (++)).
    + rewrite app_nil_r. f_equal. destruct (sessions s !! k) as [i|] eqn:Ei; [|done].
      destruct (decide (id = i)) as [->|]; [|by rewrite list_lookup_alter_ne].
      destruct (proj1 (proj2 Hi) k i Ei) as (x & Hx & <-). congruence.
  - intros k r' [Hin|Hin]%elem_of_app.
    + destruct (H4 k r' Hin) as [?|(i & x & Hx & Hh)]; [by left|]. right. exists i, x.
      split; [|done]. rewrite list_lookup_alter_ne; [done|]. intros ->.
      assert (x = sl) as -> by congruence. by rewrite Hat in Hh.
    + apply list_elem_of_singleton in Hin. injection Hin as -> ->. right.
      exists id. rewrite list_lookup_alter_eq, Hsl. by eexists.
  - intros i x r' (y & Hy & ->)%alter_elem Hh. case_bool_decide; subst; simpl in *.
    + injection Hh as <-. apply elem_of_app. right. assert (y = sl) as -> by congruence. by left.
    + apply elem_of_app. left. eauto.
Qed.

Lemma log_inv_send r id q sl s :
  slots_inv s → log_inv s → reqs s !! r = Some q → at_enqueue q = Sending id →
  slots s !! id = Some sl →
  log_inv (log_sent (key sl) r (on_req r (set_at (Sent id))
    (on_slot id (λ sl, set_queue (queue sl ++ [r]) sl) s))).
Proof.
  intros Hi Hl Hr Hat Hsl. pose proof Hl as (H1 & H2 & H3 & H4 & H5).
  destruct (held_slot r q id s Hi Hr) as (x & Hx & Hkey & _ & _ & Hk); [by unfold held; rewrite Hat|].
  assert (x = sl) as -> by congruence.
  assert (∀ k, (k, r) ∉ sent s) as Hnew.
  { intros k Hin. destruct (H3 k r Hin) as (q' & Hr' & _ & Hs). assert (q' = q) as -> by congruence.
    unfold has_sent in Hs. by rewrite Hat in Hs. }
  split; [|split; [|split; [|split]]]; simpl.
  - intros k. rewrite of_key_snoc, H1, <-(assoc_L (++)). f_equal. unfold queue_of. simpl.
    destruct (key sl =s k)%go eqn:E; reflect_bools.
    + subst k. by rewrite Hk, Hsl, list_lookup_alter_eq, Hsl.
    + rewrite app_nil_r. destruct (sessions s !! k) as [i|] eqn:Ei; [|done].
      destruct (decide (id = i)) as [->|]; [|by rewrite list_lookup_alter_ne].
      destruct (proj1 (proj2 Hi) k i Ei) as (y & Hy & <-). congruence.
  - rewrite fmap_app. apply NoDup_app. split; [done|]. split; [|apply NoDup_singleton].
    intros i Hin ->%list_elem_of_singleton. apply list_elem_of_fmap in Hin as ([k' r'] & Hrr & Hin).
    simpl in Hrr. subst r'. by apply Hnew in Hin.
  - intros k r' [Hin|Hin]%elem_of_app.
    + destruct (H3 k r' Hin) as (q' & Hq' & ? & ?). exists q'. split; [|done].
      rewrite list_lookup_alter_ne; [done|]. intros <-. by apply Hnew in Hin.
    + apply list_elem_of_singleton in Hin. injection Hin as -> ->.
      rewrite list_lookup_alter_eq, Hr. by eexists.
  - intros k r' Hin. destruct (H4 k r' Hin) as [(q' & Hq' & Ha)|(i & y & Hy & Hh)].
    + left. exists q'. split; [|done]. simpl. rewrite list_lookup_alter_ne; [done|]. intros <-.
      apply (received_sent k r s Hl) in Hin. by apply Hnew in Hin.
    + right. exists i. destruct (decide (id = i)) as [->|].
      * rewrite list_lookup_alter_eq, Hy. by eexists.
      * rewrite list_lookup_alter_ne by done. eauto.
  - intros i x r' (y & Hy & ->)%alter_elem Hh. case_bool_decide; subst; simpl in *; by eapply H5.
Qed.

Lemma log_inv_reply id sl r o q s :
  log_inv s → slots s !! id = Some sl → at_run sl = Replying r o → reqs s !! r = Some q →
  log_inv (on_slot id (set_run Selecting) (on_req r (set_result o) s)).
Proof.
  intros Hl Hsl Hat Hr. apply (log_inv_same s); try done.
  - intros k. apply (queue_of_on_slot k id (set_run Selecting) (on_req r _ s)). done.
  - intros i x Hi. simpl. destruct (decide (r = i)) as [->|].
    + rewrite list_lookup_alter_eq, Hi. by eexists.
    + rewrite list_lookup_alter_ne by done. eauto.
  - intros i x r' Hx Hh. simpl. destruct (decide (id = i)) as [->|].
    + left. assert (x = sl) as -> by congruence. rewrite Hat in Hh. injection Hh as <-.
      unfold answered. simpl. rewrite list_lookup_alter_eq, Hr. by eexists.
    + right. exists i. rewrite list_lookup_alter_ne by done. eauto.
  - simpl. intros i x r' (y & Hy & ->)%alter_elem Hh. case_bool_decide; [done|]. eauto.
Qed.

Lemma log_inv_run id l s s' : slots_inv s → log_inv s → run_step id l s = Some s' → log_inv s'.
Proof.
  intros Hi Hl E. unfold run_step in E. destruct (slots s !! id) as [sl|] eqn:Hsl; [|done].
  assert (∀ f, key (f sl) = key sl → queue (f sl) = queue sl →
    in_hand (at_run (f sl)) = in_hand (at_run sl) → log_inv (on_slot id f s)) as Hon.
  { intros f Hk Hq Hh. apply log_inv_on_slot; [done|]. intros x Hx.
    by assert (x = sl) as -> by congruence. }
  destruct l, (at_run sl) eqn:Hat; simplify_eq.
  - destruct (queue sl) as [|r rest] eqn:Hq; simplify_eq. by apply log_inv_receive.
  - by apply Hon.
  - pose proof (log_inv_delete id sl s Hi Hl Hsl Hat) as Hd.
    destruct (tryDeleteIdle id s) as [s1 b]; simplify_eq. exact Hd.
  - destruct (reqs s !! r); simplify_eq. apply Hon; simpl; try done; by destruct (ctx_done _).
  - by apply Hon.
  - by apply Hon.
  - by apply Hon.
  - destruct (reqs s !! r) eqn:Hr; simplify_eq. by eapply log_inv_reply.
Qed.

Lemma log_inv_release id s : log_inv s → log_inv (release id s).
Proof.
  intros Hl. unfold release. destruct (slots s !! id) as [sl|]; [|done].
  destruct (_ || _); [done|]. by apply log_inv_on_slot.
Qed.

Lemma release_reqs id s : reqs (release id s) = reqs s.
Proof. unfold release. repeat case_match; done. Qed.

Lemma log_inv_caller r l s s' : slots_inv s → log_inv s → enqueue_step r l s = Some s' → log_inv s'.
Proof.
  intros Hi Hl E. unfold enqueue_step in E. destruct (reqs s !! r) as [q|] eqn:Hr; [|done].
  assert (∀ v s0, log_inv s0 → reqs s0 = reqs s → (has_sent q = true → has_sent (set_at v q) = true) →
    log_inv (on_req r (set_at v) s0)) as Hon.
  { intros v s0 Hl0 He Hv. apply log_inv_on_req; [done|]. rewrite He. intros x Hx.
    by assert (x = q) as -> by congruence. }
  destruct l, (at_enqueue q) eqn:Hat; simplify_eq.
  - destruct (slots s !! id) as [sl|] eqn:Hsl; [|done]. destruct (_ <? _); simplify_eq.
    by eapply log_inv_send.
  - destruct (ctx_done q); simplify_eq. apply Hon; [done..|]. unfold has_sent. by rewrite Hat.
  - apply Hon; [by apply log_inv_release|by rewrite release_reqs|done].
  - apply Hon; [by apply log_inv_release|by rewrite release_reqs|done].
  - destruct (resultC q); simplify_eq. by apply Hon.
  - destruct (ctx_done q); simplify_eq. by apply Hon.
Qed.

Lemma log_inv_step l s s' : slots_inv s → log_inv s → step l s = Some s' → log_inv s'.
Proof.
  intros Hi Hl E. destruct l; cbn [step] in E.
  - pose proof (log_inv_getOrCreate sessionKey s Hi Hl) as Hg.
    destruct (getOrCreate sessionKey s) as [s1 id]. simplify_eq. by apply log_inv_new_req.
  - simplify_eq. by apply log_inv_on_req.
  - by eapply log_inv_caller.
  - by eapply log_inv_run.
  - by simplify_eq.
  - unfold abort_step in E. repeat (case_match; simplify_eq);
      first [exact Hl|by apply (log_inv_on_req r set_aborted (put_aborts _ s))].
Qed.

Lemma invs_reachable s : reachable s → slots_inv s ∧ log_inv s.
Proof.
  intros Hr. apply (reachable_ind_steps (λ s, slots_inv s ∧ log_inv s)); [|
    intros l s1 s2 [? ?] ?; split; [by eapply slots_inv_step|by eapply log_inv_step]|done].
  split; [done|]. split; [done|]. split; [apply NoDup_nil_2|].
  split; [intros ?? []%elem_of_nil|]. split; [intros ?? []%elem_of_nil|done].
Qed.

(** *** Progress *)

Lemma handles_runs id l : handles id l = true → runs id l = true.
Proof. destruct l; simpl; [done..| |done|done]. by intros [? _]%andb_true_iff. Qed.

(** What the others do to a slot: nothing, or one more request at the end of its queue. *)
Lemma other_step l s s' id sl :
  step l s = Some s' → runs id l = false → slots s !! id = Some sl →
  ∃ sl' q, slots s' !! id = Some sl' ∧ at_run sl' = at_run sl ∧ queue sl' = queue sl ++ q.
Proof.
  intros E Hl Hsl.
  assert (∀ i f, (∀ x, at_run (f x) = at_run x ∧ ∃ q, queue (f x) = queue x ++ q) →
    ∃ sl' q, alter f i (slots s) !! id = Some sl' ∧ at_run sl' = at_run sl ∧ queue sl' = queue sl ++ q) as Hon.
  { intros i f Hf. rewrite list_lookup_alter. case_decide; [subst i; rewrite Hsl; simpl|].
    - destruct (Hf sl) as [? [q ?]]. eauto.
    - rewrite Hsl. exists sl, []. by rewrite app_nil_r. }
  assert (slots s' = slots s → ∃ sl' q, slots s' !! id = Some sl' ∧ at_run sl' = at_run sl ∧
    queue sl' = queue sl ++ q) as Hsame.
  { intros ->. exists sl, []. by rewrite app_nil_r. }
  assert (∀ i sl, at_run (set_refs i sl) = at_run sl ∧ ∃ q, queue (set_refs i sl) = queue sl ++ q) as Hrefs.
  { intros i x. split; [done|]. exists []. by rewrite app_nil_r. }
  assert (∀ i, ∃ sl' q, slots (release i s) !! id = Some sl' ∧ at_run sl' = at_run sl ∧
    queue sl' = queue sl ++ q) as Hrel.
  { intros i. unfold release. repeat case_match; [exists sl, []; by rewrite app_nil_r|by apply Hon|
      exists sl, []; by rewrite app_nil_r]. }
  destruct l; cbn [step] in E.
  - unfold getOrCreate in E. destruct (sessions s !! sessionKey); simplify_eq; [by apply Hon|].
    simpl. exists sl, []. rewrite app_nil_r. split; [by apply lookup_app_l_Some|done].
  - simplify_eq. by apply Hsame.
  - unfold enqueue_step in E. repeat (case_match; simplify_eq); try (by apply Hsame); try apply Hrel.
    simpl. apply Hon. eauto.
  - simpl in Hl. apply bool_decide_eq_false in Hl. unfold run_step, tryDeleteIdle in E.
    repeat (case_match; simplify_eq); simpl; rewrite list_lookup_alter_ne by done;
      exists sl, []; by rewrite app_nil_r.
  - simplify_eq. by apply Hsame.
  - unfold abort_step in E. repeat (case_match; simplify_eq); by apply Hsame.
Qed.

(** What the goroutine of a slot does with a request that waits for it. *)
Lemma own_step l s s' r id n :
  step (Runner id l) s = Some s' → pending_at s r id n →
  answered s' r ∨ ∃ n', pending_at s' r id n' ∧
    n' + (if handles id (Runner id l) then 1 else 0) ≤ n.
Proof.
  intros E (sl & Hsl & Hp). cbn [step] in E. unfold run_step in E. rewrite Hsl in E.
  assert (∀ f n', (in_hand (at_run (f sl)) = Some r ∧ n' = left_of (at_run (f sl)) ∨
      ∃ q1 q2, queue (f sl) = q1 ++ r :: q2 ∧ n' = left_of (at_run (f sl)) + 6 * S (length q1)) →
    ∀ s0, slots s0 = alter f id (slots s) → pending_at s0 r id n') as Hon.
  { intros f n' Hp' s0 Hs0. exists (f sl). split; [|done].
    by rewrite Hs0, list_lookup_alter_eq, Hsl. }
  simpl. rewrite bool_decide_true by done.
  destruct l, (at_run sl) eqn:Hat; simplify_eq; simpl in Hp.
  - destruct (queue sl) as [|x rest] eqn:Hq; simplify_eq.
    right. destruct Hp as [[? ?]|(q1 & q2 & Hq1 & ->)]; [done|].
    destruct q1 as [|y q1]; simplify_list_eq.
    + exists 5. split; [|simpl; lia]. eapply Hon; [|done]. by left.
    + exists (5 + 6 * S (length q1)). split; [|simpl; lia]. eapply Hon; [|done]. right. by exists q1, q2.
  - right. destruct Hp as [[? ?]|(q1 & q2 & Hq1 & ->)]; [done|].
    exists (6 * S (length q1)). split; [|simpl; lia]. eapply Hon; [|done]. right. by exists q1, q2.
  - right. destruct Hp as [[? ?]|(q1 & q2 & Hq1 & ->)]; [done|].
    unfold tryDeleteIdle in E. rewrite Hsl, Hq1, length_app in E. simpl in E.
    rewrite Nat.add_succ_r in E. simpl in E. rewrite orb_true_r in E. simpl in E. simplify_eq.
    exists (6 * S (length q1)). split; [|simpl; lia]. eapply Hon; [|done]. right. by exists q1, q2.
  - destruct (reqs s !! _) as [q|]; simplify_eq. right.
    destruct Hp as [[[= ->] ->]|(q1 & q2 & Hq1 & ->)].
    + exists (left_of (if ctx_done q then Replying r CtxErr else Accepted r)).
      split; [eapply Hon; [|done]; left; simpl; by destruct (ctx_done q)|].
      destruct (ctx_done q); simpl; lia.
    + eexists. split; [eapply Hon; [|done]; right; by exists q1, q2|].
      simpl. destruct (ctx_done q); simpl; lia.
  - right. destruct Hp as [[[= ->] ->]|(q1 & q2 & Hq1 & ->)];
      (eexists; split; [eapply Hon; [|done]; first [by left|right; by exists q1, q2]|simpl; lia]).
  - right. destruct Hp as [[[= ->] ->]|(q1 & q2 & Hq1 & ->)];
      (eexists; split; [eapply Hon; [|done]; first [by left|right; by exists q1, q2]|simpl; lia]).
  - right. destruct Hp as [[[= ->] ->]|(q1 & q2 & Hq1 & ->)];
      (eexists; split; [eapply Hon; [|done]; first [by left|right; by exists q1, q2]|simpl; lia]).
  - destruct (reqs s !! _) as [q|] eqn:Hr; simplify_eq.
    destruct Hp as [[[= ->] ->]|(q1 & q2 & Hq1 & ->)].
    + left. eexists. simpl. rewrite list_lookup_alter_eq, Hr. by split.
    + right. eexists. split; [eapply Hon; [|done]; right; by exists q1, q2|simpl; lia].
Qed.

Lemma pending_step l s s' r id n :
  step l s = Some s' → pending_at s r id n →
  answered s' r ∨ ∃ n', pending_at s' r id n' ∧ n' + (if handles id l then 1 else 0) ≤ n.
Proof.
  intros E Hp. destruct (runs id l) eqn:Hl.
  - destruct l; try done. simpl in Hl. apply bool_decide_eq_true in Hl as ->. by eapply own_step.
  - right. destruct (handles id l) eqn:Hh; [apply handles_runs in Hh; congruence|].
    destruct Hp as (sl & Hsl & Hp). destruct (other_step l s s' id sl E Hl Hsl) as (x & q & Hx & Ha & Hq).
    exists n. split; [|lia]. exists x. split; [done|]. rewrite Ha, Hq.
    destruct Hp as [?|(q1 & q2 & -> & ->)]; [by left|]. right. exists q1, (q2 ++ q).
    by rewrite <-(assoc_L (++)).
Qed.

Lemma answered_step l s s' r : step l s = Some s' → answered s r → answered s' r.
Proof.
  intros E (q & Hq & Ha).
  assert (∀ i f, (∀ x, resultC x ≠ None → resultC (f x) ≠ None) →
    ∀ s0, reqs s0 = alter f i (reqs s) → answered s0 r) as Hon.
  { intros i f Hf s0 Hs. unfold answered. rewrite Hs, list_lookup_alter. case_decide; [subst|eauto].
    rewrite Hq. eexists. split; [done|]. by apply Hf. }
  assert (∀ s0, reqs s0 = reqs s → answered s0 r) as Hsame by (intros s0 Hs; exists q; by rewrite Hs).
  destruct l; cbn [step] in E.
  - destruct (getOrCreate sessionKey s) as [s1 id] eqn:Eg. simplify_eq. exists q. split; [|done].
    simpl. apply lookup_app_l_Some. unfold getOrCreate in Eg. by case_match; simplify_eq.
  - simplify_eq. by eapply (Hon r0 set_ctx_done).
  - unfold enqueue_step in E. repeat (case_match; simplify_eq);
      (eapply Hon; [|simpl; rewrite ?release_reqs; reflexivity]; done).
  - unfold run_step, tryDeleteIdle in E. repeat (case_match; simplify_eq); try (by apply Hsame).
    by eapply (Hon r0 (set_result o)).
  - simplify_eq. by apply Hsame.
  - unfold abort_step in E. repeat (case_match; simplify_eq); try (by apply Hsame).
    by eapply (Hon r0 set_aborted).
Qed.

Lemma left_pos a r : in_hand a = Some r → 1 ≤ left_of a.
Proof. destruct a; simpl; intros; simplify_eq; lia. Qed.

Lemma pending_pos s r id n : pending_at s r id n → 1 ≤ n.
Proof. intros (sl & _ & [[Hh ->]|(q1 & q2 & _ & ->)]); [by eapply left_pos|lia]. Qed.

Definition handled_by (id : nat) (ls : list label) : nat := length (bfilter (handles id) ls).

Lemma answered_after ls : ∀ s s' r id n,
  steps ls s = Some s' → answered s r ∨ pending_at s r id n ∧ n ≤ handled_by id ls → answered s' r.
Proof.
  induction ls as [|l ls IH]; simpl; intros s s' r id n E Hp.
  - simplify_eq. destruct Hp as [?|[Hp Hn]]; [done|]. apply pending_pos in Hp. unfold handled_by in Hn.
    simpl in Hn. lia.
  - destruct (step l s) as [s1|] eqn:El; [|done]. destruct Hp as [Ha|[Hp Hn]].
    { eapply (IH s1 s' r id n); [done|]. left. by eapply answered_step. }
    destruct (pending_step l s s1 r id n El Hp) as [Ha|(n' & Hp' & Hn')].
    + eapply (IH s1 s' r id n); [done|by left].
    + eapply (IH s1 s' r id n'); [done|]. right. split; [done|].
      unfold handled_by in *. simpl in Hn. destruct (handles id l); simpl in *; lia.
Qed.

(** A request that was sent and has no answer waits for a slot whose goroutine lives. *)
Lemma sent_pending s k r :
  slots_inv s → log_inv s → (k, r) ∈ sent s → ¬ answered s r →
  ∃ id sl n, pending_at s r id n ∧ slots s !! id = Some sl ∧ at_run sl ≠ Exited.
Proof.
  intros Hi Hl Hin Hna. pose proof Hl as (H1 & _ & _ & H4 & _).
  apply elem_of_of_key in Hin. rewrite H1 in Hin. apply elem_of_app in Hin as [Hin|Hin].
  - apply elem_of_of_key in Hin. destruct (H4 k r Hin) as [?|(id & sl & Hsl & Hh)]; [done|].
    exists id, sl, (left_of (at_run sl)). split; [|split; [done|by destruct (at_run sl)]].
    exists sl. split; [done|by left].
  - unfold queue_of in Hin. destruct (sessions s !! k) as [id|] eqn:Ek; [|by apply elem_of_nil in Hin].
    destruct (slots s !! id) as [sl|] eqn:Hsl; [|by apply elem_of_nil in Hin].
    apply list_elem_of_split in Hin as (q1 & q2 & Hq).
    exists id, sl, (left_of (at_run sl) + 6 * S (length q1)). split; [|split; [done|]].
    + exists sl. split; [done|]. right. by exists q1, q2.
    + intros He. destruct (proj1 Hi id sl Hsl) as (_ & _ & He' & _). apply He' in He as [He _].
      rewrite He in Hq. by destruct q1.
Qed.

(** The goroutine can always move; only the expiry of the timer delays it, once. *)
Lemma can_run (res : Res) s r id n sl :
  slots_inv s → log_inv s → pending_at s r id n → slots s !! id = Some sl →
  ∃ l s' sl', step (Runner id l) s = Some s' ∧ slots s' !! id = Some sl' ∧ at_run sl' ≠ TimerFired ∧
    (at_run sl ≠ TimerFired → handles id (Runner id l) = true).
Proof.
  intros Hi Hl (x & Hx & Hp) Hsl. assert (x = sl) as -> by congruence.
  assert (∀ r, in_hand (at_run sl) = Some r → is_Some (reqs s !! r)) as Hreq.
  { intros r' Hh. destruct Hl as (H1 & H2 & H3 & H4 & H5).
    pose proof (H5 id sl r' Hsl Hh) as Hin. apply (received_sent (key sl) r' s) in Hin; [|done].
    destruct (H3 _ _ Hin) as (q & ? & _). eauto. }
  assert (∀ l v s', handles id (Runner id l) = true → run_step id l s = Some s' →
    (slots s' !! id = Some v) → at_run v ≠ TimerFired →
    ∃ l s' sl', step (Runner id l) s = Some s' ∧ slots s' !! id = Some sl' ∧ at_run sl' ≠ TimerFired ∧
    (at_run sl ≠ TimerFired → handles id (Runner id l) = true)) as Hgo by (intros; eexists _, _, _; eauto).
  destruct (at_run sl) eqn:Ha; simpl in *.
  - destruct Hp as [[? ?]|(q1 & q2 & Hq & _)]; [done|]. destruct (queue sl) as [|y q] eqn:Eq; [by destruct q1|].
    eapply (Hgo Receive); [by rewrite bool_decide_true|unfold run_step; by rewrite Hsl, Ha, Eq| |];
      [simpl; by rewrite list_lookup_alter_eq, Hsl|done].
  - destruct Hp as [[? ?]|(q1 & q2 & Hq & _)]; [done|].
    exists TryDelete, (on_slot id (set_run Selecting) s), (set_run Selecting sl).
    split; [|split; [simpl; by rewrite list_lookup_alter_eq, Hsl|done]].
    simpl. unfold run_step, tryDeleteIdle. rewrite Hsl, Ha, Hq, length_app. simpl.
    rewrite Nat.add_succ_r. simpl. by rewrite orb_true_r.
  - destruct (Hreq _ eq_refl) as [q Hr].
    eapply (Hgo CheckCtx); [by rewrite bool_decide_true|unfold run_step; by rewrite Hsl, Ha, Hr| |];
      [simpl; by rewrite list_lookup_alter_eq, Hsl|simpl; by destruct (ctx_done q)].
  - eapply (Hgo Arm); [by rewrite bool_decide_true|unfold run_step; by rewrite Hsl, Ha| |];
      [simpl; by rewrite list_lookup_alter_eq, Hsl|done].
  - eapply (Hgo (Return res)); [by rewrite bool_decide_true|unfold run_step; by rewrite Hsl, Ha| |];
      [simpl; by rewrite list_lookup_alter_eq, Hsl|done].
  - eapply (Hgo Clear); [by rewrite bool_decide_true|unfold run_step; by rewrite Hsl, Ha| |];
      [simpl; by rewrite list_lookup_alter_eq, Hsl|done].
  - destruct (Hreq _ eq_refl) as [q Hr].
    eapply (Hgo Reply); [by rewrite bool_decide_true|unfold run_step; by rewrite Hsl, Ha, Hr| |];
      [simpl; by rewrite list_lookup_alter_eq, Hsl|done].
  - exfalso. destruct Hp as [[? ?]|(q1 & q2 & Hq & _)]; [done|].
    destruct (proj1 Hi id sl Hsl) as (_ & _ & He & _). destruct (He Ha) as [He' _].
    rewrite He' in Hq. by destruct q1.
Qed.

Lemma run_to_answer (res : Res) n : ∀ s r id sl,
  slots_inv s → log_inv s → pending_at s r id n → slots s !! id = Some sl → at_run sl ≠ TimerFired →
  ∃ ls s', Forall (λ l, runs id l = true) ls ∧ length ls ≤ n ∧ steps ls s = Some s' ∧ answered s' r.
Proof.
  induction n as [n IH] using lt_wf_ind. intros s r id sl Hi Hl Hp Hsl Ht.
  destruct (can_run res s r id n sl Hi Hl Hp Hsl) as (l & s1 & sl1 & E & Hsl1 & Ht1 & Hh).
  destruct (pending_step _ _ _ r id n E Hp) as [Ha|(n' & Hp' & Hn')].
  - exists [Runner id l], s1. cbn [steps]. rewrite E. split; [|split; [by apply pending_pos in Hp|done]].
    constructor; [by apply handles_runs, Hh|done].
  - rewrite (Hh Ht) in Hn'.
    destruct (IH n' ltac:(lia) s1 r id sl1) as (ls & s' & Hls & Hlen & Hst & Ha); try done;
      [by eapply slots_inv_step|by eapply log_inv_step|].
    exists (Runner id l :: ls), s'. cbn [steps length]. rewrite E.
    split; [constructor; [by apply handles_runs, Hh|done]|]. split; [lia|done].
Qed.

(** ** Correctness *)

(** C5. However calls, cancellations and idle timeouts interleave, at most one function
    of a session key runs at a time: two goroutines never serve one session, not even
    while an idle slot is dropped and created again; and a session runs only requests
    made for it. *)
Theorem one_at_a_time s k r r' :
  reachable s → executing s k r → executing s k r' →
  r = r' ∧ ∃ q, reqs s !! r = Some q ∧ req_key q = k.
Proof.
  intros [Hi Hl]%invs_reachable (id & sl & Hsl & <- & Ha) (id' & sl' & Hsl' & Hk & Ha').
  destruct (proj1 Hi id sl Hsl) as (_ & _ & _ & H1).
  destruct (proj1 Hi id' sl' Hsl') as (_ & _ & _ & H2).
  rewrite Ha in H1. rewrite Ha', Hk in H2. assert (id = id') as <-.
  { destruct H1 as [H1 _]. destruct H2 as [H2 _].
    assert (Some id = Some id') as Heq by (rewrite <-H1, <-H2; done). by injection Heq. }
  split; [congruence|]. pose proof Hl as (_ & _ & H3 & _ & H5).
  assert ((key sl, r) ∈ received s) as Hin by (apply (H5 id); [done|by rewrite Ha]).
  apply (received_sent _ _ _ Hl) in Hin. destruct (H3 _ _ Hin) as (q & ? & ? & _). eauto.
Qed.

(** C6. The requests of a session are handled in the order they entered its channel, each
    once, across every idle deletion of its slot: what was sent is what the goroutines
    received, in that order, followed by what the session's slot still queues; a slot
    outside the map has nothing queued and no caller left. *)
Theorem handled_in_order s k :
  reachable s →
  of_key k (sent s) = of_key k (received s) ++ queue_of k s ∧ NoDup (snd <$> sent s) ∧
  ∀ id sl, slots s !! id = Some sl → sessions s !! key sl ≠ Some id → queue sl = [] ∧ refs sl = 0.
Proof.
  intros [Hi Hl]%invs_reachable. split; [apply Hl|]. split; [apply Hl|]. intros id sl Hsl Hs.
  destruct (proj1 Hi id sl Hsl) as (_ & _ & He & Hlive). apply He.
  destruct (at_run sl) eqn:E; try done; exfalso; by apply Hs, Hlive.
Qed.

(** C7. No request is lost: one that entered the channel and has no answer yet is answered
    once its slot's goroutine has handled a bounded number of actions, whatever
    everybody else does meanwhile; and that goroutine alone can always get there, with at
    most one idle timeout in the way, as long as the functions it runs return. *)
Theorem sent_is_answered (res : Res) s k r :
  reachable s → (k, r) ∈ sent s → ¬ answered s r →
  ∃ id n,
    (∀ ls s', steps ls s = Some s' → n ≤ handled_by id ls → answered s' r) ∧
    ∃ ls s', Forall (λ l, runs id l = true) ls ∧ length ls ≤ S n ∧
      steps ls s = Some s' ∧ answered s' r.
Proof.
  intros [Hi Hl]%invs_reachable Hin Hna.
  destruct (sent_pending s k r Hi Hl Hin Hna) as (id & sl & n & Hp & Hsl & _).
  exists id, n. split; [intros ls s' Hst Hn; by eapply (answered_after ls s s' r id n); [|right]|].
  assert (at_run sl = TimerFired ∨ at_run sl ≠ TimerFired) as [Ht|Ht]
    by (destruct (at_run sl); first [by left|by right]).
  2:{ destruct (run_to_answer res n s r id sl) as (ls & s' & ? & ? & ? & ?); try done.
      exists ls, s'. split; [done|]. split; [lia|done]. }
  destruct (can_run res s r id n sl Hi Hl Hp Hsl) as (l & s1 & sl1 & E & Hsl1 & Ht1 & _).
  destruct (pending_step _ _ _ r id n E Hp) as [Ha|(n' & Hp' & Hn')].
  - exists [Runner id l], s1. cbn [steps]. rewrite E. split; [|split; [simpl; lia|done]].
    constructor; [simpl; by apply bool_decide_eq_true|done].
  - destruct (run_to_answer res n' s1 r id sl1) as (ls & s' & Hls & Hlen & Hst & Ha); try done;
      [by eapply slots_inv_step|by eapply log_inv_step|].
    exists (Runner id l :: ls), s'. cbn [steps length]. rewrite E.
    split; [constructor; [simpl; by apply bool_decide_eq_true|done]|]. split; [lia|done].
Qed.

End queue.

(** ** Witnesses *)

(** Two requests of a session and one of another: the first is running, the second
    queued. *)
Definition busy_trace : list (label (Res := nat)) :=
  [Enqueue "a"; Caller 0 Send; Enqueue "a"; Enqueue "b"; Caller 1 Send; Caller 0 Release;
   Runner 0 Receive; Caller 2 Send; Runner 0 CheckCtx; Runner 0 Arm; Runner 1 Receive].

Definition busy : sessionQueue (Res := nat) :=
  match steps busy_trace newSessionQueue with Some s => s | None => newSessionQueue end.

Lemma one_at_a_time_witness :
  executing busy "a" 0 ∧ 0 = 0 ∧ ∃ q, reqs busy !! 0 = Some q ∧ req_key q = "a".
Proof.
  assert (executing busy "a" 0) as Hex by (eexists 0, _; vm_compute; done).
  split; [exact Hex|]. apply (one_at_a_time busy "a" 0 0); [|exact Hex..].
  exists busy_trace. vm_compute. reflexivity.
Defined.

Lemma handled_in_order_witness :
  of_key "a" (sent busy) = of_key "a" (received busy) ++ queue_of "a" busy ∧ NoDup (snd <$> sent busy) ∧
  ∀ id sl, slots busy !! id = Some sl → sessions busy !! key sl ≠ Some id → queue sl = [] ∧ refs sl = 0.
Proof. apply (handled_in_order busy "a"). exists busy_trace. vm_compute. reflexivity. Defined.

Lemma sent_is_answered_witness :
  ∃ id n,
    (∀ ls s', steps ls busy = Some s' → n ≤ handled_by id ls → answered s' 1) ∧
    ∃ ls s', Forall (λ l, runs id l = true) ls ∧ length ls ≤ S n ∧
      steps ls busy = Some s' ∧ answered s' 1.
Proof.
  apply (sent_is_answered 7 busy "a" 1).
  - exists busy_trace. vm_compute. reflexivity.
  - vm_compute. right. by left.
  - intros (q & Hq & Hr). vm_compute in Hq. injection Hq as <-. by apply Hr.
Defined.
