(* ===== verification/Proto.v ===== *)
(** * The messages of the daemon protocol ([gen/go/nekode/daemon/v1])

    The structs generated from the protocol's definitions, one module each inside
    [daemonv1], with the names of the Go fields, a zero value and a setter per field.
    A pointer to a message is an [option] ([None] is [nil], on which the generated
    getters return zero values), an optional scalar is an [option], an integer or an
    enum is a [Z] (enums are open in proto3: a peer can send any number), bytes are a
    [string].  A oneof is an inductive with the constructors of the source; the payloads
    the server neither makes nor reads (coordination, memory and MCP records) are left
    out, as are the runtime preset messages. *)
From S2P Require Import Prelude.

Module daemonv1.

(** ** Enums *)

Definition ActorKind_ACTOR_KIND_UNSPECIFIED : Z := 0.
Definition ActorKind_ACTOR_KIND_HUMAN : Z := 1.
Definition ActorKind_ACTOR_KIND_AGENT : Z := 2.
Definition ActorKind_ACTOR_KIND_DAEMON : Z := 3.
Definition ActorKind_ACTOR_KIND_ENDPOINT : Z := 4.
Definition ActorKind_ACTOR_KIND_SYSTEM : Z := 5.

Definition AgentActivityState_AGENT_ACTIVITY_STATE_UNSPECIFIED : Z := 0.
Definition AgentActivityState_AGENT_ACTIVITY_STATE_RECEIVING_MESSAGE : Z := 1.
Definition AgentActivityState_AGENT_ACTIVITY_STATE_READING_CONTEXT : Z := 2.
Definition AgentActivityState_AGENT_ACTIVITY_STATE_COMPACTING_CONTEXT : Z := 3.
Definition AgentActivityState_AGENT_ACTIVITY_STATE_THINKING : Z := 4.
Definition AgentActivityState_AGENT_ACTIVITY_STATE_CODING : Z := 5.
Definition AgentActivityState_AGENT_ACTIVITY_STATE_RUNNING_COMMAND : Z := 6.
Definition AgentActivityState_AGENT_ACTIVITY_STATE_RUNNING_TEST : Z := 7.
Definition AgentActivityState_AGENT_ACTIVITY_STATE_REVIEWING : Z := 8.
Definition AgentActivityState_AGENT_ACTIVITY_STATE_WAITING : Z := 9.
Definition AgentActivityState_AGENT_ACTIVITY_STATE_BLOCKED : Z := 10.
Definition AgentActivityState_AGENT_ACTIVITY_STATE_RESTARTING : Z := 11.
Definition AgentActivityState_AGENT_ACTIVITY_STATE_RESTORING_MEMORY : Z := 12.

Definition AgentControlAction_AGENT_CONTROL_ACTION_UNSPECIFIED : Z := 0.
Definition AgentControlAction_AGENT_CONTROL_ACTION_TERMINATE : Z := 1.
Definition AgentControlAction_AGENT_CONTROL_ACTION_RESTART : Z := 2.
Definition AgentControlAction_AGENT_CONTROL_ACTION_RESTART_RESET_SESSION : Z := 3.
Definition AgentControlAction_AGENT_CONTROL_ACTION_RESTART_FULL_RESET : Z := 4.
Definition AgentControlAction_AGENT_CONTROL_ACTION_CUSTOM : Z := 5.

Definition AgentControlState_AGENT_CONTROL_STATE_UNSPECIFIED : Z := 0.
Definition AgentControlState_AGENT_CONTROL_STATE_REQUESTED : Z := 1.
Definition AgentControlState_AGENT_CONTROL_STATE_QUEUED : Z := 2.
Definition AgentControlState_AGENT_CONTROL_STATE_RUNNING : Z := 3.
Definition AgentControlState_AGENT_CONTROL_STATE_COMPLETED : Z := 4.
Definition AgentControlState_AGENT_CONTROL_STATE_FAILED : Z := 5.
Definition AgentControlState_AGENT_CONTROL_STATE_UNSUPPORTED : Z := 6.

Definition AgentHealth_AGENT_HEALTH_UNSPECIFIED : Z := 0.
Definition AgentHealth_AGENT_HEALTH_OK : Z := 1.
Definition AgentHealth_AGENT_HEALTH_PROVIDER_QUOTA : Z := 2.
Definition AgentHealth_AGENT_HEALTH_COMMAND_FAILED : Z := 3.
Definition AgentHealth_AGENT_HEALTH_TEST_FAILED : Z := 4.
Definition AgentHealth_AGENT_HEALTH_AUTH_REQUIRED : Z := 5.
Definition AgentHealth_AGENT_HEALTH_RUNTIME_ERROR : Z := 6.
Definition AgentHealth_AGENT_HEALTH_OFFLINE : Z := 7.

Definition AgentPresence_AGENT_PRESENCE_UNSPECIFIED : Z := 0.
Definition AgentPresence_AGENT_PRESENCE_ONLINE : Z := 1.
Definition AgentPresence_AGENT_PRESENCE_IDLE : Z := 2.
Definition AgentPresence_AGENT_PRESENCE_BUSY : Z := 3.
Definition AgentPresence_AGENT_PRESENCE_SLEEPING : Z := 4.
Definition AgentPresence_AGENT_PRESENCE_STALE : Z := 5.
Definition AgentPresence_AGENT_PRESENCE_OFFLINE : Z := 6.
Definition AgentPresence_AGENT_PRESENCE_DEGRADED : Z := 7.

Definition AgentRunPhase_AGENT_RUN_PHASE_UNSPECIFIED : Z := 0.
Definition AgentRunPhase_AGENT_RUN_PHASE_START : Z := 1.
Definition AgentRunPhase_AGENT_RUN_PHASE_TOOL_CALL : Z := 2.
Definition AgentRunPhase_AGENT_RUN_PHASE_TOOL_RESULT : Z := 3.
Definition AgentRunPhase_AGENT_RUN_PHASE_ERROR : Z := 4.
Definition AgentRunPhase_AGENT_RUN_PHASE_OUTPUT : Z := 5.
Definition AgentRunPhase_AGENT_RUN_PHASE_END : Z := 6.

Definition AgentStatusSeverity_AGENT_STATUS_SEVERITY_UNSPECIFIED : Z := 0.
Definition AgentStatusSeverity_AGENT_STATUS_SEVERITY_INFO : Z := 1.
Definition AgentStatusSeverity_AGENT_STATUS_SEVERITY_WARNING : Z := 2.
Definition AgentStatusSeverity_AGENT_STATUS_SEVERITY_ERROR : Z := 3.

Definition CollaborationEventKind_COLLABORATION_EVENT_KIND_UNSPECIFIED : Z := 0.
Definition CollaborationEventKind_COLLABORATION_EVENT_KIND_MESSAGE : Z := 1.
Definition CollaborationEventKind_COLLABORATION_EVENT_KIND_ACTIVITY : Z := 2.
Definition CollaborationEventKind_COLLABORATION_EVENT_KIND_TASK : Z := 3.
Definition CollaborationEventKind_COLLABORATION_EVENT_KIND_REMINDER : Z := 4.
Definition CollaborationEventKind_COLLABORATION_EVENT_KIND_COORDINATION : Z := 5.
Definition CollaborationEventKind_COLLABORATION_EVENT_KIND_MEMORY : Z := 6.
Definition CollaborationEventKind_COLLABORATION_EVENT_KIND_RUN : Z := 7.
Definition CollaborationEventKind_COLLABORATION_EVENT_KIND_RUN_STEP : Z := 8.
Definition CollaborationEventKind_COLLABORATION_EVENT_KIND_ATTACHMENT : Z := 9.
Definition CollaborationEventKind_COLLABORATION_EVENT_KIND_PING : Z := 10.

Definition ComputerStatus_COMPUTER_STATUS_UNSPECIFIED : Z := 0.
Definition ComputerStatus_COMPUTER_STATUS_ONLINE : Z := 1.
Definition ComputerStatus_COMPUTER_STATUS_STALE : Z := 2.
Definition ComputerStatus_COMPUTER_STATUS_OFFLINE : Z := 3.
Definition ComputerStatus_COMPUTER_STATUS_DEGRADED : Z := 4.

Definition DecisionStatus_DECISION_STATUS_UNSPECIFIED : Z := 0.
Definition DecisionStatus_DECISION_STATUS_PROPOSED : Z := 1.
Definition DecisionStatus_DECISION_STATUS_RATIFIED : Z := 2.
Definition DecisionStatus_DECISION_STATUS_REJECTED : Z := 3.
Definition DecisionStatus_DECISION_STATUS_RETIRED : Z := 4.

Definition DecisionVote_DECISION_VOTE_UNSPECIFIED : Z := 0.
Definition DecisionVote_DECISION_VOTE_APPROVE : Z := 1.
Definition DecisionVote_DECISION_VOTE_REJECT : Z := 2.
Definition DecisionVote_DECISION_VOTE_ABSTAIN : Z := 3.

Definition EndpointAuthMode_ENDPOINT_AUTH_MODE_UNSPECIFIED : Z := 0.
Definition EndpointAuthMode_ENDPOINT_AUTH_MODE_COOKIE : Z := 1.
Definition EndpointAuthMode_ENDPOINT_AUTH_MODE_BEARER : Z := 2.
Definition EndpointAuthMode_ENDPOINT_AUTH_MODE_WEBHOOK_SIGNATURE : Z := 3.
Definition EndpointAuthMode_ENDPOINT_AUTH_MODE_MCP_TOKEN : Z := 4.
Definition EndpointAuthMode_ENDPOINT_AUTH_MODE_NONE : Z := 5.

Definition EventOperation_EVENT_OPERATION_UNSPECIFIED : Z := 0.
Definition EventOperation_EVENT_OPERATION_CREATED : Z := 1.
Definition EventOperation_EVENT_OPERATION_UPDATED : Z := 2.
Definition EventOperation_EVENT_OPERATION_DELETED : Z := 3.
Definition EventOperation_EVENT_OPERATION_STATE_CHANGED : Z := 4.
Definition EventOperation_EVENT_OPERATION_APPENDED : Z := 5.
Definition EventOperation_EVENT_OPERATION_CLAIMED : Z := 6.
Definition EventOperation_EVENT_OPERATION_RELEASED : Z := 7.
Definition EventOperation_EVENT_OPERATION_FAILED : Z := 8.
Definition EventOperation_EVENT_OPERATION_CANCELED : Z := 9.
Definition EventOperation_EVENT_OPERATION_HEARTBEAT : Z := 10.
Definition EventOperation_EVENT_OPERATION_INVALIDATED : Z := 11.
Definition EventOperation_EVENT_OPERATION_SNAPSHOT : Z := 12.

Definition EventScopeType_EVENT_SCOPE_TYPE_UNSPECIFIED : Z := 0.
Definition EventScopeType_EVENT_SCOPE_TYPE_SERVER : Z := 1.
Definition EventScopeType_EVENT_SCOPE_TYPE_WORKSPACE : Z := 2.
Definition EventScopeType_EVENT_SCOPE_TYPE_TARGET : Z := 3.
Definition EventScopeType_EVENT_SCOPE_TYPE_THREAD : Z := 4.
Definition EventScopeType_EVENT_SCOPE_TYPE_TASK : Z := 5.
Definition EventScopeType_EVENT_SCOPE_TYPE_RUN : Z := 6.
Definition EventScopeType_EVENT_SCOPE_TYPE_AGENT : Z := 7.
Definition EventScopeType_EVENT_SCOPE_TYPE_COMPUTER : Z := 8.
Definition EventScopeType_EVENT_SCOPE_TYPE_USER : Z := 9.
Definition EventScopeType_EVENT_SCOPE_TYPE_ENDPOINT : Z := 10.
Definition EventScopeType_EVENT_SCOPE_TYPE_DAEMON : Z := 11.
Definition EventScopeType_EVENT_SCOPE_TYPE_CUSTOM : Z := 12.

Definition MessageKind_MESSAGE_KIND_UNSPECIFIED : Z := 0.
Definition MessageKind_MESSAGE_KIND_NOTE : Z := 1.
Definition MessageKind_MESSAGE_KIND_DECISION : Z := 2.
Definition MessageKind_MESSAGE_KIND_BLOCKER : Z := 3.
Definition MessageKind_MESSAGE_KIND_STATUS : Z := 4.

Definition MessageSearchSort_MESSAGE_SEARCH_SORT_UNSPECIFIED : Z := 0.
Definition MessageSearchSort_MESSAGE_SEARCH_SORT_RELEVANCE : Z := 1.
Definition MessageSearchSort_MESSAGE_SEARCH_SORT_RECENT : Z := 2.

Definition OutboundDeliveryStatus_OUTBOUND_DELIVERY_STATUS_UNSPECIFIED : Z := 0.
Definition OutboundDeliveryStatus_OUTBOUND_DELIVERY_STATUS_PENDING : Z := 1.
Definition OutboundDeliveryStatus_OUTBOUND_DELIVERY_STATUS_DELIVERED : Z := 2.
Definition OutboundDeliveryStatus_OUTBOUND_DELIVERY_STATUS_FAILED : Z := 3.
Definition OutboundDeliveryStatus_OUTBOUND_DELIVERY_STATUS_RETRYING : Z := 4.
Definition OutboundDeliveryStatus_OUTBOUND_DELIVERY_STATUS_CANCELED : Z := 5.

Definition OutboundPolicy_OUTBOUND_POLICY_UNSPECIFIED : Z := 0.
Definition OutboundPolicy_OUTBOUND_POLICY_NONE : Z := 1.
Definition OutboundPolicy_OUTBOUND_POLICY_SOURCE_ONLY : Z := 2.
Definition OutboundPolicy_OUTBOUND_POLICY_ALL_BOUND_ENDPOINTS : Z := 3.
Definition OutboundPolicy_OUTBOUND_POLICY_SELECTED_ENDPOINTS : Z := 4.

Definition ProxyFrameKind_PROXY_FRAME_KIND_UNSPECIFIED : Z := 0.
Definition ProxyFrameKind_PROXY_FRAME_KIND_REQUEST_START : Z := 1.
Definition ProxyFrameKind_PROXY_FRAME_KIND_REQUEST_BODY : Z := 2.
Definition ProxyFrameKind_PROXY_FRAME_KIND_REQUEST_END : Z := 3.
Definition ProxyFrameKind_PROXY_FRAME_KIND_RESPONSE_START : Z := 4.
Definition ProxyFrameKind_PROXY_FRAME_KIND_RESPONSE_BODY : Z := 5.
Definition ProxyFrameKind_PROXY_FRAME_KIND_RESPONSE_END : Z := 6.
Definition ProxyFrameKind_PROXY_FRAME_KIND_CANCEL : Z := 7.

Definition ReminderActorType_REMINDER_ACTOR_TYPE_UNSPECIFIED : Z := 0.
Definition ReminderActorType_REMINDER_ACTOR_TYPE_HUMAN : Z := 1.
Definition ReminderActorType_REMINDER_ACTOR_TYPE_AGENT : Z := 2.
Definition ReminderActorType_REMINDER_ACTOR_TYPE_SYSTEM : Z := 3.

Definition ReminderEventType_REMINDER_EVENT_TYPE_UNSPECIFIED : Z := 0.
Definition ReminderEventType_REMINDER_EVENT_TYPE_CREATED : Z := 1.
Definition ReminderEventType_REMINDER_EVENT_TYPE_FIRED : Z := 2.
Definition ReminderEventType_REMINDER_EVENT_TYPE_SNOOZED : Z := 3.
Definition ReminderEventType_REMINDER_EVENT_TYPE_UPDATED : Z := 4.
Definition ReminderEventType_REMINDER_EVENT_TYPE_CANCELED : Z := 5.
Definition ReminderEventType_REMINDER_EVENT_TYPE_FAILED : Z := 6.

Definition ReminderScheduleKind_REMINDER_SCHEDULE_KIND_UNSPECIFIED : Z := 0.
Definition ReminderScheduleKind_REMINDER_SCHEDULE_KIND_CRON : Z := 1.
Definition ReminderScheduleKind_REMINDER_SCHEDULE_KIND_EVERY : Z := 2.
Definition ReminderScheduleKind_REMINDER_SCHEDULE_KIND_AT : Z := 3.
Definition ReminderScheduleKind_REMINDER_SCHEDULE_KIND_RRULE : Z := 4.
Definition ReminderScheduleKind_REMINDER_SCHEDULE_KIND_NATURAL : Z := 5.

Definition ReminderStatus_REMINDER_STATUS_UNSPECIFIED : Z := 0.
Definition ReminderStatus_REMINDER_STATUS_ACTIVE : Z := 1.
Definition ReminderStatus_REMINDER_STATUS_DONE : Z := 2.
Definition ReminderStatus_REMINDER_STATUS_CANCELED : Z := 3.
Definition ReminderStatus_REMINDER_STATUS_PAUSED : Z := 4.
Definition ReminderStatus_REMINDER_STATUS_FAILED : Z := 5.

Definition RunState_RUN_STATE_UNSPECIFIED : Z := 0.
Definition RunState_RUN_STATE_QUEUED : Z := 1.
Definition RunState_RUN_STATE_RUNNING : Z := 2.
Definition RunState_RUN_STATE_BLOCKED : Z := 3.
Definition RunState_RUN_STATE_COMPLETED : Z := 4.
Definition RunState_RUN_STATE_FAILED : Z := 5.
Definition RunState_RUN_STATE_CANCELED : Z := 6.

Definition RunStepKind_RUN_STEP_KIND_UNSPECIFIED : Z := 0.
Definition RunStepKind_RUN_STEP_KIND_START : Z := 1.
Definition RunStepKind_RUN_STEP_KIND_CONTEXT : Z := 2.
Definition RunStepKind_RUN_STEP_KIND_TOOL : Z := 3.
Definition RunStepKind_RUN_STEP_KIND_COMMAND : Z := 4.
Definition RunStepKind_RUN_STEP_KIND_TEST : Z := 5.
Definition RunStepKind_RUN_STEP_KIND_PROGRESS : Z := 6.
Definition RunStepKind_RUN_STEP_KIND_RESULT : Z := 7.
Definition RunStepKind_RUN_STEP_KIND_CUSTOM : Z := 8.

Definition RunStepStatus_RUN_STEP_STATUS_UNSPECIFIED : Z := 0.
Definition RunStepStatus_RUN_STEP_STATUS_RUNNING : Z := 1.
Definition RunStepStatus_RUN_STEP_STATUS_COMPLETED : Z := 2.
Definition RunStepStatus_RUN_STEP_STATUS_FAILED : Z := 3.
Definition RunStepStatus_RUN_STEP_STATUS_SKIPPED : Z := 4.

Definition ServerEventKind_SERVER_EVENT_KIND_UNSPECIFIED : Z := 0.
Definition ServerEventKind_SERVER_EVENT_KIND_RUN_ASSIGNED : Z := 1.
Definition ServerEventKind_SERVER_EVENT_KIND_AGENT_CONTROL : Z := 2.
Definition ServerEventKind_SERVER_EVENT_KIND_MESSAGE : Z := 3.
Definition ServerEventKind_SERVER_EVENT_KIND_TASK : Z := 4.
Definition ServerEventKind_SERVER_EVENT_KIND_REMINDER : Z := 5.
Definition ServerEventKind_SERVER_EVENT_KIND_ACTIVITY : Z := 6.
Definition ServerEventKind_SERVER_EVENT_KIND_MCP_RESOURCE : Z := 7.
Definition ServerEventKind_SERVER_EVENT_KIND_PING : Z := 8.
Definition ServerEventKind_SERVER_EVENT_KIND_COORDINATION : Z := 9.
Definition ServerEventKind_SERVER_EVENT_KIND_MEMORY : Z := 10.
Definition ServerEventKind_SERVER_EVENT_KIND_OUTBOUND_DELIVERY : Z := 11.

Definition TaskClaimConflictBehavior_TASK_CLAIM_CONFLICT_BEHAVIOR_UNSPECIFIED : Z := 0.
Definition TaskClaimConflictBehavior_TASK_CLAIM_CONFLICT_BEHAVIOR_FAIL_SILENT : Z := 1.
Definition TaskClaimConflictBehavior_TASK_CLAIM_CONFLICT_BEHAVIOR_FAIL_WITH_REASON : Z := 2.
Definition TaskClaimConflictBehavior_TASK_CLAIM_CONFLICT_BEHAVIOR_QUEUE : Z := 3.
Definition TaskClaimConflictBehavior_TASK_CLAIM_CONFLICT_BEHAVIOR_ASSIST : Z := 4.

Definition TaskClaimMode_TASK_CLAIM_MODE_UNSPECIFIED : Z := 0.
Definition TaskClaimMode_TASK_CLAIM_MODE_OWNER : Z := 1.
Definition TaskClaimMode_TASK_CLAIM_MODE_REVIEWER : Z := 2.
Definition TaskClaimMode_TASK_CLAIM_MODE_ASSISTANT : Z := 3.

Definition TaskClaimPolicy_TASK_CLAIM_POLICY_UNSPECIFIED : Z := 0.
Definition TaskClaimPolicy_TASK_CLAIM_POLICY_EXCLUSIVE : Z := 1.
Definition TaskClaimPolicy_TASK_CLAIM_POLICY_SHARED : Z := 2.
Definition TaskClaimPolicy_TASK_CLAIM_POLICY_REVIEWER_ONLY : Z := 3.
Definition TaskClaimPolicy_TASK_CLAIM_POLICY_UNCLAIMABLE : Z := 4.

Definition TaskState_TASK_STATE_UNSPECIFIED : Z := 0.
Definition TaskState_TASK_STATE_TODO : Z := 1.
Definition TaskState_TASK_STATE_IN_PROGRESS : Z := 2.
Definition TaskState_TASK_STATE_IN_REVIEW : Z := 3.
Definition TaskState_TASK_STATE_DONE : Z := 4.
Definition TaskState_TASK_STATE_BLOCKED : Z := 5.
Definition TaskState_TASK_STATE_CANCELED : Z := 6.

Definition TunnelAccessPolicy_TUNNEL_ACCESS_POLICY_UNSPECIFIED : Z := 0.
Definition TunnelAccessPolicy_TUNNEL_ACCESS_POLICY_PRIVATE : Z := 1.
Definition TunnelAccessPolicy_TUNNEL_ACCESS_POLICY_MEMBERS : Z := 2.
Definition TunnelAccessPolicy_TUNNEL_ACCESS_POLICY_PUBLIC : Z := 3.

Definition TunnelState_TUNNEL_STATE_UNSPECIFIED : Z := 0.
Definition TunnelState_TUNNEL_STATE_PENDING_APPROVAL : Z := 1.
Definition TunnelState_TUNNEL_STATE_ACTIVE : Z := 2.
Definition TunnelState_TUNNEL_STATE_REJECTED : Z := 3.
Definition TunnelState_TUNNEL_STATE_CLOSED : Z := 4.

(** ** Messages *)

Module EventCursor.
Record EventCursor := mk {
  Cursor : string;
  Target : string;
  ProtocolVersion : Z;
  SnapshotId : string;
  Sequence : Z;
  AggregateId : string;
  ServerId : string
}.
Definition zero : EventCursor := mk "" "" 0%Z "" 0%Z "" "".
Definition set_Cursor (v : string) (r : EventCursor) : EventCursor := mk v (Target r) (ProtocolVersion r) (SnapshotId r) (Sequence r) (AggregateId r) (ServerId r).
Definition set_Target (v : string) (r : EventCursor) : EventCursor := mk (Cursor r) v (ProtocolVersion r) (SnapshotId r) (Sequence r) (AggregateId r) (ServerId r).
Definition set_ProtocolVersion (v : Z) (r : EventCursor) : EventCursor := mk (Cursor r) (Target r) v (SnapshotId r) (Sequence r) (AggregateId r) (ServerId r).
Definition set_SnapshotId (v : string) (r : EventCursor) : EventCursor := mk (Cursor r) (Target r) (ProtocolVersion r) v (Sequence r) (AggregateId r) (ServerId r).
Definition set_Sequence (v : Z) (r : EventCursor) : EventCursor := mk (Cursor r) (Target r) (ProtocolVersion r) (SnapshotId r) v (AggregateId r) (ServerId r).
Definition set_AggregateId (v : string) (r : EventCursor) : EventCursor := mk (Cursor r) (Target r) (ProtocolVersion r) (SnapshotId r) (Sequence r) v (ServerId r).
Definition set_ServerId (v : string) (r : EventCursor) : EventCursor := mk (Cursor r) (Target r) (ProtocolVersion r) (SnapshotId r) (Sequence r) (AggregateId r) v.
End EventCursor.

Module Actor.
Record Actor := mk {
  ActorKind : Z;
  AgentId : string;
  UserId : string;
  DaemonId : string;
  EndpointId : string;
  DisplayName : string
}.
Definition zero : Actor := mk 0%Z "" "" "" "" "".
Definition set_ActorKind (v : Z) (r : Actor) : Actor := mk v (AgentId r) (UserId r) (DaemonId r) (EndpointId r) (DisplayName r).
Definition set_AgentId (v : string) (r : Actor) : Actor := mk (ActorKind r) v (UserId r) (DaemonId r) (EndpointId r) (DisplayName r).
Definition set_UserId (v : string) (r : Actor) : Actor := mk (ActorKind r) (AgentId r) v (DaemonId r) (EndpointId r) (DisplayName r).
Definition set_DaemonId (v : string) (r : Actor) : Actor := mk (ActorKind r) (AgentId r) (UserId r) v (EndpointId r) (DisplayName r).
Definition set_EndpointId (v : string) (r : Actor) : Actor := mk (ActorKind r) (AgentId r) (UserId r) (DaemonId r) v (DisplayName r).
Definition set_DisplayName (v : string) (r : Actor) : Actor := mk (ActorKind r) (AgentId r) (UserId r) (DaemonId r) (EndpointId r) v.
End Actor.

Module ClientInfo.
Record ClientInfo := mk {
  Platform : string;
  Version : string;
  Os : string
}.
Definition zero : ClientInfo := mk "" "" "".
Definition set_Platform (v : string) (r : ClientInfo) : ClientInfo := mk v (Version r) (Os r).
Definition set_Version (v : string) (r : ClientInfo) : ClientInfo := mk (Platform r) v (Os r).
Definition set_Os (v : string) (r : ClientInfo) : ClientInfo := mk (Platform r) (Version r) v.
End ClientInfo.

Module RequestContext.
Record RequestContext := mk {
  TraceId : string;
  Actor : option Actor.Actor;
  SourceEndpointId : string;
  Client : option ClientInfo.ClientInfo
}.
Definition zero : RequestContext := mk "" None "" None.
Definition set_TraceId (v : string) (r : RequestContext) : RequestContext := mk v (Actor r) (SourceEndpointId r) (Client r).
Definition set_Actor (v : option Actor.Actor) (r : RequestContext) : RequestContext := mk (TraceId r) v (SourceEndpointId r) (Client r).
Definition set_SourceEndpointId (v : string) (r : RequestContext) : RequestContext := mk (TraceId r) (Actor r) v (Client r).
Definition set_Client (v : option ClientInfo.ClientInfo) (r : RequestContext) : RequestContext := mk (TraceId r) (Actor r) (SourceEndpointId r) v.
End RequestContext.

Module AcknowledgeActivityEventsRequest.
Record AcknowledgeActivityEventsRequest := mk {
  EventIds : list string;
  Cursor : option EventCursor.EventCursor;
  RequestId : string;
  IdempotencyKey : string;
  Context : option RequestContext.RequestContext
}.
Definition zero : AcknowledgeActivityEventsRequest := mk [] None "" "" None.
Definition set_EventIds (v : list string) (r : AcknowledgeActivityEventsRequest) : AcknowledgeActivityEventsRequest := mk v (Cursor r) (RequestId r) (IdempotencyKey r) (Context r).
Definition set_Cursor (v : option EventCursor.EventCursor) (r : AcknowledgeActivityEventsRequest) : AcknowledgeActivityEventsRequest := mk (EventIds r) v (RequestId r) (IdempotencyKey r) (Context r).
Definition set_RequestId (v : string) (r : AcknowledgeActivityEventsRequest) : AcknowledgeActivityEventsRequest := mk (EventIds r) (Cursor r) v (IdempotencyKey r) (Context r).
Definition set_IdempotencyKey (v : string) (r : AcknowledgeActivityEventsRequest) : AcknowledgeActivityEventsRequest := mk (EventIds r) (Cursor r) (RequestId r) v (Context r).
Definition set_Context (v : option RequestContext.RequestContext) (r : AcknowledgeActivityEventsRequest) : AcknowledgeActivityEventsRequest := mk (EventIds r) (Cursor r) (RequestId r) (IdempotencyKey r) v.
End AcknowledgeActivityEventsRequest.

Module AcknowledgeActivityEventsResponse.
Record AcknowledgeActivityEventsResponse := mk {
  Accepted : bool;
  Cursor : option EventCursor.EventCursor
}.
Definition zero : AcknowledgeActivityEventsResponse := mk false None.
Definition set_Accepted (v : bool) (r : AcknowledgeActivityEventsResponse) : AcknowledgeActivityEventsResponse := mk v (Cursor r).
Definition set_Cursor (v : option EventCursor.EventCursor) (r : AcknowledgeActivityEventsResponse) : AcknowledgeActivityEventsResponse := mk (Accepted r) v.
End AcknowledgeActivityEventsResponse.

Module AcknowledgeServerEventsRequest.
Record AcknowledgeServerEventsRequest := mk {
  DaemonId : string;
  ComputerId : string;
  EventIds : list string;
  Cursor : option EventCursor.EventCursor;
  RequestId : string;
  IdempotencyKey : string;
  Context : option RequestContext.RequestContext
}.
Definition zero : AcknowledgeServerEventsRequest := mk "" "" [] None "" "" None.
Definition set_DaemonId (v : string) (r : AcknowledgeServerEventsRequest) : AcknowledgeServerEventsRequest := mk v (ComputerId r) (EventIds r) (Cursor r) (RequestId r) (IdempotencyKey r) (Context r).
Definition set_ComputerId (v : string) (r : AcknowledgeServerEventsRequest) : AcknowledgeServerEventsRequest := mk (DaemonId r) v (EventIds r) (Cursor r) (RequestId r) (IdempotencyKey r) (Context r).
Definition set_EventIds (v : list string) (r : AcknowledgeServerEventsRequest) : AcknowledgeServerEventsRequest := mk (DaemonId r) (ComputerId r) v (Cursor r) (RequestId r) (IdempotencyKey r) (Context r).
Definition set_Cursor (v : option EventCursor.EventCursor) (r : AcknowledgeServerEventsRequest) : AcknowledgeServerEventsRequest := mk (DaemonId r) (ComputerId r) (EventIds r) v (RequestId r) (IdempotencyKey r) (Context r).
Definition set_RequestId (v : string) (r : AcknowledgeServerEventsRequest) : AcknowledgeServerEventsRequest := mk (DaemonId r) (ComputerId r) (EventIds r) (Cursor r) v (IdempotencyKey r) (Context r).
Definition set_IdempotencyKey (v : string) (r : AcknowledgeServerEventsRequest) : AcknowledgeServerEventsRequest := mk (DaemonId r) (ComputerId r) (EventIds r) (Cursor r) (RequestId r) v (Context r).
Definition set_Context (v : option RequestContext.RequestContext) (r : AcknowledgeServerEventsRequest) : AcknowledgeServerEventsRequest := mk (DaemonId r) (ComputerId r) (EventIds r) (Cursor r) (RequestId r) (IdempotencyKey r) v.
End AcknowledgeServerEventsRequest.

Module AcknowledgeServerEventsResponse.
Record AcknowledgeServerEventsResponse := mk {
  Accepted : bool;
  Cursor : option EventCursor.EventCursor
}.
Definition zero : AcknowledgeServerEventsResponse := mk false None.
Definition set_Accepted (v : bool) (r : AcknowledgeServerEventsResponse) : AcknowledgeServerEventsResponse := mk v (Cursor r).
Definition set_Cursor (v : option EventCursor.EventCursor) (r : AcknowledgeServerEventsResponse) : AcknowledgeServerEventsResponse := mk (Accepted r) v.
End AcknowledgeServerEventsResponse.

Module AcquireStartPermitRequest.
Record AcquireStartPermitRequest := mk {
  ComputerId : string;
  AgentId : string;
  RuntimeProfileId : string;
  RequestId : string;
  IdempotencyKey : string;
  Context : option RequestContext.RequestContext;
  PermitTtlSeconds : Z
}.
Definition zero : AcquireStartPermitRequest := mk "" "" "" "" "" None 0%Z.
Definition set_ComputerId (v : string) (r : AcquireStartPermitRequest) : AcquireStartPermitRequest := mk v (AgentId r) (RuntimeProfileId r) (RequestId r) (IdempotencyKey r) (Context r) (PermitTtlSeconds r).
Definition set_AgentId (v : string) (r : AcquireStartPermitRequest) : AcquireStartPermitRequest := mk (ComputerId r) v (RuntimeProfileId r) (RequestId r) (IdempotencyKey r) (Context r) (PermitTtlSeconds r).
Definition set_RuntimeProfileId (v : string) (r : AcquireStartPermitRequest) : AcquireStartPermitRequest := mk (ComputerId r) (AgentId r) v (RequestId r) (IdempotencyKey r) (Context r) (PermitTtlSeconds r).
Definition set_RequestId (v : string) (r : AcquireStartPermitRequest) : AcquireStartPermitRequest := mk (ComputerId r) (AgentId r) (RuntimeProfileId r) v (IdempotencyKey r) (Context r) (PermitTtlSeconds r).
Definition set_IdempotencyKey (v : string) (r : AcquireStartPermitRequest) : AcquireStartPermitRequest := mk (ComputerId r) (AgentId r) (RuntimeProfileId r) (RequestId r) v (Context r) (PermitTtlSeconds r).
Definition set_Context (v : option RequestContext.RequestContext) (r : AcquireStartPermitRequest) : AcquireStartPermitRequest := mk (ComputerId r) (AgentId r) (RuntimeProfileId r) (RequestId r) (IdempotencyKey r) v (PermitTtlSeconds r).
Definition set_PermitTtlSeconds (v : Z) (r : AcquireStartPermitRequest) : AcquireStartPermitRequest := mk (ComputerId r) (AgentId r) (RuntimeProfileId r) (RequestId r) (IdempotencyKey r) (Context r) v.
End AcquireStartPermitRequest.

Module Lease.
Record Lease := mk {
  LeaseId : string;
  HolderId : string;
  ResourceType : string;
  ResourceId : string;
  ExpiresTimeUnix : Z;
  HeartbeatAfterSeconds : Z
}.
Definition zero : Lease := mk "" "" "" "" 0%Z 0%Z.
Definition set_LeaseId (v : string) (r : Lease) : Lease := mk v (HolderId r) (ResourceType r) (ResourceId r) (ExpiresTimeUnix r) (HeartbeatAfterSeconds r).
Definition set_HolderId (v : string) (r : Lease) : Lease := mk (LeaseId r) v (ResourceType r) (ResourceId r) (ExpiresTimeUnix r) (HeartbeatAfterSeconds r).
Definition set_ResourceType (v : string) (r : Lease) : Lease := mk (LeaseId r) (HolderId r) v (ResourceId r) (ExpiresTimeUnix r) (HeartbeatAfterSeconds r).
Definition set_ResourceId (v : string) (r : Lease) : Lease := mk (LeaseId r) (HolderId r) (ResourceType r) v (ExpiresTimeUnix r) (HeartbeatAfterSeconds r).
Definition set_ExpiresTimeUnix (v : Z) (r : Lease) : Lease := mk (LeaseId r) (HolderId r) (ResourceType r) (ResourceId r) v (HeartbeatAfterSeconds r).
Definition set_HeartbeatAfterSeconds (v : Z) (r : Lease) : Lease := mk (LeaseId r) (HolderId r) (ResourceType r) (ResourceId r) (ExpiresTimeUnix r) v.
End Lease.

Module AcquireStartPermitResponse.
Record AcquireStartPermitResponse := mk {
  Granted : bool;
  PermitLease : option Lease.Lease;
  QueuedOperationId : string;
  RetryAfterSeconds : Z;
  RejectionReason : string
}.
Definition zero : AcquireStartPermitResponse := mk false None "" 0%Z "".
Definition set_Granted (v : bool) (r : AcquireStartPermitResponse) : AcquireStartPermitResponse := mk v (PermitLease r) (QueuedOperationId r) (RetryAfterSeconds r) (RejectionReason r).
Definition set_PermitLease (v : option Lease.Lease) (r : AcquireStartPermitResponse) : AcquireStartPermitResponse := mk (Granted r) v (QueuedOperationId r) (RetryAfterSeconds r) (RejectionReason r).
Definition set_QueuedOperationId (v : string) (r : AcquireStartPermitResponse) : AcquireStartPermitResponse := mk (Granted r) (PermitLease r) v (RetryAfterSeconds r) (RejectionReason r).
Definition set_RetryAfterSeconds (v : Z) (r : AcquireStartPermitResponse) : AcquireStartPermitResponse := mk (Granted r) (PermitLease r) (QueuedOperationId r) v (RejectionReason r).
Definition set_RejectionReason (v : string) (r : AcquireStartPermitResponse) : AcquireStartPermitResponse := mk (Granted r) (PermitLease r) (QueuedOperationId r) (RetryAfterSeconds r) v.
End AcquireStartPermitResponse.

Module ActivityRecord.
Record ActivityRecord := mk {
  ActivityId : string;
  Target : string;
  AgentId : string;
  Kind : string;
  Summary : string;
  Detail : string;
  CreatedTimeUnix : Z;
  RunId : string;
  StepId : string;
  CoordinationRecordId : string;
  MemoryRecordId : string;
  Sequence : Z;
  AggregateId : string;
  ProtocolVersion : Z
}.
Definition zero : ActivityRecord := mk "" "" "" "" "" "" 0%Z "" "" "" "" 0%Z "" 0%Z.
Definition set_ActivityId (v : string) (r : ActivityRecord) : ActivityRecord := mk v (Target r) (AgentId r) (Kind r) (Summary r) (Detail r) (CreatedTimeUnix r) (RunId r) (StepId r) (CoordinationRecordId r) (MemoryRecordId r) (Sequence r) (AggregateId r) (ProtocolVersion r).
Definition set_Target (v : string) (r : ActivityRecord) : ActivityRecord := mk (ActivityId r) v (AgentId r) (Kind r) (Summary r) (Detail r) (CreatedTimeUnix r) (RunId r) (StepId r) (CoordinationRecordId r) (MemoryRecordId r) (Sequence r) (AggregateId r) (ProtocolVersion r).
Definition set_AgentId (v : string) (r : ActivityRecord) : ActivityRecord := mk (ActivityId r) (Target r) v (Kind r) (Summary r) (Detail r) (CreatedTimeUnix r) (RunId r) (StepId r) (CoordinationRecordId r) (MemoryRecordId r) (Sequence r) (AggregateId r) (ProtocolVersion r).
Definition set_Kind (v : string) (r : ActivityRecord) : ActivityRecord := mk (ActivityId r) (Target r) (AgentId r) v (Summary r) (Detail r) (CreatedTimeUnix r) (RunId r) (StepId r) (CoordinationRecordId r) (MemoryRecordId r) (Sequence r) (AggregateId r) (ProtocolVersion r).
Definition set_Summary (v : string) (r : ActivityRecord) : ActivityRecord := mk (ActivityId r) (Target r) (AgentId r) (Kind r) v (Detail r) (CreatedTimeUnix r) (RunId r) (StepId r) (CoordinationRecordId r) (MemoryRecordId r) (Sequence r) (AggregateId r) (ProtocolVersion r).
Definition set_Detail (v : string) (r : ActivityRecord) : ActivityRecord := mk (ActivityId r) (Target r) (AgentId r) (Kind r) (Summary r) v (CreatedTimeUnix r) (RunId r) (StepId r) (CoordinationRecordId r) (MemoryRecordId r) (Sequence r) (AggregateId r) (ProtocolVersion r).
Definition set_CreatedTimeUnix (v : Z) (r : ActivityRecord) : ActivityRecord := mk (ActivityId r) (Target r) (AgentId r) (Kind r) (Summary r) (Detail r) v (RunId r) (StepId r) (CoordinationRecordId r) (MemoryRecordId r) (Sequence r) (AggregateId r) (ProtocolVersion r).
Definition set_RunId (v : string) (r : ActivityRecord) : ActivityRecord := mk (ActivityId r) (Target r) (AgentId r) (Kind r) (Summary r) (Detail r) (CreatedTimeUnix r) v (StepId r) (CoordinationRecordId r) (MemoryRecordId r) (Sequence r) (AggregateId r) (ProtocolVersion r).
Definition set_StepId (v : string) (r : ActivityRecord) : ActivityRecord := mk (ActivityId r) (Target r) (AgentId r) (Kind r) (Summary r) (Detail r) (CreatedTimeUnix r) (RunId r) v (CoordinationRecordId r) (MemoryRecordId r) (Sequence r) (AggregateId r) (ProtocolVersion r).
Definition set_CoordinationRecordId (v : string) (r : ActivityRecord) : ActivityRecord := mk (ActivityId r) (Target r) (AgentId r) (Kind r) (Summary r) (Detail r) (CreatedTimeUnix r) (RunId r) (StepId r) v (MemoryRecordId r) (Sequence r) (AggregateId r) (ProtocolVersion r).
Definition set_MemoryRecordId (v : string) (r : ActivityRecord) : ActivityRecord := mk (ActivityId r) (Target r) (AgentId r) (Kind r) (Summary r) (Detail r) (CreatedTimeUnix r) (RunId r) (StepId r) (CoordinationRecordId r) v (Sequence r) (AggregateId r) (ProtocolVersion r).
Definition set_Sequence (v : Z) (r : ActivityRecord) : ActivityRecord := mk (ActivityId r) (Target r) (AgentId r) (Kind r) (Summary r) (Detail r) (CreatedTimeUnix r) (RunId r) (StepId r) (CoordinationRecordId r) (MemoryRecordId r) v (AggregateId r) (ProtocolVersion r).
Definition set_AggregateId (v : string) (r : ActivityRecord) : ActivityRecord := mk (ActivityId r) (Target r) (AgentId r) (Kind r) (Summary r) (Detail r) (CreatedTimeUnix r) (RunId r) (StepId r) (CoordinationRecordId r) (MemoryRecordId r) (Sequence r) v (ProtocolVersion r).
Definition set_ProtocolVersion (v : Z) (r : ActivityRecord) : ActivityRecord := mk (ActivityId r) (Target r) (AgentId r) (Kind r) (Summary r) (Detail r) (CreatedTimeUnix r) (RunId r) (StepId r) (CoordinationRecordId r) (MemoryRecordId r) (Sequence r) (AggregateId r) v.
End ActivityRecord.

Module AgentControlOperation.
Record AgentControlOperation := mk {
  OperationId : string;
  AgentId : string;
  ComputerId : string;
  RuntimeProfileId : string;
  Action : Z;
  State : Z;
  Reason : string;
  RequestedByAgentId : string;
  CreatedTimeUnix : Z;
  UpdatedTimeUnix : Z
}.
Definition zero : AgentControlOperation := mk "" "" "" "" 0%Z 0%Z "" "" 0%Z 0%Z.
Definition set_OperationId (v : string) (r : AgentControlOperation) : AgentControlOperation := mk v (AgentId r) (ComputerId r) (RuntimeProfileId r) (Action r) (State r) (Reason r) (RequestedByAgentId r) (CreatedTimeUnix r) (UpdatedTimeUnix r).
Definition set_AgentId (v : string) (r : AgentControlOperation) : AgentControlOperation := mk (OperationId r) v (ComputerId r) (RuntimeProfileId r) (Action r) (State r) (Reason r) (RequestedByAgentId r) (CreatedTimeUnix r) (UpdatedTimeUnix r).
Definition set_ComputerId (v : string) (r : AgentControlOperation) : AgentControlOperation := mk (OperationId r) (AgentId r) v (RuntimeProfileId r) (Action r) (State r) (Reason r) (RequestedByAgentId r) (CreatedTimeUnix r) (UpdatedTimeUnix r).
Definition set_RuntimeProfileId (v : string) (r : AgentControlOperation) : AgentControlOperation := mk (OperationId r) (AgentId r) (ComputerId r) v (Action r) (State r) (Reason r) (RequestedByAgentId r) (CreatedTimeUnix r) (UpdatedTimeUnix r).
Definition set_Action (v : Z) (r : AgentControlOperation) : AgentControlOperation := mk (OperationId r) (AgentId r) (ComputerId r) (RuntimeProfileId r) v (State r) (Reason r) (RequestedByAgentId r) (CreatedTimeUnix r) (UpdatedTimeUnix r).
Definition set_State (v : Z) (r : AgentControlOperation) : AgentControlOperation := mk (OperationId r) (AgentId r) (ComputerId r) (RuntimeProfileId r) (Action r) v (Reason r) (RequestedByAgentId r) (CreatedTimeUnix r) (UpdatedTimeUnix r).
Definition set_Reason (v : string) (r : AgentControlOperation) : AgentControlOperation := mk (OperationId r) (AgentId r) (ComputerId r) (RuntimeProfileId r) (Action r) (State r) v (RequestedByAgentId r) (CreatedTimeUnix r) (UpdatedTimeUnix r).
Definition set_RequestedByAgentId (v : string) (r : AgentControlOperation) : AgentControlOperation := mk (OperationId r) (AgentId r) (ComputerId r) (RuntimeProfileId r) (Action r) (State r) (Reason r) v (CreatedTimeUnix r) (UpdatedTimeUnix r).
Definition set_CreatedTimeUnix (v : Z) (r : AgentControlOperation) : AgentControlOperation := mk (OperationId r) (AgentId r) (ComputerId r) (RuntimeProfileId r) (Action r) (State r) (Reason r) (RequestedByAgentId r) v (UpdatedTimeUnix r).
Definition set_UpdatedTimeUnix (v : Z) (r : AgentControlOperation) : AgentControlOperation := mk (OperationId r) (AgentId r) (ComputerId r) (RuntimeProfileId r) (Action r) (State r) (Reason r) (RequestedByAgentId r) (CreatedTimeUnix r) v.
End AgentControlOperation.

Module EnvVar.
Record EnvVar := mk {
  Name : string;
  Value : string;
  Secret : bool;
  SecretRef : string;
  Redacted : bool
}.
Definition zero : EnvVar := mk "" "" false "" false.
Definition set_Name (v : string) (r : EnvVar) : EnvVar := mk v (Value r) (Secret r) (SecretRef r) (Redacted r).
Definition set_Value (v : string) (r : EnvVar) : EnvVar := mk (Name r) v (Secret r) (SecretRef r) (Redacted r).
Definition set_Secret (v : bool) (r : EnvVar) : EnvVar := mk (Name r) (Value r) v (SecretRef r) (Redacted r).
Definition set_SecretRef (v : string) (r : EnvVar) : EnvVar := mk (Name r) (Value r) (Secret r) v (Redacted r).
Definition set_Redacted (v : bool) (r : EnvVar) : EnvVar := mk (Name r) (Value r) (Secret r) (SecretRef r) v.
End EnvVar.

Module SkillRecord.
Record SkillRecord := mk {
  Id : string;
  Name : string;
  Description : string;
  Version : string;
  Enabled : bool;
  Always : bool;
  Eligible : bool;
  FilePath : string
}.
Definition zero : SkillRecord := mk "" "" "" "" false false false "".
Definition set_Id (v : string) (r : SkillRecord) : SkillRecord := mk v (Name r) (Description r) (Version r) (Enabled r) (Always r) (Eligible r) (FilePath r).
Definition set_Name (v : string) (r : SkillRecord) : SkillRecord := mk (Id r) v (Description r) (Version r) (Enabled r) (Always r) (Eligible r) (FilePath r).
Definition set_Description (v : string) (r : SkillRecord) : SkillRecord := mk (Id r) (Name r) v (Version r) (Enabled r) (Always r) (Eligible r) (FilePath r).
Definition set_Version (v : string) (r : SkillRecord) : SkillRecord := mk (Id r) (Name r) (Description r) v (Enabled r) (Always r) (Eligible r) (FilePath r).
Definition set_Enabled (v : bool) (r : SkillRecord) : SkillRecord := mk (Id r) (Name r) (Description r) (Version r) v (Always r) (Eligible r) (FilePath r).
Definition set_Always (v : bool) (r : SkillRecord) : SkillRecord := mk (Id r) (Name r) (Description r) (Version r) (Enabled r) v (Eligible r) (FilePath r).
Definition set_Eligible (v : bool) (r : SkillRecord) : SkillRecord := mk (Id r) (Name r) (Description r) (Version r) (Enabled r) (Always r) v (FilePath r).
Definition set_FilePath (v : string) (r : SkillRecord) : SkillRecord := mk (Id r) (Name r) (Description r) (Version r) (Enabled r) (Always r) (Eligible r) v.
End SkillRecord.

Module Capability.
Record Capability := mk {
  Name : string;
  Description : string;
  Enabled : bool
}.
Definition zero : Capability := mk "" "" false.
Definition set_Name (v : string) (r : Capability) : Capability := mk v (Description r) (Enabled r).
Definition set_Description (v : string) (r : Capability) : Capability := mk (Name r) v (Enabled r).
Definition set_Enabled (v : bool) (r : Capability) : Capability := mk (Name r) (Description r) v.
End Capability.

Module Permission.
Record Permission := mk {
  Name : string;
  Target : string;
  Allowed : bool;
  Reason : string;
  Scope : Z
}.
Definition zero : Permission := mk "" "" false "" 0%Z.
Definition set_Name (v : string) (r : Permission) : Permission := mk v (Target r) (Allowed r) (Reason r) (Scope r).
Definition set_Target (v : string) (r : Permission) : Permission := mk (Name r) v (Allowed r) (Reason r) (Scope r).
Definition set_Allowed (v : bool) (r : Permission) : Permission := mk (Name r) (Target r) v (Reason r) (Scope r).
Definition set_Reason (v : string) (r : Permission) : Permission := mk (Name r) (Target r) (Allowed r) v (Scope r).
Definition set_Scope (v : Z) (r : Permission) : Permission := mk (Name r) (Target r) (Allowed r) (Reason r) v.
End Permission.

Module AgentStatusSnapshot.
Record AgentStatusSnapshot := mk {
  AgentId : string;
  ComputerId : string;
  RuntimeProfileId : string;
  Presence : Z;
  ActivityState : Z;
  Health : Z;
  Summary : string;
  Detail : string;
  Target : string;
  ThreadId : string;
  MessageId : string;
  TaskId : string;
  RunId : string;
  OperationId : string;
  Severity : Z;
  StartedTimeUnix : Z;
  UpdatedTimeUnix : Z;
  ExpiresTimeUnix : Z
}.
Definition zero : AgentStatusSnapshot := mk "" "" "" 0%Z 0%Z 0%Z "" "" "" "" "" "" "" "" 0%Z 0%Z 0%Z 0%Z.
Definition set_AgentId (v : string) (r : AgentStatusSnapshot) : AgentStatusSnapshot := mk v (ComputerId r) (RuntimeProfileId r) (Presence r) (ActivityState r) (Health r) (Summary r) (Detail r) (Target r) (ThreadId r) (MessageId r) (TaskId r) (RunId r) (OperationId r) (Severity r) (StartedTimeUnix r) (UpdatedTimeUnix r) (ExpiresTimeUnix r).
Definition set_ComputerId (v : string) (r : AgentStatusSnapshot) : AgentStatusSnapshot := mk (AgentId r) v (RuntimeProfileId r) (Presence r) (ActivityState r) (Health r) (Summary r) (Detail r) (Target r) (ThreadId r) (MessageId r) (TaskId r) (RunId r) (OperationId r) (Severity r) (StartedTimeUnix r) (UpdatedTimeUnix r) (ExpiresTimeUnix r).
Definition set_RuntimeProfileId (v : string) (r : AgentStatusSnapshot) : AgentStatusSnapshot := mk (AgentId r) (ComputerId r) v (Presence r) (ActivityState r) (Health r) (Summary r) (Detail r) (Target r) (ThreadId r) (MessageId r) (TaskId r) (RunId r) (OperationId r) (Severity r) (StartedTimeUnix r) (UpdatedTimeUnix r) (ExpiresTimeUnix r).
Definition set_Presence (v : Z) (r : AgentStatusSnapshot) : AgentStatusSnapshot := mk (AgentId r) (ComputerId r) (RuntimeProfileId r) v (ActivityState r) (Health r) (Summary r) (Detail r) (Target r) (ThreadId r) (MessageId r) (TaskId r) (RunId r) (OperationId r) (Severity r) (StartedTimeUnix r) (UpdatedTimeUnix r) (ExpiresTimeUnix r).
Definition set_ActivityState (v : Z) (r : AgentStatusSnapshot) : AgentStatusSnapshot := mk (AgentId r) (ComputerId r) (RuntimeProfileId r) (Presence r) v (Health r) (Summary r) (Detail r) (Target r) (ThreadId r) (MessageId r) (TaskId r) (RunId r) (OperationId r) (Severity r) (StartedTimeUnix r) (UpdatedTimeUnix r) (ExpiresTimeUnix r).
Definition set_Health (v : Z) (r : AgentStatusSnapshot) : AgentStatusSnapshot := mk (AgentId r) (ComputerId r) (RuntimeProfileId r) (Presence r) (ActivityState r) v (Summary r) (Detail r) (Target r) (ThreadId r) (MessageId r) (TaskId r) (RunId r) (OperationId r) (Severity r) (StartedTimeUnix r) (UpdatedTimeUnix r) (ExpiresTimeUnix r).
Definition set_Summary (v : string) (r : AgentStatusSnapshot) : AgentStatusSnapshot := mk (AgentId r) (ComputerId r) (RuntimeProfileId r) (Presence r) (ActivityState r) (Health r) v (Detail r) (Target r) (ThreadId r) (MessageId r) (TaskId r) (RunId r) (OperationId r) (Severity r) (StartedTimeUnix r) (UpdatedTimeUnix r) (ExpiresTimeUnix r).
Definition set_Detail (v : string) (r : AgentStatusSnapshot) : AgentStatusSnapshot := mk (AgentId r) (ComputerId r) (RuntimeProfileId r) (Presence r) (ActivityState r) (Health r) (Summary r) v (Target r) (ThreadId r) (MessageId r) (TaskId r) (RunId r) (OperationId r) (Severity r) (StartedTimeUnix r) (UpdatedTimeUnix r) (ExpiresTimeUnix r).
Definition set_Target (v : string) (r : AgentStatusSnapshot) : AgentStatusSnapshot := mk (AgentId r) (ComputerId r) (RuntimeProfileId r) (Presence r) (ActivityState r) (Health r) (Summary r) (Detail r) v (ThreadId r) (MessageId r) (TaskId r) (RunId r) (OperationId r) (Severity r) (StartedTimeUnix r) (UpdatedTimeUnix r) (ExpiresTimeUnix r).
Definition set_ThreadId (v : string) (r : AgentStatusSnapshot) : AgentStatusSnapshot := mk (AgentId r) (ComputerId r) (RuntimeProfileId r) (Presence r) (ActivityState r) (Health r) (Summary r) (Detail r) (Target r) v (MessageId r) (TaskId r) (RunId r) (OperationId r) (Severity r) (StartedTimeUnix r) (UpdatedTimeUnix r) (ExpiresTimeUnix r).
Definition set_MessageId (v : string) (r : AgentStatusSnapshot) : AgentStatusSnapshot := mk (AgentId r) (ComputerId r) (RuntimeProfileId r) (Presence r) (ActivityState r) (Health r) (Summary r) (Detail r) (Target r) (ThreadId r) v (TaskId r) (RunId r) (OperationId r) (Severity r) (StartedTimeUnix r) (UpdatedTimeUnix r) (ExpiresTimeUnix r).
Definition set_TaskId (v : string) (r : AgentStatusSnapshot) : AgentStatusSnapshot := mk (AgentId r) (ComputerId r) (RuntimeProfileId r) (Presence r) (ActivityState r) (Health r) (Summary r) (Detail r) (Target r) (ThreadId r) (MessageId r) v (RunId r) (OperationId r) (Severity r) (StartedTimeUnix r) (UpdatedTimeUnix r) (ExpiresTimeUnix r).
Definition set_RunId (v : string) (r : AgentStatusSnapshot) : AgentStatusSnapshot := mk (AgentId r) (ComputerId r) (RuntimeProfileId r) (Presence r) (ActivityState r) (Health r) (Summary r) (Detail r) (Target r) (ThreadId r) (MessageId r) (TaskId r) v (OperationId r) (Severity r) (StartedTimeUnix r) (UpdatedTimeUnix r) (ExpiresTimeUnix r).
Definition set_OperationId (v : string) (r : AgentStatusSnapshot) : AgentStatusSnapshot := mk (AgentId r) (ComputerId r) (RuntimeProfileId r) (Presence r) (ActivityState r) (Health r) (Summary r) (Detail r) (Target r) (ThreadId r) (MessageId r) (TaskId r) (RunId r) v (Severity r) (StartedTimeUnix r) (UpdatedTimeUnix r) (ExpiresTimeUnix r).
Definition set_Severity (v : Z) (r : AgentStatusSnapshot) : AgentStatusSnapshot := mk (AgentId r) (ComputerId r) (RuntimeProfileId r) (Presence r) (ActivityState r) (Health r) (Summary r) (Detail r) (Target r) (ThreadId r) (MessageId r) (TaskId r) (RunId r) (OperationId r) v (StartedTimeUnix r) (UpdatedTimeUnix r) (ExpiresTimeUnix r).
Definition set_StartedTimeUnix (v : Z) (r : AgentStatusSnapshot) : AgentStatusSnapshot := mk (AgentId r) (ComputerId r) (RuntimeProfileId r) (Presence r) (ActivityState r) (Health r) (Summary r) (Detail r) (Target r) (ThreadId r) (MessageId r) (TaskId r) (RunId r) (OperationId r) (Severity r) v (UpdatedTimeUnix r) (ExpiresTimeUnix r).
Definition set_UpdatedTimeUnix (v : Z) (r : AgentStatusSnapshot) : AgentStatusSnapshot := mk (AgentId r) (ComputerId r) (RuntimeProfileId r) (Presence r) (ActivityState r) (Health r) (Summary r) (Detail r) (Target r) (ThreadId r) (MessageId r) (TaskId r) (RunId r) (OperationId r) (Severity r) (StartedTimeUnix r) v (ExpiresTimeUnix r).
Definition set_ExpiresTimeUnix (v : Z) (r : AgentStatusSnapshot) : AgentStatusSnapshot := mk (AgentId r) (ComputerId r) (RuntimeProfileId r) (Presence r) (ActivityState r) (Health r) (Summary r) (Detail r) (Target r) (ThreadId r) (MessageId r) (TaskId r) (RunId r) (OperationId r) (Severity r) (StartedTimeUnix r) (UpdatedTimeUnix r) v.
End AgentStatusSnapshot.

Module AgentRoleAssignment.
Record AgentRoleAssignment := mk {
  RoleId : string;
  Name : Z;
  Scope : Z;
  Target : string;
  TaskId : string;
  Active : bool;
  AssignedTimeUnix : Z;
  AssignedByAgentId : string;
  AssignedByUserId : string
}.
Definition zero : AgentRoleAssignment := mk "" 0%Z 0%Z "" "" false 0%Z "" "".
Definition set_RoleId (v : string) (r : AgentRoleAssignment) : AgentRoleAssignment := mk v (Name r) (Scope r) (Target r) (TaskId r) (Active r) (AssignedTimeUnix r) (AssignedByAgentId r) (AssignedByUserId r).
Definition set_Name (v : Z) (r : AgentRoleAssignment) : AgentRoleAssignment := mk (RoleId r) v (Scope r) (Target r) (TaskId r) (Active r) (AssignedTimeUnix r) (AssignedByAgentId r) (AssignedByUserId r).
Definition set_Scope (v : Z) (r : AgentRoleAssignment) : AgentRoleAssignment := mk (RoleId r) (Name r) v (Target r) (TaskId r) (Active r) (AssignedTimeUnix r) (AssignedByAgentId r) (AssignedByUserId r).
Definition set_Target (v : string) (r : AgentRoleAssignment) : AgentRoleAssignment := mk (RoleId r) (Name r) (Scope r) v (TaskId r) (Active r) (AssignedTimeUnix r) (AssignedByAgentId r) (AssignedByUserId r).
Definition set_TaskId (v : string) (r : AgentRoleAssignment) : AgentRoleAssignment := mk (RoleId r) (Name r) (Scope r) (Target r) v (Active r) (AssignedTimeUnix r) (AssignedByAgentId r) (AssignedByUserId r).
Definition set_Active (v : bool) (r : AgentRoleAssignment) : AgentRoleAssignment := mk (RoleId r) (Name r) (Scope r) (Target r) (TaskId r) v (AssignedTimeUnix r) (AssignedByAgentId r) (AssignedByUserId r).
Definition set_AssignedTimeUnix (v : Z) (r : AgentRoleAssignment) : AgentRoleAssignment := mk (RoleId r) (Name r) (Scope r) (Target r) (TaskId r) (Active r) v (AssignedByAgentId r) (AssignedByUserId r).
Definition set_AssignedByAgentId (v : string) (r : AgentRoleAssignment) : AgentRoleAssignment := mk (RoleId r) (Name r) (Scope r) (Target r) (TaskId r) (Active r) (AssignedTimeUnix r) v (AssignedByUserId r).
Definition set_AssignedByUserId (v : string) (r : AgentRoleAssignment) : AgentRoleAssignment := mk (RoleId r) (Name r) (Scope r) (Target r) (TaskId r) (Active r) (AssignedTimeUnix r) (AssignedByAgentId r) v.
End AgentRoleAssignment.

Module AgentProfile.
Record AgentProfile := mk {
  AgentId : string;
  Name : string;
  DisplayName : string;
  Description : string;
  Enabled : bool;
  Provider : string;
  Model : string;
  Env : list EnvVar.EnvVar;
  Skills : list SkillRecord.SkillRecord;
  DmTargets : list string;
  ComputerId : string;
  RuntimeProfileId : string;
  Status : Z;
  LastActivityTimeUnix : Z;
  Capabilities : list Capability.Capability;
  Permissions : list Permission.Permission;
  StatusSnapshot : option AgentStatusSnapshot.AgentStatusSnapshot;
  AvatarUrl : string;
  RuntimeKind : string;
  ReasoningEffort : string;
  ExecutionMode : string;
  DaemonVersion : string;
  Roles : list AgentRoleAssignment.AgentRoleAssignment;
  MemoryRoot : string;
  CoordinationTags : list string
}.
Definition zero : AgentProfile := mk "" "" "" "" false "" "" [] [] [] "" "" 0%Z 0%Z [] [] None "" "" "" "" "" [] "" [].
Definition set_AgentId (v : string) (r : AgentProfile) : AgentProfile := mk v (Name r) (DisplayName r) (Description r) (Enabled r) (Provider r) (Model r) (Env r) (Skills r) (DmTargets r) (ComputerId r) (RuntimeProfileId r) (Status r) (LastActivityTimeUnix r) (Capabilities r) (Permissions r) (StatusSnapshot r) (AvatarUrl r) (RuntimeKind r) (ReasoningEffort r) (ExecutionMode r) (DaemonVersion r) (Roles r) (MemoryRoot r) (CoordinationTags r).
Definition set_Name (v : string) (r : AgentProfile) : AgentProfile := mk (AgentId r) v (DisplayName r) (Description r) (Enabled r) (Provider r) (Model r) (Env r) (Skills r) (DmTargets r) (ComputerId r) (RuntimeProfileId r) (Status r) (LastActivityTimeUnix r) (Capabilities r) (Permissions r) (StatusSnapshot r) (AvatarUrl r) (RuntimeKind r) (ReasoningEffort r) (ExecutionMode r) (DaemonVersion r) (Roles r) (MemoryRoot r) (CoordinationTags r).
Definition set_DisplayName (v : string) (r : AgentProfile) : AgentProfile := mk (AgentId r) (Name r) v (Description r) (Enabled r) (Provider r) (Model r) (Env r) (Skills r) (DmTargets r) (ComputerId r) (RuntimeProfileId r) (Status r) (LastActivityTimeUnix r) (Capabilities r) (Permissions r) (StatusSnapshot r) (AvatarUrl r) (RuntimeKind r) (ReasoningEffort r) (ExecutionMode r) (DaemonVersion r) (Roles r) (MemoryRoot r) (CoordinationTags r).
Definition set_Description (v : string) (r : AgentProfile) : AgentProfile := mk (AgentId r) (Name r) (DisplayName r) v (Enabled r) (Provider r) (Model r) (Env r) (Skills r) (DmTargets r) (ComputerId r) (RuntimeProfileId r) (Status r) (LastActivityTimeUnix r) (Capabilities r) (Permissions r) (StatusSnapshot r) (AvatarUrl r) (RuntimeKind r) (ReasoningEffort r) (ExecutionMode r) (DaemonVersion r) (Roles r) (MemoryRoot r) (CoordinationTags r).
Definition set_Enabled (v : bool) (r : AgentProfile) : AgentProfile := mk (AgentId r) (Name r) (DisplayName r) (Description r) v (Provider r) (Model r) (Env r) (Skills r) (DmTargets r) (ComputerId r) (RuntimeProfileId r) (Status r) (LastActivityTimeUnix r) (Capabilities r) (Permissions r) (StatusSnapshot r) (AvatarUrl r) (RuntimeKind r) (ReasoningEffort r) (ExecutionMode r) (DaemonVersion r) (Roles r) (MemoryRoot r) (CoordinationTags r).
Definition set_Provider (v : string) (r : AgentProfile) : AgentProfile := mk (AgentId r) (Name r) (DisplayName r) (Description r) (Enabled r) v (Model r) (Env r) (Skills r) (DmTargets r) (ComputerId r) (RuntimeProfileId r) (Status r) (LastActivityTimeUnix r) (Capabilities r) (Permissions r) (StatusSnapshot r) (AvatarUrl r) (RuntimeKind r) (ReasoningEffort r) (ExecutionMode r) (DaemonVersion r) (Roles r) (MemoryRoot r) (CoordinationTags r).
Definition set_Model (v : string) (r : AgentProfile) : AgentProfile := mk (AgentId r) (Name r) (DisplayName r) (Description r) (Enabled r) (Provider r) v (Env r) (Skills r) (DmTargets r) (ComputerId r) (RuntimeProfileId r) (Status r) (LastActivityTimeUnix r) (Capabilities r) (Permissions r) (StatusSnapshot r) (AvatarUrl r) (RuntimeKind r) (ReasoningEffort r) (ExecutionMode r) (DaemonVersion r) (Roles r) (MemoryRoot r) (CoordinationTags r).
Definition set_Env (v : list EnvVar.EnvVar) (r : AgentProfile) : AgentProfile := mk (AgentId r) (Name r) (DisplayName r) (Description r) (Enabled r) (Provider r) (Model r) v (Skills r) (DmTargets r) (ComputerId r) (RuntimeProfileId r) (Status r) (LastActivityTimeUnix r) (Capabilities r) (Permissions r) (StatusSnapshot r) (AvatarUrl r) (RuntimeKind r) (ReasoningEffort r) (ExecutionMode r) (DaemonVersion r) (Roles r) (MemoryRoot r) (CoordinationTags r).
Definition set_Skills (v : list SkillRecord.SkillRecord) (r : AgentProfile) : AgentProfile := mk (AgentId r) (Name r) (DisplayName r) (Description r) (Enabled r) (Provider r) (Model r) (Env r) v (DmTargets r) (ComputerId r) (RuntimeProfileId r) (Status r) (LastActivityTimeUnix r) (Capabilities r) (Permissions r) (StatusSnapshot r) (AvatarUrl r) (RuntimeKind r) (ReasoningEffort r) (ExecutionMode r) (DaemonVersion r) (Roles r) (MemoryRoot r) (CoordinationTags r).
Definition set_DmTargets (v : list string) (r : AgentProfile) : AgentProfile := mk (AgentId r) (Name r) (DisplayName r) (Description r) (Enabled r) (Provider r) (Model r) (Env r) (Skills r) v (ComputerId r) (RuntimeProfileId r) (Status r) (LastActivityTimeUnix r) (Capabilities r) (Permissions r) (StatusSnapshot r) (AvatarUrl r) (RuntimeKind r) (ReasoningEffort r) (ExecutionMode r) (DaemonVersion r) (Roles r) (MemoryRoot r) (CoordinationTags r).
Definition set_ComputerId (v : string) (r : AgentProfile) : AgentProfile := mk (AgentId r) (Name r) (DisplayName r) (Description r) (Enabled r) (Provider r) (Model r) (Env r) (Skills r) (DmTargets r) v (RuntimeProfileId r) (Status r) (LastActivityTimeUnix r) (Capabilities r) (Permissions r) (StatusSnapshot r) (AvatarUrl r) (RuntimeKind r) (ReasoningEffort r) (ExecutionMode r) (DaemonVersion r) (Roles r) (MemoryRoot r) (CoordinationTags r).
Definition set_RuntimeProfileId (v : string) (r : AgentProfile) : AgentProfile := mk (AgentId r) (Name r) (DisplayName r) (Description r) (Enabled r) (Provider r) (Model r) (Env r) (Skills r) (DmTargets r) (ComputerId r) v (Status r) (LastActivityTimeUnix r) (Capabilities r) (Permissions r) (StatusSnapshot r) (AvatarUrl r) (RuntimeKind r) (ReasoningEffort r) (ExecutionMode r) (DaemonVersion r) (Roles r) (MemoryRoot r) (CoordinationTags r).
Definition set_Status (v : Z) (r : AgentProfile) : AgentProfile := mk (AgentId r) (Name r) (DisplayName r) (Description r) (Enabled r) (Provider r) (Model r) (Env r) (Skills r) (DmTargets r) (ComputerId r) (RuntimeProfileId r) v (LastActivityTimeUnix r) (Capabilities r) (Permissions r) (StatusSnapshot r) (AvatarUrl r) (RuntimeKind r) (ReasoningEffort r) (ExecutionMode r) (DaemonVersion r) (Roles r) (MemoryRoot r) (CoordinationTags r).
Definition set_LastActivityTimeUnix (v : Z) (r : AgentProfile) : AgentProfile := mk (AgentId r) (Name r) (DisplayName r) (Description r) (Enabled r) (Provider r) (Model r) (Env r) (Skills r) (DmTargets r) (ComputerId r) (RuntimeProfileId r) (Status r) v (Capabilities r) (Permissions r) (StatusSnapshot r) (AvatarUrl r) (RuntimeKind r) (ReasoningEffort r) (ExecutionMode r) (DaemonVersion r) (Roles r) (MemoryRoot r) (CoordinationTags r).
Definition set_Capabilities (v : list Capability.Capability) (r : AgentProfile) : AgentProfile := mk (AgentId r) (Name r) (DisplayName r) (Description r) (Enabled r) (Provider r) (Model r) (Env r) (Skills r) (DmTargets r) (ComputerId r) (RuntimeProfileId r) (Status r) (LastActivityTimeUnix r) v (Permissions r) (StatusSnapshot r) (AvatarUrl r) (RuntimeKind r) (ReasoningEffort r) (ExecutionMode r) (DaemonVersion r) (Roles r) (MemoryRoot r) (CoordinationTags r).
Definition set_Permissions (v : list Permission.Permission) (r : AgentProfile) : AgentProfile := mk (AgentId r) (Name r) (DisplayName r) (Description r) (Enabled r) (Provider r) (Model r) (Env r) (Skills r) (DmTargets r) (ComputerId r) (RuntimeProfileId r) (Status r) (LastActivityTimeUnix r) (Capabilities r) v (StatusSnapshot r) (AvatarUrl r) (RuntimeKind r) (ReasoningEffort r) (ExecutionMode r) (DaemonVersion r) (Roles r) (MemoryRoot r) (CoordinationTags r).
Definition set_StatusSnapshot (v : option AgentStatusSnapshot.AgentStatusSnapshot) (r : AgentProfile) : AgentProfile := mk (AgentId r) (Name r) (DisplayName r) (Description r) (Enabled r) (Provider r) (Model r) (Env r) (Skills r) (DmTargets r) (ComputerId r) (RuntimeProfileId r) (Status r) (LastActivityTimeUnix r) (Capabilities r) (Permissions r) v (AvatarUrl r) (RuntimeKind r) (ReasoningEffort r) (ExecutionMode r) (DaemonVersion r) (Roles r) (MemoryRoot r) (CoordinationTags r).
Definition set_AvatarUrl (v : string) (r : AgentProfile) : AgentProfile := mk (AgentId r) (Name r) (DisplayName r) (Description r) (Enabled r) (Provider r) (Model r) (Env r) (Skills r) (DmTargets r) (ComputerId r) (RuntimeProfileId r) (Status r) (LastActivityTimeUnix r) (Capabilities r) (Permissions r) (StatusSnapshot r) v (RuntimeKind r) (ReasoningEffort r) (ExecutionMode r) (DaemonVersion r) (Roles r) (MemoryRoot r) (CoordinationTags r).
Definition set_RuntimeKind (v : string) (r : AgentProfile) : AgentProfile := mk (AgentId r) (Name r) (DisplayName r) (Description r) (Enabled r) (Provider r) (Model r) (Env r) (Skills r) (DmTargets r) (ComputerId r) (RuntimeProfileId r) (Status r) (LastActivityTimeUnix r) (Capabilities r) (Permissions r) (StatusSnapshot r) (AvatarUrl r) v (ReasoningEffort r) (ExecutionMode r) (DaemonVersion r) (Roles r) (MemoryRoot r) (CoordinationTags r).
Definition set_ReasoningEffort (v : string) (r : AgentProfile) : AgentProfile := mk (AgentId r) (Name r) (DisplayName r) (Description r) (Enabled r) (Provider r) (Model r) (Env r) (Skills r) (DmTargets r) (ComputerId r) (RuntimeProfileId r) (Status r) (LastActivityTimeUnix r) (Capabilities r) (Permissions r) (StatusSnapshot r) (AvatarUrl r) (RuntimeKind r) v (ExecutionMode r) (DaemonVersion r) (Roles r) (MemoryRoot r) (CoordinationTags r).
Definition set_ExecutionMode (v : string) (r : AgentProfile) : AgentProfile := mk (AgentId r) (Name r) (DisplayName r) (Description r) (Enabled r) (Provider r) (Model r) (Env r) (Skills r) (DmTargets r) (ComputerId r) (RuntimeProfileId r) (Status r) (LastActivityTimeUnix r) (Capabilities r) (Permissions r) (StatusSnapshot r) (AvatarUrl r) (RuntimeKind r) (ReasoningEffort r) v (DaemonVersion r) (Roles r) (MemoryRoot r) (CoordinationTags r).
Definition set_DaemonVersion (v : string) (r : AgentProfile) : AgentProfile := mk (AgentId r) (Name r) (DisplayName r) (Description r) (Enabled r) (Provider r) (Model r) (Env r) (Skills r) (DmTargets r) (ComputerId r) (RuntimeProfileId r) (Status r) (LastActivityTimeUnix r) (Capabilities r) (Permissions r) (StatusSnapshot r) (AvatarUrl r) (RuntimeKind r) (ReasoningEffort r) (ExecutionMode r) v (Roles r) (MemoryRoot r) (CoordinationTags r).
Definition set_Roles (v : list AgentRoleAssignment.AgentRoleAssignment) (r : AgentProfile) : AgentProfile := mk (AgentId r) (Name r) (DisplayName r) (Description r) (Enabled r) (Provider r) (Model r) (Env r) (Skills r) (DmTargets r) (ComputerId r) (RuntimeProfileId r) (Status r) (LastActivityTimeUnix r) (Capabilities r) (Permissions r) (StatusSnapshot r) (AvatarUrl r) (RuntimeKind r) (ReasoningEffort r) (ExecutionMode r) (DaemonVersion r) v (MemoryRoot r) (CoordinationTags r).
Definition set_MemoryRoot (v : string) (r : AgentProfile) : AgentProfile := mk (AgentId r) (Name r) (DisplayName r) (Description r) (Enabled r) (Provider r) (Model r) (Env r) (Skills r) (DmTargets r) (ComputerId r) (RuntimeProfileId r) (Status r) (LastActivityTimeUnix r) (Capabilities r) (Permissions r) (StatusSnapshot r) (AvatarUrl r) (RuntimeKind r) (ReasoningEffort r) (ExecutionMode r) (DaemonVersion r) (Roles r) v (CoordinationTags r).
Definition set_CoordinationTags (v : list string) (r : AgentProfile) : AgentProfile := mk (AgentId r) (Name r) (DisplayName r) (Description r) (Enabled r) (Provider r) (Model r) (Env r) (Skills r) (DmTargets r) (ComputerId r) (RuntimeProfileId r) (Status r) (LastActivityTimeUnix r) (Capabilities r) (Permissions r) (StatusSnapshot r) (AvatarUrl r) (RuntimeKind r) (ReasoningEffort r) (ExecutionMode r) (DaemonVersion r) (Roles r) (MemoryRoot r) v.
End AgentProfile.

Module AgentRunEvent.
Record AgentRunEvent := mk {
  RunId : string;
  AgentId : string;
  ComputerId : string;
  Phase : Z;
  AtUnixNano : Z;
  Summary : string;
  PayloadJson : string;
  ExitCode : Z;
  ErrorMessage : string
}.
Definition zero : AgentRunEvent := mk "" "" "" 0%Z 0%Z "" "" 0%Z "".
Definition set_RunId (v : string) (r : AgentRunEvent) : AgentRunEvent := mk v (AgentId r) (ComputerId r) (Phase r) (AtUnixNano r) (Summary r) (PayloadJson r) (ExitCode r) (ErrorMessage r).
Definition set_AgentId (v : string) (r : AgentRunEvent) : AgentRunEvent := mk (RunId r) v (ComputerId r) (Phase r) (AtUnixNano r) (Summary r) (PayloadJson r) (ExitCode r) (ErrorMessage r).
Definition set_ComputerId (v : string) (r : AgentRunEvent) : AgentRunEvent := mk (RunId r) (AgentId r) v (Phase r) (AtUnixNano r) (Summary r) (PayloadJson r) (ExitCode r) (ErrorMessage r).
Definition set_Phase (v : Z) (r : AgentRunEvent) : AgentRunEvent := mk (RunId r) (AgentId r) (ComputerId r) v (AtUnixNano r) (Summary r) (PayloadJson r) (ExitCode r) (ErrorMessage r).
Definition set_AtUnixNano (v : Z) (r : AgentRunEvent) : AgentRunEvent := mk (RunId r) (AgentId r) (ComputerId r) (Phase r) v (Summary r) (PayloadJson r) (ExitCode r) (ErrorMessage r).
Definition set_Summary (v : string) (r : AgentRunEvent) : AgentRunEvent := mk (RunId r) (AgentId r) (ComputerId r) (Phase r) (AtUnixNano r) v (PayloadJson r) (ExitCode r) (ErrorMessage r).
Definition set_PayloadJson (v : string) (r : AgentRunEvent) : AgentRunEvent := mk (RunId r) (AgentId r) (ComputerId r) (Phase r) (AtUnixNano r) (Summary r) v (ExitCode r) (ErrorMessage r).
Definition set_ExitCode (v : Z) (r : AgentRunEvent) : AgentRunEvent := mk (RunId r) (AgentId r) (ComputerId r) (Phase r) (AtUnixNano r) (Summary r) (PayloadJson r) v (ErrorMessage r).
Definition set_ErrorMessage (v : string) (r : AgentRunEvent) : AgentRunEvent := mk (RunId r) (AgentId r) (ComputerId r) (Phase r) (AtUnixNano r) (Summary r) (PayloadJson r) (ExitCode r) v.
End AgentRunEvent.

Module AgentRunSummary.
Record AgentRunSummary := mk {
  RunId : string;
  AgentId : string;
  ComputerId : string;
  StartedTimeUnix : Z;
  EndedTimeUnix : Z;
  ExitCode : Z;
  Summary : string;
  ErrorMessage : string;
  EventCount : Z
}.
Definition zero : AgentRunSummary := mk "" "" "" 0%Z 0%Z 0%Z "" "" 0%Z.
Definition set_RunId (v : string) (r : AgentRunSummary) : AgentRunSummary := mk v (AgentId r) (ComputerId r) (StartedTimeUnix r) (EndedTimeUnix r) (ExitCode r) (Summary r) (ErrorMessage r) (EventCount r).
Definition set_AgentId (v : string) (r : AgentRunSummary) : AgentRunSummary := mk (RunId r) v (ComputerId r) (StartedTimeUnix r) (EndedTimeUnix r) (ExitCode r) (Summary r) (ErrorMessage r) (EventCount r).
Definition set_ComputerId (v : string) (r : AgentRunSummary) : AgentRunSummary := mk (RunId r) (AgentId r) v (StartedTimeUnix r) (EndedTimeUnix r) (ExitCode r) (Summary r) (ErrorMessage r) (EventCount r).
Definition set_StartedTimeUnix (v : Z) (r : AgentRunSummary) : AgentRunSummary := mk (RunId r) (AgentId r) (ComputerId r) v (EndedTimeUnix r) (ExitCode r) (Summary r) (ErrorMessage r) (EventCount r).
Definition set_EndedTimeUnix (v : Z) (r : AgentRunSummary) : AgentRunSummary := mk (RunId r) (AgentId r) (ComputerId r) (StartedTimeUnix r) v (ExitCode r) (Summary r) (ErrorMessage r) (EventCount r).
Definition set_ExitCode (v : Z) (r : AgentRunSummary) : AgentRunSummary := mk (RunId r) (AgentId r) (ComputerId r) (StartedTimeUnix r) (EndedTimeUnix r) v (Summary r) (ErrorMessage r) (EventCount r).
Definition set_Summary (v : string) (r : AgentRunSummary) : AgentRunSummary := mk (RunId r) (AgentId r) (ComputerId r) (StartedTimeUnix r) (EndedTimeUnix r) (ExitCode r) v (ErrorMessage r) (EventCount r).
Definition set_ErrorMessage (v : string) (r : AgentRunSummary) : AgentRunSummary := mk (RunId r) (AgentId r) (ComputerId r) (StartedTimeUnix r) (EndedTimeUnix r) (ExitCode r) (Summary r) v (EventCount r).
Definition set_EventCount (v : Z) (r : AgentRunSummary) : AgentRunSummary := mk (RunId r) (AgentId r) (ComputerId r) (StartedTimeUnix r) (EndedTimeUnix r) (ExitCode r) (Summary r) (ErrorMessage r) v.
End AgentRunSummary.

Module RunStep.
Record RunStep := mk {
  StepId : string;
  RunId : string;
  Sequence : Z;
  Kind : Z;
  Status : Z;
  Summary : string;
  Detail : string;
  ArtifactIds : list string;
  StartedTimeUnix : Z;
  CompletedTimeUnix : Z
}.
Definition zero : RunStep := mk "" "" 0%Z 0%Z 0%Z "" "" [] 0%Z 0%Z.
Definition set_StepId (v : string) (r : RunStep) : RunStep := mk v (RunId r) (Sequence r) (Kind r) (Status r) (Summary r) (Detail r) (ArtifactIds r) (StartedTimeUnix r) (CompletedTimeUnix r).
Definition set_RunId (v : string) (r : RunStep) : RunStep := mk (StepId r) v (Sequence r) (Kind r) (Status r) (Summary r) (Detail r) (ArtifactIds r) (StartedTimeUnix r) (CompletedTimeUnix r).
Definition set_Sequence (v : Z) (r : RunStep) : RunStep := mk (StepId r) (RunId r) v (Kind r) (Status r) (Summary r) (Detail r) (ArtifactIds r) (StartedTimeUnix r) (CompletedTimeUnix r).
Definition set_Kind (v : Z) (r : RunStep) : RunStep := mk (StepId r) (RunId r) (Sequence r) v (Status r) (Summary r) (Detail r) (ArtifactIds r) (StartedTimeUnix r) (CompletedTimeUnix r).
Definition set_Status (v : Z) (r : RunStep) : RunStep := mk (StepId r) (RunId r) (Sequence r) (Kind r) v (Summary r) (Detail r) (ArtifactIds r) (StartedTimeUnix r) (CompletedTimeUnix r).
Definition set_Summary (v : string) (r : RunStep) : RunStep := mk (StepId r) (RunId r) (Sequence r) (Kind r) (Status r) v (Detail r) (ArtifactIds r) (StartedTimeUnix r) (CompletedTimeUnix r).
Definition set_Detail (v : string) (r : RunStep) : RunStep := mk (StepId r) (RunId r) (Sequence r) (Kind r) (Status r) (Summary r) v (ArtifactIds r) (StartedTimeUnix r) (CompletedTimeUnix r).
Definition set_ArtifactIds (v : list string) (r : RunStep) : RunStep := mk (StepId r) (RunId r) (Sequence r) (Kind r) (Status r) (Summary r) (Detail r) v (StartedTimeUnix r) (CompletedTimeUnix r).
Definition set_StartedTimeUnix (v : Z) (r : RunStep) : RunStep := mk (StepId r) (RunId r) (Sequence r) (Kind r) (Status r) (Summary r) (Detail r) (ArtifactIds r) v (CompletedTimeUnix r).
Definition set_CompletedTimeUnix (v : Z) (r : RunStep) : RunStep := mk (StepId r) (RunId r) (Sequence r) (Kind r) (Status r) (Summary r) (Detail r) (ArtifactIds r) (StartedTimeUnix r) v.
End RunStep.

Module AppendRunStepRequest.
Record AppendRunStepRequest := mk {
  Step : option RunStep.RunStep;
  RequestId : string;
  IdempotencyKey : string;
  Context : option RequestContext.RequestContext;
  LeaseId : string
}.
Definition zero : AppendRunStepRequest := mk None "" "" None "".
Definition set_Step (v : option RunStep.RunStep) (r : AppendRunStepRequest) : AppendRunStepRequest := mk v (RequestId r) (IdempotencyKey r) (Context r) (LeaseId r).
Definition set_RequestId (v : string) (r : AppendRunStepRequest) : AppendRunStepRequest := mk (Step r) v (IdempotencyKey r) (Context r) (LeaseId r).
Definition set_IdempotencyKey (v : string) (r : AppendRunStepRequest) : AppendRunStepRequest := mk (Step r) (RequestId r) v (Context r) (LeaseId r).
Definition set_Context (v : option RequestContext.RequestContext) (r : AppendRunStepRequest) : AppendRunStepRequest := mk (Step r) (RequestId r) (IdempotencyKey r) v (LeaseId r).
Definition set_LeaseId (v : string) (r : AppendRunStepRequest) : AppendRunStepRequest := mk (Step r) (RequestId r) (IdempotencyKey r) (Context r) v.
End AppendRunStepRequest.

Module AppendRunStepResponse.
Record AppendRunStepResponse := mk {
  Accepted : bool;
  Step : option RunStep.RunStep;
  RejectionReason : string
}.
Definition zero : AppendRunStepResponse := mk false None "".
Definition set_Accepted (v : bool) (r : AppendRunStepResponse) : AppendRunStepResponse := mk v (Step r) (RejectionReason r).
Definition set_Step (v : option RunStep.RunStep) (r : AppendRunStepResponse) : AppendRunStepResponse := mk (Accepted r) v (RejectionReason r).
Definition set_RejectionReason (v : string) (r : AppendRunStepResponse) : AppendRunStepResponse := mk (Accepted r) (Step r) v.
End AppendRunStepResponse.

Module ApproveTunnelRequest.
Record ApproveTunnelRequest := mk {
  TunnelId : string;
  Context : option RequestContext.RequestContext
}.
Definition zero : ApproveTunnelRequest := mk "" None.
Definition set_TunnelId (v : string) (r : ApproveTunnelRequest) : ApproveTunnelRequest := mk v (Context r).
Definition set_Context (v : option RequestContext.RequestContext) (r : ApproveTunnelRequest) : ApproveTunnelRequest := mk (TunnelId r) v.
End ApproveTunnelRequest.

Module Tunnel.
Record Tunnel := mk {
  TunnelId : string;
  Token : string;
  ComputerId : string;
  DaemonId : string;
  LocalPort : Z;
  Label : string;
  PublicUrl : string;
  State : Z;
  AccessPolicy : Z;
  CreatorId : string;
  CreatorKind : Z;
  CreatedTimeUnix : Z;
  ExpiresTimeUnix : Z;
  ApprovedTimeUnix : Z;
  ApprovedBy : string;
  ClosedTimeUnix : Z;
  CloseReason : string
}.
Definition zero : Tunnel := mk "" "" "" "" 0%Z "" "" 0%Z 0%Z "" 0%Z 0%Z 0%Z 0%Z "" 0%Z "".
Definition set_TunnelId (v : string) (r : Tunnel) : Tunnel := mk v (Token r) (ComputerId r) (DaemonId r) (LocalPort r) (Label r) (PublicUrl r) (State r) (AccessPolicy r) (CreatorId r) (CreatorKind r) (CreatedTimeUnix r) (ExpiresTimeUnix r) (ApprovedTimeUnix r) (ApprovedBy r) (ClosedTimeUnix r) (CloseReason r).
Definition set_Token (v : string) (r : Tunnel) : Tunnel := mk (TunnelId r) v (ComputerId r) (DaemonId r) (LocalPort r) (Label r) (PublicUrl r) (State r) (AccessPolicy r) (CreatorId r) (CreatorKind r) (CreatedTimeUnix r) (ExpiresTimeUnix r) (ApprovedTimeUnix r) (ApprovedBy r) (ClosedTimeUnix r) (CloseReason r).
Definition set_ComputerId (v : string) (r : Tunnel) : Tunnel := mk (TunnelId r) (Token r) v (DaemonId r) (LocalPort r) (Label r) (PublicUrl r) (State r) (AccessPolicy r) (CreatorId r) (CreatorKind r) (CreatedTimeUnix r) (ExpiresTimeUnix r) (ApprovedTimeUnix r) (ApprovedBy r) (ClosedTimeUnix r) (CloseReason r).
Definition set_DaemonId (v : string) (r : Tunnel) : Tunnel := mk (TunnelId r) (Token r) (ComputerId r) v (LocalPort r) (Label r) (PublicUrl r) (State r) (AccessPolicy r) (CreatorId r) (CreatorKind r) (CreatedTimeUnix r) (ExpiresTimeUnix r) (ApprovedTimeUnix r) (ApprovedBy r) (ClosedTimeUnix r) (CloseReason r).
Definition set_LocalPort (v : Z) (r : Tunnel) : Tunnel := mk (TunnelId r) (Token r) (ComputerId r) (DaemonId r) v (Label r) (PublicUrl r) (State r) (AccessPolicy r) (CreatorId r) (CreatorKind r) (CreatedTimeUnix r) (ExpiresTimeUnix r) (ApprovedTimeUnix r) (ApprovedBy r) (ClosedTimeUnix r) (CloseReason r).
Definition set_Label (v : string) (r : Tunnel) : Tunnel := mk (TunnelId r) (Token r) (ComputerId r) (DaemonId r) (LocalPort r) v (PublicUrl r) (State r) (AccessPolicy r) (CreatorId r) (CreatorKind r) (CreatedTimeUnix r) (ExpiresTimeUnix r) (ApprovedTimeUnix r) (ApprovedBy r) (ClosedTimeUnix r) (CloseReason r).
Definition set_PublicUrl (v : string) (r : Tunnel) : Tunnel := mk (TunnelId r) (Token r) (ComputerId r) (DaemonId r) (LocalPort r) (Label r) v (State r) (AccessPolicy r) (CreatorId r) (CreatorKind r) (CreatedTimeUnix r) (ExpiresTimeUnix r) (ApprovedTimeUnix r) (ApprovedBy r) (ClosedTimeUnix r) (CloseReason r).
Definition set_State (v : Z) (r : Tunnel) : Tunnel := mk (TunnelId r) (Token r) (ComputerId r) (DaemonId r) (LocalPort r) (Label r) (PublicUrl r) v (AccessPolicy r) (CreatorId r) (CreatorKind r) (CreatedTimeUnix r) (ExpiresTimeUnix r) (ApprovedTimeUnix r) (ApprovedBy r) (ClosedTimeUnix r) (CloseReason r).
Definition set_AccessPolicy (v : Z) (r : Tunnel) : Tunnel := mk (TunnelId r) (Token r) (ComputerId r) (DaemonId r) (LocalPort r) (Label r) (PublicUrl r) (State r) v (CreatorId r) (CreatorKind r) (CreatedTimeUnix r) (ExpiresTimeUnix r) (ApprovedTimeUnix r) (ApprovedBy r) (ClosedTimeUnix r) (CloseReason r).
Definition set_CreatorId (v : string) (r : Tunnel) : Tunnel := mk (TunnelId r) (Token r) (ComputerId r) (DaemonId r) (LocalPort r) (Label r) (PublicUrl r) (State r) (AccessPolicy r) v (CreatorKind r) (CreatedTimeUnix r) (ExpiresTimeUnix r) (ApprovedTimeUnix r) (ApprovedBy r) (ClosedTimeUnix r) (CloseReason r).
Definition set_CreatorKind (v : Z) (r : Tunnel) : Tunnel := mk (TunnelId r) (Token r) (ComputerId r) (DaemonId r) (LocalPort r) (Label r) (PublicUrl r) (State r) (AccessPolicy r) (CreatorId r) v (CreatedTimeUnix r) (ExpiresTimeUnix r) (ApprovedTimeUnix r) (ApprovedBy r) (ClosedTimeUnix r) (CloseReason r).
Definition set_CreatedTimeUnix (v : Z) (r : Tunnel) : Tunnel := mk (TunnelId r) (Token r) (ComputerId r) (DaemonId r) (LocalPort r) (Label r) (PublicUrl r) (State r) (AccessPolicy r) (CreatorId r) (CreatorKind r) v (ExpiresTimeUnix r) (ApprovedTimeUnix r) (ApprovedBy r) (ClosedTimeUnix r) (CloseReason r).
Definition set_ExpiresTimeUnix (v : Z) (r : Tunnel) : Tunnel := mk (TunnelId r) (Token r) (ComputerId r) (DaemonId r) (LocalPort r) (Label r) (PublicUrl r) (State r) (AccessPolicy r) (CreatorId r) (CreatorKind r) (CreatedTimeUnix r) v (ApprovedTimeUnix r) (ApprovedBy r) (ClosedTimeUnix r) (CloseReason r).
Definition set_ApprovedTimeUnix (v : Z) (r : Tunnel) : Tunnel := mk (TunnelId r) (Token r) (ComputerId r) (DaemonId r) (LocalPort r) (Label r) (PublicUrl r) (State r) (AccessPolicy r) (CreatorId r) (CreatorKind r) (CreatedTimeUnix r) (ExpiresTimeUnix r) v (ApprovedBy r) (ClosedTimeUnix r) (CloseReason r).
Definition set_ApprovedBy (v : string) (r : Tunnel) : Tunnel := mk (TunnelId r) (Token r) (ComputerId r) (DaemonId r) (LocalPort r) (Label r) (PublicUrl r) (State r) (AccessPolicy r) (CreatorId r) (CreatorKind r) (CreatedTimeUnix r) (ExpiresTimeUnix r) (ApprovedTimeUnix r) v (ClosedTimeUnix r) (CloseReason r).
Definition set_ClosedTimeUnix (v : Z) (r : Tunnel) : Tunnel := mk (TunnelId r) (Token r) (ComputerId r) (DaemonId r) (LocalPort r) (Label r) (PublicUrl r) (State r) (AccessPolicy r) (CreatorId r) (CreatorKind r) (CreatedTimeUnix r) (ExpiresTimeUnix r) (ApprovedTimeUnix r) (ApprovedBy r) v (CloseReason r).
Definition set_CloseReason (v : string) (r : Tunnel) : Tunnel := mk (TunnelId r) (Token r) (ComputerId r) (DaemonId r) (LocalPort r) (Label r) (PublicUrl r) (State r) (AccessPolicy r) (CreatorId r) (CreatorKind r) (CreatedTimeUnix r) (ExpiresTimeUnix r) (ApprovedTimeUnix r) (ApprovedBy r) (ClosedTimeUnix r) v.
End Tunnel.

Module ApproveTunnelResponse.
Record ApproveTunnelResponse := mk {
  Tunnel : option Tunnel.Tunnel
}.
Definition zero : ApproveTunnelResponse := mk None.
Definition set_Tunnel (v : option Tunnel.Tunnel) (r : ApproveTunnelResponse) : ApproveTunnelResponse := mk v.
End ApproveTunnelResponse.

Module AttachmentRecord.
Record AttachmentRecord := mk {
  AttachmentId : string;
  Target : string;
  OwnerId : string;
  Filename : string;
  MimeType : string;
  SizeBytes : Z;
  StorageRef : string;
  CreatedTimeUnix : Z;
  DownloadUrl : string;
  UploadUrl : string;
  ExpiresTimeUnix : Z
}.
Definition zero : AttachmentRecord := mk "" "" "" "" "" 0%Z "" 0%Z "" "" 0%Z.
Definition set_AttachmentId (v : string) (r : AttachmentRecord) : AttachmentRecord := mk v (Target r) (OwnerId r) (Filename r) (MimeType r) (SizeBytes r) (StorageRef r) (CreatedTimeUnix r) (DownloadUrl r) (UploadUrl r) (ExpiresTimeUnix r).
Definition set_Target (v : string) (r : AttachmentRecord) : AttachmentRecord := mk (AttachmentId r) v (OwnerId r) (Filename r) (MimeType r) (SizeBytes r) (StorageRef r) (CreatedTimeUnix r) (DownloadUrl r) (UploadUrl r) (ExpiresTimeUnix r).
Definition set_OwnerId (v : string) (r : AttachmentRecord) : AttachmentRecord := mk (AttachmentId r) (Target r) v (Filename r) (MimeType r) (SizeBytes r) (StorageRef r) (CreatedTimeUnix r) (DownloadUrl r) (UploadUrl r) (ExpiresTimeUnix r).
Definition set_Filename (v : string) (r : AttachmentRecord) : AttachmentRecord := mk (AttachmentId r) (Target r) (OwnerId r) v (MimeType r) (SizeBytes r) (StorageRef r) (CreatedTimeUnix r) (DownloadUrl r) (UploadUrl r) (ExpiresTimeUnix r).
Definition set_MimeType (v : string) (r : AttachmentRecord) : AttachmentRecord := mk (AttachmentId r) (Target r) (OwnerId r) (Filename r) v (SizeBytes r) (StorageRef r) (CreatedTimeUnix r) (DownloadUrl r) (UploadUrl r) (ExpiresTimeUnix r).
Definition set_SizeBytes (v : Z) (r : AttachmentRecord) : AttachmentRecord := mk (AttachmentId r) (Target r) (OwnerId r) (Filename r) (MimeType r) v (StorageRef r) (CreatedTimeUnix r) (DownloadUrl r) (UploadUrl r) (ExpiresTimeUnix r).
Definition set_StorageRef (v : string) (r : AttachmentRecord) : AttachmentRecord := mk (AttachmentId r) (Target r) (OwnerId r) (Filename r) (MimeType r) (SizeBytes r) v (CreatedTimeUnix r) (DownloadUrl r) (UploadUrl r) (ExpiresTimeUnix r).
Definition set_CreatedTimeUnix (v : Z) (r : AttachmentRecord) : AttachmentRecord := mk (AttachmentId r) (Target r) (OwnerId r) (Filename r) (MimeType r) (SizeBytes r) (StorageRef r) v (DownloadUrl r) (UploadUrl r) (ExpiresTimeUnix r).
Definition set_DownloadUrl (v : string) (r : AttachmentRecord) : AttachmentRecord := mk (AttachmentId r) (Target r) (OwnerId r) (Filename r) (MimeType r) (SizeBytes r) (StorageRef r) (CreatedTimeUnix r) v (UploadUrl r) (ExpiresTimeUnix r).
Definition set_UploadUrl (v : string) (r : AttachmentRecord) : AttachmentRecord := mk (AttachmentId r) (Target r) (OwnerId r) (Filename r) (MimeType r) (SizeBytes r) (StorageRef r) (CreatedTimeUnix r) (DownloadUrl r) v (ExpiresTimeUnix r).
Definition set_ExpiresTimeUnix (v : Z) (r : AttachmentRecord) : AttachmentRecord := mk (AttachmentId r) (Target r) (OwnerId r) (Filename r) (MimeType r) (SizeBytes r) (StorageRef r) (CreatedTimeUnix r) (DownloadUrl r) (UploadUrl r) v.
End AttachmentRecord.

Module CancelReminderRequest.
Record CancelReminderRequest := mk {
  ReminderId : string;
  RequestId : string;
  IdempotencyKey : string;
  Context : option RequestContext.RequestContext;
  CancelToken : string
}.
Definition zero : CancelReminderRequest := mk "" "" "" None "".
Definition set_ReminderId (v : string) (r : CancelReminderRequest) : CancelReminderRequest := mk v (RequestId r) (IdempotencyKey r) (Context r) (CancelToken r).
Definition set_RequestId (v : string) (r : CancelReminderRequest) : CancelReminderRequest := mk (ReminderId r) v (IdempotencyKey r) (Context r) (CancelToken r).
Definition set_IdempotencyKey (v : string) (r : CancelReminderRequest) : CancelReminderRequest := mk (ReminderId r) (RequestId r) v (Context r) (CancelToken r).
Definition set_Context (v : option RequestContext.RequestContext) (r : CancelReminderRequest) : CancelReminderRequest := mk (ReminderId r) (RequestId r) (IdempotencyKey r) v (CancelToken r).
Definition set_CancelToken (v : string) (r : CancelReminderRequest) : CancelReminderRequest := mk (ReminderId r) (RequestId r) (IdempotencyKey r) (Context r) v.
End CancelReminderRequest.

Module ReminderRecurrence.
Record ReminderRecurrence := mk {
  Rule : string;
  Description : string;
  Timezone : string
}.
Definition zero : ReminderRecurrence := mk "" "" "".
Definition set_Rule (v : string) (r : ReminderRecurrence) : ReminderRecurrence := mk v (Description r) (Timezone r).
Definition set_Description (v : string) (r : ReminderRecurrence) : ReminderRecurrence := mk (Rule r) v (Timezone r).
Definition set_Timezone (v : string) (r : ReminderRecurrence) : ReminderRecurrence := mk (Rule r) (Description r) v.
End ReminderRecurrence.

Module ReminderRecord.
Record ReminderRecord := mk {
  ReminderId : string;
  Target : string;
  ScheduleKind : Z;
  Schedule : string;
  Prompt : string;
  Enabled : bool;
  NextRunUnix : Z;
  LastRunUnix : Z;
  RunCount : Z;
  LastError : string;
  Title : string;
  Status : Z;
  MsgRef : string;
  Recurrence : option ReminderRecurrence.ReminderRecurrence;
  CancelToken : string
}.
Definition zero : ReminderRecord := mk "" "" 0%Z "" "" false 0%Z 0%Z 0%Z "" "" 0%Z "" None "".
Definition set_ReminderId (v : string) (r : ReminderRecord) : ReminderRecord := mk v (Target r) (ScheduleKind r) (Schedule r) (Prompt r) (Enabled r) (NextRunUnix r) (LastRunUnix r) (RunCount r) (LastError r) (Title r) (Status r) (MsgRef r) (Recurrence r) (CancelToken r).
Definition set_Target (v : string) (r : ReminderRecord) : ReminderRecord := mk (ReminderId r) v (ScheduleKind r) (Schedule r) (Prompt r) (Enabled r) (NextRunUnix r) (LastRunUnix r) (RunCount r) (LastError r) (Title r) (Status r) (MsgRef r) (Recurrence r) (CancelToken r).
Definition set_ScheduleKind (v : Z) (r : ReminderRecord) : ReminderRecord := mk (ReminderId r) (Target r) v (Schedule r) (Prompt r) (Enabled r) (NextRunUnix r) (LastRunUnix r) (RunCount r) (LastError r) (Title r) (Status r) (MsgRef r) (Recurrence r) (CancelToken r).
Definition set_Schedule (v : string) (r : ReminderRecord) : ReminderRecord := mk (ReminderId r) (Target r) (ScheduleKind r) v (Prompt r) (Enabled r) (NextRunUnix r) (LastRunUnix r) (RunCount r) (LastError r) (Title r) (Status r) (MsgRef r) (Recurrence r) (CancelToken r).
Definition set_Prompt (v : string) (r : ReminderRecord) : ReminderRecord := mk (ReminderId r) (Target r) (ScheduleKind r) (Schedule r) v (Enabled r) (NextRunUnix r) (LastRunUnix r) (RunCount r) (LastError r) (Title r) (Status r) (MsgRef r) (Recurrence r) (CancelToken r).
Definition set_Enabled (v : bool) (r : ReminderRecord) : ReminderRecord := mk (ReminderId r) (Target r) (ScheduleKind r) (Schedule r) (Prompt r) v (NextRunUnix r) (LastRunUnix r) (RunCount r) (LastError r) (Title r) (Status r) (MsgRef r) (Recurrence r) (CancelToken r).
Definition set_NextRunUnix (v : Z) (r : ReminderRecord) : ReminderRecord := mk (ReminderId r) (Target r) (ScheduleKind r) (Schedule r) (Prompt r) (Enabled r) v (LastRunUnix r) (RunCount r) (LastError r) (Title r) (Status r) (MsgRef r) (Recurrence r) (CancelToken r).
Definition set_LastRunUnix (v : Z) (r : ReminderRecord) : ReminderRecord := mk (ReminderId r) (Target r) (ScheduleKind r) (Schedule r) (Prompt r) (Enabled r) (NextRunUnix r) v (RunCount r) (LastError r) (Title r) (Status r) (MsgRef r) (Recurrence r) (CancelToken r).
Definition set_RunCount (v : Z) (r : ReminderRecord) : ReminderRecord := mk (ReminderId r) (Target r) (ScheduleKind r) (Schedule r) (Prompt r) (Enabled r) (NextRunUnix r) (LastRunUnix r) v (LastError r) (Title r) (Status r) (MsgRef r) (Recurrence r) (CancelToken r).
Definition set_LastError (v : string) (r : ReminderRecord) : ReminderRecord := mk (ReminderId r) (Target r) (ScheduleKind r) (Schedule r) (Prompt r) (Enabled r) (NextRunUnix r) (LastRunUnix r) (RunCount r) v (Title r) (Status r) (MsgRef r) (Recurrence r) (CancelToken r).
Definition set_Title (v : string) (r : ReminderRecord) : ReminderRecord := mk (ReminderId r) (Target r) (ScheduleKind r) (Schedule r) (Prompt r) (Enabled r) (NextRunUnix r) (LastRunUnix r) (RunCount r) (LastError r) v (Status r) (MsgRef r) (Recurrence r) (CancelToken r).
Definition set_Status (v : Z) (r : ReminderRecord) : ReminderRecord := mk (ReminderId r) (Target r) (ScheduleKind r) (Schedule r) (Prompt r) (Enabled r) (NextRunUnix r) (LastRunUnix r) (RunCount r) (LastError r) (Title r) v (MsgRef r) (Recurrence r) (CancelToken r).
Definition set_MsgRef (v : string) (r : ReminderRecord) : ReminderRecord := mk (ReminderId r) (Target r) (ScheduleKind r) (Schedule r) (Prompt r) (Enabled r) (NextRunUnix r) (LastRunUnix r) (RunCount r) (LastError r) (Title r) (Status r) v (Recurrence r) (CancelToken r).
Definition set_Recurrence (v : option ReminderRecurrence.ReminderRecurrence) (r : ReminderRecord) : ReminderRecord := mk (ReminderId r) (Target r) (ScheduleKind r) (Schedule r) (Prompt r) (Enabled r) (NextRunUnix r) (LastRunUnix r) (RunCount r) (LastError r) (Title r) (Status r) (MsgRef r) v (CancelToken r).
Definition set_CancelToken (v : string) (r : ReminderRecord) : ReminderRecord := mk (ReminderId r) (Target r) (ScheduleKind r) (Schedule r) (Prompt r) (Enabled r) (NextRunUnix r) (LastRunUnix r) (RunCount r) (LastError r) (Title r) (Status r) (MsgRef r) (Recurrence r) v.
End ReminderRecord.

Module CancelReminderResponse.
Record CancelReminderResponse := mk {
  Accepted : bool;
  Reminder : option ReminderRecord.ReminderRecord
}.
Definition zero : CancelReminderResponse := mk false None.
Definition set_Accepted (v : bool) (r : CancelReminderResponse) : CancelReminderResponse := mk v (Reminder r).
Definition set_Reminder (v : option ReminderRecord.ReminderRecord) (r : CancelReminderResponse) : CancelReminderResponse := mk (Accepted r) v.
End CancelReminderResponse.

Module ChannelDecision.
Record ChannelDecision := mk {
  DecisionId : string;
  Target : string;
  Title : string;
  Body : string;
  Status : Z;
  ProposerId : string;
  ProposerKind : Z;
  CreatedTimeUnix : Z;
  RatifiedTimeUnix : Z;
  RetiredTimeUnix : Z;
  RetiredBy : string;
  RetireReason : string;
  SupersedesDecisionId : string;
  ApproveCount : Z;
  RejectCount : Z;
  AbstainCount : Z
}.
Definition zero : ChannelDecision := mk "" "" "" "" 0%Z "" 0%Z 0%Z 0%Z 0%Z "" "" "" 0%Z 0%Z 0%Z.
Definition set_DecisionId (v : string) (r : ChannelDecision) : ChannelDecision := mk v (Target r) (Title r) (Body r) (Status r) (ProposerId r) (ProposerKind r) (CreatedTimeUnix r) (RatifiedTimeUnix r) (RetiredTimeUnix r) (RetiredBy r) (RetireReason r) (SupersedesDecisionId r) (ApproveCount r) (RejectCount r) (AbstainCount r).
Definition set_Target (v : string) (r : ChannelDecision) : ChannelDecision := mk (DecisionId r) v (Title r) (Body r) (Status r) (ProposerId r) (ProposerKind r) (CreatedTimeUnix r) (RatifiedTimeUnix r) (RetiredTimeUnix r) (RetiredBy r) (RetireReason r) (SupersedesDecisionId r) (ApproveCount r) (RejectCount r) (AbstainCount r).
Definition set_Title (v : string) (r : ChannelDecision) : ChannelDecision := mk (DecisionId r) (Target r) v (Body r) (Status r) (ProposerId r) (ProposerKind r) (CreatedTimeUnix r) (RatifiedTimeUnix r) (RetiredTimeUnix r) (RetiredBy r) (RetireReason r) (SupersedesDecisionId r) (ApproveCount r) (RejectCount r) (AbstainCount r).
Definition set_Body (v : string) (r : ChannelDecision) : ChannelDecision := mk (DecisionId r) (Target r) (Title r) v (Status r) (ProposerId r) (ProposerKind r) (CreatedTimeUnix r) (RatifiedTimeUnix r) (RetiredTimeUnix r) (RetiredBy r) (RetireReason r) (SupersedesDecisionId r) (ApproveCount r) (RejectCount r) (AbstainCount r).
Definition set_Status (v : Z) (r : ChannelDecision) : ChannelDecision := mk (DecisionId r) (Target r) (Title r) (Body r) v (ProposerId r) (ProposerKind r) (CreatedTimeUnix r) (RatifiedTimeUnix r) (RetiredTimeUnix r) (RetiredBy r) (RetireReason r) (SupersedesDecisionId r) (ApproveCount r) (RejectCount r) (AbstainCount r).
Definition set_ProposerId (v : string) (r : ChannelDecision) : ChannelDecision := mk (DecisionId r) (Target r) (Title r) (Body r) (Status r) v (ProposerKind r) (CreatedTimeUnix r) (RatifiedTimeUnix r) (RetiredTimeUnix r) (RetiredBy r) (RetireReason r) (SupersedesDecisionId r) (ApproveCount r) (RejectCount r) (AbstainCount r).
Definition set_ProposerKind (v : Z) (r : ChannelDecision) : ChannelDecision := mk (DecisionId r) (Target r) (Title r) (Body r) (Status r) (ProposerId r) v (CreatedTimeUnix r) (RatifiedTimeUnix r) (RetiredTimeUnix r) (RetiredBy r) (RetireReason r) (SupersedesDecisionId r) (ApproveCount r) (RejectCount r) (AbstainCount r).
Definition set_CreatedTimeUnix (v : Z) (r : ChannelDecision) : ChannelDecision := mk (DecisionId r) (Target r) (Title r) (Body r) (Status r) (ProposerId r) (ProposerKind r) v (RatifiedTimeUnix r) (RetiredTimeUnix r) (RetiredBy r) (RetireReason r) (SupersedesDecisionId r) (ApproveCount r) (RejectCount r) (AbstainCount r).
Definition set_RatifiedTimeUnix (v : Z) (r : ChannelDecision) : ChannelDecision := mk (DecisionId r) (Target r) (Title r) (Body r) (Status r) (ProposerId r) (ProposerKind r) (CreatedTimeUnix r) v (RetiredTimeUnix r) (RetiredBy r) (RetireReason r) (SupersedesDecisionId r) (ApproveCount r) (RejectCount r) (AbstainCount r).
Definition set_RetiredTimeUnix (v : Z) (r : ChannelDecision) : ChannelDecision := mk (DecisionId r) (Target r) (Title r) (Body r) (Status r) (ProposerId r) (ProposerKind r) (CreatedTimeUnix r) (RatifiedTimeUnix r) v (RetiredBy r) (RetireReason r) (SupersedesDecisionId r) (ApproveCount r) (RejectCount r) (AbstainCount r).
Definition set_RetiredBy (v : string) (r : ChannelDecision) : ChannelDecision := mk (DecisionId r) (Target r) (Title r) (Body r) (Status r) (ProposerId r) (ProposerKind r) (CreatedTimeUnix r) (RatifiedTimeUnix r) (RetiredTimeUnix r) v (RetireReason r) (SupersedesDecisionId r) (ApproveCount r) (RejectCount r) (AbstainCount r).
Definition set_RetireReason (v : string) (r : ChannelDecision) : ChannelDecision := mk (DecisionId r) (Target r) (Title r) (Body r) (Status r) (ProposerId r) (ProposerKind r) (CreatedTimeUnix r) (RatifiedTimeUnix r) (RetiredTimeUnix r) (RetiredBy r) v (SupersedesDecisionId r) (ApproveCount r) (RejectCount r) (AbstainCount r).
Definition set_SupersedesDecisionId (v : string) (r : ChannelDecision) : ChannelDecision := mk (DecisionId r) (Target r) (Title r) (Body r) (Status r) (ProposerId r) (ProposerKind r) (CreatedTimeUnix r) (RatifiedTimeUnix r) (RetiredTimeUnix r) (RetiredBy r) (RetireReason r) v (ApproveCount r) (RejectCount r) (AbstainCount r).
Definition set_ApproveCount (v : Z) (r : ChannelDecision) : ChannelDecision := mk (DecisionId r) (Target r) (Title r) (Body r) (Status r) (ProposerId r) (ProposerKind r) (CreatedTimeUnix r) (RatifiedTimeUnix r) (RetiredTimeUnix r) (RetiredBy r) (RetireReason r) (SupersedesDecisionId r) v (RejectCount r) (AbstainCount r).
Definition set_RejectCount (v : Z) (r : ChannelDecision) : ChannelDecision := mk (DecisionId r) (Target r) (Title r) (Body r) (Status r) (ProposerId r) (ProposerKind r) (CreatedTimeUnix r) (RatifiedTimeUnix r) (RetiredTimeUnix r) (RetiredBy r) (RetireReason r) (SupersedesDecisionId r) (ApproveCount r) v (AbstainCount r).
Definition set_AbstainCount (v : Z) (r : ChannelDecision) : ChannelDecision := mk (DecisionId r) (Target r) (Title r) (Body r) (Status r) (ProposerId r) (ProposerKind r) (CreatedTimeUnix r) (RatifiedTimeUnix r) (RetiredTimeUnix r) (RetiredBy r) (RetireReason r) (SupersedesDecisionId r) (ApproveCount r) (RejectCount r) v.
End ChannelDecision.

Module ChannelRecord.
Record ChannelRecord := mk {
  Target : string;
  ChannelId : string;
  DisplayName : string;
  ChannelType : string;
  Enabled : bool;
  InteractionEndpointId : string;
  SourceKind : string;
  ExternalId : string;
  Capabilities : list Capability.Capability;
  Visibility : Z;
  Joined : bool;
  MemberCount : Z
}.
Definition zero : ChannelRecord := mk "" "" "" "" false "" "" "" [] 0%Z false 0%Z.
Definition set_Target (v : string) (r : ChannelRecord) : ChannelRecord := mk v (ChannelId r) (DisplayName r) (ChannelType r) (Enabled r) (InteractionEndpointId r) (SourceKind r) (ExternalId r) (Capabilities r) (Visibility r) (Joined r) (MemberCount r).
Definition set_ChannelId (v : string) (r : ChannelRecord) : ChannelRecord := mk (Target r) v (DisplayName r) (ChannelType r) (Enabled r) (InteractionEndpointId r) (SourceKind r) (ExternalId r) (Capabilities r) (Visibility r) (Joined r) (MemberCount r).
Definition set_DisplayName (v : string) (r : ChannelRecord) : ChannelRecord := mk (Target r) (ChannelId r) v (ChannelType r) (Enabled r) (InteractionEndpointId r) (SourceKind r) (ExternalId r) (Capabilities r) (Visibility r) (Joined r) (MemberCount r).
Definition set_ChannelType (v : string) (r : ChannelRecord) : ChannelRecord := mk (Target r) (ChannelId r) (DisplayName r) v (Enabled r) (InteractionEndpointId r) (SourceKind r) (ExternalId r) (Capabilities r) (Visibility r) (Joined r) (MemberCount r).
Definition set_Enabled (v : bool) (r : ChannelRecord) : ChannelRecord := mk (Target r) (ChannelId r) (DisplayName r) (ChannelType r) v (InteractionEndpointId r) (SourceKind r) (ExternalId r) (Capabilities r) (Visibility r) (Joined r) (MemberCount r).
Definition set_InteractionEndpointId (v : string) (r : ChannelRecord) : ChannelRecord := mk (Target r) (ChannelId r) (DisplayName r) (ChannelType r) (Enabled r) v (SourceKind r) (ExternalId r) (Capabilities r) (Visibility r) (Joined r) (MemberCount r).
Definition set_SourceKind (v : string) (r : ChannelRecord) : ChannelRecord := mk (Target r) (ChannelId r) (DisplayName r) (ChannelType r) (Enabled r) (InteractionEndpointId r) v (ExternalId r) (Capabilities r) (Visibility r) (Joined r) (MemberCount r).
Definition set_ExternalId (v : string) (r : ChannelRecord) : ChannelRecord := mk (Target r) (ChannelId r) (DisplayName r) (ChannelType r) (Enabled r) (InteractionEndpointId r) (SourceKind r) v (Capabilities r) (Visibility r) (Joined r) (MemberCount r).
Definition set_Capabilities (v : list Capability.Capability) (r : ChannelRecord) : ChannelRecord := mk (Target r) (ChannelId r) (DisplayName r) (ChannelType r) (Enabled r) (InteractionEndpointId r) (SourceKind r) (ExternalId r) v (Visibility r) (Joined r) (MemberCount r).
Definition set_Visibility (v : Z) (r : ChannelRecord) : ChannelRecord := mk (Target r) (ChannelId r) (DisplayName r) (ChannelType r) (Enabled r) (InteractionEndpointId r) (SourceKind r) (ExternalId r) (Capabilities r) v (Joined r) (MemberCount r).
Definition set_Joined (v : bool) (r : ChannelRecord) : ChannelRecord := mk (Target r) (ChannelId r) (DisplayName r) (ChannelType r) (Enabled r) (InteractionEndpointId r) (SourceKind r) (ExternalId r) (Capabilities r) (Visibility r) v (MemberCount r).
Definition set_MemberCount (v : Z) (r : ChannelRecord) : ChannelRecord := mk (Target r) (ChannelId r) (DisplayName r) (ChannelType r) (Enabled r) (InteractionEndpointId r) (SourceKind r) (ExternalId r) (Capabilities r) (Visibility r) (Joined r) v.
End ChannelRecord.

Module ClaimCollaborationTaskRequest.
Record ClaimCollaborationTaskRequest := mk {
  TaskId : string;
  AgentId : string;
  RequestId : string;
  ExpectedAssigneeId : string;
  SilentOnConflict : bool;
  ClaimMode : Z;
  ExpectedLeaseId : string;
  IdempotencyKey : string;
  Context : option RequestContext.RequestContext;
  LeaseTtlSeconds : Z
}.
Definition zero : ClaimCollaborationTaskRequest := mk "" "" "" "" false 0%Z "" "" None 0%Z.
Definition set_TaskId (v : string) (r : ClaimCollaborationTaskRequest) : ClaimCollaborationTaskRequest := mk v (AgentId r) (RequestId r) (ExpectedAssigneeId r) (SilentOnConflict r) (ClaimMode r) (ExpectedLeaseId r) (IdempotencyKey r) (Context r) (LeaseTtlSeconds r).
Definition set_AgentId (v : string) (r : ClaimCollaborationTaskRequest) : ClaimCollaborationTaskRequest := mk (TaskId r) v (RequestId r) (ExpectedAssigneeId r) (SilentOnConflict r) (ClaimMode r) (ExpectedLeaseId r) (IdempotencyKey r) (Context r) (LeaseTtlSeconds r).
Definition set_RequestId (v : string) (r : ClaimCollaborationTaskRequest) : ClaimCollaborationTaskRequest := mk (TaskId r) (AgentId r) v (ExpectedAssigneeId r) (SilentOnConflict r) (ClaimMode r) (ExpectedLeaseId r) (IdempotencyKey r) (Context r) (LeaseTtlSeconds r).
Definition set_ExpectedAssigneeId (v : string) (r : ClaimCollaborationTaskRequest) : ClaimCollaborationTaskRequest := mk (TaskId r) (AgentId r) (RequestId r) v (SilentOnConflict r) (ClaimMode r) (ExpectedLeaseId r) (IdempotencyKey r) (Context r) (LeaseTtlSeconds r).
Definition set_SilentOnConflict (v : bool) (r : ClaimCollaborationTaskRequest) : ClaimCollaborationTaskRequest := mk (TaskId r) (AgentId r) (RequestId r) (ExpectedAssigneeId r) v (ClaimMode r) (ExpectedLeaseId r) (IdempotencyKey r) (Context r) (LeaseTtlSeconds r).
Definition set_ClaimMode (v : Z) (r : ClaimCollaborationTaskRequest) : ClaimCollaborationTaskRequest := mk (TaskId r) (AgentId r) (RequestId r) (ExpectedAssigneeId r) (SilentOnConflict r) v (ExpectedLeaseId r) (IdempotencyKey r) (Context r) (LeaseTtlSeconds r).
Definition set_ExpectedLeaseId (v : string) (r : ClaimCollaborationTaskRequest) : ClaimCollaborationTaskRequest := mk (TaskId r) (AgentId r) (RequestId r) (ExpectedAssigneeId r) (SilentOnConflict r) (ClaimMode r) v (IdempotencyKey r) (Context r) (LeaseTtlSeconds r).
Definition set_IdempotencyKey (v : string) (r : ClaimCollaborationTaskRequest) : ClaimCollaborationTaskRequest := mk (TaskId r) (AgentId r) (RequestId r) (ExpectedAssigneeId r) (SilentOnConflict r) (ClaimMode r) (ExpectedLeaseId r) v (Context r) (LeaseTtlSeconds r).
Definition set_Context (v : option RequestContext.RequestContext) (r : ClaimCollaborationTaskRequest) : ClaimCollaborationTaskRequest := mk (TaskId r) (AgentId r) (RequestId r) (ExpectedAssigneeId r) (SilentOnConflict r) (ClaimMode r) (ExpectedLeaseId r) (IdempotencyKey r) v (LeaseTtlSeconds r).
Definition set_LeaseTtlSeconds (v : Z) (r : ClaimCollaborationTaskRequest) : ClaimCollaborationTaskRequest := mk (TaskId r) (AgentId r) (RequestId r) (ExpectedAssigneeId r) (SilentOnConflict r) (ClaimMode r) (ExpectedLeaseId r) (IdempotencyKey r) (Context r) v.
End ClaimCollaborationTaskRequest.

Module Task.
Record Task := mk {
  TaskId : string;
  Summary : string;
  State : Z;
  RuntimeId : string;
  ThreadId : string;
  WorkspaceId : string;
  ComputerId : string;
  CreatedByUserId : string;
  BlockedReason : string;
  Target : string;
  AssigneeId : string;
  CurrentRunId : string;
  RootTaskId : string;
  ParentTaskId : string;
  Source : Z;
  CreatedByAgentId : string;
  ServerRuleId : string;
  SplitProposalId : string;
  GraphVersion : Z;
  RequiredCapabilities : list string;
  BoardColumn : string;
  ClaimPolicy : Z;
  ClaimConflictBehavior : Z;
  ClaimedTimeUnix : Z;
  ClaimLeaseId : string;
  ReviewerAgentId : string;
  ReleaseGateId : string;
  AssignedTarget : string;
  DeadlineTimeUnix : Z;
  CreatedTimeUnix : Z;
  UpdatedTimeUnix : Z
}.
Definition zero : Task := mk "" "" 0%Z "" "" "" "" "" "" "" "" "" "" "" 0%Z "" "" "" 0%Z [] "" 0%Z 0%Z 0%Z "" "" "" "" 0%Z 0%Z 0%Z.
Definition set_TaskId (v : string) (r : Task) : Task := mk v (Summary r) (State r) (RuntimeId r) (ThreadId r) (WorkspaceId r) (ComputerId r) (CreatedByUserId r) (BlockedReason r) (Target r) (AssigneeId r) (CurrentRunId r) (RootTaskId r) (ParentTaskId r) (Source r) (CreatedByAgentId r) (ServerRuleId r) (SplitProposalId r) (GraphVersion r) (RequiredCapabilities r) (BoardColumn r) (ClaimPolicy r) (ClaimConflictBehavior r) (ClaimedTimeUnix r) (ClaimLeaseId r) (ReviewerAgentId r) (ReleaseGateId r) (AssignedTarget r) (DeadlineTimeUnix r) (CreatedTimeUnix r) (UpdatedTimeUnix r).
Definition set_Summary (v : string) (r : Task) : Task := mk (TaskId r) v (State r) (RuntimeId r) (ThreadId r) (WorkspaceId r) (ComputerId r) (CreatedByUserId r) (BlockedReason r) (Target r) (AssigneeId r) (CurrentRunId r) (RootTaskId r) (ParentTaskId r) (Source r) (CreatedByAgentId r) (ServerRuleId r) (SplitProposalId r) (GraphVersion r) (RequiredCapabilities r) (BoardColumn r) (ClaimPolicy r) (ClaimConflictBehavior r) (ClaimedTimeUnix r) (ClaimLeaseId r) (ReviewerAgentId r) (ReleaseGateId r) (AssignedTarget r) (DeadlineTimeUnix r) (CreatedTimeUnix r) (UpdatedTimeUnix r).
Definition set_State (v : Z) (r : Task) : Task := mk (TaskId r) (Summary r) v (RuntimeId r) (ThreadId r) (WorkspaceId r) (ComputerId r) (CreatedByUserId r) (BlockedReason r) (Target r) (AssigneeId r) (CurrentRunId r) (RootTaskId r) (ParentTaskId r) (Source r) (CreatedByAgentId r) (ServerRuleId r) (SplitProposalId r) (GraphVersion r) (RequiredCapabilities r) (BoardColumn r) (ClaimPolicy r) (ClaimConflictBehavior r) (ClaimedTimeUnix r) (ClaimLeaseId r) (ReviewerAgentId r) (ReleaseGateId r) (AssignedTarget r) (DeadlineTimeUnix r) (CreatedTimeUnix r) (UpdatedTimeUnix r).
Definition set_RuntimeId (v : string) (r : Task) : Task := mk (TaskId r) (Summary r) (State r) v (ThreadId r) (WorkspaceId r) (ComputerId r) (CreatedByUserId r) (BlockedReason r) (Target r) (AssigneeId r) (CurrentRunId r) (RootTaskId r) (ParentTaskId r) (Source r) (CreatedByAgentId r) (ServerRuleId r) (SplitProposalId r) (GraphVersion r) (RequiredCapabilities r) (BoardColumn r) (ClaimPolicy r) (ClaimConflictBehavior r) (ClaimedTimeUnix r) (ClaimLeaseId r) (ReviewerAgentId r) (ReleaseGateId r) (AssignedTarget r) (DeadlineTimeUnix r) (CreatedTimeUnix r) (UpdatedTimeUnix r).
Definition set_ThreadId (v : string) (r : Task) : Task := mk (TaskId r) (Summary r) (State r) (RuntimeId r) v (WorkspaceId r) (ComputerId r) (CreatedByUserId r) (BlockedReason r) (Target r) (AssigneeId r) (CurrentRunId r) (RootTaskId r) (ParentTaskId r) (Source r) (CreatedByAgentId r) (ServerRuleId r) (SplitProposalId r) (GraphVersion r) (RequiredCapabilities r) (BoardColumn r) (ClaimPolicy r) (ClaimConflictBehavior r) (ClaimedTimeUnix r) (ClaimLeaseId r) (ReviewerAgentId r) (ReleaseGateId r) (AssignedTarget r) (DeadlineTimeUnix r) (CreatedTimeUnix r) (UpdatedTimeUnix r).
Definition set_WorkspaceId (v : string) (r : Task) : Task := mk (TaskId r) (Summary r) (State r) (RuntimeId r) (ThreadId r) v (ComputerId r) (CreatedByUserId r) (BlockedReason r) (Target r) (AssigneeId r) (CurrentRunId r) (RootTaskId r) (ParentTaskId r) (Source r) (CreatedByAgentId r) (ServerRuleId r) (SplitProposalId r) (GraphVersion r) (RequiredCapabilities r) (BoardColumn r) (ClaimPolicy r) (ClaimConflictBehavior r) (ClaimedTimeUnix r) (ClaimLeaseId r) (ReviewerAgentId r) (ReleaseGateId r) (AssignedTarget r) (DeadlineTimeUnix r) (CreatedTimeUnix r) (UpdatedTimeUnix r).
Definition set_ComputerId (v : string) (r : Task) : Task := mk (TaskId r) (Summary r) (State r) (RuntimeId r) (ThreadId r) (WorkspaceId r) v (CreatedByUserId r) (BlockedReason r) (Target r) (AssigneeId r) (CurrentRunId r) (RootTaskId r) (ParentTaskId r) (Source r) (CreatedByAgentId r) (ServerRuleId r) (SplitProposalId r) (GraphVersion r) (RequiredCapabilities r) (BoardColumn r) (ClaimPolicy r) (ClaimConflictBehavior r) (ClaimedTimeUnix r) (ClaimLeaseId r) (ReviewerAgentId r) (ReleaseGateId r) (AssignedTarget r) (DeadlineTimeUnix r) (CreatedTimeUnix r) (UpdatedTimeUnix r).
Definition set_CreatedByUserId (v : string) (r : Task) : Task := mk (TaskId r) (Summary r) (State r) (RuntimeId r) (ThreadId r) (WorkspaceId r) (ComputerId r) v (BlockedReason r) (Target r) (AssigneeId r) (CurrentRunId r) (RootTaskId r) (ParentTaskId r) (Source r) (CreatedByAgentId r) (ServerRuleId r) (SplitProposalId r) (GraphVersion r) (RequiredCapabilities r) (BoardColumn r) (ClaimPolicy r) (ClaimConflictBehavior r) (ClaimedTimeUnix r) (ClaimLeaseId r) (ReviewerAgentId r) (ReleaseGateId r) (AssignedTarget r) (DeadlineTimeUnix r) (CreatedTimeUnix r) (UpdatedTimeUnix r).
Definition set_BlockedReason (v : string) (r : Task) : Task := mk (TaskId r) (Summary r) (State r) (RuntimeId r) (ThreadId r) (WorkspaceId r) (ComputerId r) (CreatedByUserId r) v (Target r) (AssigneeId r) (CurrentRunId r) (RootTaskId r) (ParentTaskId r) (Source r) (CreatedByAgentId r) (ServerRuleId r) (SplitProposalId r) (GraphVersion r) (RequiredCapabilities r) (BoardColumn r) (ClaimPolicy r) (ClaimConflictBehavior r) (ClaimedTimeUnix r) (ClaimLeaseId r) (ReviewerAgentId r) (ReleaseGateId r) (AssignedTarget r) (DeadlineTimeUnix r) (CreatedTimeUnix r) (UpdatedTimeUnix r).
Definition set_Target (v : string) (r : Task) : Task := mk (TaskId r) (Summary r) (State r) (RuntimeId r) (ThreadId r) (WorkspaceId r) (ComputerId r) (CreatedByUserId r) (BlockedReason r) v (AssigneeId r) (CurrentRunId r) (RootTaskId r) (ParentTaskId r) (Source r) (CreatedByAgentId r) (ServerRuleId r) (SplitProposalId r) (GraphVersion r) (RequiredCapabilities r) (BoardColumn r) (ClaimPolicy r) (ClaimConflictBehavior r) (ClaimedTimeUnix r) (ClaimLeaseId r) (ReviewerAgentId r) (ReleaseGateId r) (AssignedTarget r) (DeadlineTimeUnix r) (CreatedTimeUnix r) (UpdatedTimeUnix r).
Definition set_AssigneeId (v : string) (r : Task) : Task := mk (TaskId r) (Summary r) (State r) (RuntimeId r) (ThreadId r) (WorkspaceId r) (ComputerId r) (CreatedByUserId r) (BlockedReason r) (Target r) v (CurrentRunId r) (RootTaskId r) (ParentTaskId r) (Source r) (CreatedByAgentId r) (ServerRuleId r) (SplitProposalId r) (GraphVersion r) (RequiredCapabilities r) (BoardColumn r) (ClaimPolicy r) (ClaimConflictBehavior r) (ClaimedTimeUnix r) (ClaimLeaseId r) (ReviewerAgentId r) (ReleaseGateId r) (AssignedTarget r) (DeadlineTimeUnix r) (CreatedTimeUnix r) (UpdatedTimeUnix r).
Definition set_CurrentRunId (v : string) (r : Task) : Task := mk (TaskId r) (Summary r) (State r) (RuntimeId r) (ThreadId r) (WorkspaceId r) (ComputerId r) (CreatedByUserId r) (BlockedReason r) (Target r) (AssigneeId r) v (RootTaskId r) (ParentTaskId r) (Source r) (CreatedByAgentId r) (ServerRuleId r) (SplitProposalId r) (GraphVersion r) (RequiredCapabilities r) (BoardColumn r) (ClaimPolicy r) (ClaimConflictBehavior r) (ClaimedTimeUnix r) (ClaimLeaseId r) (ReviewerAgentId r) (ReleaseGateId r) (AssignedTarget r) (DeadlineTimeUnix r) (CreatedTimeUnix r) (UpdatedTimeUnix r).
Definition set_RootTaskId (v : string) (r : Task) : Task := mk (TaskId r) (Summary r) (State r) (RuntimeId r) (ThreadId r) (WorkspaceId r) (ComputerId r) (CreatedByUserId r) (BlockedReason r) (Target r) (AssigneeId r) (CurrentRunId r) v (ParentTaskId r) (Source r) (CreatedByAgentId r) (ServerRuleId r) (SplitProposalId r) (GraphVersion r) (RequiredCapabilities r) (BoardColumn r) (ClaimPolicy r) (ClaimConflictBehavior r) (ClaimedTimeUnix r) (ClaimLeaseId r) (ReviewerAgentId r) (ReleaseGateId r) (AssignedTarget r) (DeadlineTimeUnix r) (CreatedTimeUnix r) (UpdatedTimeUnix r).
Definition set_ParentTaskId (v : string) (r : Task) : Task := mk (TaskId r) (Summary r) (State r) (RuntimeId r) (ThreadId r) (WorkspaceId r) (ComputerId r) (CreatedByUserId r) (BlockedReason r) (Target r) (AssigneeId r) (CurrentRunId r) (RootTaskId r) v (Source r) (CreatedByAgentId r) (ServerRuleId r) (SplitProposalId r) (GraphVersion r) (RequiredCapabilities r) (BoardColumn r) (ClaimPolicy r) (ClaimConflictBehavior r) (ClaimedTimeUnix r) (ClaimLeaseId r) (ReviewerAgentId r) (ReleaseGateId r) (AssignedTarget r) (DeadlineTimeUnix r) (CreatedTimeUnix r) (UpdatedTimeUnix r).
Definition set_Source (v : Z) (r : Task) : Task := mk (TaskId r) (Summary r) (State r) (RuntimeId r) (ThreadId r) (WorkspaceId r) (ComputerId r) (CreatedByUserId r) (BlockedReason r) (Target r) (AssigneeId r) (CurrentRunId r) (RootTaskId r) (ParentTaskId r) v (CreatedByAgentId r) (ServerRuleId r) (SplitProposalId r) (GraphVersion r) (RequiredCapabilities r) (BoardColumn r) (ClaimPolicy r) (ClaimConflictBehavior r) (ClaimedTimeUnix r) (ClaimLeaseId r) (ReviewerAgentId r) (ReleaseGateId r) (AssignedTarget r) (DeadlineTimeUnix r) (CreatedTimeUnix r) (UpdatedTimeUnix r).
Definition set_CreatedByAgentId (v : string) (r : Task) : Task := mk (TaskId r) (Summary r) (State r) (RuntimeId r) (ThreadId r) (WorkspaceId r) (ComputerId r) (CreatedByUserId r) (BlockedReason r) (Target r) (AssigneeId r) (CurrentRunId r) (RootTaskId r) (ParentTaskId r) (Source r) v (ServerRuleId r) (SplitProposalId r) (GraphVersion r) (RequiredCapabilities r) (BoardColumn r) (ClaimPolicy r) (ClaimConflictBehavior r) (ClaimedTimeUnix r) (ClaimLeaseId r) (ReviewerAgentId r) (ReleaseGateId r) (AssignedTarget r) (DeadlineTimeUnix r) (CreatedTimeUnix r) (UpdatedTimeUnix r).
Definition set_ServerRuleId (v : string) (r : Task) : Task := mk (TaskId r) (Summary r) (State r) (RuntimeId r) (ThreadId r) (WorkspaceId r) (ComputerId r) (CreatedByUserId r) (BlockedReason r) (Target r) (AssigneeId r) (CurrentRunId r) (RootTaskId r) (ParentTaskId r) (Source r) (CreatedByAgentId r) v (SplitProposalId r) (GraphVersion r) (RequiredCapabilities r) (BoardColumn r) (ClaimPolicy r) (ClaimConflictBehavior r) (ClaimedTimeUnix r) (ClaimLeaseId r) (ReviewerAgentId r) (ReleaseGateId r) (AssignedTarget r) (DeadlineTimeUnix r) (CreatedTimeUnix r) (UpdatedTimeUnix r).
Definition set_SplitProposalId (v : string) (r : Task) : Task := mk (TaskId r) (Summary r) (State r) (RuntimeId r) (ThreadId r) (WorkspaceId r) (ComputerId r) (CreatedByUserId r) (BlockedReason r) (Target r) (AssigneeId r) (CurrentRunId r) (RootTaskId r) (ParentTaskId r) (Source r) (CreatedByAgentId r) (ServerRuleId r) v (GraphVersion r) (RequiredCapabilities r) (BoardColumn r) (ClaimPolicy r) (ClaimConflictBehavior r) (ClaimedTimeUnix r) (ClaimLeaseId r) (ReviewerAgentId r) (ReleaseGateId r) (AssignedTarget r) (DeadlineTimeUnix r) (CreatedTimeUnix r) (UpdatedTimeUnix r).
Definition set_GraphVersion (v : Z) (r : Task) : Task := mk (TaskId r) (Summary r) (State r) (RuntimeId r) (ThreadId r) (WorkspaceId r) (ComputerId r) (CreatedByUserId r) (BlockedReason r) (Target r) (AssigneeId r) (CurrentRunId r) (RootTaskId r) (ParentTaskId r) (Source r) (CreatedByAgentId r) (ServerRuleId r) (SplitProposalId r) v (RequiredCapabilities r) (BoardColumn r) (ClaimPolicy r) (ClaimConflictBehavior r) (ClaimedTimeUnix r) (ClaimLeaseId r) (ReviewerAgentId r) (ReleaseGateId r) (AssignedTarget r) (DeadlineTimeUnix r) (CreatedTimeUnix r) (UpdatedTimeUnix r).
Definition set_RequiredCapabilities (v : list string) (r : Task) : Task := mk (TaskId r) (Summary r) (State r) (RuntimeId r) (ThreadId r) (WorkspaceId r) (ComputerId r) (CreatedByUserId r) (BlockedReason r) (Target r) (AssigneeId r) (CurrentRunId r) (RootTaskId r) (ParentTaskId r) (Source r) (CreatedByAgentId r) (ServerRuleId r) (SplitProposalId r) (GraphVersion r) v (BoardColumn r) (ClaimPolicy r) (ClaimConflictBehavior r) (ClaimedTimeUnix r) (ClaimLeaseId r) (ReviewerAgentId r) (ReleaseGateId r) (AssignedTarget r) (DeadlineTimeUnix r) (CreatedTimeUnix r) (UpdatedTimeUnix r).
Definition set_BoardColumn (v : string) (r : Task) : Task := mk (TaskId r) (Summary r) (State r) (RuntimeId r) (ThreadId r) (WorkspaceId r) (ComputerId r) (CreatedByUserId r) (BlockedReason r) (Target r) (AssigneeId r) (CurrentRunId r) (RootTaskId r) (ParentTaskId r) (Source r) (CreatedByAgentId r) (ServerRuleId r) (SplitProposalId r) (GraphVersion r) (RequiredCapabilities r) v (ClaimPolicy r) (ClaimConflictBehavior r) (ClaimedTimeUnix r) (ClaimLeaseId r) (ReviewerAgentId r) (ReleaseGateId r) (AssignedTarget r) (DeadlineTimeUnix r) (CreatedTimeUnix r) (UpdatedTimeUnix r).
Definition set_ClaimPolicy (v : Z) (r : Task) : Task := mk (TaskId r) (Summary r) (State r) (RuntimeId r) (ThreadId r) (WorkspaceId r) (ComputerId r) (CreatedByUserId r) (BlockedReason r) (Target r) (AssigneeId r) (CurrentRunId r) (RootTaskId r) (ParentTaskId r) (Source r) (CreatedByAgentId r) (ServerRuleId r) (SplitProposalId r) (GraphVersion r) (RequiredCapabilities r) (BoardColumn r) v (ClaimConflictBehavior r) (ClaimedTimeUnix r) (ClaimLeaseId r) (ReviewerAgentId r) (ReleaseGateId r) (AssignedTarget r) (DeadlineTimeUnix r) (CreatedTimeUnix r) (UpdatedTimeUnix r).
Definition set_ClaimConflictBehavior (v : Z) (r : Task) : Task := mk (TaskId r) (Summary r) (State r) (RuntimeId r) (ThreadId r) (WorkspaceId r) (ComputerId r) (CreatedByUserId r) (BlockedReason r) (Target r) (AssigneeId r) (CurrentRunId r) (RootTaskId r) (ParentTaskId r) (Source r) (CreatedByAgentId r) (ServerRuleId r) (SplitProposalId r) (GraphVersion r) (RequiredCapabilities r) (BoardColumn r) (ClaimPolicy r) v (ClaimedTimeUnix r) (ClaimLeaseId r) (ReviewerAgentId r) (ReleaseGateId r) (AssignedTarget r) (DeadlineTimeUnix r) (CreatedTimeUnix r) (UpdatedTimeUnix r).
Definition set_ClaimedTimeUnix (v : Z) (r : Task) : Task := mk (TaskId r) (Summary r) (State r) (RuntimeId r) (ThreadId r) (WorkspaceId r) (ComputerId r) (CreatedByUserId r) (BlockedReason r) (Target r) (AssigneeId r) (CurrentRunId r) (RootTaskId r) (ParentTaskId r) (Source r) (CreatedByAgentId r) (ServerRuleId r) (SplitProposalId r) (GraphVersion r) (RequiredCapabilities r) (BoardColumn r) (ClaimPolicy r) (ClaimConflictBehavior r) v (ClaimLeaseId r) (ReviewerAgentId r) (ReleaseGateId r) (AssignedTarget r) (DeadlineTimeUnix r) (CreatedTimeUnix r) (UpdatedTimeUnix r).
Definition set_ClaimLeaseId (v : string) (r : Task) : Task := mk (TaskId r) (Summary r) (State r) (RuntimeId r) (ThreadId r) (WorkspaceId r) (ComputerId r) (CreatedByUserId r) (BlockedReason r) (Target r) (AssigneeId r) (CurrentRunId r) (RootTaskId r) (ParentTaskId r) (Source r) (CreatedByAgentId r) (ServerRuleId r) (SplitProposalId r) (GraphVersion r) (RequiredCapabilities r) (BoardColumn r) (ClaimPolicy r) (ClaimConflictBehavior r) (ClaimedTimeUnix r) v (ReviewerAgentId r) (ReleaseGateId r) (AssignedTarget r) (DeadlineTimeUnix r) (CreatedTimeUnix r) (UpdatedTimeUnix r).
Definition set_ReviewerAgentId (v : string) (r : Task) : Task := mk (TaskId r) (Summary r) (State r) (RuntimeId r) (ThreadId r) (WorkspaceId r) (ComputerId r) (CreatedByUserId r) (BlockedReason r) (Target r) (AssigneeId r) (CurrentRunId r) (RootTaskId r) (ParentTaskId r) (Source r) (CreatedByAgentId r) (ServerRuleId r) (SplitProposalId r) (GraphVersion r) (RequiredCapabilities r) (BoardColumn r) (ClaimPolicy r) (ClaimConflictBehavior r) (ClaimedTimeUnix r) (ClaimLeaseId r) v (ReleaseGateId r) (AssignedTarget r) (DeadlineTimeUnix r) (CreatedTimeUnix r) (UpdatedTimeUnix r).
Definition set_ReleaseGateId (v : string) (r : Task) : Task := mk (TaskId r) (Summary r) (State r) (RuntimeId r) (ThreadId r) (WorkspaceId r) (ComputerId r) (CreatedByUserId r) (BlockedReason r) (Target r) (AssigneeId r) (CurrentRunId r) (RootTaskId r) (ParentTaskId r) (Source r) (CreatedByAgentId r) (ServerRuleId r) (SplitProposalId r) (GraphVersion r) (RequiredCapabilities r) (BoardColumn r) (ClaimPolicy r) (ClaimConflictBehavior r) (ClaimedTimeUnix r) (ClaimLeaseId r) (ReviewerAgentId r) v (AssignedTarget r) (DeadlineTimeUnix r) (CreatedTimeUnix r) (UpdatedTimeUnix r).
Definition set_AssignedTarget (v : string) (r : Task) : Task := mk (TaskId r) (Summary r) (State r) (RuntimeId r) (ThreadId r) (WorkspaceId r) (ComputerId r) (CreatedByUserId r) (BlockedReason r) (Target r) (AssigneeId r) (CurrentRunId r) (RootTaskId r) (ParentTaskId r) (Source r) (CreatedByAgentId r) (ServerRuleId r) (SplitProposalId r) (GraphVersion r) (RequiredCapabilities r) (BoardColumn r) (ClaimPolicy r) (ClaimConflictBehavior r) (ClaimedTimeUnix r) (ClaimLeaseId r) (ReviewerAgentId r) (ReleaseGateId r) v (DeadlineTimeUnix r) (CreatedTimeUnix r) (UpdatedTimeUnix r).
Definition set_DeadlineTimeUnix (v : Z) (r : Task) : Task := mk (TaskId r) (Summary r) (State r) (RuntimeId r) (ThreadId r) (WorkspaceId r) (ComputerId r) (CreatedByUserId r) (BlockedReason r) (Target r) (AssigneeId r) (CurrentRunId r) (RootTaskId r) (ParentTaskId r) (Source r) (CreatedByAgentId r) (ServerRuleId r) (SplitProposalId r) (GraphVersion r) (RequiredCapabilities r) (BoardColumn r) (ClaimPolicy r) (ClaimConflictBehavior r) (ClaimedTimeUnix r) (ClaimLeaseId r) (ReviewerAgentId r) (ReleaseGateId r) (AssignedTarget r) v (CreatedTimeUnix r) (UpdatedTimeUnix r).
Definition set_CreatedTimeUnix (v : Z) (r : Task) : Task := mk (TaskId r) (Summary r) (State r) (RuntimeId r) (ThreadId r) (WorkspaceId r) (ComputerId r) (CreatedByUserId r) (BlockedReason r) (Target r) (AssigneeId r) (CurrentRunId r) (RootTaskId r) (ParentTaskId r) (Source r) (CreatedByAgentId r) (ServerRuleId r) (SplitProposalId r) (GraphVersion r) (RequiredCapabilities r) (BoardColumn r) (ClaimPolicy r) (ClaimConflictBehavior r) (ClaimedTimeUnix r) (ClaimLeaseId r) (ReviewerAgentId r) (ReleaseGateId r) (AssignedTarget r) (DeadlineTimeUnix r) v (UpdatedTimeUnix r).
Definition set_UpdatedTimeUnix (v : Z) (r : Task) : Task := mk (TaskId r) (Summary r) (State r) (RuntimeId r) (ThreadId r) (WorkspaceId r) (ComputerId r) (CreatedByUserId r) (BlockedReason r) (Target r) (AssigneeId r) (CurrentRunId r) (RootTaskId r) (ParentTaskId r) (Source r) (CreatedByAgentId r) (ServerRuleId r) (SplitProposalId r) (GraphVersion r) (RequiredCapabilities r) (BoardColumn r) (ClaimPolicy r) (ClaimConflictBehavior r) (ClaimedTimeUnix r) (ClaimLeaseId r) (ReviewerAgentId r) (ReleaseGateId r) (AssignedTarget r) (DeadlineTimeUnix r) (CreatedTimeUnix r) v.
End Task.

Module ClaimCollaborationTaskResponse.
Record ClaimCollaborationTaskResponse := mk {
  Task : option Task.Task;
  Accepted : bool;
  ConflictReason : string;
  CurrentAssigneeId : string;
  ConflictPolicy : Z;
  ClaimLease : option Lease.Lease;
  CurrentLeaseId : string;
  CurrentLeaseExpiresUnix : Z
}.
Definition zero : ClaimCollaborationTaskResponse := mk None false "" "" 0%Z None "" 0%Z.
Definition set_Task (v : option Task.Task) (r : ClaimCollaborationTaskResponse) : ClaimCollaborationTaskResponse := mk v (Accepted r) (ConflictReason r) (CurrentAssigneeId r) (ConflictPolicy r) (ClaimLease r) (CurrentLeaseId r) (CurrentLeaseExpiresUnix r).
Definition set_Accepted (v : bool) (r : ClaimCollaborationTaskResponse) : ClaimCollaborationTaskResponse := mk (Task r) v (ConflictReason r) (CurrentAssigneeId r) (ConflictPolicy r) (ClaimLease r) (CurrentLeaseId r) (CurrentLeaseExpiresUnix r).
Definition set_ConflictReason (v : string) (r : ClaimCollaborationTaskResponse) : ClaimCollaborationTaskResponse := mk (Task r) (Accepted r) v (CurrentAssigneeId r) (ConflictPolicy r) (ClaimLease r) (CurrentLeaseId r) (CurrentLeaseExpiresUnix r).
Definition set_CurrentAssigneeId (v : string) (r : ClaimCollaborationTaskResponse) : ClaimCollaborationTaskResponse := mk (Task r) (Accepted r) (ConflictReason r) v (ConflictPolicy r) (ClaimLease r) (CurrentLeaseId r) (CurrentLeaseExpiresUnix r).
Definition set_ConflictPolicy (v : Z) (r : ClaimCollaborationTaskResponse) : ClaimCollaborationTaskResponse := mk (Task r) (Accepted r) (ConflictReason r) (CurrentAssigneeId r) v (ClaimLease r) (CurrentLeaseId r) (CurrentLeaseExpiresUnix r).
Definition set_ClaimLease (v : option Lease.Lease) (r : ClaimCollaborationTaskResponse) : ClaimCollaborationTaskResponse := mk (Task r) (Accepted r) (ConflictReason r) (CurrentAssigneeId r) (ConflictPolicy r) v (CurrentLeaseId r) (CurrentLeaseExpiresUnix r).
Definition set_CurrentLeaseId (v : string) (r : ClaimCollaborationTaskResponse) : ClaimCollaborationTaskResponse := mk (Task r) (Accepted r) (ConflictReason r) (CurrentAssigneeId r) (ConflictPolicy r) (ClaimLease r) v (CurrentLeaseExpiresUnix r).
Definition set_CurrentLeaseExpiresUnix (v : Z) (r : ClaimCollaborationTaskResponse) : ClaimCollaborationTaskResponse := mk (Task r) (Accepted r) (ConflictReason r) (CurrentAssigneeId r) (ConflictPolicy r) (ClaimLease r) (CurrentLeaseId r) v.
End ClaimCollaborationTaskResponse.

Module CloseTunnelRequest.
Record CloseTunnelRequest := mk {
  TunnelId : string;
  Reason : string;
  Context : option RequestContext.RequestContext
}.
Definition zero : CloseTunnelRequest := mk "" "" None.
Definition set_TunnelId (v : string) (r : CloseTunnelRequest) : CloseTunnelRequest := mk v (Reason r) (Context r).
Definition set_Reason (v : string) (r : CloseTunnelRequest) : CloseTunnelRequest := mk (TunnelId r) v (Context r).
Definition set_Context (v : option RequestContext.RequestContext) (r : CloseTunnelRequest) : CloseTunnelRequest := mk (TunnelId r) (Reason r) v.
End CloseTunnelRequest.

Module CloseTunnelResponse.
Record CloseTunnelResponse := mk {
  Tunnel : option Tunnel.Tunnel
}.
Definition zero : CloseTunnelResponse := mk None.
Definition set_Tunnel (v : option Tunnel.Tunnel) (r : CloseTunnelResponse) : CloseTunnelResponse := mk v.
End CloseTunnelResponse.

Module EventScope.
Record EventScope := mk {
  ScopeType : Z;
  ScopeId : string;
  Target : string;
  CustomType : string
}.
Definition zero : EventScope := mk 0%Z "" "" "".
Definition set_ScopeType (v : Z) (r : EventScope) : EventScope := mk v (ScopeId r) (Target r) (CustomType r).
Definition set_ScopeId (v : string) (r : EventScope) : EventScope := mk (ScopeType r) v (Target r) (CustomType r).
Definition set_Target (v : string) (r : EventScope) : EventScope := mk (ScopeType r) (ScopeId r) v (CustomType r).
Definition set_CustomType (v : string) (r : EventScope) : EventScope := mk (ScopeType r) (ScopeId r) (Target r) v.
End EventScope.

Module CollaborationMessage.
Record CollaborationMessage := mk {
  MessageId : string;
  Target : string;
  ThreadId : string;
  Role : string;
  Content : string;
  ReplyToMessageId : string;
  CreatedTimeUnix : Z;
  Attachments : list AttachmentRecord.AttachmentRecord;
  RequestId : string;
  SourceEndpointId : string;
  ExternalMessageId : string;
  MetadataJson : string;
  CoordinationRecordId : string;
  MemoryRecordId : string;
  Sender : option Actor.Actor;
  Sequence : Z;
  AggregateId : string;
  Kind : Z
}.
Definition zero : CollaborationMessage := mk "" "" "" "" "" "" 0%Z [] "" "" "" "" "" "" None 0%Z "" 0%Z.
Definition set_MessageId (v : string) (r : CollaborationMessage) : CollaborationMessage := mk v (Target r) (ThreadId r) (Role r) (Content r) (ReplyToMessageId r) (CreatedTimeUnix r) (Attachments r) (RequestId r) (SourceEndpointId r) (ExternalMessageId r) (MetadataJson r) (CoordinationRecordId r) (MemoryRecordId r) (Sender r) (Sequence r) (AggregateId r) (Kind r).
Definition set_Target (v : string) (r : CollaborationMessage) : CollaborationMessage := mk (MessageId r) v (ThreadId r) (Role r) (Content r) (ReplyToMessageId r) (CreatedTimeUnix r) (Attachments r) (RequestId r) (SourceEndpointId r) (ExternalMessageId r) (MetadataJson r) (CoordinationRecordId r) (MemoryRecordId r) (Sender r) (Sequence r) (AggregateId r) (Kind r).
Definition set_ThreadId (v : string) (r : CollaborationMessage) : CollaborationMessage := mk (MessageId r) (Target r) v (Role r) (Content r) (ReplyToMessageId r) (CreatedTimeUnix r) (Attachments r) (RequestId r) (SourceEndpointId r) (ExternalMessageId r) (MetadataJson r) (CoordinationRecordId r) (MemoryRecordId r) (Sender r) (Sequence r) (AggregateId r) (Kind r).
Definition set_Role (v : string) (r : CollaborationMessage) : CollaborationMessage := mk (MessageId r) (Target r) (ThreadId r) v (Content r) (ReplyToMessageId r) (CreatedTimeUnix r) (Attachments r) (RequestId r) (SourceEndpointId r) (ExternalMessageId r) (MetadataJson r) (CoordinationRecordId r) (MemoryRecordId r) (Sender r) (Sequence r) (AggregateId r) (Kind r).
Definition set_Content (v : string) (r : CollaborationMessage) : CollaborationMessage := mk (MessageId r) (Target r) (ThreadId r) (Role r) v (ReplyToMessageId r) (CreatedTimeUnix r) (Attachments r) (RequestId r) (SourceEndpointId r) (ExternalMessageId r) (MetadataJson r) (CoordinationRecordId r) (MemoryRecordId r) (Sender r) (Sequence r) (AggregateId r) (Kind r).
Definition set_ReplyToMessageId (v : string) (r : CollaborationMessage) : CollaborationMessage := mk (MessageId r) (Target r) (ThreadId r) (Role r) (Content r) v (CreatedTimeUnix r) (Attachments r) (RequestId r) (SourceEndpointId r) (ExternalMessageId r) (MetadataJson r) (CoordinationRecordId r) (MemoryRecordId r) (Sender r) (Sequence r) (AggregateId r) (Kind r).
Definition set_CreatedTimeUnix (v : Z) (r : CollaborationMessage) : CollaborationMessage := mk (MessageId r) (Target r) (ThreadId r) (Role r) (Content r) (ReplyToMessageId r) v (Attachments r) (RequestId r) (SourceEndpointId r) (ExternalMessageId r) (MetadataJson r) (CoordinationRecordId r) (MemoryRecordId r) (Sender r) (Sequence r) (AggregateId r) (Kind r).
Definition set_Attachments (v : list AttachmentRecord.AttachmentRecord) (r : CollaborationMessage) : CollaborationMessage := mk (MessageId r) (Target r) (ThreadId r) (Role r) (Content r) (ReplyToMessageId r) (CreatedTimeUnix r) v (RequestId r) (SourceEndpointId r) (ExternalMessageId r) (MetadataJson r) (CoordinationRecordId r) (MemoryRecordId r) (Sender r) (Sequence r) (AggregateId r) (Kind r).
Definition set_RequestId (v : string) (r : CollaborationMessage) : CollaborationMessage := mk (MessageId r) (Target r) (ThreadId r) (Role r) (Content r) (ReplyToMessageId r) (CreatedTimeUnix r) (Attachments r) v (SourceEndpointId r) (ExternalMessageId r) (MetadataJson r) (CoordinationRecordId r) (MemoryRecordId r) (Sender r) (Sequence r) (AggregateId r) (Kind r).
Definition set_SourceEndpointId (v : string) (r : CollaborationMessage) : CollaborationMessage := mk (MessageId r) (Target r) (ThreadId r) (Role r) (Content r) (ReplyToMessageId r) (CreatedTimeUnix r) (Attachments r) (RequestId r) v (ExternalMessageId r) (MetadataJson r) (CoordinationRecordId r) (MemoryRecordId r) (Sender r) (Sequence r) (AggregateId r) (Kind r).
Definition set_ExternalMessageId (v : string) (r : CollaborationMessage) : CollaborationMessage := mk (MessageId r) (Target r) (ThreadId r) (Role r) (Content r) (ReplyToMessageId r) (CreatedTimeUnix r) (Attachments r) (RequestId r) (SourceEndpointId r) v (MetadataJson r) (CoordinationRecordId r) (MemoryRecordId r) (Sender r) (Sequence r) (AggregateId r) (Kind r).
Definition set_MetadataJson (v : string) (r : CollaborationMessage) : CollaborationMessage := mk (MessageId r) (Target r) (ThreadId r) (Role r) (Content r) (ReplyToMessageId r) (CreatedTimeUnix r) (Attachments r) (RequestId r) (SourceEndpointId r) (ExternalMessageId r) v (CoordinationRecordId r) (MemoryRecordId r) (Sender r) (Sequence r) (AggregateId r) (Kind r).
Definition set_CoordinationRecordId (v : string) (r : CollaborationMessage) : CollaborationMessage := mk (MessageId r) (Target r) (ThreadId r) (Role r) (Content r) (ReplyToMessageId r) (CreatedTimeUnix r) (Attachments r) (RequestId r) (SourceEndpointId r) (ExternalMessageId r) (MetadataJson r) v (MemoryRecordId r) (Sender r) (Sequence r) (AggregateId r) (Kind r).
Definition set_MemoryRecordId (v : string) (r : CollaborationMessage) : CollaborationMessage := mk (MessageId r) (Target r) (ThreadId r) (Role r) (Content r) (ReplyToMessageId r) (CreatedTimeUnix r) (Attachments r) (RequestId r) (SourceEndpointId r) (ExternalMessageId r) (MetadataJson r) (CoordinationRecordId r) v (Sender r) (Sequence r) (AggregateId r) (Kind r).
Definition set_Sender (v : option Actor.Actor) (r : CollaborationMessage) : CollaborationMessage := mk (MessageId r) (Target r) (ThreadId r) (Role r) (Content r) (ReplyToMessageId r) (CreatedTimeUnix r) (Attachments r) (RequestId r) (SourceEndpointId r) (ExternalMessageId r) (MetadataJson r) (CoordinationRecordId r) (MemoryRecordId r) v (Sequence r) (AggregateId r) (Kind r).
Definition set_Sequence (v : Z) (r : CollaborationMessage) : CollaborationMessage := mk (MessageId r) (Target r) (ThreadId r) (Role r) (Content r) (ReplyToMessageId r) (CreatedTimeUnix r) (Attachments r) (RequestId r) (SourceEndpointId r) (ExternalMessageId r) (MetadataJson r) (CoordinationRecordId r) (MemoryRecordId r) (Sender r) v (AggregateId r) (Kind r).
Definition set_AggregateId (v : string) (r : CollaborationMessage) : CollaborationMessage := mk (MessageId r) (Target r) (ThreadId r) (Role r) (Content r) (ReplyToMessageId r) (CreatedTimeUnix r) (Attachments r) (RequestId r) (SourceEndpointId r) (ExternalMessageId r) (MetadataJson r) (CoordinationRecordId r) (MemoryRecordId r) (Sender r) (Sequence r) v (Kind r).
Definition set_Kind (v : Z) (r : CollaborationMessage) : CollaborationMessage := mk (MessageId r) (Target r) (ThreadId r) (Role r) (Content r) (ReplyToMessageId r) (CreatedTimeUnix r) (Attachments r) (RequestId r) (SourceEndpointId r) (ExternalMessageId r) (MetadataJson r) (CoordinationRecordId r) (MemoryRecordId r) (Sender r) (Sequence r) (AggregateId r) v.
End CollaborationMessage.

Module Run.
Record Run := mk {
  RunId : string;
  TaskId : string;
  Target : string;
  AgentId : string;
  ComputerId : string;
  RuntimeProfileId : string;
  State : Z;
  LeaseId : string;
  RequestId : string;
  InputMessageId : string;
  LastSeenEventId : string;
  StartedTimeUnix : Z;
  UpdatedTimeUnix : Z;
  CompletedTimeUnix : Z;
  Error : string;
  Summary : string;
  Attempt : Z;
  MaxAttempts : Z;
  ParentRunId : string;
  FailureReason : string;
  LastHeartbeatTimeUnix : Z;
  LaunchPromptSnapshotId : string
}.
Definition zero : Run := mk "" "" "" "" "" "" 0%Z "" "" "" "" 0%Z 0%Z 0%Z "" "" 0%Z 0%Z "" "" 0%Z "".
Definition set_RunId (v : string) (r : Run) : Run := mk v (TaskId r) (Target r) (AgentId r) (ComputerId r) (RuntimeProfileId r) (State r) (LeaseId r) (RequestId r) (InputMessageId r) (LastSeenEventId r) (StartedTimeUnix r) (UpdatedTimeUnix r) (CompletedTimeUnix r) (Error r) (Summary r) (Attempt r) (MaxAttempts r) (ParentRunId r) (FailureReason r) (LastHeartbeatTimeUnix r) (LaunchPromptSnapshotId r).
Definition set_TaskId (v : string) (r : Run) : Run := mk (RunId r) v (Target r) (AgentId r) (ComputerId r) (RuntimeProfileId r) (State r) (LeaseId r) (RequestId r) (InputMessageId r) (LastSeenEventId r) (StartedTimeUnix r) (UpdatedTimeUnix r) (CompletedTimeUnix r) (Error r) (Summary r) (Attempt r) (MaxAttempts r) (ParentRunId r) (FailureReason r) (LastHeartbeatTimeUnix r) (LaunchPromptSnapshotId r).
Definition set_Target (v : string) (r : Run) : Run := mk (RunId r) (TaskId r) v (AgentId r) (ComputerId r) (RuntimeProfileId r) (State r) (LeaseId r) (RequestId r) (InputMessageId r) (LastSeenEventId r) (StartedTimeUnix r) (UpdatedTimeUnix r) (CompletedTimeUnix r) (Error r) (Summary r) (Attempt r) (MaxAttempts r) (ParentRunId r) (FailureReason r) (LastHeartbeatTimeUnix r) (LaunchPromptSnapshotId r).
Definition set_AgentId (v : string) (r : Run) : Run := mk (RunId r) (TaskId r) (Target r) v (ComputerId r) (RuntimeProfileId r) (State r) (LeaseId r) (RequestId r) (InputMessageId r) (LastSeenEventId r) (StartedTimeUnix r) (UpdatedTimeUnix r) (CompletedTimeUnix r) (Error r) (Summary r) (Attempt r) (MaxAttempts r) (ParentRunId r) (FailureReason r) (LastHeartbeatTimeUnix r) (LaunchPromptSnapshotId r).
Definition set_ComputerId (v : string) (r : Run) : Run := mk (RunId r) (TaskId r) (Target r) (AgentId r) v (RuntimeProfileId r) (State r) (LeaseId r) (RequestId r) (InputMessageId r) (LastSeenEventId r) (StartedTimeUnix r) (UpdatedTimeUnix r) (CompletedTimeUnix r) (Error r) (Summary r) (Attempt r) (MaxAttempts r) (ParentRunId r) (FailureReason r) (LastHeartbeatTimeUnix r) (LaunchPromptSnapshotId r).
Definition set_RuntimeProfileId (v : string) (r : Run) : Run := mk (RunId r) (TaskId r) (Target r) (AgentId r) (ComputerId r) v (State r) (LeaseId r) (RequestId r) (InputMessageId r) (LastSeenEventId r) (StartedTimeUnix r) (UpdatedTimeUnix r) (CompletedTimeUnix r) (Error r) (Summary r) (Attempt r) (MaxAttempts r) (ParentRunId r) (FailureReason r) (LastHeartbeatTimeUnix r) (LaunchPromptSnapshotId r).
Definition set_State (v : Z) (r : Run) : Run := mk (RunId r) (TaskId r) (Target r) (AgentId r) (ComputerId r) (RuntimeProfileId r) v (LeaseId r) (RequestId r) (InputMessageId r) (LastSeenEventId r) (StartedTimeUnix r) (UpdatedTimeUnix r) (CompletedTimeUnix r) (Error r) (Summary r) (Attempt r) (MaxAttempts r) (ParentRunId r) (FailureReason r) (LastHeartbeatTimeUnix r) (LaunchPromptSnapshotId r).
Definition set_LeaseId (v : string) (r : Run) : Run := mk (RunId r) (TaskId r) (Target r) (AgentId r) (ComputerId r) (RuntimeProfileId r) (State r) v (RequestId r) (InputMessageId r) (LastSeenEventId r) (StartedTimeUnix r) (UpdatedTimeUnix r) (CompletedTimeUnix r) (Error r) (Summary r) (Attempt r) (MaxAttempts r) (ParentRunId r) (FailureReason r) (LastHeartbeatTimeUnix r) (LaunchPromptSnapshotId r).
Definition set_RequestId (v : string) (r : Run) : Run := mk (RunId r) (TaskId r) (Target r) (AgentId r) (ComputerId r) (RuntimeProfileId r) (State r) (LeaseId r) v (InputMessageId r) (LastSeenEventId r) (StartedTimeUnix r) (UpdatedTimeUnix r) (CompletedTimeUnix r) (Error r) (Summary r) (Attempt r) (MaxAttempts r) (ParentRunId r) (FailureReason r) (LastHeartbeatTimeUnix r) (LaunchPromptSnapshotId r).
Definition set_InputMessageId (v : string) (r : Run) : Run := mk (RunId r) (TaskId r) (Target r) (AgentId r) (ComputerId r) (RuntimeProfileId r) (State r) (LeaseId r) (RequestId r) v (LastSeenEventId r) (StartedTimeUnix r) (UpdatedTimeUnix r) (CompletedTimeUnix r) (Error r) (Summary r) (Attempt r) (MaxAttempts r) (ParentRunId r) (FailureReason r) (LastHeartbeatTimeUnix r) (LaunchPromptSnapshotId r).
Definition set_LastSeenEventId (v : string) (r : Run) : Run := mk (RunId r) (TaskId r) (Target r) (AgentId r) (ComputerId r) (RuntimeProfileId r) (State r) (LeaseId r) (RequestId r) (InputMessageId r) v (StartedTimeUnix r) (UpdatedTimeUnix r) (CompletedTimeUnix r) (Error r) (Summary r) (Attempt r) (MaxAttempts r) (ParentRunId r) (FailureReason r) (LastHeartbeatTimeUnix r) (LaunchPromptSnapshotId r).
Definition set_StartedTimeUnix (v : Z) (r : Run) : Run := mk (RunId r) (TaskId r) (Target r) (AgentId r) (ComputerId r) (RuntimeProfileId r) (State r) (LeaseId r) (RequestId r) (InputMessageId r) (LastSeenEventId r) v (UpdatedTimeUnix r) (CompletedTimeUnix r) (Error r) (Summary r) (Attempt r) (MaxAttempts r) (ParentRunId r) (FailureReason r) (LastHeartbeatTimeUnix r) (LaunchPromptSnapshotId r).
Definition set_UpdatedTimeUnix (v : Z) (r : Run) : Run := mk (RunId r) (TaskId r) (Target r) (AgentId r) (ComputerId r) (RuntimeProfileId r) (State r) (LeaseId r) (RequestId r) (InputMessageId r) (LastSeenEventId r) (StartedTimeUnix r) v (CompletedTimeUnix r) (Error r) (Summary r) (Attempt r) (MaxAttempts r) (ParentRunId r) (FailureReason r) (LastHeartbeatTimeUnix r) (LaunchPromptSnapshotId r).
Definition set_CompletedTimeUnix (v : Z) (r : Run) : Run := mk (RunId r) (TaskId r) (Target r) (AgentId r) (ComputerId r) (RuntimeProfileId r) (State r) (LeaseId r) (RequestId r) (InputMessageId r) (LastSeenEventId r) (StartedTimeUnix r) (UpdatedTimeUnix r) v (Error r) (Summary r) (Attempt r) (MaxAttempts r) (ParentRunId r) (FailureReason r) (LastHeartbeatTimeUnix r) (LaunchPromptSnapshotId r).
Definition set_Error (v : string) (r : Run) : Run := mk (RunId r) (TaskId r) (Target r) (AgentId r) (ComputerId r) (RuntimeProfileId r) (State r) (LeaseId r) (RequestId r) (InputMessageId r) (LastSeenEventId r) (StartedTimeUnix r) (UpdatedTimeUnix r) (CompletedTimeUnix r) v (Summary r) (Attempt r) (MaxAttempts r) (ParentRunId r) (FailureReason r) (LastHeartbeatTimeUnix r) (LaunchPromptSnapshotId r).
Definition set_Summary (v : string) (r : Run) : Run := mk (RunId r) (TaskId r) (Target r) (AgentId r) (ComputerId r) (RuntimeProfileId r) (State r) (LeaseId r) (RequestId r) (InputMessageId r) (LastSeenEventId r) (StartedTimeUnix r) (UpdatedTimeUnix r) (CompletedTimeUnix r) (Error r) v (Attempt r) (MaxAttempts r) (ParentRunId r) (FailureReason r) (LastHeartbeatTimeUnix r) (LaunchPromptSnapshotId r).
Definition set_Attempt (v : Z) (r : Run) : Run := mk (RunId r) (TaskId r) (Target r) (AgentId r) (ComputerId r) (RuntimeProfileId r) (State r) (LeaseId r) (RequestId r) (InputMessageId r) (LastSeenEventId r) (StartedTimeUnix r) (UpdatedTimeUnix r) (CompletedTimeUnix r) (Error r) (Summary r) v (MaxAttempts r) (ParentRunId r) (FailureReason r) (LastHeartbeatTimeUnix r) (LaunchPromptSnapshotId r).
Definition set_MaxAttempts (v : Z) (r : Run) : Run := mk (RunId r) (TaskId r) (Target r) (AgentId r) (ComputerId r) (RuntimeProfileId r) (State r) (LeaseId r) (RequestId r) (InputMessageId r) (LastSeenEventId r) (StartedTimeUnix r) (UpdatedTimeUnix r) (CompletedTimeUnix r) (Error r) (Summary r) (Attempt r) v (ParentRunId r) (FailureReason r) (LastHeartbeatTimeUnix r) (LaunchPromptSnapshotId r).
Definition set_ParentRunId (v : string) (r : Run) : Run := mk (RunId r) (TaskId r) (Target r) (AgentId r) (ComputerId r) (RuntimeProfileId r) (State r) (LeaseId r) (RequestId r) (InputMessageId r) (LastSeenEventId r) (StartedTimeUnix r) (UpdatedTimeUnix r) (CompletedTimeUnix r) (Error r) (Summary r) (Attempt r) (MaxAttempts r) v (FailureReason r) (LastHeartbeatTimeUnix r) (LaunchPromptSnapshotId r).
Definition set_FailureReason (v : string) (r : Run) : Run := mk (RunId r) (TaskId r) (Target r) (AgentId r) (ComputerId r) (RuntimeProfileId r) (State r) (LeaseId r) (RequestId r) (InputMessageId r) (LastSeenEventId r) (StartedTimeUnix r) (UpdatedTimeUnix r) (CompletedTimeUnix r) (Error r) (Summary r) (Attempt r) (MaxAttempts r) (ParentRunId r) v (LastHeartbeatTimeUnix r) (LaunchPromptSnapshotId r).
Definition set_LastHeartbeatTimeUnix (v : Z) (r : Run) : Run := mk (RunId r) (TaskId r) (Target r) (AgentId r) (ComputerId r) (RuntimeProfileId r) (State r) (LeaseId r) (RequestId r) (InputMessageId r) (LastSeenEventId r) (StartedTimeUnix r) (UpdatedTimeUnix r) (CompletedTimeUnix r) (Error r) (Summary r) (Attempt r) (MaxAttempts r) (ParentRunId r) (FailureReason r) v (LaunchPromptSnapshotId r).
Definition set_LaunchPromptSnapshotId (v : string) (r : Run) : Run := mk (RunId r) (TaskId r) (Target r) (AgentId r) (ComputerId r) (RuntimeProfileId r) (State r) (LeaseId r) (RequestId r) (InputMessageId r) (LastSeenEventId r) (StartedTimeUnix r) (UpdatedTimeUnix r) (CompletedTimeUnix r) (Error r) (Summary r) (Attempt r) (MaxAttempts r) (ParentRunId r) (FailureReason r) (LastHeartbeatTimeUnix r) v.
End Run.

Inductive CollaborationEvent_Payload :=
| CollaborationEvent_Message (message : CollaborationMessage.CollaborationMessage)
| CollaborationEvent_Activity (activity : ActivityRecord.ActivityRecord)
| CollaborationEvent_Task (task : Task.Task)
| CollaborationEvent_Reminder (reminder : ReminderRecord.ReminderRecord)
| CollaborationEvent_Run (run : Run.Run)
| CollaborationEvent_RunStep (runStep : RunStep.RunStep).

Module CollaborationEvent.
Record CollaborationEvent := mk {
  EventId : string;
  Target : string;
  Kind : Z;
  MessageId : string;
  ActivityId : string;
  TaskId : string;
  RunId : string;
  CreatedTimeUnix : Z;
  AttachmentId : string;
  CoordinationRecordId : string;
  MemoryRecordId : string;
  Sequence : Z;
  AggregateId : string;
  ProtocolVersion : Z;
  SourceEndpointId : string;
  Operation : Z;
  Scope : option EventScope.EventScope;
  WorkspaceId : string;
  Payload : option CollaborationEvent_Payload
}.
Definition zero : CollaborationEvent := mk "" "" 0%Z "" "" "" "" 0%Z "" "" "" 0%Z "" 0%Z "" 0%Z None "" None.
Definition set_EventId (v : string) (r : CollaborationEvent) : CollaborationEvent := mk v (Target r) (Kind r) (MessageId r) (ActivityId r) (TaskId r) (RunId r) (CreatedTimeUnix r) (AttachmentId r) (CoordinationRecordId r) (MemoryRecordId r) (Sequence r) (AggregateId r) (ProtocolVersion r) (SourceEndpointId r) (Operation r) (Scope r) (WorkspaceId r) (Payload r).
Definition set_Target (v : string) (r : CollaborationEvent) : CollaborationEvent := mk (EventId r) v (Kind r) (MessageId r) (ActivityId r) (TaskId r) (RunId r) (CreatedTimeUnix r) (AttachmentId r) (CoordinationRecordId r) (MemoryRecordId r) (Sequence r) (AggregateId r) (ProtocolVersion r) (SourceEndpointId r) (Operation r) (Scope r) (WorkspaceId r) (Payload r).
Definition set_Kind (v : Z) (r : CollaborationEvent) : CollaborationEvent := mk (EventId r) (Target r) v (MessageId r) (ActivityId r) (TaskId r) (RunId r) (CreatedTimeUnix r) (AttachmentId r) (CoordinationRecordId r) (MemoryRecordId r) (Sequence r) (AggregateId r) (ProtocolVersion r) (SourceEndpointId r) (Operation r) (Scope r) (WorkspaceId r) (Payload r).
Definition set_MessageId (v : string) (r : CollaborationEvent) : CollaborationEvent := mk (EventId r) (Target r) (Kind r) v (ActivityId r) (TaskId r) (RunId r) (CreatedTimeUnix r) (AttachmentId r) (CoordinationRecordId r) (MemoryRecordId r) (Sequence r) (AggregateId r) (ProtocolVersion r) (SourceEndpointId r) (Operation r) (Scope r) (WorkspaceId r) (Payload r).
Definition set_ActivityId (v : string) (r : CollaborationEvent) : CollaborationEvent := mk (EventId r) (Target r) (Kind r) (MessageId r) v (TaskId r) (RunId r) (CreatedTimeUnix r) (AttachmentId r) (CoordinationRecordId r) (MemoryRecordId r) (Sequence r) (AggregateId r) (ProtocolVersion r) (SourceEndpointId r) (Operation r) (Scope r) (WorkspaceId r) (Payload r).
Definition set_TaskId (v : string) (r : CollaborationEvent) : CollaborationEvent := mk (EventId r) (Target r) (Kind r) (MessageId r) (ActivityId r) v (RunId r) (CreatedTimeUnix r) (AttachmentId r) (CoordinationRecordId r) (MemoryRecordId r) (Sequence r) (AggregateId r) (ProtocolVersion r) (SourceEndpointId r) (Operation r) (Scope r) (WorkspaceId r) (Payload r).
Definition set_RunId (v : string) (r : CollaborationEvent) : CollaborationEvent := mk (EventId r) (Target r) (Kind r) (MessageId r) (ActivityId r) (TaskId r) v (CreatedTimeUnix r) (AttachmentId r) (CoordinationRecordId r) (MemoryRecordId r) (Sequence r) (AggregateId r) (ProtocolVersion r) (SourceEndpointId r) (Operation r) (Scope r) (WorkspaceId r) (Payload r).
Definition set_CreatedTimeUnix (v : Z) (r : CollaborationEvent) : CollaborationEvent := mk (EventId r) (Target r) (Kind r) (MessageId r) (ActivityId r) (TaskId r) (RunId r) v (AttachmentId r) (CoordinationRecordId r) (MemoryRecordId r) (Sequence r) (AggregateId r) (ProtocolVersion r) (SourceEndpointId r) (Operation r) (Scope r) (WorkspaceId r) (Payload r).
Definition set_AttachmentId (v : string) (r : CollaborationEvent) : CollaborationEvent := mk (EventId r) (Target r) (Kind r) (MessageId r) (ActivityId r) (TaskId r) (RunId r) (CreatedTimeUnix r) v (CoordinationRecordId r) (MemoryRecordId r) (Sequence r) (AggregateId r) (ProtocolVersion r) (SourceEndpointId r) (Operation r) (Scope r) (WorkspaceId r) (Payload r).
Definition set_CoordinationRecordId (v : string) (r : CollaborationEvent) : CollaborationEvent := mk (EventId r) (Target r) (Kind r) (MessageId r) (ActivityId r) (TaskId r) (RunId r) (CreatedTimeUnix r) (AttachmentId r) v (MemoryRecordId r) (Sequence r) (AggregateId r) (ProtocolVersion r) (SourceEndpointId r) (Operation r) (Scope r) (WorkspaceId r) (Payload r).
Definition set_MemoryRecordId (v : string) (r : CollaborationEvent) : CollaborationEvent := mk (EventId r) (Target r) (Kind r) (MessageId r) (ActivityId r) (TaskId r) (RunId r) (CreatedTimeUnix r) (AttachmentId r) (CoordinationRecordId r) v (Sequence r) (AggregateId r) (ProtocolVersion r) (SourceEndpointId r) (Operation r) (Scope r) (WorkspaceId r) (Payload r).
Definition set_Sequence (v : Z) (r : CollaborationEvent) : CollaborationEvent := mk (EventId r) (Target r) (Kind r) (MessageId r) (ActivityId r) (TaskId r) (RunId r) (CreatedTimeUnix r) (AttachmentId r) (CoordinationRecordId r) (MemoryRecordId r) v (AggregateId r) (ProtocolVersion r) (SourceEndpointId r) (Operation r) (Scope r) (WorkspaceId r) (Payload r).
Definition set_AggregateId (v : string) (r : CollaborationEvent) : CollaborationEvent := mk (EventId r) (Target r) (Kind r) (MessageId r) (ActivityId r) (TaskId r) (RunId r) (CreatedTimeUnix r) (AttachmentId r) (CoordinationRecordId r) (MemoryRecordId r) (Sequence r) v (ProtocolVersion r) (SourceEndpointId r) (Operation r) (Scope r) (WorkspaceId r) (Payload r).
Definition set_ProtocolVersion (v : Z) (r : CollaborationEvent) : CollaborationEvent := mk (EventId r) (Target r) (Kind r) (MessageId r) (ActivityId r) (TaskId r) (RunId r) (CreatedTimeUnix r) (AttachmentId r) (CoordinationRecordId r) (MemoryRecordId r) (Sequence r) (AggregateId r) v (SourceEndpointId r) (Operation r) (Scope r) (WorkspaceId r) (Payload r).
Definition set_SourceEndpointId (v : string) (r : CollaborationEvent) : CollaborationEvent := mk (EventId r) (Target r) (Kind r) (MessageId r) (ActivityId r) (TaskId r) (RunId r) (CreatedTimeUnix r) (AttachmentId r) (CoordinationRecordId r) (MemoryRecordId r) (Sequence r) (AggregateId r) (ProtocolVersion r) v (Operation r) (Scope r) (WorkspaceId r) (Payload r).
Definition set_Operation (v : Z) (r : CollaborationEvent) : CollaborationEvent := mk (EventId r) (Target r) (Kind r) (MessageId r) (ActivityId r) (TaskId r) (RunId r) (CreatedTimeUnix r) (AttachmentId r) (CoordinationRecordId r) (MemoryRecordId r) (Sequence r) (AggregateId r) (ProtocolVersion r) (SourceEndpointId r) v (Scope r) (WorkspaceId r) (Payload r).
Definition set_Scope (v : option EventScope.EventScope) (r : CollaborationEvent) : CollaborationEvent := mk (EventId r) (Target r) (Kind r) (MessageId r) (ActivityId r) (TaskId r) (RunId r) (CreatedTimeUnix r) (AttachmentId r) (CoordinationRecordId r) (MemoryRecordId r) (Sequence r) (AggregateId r) (ProtocolVersion r) (SourceEndpointId r) (Operation r) v (WorkspaceId r) (Payload r).
Definition set_WorkspaceId (v : string) (r : CollaborationEvent) : CollaborationEvent := mk (EventId r) (Target r) (Kind r) (MessageId r) (ActivityId r) (TaskId r) (RunId r) (CreatedTimeUnix r) (AttachmentId r) (CoordinationRecordId r) (MemoryRecordId r) (Sequence r) (AggregateId r) (ProtocolVersion r) (SourceEndpointId r) (Operation r) (Scope r) v (Payload r).
Definition set_Payload (v : option CollaborationEvent_Payload) (r : CollaborationEvent) : CollaborationEvent := mk (EventId r) (Target r) (Kind r) (MessageId r) (ActivityId r) (TaskId r) (RunId r) (CreatedTimeUnix r) (AttachmentId r) (CoordinationRecordId r) (MemoryRecordId r) (Sequence r) (AggregateId r) (ProtocolVersion r) (SourceEndpointId r) (Operation r) (Scope r) (WorkspaceId r) v.
End CollaborationEvent.

Module ComputerInfo.
Record ComputerInfo := mk {
  DaemonId : string;
  ComputerId : string;
  DisplayName : string;
  Hostname : string;
  Os : string;
  Arch : string;
  Version : string;
  Status : Z;
  LastSeenUnix : Z;
  DaemonUrl : string;
  LeaseId : string;
  Capabilities : list Capability.Capability
}.
Definition zero : ComputerInfo := mk "" "" "" "" "" "" "" 0%Z 0%Z "" "" [].
Definition set_DaemonId (v : string) (r : ComputerInfo) : ComputerInfo := mk v (ComputerId r) (DisplayName r) (Hostname r) (Os r) (Arch r) (Version r) (Status r) (LastSeenUnix r) (DaemonUrl r) (LeaseId r) (Capabilities r).
Definition set_ComputerId (v : string) (r : ComputerInfo) : ComputerInfo := mk (DaemonId r) v (DisplayName r) (Hostname r) (Os r) (Arch r) (Version r) (Status r) (LastSeenUnix r) (DaemonUrl r) (LeaseId r) (Capabilities r).
Definition set_DisplayName (v : string) (r : ComputerInfo) : ComputerInfo := mk (DaemonId r) (ComputerId r) v (Hostname r) (Os r) (Arch r) (Version r) (Status r) (LastSeenUnix r) (DaemonUrl r) (LeaseId r) (Capabilities r).
Definition set_Hostname (v : string) (r : ComputerInfo) : ComputerInfo := mk (DaemonId r) (ComputerId r) (DisplayName r) v (Os r) (Arch r) (Version r) (Status r) (LastSeenUnix r) (DaemonUrl r) (LeaseId r) (Capabilities r).
Definition set_Os (v : string) (r : ComputerInfo) : ComputerInfo := mk (DaemonId r) (ComputerId r) (DisplayName r) (Hostname r) v (Arch r) (Version r) (Status r) (LastSeenUnix r) (DaemonUrl r) (LeaseId r) (Capabilities r).
Definition set_Arch (v : string) (r : ComputerInfo) : ComputerInfo := mk (DaemonId r) (ComputerId r) (DisplayName r) (Hostname r) (Os r) v (Version r) (Status r) (LastSeenUnix r) (DaemonUrl r) (LeaseId r) (Capabilities r).
Definition set_Version (v : string) (r : ComputerInfo) : ComputerInfo := mk (DaemonId r) (ComputerId r) (DisplayName r) (Hostname r) (Os r) (Arch r) v (Status r) (LastSeenUnix r) (DaemonUrl r) (LeaseId r) (Capabilities r).
Definition set_Status (v : Z) (r : ComputerInfo) : ComputerInfo := mk (DaemonId r) (ComputerId r) (DisplayName r) (Hostname r) (Os r) (Arch r) (Version r) v (LastSeenUnix r) (DaemonUrl r) (LeaseId r) (Capabilities r).
Definition set_LastSeenUnix (v : Z) (r : ComputerInfo) : ComputerInfo := mk (DaemonId r) (ComputerId r) (DisplayName r) (Hostname r) (Os r) (Arch r) (Version r) (Status r) v (DaemonUrl r) (LeaseId r) (Capabilities r).
Definition set_DaemonUrl (v : string) (r : ComputerInfo) : ComputerInfo := mk (DaemonId r) (ComputerId r) (DisplayName r) (Hostname r) (Os r) (Arch r) (Version r) (Status r) (LastSeenUnix r) v (LeaseId r) (Capabilities r).
Definition set_LeaseId (v : string) (r : ComputerInfo) : ComputerInfo := mk (DaemonId r) (ComputerId r) (DisplayName r) (Hostname r) (Os r) (Arch r) (Version r) (Status r) (LastSeenUnix r) (DaemonUrl r) v (Capabilities r).
Definition set_Capabilities (v : list Capability.Capability) (r : ComputerInfo) : ComputerInfo := mk (DaemonId r) (ComputerId r) (DisplayName r) (Hostname r) (Os r) (Arch r) (Version r) (Status r) (LastSeenUnix r) (DaemonUrl r) (LeaseId r) v.
End ComputerInfo.

Module Workspace.
Record Workspace := mk {
  WorkspaceId : string;
  ComputerId : string;
  Path : string;
  DisplayName : string;
  Aliases : list string;
  IsDefault : bool
}.
Definition zero : Workspace := mk "" "" "" "" [] false.
Definition set_WorkspaceId (v : string) (r : Workspace) : Workspace := mk v (ComputerId r) (Path r) (DisplayName r) (Aliases r) (IsDefault r).
Definition set_ComputerId (v : string) (r : Workspace) : Workspace := mk (WorkspaceId r) v (Path r) (DisplayName r) (Aliases r) (IsDefault r).
Definition set_Path (v : string) (r : Workspace) : Workspace := mk (WorkspaceId r) (ComputerId r) v (DisplayName r) (Aliases r) (IsDefault r).
Definition set_DisplayName (v : string) (r : Workspace) : Workspace := mk (WorkspaceId r) (ComputerId r) (Path r) v (Aliases r) (IsDefault r).
Definition set_Aliases (v : list string) (r : Workspace) : Workspace := mk (WorkspaceId r) (ComputerId r) (Path r) (DisplayName r) v (IsDefault r).
Definition set_IsDefault (v : bool) (r : Workspace) : Workspace := mk (WorkspaceId r) (ComputerId r) (Path r) (DisplayName r) (Aliases r) v.
End Workspace.

Module RuntimeProfile.
Record RuntimeProfile := mk {
  RuntimeProfileId : string;
  Kind : string;
  Provider : string;
  Model : string;
  AdapterConfigJson : string;
  WorkspaceId : string;
  Env : list EnvVar.EnvVar;
  Skills : list SkillRecord.SkillRecord;
  Capabilities : list Capability.Capability
}.
Definition zero : RuntimeProfile := mk "" "" "" "" "" "" [] [] [].
Definition set_RuntimeProfileId (v : string) (r : RuntimeProfile) : RuntimeProfile := mk v (Kind r) (Provider r) (Model r) (AdapterConfigJson r) (WorkspaceId r) (Env r) (Skills r) (Capabilities r).
Definition set_Kind (v : string) (r : RuntimeProfile) : RuntimeProfile := mk (RuntimeProfileId r) v (Provider r) (Model r) (AdapterConfigJson r) (WorkspaceId r) (Env r) (Skills r) (Capabilities r).
Definition set_Provider (v : string) (r : RuntimeProfile) : RuntimeProfile := mk (RuntimeProfileId r) (Kind r) v (Model r) (AdapterConfigJson r) (WorkspaceId r) (Env r) (Skills r) (Capabilities r).
Definition set_Model (v : string) (r : RuntimeProfile) : RuntimeProfile := mk (RuntimeProfileId r) (Kind r) (Provider r) v (AdapterConfigJson r) (WorkspaceId r) (Env r) (Skills r) (Capabilities r).
Definition set_AdapterConfigJson (v : string) (r : RuntimeProfile) : RuntimeProfile := mk (RuntimeProfileId r) (Kind r) (Provider r) (Model r) v (WorkspaceId r) (Env r) (Skills r) (Capabilities r).
Definition set_WorkspaceId (v : string) (r : RuntimeProfile) : RuntimeProfile := mk (RuntimeProfileId r) (Kind r) (Provider r) (Model r) (AdapterConfigJson r) v (Env r) (Skills r) (Capabilities r).
Definition set_Env (v : list EnvVar.EnvVar) (r : RuntimeProfile) : RuntimeProfile := mk (RuntimeProfileId r) (Kind r) (Provider r) (Model r) (AdapterConfigJson r) (WorkspaceId r) v (Skills r) (Capabilities r).
Definition set_Skills (v : list SkillRecord.SkillRecord) (r : RuntimeProfile) : RuntimeProfile := mk (RuntimeProfileId r) (Kind r) (Provider r) (Model r) (AdapterConfigJson r) (WorkspaceId r) (Env r) v (Capabilities r).
Definition set_Capabilities (v : list Capability.Capability) (r : RuntimeProfile) : RuntimeProfile := mk (RuntimeProfileId r) (Kind r) (Provider r) (Model r) (AdapterConfigJson r) (WorkspaceId r) (Env r) (Skills r) v.
End RuntimeProfile.

Module Runtime.
Record Runtime := mk {
  RuntimeId : string;
  ComputerId : string;
  WorkspaceId : string;
  Kind : string;
  DisplayName : string;
  Aliases : list string;
  Tool : string;
  Command : string;
  Installed : bool;
  Healthy : bool;
  SupportsAutoInstall : bool;
  InstallHint : list string;
  ConfigDir : string;
  CurrentTaskCount : Z;
  PendingTaskCount : Z;
  Capabilities : list Capability.Capability;
  RuntimeProfile : option RuntimeProfile.RuntimeProfile
}.
Definition zero : Runtime := mk "" "" "" "" "" [] "" "" false false false [] "" 0%Z 0%Z [] None.
Definition set_RuntimeId (v : string) (r : Runtime) : Runtime := mk v (ComputerId r) (WorkspaceId r) (Kind r) (DisplayName r) (Aliases r) (Tool r) (Command r) (Installed r) (Healthy r) (SupportsAutoInstall r) (InstallHint r) (ConfigDir r) (CurrentTaskCount r) (PendingTaskCount r) (Capabilities r) (RuntimeProfile r).
Definition set_ComputerId (v : string) (r : Runtime) : Runtime := mk (RuntimeId r) v (WorkspaceId r) (Kind r) (DisplayName r) (Aliases r) (Tool r) (Command r) (Installed r) (Healthy r) (SupportsAutoInstall r) (InstallHint r) (ConfigDir r) (CurrentTaskCount r) (PendingTaskCount r) (Capabilities r) (RuntimeProfile r).
Definition set_WorkspaceId (v : string) (r : Runtime) : Runtime := mk (RuntimeId r) (ComputerId r) v (Kind r) (DisplayName r) (Aliases r) (Tool r) (Command r) (Installed r) (Healthy r) (SupportsAutoInstall r) (InstallHint r) (ConfigDir r) (CurrentTaskCount r) (PendingTaskCount r) (Capabilities r) (RuntimeProfile r).
Definition set_Kind (v : string) (r : Runtime) : Runtime := mk (RuntimeId r) (ComputerId r) (WorkspaceId r) v (DisplayName r) (Aliases r) (Tool r) (Command r) (Installed r) (Healthy r) (SupportsAutoInstall r) (InstallHint r) (ConfigDir r) (CurrentTaskCount r) (PendingTaskCount r) (Capabilities r) (RuntimeProfile r).
Definition set_DisplayName (v : string) (r : Runtime) : Runtime := mk (RuntimeId r) (ComputerId r) (WorkspaceId r) (Kind r) v (Aliases r) (Tool r) (Command r) (Installed r) (Healthy r) (SupportsAutoInstall r) (InstallHint r) (ConfigDir r) (CurrentTaskCount r) (PendingTaskCount r) (Capabilities r) (RuntimeProfile r).
Definition set_Aliases (v : list string) (r : Runtime) : Runtime := mk (RuntimeId r) (ComputerId r) (WorkspaceId r) (Kind r) (DisplayName r) v (Tool r) (Command r) (Installed r) (Healthy r) (SupportsAutoInstall r) (InstallHint r) (ConfigDir r) (CurrentTaskCount r) (PendingTaskCount r) (Capabilities r) (RuntimeProfile r).
Definition set_Tool (v : string) (r : Runtime) : Runtime := mk (RuntimeId r) (ComputerId r) (WorkspaceId r) (Kind r) (DisplayName r) (Aliases r) v (Command r) (Installed r) (Healthy r) (SupportsAutoInstall r) (InstallHint r) (ConfigDir r) (CurrentTaskCount r) (PendingTaskCount r) (Capabilities r) (RuntimeProfile r).
Definition set_Command (v : string) (r : Runtime) : Runtime := mk (RuntimeId r) (ComputerId r) (WorkspaceId r) (Kind r) (DisplayName r) (Aliases r) (Tool r) v (Installed r) (Healthy r) (SupportsAutoInstall r) (InstallHint r) (ConfigDir r) (CurrentTaskCount r) (PendingTaskCount r) (Capabilities r) (RuntimeProfile r).
Definition set_Installed (v : bool) (r : Runtime) : Runtime := mk (RuntimeId r) (ComputerId r) (WorkspaceId r) (Kind r) (DisplayName r) (Aliases r) (Tool r) (Command r) v (Healthy r) (SupportsAutoInstall r) (InstallHint r) (ConfigDir r) (CurrentTaskCount r) (PendingTaskCount r) (Capabilities r) (RuntimeProfile r).
Definition set_Healthy (v : bool) (r : Runtime) : Runtime := mk (RuntimeId r) (ComputerId r) (WorkspaceId r) (Kind r) (DisplayName r) (Aliases r) (Tool r) (Command r) (Installed r) v (SupportsAutoInstall r) (InstallHint r) (ConfigDir r) (CurrentTaskCount r) (PendingTaskCount r) (Capabilities r) (RuntimeProfile r).
Definition set_SupportsAutoInstall (v : bool) (r : Runtime) : Runtime := mk (RuntimeId r) (ComputerId r) (WorkspaceId r) (Kind r) (DisplayName r) (Aliases r) (Tool r) (Command r) (Installed r) (Healthy r) v (InstallHint r) (ConfigDir r) (CurrentTaskCount r) (PendingTaskCount r) (Capabilities r) (RuntimeProfile r).
Definition set_InstallHint (v : list string) (r : Runtime) : Runtime := mk (RuntimeId r) (ComputerId r) (WorkspaceId r) (Kind r) (DisplayName r) (Aliases r) (Tool r) (Command r) (Installed r) (Healthy r) (SupportsAutoInstall r) v (ConfigDir r) (CurrentTaskCount r) (PendingTaskCount r) (Capabilities r) (RuntimeProfile r).
Definition set_ConfigDir (v : string) (r : Runtime) : Runtime := mk (RuntimeId r) (ComputerId r) (WorkspaceId r) (Kind r) (DisplayName r) (Aliases r) (Tool r) (Command r) (Installed r) (Healthy r) (SupportsAutoInstall r) (InstallHint r) v (CurrentTaskCount r) (PendingTaskCount r) (Capabilities r) (RuntimeProfile r).
Definition set_CurrentTaskCount (v : Z) (r : Runtime) : Runtime := mk (RuntimeId r) (ComputerId r) (WorkspaceId r) (Kind r) (DisplayName r) (Aliases r) (Tool r) (Command r) (Installed r) (Healthy r) (SupportsAutoInstall r) (InstallHint r) (ConfigDir r) v (PendingTaskCount r) (Capabilities r) (RuntimeProfile r).
Definition set_PendingTaskCount (v : Z) (r : Runtime) : Runtime := mk (RuntimeId r) (ComputerId r) (WorkspaceId r) (Kind r) (DisplayName r) (Aliases r) (Tool r) (Command r) (Installed r) (Healthy r) (SupportsAutoInstall r) (InstallHint r) (ConfigDir r) (CurrentTaskCount r) v (Capabilities r) (RuntimeProfile r).
Definition set_Capabilities (v : list Capability.Capability) (r : Runtime) : Runtime := mk (RuntimeId r) (ComputerId r) (WorkspaceId r) (Kind r) (DisplayName r) (Aliases r) (Tool r) (Command r) (Installed r) (Healthy r) (SupportsAutoInstall r) (InstallHint r) (ConfigDir r) (CurrentTaskCount r) (PendingTaskCount r) v (RuntimeProfile r).
Definition set_RuntimeProfile (v : option RuntimeProfile.RuntimeProfile) (r : Runtime) : Runtime := mk (RuntimeId r) (ComputerId r) (WorkspaceId r) (Kind r) (DisplayName r) (Aliases r) (Tool r) (Command r) (Installed r) (Healthy r) (SupportsAutoInstall r) (InstallHint r) (ConfigDir r) (CurrentTaskCount r) (PendingTaskCount r) (Capabilities r) v.
End Runtime.

Module ComputerInventory.
Record ComputerInventory := mk {
  Workspaces : list Workspace.Workspace;
  Runtimes : list Runtime.Runtime;
  Agents : list AgentProfile.AgentProfile;
  RuntimeProfiles : list RuntimeProfile.RuntimeProfile
}.
Definition zero : ComputerInventory := mk [] [] [] [].
Definition set_Workspaces (v : list Workspace.Workspace) (r : ComputerInventory) : ComputerInventory := mk v (Runtimes r) (Agents r) (RuntimeProfiles r).
Definition set_Runtimes (v : list Runtime.Runtime) (r : ComputerInventory) : ComputerInventory := mk (Workspaces r) v (Agents r) (RuntimeProfiles r).
Definition set_Agents (v : list AgentProfile.AgentProfile) (r : ComputerInventory) : ComputerInventory := mk (Workspaces r) (Runtimes r) v (RuntimeProfiles r).
Definition set_RuntimeProfiles (v : list RuntimeProfile.RuntimeProfile) (r : ComputerInventory) : ComputerInventory := mk (Workspaces r) (Runtimes r) (Agents r) v.
End ComputerInventory.

Module ControlAgentRequest.
Record ControlAgentRequest := mk {
  AgentId : string;
  ComputerId : string;
  RuntimeProfileId : string;
  Action : Z;
  Reason : string;
  RequestedByAgentId : string;
  RequestId : string;
  LeaseId : string;
  LeaseTtlSeconds : Z;
  IdempotencyKey : string;
  Context : option RequestContext.RequestContext
}.
Definition zero : ControlAgentRequest := mk "" "" "" 0%Z "" "" "" "" 0%Z "" None.
Definition set_AgentId (v : string) (r : ControlAgentRequest) : ControlAgentRequest := mk v (ComputerId r) (RuntimeProfileId r) (Action r) (Reason r) (RequestedByAgentId r) (RequestId r) (LeaseId r) (LeaseTtlSeconds r) (IdempotencyKey r) (Context r).
Definition set_ComputerId (v : string) (r : ControlAgentRequest) : ControlAgentRequest := mk (AgentId r) v (RuntimeProfileId r) (Action r) (Reason r) (RequestedByAgentId r) (RequestId r) (LeaseId r) (LeaseTtlSeconds r) (IdempotencyKey r) (Context r).
Definition set_RuntimeProfileId (v : string) (r : ControlAgentRequest) : ControlAgentRequest := mk (AgentId r) (ComputerId r) v (Action r) (Reason r) (RequestedByAgentId r) (RequestId r) (LeaseId r) (LeaseTtlSeconds r) (IdempotencyKey r) (Context r).
Definition set_Action (v : Z) (r : ControlAgentRequest) : ControlAgentRequest := mk (AgentId r) (ComputerId r) (RuntimeProfileId r) v (Reason r) (RequestedByAgentId r) (RequestId r) (LeaseId r) (LeaseTtlSeconds r) (IdempotencyKey r) (Context r).
Definition set_Reason (v : string) (r : ControlAgentRequest) : ControlAgentRequest := mk (AgentId r) (ComputerId r) (RuntimeProfileId r) (Action r) v (RequestedByAgentId r) (RequestId r) (LeaseId r) (LeaseTtlSeconds r) (IdempotencyKey r) (Context r).
Definition set_RequestedByAgentId (v : string) (r : ControlAgentRequest) : ControlAgentRequest := mk (AgentId r) (ComputerId r) (RuntimeProfileId r) (Action r) (Reason r) v (RequestId r) (LeaseId r) (LeaseTtlSeconds r) (IdempotencyKey r) (Context r).
Definition set_RequestId (v : string) (r : ControlAgentRequest) : ControlAgentRequest := mk (AgentId r) (ComputerId r) (RuntimeProfileId r) (Action r) (Reason r) (RequestedByAgentId r) v (LeaseId r) (LeaseTtlSeconds r) (IdempotencyKey r) (Context r).
Definition set_LeaseId (v : string) (r : ControlAgentRequest) : ControlAgentRequest := mk (AgentId r) (ComputerId r) (RuntimeProfileId r) (Action r) (Reason r) (RequestedByAgentId r) (RequestId r) v (LeaseTtlSeconds r) (IdempotencyKey r) (Context r).
Definition set_LeaseTtlSeconds (v : Z) (r : ControlAgentRequest) : ControlAgentRequest := mk (AgentId r) (ComputerId r) (RuntimeProfileId r) (Action r) (Reason r) (RequestedByAgentId r) (RequestId r) (LeaseId r) v (IdempotencyKey r) (Context r).
Definition set_IdempotencyKey (v : string) (r : ControlAgentRequest) : ControlAgentRequest := mk (AgentId r) (ComputerId r) (RuntimeProfileId r) (Action r) (Reason r) (RequestedByAgentId r) (RequestId r) (LeaseId r) (LeaseTtlSeconds r) v (Context r).
Definition set_Context (v : option RequestContext.RequestContext) (r : ControlAgentRequest) : ControlAgentRequest := mk (AgentId r) (ComputerId r) (RuntimeProfileId r) (Action r) (Reason r) (RequestedByAgentId r) (RequestId r) (LeaseId r) (LeaseTtlSeconds r) (IdempotencyKey r) v.
End ControlAgentRequest.

Module ControlAgentResponse.
Record ControlAgentResponse := mk {
  Accepted : bool;
  Operation : option AgentControlOperation.AgentControlOperation;
  Profile : option AgentProfile.AgentProfile;
  Lease : option Lease.Lease
}.
Definition zero : ControlAgentResponse := mk false None None None.
Definition set_Accepted (v : bool) (r : ControlAgentResponse) : ControlAgentResponse := mk v (Operation r) (Profile r) (Lease r).
Definition set_Operation (v : option AgentControlOperation.AgentControlOperation) (r : ControlAgentResponse) : ControlAgentResponse := mk (Accepted r) v (Profile r) (Lease r).
Definition set_Profile (v : option AgentProfile.AgentProfile) (r : ControlAgentResponse) : ControlAgentResponse := mk (Accepted r) (Operation r) v (Lease r).
Definition set_Lease (v : option Lease.Lease) (r : ControlAgentResponse) : ControlAgentResponse := mk (Accepted r) (Operation r) (Profile r) v.
End ControlAgentResponse.

Module CreateCollaborationTaskRequest.
Record CreateCollaborationTaskRequest := mk {
  Target : string;
  Summary : string;
  AgentId : string;
  CreatedByUserId : string;
  RequestId : string;
  IdempotencyKey : string;
  Context : option RequestContext.RequestContext;
  ParentTaskId : option string;
  ClaimPolicy : Z;
  RequiredCapabilities : list string;
  DeadlineTimeUnix : Z;
  AssignedTarget : string;
  ClaimConflictBehavior : Z
}.
Definition zero : CreateCollaborationTaskRequest := mk "" "" "" "" "" "" None None 0%Z [] 0%Z "" 0%Z.
Definition set_Target (v : string) (r : CreateCollaborationTaskRequest) : CreateCollaborationTaskRequest := mk v (Summary r) (AgentId r) (CreatedByUserId r) (RequestId r) (IdempotencyKey r) (Context r) (ParentTaskId r) (ClaimPolicy r) (RequiredCapabilities r) (DeadlineTimeUnix r) (AssignedTarget r) (ClaimConflictBehavior r).
Definition set_Summary (v : string) (r : CreateCollaborationTaskRequest) : CreateCollaborationTaskRequest := mk (Target r) v (AgentId r) (CreatedByUserId r) (RequestId r) (IdempotencyKey r) (Context r) (ParentTaskId r) (ClaimPolicy r) (RequiredCapabilities r) (DeadlineTimeUnix r) (AssignedTarget r) (ClaimConflictBehavior r).
Definition set_AgentId (v : string) (r : CreateCollaborationTaskRequest) : CreateCollaborationTaskRequest := mk (Target r) (Summary r) v (CreatedByUserId r) (RequestId r) (IdempotencyKey r) (Context r) (ParentTaskId r) (ClaimPolicy r) (RequiredCapabilities r) (DeadlineTimeUnix r) (AssignedTarget r) (ClaimConflictBehavior r).
Definition set_CreatedByUserId (v : string) (r : CreateCollaborationTaskRequest) : CreateCollaborationTaskRequest := mk (Target r) (Summary r) (AgentId r) v (RequestId r) (IdempotencyKey r) (Context r) (ParentTaskId r) (ClaimPolicy r) (RequiredCapabilities r) (DeadlineTimeUnix r) (AssignedTarget r) (ClaimConflictBehavior r).
Definition set_RequestId (v : string) (r : CreateCollaborationTaskRequest) : CreateCollaborationTaskRequest := mk (Target r) (Summary r) (AgentId r) (CreatedByUserId r) v (IdempotencyKey r) (Context r) (ParentTaskId r) (ClaimPolicy r) (RequiredCapabilities r) (DeadlineTimeUnix r) (AssignedTarget r) (ClaimConflictBehavior r).
Definition set_IdempotencyKey (v : string) (r : CreateCollaborationTaskRequest) : CreateCollaborationTaskRequest := mk (Target r) (Summary r) (AgentId r) (CreatedByUserId r) (RequestId r) v (Context r) (ParentTaskId r) (ClaimPolicy r) (RequiredCapabilities r) (DeadlineTimeUnix r) (AssignedTarget r) (ClaimConflictBehavior r).
Definition set_Context (v : option RequestContext.RequestContext) (r : CreateCollaborationTaskRequest) : CreateCollaborationTaskRequest := mk (Target r) (Summary r) (AgentId r) (CreatedByUserId r) (RequestId r) (IdempotencyKey r) v (ParentTaskId r) (ClaimPolicy r) (RequiredCapabilities r) (DeadlineTimeUnix r) (AssignedTarget r) (ClaimConflictBehavior r).
Definition set_ParentTaskId (v : option string) (r : CreateCollaborationTaskRequest) : CreateCollaborationTaskRequest := mk (Target r) (Summary r) (AgentId r) (CreatedByUserId r) (RequestId r) (IdempotencyKey r) (Context r) v (ClaimPolicy r) (RequiredCapabilities r) (DeadlineTimeUnix r) (AssignedTarget r) (ClaimConflictBehavior r).
Definition set_ClaimPolicy (v : Z) (r : CreateCollaborationTaskRequest) : CreateCollaborationTaskRequest := mk (Target r) (Summary r) (AgentId r) (CreatedByUserId r) (RequestId r) (IdempotencyKey r) (Context r) (ParentTaskId r) v (RequiredCapabilities r) (DeadlineTimeUnix r) (AssignedTarget r) (ClaimConflictBehavior r).
Definition set_RequiredCapabilities (v : list string) (r : CreateCollaborationTaskRequest) : CreateCollaborationTaskRequest := mk (Target r) (Summary r) (AgentId r) (CreatedByUserId r) (RequestId r) (IdempotencyKey r) (Context r) (ParentTaskId r) (ClaimPolicy r) v (DeadlineTimeUnix r) (AssignedTarget r) (ClaimConflictBehavior r).
Definition set_DeadlineTimeUnix (v : Z) (r : CreateCollaborationTaskRequest) : CreateCollaborationTaskRequest := mk (Target r) (Summary r) (AgentId r) (CreatedByUserId r) (RequestId r) (IdempotencyKey r) (Context r) (ParentTaskId r) (ClaimPolicy r) (RequiredCapabilities r) v (AssignedTarget r) (ClaimConflictBehavior r).
Definition set_AssignedTarget (v : string) (r : CreateCollaborationTaskRequest) : CreateCollaborationTaskRequest := mk (Target r) (Summary r) (AgentId r) (CreatedByUserId r) (RequestId r) (IdempotencyKey r) (Context r) (ParentTaskId r) (ClaimPolicy r) (RequiredCapabilities r) (DeadlineTimeUnix r) v (ClaimConflictBehavior r).
Definition set_ClaimConflictBehavior (v : Z) (r : CreateCollaborationTaskRequest) : CreateCollaborationTaskRequest := mk (Target r) (Summary r) (AgentId r) (CreatedByUserId r) (RequestId r) (IdempotencyKey r) (Context r) (ParentTaskId r) (ClaimPolicy r) (RequiredCapabilities r) (DeadlineTimeUnix r) (AssignedTarget r) v.
End CreateCollaborationTaskRequest.

Module CreateCollaborationTaskResponse.
Record CreateCollaborationTaskResponse := mk {
  Task : option Task.Task
}.
Definition zero : CreateCollaborationTaskResponse := mk None.
Definition set_Task (v : option Task.Task) (r : CreateCollaborationTaskResponse) : CreateCollaborationTaskResponse := mk v.
End CreateCollaborationTaskResponse.

Module CreateTunnelRequest.
Record CreateTunnelRequest := mk {
  ComputerId : string;
  LocalPort : Z;
  Label : string;
  AccessPolicy : Z;
  TtlSeconds : Z;
  Context : option RequestContext.RequestContext
}.
Definition zero : CreateTunnelRequest := mk "" 0%Z "" 0%Z 0%Z None.
Definition set_ComputerId (v : string) (r : CreateTunnelRequest) : CreateTunnelRequest := mk v (LocalPort r) (Label r) (AccessPolicy r) (TtlSeconds r) (Context r).
Definition set_LocalPort (v : Z) (r : CreateTunnelRequest) : CreateTunnelRequest := mk (ComputerId r) v (Label r) (AccessPolicy r) (TtlSeconds r) (Context r).
Definition set_Label (v : string) (r : CreateTunnelRequest) : CreateTunnelRequest := mk (ComputerId r) (LocalPort r) v (AccessPolicy r) (TtlSeconds r) (Context r).
Definition set_AccessPolicy (v : Z) (r : CreateTunnelRequest) : CreateTunnelRequest := mk (ComputerId r) (LocalPort r) (Label r) v (TtlSeconds r) (Context r).
Definition set_TtlSeconds (v : Z) (r : CreateTunnelRequest) : CreateTunnelRequest := mk (ComputerId r) (LocalPort r) (Label r) (AccessPolicy r) v (Context r).
Definition set_Context (v : option RequestContext.RequestContext) (r : CreateTunnelRequest) : CreateTunnelRequest := mk (ComputerId r) (LocalPort r) (Label r) (AccessPolicy r) (TtlSeconds r) v.
End CreateTunnelRequest.

Module CreateTunnelResponse.
Record CreateTunnelResponse := mk {
  Tunnel : option Tunnel.Tunnel
}.
Definition zero : CreateTunnelResponse := mk None.
Definition set_Tunnel (v : option Tunnel.Tunnel) (r : CreateTunnelResponse) : CreateTunnelResponse := mk v.
End CreateTunnelResponse.

Module DecisionVoteRecord.
Record DecisionVoteRecord := mk {
  DecisionId : string;
  VoterId : string;
  VoterKind : Z;
  Decision : Z;
  VotedTimeUnix : Z;
  Reason : string
}.
Definition zero : DecisionVoteRecord := mk "" "" 0%Z 0%Z 0%Z "".
Definition set_DecisionId (v : string) (r : DecisionVoteRecord) : DecisionVoteRecord := mk v (VoterId r) (VoterKind r) (Decision r) (VotedTimeUnix r) (Reason r).
Definition set_VoterId (v : string) (r : DecisionVoteRecord) : DecisionVoteRecord := mk (DecisionId r) v (VoterKind r) (Decision r) (VotedTimeUnix r) (Reason r).
Definition set_VoterKind (v : Z) (r : DecisionVoteRecord) : DecisionVoteRecord := mk (DecisionId r) (VoterId r) v (Decision r) (VotedTimeUnix r) (Reason r).
Definition set_Decision (v : Z) (r : DecisionVoteRecord) : DecisionVoteRecord := mk (DecisionId r) (VoterId r) (VoterKind r) v (VotedTimeUnix r) (Reason r).
Definition set_VotedTimeUnix (v : Z) (r : DecisionVoteRecord) : DecisionVoteRecord := mk (DecisionId r) (VoterId r) (VoterKind r) (Decision r) v (Reason r).
Definition set_Reason (v : string) (r : DecisionVoteRecord) : DecisionVoteRecord := mk (DecisionId r) (VoterId r) (VoterKind r) (Decision r) (VotedTimeUnix r) v.
End DecisionVoteRecord.

Module FetchAssignedRunsRequest.
Record FetchAssignedRunsRequest := mk {
  ComputerId : string;
  AgentIds : list string;
  Limit : Z;
  RequestId : string;
  Cursor : option EventCursor.EventCursor
}.
Definition zero : FetchAssignedRunsRequest := mk "" [] 0%Z "" None.
Definition set_ComputerId (v : string) (r : FetchAssignedRunsRequest) : FetchAssignedRunsRequest := mk v (AgentIds r) (Limit r) (RequestId r) (Cursor r).
Definition set_AgentIds (v : list string) (r : FetchAssignedRunsRequest) : FetchAssignedRunsRequest := mk (ComputerId r) v (Limit r) (RequestId r) (Cursor r).
Definition set_Limit (v : Z) (r : FetchAssignedRunsRequest) : FetchAssignedRunsRequest := mk (ComputerId r) (AgentIds r) v (RequestId r) (Cursor r).
Definition set_RequestId (v : string) (r : FetchAssignedRunsRequest) : FetchAssignedRunsRequest := mk (ComputerId r) (AgentIds r) (Limit r) v (Cursor r).
Definition set_Cursor (v : option EventCursor.EventCursor) (r : FetchAssignedRunsRequest) : FetchAssignedRunsRequest := mk (ComputerId r) (AgentIds r) (Limit r) (RequestId r) v.
End FetchAssignedRunsRequest.

Module FetchAssignedRunsResponse.
Record FetchAssignedRunsResponse := mk {
  Runs : list Run.Run;
  NextCursor : option EventCursor.EventCursor
}.
Definition zero : FetchAssignedRunsResponse := mk [] None.
Definition set_Runs (v : list Run.Run) (r : FetchAssignedRunsResponse) : FetchAssignedRunsResponse := mk v (NextCursor r).
Definition set_NextCursor (v : option EventCursor.EventCursor) (r : FetchAssignedRunsResponse) : FetchAssignedRunsResponse := mk (Runs r) v.
End FetchAssignedRunsResponse.

Module GetAgentRunRequest.
Record GetAgentRunRequest := mk {
  RunId : string;
  IncludeEvents : bool
}.
Definition zero : GetAgentRunRequest := mk "" false.
Definition set_RunId (v : string) (r : GetAgentRunRequest) : GetAgentRunRequest := mk v (IncludeEvents r).
Definition set_IncludeEvents (v : bool) (r : GetAgentRunRequest) : GetAgentRunRequest := mk (RunId r) v.
End GetAgentRunRequest.

Module GetAgentRunResponse.
Record GetAgentRunResponse := mk {
  Run : option AgentRunSummary.AgentRunSummary;
  Events : list AgentRunEvent.AgentRunEvent
}.
Definition zero : GetAgentRunResponse := mk None [].
Definition set_Run (v : option AgentRunSummary.AgentRunSummary) (r : GetAgentRunResponse) : GetAgentRunResponse := mk v (Events r).
Definition set_Events (v : list AgentRunEvent.AgentRunEvent) (r : GetAgentRunResponse) : GetAgentRunResponse := mk (Run r) v.
End GetAgentRunResponse.

Module GetLaunchPromptSnapshotRequest.
Record GetLaunchPromptSnapshotRequest := mk {
  RunId : string;
  AgentId : string;
  ComputerId : string;
  RuntimeProfileId : string;
  RequestId : string;
  Context : option RequestContext.RequestContext
}.
Definition zero : GetLaunchPromptSnapshotRequest := mk "" "" "" "" "" None.
Definition set_RunId (v : string) (r : GetLaunchPromptSnapshotRequest) : GetLaunchPromptSnapshotRequest := mk v (AgentId r) (ComputerId r) (RuntimeProfileId r) (RequestId r) (Context r).
Definition set_AgentId (v : string) (r : GetLaunchPromptSnapshotRequest) : GetLaunchPromptSnapshotRequest := mk (RunId r) v (ComputerId r) (RuntimeProfileId r) (RequestId r) (Context r).
Definition set_ComputerId (v : string) (r : GetLaunchPromptSnapshotRequest) : GetLaunchPromptSnapshotRequest := mk (RunId r) (AgentId r) v (RuntimeProfileId r) (RequestId r) (Context r).
Definition set_RuntimeProfileId (v : string) (r : GetLaunchPromptSnapshotRequest) : GetLaunchPromptSnapshotRequest := mk (RunId r) (AgentId r) (ComputerId r) v (RequestId r) (Context r).
Definition set_RequestId (v : string) (r : GetLaunchPromptSnapshotRequest) : GetLaunchPromptSnapshotRequest := mk (RunId r) (AgentId r) (ComputerId r) (RuntimeProfileId r) v (Context r).
Definition set_Context (v : option RequestContext.RequestContext) (r : GetLaunchPromptSnapshotRequest) : GetLaunchPromptSnapshotRequest := mk (RunId r) (AgentId r) (ComputerId r) (RuntimeProfileId r) (RequestId r) v.
End GetLaunchPromptSnapshotRequest.

Module LaunchPromptSnapshotSection.
Record LaunchPromptSnapshotSection := mk {
  Name : string;
  Source : string;
  Content : string;
  Redacted : bool
}.
Definition zero : LaunchPromptSnapshotSection := mk "" "" "" false.
Definition set_Name (v : string) (r : LaunchPromptSnapshotSection) : LaunchPromptSnapshotSection := mk v (Source r) (Content r) (Redacted r).
Definition set_Source (v : string) (r : LaunchPromptSnapshotSection) : LaunchPromptSnapshotSection := mk (Name r) v (Content r) (Redacted r).
Definition set_Content (v : string) (r : LaunchPromptSnapshotSection) : LaunchPromptSnapshotSection := mk (Name r) (Source r) v (Redacted r).
Definition set_Redacted (v : bool) (r : LaunchPromptSnapshotSection) : LaunchPromptSnapshotSection := mk (Name r) (Source r) (Content r) v.
End LaunchPromptSnapshotSection.

Module LaunchPromptSnapshot.
Record LaunchPromptSnapshot := mk {
  SnapshotId : string;
  AgentId : string;
  ComputerId : string;
  RunId : string;
  RuntimeProfileId : string;
  Target : string;
  ThreadId : string;
  MessageId : string;
  TaskId : string;
  TemplateVersion : string;
  Content : string;
  ContentHash : string;
  Sections : list LaunchPromptSnapshotSection.LaunchPromptSnapshotSection;
  CreatedTimeUnix : Z;
  RedactionSummary : string;
  SourceVersion : string
}.
Definition zero : LaunchPromptSnapshot := mk "" "" "" "" "" "" "" "" "" "" "" "" [] 0%Z "" "".
Definition set_SnapshotId (v : string) (r : LaunchPromptSnapshot) : LaunchPromptSnapshot := mk v (AgentId r) (ComputerId r) (RunId r) (RuntimeProfileId r) (Target r) (ThreadId r) (MessageId r) (TaskId r) (TemplateVersion r) (Content r) (ContentHash r) (Sections r) (CreatedTimeUnix r) (RedactionSummary r) (SourceVersion r).
Definition set_AgentId (v : string) (r : LaunchPromptSnapshot) : LaunchPromptSnapshot := mk (SnapshotId r) v (ComputerId r) (RunId r) (RuntimeProfileId r) (Target r) (ThreadId r) (MessageId r) (TaskId r) (TemplateVersion r) (Content r) (ContentHash r) (Sections r) (CreatedTimeUnix r) (RedactionSummary r) (SourceVersion r).
Definition set_ComputerId (v : string) (r : LaunchPromptSnapshot) : LaunchPromptSnapshot := mk (SnapshotId r) (AgentId r) v (RunId r) (RuntimeProfileId r) (Target r) (ThreadId r) (MessageId r) (TaskId r) (TemplateVersion r) (Content r) (ContentHash r) (Sections r) (CreatedTimeUnix r) (RedactionSummary r) (SourceVersion r).
Definition set_RunId (v : string) (r : LaunchPromptSnapshot) : LaunchPromptSnapshot := mk (SnapshotId r) (AgentId r) (ComputerId r) v (RuntimeProfileId r) (Target r) (ThreadId r) (MessageId r) (TaskId r) (TemplateVersion r) (Content r) (ContentHash r) (Sections r) (CreatedTimeUnix r) (RedactionSummary r) (SourceVersion r).
Definition set_RuntimeProfileId (v : string) (r : LaunchPromptSnapshot) : LaunchPromptSnapshot := mk (SnapshotId r) (AgentId r) (ComputerId r) (RunId r) v (Target r) (ThreadId r) (MessageId r) (TaskId r) (TemplateVersion r) (Content r) (ContentHash r) (Sections r) (CreatedTimeUnix r) (RedactionSummary r) (SourceVersion r).
Definition set_Target (v : string) (r : LaunchPromptSnapshot) : LaunchPromptSnapshot := mk (SnapshotId r) (AgentId r) (ComputerId r) (RunId r) (RuntimeProfileId r) v (ThreadId r) (MessageId r) (TaskId r) (TemplateVersion r) (Content r) (ContentHash r) (Sections r) (CreatedTimeUnix r) (RedactionSummary r) (SourceVersion r).
Definition set_ThreadId (v : string) (r : LaunchPromptSnapshot) : LaunchPromptSnapshot := mk (SnapshotId r) (AgentId r) (ComputerId r) (RunId r) (RuntimeProfileId r) (Target r) v (MessageId r) (TaskId r) (TemplateVersion r) (Content r) (ContentHash r) (Sections r) (CreatedTimeUnix r) (RedactionSummary r) (SourceVersion r).
Definition set_MessageId (v : string) (r : LaunchPromptSnapshot) : LaunchPromptSnapshot := mk (SnapshotId r) (AgentId r) (ComputerId r) (RunId r) (RuntimeProfileId r) (Target r) (ThreadId r) v (TaskId r) (TemplateVersion r) (Content r) (ContentHash r) (Sections r) (CreatedTimeUnix r) (RedactionSummary r) (SourceVersion r).
Definition set_TaskId (v : string) (r : LaunchPromptSnapshot) : LaunchPromptSnapshot := mk (SnapshotId r) (AgentId r) (ComputerId r) (RunId r) (RuntimeProfileId r) (Target r) (ThreadId r) (MessageId r) v (TemplateVersion r) (Content r) (ContentHash r) (Sections r) (CreatedTimeUnix r) (RedactionSummary r) (SourceVersion r).
Definition set_TemplateVersion (v : string) (r : LaunchPromptSnapshot) : LaunchPromptSnapshot := mk (SnapshotId r) (AgentId r) (ComputerId r) (RunId r) (RuntimeProfileId r) (Target r) (ThreadId r) (MessageId r) (TaskId r) v (Content r) (ContentHash r) (Sections r) (CreatedTimeUnix r) (RedactionSummary r) (SourceVersion r).
Definition set_Content (v : string) (r : LaunchPromptSnapshot) : LaunchPromptSnapshot := mk (SnapshotId r) (AgentId r) (ComputerId r) (RunId r) (RuntimeProfileId r) (Target r) (ThreadId r) (MessageId r) (TaskId r) (TemplateVersion r) v (ContentHash r) (Sections r) (CreatedTimeUnix r) (RedactionSummary r) (SourceVersion r).
Definition set_ContentHash (v : string) (r : LaunchPromptSnapshot) : LaunchPromptSnapshot := mk (SnapshotId r) (AgentId r) (ComputerId r) (RunId r) (RuntimeProfileId r) (Target r) (ThreadId r) (MessageId r) (TaskId r) (TemplateVersion r) (Content r) v (Sections r) (CreatedTimeUnix r) (RedactionSummary r) (SourceVersion r).
Definition set_Sections (v : list LaunchPromptSnapshotSection.LaunchPromptSnapshotSection) (r : LaunchPromptSnapshot) : LaunchPromptSnapshot := mk (SnapshotId r) (AgentId r) (ComputerId r) (RunId r) (RuntimeProfileId r) (Target r) (ThreadId r) (MessageId r) (TaskId r) (TemplateVersion r) (Content r) (ContentHash r) v (CreatedTimeUnix r) (RedactionSummary r) (SourceVersion r).
Definition set_CreatedTimeUnix (v : Z) (r : LaunchPromptSnapshot) : LaunchPromptSnapshot := mk (SnapshotId r) (AgentId r) (ComputerId r) (RunId r) (RuntimeProfileId r) (Target r) (ThreadId r) (MessageId r) (TaskId r) (TemplateVersion r) (Content r) (ContentHash r) (Sections r) v (RedactionSummary r) (SourceVersion r).
Definition set_RedactionSummary (v : string) (r : LaunchPromptSnapshot) : LaunchPromptSnapshot := mk (SnapshotId r) (AgentId r) (ComputerId r) (RunId r) (RuntimeProfileId r) (Target r) (ThreadId r) (MessageId r) (TaskId r) (TemplateVersion r) (Content r) (ContentHash r) (Sections r) (CreatedTimeUnix r) v (SourceVersion r).
Definition set_SourceVersion (v : string) (r : LaunchPromptSnapshot) : LaunchPromptSnapshot := mk (SnapshotId r) (AgentId r) (ComputerId r) (RunId r) (RuntimeProfileId r) (Target r) (ThreadId r) (MessageId r) (TaskId r) (TemplateVersion r) (Content r) (ContentHash r) (Sections r) (CreatedTimeUnix r) (RedactionSummary r) v.
End LaunchPromptSnapshot.

Module GetLaunchPromptSnapshotResponse.
Record GetLaunchPromptSnapshotResponse := mk {
  Snapshot : option LaunchPromptSnapshot.LaunchPromptSnapshot
}.
Definition zero : GetLaunchPromptSnapshotResponse := mk None.
Definition set_Snapshot (v : option LaunchPromptSnapshot.LaunchPromptSnapshot) (r : GetLaunchPromptSnapshotResponse) : GetLaunchPromptSnapshotResponse := mk v.
End GetLaunchPromptSnapshotResponse.

Module GetReminderLogRequest.
Record GetReminderLogRequest := mk {
  ReminderId : string
}.
Definition zero : GetReminderLogRequest := mk "".
Definition set_ReminderId (v : string) (r : GetReminderLogRequest) : GetReminderLogRequest := mk v.
End GetReminderLogRequest.

Module ReminderEvent.
Record ReminderEvent := mk {
  EventId : string;
  ReminderId : string;
  EventType : Z;
  ActorType : Z;
  ActorId : string;
  OccurredTimeUnix : Z;
  NextFireTimeUnix : Z;
  Detail : string
}.
Definition zero : ReminderEvent := mk "" "" 0%Z 0%Z "" 0%Z 0%Z "".
Definition set_EventId (v : string) (r : ReminderEvent) : ReminderEvent := mk v (ReminderId r) (EventType r) (ActorType r) (ActorId r) (OccurredTimeUnix r) (NextFireTimeUnix r) (Detail r).
Definition set_ReminderId (v : string) (r : ReminderEvent) : ReminderEvent := mk (EventId r) v (EventType r) (ActorType r) (ActorId r) (OccurredTimeUnix r) (NextFireTimeUnix r) (Detail r).
Definition set_EventType (v : Z) (r : ReminderEvent) : ReminderEvent := mk (EventId r) (ReminderId r) v (ActorType r) (ActorId r) (OccurredTimeUnix r) (NextFireTimeUnix r) (Detail r).
Definition set_ActorType (v : Z) (r : ReminderEvent) : ReminderEvent := mk (EventId r) (ReminderId r) (EventType r) v (ActorId r) (OccurredTimeUnix r) (NextFireTimeUnix r) (Detail r).
Definition set_ActorId (v : string) (r : ReminderEvent) : ReminderEvent := mk (EventId r) (ReminderId r) (EventType r) (ActorType r) v (OccurredTimeUnix r) (NextFireTimeUnix r) (Detail r).
Definition set_OccurredTimeUnix (v : Z) (r : ReminderEvent) : ReminderEvent := mk (EventId r) (ReminderId r) (EventType r) (ActorType r) (ActorId r) v (NextFireTimeUnix r) (Detail r).
Definition set_NextFireTimeUnix (v : Z) (r : ReminderEvent) : ReminderEvent := mk (EventId r) (ReminderId r) (EventType r) (ActorType r) (ActorId r) (OccurredTimeUnix r) v (Detail r).
Definition set_Detail (v : string) (r : ReminderEvent) : ReminderEvent := mk (EventId r) (ReminderId r) (EventType r) (ActorType r) (ActorId r) (OccurredTimeUnix r) (NextFireTimeUnix r) v.
End ReminderEvent.

Module GetReminderLogResponse.
Record GetReminderLogResponse := mk {
  Events : list ReminderEvent.ReminderEvent
}.
Definition zero : GetReminderLogResponse := mk [].
Definition set_Events (v : list ReminderEvent.ReminderEvent) (r : GetReminderLogResponse) : GetReminderLogResponse := mk v.
End GetReminderLogResponse.

Module GetRunRequest.
Record GetRunRequest := mk {
  RunId : string
}.
Definition zero : GetRunRequest := mk "".
Definition set_RunId (v : string) (r : GetRunRequest) : GetRunRequest := mk v.
End GetRunRequest.

Module GetRunResponse.
Record GetRunResponse := mk {
  Run : option Run.Run;
  Steps : list RunStep.RunStep
}.
Definition zero : GetRunResponse := mk None [].
Definition set_Run (v : option Run.Run) (r : GetRunResponse) : GetRunResponse := mk v (Steps r).
Definition set_Steps (v : list RunStep.RunStep) (r : GetRunResponse) : GetRunResponse := mk (Run r) v.
End GetRunResponse.

Module GetServerInfoRequest.
Record GetServerInfoRequest := mk {

}.
Definition zero : GetServerInfoRequest := mk .
End GetServerInfoRequest.

Module GetServerInfoResponse.
Record GetServerInfoResponse := mk {
  ServerName : string;
  Version : string;
  ProtocolVersion : Z;
  MinProtocolVersion : Z;
  MaxProtocolVersion : Z;
  ServerId : string
}.
Definition zero : GetServerInfoResponse := mk "" "" 0%Z 0%Z 0%Z "".
Definition set_ServerName (v : string) (r : GetServerInfoResponse) : GetServerInfoResponse := mk v (Version r) (ProtocolVersion r) (MinProtocolVersion r) (MaxProtocolVersion r) (ServerId r).
Definition set_Version (v : string) (r : GetServerInfoResponse) : GetServerInfoResponse := mk (ServerName r) v (ProtocolVersion r) (MinProtocolVersion r) (MaxProtocolVersion r) (ServerId r).
Definition set_ProtocolVersion (v : Z) (r : GetServerInfoResponse) : GetServerInfoResponse := mk (ServerName r) (Version r) v (MinProtocolVersion r) (MaxProtocolVersion r) (ServerId r).
Definition set_MinProtocolVersion (v : Z) (r : GetServerInfoResponse) : GetServerInfoResponse := mk (ServerName r) (Version r) (ProtocolVersion r) v (MaxProtocolVersion r) (ServerId r).
Definition set_MaxProtocolVersion (v : Z) (r : GetServerInfoResponse) : GetServerInfoResponse := mk (ServerName r) (Version r) (ProtocolVersion r) (MinProtocolVersion r) v (ServerId r).
Definition set_ServerId (v : string) (r : GetServerInfoResponse) : GetServerInfoResponse := mk (ServerName r) (Version r) (ProtocolVersion r) (MinProtocolVersion r) (MaxProtocolVersion r) v.
End GetServerInfoResponse.

Module GetTaskRequest.
Record GetTaskRequest := mk {
  TaskId : string
}.
Definition zero : GetTaskRequest := mk "".
Definition set_TaskId (v : string) (r : GetTaskRequest) : GetTaskRequest := mk v.
End GetTaskRequest.

Module GetTaskResponse.
Record GetTaskResponse := mk {
  Task : option Task.Task
}.
Definition zero : GetTaskResponse := mk None.
Definition set_Task (v : option Task.Task) (r : GetTaskResponse) : GetTaskResponse := mk v.
End GetTaskResponse.

Module HeartbeatComputerRequest.
Record HeartbeatComputerRequest := mk {
  Info : option ComputerInfo.ComputerInfo;
  Inventory : option ComputerInventory.ComputerInventory;
  LeaseId : string;
  RequestId : string;
  AgentStatuses : list AgentStatusSnapshot.AgentStatusSnapshot;
  IdempotencyKey : string;
  Context : option RequestContext.RequestContext;
  InventoryVersion : string;
  InventoryFullSnapshot : bool
}.
Definition zero : HeartbeatComputerRequest := mk None None "" "" [] "" None "" false.
Definition set_Info (v : option ComputerInfo.ComputerInfo) (r : HeartbeatComputerRequest) : HeartbeatComputerRequest := mk v (Inventory r) (LeaseId r) (RequestId r) (AgentStatuses r) (IdempotencyKey r) (Context r) (InventoryVersion r) (InventoryFullSnapshot r).
Definition set_Inventory (v : option ComputerInventory.ComputerInventory) (r : HeartbeatComputerRequest) : HeartbeatComputerRequest := mk (Info r) v (LeaseId r) (RequestId r) (AgentStatuses r) (IdempotencyKey r) (Context r) (InventoryVersion r) (InventoryFullSnapshot r).
Definition set_LeaseId (v : string) (r : HeartbeatComputerRequest) : HeartbeatComputerRequest := mk (Info r) (Inventory r) v (RequestId r) (AgentStatuses r) (IdempotencyKey r) (Context r) (InventoryVersion r) (InventoryFullSnapshot r).
Definition set_RequestId (v : string) (r : HeartbeatComputerRequest) : HeartbeatComputerRequest := mk (Info r) (Inventory r) (LeaseId r) v (AgentStatuses r) (IdempotencyKey r) (Context r) (InventoryVersion r) (InventoryFullSnapshot r).
Definition set_AgentStatuses (v : list AgentStatusSnapshot.AgentStatusSnapshot) (r : HeartbeatComputerRequest) : HeartbeatComputerRequest := mk (Info r) (Inventory r) (LeaseId r) (RequestId r) v (IdempotencyKey r) (Context r) (InventoryVersion r) (InventoryFullSnapshot r).
Definition set_IdempotencyKey (v : string) (r : HeartbeatComputerRequest) : HeartbeatComputerRequest := mk (Info r) (Inventory r) (LeaseId r) (RequestId r) (AgentStatuses r) v (Context r) (InventoryVersion r) (InventoryFullSnapshot r).
Definition set_Context (v : option RequestContext.RequestContext) (r : HeartbeatComputerRequest) : HeartbeatComputerRequest := mk (Info r) (Inventory r) (LeaseId r) (RequestId r) (AgentStatuses r) (IdempotencyKey r) v (InventoryVersion r) (InventoryFullSnapshot r).
Definition set_InventoryVersion (v : string) (r : HeartbeatComputerRequest) : HeartbeatComputerRequest := mk (Info r) (Inventory r) (LeaseId r) (RequestId r) (AgentStatuses r) (IdempotencyKey r) (Context r) v (InventoryFullSnapshot r).
Definition set_InventoryFullSnapshot (v : bool) (r : HeartbeatComputerRequest) : HeartbeatComputerRequest := mk (Info r) (Inventory r) (LeaseId r) (RequestId r) (AgentStatuses r) (IdempotencyKey r) (Context r) (InventoryVersion r) v.
End HeartbeatComputerRequest.

Module HeartbeatComputerResponse.
Record HeartbeatComputerResponse := mk {
  Accepted : bool;
  ServerTimeUnix : Z;
  NextHeartbeatAfterSeconds : Z;
  Lease : option Lease.Lease
}.
Definition zero : HeartbeatComputerResponse := mk false 0%Z 0%Z None.
Definition set_Accepted (v : bool) (r : HeartbeatComputerResponse) : HeartbeatComputerResponse := mk v (ServerTimeUnix r) (NextHeartbeatAfterSeconds r) (Lease r).
Definition set_ServerTimeUnix (v : Z) (r : HeartbeatComputerResponse) : HeartbeatComputerResponse := mk (Accepted r) v (NextHeartbeatAfterSeconds r) (Lease r).
Definition set_NextHeartbeatAfterSeconds (v : Z) (r : HeartbeatComputerResponse) : HeartbeatComputerResponse := mk (Accepted r) (ServerTimeUnix r) v (Lease r).
Definition set_Lease (v : option Lease.Lease) (r : HeartbeatComputerResponse) : HeartbeatComputerResponse := mk (Accepted r) (ServerTimeUnix r) (NextHeartbeatAfterSeconds r) v.
End HeartbeatComputerResponse.

Module InteractionEndpoint.
Record InteractionEndpoint := mk {
  EndpointId : string;
  Kind : string;
  Provider : string;
  DisplayName : string;
  TargetPrefix : string;
  InboundEnabled : bool;
  OutboundEnabled : bool;
  AuthMode : Z;
  ConfigJson : string;
  Capabilities : list Capability.Capability
}.
Definition zero : InteractionEndpoint := mk "" "" "" "" "" false false 0%Z "" [].
Definition set_EndpointId (v : string) (r : InteractionEndpoint) : InteractionEndpoint := mk v (Kind r) (Provider r) (DisplayName r) (TargetPrefix r) (InboundEnabled r) (OutboundEnabled r) (AuthMode r) (ConfigJson r) (Capabilities r).
Definition set_Kind (v : string) (r : InteractionEndpoint) : InteractionEndpoint := mk (EndpointId r) v (Provider r) (DisplayName r) (TargetPrefix r) (InboundEnabled r) (OutboundEnabled r) (AuthMode r) (ConfigJson r) (Capabilities r).
Definition set_Provider (v : string) (r : InteractionEndpoint) : InteractionEndpoint := mk (EndpointId r) (Kind r) v (DisplayName r) (TargetPrefix r) (InboundEnabled r) (OutboundEnabled r) (AuthMode r) (ConfigJson r) (Capabilities r).
Definition set_DisplayName (v : string) (r : InteractionEndpoint) : InteractionEndpoint := mk (EndpointId r) (Kind r) (Provider r) v (TargetPrefix r) (InboundEnabled r) (OutboundEnabled r) (AuthMode r) (ConfigJson r) (Capabilities r).
Definition set_TargetPrefix (v : string) (r : InteractionEndpoint) : InteractionEndpoint := mk (EndpointId r) (Kind r) (Provider r) (DisplayName r) v (InboundEnabled r) (OutboundEnabled r) (AuthMode r) (ConfigJson r) (Capabilities r).
Definition set_InboundEnabled (v : bool) (r : InteractionEndpoint) : InteractionEndpoint := mk (EndpointId r) (Kind r) (Provider r) (DisplayName r) (TargetPrefix r) v (OutboundEnabled r) (AuthMode r) (ConfigJson r) (Capabilities r).
Definition set_OutboundEnabled (v : bool) (r : InteractionEndpoint) : InteractionEndpoint := mk (EndpointId r) (Kind r) (Provider r) (DisplayName r) (TargetPrefix r) (InboundEnabled r) v (AuthMode r) (ConfigJson r) (Capabilities r).
Definition set_AuthMode (v : Z) (r : InteractionEndpoint) : InteractionEndpoint := mk (EndpointId r) (Kind r) (Provider r) (DisplayName r) (TargetPrefix r) (InboundEnabled r) (OutboundEnabled r) v (ConfigJson r) (Capabilities r).
Definition set_ConfigJson (v : string) (r : InteractionEndpoint) : InteractionEndpoint := mk (EndpointId r) (Kind r) (Provider r) (DisplayName r) (TargetPrefix r) (InboundEnabled r) (OutboundEnabled r) (AuthMode r) v (Capabilities r).
Definition set_Capabilities (v : list Capability.Capability) (r : InteractionEndpoint) : InteractionEndpoint := mk (EndpointId r) (Kind r) (Provider r) (DisplayName r) (TargetPrefix r) (InboundEnabled r) (OutboundEnabled r) (AuthMode r) (ConfigJson r) v.
End InteractionEndpoint.

Module ListActivityRequest.
Record ListActivityRequest := mk {
  Target : string;
  AgentId : string;
  Limit : Z;
  Cursor : option EventCursor.EventCursor
}.
Definition zero : ListActivityRequest := mk "" "" 0%Z None.
Definition set_Target (v : string) (r : ListActivityRequest) : ListActivityRequest := mk v (AgentId r) (Limit r) (Cursor r).
Definition set_AgentId (v : string) (r : ListActivityRequest) : ListActivityRequest := mk (Target r) v (Limit r) (Cursor r).
Definition set_Limit (v : Z) (r : ListActivityRequest) : ListActivityRequest := mk (Target r) (AgentId r) v (Cursor r).
Definition set_Cursor (v : option EventCursor.EventCursor) (r : ListActivityRequest) : ListActivityRequest := mk (Target r) (AgentId r) (Limit r) v.
End ListActivityRequest.

Module ListActivityResponse.
Record ListActivityResponse := mk {
  Activities : list ActivityRecord.ActivityRecord;
  NextCursor : option EventCursor.EventCursor
}.
Definition zero : ListActivityResponse := mk [] None.
Definition set_Activities (v : list ActivityRecord.ActivityRecord) (r : ListActivityResponse) : ListActivityResponse := mk v (NextCursor r).
Definition set_NextCursor (v : option EventCursor.EventCursor) (r : ListActivityResponse) : ListActivityResponse := mk (Activities r) v.
End ListActivityResponse.

Module ListAgentProfilesRequest.
Record ListAgentProfilesRequest := mk {
  Limit : Z;
  Cursor : option EventCursor.EventCursor
}.
Definition zero : ListAgentProfilesRequest := mk 0%Z None.
Definition set_Limit (v : Z) (r : ListAgentProfilesRequest) : ListAgentProfilesRequest := mk v (Cursor r).
Definition set_Cursor (v : option EventCursor.EventCursor) (r : ListAgentProfilesRequest) : ListAgentProfilesRequest := mk (Limit r) v.
End ListAgentProfilesRequest.

Module ListAgentProfilesResponse.
Record ListAgentProfilesResponse := mk {
  Profiles : list AgentProfile.AgentProfile;
  NextCursor : option EventCursor.EventCursor
}.
Definition zero : ListAgentProfilesResponse := mk [] None.
Definition set_Profiles (v : list AgentProfile.AgentProfile) (r : ListAgentProfilesResponse) : ListAgentProfilesResponse := mk v (NextCursor r).
Definition set_NextCursor (v : option EventCursor.EventCursor) (r : ListAgentProfilesResponse) : ListAgentProfilesResponse := mk (Profiles r) v.
End ListAgentProfilesResponse.

Module ListAgentRunsRequest.
Record ListAgentRunsRequest := mk {
  AgentId : string;
  ComputerId : string;
  Limit : Z;
  Cursor : option EventCursor.EventCursor
}.
Definition zero : ListAgentRunsRequest := mk "" "" 0%Z None.
Definition set_AgentId (v : string) (r : ListAgentRunsRequest) : ListAgentRunsRequest := mk v (ComputerId r) (Limit r) (Cursor r).
Definition set_ComputerId (v : string) (r : ListAgentRunsRequest) : ListAgentRunsRequest := mk (AgentId r) v (Limit r) (Cursor r).
Definition set_Limit (v : Z) (r : ListAgentRunsRequest) : ListAgentRunsRequest := mk (AgentId r) (ComputerId r) v (Cursor r).
Definition set_Cursor (v : option EventCursor.EventCursor) (r : ListAgentRunsRequest) : ListAgentRunsRequest := mk (AgentId r) (ComputerId r) (Limit r) v.
End ListAgentRunsRequest.

Module ListAgentRunsResponse.
Record ListAgentRunsResponse := mk {
  Runs : list AgentRunSummary.AgentRunSummary;
  NextCursor : option EventCursor.EventCursor
}.
Definition zero : ListAgentRunsResponse := mk [] None.
Definition set_Runs (v : list AgentRunSummary.AgentRunSummary) (r : ListAgentRunsResponse) : ListAgentRunsResponse := mk v (NextCursor r).
Definition set_NextCursor (v : option EventCursor.EventCursor) (r : ListAgentRunsResponse) : ListAgentRunsResponse := mk (Runs r) v.
End ListAgentRunsResponse.

Module ListAgentStatusesRequest.
Record ListAgentStatusesRequest := mk {
  AgentId : string;
  Target : string;
  Limit : Z;
  Cursor : option EventCursor.EventCursor
}.
Definition zero : ListAgentStatusesRequest := mk "" "" 0%Z None.
Definition set_AgentId (v : string) (r : ListAgentStatusesRequest) : ListAgentStatusesRequest := mk v (Target r) (Limit r) (Cursor r).
Definition set_Target (v : string) (r : ListAgentStatusesRequest) : ListAgentStatusesRequest := mk (AgentId r) v (Limit r) (Cursor r).
Definition set_Limit (v : Z) (r : ListAgentStatusesRequest) : ListAgentStatusesRequest := mk (AgentId r) (Target r) v (Cursor r).
Definition set_Cursor (v : option EventCursor.EventCursor) (r : ListAgentStatusesRequest) : ListAgentStatusesRequest := mk (AgentId r) (Target r) (Limit r) v.
End ListAgentStatusesRequest.

Module ListAgentStatusesResponse.
Record ListAgentStatusesResponse := mk {
  Statuses : list AgentStatusSnapshot.AgentStatusSnapshot;
  NextCursor : option EventCursor.EventCursor
}.
Definition zero : ListAgentStatusesResponse := mk [] None.
Definition set_Statuses (v : list AgentStatusSnapshot.AgentStatusSnapshot) (r : ListAgentStatusesResponse) : ListAgentStatusesResponse := mk v (NextCursor r).
Definition set_NextCursor (v : option EventCursor.EventCursor) (r : ListAgentStatusesResponse) : ListAgentStatusesResponse := mk (Statuses r) v.
End ListAgentStatusesResponse.

Module ListChannelDecisionsRequest.
Record ListChannelDecisionsRequest := mk {
  Target : string;
  StatusFilter : list Z;
  Limit : Z;
  Cursor : option EventCursor.EventCursor
}.
Definition zero : ListChannelDecisionsRequest := mk "" [] 0%Z None.
Definition set_Target (v : string) (r : ListChannelDecisionsRequest) : ListChannelDecisionsRequest := mk v (StatusFilter r) (Limit r) (Cursor r).
Definition set_StatusFilter (v : list Z) (r : ListChannelDecisionsRequest) : ListChannelDecisionsRequest := mk (Target r) v (Limit r) (Cursor r).
Definition set_Limit (v : Z) (r : ListChannelDecisionsRequest) : ListChannelDecisionsRequest := mk (Target r) (StatusFilter r) v (Cursor r).
Definition set_Cursor (v : option EventCursor.EventCursor) (r : ListChannelDecisionsRequest) : ListChannelDecisionsRequest := mk (Target r) (StatusFilter r) (Limit r) v.
End ListChannelDecisionsRequest.

Module ListChannelDecisionsResponse.
Record ListChannelDecisionsResponse := mk {
  Decisions : list ChannelDecision.ChannelDecision;
  NextCursor : option EventCursor.EventCursor
}.
Definition zero : ListChannelDecisionsResponse := mk [] None.
Definition set_Decisions (v : list ChannelDecision.ChannelDecision) (r : ListChannelDecisionsResponse) : ListChannelDecisionsResponse := mk v (NextCursor r).
Definition set_NextCursor (v : option EventCursor.EventCursor) (r : ListChannelDecisionsResponse) : ListChannelDecisionsResponse := mk (Decisions r) v.
End ListChannelDecisionsResponse.

Module ListChannelsRequest.
Record ListChannelsRequest := mk {
  Limit : Z;
  Cursor : option EventCursor.EventCursor;
  IncludePrivate : bool;
  JoinedOnly : bool
}.
Definition zero : ListChannelsRequest := mk 0%Z None false false.
Definition set_Limit (v : Z) (r : ListChannelsRequest) : ListChannelsRequest := mk v (Cursor r) (IncludePrivate r) (JoinedOnly r).
Definition set_Cursor (v : option EventCursor.EventCursor) (r : ListChannelsRequest) : ListChannelsRequest := mk (Limit r) v (IncludePrivate r) (JoinedOnly r).
Definition set_IncludePrivate (v : bool) (r : ListChannelsRequest) : ListChannelsRequest := mk (Limit r) (Cursor r) v (JoinedOnly r).
Definition set_JoinedOnly (v : bool) (r : ListChannelsRequest) : ListChannelsRequest := mk (Limit r) (Cursor r) (IncludePrivate r) v.
End ListChannelsRequest.

Module ListChannelsResponse.
Record ListChannelsResponse := mk {
  Channels : list ChannelRecord.ChannelRecord;
  NextCursor : option EventCursor.EventCursor
}.
Definition zero : ListChannelsResponse := mk [] None.
Definition set_Channels (v : list ChannelRecord.ChannelRecord) (r : ListChannelsResponse) : ListChannelsResponse := mk v (NextCursor r).
Definition set_NextCursor (v : option EventCursor.EventCursor) (r : ListChannelsResponse) : ListChannelsResponse := mk (Channels r) v.
End ListChannelsResponse.

Module ListCollaborationTasksRequest.
Record ListCollaborationTasksRequest := mk {
  Target : string;
  AgentId : string;
  Limit : Z;
  Cursor : option EventCursor.EventCursor;
  States : list Z;
  BoardColumn : string
}.
Definition zero : ListCollaborationTasksRequest := mk "" "" 0%Z None [] "".
Definition set_Target (v : string) (r : ListCollaborationTasksRequest) : ListCollaborationTasksRequest := mk v (AgentId r) (Limit r) (Cursor r) (States r) (BoardColumn r).
Definition set_AgentId (v : string) (r : ListCollaborationTasksRequest) : ListCollaborationTasksRequest := mk (Target r) v (Limit r) (Cursor r) (States r) (BoardColumn r).
Definition set_Limit (v : Z) (r : ListCollaborationTasksRequest) : ListCollaborationTasksRequest := mk (Target r) (AgentId r) v (Cursor r) (States r) (BoardColumn r).
Definition set_Cursor (v : option EventCursor.EventCursor) (r : ListCollaborationTasksRequest) : ListCollaborationTasksRequest := mk (Target r) (AgentId r) (Limit r) v (States r) (BoardColumn r).
Definition set_States (v : list Z) (r : ListCollaborationTasksRequest) : ListCollaborationTasksRequest := mk (Target r) (AgentId r) (Limit r) (Cursor r) v (BoardColumn r).
Definition set_BoardColumn (v : string) (r : ListCollaborationTasksRequest) : ListCollaborationTasksRequest := mk (Target r) (AgentId r) (Limit r) (Cursor r) (States r) v.
End ListCollaborationTasksRequest.

Module ListCollaborationTasksResponse.
Record ListCollaborationTasksResponse := mk {
  Tasks : list Task.Task;
  NextCursor : option EventCursor.EventCursor
}.
Definition zero : ListCollaborationTasksResponse := mk [] None.
Definition set_Tasks (v : list Task.Task) (r : ListCollaborationTasksResponse) : ListCollaborationTasksResponse := mk v (NextCursor r).
Definition set_NextCursor (v : option EventCursor.EventCursor) (r : ListCollaborationTasksResponse) : ListCollaborationTasksResponse := mk (Tasks r) v.
End ListCollaborationTasksResponse.

Module ListDecisionVotesRequest.
Record ListDecisionVotesRequest := mk {
  DecisionId : string
}.
Definition zero : ListDecisionVotesRequest := mk "".
Definition set_DecisionId (v : string) (r : ListDecisionVotesRequest) : ListDecisionVotesRequest := mk v.
End ListDecisionVotesRequest.

Module ListDecisionVotesResponse.
Record ListDecisionVotesResponse := mk {
  Votes : list DecisionVoteRecord.DecisionVoteRecord
}.
Definition zero : ListDecisionVotesResponse := mk [].
Definition set_Votes (v : list DecisionVoteRecord.DecisionVoteRecord) (r : ListDecisionVotesResponse) : ListDecisionVotesResponse := mk v.
End ListDecisionVotesResponse.

Module ListEventsSinceRequest.
Record ListEventsSinceRequest := mk {
  Cursor : option EventCursor.EventCursor;
  Limit : Z;
  Scopes : list EventScope.EventScope;
  Kinds : list Z;
  Operations : list Z
}.
Definition zero : ListEventsSinceRequest := mk None 0%Z [] [] [].
Definition set_Cursor (v : option EventCursor.EventCursor) (r : ListEventsSinceRequest) : ListEventsSinceRequest := mk v (Limit r) (Scopes r) (Kinds r) (Operations r).
Definition set_Limit (v : Z) (r : ListEventsSinceRequest) : ListEventsSinceRequest := mk (Cursor r) v (Scopes r) (Kinds r) (Operations r).
Definition set_Scopes (v : list EventScope.EventScope) (r : ListEventsSinceRequest) : ListEventsSinceRequest := mk (Cursor r) (Limit r) v (Kinds r) (Operations r).
Definition set_Kinds (v : list Z) (r : ListEventsSinceRequest) : ListEventsSinceRequest := mk (Cursor r) (Limit r) (Scopes r) v (Operations r).
Definition set_Operations (v : list Z) (r : ListEventsSinceRequest) : ListEventsSinceRequest := mk (Cursor r) (Limit r) (Scopes r) (Kinds r) v.
End ListEventsSinceRequest.

Module ListEventsSinceResponse.
Record ListEventsSinceResponse := mk {
  Events : list CollaborationEvent.CollaborationEvent;
  NextCursor : option EventCursor.EventCursor
}.
Definition zero : ListEventsSinceResponse := mk [] None.
Definition set_Events (v : list CollaborationEvent.CollaborationEvent) (r : ListEventsSinceResponse) : ListEventsSinceResponse := mk v (NextCursor r).
Definition set_NextCursor (v : option EventCursor.EventCursor) (r : ListEventsSinceResponse) : ListEventsSinceResponse := mk (Events r) v.
End ListEventsSinceResponse.

Module ListInteractionEndpointsRequest.
Record ListInteractionEndpointsRequest := mk {
  Limit : Z;
  Cursor : option EventCursor.EventCursor
}.
Definition zero : ListInteractionEndpointsRequest := mk 0%Z None.
Definition set_Limit (v : Z) (r : ListInteractionEndpointsRequest) : ListInteractionEndpointsRequest := mk v (Cursor r).
Definition set_Cursor (v : option EventCursor.EventCursor) (r : ListInteractionEndpointsRequest) : ListInteractionEndpointsRequest := mk (Limit r) v.
End ListInteractionEndpointsRequest.

Module ListInteractionEndpointsResponse.
Record ListInteractionEndpointsResponse := mk {
  Endpoints : list InteractionEndpoint.InteractionEndpoint;
  NextCursor : option EventCursor.EventCursor
}.
Definition zero : ListInteractionEndpointsResponse := mk [] None.
Definition set_Endpoints (v : list InteractionEndpoint.InteractionEndpoint) (r : ListInteractionEndpointsResponse) : ListInteractionEndpointsResponse := mk v (NextCursor r).
Definition set_NextCursor (v : option EventCursor.EventCursor) (r : ListInteractionEndpointsResponse) : ListInteractionEndpointsResponse := mk (Endpoints r) v.
End ListInteractionEndpointsResponse.

Module ListOutboundDeliveriesRequest.
Record ListOutboundDeliveriesRequest := mk {
  Target : string;
  MessageId : string;
  EndpointId : string;
  Statuses : list Z;
  Limit : Z;
  Cursor : option EventCursor.EventCursor
}.
Definition zero : ListOutboundDeliveriesRequest := mk "" "" "" [] 0%Z None.
Definition set_Target (v : string) (r : ListOutboundDeliveriesRequest) : ListOutboundDeliveriesRequest := mk v (MessageId r) (EndpointId r) (Statuses r) (Limit r) (Cursor r).
Definition set_MessageId (v : string) (r : ListOutboundDeliveriesRequest) : ListOutboundDeliveriesRequest := mk (Target r) v (EndpointId r) (Statuses r) (Limit r) (Cursor r).
Definition set_EndpointId (v : string) (r : ListOutboundDeliveriesRequest) : ListOutboundDeliveriesRequest := mk (Target r) (MessageId r) v (Statuses r) (Limit r) (Cursor r).
Definition set_Statuses (v : list Z) (r : ListOutboundDeliveriesRequest) : ListOutboundDeliveriesRequest := mk (Target r) (MessageId r) (EndpointId r) v (Limit r) (Cursor r).
Definition set_Limit (v : Z) (r : ListOutboundDeliveriesRequest) : ListOutboundDeliveriesRequest := mk (Target r) (MessageId r) (EndpointId r) (Statuses r) v (Cursor r).
Definition set_Cursor (v : option EventCursor.EventCursor) (r : ListOutboundDeliveriesRequest) : ListOutboundDeliveriesRequest := mk (Target r) (MessageId r) (EndpointId r) (Statuses r) (Limit r) v.
End ListOutboundDeliveriesRequest.

Module OutboundDeliveryRecord.
Record OutboundDeliveryRecord := mk {
  DeliveryId : string;
  Target : string;
  MessageId : string;
  EndpointId : string;
  EndpointKind : string;
  ExternalMessageId : string;
  Status : Z;
  AttemptCount : Z;
  NextRetryTimeUnix : Z;
  DeliveredTimeUnix : Z;
  LastError : string;
  RequestId : string
}.
Definition zero : OutboundDeliveryRecord := mk "" "" "" "" "" "" 0%Z 0%Z 0%Z 0%Z "" "".
Definition set_DeliveryId (v : string) (r : OutboundDeliveryRecord) : OutboundDeliveryRecord := mk v (Target r) (MessageId r) (EndpointId r) (EndpointKind r) (ExternalMessageId r) (Status r) (AttemptCount r) (NextRetryTimeUnix r) (DeliveredTimeUnix r) (LastError r) (RequestId r).
Definition set_Target (v : string) (r : OutboundDeliveryRecord) : OutboundDeliveryRecord := mk (DeliveryId r) v (MessageId r) (EndpointId r) (EndpointKind r) (ExternalMessageId r) (Status r) (AttemptCount r) (NextRetryTimeUnix r) (DeliveredTimeUnix r) (LastError r) (RequestId r).
Definition set_MessageId (v : string) (r : OutboundDeliveryRecord) : OutboundDeliveryRecord := mk (DeliveryId r) (Target r) v (EndpointId r) (EndpointKind r) (ExternalMessageId r) (Status r) (AttemptCount r) (NextRetryTimeUnix r) (DeliveredTimeUnix r) (LastError r) (RequestId r).
Definition set_EndpointId (v : string) (r : OutboundDeliveryRecord) : OutboundDeliveryRecord := mk (DeliveryId r) (Target r) (MessageId r) v (EndpointKind r) (ExternalMessageId r) (Status r) (AttemptCount r) (NextRetryTimeUnix r) (DeliveredTimeUnix r) (LastError r) (RequestId r).
Definition set_EndpointKind (v : string) (r : OutboundDeliveryRecord) : OutboundDeliveryRecord := mk (DeliveryId r) (Target r) (MessageId r) (EndpointId r) v (ExternalMessageId r) (Status r) (AttemptCount r) (NextRetryTimeUnix r) (DeliveredTimeUnix r) (LastError r) (RequestId r).
Definition set_ExternalMessageId (v : string) (r : OutboundDeliveryRecord) : OutboundDeliveryRecord := mk (DeliveryId r) (Target r) (MessageId r) (EndpointId r) (EndpointKind r) v (Status r) (AttemptCount r) (NextRetryTimeUnix r) (DeliveredTimeUnix r) (LastError r) (RequestId r).
Definition set_Status (v : Z) (r : OutboundDeliveryRecord) : OutboundDeliveryRecord := mk (DeliveryId r) (Target r) (MessageId r) (EndpointId r) (EndpointKind r) (ExternalMessageId r) v (AttemptCount r) (NextRetryTimeUnix r) (DeliveredTimeUnix r) (LastError r) (RequestId r).
Definition set_AttemptCount (v : Z) (r : OutboundDeliveryRecord) : OutboundDeliveryRecord := mk (DeliveryId r) (Target r) (MessageId r) (EndpointId r) (EndpointKind r) (ExternalMessageId r) (Status r) v (NextRetryTimeUnix r) (DeliveredTimeUnix r) (LastError r) (RequestId r).
Definition set_NextRetryTimeUnix (v : Z) (r : OutboundDeliveryRecord) : OutboundDeliveryRecord := mk (DeliveryId r) (Target r) (MessageId r) (EndpointId r) (EndpointKind r) (ExternalMessageId r) (Status r) (AttemptCount r) v (DeliveredTimeUnix r) (LastError r) (RequestId r).
Definition set_DeliveredTimeUnix (v : Z) (r : OutboundDeliveryRecord) : OutboundDeliveryRecord := mk (DeliveryId r) (Target r) (MessageId r) (EndpointId r) (EndpointKind r) (ExternalMessageId r) (Status r) (AttemptCount r) (NextRetryTimeUnix r) v (LastError r) (RequestId r).
Definition set_LastError (v : string) (r : OutboundDeliveryRecord) : OutboundDeliveryRecord := mk (DeliveryId r) (Target r) (MessageId r) (EndpointId r) (EndpointKind r) (ExternalMessageId r) (Status r) (AttemptCount r) (NextRetryTimeUnix r) (DeliveredTimeUnix r) v (RequestId r).
Definition set_RequestId (v : string) (r : OutboundDeliveryRecord) : OutboundDeliveryRecord := mk (DeliveryId r) (Target r) (MessageId r) (EndpointId r) (EndpointKind r) (ExternalMessageId r) (Status r) (AttemptCount r) (NextRetryTimeUnix r) (DeliveredTimeUnix r) (LastError r) v.
End OutboundDeliveryRecord.

Module ListOutboundDeliveriesResponse.
Record ListOutboundDeliveriesResponse := mk {
  Deliveries : list OutboundDeliveryRecord.OutboundDeliveryRecord;
  NextCursor : option EventCursor.EventCursor
}.
Definition zero : ListOutboundDeliveriesResponse := mk [] None.
Definition set_Deliveries (v : list OutboundDeliveryRecord.OutboundDeliveryRecord) (r : ListOutboundDeliveriesResponse) : ListOutboundDeliveriesResponse := mk v (NextCursor r).
Definition set_NextCursor (v : option EventCursor.EventCursor) (r : ListOutboundDeliveriesResponse) : ListOutboundDeliveriesResponse := mk (Deliveries r) v.
End ListOutboundDeliveriesResponse.

Module ListRemindersRequest.
Record ListRemindersRequest := mk {
  Target : string;
  Limit : Z;
  Statuses : list Z;
  IncludeCanceled : bool;
  Cursor : option EventCursor.EventCursor
}.
Definition zero : ListRemindersRequest := mk "" 0%Z [] false None.
Definition set_Target (v : string) (r : ListRemindersRequest) : ListRemindersRequest := mk v (Limit r) (Statuses r) (IncludeCanceled r) (Cursor r).
Definition set_Limit (v : Z) (r : ListRemindersRequest) : ListRemindersRequest := mk (Target r) v (Statuses r) (IncludeCanceled r) (Cursor r).
Definition set_Statuses (v : list Z) (r : ListRemindersRequest) : ListRemindersRequest := mk (Target r) (Limit r) v (IncludeCanceled r) (Cursor r).
Definition set_IncludeCanceled (v : bool) (r : ListRemindersRequest) : ListRemindersRequest := mk (Target r) (Limit r) (Statuses r) v (Cursor r).
Definition set_Cursor (v : option EventCursor.EventCursor) (r : ListRemindersRequest) : ListRemindersRequest := mk (Target r) (Limit r) (Statuses r) (IncludeCanceled r) v.
End ListRemindersRequest.

Module ListRemindersResponse.
Record ListRemindersResponse := mk {
  Reminders : list ReminderRecord.ReminderRecord;
  NextCursor : option EventCursor.EventCursor
}.
Definition zero : ListRemindersResponse := mk [] None.
Definition set_Reminders (v : list ReminderRecord.ReminderRecord) (r : ListRemindersResponse) : ListRemindersResponse := mk v (NextCursor r).
Definition set_NextCursor (v : option EventCursor.EventCursor) (r : ListRemindersResponse) : ListRemindersResponse := mk (Reminders r) v.
End ListRemindersResponse.

Module ListRunsRequest.
Record ListRunsRequest := mk {
  Target : string;
  TaskId : string;
  AgentId : string;
  Limit : Z;
  Cursor : option EventCursor.EventCursor
}.
Definition zero : ListRunsRequest := mk "" "" "" 0%Z None.
Definition set_Target (v : string) (r : ListRunsRequest) : ListRunsRequest := mk v (TaskId r) (AgentId r) (Limit r) (Cursor r).
Definition set_TaskId (v : string) (r : ListRunsRequest) : ListRunsRequest := mk (Target r) v (AgentId r) (Limit r) (Cursor r).
Definition set_AgentId (v : string) (r : ListRunsRequest) : ListRunsRequest := mk (Target r) (TaskId r) v (Limit r) (Cursor r).
Definition set_Limit (v : Z) (r : ListRunsRequest) : ListRunsRequest := mk (Target r) (TaskId r) (AgentId r) v (Cursor r).
Definition set_Cursor (v : option EventCursor.EventCursor) (r : ListRunsRequest) : ListRunsRequest := mk (Target r) (TaskId r) (AgentId r) (Limit r) v.
End ListRunsRequest.

Module ListRunsResponse.
Record ListRunsResponse := mk {
  Runs : list Run.Run;
  NextCursor : option EventCursor.EventCursor
}.
Definition zero : ListRunsResponse := mk [] None.
Definition set_Runs (v : list Run.Run) (r : ListRunsResponse) : ListRunsResponse := mk v (NextCursor r).
Definition set_NextCursor (v : option EventCursor.EventCursor) (r : ListRunsResponse) : ListRunsResponse := mk (Runs r) v.
End ListRunsResponse.

Module ListSavedMessagesRequest.
Record ListSavedMessagesRequest := mk {
  Target : string;
  SavedByAgentId : string;
  SavedByUserId : string;
  Limit : Z;
  Cursor : option EventCursor.EventCursor
}.
Definition zero : ListSavedMessagesRequest := mk "" "" "" 0%Z None.
Definition set_Target (v : string) (r : ListSavedMessagesRequest) : ListSavedMessagesRequest := mk v (SavedByAgentId r) (SavedByUserId r) (Limit r) (Cursor r).
Definition set_SavedByAgentId (v : string) (r : ListSavedMessagesRequest) : ListSavedMessagesRequest := mk (Target r) v (SavedByUserId r) (Limit r) (Cursor r).
Definition set_SavedByUserId (v : string) (r : ListSavedMessagesRequest) : ListSavedMessagesRequest := mk (Target r) (SavedByAgentId r) v (Limit r) (Cursor r).
Definition set_Limit (v : Z) (r : ListSavedMessagesRequest) : ListSavedMessagesRequest := mk (Target r) (SavedByAgentId r) (SavedByUserId r) v (Cursor r).
Definition set_Cursor (v : option EventCursor.EventCursor) (r : ListSavedMessagesRequest) : ListSavedMessagesRequest := mk (Target r) (SavedByAgentId r) (SavedByUserId r) (Limit r) v.
End ListSavedMessagesRequest.

Module SavedMessageRecord.
Record SavedMessageRecord := mk {
  SavedMessageId : string;
  Target : string;
  ThreadId : string;
  MessageId : string;
  SavedByAgentId : string;
  SavedByUserId : string;
  SavedTimeUnix : Z;
  Message : option CollaborationMessage.CollaborationMessage
}.
Definition zero : SavedMessageRecord := mk "" "" "" "" "" "" 0%Z None.
Definition set_SavedMessageId (v : string) (r : SavedMessageRecord) : SavedMessageRecord := mk v (Target r) (ThreadId r) (MessageId r) (SavedByAgentId r) (SavedByUserId r) (SavedTimeUnix r) (Message r).
Definition set_Target (v : string) (r : SavedMessageRecord) : SavedMessageRecord := mk (SavedMessageId r) v (ThreadId r) (MessageId r) (SavedByAgentId r) (SavedByUserId r) (SavedTimeUnix r) (Message r).
Definition set_ThreadId (v : string) (r : SavedMessageRecord) : SavedMessageRecord := mk (SavedMessageId r) (Target r) v (MessageId r) (SavedByAgentId r) (SavedByUserId r) (SavedTimeUnix r) (Message r).
Definition set_MessageId (v : string) (r : SavedMessageRecord) : SavedMessageRecord := mk (SavedMessageId r) (Target r) (ThreadId r) v (SavedByAgentId r) (SavedByUserId r) (SavedTimeUnix r) (Message r).
Definition set_SavedByAgentId (v : string) (r : SavedMessageRecord) : SavedMessageRecord := mk (SavedMessageId r) (Target r) (ThreadId r) (MessageId r) v (SavedByUserId r) (SavedTimeUnix r) (Message r).
Definition set_SavedByUserId (v : string) (r : SavedMessageRecord) : SavedMessageRecord := mk (SavedMessageId r) (Target r) (ThreadId r) (MessageId r) (SavedByAgentId r) v (SavedTimeUnix r) (Message r).
Definition set_SavedTimeUnix (v : Z) (r : SavedMessageRecord) : SavedMessageRecord := mk (SavedMessageId r) (Target r) (ThreadId r) (MessageId r) (SavedByAgentId r) (SavedByUserId r) v (Message r).
Definition set_Message (v : option CollaborationMessage.CollaborationMessage) (r : SavedMessageRecord) : SavedMessageRecord := mk (SavedMessageId r) (Target r) (ThreadId r) (MessageId r) (SavedByAgentId r) (SavedByUserId r) (SavedTimeUnix r) v.
End SavedMessageRecord.

Module ListSavedMessagesResponse.
Record ListSavedMessagesResponse := mk {
  SavedMessages : list SavedMessageRecord.SavedMessageRecord;
  NextCursor : option EventCursor.EventCursor
}.
Definition zero : ListSavedMessagesResponse := mk [] None.
Definition set_SavedMessages (v : list SavedMessageRecord.SavedMessageRecord) (r : ListSavedMessagesResponse) : ListSavedMessagesResponse := mk v (NextCursor r).
Definition set_NextCursor (v : option EventCursor.EventCursor) (r : ListSavedMessagesResponse) : ListSavedMessagesResponse := mk (SavedMessages r) v.
End ListSavedMessagesResponse.

Module ListTaskBoardRequest.
Record ListTaskBoardRequest := mk {
  Target : string;
  AssigneeId : string;
  CreatedByUserId : string;
  CreatedByAgentId : string;
  Column : string;
  Limit : Z;
  Cursor : option EventCursor.EventCursor;
  RequestId : string
}.
Definition zero : ListTaskBoardRequest := mk "" "" "" "" "" 0%Z None "".
Definition set_Target (v : string) (r : ListTaskBoardRequest) : ListTaskBoardRequest := mk v (AssigneeId r) (CreatedByUserId r) (CreatedByAgentId r) (Column r) (Limit r) (Cursor r) (RequestId r).
Definition set_AssigneeId (v : string) (r : ListTaskBoardRequest) : ListTaskBoardRequest := mk (Target r) v (CreatedByUserId r) (CreatedByAgentId r) (Column r) (Limit r) (Cursor r) (RequestId r).
Definition set_CreatedByUserId (v : string) (r : ListTaskBoardRequest) : ListTaskBoardRequest := mk (Target r) (AssigneeId r) v (CreatedByAgentId r) (Column r) (Limit r) (Cursor r) (RequestId r).
Definition set_CreatedByAgentId (v : string) (r : ListTaskBoardRequest) : ListTaskBoardRequest := mk (Target r) (AssigneeId r) (CreatedByUserId r) v (Column r) (Limit r) (Cursor r) (RequestId r).
Definition set_Column (v : string) (r : ListTaskBoardRequest) : ListTaskBoardRequest := mk (Target r) (AssigneeId r) (CreatedByUserId r) (CreatedByAgentId r) v (Limit r) (Cursor r) (RequestId r).
Definition set_Limit (v : Z) (r : ListTaskBoardRequest) : ListTaskBoardRequest := mk (Target r) (AssigneeId r) (CreatedByUserId r) (CreatedByAgentId r) (Column r) v (Cursor r) (RequestId r).
Definition set_Cursor (v : option EventCursor.EventCursor) (r : ListTaskBoardRequest) : ListTaskBoardRequest := mk (Target r) (AssigneeId r) (CreatedByUserId r) (CreatedByAgentId r) (Column r) (Limit r) v (RequestId r).
Definition set_RequestId (v : string) (r : ListTaskBoardRequest) : ListTaskBoardRequest := mk (Target r) (AssigneeId r) (CreatedByUserId r) (CreatedByAgentId r) (Column r) (Limit r) (Cursor r) v.
End ListTaskBoardRequest.

Module TaskBoardColumn.
Record TaskBoardColumn := mk {
  Column : string;
  Tasks : list Task.Task;
  TotalCount : Z
}.
Definition zero : TaskBoardColumn := mk "" [] 0%Z.
Definition set_Column (v : string) (r : TaskBoardColumn) : TaskBoardColumn := mk v (Tasks r) (TotalCount r).
Definition set_Tasks (v : list Task.Task) (r : TaskBoardColumn) : TaskBoardColumn := mk (Column r) v (TotalCount r).
Definition set_TotalCount (v : Z) (r : TaskBoardColumn) : TaskBoardColumn := mk (Column r) (Tasks r) v.
End TaskBoardColumn.

Module TaskBoardSnapshot.
Record TaskBoardSnapshot := mk {
  Columns : list TaskBoardColumn.TaskBoardColumn;
  ColumnCounts : gmap string Z;
  NextCursor : option EventCursor.EventCursor
}.
Definition zero : TaskBoardSnapshot := mk [] ∅ None.
Definition set_Columns (v : list TaskBoardColumn.TaskBoardColumn) (r : TaskBoardSnapshot) : TaskBoardSnapshot := mk v (ColumnCounts r) (NextCursor r).
Definition set_ColumnCounts (v : gmap string Z) (r : TaskBoardSnapshot) : TaskBoardSnapshot := mk (Columns r) v (NextCursor r).
Definition set_NextCursor (v : option EventCursor.EventCursor) (r : TaskBoardSnapshot) : TaskBoardSnapshot := mk (Columns r) (ColumnCounts r) v.
End TaskBoardSnapshot.

Module ListTaskBoardResponse.
Record ListTaskBoardResponse := mk {
  Board : option TaskBoardSnapshot.TaskBoardSnapshot
}.
Definition zero : ListTaskBoardResponse := mk None.
Definition set_Board (v : option TaskBoardSnapshot.TaskBoardSnapshot) (r : ListTaskBoardResponse) : ListTaskBoardResponse := mk v.
End ListTaskBoardResponse.

Module ListTunnelsRequest.
Record ListTunnelsRequest := mk {
  ComputerId : string;
  StateFilter : Z;
  Limit : Z
}.
Definition zero : ListTunnelsRequest := mk "" 0%Z 0%Z.
Definition set_ComputerId (v : string) (r : ListTunnelsRequest) : ListTunnelsRequest := mk v (StateFilter r) (Limit r).
Definition set_StateFilter (v : Z) (r : ListTunnelsRequest) : ListTunnelsRequest := mk (ComputerId r) v (Limit r).
Definition set_Limit (v : Z) (r : ListTunnelsRequest) : ListTunnelsRequest := mk (ComputerId r) (StateFilter r) v.
End ListTunnelsRequest.

Module ListTunnelsResponse.
Record ListTunnelsResponse := mk {
  Tunnels : list Tunnel.Tunnel
}.
Definition zero : ListTunnelsResponse := mk [].
Definition set_Tunnels (v : list Tunnel.Tunnel) (r : ListTunnelsResponse) : ListTunnelsResponse := mk v.
End ListTunnelsResponse.

Module LogActivityRequest.
Record LogActivityRequest := mk {
  Target : string;
  AgentId : string;
  Kind : string;
  Summary : string;
  Detail : string;
  RunId : string;
  StepId : string;
  RequestId : string;
  IdempotencyKey : string;
  Context : option RequestContext.RequestContext
}.
Definition zero : LogActivityRequest := mk "" "" "" "" "" "" "" "" "" None.
Definition set_Target (v : string) (r : LogActivityRequest) : LogActivityRequest := mk v (AgentId r) (Kind r) (Summary r) (Detail r) (RunId r) (StepId r) (RequestId r) (IdempotencyKey r) (Context r).
Definition set_AgentId (v : string) (r : LogActivityRequest) : LogActivityRequest := mk (Target r) v (Kind r) (Summary r) (Detail r) (RunId r) (StepId r) (RequestId r) (IdempotencyKey r) (Context r).
Definition set_Kind (v : string) (r : LogActivityRequest) : LogActivityRequest := mk (Target r) (AgentId r) v (Summary r) (Detail r) (RunId r) (StepId r) (RequestId r) (IdempotencyKey r) (Context r).
Definition set_Summary (v : string) (r : LogActivityRequest) : LogActivityRequest := mk (Target r) (AgentId r) (Kind r) v (Detail r) (RunId r) (StepId r) (RequestId r) (IdempotencyKey r) (Context r).
Definition set_Detail (v : string) (r : LogActivityRequest) : LogActivityRequest := mk (Target r) (AgentId r) (Kind r) (Summary r) v (RunId r) (StepId r) (RequestId r) (IdempotencyKey r) (Context r).
Definition set_RunId (v : string) (r : LogActivityRequest) : LogActivityRequest := mk (Target r) (AgentId r) (Kind r) (Summary r) (Detail r) v (StepId r) (RequestId r) (IdempotencyKey r) (Context r).
Definition set_StepId (v : string) (r : LogActivityRequest) : LogActivityRequest := mk (Target r) (AgentId r) (Kind r) (Summary r) (Detail r) (RunId r) v (RequestId r) (IdempotencyKey r) (Context r).
Definition set_RequestId (v : string) (r : LogActivityRequest) : LogActivityRequest := mk (Target r) (AgentId r) (Kind r) (Summary r) (Detail r) (RunId r) (StepId r) v (IdempotencyKey r) (Context r).
Definition set_IdempotencyKey (v : string) (r : LogActivityRequest) : LogActivityRequest := mk (Target r) (AgentId r) (Kind r) (Summary r) (Detail r) (RunId r) (StepId r) (RequestId r) v (Context r).
Definition set_Context (v : option RequestContext.RequestContext) (r : LogActivityRequest) : LogActivityRequest := mk (Target r) (AgentId r) (Kind r) (Summary r) (Detail r) (RunId r) (StepId r) (RequestId r) (IdempotencyKey r) v.
End LogActivityRequest.

Module LogActivityResponse.
Record LogActivityResponse := mk {
  Activity : option ActivityRecord.ActivityRecord
}.
Definition zero : LogActivityResponse := mk None.
Definition set_Activity (v : option ActivityRecord.ActivityRecord) (r : LogActivityResponse) : LogActivityResponse := mk v.
End LogActivityResponse.

Module ProposeChannelDecisionRequest.
Record ProposeChannelDecisionRequest := mk {
  Target : string;
  Title : string;
  Body : string;
  SupersedesDecisionId : string;
  IdempotencyKey : string;
  Context : option RequestContext.RequestContext
}.
Definition zero : ProposeChannelDecisionRequest := mk "" "" "" "" "" None.
Definition set_Target (v : string) (r : ProposeChannelDecisionRequest) : ProposeChannelDecisionRequest := mk v (Title r) (Body r) (SupersedesDecisionId r) (IdempotencyKey r) (Context r).
Definition set_Title (v : string) (r : ProposeChannelDecisionRequest) : ProposeChannelDecisionRequest := mk (Target r) v (Body r) (SupersedesDecisionId r) (IdempotencyKey r) (Context r).
Definition set_Body (v : string) (r : ProposeChannelDecisionRequest) : ProposeChannelDecisionRequest := mk (Target r) (Title r) v (SupersedesDecisionId r) (IdempotencyKey r) (Context r).
Definition set_SupersedesDecisionId (v : string) (r : ProposeChannelDecisionRequest) : ProposeChannelDecisionRequest := mk (Target r) (Title r) (Body r) v (IdempotencyKey r) (Context r).
Definition set_IdempotencyKey (v : string) (r : ProposeChannelDecisionRequest) : ProposeChannelDecisionRequest := mk (Target r) (Title r) (Body r) (SupersedesDecisionId r) v (Context r).
Definition set_Context (v : option RequestContext.RequestContext) (r : ProposeChannelDecisionRequest) : ProposeChannelDecisionRequest := mk (Target r) (Title r) (Body r) (SupersedesDecisionId r) (IdempotencyKey r) v.
End ProposeChannelDecisionRequest.

Module ProposeChannelDecisionResponse.
Record ProposeChannelDecisionResponse := mk {
  Decision : option ChannelDecision.ChannelDecision
}.
Definition zero : ProposeChannelDecisionResponse := mk None.
Definition set_Decision (v : option ChannelDecision.ChannelDecision) (r : ProposeChannelDecisionResponse) : ProposeChannelDecisionResponse := mk v.
End ProposeChannelDecisionResponse.

Module ProxyHeader.
Record ProxyHeader := mk {
  Name : string;
  Value : list string
}.
Definition zero : ProxyHeader := mk "" [].
Definition set_Name (v : string) (r : ProxyHeader) : ProxyHeader := mk v (Value r).
Definition set_Value (v : list string) (r : ProxyHeader) : ProxyHeader := mk (Name r) v.
End ProxyHeader.

Module ProxyFrame.
Record ProxyFrame := mk {
  TunnelId : string;
  RequestId : string;
  Kind : Z;
  Method : string;
  Path : string;
  RequestHeaders : list ProxyHeader.ProxyHeader;
  RemoteAddr : string;
  StatusCode : Z;
  ResponseHeaders : list ProxyHeader.ProxyHeader;
  BodyChunk : string;
  Error : string
}.
Definition zero : ProxyFrame := mk "" "" 0%Z "" "" [] "" 0%Z [] "" "".
Definition set_TunnelId (v : string) (r : ProxyFrame) : ProxyFrame := mk v (RequestId r) (Kind r) (Method r) (Path r) (RequestHeaders r) (RemoteAddr r) (StatusCode r) (ResponseHeaders r) (BodyChunk r) (Error r).
Definition set_RequestId (v : string) (r : ProxyFrame) : ProxyFrame := mk (TunnelId r) v (Kind r) (Method r) (Path r) (RequestHeaders r) (RemoteAddr r) (StatusCode r) (ResponseHeaders r) (BodyChunk r) (Error r).
Definition set_Kind (v : Z) (r : ProxyFrame) : ProxyFrame := mk (TunnelId r) (RequestId r) v (Method r) (Path r) (RequestHeaders r) (RemoteAddr r) (StatusCode r) (ResponseHeaders r) (BodyChunk r) (Error r).
Definition set_Method (v : string) (r : ProxyFrame) : ProxyFrame := mk (TunnelId r) (RequestId r) (Kind r) v (Path r) (RequestHeaders r) (RemoteAddr r) (StatusCode r) (ResponseHeaders r) (BodyChunk r) (Error r).
Definition set_Path (v : string) (r : ProxyFrame) : ProxyFrame := mk (TunnelId r) (RequestId r) (Kind r) (Method r) v (RequestHeaders r) (RemoteAddr r) (StatusCode r) (ResponseHeaders r) (BodyChunk r) (Error r).
Definition set_RequestHeaders (v : list ProxyHeader.ProxyHeader) (r : ProxyFrame) : ProxyFrame := mk (TunnelId r) (RequestId r) (Kind r) (Method r) (Path r) v (RemoteAddr r) (StatusCode r) (ResponseHeaders r) (BodyChunk r) (Error r).
Definition set_RemoteAddr (v : string) (r : ProxyFrame) : ProxyFrame := mk (TunnelId r) (RequestId r) (Kind r) (Method r) (Path r) (RequestHeaders r) v (StatusCode r) (ResponseHeaders r) (BodyChunk r) (Error r).
Definition set_StatusCode (v : Z) (r : ProxyFrame) : ProxyFrame := mk (TunnelId r) (RequestId r) (Kind r) (Method r) (Path r) (RequestHeaders r) (RemoteAddr r) v (ResponseHeaders r) (BodyChunk r) (Error r).
Definition set_ResponseHeaders (v : list ProxyHeader.ProxyHeader) (r : ProxyFrame) : ProxyFrame := mk (TunnelId r) (RequestId r) (Kind r) (Method r) (Path r) (RequestHeaders r) (RemoteAddr r) (StatusCode r) v (BodyChunk r) (Error r).
Definition set_BodyChunk (v : string) (r : ProxyFrame) : ProxyFrame := mk (TunnelId r) (RequestId r) (Kind r) (Method r) (Path r) (RequestHeaders r) (RemoteAddr r) (StatusCode r) (ResponseHeaders r) v (Error r).
Definition set_Error (v : string) (r : ProxyFrame) : ProxyFrame := mk (TunnelId r) (RequestId r) (Kind r) (Method r) (Path r) (RequestHeaders r) (RemoteAddr r) (StatusCode r) (ResponseHeaders r) (BodyChunk r) v.
End ProxyFrame.

Module RatifyChannelDecisionRequest.
Record RatifyChannelDecisionRequest := mk {
  DecisionId : string;
  Force : bool;
  Context : option RequestContext.RequestContext
}.
Definition zero : RatifyChannelDecisionRequest := mk "" false None.
Definition set_DecisionId (v : string) (r : RatifyChannelDecisionRequest) : RatifyChannelDecisionRequest := mk v (Force r) (Context r).
Definition set_Force (v : bool) (r : RatifyChannelDecisionRequest) : RatifyChannelDecisionRequest := mk (DecisionId r) v (Context r).
Definition set_Context (v : option RequestContext.RequestContext) (r : RatifyChannelDecisionRequest) : RatifyChannelDecisionRequest := mk (DecisionId r) (Force r) v.
End RatifyChannelDecisionRequest.

Module RatifyChannelDecisionResponse.
Record RatifyChannelDecisionResponse := mk {
  Decision : option ChannelDecision.ChannelDecision
}.
Definition zero : RatifyChannelDecisionResponse := mk None.
Definition set_Decision (v : option ChannelDecision.ChannelDecision) (r : RatifyChannelDecisionResponse) : RatifyChannelDecisionResponse := mk v.
End RatifyChannelDecisionResponse.

Module ReadMessagesRequest.
Record ReadMessagesRequest := mk {
  Target : string;
  Limit : Z;
  Cursor : option EventCursor.EventCursor
}.
Definition zero : ReadMessagesRequest := mk "" 0%Z None.
Definition set_Target (v : string) (r : ReadMessagesRequest) : ReadMessagesRequest := mk v (Limit r) (Cursor r).
Definition set_Limit (v : Z) (r : ReadMessagesRequest) : ReadMessagesRequest := mk (Target r) v (Cursor r).
Definition set_Cursor (v : option EventCursor.EventCursor) (r : ReadMessagesRequest) : ReadMessagesRequest := mk (Target r) (Limit r) v.
End ReadMessagesRequest.

Module ReadMessagesResponse.
Record ReadMessagesResponse := mk {
  Messages : list CollaborationMessage.CollaborationMessage;
  NextCursor : option EventCursor.EventCursor
}.
Definition zero : ReadMessagesResponse := mk [] None.
Definition set_Messages (v : list CollaborationMessage.CollaborationMessage) (r : ReadMessagesResponse) : ReadMessagesResponse := mk v (NextCursor r).
Definition set_NextCursor (v : option EventCursor.EventCursor) (r : ReadMessagesResponse) : ReadMessagesResponse := mk (Messages r) v.
End ReadMessagesResponse.

Module RegisterComputerRequest.
Record RegisterComputerRequest := mk {
  Info : option ComputerInfo.ComputerInfo;
  Inventory : option ComputerInventory.ComputerInventory;
  RequestId : string;
  IdempotencyKey : string;
  Context : option RequestContext.RequestContext
}.
Definition zero : RegisterComputerRequest := mk None None "" "" None.
Definition set_Info (v : option ComputerInfo.ComputerInfo) (r : RegisterComputerRequest) : RegisterComputerRequest := mk v (Inventory r) (RequestId r) (IdempotencyKey r) (Context r).
Definition set_Inventory (v : option ComputerInventory.ComputerInventory) (r : RegisterComputerRequest) : RegisterComputerRequest := mk (Info r) v (RequestId r) (IdempotencyKey r) (Context r).
Definition set_RequestId (v : string) (r : RegisterComputerRequest) : RegisterComputerRequest := mk (Info r) (Inventory r) v (IdempotencyKey r) (Context r).
Definition set_IdempotencyKey (v : string) (r : RegisterComputerRequest) : RegisterComputerRequest := mk (Info r) (Inventory r) (RequestId r) v (Context r).
Definition set_Context (v : option RequestContext.RequestContext) (r : RegisterComputerRequest) : RegisterComputerRequest := mk (Info r) (Inventory r) (RequestId r) (IdempotencyKey r) v.
End RegisterComputerRequest.

Module RegisterComputerResponse.
Record RegisterComputerResponse := mk {
  Accepted : bool;
  ServerTimeUnix : Z;
  Lease : option Lease.Lease
}.
Definition zero : RegisterComputerResponse := mk false 0%Z None.
Definition set_Accepted (v : bool) (r : RegisterComputerResponse) : RegisterComputerResponse := mk v (ServerTimeUnix r) (Lease r).
Definition set_ServerTimeUnix (v : Z) (r : RegisterComputerResponse) : RegisterComputerResponse := mk (Accepted r) v (Lease r).
Definition set_Lease (v : option Lease.Lease) (r : RegisterComputerResponse) : RegisterComputerResponse := mk (Accepted r) (ServerTimeUnix r) v.
End RegisterComputerResponse.

Module RejectTunnelRequest.
Record RejectTunnelRequest := mk {
  TunnelId : string;
  Reason : string;
  Context : option RequestContext.RequestContext
}.
Definition zero : RejectTunnelRequest := mk "" "" None.
Definition set_TunnelId (v : string) (r : RejectTunnelRequest) : RejectTunnelRequest := mk v (Reason r) (Context r).
Definition set_Reason (v : string) (r : RejectTunnelRequest) : RejectTunnelRequest := mk (TunnelId r) v (Context r).
Definition set_Context (v : option RequestContext.RequestContext) (r : RejectTunnelRequest) : RejectTunnelRequest := mk (TunnelId r) (Reason r) v.
End RejectTunnelRequest.

Module RejectTunnelResponse.
Record RejectTunnelResponse := mk {
  Tunnel : option Tunnel.Tunnel
}.
Definition zero : RejectTunnelResponse := mk None.
Definition set_Tunnel (v : option Tunnel.Tunnel) (r : RejectTunnelResponse) : RejectTunnelResponse := mk v.
End RejectTunnelResponse.

Module ReleaseStartPermitRequest.
Record ReleaseStartPermitRequest := mk {
  LeaseId : string;
  ComputerId : string;
  AgentId : string;
  RequestId : string;
  IdempotencyKey : string;
  Context : option RequestContext.RequestContext
}.
Definition zero : ReleaseStartPermitRequest := mk "" "" "" "" "" None.
Definition set_LeaseId (v : string) (r : ReleaseStartPermitRequest) : ReleaseStartPermitRequest := mk v (ComputerId r) (AgentId r) (RequestId r) (IdempotencyKey r) (Context r).
Definition set_ComputerId (v : string) (r : ReleaseStartPermitRequest) : ReleaseStartPermitRequest := mk (LeaseId r) v (AgentId r) (RequestId r) (IdempotencyKey r) (Context r).
Definition set_AgentId (v : string) (r : ReleaseStartPermitRequest) : ReleaseStartPermitRequest := mk (LeaseId r) (ComputerId r) v (RequestId r) (IdempotencyKey r) (Context r).
Definition set_RequestId (v : string) (r : ReleaseStartPermitRequest) : ReleaseStartPermitRequest := mk (LeaseId r) (ComputerId r) (AgentId r) v (IdempotencyKey r) (Context r).
Definition set_IdempotencyKey (v : string) (r : ReleaseStartPermitRequest) : ReleaseStartPermitRequest := mk (LeaseId r) (ComputerId r) (AgentId r) (RequestId r) v (Context r).
Definition set_Context (v : option RequestContext.RequestContext) (r : ReleaseStartPermitRequest) : ReleaseStartPermitRequest := mk (LeaseId r) (ComputerId r) (AgentId r) (RequestId r) (IdempotencyKey r) v.
End ReleaseStartPermitRequest.

Module ReleaseStartPermitResponse.
Record ReleaseStartPermitResponse := mk {
  Accepted : bool
}.
Definition zero : ReleaseStartPermitResponse := mk false.
Definition set_Accepted (v : bool) (r : ReleaseStartPermitResponse) : ReleaseStartPermitResponse := mk v.
End ReleaseStartPermitResponse.

Module ReminderSchedule.
Record ReminderSchedule := mk {
  Kind : Z;
  Expression : string;
  Timezone : string
}.
Definition zero : ReminderSchedule := mk 0%Z "" "".
Definition set_Kind (v : Z) (r : ReminderSchedule) : ReminderSchedule := mk v (Expression r) (Timezone r).
Definition set_Expression (v : string) (r : ReminderSchedule) : ReminderSchedule := mk (Kind r) v (Timezone r).
Definition set_Timezone (v : string) (r : ReminderSchedule) : ReminderSchedule := mk (Kind r) (Expression r) v.
End ReminderSchedule.

Module RenewRunLeaseRequest.
Record RenewRunLeaseRequest := mk {
  RunId : string;
  LeaseId : string;
  AgentId : string;
  RequestId : string;
  IdempotencyKey : string;
  Context : option RequestContext.RequestContext;
  LeaseTtlSeconds : Z
}.
Definition zero : RenewRunLeaseRequest := mk "" "" "" "" "" None 0%Z.
Definition set_RunId (v : string) (r : RenewRunLeaseRequest) : RenewRunLeaseRequest := mk v (LeaseId r) (AgentId r) (RequestId r) (IdempotencyKey r) (Context r) (LeaseTtlSeconds r).
Definition set_LeaseId (v : string) (r : RenewRunLeaseRequest) : RenewRunLeaseRequest := mk (RunId r) v (AgentId r) (RequestId r) (IdempotencyKey r) (Context r) (LeaseTtlSeconds r).
Definition set_AgentId (v : string) (r : RenewRunLeaseRequest) : RenewRunLeaseRequest := mk (RunId r) (LeaseId r) v (RequestId r) (IdempotencyKey r) (Context r) (LeaseTtlSeconds r).
Definition set_RequestId (v : string) (r : RenewRunLeaseRequest) : RenewRunLeaseRequest := mk (RunId r) (LeaseId r) (AgentId r) v (IdempotencyKey r) (Context r) (LeaseTtlSeconds r).
Definition set_IdempotencyKey (v : string) (r : RenewRunLeaseRequest) : RenewRunLeaseRequest := mk (RunId r) (LeaseId r) (AgentId r) (RequestId r) v (Context r) (LeaseTtlSeconds r).
Definition set_Context (v : option RequestContext.RequestContext) (r : RenewRunLeaseRequest) : RenewRunLeaseRequest := mk (RunId r) (LeaseId r) (AgentId r) (RequestId r) (IdempotencyKey r) v (LeaseTtlSeconds r).
Definition set_LeaseTtlSeconds (v : Z) (r : RenewRunLeaseRequest) : RenewRunLeaseRequest := mk (RunId r) (LeaseId r) (AgentId r) (RequestId r) (IdempotencyKey r) (Context r) v.
End RenewRunLeaseRequest.

Module RenewRunLeaseResponse.
Record RenewRunLeaseResponse := mk {
  Accepted : bool;
  Run : option Run.Run;
  Lease : option Lease.Lease;
  RejectionReason : string
}.
Definition zero : RenewRunLeaseResponse := mk false None None "".
Definition set_Accepted (v : bool) (r : RenewRunLeaseResponse) : RenewRunLeaseResponse := mk v (Run r) (Lease r) (RejectionReason r).
Definition set_Run (v : option Run.Run) (r : RenewRunLeaseResponse) : RenewRunLeaseResponse := mk (Accepted r) v (Lease r) (RejectionReason r).
Definition set_Lease (v : option Lease.Lease) (r : RenewRunLeaseResponse) : RenewRunLeaseResponse := mk (Accepted r) (Run r) v (RejectionReason r).
Definition set_RejectionReason (v : string) (r : RenewRunLeaseResponse) : RenewRunLeaseResponse := mk (Accepted r) (Run r) (Lease r) v.
End RenewRunLeaseResponse.

Module ReportAgentRunResponse.
Record ReportAgentRunResponse := mk {
  PersistedCount : Z;
  DroppedCount : Z
}.
Definition zero : ReportAgentRunResponse := mk 0%Z 0%Z.
Definition set_PersistedCount (v : Z) (r : ReportAgentRunResponse) : ReportAgentRunResponse := mk v (DroppedCount r).
Definition set_DroppedCount (v : Z) (r : ReportAgentRunResponse) : ReportAgentRunResponse := mk (PersistedCount r) v.
End ReportAgentRunResponse.

Module RetireChannelDecisionRequest.
Record RetireChannelDecisionRequest := mk {
  DecisionId : string;
  Reason : string;
  Context : option RequestContext.RequestContext
}.
Definition zero : RetireChannelDecisionRequest := mk "" "" None.
Definition set_DecisionId (v : string) (r : RetireChannelDecisionRequest) : RetireChannelDecisionRequest := mk v (Reason r) (Context r).
Definition set_Reason (v : string) (r : RetireChannelDecisionRequest) : RetireChannelDecisionRequest := mk (DecisionId r) v (Context r).
Definition set_Context (v : option RequestContext.RequestContext) (r : RetireChannelDecisionRequest) : RetireChannelDecisionRequest := mk (DecisionId r) (Reason r) v.
End RetireChannelDecisionRequest.

Module RetireChannelDecisionResponse.
Record RetireChannelDecisionResponse := mk {
  Decision : option ChannelDecision.ChannelDecision
}.
Definition zero : RetireChannelDecisionResponse := mk None.
Definition set_Decision (v : option ChannelDecision.ChannelDecision) (r : RetireChannelDecisionResponse) : RetireChannelDecisionResponse := mk v.
End RetireChannelDecisionResponse.

Module RetryOutboundDeliveryRequest.
Record RetryOutboundDeliveryRequest := mk {
  DeliveryId : string;
  RequestId : string;
  IdempotencyKey : string;
  Context : option RequestContext.RequestContext
}.
Definition zero : RetryOutboundDeliveryRequest := mk "" "" "" None.
Definition set_DeliveryId (v : string) (r : RetryOutboundDeliveryRequest) : RetryOutboundDeliveryRequest := mk v (RequestId r) (IdempotencyKey r) (Context r).
Definition set_RequestId (v : string) (r : RetryOutboundDeliveryRequest) : RetryOutboundDeliveryRequest := mk (DeliveryId r) v (IdempotencyKey r) (Context r).
Definition set_IdempotencyKey (v : string) (r : RetryOutboundDeliveryRequest) : RetryOutboundDeliveryRequest := mk (DeliveryId r) (RequestId r) v (Context r).
Definition set_Context (v : option RequestContext.RequestContext) (r : RetryOutboundDeliveryRequest) : RetryOutboundDeliveryRequest := mk (DeliveryId r) (RequestId r) (IdempotencyKey r) v.
End RetryOutboundDeliveryRequest.

Module RetryOutboundDeliveryResponse.
Record RetryOutboundDeliveryResponse := mk {
  Delivery : option OutboundDeliveryRecord.OutboundDeliveryRecord
}.
Definition zero : RetryOutboundDeliveryResponse := mk None.
Definition set_Delivery (v : option OutboundDeliveryRecord.OutboundDeliveryRecord) (r : RetryOutboundDeliveryResponse) : RetryOutboundDeliveryResponse := mk v.
End RetryOutboundDeliveryResponse.

Module SaveMessageRequest.
Record SaveMessageRequest := mk {
  Target : string;
  MessageId : string;
  SavedByAgentId : string;
  SavedByUserId : string;
  RequestId : string;
  IdempotencyKey : string;
  Context : option RequestContext.RequestContext
}.
Definition zero : SaveMessageRequest := mk "" "" "" "" "" "" None.
Definition set_Target (v : string) (r : SaveMessageRequest) : SaveMessageRequest := mk v (MessageId r) (SavedByAgentId r) (SavedByUserId r) (RequestId r) (IdempotencyKey r) (Context r).
Definition set_MessageId (v : string) (r : SaveMessageRequest) : SaveMessageRequest := mk (Target r) v (SavedByAgentId r) (SavedByUserId r) (RequestId r) (IdempotencyKey r) (Context r).
Definition set_SavedByAgentId (v : string) (r : SaveMessageRequest) : SaveMessageRequest := mk (Target r) (MessageId r) v (SavedByUserId r) (RequestId r) (IdempotencyKey r) (Context r).
Definition set_SavedByUserId (v : string) (r : SaveMessageRequest) : SaveMessageRequest := mk (Target r) (MessageId r) (SavedByAgentId r) v (RequestId r) (IdempotencyKey r) (Context r).
Definition set_RequestId (v : string) (r : SaveMessageRequest) : SaveMessageRequest := mk (Target r) (MessageId r) (SavedByAgentId r) (SavedByUserId r) v (IdempotencyKey r) (Context r).
Definition set_IdempotencyKey (v : string) (r : SaveMessageRequest) : SaveMessageRequest := mk (Target r) (MessageId r) (SavedByAgentId r) (SavedByUserId r) (RequestId r) v (Context r).
Definition set_Context (v : option RequestContext.RequestContext) (r : SaveMessageRequest) : SaveMessageRequest := mk (Target r) (MessageId r) (SavedByAgentId r) (SavedByUserId r) (RequestId r) (IdempotencyKey r) v.
End SaveMessageRequest.

Module SaveMessageResponse.
Record SaveMessageResponse := mk {
  Saved : bool;
  SavedMessage : option SavedMessageRecord.SavedMessageRecord
}.
Definition zero : SaveMessageResponse := mk false None.
Definition set_Saved (v : bool) (r : SaveMessageResponse) : SaveMessageResponse := mk v (SavedMessage r).
Definition set_SavedMessage (v : option SavedMessageRecord.SavedMessageRecord) (r : SaveMessageResponse) : SaveMessageResponse := mk (Saved r) v.
End SaveMessageResponse.

Inductive ScheduleReminderRequest_ScheduleSpec :=
| ScheduleReminderRequest_DelaySeconds (delaySeconds : Z)
| ScheduleReminderRequest_FireAt (fireAt : string)
| ScheduleReminderRequest_Recurring (recurring : ReminderSchedule.ReminderSchedule).

Module ScheduleReminderRequest.
Record ScheduleReminderRequest := mk {
  Target : string;
  Name : string;
  Prompt : string;
  Skills : list string;
  RequestId : string;
  Title : string;
  ScheduleSpec : option ScheduleReminderRequest_ScheduleSpec;
  Timezone : string;
  Channel : string;
  MsgId : string;
  IdempotencyKey : string;
  Context : option RequestContext.RequestContext
}.
Definition zero : ScheduleReminderRequest := mk "" "" "" [] "" "" None "" "" "" "" None.
Definition set_Target (v : string) (r : ScheduleReminderRequest) : ScheduleReminderRequest := mk v (Name r) (Prompt r) (Skills r) (RequestId r) (Title r) (ScheduleSpec r) (Timezone r) (Channel r) (MsgId r) (IdempotencyKey r) (Context r).
Definition set_Name (v : string) (r : ScheduleReminderRequest) : ScheduleReminderRequest := mk (Target r) v (Prompt r) (Skills r) (RequestId r) (Title r) (ScheduleSpec r) (Timezone r) (Channel r) (MsgId r) (IdempotencyKey r) (Context r).
Definition set_Prompt (v : string) (r : ScheduleReminderRequest) : ScheduleReminderRequest := mk (Target r) (Name r) v (Skills r) (RequestId r) (Title r) (ScheduleSpec r) (Timezone r) (Channel r) (MsgId r) (IdempotencyKey r) (Context r).
Definition set_Skills (v : list string) (r : ScheduleReminderRequest) : ScheduleReminderRequest := mk (Target r) (Name r) (Prompt r) v (RequestId r) (Title r) (ScheduleSpec r) (Timezone r) (Channel r) (MsgId r) (IdempotencyKey r) (Context r).
Definition set_RequestId (v : string) (r : ScheduleReminderRequest) : ScheduleReminderRequest := mk (Target r) (Name r) (Prompt r) (Skills r) v (Title r) (ScheduleSpec r) (Timezone r) (Channel r) (MsgId r) (IdempotencyKey r) (Context r).
Definition set_Title (v : string) (r : ScheduleReminderRequest) : ScheduleReminderRequest := mk (Target r) (Name r) (Prompt r) (Skills r) (RequestId r) v (ScheduleSpec r) (Timezone r) (Channel r) (MsgId r) (IdempotencyKey r) (Context r).
Definition set_ScheduleSpec (v : option ScheduleReminderRequest_ScheduleSpec) (r : ScheduleReminderRequest) : ScheduleReminderRequest := mk (Target r) (Name r) (Prompt r) (Skills r) (RequestId r) (Title r) v (Timezone r) (Channel r) (MsgId r) (IdempotencyKey r) (Context r).
Definition set_Timezone (v : string) (r : ScheduleReminderRequest) : ScheduleReminderRequest := mk (Target r) (Name r) (Prompt r) (Skills r) (RequestId r) (Title r) (ScheduleSpec r) v (Channel r) (MsgId r) (IdempotencyKey r) (Context r).
Definition set_Channel (v : string) (r : ScheduleReminderRequest) : ScheduleReminderRequest := mk (Target r) (Name r) (Prompt r) (Skills r) (RequestId r) (Title r) (ScheduleSpec r) (Timezone r) v (MsgId r) (IdempotencyKey r) (Context r).
Definition set_MsgId (v : string) (r : ScheduleReminderRequest) : ScheduleReminderRequest := mk (Target r) (Name r) (Prompt r) (Skills r) (RequestId r) (Title r) (ScheduleSpec r) (Timezone r) (Channel r) v (IdempotencyKey r) (Context r).
Definition set_IdempotencyKey (v : string) (r : ScheduleReminderRequest) : ScheduleReminderRequest := mk (Target r) (Name r) (Prompt r) (Skills r) (RequestId r) (Title r) (ScheduleSpec r) (Timezone r) (Channel r) (MsgId r) v (Context r).
Definition set_Context (v : option RequestContext.RequestContext) (r : ScheduleReminderRequest) : ScheduleReminderRequest := mk (Target r) (Name r) (Prompt r) (Skills r) (RequestId r) (Title r) (ScheduleSpec r) (Timezone r) (Channel r) (MsgId r) (IdempotencyKey r) v.
End ScheduleReminderRequest.

Module ScheduleReminderResponse.
Record ScheduleReminderResponse := mk {
  Reminder : option ReminderRecord.ReminderRecord
}.
Definition zero : ScheduleReminderResponse := mk None.
Definition set_Reminder (v : option ReminderRecord.ReminderRecord) (r : ScheduleReminderResponse) : ScheduleReminderResponse := mk v.
End ScheduleReminderResponse.

Module SearchAgentRunsRequest.
Record SearchAgentRunsRequest := mk {
  Query : string;
  AgentId : string;
  ComputerId : string;
  Limit : Z
}.
Definition zero : SearchAgentRunsRequest := mk "" "" "" 0%Z.
Definition set_Query (v : string) (r : SearchAgentRunsRequest) : SearchAgentRunsRequest := mk v (AgentId r) (ComputerId r) (Limit r).
Definition set_AgentId (v : string) (r : SearchAgentRunsRequest) : SearchAgentRunsRequest := mk (Query r) v (ComputerId r) (Limit r).
Definition set_ComputerId (v : string) (r : SearchAgentRunsRequest) : SearchAgentRunsRequest := mk (Query r) (AgentId r) v (Limit r).
Definition set_Limit (v : Z) (r : SearchAgentRunsRequest) : SearchAgentRunsRequest := mk (Query r) (AgentId r) (ComputerId r) v.
End SearchAgentRunsRequest.

Module SearchAgentRunsResponse_Hit.
Record SearchAgentRunsResponse_Hit := mk {
  Run : option AgentRunSummary.AgentRunSummary;
  MatchingEvent : option AgentRunEvent.AgentRunEvent;
  Highlight : string
}.
Definition zero : SearchAgentRunsResponse_Hit := mk None None "".
Definition set_Run (v : option AgentRunSummary.AgentRunSummary) (r : SearchAgentRunsResponse_Hit) : SearchAgentRunsResponse_Hit := mk v (MatchingEvent r) (Highlight r).
Definition set_MatchingEvent (v : option AgentRunEvent.AgentRunEvent) (r : SearchAgentRunsResponse_Hit) : SearchAgentRunsResponse_Hit := mk (Run r) v (Highlight r).
Definition set_Highlight (v : string) (r : SearchAgentRunsResponse_Hit) : SearchAgentRunsResponse_Hit := mk (Run r) (MatchingEvent r) v.
End SearchAgentRunsResponse_Hit.

Module SearchAgentRunsResponse.
Record SearchAgentRunsResponse := mk {
  Hits : list SearchAgentRunsResponse_Hit.SearchAgentRunsResponse_Hit
}.
Definition zero : SearchAgentRunsResponse := mk [].
Definition set_Hits (v : list SearchAgentRunsResponse_Hit.SearchAgentRunsResponse_Hit) (r : SearchAgentRunsResponse) : SearchAgentRunsResponse := mk v.
End SearchAgentRunsResponse.

Module SearchMessagesRequest.
Record SearchMessagesRequest := mk {
  Query : string;
  Target : string;
  SenderHandle : string;
  Sender : option Actor.Actor;
  Sort : Z;
  Limit : Z;
  Cursor : option EventCursor.EventCursor
}.
Definition zero : SearchMessagesRequest := mk "" "" "" None 0%Z 0%Z None.
Definition set_Query (v : string) (r : SearchMessagesRequest) : SearchMessagesRequest := mk v (Target r) (SenderHandle r) (Sender r) (Sort r) (Limit r) (Cursor r).
Definition set_Target (v : string) (r : SearchMessagesRequest) : SearchMessagesRequest := mk (Query r) v (SenderHandle r) (Sender r) (Sort r) (Limit r) (Cursor r).
Definition set_SenderHandle (v : string) (r : SearchMessagesRequest) : SearchMessagesRequest := mk (Query r) (Target r) v (Sender r) (Sort r) (Limit r) (Cursor r).
Definition set_Sender (v : option Actor.Actor) (r : SearchMessagesRequest) : SearchMessagesRequest := mk (Query r) (Target r) (SenderHandle r) v (Sort r) (Limit r) (Cursor r).
Definition set_Sort (v : Z) (r : SearchMessagesRequest) : SearchMessagesRequest := mk (Query r) (Target r) (SenderHandle r) (Sender r) v (Limit r) (Cursor r).
Definition set_Limit (v : Z) (r : SearchMessagesRequest) : SearchMessagesRequest := mk (Query r) (Target r) (SenderHandle r) (Sender r) (Sort r) v (Cursor r).
Definition set_Cursor (v : option EventCursor.EventCursor) (r : SearchMessagesRequest) : SearchMessagesRequest := mk (Query r) (Target r) (SenderHandle r) (Sender r) (Sort r) (Limit r) v.
End SearchMessagesRequest.

Module SearchMessagesResponse.
Record SearchMessagesResponse := mk {
  Messages : list CollaborationMessage.CollaborationMessage;
  NextCursor : option EventCursor.EventCursor
}.
Definition zero : SearchMessagesResponse := mk [] None.
Definition set_Messages (v : list CollaborationMessage.CollaborationMessage) (r : SearchMessagesResponse) : SearchMessagesResponse := mk v (NextCursor r).
Definition set_NextCursor (v : option EventCursor.EventCursor) (r : SearchMessagesResponse) : SearchMessagesResponse := mk (Messages r) v.
End SearchMessagesResponse.

Module SendAgentDirectMessageRequest.
Record SendAgentDirectMessageRequest := mk {
  AgentId : string;
  Content : string;
  RequestId : string;
  AttachmentIds : list string;
  ReplyToMessageId : string;
  IdempotencyKey : string;
  Context : option RequestContext.RequestContext;
  Sender : option Actor.Actor
}.
Definition zero : SendAgentDirectMessageRequest := mk "" "" "" [] "" "" None None.
Definition set_AgentId (v : string) (r : SendAgentDirectMessageRequest) : SendAgentDirectMessageRequest := mk v (Content r) (RequestId r) (AttachmentIds r) (ReplyToMessageId r) (IdempotencyKey r) (Context r) (Sender r).
Definition set_Content (v : string) (r : SendAgentDirectMessageRequest) : SendAgentDirectMessageRequest := mk (AgentId r) v (RequestId r) (AttachmentIds r) (ReplyToMessageId r) (IdempotencyKey r) (Context r) (Sender r).
Definition set_RequestId (v : string) (r : SendAgentDirectMessageRequest) : SendAgentDirectMessageRequest := mk (AgentId r) (Content r) v (AttachmentIds r) (ReplyToMessageId r) (IdempotencyKey r) (Context r) (Sender r).
Definition set_AttachmentIds (v : list string) (r : SendAgentDirectMessageRequest) : SendAgentDirectMessageRequest := mk (AgentId r) (Content r) (RequestId r) v (ReplyToMessageId r) (IdempotencyKey r) (Context r) (Sender r).
Definition set_ReplyToMessageId (v : string) (r : SendAgentDirectMessageRequest) : SendAgentDirectMessageRequest := mk (AgentId r) (Content r) (RequestId r) (AttachmentIds r) v (IdempotencyKey r) (Context r) (Sender r).
Definition set_IdempotencyKey (v : string) (r : SendAgentDirectMessageRequest) : SendAgentDirectMessageRequest := mk (AgentId r) (Content r) (RequestId r) (AttachmentIds r) (ReplyToMessageId r) v (Context r) (Sender r).
Definition set_Context (v : option RequestContext.RequestContext) (r : SendAgentDirectMessageRequest) : SendAgentDirectMessageRequest := mk (AgentId r) (Content r) (RequestId r) (AttachmentIds r) (ReplyToMessageId r) (IdempotencyKey r) v (Sender r).
Definition set_Sender (v : option Actor.Actor) (r : SendAgentDirectMessageRequest) : SendAgentDirectMessageRequest := mk (AgentId r) (Content r) (RequestId r) (AttachmentIds r) (ReplyToMessageId r) (IdempotencyKey r) (Context r) v.
End SendAgentDirectMessageRequest.

Module SendAgentDirectMessageResponse.
Record SendAgentDirectMessageResponse := mk {
  Accepted : bool;
  Message : option CollaborationMessage.CollaborationMessage
}.
Definition zero : SendAgentDirectMessageResponse := mk false None.
Definition set_Accepted (v : bool) (r : SendAgentDirectMessageResponse) : SendAgentDirectMessageResponse := mk v (Message r).
Definition set_Message (v : option CollaborationMessage.CollaborationMessage) (r : SendAgentDirectMessageResponse) : SendAgentDirectMessageResponse := mk (Accepted r) v.
End SendAgentDirectMessageResponse.

Module SendMessageRequest.
Record SendMessageRequest := mk {
  Target : string;
  Role : string;
  Content : string;
  ReplyToMessageId : string;
  EmitOutbound : bool;
  RequestId : string;
  AttachmentIds : list string;
  SourceEndpointId : string;
  MetadataJson : string;
  CoordinationRecordId : string;
  MemoryRecordId : string;
  IdempotencyKey : string;
  Context : option RequestContext.RequestContext;
  OutboundPolicy : Z;
  Sender : option Actor.Actor;
  Kind : Z
}.
Definition zero : SendMessageRequest := mk "" "" "" "" false "" [] "" "" "" "" "" None 0%Z None 0%Z.
Definition set_Target (v : string) (r : SendMessageRequest) : SendMessageRequest := mk v (Role r) (Content r) (ReplyToMessageId r) (EmitOutbound r) (RequestId r) (AttachmentIds r) (SourceEndpointId r) (MetadataJson r) (CoordinationRecordId r) (MemoryRecordId r) (IdempotencyKey r) (Context r) (OutboundPolicy r) (Sender r) (Kind r).
Definition set_Role (v : string) (r : SendMessageRequest) : SendMessageRequest := mk (Target r) v (Content r) (ReplyToMessageId r) (EmitOutbound r) (RequestId r) (AttachmentIds r) (SourceEndpointId r) (MetadataJson r) (CoordinationRecordId r) (MemoryRecordId r) (IdempotencyKey r) (Context r) (OutboundPolicy r) (Sender r) (Kind r).
Definition set_Content (v : string) (r : SendMessageRequest) : SendMessageRequest := mk (Target r) (Role r) v (ReplyToMessageId r) (EmitOutbound r) (RequestId r) (AttachmentIds r) (SourceEndpointId r) (MetadataJson r) (CoordinationRecordId r) (MemoryRecordId r) (IdempotencyKey r) (Context r) (OutboundPolicy r) (Sender r) (Kind r).
Definition set_ReplyToMessageId (v : string) (r : SendMessageRequest) : SendMessageRequest := mk (Target r) (Role r) (Content r) v (EmitOutbound r) (RequestId r) (AttachmentIds r) (SourceEndpointId r) (MetadataJson r) (CoordinationRecordId r) (MemoryRecordId r) (IdempotencyKey r) (Context r) (OutboundPolicy r) (Sender r) (Kind r).
Definition set_EmitOutbound (v : bool) (r : SendMessageRequest) : SendMessageRequest := mk (Target r) (Role r) (Content r) (ReplyToMessageId r) v (RequestId r) (AttachmentIds r) (SourceEndpointId r) (MetadataJson r) (CoordinationRecordId r) (MemoryRecordId r) (IdempotencyKey r) (Context r) (OutboundPolicy r) (Sender r) (Kind r).
Definition set_RequestId (v : string) (r : SendMessageRequest) : SendMessageRequest := mk (Target r) (Role r) (Content r) (ReplyToMessageId r) (EmitOutbound r) v (AttachmentIds r) (SourceEndpointId r) (MetadataJson r) (CoordinationRecordId r) (MemoryRecordId r) (IdempotencyKey r) (Context r) (OutboundPolicy r) (Sender r) (Kind r).
Definition set_AttachmentIds (v : list string) (r : SendMessageRequest) : SendMessageRequest := mk (Target r) (Role r) (Content r) (ReplyToMessageId r) (EmitOutbound r) (RequestId r) v (SourceEndpointId r) (MetadataJson r) (CoordinationRecordId r) (MemoryRecordId r) (IdempotencyKey r) (Context r) (OutboundPolicy r) (Sender r) (Kind r).
Definition set_SourceEndpointId (v : string) (r : SendMessageRequest) : SendMessageRequest := mk (Target r) (Role r) (Content r) (ReplyToMessageId r) (EmitOutbound r) (RequestId r) (AttachmentIds r) v (MetadataJson r) (CoordinationRecordId r) (MemoryRecordId r) (IdempotencyKey r) (Context r) (OutboundPolicy r) (Sender r) (Kind r).
Definition set_MetadataJson (v : string) (r : SendMessageRequest) : SendMessageRequest := mk (Target r) (Role r) (Content r) (ReplyToMessageId r) (EmitOutbound r) (RequestId r) (AttachmentIds r) (SourceEndpointId r) v (CoordinationRecordId r) (MemoryRecordId r) (IdempotencyKey r) (Context r) (OutboundPolicy r) (Sender r) (Kind r).
Definition set_CoordinationRecordId (v : string) (r : SendMessageRequest) : SendMessageRequest := mk (Target r) (Role r) (Content r) (ReplyToMessageId r) (EmitOutbound r) (RequestId r) (AttachmentIds r) (SourceEndpointId r) (MetadataJson r) v (MemoryRecordId r) (IdempotencyKey r) (Context r) (OutboundPolicy r) (Sender r) (Kind r).
Definition set_MemoryRecordId (v : string) (r : SendMessageRequest) : SendMessageRequest := mk (Target r) (Role r) (Content r) (ReplyToMessageId r) (EmitOutbound r) (RequestId r) (AttachmentIds r) (SourceEndpointId r) (MetadataJson r) (CoordinationRecordId r) v (IdempotencyKey r) (Context r) (OutboundPolicy r) (Sender r) (Kind r).
Definition set_IdempotencyKey (v : string) (r : SendMessageRequest) : SendMessageRequest := mk (Target r) (Role r) (Content r) (ReplyToMessageId r) (EmitOutbound r) (RequestId r) (AttachmentIds r) (SourceEndpointId r) (MetadataJson r) (CoordinationRecordId r) (MemoryRecordId r) v (Context r) (OutboundPolicy r) (Sender r) (Kind r).
Definition set_Context (v : option RequestContext.RequestContext) (r : SendMessageRequest) : SendMessageRequest := mk (Target r) (Role r) (Content r) (ReplyToMessageId r) (EmitOutbound r) (RequestId r) (AttachmentIds r) (SourceEndpointId r) (MetadataJson r) (CoordinationRecordId r) (MemoryRecordId r) (IdempotencyKey r) v (OutboundPolicy r) (Sender r) (Kind r).
Definition set_OutboundPolicy (v : Z) (r : SendMessageRequest) : SendMessageRequest := mk (Target r) (Role r) (Content r) (ReplyToMessageId r) (EmitOutbound r) (RequestId r) (AttachmentIds r) (SourceEndpointId r) (MetadataJson r) (CoordinationRecordId r) (MemoryRecordId r) (IdempotencyKey r) (Context r) v (Sender r) (Kind r).
Definition set_Sender (v : option Actor.Actor) (r : SendMessageRequest) : SendMessageRequest := mk (Target r) (Role r) (Content r) (ReplyToMessageId r) (EmitOutbound r) (RequestId r) (AttachmentIds r) (SourceEndpointId r) (MetadataJson r) (CoordinationRecordId r) (MemoryRecordId r) (IdempotencyKey r) (Context r) (OutboundPolicy r) v (Kind r).
Definition set_Kind (v : Z) (r : SendMessageRequest) : SendMessageRequest := mk (Target r) (Role r) (Content r) (ReplyToMessageId r) (EmitOutbound r) (RequestId r) (AttachmentIds r) (SourceEndpointId r) (MetadataJson r) (CoordinationRecordId r) (MemoryRecordId r) (IdempotencyKey r) (Context r) (OutboundPolicy r) (Sender r) v.
End SendMessageRequest.

Module SendMessageResponse.
Record SendMessageResponse := mk {
  Accepted : bool;
  Message : option CollaborationMessage.CollaborationMessage
}.
Definition zero : SendMessageResponse := mk false None.
Definition set_Accepted (v : bool) (r : SendMessageResponse) : SendMessageResponse := mk v (Message r).
Definition set_Message (v : option CollaborationMessage.CollaborationMessage) (r : SendMessageResponse) : SendMessageResponse := mk (Accepted r) v.
End SendMessageResponse.

Module ServerPing.
Record ServerPing := mk {
  ServerTimeUnix : Z;
  TimeoutSeconds : Z
}.
Definition zero : ServerPing := mk 0%Z 0%Z.
Definition set_ServerTimeUnix (v : Z) (r : ServerPing) : ServerPing := mk v (TimeoutSeconds r).
Definition set_TimeoutSeconds (v : Z) (r : ServerPing) : ServerPing := mk (ServerTimeUnix r) v.
End ServerPing.

Inductive ServerEvent_Payload :=
| ServerEvent_Run (run : Run.Run)
| ServerEvent_AgentControl (agentControl : AgentControlOperation.AgentControlOperation)
| ServerEvent_Message (message : CollaborationMessage.CollaborationMessage)
| ServerEvent_Task (task : Task.Task)
| ServerEvent_Reminder (reminder : ReminderRecord.ReminderRecord)
| ServerEvent_Activity (activity : ActivityRecord.ActivityRecord)
| ServerEvent_OutboundDelivery (outboundDelivery : OutboundDeliveryRecord.OutboundDeliveryRecord)
| ServerEvent_Ping (ping : ServerPing.ServerPing).

Module ServerEvent.
Record ServerEvent := mk {
  EventId : string;
  Sequence : Z;
  AggregateId : string;
  Target : string;
  Kind : Z;
  CreatedTimeUnix : Z;
  ProtocolVersion : Z;
  RequestId : string;
  Operation : Z;
  Scope : option EventScope.EventScope;
  WorkspaceId : string;
  Payload : option ServerEvent_Payload
}.
Definition zero : ServerEvent := mk "" 0%Z "" "" 0%Z 0%Z 0%Z "" 0%Z None "" None.
Definition set_EventId (v : string) (r : ServerEvent) : ServerEvent := mk v (Sequence r) (AggregateId r) (Target r) (Kind r) (CreatedTimeUnix r) (ProtocolVersion r) (RequestId r) (Operation r) (Scope r) (WorkspaceId r) (Payload r).
Definition set_Sequence (v : Z) (r : ServerEvent) : ServerEvent := mk (EventId r) v (AggregateId r) (Target r) (Kind r) (CreatedTimeUnix r) (ProtocolVersion r) (RequestId r) (Operation r) (Scope r) (WorkspaceId r) (Payload r).
Definition set_AggregateId (v : string) (r : ServerEvent) : ServerEvent := mk (EventId r) (Sequence r) v (Target r) (Kind r) (CreatedTimeUnix r) (ProtocolVersion r) (RequestId r) (Operation r) (Scope r) (WorkspaceId r) (Payload r).
Definition set_Target (v : string) (r : ServerEvent) : ServerEvent := mk (EventId r) (Sequence r) (AggregateId r) v (Kind r) (CreatedTimeUnix r) (ProtocolVersion r) (RequestId r) (Operation r) (Scope r) (WorkspaceId r) (Payload r).
Definition set_Kind (v : Z) (r : ServerEvent) : ServerEvent := mk (EventId r) (Sequence r) (AggregateId r) (Target r) v (CreatedTimeUnix r) (ProtocolVersion r) (RequestId r) (Operation r) (Scope r) (WorkspaceId r) (Payload r).
Definition set_CreatedTimeUnix (v : Z) (r : ServerEvent) : ServerEvent := mk (EventId r) (Sequence r) (AggregateId r) (Target r) (Kind r) v (ProtocolVersion r) (RequestId r) (Operation r) (Scope r) (WorkspaceId r) (Payload r).
Definition set_ProtocolVersion (v : Z) (r : ServerEvent) : ServerEvent := mk (EventId r) (Sequence r) (AggregateId r) (Target r) (Kind r) (CreatedTimeUnix r) v (RequestId r) (Operation r) (Scope r) (WorkspaceId r) (Payload r).
Definition set_RequestId (v : string) (r : ServerEvent) : ServerEvent := mk (EventId r) (Sequence r) (AggregateId r) (Target r) (Kind r) (CreatedTimeUnix r) (ProtocolVersion r) v (Operation r) (Scope r) (WorkspaceId r) (Payload r).
Definition set_Operation (v : Z) (r : ServerEvent) : ServerEvent := mk (EventId r) (Sequence r) (AggregateId r) (Target r) (Kind r) (CreatedTimeUnix r) (ProtocolVersion r) (RequestId r) v (Scope r) (WorkspaceId r) (Payload r).
Definition set_Scope (v : option EventScope.EventScope) (r : ServerEvent) : ServerEvent := mk (EventId r) (Sequence r) (AggregateId r) (Target r) (Kind r) (CreatedTimeUnix r) (ProtocolVersion r) (RequestId r) (Operation r) v (WorkspaceId r) (Payload r).
Definition set_WorkspaceId (v : string) (r : ServerEvent) : ServerEvent := mk (EventId r) (Sequence r) (AggregateId r) (Target r) (Kind r) (CreatedTimeUnix r) (ProtocolVersion r) (RequestId r) (Operation r) (Scope r) v (Payload r).
Definition set_Payload (v : option ServerEvent_Payload) (r : ServerEvent) : ServerEvent := mk (EventId r) (Sequence r) (AggregateId r) (Target r) (Kind r) (CreatedTimeUnix r) (ProtocolVersion r) (RequestId r) (Operation r) (Scope r) (WorkspaceId r) v.
End ServerEvent.

Module SnoozeReminderRequest.
Record SnoozeReminderRequest := mk {
  ReminderId : string;
  DelaySeconds : Z;
  RequestId : string;
  IdempotencyKey : string;
  Context : option RequestContext.RequestContext
}.
Definition zero : SnoozeReminderRequest := mk "" 0%Z "" "" None.
Definition set_ReminderId (v : string) (r : SnoozeReminderRequest) : SnoozeReminderRequest := mk v (DelaySeconds r) (RequestId r) (IdempotencyKey r) (Context r).
Definition set_DelaySeconds (v : Z) (r : SnoozeReminderRequest) : SnoozeReminderRequest := mk (ReminderId r) v (RequestId r) (IdempotencyKey r) (Context r).
Definition set_RequestId (v : string) (r : SnoozeReminderRequest) : SnoozeReminderRequest := mk (ReminderId r) (DelaySeconds r) v (IdempotencyKey r) (Context r).
Definition set_IdempotencyKey (v : string) (r : SnoozeReminderRequest) : SnoozeReminderRequest := mk (ReminderId r) (DelaySeconds r) (RequestId r) v (Context r).
Definition set_Context (v : option RequestContext.RequestContext) (r : SnoozeReminderRequest) : SnoozeReminderRequest := mk (ReminderId r) (DelaySeconds r) (RequestId r) (IdempotencyKey r) v.
End SnoozeReminderRequest.

Module SnoozeReminderResponse.
Record SnoozeReminderResponse := mk {
  Reminder : option ReminderRecord.ReminderRecord
}.
Definition zero : SnoozeReminderResponse := mk None.
Definition set_Reminder (v : option ReminderRecord.ReminderRecord) (r : SnoozeReminderResponse) : SnoozeReminderResponse := mk v.
End SnoozeReminderResponse.

Module SubscribeServerEventsRequest.
Record SubscribeServerEventsRequest := mk {
  DaemonId : string;
  ComputerId : string;
  AgentIds : list string;
  Cursor : option EventCursor.EventCursor;
  Targets : list string;
  RequestId : string;
  LeaseId : string;
  IncludeAllAgents : bool;
  IncludeAllTargets : bool;
  IdempotencyKey : string;
  Scopes : list EventScope.EventScope;
  Kinds : list Z;
  Operations : list Z;
  IncludeAllScopes : bool
}.
Definition zero : SubscribeServerEventsRequest := mk "" "" [] None [] "" "" false false "" [] [] [] false.
Definition set_DaemonId (v : string) (r : SubscribeServerEventsRequest) : SubscribeServerEventsRequest := mk v (ComputerId r) (AgentIds r) (Cursor r) (Targets r) (RequestId r) (LeaseId r) (IncludeAllAgents r) (IncludeAllTargets r) (IdempotencyKey r) (Scopes r) (Kinds r) (Operations r) (IncludeAllScopes r).
Definition set_ComputerId (v : string) (r : SubscribeServerEventsRequest) : SubscribeServerEventsRequest := mk (DaemonId r) v (AgentIds r) (Cursor r) (Targets r) (RequestId r) (LeaseId r) (IncludeAllAgents r) (IncludeAllTargets r) (IdempotencyKey r) (Scopes r) (Kinds r) (Operations r) (IncludeAllScopes r).
Definition set_AgentIds (v : list string) (r : SubscribeServerEventsRequest) : SubscribeServerEventsRequest := mk (DaemonId r) (ComputerId r) v (Cursor r) (Targets r) (RequestId r) (LeaseId r) (IncludeAllAgents r) (IncludeAllTargets r) (IdempotencyKey r) (Scopes r) (Kinds r) (Operations r) (IncludeAllScopes r).
Definition set_Cursor (v : option EventCursor.EventCursor) (r : SubscribeServerEventsRequest) : SubscribeServerEventsRequest := mk (DaemonId r) (ComputerId r) (AgentIds r) v (Targets r) (RequestId r) (LeaseId r) (IncludeAllAgents r) (IncludeAllTargets r) (IdempotencyKey r) (Scopes r) (Kinds r) (Operations r) (IncludeAllScopes r).
Definition set_Targets (v : list string) (r : SubscribeServerEventsRequest) : SubscribeServerEventsRequest := mk (DaemonId r) (ComputerId r) (AgentIds r) (Cursor r) v (RequestId r) (LeaseId r) (IncludeAllAgents r) (IncludeAllTargets r) (IdempotencyKey r) (Scopes r) (Kinds r) (Operations r) (IncludeAllScopes r).
Definition set_RequestId (v : string) (r : SubscribeServerEventsRequest) : SubscribeServerEventsRequest := mk (DaemonId r) (ComputerId r) (AgentIds r) (Cursor r) (Targets r) v (LeaseId r) (IncludeAllAgents r) (IncludeAllTargets r) (IdempotencyKey r) (Scopes r) (Kinds r) (Operations r) (IncludeAllScopes r).
Definition set_LeaseId (v : string) (r : SubscribeServerEventsRequest) : SubscribeServerEventsRequest := mk (DaemonId r) (ComputerId r) (AgentIds r) (Cursor r) (Targets r) (RequestId r) v (IncludeAllAgents r) (IncludeAllTargets r) (IdempotencyKey r) (Scopes r) (Kinds r) (Operations r) (IncludeAllScopes r).
Definition set_IncludeAllAgents (v : bool) (r : SubscribeServerEventsRequest) : SubscribeServerEventsRequest := mk (DaemonId r) (ComputerId r) (AgentIds r) (Cursor r) (Targets r) (RequestId r) (LeaseId r) v (IncludeAllTargets r) (IdempotencyKey r) (Scopes r) (Kinds r) (Operations r) (IncludeAllScopes r).
Definition set_IncludeAllTargets (v : bool) (r : SubscribeServerEventsRequest) : SubscribeServerEventsRequest := mk (DaemonId r) (ComputerId r) (AgentIds r) (Cursor r) (Targets r) (RequestId r) (LeaseId r) (IncludeAllAgents r) v (IdempotencyKey r) (Scopes r) (Kinds r) (Operations r) (IncludeAllScopes r).
Definition set_IdempotencyKey (v : string) (r : SubscribeServerEventsRequest) : SubscribeServerEventsRequest := mk (DaemonId r) (ComputerId r) (AgentIds r) (Cursor r) (Targets r) (RequestId r) (LeaseId r) (IncludeAllAgents r) (IncludeAllTargets r) v (Scopes r) (Kinds r) (Operations r) (IncludeAllScopes r).
Definition set_Scopes (v : list EventScope.EventScope) (r : SubscribeServerEventsRequest) : SubscribeServerEventsRequest := mk (DaemonId r) (ComputerId r) (AgentIds r) (Cursor r) (Targets r) (RequestId r) (LeaseId r) (IncludeAllAgents r) (IncludeAllTargets r) (IdempotencyKey r) v (Kinds r) (Operations r) (IncludeAllScopes r).
Definition set_Kinds (v : list Z) (r : SubscribeServerEventsRequest) : SubscribeServerEventsRequest := mk (DaemonId r) (ComputerId r) (AgentIds r) (Cursor r) (Targets r) (RequestId r) (LeaseId r) (IncludeAllAgents r) (IncludeAllTargets r) (IdempotencyKey r) (Scopes r) v (Operations r) (IncludeAllScopes r).
Definition set_Operations (v : list Z) (r : SubscribeServerEventsRequest) : SubscribeServerEventsRequest := mk (DaemonId r) (ComputerId r) (AgentIds r) (Cursor r) (Targets r) (RequestId r) (LeaseId r) (IncludeAllAgents r) (IncludeAllTargets r) (IdempotencyKey r) (Scopes r) (Kinds r) v (IncludeAllScopes r).
Definition set_IncludeAllScopes (v : bool) (r : SubscribeServerEventsRequest) : SubscribeServerEventsRequest := mk (DaemonId r) (ComputerId r) (AgentIds r) (Cursor r) (Targets r) (RequestId r) (LeaseId r) (IncludeAllAgents r) (IncludeAllTargets r) (IdempotencyKey r) (Scopes r) (Kinds r) (Operations r) v.
End SubscribeServerEventsRequest.

Module SubscribeServerEventsResponse.
Record SubscribeServerEventsResponse := mk {
  Event : option ServerEvent.ServerEvent
}.
Definition zero : SubscribeServerEventsResponse := mk None.
Definition set_Event (v : option ServerEvent.ServerEvent) (r : SubscribeServerEventsResponse) : SubscribeServerEventsResponse := mk v.
End SubscribeServerEventsResponse.

Module SyncComputerInventoryRequest.
Record SyncComputerInventoryRequest := mk {
  Info : option ComputerInfo.ComputerInfo;
  Inventory : option ComputerInventory.ComputerInventory;
  InventoryVersion : string;
  RequestId : string;
  IdempotencyKey : string;
  Context : option RequestContext.RequestContext
}.
Definition zero : SyncComputerInventoryRequest := mk None None "" "" "" None.
Definition set_Info (v : option ComputerInfo.ComputerInfo) (r : SyncComputerInventoryRequest) : SyncComputerInventoryRequest := mk v (Inventory r) (InventoryVersion r) (RequestId r) (IdempotencyKey r) (Context r).
Definition set_Inventory (v : option ComputerInventory.ComputerInventory) (r : SyncComputerInventoryRequest) : SyncComputerInventoryRequest := mk (Info r) v (InventoryVersion r) (RequestId r) (IdempotencyKey r) (Context r).
Definition set_InventoryVersion (v : string) (r : SyncComputerInventoryRequest) : SyncComputerInventoryRequest := mk (Info r) (Inventory r) v (RequestId r) (IdempotencyKey r) (Context r).
Definition set_RequestId (v : string) (r : SyncComputerInventoryRequest) : SyncComputerInventoryRequest := mk (Info r) (Inventory r) (InventoryVersion r) v (IdempotencyKey r) (Context r).
Definition set_IdempotencyKey (v : string) (r : SyncComputerInventoryRequest) : SyncComputerInventoryRequest := mk (Info r) (Inventory r) (InventoryVersion r) (RequestId r) v (Context r).
Definition set_Context (v : option RequestContext.RequestContext) (r : SyncComputerInventoryRequest) : SyncComputerInventoryRequest := mk (Info r) (Inventory r) (InventoryVersion r) (RequestId r) (IdempotencyKey r) v.
End SyncComputerInventoryRequest.

Module SyncComputerInventoryResponse.
Record SyncComputerInventoryResponse := mk {
  Accepted : bool;
  InventoryVersion : string;
  ServerTimeUnix : Z
}.
Definition zero : SyncComputerInventoryResponse := mk false "" 0%Z.
Definition set_Accepted (v : bool) (r : SyncComputerInventoryResponse) : SyncComputerInventoryResponse := mk v (InventoryVersion r) (ServerTimeUnix r).
Definition set_InventoryVersion (v : string) (r : SyncComputerInventoryResponse) : SyncComputerInventoryResponse := mk (Accepted r) v (ServerTimeUnix r).
Definition set_ServerTimeUnix (v : Z) (r : SyncComputerInventoryResponse) : SyncComputerInventoryResponse := mk (Accepted r) (InventoryVersion r) v.
End SyncComputerInventoryResponse.

Module UnsaveMessageRequest.
Record UnsaveMessageRequest := mk {
  Target : string;
  MessageId : string;
  SavedByAgentId : string;
  SavedByUserId : string;
  RequestId : string;
  IdempotencyKey : string;
  Context : option RequestContext.RequestContext
}.
Definition zero : UnsaveMessageRequest := mk "" "" "" "" "" "" None.
Definition set_Target (v : string) (r : UnsaveMessageRequest) : UnsaveMessageRequest := mk v (MessageId r) (SavedByAgentId r) (SavedByUserId r) (RequestId r) (IdempotencyKey r) (Context r).
Definition set_MessageId (v : string) (r : UnsaveMessageRequest) : UnsaveMessageRequest := mk (Target r) v (SavedByAgentId r) (SavedByUserId r) (RequestId r) (IdempotencyKey r) (Context r).
Definition set_SavedByAgentId (v : string) (r : UnsaveMessageRequest) : UnsaveMessageRequest := mk (Target r) (MessageId r) v (SavedByUserId r) (RequestId r) (IdempotencyKey r) (Context r).
Definition set_SavedByUserId (v : string) (r : UnsaveMessageRequest) : UnsaveMessageRequest := mk (Target r) (MessageId r) (SavedByAgentId r) v (RequestId r) (IdempotencyKey r) (Context r).
Definition set_RequestId (v : string) (r : UnsaveMessageRequest) : UnsaveMessageRequest := mk (Target r) (MessageId r) (SavedByAgentId r) (SavedByUserId r) v (IdempotencyKey r) (Context r).
Definition set_IdempotencyKey (v : string) (r : UnsaveMessageRequest) : UnsaveMessageRequest := mk (Target r) (MessageId r) (SavedByAgentId r) (SavedByUserId r) (RequestId r) v (Context r).
Definition set_Context (v : option RequestContext.RequestContext) (r : UnsaveMessageRequest) : UnsaveMessageRequest := mk (Target r) (MessageId r) (SavedByAgentId r) (SavedByUserId r) (RequestId r) (IdempotencyKey r) v.
End UnsaveMessageRequest.

Module UnsaveMessageResponse.
Record UnsaveMessageResponse := mk {
  Removed : bool;
  SavedMessage : option SavedMessageRecord.SavedMessageRecord
}.
Definition zero : UnsaveMessageResponse := mk false None.
Definition set_Removed (v : bool) (r : UnsaveMessageResponse) : UnsaveMessageResponse := mk v (SavedMessage r).
Definition set_SavedMessage (v : option SavedMessageRecord.SavedMessageRecord) (r : UnsaveMessageResponse) : UnsaveMessageResponse := mk (Removed r) v.
End UnsaveMessageResponse.

Module UpdateAgentStatusRequest.
Record UpdateAgentStatusRequest := mk {
  Status : option AgentStatusSnapshot.AgentStatusSnapshot;
  RequestId : string;
  IdempotencyKey : string;
  Context : option RequestContext.RequestContext
}.
Definition zero : UpdateAgentStatusRequest := mk None "" "" None.
Definition set_Status (v : option AgentStatusSnapshot.AgentStatusSnapshot) (r : UpdateAgentStatusRequest) : UpdateAgentStatusRequest := mk v (RequestId r) (IdempotencyKey r) (Context r).
Definition set_RequestId (v : string) (r : UpdateAgentStatusRequest) : UpdateAgentStatusRequest := mk (Status r) v (IdempotencyKey r) (Context r).
Definition set_IdempotencyKey (v : string) (r : UpdateAgentStatusRequest) : UpdateAgentStatusRequest := mk (Status r) (RequestId r) v (Context r).
Definition set_Context (v : option RequestContext.RequestContext) (r : UpdateAgentStatusRequest) : UpdateAgentStatusRequest := mk (Status r) (RequestId r) (IdempotencyKey r) v.
End UpdateAgentStatusRequest.

Module UpdateAgentStatusResponse.
Record UpdateAgentStatusResponse := mk {
  Status : option AgentStatusSnapshot.AgentStatusSnapshot
}.
Definition zero : UpdateAgentStatusResponse := mk None.
Definition set_Status (v : option AgentStatusSnapshot.AgentStatusSnapshot) (r : UpdateAgentStatusResponse) : UpdateAgentStatusResponse := mk v.
End UpdateAgentStatusResponse.

Inductive UpdateReminderRequest_ScheduleUpdate :=
| UpdateReminderRequest_FireAt (fireAt : string)
| UpdateReminderRequest_DelaySeconds (delaySeconds : Z)
| UpdateReminderRequest_Recurring (recurring : ReminderSchedule.ReminderSchedule).

Module UpdateReminderRequest.
Record UpdateReminderRequest := mk {
  ReminderId : string;
  Title : option string;
  ScheduleUpdate : option UpdateReminderRequest_ScheduleUpdate;
  Timezone : option string;
  RequestId : string;
  IdempotencyKey : string;
  Context : option RequestContext.RequestContext
}.
Definition zero : UpdateReminderRequest := mk "" None None None "" "" None.
Definition set_ReminderId (v : string) (r : UpdateReminderRequest) : UpdateReminderRequest := mk v (Title r) (ScheduleUpdate r) (Timezone r) (RequestId r) (IdempotencyKey r) (Context r).
Definition set_Title (v : option string) (r : UpdateReminderRequest) : UpdateReminderRequest := mk (ReminderId r) v (ScheduleUpdate r) (Timezone r) (RequestId r) (IdempotencyKey r) (Context r).
Definition set_ScheduleUpdate (v : option UpdateReminderRequest_ScheduleUpdate) (r : UpdateReminderRequest) : UpdateReminderRequest := mk (ReminderId r) (Title r) v (Timezone r) (RequestId r) (IdempotencyKey r) (Context r).
Definition set_Timezone (v : option string) (r : UpdateReminderRequest) : UpdateReminderRequest := mk (ReminderId r) (Title r) (ScheduleUpdate r) v (RequestId r) (IdempotencyKey r) (Context r).
Definition set_RequestId (v : string) (r : UpdateReminderRequest) : UpdateReminderRequest := mk (ReminderId r) (Title r) (ScheduleUpdate r) (Timezone r) v (IdempotencyKey r) (Context r).
Definition set_IdempotencyKey (v : string) (r : UpdateReminderRequest) : UpdateReminderRequest := mk (ReminderId r) (Title r) (ScheduleUpdate r) (Timezone r) (RequestId r) v (Context r).
Definition set_Context (v : option RequestContext.RequestContext) (r : UpdateReminderRequest) : UpdateReminderRequest := mk (ReminderId r) (Title r) (ScheduleUpdate r) (Timezone r) (RequestId r) (IdempotencyKey r) v.
End UpdateReminderRequest.

Module UpdateReminderResponse.
Record UpdateReminderResponse := mk {
  Reminder : option ReminderRecord.ReminderRecord
}.
Definition zero : UpdateReminderResponse := mk None.
Definition set_Reminder (v : option ReminderRecord.ReminderRecord) (r : UpdateReminderResponse) : UpdateReminderResponse := mk v.
End UpdateReminderResponse.

Module UpdateRunStatusRequest.
Record UpdateRunStatusRequest := mk {
  RunId : string;
  AgentId : string;
  State : Z;
  Summary : string;
  Error : string;
  BlockedReason : string;
  ResultMessage : string;
  RequestId : string;
  IdempotencyKey : string;
  Context : option RequestContext.RequestContext;
  LeaseId : string;
  ResultJson : string;
  ResultDigest : string;
  ResultSignature : string;
  SignaturePublicKey : string
}.
Definition zero : UpdateRunStatusRequest := mk "" "" 0%Z "" "" "" "" "" "" None "" "" "" "" "".
Definition set_RunId (v : string) (r : UpdateRunStatusRequest) : UpdateRunStatusRequest := mk v (AgentId r) (State r) (Summary r) (Error r) (BlockedReason r) (ResultMessage r) (RequestId r) (IdempotencyKey r) (Context r) (LeaseId r) (ResultJson r) (ResultDigest r) (ResultSignature r) (SignaturePublicKey r).
Definition set_AgentId (v : string) (r : UpdateRunStatusRequest) : UpdateRunStatusRequest := mk (RunId r) v (State r) (Summary r) (Error r) (BlockedReason r) (ResultMessage r) (RequestId r) (IdempotencyKey r) (Context r) (LeaseId r) (ResultJson r) (ResultDigest r) (ResultSignature r) (SignaturePublicKey r).
Definition set_State (v : Z) (r : UpdateRunStatusRequest) : UpdateRunStatusRequest := mk (RunId r) (AgentId r) v (Summary r) (Error r) (BlockedReason r) (ResultMessage r) (RequestId r) (IdempotencyKey r) (Context r) (LeaseId r) (ResultJson r) (ResultDigest r) (ResultSignature r) (SignaturePublicKey r).
Definition set_Summary (v : string) (r : UpdateRunStatusRequest) : UpdateRunStatusRequest := mk (RunId r) (AgentId r) (State r) v (Error r) (BlockedReason r) (ResultMessage r) (RequestId r) (IdempotencyKey r) (Context r) (LeaseId r) (ResultJson r) (ResultDigest r) (ResultSignature r) (SignaturePublicKey r).
Definition set_Error (v : string) (r : UpdateRunStatusRequest) : UpdateRunStatusRequest := mk (RunId r) (AgentId r) (State r) (Summary r) v (BlockedReason r) (ResultMessage r) (RequestId r) (IdempotencyKey r) (Context r) (LeaseId r) (ResultJson r) (ResultDigest r) (ResultSignature r) (SignaturePublicKey r).
Definition set_BlockedReason (v : string) (r : UpdateRunStatusRequest) : UpdateRunStatusRequest := mk (RunId r) (AgentId r) (State r) (Summary r) (Error r) v (ResultMessage r) (RequestId r) (IdempotencyKey r) (Context r) (LeaseId r) (ResultJson r) (ResultDigest r) (ResultSignature r) (SignaturePublicKey r).
Definition set_ResultMessage (v : string) (r : UpdateRunStatusRequest) : UpdateRunStatusRequest := mk (RunId r) (AgentId r) (State r) (Summary r) (Error r) (BlockedReason r) v (RequestId r) (IdempotencyKey r) (Context r) (LeaseId r) (ResultJson r) (ResultDigest r) (ResultSignature r) (SignaturePublicKey r).
Definition set_RequestId (v : string) (r : UpdateRunStatusRequest) : UpdateRunStatusRequest := mk (RunId r) (AgentId r) (State r) (Summary r) (Error r) (BlockedReason r) (ResultMessage r) v (IdempotencyKey r) (Context r) (LeaseId r) (ResultJson r) (ResultDigest r) (ResultSignature r) (SignaturePublicKey r).
Definition set_IdempotencyKey (v : string) (r : UpdateRunStatusRequest) : UpdateRunStatusRequest := mk (RunId r) (AgentId r) (State r) (Summary r) (Error r) (BlockedReason r) (ResultMessage r) (RequestId r) v (Context r) (LeaseId r) (ResultJson r) (ResultDigest r) (ResultSignature r) (SignaturePublicKey r).
Definition set_Context (v : option RequestContext.RequestContext) (r : UpdateRunStatusRequest) : UpdateRunStatusRequest := mk (RunId r) (AgentId r) (State r) (Summary r) (Error r) (BlockedReason r) (ResultMessage r) (RequestId r) (IdempotencyKey r) v (LeaseId r) (ResultJson r) (ResultDigest r) (ResultSignature r) (SignaturePublicKey r).
Definition set_LeaseId (v : string) (r : UpdateRunStatusRequest) : UpdateRunStatusRequest := mk (RunId r) (AgentId r) (State r) (Summary r) (Error r) (BlockedReason r) (ResultMessage r) (RequestId r) (IdempotencyKey r) (Context r) v (ResultJson r) (ResultDigest r) (ResultSignature r) (SignaturePublicKey r).
Definition set_ResultJson (v : string) (r : UpdateRunStatusRequest) : UpdateRunStatusRequest := mk (RunId r) (AgentId r) (State r) (Summary r) (Error r) (BlockedReason r) (ResultMessage r) (RequestId r) (IdempotencyKey r) (Context r) (LeaseId r) v (ResultDigest r) (ResultSignature r) (SignaturePublicKey r).
Definition set_ResultDigest (v : string) (r : UpdateRunStatusRequest) : UpdateRunStatusRequest := mk (RunId r) (AgentId r) (State r) (Summary r) (Error r) (BlockedReason r) (ResultMessage r) (RequestId r) (IdempotencyKey r) (Context r) (LeaseId r) (ResultJson r) v (ResultSignature r) (SignaturePublicKey r).
Definition set_ResultSignature (v : string) (r : UpdateRunStatusRequest) : UpdateRunStatusRequest := mk (RunId r) (AgentId r) (State r) (Summary r) (Error r) (BlockedReason r) (ResultMessage r) (RequestId r) (IdempotencyKey r) (Context r) (LeaseId r) (ResultJson r) (ResultDigest r) v (SignaturePublicKey r).
Definition set_SignaturePublicKey (v : string) (r : UpdateRunStatusRequest) : UpdateRunStatusRequest := mk (RunId r) (AgentId r) (State r) (Summary r) (Error r) (BlockedReason r) (ResultMessage r) (RequestId r) (IdempotencyKey r) (Context r) (LeaseId r) (ResultJson r) (ResultDigest r) (ResultSignature r) v.
End UpdateRunStatusRequest.

Module UpdateRunStatusResponse.
Record UpdateRunStatusResponse := mk {
  Accepted : bool;
  RejectionReason : string;
  Run : option Run.Run
}.
Definition zero : UpdateRunStatusResponse := mk false "" None.
Definition set_Accepted (v : bool) (r : UpdateRunStatusResponse) : UpdateRunStatusResponse := mk v (RejectionReason r) (Run r).
Definition set_RejectionReason (v : string) (r : UpdateRunStatusResponse) : UpdateRunStatusResponse := mk (Accepted r) v (Run r).
Definition set_Run (v : option Run.Run) (r : UpdateRunStatusResponse) : UpdateRunStatusResponse := mk (Accepted r) (RejectionReason r) v.
End UpdateRunStatusResponse.

Module UpdateTaskRequest.
Record UpdateTaskRequest := mk {
  TaskId : string;
  Summary : option string;
  State : option Z;
  DeadlineTimeUnix : option Z;
  BoardColumn : option string;
  AssignedTarget : option string;
  RequiredCapabilities : list string;
  RequestId : string;
  IdempotencyKey : string;
  Context : option RequestContext.RequestContext;
  ExpectedUpdatedTimeUnix : Z
}.
Definition zero : UpdateTaskRequest := mk "" None None None None None [] "" "" None 0%Z.
Definition set_TaskId (v : string) (r : UpdateTaskRequest) : UpdateTaskRequest := mk v (Summary r) (State r) (DeadlineTimeUnix r) (BoardColumn r) (AssignedTarget r) (RequiredCapabilities r) (RequestId r) (IdempotencyKey r) (Context r) (ExpectedUpdatedTimeUnix r).
Definition set_Summary (v : option string) (r : UpdateTaskRequest) : UpdateTaskRequest := mk (TaskId r) v (State r) (DeadlineTimeUnix r) (BoardColumn r) (AssignedTarget r) (RequiredCapabilities r) (RequestId r) (IdempotencyKey r) (Context r) (ExpectedUpdatedTimeUnix r).
Definition set_State (v : option Z) (r : UpdateTaskRequest) : UpdateTaskRequest := mk (TaskId r) (Summary r) v (DeadlineTimeUnix r) (BoardColumn r) (AssignedTarget r) (RequiredCapabilities r) (RequestId r) (IdempotencyKey r) (Context r) (ExpectedUpdatedTimeUnix r).
Definition set_DeadlineTimeUnix (v : option Z) (r : UpdateTaskRequest) : UpdateTaskRequest := mk (TaskId r) (Summary r) (State r) v (BoardColumn r) (AssignedTarget r) (RequiredCapabilities r) (RequestId r) (IdempotencyKey r) (Context r) (ExpectedUpdatedTimeUnix r).
Definition set_BoardColumn (v : option string) (r : UpdateTaskRequest) : UpdateTaskRequest := mk (TaskId r) (Summary r) (State r) (DeadlineTimeUnix r) v (AssignedTarget r) (RequiredCapabilities r) (RequestId r) (IdempotencyKey r) (Context r) (ExpectedUpdatedTimeUnix r).
Definition set_AssignedTarget (v : option string) (r : UpdateTaskRequest) : UpdateTaskRequest := mk (TaskId r) (Summary r) (State r) (DeadlineTimeUnix r) (BoardColumn r) v (RequiredCapabilities r) (RequestId r) (IdempotencyKey r) (Context r) (ExpectedUpdatedTimeUnix r).
Definition set_RequiredCapabilities (v : list string) (r : UpdateTaskRequest) : UpdateTaskRequest := mk (TaskId r) (Summary r) (State r) (DeadlineTimeUnix r) (BoardColumn r) (AssignedTarget r) v (RequestId r) (IdempotencyKey r) (Context r) (ExpectedUpdatedTimeUnix r).
Definition set_RequestId (v : string) (r : UpdateTaskRequest) : UpdateTaskRequest := mk (TaskId r) (Summary r) (State r) (DeadlineTimeUnix r) (BoardColumn r) (AssignedTarget r) (RequiredCapabilities r) v (IdempotencyKey r) (Context r) (ExpectedUpdatedTimeUnix r).
Definition set_IdempotencyKey (v : string) (r : UpdateTaskRequest) : UpdateTaskRequest := mk (TaskId r) (Summary r) (State r) (DeadlineTimeUnix r) (BoardColumn r) (AssignedTarget r) (RequiredCapabilities r) (RequestId r) v (Context r) (ExpectedUpdatedTimeUnix r).
Definition set_Context (v : option RequestContext.RequestContext) (r : UpdateTaskRequest) : UpdateTaskRequest := mk (TaskId r) (Summary r) (State r) (DeadlineTimeUnix r) (BoardColumn r) (AssignedTarget r) (RequiredCapabilities r) (RequestId r) (IdempotencyKey r) v (ExpectedUpdatedTimeUnix r).
Definition set_ExpectedUpdatedTimeUnix (v : Z) (r : UpdateTaskRequest) : UpdateTaskRequest := mk (TaskId r) (Summary r) (State r) (DeadlineTimeUnix r) (BoardColumn r) (AssignedTarget r) (RequiredCapabilities r) (RequestId r) (IdempotencyKey r) (Context r) v.
End UpdateTaskRequest.

Module UpdateTaskResponse.
Record UpdateTaskResponse := mk {
  Accepted : bool;
  Task : option Task.Task;
  RejectionReason : string
}.
Definition zero : UpdateTaskResponse := mk false None "".
Definition set_Accepted (v : bool) (r : UpdateTaskResponse) : UpdateTaskResponse := mk v (Task r) (RejectionReason r).
Definition set_Task (v : option Task.Task) (r : UpdateTaskResponse) : UpdateTaskResponse := mk (Accepted r) v (RejectionReason r).
Definition set_RejectionReason (v : string) (r : UpdateTaskResponse) : UpdateTaskResponse := mk (Accepted r) (Task r) v.
End UpdateTaskResponse.

Module VoteChannelDecisionRequest.
Record VoteChannelDecisionRequest := mk {
  DecisionId : string;
  Decision : Z;
  Reason : string;
  Context : option RequestContext.RequestContext
}.
Definition zero : VoteChannelDecisionRequest := mk "" 0%Z "" None.
Definition set_DecisionId (v : string) (r : VoteChannelDecisionRequest) : VoteChannelDecisionRequest := mk v (Decision r) (Reason r) (Context r).
Definition set_Decision (v : Z) (r : VoteChannelDecisionRequest) : VoteChannelDecisionRequest := mk (DecisionId r) v (Reason r) (Context r).
Definition set_Reason (v : string) (r : VoteChannelDecisionRequest) : VoteChannelDecisionRequest := mk (DecisionId r) (Decision r) v (Context r).
Definition set_Context (v : option RequestContext.RequestContext) (r : VoteChannelDecisionRequest) : VoteChannelDecisionRequest := mk (DecisionId r) (Decision r) (Reason r) v.
End VoteChannelDecisionRequest.

Module VoteChannelDecisionResponse.
Record VoteChannelDecisionResponse := mk {
  Decision : option ChannelDecision.ChannelDecision;
  Vote : option DecisionVoteRecord.DecisionVoteRecord
}.
Definition zero : VoteChannelDecisionResponse := mk None None.
Definition set_Decision (v : option ChannelDecision.ChannelDecision) (r : VoteChannelDecisionResponse) : VoteChannelDecisionResponse := mk v (Vote r).
Definition set_Vote (v : option DecisionVoteRecord.DecisionVoteRecord) (r : VoteChannelDecisionResponse) : VoteChannelDecisionResponse := mk (Decision r) v.
End VoteChannelDecisionResponse.

End daemonv1.
