(* ===== verification/RpcText.v ===== *)
(** * Text of run feedback ([internal/daemonrpc/server.go], [prompt_snapshot.go])

    What the RPC server does to the free text that daemons report before it keeps it:
    it cuts it to a number of bytes and hides the values of credentials with two
    regular expressions, whose matches are deterministic enough to be spelled out. *)
From S2P Require Import Prelude GoStr GoText.

(** [value[:n]] of a string of at least [n] bytes. *)
Definition upto (n : nat) (s : string) : string := String.substring 0 n s.

Definition truncatePromptText (value : string) (limit : Z) : string :=
  let value := TrimSpace value in
  if (limit <=? 0)%Z || (Z.of_nat (String.length value) <=? limit)%Z then value
  else if (limit <? 20)%Z then upto (Z.to_nat limit) value
  else TrimSpace (upto (Z.to_nat (limit - 15)) value) +:+ " ...<truncated>".

(** ** The patterns *)

(** [\s] and [\b] of RE2 are about ASCII. *)
Definition re_space (c : ascii) : bool :=
  bool_decide (nat_of c ∈ [9; 10; 12; 13; 32]).

Definition word (c : ascii) : bool :=
  between 48 57 c || between 65 90 c || between 97 122 c || (nat_of c =? 95).

(** [[^\s,;]]; the rune that starts a longer sequence is never one of these. *)
Definition opaque (c : ascii) : bool := negb (re_space c) && negb (nat_of c =? 44) && negb (nat_of c =? 59).

(** The longest prefix of bytes with [p], and the rest. *)
Fixpoint span (p : ascii → bool) (s : string) : string * string :=
  match s with
  | EmptyString => (EmptyString, EmptyString)
  | String c s' => if p c then let (a, b) := span p s' in (String c a, b) else (EmptyString, s)
  end.

(** A literal under [(?i)]: what it matched and the rest.  [s] and [k] also match the
    runes that fold to them, U+017F and U+212A. *)
Fixpoint literal (lit s : string) : option (string * string) :=
  match lit with
  | EmptyString => Some (EmptyString, s)
  | String l lit =>
      match s with
      | EmptyString => None
      | String a s1 =>
          if Ascii.eqb (upper_ascii a) (upper_ascii l) then
            option_map (λ p, (String a p.1, p.2)) (literal lit s1)
          else match s1 with
          | String b s2 =>
              if Ascii.eqb l "s" && (nat_of a =? 197) && (nat_of b =? 191) then
                option_map (λ p, (String a (String b p.1), p.2)) (literal lit s2)
              else match s2 with
              | String c s3 =>
                  if Ascii.eqb l "k" && (nat_of a =? 226) && (nat_of b =? 132) && (nat_of c =? 170) then
                    option_map (λ p, (String a (String b (String c p.1)), p.2)) (literal lit s3)
                  else None
              | EmptyString => None
              end
          | EmptyString => None
          end
      end
  end.

(** No keyword is a prefix of another, so at most one alternative matches. *)
Fixpoint any_literal (lits : list string) (s : string) : option (string * string) :=
  match lits with
  | [] => None
  | lit :: lits => match literal lit s with Some p => Some p | None => any_literal lits s end
  end.

Definition keywords : list string :=
  ["token"; "secret"; "password"; "passwd"; "api_key"; "apikey"; "authorization"; "cookie"; "credential"].

(** A match at the start of [s]: the kept groups and what follows the hidden one. *)
Definition feedbackKeyValuePattern (s : string) : option (string * string) :=
  match any_literal keywords s with
  | None => None
  | Some (kw, rest) =>
      let (sp1, rest) := span re_space rest in
      match rest with
      | String c rest =>
          if (nat_of c =? 58) || (nat_of c =? 61) then
            let (sp2, rest) := span re_space rest in
            match span opaque rest with
            | (EmptyString, _) => None
            | (_, rest) => Some (kw +:+ sp1 +:+ String c sp2, rest)
            end
          else None
      | EmptyString => None
      end
  end.

Definition feedbackBearerPattern (s : string) : option (string * string) :=
  match literal "bearer" s with
  | None => None
  | Some (kw, rest) =>
      match span re_space rest with
      | (EmptyString, _) => None
      | (sp, rest) =>
          match span opaque rest with
          | (EmptyString, _) => None
          | (_, rest) => Some (kw +:+ sp, rest)
          end
      end
  end.

(** [ReplaceAllString] with the kept groups and [<redacted>]: the leftmost matches, from
    left to right; [after_word] tells whether the byte before [s] is a word character,
    so that [\b] can hold before the pattern's first letter. *)
Fixpoint replace_matches (fuel : nat) (pattern : string → option (string * string))
    (after_word : bool) (s : string) : string :=
  match fuel with
  | 0 => s
  | S fuel =>
      match s with
      | EmptyString => EmptyString
      | String c s' =>
          match (if Bool.eqb (word c) after_word then None else pattern s) with
          | Some (kept, rest) =>
              let matched := upto (String.length s - String.length rest) s in
              kept +:+ "<redacted>" +:+
                replace_matches fuel pattern
                  (match String.rev matched with String l _ => word l | EmptyString => after_word end) rest
          | None => String c (replace_matches fuel pattern (word c) s')
          end
      end
  end.

Definition ReplaceAllString (pattern : string → option (string * string)) (s : string) : string :=
  replace_matches (S (String.length s)) pattern false s.

Definition redactRunFeedback (value : string) : string :=
  let value := truncatePromptText value 512 in
  if String.eqb value "" then ""
  else ReplaceAllString feedbackKeyValuePattern (ReplaceAllString feedbackBearerPattern value).

Example redact_kv : redactRunFeedback "failed: api_key = abc123, retry" = "failed: api_key = <redacted>, retry".
Proof. vm_compute. reflexivity. Qed.
Example redact_bearer : redactRunFeedback "Authorization: Bearer abc" = "Authorization: <redacted> <redacted>".
Proof. vm_compute. reflexivity. Qed.
Example redact_word : redactRunFeedback "mytoken=abc token=abc" = "mytoken=abc token=<redacted>".
Proof. vm_compute. reflexivity. Qed.

(** ** Bounds *)

Definition is_prefix (p s : string) : Prop := ∃ t, s = p +:+ t.

Lemma is_prefix_trans p s t : is_prefix p s → is_prefix s t → is_prefix p t.
Proof. intros [a ->] [b ->]. exists (a +:+ b). by rewrite sapp_assoc. Qed.

Lemma is_prefix_length p s : is_prefix p s → String.length p ≤ String.length s.
Proof. intros [t ->]. rewrite slength_app. lia. Qed.

Lemma upto_prefix n s : is_prefix (upto n s) s.
Proof.
  revert n. induction s as [|c s IH]; intros [|n].
  - by exists "".
  - by exists "".
  - by exists (String c s).
  - destruct (IH n) as [t Ht]. exists t. change (upto (S n) (String c s)) with (String c (upto n s)).
    rewrite Ht at 1. done.
Qed.

Lemma upto_length n s : String.length (upto n s) ≤ n.
Proof.
  revert n. induction s as [|c s IH]; intros [|n]; [cbn; lia..|].
  change (upto (S n) (String c s)) with (String c (upto n s)). cbn. specialize (IH n). lia.
Qed.

Lemma trim_left_trimmed s p : trimmed s → is_prefix p s → trim_left p = p.
Proof.
  intros Hs [t ->]. apply trim_with_id, leads_prefix with (t := t).
  rewrite <-Hs. unfold TrimSpace. destruct (trim_right_prefix (trim_left (p +:+ t))) as [w Hw].
  apply leads_prefix with (t := w). rewrite <-Hw. apply trim_with_leads.
Qed.

(** Cutting a trimmed string and trimming again only shortens it from the right. *)
Lemma TrimSpace_prefix s p : trimmed s → is_prefix p s → is_prefix (TrimSpace p) p.
Proof.
  intros Hs Hp. unfold TrimSpace. rewrite (trim_left_trimmed s) by done. apply trim_right_prefix.
Qed.

(** [truncatePromptText] stays within its limit: a text that fits is only trimmed; a
    longer one becomes, for a limit of at least 20 bytes, a prefix of the trimmed text
    followed by the mark of truncation, and for a smaller one a bare prefix. *)
Theorem truncatePromptText_bounds value limit :
  (0 < limit)%Z →
  (Z.of_nat (String.length (truncatePromptText value limit)) ≤ limit)%Z ∧
  ((Z.of_nat (String.length (TrimSpace value)) ≤ limit)%Z →
     truncatePromptText value limit = TrimSpace value) ∧
  ((limit < Z.of_nat (String.length (TrimSpace value)))%Z →
     ∃ kept, is_prefix kept (TrimSpace value) ∧
       truncatePromptText value limit = if (limit <? 20)%Z then kept else kept +:+ " ...<truncated>").
Proof.
  intros Hl. unfold truncatePromptText. rewrite (proj2 (Z.leb_gt limit 0)) by lia. cbn [orb].
  pose proof (TrimSpace_trimmed value) as Ht. revert Ht. generalize (TrimSpace value). intros v Hv.
  destruct (Z.leb_spec (Z.of_nat (String.length v)) limit) as [Hfit|Hlong]; [split_and!; [done..|lia]|].
  destruct (Z.ltb_spec limit 20).
  - pose proof (upto_length (Z.to_nat limit) v). split_and!; [lia..|].
    intros _. eexists. split; [apply upto_prefix|done].
  - set (cut := upto (Z.to_nat (limit - 15)) v).
    pose proof (upto_length (Z.to_nat (limit - 15)) v) as Hc. fold cut in Hc.
    assert (is_prefix cut v) as Hcv by apply upto_prefix.
    pose proof (TrimSpace_prefix v cut Hv Hcv) as Hp. pose proof (is_prefix_length _ _ Hp).
    split_and!; [|lia|intros _; exists (TrimSpace cut); split; [by apply (is_prefix_trans _ cut)|done]].
    rewrite slength_app. change (String.length " ...<truncated>") with 15. lia.
Qed.

Lemma truncatePromptText_bounds_witness :
  (0 < 24)%Z ∧ truncatePromptText "  a text of more than 24 bytes " 24 = "a text of ...<truncated>".
Proof.
  split; [lia|].
  destruct (truncatePromptText_bounds "  a text of more than 24 bytes " 24) as (_ & _ & H); [lia|].
  destruct H as (kept & _ & _); [vm_compute; done|]. vm_compute. reflexivity.
Defined.

(** [utf8.ValidString]: the runes of an invalid string are not written as it is. *)
Definition ValidString (s : string) : bool := String.eqb (String.concat "" (runes s)) s.

(** The cut can fall inside a rune. *)
Example truncate_splits_a_rune :
  let text := "abcde" +:+ "éééééééééé" in
  ValidString text = true ∧ ValidString (truncatePromptText text 21) = false.
Proof. split; vm_compute; reflexivity. Qed.
