(* ===== verification/Rpc.v ===== *)
(** * The RPC server of the daemons: state, requests, idempotency
    ([internal/daemonrpc/server.go])

    [World] is what a request sees: the server's maps, the store, and how many
    identifiers and clock readings have been drawn.  A handler is a computation of the
    monad [R], which stops at the first status error; an error undoes nothing.  Handlers
    are modelled one after the other: a critical section of [s.mu] is part of its
    handler's single step.  The nil receivers and the nil store that tests
    use are not modelled, nor is the text of an error's cause. *)
From S2P Require Import Prelude GoStr GoText Sql Models Schema Store Frame Idempotency RpcText Proto.
From stdpp Require Import pretty.

(** ** Status errors ([rpc_status.go]) *)

Inductive code :=
| Canceled | Unknown | InvalidArgument | DeadlineExceeded | NotFound | AlreadyExists
| PermissionDenied | ResourceExhausted | FailedPrecondition | Aborted | OutOfRange
| Unimplemented | Internal | Unavailable | DataLoss | Unauthenticated.

Inductive rpc_error := Status (c : code) (message : string).

(** ** Messages

    The messages the server marshals or remembers, as one type ([proto.Message]). *)

Inductive message :=
| aRegisterComputerResponse (m : daemonv1.RegisterComputerResponse.RegisterComputerResponse)
| aSyncComputerInventoryResponse (m : daemonv1.SyncComputerInventoryResponse.SyncComputerInventoryResponse)
| aAcquireStartPermitResponse (m : daemonv1.AcquireStartPermitResponse.AcquireStartPermitResponse)
| aReleaseStartPermitResponse (m : daemonv1.ReleaseStartPermitResponse.ReleaseStartPermitResponse)
| aSendMessageResponse (m : daemonv1.SendMessageResponse.SendMessageResponse)
| aRetryOutboundDeliveryResponse (m : daemonv1.RetryOutboundDeliveryResponse.RetryOutboundDeliveryResponse)
| aSaveMessageResponse (m : daemonv1.SaveMessageResponse.SaveMessageResponse)
| aUnsaveMessageResponse (m : daemonv1.UnsaveMessageResponse.UnsaveMessageResponse)
| aCreateCollaborationTaskResponse (m : daemonv1.CreateCollaborationTaskResponse.CreateCollaborationTaskResponse)
| aUpdateTaskResponse (m : daemonv1.UpdateTaskResponse.UpdateTaskResponse)
| aClaimCollaborationTaskResponse (m : daemonv1.ClaimCollaborationTaskResponse.ClaimCollaborationTaskResponse)
| aScheduleReminderResponse (m : daemonv1.ScheduleReminderResponse.ScheduleReminderResponse)
| aCancelReminderResponse (m : daemonv1.CancelReminderResponse.CancelReminderResponse)
| aSnoozeReminderResponse (m : daemonv1.SnoozeReminderResponse.SnoozeReminderResponse)
| aUpdateReminderResponse (m : daemonv1.UpdateReminderResponse.UpdateReminderResponse)
| aUpdateAgentStatusResponse (m : daemonv1.UpdateAgentStatusResponse.UpdateAgentStatusResponse)
| aControlAgentResponse (m : daemonv1.ControlAgentResponse.ControlAgentResponse)
| aSendAgentDirectMessageResponse (m : daemonv1.SendAgentDirectMessageResponse.SendAgentDirectMessageResponse)
| aLogActivityResponse (m : daemonv1.LogActivityResponse.LogActivityResponse)
| aUpdateRunStatusResponse (m : daemonv1.UpdateRunStatusResponse.UpdateRunStatusResponse)
| aRenewRunLeaseResponse (m : daemonv1.RenewRunLeaseResponse.RenewRunLeaseResponse)
| aAppendRunStepResponse (m : daemonv1.AppendRunStepResponse.AppendRunStepResponse)
| aTask (m : daemonv1.Task.Task)
| aCollaborationMessage (m : daemonv1.CollaborationMessage.CollaborationMessage)
| aActivityRecord (m : daemonv1.ActivityRecord.ActivityRecord)
| aReminderRecord (m : daemonv1.ReminderRecord.ReminderRecord).

(** [proto.MessageName]. *)
Definition MessageName (x : message) : string :=
  match x with
  | aRegisterComputerResponse _ => "nekode.daemon.v1.RegisterComputerResponse"
  | aSyncComputerInventoryResponse _ => "nekode.daemon.v1.SyncComputerInventoryResponse"
  | aAcquireStartPermitResponse _ => "nekode.daemon.v1.AcquireStartPermitResponse"
  | aReleaseStartPermitResponse _ => "nekode.daemon.v1.ReleaseStartPermitResponse"
  | aSendMessageResponse _ => "nekode.daemon.v1.SendMessageResponse"
  | aRetryOutboundDeliveryResponse _ => "nekode.daemon.v1.RetryOutboundDeliveryResponse"
  | aSaveMessageResponse _ => "nekode.daemon.v1.SaveMessageResponse"
  | aUnsaveMessageResponse _ => "nekode.daemon.v1.UnsaveMessageResponse"
  | aCreateCollaborationTaskResponse _ => "nekode.daemon.v1.CreateCollaborationTaskResponse"
  | aUpdateTaskResponse _ => "nekode.daemon.v1.UpdateTaskResponse"
  | aClaimCollaborationTaskResponse _ => "nekode.daemon.v1.ClaimCollaborationTaskResponse"
  | aScheduleReminderResponse _ => "nekode.daemon.v1.ScheduleReminderResponse"
  | aCancelReminderResponse _ => "nekode.daemon.v1.CancelReminderResponse"
  | aSnoozeReminderResponse _ => "nekode.daemon.v1.SnoozeReminderResponse"
  | aUpdateReminderResponse _ => "nekode.daemon.v1.UpdateReminderResponse"
  | aUpdateAgentStatusResponse _ => "nekode.daemon.v1.UpdateAgentStatusResponse"
  | aControlAgentResponse _ => "nekode.daemon.v1.ControlAgentResponse"
  | aSendAgentDirectMessageResponse _ => "nekode.daemon.v1.SendAgentDirectMessageResponse"
  | aLogActivityResponse _ => "nekode.daemon.v1.LogActivityResponse"
  | aUpdateRunStatusResponse _ => "nekode.daemon.v1.UpdateRunStatusResponse"
  | aRenewRunLeaseResponse _ => "nekode.daemon.v1.RenewRunLeaseResponse"
  | aAppendRunStepResponse _ => "nekode.daemon.v1.AppendRunStepResponse"
  | aTask _ => "nekode.daemon.v1.Task"
  | aCollaborationMessage _ => "nekode.daemon.v1.CollaborationMessage"
  | aActivityRecord _ => "nekode.daemon.v1.ActivityRecord"
  | aReminderRecord _ => "nekode.daemon.v1.ReminderRecord"
  end.

(** A generated message type: how its values are messages, and the type assertion. *)
Class Proto (T : Type) := {
  to_message : T → message;
  of_message : message → option T;
  full_name : string
}.

Class ProtoLaws (T : Type) `{!Proto T} : Prop := {
  of_to t : of_message (to_message t) = Some t;
  name_to t : MessageName (to_message t) = full_name (T := T);
  of_named x : MessageName x = full_name (T := T) → ∃ t, x = to_message t
}.

#[export] Instance RegisterComputerResponse_proto : Proto daemonv1.RegisterComputerResponse.RegisterComputerResponse :=
  {| to_message := aRegisterComputerResponse; of_message x := match x with aRegisterComputerResponse m => Some m | _ => None end;
     full_name := "nekode.daemon.v1.RegisterComputerResponse" |}.
#[export] Instance SyncComputerInventoryResponse_proto : Proto daemonv1.SyncComputerInventoryResponse.SyncComputerInventoryResponse :=
  {| to_message := aSyncComputerInventoryResponse; of_message x := match x with aSyncComputerInventoryResponse m => Some m | _ => None end;
     full_name := "nekode.daemon.v1.SyncComputerInventoryResponse" |}.
#[export] Instance AcquireStartPermitResponse_proto : Proto daemonv1.AcquireStartPermitResponse.AcquireStartPermitResponse :=
  {| to_message := aAcquireStartPermitResponse; of_message x := match x with aAcquireStartPermitResponse m => Some m | _ => None end;
     full_name := "nekode.daemon.v1.AcquireStartPermitResponse" |}.
#[export] Instance ReleaseStartPermitResponse_proto : Proto daemonv1.ReleaseStartPermitResponse.ReleaseStartPermitResponse :=
  {| to_message := aReleaseStartPermitResponse; of_message x := match x with aReleaseStartPermitResponse m => Some m | _ => None end;
     full_name := "nekode.daemon.v1.ReleaseStartPermitResponse" |}.
#[export] Instance SendMessageResponse_proto : Proto daemonv1.SendMessageResponse.SendMessageResponse :=
  {| to_message := aSendMessageResponse; of_message x := match x with aSendMessageResponse m => Some m | _ => None end;
     full_name := "nekode.daemon.v1.SendMessageResponse" |}.
#[export] Instance RetryOutboundDeliveryResponse_proto : Proto daemonv1.RetryOutboundDeliveryResponse.RetryOutboundDeliveryResponse :=
  {| to_message := aRetryOutboundDeliveryResponse; of_message x := match x with aRetryOutboundDeliveryResponse m => Some m | _ => None end;
     full_name := "nekode.daemon.v1.RetryOutboundDeliveryResponse" |}.
#[export] Instance SaveMessageResponse_proto : Proto daemonv1.SaveMessageResponse.SaveMessageResponse :=
  {| to_message := aSaveMessageResponse; of_message x := match x with aSaveMessageResponse m => Some m | _ => None end;
     full_name := "nekode.daemon.v1.SaveMessageResponse" |}.
#[export] Instance UnsaveMessageResponse_proto : Proto daemonv1.UnsaveMessageResponse.UnsaveMessageResponse :=
  {| to_message := aUnsaveMessageResponse; of_message x := match x with aUnsaveMessageResponse m => Some m | _ => None end;
     full_name := "nekode.daemon.v1.UnsaveMessageResponse" |}.
#[export] Instance CreateCollaborationTaskResponse_proto : Proto daemonv1.CreateCollaborationTaskResponse.CreateCollaborationTaskResponse :=
  {| to_message := aCreateCollaborationTaskResponse; of_message x := match x with aCreateCollaborationTaskResponse m => Some m | _ => None end;
     full_name := "nekode.daemon.v1.CreateCollaborationTaskResponse" |}.
#[export] Instance UpdateTaskResponse_proto : Proto daemonv1.UpdateTaskResponse.UpdateTaskResponse :=
  {| to_message := aUpdateTaskResponse; of_message x := match x with aUpdateTaskResponse m => Some m | _ => None end;
     full_name := "nekode.daemon.v1.UpdateTaskResponse" |}.
#[export] Instance ClaimCollaborationTaskResponse_proto : Proto daemonv1.ClaimCollaborationTaskResponse.ClaimCollaborationTaskResponse :=
  {| to_message := aClaimCollaborationTaskResponse; of_message x := match x with aClaimCollaborationTaskResponse m => Some m | _ => None end;
     full_name := "nekode.daemon.v1.ClaimCollaborationTaskResponse" |}.
#[export] Instance ScheduleReminderResponse_proto : Proto daemonv1.ScheduleReminderResponse.ScheduleReminderResponse :=
  {| to_message := aScheduleReminderResponse; of_message x := match x with aScheduleReminderResponse m => Some m | _ => None end;
     full_name := "nekode.daemon.v1.ScheduleReminderResponse" |}.
#[export] Instance CancelReminderResponse_proto : Proto daemonv1.CancelReminderResponse.CancelReminderResponse :=
  {| to_message := aCancelReminderResponse; of_message x := match x with aCancelReminderResponse m => Some m | _ => None end;
     full_name := "nekode.daemon.v1.CancelReminderResponse" |}.
#[export] Instance SnoozeReminderResponse_proto : Proto daemonv1.SnoozeReminderResponse.SnoozeReminderResponse :=
  {| to_message := aSnoozeReminderResponse; of_message x := match x with aSnoozeReminderResponse m => Some m | _ => None end;
     full_name := "nekode.daemon.v1.SnoozeReminderResponse" |}.
#[export] Instance UpdateReminderResponse_proto : Proto daemonv1.UpdateReminderResponse.UpdateReminderResponse :=
  {| to_message := aUpdateReminderResponse; of_message x := match x with aUpdateReminderResponse m => Some m | _ => None end;
     full_name := "nekode.daemon.v1.UpdateReminderResponse" |}.
#[export] Instance UpdateAgentStatusResponse_proto : Proto daemonv1.UpdateAgentStatusResponse.UpdateAgentStatusResponse :=
  {| to_message := aUpdateAgentStatusResponse; of_message x := match x with aUpdateAgentStatusResponse m => Some m | _ => None end;
     full_name := "nekode.daemon.v1.UpdateAgentStatusResponse" |}.
#[export] Instance ControlAgentResponse_proto : Proto daemonv1.ControlAgentResponse.ControlAgentResponse :=
  {| to_message := aControlAgentResponse; of_message x := match x with aControlAgentResponse m => Some m | _ => None end;
     full_name := "nekode.daemon.v1.ControlAgentResponse" |}.
#[export] Instance SendAgentDirectMessageResponse_proto : Proto daemonv1.SendAgentDirectMessageResponse.SendAgentDirectMessageResponse :=
  {| to_message := aSendAgentDirectMessageResponse; of_message x := match x with aSendAgentDirectMessageResponse m => Some m | _ => None end;
     full_name := "nekode.daemon.v1.SendAgentDirectMessageResponse" |}.
#[export] Instance LogActivityResponse_proto : Proto daemonv1.LogActivityResponse.LogActivityResponse :=
  {| to_message := aLogActivityResponse; of_message x := match x with aLogActivityResponse m => Some m | _ => None end;
     full_name := "nekode.daemon.v1.LogActivityResponse" |}.
#[export] Instance UpdateRunStatusResponse_proto : Proto daemonv1.UpdateRunStatusResponse.UpdateRunStatusResponse :=
  {| to_message := aUpdateRunStatusResponse; of_message x := match x with aUpdateRunStatusResponse m => Some m | _ => None end;
     full_name := "nekode.daemon.v1.UpdateRunStatusResponse" |}.
#[export] Instance RenewRunLeaseResponse_proto : Proto daemonv1.RenewRunLeaseResponse.RenewRunLeaseResponse :=
  {| to_message := aRenewRunLeaseResponse; of_message x := match x with aRenewRunLeaseResponse m => Some m | _ => None end;
     full_name := "nekode.daemon.v1.RenewRunLeaseResponse" |}.
#[export] Instance AppendRunStepResponse_proto : Proto daemonv1.AppendRunStepResponse.AppendRunStepResponse :=
  {| to_message := aAppendRunStepResponse; of_message x := match x with aAppendRunStepResponse m => Some m | _ => None end;
     full_name := "nekode.daemon.v1.AppendRunStepResponse" |}.
#[export] Instance Task_proto : Proto daemonv1.Task.Task :=
  {| to_message := aTask; of_message x := match x with aTask m => Some m | _ => None end;
     full_name := "nekode.daemon.v1.Task" |}.
#[export] Instance CollaborationMessage_proto : Proto daemonv1.CollaborationMessage.CollaborationMessage :=
  {| to_message := aCollaborationMessage; of_message x := match x with aCollaborationMessage m => Some m | _ => None end;
     full_name := "nekode.daemon.v1.CollaborationMessage" |}.
#[export] Instance ActivityRecord_proto : Proto daemonv1.ActivityRecord.ActivityRecord :=
  {| to_message := aActivityRecord; of_message x := match x with aActivityRecord m => Some m | _ => None end;
     full_name := "nekode.daemon.v1.ActivityRecord" |}.
#[export] Instance ReminderRecord_proto : Proto daemonv1.ReminderRecord.ReminderRecord :=
  {| to_message := aReminderRecord; of_message x := match x with aReminderRecord m => Some m | _ => None end;
     full_name := "nekode.daemon.v1.ReminderRecord" |}.

Ltac solve_proto :=
  split; [done|done|intros x; destruct x; intros E; try discriminate E; by eexists].

#[export] Instance RegisterComputerResponse_proto_laws : ProtoLaws daemonv1.RegisterComputerResponse.RegisterComputerResponse.
Proof. solve_proto. Qed.
#[export] Instance SyncComputerInventoryResponse_proto_laws : ProtoLaws daemonv1.SyncComputerInventoryResponse.SyncComputerInventoryResponse.
Proof. solve_proto. Qed.
#[export] Instance AcquireStartPermitResponse_proto_laws : ProtoLaws daemonv1.AcquireStartPermitResponse.AcquireStartPermitResponse.
Proof. solve_proto. Qed.
#[export] Instance ReleaseStartPermitResponse_proto_laws : ProtoLaws daemonv1.ReleaseStartPermitResponse.ReleaseStartPermitResponse.
Proof. solve_proto. Qed.
#[export] Instance SendMessageResponse_proto_laws : ProtoLaws daemonv1.SendMessageResponse.SendMessageResponse.
Proof. solve_proto. Qed.
#[export] Instance RetryOutboundDeliveryResponse_proto_laws : ProtoLaws daemonv1.RetryOutboundDeliveryResponse.RetryOutboundDeliveryResponse.
Proof. solve_proto. Qed.
#[export] Instance SaveMessageResponse_proto_laws : ProtoLaws daemonv1.SaveMessageResponse.SaveMessageResponse.
Proof. solve_proto. Qed.
#[export] Instance UnsaveMessageResponse_proto_laws : ProtoLaws daemonv1.UnsaveMessageResponse.UnsaveMessageResponse.
Proof. solve_proto. Qed.
#[export] Instance CreateCollaborationTaskResponse_proto_laws : ProtoLaws daemonv1.CreateCollaborationTaskResponse.CreateCollaborationTaskResponse.
Proof. solve_proto. Qed.
#[export] Instance UpdateTaskResponse_proto_laws : ProtoLaws daemonv1.UpdateTaskResponse.UpdateTaskResponse.
Proof. solve_proto. Qed.
#[export] Instance ClaimCollaborationTaskResponse_proto_laws : ProtoLaws daemonv1.ClaimCollaborationTaskResponse.ClaimCollaborationTaskResponse.
Proof. solve_proto. Qed.
#[export] Instance ScheduleReminderResponse_proto_laws : ProtoLaws daemonv1.ScheduleReminderResponse.ScheduleReminderResponse.
Proof. solve_proto. Qed.
#[export] Instance CancelReminderResponse_proto_laws : ProtoLaws daemonv1.CancelReminderResponse.CancelReminderResponse.
Proof. solve_proto. Qed.
#[export] Instance SnoozeReminderResponse_proto_laws : ProtoLaws daemonv1.SnoozeReminderResponse.SnoozeReminderResponse.
Proof. solve_proto. Qed.
#[export] Instance UpdateReminderResponse_proto_laws : ProtoLaws daemonv1.UpdateReminderResponse.UpdateReminderResponse.
Proof. solve_proto. Qed.
#[export] Instance UpdateAgentStatusResponse_proto_laws : ProtoLaws daemonv1.UpdateAgentStatusResponse.UpdateAgentStatusResponse.
Proof. solve_proto. Qed.
#[export] Instance ControlAgentResponse_proto_laws : ProtoLaws daemonv1.ControlAgentResponse.ControlAgentResponse.
Proof. solve_proto. Qed.
#[export] Instance SendAgentDirectMessageResponse_proto_laws : ProtoLaws daemonv1.SendAgentDirectMessageResponse.SendAgentDirectMessageResponse.
Proof. solve_proto. Qed.
#[export] Instance LogActivityResponse_proto_laws : ProtoLaws daemonv1.LogActivityResponse.LogActivityResponse.
Proof. solve_proto. Qed.
#[export] Instance UpdateRunStatusResponse_proto_laws : ProtoLaws daemonv1.UpdateRunStatusResponse.UpdateRunStatusResponse.
Proof. solve_proto. Qed.
#[export] Instance RenewRunLeaseResponse_proto_laws : ProtoLaws daemonv1.RenewRunLeaseResponse.RenewRunLeaseResponse.
Proof. solve_proto. Qed.
#[export] Instance AppendRunStepResponse_proto_laws : ProtoLaws daemonv1.AppendRunStepResponse.AppendRunStepResponse.
Proof. solve_proto. Qed.
#[export] Instance Task_proto_laws : ProtoLaws daemonv1.Task.Task.
Proof. solve_proto. Qed.
#[export] Instance CollaborationMessage_proto_laws : ProtoLaws daemonv1.CollaborationMessage.CollaborationMessage.
Proof. solve_proto. Qed.
#[export] Instance ActivityRecord_proto_laws : ProtoLaws daemonv1.ActivityRecord.ActivityRecord.
Proof. solve_proto. Qed.
#[export] Instance ReminderRecord_proto_laws : ProtoLaws daemonv1.ReminderRecord.ReminderRecord.
Proof. solve_proto. Qed.

(** [protojson]: marshalling can fail (a string that is not UTF-8); unmarshalling is into
    a new message of the named type. *)
Class ProtoJSON := {
  Marshal : message → option string;
  Unmarshal : string → string → option message
}.

Class ProtoJSONLaws `{!ProtoJSON} : Prop := {
  unmarshal_marshal x body : Marshal x = Some body → Unmarshal (MessageName x) body = Some x;
  marshal_not_empty x body : Marshal x = Some body → body ≠ "";
  unmarshal_named name body x : Unmarshal name body = Some x → MessageName x = name
}.

(** The sequence of clock readings and of random identifiers the process draws. *)
Class Env := { clock_at : nat → Z; random_at : nat → string }.

(** ** Helpers *)

(** This package's [firstNonEmpty] does not trim. *)
Fixpoint firstNonEmpty (values : list string) : string :=
  match values with
  | [] => ""
  | value :: values => if value <>s "" then value else firstNonEmpty values
  end.

Fixpoint firstNonZeroInt64 (values : list Z) : Z :=
  match values with
  | [] => 0%Z
  | value :: values => if negb (value =? 0)%Z then value else firstNonZeroInt64 values
  end.

Fixpoint firstNonZeroUint32 (values : list Z) : Z :=
  match values with
  | [] => 0%Z
  | value :: values => if negb (value =? 0)%Z then value else firstNonZeroUint32 values
  end.

Definition first (values : list string) : string :=
  match values with [] => "" | value :: _ => value end.

Definition defaultTTL (value fallback : Z) : Z := if (value =? 0)%Z then fallback else value.

Fixpoint contains (values : list string) (needle : string) : bool :=
  match values with
  | [] => false
  | value :: values => (value =s needle) || contains values needle
  end.

Definition normalizedJSON (value : string) : string :=
  if TrimSpace value =s "" then "{}" else value.

Definition protocolVersion : Z := 1.
Definition daemonHeartbeatAfterSeconds : Z := 30.
Definition computerLeaseSeconds : Z := 90.
Definition computerStaleAfterSeconds : Z := daemonHeartbeatAfterSeconds * 2.
Definition computerOfflineAfterSeconds : Z := computerLeaseSeconds.

Module Cur := daemonv1.EventCursor.
Module Ls := daemonv1.Lease.
Module Ev := daemonv1.ServerEvent.
Module Id := IdempotencyRecord.

Definition cursorFromSequence (sequence : Z) (target serverID : string) : Cur.EventCursor :=
  Cur.zero |> Cur.set_Cursor (target +:+ ":" +:+ FormatInt sequence)
           |> Cur.set_Target target
           |> Cur.set_Sequence sequence
           |> Cur.set_AggregateId target
           |> Cur.set_ProtocolVersion protocolVersion
           |> Cur.set_ServerId serverID.

Definition cursorFromCount (count : nat) (target serverID : string) : Cur.EventCursor :=
  cursorFromSequence (Z.of_nat count) target serverID.

Definition idempotencyCacheKey (method requestID idempotencyKey : string) : string :=
  let key := firstNonEmpty [idempotencyKey; requestID] in
  if key =s "" then "" else method +:+ ":" +:+ key.

(** ** State *)

(** A lease is shared by pointer: [lease] is a position in the server's [lease_cells]. *)
Record computerState := mkComputer {
  info : option daemonv1.ComputerInfo.ComputerInfo;
  inventory : option daemonv1.ComputerInventory.ComputerInventory;
  inventoryVersion : string;
  lease : option nat;
  lastHeartbeat : Z
}.

Record Server := mkServer {
  serverID : string;
  serverName : string;
  computers : gmap string computerState;
  lease_cells : list daemonv1.Lease.Lease;
  leases : gmap string nat;
  statuses : gmap string daemonv1.AgentStatusSnapshot.AgentStatusSnapshot;
  runs : gmap string daemonv1.Run.Run;
  runSteps : gmap string (list daemonv1.RunStep.RunStep);
  promptSnaps : gmap string daemonv1.LaunchPromptSnapshot.LaunchPromptSnapshot;
  controls : gmap string daemonv1.AgentControlOperation.AgentControlOperation;
  serverEvents : gmap string daemonv1.ServerEvent.ServerEvent;
  eventSeq : Z;
  idempotency : gmap string message
}.

Definition put_computers v s := mkServer (serverID s) (serverName s) v (lease_cells s) (leases s) (statuses s) (runs s) (runSteps s) (promptSnaps s) (controls s) (serverEvents s) (eventSeq s) (idempotency s).
Definition put_leases c v s := mkServer (serverID s) (serverName s) (computers s) c v (statuses s) (runs s) (runSteps s) (promptSnaps s) (controls s) (serverEvents s) (eventSeq s) (idempotency s).
Definition put_statuses v s := mkServer (serverID s) (serverName s) (computers s) (lease_cells s) (leases s) v (runs s) (runSteps s) (promptSnaps s) (controls s) (serverEvents s) (eventSeq s) (idempotency s).
Definition put_runs v s := mkServer (serverID s) (serverName s) (computers s) (lease_cells s) (leases s) (statuses s) v (runSteps s) (promptSnaps s) (controls s) (serverEvents s) (eventSeq s) (idempotency s).
Definition put_runSteps v s := mkServer (serverID s) (serverName s) (computers s) (lease_cells s) (leases s) (statuses s) (runs s) v (promptSnaps s) (controls s) (serverEvents s) (eventSeq s) (idempotency s).
Definition put_promptSnaps v s := mkServer (serverID s) (serverName s) (computers s) (lease_cells s) (leases s) (statuses s) (runs s) (runSteps s) v (controls s) (serverEvents s) (eventSeq s) (idempotency s).
Definition put_controls v s := mkServer (serverID s) (serverName s) (computers s) (lease_cells s) (leases s) (statuses s) (runs s) (runSteps s) (promptSnaps s) v (serverEvents s) (eventSeq s) (idempotency s).
Definition put_events v n s := mkServer (serverID s) (serverName s) (computers s) (lease_cells s) (leases s) (statuses s) (runs s) (runSteps s) (promptSnaps s) (controls s) v n (idempotency s).
Definition put_idempotency v s := mkServer (serverID s) (serverName s) (computers s) (lease_cells s) (leases s) (statuses s) (runs s) (runSteps s) (promptSnaps s) (controls s) (serverEvents s) (eventSeq s) v.

(** [New] with an identifier. *)
Definition New (serverID : string) : Server :=
  mkServer serverID "Nekode" ∅ [] ∅ ∅ ∅ ∅ ∅ ∅ ∅ 0 ∅.

Section rpc.
Context {Eng : SqlEngine} {PJ : ProtoJSON} {E : Env}.

(** [executed] is a history: the method and key of each request whose body began. *)
Record World := mkWorld {
  srv : Server;
  db : Store;
  draws : nat;
  executed : list (string * string)
}.

Definition set_srv (v : Server) (w : World) : World := mkWorld v (db w) (draws w) (executed w).

(** A restart keeps the database. *)
Definition restart (w : World) : World := mkWorld (New (serverID (srv w))) (db w) (draws w) (executed w).

Definition R (A : Type) : Type := World → (rpc_error + A) * World.

#[export] Instance R_ret : MRet R := λ A a w, (inr a, w).
#[export] Instance R_bind : MBind R := λ A B k m w,
  match m w with
  | (inr a, w') => k a w'
  | (inl e, w') => (inl e, w')
  end.

(** [return nil, err]. *)
Definition raise {A} (e : rpc_error) : R A := λ w, (inl e, w).

(** [return nil, status.Error(c, message)]. *)
Definition fail {A} (c : code) (message : string) : R A := raise (Status c message).

(** [if b { return nil, status.Error(c, message) }]. *)
Definition refuse (b : bool) (c : code) (message : string) : R unit :=
  if b then fail c message else mret ().

Definition only_if (b : bool) (m : R unit) : R unit := if b then m else mret ().

Definition gets {A} (f : Server → A) : R A := λ w, (inr (f (srv w)), w).
Definition modify (f : Server → Server) : R unit := λ w, (inr (), set_srv (f (srv w)) w).

Definition unixNow : R Z := λ w,
  (inr (clock_at (draws w)), mkWorld (srv w) (db w) (S (draws w)) (executed w)).

(** [storage.NewID]. *)
Definition NewID (prefix : string) : R string := λ w,
  (inr (prefix +:+ "_" +:+ random_at (draws w)), mkWorld (srv w) (db w) (S (draws w)) (executed w)).

(** A call of the store: its outcome, error or value, is a value. *)
Definition stored {A} (m : M A) : R (error + A) := λ w,
  let (r, d) := m (db w) in (inr r, mkWorld (srv w) d (draws w) (executed w)).

(** The value, or the status error the handler makes of the store's error. *)
Definition or_status {A} (f : error → rpc_error) (m : R (error + A)) : R A :=
  r ← m;
  match r with
  | inr a => mret a
  | inl e => raise (f e)
  end.

(** [if err != nil { return err }] in a helper that returns a plain error. *)
Definition and_then {A B} (m : R (error + A)) (k : A → R (error + B)) : R (error + B) :=
  r ← m;
  match r with
  | inr a => k a
  | inl e => mret (inl e)
  end.

(** [errors.Is]. *)
Definition errors_Is (e e' : error) : bool := bool_decide (e' = e).

(** ** Idempotent requests *)

Definition replay {T} `{!Proto T} (method requestID idempotencyKey : string) : R (option T) :=
  let key := idempotencyCacheKey method requestID idempotencyKey in
  if key =s "" then mret None
  else
    cache ← gets idempotency;
    match cache !! key with
    | Some msg => mret (of_message msg)
    | None =>
        record ← stored (GetIdempotencyRecord "daemonrpc" method "" (firstNonEmpty [idempotencyKey; requestID]));
        match record with
        | inl _ => mret None
        | inr record =>
            if (Id.Status record <>s "completed") || (Id.ResponseJSON record =s "")
            then mret None
            else mret (Unmarshal (full_name (T := T)) (Id.ResponseJSON record) ≫= of_message)
        end
    end.

Definition pending_record (method key : string) : IdempotencyRecord :=
  Id.zero
    |> Id.set_Scope "daemonrpc"
    |> Id.set_Method method
    |> Id.set_IdempotencyKey key
    |> Id.set_Status "pending".

Definition reserve (method requestID idempotencyKey : string) : R unit :=
  let key := firstNonEmpty [idempotencyKey; requestID] in
  if key =s "" then mret ()
  else
    now ← unixNow;
    id ← NewID "idem";
    '(record, created) ← or_status (λ _, Status Internal "reserve idempotency")
      (stored (ReserveIdempotencyRecord now id (pending_record method key)));
    if created || (Id.Status record =s "completed") then mret ()
    else fail Aborted "idempotency key is already in progress".

Definition remember {T} `{!Proto T} (method requestID idempotencyKey : string) (resp : T) : R unit :=
  let key := idempotencyCacheKey method requestID idempotencyKey in
  if key =s "" then mret ()
  else
    let msg := to_message resp in
    _ ← modify (λ s, put_idempotency (<[key := msg]> (idempotency s)) s);
    match Marshal msg with
    | None => mret ()
    | Some body =>
        _ ← stored (CompleteIdempotencyRecord (Id.zero
              |> Id.set_Scope "daemonrpc"
              |> Id.set_Method method
              |> Id.set_IdempotencyKey (firstNonEmpty [idempotencyKey; requestID])
              |> Id.set_ResponseType (MessageName msg)
              |> Id.set_ResponseJSON body
              |> Id.set_Status "completed"));
        mret ()
    end.

(** Records in the history that the body of a request begins. *)
Definition begin (method key : string) : R unit := λ w,
  (inr (), mkWorld (srv w) (db w) (draws w)
     (if key =s "" then executed w else (method, key) :: executed w)).

(** How every idempotent handler begins. *)
Definition once {T} `{!Proto T} (method requestID idempotencyKey : string) (body : R T) : R T :=
  replayed ← replay method requestID idempotencyKey;
  match replayed with
  | Some resp => mret resp
  | None =>
      _ ← reserve method requestID idempotencyKey;
      _ ← begin method (firstNonEmpty [idempotencyKey; requestID]);
      body
  end.

(** ... and ends when it succeeds. *)
Definition remembered {T} `{!Proto T} (method requestID idempotencyKey : string) (resp : T) : R T :=
  _ ← remember method requestID idempotencyKey resp;
  mret resp.

(** ** Shared steps of the handlers *)

(** A new lease, which only the handler knows yet. *)
Definition newLease (resourceType resourceID holderID : string) (ttlSeconds : Z) : R Ls.Lease :=
  let ttlSeconds := if (ttlSeconds <=? 0)%Z then 60%Z else ttlSeconds in
  id ← NewID "lease";
  now ← unixNow;
  mret (Ls.zero |> Ls.set_LeaseId id
                |> Ls.set_HolderId holderID
                |> Ls.set_ResourceType resourceType
                |> Ls.set_ResourceId resourceID
                |> Ls.set_ExpiresTimeUnix (i64 (now + ttlSeconds))
                |> Ls.set_HeartbeatAfterSeconds 30).

(** The cell a handler's new lease gets when the server keeps a pointer to it. *)
Definition share (l : Ls.Lease) : R nat :=
  cells ← gets lease_cells;
  known ← gets leases;
  _ ← modify (put_leases (cells ++ [l]) (<[Ls.LeaseId l := length cells]> known));
  mret (length cells).

Definition serverEventLocked (event : Ev.ServerEvent) : R Ev.ServerEvent :=
  id ← NewID "evt";
  let cp := event |> when (Ev.EventId event =s "") (Ev.set_EventId id) in
  seq ← gets eventSeq;
  let next := i64 (seq + 1) in
  _ ← only_if (Ev.Sequence cp =? 0)%Z (modify (λ s, put_events (serverEvents s) next s));
  let cp := cp |> when (Ev.Sequence cp =? 0)%Z (Ev.set_Sequence next) in
  now ← unixNow;
  let cp := cp |> when (Ev.CreatedTimeUnix cp =? 0)%Z (Ev.set_CreatedTimeUnix now) in
  mret (cp |> when (Ev.ProtocolVersion cp =? 0)%Z (Ev.set_ProtocolVersion protocolVersion)).

(** [s.serverEvents[event.GetEventId()] = event]. *)
Definition publish (event : Ev.ServerEvent) : R unit :=
  event ← serverEventLocked event;
  modify (λ s, put_events (<[Ev.EventId event := event]> (serverEvents s)) (eventSeq s) s).

Definition scope (scopeType : Z) (scopeId target : string) : daemonv1.EventScope.EventScope :=
  daemonv1.EventScope.zero
    |> daemonv1.EventScope.set_ScopeType scopeType
    |> daemonv1.EventScope.set_ScopeId scopeId
    |> daemonv1.EventScope.set_Target target.

Definition nextSequence : R Z :=
  seq ← gets eventSeq;
  _ ← modify (λ s, put_events (serverEvents s) (i64 (seq + 1)) s);
  mret (i64 (seq + 1)).

End rpc.
