(* ===== verification/RpcOnce.v ===== *)
(** * Idempotent requests run at most once: the calculus

    [once_ok] is what holds between requests: every method and key whose body ever began
    has its record, no body began twice, and whatever a completed record or the cache
    holds for a method is a response of that method.  [keeps] is the computations that
    preserve it; every handler is one, by the rules below and [solve_once]. *)
From S2P Require Import Prelude GoStr GoText Sql Models Schema Store Frame Idempotency Proto Rpc.
Module Ir := IdempotencyRecord.

Definition response_name (method : string) : string := "nekode.daemon.v1." +:+ method +:+ "Response".

Section once.
Context {Eng : SqlEngine} {Laws : SqlLaws} {PJ : ProtoJSON} {PJL : ProtoJSONLaws} {E : Env}.

Section known.

(** What is known of some keys, which the computations below must not lose: that the
    body began, and the answer if there is one. *)
Context (known : gmap (string * string) (option message)).

Definition rpc_key (m k : string) : idem_key := ("daemonrpc", m, "", k).

(** A completed record of the key holds the answer [x]. *)
Definition stored_answer (m k : string) (x : message) (w : World) : Prop :=
  ∃ r, r ∈ rows IdempotencyRecord (db w) ∧ key_of r = rpc_key m k ∧ Ir.Status r = "completed" ∧
    Unmarshal (response_name m) (Ir.ResponseJSON r) = Some x.

(** ... and the cache holds it too, if it holds anything. *)
Definition answered (m k : string) (x : message) (w : World) : Prop :=
  (∀ y, idempotency (srv w) !! (m +:+ ":" +:+ k) = Some y → y = x) ∧ stored_answer m k x w.

Record once_ok (w : World) : Prop := {
  ok_unique : unique_rows (rows IdempotencyRecord (db w)) = true;
  ok_NoDup : NoDup (executed w);
  ok_reserved m k : (m, k) ∈ executed w →
    ∃ r, r ∈ rows IdempotencyRecord (db w) ∧ key_of r = rpc_key m k;
  ok_completed m k r : r ∈ rows IdempotencyRecord (db w) → key_of r = rpc_key m k →
    Ir.Status r = "completed" →
    Ir.ResponseJSON r ≠ "" ∧ ∃ x, Unmarshal (response_name m) (Ir.ResponseJSON r) = Some x;
  ok_cached key x : idempotency (srv w) !! key = Some x →
    ∃ m k, no_colon m = true ∧ key = m +:+ ":" +:+ k ∧ MessageName x = response_name m ∧
      (Marshal x ≠ None → stored_answer m k x w);
  ok_known m k o : known !! (m, k) = Some o →
    no_colon m = true ∧ k ≠ "" ∧ (o = None → (m, k) ∈ executed w) ∧ ∀ x, o = Some x → answered m k x w
}.

(** The body of [m] began for this key, and its answer is not known. *)
Definition begun (m k : string) : Prop := k = "" ∨ known !! (m, k) = Some None.

(** What [once_ok] looks at. *)
Definition same_idem (w w' : World) : Prop :=
  rows IdempotencyRecord (db w') = rows IdempotencyRecord (db w) ∧
  executed w' = executed w ∧ idempotency (srv w') = idempotency (srv w).

Lemma once_ok_same w w' : same_idem w w' → once_ok w → once_ok w'.
Proof.
  intros (Hr & He & Hc) [H1 H2 H3 H4 H5 H6].
  split; unfold answered, stored_answer in *; rewrite ?Hr, ?He, ?Hc; auto.
Qed.

(** ** Computations that preserve it *)

Definition keeps {A} (m : R A) : Prop := ∀ w, once_ok w → once_ok (m w).2.

Lemma keeps_ret {A} (a : A) : keeps (mret a).
Proof. by intros w. Qed.

Lemma keeps_raise {A} e : keeps (raise (A := A) e).
Proof. by intros w. Qed.

Lemma keeps_fail {A} c s : keeps (fail (A := A) c s).
Proof. by intros w. Qed.

Lemma keeps_refuse b c s : keeps (refuse b c s).
Proof. by destruct b; intros w. Qed.

Lemma keeps_bind {A B} (m : R A) (k : A → R B) : keeps m → (∀ a, keeps (k a)) → keeps (mbind k m).
Proof.
  intros Hm Hk w Hw. unfold mbind, R_bind. specialize (Hm w Hw).
  destruct (m w) as [[e|a] w']; cbn in *; [done|]. by apply Hk.
Qed.

Lemma keeps_only_if b m : keeps m → keeps (only_if b m).
Proof. destruct b; [done|]. intros _. apply keeps_ret. Qed.

Lemma keeps_gets {A} (f : Server → A) : keeps (gets f).
Proof. by intros w. Qed.

Lemma keeps_modify f : (∀ s, idempotency (f s) = idempotency s) → keeps (modify f).
Proof. intros Hf w. apply once_ok_same. repeat split. apply Hf. Qed.

Lemma keeps_unixNow : keeps unixNow.
Proof. intros w. by apply once_ok_same. Qed.

Lemma keeps_NewID p : keeps (NewID p).
Proof. intros w. by apply once_ok_same. Qed.

Lemma keeps_stored {A} (m : M A) : untouched IdempotencyRecord m → keeps (stored m).
Proof.
  intros Hm w. apply once_ok_same. unfold stored, same_idem, rows. specialize (Hm (db w)).
  destruct (m (db w)) as [r d]; cbn in *. by rewrite Hm.
Qed.

Lemma keeps_or_status {A} f (m : R (error + A)) : keeps m → keeps (or_status f m).
Proof. intros Hm. apply keeps_bind; [done|]. intros [e|a]; [apply keeps_raise|apply keeps_ret]. Qed.

Lemma keeps_run {A} (m : R A) w : keeps m → once_ok w → ∀ r w', m w = (r, w') → once_ok w'.
Proof. intros Hm Hw r w' Er. specialize (Hm w Hw). by rewrite Er in Hm. Qed.

(** ** The records *)

Lemma wp_idem_get m k Q s :
  unique_rows (rows IdempotencyRecord s) = true →
  ((∀ r, r ∈ rows IdempotencyRecord s → key_of r ≠ rpc_key m k) → Q (inl ErrNotFound) s) →
  (∀ r, r ∈ rows IdempotencyRecord s → key_of r = rpc_key m k → Q (inr r) s) →
  wp (GetIdempotencyRecord "daemonrpc" m "" k) Q s.
Proof.
  intros Hu H1 H2. unfold GetIdempotencyRecord, or_not_found. apply wp_bind, wp_map_error.
  apply wp_only_key; [done|..].
  - intros a b. rewrite !has_key_spec. intros Ha%bool_decide_eq_true Hb%bool_decide_eq_true.
    apply same_key_clash. congruence.
  - intros Hn. cbn. apply H1. intros r Hr Hk. pose proof (bfilter_nil_inv _ _ _ Hn Hr) as Hf.
    rewrite has_key_spec in Hf. by apply bool_decide_eq_false in Hf.
  - intros r Hr. cbn. replace (idempotencyRecordFromEnt r) with r by by destruct r.
    assert (r ∈ bfilter (has_key "daemonrpc" m "" k) (rows IdempotencyRecord s)) as Hin
      by (rewrite Hr; set_solver).
    apply elem_of_bfilter in Hin as [Hin Hk]. rewrite has_key_spec in Hk.
    apply bool_decide_eq_true in Hk. apply wp_ret. auto.
Qed.

Lemma same_record (l : list IdempotencyRecord) r r' :
  unique_rows l = true → r ∈ l → r' ∈ l → key_of r = key_of r' → r = r'.
Proof.
  intros Hu Hr Hr' Hk.
  destruct (unique_filter (λ x, bool_decide (key_of x = key_of r)) l Hu) as [E0|[x E0]].
  - intros a b Ha%bool_decide_eq_true Hb%bool_decide_eq_true. apply same_key_clash. congruence.
  - pose proof (bfilter_nil_inv _ _ _ E0 Hr) as Hf. by apply bool_decide_eq_false in Hf.
  - apply bfilter_singleton_inv in E0 as (_ & _ & Hx).
    rewrite (Hx r), (Hx r'); [done|done|by apply bool_decide_true|done|by apply bool_decide_true].
Qed.

(** A reservation: the key's row appears, or the row that has it is returned. *)
Lemma wp_idem_reserve now id m k Q s :
  unique_rows (rows IdempotencyRecord s) = true → m ≠ "" → k ≠ "" →
  (∀ e, Q (inl e) s) →
  (∀ row t, (∀ r, r ∈ rows IdempotencyRecord s → key_of r ≠ rpc_key m k) →
     key_of row = rpc_key m k → Ir.Status row = "pending" →
     tbl_rows t = rows IdempotencyRecord s ++ [row] → unique_rows (tbl_rows t) = true →
     Q (inr (row, true)) (put_tbl t s)) →
  (∀ r, r ∈ rows IdempotencyRecord s → key_of r = rpc_key m k → Q (inr (r, false)) s) →
  wp (ReserveIdempotencyRecord now id (pending_record m k)) Q s.
Proof.
  intros Hu Hm Hk He Hnew Hold. unfold ReserveIdempotencyRecord.
  set (u := when _ _ (when _ _ _)).
  assert (key_of u = rpc_key m k) as Hku.
  { subst u. unfold key_of. by rewrite !(when_proj Ir.Scope), !(when_proj Ir.Method),
      !(when_proj Ir.ActorID), !(when_proj Ir.IdempotencyKey). }
  assert (Ir.Status u = "pending") as Hs.
  { subst u. unfold when. repeat case_match; reflexivity. }
  clearbody u. unfold key_of, rpc_key in Hku. injection Hku as E1 E2 E3 E4. rewrite !E1, !E2, !E3, !E4, !Hs.
  apply wp_try, wp_create; cbn beta iota.
  - intros _. apply He.
  - intros _ _. change (IsConstraintError EntConstraint) with true. cbn beta iota.
    apply wp_bind, wp_idem_get; [done|intros _; apply He|]. intros r Hr Hkr. by apply Hold.
  - intros _ Hc t Ht. set (row := _ |> Ir.set_ExpiresUnix _).
    replace (idempotencyRecordFromEnt _) with row by done.
    apply Hnew; [|done..|].
    + intros r Hr Hkr. apply has_clash_false with (r' := r) in Hc; [|done].
      rewrite same_key_clash in Hc; [done|]. by rewrite Hkr.
    + rewrite Ht. by apply unique_app_one.
Qed.

(** ** The rules of requests *)

Section request.
Context {T : Type} `{!Proto T, !ProtoLaws T}.
Context (method : string) (Hname : full_name (T := T) = response_name method)
        (Hcolon : no_colon method = true) (Hmethod : method ≠ "").

Lemma cache_key_not_empty rid ik :
  firstNonEmpty [ik; rid] ≠ "" →
  idempotencyCacheKey method rid ik = method +:+ ":" +:+ firstNonEmpty [ik; rid] ∧
  (idempotencyCacheKey method rid ik =s "") = false.
Proof.
  intros Hk%eqb_neq_str. unfold idempotencyCacheKey. rewrite Hk. split; [done|].
  apply eqb_neq_str. by destruct method.
Qed.

Lemma cache_key_empty rid ik :
  firstNonEmpty [ik; rid] = "" → idempotencyCacheKey method rid ik = "".
Proof. intros Hk. unfold idempotencyCacheKey. by rewrite Hk. Qed.

(** Answers of other keys survive a completion. *)
Lemma stored_answer_complete w m k x k' f rs :
  (method, k') ≠ (m, k) → stored_answer m k x w →
  rs = update_rows (has_key "daemonrpc" method "" k') f (rows IdempotencyRecord (db w)) →
  ∃ r, r ∈ rs ∧ key_of r = rpc_key m k ∧ Ir.Status r = "completed" ∧
    Unmarshal (response_name m) (Ir.ResponseJSON r) = Some x.
Proof.
  intros Hne (r & Hr & Hk & Hs & Hu) ->. exists r. split; [|done].
  apply elem_of_update_rows. exists r. split; [done|].
  destruct (has_key _ _ _ _ r) eqn:Er; [|done]. rewrite has_key_spec, Hk in Er.
  apply bool_decide_eq_true in Er. unfold rpc_key in Er. congruence.
Qed.

Definition completion (k : string) (t : T) (body : string) : IdempotencyRecord := Ir.zero
  |> Ir.set_Scope "daemonrpc" |> Ir.set_Method method |> Ir.set_IdempotencyKey k
  |> Ir.set_ResponseType (MessageName (to_message t)) |> Ir.set_ResponseJSON body
  |> Ir.set_Status "completed".

Definition cached (key : string) (t : T) (w : World) : World :=
  set_srv (put_idempotency (<[key := to_message (T := T) t]> (idempotency (srv w))) (srv w)) w.

(** The rows of a completion, whatever the store answers. *)
Lemma complete_rows k t body s :
  unique_rows (rows IdempotencyRecord s) = true →
  wp (CompleteIdempotencyRecord (completion k t body)) (λ _ d,
    rows IdempotencyRecord d = update_rows (has_key "daemonrpc" method "" k)
      (complete_fields (completion k t body)) (rows IdempotencyRecord s)) s.
Proof.
  intros Hu. unfold CompleteIdempotencyRecord. apply wp_bind.
  apply wp_update_keys; [exact Hu|solve_keeps|done|]. intros _ t' Ht _.
  destruct (_ =? 0); apply wp_ret || apply wp_throw; rewrite rows_put; exact Ht.
Qed.

(** A remembered answer that was marshalled is stored. *)
Lemma once_ok_complete w k t body d :
  Marshal (to_message t) = Some body → k ≠ "" → known !! (method, k) = Some None → once_ok w →
  rows IdempotencyRecord d = update_rows (has_key "daemonrpc" method "" k)
    (complete_fields (completion k t body)) (rows IdempotencyRecord (db w)) →
  let w' := mkWorld (srv (cached (method +:+ ":" +:+ k) t w)) d (draws w) (executed w) in
  once_ok w' ∧ answered method k (to_message t) w'.
Proof.
  intros Hb Hne Hk [H1 H2 H3 H4 H5 H6] Hd w'.
  assert (Unmarshal (response_name method) body = Some (to_message t)) as Hun.
  { rewrite <-Hname, <-(name_to t). by apply unmarshal_marshal. }
  assert (stored_answer method k (to_message t) w') as Hst.
  { destruct (H6 _ _ _ Hk) as (_ & _ & He & _). destruct (H3 _ _ (He eq_refl)) as (r & Hr & Hkr).
    exists (complete_fields (completion k t body) r). subst w'. cbn [db]. rewrite Hd, elem_of_update_rows.
    split; [|done]. exists r. split; [done|]. replace (has_key _ _ _ _ r) with true; [done|].
    rewrite has_key_spec, Hkr. symmetry. by apply bool_decide_eq_true. }
  subst w'. split; [split; cbn [db srv executed]|].
  - rewrite Hd, unique_update; [done|solve_keeps].
  - done.
  - intros m k' (r & Hr & Hkr)%H3. eexists. rewrite Hd, elem_of_update_rows.
    split; [by exists r|]. by destruct (has_key _ _ _ _ r).
  - intros m k' r Hr Hkr Hs. rewrite Hd in Hr. apply elem_of_update_rows in Hr as (y & Hy & ->).
    destruct (has_key _ _ _ _ y) eqn:Ey; [|by apply (H4 _ k')].
    rewrite has_key_spec in Ey. apply bool_decide_eq_true in Ey.
    assert (m = method) as -> by (unfold key_of, rpc_key in *; cbn in *; congruence).
    split; [by apply (marshal_not_empty (to_message t))|]. by exists (to_message t).
  - cbn. intros key x Hx. destruct (decide (key = method +:+ ":" +:+ k)) as [->|Hkey].
    + rewrite lookup_insert_eq in Hx. injection Hx as <-. exists method, k.
      by rewrite name_to, Hname.
    + rewrite lookup_insert_ne in Hx by done.
      destruct (H5 key x Hx) as (m & k' & Hm & -> & Hn & Hst'). exists m, k'.
      do 3 (split; [done|]). intros HM. eapply stored_answer_complete; [|by apply Hst'|exact Hd]. congruence.
  - intros m k' o Ho. destruct (H6 m k' o Ho) as (Hm & Hk' & He & Ha). do 3 (split; [done|]).
    intros x ->. destruct (Ha x eq_refl) as [Hc Hst']. split.
    + cbn. intros y. rewrite lookup_insert_ne; [apply Hc|]. intros [<- <-]%colon_split; [congruence|done..].
    + eapply stored_answer_complete; [|exact Hst'|exact Hd]. congruence.
  - split; [|done]. cbn. intros y. rewrite lookup_insert_eq. congruence.
Qed.

Lemma once_ok_cache w k t :
  Marshal (to_message t) = None → known !! (method, k) = Some None → once_ok w →
  once_ok (cached (method +:+ ":" +:+ k) t w).
Proof.
  intros Hb Hk [H1 H2 H3 H4 H5 H6]. split; try done; cbn.
  - intros key x Hx. destruct (decide (key = method +:+ ":" +:+ k)) as [->|Hne].
    + rewrite lookup_insert_eq in Hx. injection Hx as <-. exists method, k.
      by rewrite name_to, Hname.
    + rewrite lookup_insert_ne in Hx by done. eauto.
  - intros m k' o Ho. destruct (H6 m k' o Ho) as (Hm & Hk' & He & Ha). do 3 (split; [done|]).
    intros x ->. destruct (Ha x eq_refl) as [Hc Hst']. split; [|done]. cbn. intros y.
    rewrite lookup_insert_ne; [apply Hc|]. intros [<- <-]%colon_split; [congruence|done..].
Qed.

(** [remember] after the body began: the answer is kept, and stored if it can be. *)
Lemma remember_run rid ik (t : T) w :
  let k := firstNonEmpty [ik; rid] in
  begun method k → once_ok w →
  ∃ w', remember method rid ik t w = (inr (), w') ∧ once_ok w' ∧
    (k ≠ "" → Marshal (to_message t) ≠ None → answered method k (to_message t) w').
Proof.
  intros k Hk Hw. unfold remember. fold k. destruct (decide (k = "")) as [He|Hne].
  { rewrite (cache_key_empty rid ik He). by exists w. }
  destruct Hk as [?|Hk]; [done|]. destruct (cache_key_not_empty rid ik Hne) as [-> ->].
  fold k. unfold modify. unfold mbind, R_bind. fold (cached (method +:+ ":" +:+ k) t w).
  destruct (Marshal (to_message t)) as [body|] eqn:Hb.
  - unfold stored. fold (completion k t body).
    pose proof (complete_rows k t body (db w) (ok_unique _ Hw)) as Hrun. unfold wp in Hrun.
    change (db (set_srv _ w)) with (db w). destruct (CompleteIdempotencyRecord _ _) as [r d].
    destruct (once_ok_complete w k t body d Hb Hne Hk Hw Hrun) as [Hw' Ha].
    eexists. split; [reflexivity|]. split; [exact Hw'|]. intros _ _. exact Ha.
  - eexists. split; [reflexivity|]. split; [by apply once_ok_cache|done].
Qed.

Lemma keeps_remember rid ik (t : T) :
  begun method (firstNonEmpty [ik; rid]) → keeps (remember method rid ik t).
Proof. intros Hk w Hw. destruct (remember_run rid ik t w Hk Hw) as (w' & -> & Hw' & _). exact Hw'. Qed.

Lemma keeps_remembered rid ik (t : T) :
  begun method (firstNonEmpty [ik; rid]) → keeps (remembered method rid ik t).
Proof. intros Hk. apply keeps_bind; [by apply keeps_remember|intros; apply keeps_ret]. Qed.

End request.
End known.

(** ** Reservations and replays *)

Section request.
Context {T : Type} `{!Proto T, !ProtoLaws T}.
Context (method : string) (Hname : full_name (T := T) = response_name method)
        (Hcolon : no_colon method = true) (Hmethod : method ≠ "").
Context (known : gmap (string * string) (option message)).

(** What [replay] finds: an answer, stored if it could be marshalled; or nothing, and then
    the key has no completed record. *)
Lemma replay_run rid ik w :
  let k := firstNonEmpty [ik; rid] in
  once_ok known w → k ≠ "" →
  ∃ o, replay (T := T) method rid ik w = (inr o, w) ∧
    match o with
    | None => ∀ r, r ∈ rows IdempotencyRecord (db w) → key_of r = rpc_key method k → Ir.Status r ≠ "completed"
    | Some t => Marshal (to_message t) ≠ None → answered method k (to_message t) w
    end.
Proof.
  intros k Hw Hne. unfold replay. destruct (cache_key_not_empty (T := T) method Hname Hcolon Hmethod rid ik Hne) as [Hkey ->].
  fold k in Hkey |- *. clearbody k. unfold gets. unfold mbind, R_bind.
  destruct (idempotency (srv w) !! _) as [x|] eqn:Hx.
  - eexists. split; [done|]. destruct (ok_cached _ _ Hw _ _ Hx) as (m & k' & Hm & Ek & Hn & Hst).
    rewrite Hkey in Ek. apply colon_split in Ek as [<- <-]; [|done..].
    rewrite <-Hname in Hn. destruct (of_named _ Hn) as [t ->]. rewrite of_to. intros HM.
    split; [|by apply Hst]. rewrite <-Hkey, Hx. congruence.
  - unfold stored.
    assert (wp (GetIdempotencyRecord "daemonrpc" method "" k) (λ r d, d = db w ∧
      match r with
      | inl _ => ∀ r, r ∈ rows IdempotencyRecord (db w) → key_of r ≠ rpc_key method k
      | inr r => r ∈ rows IdempotencyRecord (db w) ∧ key_of r = rpc_key method k
      end) (db w)) as Hget.
    { apply wp_idem_get; [apply (ok_unique _ _ Hw)|auto..]. }
    unfold wp in Hget. destruct (GetIdempotencyRecord _ _ _ _ _) as [[e|r] d]; cbn in Hget; destruct Hget as [-> Hr].
    + exists None. split; [by destruct w|]. intros r Hin Hk. by apply Hr in Hk.
    + destruct Hr as [Hin Hk]. cbv beta iota. replace (mkWorld _ _ _ _) with w by by destruct w.
      destruct (Ir.Status r =s "completed") eqn:Es; cbn [negb orb]; reflect_bools.
      * destruct (ok_completed _ _ Hw _ _ _ Hin Hk Es) as (Hj & x & Hx').
        apply eqb_neq_str in Hj. rewrite Hj, Hname, Hx'. eexists. split; [done|].
        pose proof (unmarshal_named _ _ _ Hx') as Hn. rewrite <-Hname in Hn.
        destruct (of_named _ Hn) as [t ->]. cbn. rewrite of_to. intros _.
        split; [by rewrite <-Hkey, Hx|by exists r].
      * exists None. split; [done|]. intros r' Hin' Hk'.
        by rewrite (same_record _ r' r (ok_unique _ _ Hw) Hin' Hin (eq_trans Hk' (eq_sym Hk))).
Qed.

(** What is answered is replayed: nothing happens. *)
Lemma replay_answered rid ik x w :
  once_ok known w → known !! (method, firstNonEmpty [ik; rid]) = Some (Some x) →
  ∃ t, x = to_message t ∧ replay (T := T) method rid ik w = (inr (Some t), w).
Proof.
  intros Hw Hx. destruct (ok_known _ _ Hw _ _ _ Hx) as (_ & Hne & _ & Ha).
  destruct (Ha x eq_refl) as (Hc & r & Hin & Hk & Hs & Hu).
  pose proof (unmarshal_named _ _ _ Hu) as Hn. rewrite <-Hname in Hn.
  destruct (of_named _ Hn) as [t ->]. exists t. split; [done|].
  unfold replay. destruct (cache_key_not_empty (T := T) method Hname Hcolon Hmethod rid ik Hne) as [-> ->].
  unfold gets. unfold mbind, R_bind.
  destruct (idempotency (srv w) !! _) as [y|] eqn:Hy; [by rewrite (Hc y eq_refl), of_to|].
  unfold stored. set (k := firstNonEmpty [ik; rid]) in *.
  assert (wp (GetIdempotencyRecord "daemonrpc" method "" k) (λ o d, o = inr r ∧ d = db w) (db w)) as Hget.
  { apply wp_idem_get; [apply (ok_unique _ _ Hw)|by intros Hn'; destruct (Hn' r Hin)|]. intros r' Hr' Hk'.
    by rewrite (same_record _ r' r (ok_unique _ _ Hw) Hr' Hin (eq_trans Hk' (eq_sym Hk))). }
  unfold wp in Hget. destruct (GetIdempotencyRecord _ _ _ _ _) as [o d].
  destruct Hget as [Ho Hd]. cbn in Ho, Hd. subst o d.
  cbv beta iota. replace (mkWorld _ _ _ _) with w by by destruct w.
  destruct (ok_completed _ _ Hw _ _ _ Hin Hk Hs) as [Hj _]. apply eqb_neq_str in Hj.
  apply eqb_eq_str in Hs. rewrite Hs, Hj, Hname, Hu. cbn. by rewrite of_to.
Qed.

(** Forgetting that a body began. *)
Lemma once_ok_forget k w :
  (∀ x, known !! (method, k) ≠ Some (Some x)) → once_ok (<[(method, k) := None]> known) w → once_ok known w.
Proof.
  intros Hk [H1 H2 H3 H4 H5 H6]. split; try done. intros m k' o Ho. apply H6.
  destruct (decide ((m, k') = (method, k))) as [[= -> ->]|Hne].
  - rewrite lookup_insert_eq. destruct o as [x|]; [|done]. by destruct (Hk x).
  - by rewrite lookup_insert_ne.
Qed.

(** After a reservation of a key that has no completed record. *)
Lemma reserved_world now id k w :
  once_ok known w → k ≠ "" →
  (∀ r, r ∈ rows IdempotencyRecord (db w) → key_of r = rpc_key method k → Ir.Status r ≠ "completed") →
  wp (ReserveIdempotencyRecord now id (pending_record method k)) (λ r d,
    match r with
    | inl _ => d = db w
    | inr (_, true) => ∀ n, once_ok (<[(method, k) := None]> known) (mkWorld (srv w) d n ((method, k) :: executed w))
    | inr (row, false) => d = db w ∧ (Ir.Status row =s "completed") = false
    end) (db w).
Proof.
  intros Hw Hne Hnone. apply wp_idem_reserve; [apply (ok_unique _ _ Hw)|done..| |].
  - intros row t Hfree Hrow Hs Ht Hu n. destruct Hw as [H1 H2 H3 H4 H5 H6].
    assert (∀ m k' x, stored_answer m k' x w →
      stored_answer m k' x (mkWorld (srv w) (put_tbl t (db w)) n ((method, k) :: executed w))) as Hst.
    { intros m k' x (r & Hr & Hst). exists r. cbn [db]. rewrite rows_put, Ht. set_solver. }
    split; cbn [db srv executed]; rewrite ?rows_put, ?Ht in *; try done.
    + constructor; [|done]. intros (r & Hr & Hk)%H3. by apply (Hfree r).
    + intros m k' [[= -> ->]|Hin]%elem_of_cons; [exists row; set_solver|].
      destruct (H3 _ _ Hin) as (r & ? & ?). exists r. set_solver.
    + intros m k' r [Hr|Hr%list_elem_of_singleton]%elem_of_app Hk Hc; [by apply (H4 m k')|].
      subst r. congruence.
    + intros key x (m & k' & Hm & Ek & Hn & Hst')%H5. exists m, k'. do 3 (split; [done|]). intros HM. by apply Hst, Hst'.
    + intros m k' o. destruct (decide ((m, k') = (method, k))) as [[= -> ->]|Hk].
      * rewrite lookup_insert_eq. intros [= <-]. repeat split; [done|done|intros _; left|done..].
      * rewrite lookup_insert_ne by done. intros Ho. destruct (H6 m k' o Ho) as (Hm & Hk' & He & Ha).
        split; [done|]. split; [done|]. split; [intros Hn; right; by apply He|].
        intros x Hx. destruct (Ha x Hx) as [Hc Hs']. split; [exact Hc|auto].
  - intros r Hr Hk. split; [done|]. by apply eqb_neq_str, Hnone.
Qed.

(** A reservation that lets the body run leaves the key's new row behind. *)
Lemma reserve_run rid ik w :
  let k := firstNonEmpty [ik; rid] in
  once_ok known w → k ≠ "" →
  (∀ r, r ∈ rows IdempotencyRecord (db w) → key_of r = rpc_key method k → Ir.Status r ≠ "completed") →
  ∃ r w', reserve method rid ik w = (r, w') ∧
    match r with
    | inl _ => once_ok known w'
    | inr _ => once_ok (<[(method, k) := None]> known)
                 (mkWorld (srv w') (db w') (draws w') ((method, k) :: executed w'))
    end.
Proof.
  intros k Hw Hne Hnone. unfold reserve. fold k. rewrite (proj2 (eqb_neq_str k "") Hne).
  clearbody k. unfold mbind, R_bind, unixNow, NewID, or_status, stored, mbind, R_bind.
  cbn [srv db draws executed].
  match goal with
  | |- context [ReserveIdempotencyRecord ?n ?i _ _] =>
      pose proof (reserved_world n i k w Hw Hne Hnone) as Hres; revert Hres;
      generalize (ReserveIdempotencyRecord n i (pending_record method k))
  end.
  intros m Hres. unfold wp in Hres. destruct (m (db w)) as [[e|[row created]] d]; cbn in Hres.
  - eexists _, _. split; [reflexivity|]. subst d. by apply (once_ok_same known w).
  - destruct created.
    + eexists _, _. split; [reflexivity|]. apply Hres.
    + destruct Hres as [-> Hs]. cbn [orb]. cbv beta iota. unfold mret, R_ret.
      unfold Id.Status, Ir.Status in *. rewrite Hs. eexists _, _. split; [reflexivity|].
      by apply (once_ok_same known w).
Qed.

(** An idempotent request: it is replayed, refused, or its body runs. *)
Lemma once_run rid ik (body : R T) w (Q : (rpc_error + T) * World → Prop) :
  let k := firstNonEmpty [ik; rid] in
  once_ok known w →
  (∀ t, (k ≠ "" → Marshal (to_message t) ≠ None → answered method k (to_message t) w) →
     (∀ x, known !! (method, k) = Some (Some x) → x = to_message t) → Q (inr t, w)) →
  (∀ e w', once_ok known w' → Q (inl e, w')) →
  (k = "" → Q (body w)) →
  (∀ w', k ≠ "" → (∀ x, known !! (method, k) ≠ Some (Some x)) →
     once_ok (<[(method, k) := None]> known) w' → Q (body w')) →
  Q (once method rid ik body w).
Proof.
  intros k Hw Hrep Hfail Hempty Hbody. unfold once, begin. fold k.
  destruct (decide (k = "")) as [He|Hne].
  { unfold replay, reserve. rewrite (cache_key_empty method rid ik He). fold k. rewrite He. cbn.
    destruct w. by apply Hempty. }
  destruct (known !! (method, k)) as [[x|]|] eqn:Hx.
  { destruct (replay_answered rid ik x w Hw Hx) as (t & -> & Hrun). unfold mbind, R_bind. rewrite Hrun.
    apply Hrep; [|congruence]. intros _ _. by destruct (ok_known _ _ Hw _ _ _ Hx) as (_ & _ & _ & Ha); apply Ha. }
  all: destruct (replay_run rid ik w Hw Hne) as (o & Hrun & Ho); fold k in Ho;
    unfold mbind at 1, R_bind; rewrite Hrun;
    (destruct o as [t|]; [apply Hrep; [auto|congruence]|]);
    destruct (reserve_run rid ik w Hw Hne Ho) as (r & w' & Hres & Hok); fold k in Hok;
    unfold mbind, R_bind; rewrite Hres; (destruct r as [e|[]]; [by apply Hfail|]);
    rewrite (proj2 (eqb_neq_str k "") Hne); by apply Hbody.
Qed.

Lemma keeps_once rid ik (body : R T) :
  (∀ known, begun known method (firstNonEmpty [ik; rid]) → keeps known body) →
  keeps known (once method rid ik body).
Proof.
  intros Hb w Hw. apply once_run; [done|done|done|..].
  - intros He. apply Hb; [by left|done].
  - intros w' _ Hk Hw'. apply (once_ok_forget _ _ Hk), Hb; [|done]. right. apply lookup_insert_eq.
Qed.

(** ** Answers that stay *)

(** After its key began, the computation succeeds only with a remembered answer. *)
Definition remembers (k : string) (m : R T) : Prop :=
  ∀ known w t w', begun known method k → once_ok known w → m w = (inr t, w') →
    once_ok known w' ∧ (k ≠ "" → Marshal (to_message t) ≠ None → answered method k (to_message t) w').

Lemma remembers_remembered rid ik t : remembers (firstNonEmpty [ik; rid]) (remembered method rid ik t).
Proof.
  intros kn w t' w' Hk Hw. unfold remembered, mbind, R_bind.
  destruct (remember_run kn method Hname Hcolon Hmethod rid ik t w Hk Hw) as (w'' & -> & Hw'' & Ha).
  intros [= <- <-]. auto.
Qed.

Lemma remembers_bind {A} k (m : R A) (f : A → R T) :
  (∀ known, begun known method k → keeps known m) → (∀ a, remembers k (f a)) → remembers k (mbind f m).
Proof.
  intros Hm Hf kn w t w' Hk Hw. unfold mbind, R_bind. specialize (Hm kn Hk w Hw).
  destruct (m w) as [[e|a] w1]; [discriminate|]. by apply Hf.
Qed.

Lemma remembers_fail k c s : remembers k (fail c s).
Proof. intros kn w t w' _ _ H. discriminate H. Qed.

Lemma remembers_raise k e : remembers k (raise e).
Proof. intros kn w t w' _ _ H. discriminate H. Qed.

(** A request whose body remembers its answer. *)
Lemma answers_once rid ik (body : R T) w t w' :
  let k := firstNonEmpty [ik; rid] in
  remembers k body → once_ok known w → once method rid ik body w = (inr t, w') → k ≠ "" →
  Marshal (to_message t) ≠ None → once_ok known w' ∧ answered method k (to_message t) w'.
Proof.
  intros k Hb Hw. revert t w'.
  apply (once_run rid ik body w (λ res, ∀ t w', res = (inr t, w') → k ≠ "" →
    Marshal (to_message t) ≠ None → once_ok known w' ∧ answered method k (to_message t) w'));
    fold k; [done|..].
  - intros t Ha _ t' w' [= <- <-] Hk HM. auto.
  - discriminate.
  - done.
  - intros w1 Hk Hkn Hw1 t w' Hrun _ HM.
    destruct (Hb (<[(method, k) := None]> known) w1 t w') as [Hw' Ha]; [right; apply lookup_insert_eq|done..|].
    split; [by apply (once_ok_forget k)|auto].
Qed.

(** What is learnt from an answer, and what it is good for. *)
Lemma once_ok_learn k t w :
  once_ok known w → k ≠ "" → answered method k (to_message (T := T) t) w →
  once_ok (<[(method, k) := Some (to_message t)]> known) w.
Proof.
  intros [H1 H2 H3 H4 H5 H6] Hk Ha. split; try done. intros m k' o.
  destruct (decide ((m, k') = (method, k))) as [[= -> ->]|Hne].
  - rewrite lookup_insert_eq. intros [= <-]. split_and!; try done. intros x [= <-]. exact Ha.
  - rewrite lookup_insert_ne by done. apply H6.
Qed.

Lemma once_answered rid ik (body : R T) t w :
  once_ok known w → known !! (method, firstNonEmpty [ik; rid]) = Some (Some (to_message t)) →
  once method rid ik body w = (inr t, w).
Proof.
  intros Hw Ht. destruct (replay_answered rid ik _ w Hw Ht) as (t' & E' & Hrun).
  unfold once, mbind, R_bind. rewrite Hrun. apply (f_equal of_message) in E'. rewrite !of_to in E'.
  by injection E' as ->.
Qed.

End request.

End once.

Create HintDb once discriminated.

(** One rule of [keeps], by the computation's head, as [untouched_step]. *)
Ltac keeps_step :=
  cbv beta;
  lazymatch goal with
  | |- ?P (let x := ?v in @?b x) => generalize_let P v b
  | |- keeps _ (match ?x with _ => _ end) => destruct x
  | |- keeps _ (mbind _ _) => apply keeps_bind; [|intros]
  | |- keeps _ (mret _) => apply keeps_ret
  | |- keeps _ (raise _) => apply keeps_raise
  | |- keeps _ (fail _ _) => apply keeps_fail
  | |- keeps _ (refuse _ _ _) => apply keeps_refuse
  | |- keeps _ (gets _) => apply keeps_gets
  | |- keeps _ (modify _) => apply keeps_modify; by intros ?
  | |- keeps _ unixNow => apply keeps_unixNow
  | |- keeps _ (NewID _) => apply keeps_NewID
  | |- keeps _ (once _ _ _ _) => apply keeps_once; [reflexivity|reflexivity|done|intros ? ?]
  | |- keeps _ (remembered _ _ _ _) => apply keeps_remembered; [apply _|reflexivity|reflexivity|done|assumption]
  | |- keeps _ (remember _ _ _ _) => apply keeps_remember; [apply _|reflexivity|reflexivity|done|assumption]
  | |- keeps _ (or_status _ _) => apply keeps_or_status
  | |- keeps _ (only_if _ _) => apply keeps_only_if
  | |- keeps _ (stored _) => apply keeps_stored; solve_untouched
  | |- keeps _ ?m => first [assumption | solve [auto with once nocore] | let h := head_of m in unfold h]
  end.

Ltac solve_once := repeat keeps_step.

(** One rule of [remembers]. *)
Ltac remembers_step :=
  cbv beta;
  lazymatch goal with
  | |- ?P (let x := ?v in @?b x) => generalize_let P v b
  | |- remembers _ _ (match ?x with _ => _ end) => destruct x
  | |- remembers _ _ (mbind _ _) => apply remembers_bind; [intros ? ?; solve_once|intros]
  | |- remembers _ _ (fail _ _) => apply remembers_fail
  | |- remembers _ _ (raise _) => apply remembers_raise
  | |- remembers _ _ (remembered _ _ _ _) => apply remembers_remembered; [reflexivity|reflexivity|done]
  end.

Ltac solve_remembers := repeat remembers_step.
