(* ===== verification/RpcConv.v ===== *)
(** * Between the store's records and the protocol's messages
    ([internal/daemonrpc/server.go], [memory.go], [tunnels.go])

    The spellings of enums in the database and back, and the messages made of rows. *)
From S2P Require Import Prelude GoStr GoText Sql Models Schema Store Proto Rpc.

(** ** Enums *)

Definition taskAttemptStatusFromRunState (state : Z) : option string :=
  if (state =? daemonv1.RunState_RUN_STATE_QUEUED)%Z || (state =? daemonv1.RunState_RUN_STATE_UNSPECIFIED)%Z then Some "claimed"
  else if (state =? daemonv1.RunState_RUN_STATE_RUNNING)%Z || (state =? daemonv1.RunState_RUN_STATE_BLOCKED)%Z then Some "running"
  else if (state =? daemonv1.RunState_RUN_STATE_COMPLETED)%Z then Some "completed"
  else if (state =? daemonv1.RunState_RUN_STATE_FAILED)%Z then Some "failed"
  else if (state =? daemonv1.RunState_RUN_STATE_CANCELED)%Z then Some "canceled"
  else None.

Definition collaborationEventKindFromStorage `{!Unicode} (kind : string) : Z :=
  let v := ToLower (TrimSpace kind) in
  if (v =s "activity") then daemonv1.CollaborationEventKind_COLLABORATION_EVENT_KIND_ACTIVITY
  else if (v =s "message") then daemonv1.CollaborationEventKind_COLLABORATION_EVENT_KIND_MESSAGE
  else if (v =s "task") then daemonv1.CollaborationEventKind_COLLABORATION_EVENT_KIND_TASK
  else if (v =s "reminder") then daemonv1.CollaborationEventKind_COLLABORATION_EVENT_KIND_REMINDER
  else if (v =s "coordination") then daemonv1.CollaborationEventKind_COLLABORATION_EVENT_KIND_COORDINATION
  else if (v =s "memory") then daemonv1.CollaborationEventKind_COLLABORATION_EVENT_KIND_MEMORY
  else if (v =s "run") then daemonv1.CollaborationEventKind_COLLABORATION_EVENT_KIND_RUN
  else if (v =s "run_step") then daemonv1.CollaborationEventKind_COLLABORATION_EVENT_KIND_RUN_STEP
  else if (v =s "attachment") then daemonv1.CollaborationEventKind_COLLABORATION_EVENT_KIND_ATTACHMENT
  else if (v =s "ping") then daemonv1.CollaborationEventKind_COLLABORATION_EVENT_KIND_PING
  else daemonv1.CollaborationEventKind_COLLABORATION_EVENT_KIND_UNSPECIFIED.

Definition defaultEventOperationForKind `{!Unicode} (kind : string) : Z :=
  let v := ToLower (TrimSpace kind) in
  if (v =s "message") || (v =s "run_step") then daemonv1.EventOperation_EVENT_OPERATION_APPENDED
  else if (v =s "ping") then daemonv1.EventOperation_EVENT_OPERATION_HEARTBEAT
  else if (v =s "task") || (v =s "run") then daemonv1.EventOperation_EVENT_OPERATION_STATE_CHANGED
  else daemonv1.EventOperation_EVENT_OPERATION_CREATED.

Definition eventOperationFromStorage `{!Unicode} (kind : string) : Z :=
  let v := ToLower (TrimSpace kind) in
  if (v =s "appended") || (v =s "message") || (v =s "run_step") then daemonv1.EventOperation_EVENT_OPERATION_APPENDED
  else if (v =s "heartbeat") || (v =s "ping") then daemonv1.EventOperation_EVENT_OPERATION_HEARTBEAT
  else if (v =s "state_changed") || (v =s "task") || (v =s "run") then daemonv1.EventOperation_EVENT_OPERATION_STATE_CHANGED
  else if (v =s "created") then daemonv1.EventOperation_EVENT_OPERATION_CREATED
  else if (v =s "updated") then daemonv1.EventOperation_EVENT_OPERATION_UPDATED
  else if (v =s "deleted") then daemonv1.EventOperation_EVENT_OPERATION_DELETED
  else if (v =s "claimed") then daemonv1.EventOperation_EVENT_OPERATION_CLAIMED
  else if (v =s "released") then daemonv1.EventOperation_EVENT_OPERATION_RELEASED
  else if (v =s "failed") then daemonv1.EventOperation_EVENT_OPERATION_FAILED
  else if (v =s "canceled") then daemonv1.EventOperation_EVENT_OPERATION_CANCELED
  else if (v =s "invalidated") then daemonv1.EventOperation_EVENT_OPERATION_INVALIDATED
  else if (v =s "snapshot") then daemonv1.EventOperation_EVENT_OPERATION_SNAPSHOT
  else daemonv1.EventOperation_EVENT_OPERATION_UNSPECIFIED.

Definition eventOperationToStorage (operation : Z) : string :=
  if (operation =? daemonv1.EventOperation_EVENT_OPERATION_CREATED)%Z then "created"
  else if (operation =? daemonv1.EventOperation_EVENT_OPERATION_UPDATED)%Z then "updated"
  else if (operation =? daemonv1.EventOperation_EVENT_OPERATION_DELETED)%Z then "deleted"
  else if (operation =? daemonv1.EventOperation_EVENT_OPERATION_STATE_CHANGED)%Z then "state_changed"
  else if (operation =? daemonv1.EventOperation_EVENT_OPERATION_APPENDED)%Z then "appended"
  else if (operation =? daemonv1.EventOperation_EVENT_OPERATION_CLAIMED)%Z then "claimed"
  else if (operation =? daemonv1.EventOperation_EVENT_OPERATION_RELEASED)%Z then "released"
  else if (operation =? daemonv1.EventOperation_EVENT_OPERATION_FAILED)%Z then "failed"
  else if (operation =? daemonv1.EventOperation_EVENT_OPERATION_CANCELED)%Z then "canceled"
  else if (operation =? daemonv1.EventOperation_EVENT_OPERATION_HEARTBEAT)%Z then "heartbeat"
  else if (operation =? daemonv1.EventOperation_EVENT_OPERATION_INVALIDATED)%Z then "invalidated"
  else if (operation =? daemonv1.EventOperation_EVENT_OPERATION_SNAPSHOT)%Z then "snapshot"
  else "".

Definition eventScopeTypeToStorage (scopeType : Z) : string :=
  if (scopeType =? daemonv1.EventScopeType_EVENT_SCOPE_TYPE_SERVER)%Z then "server"
  else if (scopeType =? daemonv1.EventScopeType_EVENT_SCOPE_TYPE_WORKSPACE)%Z then "workspace"
  else if (scopeType =? daemonv1.EventScopeType_EVENT_SCOPE_TYPE_TARGET)%Z then "target"
  else if (scopeType =? daemonv1.EventScopeType_EVENT_SCOPE_TYPE_THREAD)%Z then "thread"
  else if (scopeType =? daemonv1.EventScopeType_EVENT_SCOPE_TYPE_TASK)%Z then "task"
  else if (scopeType =? daemonv1.EventScopeType_EVENT_SCOPE_TYPE_RUN)%Z then "run"
  else if (scopeType =? daemonv1.EventScopeType_EVENT_SCOPE_TYPE_AGENT)%Z then "agent"
  else if (scopeType =? daemonv1.EventScopeType_EVENT_SCOPE_TYPE_COMPUTER)%Z then "computer"
  else if (scopeType =? daemonv1.EventScopeType_EVENT_SCOPE_TYPE_USER)%Z then "user"
  else if (scopeType =? daemonv1.EventScopeType_EVENT_SCOPE_TYPE_ENDPOINT)%Z then "endpoint"
  else if (scopeType =? daemonv1.EventScopeType_EVENT_SCOPE_TYPE_DAEMON)%Z then "daemon"
  else if (scopeType =? daemonv1.EventScopeType_EVENT_SCOPE_TYPE_CUSTOM)%Z then "custom"
  else "".

Definition eventScopeTypeFromStorage `{!Unicode} (scopeType : string) : Z :=
  let v := ToLower (TrimSpace scopeType) in
  if (v =s "server") then daemonv1.EventScopeType_EVENT_SCOPE_TYPE_SERVER
  else if (v =s "workspace") then daemonv1.EventScopeType_EVENT_SCOPE_TYPE_WORKSPACE
  else if (v =s "target") then daemonv1.EventScopeType_EVENT_SCOPE_TYPE_TARGET
  else if (v =s "thread") then daemonv1.EventScopeType_EVENT_SCOPE_TYPE_THREAD
  else if (v =s "task") then daemonv1.EventScopeType_EVENT_SCOPE_TYPE_TASK
  else if (v =s "run") then daemonv1.EventScopeType_EVENT_SCOPE_TYPE_RUN
  else if (v =s "agent") then daemonv1.EventScopeType_EVENT_SCOPE_TYPE_AGENT
  else if (v =s "computer") then daemonv1.EventScopeType_EVENT_SCOPE_TYPE_COMPUTER
  else if (v =s "user") then daemonv1.EventScopeType_EVENT_SCOPE_TYPE_USER
  else if (v =s "endpoint") then daemonv1.EventScopeType_EVENT_SCOPE_TYPE_ENDPOINT
  else if (v =s "daemon") then daemonv1.EventScopeType_EVENT_SCOPE_TYPE_DAEMON
  else if (v =s "custom") then daemonv1.EventScopeType_EVENT_SCOPE_TYPE_CUSTOM
  else daemonv1.EventScopeType_EVENT_SCOPE_TYPE_UNSPECIFIED.

Definition messageSearchSortToStorage (sort : Z) : string :=
  if (sort =? daemonv1.MessageSearchSort_MESSAGE_SEARCH_SORT_RECENT)%Z then "recent"
  else if (sort =? daemonv1.MessageSearchSort_MESSAGE_SEARCH_SORT_RELEVANCE)%Z then "relevance"
  else "".

Definition outboundDeliveryStatusToStorage (statusValue : Z) : string :=
  if (statusValue =? daemonv1.OutboundDeliveryStatus_OUTBOUND_DELIVERY_STATUS_PENDING)%Z then "pending"
  else if (statusValue =? daemonv1.OutboundDeliveryStatus_OUTBOUND_DELIVERY_STATUS_DELIVERED)%Z then "delivered"
  else if (statusValue =? daemonv1.OutboundDeliveryStatus_OUTBOUND_DELIVERY_STATUS_FAILED)%Z then "failed"
  else if (statusValue =? daemonv1.OutboundDeliveryStatus_OUTBOUND_DELIVERY_STATUS_RETRYING)%Z then "retrying"
  else if (statusValue =? daemonv1.OutboundDeliveryStatus_OUTBOUND_DELIVERY_STATUS_CANCELED)%Z then "canceled"
  else "".

Definition outboundDeliveryStatusFromStorage `{!Unicode} (statusValue : string) : Z :=
  let v := ToLower (TrimSpace statusValue) in
  if (v =s "pending") then daemonv1.OutboundDeliveryStatus_OUTBOUND_DELIVERY_STATUS_PENDING
  else if (v =s "delivered") then daemonv1.OutboundDeliveryStatus_OUTBOUND_DELIVERY_STATUS_DELIVERED
  else if (v =s "failed") then daemonv1.OutboundDeliveryStatus_OUTBOUND_DELIVERY_STATUS_FAILED
  else if (v =s "retrying") then daemonv1.OutboundDeliveryStatus_OUTBOUND_DELIVERY_STATUS_RETRYING
  else if (v =s "canceled") || (v =s "cancelled") then daemonv1.OutboundDeliveryStatus_OUTBOUND_DELIVERY_STATUS_CANCELED
  else daemonv1.OutboundDeliveryStatus_OUTBOUND_DELIVERY_STATUS_UNSPECIFIED.

Definition outboundDeliveryOperation (statusValue : Z) : Z :=
  if (statusValue =? daemonv1.OutboundDeliveryStatus_OUTBOUND_DELIVERY_STATUS_FAILED)%Z then daemonv1.EventOperation_EVENT_OPERATION_FAILED
  else if (statusValue =? daemonv1.OutboundDeliveryStatus_OUTBOUND_DELIVERY_STATUS_CANCELED)%Z then daemonv1.EventOperation_EVENT_OPERATION_CANCELED
  else daemonv1.EventOperation_EVENT_OPERATION_STATE_CHANGED.

Definition actorKindToStorage (kind : Z) : string :=
  if (kind =? daemonv1.ActorKind_ACTOR_KIND_HUMAN)%Z then "human"
  else if (kind =? daemonv1.ActorKind_ACTOR_KIND_AGENT)%Z then "agent"
  else if (kind =? daemonv1.ActorKind_ACTOR_KIND_DAEMON)%Z then "daemon"
  else if (kind =? daemonv1.ActorKind_ACTOR_KIND_ENDPOINT)%Z then "endpoint"
  else if (kind =? daemonv1.ActorKind_ACTOR_KIND_SYSTEM)%Z then "system"
  else "".

Definition messageKindToStorage (kind : Z) : string :=
  if (kind =? daemonv1.MessageKind_MESSAGE_KIND_DECISION)%Z then "decision"
  else if (kind =? daemonv1.MessageKind_MESSAGE_KIND_BLOCKER)%Z then "blocker"
  else if (kind =? daemonv1.MessageKind_MESSAGE_KIND_STATUS)%Z then "status"
  else if (kind =? daemonv1.MessageKind_MESSAGE_KIND_NOTE)%Z then "note"
  else "".

Definition messageKindFromStorage (kind : string) : Z :=
  if (kind =s "decision") then daemonv1.MessageKind_MESSAGE_KIND_DECISION
  else if (kind =s "blocker") then daemonv1.MessageKind_MESSAGE_KIND_BLOCKER
  else if (kind =s "status") then daemonv1.MessageKind_MESSAGE_KIND_STATUS
  else if (kind =s "note") then daemonv1.MessageKind_MESSAGE_KIND_NOTE
  else daemonv1.MessageKind_MESSAGE_KIND_UNSPECIFIED.

Definition actorKindFromStorage `{!Unicode} (kind : string) : Z :=
  let v := ToLower (TrimSpace kind) in
  if (v =s "human") || (v =s "user") then daemonv1.ActorKind_ACTOR_KIND_HUMAN
  else if (v =s "agent") then daemonv1.ActorKind_ACTOR_KIND_AGENT
  else if (v =s "daemon") then daemonv1.ActorKind_ACTOR_KIND_DAEMON
  else if (v =s "endpoint") then daemonv1.ActorKind_ACTOR_KIND_ENDPOINT
  else if (v =s "system") then daemonv1.ActorKind_ACTOR_KIND_SYSTEM
  else daemonv1.ActorKind_ACTOR_KIND_UNSPECIFIED.

Definition endpointAuthModeFromStorage `{!Unicode} (mode : string) : Z :=
  let v := ToLower (TrimSpace mode) in
  if (v =s "cookie") then daemonv1.EndpointAuthMode_ENDPOINT_AUTH_MODE_COOKIE
  else if (v =s "bearer") then daemonv1.EndpointAuthMode_ENDPOINT_AUTH_MODE_BEARER
  else if (v =s "webhook_signature") then daemonv1.EndpointAuthMode_ENDPOINT_AUTH_MODE_WEBHOOK_SIGNATURE
  else if (v =s "mcp_token") then daemonv1.EndpointAuthMode_ENDPOINT_AUTH_MODE_MCP_TOKEN
  else if (v =s "none") then daemonv1.EndpointAuthMode_ENDPOINT_AUTH_MODE_NONE
  else daemonv1.EndpointAuthMode_ENDPOINT_AUTH_MODE_UNSPECIFIED.

Definition reminderStatusToStorage (status : Z) : string :=
  if (status =? daemonv1.ReminderStatus_REMINDER_STATUS_ACTIVE)%Z then "active"
  else if (status =? daemonv1.ReminderStatus_REMINDER_STATUS_DONE)%Z then "done"
  else if (status =? daemonv1.ReminderStatus_REMINDER_STATUS_CANCELED)%Z then "canceled"
  else if (status =? daemonv1.ReminderStatus_REMINDER_STATUS_PAUSED)%Z then "paused"
  else if (status =? daemonv1.ReminderStatus_REMINDER_STATUS_FAILED)%Z then "failed"
  else "".

Definition reminderStatusFromStorage `{!Unicode} (status : string) : Z :=
  let v := ToLower (TrimSpace status) in
  if (v =s "active") then daemonv1.ReminderStatus_REMINDER_STATUS_ACTIVE
  else if (v =s "done") then daemonv1.ReminderStatus_REMINDER_STATUS_DONE
  else if (v =s "canceled") || (v =s "cancelled") then daemonv1.ReminderStatus_REMINDER_STATUS_CANCELED
  else if (v =s "paused") then daemonv1.ReminderStatus_REMINDER_STATUS_PAUSED
  else if (v =s "failed") then daemonv1.ReminderStatus_REMINDER_STATUS_FAILED
  else daemonv1.ReminderStatus_REMINDER_STATUS_UNSPECIFIED.

Definition reminderScheduleKindToStorage (kind : Z) : string :=
  if (kind =? daemonv1.ReminderScheduleKind_REMINDER_SCHEDULE_KIND_CRON)%Z then "cron"
  else if (kind =? daemonv1.ReminderScheduleKind_REMINDER_SCHEDULE_KIND_EVERY)%Z then "every"
  else if (kind =? daemonv1.ReminderScheduleKind_REMINDER_SCHEDULE_KIND_AT)%Z then "at"
  else if (kind =? daemonv1.ReminderScheduleKind_REMINDER_SCHEDULE_KIND_RRULE)%Z then "rrule"
  else if (kind =? daemonv1.ReminderScheduleKind_REMINDER_SCHEDULE_KIND_NATURAL)%Z then "natural"
  else "".

Definition reminderScheduleKindFromStorage `{!Unicode} (kind : string) : Z :=
  let v := ToLower (TrimSpace kind) in
  if (v =s "cron") then daemonv1.ReminderScheduleKind_REMINDER_SCHEDULE_KIND_CRON
  else if (v =s "every") then daemonv1.ReminderScheduleKind_REMINDER_SCHEDULE_KIND_EVERY
  else if (v =s "at") then daemonv1.ReminderScheduleKind_REMINDER_SCHEDULE_KIND_AT
  else if (v =s "rrule") then daemonv1.ReminderScheduleKind_REMINDER_SCHEDULE_KIND_RRULE
  else if (v =s "natural") then daemonv1.ReminderScheduleKind_REMINDER_SCHEDULE_KIND_NATURAL
  else daemonv1.ReminderScheduleKind_REMINDER_SCHEDULE_KIND_UNSPECIFIED.

Definition reminderEventTypeFromStorage `{!Unicode} (value : string) : Z :=
  let v := ToLower (TrimSpace value) in
  if (v =s "created") then daemonv1.ReminderEventType_REMINDER_EVENT_TYPE_CREATED
  else if (v =s "fired") then daemonv1.ReminderEventType_REMINDER_EVENT_TYPE_FIRED
  else if (v =s "snoozed") then daemonv1.ReminderEventType_REMINDER_EVENT_TYPE_SNOOZED
  else if (v =s "updated") then daemonv1.ReminderEventType_REMINDER_EVENT_TYPE_UPDATED
  else if (v =s "canceled") || (v =s "cancelled") then daemonv1.ReminderEventType_REMINDER_EVENT_TYPE_CANCELED
  else if (v =s "failed") then daemonv1.ReminderEventType_REMINDER_EVENT_TYPE_FAILED
  else daemonv1.ReminderEventType_REMINDER_EVENT_TYPE_UNSPECIFIED.

Definition reminderActorTypeFromStorage `{!Unicode} (value : string) : Z :=
  let v := ToLower (TrimSpace value) in
  if (v =s "human") then daemonv1.ReminderActorType_REMINDER_ACTOR_TYPE_HUMAN
  else if (v =s "agent") then daemonv1.ReminderActorType_REMINDER_ACTOR_TYPE_AGENT
  else if (v =s "system") then daemonv1.ReminderActorType_REMINDER_ACTOR_TYPE_SYSTEM
  else daemonv1.ReminderActorType_REMINDER_ACTOR_TYPE_UNSPECIFIED.

Definition taskStateToStorage (state : Z) : option string :=
  if (state =? daemonv1.TaskState_TASK_STATE_TODO)%Z then Some "todo"
  else if (state =? daemonv1.TaskState_TASK_STATE_IN_PROGRESS)%Z then Some "in_progress"
  else if (state =? daemonv1.TaskState_TASK_STATE_IN_REVIEW)%Z then Some "in_review"
  else if (state =? daemonv1.TaskState_TASK_STATE_DONE)%Z then Some "done"
  else if (state =? daemonv1.TaskState_TASK_STATE_BLOCKED)%Z then Some "blocked"
  else if (state =? daemonv1.TaskState_TASK_STATE_CANCELED)%Z then Some "canceled"
  else None.

Definition taskStateFromStorage `{!Unicode} (state : string) : Z :=
  let v := ToLower (TrimSpace state) in
  if (v =s "todo") then daemonv1.TaskState_TASK_STATE_TODO
  else if (v =s "in_progress") then daemonv1.TaskState_TASK_STATE_IN_PROGRESS
  else if (v =s "in_review") then daemonv1.TaskState_TASK_STATE_IN_REVIEW
  else if (v =s "done") then daemonv1.TaskState_TASK_STATE_DONE
  else if (v =s "blocked") then daemonv1.TaskState_TASK_STATE_BLOCKED
  else if (v =s "canceled") || (v =s "cancelled") then daemonv1.TaskState_TASK_STATE_CANCELED
  else daemonv1.TaskState_TASK_STATE_UNSPECIFIED.

Definition isTerminalRunState (state : Z) : bool :=
  if (state =? daemonv1.RunState_RUN_STATE_COMPLETED)%Z || (state =? daemonv1.RunState_RUN_STATE_FAILED)%Z || (state =? daemonv1.RunState_RUN_STATE_CANCELED)%Z then true
  else false.

Definition agentControlActionLabel (action : Z) : string :=
  if (action =? daemonv1.AgentControlAction_AGENT_CONTROL_ACTION_TERMINATE)%Z then "terminate"
  else if (action =? daemonv1.AgentControlAction_AGENT_CONTROL_ACTION_RESTART)%Z then "restart"
  else if (action =? daemonv1.AgentControlAction_AGENT_CONTROL_ACTION_RESTART_RESET_SESSION)%Z then "clear context + restart"
  else if (action =? daemonv1.AgentControlAction_AGENT_CONTROL_ACTION_RESTART_FULL_RESET)%Z then "full reset + restart"
  else "control".

Definition agentControlStateLabel (state : Z) : string :=
  if (state =? daemonv1.AgentControlState_AGENT_CONTROL_STATE_QUEUED)%Z then "queued"
  else if (state =? daemonv1.AgentControlState_AGENT_CONTROL_STATE_RUNNING)%Z then "running"
  else if (state =? daemonv1.AgentControlState_AGENT_CONTROL_STATE_COMPLETED)%Z then "completed"
  else if (state =? daemonv1.AgentControlState_AGENT_CONTROL_STATE_FAILED)%Z then "failed"
  else if (state =? daemonv1.AgentControlState_AGENT_CONTROL_STATE_UNSUPPORTED)%Z then "unsupported"
  else "unspecified".

Definition decisionStatusFromProto (status : Z) : string :=
  if (status =? daemonv1.DecisionStatus_DECISION_STATUS_PROPOSED)%Z then "proposed"
  else if (status =? daemonv1.DecisionStatus_DECISION_STATUS_RATIFIED)%Z then "ratified"
  else if (status =? daemonv1.DecisionStatus_DECISION_STATUS_REJECTED)%Z then "rejected"
  else if (status =? daemonv1.DecisionStatus_DECISION_STATUS_RETIRED)%Z then "retired"
  else "".

Definition decisionStatusToProto (status : string) : Z :=
  if (status =s "proposed") then daemonv1.DecisionStatus_DECISION_STATUS_PROPOSED
  else if (status =s "ratified") then daemonv1.DecisionStatus_DECISION_STATUS_RATIFIED
  else if (status =s "rejected") then daemonv1.DecisionStatus_DECISION_STATUS_REJECTED
  else if (status =s "retired") then daemonv1.DecisionStatus_DECISION_STATUS_RETIRED
  else daemonv1.DecisionStatus_DECISION_STATUS_UNSPECIFIED.

Definition decisionVoteFromProto (vote : Z) : string :=
  if (vote =? daemonv1.DecisionVote_DECISION_VOTE_APPROVE)%Z then "approve"
  else if (vote =? daemonv1.DecisionVote_DECISION_VOTE_REJECT)%Z then "reject"
  else if (vote =? daemonv1.DecisionVote_DECISION_VOTE_ABSTAIN)%Z then "abstain"
  else "".

Definition decisionVoteToProto (vote : string) : Z :=
  if (vote =s "approve") then daemonv1.DecisionVote_DECISION_VOTE_APPROVE
  else if (vote =s "reject") then daemonv1.DecisionVote_DECISION_VOTE_REJECT
  else if (vote =s "abstain") then daemonv1.DecisionVote_DECISION_VOTE_ABSTAIN
  else daemonv1.DecisionVote_DECISION_VOTE_UNSPECIFIED.

Definition actorKindToProto `{!Unicode} (kind : string) : Z :=
  let v := ToLower kind in
  if (v =s "agent") then daemonv1.ActorKind_ACTOR_KIND_AGENT
  else if (v =s "human") || (v =s "user") then daemonv1.ActorKind_ACTOR_KIND_HUMAN
  else daemonv1.ActorKind_ACTOR_KIND_UNSPECIFIED.

Definition agentRunPhaseFromProto (phase : Z) : string :=
  if (phase =? daemonv1.AgentRunPhase_AGENT_RUN_PHASE_START)%Z then "start"
  else if (phase =? daemonv1.AgentRunPhase_AGENT_RUN_PHASE_TOOL_CALL)%Z then "tool_call"
  else if (phase =? daemonv1.AgentRunPhase_AGENT_RUN_PHASE_TOOL_RESULT)%Z then "tool_result"
  else if (phase =? daemonv1.AgentRunPhase_AGENT_RUN_PHASE_ERROR)%Z then "error"
  else if (phase =? daemonv1.AgentRunPhase_AGENT_RUN_PHASE_OUTPUT)%Z then "output"
  else if (phase =? daemonv1.AgentRunPhase_AGENT_RUN_PHASE_END)%Z then "end"
  else "".

Definition agentRunPhaseToProto (phase : string) : Z :=
  if (phase =s "start") then daemonv1.AgentRunPhase_AGENT_RUN_PHASE_START
  else if (phase =s "tool_call") then daemonv1.AgentRunPhase_AGENT_RUN_PHASE_TOOL_CALL
  else if (phase =s "tool_result") then daemonv1.AgentRunPhase_AGENT_RUN_PHASE_TOOL_RESULT
  else if (phase =s "error") then daemonv1.AgentRunPhase_AGENT_RUN_PHASE_ERROR
  else if (phase =s "output") then daemonv1.AgentRunPhase_AGENT_RUN_PHASE_OUTPUT
  else if (phase =s "end") then daemonv1.AgentRunPhase_AGENT_RUN_PHASE_END
  else daemonv1.AgentRunPhase_AGENT_RUN_PHASE_UNSPECIFIED.

Definition tunnelStateToStorage (state : Z) : string :=
  if (state =? daemonv1.TunnelState_TUNNEL_STATE_PENDING_APPROVAL)%Z then "pending_approval"
  else if (state =? daemonv1.TunnelState_TUNNEL_STATE_ACTIVE)%Z then "active"
  else if (state =? daemonv1.TunnelState_TUNNEL_STATE_REJECTED)%Z then "rejected"
  else if (state =? daemonv1.TunnelState_TUNNEL_STATE_CLOSED)%Z then "closed"
  else "".

Definition tunnelStateFromStorage (state : string) : Z :=
  if (state =s "pending_approval") then daemonv1.TunnelState_TUNNEL_STATE_PENDING_APPROVAL
  else if (state =s "active") then daemonv1.TunnelState_TUNNEL_STATE_ACTIVE
  else if (state =s "rejected") then daemonv1.TunnelState_TUNNEL_STATE_REJECTED
  else if (state =s "closed") then daemonv1.TunnelState_TUNNEL_STATE_CLOSED
  else daemonv1.TunnelState_TUNNEL_STATE_UNSPECIFIED.

Definition accessPolicyToStorage (policy : Z) : string :=
  if (policy =? daemonv1.TunnelAccessPolicy_TUNNEL_ACCESS_POLICY_PRIVATE)%Z then "private"
  else if (policy =? daemonv1.TunnelAccessPolicy_TUNNEL_ACCESS_POLICY_PUBLIC)%Z then "public"
  else "members".

Definition accessPolicyFromStorage (policy : string) : Z :=
  if (policy =s "private") then daemonv1.TunnelAccessPolicy_TUNNEL_ACCESS_POLICY_PRIVATE
  else if (policy =s "public") then daemonv1.TunnelAccessPolicy_TUNNEL_ACCESS_POLICY_PUBLIC
  else if (policy =s "members") then daemonv1.TunnelAccessPolicy_TUNNEL_ACCESS_POLICY_MEMBERS
  else daemonv1.TunnelAccessPolicy_TUNNEL_ACCESS_POLICY_UNSPECIFIED.

Definition creatorKindToProto (kind : string) : Z :=
  if (kind =s "agent") then daemonv1.ActorKind_ACTOR_KIND_AGENT
  else if (kind =s "human") then daemonv1.ActorKind_ACTOR_KIND_HUMAN
  else daemonv1.ActorKind_ACTOR_KIND_UNSPECIFIED.

(** ** Records *)

Definition attachmentToProto (attachment : Attachment) : daemonv1.AttachmentRecord.AttachmentRecord :=
  daemonv1.AttachmentRecord.zero
    |> daemonv1.AttachmentRecord.set_AttachmentId (Attachment.ID attachment)
    |> daemonv1.AttachmentRecord.set_Target (Attachment.Target attachment)
    |> daemonv1.AttachmentRecord.set_OwnerId (Attachment.OwnerID attachment)
    |> daemonv1.AttachmentRecord.set_Filename (Attachment.Filename attachment)
    |> daemonv1.AttachmentRecord.set_MimeType (Attachment.MimeType attachment)
    |> daemonv1.AttachmentRecord.set_SizeBytes (Attachment.SizeBytes attachment)
    |> daemonv1.AttachmentRecord.set_StorageRef (Attachment.StorageRef attachment)
    |> daemonv1.AttachmentRecord.set_DownloadUrl (Attachment.DownloadURL attachment)
    |> daemonv1.AttachmentRecord.set_UploadUrl (Attachment.UploadURL attachment)
    |> daemonv1.AttachmentRecord.set_ExpiresTimeUnix (Attachment.ExpiresTimeUnix attachment)
    |> daemonv1.AttachmentRecord.set_CreatedTimeUnix (Attachment.CreatedUnix attachment).

Definition messageToProto `{!Unicode} (msg : Message) : daemonv1.CollaborationMessage.CollaborationMessage :=
  let sender := daemonv1.Actor.zero
    |> daemonv1.Actor.set_ActorKind (actorKindFromStorage (Message.SenderKind msg))
    |> daemonv1.Actor.set_AgentId (Message.SenderAgentID msg)
    |> daemonv1.Actor.set_UserId (Message.SenderUserID msg)
    |> daemonv1.Actor.set_DisplayName (Message.SenderDisplayName msg) in
  daemonv1.CollaborationMessage.zero
    |> daemonv1.CollaborationMessage.set_MessageId (Message.ID msg)
    |> daemonv1.CollaborationMessage.set_Target (Message.Target msg)
    |> daemonv1.CollaborationMessage.set_ThreadId (Message.ThreadID msg)
    |> daemonv1.CollaborationMessage.set_Role (Message.Role msg)
    |> daemonv1.CollaborationMessage.set_Kind (messageKindFromStorage (Message.Kind msg))
    |> daemonv1.CollaborationMessage.set_Content (Message.Content msg)
    |> daemonv1.CollaborationMessage.set_ReplyToMessageId (Message.ReplyToMessageID msg)
    |> daemonv1.CollaborationMessage.set_CreatedTimeUnix (Message.CreatedUnix msg)
    |> daemonv1.CollaborationMessage.set_RequestId (Message.RequestID msg)
    |> daemonv1.CollaborationMessage.set_SourceEndpointId (Message.SourceEndpointID msg)
    |> daemonv1.CollaborationMessage.set_ExternalMessageId (Message.ExternalMessageID msg)
    |> daemonv1.CollaborationMessage.set_MetadataJson (Message.MetadataJSON msg)
    |> daemonv1.CollaborationMessage.set_Attachments (map attachmentToProto (Message.Attachments msg))
    |> daemonv1.CollaborationMessage.set_Sender (Some sender)
    |> daemonv1.CollaborationMessage.set_AggregateId (Message.Target msg).

Definition outboundDeliveryToProto `{!Unicode} (delivery : OutboundDelivery) : daemonv1.OutboundDeliveryRecord.OutboundDeliveryRecord :=
  daemonv1.OutboundDeliveryRecord.zero
    |> daemonv1.OutboundDeliveryRecord.set_DeliveryId (OutboundDelivery.ID delivery)
    |> daemonv1.OutboundDeliveryRecord.set_Target (OutboundDelivery.Target delivery)
    |> daemonv1.OutboundDeliveryRecord.set_MessageId (OutboundDelivery.MessageID delivery)
    |> daemonv1.OutboundDeliveryRecord.set_EndpointId (OutboundDelivery.EndpointID delivery)
    |> daemonv1.OutboundDeliveryRecord.set_EndpointKind (OutboundDelivery.EndpointKind delivery)
    |> daemonv1.OutboundDeliveryRecord.set_ExternalMessageId (OutboundDelivery.ExternalMessageID delivery)
    |> daemonv1.OutboundDeliveryRecord.set_Status (outboundDeliveryStatusFromStorage (OutboundDelivery.Status delivery))
    |> daemonv1.OutboundDeliveryRecord.set_AttemptCount (OutboundDelivery.AttemptCount delivery)
    |> daemonv1.OutboundDeliveryRecord.set_NextRetryTimeUnix (OutboundDelivery.NextRetryTimeUnix delivery)
    |> daemonv1.OutboundDeliveryRecord.set_DeliveredTimeUnix (OutboundDelivery.DeliveredTimeUnix delivery)
    |> daemonv1.OutboundDeliveryRecord.set_LastError (OutboundDelivery.LastError delivery)
    |> daemonv1.OutboundDeliveryRecord.set_RequestId (OutboundDelivery.RequestID delivery).

Definition savedMessageToProto `{!Unicode} (saved : SavedMessage) : daemonv1.SavedMessageRecord.SavedMessageRecord :=
  daemonv1.SavedMessageRecord.zero
    |> daemonv1.SavedMessageRecord.set_SavedMessageId (SavedMessage.ID saved)
    |> daemonv1.SavedMessageRecord.set_Target (SavedMessage.Target saved)
    |> daemonv1.SavedMessageRecord.set_ThreadId (Message.ThreadID (SavedMessage.Message saved))
    |> daemonv1.SavedMessageRecord.set_MessageId (SavedMessage.MessageID saved)
    |> daemonv1.SavedMessageRecord.set_SavedByAgentId (SavedMessage.SavedByAgentID saved)
    |> daemonv1.SavedMessageRecord.set_SavedByUserId (SavedMessage.SavedByUserID saved)
    |> daemonv1.SavedMessageRecord.set_SavedTimeUnix (SavedMessage.CreatedUnix saved)
    |> daemonv1.SavedMessageRecord.set_Message (Some (messageToProto (SavedMessage.Message saved))).

Definition endpointToProto `{!Unicode} (endpoint : InteractionEndpoint) : daemonv1.InteractionEndpoint.InteractionEndpoint :=
  daemonv1.InteractionEndpoint.zero
    |> daemonv1.InteractionEndpoint.set_EndpointId (InteractionEndpoint.ID endpoint)
    |> daemonv1.InteractionEndpoint.set_Kind (InteractionEndpoint.Kind endpoint)
    |> daemonv1.InteractionEndpoint.set_Provider (InteractionEndpoint.Provider endpoint)
    |> daemonv1.InteractionEndpoint.set_DisplayName (InteractionEndpoint.DisplayName endpoint)
    |> daemonv1.InteractionEndpoint.set_TargetPrefix (InteractionEndpoint.TargetPrefix endpoint)
    |> daemonv1.InteractionEndpoint.set_InboundEnabled (InteractionEndpoint.InboundEnabled endpoint)
    |> daemonv1.InteractionEndpoint.set_OutboundEnabled (InteractionEndpoint.OutboundEnabled endpoint)
    |> daemonv1.InteractionEndpoint.set_AuthMode (endpointAuthModeFromStorage (InteractionEndpoint.AuthMode endpoint))
    |> daemonv1.InteractionEndpoint.set_ConfigJson (InteractionEndpoint.ConfigJSON endpoint).

Definition taskToProto `{!Unicode} (task : Task) : daemonv1.Task.Task :=
  daemonv1.Task.zero
    |> daemonv1.Task.set_TaskId (Task.ID task)
    |> daemonv1.Task.set_Summary (Task.Summary task)
    |> daemonv1.Task.set_State (taskStateFromStorage (Task.State task))
    |> daemonv1.Task.set_Target (Task.Target task)
    |> daemonv1.Task.set_ThreadId (Task.ID task)
    |> daemonv1.Task.set_AssigneeId (Task.AssigneeID task)
    |> daemonv1.Task.set_CreatedByUserId (Task.CreatedByUserID task)
    |> daemonv1.Task.set_BlockedReason (Task.BlockedReason task)
    |> daemonv1.Task.set_BoardColumn (Task.State task)
    |> daemonv1.Task.set_CreatedTimeUnix (Task.CreatedUnix task)
    |> daemonv1.Task.set_UpdatedTimeUnix (Task.UpdatedUnix task)
    |> daemonv1.Task.set_ClaimPolicy daemonv1.TaskClaimPolicy_TASK_CLAIM_POLICY_EXCLUSIVE
    |> daemonv1.Task.set_GraphVersion (Task.Version task)
    |> daemonv1.Task.set_ClaimLeaseId (Task.ClaimLeaseID task).

Definition reminderEventToProto `{!Unicode} (event : ReminderEvent) : daemonv1.ReminderEvent.ReminderEvent :=
  daemonv1.ReminderEvent.zero
    |> daemonv1.ReminderEvent.set_EventId (ReminderEvent.ID event)
    |> daemonv1.ReminderEvent.set_ReminderId (ReminderEvent.ReminderID event)
    |> daemonv1.ReminderEvent.set_EventType (reminderEventTypeFromStorage (ReminderEvent.EventType event))
    |> daemonv1.ReminderEvent.set_ActorType (reminderActorTypeFromStorage (ReminderEvent.ActorType event))
    |> daemonv1.ReminderEvent.set_ActorId (ReminderEvent.ActorID event)
    |> daemonv1.ReminderEvent.set_OccurredTimeUnix (ReminderEvent.OccurredTimeUnix event)
    |> daemonv1.ReminderEvent.set_NextFireTimeUnix (ReminderEvent.NextFireTimeUnix event)
    |> daemonv1.ReminderEvent.set_Detail (ReminderEvent.Detail event).

Definition decisionToProto `{!Unicode} (row : ChannelDecision) : daemonv1.ChannelDecision.ChannelDecision :=
  daemonv1.ChannelDecision.zero
    |> daemonv1.ChannelDecision.set_DecisionId (ChannelDecision.ID row)
    |> daemonv1.ChannelDecision.set_Target (ChannelDecision.Target row)
    |> daemonv1.ChannelDecision.set_Title (ChannelDecision.Title row)
    |> daemonv1.ChannelDecision.set_Body (ChannelDecision.Body row)
    |> daemonv1.ChannelDecision.set_Status (decisionStatusToProto (ChannelDecision.Status row))
    |> daemonv1.ChannelDecision.set_ProposerId (ChannelDecision.ProposerID row)
    |> daemonv1.ChannelDecision.set_ProposerKind (actorKindToProto (ChannelDecision.ProposerKind row))
    |> daemonv1.ChannelDecision.set_CreatedTimeUnix (ChannelDecision.CreatedUnix row)
    |> daemonv1.ChannelDecision.set_RatifiedTimeUnix (ChannelDecision.RatifiedUnix row)
    |> daemonv1.ChannelDecision.set_RetiredTimeUnix (ChannelDecision.RetiredUnix row)
    |> daemonv1.ChannelDecision.set_RetiredBy (ChannelDecision.RetiredBy row)
    |> daemonv1.ChannelDecision.set_RetireReason (ChannelDecision.RetireReason row)
    |> daemonv1.ChannelDecision.set_SupersedesDecisionId (ChannelDecision.SupersedesDecisionID row)
    |> daemonv1.ChannelDecision.set_ApproveCount (ChannelDecision.ApproveCount row)
    |> daemonv1.ChannelDecision.set_RejectCount (ChannelDecision.RejectCount row)
    |> daemonv1.ChannelDecision.set_AbstainCount (ChannelDecision.AbstainCount row).

Definition decisionVoteRecordToProto `{!Unicode} (row : ChannelDecisionVote) : daemonv1.DecisionVoteRecord.DecisionVoteRecord :=
  daemonv1.DecisionVoteRecord.zero
    |> daemonv1.DecisionVoteRecord.set_DecisionId (ChannelDecisionVote.DecisionID row)
    |> daemonv1.DecisionVoteRecord.set_VoterId (ChannelDecisionVote.VoterID row)
    |> daemonv1.DecisionVoteRecord.set_VoterKind (actorKindToProto (ChannelDecisionVote.VoterKind row))
    |> daemonv1.DecisionVoteRecord.set_Decision (decisionVoteToProto (ChannelDecisionVote.Decision row))
    |> daemonv1.DecisionVoteRecord.set_VotedTimeUnix (ChannelDecisionVote.VotedUnix row)
    |> daemonv1.DecisionVoteRecord.set_Reason (ChannelDecisionVote.Reason row).

Definition agentRunSummaryToProto (row : AgentRun) : daemonv1.AgentRunSummary.AgentRunSummary :=
  daemonv1.AgentRunSummary.zero
    |> daemonv1.AgentRunSummary.set_RunId (AgentRun.ID row)
    |> daemonv1.AgentRunSummary.set_AgentId (AgentRun.AgentID row)
    |> daemonv1.AgentRunSummary.set_ComputerId (AgentRun.ComputerID row)
    |> daemonv1.AgentRunSummary.set_StartedTimeUnix (AgentRun.StartedUnix row)
    |> daemonv1.AgentRunSummary.set_EndedTimeUnix (AgentRun.EndedUnix row)
    |> daemonv1.AgentRunSummary.set_ExitCode (AgentRun.ExitCode row)
    |> daemonv1.AgentRunSummary.set_Summary (AgentRun.Summary row)
    |> daemonv1.AgentRunSummary.set_ErrorMessage (AgentRun.Error row)
    |> daemonv1.AgentRunSummary.set_EventCount (AgentRun.EventCount row).

Definition agentRunEventToProto (row : AgentRunEvent) : daemonv1.AgentRunEvent.AgentRunEvent :=
  daemonv1.AgentRunEvent.zero
    |> daemonv1.AgentRunEvent.set_RunId (AgentRunEvent.RunID row)
    |> daemonv1.AgentRunEvent.set_Phase (agentRunPhaseToProto (AgentRunEvent.Phase row))
    |> daemonv1.AgentRunEvent.set_AtUnixNano (AgentRunEvent.AtUnixNano row)
    |> daemonv1.AgentRunEvent.set_Summary (AgentRunEvent.Summary row)
    |> daemonv1.AgentRunEvent.set_PayloadJson (AgentRunEvent.PayloadJSON row)
    |> daemonv1.AgentRunEvent.set_ExitCode (AgentRunEvent.ExitCode row)
    |> daemonv1.AgentRunEvent.set_ErrorMessage (AgentRunEvent.ErrorMessage row).

Definition tunnelToProto (record : TunnelRecord) : daemonv1.Tunnel.Tunnel :=
  daemonv1.Tunnel.zero
    |> daemonv1.Tunnel.set_TunnelId (TunnelRecord.ID record)
    |> daemonv1.Tunnel.set_Token (TunnelRecord.Token record)
    |> daemonv1.Tunnel.set_ComputerId (TunnelRecord.ComputerID record)
    |> daemonv1.Tunnel.set_DaemonId (TunnelRecord.DaemonID record)
    |> daemonv1.Tunnel.set_LocalPort (TunnelRecord.LocalPort record)
    |> daemonv1.Tunnel.set_Label (TunnelRecord.Label record)
    |> daemonv1.Tunnel.set_PublicUrl (TunnelRecord.PublicURL record)
    |> daemonv1.Tunnel.set_State (tunnelStateFromStorage (TunnelRecord.State record))
    |> daemonv1.Tunnel.set_AccessPolicy (accessPolicyFromStorage (TunnelRecord.AccessPolicy record))
    |> daemonv1.Tunnel.set_CreatorId (TunnelRecord.CreatorID record)
    |> daemonv1.Tunnel.set_CreatorKind (creatorKindToProto (TunnelRecord.CreatorKind record))
    |> daemonv1.Tunnel.set_CreatedTimeUnix (TunnelRecord.CreatedUnix record)
    |> daemonv1.Tunnel.set_ExpiresTimeUnix (TunnelRecord.ExpiresUnix record)
    |> daemonv1.Tunnel.set_ApprovedTimeUnix (TunnelRecord.ApprovedUnix record)
    |> daemonv1.Tunnel.set_ApprovedBy (TunnelRecord.ApprovedBy record)
    |> daemonv1.Tunnel.set_ClosedTimeUnix (TunnelRecord.ClosedUnix record)
    |> daemonv1.Tunnel.set_CloseReason (TunnelRecord.CloseReason record).

Module RmR := daemonv1.ReminderRecord.
Module RmC := daemonv1.ReminderRecurrence.

Definition reminderToProto `{!Unicode} (reminder : Reminder) : RmR.ReminderRecord :=
  let out := RmR.zero
    |> RmR.set_ReminderId (Reminder.ID reminder)
    |> RmR.set_Target (Reminder.Target reminder)
    |> RmR.set_ScheduleKind (reminderScheduleKindFromStorage (Reminder.ScheduleKind reminder))
    |> RmR.set_Schedule (Reminder.Schedule reminder)
    |> RmR.set_Prompt (Reminder.Prompt reminder)
    |> RmR.set_Enabled (Reminder.Enabled reminder)
    |> RmR.set_NextRunUnix (Reminder.NextRunUnix reminder)
    |> RmR.set_LastRunUnix (Reminder.LastRunUnix reminder)
    |> RmR.set_RunCount (u32 (Reminder.RunCount reminder))
    |> RmR.set_LastError (Reminder.LastError reminder)
    |> RmR.set_Title (Reminder.Title reminder)
    |> RmR.set_Status (reminderStatusFromStorage (Reminder.Status reminder))
    |> RmR.set_MsgRef (Reminder.MsgRef reminder)
    |> RmR.set_CancelToken (Reminder.CancelToken reminder) in
  out |> when ((Reminder.RecurrenceRule reminder <>s "") ||
               (Reminder.RecurrenceDescription reminder <>s "") ||
               (Reminder.RecurrenceTimezone reminder <>s ""))
           (RmR.set_Recurrence (Some (RmC.zero
              |> RmC.set_Rule (Reminder.RecurrenceRule reminder)
              |> RmC.set_Description (Reminder.RecurrenceDescription reminder)
              |> RmC.set_Timezone (Reminder.RecurrenceTimezone reminder)))).

Definition channelRecord (target displayName : string) : daemonv1.ChannelRecord.ChannelRecord :=
  let displayName := if displayName =s "" then target else displayName in
  daemonv1.ChannelRecord.zero
    |> daemonv1.ChannelRecord.set_Target target
    |> daemonv1.ChannelRecord.set_ChannelId target
    |> daemonv1.ChannelRecord.set_DisplayName displayName
    |> daemonv1.ChannelRecord.set_ChannelType "channel"
    |> daemonv1.ChannelRecord.set_Enabled true
    |> daemonv1.ChannelRecord.set_SourceKind "web".

(** ** Events of the log *)

Module CeS := CollaborationEvent.
Module Act := daemonv1.ActivityRecord.
Module CMs := daemonv1.CollaborationMessage.
Module CeP := daemonv1.CollaborationEvent.

Section events.
Context {Uni : Unicode} {PJ : ProtoJSON}.

(** [protojson.Unmarshal] of an event's payload into a new message. *)
Definition payload_of {T} `{!Proto T} (event : CeS.CollaborationEvent) : option T :=
  Unmarshal (full_name (T := T)) (CeS.PayloadJSON event) ≫= of_message.

(** [int32(x)]. *)
Definition i32 (z : Z) : Z := ((z + 2 ^ 31) mod 2 ^ 32 - 2 ^ 31)%Z.

Definition activityFromEvent (event : CeS.CollaborationEvent) : option Act.ActivityRecord :=
  if CeS.Kind event <>s "activity" then None
  else
    match payload_of event with
    | None => None
    | Some activity => Some (activity
        |> Act.set_ActivityId (firstNonEmpty [Act.ActivityId activity; CeS.ActivityID event])
        |> Act.set_Target (firstNonEmpty [Act.Target activity; CeS.Target event])
        |> Act.set_Sequence (CeS.Sequence event)
        |> Act.set_AggregateId (firstNonEmpty [Act.AggregateId activity; CeS.AggregateID event])
        |> Act.set_CreatedTimeUnix (CeS.CreatedUnix event)
        |> Act.set_ProtocolVersion (i32 (CeS.ProtocolVersion event)))
    end.

Definition messageFromEvent (event : CeS.CollaborationEvent) : option CMs.CollaborationMessage :=
  if CeS.Kind event <>s "message" then None
  else
    match payload_of event with
    | None => None
    | Some msg => Some (msg
        |> CMs.set_Sequence (CeS.Sequence event)
        |> CMs.set_AggregateId
             (firstNonEmpty [CMs.AggregateId msg; CeS.AggregateID event; CeS.Target event]))
    end.

Definition taskFromEvent (event : CeS.CollaborationEvent) : option daemonv1.Task.Task :=
  if CeS.Kind event <>s "task" then None else payload_of event.

Definition reminderFromEvent (event : CeS.CollaborationEvent) : option RmR.ReminderRecord :=
  if CeS.Kind event <>s "reminder" then None else payload_of event.

Definition collaborationEventToProto (event : CeS.CollaborationEvent) : CeP.CollaborationEvent :=
  let operation := eventOperationFromStorage (CeS.Operation event) in
  let operation :=
    if (operation =? daemonv1.EventOperation_EVENT_OPERATION_UNSPECIFIED)%Z
    then defaultEventOperationForKind (CeS.Kind event) else operation in
  let scopeType := eventScopeTypeFromStorage (CeS.ScopeType event) in
  let scopeType :=
    if (scopeType =? daemonv1.EventScopeType_EVENT_SCOPE_TYPE_UNSPECIFIED)%Z
    then daemonv1.EventScopeType_EVENT_SCOPE_TYPE_TARGET else scopeType in
  let scopeID := firstNonEmpty [CeS.ScopeID event; CeS.Target event; CeS.AggregateID event] in
  let out := CeP.zero
    |> CeP.set_EventId (CeS.EventID event)
    |> CeP.set_Target (CeS.Target event)
    |> CeP.set_Kind (collaborationEventKindFromStorage (CeS.Kind event))
    |> CeP.set_ActivityId (CeS.ActivityID event)
    |> CeP.set_CreatedTimeUnix (CeS.CreatedUnix event)
    |> CeP.set_Sequence (CeS.Sequence event)
    |> CeP.set_AggregateId (CeS.AggregateID event)
    |> CeP.set_ProtocolVersion (i32 (CeS.ProtocolVersion event))
    |> CeP.set_Operation operation
    |> CeP.set_Scope (Some (scope scopeType scopeID (CeS.Target event)))
    |> CeP.set_WorkspaceId (CeS.WorkspaceID event) in
  match activityFromEvent event with
  | Some activity => out |> CeP.set_Payload (Some (daemonv1.CollaborationEvent_Activity activity))
  | None =>
      match messageFromEvent event with
      | Some msg => out
          |> CeP.set_MessageId (CMs.MessageId msg)
          |> CeP.set_SourceEndpointId (CMs.SourceEndpointId msg)
          |> CeP.set_Payload (Some (daemonv1.CollaborationEvent_Message msg))
      | None =>
          match taskFromEvent event with
          | Some task => out
              |> CeP.set_TaskId (daemonv1.Task.TaskId task)
              |> CeP.set_Payload (Some (daemonv1.CollaborationEvent_Task task))
          | None =>
              match reminderFromEvent event with
              | Some reminder => out |> CeP.set_Payload (Some (daemonv1.CollaborationEvent_Reminder reminder))
              | None => out
              end
          end
      end
  end.

End events.
