(* ===== verification/RpcAgents.v ===== *)
(** * Computers, agents and their events ([internal/daemonrpc/server.go])

    Registration and heartbeats of computers, the statuses derived from them, permits,
    control operations of agents, activities, and the events a subscriber receives.
    A lease is kept by pointer: a computer's state and the map of leases share a cell. *)
From S2P Require Import Prelude GoStr GoText Sql Models Schema Store Events RpcText Proto Rpc RpcConv.

Module CI := daemonv1.ComputerInfo.
Module Inv := daemonv1.ComputerInventory.
Module AP := daemonv1.AgentProfile.
Module SN := daemonv1.AgentStatusSnapshot.
Module CO := daemonv1.AgentControlOperation.
Module RegQ := daemonv1.RegisterComputerRequest.
Module RegP := daemonv1.RegisterComputerResponse.
Module HbQ := daemonv1.HeartbeatComputerRequest.
Module HbP := daemonv1.HeartbeatComputerResponse.
Module SyQ := daemonv1.SyncComputerInventoryRequest.
Module SyP := daemonv1.SyncComputerInventoryResponse.
Module AcQ := daemonv1.AcquireStartPermitRequest.
Module AcP := daemonv1.AcquireStartPermitResponse.
Module RlQ := daemonv1.ReleaseStartPermitRequest.
Module RlP := daemonv1.ReleaseStartPermitResponse.
Module UsQ := daemonv1.UpdateAgentStatusRequest.
Module UsP := daemonv1.UpdateAgentStatusResponse.
Module LsQ := daemonv1.ListAgentStatusesRequest.
Module LsP := daemonv1.ListAgentStatusesResponse.
Module LpQ := daemonv1.ListAgentProfilesRequest.
Module LpP := daemonv1.ListAgentProfilesResponse.
Module CaQ := daemonv1.ControlAgentRequest.
Module CaP := daemonv1.ControlAgentResponse.
Module LaQ := daemonv1.LogActivityRequest.
Module LaP := daemonv1.LogActivityResponse.
Module LiQ := daemonv1.ListActivityRequest.
Module LiP := daemonv1.ListActivityResponse.
Module AkQ := daemonv1.AcknowledgeServerEventsRequest.
Module AkP := daemonv1.AcknowledgeServerEventsResponse.
Module SbQ := daemonv1.SubscribeServerEventsRequest.
Module RnM := daemonv1.Run.
Module OdM := daemonv1.OutboundDeliveryRecord.

(** ** Derived statuses *)

Definition derivedStatus (c : computerState) (now : Z) : Z :=
  let reported := match info c with
                  | Some i => CI.Status i
                  | None => daemonv1.ComputerStatus_COMPUTER_STATUS_UNSPECIFIED
                  end in
  if (lastHeartbeat c <=? 0)%Z then reported
  else
    let ageSeconds := i64 (now - lastHeartbeat c) in
    if (computerOfflineAfterSeconds <=? ageSeconds)%Z then daemonv1.ComputerStatus_COMPUTER_STATUS_OFFLINE
    else if (computerStaleAfterSeconds <=? ageSeconds)%Z then daemonv1.ComputerStatus_COMPUTER_STATUS_STALE
    else if (reported =? daemonv1.ComputerStatus_COMPUTER_STATUS_UNSPECIFIED)%Z ||
            (reported =? daemonv1.ComputerStatus_COMPUTER_STATUS_STALE)%Z ||
            (reported =? daemonv1.ComputerStatus_COMPUTER_STATUS_OFFLINE)%Z
         then daemonv1.ComputerStatus_COMPUTER_STATUS_ONLINE
         else reported.

Definition heartbeatAgeDetail (lastHeartbeat now : Z) : string :=
  if (lastHeartbeat <=? 0)%Z then "daemon heartbeat has not been observed"
  else "last daemon heartbeat was " +:+ FormatInt (Z.max 0 (i64 (now - lastHeartbeat))) +:+ " seconds ago".

(** A presence that a degraded computer degrades. *)
Definition degradable (presence : Z) : bool :=
  (presence =? daemonv1.AgentPresence_AGENT_PRESENCE_UNSPECIFIED)%Z ||
  (presence =? daemonv1.AgentPresence_AGENT_PRESENCE_ONLINE)%Z ||
  (presence =? daemonv1.AgentPresence_AGENT_PRESENCE_IDLE)%Z ||
  (presence =? daemonv1.AgentPresence_AGENT_PRESENCE_BUSY)%Z.

Definition at_most_info (severity : Z) : bool :=
  (severity =? daemonv1.AgentStatusSeverity_AGENT_STATUS_SEVERITY_UNSPECIFIED)%Z ||
  (severity =? daemonv1.AgentStatusSeverity_AGENT_STATUS_SEVERITY_INFO)%Z.

Definition applyComputerStatusToAgentStatus (snapshot : SN.AgentStatusSnapshot)
    (computerStatus lastHeartbeat now : Z) : SN.AgentStatusSnapshot :=
  let snapshot := snapshot
    |> when (SN.UpdatedTimeUnix snapshot =? 0)%Z
         (SN.set_UpdatedTimeUnix (firstNonZeroInt64 [lastHeartbeat; now])) in
  if (computerStatus =? daemonv1.ComputerStatus_COMPUTER_STATUS_STALE)%Z then
    let snapshot := snapshot |> SN.set_Presence daemonv1.AgentPresence_AGENT_PRESENCE_STALE in
    let snapshot := snapshot
      |> when (at_most_info (SN.Severity snapshot))
           (SN.set_Severity daemonv1.AgentStatusSeverity_AGENT_STATUS_SEVERITY_WARNING) in
    let snapshot := snapshot
      |> when ((SN.Summary snapshot =s "") ||
               (SN.Health snapshot =? daemonv1.AgentHealth_AGENT_HEALTH_OK)%Z ||
               (SN.Health snapshot =? daemonv1.AgentHealth_AGENT_HEALTH_UNSPECIFIED)%Z)
           (SN.set_Summary "daemon heartbeat stale") in
    snapshot |> SN.set_Detail (heartbeatAgeDetail lastHeartbeat now)
  else if (computerStatus =? daemonv1.ComputerStatus_COMPUTER_STATUS_OFFLINE)%Z then
    snapshot
      |> SN.set_Presence daemonv1.AgentPresence_AGENT_PRESENCE_OFFLINE
      |> SN.set_ActivityState daemonv1.AgentActivityState_AGENT_ACTIVITY_STATE_WAITING
      |> SN.set_Health daemonv1.AgentHealth_AGENT_HEALTH_OFFLINE
      |> SN.set_Severity daemonv1.AgentStatusSeverity_AGENT_STATUS_SEVERITY_ERROR
      |> SN.set_Summary "daemon offline"
      |> SN.set_Detail (heartbeatAgeDetail lastHeartbeat now)
  else if (computerStatus =? daemonv1.ComputerStatus_COMPUTER_STATUS_DEGRADED)%Z then
    snapshot
      |> when (degradable (SN.Presence snapshot))
           (SN.set_Presence daemonv1.AgentPresence_AGENT_PRESENCE_DEGRADED)
      |> when (at_most_info (SN.Severity snapshot))
           (SN.set_Severity daemonv1.AgentStatusSeverity_AGENT_STATUS_SEVERITY_WARNING)
  else snapshot.

Definition applyComputerStatusToAgentProfile (profile : AP.AgentProfile)
    (computerStatus lastHeartbeat now : Z) : AP.AgentProfile :=
  let profile :=
    if (computerStatus =? daemonv1.ComputerStatus_COMPUTER_STATUS_STALE)%Z then
      profile |> AP.set_Status daemonv1.AgentPresence_AGENT_PRESENCE_STALE
    else if (computerStatus =? daemonv1.ComputerStatus_COMPUTER_STATUS_OFFLINE)%Z then
      profile |> AP.set_Status daemonv1.AgentPresence_AGENT_PRESENCE_OFFLINE
    else if (computerStatus =? daemonv1.ComputerStatus_COMPUTER_STATUS_DEGRADED)%Z then
      profile |> when (degradable (AP.Status profile))
                   (AP.set_Status daemonv1.AgentPresence_AGENT_PRESENCE_DEGRADED)
    else profile in
  let profile := profile
    |> when ((AP.LastActivityTimeUnix profile =? 0)%Z && (0 <? lastHeartbeat)%Z)
         (AP.set_LastActivityTimeUnix lastHeartbeat) in
  let finish (snapshot : SN.AgentStatusSnapshot) :=
    let snapshot := applyComputerStatusToAgentStatus snapshot computerStatus lastHeartbeat now in
    profile |> AP.set_StatusSnapshot (Some snapshot) |> AP.set_Status (SN.Presence snapshot) in
  match AP.StatusSnapshot profile with
  | Some snapshot => finish snapshot
  | None =>
      if negb (computerStatus =? daemonv1.ComputerStatus_COMPUTER_STATUS_STALE)%Z &&
         negb (computerStatus =? daemonv1.ComputerStatus_COMPUTER_STATUS_OFFLINE)%Z &&
         negb (computerStatus =? daemonv1.ComputerStatus_COMPUTER_STATUS_DEGRADED)%Z
      then profile
      else finish (SN.zero
             |> SN.set_AgentId (AP.AgentId profile)
             |> SN.set_ComputerId (AP.ComputerId profile)
             |> SN.set_RuntimeProfileId (AP.RuntimeProfileId profile)
             |> SN.set_Presence (AP.Status profile)
             |> SN.set_UpdatedTimeUnix (firstNonZeroInt64 [lastHeartbeat; now]))
  end.

Definition derivedAgentStatusLocked (s : Server) (snapshot : SN.AgentStatusSnapshot) (now : Z) :
    SN.AgentStatusSnapshot :=
  let cp := snapshot |> when (SN.UpdatedTimeUnix snapshot =? 0)%Z (SN.set_UpdatedTimeUnix now) in
  match computers s !! SN.ComputerId cp with
  | None => cp
  | Some computer => applyComputerStatusToAgentStatus cp (derivedStatus computer now) (lastHeartbeat computer) now
  end.

Definition agentProfileFromStatus (snapshot : SN.AgentStatusSnapshot) : AP.AgentProfile :=
  AP.zero
    |> AP.set_AgentId (SN.AgentId snapshot)
    |> AP.set_Name (SN.AgentId snapshot)
    |> AP.set_DisplayName (SN.AgentId snapshot)
    |> AP.set_Enabled true
    |> AP.set_ComputerId (SN.ComputerId snapshot)
    |> AP.set_RuntimeProfileId (SN.RuntimeProfileId snapshot)
    |> AP.set_Status (SN.Presence snapshot)
    |> AP.set_LastActivityTimeUnix (SN.UpdatedTimeUnix snapshot)
    |> AP.set_StatusSnapshot (Some snapshot).

(** [GetAgents] of an inventory that may be nil. *)
Definition agents_of (c : computerState) : list AP.AgentProfile :=
  match inventory c with Some inv => Inv.Agents inv | None => [] end.

Definition agentControlDetail (operation : CO.AgentControlOperation) : string :=
  String.concat " · " (
    ["operation=" +:+ CO.OperationId operation;
     "state=" +:+ agentControlStateLabel (CO.State operation);
     "computer=" +:+ firstNonEmpty [CO.ComputerId operation; "unknown"]] ++
    (if CO.RuntimeProfileId operation <>s "" then ["runtime=" +:+ CO.RuntimeProfileId operation] else []) ++
    (if CO.Reason operation <>s "" then ["reason=" +:+ redactRunFeedback (CO.Reason operation)] else [])).

(** ** Events for subscribers *)

Fixpoint containsServerEventKind (values : list Z) (needle : Z) : bool :=
  match values with
  | [] => false
  | value :: values => (value =? needle)%Z || containsServerEventKind values needle
  end.

Definition serverEventMatches (req : SbQ.SubscribeServerEventsRequest) (event : Ev.ServerEvent) : bool :=
  match SbQ.Kinds req with
  | [] => true
  | kinds => containsServerEventKind kinds (Ev.Kind event)
  end &&
  (SbQ.IncludeAllAgents req || SbQ.IncludeAllScopes req ||
   match Ev.Payload event with
   | Some (daemonv1.ServerEvent_AgentControl op) =>
       (CO.ComputerId op <>s "") && (CO.ComputerId op =s SbQ.ComputerId req) ||
       contains (SbQ.AgentIds req) (CO.AgentId op)
   | Some (daemonv1.ServerEvent_Message message) =>
       contains (SbQ.AgentIds req) (Ev.AggregateId event) || contains (SbQ.Targets req) (CMs.Target message)
   | Some (daemonv1.ServerEvent_OutboundDelivery delivery) => contains (SbQ.Targets req) (OdM.Target delivery)
   | Some (daemonv1.ServerEvent_Run run) =>
       (RnM.ComputerId run <>s "") && (RnM.ComputerId run =s SbQ.ComputerId req) ||
       contains (SbQ.AgentIds req) (RnM.AgentId run)
   | _ => Ev.Target event =s SbQ.ComputerId req
   end).

(** The loop of a tick: [accepts] tells whether the stream takes an event; an event that
    was sent is marked, and the first one it refuses ends the stream. *)
Fixpoint send_events (accepts : Ev.ServerEvent → bool) (events : list Ev.ServerEvent) (sent : gset string) :
    list Ev.ServerEvent * gset string * bool :=
  match events with
  | [] => ([], sent, true)
  | event :: events =>
      if accepts event then
        let '(out, sent, ok) := send_events accepts events ({[ Ev.EventId event ]} ∪ sent) in
        (event :: out, sent, ok)
      else ([], sent, false)
  end.

Section agents.
Context {Eng : SqlEngine} {Uni : Unicode} {PJ : ProtoJSON} {E : Env} {Ord : MapOrder}.

(** [range m]. *)
Definition visited {A} (m : gmap string A) : list (string * A) := visit (map_to_list m).

Definition pendingServerEvents (req : SbQ.SubscribeServerEventsRequest) (sent : gset string) :
    R (list Ev.ServerEvent) :=
  events ← gets serverEvents;
  mret (stable_sort Ev.Sequence (snd <$>
    bfilter (λ p, negb (bool_decide (p.1 ∈ sent)) && serverEventMatches req p.2) (visited events))).

(** The ping that opens a subscription. *)
Definition subscription_ping (req : SbQ.SubscribeServerEventsRequest) : R Ev.ServerEvent :=
  id ← NewID "evt";
  seq ← nextSequence;
  now ← unixNow;
  now' ← unixNow;
  mret (Ev.zero
    |> Ev.set_EventId id
    |> Ev.set_Sequence seq
    |> Ev.set_AggregateId (SbQ.ComputerId req)
    |> Ev.set_Target (SbQ.ComputerId req)
    |> Ev.set_Kind daemonv1.ServerEventKind_SERVER_EVENT_KIND_PING
    |> Ev.set_CreatedTimeUnix now
    |> Ev.set_ProtocolVersion protocolVersion
    |> Ev.set_RequestId (SbQ.RequestId req)
    |> Ev.set_Operation daemonv1.EventOperation_EVENT_OPERATION_HEARTBEAT
    |> Ev.set_Scope (Some (scope daemonv1.EventScopeType_EVENT_SCOPE_TYPE_COMPUTER (SbQ.ComputerId req) ""))
    |> Ev.set_Payload (Some (daemonv1.ServerEvent_Ping (daemonv1.ServerPing.zero
         |> daemonv1.ServerPing.set_ServerTimeUnix now'
         |> daemonv1.ServerPing.set_TimeoutSeconds 60)))).

(** One tick of a subscription. *)
Definition subscription_tick (req : SbQ.SubscribeServerEventsRequest) (accepts : Ev.ServerEvent → bool)
    (sent : gset string) : R (list Ev.ServerEvent * gset string * bool) :=
  events ← pendingServerEvents req sent;
  mret (send_events accepts events sent).

Definition AcknowledgeServerEvents (req : AkQ.AcknowledgeServerEventsRequest) :
    R AkP.AcknowledgeServerEventsResponse :=
  _ ← modify (λ s, put_events (foldl (λ m id, delete id m) (serverEvents s) (AkQ.EventIds req)) (eventSeq s) s);
  mret (AkP.zero |> AkP.set_Accepted true |> AkP.set_Cursor (AkQ.Cursor req)).

(** ** Routes to agents *)

(** The first agent of that id in the inventories, with its computer's id. *)
Definition find_agent (agentID : string) : R (option (string * AP.AgentProfile)) :=
  all ← gets computers;
  mret (head (bfilter (λ p, AP.AgentId p.2 =s agentID)
    (mbind (M := list) (λ c, (λ a, (c.1, a)) <$> agents_of c.2) (visited all)))).

Definition agentRouteLocked (agentID : string) : R (string * string) :=
  found ← find_agent agentID;
  known ← gets statuses;
  mret match found with
  | Some (computerID, profile) =>
      (firstNonEmpty [AP.ComputerId profile; computerID], AP.RuntimeProfileId profile)
  | None =>
      match known !! agentID with
      | Some snapshot => (SN.ComputerId snapshot, SN.RuntimeProfileId snapshot)
      | None => ("", "")
      end
  end.

Definition agentProfileLocked (agentID : string) : R AP.AgentProfile :=
  found ← find_agent agentID;
  known ← gets statuses;
  mret match found with
  | Some (_, profile) => profile
  | None =>
      match known !! agentID with
      | Some snapshot => agentProfileFromStatus snapshot
      | None => AP.zero |> AP.set_AgentId agentID |> AP.set_Name agentID |> AP.set_DisplayName agentID
                        |> AP.set_Enabled true
      end
  end.

(** ** Computers *)

Definition RegisterComputer (req : RegQ.RegisterComputerRequest) : R RegP.RegisterComputerResponse :=
  once "RegisterComputer" (RegQ.RequestId req) (RegQ.IdempotencyKey req) (
    let info := from_opt CI.zero (RegQ.Info req) in
    _ ← refuse ((CI.ComputerId info =s "") || (CI.DaemonId info =s ""))
          InvalidArgument "computer_id and daemon_id are required";
    now ← unixNow;
    lease ← newLease "computer" (CI.ComputerId info) (CI.DaemonId info) computerLeaseSeconds;
    cell ← share lease;
    _ ← modify (λ s, put_computers (<[CI.ComputerId info :=
          mkComputer (Some info) (RegQ.Inventory req) "initial" (Some cell) now]> (computers s)) s);
    remembered "RegisterComputer" (RegQ.RequestId req) (RegQ.IdempotencyKey req)
      (RegP.zero |> RegP.set_Accepted true |> RegP.set_ServerTimeUnix now |> RegP.set_Lease (Some lease))).

Definition empty_computer : computerState := mkComputer None None "" None 0.

(** The lease a heartbeat renews, or [None] if it needs a new one. *)
Definition kept_lease (s : Server) (state : computerState) (leaseID : string) : option nat :=
  match lease state with
  | None => None
  | Some cell =>
      match lease_cells s !! cell with
      | None => None
      | Some l => if (leaseID =s "") || (Ls.LeaseId l <>s leaseID) then None else Some cell
      end
  end.

Definition report_status (now : Z) (known : gmap string SN.AgentStatusSnapshot) (snapshot : SN.AgentStatusSnapshot) :
    gmap string SN.AgentStatusSnapshot :=
  if SN.AgentId snapshot =s "" then known
  else
    let cp := snapshot |> when (SN.UpdatedTimeUnix snapshot =? 0)%Z (SN.set_UpdatedTimeUnix now) in
    <[SN.AgentId cp := cp]> known.

Definition HeartbeatComputer (req : HbQ.HeartbeatComputerRequest) : R HbP.HeartbeatComputerResponse :=
  let info := from_opt CI.zero (HbQ.Info req) in
  let computerID := CI.ComputerId info in
  _ ← refuse (computerID =s "") InvalidArgument "computer_id is required";
  now ← unixNow;
  s ← gets id;
  let state := from_opt empty_computer (computers s !! computerID) in
  let info' := match HbQ.Info req with Some i => Some i | None => Rpc.info state end in
  let full := HbQ.InventoryFullSnapshot req in
  let inventory' := if full then HbQ.Inventory req else inventory state in
  let version := if full then HbQ.InventoryVersion req else inventoryVersion state in
  let holder := if CI.DaemonId info =s "" then computerID else CI.DaemonId info in
  cell ← match kept_lease s state (HbQ.LeaseId req) with
         | Some cell => mret cell
         | None => lease ← newLease "computer" computerID holder computerLeaseSeconds; share lease
         end;
  _ ← modify (λ s, put_leases (alter (Ls.set_ExpiresTimeUnix (i64 (now + computerLeaseSeconds))) cell (lease_cells s))
                    (leases s) s);
  cells ← gets lease_cells;
  let lease := from_opt Ls.zero (cells !! cell) in
  _ ← modify (λ s, put_leases (lease_cells s) (<[Ls.LeaseId lease := cell]> (leases s)) s);
  _ ← modify (λ s, put_computers (<[computerID := mkComputer info' inventory' version (Some cell) now]>
                    (computers s)) s);
  _ ← modify (λ s, put_statuses (foldl (report_status now) (statuses s) (HbQ.AgentStatuses req)) s);
  mret (HbP.zero |> HbP.set_Accepted true |> HbP.set_ServerTimeUnix now
                 |> HbP.set_NextHeartbeatAfterSeconds daemonHeartbeatAfterSeconds
                 |> HbP.set_Lease (Some lease)).

Definition SyncComputerInventory (req : SyQ.SyncComputerInventoryRequest) : R SyP.SyncComputerInventoryResponse :=
  once "SyncComputerInventory" (SyQ.RequestId req) (SyQ.IdempotencyKey req) (
    let info := from_opt CI.zero (SyQ.Info req) in
    _ ← refuse (CI.ComputerId info =s "") InvalidArgument "computer_id is required";
    now ← unixNow;
    let versionID := if SyQ.InventoryVersion req =s "" then FormatInt now else SyQ.InventoryVersion req in
    all ← gets computers;
    let state := from_opt empty_computer (all !! CI.ComputerId info) in
    _ ← modify (λ s, put_computers (<[CI.ComputerId info :=
          mkComputer (Some info) (SyQ.Inventory req) versionID (lease state) (lastHeartbeat state)]> (computers s)) s);
    remembered "SyncComputerInventory" (SyQ.RequestId req) (SyQ.IdempotencyKey req)
      (SyP.zero |> SyP.set_Accepted true |> SyP.set_InventoryVersion versionID |> SyP.set_ServerTimeUnix now)).

Definition AcquireStartPermit (req : AcQ.AcquireStartPermitRequest) : R AcP.AcquireStartPermitResponse :=
  once "AcquireStartPermit" (AcQ.RequestId req) (AcQ.IdempotencyKey req) (
    _ ← refuse ((AcQ.ComputerId req =s "") || (AcQ.AgentId req =s ""))
          InvalidArgument "computer_id and agent_id are required";
    let ttl := if (AcQ.PermitTtlSeconds req =? 0)%Z then 60%Z else AcQ.PermitTtlSeconds req in
    lease ← newLease "start_permit" (AcQ.AgentId req) (AcQ.ComputerId req) ttl;
    _ ← share lease;
    remembered "AcquireStartPermit" (AcQ.RequestId req) (AcQ.IdempotencyKey req)
      (AcP.zero |> AcP.set_Granted true |> AcP.set_PermitLease (Some lease))).

Definition ReleaseStartPermit (req : RlQ.ReleaseStartPermitRequest) : R RlP.ReleaseStartPermitResponse :=
  once "ReleaseStartPermit" (RlQ.RequestId req) (RlQ.IdempotencyKey req) (
    _ ← modify (λ s, put_leases (lease_cells s) (delete (RlQ.LeaseId req) (leases s)) s);
    remembered "ReleaseStartPermit" (RlQ.RequestId req) (RlQ.IdempotencyKey req)
      (RlP.zero |> RlP.set_Accepted true)).

(** ** Statuses *)

Definition UpdateAgentStatus (req : UsQ.UpdateAgentStatusRequest) : R UsP.UpdateAgentStatusResponse :=
  once "UpdateAgentStatus" (UsQ.RequestId req) (UsQ.IdempotencyKey req) (
    let status := from_opt SN.zero (UsQ.Status req) in
    _ ← refuse (SN.AgentId status =s "") InvalidArgument "agent_id is required";
    now ← unixNow;
    let cp := status |> when (SN.UpdatedTimeUnix status =? 0)%Z (SN.set_UpdatedTimeUnix now) in
    _ ← modify (λ s, put_statuses (<[SN.AgentId cp := cp]> (statuses s)) s);
    remembered "UpdateAgentStatus" (UsQ.RequestId req) (UsQ.IdempotencyKey req)
      (UsP.zero |> UsP.set_Status (Some cp))).

Definition ListAgentStatuses (req : LsQ.ListAgentStatusesRequest) : R LsP.ListAgentStatusesResponse :=
  now ← unixNow;
  s ← gets id;
  let limit := Z.to_nat (bounded_limit (LsQ.Limit req) 200 100) in
  let kept := bfilter (λ p,
    (if LsQ.AgentId req <>s "" then SN.AgentId p.2 =s LsQ.AgentId req else true) &&
    (if LsQ.Target req <>s "" then SN.Target p.2 =s LsQ.Target req else true)) (visited (statuses s)) in
  let out := take limit ((λ p, derivedAgentStatusLocked s p.2 now) <$> kept) in
  mret (LsP.zero |> LsP.set_Statuses out
                 |> LsP.set_NextCursor (Some (cursorFromCount (length out) (LsQ.Target req) (serverID s)))).

Definition ListAgentProfiles (req : LpQ.ListAgentProfilesRequest) : R LpP.ListAgentProfilesResponse :=
  now ← unixNow;
  s ← gets id;
  let limit := Z.to_nat (bounded_limit (LpQ.Limit req) 200 100) in
  let of_computer c :=
    (λ profile, applyComputerStatusToAgentProfile profile (derivedStatus c now) (lastHeartbeat c) now) <$>
      bfilter (λ profile, AP.AgentId profile <>s "") (agents_of c) in
  let profiles := take limit (
    mbind (M := list) (λ c, of_computer c.2) (visited (computers s)) ++
    ((λ p, agentProfileFromStatus (derivedAgentStatusLocked s p.2 now)) <$> visited (statuses s))) in
  mret (LpP.zero |> LpP.set_Profiles profiles
                 |> LpP.set_NextCursor (Some (cursorFromCount (length profiles) "" (serverID s)))).

(** ** Activities and control *)

(** [AppendCollaborationEvent] on the store, with its own draws: the clock, the event's
    identifier and one row identifier per attempt. *)
Definition append_event (event : CeS.CollaborationEvent) : R (error + CeS.CollaborationEvent) :=
  now ← unixNow;
  event_id ← NewID "cev";
  r5 ← NewID "cev"; r4 ← NewID "cev"; r3 ← NewID "cev"; r2 ← NewID "cev"; r1 ← NewID "cev";
  stored (AppendCollaborationEvent now event_id (λ left, from_opt "" ([r1; r2; r3; r4; r5] !! left)) event).

Definition log_entry (serverID target aggregateID kind operation scopeType scopeID payload : string)
    (created : Z) : CeS.CollaborationEvent :=
  CeS.zero
    |> CeS.set_ServerID serverID
    |> CeS.set_Target target
    |> CeS.set_AggregateID aggregateID
    |> CeS.set_Kind kind
    |> CeS.set_Operation operation
    |> CeS.set_ScopeType scopeType
    |> CeS.set_ScopeID scopeID
    |> CeS.set_PayloadJSON payload
    |> CeS.set_CreatedUnix created
    |> CeS.set_ProtocolVersion protocolVersion.

Definition ErrMarshal : error := ErrText "marshal".

Definition recordAgentControlActivity (operation : CO.AgentControlOperation) : R (error + unit) :=
  let target := "dm:" +:+ CO.AgentId operation in
  id ← NewID "act";
  now ← unixNow;
  let activity := Act.zero
    |> Act.set_ActivityId id
    |> Act.set_Target target
    |> Act.set_AgentId (CO.AgentId operation)
    |> Act.set_Kind "agent_control_requested"
    |> Act.set_Summary (agentControlActionLabel (CO.Action operation) +:+ " queued")
    |> Act.set_Detail (agentControlDetail operation)
    |> Act.set_CreatedTimeUnix (firstNonZeroInt64 [CO.CreatedTimeUnix operation; now])
    |> Act.set_StepId (CO.OperationId operation)
    |> Act.set_AggregateId (CO.OperationId operation)
    |> Act.set_ProtocolVersion protocolVersion in
  match Marshal (to_message activity) with
  | None => mret (inl ErrMarshal)
  | Some payload =>
      serverID ← gets serverID;
      res ← append_event (log_entry serverID (Act.Target activity) (Act.AggregateId activity) "activity"
        (eventOperationToStorage daemonv1.EventOperation_EVENT_OPERATION_CREATED)
        (eventScopeTypeToStorage daemonv1.EventScopeType_EVENT_SCOPE_TYPE_AGENT)
        (CO.AgentId operation) payload (Act.CreatedTimeUnix activity)
        |> CeS.set_ActivityID (Act.ActivityId activity));
      mret match res with inl e => inl e | inr _ => inr () end
  end.

Definition ControlAgent (req : CaQ.ControlAgentRequest) : R CaP.ControlAgentResponse :=
  once "ControlAgent" (CaQ.RequestId req) (CaQ.IdempotencyKey req) (
    _ ← refuse ((CaQ.AgentId req =s "") ||
                (CaQ.Action req =? daemonv1.AgentControlAction_AGENT_CONTROL_ACTION_UNSPECIFIED)%Z)
          InvalidArgument "agent_id and action are required";
    '(foundComputerID, foundRuntimeProfileID) ← agentRouteLocked (CaQ.AgentId req);
    let computerID := if CaQ.ComputerId req =s "" then foundComputerID else CaQ.ComputerId req in
    let runtimeProfileID :=
      if CaQ.RuntimeProfileId req =s "" then foundRuntimeProfileID else CaQ.RuntimeProfileId req in
    _ ← refuse (computerID =s "") NotFound "agent computer not found";
    now ← unixNow;
    id ← NewID "ctl";
    let operation := CO.zero
      |> CO.set_OperationId id
      |> CO.set_AgentId (CaQ.AgentId req)
      |> CO.set_ComputerId computerID
      |> CO.set_RuntimeProfileId runtimeProfileID
      |> CO.set_Action (CaQ.Action req)
      |> CO.set_State daemonv1.AgentControlState_AGENT_CONTROL_STATE_QUEUED
      |> CO.set_Reason (CaQ.Reason req)
      |> CO.set_RequestedByAgentId (CaQ.RequestedByAgentId req)
      |> CO.set_CreatedTimeUnix now
      |> CO.set_UpdatedTimeUnix now in
    lease ← newLease "agent_control" (CO.OperationId operation) (CaQ.AgentId req)
              (defaultTTL (CaQ.LeaseTtlSeconds req) 300);
    _ ← share lease;
    _ ← modify (λ s, put_controls (<[CO.OperationId operation := operation]> (controls s)) s);
    _ ← publish (Ev.zero
      |> Ev.set_AggregateId (CO.OperationId operation)
      |> Ev.set_Target (CO.AgentId operation)
      |> Ev.set_Kind daemonv1.ServerEventKind_SERVER_EVENT_KIND_AGENT_CONTROL
      |> Ev.set_RequestId (CaQ.RequestId req)
      |> Ev.set_Operation daemonv1.EventOperation_EVENT_OPERATION_CREATED
      |> Ev.set_Scope (Some (scope daemonv1.EventScopeType_EVENT_SCOPE_TYPE_AGENT
                               (CO.AgentId operation) (CO.AgentId operation)))
      |> Ev.set_Payload (Some (daemonv1.ServerEvent_AgentControl operation)));
    profile ← agentProfileLocked (CaQ.AgentId req);
    _ ← or_status (λ _, Status Internal "append agent control activity") (recordAgentControlActivity operation);
    remembered "ControlAgent" (CaQ.RequestId req) (CaQ.IdempotencyKey req)
      (CaP.zero |> CaP.set_Accepted true |> CaP.set_Operation (Some operation)
                |> CaP.set_Profile (Some profile) |> CaP.set_Lease (Some lease))).

Definition LogActivity (req : LaQ.LogActivityRequest) : R LaP.LogActivityResponse :=
  once "LogActivity" (LaQ.RequestId req) (LaQ.IdempotencyKey req) (
    _ ← refuse ((LaQ.Target req =s "") || (LaQ.Kind req =s ""))
          InvalidArgument "target and kind are required";
    id ← NewID "act";
    now ← unixNow;
    let activity := Act.zero
      |> Act.set_ActivityId id
      |> Act.set_Target (LaQ.Target req)
      |> Act.set_AgentId (LaQ.AgentId req)
      |> Act.set_Kind (LaQ.Kind req)
      |> Act.set_Summary (LaQ.Summary req)
      |> Act.set_Detail (LaQ.Detail req)
      |> Act.set_CreatedTimeUnix now
      |> Act.set_RunId (LaQ.RunId req)
      |> Act.set_StepId (LaQ.StepId req)
      |> Act.set_AggregateId (LaQ.Target req)
      |> Act.set_ProtocolVersion protocolVersion in
    match Marshal (to_message activity) with
    | None => fail Internal "marshal activity"
    | Some payload =>
        serverID ← gets serverID;
        event ← or_status (λ _, Status Internal "append collaboration event")
          (append_event (log_entry serverID (Act.Target activity) (Act.AggregateId activity) "activity"
            (eventOperationToStorage daemonv1.EventOperation_EVENT_OPERATION_CREATED)
            (eventScopeTypeToStorage daemonv1.EventScopeType_EVENT_SCOPE_TYPE_TARGET)
            (Act.Target activity) payload (Act.CreatedTimeUnix activity)
            |> CeS.set_ActivityID (Act.ActivityId activity)));
        let activity := activity
          |> Act.set_Sequence (CeS.Sequence event)
          |> Act.set_ProtocolVersion (i32 (CeS.ProtocolVersion event)) in
        remembered "LogActivity" (LaQ.RequestId req) (LaQ.IdempotencyKey req)
          (LaP.zero |> LaP.set_Activity (Some activity))
    end).

Definition ListActivity (req : LiQ.ListActivityRequest) : R LiP.ListActivityResponse :=
  let limit := Z.to_nat (bounded_limit (LiQ.Limit req) 200 100) in
  serverID ← gets serverID;
  events ← or_status (λ _, Status Internal "list collaboration events")
    (stored (ListRecentCollaborationEvents serverID (LiQ.Target req) "activity" 200));
  let out := take limit (bfilter
    (λ a, if LiQ.AgentId req <>s "" then Act.AgentId a =s LiQ.AgentId req else true)
    (omap activityFromEvent events)) in
  mret (LiP.zero |> LiP.set_Activities out
                 |> LiP.set_NextCursor (Some (cursorFromCount (length out) (LiQ.Target req) serverID))).

End agents.
