(* ===== verification/RpcTasks.v ===== *)
(** * Tasks and runs ([internal/daemonrpc/server.go])

    The task handlers, the claim of a task (a conditional update of the row, a lease, a
    run for the claiming agent and an attempt), and the life of a run: status reports,
    lease renewals, steps and the listings daemons poll. *)
From S2P Require Import Prelude GoStr GoText Sql Models Schema Store Tasks.
From S2P Require Import TaskAttempts RpcText Proto Rpc RpcConv RpcAgents.

Module TkS := Models.Task.
Module TpS := TaskPatch.
Module TaS := TaskAttempt.
Module Rn := daemonv1.Run.
Module Rs := daemonv1.RunStep.
Module TkP := daemonv1.Task.
Module CrQ := daemonv1.CreateCollaborationTaskRequest.
Module CrP := daemonv1.CreateCollaborationTaskResponse.
Module GtQ := daemonv1.GetTaskRequest.
Module GtP := daemonv1.GetTaskResponse.
Module UtQ := daemonv1.UpdateTaskRequest.
Module UtP := daemonv1.UpdateTaskResponse.
Module LtQ := daemonv1.ListCollaborationTasksRequest.
Module LtP := daemonv1.ListCollaborationTasksResponse.
Module BdQ := daemonv1.ListTaskBoardRequest.
Module BdP := daemonv1.ListTaskBoardResponse.
Module BdS := daemonv1.TaskBoardSnapshot.
Module BdC := daemonv1.TaskBoardColumn.
Module ClQ := daemonv1.ClaimCollaborationTaskRequest.
Module ClP := daemonv1.ClaimCollaborationTaskResponse.
Module UrQ := daemonv1.UpdateRunStatusRequest.
Module UrP := daemonv1.UpdateRunStatusResponse.
Module RrQ := daemonv1.RenewRunLeaseRequest.
Module RrP := daemonv1.RenewRunLeaseResponse.
Module AsQ := daemonv1.AppendRunStepRequest.
Module AsP := daemonv1.AppendRunStepResponse.
Module FrQ := daemonv1.FetchAssignedRunsRequest.
Module FrP := daemonv1.FetchAssignedRunsResponse.
Module LrQ := daemonv1.ListRunsRequest.
Module LrP := daemonv1.ListRunsResponse.
Module GrQ := daemonv1.GetRunRequest.
Module GrP := daemonv1.GetRunResponse.

Definition claimStartsExecution (mode : Z) : bool :=
  (mode =? daemonv1.TaskClaimMode_TASK_CLAIM_MODE_UNSPECIFIED)%Z ||
  (mode =? daemonv1.TaskClaimMode_TASK_CLAIM_MODE_OWNER)%Z.

Definition runTargetFromAgent (agentID : string) : string :=
  if agentID =s "" then "" else "dm:" +:+ agentID.

Definition runFailureReason (run : Rn.Run) (req : UrQ.UpdateRunStatusRequest) : string :=
  let detail := firstNonEmpty [redactRunFeedback (UrQ.BlockedReason req); Rn.Error run; Rn.Summary run] in
  truncatePromptText (String.concat ": " (
    ["Run " +:+ Rn.RunId run;
     "agent " +:+ firstNonEmpty [Rn.AgentId run; UrQ.AgentId req; "unknown"]] ++
    (if Rn.RuntimeProfileId run <>s "" then ["runtime " +:+ Rn.RuntimeProfileId run] else []) ++
    (if detail <>s "" then [detail] else []))) 512.

Definition runFailureReasonForAttempt (run : Rn.Run) (req : UrQ.UpdateRunStatusRequest) : string :=
  if (Rn.State run =? daemonv1.RunState_RUN_STATE_FAILED)%Z ||
     (Rn.State run =? daemonv1.RunState_RUN_STATE_CANCELED)%Z
  then runFailureReason run req else "".

(** The patch a terminal run makes of its task. *)
Definition run_patch (run : Rn.Run) (req : UrQ.UpdateRunStatusRequest) : TpS.TaskPatch :=
  let patch (state reason : string) :=
    TpS.zero |> TpS.set_State (Some state) |> TpS.set_BlockedReason (Some reason) in
  if (Rn.State run =? daemonv1.RunState_RUN_STATE_COMPLETED)%Z then patch "in_review" ""
  else if (Rn.State run =? daemonv1.RunState_RUN_STATE_FAILED)%Z then patch "blocked" (runFailureReason run req)
  else if (Rn.State run =? daemonv1.RunState_RUN_STATE_CANCELED)%Z then patch "canceled" (runFailureReason run req)
  else TpS.zero.

(** The columns of the board, in its order. *)
Definition board_columns : list string := ["todo"; "in_progress"; "blocked"; "in_review"; "done"; "canceled"].

(** A run that still works for an agent on a task. *)
Definition live_run (taskID agentID : string) (run : Rn.Run) : bool :=
  (Rn.TaskId run =s taskID) && (Rn.AgentId run =s agentID) && negb (isTerminalRunState (Rn.State run)).

Section tasks.
Context {Eng : SqlEngine} {Uni : Unicode} {PJ : ProtoJSON} {E : Env} {Ord : MapOrder}.

Definition RecordTaskMutation (task : TkS.Task) (operation : Z) : R (error + unit) :=
  match Marshal (to_message (taskToProto task)) with
  | None => mret (inl ErrMarshal)
  | Some payload =>
      serverID ← gets serverID;
      res ← append_event (log_entry serverID (TkS.Target task) (TkS.ID task) "task"
        (eventOperationToStorage operation)
        (eventScopeTypeToStorage daemonv1.EventScopeType_EVENT_SCOPE_TYPE_TASK)
        (TkS.ID task) payload (TkS.UpdatedUnix task));
      mret match res with inl e => inl e | inr _ => inr () end
  end.

(** ** Tasks *)

Definition CreateCollaborationTask (req : CrQ.CreateCollaborationTaskRequest) :
    R CrP.CreateCollaborationTaskResponse :=
  once "CreateCollaborationTask" (CrQ.RequestId req) (CrQ.IdempotencyKey req) (
    _ ← refuse ((CrQ.Target req =s "") || (CrQ.Summary req =s ""))
          InvalidArgument "target and summary are required";
    now ← unixNow;
    id ← NewID "tsk";
    created ← or_status (λ _, Status Internal "create task") (stored (CreateTask now id (TkS.zero
      |> TkS.set_Summary (CrQ.Summary req)
      |> TkS.set_State "todo"
      |> TkS.set_Target (CrQ.Target req)
      |> TkS.set_AssigneeID (CrQ.AgentId req)
      |> TkS.set_CreatedByUserID (CrQ.CreatedByUserId req))));
    _ ← or_status (λ _, Status Internal "append task event")
          (RecordTaskMutation created daemonv1.EventOperation_EVENT_OPERATION_CREATED);
    remembered "CreateCollaborationTask" (CrQ.RequestId req) (CrQ.IdempotencyKey req)
      (CrP.zero |> CrP.set_Task (Some (taskToProto created)))).

Definition GetTask (req : GtQ.GetTaskRequest) : R GtP.GetTaskResponse :=
  taskModel ← or_status
    (λ e, if errors_Is e ErrNotFound then Status NotFound "task not found" else Status Internal "get task")
    (stored (Tasks.GetTask (GtQ.TaskId req)));
  mret (GtP.zero |> GtP.set_Task (Some (taskToProto taskModel))).

(** The patch an update asks for, or its rejection. *)
Definition task_patch (req : UtQ.UpdateTaskRequest) : option TpS.TaskPatch :=
  let patch := TpS.zero |> TpS.set_Summary (UtQ.Summary req) in
  match UtQ.State req with
  | None => Some patch
  | Some state =>
      match taskStateToStorage state with
      | None => None
      | Some value => Some (patch |> TpS.set_State (Some value))
      end
  end.

Definition rejected_update (reason : string) : UtP.UpdateTaskResponse :=
  UtP.zero |> UtP.set_Accepted false |> UtP.set_RejectionReason reason.

Definition UpdateTask (req : UtQ.UpdateTaskRequest) : R UtP.UpdateTaskResponse :=
  once "UpdateTask" (UtQ.RequestId req) (UtQ.IdempotencyKey req) (
    match task_patch req with
    | None => mret (rejected_update "invalid_state")
    | Some patch =>
        now ← unixNow;
        updated ← stored (Tasks.UpdateTask now (UtQ.TaskId req) patch);
        match updated with
        | inl e =>
            if errors_Is e ErrNotFound then mret (rejected_update "task_not_found")
            else if errors_Is e ErrInvalidState then mret (rejected_update "invalid_state")
            else fail Internal "update task"
        | inr taskModel =>
            let operation := match UtQ.State req with
                             | None => daemonv1.EventOperation_EVENT_OPERATION_UPDATED
                             | Some _ => daemonv1.EventOperation_EVENT_OPERATION_STATE_CHANGED
                             end in
            _ ← or_status (λ _, Status Internal "append task event") (RecordTaskMutation taskModel operation);
            remembered "UpdateTask" (UtQ.RequestId req) (UtQ.IdempotencyKey req)
              (UtP.zero |> UtP.set_Accepted true |> UtP.set_Task (Some (taskToProto taskModel)))
        end
    end).

(** The states a listing keeps: the query's own filter when there is exactly one. *)
Definition ListCollaborationTasks (req : LtQ.ListCollaborationTasksRequest) :
    R LtP.ListCollaborationTasksResponse :=
  let stateSet := omap taskStateToStorage (LtQ.States req) in
  let state := match LtQ.States req with
               | [s] => from_opt "" (taskStateToStorage s)
               | _ => ""
               end in
  tasks ← or_status (λ _, Status Internal "list tasks") (stored (ListTasks state (LtQ.Target req) (LtQ.Limit req)));
  serverID ← gets serverID;
  let out := taskToProto <$> bfilter (λ t,
    (match stateSet with [] => true | _ => contains stateSet (TkS.State t) end) &&
    (if LtQ.AgentId req <>s "" then TkS.AssigneeID t =s LtQ.AgentId req else true)) tasks in
  mret (LtP.zero |> LtP.set_Tasks out
                 |> LtP.set_NextCursor (Some (cursorFromCount (length out) (LtQ.Target req) serverID))).

Definition ListTaskBoard (req : BdQ.ListTaskBoardRequest) : R BdP.ListTaskBoardResponse :=
  tasks ← or_status (λ _, Status Internal "list task board")
    (stored (ListTasks "" (BdQ.Target req) (BdQ.Limit req)));
  serverID ← gets serverID;
  let kept := bfilter (λ t, if BdQ.Column req <>s "" then TkP.BoardColumn t =s BdQ.Column req else true)
    (taskToProto <$> bfilter (λ t,
       if BdQ.AssigneeId req <>s "" then TkS.AssigneeID t =s BdQ.AssigneeId req else true) tasks) in
  let byColumn (column : string) := bfilter (λ t, TkP.BoardColumn t =s column) kept in
  let shown := bfilter (λ column, negb (length (byColumn column) =? 0)) board_columns in
  let columns := (λ column, BdC.zero |> BdC.set_Column column
                                     |> BdC.set_Tasks (byColumn column)
                                     |> BdC.set_TotalCount (Z.of_nat (length (byColumn column)))) <$> shown in
  let counts := foldr (λ column m, <[column := Z.of_nat (length (byColumn column))]> m) ∅ shown in
  mret (BdP.zero |> BdP.set_Board (Some (BdS.zero
    |> BdS.set_Columns columns
    |> BdS.set_ColumnCounts counts
    |> BdS.set_NextCursor (Some (cursorFromCount (length tasks) (BdQ.Target req) serverID))))).

(** ** Claims *)

Definition run_event (operation : Z) (requestID target : string) (run : Rn.Run) : Ev.ServerEvent :=
  Ev.zero
    |> Ev.set_AggregateId (Rn.RunId run)
    |> Ev.set_Target target
    |> Ev.set_Kind daemonv1.ServerEventKind_SERVER_EVENT_KIND_RUN_ASSIGNED
    |> Ev.set_RequestId requestID
    |> Ev.set_Operation operation
    |> Ev.set_Scope (Some (scope daemonv1.EventScopeType_EVENT_SCOPE_TYPE_TASK (Rn.TaskId run) (Rn.Target run)))
    |> Ev.set_Payload (Some (daemonv1.ServerEvent_Run run)).

Definition ensureClaimRunLocked (task : TkS.Task) (req : ClQ.ClaimCollaborationTaskRequest) (lease : Ls.Lease) :
    R Rn.Run :=
  all ← gets runs;
  match head (bfilter (live_run (TkS.ID task) (ClQ.AgentId req)) (snd <$> visited all)) with
  | Some existing => mret existing
  | None =>
      '(computerID, runtimeProfileID) ← agentRouteLocked (ClQ.AgentId req);
      now ← unixNow;
      id ← NewID "run";
      let run := Rn.zero
        |> Rn.set_RunId id
        |> Rn.set_TaskId (TkS.ID task)
        |> Rn.set_Target (TkS.Target task)
        |> Rn.set_AgentId (ClQ.AgentId req)
        |> Rn.set_ComputerId computerID
        |> Rn.set_RuntimeProfileId runtimeProfileID
        |> Rn.set_State daemonv1.RunState_RUN_STATE_QUEUED
        |> Rn.set_LeaseId (Ls.LeaseId lease)
        |> Rn.set_RequestId (ClQ.RequestId req)
        |> Rn.set_Summary (TkS.Summary task)
        |> Rn.set_StartedTimeUnix now
        |> Rn.set_UpdatedTimeUnix now
        |> Rn.set_Attempt 1
        |> Rn.set_MaxAttempts 1 in
      _ ← modify (λ s, put_runs (<[Rn.RunId run := run]> (runs s)) s);
      _ ← publish (run_event daemonv1.EventOperation_EVENT_OPERATION_CREATED (ClQ.RequestId req)
                     (TkS.Target task) run);
      mret run
  end.

Definition refused_claim (task : TkS.Task) : ClP.ClaimCollaborationTaskResponse :=
  ClP.zero
    |> ClP.set_Task (Some (taskToProto task))
    |> ClP.set_Accepted false
    |> ClP.set_ConflictReason "already_claimed"
    |> ClP.set_CurrentAssigneeId (TkS.AssigneeID task)
    |> ClP.set_ConflictPolicy
         daemonv1.TaskClaimConflictBehavior_TASK_CLAIM_CONFLICT_BEHAVIOR_FAIL_SILENT.

(** The promotion of a claimed task that starts executing. *)
Definition promote (runTask : bool) (task : TkS.Task) : R (TkS.Task * bool) :=
  if runTask && (TkS.State task =s "todo") then
    now ← unixNow;
    promoted ← or_status (λ _, Status Internal "promote claimed task")
      (stored (Tasks.UpdateTask now (TkS.ID task) (TpS.zero |> TpS.set_State (Some "in_progress"))));
    mret (promoted, true)
  else mret (task, false).

Definition claim_run (runTask : bool) (task : TkS.Task) (req : ClQ.ClaimCollaborationTaskRequest)
    (lease : Ls.Lease) : R (option Rn.Run) :=
  if runTask then
    run ← ensureClaimRunLocked task req lease;
    mret (Some run)
  else mret None.

(** The attempt of a claim that has a run. *)
Definition record_claim (task : TkS.Task) (req : ClQ.ClaimCollaborationTaskRequest) (lease : Ls.Lease)
    (run : option Rn.Run) : R unit :=
  match run with
  | None => mret ()
  | Some run =>
      now ← unixNow;
      id ← NewID "tat";
      _ ← or_status (λ _, Status Internal "record task attempt claim")
        (stored (RecordTaskAttemptClaim now id (TaS.zero
          |> TaS.set_TaskID (TkS.ID task)
          |> TaS.set_Attempt (firstNonZeroUint32 [Rn.Attempt run; 1%Z])
          |> TaS.set_RunID (Rn.RunId run)
          |> TaS.set_AgentID (ClQ.AgentId req)
          |> TaS.set_ClaimLeaseID (Ls.LeaseId lease)
          |> TaS.set_Status "claimed")));
      mret ()
  end.

Definition ClaimCollaborationTask (req : ClQ.ClaimCollaborationTaskRequest) :
    R ClP.ClaimCollaborationTaskResponse :=
  once "ClaimCollaborationTask" (ClQ.RequestId req) (ClQ.IdempotencyKey req) (
    lease ← newLease "task_claim" (ClQ.TaskId req) (ClQ.AgentId req) (defaultTTL (ClQ.LeaseTtlSeconds req) 300);
    now ← unixNow;
    '(updated, accepted) ← or_status
      (λ e, if errors_Is e ErrNotFound then Status NotFound "task not found" else Status Internal "claim task")
      (stored (ClaimTaskCAS now (ClQ.TaskId req) (ClQ.AgentId req) (Ls.LeaseId lease)));
    if negb accepted then
      remembered "ClaimCollaborationTask" (ClQ.RequestId req) (ClQ.IdempotencyKey req) (refused_claim updated)
    else
      let runTask := claimStartsExecution (ClQ.ClaimMode req) in
      '(updated, promotedToExecution) ← promote runTask updated;
      _ ← share lease;
      run ← claim_run runTask updated req lease;
      _ ← record_claim updated req lease run;
      _ ← or_status (λ _, Status Internal "append task claim event")
            (RecordTaskMutation updated daemonv1.EventOperation_EVENT_OPERATION_CLAIMED);
      _ ← only_if promotedToExecution
            (or_status (λ _, Status Internal "append task state event")
               (RecordTaskMutation updated daemonv1.EventOperation_EVENT_OPERATION_STATE_CHANGED));
      let taskProto := taskToProto updated in
      let taskProto := match run with
                       | None => taskProto
                       | Some run => taskProto |> TkP.set_CurrentRunId (Rn.RunId run)
                       end in
      remembered "ClaimCollaborationTask" (ClQ.RequestId req) (ClQ.IdempotencyKey req)
        (ClP.zero |> ClP.set_Task (Some taskProto) |> ClP.set_Accepted true
                  |> ClP.set_ClaimLease (Some lease))).

(** ** Runs *)

Definition recordTaskAttemptRunStatus (run : Rn.Run) (req : UrQ.UpdateRunStatusRequest) : R unit :=
  if Rn.TaskId run =s "" then mret ()
  else
    match taskAttemptStatusFromRunState (Rn.State run) with
    | None => mret ()
    | Some attemptStatus =>
        now ← unixNow;
        id ← NewID "tat";
        _ ← or_status
          (λ e, if errors_Is e ErrInvalid then Status InvalidArgument "invalid task attempt output"
                else Status Internal "record task attempt status")
          (stored (UpdateTaskAttemptFromRun now id (TaS.zero
            |> TaS.set_TaskID (Rn.TaskId run)
            |> TaS.set_Attempt (firstNonZeroUint32 [Rn.Attempt run; 1%Z])
            |> TaS.set_RunID (Rn.RunId run)
            |> TaS.set_AgentID (firstNonEmpty [Rn.AgentId run; UrQ.AgentId req])
            |> TaS.set_ClaimLeaseID (firstNonEmpty [Rn.LeaseId run; UrQ.LeaseId req])
            |> TaS.set_Status attemptStatus
            |> TaS.set_OutputJSON (UrQ.ResultJson req)
            |> TaS.set_OutputDigest (UrQ.ResultDigest req)
            |> TaS.set_OutputSignature (UrQ.ResultSignature req)
            |> TaS.set_SignaturePublicKey (UrQ.SignaturePublicKey req)
            |> TaS.set_ErrorMessage (runFailureReasonForAttempt run req))));
        mret ()
    end.

Definition updateTaskFromRunStatus (run : Rn.Run) (req : UrQ.UpdateRunStatusRequest) : R unit :=
  if (Rn.TaskId run =s "") || negb (isTerminalRunState (Rn.State run)) then mret ()
  else
    now ← unixNow;
    updated ← stored (Tasks.UpdateTask now (Rn.TaskId run) (run_patch run req));
    match updated with
    | inl e => if errors_Is e ErrNotFound then mret () else fail Internal "update task from run status"
    | inr taskModel =>
        or_status (λ _, Status Internal "append task run status event")
          (RecordTaskMutation taskModel daemonv1.EventOperation_EVENT_OPERATION_STATE_CHANGED)
    end.

(** The run a report is about: the known one, or a new one without a task. *)
Definition reported_run (req : UrQ.UpdateRunStatusRequest) (now : Z) : R Rn.Run :=
  all ← gets runs;
  match all !! UrQ.RunId req with
  | Some run => mret run
  | None =>
      '(computerID, runtimeProfileID) ← agentRouteLocked (UrQ.AgentId req);
      mret (Rn.zero
        |> Rn.set_RunId (UrQ.RunId req)
        |> Rn.set_Target (runTargetFromAgent (UrQ.AgentId req))
        |> Rn.set_AgentId (UrQ.AgentId req)
        |> Rn.set_ComputerId computerID
        |> Rn.set_RuntimeProfileId runtimeProfileID
        |> Rn.set_LeaseId (UrQ.LeaseId req)
        |> Rn.set_StartedTimeUnix now)
  end.

(** What the report fills in of the run, besides its state. *)
Definition complete_run (req : UrQ.UpdateRunStatusRequest) (run : Rn.Run) : R Rn.Run :=
  let run := run |> when ((Rn.AgentId run =s "") && (UrQ.AgentId req <>s "")) (Rn.set_AgentId (UrQ.AgentId req)) in
  '(computerID, runtimeProfileID) ← agentRouteLocked (Rn.AgentId run);
  let run := run |> when (((Rn.ComputerId run =s "") || (Rn.RuntimeProfileId run =s "")) && (Rn.AgentId run <>s ""))
    (λ run, run
       |> when (Rn.ComputerId run =s "") (Rn.set_ComputerId computerID)
       |> when (Rn.RuntimeProfileId run =s "") (Rn.set_RuntimeProfileId runtimeProfileID)) in
  let run := run |> when (Rn.Target run =s "") (Rn.set_Target (runTargetFromAgent (Rn.AgentId run))) in
  mret (run |> when (Rn.LeaseId run =s "") (Rn.set_LeaseId (UrQ.LeaseId req))).

Definition report_run (req : UrQ.UpdateRunStatusRequest) (now : Z) (run : Rn.Run) : Rn.Run :=
  run
    |> Rn.set_State (UrQ.State req)
    |> Rn.set_Summary (redactRunFeedback (UrQ.Summary req))
    |> Rn.set_Error (redactRunFeedback (UrQ.Error req))
    |> Rn.set_UpdatedTimeUnix now
    |> Rn.set_LastHeartbeatTimeUnix now
    |> when (isTerminalRunState (UrQ.State req)) (Rn.set_CompletedTimeUnix now).

Definition UpdateRunStatus (req : UrQ.UpdateRunStatusRequest) : R UrP.UpdateRunStatusResponse :=
  once "UpdateRunStatus" (UrQ.RequestId req) (UrQ.IdempotencyKey req) (
    _ ← refuse (UrQ.RunId req =s "") InvalidArgument "run_id is required";
    now ← unixNow;
    run ← reported_run req now;
    run ← complete_run req run;
    let cp := report_run req now run in
    _ ← modify (λ s, put_runs (<[UrQ.RunId req := cp]> (runs s)) s);
    _ ← publish (run_event daemonv1.EventOperation_EVENT_OPERATION_UPDATED (UrQ.RequestId req)
                   (firstNonEmpty [Rn.Target cp; Rn.ComputerId cp; Rn.AgentId cp]) cp);
    _ ← recordTaskAttemptRunStatus cp req;
    _ ← updateTaskFromRunStatus cp req;
    remembered "UpdateRunStatus" (UrQ.RequestId req) (UrQ.IdempotencyKey req)
      (UrP.zero |> UrP.set_Accepted true |> UrP.set_Run (Some cp))).

Definition RenewRunLease (req : RrQ.RenewRunLeaseRequest) : R RrP.RenewRunLeaseResponse :=
  once "RenewRunLease" (RrQ.RequestId req) (RrQ.IdempotencyKey req) (
    _ ← refuse ((RrQ.RunId req =s "") || (RrQ.LeaseId req =s ""))
          InvalidArgument "run_id and lease_id are required";
    let ttl := defaultTTL (RrQ.LeaseTtlSeconds req) 300 in
    s ← gets Datatypes.id;
    match leases s !! RrQ.LeaseId req with
    | None => mret (RrP.zero |> RrP.set_Accepted false |> RrP.set_RejectionReason "lease_not_found")
    | Some cell =>
        now ← unixNow;
        _ ← modify (λ s, put_leases (alter (Ls.set_ExpiresTimeUnix (i64 (now + ttl))) cell (lease_cells s))
                          (leases s) s);
        cells ← gets lease_cells;
        remembered "RenewRunLease" (RrQ.RequestId req) (RrQ.IdempotencyKey req)
          (RrP.zero |> RrP.set_Accepted true |> RrP.set_Run (runs s !! RrQ.RunId req)
                    |> RrP.set_Lease (cells !! cell))
    end).

Definition AppendRunStep (req : AsQ.AppendRunStepRequest) : R AsP.AppendRunStepResponse :=
  once "AppendRunStep" (AsQ.RequestId req) (AsQ.IdempotencyKey req) (
    let step := from_opt Rs.zero (AsQ.Step req) in
    _ ← refuse (Rs.RunId step =s "") InvalidArgument "run_id is required";
    id ← NewID "step";
    let cp := step |> when (Rs.StepId step =s "") (Rs.set_StepId id) in
    _ ← modify (λ s, put_runSteps (<[Rs.RunId cp := from_opt [] (runSteps s !! Rs.RunId cp) ++ [cp]]> (runSteps s)) s);
    remembered "AppendRunStep" (AsQ.RequestId req) (AsQ.IdempotencyKey req)
      (AsP.zero |> AsP.set_Accepted true |> AsP.set_Step (Some cp))).

Definition FetchAssignedRuns (req : FrQ.FetchAssignedRunsRequest) : R FrP.FetchAssignedRunsResponse :=
  s ← gets Datatypes.id;
  let limit := Z.to_nat (bounded_limit (FrQ.Limit req) 200 100) in
  let out := take limit (bfilter (λ run,
    (if FrQ.ComputerId req <>s "" then Rn.ComputerId run =s FrQ.ComputerId req else true) &&
    (match FrQ.AgentIds req with [] => true | ids => contains ids (Rn.AgentId run) end))
    (snd <$> visited (runs s))) in
  mret (FrP.zero |> FrP.set_Runs out
                 |> FrP.set_NextCursor (Some (cursorFromCount (length out) (FrQ.ComputerId req) (serverID s)))).

Definition ListRuns (req : LrQ.ListRunsRequest) : R LrP.ListRunsResponse :=
  s ← gets Datatypes.id;
  let limit := Z.to_nat (bounded_limit (LrQ.Limit req) 200 100) in
  let out := take limit (bfilter (λ run,
    (if LrQ.Target req <>s "" then Rn.Target run =s LrQ.Target req else true) &&
    (if LrQ.TaskId req <>s "" then Rn.TaskId run =s LrQ.TaskId req else true) &&
    (if LrQ.AgentId req <>s "" then Rn.AgentId run =s LrQ.AgentId req else true))
    (snd <$> visited (runs s))) in
  mret (LrP.zero |> LrP.set_Runs out
                 |> LrP.set_NextCursor (Some (cursorFromCount (length out) (LrQ.Target req) (serverID s)))).

Definition GetRun (req : GrQ.GetRunRequest) : R GrP.GetRunResponse :=
  s ← gets Datatypes.id;
  match runs s !! GrQ.RunId req with
  | None => fail NotFound "run not found"
  | Some run =>
      mret (GrP.zero |> GrP.set_Run (Some run) |> GrP.set_Steps (from_opt [] (runSteps s !! GrQ.RunId req)))
  end.

End tasks.
