(* ===== verification/RpcMessages.v ===== *)
(** * Messages and outbound deliveries ([internal/daemonrpc/server.go])

    Sending a message appends it to the store and to the event log, and may enqueue
    deliveries to the endpoint its thread came from and to the endpoints its target is
    routed to; a direct message to an agent is a message of the target [dm:<agent>] and
    an event for the agent's daemon. *)
From S2P Require Import Prelude GoStr GoText Sql JsonValue Models Schema Store Events.
From S2P Require Import Messages Endpoints ImChats Deliveries Routes Tasks RpcText.
From S2P Require Import Proto Rpc RpcConv RpcAgents.

Module MgS := Models.Message.
Module IeS := InteractionEndpoint.
Module OdS := OutboundDelivery.
Module OdO := OutboundDeliveryListOptions.
Module RoO := NotificationRouteResolveOptions.
Module RtS := NotificationRoute.
Module ImS := IMChatSubscription.
Module SmQ := daemonv1.SendMessageRequest.
Module SmP := daemonv1.SendMessageResponse.
Module DmQ := daemonv1.SendAgentDirectMessageRequest.
Module DmP := daemonv1.SendAgentDirectMessageResponse.
Module LoQ := daemonv1.ListOutboundDeliveriesRequest.
Module LoP := daemonv1.ListOutboundDeliveriesResponse.
Module RdQ := daemonv1.RetryOutboundDeliveryRequest.
Module RdP := daemonv1.RetryOutboundDeliveryResponse.
Module RmQ := daemonv1.ReadMessagesRequest.
Module RmP := daemonv1.ReadMessagesResponse.
Module SsQ := daemonv1.SearchMessagesRequest.
Module SsP := daemonv1.SearchMessagesResponse.
Module SvQ := daemonv1.SaveMessageRequest.
Module SvP := daemonv1.SaveMessageResponse.
Module UvQ := daemonv1.UnsaveMessageRequest.
Module UvP := daemonv1.UnsaveMessageResponse.
Module LvQ := daemonv1.ListSavedMessagesRequest.
Module LvP := daemonv1.ListSavedMessagesResponse.
Module LeQ := daemonv1.ListInteractionEndpointsRequest.
Module LeP := daemonv1.ListInteractionEndpointsResponse.
Module LcQ := daemonv1.ListChannelsRequest.
Module LcP := daemonv1.ListChannelsResponse.
Module EsQ := daemonv1.ListEventsSinceRequest.
Module EsP := daemonv1.ListEventsSinceResponse.
Module Ac := daemonv1.Actor.

(** ** Which deliveries a message calls for *)

Definition shouldEnqueueOutboundDelivery (req : SmQ.SendMessageRequest) (senderKind : string) : bool :=
  let policy := SmQ.OutboundPolicy req in
  if (policy =? daemonv1.OutboundPolicy_OUTBOUND_POLICY_NONE)%Z then false
  else if (policy =? daemonv1.OutboundPolicy_OUTBOUND_POLICY_SOURCE_ONLY)%Z ||
          (policy =? daemonv1.OutboundPolicy_OUTBOUND_POLICY_ALL_BOUND_ENDPOINTS)%Z ||
          (policy =? daemonv1.OutboundPolicy_OUTBOUND_POLICY_SELECTED_ENDPOINTS)%Z then true
  else SmQ.EmitOutbound req || (senderKind =s "agent").

Definition boolConfigValue `{!Unicode} (raw : gmap string json) (key : string) : bool :=
  match raw !! key with
  | Some (JBool b) => b
  | Some (JStr s) =>
      let v := ToLower (TrimSpace s) in
      (v =s "1") || (v =s "true") || (v =s "yes") || (v =s "on")
  | _ => false
  end.

Definition imEndpointRequiresChatSubscription `{!Unicode} (endpoint : IeS.InteractionEndpoint) : bool :=
  let raw : gmap string json :=
    if TrimSpace (IeS.ConfigJSON endpoint) <>s ""
    then (JsonValue.Unmarshal (dec_map JNull dec_any) (IeS.ConfigJSON endpoint) ∅).1 else ∅ in
  boolConfigValue raw "require_subscription" || boolConfigValue raw "chat_auth_required" ||
  boolConfigValue raw "require_chat_authorization".

Definition verboseOnlyOutboundMessage `{!Unicode} (msg : MgS.Message) : bool :=
  ToLower (TrimSpace (MgS.Kind msg)) =s "status".

Record imChatIdentity := mkIdentity { ConversationID : string; ExternalThreadID : string }.

Definition identity_fields : list (field imChatIdentity) :=
  [("external_id", into ConversationID (λ v i, mkIdentity v (ExternalThreadID i)) dec_string);
   ("external_thread_id", into ExternalThreadID (λ v i, mkIdentity (ConversationID i) v) dec_string)].

Definition imChatIdentityFromMetadata (metadataJSON : string) : imChatIdentity :=
  let raw := (JsonValue.Unmarshal
    (dec_struct [("im", dec_struct [("conversation", dec_struct identity_fields)])])
    metadataJSON (mkIdentity "" "")).1 in
  mkIdentity (TrimSpace (ConversationID raw)) (TrimSpace (ExternalThreadID raw)).

Definition from_source (msg : MgS.Message) : bool :=
  (MgS.SourceEndpointID msg <>s "") && (MgS.ExternalMessageID msg <>s "").

Section messages.
Context {Eng : SqlEngine} {Uni : Unicode} {Txt : TextLib} {PJ : ProtoJSON} {E : Env} {Ord : MapOrder}.

(** [errors.Is(err, ErrNotFound)] as [None]. *)
Definition found {A} (m : R (error + A)) : R (error + option A) :=
  r ← m;
  mret match r with
  | inr a => inr (Some a)
  | inl e => if errors_Is e ErrNotFound then inr None else inl e
  end.

(** The message whose source endpoint answers go to: the message itself, the one it
    replies to, or the root of that one's thread. *)
Definition sourceMessageForOutbound (msg : MgS.Message) : R (error + option MgS.Message) :=
  if from_source msg then mret (inr (Some msg))
  else if MgS.ReplyToMessageID msg =s "" then mret (inr None)
  else
    and_then (found (stored (GetMessage (MgS.Target msg) (MgS.ReplyToMessageID msg)))) (λ parent,
    match parent with
    | None => mret (inr None)
    | Some parent =>
        if from_source parent then mret (inr (Some parent))
        else if (MgS.ThreadID parent =s "") || (MgS.ThreadID parent =s MgS.ID parent) then mret (inr None)
        else
          and_then (found (stored (GetMessage (MgS.Target parent) (MgS.ThreadID parent)))) (λ root,
          match root with
          | None => mret (inr None)
          | Some root => mret (inr (if from_source root then Some root else None))
          end)
    end).

Definition suppressIMChatSourceDelivery (endpoint : IeS.InteractionEndpoint) (source msg : MgS.Message) :
    R (error + bool) :=
  if negb (EqualFold (IeS.Kind endpoint) "im") then mret (inr false)
  else
    let identity := imChatIdentityFromMetadata (MgS.MetadataJSON source) in
    if ConversationID identity =s "" then mret (inr false)
    else
      and_then (found (stored (GetIMChatSubscription (IeS.ID endpoint) (ConversationID identity)
        (ExternalThreadID identity)))) (λ subscription,
      mret (inr match subscription with
                | None => imEndpointRequiresChatSubscription endpoint
                | Some subscription =>
                    if negb (ImS.Subscribed subscription) then true
                    else negb (ImS.Verbose subscription) && verboseOnlyOutboundMessage msg
                end)).

Definition EmitOutboundDeliveryEvent (delivery : OdS.OutboundDelivery) (operation : Z) : R unit :=
  publish (Ev.zero
    |> Ev.set_AggregateId (OdS.MessageID delivery)
    |> Ev.set_Target (OdS.Target delivery)
    |> Ev.set_Kind daemonv1.ServerEventKind_SERVER_EVENT_KIND_OUTBOUND_DELIVERY
    |> Ev.set_Operation operation
    |> Ev.set_Scope (Some (scope daemonv1.EventScopeType_EVENT_SCOPE_TYPE_TARGET
                             (OdS.Target delivery) (OdS.Target delivery)))
    |> Ev.set_RequestId (OdS.RequestID delivery)
    |> Ev.set_Payload (Some (daemonv1.ServerEvent_OutboundDelivery (outboundDeliveryToProto delivery)))
    |> Ev.set_ProtocolVersion protocolVersion).

(** The delivery of [msg] to an endpoint, and its event. *)
Definition enqueue (msg : MgS.Message) (endpoint : IeS.InteractionEndpoint) (externalMessageID : string) :
    R (error + OdS.OutboundDelivery) :=
  now ← unixNow;
  id ← NewID "odlv";
  and_then (stored (CreateOutboundDelivery now id (OdS.zero
    |> OdS.set_Target (MgS.Target msg)
    |> OdS.set_MessageID (MgS.ID msg)
    |> OdS.set_EndpointID (IeS.ID endpoint)
    |> OdS.set_EndpointKind (IeS.Kind endpoint)
    |> OdS.set_ExternalMessageID externalMessageID
    |> OdS.set_Status "pending"
    |> OdS.set_RequestID (firstNonEmpty [MgS.RequestID msg; MgS.ID msg +:+ ":" +:+ IeS.ID endpoint]))))
  (λ delivery,
    _ ← EmitOutboundDeliveryEvent delivery daemonv1.EventOperation_EVENT_OPERATION_CREATED;
    mret (inr delivery)).

(** [None] is the zero delivery, which callers tell by its empty identifier. *)
Definition EnqueueSourceOutboundDelivery (msg : MgS.Message) : R (error + option OdS.OutboundDelivery) :=
  and_then (sourceMessageForOutbound msg) (λ source,
  match source with
  | None => mret (inr None)
  | Some source =>
      if negb (from_source source) then mret (inr None)
      else
        and_then (found (stored (GetInteractionEndpoint (MgS.SourceEndpointID source)))) (λ endpoint,
        match endpoint with
        | None => mret (inr None)
        | Some endpoint =>
            if negb (IeS.OutboundEnabled endpoint) then mret (inr None)
            else
              and_then (suppressIMChatSourceDelivery endpoint source msg) (λ suppress,
              if suppress then mret (inr None)
              else
                and_then (enqueue msg endpoint (MgS.ExternalMessageID source)) (λ delivery,
                mret (inr (Some delivery))))
        end)
  end).

(** The loop over the routes; [seen] is the endpoints that have a delivery. *)
Fixpoint enqueue_routes (msg : MgS.Message) (routes : list RtS.NotificationRoute)
    (seen : gset string) (deliveries : list OdS.OutboundDelivery) : R (error + list OdS.OutboundDelivery) :=
  match routes with
  | [] => mret (inr deliveries)
  | route :: routes =>
      if bool_decide (RtS.EndpointID route ∈ seen) then enqueue_routes msg routes seen deliveries
      else
        and_then (found (stored (GetInteractionEndpoint (RtS.EndpointID route)))) (λ endpoint,
        match endpoint with
        | None => enqueue_routes msg routes seen deliveries
        | Some endpoint =>
            if negb (IeS.OutboundEnabled endpoint) then enqueue_routes msg routes seen deliveries
            else
              and_then (enqueue msg endpoint "") (λ delivery,
              enqueue_routes msg routes ({[ RtS.EndpointID route ]} ∪ seen) (deliveries ++ [delivery]))
        end)
  end.

Definition enqueueRoutedOutboundDeliveries (msg : MgS.Message) (includeSource : bool) :
    R (error + list OdS.OutboundDelivery) :=
  and_then (if includeSource then EnqueueSourceOutboundDelivery msg else mret (inr None)) (λ sourceDelivery,
  let deliveries := match sourceDelivery with Some d => [d] | None => [] end in
  routes ← stored (ResolveNotificationRoutes (RoO.zero
    |> RoO.set_Target (MgS.Target msg)
    |> RoO.set_ThreadID (MgS.ThreadID msg)
    |> RoO.set_EventKind "message"
    |> RoO.set_Limit 100));
  match routes with
  | inl e => if errors_Is e ErrInvalidState then mret (inr deliveries) else mret (inl e)
  | inr routes => enqueue_routes msg routes (list_to_set (OdS.EndpointID <$> deliveries)) deliveries
  end).

Definition EnqueueOutboundDeliveries (msg : MgS.Message) (policy : Z) : R (error + list OdS.OutboundDelivery) :=
  if (policy =? daemonv1.OutboundPolicy_OUTBOUND_POLICY_NONE)%Z then mret (inr [])
  else if (policy =? daemonv1.OutboundPolicy_OUTBOUND_POLICY_ALL_BOUND_ENDPOINTS)%Z then
    enqueueRoutedOutboundDeliveries msg true
  else if (policy =? daemonv1.OutboundPolicy_OUTBOUND_POLICY_SELECTED_ENDPOINTS)%Z then
    enqueueRoutedOutboundDeliveries msg false
  else
    and_then (EnqueueSourceOutboundDelivery msg) (λ delivery,
    mret (inr match delivery with Some d => [d] | None => [] end)).

Definition RecordMessageMutation (msg : MgS.Message) (operation : Z) : R (error + unit) :=
  let protoMsg := messageToProto msg in
  match Marshal (to_message protoMsg) with
  | None => mret (inl ErrMarshal)
  | Some payload =>
      serverID ← gets serverID;
      let aggregateID := firstNonEmpty [MgS.ThreadID msg; CMs.AggregateId protoMsg; MgS.Target msg] in
      res ← append_event (log_entry serverID (MgS.Target msg) aggregateID "message"
        (eventOperationToStorage operation)
        (eventScopeTypeToStorage daemonv1.EventScopeType_EVENT_SCOPE_TYPE_TARGET)
        (MgS.Target msg) payload (MgS.CreatedUnix msg));
      mret match res with inl e => inl e | inr _ => inr () end
  end.

(** ** Messages *)

Definition message_of_request (req : SmQ.SendMessageRequest) : MgS.Message :=
  let sender := from_opt Ac.zero (SmQ.Sender req) in
  let senderKind := actorKindToStorage (Ac.ActorKind sender) in
  MgS.zero
    |> MgS.set_Target (SmQ.Target req)
    |> MgS.set_ThreadID (SmQ.ReplyToMessageId req)
    |> MgS.set_Role (if SmQ.Role req =s "" then "user" else SmQ.Role req)
    |> MgS.set_Content (SmQ.Content req)
    |> MgS.set_Kind (messageKindToStorage (SmQ.Kind req))
    |> MgS.set_ReplyToMessageID (SmQ.ReplyToMessageId req)
    |> MgS.set_SenderUserID (Ac.UserId sender)
    |> MgS.set_SenderAgentID (Ac.AgentId sender)
    |> MgS.set_SenderDisplayName (Ac.DisplayName sender)
    |> MgS.set_SenderKind (if senderKind =s "" then "agent" else senderKind)
    |> MgS.set_SourceEndpointID (SmQ.SourceEndpointId req)
    |> MgS.set_MetadataJSON (normalizedJSON (SmQ.MetadataJson req))
    |> MgS.set_RequestID (firstNonEmpty [SmQ.IdempotencyKey req; SmQ.RequestId req]).

Definition SendMessage (req : SmQ.SendMessageRequest) : R SmP.SendMessageResponse :=
  once "SendMessage" (SmQ.RequestId req) (SmQ.IdempotencyKey req) (
    _ ← refuse ((SmQ.Target req =s "") || (SmQ.Content req =s ""))
          InvalidArgument "target and content are required";
    let messageModel := message_of_request req in
    now ← unixNow;
    id ← NewID "msg";
    created ← or_status
      (λ e, if errors_Is e ErrConflict then Status AlreadyExists "message request already exists"
            else Status Internal "create message")
      (stored (CreateMessage now id messageModel));
    _ ← or_status (λ _, Status Internal "append message event")
          (RecordMessageMutation created daemonv1.EventOperation_EVENT_OPERATION_APPENDED);
    _ ← only_if (shouldEnqueueOutboundDelivery req (MgS.SenderKind messageModel))
          (_ ← or_status (λ _, Status Internal "enqueue outbound delivery")
                 (EnqueueOutboundDeliveries created (SmQ.OutboundPolicy req));
           mret ());
    remembered "SendMessage" (SmQ.RequestId req) (SmQ.IdempotencyKey req)
      (SmP.zero |> SmP.set_Accepted true |> SmP.set_Message (Some (messageToProto created)))).

(** The message a direct message becomes. *)
Definition direct_message (req : DmQ.SendAgentDirectMessageRequest) : SmQ.SendMessageRequest :=
  let sender := match DmQ.Sender req with
                | Some sender => sender
                | None => Ac.zero |> Ac.set_ActorKind daemonv1.ActorKind_ACTOR_KIND_HUMAN
                                  |> Ac.set_DisplayName "User"
                end in
  SmQ.zero
    |> SmQ.set_Target ("dm:" +:+ DmQ.AgentId req)
    |> SmQ.set_Content (DmQ.Content req)
    |> SmQ.set_ReplyToMessageId (DmQ.ReplyToMessageId req)
    |> SmQ.set_AttachmentIds (DmQ.AttachmentIds req)
    |> SmQ.set_RequestId (DmQ.RequestId req +:+ "-message")
    |> SmQ.set_IdempotencyKey (DmQ.IdempotencyKey req +:+ "-message")
    |> SmQ.set_Context (DmQ.Context req)
    |> SmQ.set_Sender (Some sender)
    |> SmQ.set_Role "user".

Definition SendAgentDirectMessage (req : DmQ.SendAgentDirectMessageRequest) :
    R DmP.SendAgentDirectMessageResponse :=
  once "SendAgentDirectMessage" (DmQ.RequestId req) (DmQ.IdempotencyKey req) (
    _ ← refuse ((DmQ.AgentId req =s "") || (DmQ.Content req =s ""))
          InvalidArgument "agent_id and content are required";
    '(computerID, _) ← agentRouteLocked (DmQ.AgentId req);
    _ ← refuse (computerID =s "") NotFound "agent computer not found";
    let target := "dm:" +:+ DmQ.AgentId req in
    messageResp ← SendMessage (direct_message req);
    let message := SmP.Message messageResp in
    _ ← publish (Ev.zero
      |> Ev.set_AggregateId (DmQ.AgentId req)
      |> Ev.set_Target target
      |> Ev.set_Kind daemonv1.ServerEventKind_SERVER_EVENT_KIND_MESSAGE
      |> Ev.set_RequestId (DmQ.RequestId req)
      |> Ev.set_Operation daemonv1.EventOperation_EVENT_OPERATION_APPENDED
      |> Ev.set_Scope (Some (scope daemonv1.EventScopeType_EVENT_SCOPE_TYPE_AGENT (DmQ.AgentId req) target))
      |> Ev.set_Payload (daemonv1.ServerEvent_Message <$> message));
    remembered "SendAgentDirectMessage" (DmQ.RequestId req) (DmQ.IdempotencyKey req)
      (DmP.zero |> DmP.set_Accepted true |> DmP.set_Message message)).

Definition ReadMessages (req : RmQ.ReadMessagesRequest) : R RmP.ReadMessagesResponse :=
  _ ← refuse (RmQ.Target req =s "") InvalidArgument "target is required";
  messages ← or_status (λ _, Status Internal "list messages") (stored (ListMessages (RmQ.Target req) "" (RmQ.Limit req)));
  serverID ← gets serverID;
  let out := messageToProto <$> messages in
  mret (RmP.zero |> RmP.set_Messages out
                 |> RmP.set_NextCursor (Some (cursorFromCount (length out) (RmQ.Target req) serverID))).

Definition SearchMessages (req : SsQ.SearchMessagesRequest) : R SsP.SearchMessagesResponse :=
  messages ← or_status (λ _, Status Internal "search messages") (stored (Messages.SearchMessages (MessageSearchOptions.zero
    |> MessageSearchOptions.set_Query (SsQ.Query req)
    |> MessageSearchOptions.set_Target (SsQ.Target req)
    |> MessageSearchOptions.set_SenderHandle (SsQ.SenderHandle req)
    |> MessageSearchOptions.set_Sort (messageSearchSortToStorage (SsQ.Sort req))
    |> MessageSearchOptions.set_Limit (SsQ.Limit req))));
  serverID ← gets serverID;
  let out := messageToProto <$> messages in
  mret (SsP.zero |> SsP.set_Messages out
                 |> SsP.set_NextCursor (Some (cursorFromCount (length out) (SsQ.Target req) serverID))).

Definition SaveMessage (req : SvQ.SaveMessageRequest) : R SvP.SaveMessageResponse :=
  once "SaveMessage" (SvQ.RequestId req) (SvQ.IdempotencyKey req) (
    _ ← refuse ((SvQ.Target req =s "") || (SvQ.MessageId req =s ""))
          InvalidArgument "target and message_id are required";
    now ← unixNow;
    id ← NewID "sav";
    saved ← or_status
      (λ e, if errors_Is e ErrNotFound then Status NotFound "message not found" else Status Internal "save message")
      (stored (Messages.SaveMessage now id (SvQ.Target req) (SvQ.MessageId req)
                 (SvQ.SavedByUserId req) (SvQ.SavedByAgentId req)));
    remembered "SaveMessage" (SvQ.RequestId req) (SvQ.IdempotencyKey req)
      (SvP.zero |> SvP.set_Saved true |> SvP.set_SavedMessage (Some (savedMessageToProto saved)))).

Definition UnsaveMessage (req : UvQ.UnsaveMessageRequest) : R UvP.UnsaveMessageResponse :=
  once "UnsaveMessage" (UvQ.RequestId req) (UvQ.IdempotencyKey req) (
    _ ← refuse ((UvQ.Target req =s "") || (UvQ.MessageId req =s ""))
          InvalidArgument "target and message_id are required";
    saved ← stored (Messages.UnsaveMessage (UvQ.Target req) (UvQ.MessageId req)
                      (UvQ.SavedByUserId req) (UvQ.SavedByAgentId req));
    match saved with
    | inl e => if errors_Is e ErrNotFound then mret (UvP.zero |> UvP.set_Removed false)
               else fail Internal "unsave message"
    | inr saved =>
        remembered "UnsaveMessage" (UvQ.RequestId req) (UvQ.IdempotencyKey req)
          (UvP.zero |> UvP.set_Removed true |> UvP.set_SavedMessage (Some (savedMessageToProto saved)))
    end).

Definition ListSavedMessages (req : LvQ.ListSavedMessagesRequest) : R LvP.ListSavedMessagesResponse :=
  saved ← or_status (λ _, Status Internal "list saved messages")
    (stored (Messages.ListSavedMessages (LvQ.Target req) (LvQ.SavedByUserId req) (LvQ.SavedByAgentId req)
               (LvQ.Limit req)));
  serverID ← gets serverID;
  let out := savedMessageToProto <$> from_opt [] saved in
  mret (LvP.zero |> LvP.set_SavedMessages out
                 |> LvP.set_NextCursor (Some (cursorFromCount (length out) (LvQ.Target req) serverID))).

(** ** Deliveries *)

Definition ListOutboundDeliveries (req : LoQ.ListOutboundDeliveriesRequest) :
    R LoP.ListOutboundDeliveriesResponse :=
  let statuses := bfilter (λ s, s <>s "") (outboundDeliveryStatusToStorage <$> LoQ.Statuses req) in
  deliveries ← or_status
    (λ e, if errors_Is e ErrInvalidState then Status InvalidArgument "invalid outbound delivery status"
          else Status Internal "list outbound deliveries")
    (stored (Deliveries.ListOutboundDeliveries (OdO.zero
      |> OdO.set_Target (LoQ.Target req)
      |> OdO.set_MessageID (LoQ.MessageId req)
      |> OdO.set_EndpointID (LoQ.EndpointId req)
      |> OdO.set_Statuses statuses
      |> OdO.set_Limit (LoQ.Limit req))));
  serverID ← gets serverID;
  let out := outboundDeliveryToProto <$> deliveries in
  mret (LoP.zero |> LoP.set_Deliveries out
                 |> LoP.set_NextCursor (Some (cursorFromCount (length out) (LoQ.Target req) serverID))).

Definition RetryOutboundDelivery (req : RdQ.RetryOutboundDeliveryRequest) : R RdP.RetryOutboundDeliveryResponse :=
  once "RetryOutboundDelivery" (RdQ.RequestId req) (RdQ.IdempotencyKey req) (
    _ ← refuse (RdQ.DeliveryId req =s "") InvalidArgument "delivery_id is required";
    next ← unixNow;
    now ← unixNow;
    delivery ← or_status
      (λ e, if errors_Is e ErrNotFound then Status NotFound "outbound delivery not found"
            else Status Internal "retry outbound delivery")
      (stored (ScheduleOutboundDeliveryRetry now (RdQ.DeliveryId req) next));
    _ ← EmitOutboundDeliveryEvent delivery daemonv1.EventOperation_EVENT_OPERATION_UPDATED;
    remembered "RetryOutboundDelivery" (RdQ.RequestId req) (RdQ.IdempotencyKey req)
      (RdP.zero |> RdP.set_Delivery (Some (outboundDeliveryToProto delivery)))).

Definition RecordOutboundDeliveryStatus (deliveryID : string) (statusValue : Z) (lastError : string)
    (nextRetryUnix deliveredUnix : Z) : R (error + OdS.OutboundDelivery) :=
  let storageStatus := outboundDeliveryStatusToStorage statusValue in
  if storageStatus =s "" then mret (inl ErrInvalidState)
  else
    let delivered := (statusValue =? daemonv1.OutboundDeliveryStatus_OUTBOUND_DELIVERY_STATUS_DELIVERED)%Z in
    let retrying := (statusValue =? daemonv1.OutboundDeliveryStatus_OUTBOUND_DELIVERY_STATUS_RETRYING)%Z in
    clock ← unixNow;
    let deliveredUnix := if delivered && (deliveredUnix =? 0)%Z then clock else deliveredUnix in
    let nextRetryUnix := if retrying then nextRetryUnix else 0%Z in
    let deliveredUnix := if delivered then deliveredUnix else 0%Z in
    now ← unixNow;
    and_then (stored (UpdateOutboundDeliveryStatus now deliveryID storageStatus (TrimSpace lastError)
                        nextRetryUnix deliveredUnix)) (λ delivery,
    _ ← EmitOutboundDeliveryEvent delivery (outboundDeliveryOperation statusValue);
    mret (inr delivery)).

(** ** Listings *)

Definition ListInteractionEndpoints (req : LeQ.ListInteractionEndpointsRequest) :
    R LeP.ListInteractionEndpointsResponse :=
  endpoints ← or_status (λ _, Status Internal "list interaction endpoints")
    (stored (Endpoints.ListInteractionEndpoints (LeQ.Limit req)));
  serverID ← gets serverID;
  let out := endpointToProto <$> endpoints in
  mret (LeP.zero |> LeP.set_Endpoints out
                 |> LeP.set_NextCursor (Some (cursorFromCount (length out) "" serverID))).

(** The targets in [l] that pass [p] and were not seen, each once. *)
Fixpoint unseen (p : string → bool) (seen : gset string) (l : list string) : list string * gset string :=
  match l with
  | [] => ([], seen)
  | target :: l =>
      if (target =s "") || bool_decide (target ∈ seen) || negb (p target) then unseen p seen l
      else let (out, seen) := unseen p ({[ target ]} ∪ seen) l in (target :: out, seen)
  end.

Definition ListChannels (req : LcQ.ListChannelsRequest) : R LcP.ListChannelsResponse :=
  tasks ← or_status (λ _, Status Internal "list task channels") (stored (ListTasks "" "" 200));
  messageTargets ← or_status (λ _, Status Internal "list message targets")
    (stored (ListMessageTargets (LcQ.Limit req)));
  serverID ← gets serverID;
  let (of_tasks, seen) := unseen (λ _, true) ∅ (Models.Task.Target <$> tasks) in
  let (of_messages, _) := unseen (λ target, HasPrefix target "#") seen messageTargets in
  let channels := (λ target, channelRecord target (TrimPrefix target "#")) <$> of_tasks ++ of_messages in
  mret (LcP.zero |> LcP.set_Channels channels
                 |> LcP.set_NextCursor (Some (cursorFromCount (length channels) "" serverID))).

Definition ListEventsSince (req : EsQ.ListEventsSinceRequest) : R EsP.ListEventsSinceResponse :=
  let limit := bounded_limit (EsQ.Limit req) 200 100 in
  let cursor := from_opt Cur.zero (EsQ.Cursor req) in
  let fromSequence := Cur.Sequence cursor in
  let target := Cur.Target cursor in
  let aggregateID := Cur.AggregateId cursor in
  serverID ← gets serverID;
  stored ← or_status (λ _, Status Internal "list collaboration events")
    (stored (ListCollaborationEvents serverID target aggregateID fromSequence limit));
  let lastSequence := from_opt fromSequence (last (CeS.Sequence <$> stored)) in
  mret (EsP.zero
    |> EsP.set_Events (collaborationEventToProto <$> stored)
    |> EsP.set_NextCursor (Some (cursorFromSequence lastSequence (firstNonEmpty [target; aggregateID]) serverID))).

End messages.
