(* ===== verification/RpcReminders.v ===== *)
(** * Reminders over RPC ([internal/daemonrpc/server.go])

    The reminder handlers, and how a request's schedule becomes the stored one: a delay
    and a time of day become the Unix second of the next run, a recurring rule is kept
    as text.  [time.ParseInLocation] is a parameter. *)
From S2P Require Import Prelude GoStr GoText Sql Models Schema Store Reminders Proto Rpc RpcConv RpcAgents.
From stdpp Require Import pretty.

Module RdS := Models.Reminder.
Module RpS := ReminderPatch.
Module SdQ := daemonv1.ScheduleReminderRequest.
Module SdP := daemonv1.ScheduleReminderResponse.
Module SdR := daemonv1.ReminderSchedule.
Module LdQ := daemonv1.ListRemindersRequest.
Module LdP := daemonv1.ListRemindersResponse.
Module CdQ := daemonv1.CancelReminderRequest.
Module CdP := daemonv1.CancelReminderResponse.
Module ZdQ := daemonv1.SnoozeReminderRequest.
Module ZdP := daemonv1.SnoozeReminderResponse.
Module UdQ := daemonv1.UpdateReminderRequest.
Module UdP := daemonv1.UpdateReminderResponse.
Module GdQ := daemonv1.GetReminderLogRequest.
Module GdP := daemonv1.GetReminderLogResponse.
Module RcX := daemonv1.RequestContext.
Module AcX := daemonv1.Actor.

(** [time.ParseInLocation(layout, value, time.Local)], as the second it names. *)
Class TimeLib := { ParseInLocation : string → string → option Z }.

(** [Kind], [Schedule], [NextRunUnix], [RecurrenceRule], [RecurrenceDescription] and
    [RecurrenceTimezone] of a plan. *)
Record reminderPlan := mkPlan {
  planKind : string;
  planSchedule : string;
  planNextRunUnix : Z;
  planRecurrenceRule : string;
  planRecurrenceDescription : string;
  planRecurrenceTimezone : string
}.

Definition reminderActorFromContext (ctx : option RcX.RequestContext) : string * string :=
  let actor := from_opt AcX.zero (ctx ≫= RcX.Actor) in
  let kind := AcX.ActorKind actor in
  if (kind =? daemonv1.ActorKind_ACTOR_KIND_HUMAN)%Z then ("human", AcX.UserId actor)
  else if (kind =? daemonv1.ActorKind_ACTOR_KIND_AGENT)%Z then ("agent", AcX.AgentId actor)
  else if (kind =? daemonv1.ActorKind_ACTOR_KIND_SYSTEM)%Z || (kind =? daemonv1.ActorKind_ACTOR_KIND_DAEMON)%Z
  then ("system", firstNonEmpty [AcX.DaemonId actor; AcX.DisplayName actor])
  else ("system", "").

(** [fmt.Sprintf("in %ds", seconds)]. *)
Definition delay_text (seconds : Z) : string := "in " +:+ FormatInt seconds +:+ "s".

(** The actor of a request, with what it did. *)
Definition actor_of (ctx : option RcX.RequestContext) (detail : string) : actor :=
  let (kind, id) := reminderActorFromContext ctx in mkActor kind id detail.

Definition fire_at_layouts : list string :=
  ["2006-01-02T15:04:05.999999999Z07:00"; "2006-01-02T15:04:05Z07:00"; "2006-01-02T15:04";
   "2006-01-02T15:04:05"; "2006-01-02 15:04"; "2006-01-02"].

Fixpoint parse_layouts `{!TimeLib} (layouts : list string) (value : string) : option Z :=
  match layouts with
  | [] => None
  | layout :: layouts =>
      match ParseInLocation layout value with
      | Some unix => Some unix
      | None => parse_layouts layouts value
      end
  end.

(** An error is its text, which the handlers send. *)
Definition parseReminderFireAt `{!TimeLib} (value : string) : string + Z :=
  let value := TrimSpace value in
  if value =s "" then inl "fire_at is required"
  else
    let parsed := match ParseInt value with
                  | Some unix => if (0 <? unix)%Z then Some unix else None
                  | None => None
                  end in
    match parsed with
    | Some unix => inr unix
    | None =>
        match parse_layouts fire_at_layouts value with
        | Some unix => inr unix
        | None => inl "fire_at must be unix seconds or RFC3339 time"
        end
    end.

Section reminders.
Context {Eng : SqlEngine} {Uni : Unicode} {PJ : ProtoJSON} {E : Env} {Tm : TimeLib}.

(** The seconds of a delay from now. *)
Definition unix_in (seconds : Z) : R Z :=
  now ← unixNow;
  mret (i64 (now + seconds)).

Definition reminderPlanFromScheduleRequest (req : SdQ.ScheduleReminderRequest) : R (string + reminderPlan) :=
  match SdQ.ScheduleSpec req with
  | Some (daemonv1.ScheduleReminderRequest_DelaySeconds d) =>
      if (0 <? d)%Z then
        next ← unix_in d;
        mret (inr (mkPlan "at" (delay_text d) next "" "" (SdQ.Timezone req)))
      else mret (inl "schedule is required")
  | Some (daemonv1.ScheduleReminderRequest_FireAt t) =>
      mret (if t =s "" then inl "schedule is required"
            else match parseReminderFireAt t with
                 | inl e => inl e
                 | inr next => inr (mkPlan "at" t next "" "" (SdQ.Timezone req))
                 end)
  | Some (daemonv1.ScheduleReminderRequest_Recurring schedule) =>
      let kind := reminderScheduleKindToStorage (SdR.Kind schedule) in
      let expression := SdR.Expression schedule in
      mret (if kind =s "" then inl "recurring schedule kind is required"
            else inr (mkPlan kind expression 0 expression expression
                        (firstNonEmpty [SdR.Timezone schedule; SdQ.Timezone req])))
  | None => mret (inl "schedule is required")
  end.

Definition patch_at (schedule : string) (next : Z) (patch : RpS.ReminderPatch) : RpS.ReminderPatch :=
  patch |> RpS.set_ScheduleKind (Some "at")
        |> RpS.set_Schedule (Some schedule)
        |> RpS.set_NextRunUnix (Some next).

Definition reminderPatchFromUpdateRequest (req : UdQ.UpdateReminderRequest) : R (string + RpS.ReminderPatch) :=
  let patch := RpS.zero
    |> RpS.set_Title (TrimSpace <$> UdQ.Title req)
    |> RpS.set_RecurrenceTimezone (TrimSpace <$> UdQ.Timezone req) in
  match UdQ.ScheduleUpdate req with
  | Some (daemonv1.UpdateReminderRequest_DelaySeconds d) =>
      if (0 <? d)%Z then
        next ← unix_in d;
        mret (inr (patch_at (delay_text d) next patch))
      else mret (inr patch)
  | Some (daemonv1.UpdateReminderRequest_FireAt t) =>
      mret (if t =s "" then inr patch
            else match parseReminderFireAt t with
                 | inl e => inl e
                 | inr next => inr (patch_at t next patch)
                 end)
  | Some (daemonv1.UpdateReminderRequest_Recurring schedule) =>
      let kind := reminderScheduleKindToStorage (SdR.Kind schedule) in
      let expression := SdR.Expression schedule in
      mret (if kind =s "" then inl "recurring schedule kind is required"
            else inr (patch
              |> RpS.set_ScheduleKind (Some kind)
              |> RpS.set_Schedule (Some expression)
              |> RpS.set_RecurrenceRule (Some expression)
              |> RpS.set_RecurrenceDescription (Some expression)
              |> RpS.set_RecurrenceTimezone
                   (Some (firstNonEmpty [SdR.Timezone schedule; from_opt "" (UdQ.Timezone req)]))))
  | None => mret (inr patch)
  end.

(** [if err != nil { return nil, status.Error(codes.InvalidArgument, err.Error()) }]. *)
Definition or_invalid {A} (m : R (string + A)) : R A :=
  r ← m;
  match r with
  | inr a => mret a
  | inl text => fail InvalidArgument text
  end.

Definition RecordReminderMutation (reminder : RdS.Reminder) (operation : Z) : R (error + unit) :=
  match Marshal (to_message (reminderToProto reminder)) with
  | None => mret (inl ErrMarshal)
  | Some payload =>
      serverID ← gets serverID;
      res ← append_event (log_entry serverID (RdS.Target reminder) (RdS.ID reminder) "reminder"
        (eventOperationToStorage operation)
        (eventScopeTypeToStorage daemonv1.EventScopeType_EVENT_SCOPE_TYPE_TARGET)
        (RdS.Target reminder) payload (RdS.UpdatedUnix reminder));
      mret match res with inl e => inl e | inr _ => inr () end
  end.

Definition ScheduleReminder (req : SdQ.ScheduleReminderRequest) : R SdP.ScheduleReminderResponse :=
  once "ScheduleReminder" (SdQ.RequestId req) (SdQ.IdempotencyKey req) (
    let target := firstNonEmpty [SdQ.Target req; SdQ.Channel req] in
    _ ← refuse (target =s "") InvalidArgument "target is required";
    plan ← or_invalid (reminderPlanFromScheduleRequest req);
    token ← NewID "rtk";
    now ← unixNow;
    id ← NewID "rem";
    event_id ← NewID "rev";
    created ← or_status
      (λ e, if errors_Is e ErrInvalidState then Status InvalidArgument "invalid reminder schedule"
            else Status Internal "create reminder")
      (stored (CreateReminder now id event_id (RdS.zero
        |> RdS.set_Target target
        |> RdS.set_ScheduleKind (planKind plan)
        |> RdS.set_Schedule (planSchedule plan)
        |> RdS.set_Prompt (SdQ.Prompt req)
        |> RdS.set_Enabled true
        |> RdS.set_NextRunUnix (planNextRunUnix plan)
        |> RdS.set_Title (firstNonEmpty [SdQ.Title req; SdQ.Name req; SdQ.Prompt req])
        |> RdS.set_Status "active"
        |> RdS.set_MsgRef (SdQ.MsgId req)
        |> RdS.set_RecurrenceRule (planRecurrenceRule plan)
        |> RdS.set_RecurrenceDescription (planRecurrenceDescription plan)
        |> RdS.set_RecurrenceTimezone (planRecurrenceTimezone plan)
        |> RdS.set_CancelToken token) (actor_of (SdQ.Context req) "created")));
    _ ← or_status (λ _, Status Internal "append reminder event")
          (RecordReminderMutation created daemonv1.EventOperation_EVENT_OPERATION_CREATED);
    remembered "ScheduleReminder" (SdQ.RequestId req) (SdQ.IdempotencyKey req)
      (SdP.zero |> SdP.set_Reminder (Some (reminderToProto created)))).

Definition ListReminders (req : LdQ.ListRemindersRequest) : R LdP.ListRemindersResponse :=
  let statuses := reminderStatusToStorage <$>
    bfilter (λ s, negb (s =? daemonv1.ReminderStatus_REMINDER_STATUS_UNSPECIFIED)%Z) (LdQ.Statuses req) in
  reminders ← or_status
    (λ e, if errors_Is e ErrInvalidState then Status InvalidArgument "invalid reminder status"
          else Status Internal "list reminders")
    (stored (Reminders.ListReminders (LdQ.Target req) statuses (LdQ.IncludeCanceled req) (LdQ.Limit req)));
  serverID ← gets serverID;
  let out := reminderToProto <$> reminders in
  mret (LdP.zero |> LdP.set_Reminders out
                 |> LdP.set_NextCursor (Some (cursorFromCount (length out) (LdQ.Target req) serverID))).

(** A cancel token that is neither empty nor the reminder's. *)
Definition wrong_token (current : RdS.Reminder) (token : string) : bool :=
  (RdS.CancelToken current <>s "") && (token <>s "") && (RdS.CancelToken current <>s token).

Definition CancelReminder (req : CdQ.CancelReminderRequest) : R CdP.CancelReminderResponse :=
  once "CancelReminder" (CdQ.RequestId req) (CdQ.IdempotencyKey req) (
    _ ← refuse (CdQ.ReminderId req =s "") InvalidArgument "reminder_id is required";
    current ← or_status
      (λ e, if errors_Is e ErrNotFound then Status NotFound "reminder not found" else Status Internal "get reminder")
      (stored (GetReminder (CdQ.ReminderId req)));
    if wrong_token current (CdQ.CancelToken req) then
      mret (CdP.zero |> CdP.set_Accepted false |> CdP.set_Reminder (Some (reminderToProto current)))
    else
      now ← unixNow;
      event_id ← NewID "rev";
      updated ← or_status (λ _, Status Internal "cancel reminder")
        (stored (Reminders.CancelReminder now (CdQ.ReminderId req) event_id (actor_of (CdQ.Context req) "canceled")));
      _ ← or_status (λ _, Status Internal "append reminder event")
            (RecordReminderMutation updated daemonv1.EventOperation_EVENT_OPERATION_CANCELED);
      remembered "CancelReminder" (CdQ.RequestId req) (CdQ.IdempotencyKey req)
        (CdP.zero |> CdP.set_Accepted true |> CdP.set_Reminder (Some (reminderToProto updated)))).

Definition SnoozeReminder (req : ZdQ.SnoozeReminderRequest) : R ZdP.SnoozeReminderResponse :=
  once "SnoozeReminder" (ZdQ.RequestId req) (ZdQ.IdempotencyKey req) (
    _ ← refuse ((ZdQ.ReminderId req =s "") || (ZdQ.DelaySeconds req =? 0)%Z)
          InvalidArgument "reminder_id and delay_seconds are required";
    nextRun ← unix_in (ZdQ.DelaySeconds req);
    now ← unixNow;
    event_id ← NewID "rev";
    updated ← or_status
      (λ e, if errors_Is e ErrNotFound then Status NotFound "reminder not found" else Status Internal "snooze reminder")
      (stored (Reminders.SnoozeReminder now (ZdQ.ReminderId req) event_id nextRun
                 (delay_text (ZdQ.DelaySeconds req)) (actor_of (ZdQ.Context req) "snoozed")));
    _ ← or_status (λ _, Status Internal "append reminder event")
          (RecordReminderMutation updated daemonv1.EventOperation_EVENT_OPERATION_UPDATED);
    remembered "SnoozeReminder" (ZdQ.RequestId req) (ZdQ.IdempotencyKey req)
      (ZdP.zero |> ZdP.set_Reminder (Some (reminderToProto updated)))).

Definition UpdateReminder (req : UdQ.UpdateReminderRequest) : R UdP.UpdateReminderResponse :=
  once "UpdateReminder" (UdQ.RequestId req) (UdQ.IdempotencyKey req) (
    _ ← refuse (UdQ.ReminderId req =s "") InvalidArgument "reminder_id is required";
    patch ← or_invalid (reminderPatchFromUpdateRequest req);
    now ← unixNow;
    event_id ← NewID "rev";
    updated ← or_status
      (λ e, if errors_Is e ErrNotFound then Status NotFound "reminder not found"
            else if errors_Is e ErrInvalidState then Status InvalidArgument "invalid reminder update"
            else Status Internal "update reminder")
      (stored (Reminders.UpdateReminder now (UdQ.ReminderId req) event_id patch
                 (actor_of (UdQ.Context req) "updated")));
    _ ← or_status (λ _, Status Internal "append reminder event")
          (RecordReminderMutation updated daemonv1.EventOperation_EVENT_OPERATION_UPDATED);
    remembered "UpdateReminder" (UdQ.RequestId req) (UdQ.IdempotencyKey req)
      (UdP.zero |> UdP.set_Reminder (Some (reminderToProto updated)))).

Definition GetReminderLog (req : GdQ.GetReminderLogRequest) : R GdP.GetReminderLogResponse :=
  _ ← refuse (GdQ.ReminderId req =s "") InvalidArgument "reminder_id is required";
  events ← or_status
    (λ e, if errors_Is e ErrNotFound then Status NotFound "reminder not found"
          else Status Internal "list reminder log")
    (stored (ListReminderEvents (GdQ.ReminderId req) 100));
  mret (GdP.zero |> GdP.set_Events (reminderEventToProto <$> events)).

End reminders.
