(* ===== verification/RpcMemory.v ===== *)
(** * Decisions, run logs and tunnels over RPC ([internal/daemonrpc/memory.go, tunnels.go])

    The handlers over the decision, agent-run and tunnel stores: who acts is taken from
    the request's context, the life cycle is checked before the store is called, and a
    tunnel's token only leaves the server when the tunnel is created.  [ReportAgentRun]
    is the loop over a daemon's stream of events. *)
From S2P Require Import Prelude GoStr GoText Sql Models Schema Store Messages.
From S2P Require Import Decisions AgentRuns Tunnels Proto Rpc RpcConv.

Module CdS := Models.ChannelDecision.
Module CvS := ChannelDecisionVote.
Module CdO := ChannelDecisionListOptions.
Module ArS := AgentRun.
Module AeS := Models.AgentRunEvent.
Module ArO := AgentRunListOptions.
Module AsO := AgentRunSearchOptions.
Module AhS := AgentRunSearchHit.
Module TuS := TunnelRecord.
Module TuO := TunnelListOptions.
Module LcdQ := daemonv1.ListChannelDecisionsRequest.
Module LcdP := daemonv1.ListChannelDecisionsResponse.
Module PcdQ := daemonv1.ProposeChannelDecisionRequest.
Module PcdP := daemonv1.ProposeChannelDecisionResponse.
Module VcdQ := daemonv1.VoteChannelDecisionRequest.
Module VcdP := daemonv1.VoteChannelDecisionResponse.
Module RcdQ := daemonv1.RatifyChannelDecisionRequest.
Module RcdP := daemonv1.RatifyChannelDecisionResponse.
Module TcdQ := daemonv1.RetireChannelDecisionRequest.
Module TcdP := daemonv1.RetireChannelDecisionResponse.
Module LdvQ := daemonv1.ListDecisionVotesRequest.
Module LdvP := daemonv1.ListDecisionVotesResponse.
Module AeP := daemonv1.AgentRunEvent.
Module RarP := daemonv1.ReportAgentRunResponse.
Module LarQ := daemonv1.ListAgentRunsRequest.
Module LarP := daemonv1.ListAgentRunsResponse.
Module GarQ := daemonv1.GetAgentRunRequest.
Module GarP := daemonv1.GetAgentRunResponse.
Module SarQ := daemonv1.SearchAgentRunsRequest.
Module SarP := daemonv1.SearchAgentRunsResponse.
Module SarH := daemonv1.SearchAgentRunsResponse_Hit.
Module CtQ := daemonv1.CreateTunnelRequest.
Module CtP := daemonv1.CreateTunnelResponse.
Module LtnQ := daemonv1.ListTunnelsRequest.
Module LtnP := daemonv1.ListTunnelsResponse.
Module AtQ := daemonv1.ApproveTunnelRequest.
Module AtP := daemonv1.ApproveTunnelResponse.
Module RtQ := daemonv1.RejectTunnelRequest.
Module RtP := daemonv1.RejectTunnelResponse.
Module XtQ := daemonv1.CloseTunnelRequest.
Module XtP := daemonv1.CloseTunnelResponse.
Module RqC := daemonv1.RequestContext.
Module AcC := daemonv1.Actor.

Definition actorFromContext (reqCtx : option RqC.RequestContext) : string * string :=
  match reqCtx ≫= RqC.Actor with
  | None => ("", "")
  | Some actor =>
      let agent := (AcC.ActorKind actor =? daemonv1.ActorKind_ACTOR_KIND_AGENT)%Z in
      let kind := if agent then "agent" else "human" in
      let id := TrimSpace (if agent then AcC.AgentId actor else AcC.UserId actor) in
      if id =s "" then ("", "") else (id, kind)
  end.

Definition initiatorFromContext (rc : option RqC.RequestContext) : string :=
  match rc ≫= RqC.Actor with
  | None => ""
  | Some actor =>
      if TrimSpace (AcC.AgentId actor) <>s "" then TrimSpace (AcC.AgentId actor)
      else if TrimSpace (AcC.UserId actor) <>s "" then TrimSpace (AcC.UserId actor)
      else TrimSpace (AcC.DaemonId actor)
  end.

Definition tunnelStateErr (err : error) : rpc_error :=
  if errors_Is err ErrNotFound then Status NotFound "tunnel not found"
  else if errors_Is err ErrInvalid then Status FailedPrecondition "invalid tunnel state transition"
  else Status Internal "".

Definition tunnelDefaultTTLSeconds : Z := 2 * 60 * 60.
Definition tunnelMaxTTLSeconds : Z := 24 * 60 * 60.

(** What [Recv] yields until the stream ends. *)
Inductive AgentRunStream :=
| EOF
| RecvError (e : rpc_error)
| Recv (event : AeP.AgentRunEvent) (rest : AgentRunStream).

Section memory.
Context {Eng : SqlEngine} {Uni : Unicode} {Txt : TextLib} {PJ : ProtoJSON} {E : Env}.

(** ** Decisions *)

Definition ListChannelDecisions (req : LcdQ.ListChannelDecisionsRequest) : R LcdP.ListChannelDecisionsResponse :=
  let target := TrimSpace (LcdQ.Target req) in
  _ ← refuse (target =s "") InvalidArgument "target is required";
  let limit := if (LcdQ.Limit req <=? 0)%Z then 100%Z else LcdQ.Limit req in
  rows ← or_status (λ _, Status Internal "list decisions") (stored (ListDecisions (CdO.zero
    |> CdO.set_Target target
    |> CdO.set_StatusFilter (decisionStatusFromProto <$> LcdQ.StatusFilter req)
    |> CdO.set_Limit limit)));
  mret (LcdP.zero |> LcdP.set_Decisions (decisionToProto <$> rows)).

Definition ProposeChannelDecision (req : PcdQ.ProposeChannelDecisionRequest) :
    R PcdP.ProposeChannelDecisionResponse :=
  let title := TrimSpace (PcdQ.Title req) in
  let body := TrimSpace (PcdQ.Body req) in
  let target := TrimSpace (PcdQ.Target req) in
  _ ← refuse ((target =s "") || (title =s "") || (body =s ""))
        InvalidArgument "target, title, and body are required";
  let (proposerID, proposerKind) := actorFromContext (PcdQ.Context req) in
  _ ← refuse (proposerID =s "") Unauthenticated "proposer identity required";
  now ← unixNow;
  id ← NewID "dec";
  created ← or_status (λ _, Status Internal "create decision") (stored (CreateDecision now id (CdS.zero
    |> CdS.set_Target target
    |> CdS.set_Title title
    |> CdS.set_Body body
    |> CdS.set_Status DecisionStatusProposed
    |> CdS.set_ProposerID proposerID
    |> CdS.set_ProposerKind proposerKind
    |> CdS.set_SupersedesDecisionID (TrimSpace (PcdQ.SupersedesDecisionId req)))));
  mret (PcdP.zero |> PcdP.set_Decision (Some (decisionToProto created))).

Definition VoteChannelDecision (req : VcdQ.VoteChannelDecisionRequest) : R VcdP.VoteChannelDecisionResponse :=
  let decisionID := TrimSpace (VcdQ.DecisionId req) in
  _ ← refuse (decisionID =s "") InvalidArgument "decision_id is required";
  let (voterID, voterKind) := actorFromContext (VcdQ.Context req) in
  _ ← refuse (voterID =s "") Unauthenticated "voter identity required";
  let decision := decisionVoteFromProto (VcdQ.Decision req) in
  _ ← refuse (decision =s "") InvalidArgument "decision vote is required";
  t1 ← unixNow; t2 ← unixNow; t3 ← unixNow;
  id ← NewID "vot";
  '(refreshed, persisted) ← or_status
    (λ e, if errors_Is e ErrNotFound then Status NotFound "decision not found"
          else if errors_Is e ErrInvalid then Status FailedPrecondition "decision is not open for voting"
          else Status Internal "vote")
    (stored (UpsertDecisionVote t1 t2 t3 id (CvS.zero
      |> CvS.set_DecisionID decisionID
      |> CvS.set_VoterID voterID
      |> CvS.set_VoterKind voterKind
      |> CvS.set_Decision decision
      |> CvS.set_Reason (TrimSpace (VcdQ.Reason req)))));
  mret (VcdP.zero |> VcdP.set_Decision (Some (decisionToProto refreshed))
                  |> VcdP.set_Vote (Some (decisionVoteRecordToProto persisted))).

(** The decision a life cycle request is about. *)
Definition load_decision (decisionID : string) : R CdS.ChannelDecision :=
  or_status (λ e, if errors_Is e ErrNotFound then Status NotFound "decision not found"
                  else Status Internal "load decision")
    (stored (GetDecision decisionID)).

Definition canRatify (force : bool) (current : CdS.ChannelDecision) : bool :=
  force || ((2 <=? CdS.ApproveCount current)%Z && (CdS.RejectCount current =? 0)%Z).

Definition RatifyChannelDecision (req : RcdQ.RatifyChannelDecisionRequest) :
    R RcdP.RatifyChannelDecisionResponse :=
  let decisionID := TrimSpace (RcdQ.DecisionId req) in
  _ ← refuse (decisionID =s "") InvalidArgument "decision_id is required";
  current ← load_decision decisionID;
  _ ← refuse (CdS.Status current <>s DecisionStatusProposed) FailedPrecondition "decision is not proposed";
  _ ← refuse (negb (canRatify (RcdQ.Force req) current)) FailedPrecondition "quorum not met";
  now ← unixNow;
  ratified ← or_status (λ _, Status Internal "ratify") (stored (ForceRatifyDecision now decisionID));
  mret (RcdP.zero |> RcdP.set_Decision (Some (decisionToProto ratified))).

Definition RetireChannelDecision (req : TcdQ.RetireChannelDecisionRequest) :
    R TcdP.RetireChannelDecisionResponse :=
  let decisionID := TrimSpace (TcdQ.DecisionId req) in
  _ ← refuse (decisionID =s "") InvalidArgument "decision_id is required";
  let (actorID, _) := actorFromContext (TcdQ.Context req) in
  _ ← refuse (actorID =s "") Unauthenticated "retire actor identity required";
  current ← load_decision decisionID;
  _ ← refuse ((CdS.Status current <>s DecisionStatusProposed) && (CdS.Status current <>s DecisionStatusRatified))
        FailedPrecondition "decision is already closed";
  now ← unixNow;
  retired ← or_status (λ _, Status Internal "retire")
    (stored (RetireDecision now decisionID actorID (TrimSpace (TcdQ.Reason req))));
  mret (TcdP.zero |> TcdP.set_Decision (Some (decisionToProto retired))).

Definition ListDecisionVotes (req : LdvQ.ListDecisionVotesRequest) : R LdvP.ListDecisionVotesResponse :=
  let decisionID := TrimSpace (LdvQ.DecisionId req) in
  _ ← refuse (decisionID =s "") InvalidArgument "decision_id is required";
  rows ← or_status (λ _, Status Internal "list votes") (stored (Decisions.ListDecisionVotes decisionID));
  mret (LdvP.zero |> LdvP.set_Votes (decisionVoteRecordToProto <$> rows)).

(** ** Run logs *)

(** One event of a stream, and the run a start event opens. *)
Definition report_event (phase : string) (event : AeP.AgentRunEvent) : R (error + (ArS.AgentRun * AeS.AgentRunEvent)) :=
  id ← NewID "are";
  stored (AppendAgentRunEvent id (AeS.zero
      |> AeS.set_RunID (AeP.RunId event)
      |> AeS.set_AtUnixNano (AeP.AtUnixNano event)
      |> AeS.set_Phase phase
      |> AeS.set_Summary (AeP.Summary event)
      |> AeS.set_PayloadJSON (AeP.PayloadJson event)
      |> AeS.set_ExitCode (AeP.ExitCode event)
      |> AeS.set_ErrorMessage (AeP.ErrorMessage event))
    (ArS.zero
      |> ArS.set_AgentID (AeP.AgentId event)
      |> ArS.set_ComputerID (AeP.ComputerId event)
      |> ArS.set_StartedUnix (Z.quot (AeP.AtUnixNano event) 1000000000)
      |> ArS.set_EndedUnix (Z.quot (AeP.AtUnixNano event) 1000000000))).

Fixpoint report_loop (stream : AgentRunStream) (persisted dropped : Z) : R RarP.ReportAgentRunResponse :=
  match stream with
  | EOF => mret (RarP.zero |> RarP.set_PersistedCount persisted |> RarP.set_DroppedCount dropped)
  | RecvError e => raise e
  | Recv event rest =>
      let phase := agentRunPhaseFromProto (AeP.Phase event) in
      if phase =s "" then report_loop rest persisted (i64 (dropped + 1))
      else
        res ← report_event phase event;
        match res with
        | inr _ => report_loop rest (i64 (persisted + 1)) dropped
        | inl e =>
            if errors_Is e ErrInvalid then report_loop rest persisted (i64 (dropped + 1))
            else fail Internal "persist event"
        end
  end.

Definition ReportAgentRun (stream : AgentRunStream) : R RarP.ReportAgentRunResponse :=
  report_loop stream 0 0.

Definition ListAgentRuns (req : LarQ.ListAgentRunsRequest) : R LarP.ListAgentRunsResponse :=
  let limit := if (LarQ.Limit req <=? 0)%Z then 50%Z else LarQ.Limit req in
  rows ← or_status (λ _, Status Internal "list runs") (stored (AgentRuns.ListAgentRuns (ArO.zero
    |> ArO.set_AgentID (TrimSpace (LarQ.AgentId req))
    |> ArO.set_ComputerID (TrimSpace (LarQ.ComputerId req))
    |> ArO.set_Limit limit)));
  mret (LarP.zero |> LarP.set_Runs (agentRunSummaryToProto <$> rows)).

Definition GetAgentRun (req : GarQ.GetAgentRunRequest) : R GarP.GetAgentRunResponse :=
  let runID := TrimSpace (GarQ.RunId req) in
  _ ← refuse (runID =s "") InvalidArgument "run_id is required";
  '(run, events) ← or_status
    (λ e, if errors_Is e ErrNotFound then Status NotFound "run not found" else Status Internal "get run")
    (stored (AgentRuns.GetAgentRun runID (GarQ.IncludeEvents req)));
  mret (GarP.zero |> GarP.set_Run (Some (agentRunSummaryToProto run))
                  |> GarP.set_Events (agentRunEventToProto <$> events)).

Definition SearchAgentRuns (req : SarQ.SearchAgentRunsRequest) : R SarP.SearchAgentRunsResponse :=
  let query := TrimSpace (SarQ.Query req) in
  _ ← refuse (query =s "") InvalidArgument "query is required";
  hits ← or_status (λ _, Status Internal "search runs") (stored (AgentRuns.SearchAgentRuns (AsO.zero
    |> AsO.set_Query query
    |> AsO.set_AgentID (TrimSpace (SarQ.AgentId req))
    |> AsO.set_ComputerID (TrimSpace (SarQ.ComputerId req))
    |> AsO.set_Limit (SarQ.Limit req))));
  mret (SarP.zero |> SarP.set_Hits ((λ hit, SarH.zero
    |> SarH.set_Run (Some (agentRunSummaryToProto (AhS.Run hit)))
    |> SarH.set_MatchingEvent (Some (agentRunEventToProto (AhS.Event hit)))
    |> SarH.set_Highlight (AhS.Highlight hit)) <$> hits)).

(** ** Tunnels *)

Definition tunnel_ttl (ttl : Z) : Z :=
  let ttl := if (ttl =? 0)%Z then tunnelDefaultTTLSeconds else ttl in
  if (tunnelMaxTTLSeconds <? ttl)%Z then tunnelMaxTTLSeconds else ttl.

(** [storage.NewTunnelToken], when the system's randomness is there. *)
Definition NewTunnelToken : R string := λ w,
  (inr (random_at (draws w)), mkWorld (srv w) (db w) (S (draws w)) (executed w)).

Definition CreateTunnel (req : CtQ.CreateTunnelRequest) : R CtP.CreateTunnelResponse :=
  let computerID := TrimSpace (CtQ.ComputerId req) in
  _ ← refuse ((computerID =s "") || (CtQ.LocalPort req =? 0)%Z)
        InvalidArgument "computer_id and local_port are required";
  now ← unixNow;
  clock ← unixNow;
  token ← NewTunnelToken;
  id ← NewID "tun";
  record ← or_status
    (λ e, if errors_Is e ErrInvalid then Status InvalidArgument "storage: invalid argument"
          else Status Internal "create tunnel")
    (stored (Tunnels.CreateTunnel clock (inr token) id (TuS.zero
      |> TuS.set_ComputerID computerID
      |> TuS.set_LocalPort (CtQ.LocalPort req)
      |> TuS.set_Label (TrimSpace (CtQ.Label req))
      |> TuS.set_State TunnelStatePending
      |> TuS.set_AccessPolicy (accessPolicyToStorage (CtQ.AccessPolicy req))
      |> TuS.set_CreatorID (initiatorFromContext (CtQ.Context req))
      |> TuS.set_CreatorKind "agent"
      |> TuS.set_ExpiresUnix (i64 (now + tunnel_ttl (CtQ.TtlSeconds req))))));
  mret (CtP.zero |> CtP.set_Tunnel (Some (tunnelToProto record))).

Definition ListTunnels (req : LtnQ.ListTunnelsRequest) : R LtnP.ListTunnelsResponse :=
  rows ← or_status (λ _, Status Internal "list tunnels") (stored (Tunnels.ListTunnels (TuO.zero
    |> TuO.set_ComputerID (TrimSpace (LtnQ.ComputerId req))
    |> TuO.set_StateFilter (tunnelStateToStorage (LtnQ.StateFilter req))
    |> TuO.set_Limit (LtnQ.Limit req))));
  mret (LtnP.zero |> LtnP.set_Tunnels ((λ row, tunnelToProto (TuS.set_Token "" row)) <$> rows)).

(** A transition by whoever asks, and the tunnel without its token. *)
Definition move_tunnel (id toState actor reason : string) : R daemonv1.Tunnel.Tunnel :=
  _ ← refuse (id =s "") InvalidArgument "tunnel_id is required";
  now ← unixNow;
  updated ← or_status tunnelStateErr (stored (UpdateTunnelState now id toState actor reason));
  mret (tunnelToProto (TuS.set_Token "" updated)).

Definition ApproveTunnel (req : AtQ.ApproveTunnelRequest) : R AtP.ApproveTunnelResponse :=
  tunnel ← move_tunnel (TrimSpace (AtQ.TunnelId req)) TunnelStateActive
             (initiatorFromContext (AtQ.Context req)) "";
  mret (AtP.zero |> AtP.set_Tunnel (Some tunnel)).

Definition RejectTunnel (req : RtQ.RejectTunnelRequest) : R RtP.RejectTunnelResponse :=
  tunnel ← move_tunnel (TrimSpace (RtQ.TunnelId req)) TunnelStateRejected
             (initiatorFromContext (RtQ.Context req)) (TrimSpace (RtQ.Reason req));
  mret (RtP.zero |> RtP.set_Tunnel (Some tunnel)).

Definition CloseTunnel (req : XtQ.CloseTunnelRequest) : R XtP.CloseTunnelResponse :=
  tunnel ← move_tunnel (TrimSpace (XtQ.TunnelId req)) TunnelStateClosed
             (initiatorFromContext (XtQ.Context req)) (TrimSpace (XtQ.Reason req));
  mret (XtP.zero |> XtP.set_Tunnel (Some tunnel)).

End memory.

(** ** Who approves a tunnel *)

Section approve.
Context {Eng : SqlEngine} {Laws : SqlLaws} {Uni : Unicode} {Txt : TextLib} {PJ : ProtoJSON} {E : Env}.

(** A store call whose result is known from its specification. *)
Lemma stored_wp {A} (m : M A) (P : error + A → Store → Prop) w :
  wp m P (db w) → ∃ r d, stored m w = (inr r, mkWorld (srv w) d (draws w) (executed w)) ∧ P r d.
Proof. unfold wp, stored. destruct (m (db w)) as [r d]. eauto. Qed.

(** Over the daemons' RPC any caller approves any pending tunnel, whoever made it and
    whoever asks: no role is required of the actor named in the request, which may be
    the agent that opened the tunnel or nobody. *)
Theorem ApproveTunnel_asks_no_role req row w :
  unique_rows (rows TuS.TunnelRecord (db w)) = true → row ∈ rows TuS.TunnelRecord (db w) →
  TuS.ID row = TrimSpace (AtQ.TunnelId req) → TuS.ID row ≠ "" → TuS.State row = TunnelStatePending →
  ∃ t w', ApproveTunnel req w = (inr (AtP.zero |> AtP.set_Tunnel (Some t)), w') ∧
    daemonv1.Tunnel.State t = daemonv1.TunnelState_TUNNEL_STATE_ACTIVE ∧ daemonv1.Tunnel.Token t = "" ∧
    ∃ row', row' ∈ rows TuS.TunnelRecord (db w') ∧ TuS.ID row' = TuS.ID row ∧
      TuS.State row' = TunnelStateActive ∧ TuS.ApprovedBy row' = initiatorFromContext (AtQ.Context req).
Proof.
  intros Hu Hin Hid Hne Hst. apply eqb_neq_str in Hne. rewrite Hid in Hne.
  unfold ApproveTunnel, move_tunnel, refuse. rewrite Hne.
  unfold or_status, unixNow. unfold mbind, R_bind, mret, R_ret. cbn [db srv draws executed].
  set (w1 := mkWorld _ _ _ _). set (now := clock_at _). set (actor := initiatorFromContext _).
  destruct (stored_wp (UpdateTunnelState now (TrimSpace (AtQ.TunnelId req)) TunnelStateActive actor "")
    (λ r d, ∃ row', r = inr (tunnelFromEnt row') ∧ row' ∈ rows TuS.TunnelRecord d ∧ TuS.ID row' = TuS.ID row ∧
       TuS.State row' = TunnelStateActive ∧ TuS.ApprovedBy row' = actor) w1) as (r & d & Hrun & row' & Hr & Hrow).
  { unfold UpdateTunnelState. wp_step. wp_step; [|discriminate]. do 5 wp_step.
    apply (only_key_found _ row); [done|exact (id_key_test (R := TuS.TunnelRecord) _)|done|
      by cbn; rewrite Hid, eqb_refl_str|].
    cbn beta iota. rewrite Hst. wp_step. wp_step; [|discriminate].
    apply wp_update_one; [exact Hu|solve_keeps|discriminate| |].
    - intros _ Hn. exfalso. pose proof (bfilter_nil_inv _ _ _ Hn Hin) as Hf. cbn in Hf.
      by rewrite Hid, eqb_refl_str in Hf.
    - intros _ r Hr t Ht Hut. wp_step. exists (transition_fields now TunnelStateActive actor "" r).
      apply bfilter_singleton_inv in Hr as (Hr & Hrid & Hall). cbn in Hrid. apply eqb_eq_str in Hrid.
      split; [done|]. split; [|by rewrite Hid].
      change (transition_fields now TunnelStateActive actor "" r ∈ tbl_rows t). rewrite Ht.
      apply elem_of_update_rows. exists r. split; [exact Hr|]. cbn. by rewrite Hrid, eqb_refl_str. }
  rewrite Hrun, Hr. destruct Hrow as (Hin' & Hid' & Hst' & Happ). eexists _, _. split; [reflexivity|].
  split_and!; [|done|by exists row'].
  change (tunnelStateFromStorage (TuS.State row') = daemonv1.TunnelState_TUNNEL_STATE_ACTIVE). by rewrite Hst'.
Qed.

End approve.
