(* ===== verification/RpcPrompt.v ===== *)
(** * Launch prompts ([internal/daemonrpc/prompt_snapshot.go])

    The prompt a daemon launches a run with: sections about the agent, the run, its
    runtime profile, its task and its message, some fixed ones, and what was redacted on
    the way.  A snapshot is built once per run and kept.  The digest ([crypto/sha256]) is
    a parameter. *)
From S2P Require Import Prelude GoStr GoText JsonValue Sql Models Schema.
From S2P Require Import Store Messages Tasks RpcText Proto Rpc RpcAgents.
From stdpp Require Import pretty.

Module LsS := daemonv1.LaunchPromptSnapshotSection.
Module LsN := daemonv1.LaunchPromptSnapshot.
Module GlQ := daemonv1.GetLaunchPromptSnapshotRequest.
Module GlP := daemonv1.GetLaunchPromptSnapshotResponse.
Module RtPf := daemonv1.RuntimeProfile.
Module CapP := daemonv1.Capability.
Module AgP := daemonv1.AgentProfile.
Module RnP := daemonv1.Run.
Module TkM := Models.Task.
Module MgM := Models.Message.

Definition newline : string := String (byte 10) "".

Definition launchPromptTemplateVersion : string := "nekode.launch-prompt.v1".

(** ** Redaction *)

Definition sensitive_markers : list string :=
  ["token"; "secret"; "password"; "passwd"; "api_key"; "apikey"; "authorization"; "cookie"; "credential"].

Section redaction.
Context {Uni : Unicode} {Fl : Floats} {Ord : MapOrder}.

Definition isSensitiveKey (key : string) : bool :=
  let key := ToLower (TrimSpace key) in existsb (Contains key) sensitive_markers.

Definition looksSensitive (value : string) : bool :=
  let value := ToLower value in
  Contains value "token" || Contains value "secret" || Contains value "password" || Contains value "api_key".

Definition redactPromptValue (key value : string) : string * bool :=
  let value := TrimSpace value in
  if value =s "" then ("", false)
  else if isSensitiveKey key || (value =s "<redacted>") then ("<redacted>", true)
  else (truncatePromptText value 1200, false).

(** The members of a document whose key is sensitive are replaced. *)
Definition redact_member (k : string) (v : json) : json :=
  if isSensitiveKey k then JStr "<redacted>" else v.

Definition redactJSONLike (key value : string) : string * bool :=
  let value := TrimSpace value in
  if value =s "" then ("", false)
  else
    match decode_any_map value with
    | Some None => (truncatePromptText (encode_any_map None) 1200, false)
    | Some (Some payload) =>
        (truncatePromptText (encode_any_map (Some (map_imap (λ k v, Some (redact_member k v)) payload))) 1200,
         existsb isSensitiveKey (map_to_list payload).*1)
    | None =>
        if isSensitiveKey key || looksSensitive value then ("<redacted>", true)
        else (truncatePromptText value 1200, false)
    end.

(** The options of an adapter configuration, as the loop over the map leaves them. *)
Definition keep_option (acc : gmap string string * bool) (p : string * string) : gmap string string * bool :=
  let (out, redacted) := acc in
  let cleanKey := TrimSpace p.1 in
  if cleanKey =s "" then acc
  else
    let (cleanValue, didRedact) := redactPromptValue cleanKey p.2 in
    (<[cleanKey := cleanValue]> out, redacted || didRedact).

Definition selectedRuntimeOptions (configJSON : string) : gmap string string * bool :=
  if TrimSpace configJSON =s "" then (∅, false)
  else
    let (options, ok) := JsonValue.Unmarshal (dec_struct [("selectedOptions", dec_map "" dec_string)]) configJSON ∅ in
    if negb ok then (∅, false)
    else foldl keep_option (∅, false) (visited options).

End redaction.

(** ** Lines *)

Definition nonEmptyLines (lines : list string) : list string :=
  bfilter (λ line, (TrimSpace line <>s "") && negb (HasSuffix (TrimSpace line) ": ")) lines.

Definition compactStrings (values : list string) : list string := clean_go [] values.

Definition sort_Strings : list string → list string := sort_with String.leb.

Definition sortedKeys (values : gmap string string) : list string := sort_Strings (map_to_list values).*1.

Definition redactionSummary (redactions : list string) : string :=
  let redactions := compactStrings redactions in
  match redactions with
  | [] => "no sensitive values detected"
  | _ => "redacted: " +:+ GoStr.Join (sort_Strings redactions) ", "
  end.

Definition replyTargetHint (target threadID : string) : string :=
  let target := TrimSpace target in
  let threadID := TrimSpace threadID in
  if (target =s "") || (threadID =s "") then target else target +:+ ":" +:+ threadID.

(** ** Sections *)

Definition communicationPrompt : string := GoStr.Join [
  "communication_protocol:";
  "- Treat the current run objective and input message as the immediate task.";
  "- When message_context includes reply_target_hint, use that exact target for replies instead of reconstructing a channel, DM, or thread target from message text.";
  "- Use Nekode task/message/status APIs when reporting progress.";
  "- Keep task state, direct messages, and channel updates consistent with the server state.";
  "- Do not mention yourself to ask whether you have started or to create a self-reminder; after an assignment, claim the task and report real progress, claim failure, or a concrete blocker.";
  "- Do not send empty coordination/status messages without new execution evidence or actionable handoff information.";
  "- Do not claim provider runtime support unless live receive/auth/send smoke has passed or the task is explicitly feasibility-only."] newline.

Definition executionVerificationPrompt : string := GoStr.Join [
  "execution_verification:";
  "- For long-running work, keep a short execution plan and update it when scope or ownership changes.";
  "- Split independent work into claimable subtasks when it improves throughput; avoid artificial sequential chains.";
  "- Treat acceptance criteria as default-failing until you have opened or observed concrete evidence.";
  "- Persist progress, decisions, blockers, and handoff notes in server-visible task, message, status, or activity surfaces rather than only local context.";
  "- Use a fresh reviewer or narrowly scoped verification pass for substantial claims when available.";
  "- Do not stop at analysis or half-finished implementation while a recoverable path remains.";
  "- Before finishing, run the checks that prove the claim and report the evidence or the exact remaining gap."] newline.

Definition memoryPrompt : string := GoStr.Join [
  "memory_context:";
  "- Server prompt snapshots include only compact, launch-relevant context.";
  "- Long history and large memory records should stay retrievable by tools rather than being copied into every launch prompt."] newline.

Definition safetyPrompt : string := GoStr.Join [
  "safety_redaction_audit:";
  "- Sensitive values such as tokens, secrets, passwords, cookies, and API keys are redacted before injection.";
  "- The daemon logs only snapshot id, hash, template version, and section names; it must not log full prompt content."] newline.

Definition promptSection (name source content : string) (redacted : bool) : LsS.LaunchPromptSnapshotSection :=
  LsS.zero |> LsS.set_Name name |> LsS.set_Source source |> LsS.set_Content (TrimSpace content)
           |> LsS.set_Redacted redacted.

Definition agentIdentityPrompt (agent : AgP.AgentProfile) (serverName : string) : string :=
  GoStr.Join (nonEmptyLines
    ["You are a Nekode daemon-managed agent.";
     "server: " +:+ firstNonEmpty [serverName; "Nekode"];
     "agent_id: " +:+ AgP.AgentId agent;
     "name: " +:+ firstNonEmpty [AgP.Name agent; AgP.AgentId agent];
     "display_name: " +:+ firstNonEmpty [AgP.DisplayName agent; AgP.Name agent; AgP.AgentId agent];
     "runtime_kind: " +:+ AgP.RuntimeKind agent;
     "provider: " +:+ AgP.Provider agent;
     "model: " +:+ AgP.Model agent]) newline.

Definition runContextPrompt (run : RnP.Run) : string :=
  GoStr.Join (nonEmptyLines
    ["current_run:";
     "- run_id: " +:+ RnP.RunId run;
     "- target: " +:+ RnP.Target run;
     "- task_id: " +:+ RnP.TaskId run;
     "- input_message_id: " +:+ RnP.InputMessageId run;
     "- attempt: " +:+ FormatInt (RnP.Attempt run);
     "- objective: " +:+ RnP.Summary run]) newline.

Definition taskPrompt (task : TkM.Task) : string :=
  GoStr.Join (nonEmptyLines
    ["task:";
     "- task_id: " +:+ TkM.ID task;
     "- target: " +:+ TkM.Target task;
     "- state: " +:+ TkM.State task;
     "- assignee_id: " +:+ TkM.AssigneeID task;
     "- summary: " +:+ TkM.Summary task;
     "- description: " +:+ truncatePromptText (TkM.Description task) 1200]) newline.

Definition capability_names (capabilities : list CapP.Capability) : list string :=
  CapP.Name <$> bfilter (λ c, CapP.Enabled c || (CapP.Name c <>s "")) capabilities.

Definition toolsPrompt (agent : AgP.AgentProfile) (profile : option RtPf.RuntimeProfile) : string :=
  let names := capability_names (AgP.Capabilities agent) ++
    match profile with
    | None => []
    | Some profile =>
        capability_names (RtPf.Capabilities profile) ++
        (match RtPf.Skills profile with
         | [] => []
         | skills => [FormatInt (Z.of_nat (length skills)) +:+ " runtime skills indexed"]
         end)
    end in
  let names := compactStrings (sort_Strings names) in
  let names := match names with [] => ["runtime default tool policy"] | _ => names end in
  "tools_permissions_skills:" +:+ newline +:+ "- " +:+ GoStr.Join names (newline +:+ "- ").

Definition renderPromptSections (sections : list LsS.LaunchPromptSnapshotSection) : string :=
  GoStr.Join ((λ section, "## " +:+ LsS.Name section +:+ newline +:+ LsS.Content section) <$>
    bfilter (λ section, TrimSpace (LsS.Content section) <>s "") sections) (newline +:+ newline).

Section snapshots.
Context {Eng : SqlEngine} {Uni : Unicode} {Txt : TextLib} {Fl : Floats} {Ord : MapOrder} {Sha : Sha256} {PJ : ProtoJSON} {E : Env}.

Definition option_lines (selected : gmap string string) : list string :=
  (λ key, "  - " +:+ key +:+ ": " +:+ from_opt "" (selected !! key)) <$> sortedKeys selected.

Definition runtimeProfilePrompt (profile : RtPf.RuntimeProfile) : string * bool :=
  let (selected, redacted) := selectedRuntimeOptions (RtPf.AdapterConfigJson profile) in
  let lines := nonEmptyLines
    ["runtime_profile:";
     "- runtime_profile_id: " +:+ RtPf.RuntimeProfileId profile;
     "- kind: " +:+ RtPf.Kind profile;
     "- provider: " +:+ RtPf.Provider profile;
     "- model: " +:+ RtPf.Model profile;
     "- workspace_id: " +:+ RtPf.WorkspaceId profile] in
  let lines := if bool_decide (selected = ∅) then lines
               else lines ++ ["- selected_options:"] ++ option_lines selected in
  match RtPf.Env profile with
  | [] => (GoStr.Join lines newline, redacted)
  | env => (GoStr.Join (lines ++ ["- env: " +:+ FormatInt (Z.of_nat (length env)) +:+
                            " variables reported; values omitted"]) newline, true)
  end.

Definition messagePrompt (msg : MgM.Message) : string * bool :=
  let (metadata, redacted) := redactJSONLike "metadata_json" (MgM.MetadataJSON msg) in
  (GoStr.Join (nonEmptyLines
    ["input_message:";
     "- message_id: " +:+ MgM.ID msg;
     "- target: " +:+ MgM.Target msg;
     "- thread_id: " +:+ MgM.ThreadID msg;
     "- reply_target_hint: " +:+ replyTargetHint (MgM.Target msg) (MgM.ThreadID msg);
     "- role: " +:+ firstNonEmpty [MgM.Role msg; "user"];
     "- sender: " +:+ firstNonEmpty [MgM.SenderDisplayName msg; MgM.SenderAgentID msg; MgM.SenderUserID msg];
     "- content: " +:+ truncatePromptText (MgM.Content msg) 1800;
     "- metadata_json: " +:+ metadata]) newline, redacted).

(** ** Snapshots *)

(** [None] is [messageFound] or [taskFound] false. *)
Record launchPromptInput := mkInput {
  in_serverID : string;
  in_serverName : string;
  in_run : RnP.Run;
  in_agent : option AgP.AgentProfile;
  in_runtimeProfile : option RtPf.RuntimeProfile;
  in_message : option MgM.Message;
  in_task : option TkM.Task
}.

Definition prompt_agent (input : launchPromptInput) : AgP.AgentProfile :=
  match in_agent input with
  | Some agent => agent
  | None =>
      let id := RnP.AgentId (in_run input) in
      AgP.zero |> AgP.set_AgentId id |> AgP.set_Name id |> AgP.set_DisplayName id
  end.

(** The sections of a prompt and what was redacted in them. *)
Definition prompt_sections (input : launchPromptInput) : list LsS.LaunchPromptSnapshotSection * list string :=
  let agent := prompt_agent input in
  let of_profile := match in_runtimeProfile input with
    | None => ([], [])
    | Some profile =>
        let (content, redacted) := runtimeProfilePrompt profile in
        ([promptSection "runtime_profile" "runtime_profile.adapter_config" content redacted],
         if redacted then ["runtime_profile.adapter_config"] else [])
    end in
  let of_task := match in_task input with
    | None => []
    | Some task => [promptSection "task_context" "task" (taskPrompt task) false]
    end in
  let of_message := match in_message input with
    | None => ([], [])
    | Some message =>
        let (content, redacted) := messagePrompt message in
        ([promptSection "message_context" "message" content redacted],
         if redacted then ["message.metadata"] else [])
    end in
  ([promptSection "agent_identity" "agent_profile" (agentIdentityPrompt agent (in_serverName input)) false;
    promptSection "run_context" "run" (runContextPrompt (in_run input)) false] ++
   of_profile.1 ++ of_task ++ of_message.1 ++
   [promptSection "communication_protocol" "nekode.prompt_template" communicationPrompt false;
    promptSection "execution_verification" "nekode.prompt_template" executionVerificationPrompt false;
    promptSection "tools_permissions_skills" "runtime_profile.capabilities"
      (toolsPrompt agent (in_runtimeProfile input)) false;
    promptSection "memory_context" "server_memory_summary" memoryPrompt false;
    promptSection "safety_audit" "nekode.prompt_template" safetyPrompt false],
   of_profile.2 ++ of_message.2).

Definition buildLaunchPromptSnapshot (now : Z) (input : launchPromptInput) : LsN.LaunchPromptSnapshot :=
  let run := in_run input in
  let agent := prompt_agent input in
  let (sections, redactions) := prompt_sections input in
  let content := renderPromptSections sections in
  let hash := Sum256_hex content in
  let snapshotID := "prompt_" +:+ TrimPrefix (RnP.RunId run) "run_" +:+ "_" +:+ stake 12 hash in
  LsN.zero
    |> LsN.set_SnapshotId
         (if RnP.LaunchPromptSnapshotId run <>s "" then RnP.LaunchPromptSnapshotId run else snapshotID)
    |> LsN.set_AgentId (firstNonEmpty [AgP.AgentId agent; RnP.AgentId run])
    |> LsN.set_ComputerId (RnP.ComputerId run)
    |> LsN.set_RunId (RnP.RunId run)
    |> LsN.set_RuntimeProfileId (firstNonEmpty [RnP.RuntimeProfileId run; AgP.RuntimeProfileId agent])
    |> LsN.set_Target (RnP.Target run)
    |> LsN.set_ThreadId (match in_message input with Some m => MgM.ThreadID m | None => "" end)
    |> LsN.set_MessageId (RnP.InputMessageId run)
    |> LsN.set_TaskId (RnP.TaskId run)
    |> LsN.set_TemplateVersion launchPromptTemplateVersion
    |> LsN.set_Content content
    |> LsN.set_ContentHash hash
    |> LsN.set_Sections sections
    |> LsN.set_CreatedTimeUnix now
    |> LsN.set_RedactionSummary (redactionSummary redactions)
    |> LsN.set_SourceVersion (in_serverID input +:+ ":" +:+ launchPromptTemplateVersion).

Definition runtimeProfileLocked (computerID runtimeProfileID : string) : R (option RtPf.RuntimeProfile) :=
  all ← gets computers;
  let elsewhere (c : computerState) :=
    match info c with
    | None => false
    | Some i => (computerID <>s "") && (daemonv1.ComputerInfo.ComputerId i <>s "") &&
                (daemonv1.ComputerInfo.ComputerId i <>s computerID)
    end in
  mret (head (bfilter (λ p, RtPf.RuntimeProfileId p =s runtimeProfileID)
    (mbind (M := list) (λ c : string * computerState,
       match inventory c.2 with
       | None => []
       | Some inv => if elsewhere c.2 then [] else daemonv1.ComputerInventory.RuntimeProfiles inv
       end) (visited all)))).

Definition promptMessage (run : RnP.Run) : R (option MgM.Message) :=
  if TrimSpace (RnP.InputMessageId run) =s "" then mret None
  else
    res ← stored (GetMessage (RnP.Target run) (RnP.InputMessageId run));
    match res with
    | inr msg => mret (Some msg)
    | inl e => if errors_Is e ErrNotFound then mret None else fail Internal "load prompt message"
    end.

Definition promptTask (run : RnP.Run) : R (option TkM.Task) :=
  if TrimSpace (RnP.TaskId run) =s "" then mret None
  else
    res ← stored (GetTask (RnP.TaskId run));
    match res with
    | inr task => mret (Some task)
    | inl e => if errors_Is e ErrNotFound then mret None else fail Internal "load prompt task"
    end.

(** The snapshot a run already has. *)
Definition known_snapshot (s : Server) (run : RnP.Run) : option LsN.LaunchPromptSnapshot :=
  if RnP.LaunchPromptSnapshotId run =s "" then None else promptSnaps s !! RnP.LaunchPromptSnapshotId run.

Definition GetLaunchPromptSnapshot (req : GlQ.GetLaunchPromptSnapshotRequest) :
    R GlP.GetLaunchPromptSnapshotResponse :=
  let runID := TrimSpace (GlQ.RunId req) in
  _ ← refuse (runID =s "") InvalidArgument "run_id is required";
  s ← gets id;
  match runs s !! runID with
  | None => fail NotFound "run not found"
  | Some run =>
      match known_snapshot s run with
      | Some snapshot => mret (GlP.zero |> GlP.set_Snapshot (Some snapshot))
      | None =>
          agent ← agentProfileLocked (firstNonEmpty [GlQ.AgentId req; RnP.AgentId run]);
          runtimeProfile ← runtimeProfileLocked (firstNonEmpty [GlQ.ComputerId req; RnP.ComputerId run])
            (firstNonEmpty [GlQ.RuntimeProfileId req; RnP.RuntimeProfileId run]);
          message ← promptMessage run;
          task ← promptTask run;
          now ← unixNow;
          let snapshot := buildLaunchPromptSnapshot now
            (mkInput (serverID s) (serverName s) run (Some agent) runtimeProfile message task) in
          _ ← modify (λ s, put_runs (alter (RnP.set_LaunchPromptSnapshotId (LsN.SnapshotId snapshot)) runID (runs s)) s);
          _ ← modify (λ s, put_promptSnaps (<[LsN.SnapshotId snapshot := snapshot]> (promptSnaps s)) s);
          mret (GlP.zero |> GlP.set_Snapshot (Some snapshot))
      end
  end.

End snapshots.

(** ** Secrets stay out *)

Section secrets.
Context {Uni : Unicode} {Fl : Floats} {Ord : MapOrder}.

Lemma keep_option_redacted acc p :
  (∀ k v, acc.1 !! k = Some v → isSensitiveKey k = true → v = "" ∨ v = "<redacted>") →
  ∀ k v, (keep_option acc p).1 !! k = Some v → isSensitiveKey k = true → v = "" ∨ v = "<redacted>".
Proof.
  destruct acc as [out redacted]. unfold keep_option, redactPromptValue. cbn [fst]. intros Hacc k v.
  destruct (TrimSpace p.1 =s ""); [apply Hacc|].
  destruct (decide (k = TrimSpace p.1)) as [->|Hne].
  - intros Hk Hs. rewrite Hs in Hk. cbn [orb] in Hk.
    destruct (TrimSpace p.2 =s ""); cbn in Hk; rewrite lookup_insert_eq in Hk; injection Hk as <-; auto.
  - repeat case_match; cbn; rewrite lookup_insert_ne by done; apply Hacc.
Qed.

Lemma foldl_keep_option l acc :
  (∀ k v, acc.1 !! k = Some v → isSensitiveKey k = true → v = "" ∨ v = "<redacted>") →
  ∀ k v, (foldl keep_option acc l).1 !! k = Some v → isSensitiveKey k = true → v = "" ∨ v = "<redacted>".
Proof. revert acc. induction l as [|p l IH]; intros acc Hacc; [done|]. cbn. by apply IH, keep_option_redacted. Qed.

(** The documents agree but for the values of their sensitive members. *)
Definition same_public (m m' : gmap string json) : Prop :=
  ∀ k, if isSensitiveKey k then is_Some (m !! k) ↔ is_Some (m' !! k) else m !! k = m' !! k.

Lemma same_public_redacted m m' : same_public m m' →
  map_imap (λ k v, Some (redact_member k v)) m = map_imap (λ k v, Some (redact_member k v)) m'.
Proof.
  intros H. apply map_eq. intros k. rewrite !map_lookup_imap. specialize (H k). unfold redact_member.
  destruct (isSensitiveKey k); [|by rewrite H].
  destruct (m !! k), (m' !! k); cbn; [done|..|done].
  - by destruct (proj1 H (mk_is_Some _ _ eq_refl)).
  - by destruct (proj2 H (mk_is_Some _ _ eq_refl)).
Qed.

Lemma existsb_keys (p : string → bool) {A} (m : gmap string A) :
  existsb p (map_to_list m).*1 = true ↔ ∃ k, is_Some (m !! k) ∧ p k = true.
Proof.
  rewrite existsb_exists. split.
  - intros (k & Hk%list_elem_of_In & Hp). apply list_elem_of_fmap in Hk as ([k' v] & -> & Hv).
    apply elem_of_map_to_list in Hv. exists k'. split; [by exists v|done].
  - intros (k & [v Hv] & Hp). exists k. split; [|done]. apply list_elem_of_In, list_elem_of_fmap.
    exists (k, v). split; [done|by apply elem_of_map_to_list].
Qed.

Lemma same_public_keys m m' : same_public m m' →
  existsb isSensitiveKey (map_to_list m).*1 = existsb isSensitiveKey (map_to_list m').*1.
Proof.
  intros H. apply eq_true_iff_eq. rewrite !existsb_keys. split; intros (k & Hk & Hs); exists k;
    (split; [|done]); specialize (H k); rewrite Hs in H; by apply H.
Qed.

(** What a prompt shows of an adapter configuration and of a message's metadata does
    not depend on secrets: the value of an option whose name is sensitive is empty or
    [<redacted>], and two metadata documents that differ only in the values of sensitive
    top-level members give the same text. *)
Theorem prompt_hides_secrets configJSON key value value' m m' :
  TrimSpace value ≠ "" → TrimSpace value' ≠ "" →
  decode_any_map (TrimSpace value) = Some (Some m) → decode_any_map (TrimSpace value') = Some (Some m') →
  same_public m m' →
  (∀ k v, (selectedRuntimeOptions configJSON).1 !! k = Some v → isSensitiveKey k = true →
     v = "" ∨ v = "<redacted>") ∧
  redactJSONLike key value = redactJSONLike key value'.
Proof.
  intros Hv%eqb_neq_str Hv'%eqb_neq_str Hm Hm' Hs. split.
  - unfold selectedRuntimeOptions. repeat case_match; try done.
    apply foldl_keep_option. done.
  - unfold redactJSONLike. rewrite Hv, Hv', Hm, Hm'.
    by rewrite (same_public_redacted m m'), (same_public_keys m m').
Qed.

End secrets.

Definition plain_order : MapOrder := {| visit A l := l; visit_perm A l := reflexivity l |}.

Definition secret_doc (token : string) : string :=
  " {" +:+ q "token" +:+ ":" +:+ q token +:+ "," +:+ q "im" +:+ ":{" +:+ q "cookie" +:+ ":" +:+ q "c1" +:+ "}}".

(** Only the top level is searched: a secret deeper in the document is shown. *)
Example nested_secrets_are_shown :
  redactJSONLike (Uni := ascii_unicode) (Fl := same_text) "metadata_json" (secret_doc "t1") =
  ("{" +:+ q "im" +:+ ":{" +:+ q "cookie" +:+ ":" +:+ q "c1" +:+ "}," +:+
   q "token" +:+ ":" +:+ q "\u003credacted\u003e" +:+ "}", true).
Proof. vm_compute. reflexivity. Qed.

Lemma prompt_hides_secrets_witness :
  redactJSONLike (Uni := ascii_unicode) (Fl := same_text) "metadata_json" (secret_doc "t1") =
  redactJSONLike (Uni := ascii_unicode) (Fl := same_text) "metadata_json" (secret_doc "t2").
Proof.
  apply (prompt_hides_secrets (Uni := ascii_unicode) (Fl := same_text) (Ord := plain_order) ""
    "metadata_json" (secret_doc "t1") (secret_doc "t2")
    (<["token" := JStr "t1"]> (<["im" := JObj [("cookie", JStr "c1")]]> ∅))
    (<["token" := JStr "t2"]> (<["im" := JObj [("cookie", JStr "c1")]]> ∅))).
  - vm_compute. discriminate.
  - vm_compute. discriminate.
  - vm_compute. reflexivity.
  - vm_compute. reflexivity.
  - intros k. destruct (decide (k = "token")) as [->|Hk].
    + replace (isSensitiveKey "token") with true by (vm_compute; reflexivity).
      by rewrite !lookup_insert_eq.
    + rewrite !(lookup_insert_ne _ "token" k) by done. by destruct (isSensitiveKey k).
Defined.

(** ** Lines of empty fields *)

(** The test for a line that ends in a colon and a space never holds of a trimmed line. *)
Lemma trimmed_no_space s : HasSuffix (TrimSpace s) ": " = false.
Proof.
  unfold HasSuffix, HasPrefix. pose proof (trimmed_leads _ (TrimSpace_trimmed s)) as H.
  destruct (String.rev (TrimSpace s)) as [|a r]; [done|]. change (String.rev ": ") with " :". cbn [String.prefix].
  destruct (Ascii.ascii_dec " " a) as [Ha|]; [|done]. subst a. discriminate H.
Qed.

(** [nonEmptyLines] drops blank lines only: a line whose field is empty stays. *)
Theorem nonEmptyLines_only_blank lines :
  nonEmptyLines lines = bfilter (λ line, TrimSpace line <>s "") lines.
Proof.
  unfold nonEmptyLines. induction lines as [|line lines IH]; [done|]. cbn.
  rewrite trimmed_no_space, andb_true_r. by rewrite IH.
Qed.
