(* ===== verification/RuntimeCatalog.v ===== *)
(** * The catalog of runtimes ([internal/runtimecatalog/catalog.go])

    The presets a server offers, with their message, and the listing behind the RPC method
    and the console.  A preset holds no mutable part that two callers could share:
    [clonePreset] copies it whole. *)
From S2P Require Import Prelude GoStr GoText Sql Models Schema Store Proto Rpc.

#[local] Open Scope go_scope.

(** ** Messages *)

Module RuntimePreset.
Record RuntimePreset := mk {
  Kind : string;
  DisplayName : string;
  Provider : string;
  DefaultModel : string;
  Command : string;
  Aliases : list string;
  DefaultArgs : list string;
  EnvVarNames : list string;
  InstallHint : list string;
  Capabilities : list daemonv1.Capability.Capability;
  SlockSupported : bool;
  MulticaSupported : bool;
  Recommended : bool;
  Description : string
}.
Definition zero : RuntimePreset := mk "" "" "" "" "" [] [] [] [] [] false false false "".
Definition set_Kind (v : string) (r : RuntimePreset) : RuntimePreset := mk v (DisplayName r) (Provider r) (DefaultModel r) (Command r) (Aliases r) (DefaultArgs r) (EnvVarNames r) (InstallHint r) (Capabilities r) (SlockSupported r) (MulticaSupported r) (Recommended r) (Description r).
Definition set_DisplayName (v : string) (r : RuntimePreset) : RuntimePreset := mk (Kind r) v (Provider r) (DefaultModel r) (Command r) (Aliases r) (DefaultArgs r) (EnvVarNames r) (InstallHint r) (Capabilities r) (SlockSupported r) (MulticaSupported r) (Recommended r) (Description r).
Definition set_Provider (v : string) (r : RuntimePreset) : RuntimePreset := mk (Kind r) (DisplayName r) v (DefaultModel r) (Command r) (Aliases r) (DefaultArgs r) (EnvVarNames r) (InstallHint r) (Capabilities r) (SlockSupported r) (MulticaSupported r) (Recommended r) (Description r).
Definition set_DefaultModel (v : string) (r : RuntimePreset) : RuntimePreset := mk (Kind r) (DisplayName r) (Provider r) v (Command r) (Aliases r) (DefaultArgs r) (EnvVarNames r) (InstallHint r) (Capabilities r) (SlockSupported r) (MulticaSupported r) (Recommended r) (Description r).
Definition set_Command (v : string) (r : RuntimePreset) : RuntimePreset := mk (Kind r) (DisplayName r) (Provider r) (DefaultModel r) v (Aliases r) (DefaultArgs r) (EnvVarNames r) (InstallHint r) (Capabilities r) (SlockSupported r) (MulticaSupported r) (Recommended r) (Description r).
Definition set_Aliases (v : list string) (r : RuntimePreset) : RuntimePreset := mk (Kind r) (DisplayName r) (Provider r) (DefaultModel r) (Command r) v (DefaultArgs r) (EnvVarNames r) (InstallHint r) (Capabilities r) (SlockSupported r) (MulticaSupported r) (Recommended r) (Description r).
Definition set_DefaultArgs (v : list string) (r : RuntimePreset) : RuntimePreset := mk (Kind r) (DisplayName r) (Provider r) (DefaultModel r) (Command r) (Aliases r) v (EnvVarNames r) (InstallHint r) (Capabilities r) (SlockSupported r) (MulticaSupported r) (Recommended r) (Description r).
Definition set_EnvVarNames (v : list string) (r : RuntimePreset) : RuntimePreset := mk (Kind r) (DisplayName r) (Provider r) (DefaultModel r) (Command r) (Aliases r) (DefaultArgs r) v (InstallHint r) (Capabilities r) (SlockSupported r) (MulticaSupported r) (Recommended r) (Description r).
Definition set_InstallHint (v : list string) (r : RuntimePreset) : RuntimePreset := mk (Kind r) (DisplayName r) (Provider r) (DefaultModel r) (Command r) (Aliases r) (DefaultArgs r) (EnvVarNames r) v (Capabilities r) (SlockSupported r) (MulticaSupported r) (Recommended r) (Description r).
Definition set_Capabilities (v : list daemonv1.Capability.Capability) (r : RuntimePreset) : RuntimePreset := mk (Kind r) (DisplayName r) (Provider r) (DefaultModel r) (Command r) (Aliases r) (DefaultArgs r) (EnvVarNames r) (InstallHint r) v (SlockSupported r) (MulticaSupported r) (Recommended r) (Description r).
Definition set_SlockSupported (v : bool) (r : RuntimePreset) : RuntimePreset := mk (Kind r) (DisplayName r) (Provider r) (DefaultModel r) (Command r) (Aliases r) (DefaultArgs r) (EnvVarNames r) (InstallHint r) (Capabilities r) v (MulticaSupported r) (Recommended r) (Description r).
Definition set_MulticaSupported (v : bool) (r : RuntimePreset) : RuntimePreset := mk (Kind r) (DisplayName r) (Provider r) (DefaultModel r) (Command r) (Aliases r) (DefaultArgs r) (EnvVarNames r) (InstallHint r) (Capabilities r) (SlockSupported r) v (Recommended r) (Description r).
Definition set_Recommended (v : bool) (r : RuntimePreset) : RuntimePreset := mk (Kind r) (DisplayName r) (Provider r) (DefaultModel r) (Command r) (Aliases r) (DefaultArgs r) (EnvVarNames r) (InstallHint r) (Capabilities r) (SlockSupported r) (MulticaSupported r) v (Description r).
Definition set_Description (v : string) (r : RuntimePreset) : RuntimePreset := mk (Kind r) (DisplayName r) (Provider r) (DefaultModel r) (Command r) (Aliases r) (DefaultArgs r) (EnvVarNames r) (InstallHint r) (Capabilities r) (SlockSupported r) (MulticaSupported r) (Recommended r) v.
End RuntimePreset.

(** ** Presets *)

Definition capability (name description : string) : daemonv1.Capability.Capability :=
  daemonv1.Capability.mk name description true.

Definition commonCodingCapabilities : list daemonv1.Capability.Capability :=
  [capability "code_execution" "Can inspect and modify code through a local workspace";
   capability "file_write" "Can write files when runtime policy allows it";
   capability "shell" "Can run local commands through runtime tooling"].

Definition preset_codex : RuntimePreset.RuntimePreset := RuntimePreset.zero
  |> RuntimePreset.set_Kind "codex"
  |> RuntimePreset.set_DisplayName "Codex CLI"
  |> RuntimePreset.set_Provider "openai"
  |> RuntimePreset.set_DefaultModel "gpt-5.5"
  |> RuntimePreset.set_Command "codex"
  |> RuntimePreset.set_Aliases ["codex-cli"]
  |> RuntimePreset.set_EnvVarNames ["NEKODE_CODEX_PATH"]
  |> RuntimePreset.set_InstallHint ["Install the Codex CLI and ensure `codex` is on PATH."]
  |> RuntimePreset.set_Capabilities commonCodingCapabilities
  |> RuntimePreset.set_SlockSupported true
  |> RuntimePreset.set_MulticaSupported true
  |> RuntimePreset.set_Recommended true
  |> RuntimePreset.set_Description "OpenAI coding runtime used by Slock and Multica agents.".

Definition preset_claude : RuntimePreset.RuntimePreset := RuntimePreset.zero
  |> RuntimePreset.set_Kind "claude"
  |> RuntimePreset.set_DisplayName "Claude Code"
  |> RuntimePreset.set_Provider "anthropic"
  |> RuntimePreset.set_Command "claude"
  |> RuntimePreset.set_Aliases ["claude-code"]
  |> RuntimePreset.set_EnvVarNames ["NEKODE_CLAUDE_PATH"]
  |> RuntimePreset.set_InstallHint ["Install Claude Code and ensure `claude` is on PATH."]
  |> RuntimePreset.set_Capabilities commonCodingCapabilities
  |> RuntimePreset.set_SlockSupported true
  |> RuntimePreset.set_MulticaSupported true
  |> RuntimePreset.set_Recommended true
  |> RuntimePreset.set_Description "Anthropic coding runtime used by Slock and Multica agents.".

Definition preset_opencode : RuntimePreset.RuntimePreset := RuntimePreset.zero
  |> RuntimePreset.set_Kind "opencode"
  |> RuntimePreset.set_DisplayName "OpenCode"
  |> RuntimePreset.set_Provider "opencode"
  |> RuntimePreset.set_Command "opencode"
  |> RuntimePreset.set_EnvVarNames ["NEKODE_OPENCODE_PATH"]
  |> RuntimePreset.set_InstallHint ["Install OpenCode and ensure `opencode` is on PATH."]
  |> RuntimePreset.set_Capabilities commonCodingCapabilities
  |> RuntimePreset.set_SlockSupported true
  |> RuntimePreset.set_MulticaSupported true
  |> RuntimePreset.set_Recommended true
  |> RuntimePreset.set_Description "OpenCode CLI runtime with Slock transport compatibility.".

Definition preset_kimi : RuntimePreset.RuntimePreset := RuntimePreset.zero
  |> RuntimePreset.set_Kind "kimi"
  |> RuntimePreset.set_DisplayName "Kimi CLI"
  |> RuntimePreset.set_Provider "moonshot"
  |> RuntimePreset.set_Command "kimi"
  |> RuntimePreset.set_EnvVarNames ["NEKODE_KIMI_PATH"]
  |> RuntimePreset.set_InstallHint ["Install Kimi CLI and ensure `kimi` is on PATH."]
  |> RuntimePreset.set_Capabilities commonCodingCapabilities
  |> RuntimePreset.set_SlockSupported true
  |> RuntimePreset.set_MulticaSupported true
  |> RuntimePreset.set_Recommended true
  |> RuntimePreset.set_Description "Moonshot Kimi coding runtime supported by Slock and Multica.".

Definition preset_gemini : RuntimePreset.RuntimePreset := RuntimePreset.zero
  |> RuntimePreset.set_Kind "gemini"
  |> RuntimePreset.set_DisplayName "Gemini CLI"
  |> RuntimePreset.set_Provider "google"
  |> RuntimePreset.set_Command "gemini"
  |> RuntimePreset.set_EnvVarNames ["NEKODE_GEMINI_PATH"]
  |> RuntimePreset.set_InstallHint ["Install Gemini CLI and ensure `gemini` is on PATH."]
  |> RuntimePreset.set_Capabilities commonCodingCapabilities
  |> RuntimePreset.set_SlockSupported true
  |> RuntimePreset.set_MulticaSupported true
  |> RuntimePreset.set_Recommended true
  |> RuntimePreset.set_Description "Google Gemini coding runtime using the shared Slock CLI transport.".

Definition preset_cursor_agent : RuntimePreset.RuntimePreset := RuntimePreset.zero
  |> RuntimePreset.set_Kind "cursor-agent"
  |> RuntimePreset.set_DisplayName "Cursor Agent"
  |> RuntimePreset.set_Provider "cursor"
  |> RuntimePreset.set_Command "cursor-agent"
  |> RuntimePreset.set_Aliases ["cursor"]
  |> RuntimePreset.set_EnvVarNames ["NEKODE_CURSOR_PATH"]
  |> RuntimePreset.set_InstallHint ["Install Cursor Agent and ensure `cursor-agent` is on PATH."]
  |> RuntimePreset.set_Capabilities commonCodingCapabilities
  |> RuntimePreset.set_SlockSupported true
  |> RuntimePreset.set_MulticaSupported true
  |> RuntimePreset.set_Recommended false
  |> RuntimePreset.set_Description "Non-canonical reference runtime from the Multica compatibility catalog.".

Definition preset_copilot : RuntimePreset.RuntimePreset := RuntimePreset.zero
  |> RuntimePreset.set_Kind "copilot"
  |> RuntimePreset.set_DisplayName "GitHub Copilot CLI"
  |> RuntimePreset.set_Provider "github"
  |> RuntimePreset.set_Command "copilot"
  |> RuntimePreset.set_EnvVarNames ["NEKODE_COPILOT_PATH"; "NEKODE_COPILOT_MODEL"]
  |> RuntimePreset.set_InstallHint ["Install GitHub Copilot CLI and ensure `copilot` is on PATH."]
  |> RuntimePreset.set_Capabilities commonCodingCapabilities
  |> RuntimePreset.set_MulticaSupported true
  |> RuntimePreset.set_Recommended false
  |> RuntimePreset.set_Description "Non-canonical reference runtime from the Multica compatibility catalog.".

Definition preset_openclaw : RuntimePreset.RuntimePreset := RuntimePreset.zero
  |> RuntimePreset.set_Kind "openclaw"
  |> RuntimePreset.set_DisplayName "OpenClaw"
  |> RuntimePreset.set_Provider "openclaw"
  |> RuntimePreset.set_Command "openclaw"
  |> RuntimePreset.set_EnvVarNames ["NEKODE_OPENCLAW_PATH"]
  |> RuntimePreset.set_InstallHint ["Install OpenClaw and ensure `openclaw` is on PATH."]
  |> RuntimePreset.set_Capabilities commonCodingCapabilities
  |> RuntimePreset.set_MulticaSupported true
  |> RuntimePreset.set_Recommended false
  |> RuntimePreset.set_Description "Non-canonical reference runtime from the Multica compatibility catalog.".

Definition preset_hermes : RuntimePreset.RuntimePreset := RuntimePreset.zero
  |> RuntimePreset.set_Kind "hermes"
  |> RuntimePreset.set_DisplayName "Hermes"
  |> RuntimePreset.set_Provider "nous"
  |> RuntimePreset.set_Command "hermes"
  |> RuntimePreset.set_EnvVarNames ["NEKODE_HERMES_PATH"]
  |> RuntimePreset.set_InstallHint ["Install Hermes and ensure `hermes` is on PATH."]
  |> RuntimePreset.set_Capabilities commonCodingCapabilities
  |> RuntimePreset.set_MulticaSupported true
  |> RuntimePreset.set_Recommended false
  |> RuntimePreset.set_Description "Non-canonical reference runtime from the Multica compatibility catalog.".

Definition preset_pi : RuntimePreset.RuntimePreset := RuntimePreset.zero
  |> RuntimePreset.set_Kind "pi"
  |> RuntimePreset.set_DisplayName "Pi"
  |> RuntimePreset.set_Provider "pi"
  |> RuntimePreset.set_Command "pi"
  |> RuntimePreset.set_EnvVarNames ["NEKODE_PI_PATH"]
  |> RuntimePreset.set_InstallHint ["Install Pi CLI and ensure `pi` is on PATH."]
  |> RuntimePreset.set_Capabilities commonCodingCapabilities
  |> RuntimePreset.set_MulticaSupported true
  |> RuntimePreset.set_Recommended false
  |> RuntimePreset.set_Description "Non-canonical reference runtime from the Multica compatibility catalog.".

Definition preset_kiro_cli : RuntimePreset.RuntimePreset := RuntimePreset.zero
  |> RuntimePreset.set_Kind "kiro-cli"
  |> RuntimePreset.set_DisplayName "Kiro CLI"
  |> RuntimePreset.set_Provider "kiro"
  |> RuntimePreset.set_Command "kiro-cli"
  |> RuntimePreset.set_Aliases ["kiro"]
  |> RuntimePreset.set_EnvVarNames ["NEKODE_KIRO_PATH"]
  |> RuntimePreset.set_InstallHint ["Install Kiro CLI and ensure `kiro-cli` is on PATH."]
  |> RuntimePreset.set_Capabilities commonCodingCapabilities
  |> RuntimePreset.set_MulticaSupported true
  |> RuntimePreset.set_Recommended false
  |> RuntimePreset.set_Description "Non-canonical reference runtime from the Multica compatibility catalog.".

Definition preset_custom : RuntimePreset.RuntimePreset := RuntimePreset.zero
  |> RuntimePreset.set_Kind "custom"
  |> RuntimePreset.set_DisplayName "Custom Runtime"
  |> RuntimePreset.set_Provider "custom"
  |> RuntimePreset.set_Capabilities commonCodingCapabilities
  |> RuntimePreset.set_SlockSupported true
  |> RuntimePreset.set_MulticaSupported true
  |> RuntimePreset.set_Recommended true
  |> RuntimePreset.set_Description "User-defined runtime adapter. Keep kind/model/provider as open strings.".

Definition presets : list RuntimePreset.RuntimePreset :=
  [preset_codex; preset_claude; preset_opencode; preset_kimi; preset_gemini; preset_cursor_agent;
   preset_copilot; preset_openclaw; preset_hermes; preset_pi; preset_kiro_cli; preset_custom].

(** ** Listing *)

Section list.
Context {Uni : Unicode}.

(** Which presets a listing is about. *)
Definition listed (includeExperimental : bool) (prefix : string) (preset : RuntimePreset.RuntimePreset) : bool :=
  (includeExperimental || RuntimePreset.Recommended preset)
  && ((prefix =s "") || HasPrefix (ToLower (RuntimePreset.Kind preset)) prefix).

(** The loop; [n] is the length of [out]. *)
Fixpoint list_go (includeExperimental : bool) (prefix : string) (limit n : Z)
    (presets : list RuntimePreset.RuntimePreset) : list RuntimePreset.RuntimePreset :=
  match presets with
  | [] => []
  | preset :: presets =>
      if negb (listed includeExperimental prefix preset) then list_go includeExperimental prefix limit n presets
      else preset :: (if (limit <=? n + 1)%Z then [] else list_go includeExperimental prefix limit (n + 1) presets)
  end.

Definition catalog_limit (limit : Z) : Z := if (limit =? 0)%Z || (200 <? limit)%Z then 200 else limit.

Definition List (includeExperimental : bool) (kindPrefix : string) (limit : Z) : list RuntimePreset.RuntimePreset :=
  list_go includeExperimental (ToLower (TrimSpace kindPrefix)) (catalog_limit limit) 0 presets.

Definition ListRuntimePresets (includeExperimental : bool) (kindPrefix : string) (limit : Z) (serverID : string)
    : list RuntimePreset.RuntimePreset * daemonv1.EventCursor.EventCursor :=
  let found := List includeExperimental kindPrefix limit in
  (found, cursorFromCount (length found) kindPrefix serverID).

Lemma list_go_filter include prefix limit n l :
  (n < limit)%Z →
  list_go include prefix limit n l = take (Z.to_nat (limit - n)) (bfilter (listed include prefix) l).
Proof.
  revert n. induction l as [|x l IH]; intros n H; simpl; [by rewrite take_nil|].
  destruct (listed include prefix x); simpl; [|by apply IH].
  replace (Z.to_nat (limit - n)) with (S (Z.to_nat (limit - (n + 1)))) by lia. simpl. f_equal.
  destruct (Z.leb_spec limit (n + 1)); [|by apply IH].
  by replace (Z.to_nat (limit - (n + 1))) with 0 by lia.
Qed.

Lemma catalog_limit_bounds limit : (0 ≤ limit)%Z → (1 ≤ catalog_limit limit ≤ 200)%Z.
Proof. unfold catalog_limit. destruct (Z.eqb_spec limit 0), (Z.ltb_spec 200 limit); simpl; lia. Qed.

Lemma List_spec include prefix limit :
  (0 ≤ limit)%Z →
  List include prefix limit
  = take (Z.to_nat (catalog_limit limit)) (bfilter (listed include (ToLower (TrimSpace prefix))) presets).
Proof.
  intros H. unfold List. rewrite list_go_filter; [by rewrite Z.sub_0_r|]. by apply catalog_limit_bounds in H; lia.
Qed.

End list.

Example canonical_listed :
  RuntimePreset.Kind <$> @List ascii_unicode false "" 0 = ["codex"; "claude"; "opencode"; "kimi"; "gemini"; "custom"].
Proof. reflexivity. Qed.

Example experimental_listed :
  RuntimePreset.Kind <$> @List ascii_unicode true " C" 3 = ["codex"; "claude"; "cursor-agent"].
Proof. reflexivity. Qed.
