(* ===== verification/RuntimeAdapter.v ===== *)
(** * How a daemon starts a runtime ([internal/runtimeadapter/adapter.go])

    The contract of each runtime kind, the template of its instances, the command line that
    [BuildWrapCommand] makes of a template and chosen options, and the inventory a daemon
    reports.  Looking up executables, the environment and the version check of a runtime
    are fields of [InventoryConfig], as in the code.  An error is its text.  A slice whose
    JSON tells nil from empty is an [option]. *)
From S2P Require Import Prelude GoStr GoText Json JsonValue GoFlag Sql Models Schema Store Proto RpcPrompt RuntimeCatalog.

#[local] Open Scope go_scope.

(** ** Data *)

Module OptionSchema.
Record OptionSchema := mk {
  Name : string;
  Label : string;
  Type_ : string;
  Required : bool;
  Default : string;
  Sensitive : bool;
  Enum : list string;
  Description : string
}.
Definition zero : OptionSchema := mk "" "" "" false "" false [] "".
Definition set_Name (v : string) (r : OptionSchema) : OptionSchema := mk v (Label r) (Type_ r) (Required r) (Default r) (Sensitive r) (Enum r) (Description r).
Definition set_Label (v : string) (r : OptionSchema) : OptionSchema := mk (Name r) v (Type_ r) (Required r) (Default r) (Sensitive r) (Enum r) (Description r).
Definition set_Type_ (v : string) (r : OptionSchema) : OptionSchema := mk (Name r) (Label r) v (Required r) (Default r) (Sensitive r) (Enum r) (Description r).
Definition set_Required (v : bool) (r : OptionSchema) : OptionSchema := mk (Name r) (Label r) (Type_ r) v (Default r) (Sensitive r) (Enum r) (Description r).
Definition set_Default (v : string) (r : OptionSchema) : OptionSchema := mk (Name r) (Label r) (Type_ r) (Required r) v (Sensitive r) (Enum r) (Description r).
Definition set_Sensitive (v : bool) (r : OptionSchema) : OptionSchema := mk (Name r) (Label r) (Type_ r) (Required r) (Default r) v (Enum r) (Description r).
Definition set_Enum (v : list string) (r : OptionSchema) : OptionSchema := mk (Name r) (Label r) (Type_ r) (Required r) (Default r) (Sensitive r) v (Description r).
Definition set_Description (v : string) (r : OptionSchema) : OptionSchema := mk (Name r) (Label r) (Type_ r) (Required r) (Default r) (Sensitive r) (Enum r) v.
End OptionSchema.
Abbreviation OptionSchema := OptionSchema.OptionSchema.

Module WrapSpec.
Record WrapSpec := mk {
  Command : string;
  Args : list string;
  Env : list string
}.
Definition zero : WrapSpec := mk "" [] [].
Definition set_Command (v : string) (r : WrapSpec) : WrapSpec := mk v (Args r) (Env r).
Definition set_Args (v : list string) (r : WrapSpec) : WrapSpec := mk (Command r) v (Env r).
Definition set_Env (v : list string) (r : WrapSpec) : WrapSpec := mk (Command r) (Args r) v.
End WrapSpec.
Abbreviation WrapSpec := WrapSpec.WrapSpec.

Module InstanceTemplate.
Record InstanceTemplate := mk {
  TemplateID : string;
  RuntimeKind : string;
  DisplayName : string;
  Description : string;
  Capabilities : option (list string);
  Options : option (list OptionSchema.OptionSchema);
  Wrap : WrapSpec.WrapSpec;
  MultiInstance : bool;
  InventoryRole : string;
  AgentIDPattern : string
}.
Definition zero : InstanceTemplate := mk "" "" "" "" None None WrapSpec.zero false "" "".
Definition set_TemplateID (v : string) (r : InstanceTemplate) : InstanceTemplate := mk v (RuntimeKind r) (DisplayName r) (Description r) (Capabilities r) (Options r) (Wrap r) (MultiInstance r) (InventoryRole r) (AgentIDPattern r).
Definition set_RuntimeKind (v : string) (r : InstanceTemplate) : InstanceTemplate := mk (TemplateID r) v (DisplayName r) (Description r) (Capabilities r) (Options r) (Wrap r) (MultiInstance r) (InventoryRole r) (AgentIDPattern r).
Definition set_DisplayName (v : string) (r : InstanceTemplate) : InstanceTemplate := mk (TemplateID r) (RuntimeKind r) v (Description r) (Capabilities r) (Options r) (Wrap r) (MultiInstance r) (InventoryRole r) (AgentIDPattern r).
Definition set_Description (v : string) (r : InstanceTemplate) : InstanceTemplate := mk (TemplateID r) (RuntimeKind r) (DisplayName r) v (Capabilities r) (Options r) (Wrap r) (MultiInstance r) (InventoryRole r) (AgentIDPattern r).
Definition set_Capabilities (v : option (list string)) (r : InstanceTemplate) : InstanceTemplate := mk (TemplateID r) (RuntimeKind r) (DisplayName r) (Description r) v (Options r) (Wrap r) (MultiInstance r) (InventoryRole r) (AgentIDPattern r).
Definition set_Options (v : option (list OptionSchema.OptionSchema)) (r : InstanceTemplate) : InstanceTemplate := mk (TemplateID r) (RuntimeKind r) (DisplayName r) (Description r) (Capabilities r) v (Wrap r) (MultiInstance r) (InventoryRole r) (AgentIDPattern r).
Definition set_Wrap (v : WrapSpec.WrapSpec) (r : InstanceTemplate) : InstanceTemplate := mk (TemplateID r) (RuntimeKind r) (DisplayName r) (Description r) (Capabilities r) (Options r) v (MultiInstance r) (InventoryRole r) (AgentIDPattern r).
Definition set_MultiInstance (v : bool) (r : InstanceTemplate) : InstanceTemplate := mk (TemplateID r) (RuntimeKind r) (DisplayName r) (Description r) (Capabilities r) (Options r) (Wrap r) v (InventoryRole r) (AgentIDPattern r).
Definition set_InventoryRole (v : string) (r : InstanceTemplate) : InstanceTemplate := mk (TemplateID r) (RuntimeKind r) (DisplayName r) (Description r) (Capabilities r) (Options r) (Wrap r) (MultiInstance r) v (AgentIDPattern r).
Definition set_AgentIDPattern (v : string) (r : InstanceTemplate) : InstanceTemplate := mk (TemplateID r) (RuntimeKind r) (DisplayName r) (Description r) (Capabilities r) (Options r) (Wrap r) (MultiInstance r) (InventoryRole r) v.
End InstanceTemplate.
Abbreviation InstanceTemplate := InstanceTemplate.InstanceTemplate.

Module RuntimeSmokeCheck.
Record RuntimeSmokeCheck := mk {
  Kind : string;
  Command : string;
  Resolved : string;
  VersionArgs : list string;
  Timeout : Z
}.
Definition zero : RuntimeSmokeCheck := mk "" "" "" [] 0%Z.
Definition set_Kind (v : string) (r : RuntimeSmokeCheck) : RuntimeSmokeCheck := mk v (Command r) (Resolved r) (VersionArgs r) (Timeout r).
Definition set_Command (v : string) (r : RuntimeSmokeCheck) : RuntimeSmokeCheck := mk (Kind r) v (Resolved r) (VersionArgs r) (Timeout r).
Definition set_Resolved (v : string) (r : RuntimeSmokeCheck) : RuntimeSmokeCheck := mk (Kind r) (Command r) v (VersionArgs r) (Timeout r).
Definition set_VersionArgs (v : list string) (r : RuntimeSmokeCheck) : RuntimeSmokeCheck := mk (Kind r) (Command r) (Resolved r) v (Timeout r).
Definition set_Timeout (v : Z) (r : RuntimeSmokeCheck) : RuntimeSmokeCheck := mk (Kind r) (Command r) (Resolved r) (VersionArgs r) v.
End RuntimeSmokeCheck.
Abbreviation RuntimeSmokeCheck := RuntimeSmokeCheck.RuntimeSmokeCheck.

Module RuntimeSmokeResult.
Record RuntimeSmokeResult := mk {
  OK : bool;
  Status : string;
  Category : string;
  Detail : string
}.
Definition zero : RuntimeSmokeResult := mk false "" "" "".
Definition set_OK (v : bool) (r : RuntimeSmokeResult) : RuntimeSmokeResult := mk v (Status r) (Category r) (Detail r).
Definition set_Status (v : string) (r : RuntimeSmokeResult) : RuntimeSmokeResult := mk (OK r) v (Category r) (Detail r).
Definition set_Category (v : string) (r : RuntimeSmokeResult) : RuntimeSmokeResult := mk (OK r) (Status r) v (Detail r).
Definition set_Detail (v : string) (r : RuntimeSmokeResult) : RuntimeSmokeResult := mk (OK r) (Status r) (Category r) v.
End RuntimeSmokeResult.
Abbreviation RuntimeSmokeResult := RuntimeSmokeResult.RuntimeSmokeResult.

Module RuntimeContractInfo.
Record RuntimeContractInfo := mk {
  Kind : string;
  Command : string;
  Canonical : bool;
  Surface : string;
  DirectRunSupported : bool;
  VersionArgs : list string;
  PromptInjection : string;
  SystemPromptInjection : string;
  WorkspaceMapping : string;
  ModelMapping : string;
  ReasoningMapping : string;
  SessionMapping : string;
  TimeoutPolicy : string;
  ExitCodePolicy : string;
  OutputPolicy : string;
  SecretRedaction : string
}.
Definition zero : RuntimeContractInfo := mk "" "" false "" false [] "" "" "" "" "" "" "" "" "" "".
Definition set_Kind (v : string) (r : RuntimeContractInfo) : RuntimeContractInfo := mk v (Command r) (Canonical r) (Surface r) (DirectRunSupported r) (VersionArgs r) (PromptInjection r) (SystemPromptInjection r) (WorkspaceMapping r) (ModelMapping r) (ReasoningMapping r) (SessionMapping r) (TimeoutPolicy r) (ExitCodePolicy r) (OutputPolicy r) (SecretRedaction r).
Definition set_Command (v : string) (r : RuntimeContractInfo) : RuntimeContractInfo := mk (Kind r) v (Canonical r) (Surface r) (DirectRunSupported r) (VersionArgs r) (PromptInjection r) (SystemPromptInjection r) (WorkspaceMapping r) (ModelMapping r) (ReasoningMapping r) (SessionMapping r) (TimeoutPolicy r) (ExitCodePolicy r) (OutputPolicy r) (SecretRedaction r).
Definition set_Canonical (v : bool) (r : RuntimeContractInfo) : RuntimeContractInfo := mk (Kind r) (Command r) v (Surface r) (DirectRunSupported r) (VersionArgs r) (PromptInjection r) (SystemPromptInjection r) (WorkspaceMapping r) (ModelMapping r) (ReasoningMapping r) (SessionMapping r) (TimeoutPolicy r) (ExitCodePolicy r) (OutputPolicy r) (SecretRedaction r).
Definition set_Surface (v : string) (r : RuntimeContractInfo) : RuntimeContractInfo := mk (Kind r) (Command r) (Canonical r) v (DirectRunSupported r) (VersionArgs r) (PromptInjection r) (SystemPromptInjection r) (WorkspaceMapping r) (ModelMapping r) (ReasoningMapping r) (SessionMapping r) (TimeoutPolicy r) (ExitCodePolicy r) (OutputPolicy r) (SecretRedaction r).
Definition set_DirectRunSupported (v : bool) (r : RuntimeContractInfo) : RuntimeContractInfo := mk (Kind r) (Command r) (Canonical r) (Surface r) v (VersionArgs r) (PromptInjection r) (SystemPromptInjection r) (WorkspaceMapping r) (ModelMapping r) (ReasoningMapping r) (SessionMapping r) (TimeoutPolicy r) (ExitCodePolicy r) (OutputPolicy r) (SecretRedaction r).
Definition set_VersionArgs (v : list string) (r : RuntimeContractInfo) : RuntimeContractInfo := mk (Kind r) (Command r) (Canonical r) (Surface r) (DirectRunSupported r) v (PromptInjection r) (SystemPromptInjection r) (WorkspaceMapping r) (ModelMapping r) (ReasoningMapping r) (SessionMapping r) (TimeoutPolicy r) (ExitCodePolicy r) (OutputPolicy r) (SecretRedaction r).
Definition set_PromptInjection (v : string) (r : RuntimeContractInfo) : RuntimeContractInfo := mk (Kind r) (Command r) (Canonical r) (Surface r) (DirectRunSupported r) (VersionArgs r) v (SystemPromptInjection r) (WorkspaceMapping r) (ModelMapping r) (ReasoningMapping r) (SessionMapping r) (TimeoutPolicy r) (ExitCodePolicy r) (OutputPolicy r) (SecretRedaction r).
Definition set_SystemPromptInjection (v : string) (r : RuntimeContractInfo) : RuntimeContractInfo := mk (Kind r) (Command r) (Canonical r) (Surface r) (DirectRunSupported r) (VersionArgs r) (PromptInjection r) v (WorkspaceMapping r) (ModelMapping r) (ReasoningMapping r) (SessionMapping r) (TimeoutPolicy r) (ExitCodePolicy r) (OutputPolicy r) (SecretRedaction r).
Definition set_WorkspaceMapping (v : string) (r : RuntimeContractInfo) : RuntimeContractInfo := mk (Kind r) (Command r) (Canonical r) (Surface r) (DirectRunSupported r) (VersionArgs r) (PromptInjection r) (SystemPromptInjection r) v (ModelMapping r) (ReasoningMapping r) (SessionMapping r) (TimeoutPolicy r) (ExitCodePolicy r) (OutputPolicy r) (SecretRedaction r).
Definition set_ModelMapping (v : string) (r : RuntimeContractInfo) : RuntimeContractInfo := mk (Kind r) (Command r) (Canonical r) (Surface r) (DirectRunSupported r) (VersionArgs r) (PromptInjection r) (SystemPromptInjection r) (WorkspaceMapping r) v (ReasoningMapping r) (SessionMapping r) (TimeoutPolicy r) (ExitCodePolicy r) (OutputPolicy r) (SecretRedaction r).
Definition set_ReasoningMapping (v : string) (r : RuntimeContractInfo) : RuntimeContractInfo := mk (Kind r) (Command r) (Canonical r) (Surface r) (DirectRunSupported r) (VersionArgs r) (PromptInjection r) (SystemPromptInjection r) (WorkspaceMapping r) (ModelMapping r) v (SessionMapping r) (TimeoutPolicy r) (ExitCodePolicy r) (OutputPolicy r) (SecretRedaction r).
Definition set_SessionMapping (v : string) (r : RuntimeContractInfo) : RuntimeContractInfo := mk (Kind r) (Command r) (Canonical r) (Surface r) (DirectRunSupported r) (VersionArgs r) (PromptInjection r) (SystemPromptInjection r) (WorkspaceMapping r) (ModelMapping r) (ReasoningMapping r) v (TimeoutPolicy r) (ExitCodePolicy r) (OutputPolicy r) (SecretRedaction r).
Definition set_TimeoutPolicy (v : string) (r : RuntimeContractInfo) : RuntimeContractInfo := mk (Kind r) (Command r) (Canonical r) (Surface r) (DirectRunSupported r) (VersionArgs r) (PromptInjection r) (SystemPromptInjection r) (WorkspaceMapping r) (ModelMapping r) (ReasoningMapping r) (SessionMapping r) v (ExitCodePolicy r) (OutputPolicy r) (SecretRedaction r).
Definition set_ExitCodePolicy (v : string) (r : RuntimeContractInfo) : RuntimeContractInfo := mk (Kind r) (Command r) (Canonical r) (Surface r) (DirectRunSupported r) (VersionArgs r) (PromptInjection r) (SystemPromptInjection r) (WorkspaceMapping r) (ModelMapping r) (ReasoningMapping r) (SessionMapping r) (TimeoutPolicy r) v (OutputPolicy r) (SecretRedaction r).
Definition set_OutputPolicy (v : string) (r : RuntimeContractInfo) : RuntimeContractInfo := mk (Kind r) (Command r) (Canonical r) (Surface r) (DirectRunSupported r) (VersionArgs r) (PromptInjection r) (SystemPromptInjection r) (WorkspaceMapping r) (ModelMapping r) (ReasoningMapping r) (SessionMapping r) (TimeoutPolicy r) (ExitCodePolicy r) v (SecretRedaction r).
Definition set_SecretRedaction (v : string) (r : RuntimeContractInfo) : RuntimeContractInfo := mk (Kind r) (Command r) (Canonical r) (Surface r) (DirectRunSupported r) (VersionArgs r) (PromptInjection r) (SystemPromptInjection r) (WorkspaceMapping r) (ModelMapping r) (ReasoningMapping r) (SessionMapping r) (TimeoutPolicy r) (ExitCodePolicy r) (OutputPolicy r) v.
End RuntimeContractInfo.
Abbreviation RuntimeContractInfo := RuntimeContractInfo.RuntimeContractInfo.

Module RuntimeType.
Record RuntimeType := mk {
  Kind : string;
  DisplayName : string;
  Provider : string;
  Command : string;
  Aliases : list string;
  Installed : bool;
  Healthy : bool;
  Canonical : bool;
  ResolvedPath : string;
  Availability : string;
  AvailabilityReason : string;
  Smoke : RuntimeSmokeResult.RuntimeSmokeResult;
  Contract : RuntimeContractInfo.RuntimeContractInfo;
  Capabilities : option (list string);
  Templates : option (list string)
}.
Definition zero : RuntimeType := mk "" "" "" "" [] false false false "" "" "" RuntimeSmokeResult.zero RuntimeContractInfo.zero None None.
Definition set_Kind (v : string) (r : RuntimeType) : RuntimeType := mk v (DisplayName r) (Provider r) (Command r) (Aliases r) (Installed r) (Healthy r) (Canonical r) (ResolvedPath r) (Availability r) (AvailabilityReason r) (Smoke r) (Contract r) (Capabilities r) (Templates r).
Definition set_DisplayName (v : string) (r : RuntimeType) : RuntimeType := mk (Kind r) v (Provider r) (Command r) (Aliases r) (Installed r) (Healthy r) (Canonical r) (ResolvedPath r) (Availability r) (AvailabilityReason r) (Smoke r) (Contract r) (Capabilities r) (Templates r).
Definition set_Provider (v : string) (r : RuntimeType) : RuntimeType := mk (Kind r) (DisplayName r) v (Command r) (Aliases r) (Installed r) (Healthy r) (Canonical r) (ResolvedPath r) (Availability r) (AvailabilityReason r) (Smoke r) (Contract r) (Capabilities r) (Templates r).
Definition set_Command (v : string) (r : RuntimeType) : RuntimeType := mk (Kind r) (DisplayName r) (Provider r) v (Aliases r) (Installed r) (Healthy r) (Canonical r) (ResolvedPath r) (Availability r) (AvailabilityReason r) (Smoke r) (Contract r) (Capabilities r) (Templates r).
Definition set_Aliases (v : list string) (r : RuntimeType) : RuntimeType := mk (Kind r) (DisplayName r) (Provider r) (Command r) v (Installed r) (Healthy r) (Canonical r) (ResolvedPath r) (Availability r) (AvailabilityReason r) (Smoke r) (Contract r) (Capabilities r) (Templates r).
Definition set_Installed (v : bool) (r : RuntimeType) : RuntimeType := mk (Kind r) (DisplayName r) (Provider r) (Command r) (Aliases r) v (Healthy r) (Canonical r) (ResolvedPath r) (Availability r) (AvailabilityReason r) (Smoke r) (Contract r) (Capabilities r) (Templates r).
Definition set_Healthy (v : bool) (r : RuntimeType) : RuntimeType := mk (Kind r) (DisplayName r) (Provider r) (Command r) (Aliases r) (Installed r) v (Canonical r) (ResolvedPath r) (Availability r) (AvailabilityReason r) (Smoke r) (Contract r) (Capabilities r) (Templates r).
Definition set_Canonical (v : bool) (r : RuntimeType) : RuntimeType := mk (Kind r) (DisplayName r) (Provider r) (Command r) (Aliases r) (Installed r) (Healthy r) v (ResolvedPath r) (Availability r) (AvailabilityReason r) (Smoke r) (Contract r) (Capabilities r) (Templates r).
Definition set_ResolvedPath (v : string) (r : RuntimeType) : RuntimeType := mk (Kind r) (DisplayName r) (Provider r) (Command r) (Aliases r) (Installed r) (Healthy r) (Canonical r) v (Availability r) (AvailabilityReason r) (Smoke r) (Contract r) (Capabilities r) (Templates r).
Definition set_Availability (v : string) (r : RuntimeType) : RuntimeType := mk (Kind r) (DisplayName r) (Provider r) (Command r) (Aliases r) (Installed r) (Healthy r) (Canonical r) (ResolvedPath r) v (AvailabilityReason r) (Smoke r) (Contract r) (Capabilities r) (Templates r).
Definition set_AvailabilityReason (v : string) (r : RuntimeType) : RuntimeType := mk (Kind r) (DisplayName r) (Provider r) (Command r) (Aliases r) (Installed r) (Healthy r) (Canonical r) (ResolvedPath r) (Availability r) v (Smoke r) (Contract r) (Capabilities r) (Templates r).
Definition set_Smoke (v : RuntimeSmokeResult.RuntimeSmokeResult) (r : RuntimeType) : RuntimeType := mk (Kind r) (DisplayName r) (Provider r) (Command r) (Aliases r) (Installed r) (Healthy r) (Canonical r) (ResolvedPath r) (Availability r) (AvailabilityReason r) v (Contract r) (Capabilities r) (Templates r).
Definition set_Contract (v : RuntimeContractInfo.RuntimeContractInfo) (r : RuntimeType) : RuntimeType := mk (Kind r) (DisplayName r) (Provider r) (Command r) (Aliases r) (Installed r) (Healthy r) (Canonical r) (ResolvedPath r) (Availability r) (AvailabilityReason r) (Smoke r) v (Capabilities r) (Templates r).
Definition set_Capabilities (v : option (list string)) (r : RuntimeType) : RuntimeType := mk (Kind r) (DisplayName r) (Provider r) (Command r) (Aliases r) (Installed r) (Healthy r) (Canonical r) (ResolvedPath r) (Availability r) (AvailabilityReason r) (Smoke r) (Contract r) v (Templates r).
Definition set_Templates (v : option (list string)) (r : RuntimeType) : RuntimeType := mk (Kind r) (DisplayName r) (Provider r) (Command r) (Aliases r) (Installed r) (Healthy r) (Canonical r) (ResolvedPath r) (Availability r) (AvailabilityReason r) (Smoke r) (Contract r) (Capabilities r) v.
End RuntimeType.
Abbreviation RuntimeType := RuntimeType.RuntimeType.

Module AdapterConfig.
Record AdapterConfig := mk {
  SchemaVersion : string;
  RuntimeType : RuntimeType.RuntimeType;
  Template : InstanceTemplate.InstanceTemplate
}.
Definition zero : AdapterConfig := mk "" RuntimeType.zero InstanceTemplate.zero.
Definition set_SchemaVersion (v : string) (r : AdapterConfig) : AdapterConfig := mk v (RuntimeType r) (Template r).
Definition set_RuntimeType (v : RuntimeType.RuntimeType) (r : AdapterConfig) : AdapterConfig := mk (SchemaVersion r) v (Template r).
Definition set_Template (v : InstanceTemplate.InstanceTemplate) (r : AdapterConfig) : AdapterConfig := mk (SchemaVersion r) (RuntimeType r) v.
End AdapterConfig.
Abbreviation AdapterConfig := AdapterConfig.AdapterConfig.

Module WrapCommand.
Record WrapCommand := mk {
  Command : string;
  Args : option (list string);
  Env : list string;
  Dir : string;
  Stdin : string;
  Kind : string
}.
Definition zero : WrapCommand := mk "" None [] "" "" "".
Definition set_Command (v : string) (r : WrapCommand) : WrapCommand := mk v (Args r) (Env r) (Dir r) (Stdin r) (Kind r).
Definition set_Args (v : option (list string)) (r : WrapCommand) : WrapCommand := mk (Command r) v (Env r) (Dir r) (Stdin r) (Kind r).
Definition set_Env (v : list string) (r : WrapCommand) : WrapCommand := mk (Command r) (Args r) v (Dir r) (Stdin r) (Kind r).
Definition set_Dir (v : string) (r : WrapCommand) : WrapCommand := mk (Command r) (Args r) (Env r) v (Stdin r) (Kind r).
Definition set_Stdin (v : string) (r : WrapCommand) : WrapCommand := mk (Command r) (Args r) (Env r) (Dir r) v (Kind r).
Definition set_Kind (v : string) (r : WrapCommand) : WrapCommand := mk (Command r) (Args r) (Env r) (Dir r) (Stdin r) v.
End WrapCommand.
Abbreviation WrapCommand := WrapCommand.WrapCommand.


Module Contract := RuntimeContractInfo.
Module Pr := RuntimePreset.
Module Cap := daemonv1.Capability.
Module Rt := daemonv1.Runtime.
Module Prof := daemonv1.RuntimeProfile.
Module Agent := daemonv1.AgentProfile.
Module Inv := daemonv1.ComputerInventory.

(** What [baseArgs] returns: arguments, directory, standard input, environment. *)
Definition launch : Type := list string * string * string * list string.
Record runtimeContract := mkContract {
  info : RuntimeContractInfo;
  baseArgs : option (gmap string string → string + launch)
}.

Definition SchemaVersion : string := "nekode.runtime-adapter.v1".

(** [values[name]]. *)
Definition value_of (values : gmap string string) (name : string) : string := from_opt "" (values !! name).
Definition items {A} (l : option (list A)) : list A := from_opt [] l.

(** The first value that is not blank, as it is. *)
Fixpoint firstNonEmpty (values : list string) : string :=
  match values with
  | [] => ""
  | v :: values => if TrimSpace v =s "" then firstNonEmpty values else v
  end.

(** ** The command line of each kind *)

(** [if value != "" { args = append(args, flag, value) }]. *)
Definition flag (name value : string) : list string := if value =s "" then [] else [name; value].

Definition buildCodexArgs (values : gmap string string) : string + launch :=
  let workdir := value_of values "workdir" in
  inr (["exec"; "--json"; "--skip-git-repo-check"] ++ flag "--model" (value_of values "model")
         ++ flag "--cd" workdir ++ ["-"],
       workdir, value_of values "system_message", []).

Definition buildClaudeArgs (values : gmap string string) : string + launch :=
  let model := value_of values "model" in
  inr (["--print"; "--output-format"; "stream-json"; "--verbose"; "--permission-mode"; "bypassPermissions"]
         ++ (if model =s "default" then [] else flag "--model" model)
         ++ flag "--effort" (value_of values "reasoning_effort")
         ++ flag "--resume" (value_of values "session_id")
         ++ flag "--append-system-prompt" (value_of values "system_message"),
       value_of values "workdir", "", []).

Definition buildOpenCodeArgs (values : gmap string string) : string + launch :=
  let workdir := value_of values "workdir" in
  inr (["run"; "--format"; "json"; "--dangerously-skip-permissions"]
         ++ flag "--model" (value_of values "model")
         ++ flag "--variant" (value_of values "reasoning_effort")
         ++ flag "--dir" workdir
         ++ flag "--session" (value_of values "session_id")
         ++ flag "--prompt" (value_of values "system_message"),
       workdir, "", ["OPENCODE_PERMISSION={" +:+ q "*" +:+ ":" +:+ q "allow" +:+ "}"]).

Definition buildGeminiArgs (values : gmap string string) : string + launch :=
  inr (["--yolo"; "-o"; "stream-json"] ++ flag "-m" (value_of values "model")
         ++ flag "-r" (value_of values "session_id"),
       value_of values "workdir", value_of values "system_message", []).

Definition unsupportedRuntimeArgs (values : gmap string string) : string + launch :=
  inl "runtime direct-run contract is not verified".


Section adapter.
Context {Uni : Unicode}.

(** ** Contracts *)

Definition runtimeContractForKind (kind : string) : runtimeContract :=
  let kind := ToLower (TrimSpace kind) in
  let common := Contract.zero
      |> Contract.set_Kind kind
      |> Contract.set_Surface "non-canonical-reference"
      |> Contract.set_DirectRunSupported true
      |> Contract.set_VersionArgs ["--version"]
      |> Contract.set_TimeoutPolicy "daemon run timeout"
      |> Contract.set_ExitCodePolicy "non-zero exit code fails the run with stdout/stderr tail"
      |> Contract.set_OutputPolicy "combined stdout/stderr captured and truncated before reporting"
      |> Contract.set_SecretRedaction "prompt/system-prompt values and stdin are redacted from command summaries" in
  if (kind =s "codex") then mkContract (common
      |> Contract.set_Canonical true
      |> Contract.set_Surface "proto-canonical"
      |> Contract.set_Command "codex"
      |> Contract.set_VersionArgs ["exec"; "--help"]
      |> Contract.set_PromptInjection "stdin via `codex exec -`"
      |> Contract.set_SystemPromptInjection "prepended to stdin because Codex exec has no system prompt flag"
      |> Contract.set_WorkspaceMapping "`--cd <workdir>` plus process cwd"
      |> Contract.set_ModelMapping "`--model <model>`"
      |> Contract.set_ReasoningMapping "unsupported by CLI contract; ignored"
      |> Contract.set_SessionMapping "ephemeral exec; resume unsupported") (Some buildCodexArgs)
  else if (kind =s "claude") then mkContract (common
      |> Contract.set_Canonical true
      |> Contract.set_Surface "proto-canonical"
      |> Contract.set_Command "claude"
      |> Contract.set_VersionArgs ["--help"]
      |> Contract.set_PromptInjection "positional prompt with `--print`"
      |> Contract.set_SystemPromptInjection "`--append-system-prompt <prompt>`"
      |> Contract.set_WorkspaceMapping "process cwd"
      |> Contract.set_ModelMapping "`--model <model>`"
      |> Contract.set_ReasoningMapping "`--effort <effort>`"
      |> Contract.set_SessionMapping "`--resume <session_id>`") (Some buildClaudeArgs)
  else if (kind =s "opencode") then mkContract (common
      |> Contract.set_Canonical true
      |> Contract.set_Surface "proto-canonical"
      |> Contract.set_Command "opencode"
      |> Contract.set_VersionArgs ["run"; "--help"]
      |> Contract.set_PromptInjection "positional message with `opencode run --format json`"
      |> Contract.set_SystemPromptInjection "`--prompt <prompt>`"
      |> Contract.set_WorkspaceMapping "`--dir <workdir>` plus process cwd"
      |> Contract.set_ModelMapping "`--model <model>`"
      |> Contract.set_ReasoningMapping "`--variant <effort>`"
      |> Contract.set_SessionMapping "`--session <session_id>`") (Some buildOpenCodeArgs)
  else if (kind =s "gemini") then mkContract (common
      |> Contract.set_Canonical true
      |> Contract.set_Surface "proto-canonical"
      |> Contract.set_Command "gemini"
      |> Contract.set_VersionArgs ["--help"]
      |> Contract.set_PromptInjection "stdin one-shot invocation; avoids Windows argv limits for long wake prompts"
      |> Contract.set_SystemPromptInjection "prepended to stdin because Gemini CLI stream-json path has no separate system prompt flag"
      |> Contract.set_WorkspaceMapping "process cwd"
      |> Contract.set_ModelMapping "`-m <model>`"
      |> Contract.set_ReasoningMapping "unsupported by CLI contract; ignored"
      |> Contract.set_SessionMapping "`-r <session_id>`") (Some buildGeminiArgs)
  else if (kind =s "kimi") then mkContract (common
      |> Contract.set_Canonical true
      |> Contract.set_Surface "proto-canonical"
      |> Contract.set_Command "kimi"
      |> Contract.set_DirectRunSupported false
      |> Contract.set_VersionArgs ["--help"]
      |> Contract.set_PromptInjection "canonical but unavailable: Kimi uses ACP (`kimi acp`), which needs a protocol adapter rather than the simple process runner"
      |> Contract.set_SystemPromptInjection "requires ACP session prompt support"
      |> Contract.set_WorkspaceMapping "requires ACP session/new cwd"
      |> Contract.set_ModelMapping "requires ACP session/set_model"
      |> Contract.set_ReasoningMapping "not verified"
      |> Contract.set_SessionMapping "requires ACP session/resume") (Some unsupportedRuntimeArgs)
  else if (kind =s "cursor-agent") || (kind =s "copilot") || (kind =s "openclaw") || (kind =s "hermes") || (kind =s "pi") || (kind =s "kiro-cli") then mkContract (common
      |> Contract.set_Command kind
      |> Contract.set_DirectRunSupported false
      |> Contract.set_PromptInjection "non-canonical reference runtime; unavailable until proto/API docs promote it or a separate experimental path is added"
      |> Contract.set_SystemPromptInjection "not verified"
      |> Contract.set_WorkspaceMapping "not verified"
      |> Contract.set_ModelMapping "not verified"
      |> Contract.set_ReasoningMapping "not verified"
      |> Contract.set_SessionMapping "not verified") (Some unsupportedRuntimeArgs)
  else if (kind =s "custom") then mkContract (common
      |> Contract.set_Canonical true
      |> Contract.set_Surface "proto-canonical"
      |> Contract.set_Command ""
      |> Contract.set_DirectRunSupported false
      |> Contract.set_PromptInjection "custom runtime requires an explicit user command before it can be smoke-tested"
      |> Contract.set_SystemPromptInjection "custom"
      |> Contract.set_WorkspaceMapping "custom"
      |> Contract.set_ModelMapping "custom"
      |> Contract.set_ReasoningMapping "custom"
      |> Contract.set_SessionMapping "custom") (Some unsupportedRuntimeArgs)
  else mkContract RuntimeContractInfo.zero None.

Definition ContractForKind (kind : string) : RuntimeContractInfo := info (runtimeContractForKind kind).

Definition defaultArgs (c : runtimeContract) : list string :=
  match baseArgs c with
  | None => []
  | Some build =>
      if negb (Contract.DirectRunSupported (info c)) then []
      else match build ∅ with inr (args, _, _, _) => args | inl _ => [] end
  end.

(** ** Templates *)

Definition defaultModel (kind : string) : string :=
  let kind := TrimSpace kind in
  if kind =s "codex" then "gpt-5.5" else if (kind =s "claude") || (kind =s "gemini") then "default" else "".

Definition alphanumeric (rune : string) : option ascii :=
  match rune with
  | String c EmptyString => if between 97 122 c || between 48 57 c then Some c else None
  | _ => None
  end.

(** The loop over the runes; [some] tells whether the builder holds anything. *)
Fixpoint sanitize_go (some : bool) (rs : list string) : string :=
  match rs with
  | [] => ""
  | rune :: rs =>
      match alphanumeric rune with
      | Some c => String c (sanitize_go true rs)
      | None => if some then String "-" (sanitize_go true rs) else sanitize_go false rs
      end
  end.

(** [strings.Trim(s, "-")]. *)
Definition trim_dashes (s : string) : string := TrimRightByte "-" (trim_left_byte "-" s).

Definition sanitizeID (value : string) : string :=
  let out := trim_dashes (sanitize_go false (runes (ToLower (TrimSpace value)))) in
  if out =s "" then "unknown" else out.

Definition DefaultTemplateID (kind : string) : string := "template-" +:+ sanitizeID kind +:+ "-default".

Definition OptionString : string := "string".
Definition OptionFreeText : string := "free_text".
Definition OptionNumber : string := "number".
Definition OptionBoolean : string := "boolean".
Definition OptionPath : string := "path".
Definition OptionEnum : string := "enum".

(** A slice that [append([]string(nil), l...)] copies. *)
Definition copied {A} (l : list A) : option (list A) := match l with [] => None | _ => Some l end.

Definition default_options (kind displayName : string) : list OptionSchema :=
  let option name label type :=
    OptionSchema.zero |> OptionSchema.set_Name name |> OptionSchema.set_Label label |> OptionSchema.set_Type_ type in
  [option "display_name" "Display name" OptionString |> OptionSchema.set_Required true
     |> OptionSchema.set_Default (displayName +:+ " Agent")
     |> OptionSchema.set_Description "Human-readable agent name shown in Web and chat.";
   option "model" "Model" OptionString |> OptionSchema.set_Default (defaultModel kind)
     |> OptionSchema.set_Description "Runtime model identifier; keep as an open string.";
   option "reasoning_effort" "Reasoning effort" OptionEnum |> OptionSchema.set_Default "medium"
     |> OptionSchema.set_Enum ["low"; "medium"; "high"; "xhigh"]
     |> OptionSchema.set_Description "Provider-specific reasoning effort hint.";
   option "workdir" "Working directory" OptionPath
     |> OptionSchema.set_Description "Workspace directory for the agent process.";
   option "session_id" "Session id" OptionString
     |> OptionSchema.set_Description "Optional provider-specific session/resume identifier.";
   option "max_turns" "Max turns" OptionNumber |> OptionSchema.set_Default "0"
     |> OptionSchema.set_Description "Optional turn budget; zero means runtime default.";
   option "allow_file_write" "Allow file writes" OptionBoolean |> OptionSchema.set_Default "true"
     |> OptionSchema.set_Description "Whether the instance may edit files when the runtime supports it.";
   option "api_token" "Runtime API token" OptionString |> OptionSchema.set_Sensitive true
     |> OptionSchema.set_Description "Optional runtime credential stored as a sensitive value.";
   option "system_message" "System message" OptionFreeText
     |> OptionSchema.set_Description "Optional long-form startup instructions."].

Definition DefaultInstanceTemplate (rt : RuntimeType) : InstanceTemplate :=
  let kind := RuntimeType.Kind rt in
  let command := if RuntimeType.Command rt =s "" then kind else RuntimeType.Command rt in
  let contract := ContractForKind kind in
  InstanceTemplate.zero
  |> InstanceTemplate.set_TemplateID (DefaultTemplateID kind)
  |> InstanceTemplate.set_RuntimeKind kind
  |> InstanceTemplate.set_DisplayName (RuntimeType.DisplayName rt +:+ " agent")
  |> InstanceTemplate.set_Description ("Create a new agent instance backed by the " +:+ RuntimeType.DisplayName rt +:+ " runtime.")
  |> InstanceTemplate.set_Capabilities (copied (items (RuntimeType.Capabilities rt)))
  |> InstanceTemplate.set_MultiInstance true
  |> InstanceTemplate.set_InventoryRole "agent_instance_template"
  |> InstanceTemplate.set_Wrap (WrapSpec.zero |> WrapSpec.set_Command command
       |> WrapSpec.set_Args (if Contract.DirectRunSupported contract then defaultArgs (runtimeContractForKind kind) else []))
  |> InstanceTemplate.set_AgentIDPattern (kind +:+ "-{slug}")
  |> InstanceTemplate.set_Options (Some (default_options kind (RuntimeType.DisplayName rt))).

(** ** The command of an instance *)

(** [strconv.ParseBool]. *)
Definition boolean_text (s : string) : bool :=
  bool_decide (s ∈ ["1"; "t"; "T"; "true"; "TRUE"; "True"; "0"; "f"; "F"; "false"; "FALSE"; "False"]).

(** [None] is success. *)
Definition validateOption (opt : OptionSchema) (value : string) : option string :=
  let name := OptionSchema.Name opt in
  let type := OptionSchema.Type_ opt in
  if value =s "" then None
  else if type =s OptionEnum then
    if bool_decide (value ∈ OptionSchema.Enum opt) then None
    else Some (name +:+ " must be one of " +:+ GoStr.Join (OptionSchema.Enum opt) ", ")
  else if type =s OptionNumber then
    if ParseFloat value then None else Some (name +:+ " must be numeric")
  else if type =s OptionBoolean then
    if boolean_text value then None else Some (name +:+ " must be boolean")
  else if (type =s OptionPath) || (type =s OptionString) || (type =s OptionFreeText) || (type =s "") then None
  else Some (name +:+ " has unsupported option type " +:+ quote type).

Definition valueOrDefault (template : InstanceTemplate) (values : gmap string string) (name : string) : string :=
  let value := value_of values name in
  if negb (value =s "") then value
  else match List.find (λ o, OptionSchema.Name o =s name) (items (InstanceTemplate.Options template)) with
       | Some o => OptionSchema.Default o
       | None => ""
       end.

(** Keys and values trimmed, in the order the map is visited. *)
Definition clean_values `{!MapOrder} (values : gmap string string) : gmap string string :=
  fold_left (λ clean p, <[TrimSpace p.1 := TrimSpace p.2]> clean) (visit (map_to_list values)) ∅.

(** The loop over the options: defaults filled in, each checked. *)
Fixpoint check_options (options : list OptionSchema) (clean : gmap string string) : string + gmap string string :=
  match options with
  | [] => inr clean
  | opt :: options =>
      let name := OptionSchema.Name opt in
      let value := value_of clean name in
      let value := if value =s "" then OptionSchema.Default opt else value in
      let clean := if value =s "" then clean else <[name := value]> clean in
      if OptionSchema.Required opt && (value =s "") then inl (name +:+ " is required")
      else match validateOption opt value with
           | Some err => inl err
           | None => check_options options clean
           end
  end.

Definition BuildWrapCommand `{!MapOrder} (template : InstanceTemplate) (values : gmap string string) : string + WrapCommand :=
  let wrap := InstanceTemplate.Wrap template in
  let kind := InstanceTemplate.RuntimeKind template in
  let command := TrimSpace (WrapSpec.Command wrap) in
  if command =s "" then inl "wrap command is required"
  else match check_options (items (InstanceTemplate.Options template)) (clean_values values) with
  | inl err => inl err
  | inr clean =>
      let contract := runtimeContractForKind kind in
      if negb (Contract.Kind (info contract) =s "") then
        if negb (Contract.DirectRunSupported (info contract)) then
          inl (kind +:+ " runtime is not available for direct execution: " +:+ Contract.PromptInjection (info contract))
        else match baseArgs contract with
        | None => inl "" (* no contract with a kind lacks [baseArgs] *)
        | Some build =>
            match build clean with
            | inl err => inl err
            | inr (args, dir, stdin, env) =>
                inr (WrapCommand.zero
                  |> WrapCommand.set_Command command |> WrapCommand.set_Args (Some args)
                  |> WrapCommand.set_Env (WrapSpec.Env wrap ++ env)
                  |> WrapCommand.set_Dir dir |> WrapCommand.set_Stdin stdin |> WrapCommand.set_Kind kind)
            end
        end
      else
        inr (WrapCommand.zero
          |> WrapCommand.set_Command command |> WrapCommand.set_Args (copied (WrapSpec.Args wrap))
          |> WrapCommand.set_Env (WrapSpec.Env wrap)
          |> WrapCommand.set_Dir (valueOrDefault template clean "workdir") |> WrapCommand.set_Kind kind)
  end.

(** A blank line, a rule and a blank line. *)
Definition prompt_rule : string :=
  let newline := String (byte 10) "" in newline +:+ newline +:+ "---" +:+ newline +:+ newline.

Definition combinePrompt (systemPrompt prompt : string) : string :=
  let systemPrompt := TrimSpace systemPrompt in
  let prompt := TrimSpace prompt in
  if systemPrompt =s "" then prompt
  else if prompt =s "" then systemPrompt
  else systemPrompt +:+ prompt_rule +:+ prompt.

Definition WithRunPrompt (wrap : WrapCommand) (prompt : string) : WrapCommand :=
  let prompt := TrimSpace prompt in
  let kind := ToLower (TrimSpace (WrapCommand.Kind wrap)) in
  if prompt =s "" then wrap
  else if (kind =s "codex") || (kind =s "gemini")
  then wrap |> WrapCommand.set_Stdin (combinePrompt (WrapCommand.Stdin wrap) prompt)
  else wrap |> WrapCommand.set_Args (Some (items (WrapCommand.Args wrap) ++ [prompt])).

(** ** Finding and checking a runtime *)

Definition truncateRuntimeDetail (value : string) : string :=
  if (Z.of_nat (String.length value) <=? 2048)%Z then value
  else stake 2048 value +:+ String (byte 10) "...truncated...".

Definition contains_one (s : string) (subs : list string) : bool := existsb (Contains s) subs.

Definition classifySmokeFailure (detail : string) : string :=
  let lower := ToLower detail in
  if contains_one lower ["not found"; "no such file"] then "missing_executable"
  else if contains_one lower ["unknown option"; "unknown flag"; "invalid option"] then "argv_contract"
  else if contains_one lower ["auth"; "login"; "permission denied"; "unauthorized"] then "provider_auth"
  else "runtime_exit".

(** How a command ended: what it printed, whether the deadline passed, its error. *)
Record finished := mkFinished { output : string; timed_out : bool; failure : option string }.

(** [exec] runs a command with arguments for at most so many nanoseconds. *)
Definition defaultSmokeRuntime (exec : string → list string → Z → finished) (check : RuntimeSmokeCheck) : RuntimeSmokeResult :=
  let command := firstNonEmpty [RuntimeSmokeCheck.Resolved check; RuntimeSmokeCheck.Command check] in
  let result ok status category detail := RuntimeSmokeResult.mk ok status category detail in
  if TrimSpace command =s "" then result false "not_run" "missing_executable" "runtime command is empty"
  else
    let args := match RuntimeSmokeCheck.VersionArgs check with [] => ["--version"] | args => args end in
    let timeout := if (RuntimeSmokeCheck.Timeout check <=? 0)%Z then (3 * 10 ^ 9)%Z else RuntimeSmokeCheck.Timeout check in
    let done := exec command args timeout in
    let detail := TrimSpace (output done) in
    if timed_out done then result false "failed" "timeout" "version smoke timed out"
    else match failure done with
    | Some err =>
        let detail := if detail =s "" then err else err +:+ ": " +:+ detail in
        result false "failed" (classifySmokeFailure detail) (truncateRuntimeDetail detail)
    | None => result true "passed" "version" (truncateRuntimeDetail detail)
    end.

Record InventoryConfig := mkInventory {
  ComputerID : string;
  DaemonVersion : string;
  PreferredRuntimeKind : string;
  AgentID : string;
  LookupPath : string → option string;
  Env : string → string;
  SmokeRuntime : RuntimeSmokeCheck → RuntimeSmokeResult
}.

Fixpoint env_override (cfg : InventoryConfig) (envNames : list string) : option string :=
  match envNames with
  | [] => None
  | name :: envNames =>
      let value := TrimSpace (Env cfg name) in
      if negb (value =s "") then Some value else env_override cfg envNames
  end.

(** The path and whether the runtime is installed. *)
Definition resolveCommand (command : string) (envNames : list string) (cfg : InventoryConfig) : string * bool :=
  match env_override cfg envNames with
  | Some value => (value, true)
  | None =>
      if TrimSpace command =s "" then ("", false)
      else match LookupPath cfg command with Some path => (path, true) | None => ("", false) end
  end.

Definition availabilityAvailable : string := "available".
Definition availabilityUnavailable : string := "unavailable".
Definition availabilityUnsupported : string := "unsupported".
Definition availabilityReference : string := "reference_only".


Definition capabilityNames (capabilities : list Cap.Capability) : list string :=
  sort_with String.leb (Cap.Name <$> bfilter (λ c, Cap.Enabled c && negb (Cap.Name c =s "")) capabilities).

(** Availability, its reason, the check and whether the runtime is healthy. *)
Definition assess (cfg : InventoryConfig) (kind command resolved : string) (installed : bool)
    : string * string * RuntimeSmokeResult * bool :=
  let contract := ContractForKind kind in
  let not_run category reason := RuntimeSmokeResult.mk false "not_run" category reason in
  if TrimSpace command =s "" then
    let reason := "custom runtime requires an explicit command" in
    (availabilityUnavailable, reason, not_run "custom_command_required" reason, false)
  else if installed && negb (Contract.Canonical contract) then
    let reason := "runtime kind is non-canonical reference-only; proto canonical runtime kinds are codex, claude, opencode, kimi, gemini, and custom" in
    (availabilityReference, reason, not_run "non_canonical" reason, false)
  else if installed && negb (Contract.DirectRunSupported contract) then
    let reason := "direct-run contract is not verified for this runtime kind" in
    (availabilityUnsupported, reason, not_run "unsupported_contract" reason, false)
  else if installed then
    let smoke := SmokeRuntime cfg (RuntimeSmokeCheck.mk kind command resolved (Contract.VersionArgs contract) (5 * 10 ^ 9)%Z) in
    if RuntimeSmokeResult.OK smoke then (availabilityAvailable, "", smoke, true)
    else (availabilityUnavailable, firstNonEmpty [RuntimeSmokeResult.Detail smoke; "executable smoke failed"], smoke, false)
  else
    let reason := "executable not found" in
    (availabilityUnavailable, reason, not_run "missing_executable" reason, false).

Definition runtimeTypeFromPreset (preset : Pr.RuntimePreset) (cfg : InventoryConfig) : RuntimeType :=
  let command := Pr.Command preset in
  let '(resolved, installed) := resolveCommand command (Pr.EnvVarNames preset) cfg in
  let kind := Pr.Kind preset in
  let '(availability, reason, smoke, healthy) := assess cfg kind command resolved installed in
  RuntimeType.zero
  |> RuntimeType.set_Kind kind
  |> RuntimeType.set_DisplayName (if Pr.DisplayName preset =s "" then kind else Pr.DisplayName preset)
  |> RuntimeType.set_Provider (Pr.Provider preset)
  |> RuntimeType.set_Command command
  |> RuntimeType.set_Aliases (Pr.Aliases preset)
  |> RuntimeType.set_Installed installed
  |> RuntimeType.set_Healthy healthy
  |> RuntimeType.set_Canonical (Contract.Canonical (ContractForKind kind))
  |> RuntimeType.set_ResolvedPath resolved
  |> RuntimeType.set_Availability availability
  |> RuntimeType.set_AvailabilityReason reason
  |> RuntimeType.set_Smoke smoke
  |> RuntimeType.set_Contract (ContractForKind kind)
  |> RuntimeType.set_Capabilities (Some (capabilityNames (Pr.Capabilities preset)))
  |> RuntimeType.set_Templates (Some [DefaultTemplateID kind]).

(** ** What the daemon reports *)


Definition runtimeToProto (computerID : string) (rt : RuntimeType) (preset : Pr.RuntimePreset) : Rt.Runtime :=
  let kind := RuntimeType.Kind rt in
  Rt.zero
  |> Rt.set_RuntimeId ("runtime-" +:+ sanitizeID computerID +:+ "-" +:+ sanitizeID kind)
  |> Rt.set_ComputerId computerID |> Rt.set_Kind kind
  |> Rt.set_DisplayName (RuntimeType.DisplayName rt) |> Rt.set_Aliases (RuntimeType.Aliases rt)
  |> Rt.set_Tool kind
  |> Rt.set_Command (firstNonEmpty [RuntimeType.ResolvedPath rt; RuntimeType.Command rt])
  |> Rt.set_Installed (RuntimeType.Installed rt) |> Rt.set_Healthy (RuntimeType.Healthy rt)
  |> Rt.set_InstallHint (Pr.InstallHint preset)
  |> Rt.set_ConfigDir (path_Join [".nekode"; "agents"; kind])
  |> Rt.set_Capabilities (Pr.Capabilities preset).

(** The JSON of the structs, by their tags. *)
Definition strings_wire (l : list string) : wire := WList (map WStr l).
Definition slice_wire {A} (f : A → wire) (l : option (list A)) : wire :=
  match l with None => WJson JNull | Some l => WList (map f l) end.
Definition bool_field (name : string) (b : bool) : list (string * wire) := if b then [(name, WBool true)] else [].

Definition option_wire (o : OptionSchema) : wire := WStruct
  ([("name", WStr (OptionSchema.Name o)); ("label", WStr (OptionSchema.Label o));
    ("type", WStr (OptionSchema.Type_ o)); ("required", WBool (OptionSchema.Required o))]
   ++ str_field "default" (OptionSchema.Default o) ++ bool_field "sensitive" (OptionSchema.Sensitive o)
   ++ list_field "enum" (OptionSchema.Enum o) ++ str_field "description" (OptionSchema.Description o)).

Definition wrapspec_wire (w : WrapSpec) : wire := WStruct
  ([("command", WStr (WrapSpec.Command w))] ++ list_field "args" (WrapSpec.Args w) ++ list_field "env" (WrapSpec.Env w)).

Definition template_wire (t : InstanceTemplate) : wire := WStruct
  [("templateId", WStr (InstanceTemplate.TemplateID t)); ("runtimeKind", WStr (InstanceTemplate.RuntimeKind t));
   ("displayName", WStr (InstanceTemplate.DisplayName t)); ("description", WStr (InstanceTemplate.Description t));
   ("capabilities", slice_wire WStr (InstanceTemplate.Capabilities t));
   ("options", slice_wire option_wire (InstanceTemplate.Options t));
   ("wrap", wrapspec_wire (InstanceTemplate.Wrap t)); ("multiInstance", WBool (InstanceTemplate.MultiInstance t));
   ("inventoryRole", WStr (InstanceTemplate.InventoryRole t)); ("agentIdPattern", WStr (InstanceTemplate.AgentIDPattern t))].

Definition smoke_wire (s : RuntimeSmokeResult) : wire := WStruct
  ([("ok", WBool (RuntimeSmokeResult.OK s)); ("status", WStr (RuntimeSmokeResult.Status s))]
   ++ str_field "category" (RuntimeSmokeResult.Category s) ++ str_field "detail" (RuntimeSmokeResult.Detail s)).

Definition contract_wire (c : RuntimeContractInfo) : wire := WStruct
  ([("kind", WStr (Contract.Kind c)); ("command", WStr (Contract.Command c)); ("canonical", WBool (Contract.Canonical c));
    ("surface", WStr (Contract.Surface c)); ("directRunSupported", WBool (Contract.DirectRunSupported c))]
   ++ list_field "versionArgs" (Contract.VersionArgs c)
   ++ [("promptInjection", WStr (Contract.PromptInjection c));
       ("systemPromptInjection", WStr (Contract.SystemPromptInjection c));
       ("workspaceMapping", WStr (Contract.WorkspaceMapping c)); ("modelMapping", WStr (Contract.ModelMapping c));
       ("reasoningMapping", WStr (Contract.ReasoningMapping c)); ("sessionMapping", WStr (Contract.SessionMapping c));
       ("timeoutPolicy", WStr (Contract.TimeoutPolicy c)); ("exitCodePolicy", WStr (Contract.ExitCodePolicy c));
       ("outputPolicy", WStr (Contract.OutputPolicy c)); ("secretRedaction", WStr (Contract.SecretRedaction c))]).

Definition runtime_type_wire (r : RuntimeType) : wire := WStruct
  ([("kind", WStr (RuntimeType.Kind r)); ("displayName", WStr (RuntimeType.DisplayName r));
    ("provider", WStr (RuntimeType.Provider r)); ("command", WStr (RuntimeType.Command r))]
   ++ list_field "aliases" (RuntimeType.Aliases r)
   ++ [("installed", WBool (RuntimeType.Installed r)); ("healthy", WBool (RuntimeType.Healthy r));
       ("canonical", WBool (RuntimeType.Canonical r))]
   ++ str_field "resolvedPath" (RuntimeType.ResolvedPath r)
   ++ [("availability", WStr (RuntimeType.Availability r))]
   ++ str_field "availabilityReason" (RuntimeType.AvailabilityReason r)
   ++ [("smoke", smoke_wire (RuntimeType.Smoke r)); ("contract", contract_wire (RuntimeType.Contract r));
       ("capabilities", slice_wire WStr (RuntimeType.Capabilities r));
       ("templates", slice_wire WStr (RuntimeType.Templates r))]).

Definition adapter_fields (a : AdapterConfig) : list (string * wire) :=
  [("schemaVersion", WStr (AdapterConfig.SchemaVersion a)); ("runtimeType", runtime_type_wire (AdapterConfig.RuntimeType a));
   ("template", template_wire (AdapterConfig.Template a))].

Definition templateToProfile `{!Floats} (rt : RuntimeType) (template : InstanceTemplate) (preset : Pr.RuntimePreset) : Prof.RuntimeProfile :=
  Prof.zero
  |> Prof.set_RuntimeProfileId (InstanceTemplate.TemplateID template)
  |> Prof.set_Kind (RuntimeType.Kind rt) |> Prof.set_Provider (RuntimeType.Provider rt)
  |> Prof.set_Model (defaultModel (RuntimeType.Kind rt))
  |> Prof.set_AdapterConfigJson (wire_text (WStruct (adapter_fields (AdapterConfig.mk SchemaVersion rt template))))
  |> Prof.set_Capabilities (Pr.Capabilities preset).

Definition bootstrapAgentProfile (cfg : InventoryConfig) (rt : RuntimeType) (template : InstanceTemplate)
    (preset : Pr.RuntimePreset) : Agent.AgentProfile :=
  Agent.zero
  |> Agent.set_AgentId (AgentID cfg) |> Agent.set_Name (AgentID cfg) |> Agent.set_DisplayName (AgentID cfg)
  |> Agent.set_Enabled true |> Agent.set_Provider (RuntimeType.Provider rt)
  |> Agent.set_Model (defaultModel (RuntimeType.Kind rt)) |> Agent.set_ComputerId (ComputerID cfg)
  |> Agent.set_RuntimeProfileId (InstanceTemplate.TemplateID template)
  |> Agent.set_RuntimeKind (RuntimeType.Kind rt) |> Agent.set_DaemonVersion (DaemonVersion cfg)
  |> Agent.set_Status daemonv1.AgentPresence_AGENT_PRESENCE_ONLINE
  |> Agent.set_Capabilities (Pr.Capabilities preset).

(** One turn of the loop over the presets. *)
Definition add_preset `{!Floats} (cfg : InventoryConfig) (preferred : string) (inv : Inv.ComputerInventory)
    (preset : Pr.RuntimePreset) : Inv.ComputerInventory :=
  let rt := runtimeTypeFromPreset preset cfg in
  let template := DefaultInstanceTemplate rt in
  inv
  |> Inv.set_Runtimes (Inv.Runtimes inv ++ [runtimeToProto (ComputerID cfg) rt preset])
  |> Inv.set_RuntimeProfiles (Inv.RuntimeProfiles inv ++ [templateToProfile rt template preset])
  |> Inv.set_Agents (Inv.Agents inv
       ++ if (RuntimeType.Kind rt =s preferred) && negb (TrimSpace (AgentID cfg) =s "")
          then [bootstrapAgentProfile cfg rt template preset] else []).

Definition ComputerInventory `{!Floats} (cfg : InventoryConfig) : Inv.ComputerInventory :=
  let by_kind := sort_with (λ a b, String.leb (Pr.Kind a) (Pr.Kind b)) (RuntimeCatalog.List true "" 200) in
  let preferred := TrimSpace (PreferredRuntimeKind cfg) in
  let preferred := if preferred =s "" then "codex" else preferred in
  fold_left (add_preset cfg preferred) by_kind Inv.zero.

End adapter.

(** ** The options of an instance *)

Section options.
Context {Uni : Unicode} {Ord : MapOrder}.

Definition trimmed_keys (values : gmap string string) : Prop := ∀ k v, values !! k = Some v → TrimSpace k = k.

Lemma clean_fold (l : list (string * string)) (m : gmap string string) :
  NoDup l.*1 → (∀ p, p ∈ l → TrimSpace p.1 = p.1) →
  fold_left (λ clean p, <[TrimSpace p.1 := TrimSpace p.2]> clean) l m
  = (TrimSpace <$> (list_to_map l : gmap string string)) ∪ m.
Proof.
  revert m. induction l as [|[k v] l IH]; intros m N H; cbn [fold_left list_to_map].
  - by rewrite list_to_map_nil, fmap_empty, (left_id_L ∅ (∪)).
  - apply NoDup_cons in N as [Nk N]. rewrite IH by (try done; intros p Hp; by apply H, list_elem_of_further).
    rewrite list_to_map_cons, fmap_insert. pose proof (H (k, v) (list_elem_of_here _ _)) as Hk. cbn in *. rewrite Hk.
    apply map_eq. intros i. rewrite !lookup_union. destruct (decide (k = i)) as [<-|].
    + rewrite !lookup_insert_eq, lookup_fmap, not_elem_of_list_to_map_1 by done. by destruct (m !! k).
    + by rewrite !lookup_insert_ne.
Qed.

Lemma clean_values_trimmed values : trimmed_keys values → clean_values values = TrimSpace <$> values.
Proof.
  intros H. unfold clean_values. rewrite clean_fold.
  - rewrite (right_id_L ∅ (∪)). f_equal. transitivity (list_to_map (map_to_list values) : gmap string string);
      [|apply list_to_map_to_list]. apply list_to_map_proper; [|apply visit_perm].
    rewrite visit_perm. apply NoDup_fst_map_to_list.
  - rewrite visit_perm. apply NoDup_fst_map_to_list.
  - intros [k v] Hp. rewrite visit_perm in Hp. apply elem_of_map_to_list in Hp. by eapply H.
Qed.

(** What the loop makes of one option. *)
Definition chosen (o : OptionSchema) (clean : gmap string string) : string :=
  let value := value_of clean (OptionSchema.Name o) in if value =s "" then OptionSchema.Default o else value.

Definition passes (o : OptionSchema) (clean : gmap string string) : Prop :=
  OptionSchema.Required o && (chosen o clean =s "") = false ∧ validateOption o (chosen o clean) = None.

Definition filled (o : OptionSchema) (clean : gmap string string) : gmap string string :=
  if chosen o clean =s "" then clean else <[OptionSchema.Name o := chosen o clean]> clean.

Lemma value_of_filled o clean k :
  value_of (filled o clean) k = if decide (k = OptionSchema.Name o) then chosen o clean else value_of clean k.
Proof.
  unfold filled. destruct (decide (k = OptionSchema.Name o)) as [->|N].
  - destruct (String.eqb_spec (chosen o clean) "") as [E|E].
    + rewrite E. unfold chosen in E. destruct (String.eqb_spec (value_of clean (OptionSchema.Name o)) ""); [done|congruence].
    + unfold value_of at 1. by rewrite lookup_insert_eq.
  - destruct (String.eqb_spec (chosen o clean) ""); [done|]. unfold value_of. by rewrite lookup_insert_ne.
Qed.

Lemma check_step o os clean :
  check_options (o :: os) clean
  = if OptionSchema.Required o && (chosen o clean =s "") then inl (OptionSchema.Name o +:+ " is required")
    else match validateOption o (chosen o clean) with
         | Some err => inl err
         | None => check_options os (filled o clean)
         end.
Proof. done. Qed.

Lemma check_passing o os clean : passes o clean → check_options (o :: os) clean = check_options os (filled o clean).
Proof. intros [R V]. by rewrite check_step, R, V. Qed.

(** Options outside [used] that pass are free to differ. *)
Lemma check_options_agree (used : list string) os : ∀ c1 c2,
  NoDup (OptionSchema.Name <$> os) →
  (∀ o, o ∈ os → OptionSchema.Name o ∈ used ∨ passes o c1 ∧ passes o c2) →
  (∀ k, k ∈ used → value_of c1 k = value_of c2 k) →
  match check_options os c1, check_options os c2 with
  | inl e1, inl e2 => e1 = e2
  | inr d1, inr d2 => ∀ k, k ∈ used → value_of d1 k = value_of d2 k
  | _, _ => False
  end.
Proof.
  induction os as [|o os IH]; intros c1 c2 N H A; [done|]. cbn [fmap list_fmap] in N. apply NoDup_cons in N as [No N].
  assert (Rest : (∀ k, k ∈ used → value_of (filled o c1) k = value_of (filled o c2) k) →
    match check_options os (filled o c1), check_options os (filled o c2) with
    | inl e1, inl e2 => e1 = e2
    | inr d1, inr d2 => ∀ k, k ∈ used → value_of d1 k = value_of d2 k
    | _, _ => False
    end).
  { apply IH; [done|]. intros o' Ho'. destruct (H o') as [|[P1 P2]]; [by right|by left|right].
    assert (OptionSchema.Name o' ≠ OptionSchema.Name o).
    { intros E. apply No. rewrite <- E. by apply list_elem_of_fmap_2. }
    unfold passes, chosen in *. rewrite !value_of_filled, !decide_False by done. done. }
  destruct (decide (OptionSchema.Name o ∈ used)) as [U|U].
  - assert (E : chosen o c1 = chosen o c2) by (unfold chosen; by rewrite A).
    rewrite !check_step, <- E. destruct (_ && _); [done|]. destruct (validateOption o (chosen o c1)); [done|].
    apply Rest. intros k K. rewrite !value_of_filled. destruct (decide _); [done|by apply A].
  - destruct (H o) as [|[P1 P2]]; [by left|done|]. rewrite !check_passing by done.
    apply Rest. intros k K. rewrite !value_of_filled, !decide_False by congruence. by apply A.
Qed.

(** Where the options pass, each ends up with what was chosen for it. *)
Lemma check_options_chosen os : ∀ clean d,
  NoDup (OptionSchema.Name <$> os) → check_options os clean = inr d →
  (∀ k, k ∉ (OptionSchema.Name <$> os) → value_of d k = value_of clean k)
  ∧ ∀ o, o ∈ os → value_of d (OptionSchema.Name o) = chosen o clean.
Proof.
  induction os as [|o os IH]; intros clean d N H.
  - cbn in H. injection H as ->. split; [done|]. intros o Ho. by apply elem_of_nil in Ho.
  - cbn [fmap list_fmap] in N. apply NoDup_cons in N as [No N].
    rewrite check_step in H. destruct (_ && _); [done|]. destruct (validateOption _ _); [done|].
    destruct (IH _ _ N H) as [Other Mine]. split.
    + intros k Hk. cbn [fmap list_fmap] in Hk. rewrite not_elem_of_cons in Hk. destruct Hk as [Hk1 Hk2].
      by rewrite Other, value_of_filled, decide_False.
    + intros o' [->|Ho']%elem_of_cons.
      * by rewrite Other, value_of_filled, decide_True.
      * rewrite Mine by done. unfold chosen. rewrite value_of_filled, decide_False; [done|].
        intros E. apply No. rewrite <- E. by apply list_elem_of_fmap_2.
Qed.

End options.

(** ** What reaches the command line *)

Section command.
Context {Uni : Unicode} {Ord : MapOrder}.

(** The options that a command is made of, and those nothing reads. *)
Definition read_options : list string :=
  ["display_name"; "model"; "reasoning_effort"; "workdir"; "session_id"; "system_message"].
Definition unread_options : list string := ["max_turns"; "allow_file_write"; "api_token"].

Lemma contract_cases kind :
  let c := runtimeContractForKind kind in
  c = mkContract RuntimeContractInfo.zero None
  ∨ Contract.Kind (info c) = ToLower (TrimSpace kind)
    ∧ ∃ build, baseArgs c = Some build ∧
      (Contract.DirectRunSupported (info c) = false ∧ build = unsupportedRuntimeArgs
       ∨ Contract.DirectRunSupported (info c) = true ∧ Contract.Canonical (info c) = true
         ∧ (build = buildCodexArgs ∨ build = buildClaudeArgs ∨ build = buildOpenCodeArgs ∨ build = buildGeminiArgs)).
Proof.
  cbn zeta. unfold runtimeContractForKind.
  repeat match goal with |- context [if ?b then mkContract _ _ else _] => destruct b end;
    cbn; eauto 12.
Qed.

Lemma builds_agree kind c1 c2 build :
  baseArgs (runtimeContractForKind kind) = Some build →
  (∀ k, k ∈ read_options → value_of c1 k = value_of c2 k) → build c1 = build c2.
Proof.
  intros E A.
  destruct (contract_cases kind) as [N|(_ & b & Eb & [[_ ->]|(_ & _ & C)])]; [by rewrite N in E| |].
  - rewrite E in Eb. by injection Eb as ->.
  - rewrite E in Eb. injection Eb as ->. unfold read_options in A.
    destruct C as [->|[->|[->| ->]]];
      unfold buildCodexArgs, buildClaudeArgs, buildOpenCodeArgs, buildGeminiArgs;
      rewrite ?(A "model"), ?(A "reasoning_effort"), ?(A "workdir"), ?(A "session_id"), ?(A "system_message");
      done || set_solver.
Qed.

(** An option that nothing reads has an admissible value, or none. *)
Definition admissible (values : gmap string string) : Prop :=
  let number := TrimSpace (value_of values "max_turns") in
  let flag := TrimSpace (value_of values "allow_file_write") in
  (number = "" ∨ ParseFloat number = true) ∧ (flag = "" ∨ boolean_text flag = true).

Lemma value_of_clean values k : trimmed_keys values → value_of (clean_values values) k = TrimSpace (value_of values k).
Proof.
  intros H. rewrite clean_values_trimmed by done. unfold value_of. rewrite lookup_fmap. by destruct (values !! k).
Qed.

Lemma unread_passes o kind name values :
  trimmed_keys values → admissible values →
  o ∈ default_options kind name → OptionSchema.Name o ∈ read_options ∨ passes o (clean_values values).
Proof.
  intros K [Hn Hf]. unfold default_options. cbn zeta. rewrite !elem_of_cons.
  intros [->|[->|[->|[->|[->|[->|[->|[->|[->|H]]]]]]]]];
    try (left; unfold read_options; cbn; by repeat (left || right)); [right|right|right|by apply elem_of_nil in H].
  all: unfold passes, chosen; cbn -[TrimSpace value_of clean_values ParseFloat boolean_text]; rewrite value_of_clean by done.
  - destruct Hn as [->|Hn]; [done|]. destruct (String.eqb_spec (TrimSpace (value_of values "max_turns")) "") as [_|N]; [done|].
    unfold validateOption. cbn -[TrimSpace value_of ParseFloat]. rewrite Hn. by destruct (_ =s _).
  - destruct Hf as [->|Hf]; [done|].
    destruct (String.eqb_spec (TrimSpace (value_of values "allow_file_write")) "") as [_|N]; [done|].
    unfold validateOption. cbn -[TrimSpace value_of boolean_text]. rewrite Hf. by destruct (_ =s _).
  - unfold validateOption. cbn -[TrimSpace value_of].
    destruct (String.eqb_spec (TrimSpace (value_of values "api_token")) "") as [_|N]; [done|]. by destruct (_ =s _).
Qed.

(** The credential of a runtime and the limits chosen for it are checked and then left out:
    two sets of options that differ only in them give the same command, or the same error. *)
Theorem BuildWrapCommand_ignores rt values values' :
  trimmed_keys values → trimmed_keys values' → admissible values → admissible values' →
  (∀ k, k ∉ unread_options → values !! k = values' !! k) →
  BuildWrapCommand (DefaultInstanceTemplate rt) values = BuildWrapCommand (DefaultInstanceTemplate rt) values'.
Proof.
  intros K K' A A' Same. unfold BuildWrapCommand. destruct (_ =s ""); [done|]. cbn [items from_opt].
  assert (R : ∀ k, k ∈ read_options → value_of (clean_values values) k = value_of (clean_values values') k).
  { intros k Hk. rewrite !value_of_clean by done. f_equal. unfold value_of. rewrite Same; [done|].
    unfold read_options, unread_options in *. set_solver. }
  pose proof (check_options_agree read_options (default_options (RuntimeType.Kind rt) (RuntimeType.DisplayName rt))
                (clean_values values) (clean_values values')) as C.
  change (items (InstanceTemplate.Options (DefaultInstanceTemplate rt)))
    with (default_options (RuntimeType.Kind rt) (RuntimeType.DisplayName rt)).
  destruct (check_options _ (clean_values values)) as [e|c], (check_options _ (clean_values values')) as [e'|c'].
  all: specialize (C ltac:(by vm_compute; repeat constructor; set_solver)
                     ltac:(intros o Ho; destruct (unread_passes o _ _ values K A Ho); [by left|];
                           destruct (unread_passes o _ _ values' K' A' Ho); [by left|by right]) R); try done.
  - by subst.
  - destruct (negb (Contract.Kind _ =s _)); [|by unfold valueOrDefault; rewrite (C "workdir") by (cbn; set_solver)].
    destruct (negb (Contract.DirectRunSupported _)); [done|]. destruct (baseArgs _) as [build|] eqn:B; [|done].
    by rewrite (builds_agree _ c c' build B C).
Qed.

Definition known_effort (values : gmap string string) : Prop :=
  let effort := TrimSpace (value_of values "reasoning_effort") in
  effort = "" ∨ effort ∈ ["low"; "medium"; "high"; "xhigh"].

Lemma app_not_empty (s t : string) : t ≠ "" → s +:+ t =s "" = false.
Proof. intros H. destruct s; [by destruct t|done]. Qed.

(** An option with a plain text passes whatever the text. *)
Lemma plain_passes o clean :
  OptionSchema.Type_ o ∈ [OptionString; OptionFreeText; OptionPath] →
  (OptionSchema.Required o = true → OptionSchema.Default o ≠ "") → passes o clean.
Proof.
  intros T R. unfold passes. split.
  - destruct (OptionSchema.Required o); [|done]. cbn. unfold chosen.
    destruct (String.eqb_spec (value_of clean (OptionSchema.Name o)) "");
      [by apply String.eqb_neq, R|by apply String.eqb_neq].
  - unfold validateOption. rewrite !elem_of_cons in T.
    destruct T as [-> |[-> |[-> |T]]]; cbn; [..|by apply elem_of_nil in T]; by destruct (_ =s _).
Qed.

Lemma default_options_pass kind name values :
  trimmed_keys values → admissible values → known_effort values →
  Forall (λ o, passes o (clean_values values)) (default_options kind name).
Proof.
  intros K A E. apply Forall_forall. intros o Ho.
  destruct (decide (OptionSchema.Name o ∈ unread_options)) as [U|U].
  - destruct (unread_passes o kind name values K A Ho) as [R|]; [|done].
    unfold read_options, unread_options in *. set_solver.
  - unfold default_options in Ho. cbn zeta in Ho. rewrite !elem_of_cons in Ho.
    destruct Ho as [->|[->|[->|[->|[->|[->|[->|[->|[->|H]]]]]]]]];
      try (by apply elem_of_nil in H); try (exfalso; apply U; unfold unread_options; cbn; set_solver);
      try (apply plain_passes; [unfold OptionString, OptionFreeText, OptionPath; cbn; set_solver|cbn; done || (by destruct name)]).
    unfold passes, chosen. cbn -[TrimSpace value_of clean_values]. rewrite value_of_clean by done.
    split; [done|]. unfold validateOption. cbn -[TrimSpace value_of]. destruct E as [->|E]; [done|].
    destruct (String.eqb_spec (TrimSpace (value_of values "reasoning_effort")) "") as [_|N]; [done|].
    rewrite bool_decide_eq_true_2 by done. by destruct (_ =s _).
Qed.

Lemma check_options_passes os : ∀ clean,
  NoDup (OptionSchema.Name <$> os) → Forall (λ o, passes o clean) os → ∃ d, check_options os clean = inr d.
Proof.
  induction os as [|o os IH]; intros clean N H; [by eexists|].
  apply Forall_cons in H as [P H]. cbn [fmap list_fmap] in N. apply NoDup_cons in N as [No N].
  rewrite check_passing by done. apply IH; [done|]. rewrite Forall_forall in H |- *. intros o' Ho'.
  assert (OptionSchema.Name o' ≠ OptionSchema.Name o).
  { intros E. apply No. rewrite <- E. by apply list_elem_of_fmap_2. }
  specialize (H o' Ho'). unfold passes, chosen in *. by rewrite !value_of_filled, !decide_False by done.
Qed.

Lemma default_options_distinct kind name : NoDup (OptionSchema.Name <$> default_options kind name).
Proof. vm_compute. repeat constructor; set_solver. Qed.

(** What a runtime that is reported healthy has been through. *)
Lemma healthy_runtime preset cfg :
  RuntimeType.Healthy (runtimeTypeFromPreset preset cfg) = true →
  let contract := ContractForKind (Pr.Kind preset) in
  TrimSpace (Pr.Command preset) ≠ "" ∧ Contract.Canonical contract = true ∧ Contract.DirectRunSupported contract = true
  ∧ RuntimeSmokeResult.OK (SmokeRuntime cfg (RuntimeSmokeCheck.mk (Pr.Kind preset) (Pr.Command preset)
      (resolveCommand (Pr.Command preset) (Pr.EnvVarNames preset) cfg).1 (Contract.VersionArgs contract) (5 * 10 ^ 9)%Z)) = true.
Proof.
  unfold runtimeTypeFromPreset. destruct (resolveCommand _ _ _) as [resolved installed] eqn:R. cbn [fst].
  destruct (assess cfg (Pr.Kind preset) (Pr.Command preset) resolved installed) as [[[av reason] smoke] healthy] eqn:A.
  cbn. intros ->. unfold assess in A.
  destruct (String.eqb_spec (TrimSpace (Pr.Command preset)) ""); [by simplify_eq|].
  destruct installed; [|by simplify_eq]. cbn [andb] in A.
  destruct (Contract.Canonical (ContractForKind (Pr.Kind preset))); [|by simplify_eq].
  destruct (Contract.DirectRunSupported (ContractForKind (Pr.Kind preset))); [|by simplify_eq].
  cbn [negb] in A. by destruct (RuntimeSmokeResult.OK _) eqn:Ok.
Qed.

(** A runtime that the daemon reports as healthy can be started: from its template every
    admissible choice of options makes a command. *)
Theorem healthy_runtime_starts preset cfg values :
  RuntimeType.Healthy (runtimeTypeFromPreset preset cfg) = true →
  trimmed_keys values → admissible values → known_effort values →
  ∃ cmd, BuildWrapCommand (DefaultInstanceTemplate (runtimeTypeFromPreset preset cfg)) values = inr cmd
    ∧ WrapCommand.Command cmd = TrimSpace (Pr.Command preset)
    ∧ WrapCommand.Kind cmd = Pr.Kind preset.
Proof.
  intros H K A E. apply healthy_runtime in H as (C & Can & D & _).
  set (rt := runtimeTypeFromPreset preset cfg).
  assert (Rk : RuntimeType.Kind rt = Pr.Kind preset ∧ RuntimeType.Command rt = Pr.Command preset).
  { unfold rt, runtimeTypeFromPreset. destruct (resolveCommand _ _ _). by destruct (assess _ _ _ _ _) as [[[? ?] ?] ?]. }
  destruct Rk as [Rk Rc]. unfold BuildWrapCommand.
  assert (Wc : TrimSpace (WrapSpec.Command (InstanceTemplate.Wrap (DefaultInstanceTemplate rt))) = TrimSpace (Pr.Command preset)).
  { unfold DefaultInstanceTemplate. cbn -[TrimSpace]. rewrite Rc. by destruct (String.eqb_spec (Pr.Command preset) "") as [Z|]; [rewrite Z in C|]. }
  rewrite Wc. apply String.eqb_neq in C. rewrite C.
  destruct (check_options_passes _ _ (default_options_distinct (RuntimeType.Kind rt) (RuntimeType.DisplayName rt))
              (default_options_pass _ _ values K A E)) as [d Hd].
  change (items (InstanceTemplate.Options (DefaultInstanceTemplate rt)))
    with (default_options (RuntimeType.Kind rt) (RuntimeType.DisplayName rt)). rewrite Hd.
  change (InstanceTemplate.RuntimeKind (DefaultInstanceTemplate rt)) with (RuntimeType.Kind rt). rewrite Rk.
  unfold ContractForKind in *. destruct (contract_cases (Pr.Kind preset)) as [N|(Kd & b & Eb & [[N _]|(_ & _ & B)])].
  - by rewrite N in D.
  - congruence.
  - rewrite D. cbn [negb]. rewrite Eb. destruct (negb (Contract.Kind _ =s _)) eqn:Z.
    + destruct B as [-> |[-> |[-> | ->]]]; cbn; eauto.
    + cbn. eauto.
Qed.

End command.

(** ** Examples *)

Section examples.
Local Existing Instance ascii_unicode.
Local Existing Instance RpcPrompt.plain_order.
Local Existing Instance same_text.

(** A computer with [codex] and [claude] on its path, whose checks pass. *)
Definition desk : InventoryConfig :=
  mkInventory "My Desk" "1.0" "" "ann" (λ c, if bool_decide (c ∈ ["codex"; "claude"; "copilot"]) then Some ("/bin/" +:+ c) else None)
    (λ _, "") (λ c, RuntimeSmokeResult.mk true "passed" "version" "").

Example desk_inventory :
  let inv := ComputerInventory desk in
  (Rt.RuntimeId <$> bfilter Rt.Healthy (Inv.Runtimes inv),
   Agent.AgentId <$> Inv.Agents inv, length (Inv.RuntimeProfiles inv))
  = (["runtime-my-desk-claude"; "runtime-my-desk-codex"], ["ann"], 12).
Proof. vm_compute. reflexivity. Qed.

Lemma healthy_runtime_starts_witness :
  ∃ cmd, BuildWrapCommand (DefaultInstanceTemplate (runtimeTypeFromPreset preset_claude desk))
           {["model" := "opus"; "reasoning_effort" := "high"]} = inr cmd
    ∧ WrapCommand.Command cmd = "claude" ∧ WrapCommand.Kind cmd = "claude".
Proof.
  apply (healthy_runtime_starts preset_claude desk {["model" := "opus"; "reasoning_effort" := "high"]}).
  - vm_compute. reflexivity.
  - intros k v H. rewrite lookup_insert_Some, lookup_singleton_Some in H.
    destruct H as [[<- _]|[_ [<- _]]]; reflexivity.
  - split; left; reflexivity.
  - right. vm_compute. right. right. left.
Defined.

(** Claude may edit files although the option was turned off. *)
Lemma BuildWrapCommand_ignores_witness :
  let rt := runtimeTypeFromPreset preset_claude desk in
  BuildWrapCommand (DefaultInstanceTemplate rt) {["allow_file_write" := "false"; "api_token" := "s3cret"]}
  = BuildWrapCommand (DefaultInstanceTemplate rt) ∅.
Proof.
  apply BuildWrapCommand_ignores.
  - intros k v H. rewrite lookup_insert_Some, lookup_singleton_Some in H.
    destruct H as [[<- _]|[_ [<- _]]]; reflexivity.
  - intros k v H. discriminate H.
  - split; [left|right]; reflexivity.
  - split; left; reflexivity.
  - intros k Hk. rewrite lookup_empty, lookup_insert_ne, lookup_singleton_ne; [reflexivity| |];
      intros <-; apply Hk; unfold unread_options; set_solver.
Defined.

(** The path variable of Codex decides whether it is there, and is not what a run starts. *)
Example path_override_not_started :
  let rt := runtimeTypeFromPreset preset_codex
              (mkInventory "c" "1" "" "a" (λ _, None) (λ n, if n =s "NEKODE_CODEX_PATH" then "/opt/codex" else "")
                 (λ c, RuntimeSmokeResult.mk true "passed" "version" "")) in
  (RuntimeType.Healthy rt, RuntimeType.ResolvedPath rt,
   sum_map id WrapCommand.Command (BuildWrapCommand (DefaultInstanceTemplate rt) ∅))
  = (true, "/opt/codex", inr "codex").
Proof. vm_compute. reflexivity. Qed.

(** The variable that names a model is taken for the path of the program. *)
Example model_taken_for_a_path :
  resolveCommand (Pr.Command preset_copilot) (Pr.EnvVarNames preset_copilot)
    (mkInventory "c" "1" "" "a" (λ _, None) (λ n, if n =s "NEKODE_COPILOT_MODEL" then "gpt-5.5" else "")
       (λ c, RuntimeSmokeResult.zero))
  = ("gpt-5.5", true).
Proof. reflexivity. Qed.

End examples.
