(* ===== verification/AgentInstances.v ===== *)
(** * Agent instances ([internal/daemonrpc/server.go])

    What the console does with the inventories that daemons report: it lists them, with the
    states derived from the heartbeats, and creates agents from the templates in them.  The
    adapter configuration of a template is read back from the JSON that the daemon wrote;
    the reading of its struct follows their tags. *)
From S2P Require Import Prelude GoStr GoText JsonValue JsonRound Sql Models Schema Store Proto RpcText Rpc RpcConv RpcAgents.
From S2P Require Import RuntimeCatalog RuntimeAdapter.

#[local] Open Scope go_scope.

Module Tpl := InstanceTemplate.
Module Opt := OptionSchema.
Module AkA := daemonv1.AcknowledgeActivityEventsRequest.
Module AkB := daemonv1.AcknowledgeActivityEventsResponse.
Module GsP := daemonv1.GetServerInfoResponse.
Module PgE := daemonv1.CollaborationEvent.

(** ** Data *)

Record ComputerInventorySnapshot := mkSnapshot {
  Info : option CI.ComputerInfo;
  Inventory : option Inv.ComputerInventory;
  InventoryVersion : string;
  LastHeartbeatUnix : Z
}.

Module CreateAgentInstanceInput.
Record CreateAgentInstanceInput := mk {
  ComputerID : string;
  RuntimeID : string;
  TemplateID : string;
  DisplayName : string;
  Name : string;
  Target : string;
  Options : gmap string string
}.
Definition zero : CreateAgentInstanceInput := mk "" "" "" "" "" "" ∅.
Definition set_ComputerID (v : string) (r : CreateAgentInstanceInput) : CreateAgentInstanceInput := mk v (RuntimeID r) (TemplateID r) (DisplayName r) (Name r) (Target r) (Options r).
Definition set_RuntimeID (v : string) (r : CreateAgentInstanceInput) : CreateAgentInstanceInput := mk (ComputerID r) v (TemplateID r) (DisplayName r) (Name r) (Target r) (Options r).
Definition set_TemplateID (v : string) (r : CreateAgentInstanceInput) : CreateAgentInstanceInput := mk (ComputerID r) (RuntimeID r) v (DisplayName r) (Name r) (Target r) (Options r).
Definition set_DisplayName (v : string) (r : CreateAgentInstanceInput) : CreateAgentInstanceInput := mk (ComputerID r) (RuntimeID r) (TemplateID r) v (Name r) (Target r) (Options r).
Definition set_Name (v : string) (r : CreateAgentInstanceInput) : CreateAgentInstanceInput := mk (ComputerID r) (RuntimeID r) (TemplateID r) (DisplayName r) v (Target r) (Options r).
Definition set_Target (v : string) (r : CreateAgentInstanceInput) : CreateAgentInstanceInput := mk (ComputerID r) (RuntimeID r) (TemplateID r) (DisplayName r) (Name r) v (Options r).
Definition set_Options (v : gmap string string) (r : CreateAgentInstanceInput) : CreateAgentInstanceInput := mk (ComputerID r) (RuntimeID r) (TemplateID r) (DisplayName r) (Name r) (Target r) v.
End CreateAgentInstanceInput.
Abbreviation CreateAgentInstanceInput := CreateAgentInstanceInput.CreateAgentInstanceInput.

Module In := CreateAgentInstanceInput.

Record CreateAgentInstanceResult := mkResult {
  created_agent : AP.AgentProfile;
  created_profile : Prof.RuntimeProfile
}.

(** ** The adapter configuration of a template *)

(** A slice whose nil is told from the empty one. *)
Definition dec_nilable {A} (zero : A) (d : decoder A) : decoder (option (list A)) := λ v a,
  match v with
  | JNull => (None, true)
  | JArr _ => let (l, ok) := dec_slice zero d v (items a) in (Some l, ok)
  | _ => (a, false)
  end.

Definition dec_OptionSchema : decoder OptionSchema := dec_struct
  [("name", into OptionSchema.Name OptionSchema.set_Name dec_string);
   ("label", into OptionSchema.Label OptionSchema.set_Label dec_string);
   ("type", into OptionSchema.Type_ OptionSchema.set_Type_ dec_string);
   ("required", into OptionSchema.Required OptionSchema.set_Required dec_bool);
   ("default", into OptionSchema.Default OptionSchema.set_Default dec_string);
   ("sensitive", into OptionSchema.Sensitive OptionSchema.set_Sensitive dec_bool);
   ("enum", into OptionSchema.Enum OptionSchema.set_Enum (dec_slice "" dec_string));
   ("description", into OptionSchema.Description OptionSchema.set_Description dec_string)].

Definition dec_WrapSpec : decoder WrapSpec := dec_struct
  [("command", into WrapSpec.Command WrapSpec.set_Command dec_string);
   ("args", into WrapSpec.Args WrapSpec.set_Args (dec_slice "" dec_string));
   ("env", into WrapSpec.Env WrapSpec.set_Env (dec_slice "" dec_string))].

Definition dec_InstanceTemplate : decoder InstanceTemplate := dec_struct
  [("templateId", into InstanceTemplate.TemplateID InstanceTemplate.set_TemplateID dec_string);
   ("runtimeKind", into InstanceTemplate.RuntimeKind InstanceTemplate.set_RuntimeKind dec_string);
   ("displayName", into InstanceTemplate.DisplayName InstanceTemplate.set_DisplayName dec_string);
   ("description", into InstanceTemplate.Description InstanceTemplate.set_Description dec_string);
   ("capabilities", into InstanceTemplate.Capabilities InstanceTemplate.set_Capabilities (dec_nilable "" dec_string));
   ("options", into InstanceTemplate.Options InstanceTemplate.set_Options (dec_nilable OptionSchema.zero dec_OptionSchema));
   ("wrap", into InstanceTemplate.Wrap InstanceTemplate.set_Wrap dec_WrapSpec);
   ("multiInstance", into InstanceTemplate.MultiInstance InstanceTemplate.set_MultiInstance dec_bool);
   ("inventoryRole", into InstanceTemplate.InventoryRole InstanceTemplate.set_InventoryRole dec_string);
   ("agentIdPattern", into InstanceTemplate.AgentIDPattern InstanceTemplate.set_AgentIDPattern dec_string)].

Definition dec_RuntimeSmokeResult : decoder RuntimeSmokeResult := dec_struct
  [("ok", into RuntimeSmokeResult.OK RuntimeSmokeResult.set_OK dec_bool);
   ("status", into RuntimeSmokeResult.Status RuntimeSmokeResult.set_Status dec_string);
   ("category", into RuntimeSmokeResult.Category RuntimeSmokeResult.set_Category dec_string);
   ("detail", into RuntimeSmokeResult.Detail RuntimeSmokeResult.set_Detail dec_string)].

Definition dec_RuntimeContractInfo : decoder RuntimeContractInfo := dec_struct
  [("kind", into RuntimeContractInfo.Kind RuntimeContractInfo.set_Kind dec_string);
   ("command", into RuntimeContractInfo.Command RuntimeContractInfo.set_Command dec_string);
   ("canonical", into RuntimeContractInfo.Canonical RuntimeContractInfo.set_Canonical dec_bool);
   ("surface", into RuntimeContractInfo.Surface RuntimeContractInfo.set_Surface dec_string);
   ("directRunSupported", into RuntimeContractInfo.DirectRunSupported RuntimeContractInfo.set_DirectRunSupported dec_bool);
   ("versionArgs", into RuntimeContractInfo.VersionArgs RuntimeContractInfo.set_VersionArgs (dec_slice "" dec_string));
   ("promptInjection", into RuntimeContractInfo.PromptInjection RuntimeContractInfo.set_PromptInjection dec_string);
   ("systemPromptInjection", into RuntimeContractInfo.SystemPromptInjection RuntimeContractInfo.set_SystemPromptInjection dec_string);
   ("workspaceMapping", into RuntimeContractInfo.WorkspaceMapping RuntimeContractInfo.set_WorkspaceMapping dec_string);
   ("modelMapping", into RuntimeContractInfo.ModelMapping RuntimeContractInfo.set_ModelMapping dec_string);
   ("reasoningMapping", into RuntimeContractInfo.ReasoningMapping RuntimeContractInfo.set_ReasoningMapping dec_string);
   ("sessionMapping", into RuntimeContractInfo.SessionMapping RuntimeContractInfo.set_SessionMapping dec_string);
   ("timeoutPolicy", into RuntimeContractInfo.TimeoutPolicy RuntimeContractInfo.set_TimeoutPolicy dec_string);
   ("exitCodePolicy", into RuntimeContractInfo.ExitCodePolicy RuntimeContractInfo.set_ExitCodePolicy dec_string);
   ("outputPolicy", into RuntimeContractInfo.OutputPolicy RuntimeContractInfo.set_OutputPolicy dec_string);
   ("secretRedaction", into RuntimeContractInfo.SecretRedaction RuntimeContractInfo.set_SecretRedaction dec_string)].

Definition dec_RuntimeType : decoder RuntimeType := dec_struct
  [("kind", into RuntimeType.Kind RuntimeType.set_Kind dec_string);
   ("displayName", into RuntimeType.DisplayName RuntimeType.set_DisplayName dec_string);
   ("provider", into RuntimeType.Provider RuntimeType.set_Provider dec_string);
   ("command", into RuntimeType.Command RuntimeType.set_Command dec_string);
   ("aliases", into RuntimeType.Aliases RuntimeType.set_Aliases (dec_slice "" dec_string));
   ("installed", into RuntimeType.Installed RuntimeType.set_Installed dec_bool);
   ("healthy", into RuntimeType.Healthy RuntimeType.set_Healthy dec_bool);
   ("canonical", into RuntimeType.Canonical RuntimeType.set_Canonical dec_bool);
   ("resolvedPath", into RuntimeType.ResolvedPath RuntimeType.set_ResolvedPath dec_string);
   ("availability", into RuntimeType.Availability RuntimeType.set_Availability dec_string);
   ("availabilityReason", into RuntimeType.AvailabilityReason RuntimeType.set_AvailabilityReason dec_string);
   ("smoke", into RuntimeType.Smoke RuntimeType.set_Smoke dec_RuntimeSmokeResult);
   ("contract", into RuntimeType.Contract RuntimeType.set_Contract dec_RuntimeContractInfo);
   ("capabilities", into RuntimeType.Capabilities RuntimeType.set_Capabilities (dec_nilable "" dec_string));
   ("templates", into RuntimeType.Templates RuntimeType.set_Templates (dec_nilable "" dec_string))].

Definition dec_AdapterConfig : decoder AdapterConfig := dec_struct
  [("schemaVersion", into AdapterConfig.SchemaVersion AdapterConfig.set_SchemaVersion dec_string);
   ("runtimeType", into AdapterConfig.RuntimeType AdapterConfig.set_RuntimeType dec_RuntimeType);
   ("template", into AdapterConfig.Template AdapterConfig.set_Template dec_InstanceTemplate)].

(** An error is its text, without what the JSON decoder adds of its own. *)
Definition parseAdapterConfig (configJSON : string) : string + AdapterConfig :=
  if TrimSpace configJSON =s "" then inl "runtime profile is missing adapter config"
  else
    let (cfg, ok) := JsonValue.Unmarshal dec_AdapterConfig configJSON AdapterConfig.zero in
    if negb ok then inl "runtime profile adapter config is invalid"
    else
      let version := AdapterConfig.SchemaVersion cfg in
      if (version <>s "") && (version <>s SchemaVersion) then inl ("unsupported runtime adapter schema " +:+ q version)
      else if TrimSpace (Tpl.TemplateID (AdapterConfig.Template cfg)) =s ""
      then inl "runtime profile adapter config is missing template"
      else inr cfg.

Definition findRuntime (inventory : Inv.ComputerInventory) (runtimeID : string) : option Rt.Runtime :=
  List.find (λ r, Rt.RuntimeId r =s runtimeID) (Inv.Runtimes inventory).

Definition findRuntimeProfile (inventory : Inv.ComputerInventory) (profileID : string) : option Prof.RuntimeProfile :=
  List.find (λ p, Prof.RuntimeProfileId p =s profileID) (Inv.RuntimeProfiles inventory).

(** ** The options of an instance *)

Section instances.
Context {Eng : SqlEngine} {Uni : Unicode} {PJ : ProtoJSON} {E : Rpc.Env} {Ord : MapOrder} {Fl : Floats}.

(** Keys and values trimmed, blank keys left out, in the order the map is visited. *)
Definition trimmed_options (values : gmap string string) : gmap string string :=
  fold_left (λ clean p, let key := TrimSpace p.1 in if key =s "" then clean else <[key := TrimSpace p.2]> clean)
    (visit (map_to_list values)) ∅.

Definition default_option (clean : gmap string string) (o : OptionSchema) : gmap string string :=
  match clean !! Opt.Name o with
  | Some _ => clean
  | None => if Opt.Default o =s "" then clean else <[Opt.Name o := Opt.Default o]> clean
  end.

Definition normalizedAgentOptions (template : InstanceTemplate) (displayName : string) (values : gmap string string)
    : gmap string string :=
  let clean := trimmed_options values in
  let clean :=
    if TrimSpace (value_of clean "display_name") =s "" then <["display_name" := TrimSpace displayName]> clean else clean in
  fold_left default_option (items (Tpl.Options template)) clean.

Definition is_sensitive (template : InstanceTemplate) (key : string) : bool :=
  existsb (λ o, Opt.Sensitive o && (Opt.Name o =s key)) (items (Tpl.Options template)).

Definition redactedAgentOptions (template : InstanceTemplate) (values : gmap string string) : gmap string string :=
  map_imap (λ key value, Some (if is_sensitive template key && (value <>s "") then "<redacted>" else value)) values.

Definition optionValue (options : list OptionSchema) (values : gmap string string) (name : string) : string :=
  let value := TrimSpace (value_of values name) in
  if value <>s "" then value
  else match List.find (λ o, Opt.Name o =s name) options with Some o => Opt.Default o | None => "" end.

(** ** The configuration of an instance *)

Definition wrap_command_wire (w : WrapCommand) : wire := WStruct
  ([("command", WStr (WrapCommand.Command w)); ("args", slice_wire WStr (WrapCommand.Args w))]
   ++ list_field "env" (WrapCommand.Env w) ++ str_field "dir" (WrapCommand.Dir w)
   ++ str_field "stdin" (WrapCommand.Stdin w) ++ str_field "kind" (WrapCommand.Kind w)).

(** The fields of the embedded [AdapterConfig] come first. *)
Definition instanceAdapterConfig (base : AdapterConfig) (options : gmap string string) (wrap : WrapCommand)
    (agentID target : string) : string :=
  let base := base |> AdapterConfig.set_Template (AdapterConfig.Template base |> Tpl.set_InventoryRole "agent_instance") in
  let template := AdapterConfig.Template base in
  wire_text (WStruct (adapter_fields base
    ++ [("agentId", WStr agentID)] ++ str_field "target" (TrimSpace target)
    ++ [("sourceTemplateId", WStr (Tpl.TemplateID template));
        ("selectedOptions", WMap (map_to_list (WStr <$> redactedAgentOptions template options)));
        ("wrapCommand", wrap_command_wire wrap)])).

(** The loop over the runes: [some] tells whether the builder holds anything, [dash]
    whether it ends with a dash. *)
Fixpoint slug_go (some dash : bool) (rs : list string) : string :=
  match rs with
  | [] => ""
  | rune :: rs =>
      match alphanumeric rune with
      | Some c => String c (slug_go true false rs)
      | None => if some && negb dash then String "-" (slug_go true true rs) else slug_go some dash rs
      end
  end.

Definition sanitizeAgentSlug (value : string) : string :=
  trim_dashes (slug_go false false (runes (ToLower (TrimSpace value)))).

(** ** Listing and creating *)

Definition inventory_snapshot (now : Z) (c : computerState) : ComputerInventorySnapshot :=
  let computerStatus := derivedStatus c now in
  let seen := lastHeartbeat c in
  mkSnapshot
    ((λ i, i |> CI.set_Status computerStatus |> when (0 <? seen)%Z (CI.set_LastSeenUnix seen)) <$> Rpc.info c)
    ((λ inv, inv |> Inv.set_Agents ((λ p, applyComputerStatusToAgentProfile p computerStatus seen now) <$> Inv.Agents inv))
       <$> inventory c)
    (inventoryVersion c) seen.

(** The computers in the order of their identifiers. *)
Definition by_identifier (all : gmap string computerState) : list computerState :=
  snd <$> sort_with (λ a b : string * computerState, String.leb a.1 b.1) (map_to_list all).

Definition ListComputerInventories (limit : Z) : R (list ComputerInventorySnapshot) :=
  now ← unixNow;
  let limit := if (limit <=? 0)%Z || (200 <? limit)%Z then 100%Z else limit in
  all ← gets computers;
  mret (inventory_snapshot now <$> take (Z.to_nat limit) (by_identifier all)).

Definition trimmed_input (input : CreateAgentInstanceInput) : CreateAgentInstanceInput :=
  In.mk (TrimSpace (In.ComputerID input)) (TrimSpace (In.RuntimeID input)) (TrimSpace (In.TemplateID input))
    (TrimSpace (In.DisplayName input)) (TrimSpace (In.Name input)) (TrimSpace (In.Target input)) (In.Options input).

(** What is checked and computed before anything is drawn: the runtime, the template's
    profile and configuration, the template with its kind, the options and the command. *)
Definition plan_instance (input : CreateAgentInstanceInput) (s : Server)
    : rpc_error + (Inv.ComputerInventory * computerState * Rt.Runtime * Prof.RuntimeProfile * AdapterConfig
                   * InstanceTemplate * gmap string string * WrapCommand) :=
  if (In.ComputerID input =s "") || (In.RuntimeID input =s "") || (In.TemplateID input =s "")
  then inl (Status InvalidArgument "computerId, runtimeId, and templateId are required")
  else if In.DisplayName input =s "" then inl (Status InvalidArgument "displayName is required")
  else match computers s !! In.ComputerID input with
  | None => inl (Status NotFound "computer inventory not found")
  | Some computer =>
  match inventory computer with
  | None => inl (Status NotFound "computer inventory not found")
  | Some inventory =>
  match findRuntime inventory (In.RuntimeID input) with
  | None => inl (Status NotFound "runtime not found")
  | Some runtimeEntry =>
  if negb (Rt.Installed runtimeEntry) || negb (Rt.Healthy runtimeEntry)
  then inl (Status FailedPrecondition "runtime is not available")
  else match findRuntimeProfile inventory (In.TemplateID input) with
  | None => inl (Status NotFound "runtime template not found")
  | Some templateProfile =>
  match parseAdapterConfig (Prof.AdapterConfigJson templateProfile) with
  | inl err => inl (Status InvalidArgument err)
  | inr adapter =>
      let template := AdapterConfig.Template adapter in
      let template := template |> when (Tpl.RuntimeKind template =s "") (Tpl.set_RuntimeKind (Prof.Kind templateProfile)) in
      if (Tpl.RuntimeKind template <>s "") && (Rt.Kind runtimeEntry <>s "")
         && (Tpl.RuntimeKind template <>s Rt.Kind runtimeEntry)
      then inl (Status InvalidArgument "runtime/template kind mismatch")
      else if negb (Tpl.MultiInstance template)
      then inl (Status FailedPrecondition "runtime template does not allow multiple instances")
      else
        let optionValues := normalizedAgentOptions template (In.DisplayName input) (In.Options input) in
        match BuildWrapCommand template optionValues with
        | inl err => inl (Status InvalidArgument err)
        | inr wrap =>
            inr (inventory, computer, runtimeEntry, templateProfile, adapter, template, optionValues, wrap)
        end
  end end end end end.

(** The identifier of an agent, made of its name and of what [NewID] drew. *)
Definition instance_id (input : CreateAgentInstanceInput) (randomID : string) : string :=
  let slug := sanitizeAgentSlug (Rpc.firstNonEmpty [In.Name input; In.DisplayName input]) in
  if slug <>s "" then "agent_" +:+ slug +:+ "_" +:+ TrimPrefix randomID "agent_" else randomID.

Definition CreateAgentInstance (input : CreateAgentInstanceInput) : R CreateAgentInstanceResult :=
  let input := trimmed_input input in
  s ← gets id;
  match plan_instance input s with
  | inl err => raise err
  | inr (inventory, computer, runtimeEntry, templateProfile, adapter, template, optionValues, wrap) =>
      randomID ← NewID "agent";
      let agentID := instance_id input randomID in
      let instanceProfileID := "profile_" +:+ TrimPrefix agentID "agent_" in
      let options := items (Tpl.Options template) in
      let profile := templateProfile
        |> Prof.set_RuntimeProfileId instanceProfileID
        |> Prof.set_AdapterConfigJson (instanceAdapterConfig adapter optionValues wrap agentID (In.Target input))
        |> Prof.set_Model (Rpc.firstNonEmpty [optionValue options optionValues "model"; Prof.Model templateProfile]) in
      let agent := AP.zero
        |> AP.set_AgentId agentID
        |> AP.set_Name (Rpc.firstNonEmpty [In.Name input; agentID])
        |> AP.set_DisplayName (In.DisplayName input)
        |> AP.set_Description (Tpl.Description template)
        |> AP.set_Enabled true
        |> AP.set_Provider (Prof.Provider templateProfile)
        |> AP.set_Model (Prof.Model profile)
        |> AP.set_ComputerId (In.ComputerID input)
        |> AP.set_RuntimeProfileId instanceProfileID
        |> AP.set_RuntimeKind (Rt.Kind runtimeEntry)
        |> AP.set_ReasoningEffort (optionValue options optionValues "reasoning_effort")
        |> AP.set_Status daemonv1.AgentPresence_AGENT_PRESENCE_IDLE
        |> AP.set_Capabilities (Prof.Capabilities templateProfile) in
      now ← unixNow;
      let inventory := inventory
        |> Inv.set_RuntimeProfiles (Inv.RuntimeProfiles inventory ++ [profile])
        |> Inv.set_Agents (Inv.Agents inventory ++ [agent]) in
      _ ← modify (λ s, put_computers (<[In.ComputerID input :=
            mkComputer (Rpc.info computer) (Some inventory) (FormatInt now) (lease computer) (lastHeartbeat computer)]>
            (computers s)) s);
      mret (mkResult agent profile)
  end.

(** ** Other answers of the server *)

Definition GetServerInfo (version : string) : R GsP.GetServerInfoResponse :=
  s ← gets id;
  mret (GsP.zero
    |> GsP.set_ServerName (serverName s) |> GsP.set_Version version
    |> GsP.set_ProtocolVersion protocolVersion |> GsP.set_MinProtocolVersion protocolVersion
    |> GsP.set_MaxProtocolVersion protocolVersion |> GsP.set_ServerId (serverID s)).

Definition AcknowledgeActivityEvents (req : AkA.AcknowledgeActivityEventsRequest) : R AkB.AcknowledgeActivityEventsResponse :=
  mret (AkB.zero |> AkB.set_Accepted true |> AkB.set_Cursor (AkA.Cursor req)).

(** The one event of a subscription to activity; the stream then waits for its end. *)
Definition SubscribeActivity (targets : list string) : R PgE.CollaborationEvent :=
  let target := Rpc.firstNonEmpty [Rpc.first targets; "server"] in
  event_id ← NewID "cev";
  now ← unixNow;
  sequence ← nextSequence;
  mret (PgE.zero
    |> PgE.set_EventId event_id |> PgE.set_Target target
    |> PgE.set_Kind daemonv1.CollaborationEventKind_COLLABORATION_EVENT_KIND_PING
    |> PgE.set_CreatedTimeUnix now |> PgE.set_Sequence sequence |> PgE.set_AggregateId target
    |> PgE.set_ProtocolVersion protocolVersion
    |> PgE.set_Operation daemonv1.EventOperation_EVENT_OPERATION_HEARTBEAT
    |> PgE.set_Scope (Some (scope daemonv1.EventScopeType_EVENT_SCOPE_TYPE_TARGET target target))).

End instances.

(** ** Reading structs back *)

(** One member of an object, and the part of the struct it is decoded into. *)
Lemma read_member {A} (fields : list (field A)) k x ms a d a' r :
  find_field fields k = Some d → d x a = (a', true) → dec_struct fields (JObj ms) a' = r →
  dec_struct fields (JObj ((k, x) :: ms)) a = r.
Proof. intros F D <-. unfold dec_struct. cbn [fold_left]. by rewrite F, D. Qed.

Lemma read_part {A B} (get : A → B) set (d : decoder B) v a b : d v (get a) = (b, true) → into get set d v a = (set b a, true).
Proof. intros D. unfold into. by rewrite D. Qed.

Lemma strings_read l : dec_slice "" dec_string (JArr (map wire_tree (map WStr l))) [] = (map as_utf8 l, true).
Proof.
  cbn [dec_slice]. induction l as [|s l IH]; [done|]. cbn [map dec_items head tail from_opt]. rewrite IH. reflexivity.
Qed.

Lemma nilable_read {A B} (zero : A) (d : decoder A) (w : B → wire) (f : B → A) l :
  (∀ x, d (wire_tree (w x)) zero = (f x, true)) →
  dec_nilable zero d (wire_tree (slice_wire w l)) None = (option_map (map f) l, true).
Proof.
  intros H. destruct l as [l|]; [|done]. cbn [slice_wire wire_tree dec_nilable items from_opt dec_slice option_map].
  assert (dec_items zero d (map wire_tree (map w l)) [] = (map f l, true)) as ->; [|done].
  induction l as [|x l IH]; [done|]. cbn [map dec_items head tail from_opt]. by rewrite H, IH.
Qed.

(** A list of strings as a field that may be left out. *)
Lemma list_fields name l : list_field name l = [] ∧ l = [] ∨ list_field name l = [(name, WList (map WStr l))].
Proof. destruct l; [by left|by right]. Qed.

Ltac clean_keys := repeat match goal with |- context [as_utf8 (String ?c ?s)] =>
  let t := constr:(as_utf8 (String c s)) in let u := eval vm_compute in t in change t with u end.

(** The members in turn; [part] reads a part of its own shape. *)
Ltac read_members part :=
  cbn [app wire_tree map fst snd WStr]; clean_keys;
  repeat (eapply read_member; [reflexivity|eapply read_part; first [part | apply strings_read | reflexivity]|]);
  reflexivity.

Definition clean_option (o : OptionSchema) : OptionSchema :=
  Opt.mk (as_utf8 (Opt.Name o)) (as_utf8 (Opt.Label o)) (as_utf8 (Opt.Type_ o)) (Opt.Required o) (as_utf8 (Opt.Default o))
    (Opt.Sensitive o) (map as_utf8 (Opt.Enum o)) (as_utf8 (Opt.Description o)).
Definition clean_wrap (w : WrapSpec) : WrapSpec :=
  WrapSpec.mk (as_utf8 (WrapSpec.Command w)) (map as_utf8 (WrapSpec.Args w)) (map as_utf8 (WrapSpec.Env w)).
Definition clean_template (t : InstanceTemplate) : InstanceTemplate :=
  Tpl.mk (as_utf8 (Tpl.TemplateID t)) (as_utf8 (Tpl.RuntimeKind t)) (as_utf8 (Tpl.DisplayName t)) (as_utf8 (Tpl.Description t))
    (option_map (map as_utf8) (Tpl.Capabilities t)) (option_map (map clean_option) (Tpl.Options t)) (clean_wrap (Tpl.Wrap t))
    (Tpl.MultiInstance t) (as_utf8 (Tpl.InventoryRole t)) (as_utf8 (Tpl.AgentIDPattern t)).

Lemma option_read o : dec_OptionSchema (wire_tree (option_wire o)) Opt.zero = (clean_option o, true).
Proof.
  destruct o as [name label type required default sensitive enum description].
  unfold option_wire, str_field, bool_field, clean_option, dec_OptionSchema.
  cbn [Opt.Name Opt.Label Opt.Type_ Opt.Required Opt.Default Opt.Sensitive Opt.Enum Opt.Description].
  destruct (list_fields "enum" enum) as [[-> ->]| ->], (String.eqb_spec default ""), sensitive, (String.eqb_spec description "");
    subst; read_members ltac:(fail).
Qed.

Lemma wrapspec_read w : dec_WrapSpec (wire_tree (wrapspec_wire w)) WrapSpec.zero = (clean_wrap w, true).
Proof.
  destruct w as [command args env]. unfold wrapspec_wire, clean_wrap, dec_WrapSpec. cbn [WrapSpec.Command WrapSpec.Args WrapSpec.Env].
  destruct (list_fields "args" args) as [[-> ->]| ->], (list_fields "env" env) as [[-> ->]| ->]; read_members ltac:(fail).
Qed.

Lemma template_read t : dec_InstanceTemplate (wire_tree (template_wire t)) Tpl.zero = (clean_template t, true).
Proof.
  destruct t as [id kind display description capabilities options wrap multi role pattern].
  unfold template_wire, clean_template, dec_InstanceTemplate.
  cbn [Tpl.TemplateID Tpl.RuntimeKind Tpl.DisplayName Tpl.Description Tpl.Capabilities Tpl.Options Tpl.Wrap
       Tpl.MultiInstance Tpl.InventoryRole Tpl.AgentIDPattern].
  read_members ltac:(idtac; first [apply wrapspec_read | apply nilable_read; first [reflexivity | exact option_read]]).
Qed.

Definition clean_smoke (s : RuntimeSmokeResult) : RuntimeSmokeResult :=
  RuntimeSmokeResult.mk (RuntimeSmokeResult.OK s) (as_utf8 (RuntimeSmokeResult.Status s))
    (as_utf8 (RuntimeSmokeResult.Category s)) (as_utf8 (RuntimeSmokeResult.Detail s)).
Definition clean_contract (c : RuntimeContractInfo) : RuntimeContractInfo :=
  Contract.mk (as_utf8 (Contract.Kind c)) (as_utf8 (Contract.Command c)) (Contract.Canonical c) (as_utf8 (Contract.Surface c))
    (Contract.DirectRunSupported c) (map as_utf8 (Contract.VersionArgs c)) (as_utf8 (Contract.PromptInjection c))
    (as_utf8 (Contract.SystemPromptInjection c)) (as_utf8 (Contract.WorkspaceMapping c)) (as_utf8 (Contract.ModelMapping c))
    (as_utf8 (Contract.ReasoningMapping c)) (as_utf8 (Contract.SessionMapping c)) (as_utf8 (Contract.TimeoutPolicy c))
    (as_utf8 (Contract.ExitCodePolicy c)) (as_utf8 (Contract.OutputPolicy c)) (as_utf8 (Contract.SecretRedaction c)).
Definition clean_runtime (r : RuntimeType) : RuntimeType :=
  RuntimeType.mk (as_utf8 (RuntimeType.Kind r)) (as_utf8 (RuntimeType.DisplayName r)) (as_utf8 (RuntimeType.Provider r))
    (as_utf8 (RuntimeType.Command r)) (map as_utf8 (RuntimeType.Aliases r)) (RuntimeType.Installed r) (RuntimeType.Healthy r)
    (RuntimeType.Canonical r) (as_utf8 (RuntimeType.ResolvedPath r)) (as_utf8 (RuntimeType.Availability r))
    (as_utf8 (RuntimeType.AvailabilityReason r)) (clean_smoke (RuntimeType.Smoke r)) (clean_contract (RuntimeType.Contract r))
    (option_map (map as_utf8) (RuntimeType.Capabilities r)) (option_map (map as_utf8) (RuntimeType.Templates r)).
(** A configuration with its texts as UTF-8. *)
Definition clean_adapter (a : AdapterConfig) : AdapterConfig :=
  AdapterConfig.mk (as_utf8 (AdapterConfig.SchemaVersion a)) (clean_runtime (AdapterConfig.RuntimeType a))
    (clean_template (AdapterConfig.Template a)).

Lemma smoke_read s : dec_RuntimeSmokeResult (wire_tree (smoke_wire s)) RuntimeSmokeResult.zero = (clean_smoke s, true).
Proof.
  destruct s as [ok status category detail]. unfold smoke_wire, str_field, clean_smoke, dec_RuntimeSmokeResult.
  cbn [RuntimeSmokeResult.OK RuntimeSmokeResult.Status RuntimeSmokeResult.Category RuntimeSmokeResult.Detail].
  destruct (String.eqb_spec category ""), (String.eqb_spec detail ""); subst; read_members ltac:(fail).
Qed.

Lemma contract_read c : dec_RuntimeContractInfo (wire_tree (contract_wire c)) Contract.zero = (clean_contract c, true).
Proof.
  destruct c as [kind command canonical surface direct versions p1 p2 p3 p4 p5 p6 p7 p8 p9 p10].
  unfold contract_wire, clean_contract, dec_RuntimeContractInfo.
  cbn [Contract.Kind Contract.Command Contract.Canonical Contract.Surface Contract.DirectRunSupported Contract.VersionArgs
       Contract.PromptInjection Contract.SystemPromptInjection Contract.WorkspaceMapping Contract.ModelMapping
       Contract.ReasoningMapping Contract.SessionMapping Contract.TimeoutPolicy Contract.ExitCodePolicy
       Contract.OutputPolicy Contract.SecretRedaction].
  destruct (list_fields "versionArgs" versions) as [[-> ->]| ->]; read_members ltac:(fail).
Qed.

Lemma runtime_type_read r : dec_RuntimeType (wire_tree (runtime_type_wire r)) RuntimeType.zero = (clean_runtime r, true).
Proof.
  destruct r as [kind display provider command aliases installed healthy canonical path avail reason smoke contract caps templates].
  unfold runtime_type_wire, str_field, clean_runtime, dec_RuntimeType.
  cbn [RuntimeType.Kind RuntimeType.DisplayName RuntimeType.Provider RuntimeType.Command RuntimeType.Aliases RuntimeType.Installed
       RuntimeType.Healthy RuntimeType.Canonical RuntimeType.ResolvedPath RuntimeType.Availability RuntimeType.AvailabilityReason
       RuntimeType.Smoke RuntimeType.Contract RuntimeType.Capabilities RuntimeType.Templates].
  destruct (list_fields "aliases" aliases) as [[-> ->]| ->], (String.eqb_spec path ""), (String.eqb_spec reason ""); subst;
    read_members ltac:(idtac; first [apply smoke_read | apply contract_read | apply nilable_read; reflexivity]).
Qed.

Lemma adapter_read a : dec_AdapterConfig (wire_tree (WStruct (adapter_fields a))) AdapterConfig.zero = (clean_adapter a, true).
Proof.
  destruct a as [version rt template]. unfold adapter_fields, clean_adapter, dec_AdapterConfig.
  cbn [AdapterConfig.SchemaVersion AdapterConfig.RuntimeType AdapterConfig.Template].
  read_members ltac:(idtac; first [apply runtime_type_read | apply template_read]).
Qed.

(** What is written of a configuration has no numbers and few levels. *)
Lemma slice_fits {B} (w : B → wire) d l : (∀ x, fits d (w x)) → fits (S d) (slice_wire w l).
Proof.
  intros H. destruct l as [l|]; cbn [slice_wire]; [|apply fits_null]. apply fits_list. intros x Hx.
  apply list_elem_of_fmap in Hx as (b & -> & _). apply H.
Qed.

Lemma bool_field_fits d name b : fields_fit d (bool_field name b).
Proof. destruct b; [apply fields_fit_cons; [apply fits_bool|]|]; apply fields_fit_nil. Qed.

#[local] Hint Resolve slice_fits bool_field_fits : fits.

Lemma option_fits o : fits 2 (option_wire o).
Proof. unfold option_wire. auto 20 with fits. Qed.

Lemma adapter_fits a : fields_fit 4 (adapter_fields a).
Proof.
  unfold adapter_fields, runtime_type_wire, smoke_wire, contract_wire, template_wire, wrapspec_wire.
  repeat first [apply fields_fit_cons | apply fields_fit_app | apply fits_struct | apply slice_fits; intros | apply option_fits];
    auto 3 with fits.
Qed.

(** An object is not blank. *)
Lemma trim_with_last sp2 sp3 c : space1 c = false → (∀ a, sp2 a c = false) → (∀ a b, sp3 a b c = false) →
  ∀ t, trim_with sp2 sp3 (t +:+ String c "") ≠ "".
Proof.
  intros H1 H2 H3 t. remember (String.length t) as n eqn:Hn. revert t Hn. induction n as [n IH] using lt_wf_ind. intros t ->.
  destruct t as [|a [|b [|d t]]].
  - change (trim_with sp2 sp3 (String c "") ≠ ""). cbn [trim_with]. by rewrite H1.
  - change (trim_with sp2 sp3 (String a (String c "")) ≠ ""). cbn [trim_with]. rewrite ?H1, ?H2, ?H3.
    by destruct (space1 a).
  - change (trim_with sp2 sp3 (String a (String b (String c ""))) ≠ ""). cbn [trim_with]. rewrite ?H1, ?H2, ?H3.
    by destruct (space1 a), (space1 b), (sp2 a b).
  - change (trim_with sp2 sp3 (String a (String b (String d (t +:+ String c "")))) ≠ ""). cbn [trim_with].
    destruct (space1 a); [apply (IH (S (S (String.length t))) ltac:(cbn; lia) (String b (String d t)) eq_refl)|].
    destruct (sp2 a b); [apply (IH (S (String.length t)) ltac:(cbn; lia) (String d t) eq_refl)|].
    destruct (sp3 a b d); [apply (IH (String.length t) ltac:(cbn; lia) t eq_refl)|done].
Qed.

Lemma object_not_blank t : TrimSpace (String "{" t) ≠ "".
Proof.
  assert (trim_left (String "{" t) = String "{" t) as Hl by (apply trim_with_id; by destruct t as [|? [|? ?]]).
  unfold TrimSpace. rewrite Hl. unfold trim_right. intros E.
  apply (f_equal String.rev) in E. rewrite srev_involutive in E.
  change (String "{" t) with (String "{" "" +:+ t) in E. rewrite srev_app in E. revert E.
  apply trim_with_last; [done|intros a|intros a b]; unfold space2, space3; cbn; rewrite ?andb_false_r; done.
Qed.

(** The adapter configuration of a template, as a daemon writes it. *)
Lemma adapter_text_parses `{!Floats} a : parse (wire_text (WStruct (adapter_fields a))) = Some (wire_tree (WStruct (adapter_fields a))).
Proof.
  destruct (fits_struct 4 (adapter_fields a) (adapter_fits a)) as [N D].
  apply parse_written; [done|done|]. unfold Json.maxNestingDepth. lia.
Qed.

Lemma adapter_comes_back `{!Floats} a :
  AdapterConfig.SchemaVersion a = SchemaVersion →
  parseAdapterConfig (wire_text (WStruct (adapter_fields a)))
  = if TrimSpace (as_utf8 (Tpl.TemplateID (AdapterConfig.Template a))) =s "" then inl "runtime profile adapter config is missing template"
    else inr (clean_adapter a).
Proof.
  intros V. unfold parseAdapterConfig, JsonValue.Unmarshal. rewrite adapter_text_parses, adapter_read.
  assert (TrimSpace (wire_text (WStruct (adapter_fields a))) =s "" = false) as ->
    by (apply String.eqb_neq, object_not_blank).
  cbn [negb clean_adapter AdapterConfig.SchemaVersion AdapterConfig.Template clean_template Tpl.TemplateID]. rewrite V.
  reflexivity.
Qed.

(** ** The instances of what a daemon reports *)

Section reported.
Context {Uni : Unicode} {Fl : Floats} {Ord : MapOrder}.
Implicit Types (p : Pr.RuntimePreset) (cfg : InventoryConfig).

Lemma fold_add_preset cfg preferred l : ∀ inv,
  Inv.Runtimes (fold_left (add_preset cfg preferred) l inv)
    = Inv.Runtimes inv ++ map (λ p, runtimeToProto (RuntimeAdapter.ComputerID cfg) (runtimeTypeFromPreset p cfg) p) l
  ∧ Inv.RuntimeProfiles (fold_left (add_preset cfg preferred) l inv)
    = Inv.RuntimeProfiles inv
      ++ map (λ p, templateToProfile (runtimeTypeFromPreset p cfg) (DefaultInstanceTemplate (runtimeTypeFromPreset p cfg)) p) l.
Proof.
  induction l as [|p l IH]; intros inv; cbn [fold_left map]; [by rewrite !app_nil_r|].
  destruct (IH (add_preset cfg preferred inv p)) as [-> ->]. by split; cbn; rewrite <- app_assoc.
Qed.

Lemma own_identifier p : p ∈ presets → sanitizeID (Pr.Kind p) = Pr.Kind p.
Proof. revert p. apply Forall_forall. repeat constructor. Qed.

Lemma told_apart (key : Pr.RuntimePreset → string) p p' :
  NoDup (key <$> presets) → p ∈ presets → p' ∈ presets → key p = key p' → p = p'.
Proof.
  intros N [i Hi]%list_elem_of_lookup [j Hj]%list_elem_of_lookup E.
  assert (i = j) as <-; [|congruence].
  eapply NoDup_lookup; [exact N| |]; rewrite list_lookup_fmap, ?Hi, ?Hj; cbn; [done|by rewrite E].
Qed.

Lemma kinds_differ p p' : p ∈ presets → p' ∈ presets → Pr.Kind p = Pr.Kind p' → p = p'.
Proof. apply (told_apart Pr.Kind). vm_compute. repeat constructor; set_solver. Qed.

Lemma templates_differ p p' :
  p ∈ presets → p' ∈ presets → DefaultTemplateID (Pr.Kind p) = DefaultTemplateID (Pr.Kind p') → p = p'.
Proof. apply (told_apart (λ p, DefaultTemplateID (Pr.Kind p))). vm_compute. repeat constructor; set_solver. Qed.

Lemma find_before {A} (f : A → bool) l l' a : List.find f l = Some a → List.find f (l ++ l') = Some a.
Proof. induction l as [|x l IH]; [done|]. cbn. by destruct (f x). Qed.

Lemma find_mapped {A B} (f : A → B) (key : B → string) l a :
  a ∈ l → (∀ b, b ∈ l → key (f b) = key (f a) → b = a) → List.find (λ x, key x =s key (f a)) (map f l) = Some (f a).
Proof.
  intros Ha U. destruct (List.find _ _) as [x|] eqn:F.
  - apply List.find_some in F as [Hx E]. apply in_map_iff in Hx as (b & <- & Hb).
    apply String.eqb_eq in E. rewrite (U b); [done|by apply list_elem_of_In|done].
  - assert (Hin : In (f a) (map f l)) by (apply in_map, list_elem_of_In, Ha).
    apply (List.find_none _ _ F) in Hin. by rewrite String.eqb_refl in Hin.
Qed.

(** What the inventory of a daemon holds of a preset. *)
Lemma listed_presets p : p ∈ sort_with (λ a b, String.leb (Pr.Kind a) (Pr.Kind b)) (RuntimeCatalog.List true "" 200) ↔ p ∈ presets.
Proof. rewrite sort_with_perm. by change (RuntimeCatalog.List true "" 200) with presets. Qed.

Lemma preset_type p cfg :
  let rt := runtimeTypeFromPreset p cfg in
  RuntimeType.Kind rt = Pr.Kind p ∧ RuntimeType.Command rt = Pr.Command p
  ∧ (RuntimeType.Healthy rt = true → RuntimeType.Installed rt = true).
Proof.
  cbn zeta. unfold runtimeTypeFromPreset. destruct (resolveCommand _ _ _) as [resolved installed].
  destruct (assess _ _ _ _ _) as [[[av reason] smoke] healthy] eqn:A. cbn. split; [done|]. split; [done|]. intros ->.
  unfold assess in A. destruct (_ =s ""); [by simplify_eq|]. by destruct installed; [|simplify_eq].
Qed.

(** The inventory of a computer is what its daemon reported, with the instances made since. *)
Definition reported_by cfg (inv : Inv.ComputerInventory) : Prop :=
  Inv.Runtimes inv = Inv.Runtimes (ComputerInventory cfg)
  ∧ ∃ more, Inv.RuntimeProfiles inv = Inv.RuntimeProfiles (ComputerInventory cfg) ++ more.

Lemma reported_lists cfg inv : reported_by cfg inv → ∃ l more, (∀ p, p ∈ l ↔ p ∈ presets)
  ∧ Inv.Runtimes inv = map (λ p, runtimeToProto (RuntimeAdapter.ComputerID cfg) (runtimeTypeFromPreset p cfg) p) l
  ∧ Inv.RuntimeProfiles inv
    = map (λ p, templateToProfile (runtimeTypeFromPreset p cfg) (DefaultInstanceTemplate (runtimeTypeFromPreset p cfg)) p) l ++ more.
Proof.
  intros [Hr [more Hm]]. exists (sort_with (λ a b, String.leb (Pr.Kind a) (Pr.Kind b)) (RuntimeCatalog.List true "" 200)), more.
  split; [exact listed_presets|].
  rewrite Hr, Hm. unfold ComputerInventory. rewrite (proj1 (fold_add_preset _ _ _ _)), (proj2 (fold_add_preset _ _ _ _)).
  cbn [Inv.Runtimes Inv.RuntimeProfiles Inv.zero app]. split; reflexivity.
Qed.

Lemma reported_runtime p cfg inv : p ∈ presets → reported_by cfg inv →
  findRuntime inv ("runtime-" +:+ sanitizeID (RuntimeAdapter.ComputerID cfg) +:+ "-" +:+ Pr.Kind p)
  = Some (runtimeToProto (RuntimeAdapter.ComputerID cfg) (runtimeTypeFromPreset p cfg) p).
Proof.
  intros H (l & _ & Hl & Hr & _)%reported_lists. unfold findRuntime. rewrite Hr. clear Hr.
  set (f := λ p, runtimeToProto (RuntimeAdapter.ComputerID cfg) (runtimeTypeFromPreset p cfg) p).
  assert (Id : ∀ p, p ∈ presets →
    Rt.RuntimeId (f p) = "runtime-" +:+ sanitizeID (RuntimeAdapter.ComputerID cfg) +:+ "-" +:+ Pr.Kind p).
  { intros p' H'. unfold f, runtimeToProto. cbn -[String.app sanitizeID]. by rewrite (proj1 (preset_type p' cfg)), own_identifier. }
  rewrite <- Id by done. apply (find_mapped f Rt.RuntimeId); [by apply Hl|].
  intros b Hb%Hl. rewrite !Id by done.
  intros E%(inj (String.app _))%(inj (String.app _))%(inj (String.app _)). by apply kinds_differ.
Qed.

Lemma reported_template p cfg inv : p ∈ presets → reported_by cfg inv →
  findRuntimeProfile inv (DefaultTemplateID (Pr.Kind p))
  = Some (templateToProfile (runtimeTypeFromPreset p cfg) (DefaultInstanceTemplate (runtimeTypeFromPreset p cfg)) p).
Proof.
  intros H (l & more & Hl & _ & Hm)%reported_lists. unfold findRuntimeProfile. rewrite Hm. clear Hm.
  set (f := λ p, templateToProfile (runtimeTypeFromPreset p cfg) (DefaultInstanceTemplate (runtimeTypeFromPreset p cfg)) p).
  assert (Id : ∀ p, Prof.RuntimeProfileId (f p) = DefaultTemplateID (Pr.Kind p)).
  { intros p'. unfold f, templateToProfile. cbn -[DefaultTemplateID]. by rewrite (proj1 (preset_type p' cfg)). }
  rewrite <- Id. apply find_before, (find_mapped f Prof.RuntimeProfileId); [by apply Hl|].
  intros b Hb%Hl. rewrite !Id. by apply templates_differ.
Qed.

Lemma preset_template_clean p cfg : p ∈ presets →
  clean_template (DefaultInstanceTemplate (runtimeTypeFromPreset p cfg)) = DefaultInstanceTemplate (runtimeTypeFromPreset p cfg).
Proof.
  intros H. unfold runtimeTypeFromPreset. destruct (resolveCommand _ _ _) as [resolved installed].
  destruct (assess _ _ _ _ _) as [[[av reason] smoke] healthy].
  unfold presets in H. repeat (apply elem_of_cons in H as [->|H]; [vm_compute; reflexivity|]). by apply elem_of_nil in H.
Qed.

(** The options of an instance: those given, then the defaults of the template. *)
Lemma trimmed_fold (l : list (string * string)) k : k ≠ "" → NoDup l.*1 → (∀ x, x ∈ l → TrimSpace x.1 = x.1) → ∀ m : gmap string string,
  fold_left (λ clean x, let key := TrimSpace x.1 in if key =s "" then clean else <[key := TrimSpace x.2]> clean) l m !! k
  = match (list_to_map l : gmap string string) !! k with Some v => Some (TrimSpace v) | None => m !! k end.
Proof.
  intros Nk. induction l as [|[i v] l IH]; intros N H m; [done|].
  apply NoDup_cons in N as [Ni N]. cbn [fold_left fst snd]. rewrite list_to_map_cons.
  rewrite IH by (try done; intros x Hx; by apply H, list_elem_of_further). clear IH.
  pose proof (H (i, v) (list_elem_of_here _ _)) as Hi. cbn [fst] in Hi. rewrite Hi.
  destruct (decide (i = k)) as [->|D].
  - rewrite lookup_insert_eq, not_elem_of_list_to_map_1 by done. apply String.eqb_neq in Nk. rewrite Nk. by rewrite lookup_insert_eq.
  - rewrite lookup_insert_ne by done. destruct (list_to_map l !! k); [done|].
    destruct (i =s ""); [done|]. by rewrite lookup_insert_ne.
Qed.

Lemma trimmed_options_lookup values k : trimmed_keys values → k ≠ "" → trimmed_options values !! k = TrimSpace <$> values !! k.
Proof.
  intros H Nk. unfold trimmed_options. rewrite (trimmed_fold _ k Nk).
  - rewrite (list_to_map_proper _ (map_to_list values)); [|rewrite visit_perm; apply NoDup_fst_map_to_list|apply visit_perm].
    rewrite list_to_map_to_list. by destruct (values !! k).
  - rewrite visit_perm. apply NoDup_fst_map_to_list.
  - intros [i v] Hp. rewrite visit_perm in Hp. apply elem_of_map_to_list in Hp. by eapply H.
Qed.

Lemma trimmed_options_keys values : trimmed_keys (trimmed_options values).
Proof.
  unfold trimmed_options. generalize (visit (map_to_list values)). intros l.
  assert (G : ∀ m : gmap string string, trimmed_keys m → trimmed_keys (fold_left (λ clean x,
     let key := TrimSpace x.1 in if key =s "" then clean else <[key := TrimSpace x.2]> clean) l m)); [|by apply G].
  induction l as [|[i v] l IH]; intros m Hm; [done|]. cbn [fold_left fst snd]. apply IH. destruct (_ =s ""); [done|].
  intros k w [[<- _]|[_ Hk]]%lookup_insert_Some; [apply TrimSpace_idemp|by eapply Hm].
Qed.

(** A value is the one given or the default of an option of that name. *)
Lemma defaults_fold os k : ∀ clean,
  let out := fold_left default_option os clean in
  value_of out k = value_of clean k ∨ ∃ o, o ∈ os ∧ Opt.Name o = k ∧ value_of out k = Opt.Default o.
Proof.
  induction os as [|o os IH]; intros clean; [by left|]. cbn [fold_left]. cbn zeta in *.
  destruct (IH (default_option clean o)) as [->|(o' & Ho' & N & E)];
    [|by right; exists o'; split; [by apply list_elem_of_further|]].
  unfold default_option. destruct (clean !! Opt.Name o) as [v|] eqn:L; [by left|]. destruct (_ =s ""); [by left|].
  destruct (decide (k = Opt.Name o)) as [->|D].
  - right. exists o. split; [apply list_elem_of_here|]. split; [done|]. unfold value_of. by rewrite lookup_insert_eq.
  - left. unfold value_of. by rewrite lookup_insert_ne.
Qed.

Lemma defaults_keys os : Forall (λ o, TrimSpace (Opt.Name o) = Opt.Name o) os →
  ∀ clean, trimmed_keys clean → trimmed_keys (fold_left default_option os clean).
Proof.
  induction 1 as [|o os Ho Hos IH]; intros clean H; [done|]. cbn [fold_left]. apply IH. unfold default_option.
  destruct (clean !! Opt.Name o); [done|]. destruct (_ =s ""); [done|].
  intros k w [[<- _]|[_ Hk]]%lookup_insert_Some; [done|by eapply H].
Qed.

(** The default of the options that are checked. *)
Lemma default_of kind name o k d : o ∈ default_options kind name → Opt.Name o = k →
  (k, d) ∈ [("max_turns", "0"); ("allow_file_write", "true"); ("reasoning_effort", "medium")] → Opt.Default o = d.
Proof.
  unfold default_options. cbn zeta. rewrite !elem_of_cons.
  intros [->|[->|[->|[->|[->|[->|[->|[->|[->|H]]]]]]]]] <- Hd; try (by apply elem_of_nil in H);
    cbn in Hd |- *; repeat destruct Hd as [[= E]|Hd]; try done; by apply elem_of_nil in Hd.
Qed.

Lemma normalized_value rt displayName values k d : trimmed_keys values →
  (k, d) ∈ [("max_turns", "0"); ("allow_file_write", "true"); ("reasoning_effort", "medium")] →
  let value := value_of (normalizedAgentOptions (DefaultInstanceTemplate rt) displayName values) k in
  value = TrimSpace (value_of values k) ∨ value = d.
Proof.
  intros H Hk. cbn zeta. unfold normalizedAgentOptions.
  set (clean := if _ =s "" then _ else _).
  change (items (Tpl.Options (DefaultInstanceTemplate rt))) with (default_options (RuntimeType.Kind rt) (RuntimeType.DisplayName rt)).
  destruct (defaults_fold (default_options (RuntimeType.Kind rt) (RuntimeType.DisplayName rt)) k clean) as [->|(o & Ho & N & ->)];
    [left|right; by eapply default_of].
  assert (k ≠ "" ∧ k ≠ "display_name") as [K1 K2].
  { rewrite !elem_of_cons in Hk. destruct Hk as [[= -> _]|[[= -> _]|[[= -> _]|Hk]]]; [done..|by apply elem_of_nil in Hk]. }
  assert (value_of (trimmed_options values) k = TrimSpace (value_of values k)) as Hv.
  { unfold value_of. rewrite trimmed_options_lookup by done. by destruct (values !! k). }
  unfold clean. destruct (_ =s ""); [|done]. unfold value_of in *. by rewrite lookup_insert_ne.
Qed.

Lemma normalized_options rt displayName values : trimmed_keys values → admissible values → known_effort values →
  let out := normalizedAgentOptions (DefaultInstanceTemplate rt) displayName values in
  trimmed_keys out ∧ admissible out ∧ known_effort out.
Proof.
  intros H [An Ab] E. cbn zeta. split; [|split].
  - apply defaults_keys.
    + change (items (Tpl.Options (DefaultInstanceTemplate rt))) with (default_options (RuntimeType.Kind rt) (RuntimeType.DisplayName rt)).
      repeat constructor.
    + destruct (_ =s ""); [|apply trimmed_options_keys].
      intros k w [[<- _]|[_ Hk]]%lookup_insert_Some; [done|by eapply trimmed_options_keys].
  - unfold admissible. cbn zeta. split.
    + destruct (normalized_value rt displayName values "max_turns" "0" H) as [-> | ->]; [set_solver|by rewrite TrimSpace_idemp|].
      right. by vm_compute.
    + destruct (normalized_value rt displayName values "allow_file_write" "true" H) as [-> | ->]; [set_solver|by rewrite TrimSpace_idemp|].
      right. by vm_compute.
  - unfold known_effort. cbn zeta.
    destruct (normalized_value rt displayName values "reasoning_effort" "medium" H) as [-> | ->]; [set_solver|by rewrite TrimSpace_idemp|].
    right. vm_compute. set_solver.
Qed.

(** The template of a preset, as the server reads it back. *)
Lemma template_of_preset p cfg : p ∈ presets →
  let rt := runtimeTypeFromPreset p cfg in
  parseAdapterConfig (Prof.AdapterConfigJson (templateToProfile rt (DefaultInstanceTemplate rt) p))
  = inr (AdapterConfig.mk SchemaVersion (clean_runtime rt) (DefaultInstanceTemplate rt)).
Proof.
  intros H. cbn zeta. unfold templateToProfile. cbn -[wire_text parseAdapterConfig runtimeTypeFromPreset DefaultInstanceTemplate adapter_fields].
  rewrite adapter_comes_back by reflexivity. cbn [AdapterConfig.Template].
  assert (TrimSpace (as_utf8 (Tpl.TemplateID (DefaultInstanceTemplate (runtimeTypeFromPreset p cfg)))) =s "" = false) as ->.
  { pose proof (f_equal Tpl.TemplateID (preset_template_clean p cfg H)) as E.
    unfold clean_template in E. cbn [Tpl.TemplateID] in E. rewrite E. clear E.
    change (Tpl.TemplateID (DefaultInstanceTemplate (runtimeTypeFromPreset p cfg)))
      with (DefaultTemplateID (RuntimeType.Kind (runtimeTypeFromPreset p cfg))).
    rewrite (proj1 (preset_type p cfg)). revert p H. apply Forall_forall. repeat constructor; by vm_compute. }
  unfold clean_adapter. cbn [AdapterConfig.SchemaVersion AdapterConfig.RuntimeType AdapterConfig.Template].
  by rewrite preset_template_clean.
Qed.

Lemma reported_more cfg inv inv' profile : reported_by cfg inv →
  Inv.Runtimes inv' = Inv.Runtimes inv → Inv.RuntimeProfiles inv' = Inv.RuntimeProfiles inv ++ [profile] → reported_by cfg inv'.
Proof.
  intros [Hr [more Hm]] E1 E2. unfold reported_by. rewrite E1, E2, Hr, Hm. split; [reflexivity|].
  exists (more ++ [profile]). symmetry. apply app_assoc.
Qed.

Definition sound_options (values : gmap string string) : Prop :=
  trimmed_keys values ∧ admissible values ∧ known_effort values.

Lemma plan_from_template id rt p version reported profile wrap input s c inv :
  let template := DefaultInstanceTemplate rt in
  let options := normalizedAgentOptions template (In.DisplayName input) (In.Options input) in
  let adapter := AdapterConfig.mk version reported template in
  computers s !! In.ComputerID input = Some c → inventory c = Some inv →
  findRuntime inv (In.RuntimeID input) = Some (runtimeToProto id rt p) →
  findRuntimeProfile inv (In.TemplateID input) = Some profile →
  parseAdapterConfig (Prof.AdapterConfigJson profile) = inr adapter →
  In.ComputerID input ≠ "" → In.RuntimeID input ≠ "" → In.TemplateID input ≠ "" → In.DisplayName input ≠ "" →
  RuntimeType.Installed rt = true → RuntimeType.Healthy rt = true → RuntimeType.Kind rt ≠ "" →
  BuildWrapCommand template options = inr wrap →
  plan_instance input s = inr (inv, c, runtimeToProto id rt p, profile, adapter, template, options, wrap).
Proof.
  cbn zeta. intros Hc Hi Hr Hp Ha N1 N2 N3 N4 Hin Hh Hk Hw. apply String.eqb_neq in N1, N2, N3, N4, Hk.
  unfold plan_instance. rewrite N1, N2, N3, N4, Hc, Hi, Hr, Hp, Ha. cbn [orb AdapterConfig.Template].
  change (Rt.Installed (runtimeToProto id rt p)) with (RuntimeType.Installed rt).
  change (Rt.Healthy (runtimeToProto id rt p)) with (RuntimeType.Healthy rt).
  change (Rt.Kind (runtimeToProto id rt p)) with (RuntimeType.Kind rt).
  change (Tpl.RuntimeKind (DefaultInstanceTemplate rt)) with (RuntimeType.Kind rt).
  rewrite Hin, Hh, Hk. cbn [negb orb when].
  change (Tpl.RuntimeKind (DefaultInstanceTemplate rt)) with (RuntimeType.Kind rt).
  change (Tpl.MultiInstance (DefaultInstanceTemplate rt)) with true.
  rewrite String.eqb_refl, andb_false_r. cbn [negb]. by rewrite Hw.
Qed.

Lemma preset_named p : p ∈ presets → Pr.Kind p ≠ "".
Proof. revert p. apply Forall_forall. by repeat constructor. Qed.

Lemma planned p cfg input s c inv :
  p ∈ presets → RuntimeType.Healthy (runtimeTypeFromPreset p cfg) = true →
  computers s !! In.ComputerID input = Some c → inventory c = Some inv → reported_by cfg inv →
  In.ComputerID input ≠ "" → In.DisplayName input ≠ "" →
  In.RuntimeID input = "runtime-" +:+ sanitizeID (RuntimeAdapter.ComputerID cfg) +:+ "-" +:+ Pr.Kind p →
  In.TemplateID input = DefaultTemplateID (Pr.Kind p) → sound_options (In.Options input) →
  ∃ rt profile adapter template options wrap,
    plan_instance input s = inr (inv, c, rt, profile, adapter, template, options, wrap)
    ∧ Rt.Kind rt = Pr.Kind p ∧ WrapCommand.Command wrap = TrimSpace (Pr.Command p).
Proof.
  intros Hp Hh Hc Hi Hr Ne Nd Er Et (K & A & Ef).
  destruct (preset_type p cfg) as (Rk & Rc & Ri). pose proof (template_of_preset p cfg Hp) as Tp. cbn zeta in Tp.
  pose proof (reported_runtime p cfg inv Hp Hr) as Fr. pose proof (reported_template p cfg inv Hp Hr) as Ft.
  pose proof (preset_named p Hp) as Np.
  pose proof (λ values, healthy_runtime_starts p cfg values Hh) as Start.
  revert Hh Rk Rc Ri Tp Fr Ft Start. generalize (runtimeTypeFromPreset p cfg). intros rt Hh Rk Rc Ri Tp Fr Ft Start.
  destruct (normalized_options rt (In.DisplayName input) _ K A Ef) as (K' & A' & Ef').
  destruct (Start _ K' A' Ef') as (wrap & Hw & Cw & _).
  eexists _, _, _, _, _, wrap.
  split; [eapply (plan_from_template (RuntimeAdapter.ComputerID cfg) rt p); try done|by split; [exact Rk|]].
  - by rewrite Er.
  - by rewrite Et.
  - by rewrite Er.
  - by rewrite Et.
  - by apply Ri.
  - by rewrite Rk.
Qed.

(** C37. C1: what a daemon writes of a template in its inventory is what the server reads back when
    it makes an agent of it, each text as UTF-8; only a template with a blank identifier is
    refused. *)
Theorem templates_come_back rt template p :
  parseAdapterConfig (Prof.AdapterConfigJson (templateToProfile rt template p))
  = if TrimSpace (as_utf8 (Tpl.TemplateID template)) =s "" then inl "runtime profile adapter config is missing template"
    else inr (clean_adapter (AdapterConfig.mk SchemaVersion rt template)).
Proof. apply (adapter_comes_back (AdapterConfig.mk SchemaVersion rt template)). reflexivity. Qed.


End reported.

Section examples.
Local Existing Instance ascii_unicode.
Local Existing Instance RpcPrompt.plain_order.
Local Existing Instance same_text.

Definition counted : Rpc.Env := {| clock_at n := (1000 + Z.of_nat n)%Z; random_at n := FormatInt (Z.of_nat n) |}.

(** The server after the computer [desk] reported. *)
Definition desk_known : World (Eng := list_engine) :=
  mkWorld (New "srv" |> put_computers {["c1" := mkComputer None (Some (ComputerInventory desk)) "1" None 0]}) empty_store 0 [].

Definition a_claude : CreateAgentInstanceInput :=
  In.mk " c1 " "runtime-my-desk-claude" "template-claude-default" "Ann" "" "" {["api_token" := "s3cret"; "reasoning_effort" := " high"]}.

Example claude_created :
  let '(r, w) := CreateAgentInstance (Eng := list_engine) (E := counted) a_claude desk_known in
  sum_map (λ _, ()) (λ x, (AP.AgentId (created_agent x), AP.ReasoningEffort (created_agent x),
     Contains (Prof.AdapterConfigJson (created_profile x)) "s3cret")) r = inr ("agent_ann_0", "high", false).
Proof. vm_compute. reflexivity. Qed.


End examples.
