(* ===== verification/RpcServer.v ===== *)
(** * The RPC server: all of its methods, and at-most-once execution

    [request] is what a client can ask, one constructor per method of the generated
    service interface, with the steps the server's own goroutines take; [serve] is the
    dispatch.  [served] runs requests one after the other, each as one step, with restarts
    of the process between them.  [ServerWire] is a concrete codec for one message type,
    which the witnesses run requests with. *)
From S2P Require Import Prelude GoStr GoText Sql Json JsonValue Models Schema Store RuntimeCatalog AgentInstances.
From S2P Require Import Frame Idempotency Tunnels Tasks TaskAttempts Events Decisions.
From S2P Require Import Reminders Endpoints ImChats Deliveries Routes Messages.
From S2P Require Import AgentRuns Proto RpcText Rpc RpcOnce RpcAgents RpcTasks.
From S2P Require Import RpcMessages RpcReminders RpcMemory RpcPrompt.

Inductive request :=
| rAcknowledgeServerEvents (req : daemonv1.AcknowledgeServerEventsRequest.AcknowledgeServerEventsRequest)
| rRegisterComputer (req : daemonv1.RegisterComputerRequest.RegisterComputerRequest)
| rHeartbeatComputer (req : daemonv1.HeartbeatComputerRequest.HeartbeatComputerRequest)
| rSyncComputerInventory (req : daemonv1.SyncComputerInventoryRequest.SyncComputerInventoryRequest)
| rAcquireStartPermit (req : daemonv1.AcquireStartPermitRequest.AcquireStartPermitRequest)
| rReleaseStartPermit (req : daemonv1.ReleaseStartPermitRequest.ReleaseStartPermitRequest)
| rUpdateAgentStatus (req : daemonv1.UpdateAgentStatusRequest.UpdateAgentStatusRequest)
| rListAgentStatuses (req : daemonv1.ListAgentStatusesRequest.ListAgentStatusesRequest)
| rListAgentProfiles (req : daemonv1.ListAgentProfilesRequest.ListAgentProfilesRequest)
| rControlAgent (req : daemonv1.ControlAgentRequest.ControlAgentRequest)
| rLogActivity (req : daemonv1.LogActivityRequest.LogActivityRequest)
| rListActivity (req : daemonv1.ListActivityRequest.ListActivityRequest)
| rCreateCollaborationTask (req : daemonv1.CreateCollaborationTaskRequest.CreateCollaborationTaskRequest)
| rGetTask (req : daemonv1.GetTaskRequest.GetTaskRequest)
| rUpdateTask (req : daemonv1.UpdateTaskRequest.UpdateTaskRequest)
| rListCollaborationTasks (req : daemonv1.ListCollaborationTasksRequest.ListCollaborationTasksRequest)
| rListTaskBoard (req : daemonv1.ListTaskBoardRequest.ListTaskBoardRequest)
| rClaimCollaborationTask (req : daemonv1.ClaimCollaborationTaskRequest.ClaimCollaborationTaskRequest)
| rUpdateRunStatus (req : daemonv1.UpdateRunStatusRequest.UpdateRunStatusRequest)
| rRenewRunLease (req : daemonv1.RenewRunLeaseRequest.RenewRunLeaseRequest)
| rAppendRunStep (req : daemonv1.AppendRunStepRequest.AppendRunStepRequest)
| rFetchAssignedRuns (req : daemonv1.FetchAssignedRunsRequest.FetchAssignedRunsRequest)
| rListRuns (req : daemonv1.ListRunsRequest.ListRunsRequest)
| rGetRun (req : daemonv1.GetRunRequest.GetRunRequest)
| rSendMessage (req : daemonv1.SendMessageRequest.SendMessageRequest)
| rSendAgentDirectMessage (req : daemonv1.SendAgentDirectMessageRequest.SendAgentDirectMessageRequest)
| rReadMessages (req : daemonv1.ReadMessagesRequest.ReadMessagesRequest)
| rSearchMessages (req : daemonv1.SearchMessagesRequest.SearchMessagesRequest)
| rSaveMessage (req : daemonv1.SaveMessageRequest.SaveMessageRequest)
| rUnsaveMessage (req : daemonv1.UnsaveMessageRequest.UnsaveMessageRequest)
| rListSavedMessages (req : daemonv1.ListSavedMessagesRequest.ListSavedMessagesRequest)
| rListOutboundDeliveries (req : daemonv1.ListOutboundDeliveriesRequest.ListOutboundDeliveriesRequest)
| rRetryOutboundDelivery (req : daemonv1.RetryOutboundDeliveryRequest.RetryOutboundDeliveryRequest)
| rListInteractionEndpoints (req : daemonv1.ListInteractionEndpointsRequest.ListInteractionEndpointsRequest)
| rListChannels (req : daemonv1.ListChannelsRequest.ListChannelsRequest)
| rListEventsSince (req : daemonv1.ListEventsSinceRequest.ListEventsSinceRequest)
| rScheduleReminder (req : daemonv1.ScheduleReminderRequest.ScheduleReminderRequest)
| rListReminders (req : daemonv1.ListRemindersRequest.ListRemindersRequest)
| rCancelReminder (req : daemonv1.CancelReminderRequest.CancelReminderRequest)
| rSnoozeReminder (req : daemonv1.SnoozeReminderRequest.SnoozeReminderRequest)
| rUpdateReminder (req : daemonv1.UpdateReminderRequest.UpdateReminderRequest)
| rGetReminderLog (req : daemonv1.GetReminderLogRequest.GetReminderLogRequest)
| rListChannelDecisions (req : daemonv1.ListChannelDecisionsRequest.ListChannelDecisionsRequest)
| rProposeChannelDecision (req : daemonv1.ProposeChannelDecisionRequest.ProposeChannelDecisionRequest)
| rVoteChannelDecision (req : daemonv1.VoteChannelDecisionRequest.VoteChannelDecisionRequest)
| rRatifyChannelDecision (req : daemonv1.RatifyChannelDecisionRequest.RatifyChannelDecisionRequest)
| rRetireChannelDecision (req : daemonv1.RetireChannelDecisionRequest.RetireChannelDecisionRequest)
| rListDecisionVotes (req : daemonv1.ListDecisionVotesRequest.ListDecisionVotesRequest)
| rReportAgentRun (req : AgentRunStream)
| rListAgentRuns (req : daemonv1.ListAgentRunsRequest.ListAgentRunsRequest)
| rGetAgentRun (req : daemonv1.GetAgentRunRequest.GetAgentRunRequest)
| rSearchAgentRuns (req : daemonv1.SearchAgentRunsRequest.SearchAgentRunsRequest)
| rCreateTunnel (req : daemonv1.CreateTunnelRequest.CreateTunnelRequest)
| rListTunnels (req : daemonv1.ListTunnelsRequest.ListTunnelsRequest)
| rApproveTunnel (req : daemonv1.ApproveTunnelRequest.ApproveTunnelRequest)
| rRejectTunnel (req : daemonv1.RejectTunnelRequest.RejectTunnelRequest)
| rCloseTunnel (req : daemonv1.CloseTunnelRequest.CloseTunnelRequest)
| rGetLaunchPromptSnapshot (req : daemonv1.GetLaunchPromptSnapshotRequest.GetLaunchPromptSnapshotRequest)
| rSubscribeServerEvents (req : daemonv1.SubscribeServerEventsRequest.SubscribeServerEventsRequest)
| rSubscriptionTick (req : daemonv1.SubscribeServerEventsRequest.SubscribeServerEventsRequest)
    (accepts : daemonv1.ServerEvent.ServerEvent → bool) (sent : gset string)
| rOutboundDeliveryStatus (deliveryID : string) (statusValue : Z) (lastError : string)
    (nextRetryUnix deliveredUnix : Z)
| rListRuntimePresets (includeExperimental : bool) (kindPrefix : string) (limit : Z)
| rGetServerInfo (version : string)
| rAcknowledgeActivityEvents (req : daemonv1.AcknowledgeActivityEventsRequest.AcknowledgeActivityEventsRequest)
| rSubscribeActivity (targets : list string)
| rListComputerInventories (limit : Z)
| rCreateAgentInstance (input : CreateAgentInstanceInput)
| rRestart.

Section server.
Context {Eng : SqlEngine} {Uni : Unicode} {Txt : TextLib} {Fl : Floats} {Ord : MapOrder} {Sha : Sha256}
        {Tm : TimeLib} {PJ : ProtoJSON} {E : Env}.

(** The method's effect; its answer goes to the client. *)
Definition answer {A} (m : R A) : R unit := _ ← m; mret ().

Definition serve (q : request) : R unit :=
  match q with
  | rAcknowledgeServerEvents req => answer (RpcAgents.AcknowledgeServerEvents req)
  | rRegisterComputer req => answer (RpcAgents.RegisterComputer req)
  | rHeartbeatComputer req => answer (RpcAgents.HeartbeatComputer req)
  | rSyncComputerInventory req => answer (RpcAgents.SyncComputerInventory req)
  | rAcquireStartPermit req => answer (RpcAgents.AcquireStartPermit req)
  | rReleaseStartPermit req => answer (RpcAgents.ReleaseStartPermit req)
  | rUpdateAgentStatus req => answer (RpcAgents.UpdateAgentStatus req)
  | rListAgentStatuses req => answer (RpcAgents.ListAgentStatuses req)
  | rListAgentProfiles req => answer (RpcAgents.ListAgentProfiles req)
  | rControlAgent req => answer (RpcAgents.ControlAgent req)
  | rLogActivity req => answer (RpcAgents.LogActivity req)
  | rListActivity req => answer (RpcAgents.ListActivity req)
  | rCreateCollaborationTask req => answer (RpcTasks.CreateCollaborationTask req)
  | rGetTask req => answer (RpcTasks.GetTask req)
  | rUpdateTask req => answer (RpcTasks.UpdateTask req)
  | rListCollaborationTasks req => answer (RpcTasks.ListCollaborationTasks req)
  | rListTaskBoard req => answer (RpcTasks.ListTaskBoard req)
  | rClaimCollaborationTask req => answer (RpcTasks.ClaimCollaborationTask req)
  | rUpdateRunStatus req => answer (RpcTasks.UpdateRunStatus req)
  | rRenewRunLease req => answer (RpcTasks.RenewRunLease req)
  | rAppendRunStep req => answer (RpcTasks.AppendRunStep req)
  | rFetchAssignedRuns req => answer (RpcTasks.FetchAssignedRuns req)
  | rListRuns req => answer (RpcTasks.ListRuns req)
  | rGetRun req => answer (RpcTasks.GetRun req)
  | rSendMessage req => answer (RpcMessages.SendMessage req)
  | rSendAgentDirectMessage req => answer (RpcMessages.SendAgentDirectMessage req)
  | rReadMessages req => answer (RpcMessages.ReadMessages req)
  | rSearchMessages req => answer (RpcMessages.SearchMessages req)
  | rSaveMessage req => answer (RpcMessages.SaveMessage req)
  | rUnsaveMessage req => answer (RpcMessages.UnsaveMessage req)
  | rListSavedMessages req => answer (RpcMessages.ListSavedMessages req)
  | rListOutboundDeliveries req => answer (RpcMessages.ListOutboundDeliveries req)
  | rRetryOutboundDelivery req => answer (RpcMessages.RetryOutboundDelivery req)
  | rListInteractionEndpoints req => answer (RpcMessages.ListInteractionEndpoints req)
  | rListChannels req => answer (RpcMessages.ListChannels req)
  | rListEventsSince req => answer (RpcMessages.ListEventsSince req)
  | rScheduleReminder req => answer (RpcReminders.ScheduleReminder req)
  | rListReminders req => answer (RpcReminders.ListReminders req)
  | rCancelReminder req => answer (RpcReminders.CancelReminder req)
  | rSnoozeReminder req => answer (RpcReminders.SnoozeReminder req)
  | rUpdateReminder req => answer (RpcReminders.UpdateReminder req)
  | rGetReminderLog req => answer (RpcReminders.GetReminderLog req)
  | rListChannelDecisions req => answer (RpcMemory.ListChannelDecisions req)
  | rProposeChannelDecision req => answer (RpcMemory.ProposeChannelDecision req)
  | rVoteChannelDecision req => answer (RpcMemory.VoteChannelDecision req)
  | rRatifyChannelDecision req => answer (RpcMemory.RatifyChannelDecision req)
  | rRetireChannelDecision req => answer (RpcMemory.RetireChannelDecision req)
  | rListDecisionVotes req => answer (RpcMemory.ListDecisionVotes req)
  | rReportAgentRun req => answer (RpcMemory.ReportAgentRun req)
  | rListAgentRuns req => answer (RpcMemory.ListAgentRuns req)
  | rGetAgentRun req => answer (RpcMemory.GetAgentRun req)
  | rSearchAgentRuns req => answer (RpcMemory.SearchAgentRuns req)
  | rCreateTunnel req => answer (RpcMemory.CreateTunnel req)
  | rListTunnels req => answer (RpcMemory.ListTunnels req)
  | rApproveTunnel req => answer (RpcMemory.ApproveTunnel req)
  | rRejectTunnel req => answer (RpcMemory.RejectTunnel req)
  | rCloseTunnel req => answer (RpcMemory.CloseTunnel req)
  | rGetLaunchPromptSnapshot req => answer (RpcPrompt.GetLaunchPromptSnapshot req)
  | rSubscribeServerEvents req => answer (subscription_ping req)
  | rSubscriptionTick req accepts sent => answer (subscription_tick req accepts sent)
  | rOutboundDeliveryStatus id st e retry delivered => answer (RecordOutboundDeliveryStatus id st e retry delivered)
  | rListRuntimePresets include prefix limit =>
      answer (id ← gets serverID; mret (RuntimeCatalog.ListRuntimePresets include prefix limit id))
  | rGetServerInfo version => answer (AgentInstances.GetServerInfo version)
  | rAcknowledgeActivityEvents req => answer (AgentInstances.AcknowledgeActivityEvents req)
  | rSubscribeActivity targets => answer (AgentInstances.SubscribeActivity targets)
  | rListComputerInventories limit => answer (AgentInstances.ListComputerInventories limit)
  | rCreateAgentInstance input => answer (AgentInstances.CreateAgentInstance input)
  | rRestart => λ w, (inr (), restart w)
  end.

(** A failed request leaves what it did before it failed. *)
Definition served (requests : list request) (w : World) : World :=
  foldl (λ w q, (serve q w).2) w requests.

(** The process started on a database, nothing executed yet. *)
Definition start (serverID : string) (s : Store) : World := mkWorld (New serverID) s 0 [].

(** ** Every method keeps [once_ok] *)

Context {Laws : SqlLaws} {PJL : ProtoJSONLaws}.

Lemma idem_append_loop n ids e : untouched IdempotencyRecord (append_loop n ids e).
Proof. induction n; cbn [append_loop]; solve_untouched. Qed.

Lemma idem_search_hits opts l : untouched IdempotencyRecord (search_hits opts l).
Proof. induction l; cbn [search_hits]; solve_untouched. Qed.

Lemma idem_scan_page opts limit page acc : untouched IdempotencyRecord (scan_page opts limit page acc).
Proof. revert acc. induction page; intros acc; cbn [scan_page]; solve_untouched; auto. Qed.

Hint Resolve idem_append_loop idem_search_hits idem_scan_page : frame.

Lemma idem_scan_pages fuel opts limit page off acc :
  untouched IdempotencyRecord (scan_pages fuel opts limit page off acc).
Proof. revert off acc. induction fuel; intros off acc; cbn [scan_pages]; solve_untouched; auto. Qed.

Lemma idem_ListSavedMessages target user agent limit :
  untouched IdempotencyRecord (Messages.ListSavedMessages target user agent limit).
Proof. unfold Messages.ListSavedMessages, ListSavedMessagesWithOptions. solve_untouched. intros s. apply idem_scan_pages. Qed.

Hint Resolve idem_ListSavedMessages : frame.

Section keep.
Context (known : gmap (string * string) (option message)).

Lemma keeps_report_loop st p d : keeps known (report_loop st p d).
Proof. revert p d. induction st; intros p d; cbn [report_loop]; solve_once; auto. Qed.

Lemma keeps_enqueue_routes msg l seen ds : keeps known (enqueue_routes msg l seen ds).
Proof. revert seen ds. induction l; intros seen ds; cbn [enqueue_routes]; solve_once. Qed.

Lemma keeps_NewTunnelToken : keeps known NewTunnelToken.
Proof. intros w. by apply once_ok_same. Qed.

Lemma once_ok_restart w : once_ok known w → once_ok known (restart w).
Proof.
  intros [H1 H2 H3 H4 _ H6]. split; try done.
  intros m k o Ho. destruct (H6 m k o Ho) as (Hm & Hk & He & Ha). do 3 (split; [done|]).
  intros x Hx. destruct (Ha x Hx) as [_ Hs]. by split.
Qed.

End keep.

Hint Resolve keeps_report_loop keeps_enqueue_routes keeps_NewTunnelToken : once.

Lemma keeps_serve known q : keeps known (serve q).
Proof.
  destruct q; unfold serve; try (by solve_once).
  intros w. apply once_ok_restart.
Qed.

Lemma once_ok_served known requests w : once_ok known w → once_ok known (served requests w).
Proof.
  revert w. induction requests as [|q requests IH]; intros w Hw; [done|].
  apply IH, keeps_serve, Hw.
Qed.

Lemma once_ok_start serverID s : rows IdempotencyRecord s = [] → once_ok ∅ (start serverID s).
Proof.
  intros Hs. split; cbn; rewrite ?Hs; try done.
  - constructor.
  - intros m k H%elem_of_nil. done.
  - intros m k r H%elem_of_nil. done.
Qed.

(** C3. Whatever requests the server handles one after the other, with restarts of the
    process between them, the body of an idempotent method runs at most once for an
    idempotency key, or for a request id where there is no key. *)
Theorem rpc_at_most_once serverID s requests :
  rows IdempotencyRecord s = [] → NoDup (executed (served requests (start serverID s))).
Proof. intros Hs. apply (ok_NoDup ∅), once_ok_served, once_ok_start, Hs. Qed.

(** ** Retries *)

(** A method with an idempotency key, and its handler. *)
Record idem_method := {
  Req : Type; Resp : Type; resp_proto : Proto Resp;
  name : string; rid : Req → string; ik : Req → string; handler : Req → R Resp
}.

Definition key (m : idem_method) (req : Req m) : string := firstNonEmpty [ik m req; rid m req].

#[export] Existing Instance resp_proto.

Definition mRegisterComputer : idem_method := {|
  name := "RegisterComputer"; rid := daemonv1.RegisterComputerRequest.RequestId;
  ik := daemonv1.RegisterComputerRequest.IdempotencyKey;
  handler := RpcAgents.RegisterComputer |}.
Definition mSyncComputerInventory : idem_method := {|
  name := "SyncComputerInventory"; rid := daemonv1.SyncComputerInventoryRequest.RequestId;
  ik := daemonv1.SyncComputerInventoryRequest.IdempotencyKey;
  handler := RpcAgents.SyncComputerInventory |}.
Definition mAcquireStartPermit : idem_method := {|
  name := "AcquireStartPermit"; rid := daemonv1.AcquireStartPermitRequest.RequestId;
  ik := daemonv1.AcquireStartPermitRequest.IdempotencyKey;
  handler := RpcAgents.AcquireStartPermit |}.
Definition mReleaseStartPermit : idem_method := {|
  name := "ReleaseStartPermit"; rid := daemonv1.ReleaseStartPermitRequest.RequestId;
  ik := daemonv1.ReleaseStartPermitRequest.IdempotencyKey;
  handler := RpcAgents.ReleaseStartPermit |}.
Definition mUpdateAgentStatus : idem_method := {|
  name := "UpdateAgentStatus"; rid := daemonv1.UpdateAgentStatusRequest.RequestId;
  ik := daemonv1.UpdateAgentStatusRequest.IdempotencyKey;
  handler := RpcAgents.UpdateAgentStatus |}.
Definition mControlAgent : idem_method := {|
  name := "ControlAgent"; rid := daemonv1.ControlAgentRequest.RequestId;
  ik := daemonv1.ControlAgentRequest.IdempotencyKey;
  handler := RpcAgents.ControlAgent |}.
Definition mLogActivity : idem_method := {|
  name := "LogActivity"; rid := daemonv1.LogActivityRequest.RequestId;
  ik := daemonv1.LogActivityRequest.IdempotencyKey;
  handler := RpcAgents.LogActivity |}.
Definition mCreateCollaborationTask : idem_method := {|
  name := "CreateCollaborationTask"; rid := daemonv1.CreateCollaborationTaskRequest.RequestId;
  ik := daemonv1.CreateCollaborationTaskRequest.IdempotencyKey;
  handler := RpcTasks.CreateCollaborationTask |}.
Definition mClaimCollaborationTask : idem_method := {|
  name := "ClaimCollaborationTask"; rid := daemonv1.ClaimCollaborationTaskRequest.RequestId;
  ik := daemonv1.ClaimCollaborationTaskRequest.IdempotencyKey;
  handler := RpcTasks.ClaimCollaborationTask |}.
Definition mUpdateRunStatus : idem_method := {|
  name := "UpdateRunStatus"; rid := daemonv1.UpdateRunStatusRequest.RequestId;
  ik := daemonv1.UpdateRunStatusRequest.IdempotencyKey;
  handler := RpcTasks.UpdateRunStatus |}.
Definition mAppendRunStep : idem_method := {|
  name := "AppendRunStep"; rid := daemonv1.AppendRunStepRequest.RequestId;
  ik := daemonv1.AppendRunStepRequest.IdempotencyKey;
  handler := RpcTasks.AppendRunStep |}.
Definition mSendMessage : idem_method := {|
  name := "SendMessage"; rid := daemonv1.SendMessageRequest.RequestId;
  ik := daemonv1.SendMessageRequest.IdempotencyKey;
  handler := RpcMessages.SendMessage |}.
Definition mSendAgentDirectMessage : idem_method := {|
  name := "SendAgentDirectMessage"; rid := daemonv1.SendAgentDirectMessageRequest.RequestId;
  ik := daemonv1.SendAgentDirectMessageRequest.IdempotencyKey;
  handler := RpcMessages.SendAgentDirectMessage |}.
Definition mSaveMessage : idem_method := {|
  name := "SaveMessage"; rid := daemonv1.SaveMessageRequest.RequestId;
  ik := daemonv1.SaveMessageRequest.IdempotencyKey;
  handler := RpcMessages.SaveMessage |}.
Definition mRetryOutboundDelivery : idem_method := {|
  name := "RetryOutboundDelivery"; rid := daemonv1.RetryOutboundDeliveryRequest.RequestId;
  ik := daemonv1.RetryOutboundDeliveryRequest.IdempotencyKey;
  handler := RpcMessages.RetryOutboundDelivery |}.
Definition mScheduleReminder : idem_method := {|
  name := "ScheduleReminder"; rid := daemonv1.ScheduleReminderRequest.RequestId;
  ik := daemonv1.ScheduleReminderRequest.IdempotencyKey;
  handler := RpcReminders.ScheduleReminder |}.
Definition mSnoozeReminder : idem_method := {|
  name := "SnoozeReminder"; rid := daemonv1.SnoozeReminderRequest.RequestId;
  ik := daemonv1.SnoozeReminderRequest.IdempotencyKey;
  handler := RpcReminders.SnoozeReminder |}.
Definition mUpdateReminder : idem_method := {|
  name := "UpdateReminder"; rid := daemonv1.UpdateReminderRequest.RequestId;
  ik := daemonv1.UpdateReminderRequest.IdempotencyKey;
  handler := RpcReminders.UpdateReminder |}.

(** The methods that remember every answer. *)
Definition remembering_methods : list idem_method :=
  [mRegisterComputer; mSyncComputerInventory; mAcquireStartPermit; mReleaseStartPermit;
   mUpdateAgentStatus; mControlAgent; mLogActivity; mCreateCollaborationTask;
   mClaimCollaborationTask; mUpdateRunStatus; mAppendRunStep; mSendMessage;
   mSendAgentDirectMessage; mSaveMessage; mRetryOutboundDelivery; mScheduleReminder;
   mSnoozeReminder; mUpdateReminder].

Definition remembering (m : idem_method) : Prop :=
  ProtoLaws (Resp m) ∧ full_name (T := Resp m) = response_name (name m) ∧
  no_colon (name m) = true ∧ name m ≠ "" ∧
  ∀ req, ∃ body, handler m req = once (name m) (rid m req) (ik m req) body ∧
    remembers (name m) (key m req) body.

Lemma all_remembering : Forall remembering remembering_methods.
Proof.
  repeat (constructor; [split_and!; [apply _|reflexivity|reflexivity|discriminate|]|]); [..|constructor].
  all: intros req; eexists; (split; [reflexivity|]); solve_remembers.
Qed.

(** C4. Whatever an idempotent method answered with success, it answers again to every
    later request with the same key, and does nothing: whatever was asked in between,
    whatever else the retry says, and across restarts.  The answer must be one that
    [protojson] marshals; four of the methods are not here, for they do not remember
    their refusals. *)
Theorem rpc_retries serverID s before m req resp w after req' :
  rows IdempotencyRecord s = [] → m ∈ remembering_methods →
  handler m req (served before (start serverID s)) = (inr resp, w) →
  key m req ≠ "" → Marshal (to_message resp) ≠ None → key m req' = key m req →
  handler m req' (served after w) = (inr resp, served after w).
Proof.
  intros Hs Hm Hrun Hk HM Hk'. apply (once_ok_start serverID) in Hs.
  apply (once_ok_served ∅ before) in Hs.
  destruct (proj1 (Forall_forall _ _) all_remembering m Hm) as (Hl & Hn & Hc & Hne & Hbody).
  destruct (Hbody req) as (body & Hh & Hb). rewrite Hh in Hrun.
  destruct (answers_once (name m) Hn Hc Hne ∅ _ _ _ _ _ _ Hb Hs Hrun Hk HM) as [Hw Ha].
  apply (once_ok_learn (name m) Hc ∅ _ _ _ Hw Hk) in Ha.
  apply (once_ok_served _ after) in Ha.
  destruct (Hbody req') as (body' & -> & _). eapply once_answered; [done..|exact Ha|].
  change (firstNonEmpty _) with (key m req'). rewrite Hk'. apply lookup_insert_eq.
Qed.

End server.

(** ** A concrete server *)

(** [protojson] for the responses the examples ask for. *)
Definition wire : ProtoJSON := {|
  Marshal x := match x with
    | aReleaseStartPermitResponse m => Some (if RlP.Accepted m then "{'accepted':true}" else "{}")
    | _ => None
    end;
  Unmarshal name body :=
    if name =s "nekode.daemon.v1.ReleaseStartPermitResponse" then
      if body =s "{'accepted':true}" then Some (aReleaseStartPermitResponse (RlP.set_Accepted true RlP.zero))
      else if body =s "{}" then Some (aReleaseStartPermitResponse RlP.zero)
      else None
    else None
|}.

Lemma wire_laws : @ProtoJSONLaws wire.
Proof.
  split.
  - intros [] body; cbn; try discriminate. destruct m as [[]]; intros [= <-]; reflexivity.
  - intros [] body; cbn; try discriminate. destruct m as [[]]; intros [= <-]; discriminate.
  - intros name body x. cbn. destruct (name =s _) eqn:E; [|discriminate]. apply eqb_eq_str in E as ->.
    repeat case_match; intros; simplify_eq; reflexivity.
Qed.

(** Time and identifiers that count. *)
Definition counting : Env := {| clock_at n := (1000 + Z.of_nat n)%Z; random_at n := FormatInt (Z.of_nat n) |}.

Definition no_time : TimeLib := {| ParseInLocation _ _ := None |}.
Definition no_sum : Sha256 := {| Sum256_hex _ := "" |}.

Definition release (request_id key : string) : daemonv1.ReleaseStartPermitRequest.ReleaseStartPermitRequest :=
  RlQ.zero |> RlQ.set_RequestId request_id |> RlQ.set_IdempotencyKey key |> RlQ.set_LeaseId "lease_1".

Definition run_toy (requests : list request) : World (Eng := list_engine) :=
  served (Eng := list_engine) (Uni := ascii_unicode) (Txt := no_text) (Fl := same_text) (Ord := plain_order)
    (Sha := no_sum) (Tm := no_time) (PJ := wire) (E := counting) requests
    (start (Eng := list_engine) "srv" empty_store).

Lemma rpc_at_most_once_witness :
  executed (run_toy [rReleaseStartPermit (release "r1" "k"); rReleaseStartPermit (release "r2" "k"); rRestart;
                     rReleaseStartPermit (release "r3" "k")]) = [("ReleaseStartPermit", "k")] ∧
  NoDup (executed (run_toy [rReleaseStartPermit (release "r1" "k"); rReleaseStartPermit (release "r2" "k"); rRestart;
                            rReleaseStartPermit (release "r3" "k")])).
Proof.
  split; [vm_compute; reflexivity|].
  apply (rpc_at_most_once (Eng := list_engine) (Laws := list_engine_laws) (PJ := wire) (PJL := wire_laws)).
  reflexivity.
Defined.

Lemma rpc_retries_witness :
  let first := RpcAgents.ReleaseStartPermit (Eng := list_engine) (PJ := wire) (E := counting) (release "r1" "k") in
  let retry := RpcAgents.ReleaseStartPermit (Eng := list_engine) (PJ := wire) (E := counting) (release "r2" "k") in
  let later := served (Eng := list_engine) (Uni := ascii_unicode) (Txt := no_text) (Fl := same_text)
    (Ord := plain_order) (Sha := no_sum) (Tm := no_time) (PJ := wire) (E := counting) [rRestart]
    (first (run_toy [])).2 in
  (first (run_toy [])).1 = inr (RlP.set_Accepted true RlP.zero) ∧
  retry later = (inr (RlP.set_Accepted true RlP.zero), later).
Proof.
  split; [vm_compute; reflexivity|].
  apply (rpc_retries (Eng := list_engine) (Laws := list_engine_laws) (PJ := wire) (PJL := wire_laws)
    "srv" empty_store [] (mReleaseStartPermit (Eng := list_engine) (PJ := wire) (E := counting))
    (release "r1" "k") (RlP.set_Accepted true RlP.zero) _ [rRestart] (release "r2" "k")).
  - reflexivity.
  - unfold remembering_methods. do 3 apply list_elem_of_further. apply list_elem_of_here.
  - vm_compute. reflexivity.
  - vm_compute. discriminate.
  - vm_compute. discriminate.
  - vm_compute. reflexivity.
Defined.

(** A refused update is not remembered, and its key stays taken: the retry is told that
    the first request is still in progress, for good. *)
Definition bad_update (request_id : string) : daemonv1.UpdateTaskRequest.UpdateTaskRequest :=
  daemonv1.UpdateTaskRequest.zero
    |> daemonv1.UpdateTaskRequest.set_RequestId request_id
    |> daemonv1.UpdateTaskRequest.set_IdempotencyKey "k"
    |> daemonv1.UpdateTaskRequest.set_TaskId "task_1".

Definition update (request_id : string) (w : World (Eng := list_engine)) :
    (rpc_error + daemonv1.UpdateTaskResponse.UpdateTaskResponse) * World :=
  RpcTasks.UpdateTask (Uni := ascii_unicode) (PJ := wire) (E := counting) (bad_update request_id) w.

Example refusals_are_not_remembered :
  (update "r1" (run_toy [])).1 = inr (rejected_update "task_not_found") ∧
  (update "r2" (update "r1" (run_toy [])).2).1 = inl (Status Aborted "idempotency key is already in progress").
Proof. vm_compute. by split. Qed.

(** ** A tunnel approved by the agent that asked for it *)

Definition pending_tunnel : TuS.TunnelRecord := TuS.zero
  |> TuS.set_ID "tun_1" |> TuS.set_ComputerID "c1" |> TuS.set_Token "t0k" |> TuS.set_LocalPort 3000
  |> TuS.set_State TunnelStatePending |> TuS.set_CreatorID "agent_1" |> TuS.set_CreatorKind "agent".

Definition approval : AtQ.ApproveTunnelRequest := AtQ.zero |> AtQ.set_TunnelId "tun_1"
  |> AtQ.set_Context (Some (RqC.zero |> RqC.set_Actor (Some (AcC.zero |> AcC.set_AgentId "agent_1")))).

Definition tunnel_world : World (Eng := list_engine) :=
  start (Eng := list_engine) "srv" (set_tunnels (Eng := list_engine) [pending_tunnel] empty_store).

Lemma ApproveTunnel_asks_no_role_witness :
  initiatorFromContext (AtQ.Context approval) = "agent_1" ∧
  ∃ t w', ApproveTunnel (Eng := list_engine) (E := counting) approval tunnel_world =
    (inr (AtP.zero |> AtP.set_Tunnel (Some t)), w') ∧
    daemonv1.Tunnel.State t = daemonv1.TunnelState_TUNNEL_STATE_ACTIVE.
Proof.
  split; [reflexivity|].
  destruct (ApproveTunnel_asks_no_role (Eng := list_engine) (Laws := list_engine_laws) (E := counting)
    approval pending_tunnel tunnel_world) as (t & w' & Hrun & Hst & _).
  - reflexivity.
  - apply list_elem_of_here.
  - vm_compute. reflexivity.
  - discriminate.
  - reflexivity.
  - exists t, w'. split; [exact Hrun|exact Hst].
Defined.
