(* ===== verification/TunnelRegistry.v ===== *)
(** * Live tunnel streams ([internal/tunnelregistry/registry.go])

    The hub between the daemons' [ProxyExchange] streams and the preview requests that
    wait for answers on them.  Streams and responders are shared by pointer: a pointer is
    a position in the registry's cells.  Each operation is one critical section of the
    registry's mutex; a channel operation that Go may resolve in several ways takes the
    choice as an argument, one that blocks is [None].  [live] is a history: the streams
    whose handler has not run its deferred [Detach] yet, with their computers. *)
From S2P Require Import Prelude GoStr Proto.

Module PF := daemonv1.ProxyFrame.
Notation frame := PF.ProxyFrame (only parsing).

Inductive registry_error := ErrNoDaemon | ErrStreamClosed | ErrRequestGone | ErrSend.

(** [sent] is what went out on the stream below. *)
Record lockedStream := mkStream { sent : list frame; closed : bool }.

(** [frames] is the channel's buffer. *)
Record Responder := mkResponder { frames : list frame; done : bool }.

(** A responder and the stream it was registered against. *)
Record streamOwnedResponder := mkOwned { stream : nat; responder : nat }.

Record Registry := mkRegistry {
  stream_cells : list lockedStream;
  responder_cells : list Responder;
  streams : gmap string nat;
  responders : gmap string (gmap string streamOwnedResponder)
}.

Definition New : Registry := mkRegistry [] [] ∅ ∅.

Definition put_stream_cells v rg := mkRegistry v (responder_cells rg) (streams rg) (responders rg).
Definition put_responder_cells v rg := mkRegistry (stream_cells rg) v (streams rg) (responders rg).
Definition put_streams v rg := mkRegistry (stream_cells rg) (responder_cells rg) v (responders rg).
Definition put_responders v rg := mkRegistry (stream_cells rg) (responder_cells rg) (streams rg) v.

(** ** Streams *)

Definition newLockedStream : lockedStream := mkStream [] false.

Definition markClosed (p : nat) (rg : Registry) : Registry :=
  put_stream_cells (alter (λ s, mkStream (sent s) true) p (stream_cells rg)) rg.

(** [inner_ok] is whether the stream below takes the frame. *)
Definition Send (p : nat) (f : frame) (inner_ok : bool) (rg : Registry) : option registry_error * Registry :=
  match stream_cells rg !! p with
  | None => (Some ErrStreamClosed, rg)
  | Some s =>
      if closed s then (Some ErrStreamClosed, rg)
      else if inner_ok then
        (None, put_stream_cells (<[p := mkStream (sent s ++ [f]) false]> (stream_cells rg)) rg)
      else (Some ErrSend, rg)
  end.

(** ** Responders *)

Definition frame_buffer : nat := 32.

Definition NewResponder (rg : Registry) : nat * Registry :=
  (length (responder_cells rg), put_responder_cells (responder_cells rg ++ [mkResponder [] false]) rg).

(** [select] between the closed [done] and room in the buffer; [take] is the choice when
    both are ready. *)
Definition Push (take : bool) (f : frame) (r : Responder) : option (bool * Responder) :=
  let room := length (frames r) <? frame_buffer in
  let delivered := mkResponder (frames r ++ [f]) (done r) in
  if done r then Some (if take && room then (true, delivered) else (false, r))
  else if room then Some (true, delivered)
  else None.

(** [select] between the closed [done] and a buffered frame. *)
Definition Next (take : bool) (r : Responder) : option (option frame * Responder) :=
  match frames r with
  | f :: rest =>
      if done r && negb take then Some (None, r)
      else Some (Some f, mkResponder rest (done r))
  | [] => if done r then Some (None, r) else None
  end.

Definition close_responder (r : Responder) : Responder := mkResponder (frames r) true.

Definition Close (p : nat) (rg : Registry) : Registry :=
  put_responder_cells (alter close_responder p (responder_cells rg)) rg.

(** ** The registry *)

Definition Attach (computerID : string) (rg : Registry) : nat * Registry :=
  let wrapped := length (stream_cells rg) in
  let rg := put_stream_cells (stream_cells rg ++ [newLockedStream]) rg in
  let rg := match streams rg !! computerID with
            | Some existing => markClosed existing rg
            | None => rg
            end in
  (wrapped, put_streams (<[computerID := wrapped]> (streams rg)) rg).

Definition put_bucket (computerID : string) (bucket : gmap string streamOwnedResponder) (rg : Registry) :
    Registry :=
  put_responders (if bool_decide (bucket = ∅) then delete computerID (responders rg)
                  else <[computerID := bucket]> (responders rg)) rg.

Definition bucket_of (computerID : string) (rg : Registry) : gmap string streamOwnedResponder :=
  from_opt ∅ (responders rg !! computerID).

Definition Detach (computerID : string) (wrapped : nat) (rg : Registry) : Registry :=
  let rg := markClosed wrapped rg in
  let rg := if bool_decide (streams rg !! computerID = Some wrapped)
            then put_streams (delete computerID (streams rg)) rg else rg in
  match responders rg !! computerID with
  | None => rg
  | Some bucket =>
      let stale := responder ∘ snd <$> map_to_list (filter (λ p, stream p.2 = wrapped) bucket) in
      let rg := put_bucket computerID (filter (λ p, stream p.2 ≠ wrapped) bucket) rg in
      foldl (λ rg p, Close p rg) rg stale
  end.

Definition Register (computerID : string) (r : nat) (requestID : string) (rg : Registry) :
    registry_error + (string * nat * Registry) :=
  match streams rg !! computerID with
  | None => inl ErrNoDaemon
  | Some s =>
      inr (requestID, s,
           put_responders (<[computerID := <[requestID := mkOwned s r]> (bucket_of computerID rg)]>
                             (responders rg)) rg)
  end.

Definition Unregister (computerID requestID : string) (rg : Registry) : Registry :=
  match responders rg !! computerID with
  | None => rg
  | Some bucket => put_bucket computerID (delete requestID bucket) rg
  end.

(** [None] is a push that blocks. *)
Definition Dispatch (computerID : string) (f : frame) (take : bool) (rg : Registry) :
    option (option registry_error * Registry) :=
  match bucket_of computerID rg !! PF.RequestId f with
  | None => Some (Some ErrRequestGone, rg)
  | Some owned =>
      match responder_cells rg !! responder owned with
      | None => Some (Some ErrRequestGone, rg)
      | Some r =>
          match Push take f r with
          | None => None
          | Some (false, _) => Some (Some ErrRequestGone, rg)
          | Some (true, r') =>
              Some (None, put_responder_cells (<[responder owned := r']> (responder_cells rg)) rg)
          end
      end
  end.

Definition HasDaemon (computerID : string) (rg : Registry) : bool :=
  bool_decide (is_Some (streams rg !! computerID)).

(** ** Histories *)

Inductive event :=
| EAttach (computerID : string)
| EDetach (computerID : string) (wrapped : nat)
| ESend (wrapped : nat) (f : frame) (inner_ok : bool)
| ENewResponder
| ERegister (computerID : string) (r : nat) (requestID : string)
| EUnregister (computerID requestID : string)
| EDispatch (computerID : string) (f : frame) (take : bool)
| ENext (r : nat) (take : bool)
| EClose (r : nat).

(** The handlers keep to the protocol: they detach what they attached, once, and register
    responders they made.  [None] is an event that cannot happen now. *)
Definition step (e : event) (st : Registry * gmap nat string) : option (Registry * gmap nat string) :=
  let (rg, live) := st in
  match e with
  | EAttach c => let (p, rg) := Attach c rg in Some (rg, <[p := c]> live)
  | EDetach c p =>
      if bool_decide (live !! p = Some c) then Some (Detach c p rg, delete p live) else None
  | ESend p f ok => Some ((Send p f ok rg).2, live)
  | ENewResponder => Some ((NewResponder rg).2, live)
  | ERegister c r id =>
      if r <? length (responder_cells rg) then
        match Register c r id rg with
        | inl _ => Some (rg, live)
        | inr (_, _, rg) => Some (rg, live)
        end
      else None
  | EUnregister c id => Some (Unregister c id rg, live)
  | EDispatch c f take => match Dispatch c f take rg with Some (_, rg) => Some (rg, live) | None => None end
  | ENext p take =>
      match responder_cells rg !! p with
      | None => None
      | Some r =>
          match Next take r with
          | None => None
          | Some (_, r) => Some (put_responder_cells (<[p := r]> (responder_cells rg)) rg, live)
          end
      end
  | EClose p => Some (Close p rg, live)
  end.

Fixpoint run (es : list event) (st : Registry * gmap nat string) : option (Registry * gmap nat string) :=
  match es with
  | [] => Some st
  | e :: es => step e st ≫= run es
  end.

(** ** Invariant *)

Definition registered (rg : Registry) (c id : string) (o : streamOwnedResponder) : Prop :=
  ∃ bucket, responders rg !! c = Some bucket ∧ bucket !! id = Some o.

Definition stream_closed (rg : Registry) (p : nat) : bool :=
  match stream_cells rg !! p with Some s => closed s | None => true end.

Record registry_ok (rg : Registry) (live : gmap nat string) : Prop := {
  ok_stream c p : streams rg !! c = Some p → live !! p = Some c ∧ stream_closed rg p = false;
  ok_live p c : live !! p = Some c →
    p < length (stream_cells rg) ∧ (stream_closed rg p = false → streams rg !! c = Some p);
  ok_bucket c bucket : responders rg !! c = Some bucket → bucket ≠ ∅;
  ok_registered c id o : registered rg c id o →
    live !! stream o = Some c ∧ responder o < length (responder_cells rg);
  ok_buffer p r : responder_cells rg !! p = Some r → length (frames r) ≤ frame_buffer
}.

(** ** What the parts of an operation change *)

Lemma stream_closed_markClosed p q rg :
  stream_closed (markClosed p rg) q = if decide (q = p) then true else stream_closed rg q.
Proof.
  unfold stream_closed, markClosed. cbn. destruct (decide (q = p)) as [->|Hne].
  - rewrite list_lookup_alter_eq. by destruct (stream_cells rg !! p).
  - by rewrite list_lookup_alter_ne by done.
Qed.

Lemma foldl_Close l rg :
  foldl (λ rg p, Close p rg) rg l =
  put_responder_cells (foldl (λ cells p, alter close_responder p cells) (responder_cells rg) l) rg.
Proof. revert rg. induction l as [|p l IH]; intros rg; [by destruct rg|]. cbn. by rewrite IH. Qed.

Lemma lookup_close_all (l : list nat) (cells : list Responder) q :
  foldl (λ cells p, alter close_responder p cells) cells l !! q =
  (if decide (q ∈ l) then close_responder else id) <$> cells !! q.
Proof.
  revert cells. induction l as [|p l IH]; intros cells; cbn.
  - rewrite decide_False by set_solver. by destruct (cells !! q).
  - rewrite IH. destruct (decide (q = p)) as [->|Hne].
    + rewrite list_lookup_alter_eq, (decide_True (P := p ∈ p :: l)) by set_solver.
      destruct (cells !! p); [|done]. cbn. by destruct (decide (p ∈ l)).
    + rewrite list_lookup_alter_ne by done. f_equal.
      destruct (decide (q ∈ l)), (decide (q ∈ p :: l)); set_solver.
Qed.

Lemma length_close_all (l : list nat) (cells : list Responder) :
  length (foldl (λ cells p, alter close_responder p cells) cells l) = length cells.
Proof. revert cells. induction l as [|p l IH]; intros cells; cbn; [done|]. by rewrite IH, length_alter. Qed.

Lemma registered_put_bucket c bucket rg c' id o :
  registered (put_bucket c bucket rg) c' id o ↔
  if decide (c' = c) then bucket !! id = Some o else registered rg c' id o.
Proof.
  unfold registered, put_bucket. cbn. destruct (decide (c' = c)) as [->|Hne]; case_bool_decide as Hb.
  - rewrite lookup_delete_eq. subst bucket. rewrite lookup_empty. split; [by intros (b & ? & _)|done].
  - rewrite lookup_insert_eq. split; [by intros (b & [= <-] & ?)|eauto].
  - by rewrite lookup_delete_ne by done.
  - by rewrite lookup_insert_ne by done.
Qed.

Lemma put_bucket_not_empty c bucket rg :
  (∀ c b, responders rg !! c = Some b → b ≠ ∅) →
  ∀ c' b, responders (put_bucket c bucket rg) !! c' = Some b → b ≠ ∅.
Proof.
  intros H c' b. unfold put_bucket. cbn. case_bool_decide.
  - rewrite lookup_delete_Some. intros [_ Hb]. by apply (H c').
  - rewrite lookup_insert_Some. intros [[_ <-]|[_ Hb]]; [done|by apply (H c')].
Qed.

Lemma registered_Register c r requestID rg q s :
  Register c r requestID rg = inr q → streams rg !! c = Some s →
  q = (requestID, s, put_responders (<[c := <[requestID := mkOwned s r]> (bucket_of c rg)]> (responders rg)) rg).
Proof. unfold Register. by intros H Hs; rewrite Hs in H; injection H. Qed.

(** The registry a [Detach] leaves, before the stale responders are closed. *)
Definition detached (c : string) (p : nat) (rg : Registry) : Registry :=
  let rg := markClosed p rg in
  if bool_decide (streams rg !! c = Some p) then put_streams (delete c (streams rg)) rg else rg.

Definition stale (p : nat) (bucket : gmap string streamOwnedResponder) : list nat :=
  responder ∘ snd <$> map_to_list (filter (λ q, stream q.2 = p) bucket).

Lemma elem_of_stale p bucket q :
  q ∈ stale p bucket ↔ ∃ id o, bucket !! id = Some o ∧ stream o = p ∧ responder o = q.
Proof.
  unfold stale. rewrite list_elem_of_fmap. split.
  - intros ([id o] & -> & Hin). apply elem_of_map_to_list, map_lookup_filter_Some in Hin as [Hb Hs]. eauto.
  - intros (id & o & Hb & Hs & <-). exists (id, o). split; [done|].
    by apply elem_of_map_to_list, map_lookup_filter_Some.
Qed.

Lemma Detach_eq c p rg :
  Detach c p rg =
  match responders rg !! c with
  | None => detached c p rg
  | Some bucket =>
      let rg' := put_bucket c (filter (λ q, stream q.2 ≠ p) bucket) (detached c p rg) in
      put_responder_cells (foldl (λ cells p, alter close_responder p cells) (responder_cells rg) (stale p bucket)) rg'
  end.
Proof.
  unfold Detach. fold (detached c p rg).
  assert (responders (detached c p rg) = responders rg) as -> by by unfold detached; case_bool_decide.
  destruct (responders rg !! c) as [bucket|]; [|done]. cbv zeta. rewrite foldl_Close. f_equal.
  unfold detached. by case_bool_decide.
Qed.

Lemma detached_responders c p rg :
  responders (detached c p rg) = responders rg ∧ responder_cells (detached c p rg) = responder_cells rg.
Proof. by unfold detached; case_bool_decide. Qed.

Lemma detached_streams c p rg :
  streams (detached c p rg) =
    (if bool_decide (streams rg !! c = Some p) then delete c (streams rg) else streams rg) ∧
  stream_cells (detached c p rg) = stream_cells (markClosed p rg).
Proof.
  unfold detached. cbv zeta. change (streams (markClosed p rg)) with (streams rg). by case_bool_decide.
Qed.

Lemma Detach_streams c p rg :
  streams (Detach c p rg) =
    (if bool_decide (streams rg !! c = Some p) then delete c (streams rg) else streams rg) ∧
  stream_cells (Detach c p rg) = stream_cells (markClosed p rg).
Proof. rewrite Detach_eq. destruct (responders rg !! c); apply detached_streams. Qed.

Lemma registered_put_cells x rg c id o : registered (put_responder_cells x rg) c id o ↔ registered rg c id o.
Proof. done. Qed.

Lemma Detach_registered c p rg c' id o :
  registered (Detach c p rg) c' id o ↔ registered rg c' id o ∧ ¬ (c' = c ∧ stream o = p).
Proof.
  rewrite Detach_eq. destruct (responders rg !! c) as [bucket|] eqn:Hb.
  - cbv zeta. rewrite registered_put_cells, registered_put_bucket.
    destruct (decide (c' = c)) as [->|Hne].
    + rewrite map_lookup_filter_Some. unfold registered. rewrite Hb. split.
      * intros [Ho Hs]. split; [eauto|]. intros [_ ?]. by apply Hs.
      * intros [(b & [= <-] & Ho) Hs]. split; [done|]. intros ?. by apply Hs.
    + unfold registered. rewrite (proj1 (detached_responders c p rg)). naive_solver.
  - unfold registered. rewrite (proj1 (detached_responders c p rg)). split; [|tauto].
    intros (b & Hb' & Ho). split; [eauto|]. intros [-> _]. congruence.
Qed.

(** The responders registered on the stream are closed, the others are left alone. *)
Lemma Detach_cells c p rg q :
  ((∃ id o, registered rg c id o ∧ stream o = p ∧ responder o = q) ∧
     responder_cells (Detach c p rg) !! q = close_responder <$> responder_cells rg !! q) ∨
  (¬ (∃ id o, registered rg c id o ∧ stream o = p ∧ responder o = q) ∧
     responder_cells (Detach c p rg) !! q = responder_cells rg !! q).
Proof.
  rewrite Detach_eq. unfold registered. destruct (responders rg !! c) as [bucket|] eqn:Hb.
  - cbn. rewrite lookup_close_all. destruct (decide (q ∈ stale p bucket)) as [Hin|Hno].
    + left. split; [|done]. apply elem_of_stale in Hin as (id & o & Ho & Hs & Hq). eauto 10.
    + right. split; [|by destruct (responder_cells rg !! q)]. intros (id & o & (b & [= <-] & Ho) & Hs & Hq).
      apply Hno, elem_of_stale. eauto.
  - right. rewrite (proj2 (detached_responders c p rg)). naive_solver.
Qed.

Lemma Detach_length c p rg : length (responder_cells (Detach c p rg)) = length (responder_cells rg).
Proof.
  rewrite Detach_eq. destruct (responders rg !! c); cbn.
  - apply length_close_all.
  - by rewrite (proj2 (detached_responders c p rg)).
Qed.

Lemma Detach_buckets c p rg :
  (∀ c b, responders rg !! c = Some b → b ≠ ∅) →
  ∀ c' b, responders (Detach c p rg) !! c' = Some b → b ≠ ∅.
Proof.
  intros H. rewrite Detach_eq. destruct (responders rg !! c).
  - cbv zeta. cbn [responders put_responder_cells]. apply put_bucket_not_empty.
    by rewrite (proj1 (detached_responders c p rg)).
  - by rewrite (proj1 (detached_responders c p rg)).
Qed.

Lemma stream_closed_new rg q :
  stream_closed (put_stream_cells (stream_cells rg ++ [newLockedStream]) rg) q =
  if decide (q = length (stream_cells rg)) then false else stream_closed rg q.
Proof.
  unfold stream_closed. cbn. destruct (decide (q = length (stream_cells rg))) as [->|Hne].
  - by rewrite list_lookup_middle.
  - destruct (decide (q < length (stream_cells rg))).
    + by rewrite lookup_app_l by lia.
    + rewrite !lookup_ge_None_2; [done|lia|]. rewrite length_app. cbn. lia.
Qed.

Lemma Attach_parts c rg :
  let (p, rg') := Attach c rg in
  p = length (stream_cells rg) ∧ length (stream_cells rg') = S (length (stream_cells rg)) ∧
  streams rg' = <[c := p]> (streams rg) ∧ responders rg' = responders rg ∧
  responder_cells rg' = responder_cells rg ∧
  (∀ q, stream_closed rg' q = if decide (streams rg !! c = Some q) then true
                              else if decide (q = p) then false else stream_closed rg q).
Proof.
  unfold Attach. cbn [streams put_stream_cells].
  destruct (streams rg !! c) as [old|].
  - split_and!; try done.
    + cbn. rewrite length_alter, length_app. cbn. lia.
    + intros q. change (stream_closed (put_streams ?x ?y) q) with (stream_closed y q).
      etrans; [apply (stream_closed_markClosed old q (put_stream_cells _ rg))|].
      rewrite stream_closed_new. destruct (decide (q = old)), (decide (Some old = Some q)); congruence.
  - split_and!; try done.
    + cbn. rewrite length_app. cbn. lia.
    + intros q. change (stream_closed (put_streams ?x ?y) q) with (stream_closed y q).
      rewrite stream_closed_new. by rewrite (decide_False (P := None = Some q)) by done.
Qed.

(** ** Preservation *)

Lemma attach_ok c rg live :
  registry_ok rg live → let (p, rg') := Attach c rg in registry_ok rg' (<[p := c]> live).
Proof.
  intros [H1 H2 H3 H4 H5]. pose proof (Attach_parts c rg) as HA. destruct (Attach c rg) as [p rg'].
  destruct HA as (Hp & Hlen & Hs & Hr & Hc & Hcl).
  assert (∀ q c', live !! q = Some c' → q ≠ p) as Hfresh by (intros q c' [Hq _]%H2; lia).
  split; rewrite ?Hr, ?Hc; try done.
  - intros c' q. rewrite Hs, lookup_insert_Some, Hcl. intros [[-> <-]|[Hne Hq]].
    + rewrite lookup_insert_eq, (decide_True (P := p = p)) by done. split; [done|].
      rewrite decide_False; [done|]. by intros [Hl _]%H1; apply Hfresh in Hl.
    + destruct (H1 _ _ Hq) as [Hl Ho]. pose proof (Hfresh _ _ Hl).
      rewrite lookup_insert_ne, (decide_False (P := q = p)) by done. split; [done|].
      rewrite decide_False; [done|]. intros [Hl' _]%H1. congruence.
  - intros q c'. rewrite lookup_insert_Some, Hlen, Hcl, Hs. intros [[<- <-]|[Hne Hq]].
    + split; [lia|]. by rewrite lookup_insert_eq.
    + destruct (H2 _ _ Hq) as [Hb Ho]. split; [lia|]. rewrite (decide_False (P := q = p)) by done.
      destruct (decide (streams rg !! c = Some q)) as [|Hold]; [done|]. intros Hopen.
      rewrite lookup_insert_ne; [by apply Ho|]. intros <-. by apply Hold, Ho.
  - intros c' id o Ho. unfold registered in Ho. rewrite Hr in Ho. destruct (H4 c' id o Ho) as [Hl Hb].
    rewrite lookup_insert_ne; [done|]. intros E. by apply (Hfresh _ _ Hl).
Qed.

Lemma detach_ok c p rg live :
  live !! p = Some c → registry_ok rg live → registry_ok (Detach c p rg) (delete p live).
Proof.
  intros Hp [H1 H2 H3 H4 H5]. destruct (Detach_streams c p rg) as [Hs Hc].
  assert (∀ q, stream_closed (Detach c p rg) q = if decide (q = p) then true else stream_closed rg q) as Hcl.
  { intros q. rewrite <-stream_closed_markClosed. unfold stream_closed. by rewrite Hc. }
  split.
  - intros c' q Hq. rewrite Hs in Hq. assert (streams rg !! c' = Some q ∧ q ≠ p) as [Hq' Hne].
    { case_bool_decide as Hcp; [apply lookup_delete_Some in Hq as [Hne Hq]|]; split; try done; intros ->.
      - apply H1 in Hq as [Hl _]. congruence.
      - destruct (H1 _ _ Hq) as [Hl _]. assert (c = c') as -> by congruence. done. }
    destruct (H1 _ _ Hq') as [Hl Ho]. rewrite lookup_delete_ne, Hcl, decide_False by done. done.
  - intros q c' Hq. apply lookup_delete_Some in Hq as [Hne Hq]. destruct (H2 _ _ Hq) as [Hb Ho].
    rewrite Hc, Hcl, decide_False, Hs by done. unfold markClosed. cbn. rewrite length_alter. split; [done|].
    intros Hopen. specialize (Ho Hopen). case_bool_decide as Hcp; [|done].
    rewrite lookup_delete_ne; [done|]. intros <-. congruence.
  - by apply Detach_buckets.
  - intros c' id o [Ho Hno]%Detach_registered. destruct (H4 _ _ _ Ho) as [Hl Hb].
    rewrite Detach_length. split; [|done]. apply lookup_delete_Some. split; [|done].
    intros E. apply Hno. split; [congruence|done].
  - intros q r Hr. destruct (Detach_cells c p rg q) as [[_ E]|[_ E]]; rewrite E in Hr; [|by apply (H5 q)].
    apply fmap_Some in Hr as (r0 & Hr0 & ->). exact (H5 q r0 Hr0).
Qed.

Lemma put_responder_cells_ok cells rg live :
  length (responder_cells rg) ≤ length cells →
  (∀ p r, cells !! p = Some r → length (frames r) ≤ frame_buffer) →
  registry_ok rg live → registry_ok (put_responder_cells cells rg) live.
Proof.
  intros Hlen Hb [H1 H2 H3 H4 H5]. split; try done.
  intros c id o Ho%registered_put_cells. destruct (H4 _ _ _ Ho). split; [done|]. cbn. lia.
Qed.

Lemma update_responder_ok p r r' rg live :
  responder_cells rg !! p = Some r → length (frames r') ≤ frame_buffer →
  registry_ok rg live → registry_ok (put_responder_cells (<[p := r']> (responder_cells rg)) rg) live.
Proof.
  intros Hp Hr Hok. apply put_responder_cells_ok; [by rewrite length_insert| |done].
  intros q x. rewrite list_lookup_insert_Some. intros [(<- & <- & _)|[_ Hx]]; [done|].
  by apply (ok_buffer _ _ Hok q).
Qed.

Lemma put_bucket_ok c bucket rg live :
  (∀ id o, bucket !! id = Some o → live !! stream o = Some c ∧ responder o < length (responder_cells rg)) →
  registry_ok rg live → registry_ok (put_bucket c bucket rg) live.
Proof.
  intros Hb [H1 H2 H3 H4 H5]. split; try done.
  - by apply put_bucket_not_empty.
  - intros c' id o Ho%registered_put_bucket. destruct (decide (c' = c)) as [->|]; [by apply (Hb id)|by apply (H4 c' id)].
Qed.

Lemma bucket_of_registered rg c id o : bucket_of c rg !! id = Some o ↔ registered rg c id o.
Proof. unfold bucket_of, registered. destruct (responders rg !! c) as [b|]; cbn; [naive_solver|set_solver]. Qed.

Lemma register_ok c r requestID id s rg rg' live :
  r < length (responder_cells rg) → registry_ok rg live → Register c r requestID rg = inr (id, s, rg') →
  registry_ok rg' live.
Proof.
  intros Hr Hok HR. unfold Register in HR. destruct (streams rg !! c) as [p|] eqn:Hp; [|done]. injection HR as _ _ <-.
  replace (put_responders _ rg) with (put_bucket c (<[requestID := mkOwned p r]> (bucket_of c rg)) rg).
  - apply put_bucket_ok; [|done]. intros id' o. rewrite lookup_insert_Some. intros [[_ <-]|[_ Ho]].
    + split; [|done]. by apply (ok_stream _ _ Hok).
    + apply bucket_of_registered in Ho. by apply (ok_registered _ _ Hok c id').
  - unfold put_bucket. rewrite bool_decide_false; [done|]. apply insert_non_empty.
Qed.

Lemma unregister_ok c requestID rg live : registry_ok rg live → registry_ok (Unregister c requestID rg) live.
Proof.
  intros Hok. unfold Unregister. destruct (responders rg !! c) as [bucket|] eqn:Hb; [|done].
  apply put_bucket_ok; [|done]. intros id o [_ Ho]%lookup_delete_Some.
  apply (ok_registered _ _ Hok c id). by exists bucket.
Qed.

Lemma Push_buffer take f r b r' :
  Push take f r = Some (b, r') → length (frames r) ≤ frame_buffer → length (frames r') ≤ frame_buffer.
Proof.
  unfold Push. intros H Hr. destruct (Nat.ltb_spec (length (frames r)) frame_buffer).
  - destruct (done r), take; cbn in H; injection H as <- <-; cbn; rewrite ?length_app; cbn; lia.
  - rewrite andb_false_r in H. destruct (done r); [|done]. by injection H as <- <-.
Qed.

Lemma dispatch_ok c f take e rg rg' live :
  registry_ok rg live → Dispatch c f take rg = Some (e, rg') → registry_ok rg' live.
Proof.
  intros Hok. unfold Dispatch. destruct (bucket_of c rg !! _) as [o|]; [|by intros [= _ <-]].
  destruct (responder_cells rg !! responder o) as [r|] eqn:Hr; [|by intros [= _ <-]].
  destruct (Push take f r) as [[[] r']|] eqn:HP; [|by intros [= _ <-]|done]. intros [= _ <-].
  eapply update_responder_ok; [done| |done]. eapply Push_buffer; [done|]. by apply (ok_buffer _ _ Hok (responder o)).
Qed.

Lemma next_ok p take r f r' rg live :
  responder_cells rg !! p = Some r → Next take r = Some (f, r') → registry_ok rg live →
  registry_ok (put_responder_cells (<[p := r']> (responder_cells rg)) rg) live.
Proof.
  intros Hp HN Hok. eapply update_responder_ok; [done| |done]. pose proof (ok_buffer _ _ Hok _ _ Hp) as Hb.
  unfold Next in HN. destruct (frames r) as [|g rest] eqn:Hf; [destruct (done r)|destruct (done r && negb take)];
    try done; injection HN as <- <-; rewrite ?Hf; cbn in *; lia.
Qed.

Lemma send_ok p f ok rg live : registry_ok rg live → registry_ok (Send p f ok rg).2 live.
Proof.
  intros [H1 H2 H3 H4 H5]. unfold Send. destruct (stream_cells rg !! p) as [s|] eqn:Hs; [|by split].
  destruct (closed s) eqn:Hc; [by split|]. destruct ok; [|by split].
  assert (∀ q, stream_closed (put_stream_cells (<[p := mkStream (sent s ++ [f]) false]> (stream_cells rg)) rg) q =
               stream_closed rg q) as Hcl.
  { intros q. unfold stream_closed. cbn. destruct (decide (q = p)) as [->|].
    - rewrite list_lookup_insert_eq by by eapply lookup_lt_Some. by rewrite Hs.
    - by rewrite list_lookup_insert_ne by done. }
  split; try done; cbn [snd].
  - intros c q Hq. rewrite Hcl. by apply H1.
  - intros q c Hq. rewrite Hcl. cbn. rewrite length_insert. by apply H2.
Qed.

Lemma close_ok p rg live : registry_ok rg live → registry_ok (Close p rg) live.
Proof.
  intros Hok. apply put_responder_cells_ok; [by rewrite length_alter| |done]. intros q r Hq.
  destruct (decide (q = p)) as [->|].
  - rewrite list_lookup_alter_eq in Hq. apply fmap_Some in Hq as (r0 & Hr0 & ->).
    exact (ok_buffer _ _ Hok _ _ Hr0).
  - rewrite list_lookup_alter_ne in Hq by done. by apply (ok_buffer _ _ Hok q).
Qed.

Lemma new_responder_ok rg live : registry_ok rg live → registry_ok (NewResponder rg).2 live.
Proof.
  intros Hok. apply put_responder_cells_ok; [rewrite length_app; lia| |done].
  intros q r [Hq|[_ Hq]]%lookup_app_Some; [by apply (ok_buffer _ _ Hok q)|].
  apply list_lookup_singleton_Some in Hq as [_ <-]. cbn. unfold frame_buffer. lia.
Qed.

Lemma step_ok e st st' : registry_ok st.1 st.2 → step e st = Some st' → registry_ok st'.1 st'.2.
Proof.
  destruct st as [rg live]. cbn [fst snd]. intros Hok. destruct e; cbn [step].
  - pose proof (attach_ok computerID rg live Hok) as HA. destruct (Attach computerID rg). by intros [= <-].
  - case_bool_decide; [|done]. intros [= <-]. by apply detach_ok.
  - intros [= <-]. by apply send_ok.
  - intros [= <-]. by apply new_responder_ok.
  - destruct (Nat.ltb_spec r (length (responder_cells rg))); [|done].
    destruct (Register computerID r requestID rg) as [|[[? ?] ?]] eqn:HR; intros [= <-]; [done|].
    by eapply register_ok.
  - intros [= <-]. by apply unregister_ok.
  - destruct (Dispatch computerID f take rg) as [[? ?]|] eqn:HD; [|done]. intros [= <-]. by eapply dispatch_ok.
  - destruct (responder_cells rg !! r) as [x|] eqn:Hx; [|done].
    destruct (Next take x) as [[? ?]|] eqn:HN; [|done]. intros [= <-]. by eapply next_ok.
  - intros [= <-]. by apply close_ok.
Qed.

Lemma run_ok es st st' : registry_ok st.1 st.2 → run es st = Some st' → registry_ok st'.1 st'.2.
Proof.
  revert st. induction es as [|e es IH]; intros st Hok; cbn; [by intros [= <-]|].
  destruct (step e st) as [st1|] eqn:Hs; [|done]. cbn. apply IH. by eapply step_ok.
Qed.

Lemma New_ok : registry_ok New ∅.
Proof.
  split; unfold registered; cbn.
  - intros c p H. by apply lookup_empty_Some in H.
  - intros p c H. by apply lookup_empty_Some in H.
  - intros c b H. by apply lookup_empty_Some in H.
  - intros c id o (b & H & _). by apply lookup_empty_Some in H.
  - intros p r H. by rewrite lookup_nil in H.
Qed.


(** C25. The end of a stream only affects itself: the registry forgets the stream if it is
    still its computer's, drops and closes the responders that were registered on it, and
    leaves every other stream, registration and responder alone; so a handler that lost
    a reconnect race does not disturb the requests on the newer stream. *)
Theorem Detach_only_its_own es rg live c p :
  run es (New, ∅) = Some (rg, live) → live !! p = Some c →
  let rg' := Detach c p rg in
  stream_closed rg' p = true ∧
  (∀ c' q, streams rg' !! c' = Some q ↔ streams rg !! c' = Some q ∧ q ≠ p) ∧
  (∀ c' id o, registered rg' c' id o ↔ registered rg c' id o ∧ stream o ≠ p) ∧
  (∀ q r, responder_cells rg !! q = Some r →
     responder_cells rg' !! q = Some r ∨
     (responder_cells rg' !! q = Some (close_responder r) ∧
      ∃ id o, registered rg c id o ∧ stream o = p ∧ responder o = q)) ∧
  (∀ c' id o r, registered rg c' id o → stream o = p → responder_cells rg' !! responder o = Some r →
     done r = true).
Proof.
  intros Hrun Hp. pose proof (run_ok es (New, ∅) (rg, live) New_ok Hrun) as [H1 H2 H3 H4 H5]. cbn [fst snd] in *.
  destruct (Detach_streams c p rg) as [Hs Hcells].
  assert (∀ c' id o, registered rg c' id o → stream o = p → c' = c) as Hown.
  { intros c' id o [Hl _]%H4 <-. congruence. }
  cbv zeta. split_and!.
  - unfold stream_closed. rewrite Hcells. fold (stream_closed (markClosed p rg) p).
    by rewrite stream_closed_markClosed, decide_True.
  - intros c' q. rewrite Hs. split.
    + intros Hq. case_bool_decide as Hcp.
      * apply lookup_delete_Some in Hq as [Hne Hq]. split; [done|]. intros ->. apply H1 in Hq as [? _]. congruence.
      * split; [done|]. intros ->. destruct (H1 _ _ Hq) as [Hl _]. assert (c = c') as -> by congruence. done.
    + intros [Hq Hne]. case_bool_decide as Hcp; [|done]. rewrite lookup_delete_ne; [done|].
      intros ->. congruence.
  - intros c' id o. rewrite Detach_registered. split; [|naive_solver].
    intros [Ho Hno]. split; [done|]. intros Hso. apply Hno. split; [by apply (Hown _ id o)|done].
  - intros q r Hr. destruct (Detach_cells c p rg q) as [[Hex E]|[_ E]]; rewrite E, Hr; [right|left]; done.
  - intros c' id o r Ho Hso Hr. assert (c' = c) as -> by by eapply Hown.
    destruct (Detach_cells c p rg (responder o)) as [[_ E]|[Hno _]]; [|exfalso; eauto 10].
    rewrite E in Hr. apply fmap_Some in Hr as (? & _ & ->). done.
Qed.

(** A daemon reconnects while a request waits on its old stream. *)
Definition reconnect : list event :=
  [EAttach "cmp"; ENewResponder; ERegister "cmp" 0 "r1"; EAttach "cmp"; ENewResponder; ERegister "cmp" 1 "r2"].

Definition reconnected : Registry * gmap nat string := from_opt (New, ∅) (run reconnect (New, ∅)).


Lemma Detach_only_its_own_witness :
  reconnected.2 !! 0 = Some "cmp" ∧ HasDaemon "cmp" (Detach "cmp" 0 reconnected.1) = true ∧
  done <$> (responder_cells (Detach "cmp" 0 reconnected.1) !! 0) = Some true ∧
  stream_closed (Detach "cmp" 0 reconnected.1) 0 = true.
Proof.
  split_and!; [vm_compute; reflexivity..|].
  apply (Detach_only_its_own reconnect reconnected.1 reconnected.2 "cmp" 0); vm_compute; reflexivity.
Defined.

(** A closed responder may still take a frame: both cases of the [select] are ready. *)
Example push_after_close f :
  Push true f (close_responder (mkResponder [] false)) = Some (true, mkResponder [f] true).
Proof. reflexivity. Qed.
