(* ===== verification/RpcProxy.v ===== *)
(** * The tunnel stream of a daemon ([ProxyExchange], [internal/daemonrpc/tunnels.go])

    The handler of one stream as a small machine over the shared registry and the store:
    it attaches, dispatches the frames it receives, and when the stream ends detaches,
    looks for a newer stream of the computer and closes the computer's tunnels if there
    is none.  Each step is one critical section, so handlers interleave between steps. *)
From S2P Require Import Prelude GoStr Sql Models Schema Store Tunnels Proto Rpc TunnelRegistry.

Module TR := TunnelRegistry.

Section proxy.
Context {Eng : SqlEngine}.

Record hub := mkHub { registry : Registry; tunnels_db : Store }.

Definition set_registry (rg : Registry) (h : hub) : hub := mkHub rg (tunnels_db h).

(** Where a handler is. *)
Inductive exchange :=
| Serving (computerID : string) (wrapped : nat)
| Ending (computerID : string) (wrapped : nat)
| Detached (computerID : string)
| Closing (computerID : string)
| Ended.

(** What [stream.Recv] returns. *)
Inductive received := RecvFrame (f : frame) | RecvEnd.

(** The first frame: the attachment, or the error it is refused with. *)
Definition attach_frame (r : received) : rpc_error + string :=
  match r with
  | RecvEnd => inl (Status InvalidArgument "expected attach frame")
  | RecvFrame f =>
      if PF.TunnelId f <>s "__attach__" then
        inl (Status InvalidArgument "first frame must be an attach frame (tunnel_id=__attach__)")
      else if PF.RequestId f =s "" then
        inl (Status InvalidArgument "attach frame missing computer id in request_id")
      else inr (PF.RequestId f)
  end.

Definition ProxyExchange (first : received) (h : hub) : rpc_error + (exchange * hub) :=
  match attach_frame first with
  | inl e => inl e
  | inr computerID =>
      let (wrapped, rg) := Attach computerID (registry h) in
      inr (Serving computerID wrapped, set_registry rg h)
  end.

(** One step of a handler; [None] is a dispatch that blocks. *)
Definition exchange_step (now : Z) (r : received) (take : bool) (x : exchange) (h : hub) :
    option (exchange * hub) :=
  match x with
  | Serving computerID wrapped =>
      match r with
      | RecvEnd => Some (Ending computerID wrapped, h)
      | RecvFrame f =>
          match Dispatch computerID f take (registry h) with
          | None => None
          | Some (None, rg) | Some (Some ErrRequestGone, rg) =>
              Some (Serving computerID wrapped, set_registry rg h)
          | Some (Some _, rg) => Some (Ending computerID wrapped, set_registry rg h)
          end
      end
  | Ending computerID wrapped =>
      Some (Detached computerID, set_registry (Detach computerID wrapped (registry h)) h)
  | Detached computerID =>
      Some (if HasDaemon computerID (registry h) then Ended else Closing computerID, h)
  | Closing computerID =>
      let (_, db) := CloseTunnelsForComputer now computerID "daemon_disconnect" (tunnels_db h) in
      Some (Ended, mkHub (registry h) db)
  | Ended => None
  end.

(** The deferred function, when no other handler runs in between. *)
Fixpoint finish (fuel : nat) (now : Z) (x : exchange) (h : hub) : exchange * hub :=
  match fuel with
  | 0 => (x, h)
  | S fuel =>
      match exchange_step now RecvEnd false x h with
      | None => (x, h)
      | Some (x, h) => finish fuel now x h
      end
  end.

(** ** Theorems *)

(** The only error of a dispatch is [ErrRequestGone], so no frame ends a stream. *)
Lemma exchange_serves now f take c p h x h' :
  exchange_step now (RecvFrame f) take (Serving c p) h = Some (x, h') → x = Serving c p.
Proof.
  cbn [exchange_step]. unfold Dispatch.
  destruct (bucket_of c (registry h) !! _) as [o|]; [|by intros [= <- _]].
  destruct (responder_cells (registry h) !! _) as [r|]; [|by intros [= <- _]].
  destruct (Push take f r) as [[[] ?]|]; [by intros [= <- _]..|done].
Qed.

Lemma HasDaemon_Detach c p rg :
  HasDaemon c (Detach c p rg) =
  match streams rg !! c with Some q => negb (bool_decide (q = p)) | None => false end.
Proof.
  unfold HasDaemon. rewrite (proj1 (Detach_streams c p rg)). destruct (streams rg !! c) as [q|] eqn:Hq.
  - destruct (decide (q = p)) as [->|Hne].
    + rewrite (bool_decide_true (Some p = Some p)), lookup_delete_eq by done.
      rewrite (bool_decide_true (p = p)) by done. apply bool_decide_false. by intros [].
    + rewrite (bool_decide_false (Some q = Some p)) by congruence. rewrite Hq, (bool_decide_false (q = p)) by done.
      by apply bool_decide_true.
  - rewrite (bool_decide_false (None = Some p)) by done. rewrite Hq.
    apply bool_decide_false. by intros [].
Qed.


End proxy.

Definition proxy_hub : hub (Eng := list_engine) :=
  mkHub reconnected.1 (tunnel_store (tunnel_a |> TunnelRecord.set_ComputerID "cmp")).


(** Between the look for a newer stream and the close, the daemon can reconnect; the
    tunnels of the fresh connection are closed all the same. *)
Example reconnect_in_between :
  let h0 := mkHub (from_opt (TR.New, ∅) (run [EAttach "cmp"] (TR.New, ∅))).1 (tunnels_db proxy_hub) in
  let '(x, h1) := finish (Eng := list_engine) 3 20 (Serving "cmp" 0) h0 in
  let h2 := set_registry (Attach "cmp" (registry h1)).2 h1 in
  let '(_, h3) := finish (Eng := list_engine) 1 20 x h2 in
  HasDaemon "cmp" (registry h3) = true ∧
  TunnelRecord.State <$> rows TunnelRecord (tunnels_db h3) = ["closed"].
Proof. vm_compute. split; reflexivity. Qed.
