(* ===== verification/Base64.v ===== *)
(** * Unpadded base64 ([encoding/base64], [RawURLEncoding])

    The encoding of session tokens, their hashes and password hashes, byte by byte, and
    its round trip. *)
From Stdlib Require Import ZifyNat.
From S2P Require Import Prelude GoStr GoText.

(** The URL-safe alphabet and its inverse. *)
Definition enc64 (n : nat) : ascii :=
  Ascii.ascii_of_nat
    (if n <? 26 then 65 + n else if n <? 52 then 71 + n else if n <? 62 then n - 4
     else if n =? 62 then 45 else 95).

Definition dec64 (c : ascii) : option nat :=
  let n := nat_of c in
  if between 65 90 c then Some (n - 65)
  else if between 97 122 c then Some (n - 71)
  else if between 48 57 c then Some (n + 4)
  else if n =? 45 then Some 62
  else if n =? 95 then Some 63
  else None.

Fixpoint EncodeToString (s : string) : string :=
  match s with
  | String a (String b (String c s)) =>
      let a := nat_of a in let b := nat_of b in let c := nat_of c in
      String (enc64 (a / 4)) (String (enc64 (a mod 4 * 16 + b / 16))
        (String (enc64 (b mod 16 * 4 + c / 64)) (String (enc64 (c mod 64)) (EncodeToString s))))
  | String a (String b EmptyString) =>
      let a := nat_of a in let b := nat_of b in
      String (enc64 (a / 4)) (String (enc64 (a mod 4 * 16 + b / 16)) (String (enc64 (b mod 16 * 4)) ""))
  | String a EmptyString =>
      let a := nat_of a in String (enc64 (a / 4)) (String (enc64 (a mod 4 * 16)) "")
  | EmptyString => ""
  end.

(** Line breaks are skipped wherever they are. *)
Fixpoint no_breaks (s : string) : string :=
  match s with
  | EmptyString => ""
  | String c s => if (nat_of c =? 10) || (nat_of c =? 13) then no_breaks s else String c (no_breaks s)
  end.

Fixpoint sextets (s : string) : option (list nat) :=
  match s with
  | EmptyString => Some []
  | String c s =>
      match dec64 c, sextets s with
      | Some n, Some l => Some (n :: l)
      | _, _ => None
      end
  end.

(** The left-over bits of a short last group are dropped; a group of one is an error. *)
Fixpoint octets (l : list nat) : option string :=
  match l with
  | [] => Some ""
  | a :: b :: c :: d :: l =>
      match octets l with
      | Some s => Some (String (Ascii.ascii_of_nat (a * 4 + b / 16))
          (String (Ascii.ascii_of_nat (b mod 16 * 16 + c / 4)) (String (Ascii.ascii_of_nat (c mod 4 * 64 + d)) s)))
      | None => None
      end
  | [a; b; c] =>
      Some (String (Ascii.ascii_of_nat (a * 4 + b / 16)) (String (Ascii.ascii_of_nat (b mod 16 * 16 + c / 4)) ""))
  | [a; b] => Some (String (Ascii.ascii_of_nat (a * 4 + b / 16)) "")
  | [_] => None
  end.

(** [None] is a [CorruptInputError]. *)
Definition DecodeString (s : string) : option string := sextets (no_breaks s) ≫= octets.

Example encode64_ex : EncodeToString "nekode" = "bmVrb2Rl". Proof. reflexivity. Qed.
Example decode64_ex : DecodeString "bmVrb2Q" = Some "nekod". Proof. reflexivity. Qed.
Example decode64_bad : DecodeString "bmVrb" = None. Proof. reflexivity. Qed.

(** ** Round trip *)

Lemma nat_of_lt c : nat_of c < 256.
Proof. apply Ascii.nat_ascii_bounded. Qed.

Lemma dec64_enc64 n : n < 64 → dec64 (enc64 n) = Some n.
Proof. intros H. do 64 (destruct n as [|n]; [reflexivity|]). lia. Qed.

(** Every letter of the alphabet is a plain one. *)
Lemma enc64_plain n : n < 64 →
  (nat_of (enc64 n) =? 10) || (nat_of (enc64 n) =? 13) || Ascii.eqb (enc64 n) "$" = false.
Proof. intros H. do 64 (destruct n as [|n]; [reflexivity|]). lia. Qed.

(** Induction by groups of three bytes. *)
Lemma string_ind3 (P : string → Prop) :
  P "" → (∀ a, P (String a "")) → (∀ a b, P (String a (String b ""))) →
  (∀ a b c s, P s → P (String a (String b (String c s)))) → ∀ s, P s.
Proof.
  intros H0 H1 H2 H3. assert (∀ s, P s ∧ (∀ a, P (String a s)) ∧ ∀ a b, P (String a (String b s))) as H; [|apply H].
  induction s as [|c s (I0 & I1 & I2)]; [done|]. split; [apply I1|]. split; [intros b; apply I2|]. intros a b. by apply H3.
Qed.

Definition letters (p : ascii → bool) (s : string) : Prop := Forall (λ c, p c = true) (String.list_ascii_of_string s).

Definition plain64 (c : ascii) : bool :=
  negb ((nat_of c =? 10) || (nat_of c =? 13) || Ascii.eqb c "$").

Lemma letters_cons p c s : p c = true → letters p s → letters p (String c s).
Proof. intros Hc Hs. by apply Forall_cons_2. Qed.

Lemma enc64_plain64 n : n < 64 → plain64 (enc64 n) = true.
Proof. intros H. unfold plain64. by rewrite enc64_plain. Qed.

Lemma EncodeToString_plain s : letters plain64 (EncodeToString s).
Proof.
  induction s as [|a|a b|a b c s IH] using string_ind3; cbn [EncodeToString];
    [by apply Forall_nil_2|..];
    pose proof (nat_of_lt a); try pose proof (nat_of_lt b); try pose proof (nat_of_lt c);
    repeat (apply letters_cons; [apply enc64_plain64; zify; Z.to_euclidean_division_equations; lia|]);
    [by apply Forall_nil_2..|done].
Qed.

Lemma no_breaks_plain s : letters plain64 s → no_breaks s = s.
Proof.
  unfold letters. induction s as [|c s IH]; [done|]. cbn. intros [Hc Hs]%Forall_cons.
  unfold plain64 in Hc. apply negb_true_iff, orb_false_iff in Hc as [-> _]. by rewrite IH.
Qed.

Lemma ascii_nat c n : n = nat_of c → Ascii.ascii_of_nat n = c.
Proof. intros ->. apply Ascii.ascii_nat_embedding. Qed.

Lemma base64_groups s : sextets (EncodeToString s) ≫= octets = Some s.
Proof.
  induction s as [|a|a b|a b c s IH] using string_ind3; [done|..]; cbn [EncodeToString sextets];
    pose proof (nat_of_lt a) as Ha; try pose proof (nat_of_lt b) as Hb; try pose proof (nat_of_lt c) as Hc;
    rewrite !dec64_enc64 by (zify; Z.to_euclidean_division_equations; lia).
  - cbn [mbind option_bind octets]. f_equal. f_equal. apply ascii_nat.
    zify; Z.to_euclidean_division_equations; lia.
  - cbn [mbind option_bind octets]. do 2 f_equal; [|f_equal]; apply ascii_nat;
      zify; Z.to_euclidean_division_equations; lia.
  - destruct (sextets (EncodeToString s)) as [l|]; [|done]. cbn [mbind option_bind octets] in *. rewrite IH.
    do 2 f_equal; [|f_equal; [|f_equal]]; apply ascii_nat; zify; Z.to_euclidean_division_equations; lia.
Qed.

(** Decoding gives back what was encoded. *)
Lemma DecodeString_EncodeToString s : DecodeString (EncodeToString s) = Some s.
Proof. unfold DecodeString. rewrite no_breaks_plain by apply EncodeToString_plain. apply base64_groups. Qed.
