(* ===== verification/Auth.v ===== *)
(** * Accounts and sessions ([internal/auth])

    Password hashes, the bootstrap of the first administrator, logging in and
    authenticating by token.  The digests of [crypto/sha256] and [crypto/pbkdf2] are
    parameters; the random salt, token and identifiers are arguments.  The time an
    operation takes, which [Login] evens out, is not modelled. *)
From S2P Require Import Prelude GoStr GoText Base64 Sql Models Schema Store Users.
From stdpp Require Import pretty.
Module Us := User.
Module Se := Session.

(** [sha256.Sum256] and [pbkdf2.Key] with SHA-256 (password, salt, iterations, length);
    [None] is its error. *)
Class Crypto := {
  Sum256 : string → string;
  Key : string → string → Z → nat → option string
}.

Class CryptoLaws `{!Crypto} : Prop := {
  Key_length password salt n l k : Key password salt n l = Some k → String.length k = l
}.

Definition ErrBootstrapClosed : error := ErrText "bootstrap is closed".
Definition ErrInvalidCredential : error := ErrText "invalid credential".
Definition ErrKey : error := ErrText "pbkdf2".

Definition passwordIterations : Z := 210000.
Definition passwordKeyLength : nat := 32.

Section auth.
Context {Cr : Crypto}.

(** ** Passwords ([password.go]) *)

Definition HashPassword (salt password : string) : error + string :=
  match Key password salt passwordIterations passwordKeyLength with
  | None => inl ErrKey
  | Some key =>
      inr ("pbkdf2-sha256$" +:+ FormatInt passwordIterations +:+ "$" +:+ EncodeToString salt +:+ "$" +:+
           EncodeToString key)
  end.

Definition VerifyPassword (encoded password : string) : bool :=
  match Split encoded "$" with
  | [scheme; iterations; salt; expected] =>
      if scheme <>s "pbkdf2-sha256" then false
      else
        match ParseInt iterations with
        | None => false
        | Some n =>
            if (n <=? 0)%Z then false
            else
              match DecodeString salt, DecodeString expected with
              | Some salt, Some expected =>
                  match Key password salt n (String.length expected) with
                  | Some actual => actual =s expected
                  | None => false
                  end
              | _, _ => false
              end
        end
  | _ => false
  end.

Definition HashToken (token : string) : string := EncodeToString (Sum256 token).

(** ** The service ([service.go]) *)

Record SessionToken := mkSessionToken { Token : string; ExpiresAt : Z; TokenUser : Us.User }.

(** Thirty days. *)
Definition sessionTTL : Z := 30 * 24 * 3600.

Context {Eng : SqlEngine}.

(** [token] is what [RandomToken] returns. *)
Definition issueSession (now created : Z) (token : error + string) (session_id : string) (user : Us.User) :
    M SessionToken :=
  match token with
  | inl e => throw e
  | inr token =>
      let expires := i64 (now + sessionTTL) in
      _ ← CreateSession created session_id (Se.zero
        |> Se.set_TokenHash (HashToken token)
        |> Se.set_UserID (Us.ID user)
        |> Se.set_ExpiresUnix expires);
      mret (mkSessionToken token expires user)
  end.

(** The account both ways of signing up make. *)
Definition new_account (username displayName passwordHash role : string) : Us.User :=
  let username := TrimSpace username in
  let displayName := TrimSpace displayName in
  Us.zero |> Us.set_Username username
          |> Us.set_DisplayName (if displayName =s "" then username else displayName)
          |> Us.set_PasswordHash passwordHash
          |> Us.set_Role role.

Definition Bootstrap (now : Z) (salt record_id user_id : string) (token : error + string) (session_id : string)
    (username password displayName : string) : M SessionToken :=
  match HashPassword salt password with
  | inl e => throw e
  | inr passwordHash =>
      user ← map_error (λ e, if bool_decide (e = ErrConflict) then ErrBootstrapClosed else e)
        (CreateFirstAdmin now record_id user_id (new_account username displayName passwordHash "admin"));
      issueSession now now token session_id user
  end.

Definition createUserAndSession (now : Z) (salt user_id : string) (token : error + string) (session_id : string)
    (username password displayName role : string) : M SessionToken :=
  match HashPassword salt password with
  | inl e => throw e
  | inr passwordHash =>
      user ← CreateUser now user_id (new_account username displayName passwordHash role);
      issueSession now now token session_id user
  end.

Definition Initialized : M bool := IsInitialized.

Definition Login (now : Z) (token : error + string) (session_id username password : string) : M SessionToken :=
  try (GetUserByUsername (TrimSpace username)) (λ res,
    match res with
    | inl _ => throw ErrInvalidCredential
    | inr user =>
        if VerifyPassword (Us.PasswordHash user) password then issueSession now now token session_id user
        else throw ErrInvalidCredential
    end).

Definition Authenticate (now : Z) (token : string) : M (Us.User * Se.Session) :=
  session ← map_error (λ _, ErrInvalidCredential) (GetSessionByTokenHash now (HashToken token));
  user ← map_error (λ _, ErrInvalidCredential) (GetUser (Se.UserID session));
  mret (user, session).

Definition Logout (sessionID : string) : M unit := DeleteSession sessionID.

(** ** Passwords round trip *)

Lemma letters_weaken (p p' : ascii → bool) s :
  (∀ c, p c = true → p' c = true) → letters p s → letters p' s.
Proof. intros H Hs. eapply Forall_impl; [exact Hs|exact H]. Qed.

Lemma Split_none s : letters (λ c, negb (Ascii.eqb c "$")) s → Split s "$" = [s].
Proof.
  induction s as [|c s IH]; [done|]. intros [Hc Hs]%Forall_cons. cbn.
  apply negb_true_iff in Hc. rewrite Hc. by rewrite (IH Hs).
Qed.

Lemma Split_first s t : letters (λ c, negb (Ascii.eqb c "$")) s →
  Split (s +:+ String "$" t) "$" = s :: Split t "$".
Proof.
  induction s as [|c s IH]; intros H; [done|]. apply Forall_cons in H as [Hc Hs].
  change (String c s +:+ String "$" t) with (String c (s +:+ String "$" t)). cbn.
  apply negb_true_iff in Hc. rewrite Hc. by rewrite (IH Hs).
Qed.

Lemma EncodeToString_no_dollar s : letters (λ c, negb (Ascii.eqb c "$")) (EncodeToString s).
Proof.
  eapply letters_weaken, EncodeToString_plain. intros c. unfold plain64.
  rewrite !negb_true_iff. by intros [_ H]%orb_false_iff.
Qed.

Section passwords.
Context {CL : CryptoLaws}.

(** A password verifies against its own hash, whatever the salt; and it does against
    no other password's hash unless the two passwords derive the same key from its
    salt. *)
Theorem VerifyPassword_HashPassword salt password encoded :
  HashPassword salt password = inr encoded →
  VerifyPassword encoded password = true ∧
  ∀ other, VerifyPassword encoded other = true ↔
    Key other salt passwordIterations passwordKeyLength = Key password salt passwordIterations passwordKeyLength.
Proof.
  unfold HashPassword. destruct (Key password salt _ _) as [key|] eqn:Hkey; [|done]. intros [= <-].
  set (encoded := _ +:+ _).
  assert (Split encoded "$" = ["pbkdf2-sha256"; "210000"; EncodeToString salt; EncodeToString key]) as Hs.
  { transitivity (Split ("pbkdf2-sha256" +:+ String "$" ("210000" +:+ String "$"
        (EncodeToString salt +:+ String "$" (EncodeToString key)))) "$"); [reflexivity|].
    rewrite Split_first by (by repeat constructor). rewrite Split_first by (by repeat constructor).
    rewrite Split_first by apply EncodeToString_no_dollar.
    by rewrite Split_none by apply EncodeToString_no_dollar. }
  assert (∀ other, VerifyPassword encoded other =
    match Key other salt passwordIterations passwordKeyLength with Some a => a =s key | None => false end) as HV.
  { intros other. unfold VerifyPassword. rewrite Hs.
    change (ParseInt "210000") with (Some passwordIterations). cbn [negb].
    rewrite !DecodeString_EncodeToString. rewrite (Key_length _ _ _ _ _ Hkey). done. }
  split.
  - rewrite HV, Hkey. apply eqb_refl_str.
  - intros other. rewrite HV. destruct (Key other salt _ _) as [k|]; [|done].
    rewrite eqb_eq_str. split; [by intros ->|by intros [= ->]].
Qed.

End passwords.

(** ** Sessions *)

Context {Laws : SqlLaws}.

Lemma username_key name : key_test (λ r : Us.User, Us.Username r =s name).
Proof.
  intros a b Ha%eqb_eq_str Hb%eqb_eq_str. unfold clash. cbn. unfold User_unique.
  by rewrite Ha, Hb, eqb_refl_str, orb_true_r.
Qed.

Lemma token_key hash : key_test (λ r : Se.Session, Se.TokenHash r =s hash).
Proof.
  intros a b Ha%eqb_eq_str Hb%eqb_eq_str. unfold clash. cbn. unfold Session_unique.
  by rewrite Ha, Hb, eqb_refl_str, orb_true_r.
Qed.

Lemma userFromEnt_id u : userFromEnt u = u.
Proof. by destruct u. Qed.

Lemma wp_Authenticate_valid now token u sess s (Q : error + (Us.User * Se.Session) → Store → Prop) :
  unique_rows (rows Us.User s) = true → unique_rows (rows Se.Session s) = true →
  u ∈ rows Us.User s → sess ∈ rows Se.Session s →
  Se.TokenHash sess = HashToken token → Se.UserID sess = Us.ID u → (now < Se.ExpiresUnix sess)%Z →
  Q (inr (u, sess)) s → wp (Authenticate now token) Q s.
Proof.
  intros Hu Hs Hin Hsess Ht Hid Hexp HQ. unfold Authenticate. do 2 wp_step. unfold GetSessionByTokenHash.
  do 2 wp_step. apply (only_key_found _ sess); [done|apply token_key|done|by rewrite Ht, eqb_refl_str|].
  cbn beta iota. rewrite (proj2 (Z.leb_gt _ _) Hexp). wp_step. replace (sessionFromEnt sess) with sess by by destruct sess.
  cbn beta iota. wp_step. wp_step. unfold GetUser. do 2 wp_step.
  apply (only_key_found _ u); [done|exact (id_key_test (R := Us.User) (Se.UserID sess))|done|by rewrite Hid, eqb_refl_str|].
  cbn beta iota. wp_step. rewrite userFromEnt_id. cbn beta iota. by wp_step.
Qed.

(** Whoever a token authenticates as has an open session for it. *)
Lemma wp_Authenticate now token s (Q : error + (Us.User * Se.Session) → Store → Prop) :
  unique_rows (rows Us.User s) = true → unique_rows (rows Se.Session s) = true →
  (∀ s', Q (inl ErrInvalidCredential) s') →
  (∀ u sess, u ∈ rows Us.User s → sess ∈ rows Se.Session s → Se.TokenHash sess = HashToken token →
     Se.UserID sess = Us.ID u → (now < Se.ExpiresUnix sess)%Z → Q (inr (u, sess)) s) →
  wp (Authenticate now token) Q s.
Proof.
  intros Hu Hs Herr HQ. unfold Authenticate. do 2 wp_step. unfold GetSessionByTokenHash. do 2 wp_step.
  apply wp_only_key; [done|apply token_key|done|]. intros sess Hsess. cbn beta iota.
  apply bfilter_singleton_inv in Hsess as (Hin & Ht & _). apply eqb_eq_str in Ht.
  destruct (Z.leb_spec (Se.ExpiresUnix sess) now); [wp_step; unfold DeleteSession; wp_step; wp_step; done|].
  wp_step. replace (sessionFromEnt sess) with sess by by destruct sess.
  cbn beta iota. wp_step. wp_step. unfold GetUser. do 2 wp_step.
  apply wp_only_key; [done|exact (id_key_test (R := Us.User) (Se.UserID sess))|done|]. intros u Hu'.
  apply bfilter_singleton_inv in Hu' as (Hin' & Hid & _). apply eqb_eq_str in Hid.
  cbn beta iota. wp_step. rewrite userFromEnt_id. cbn beta iota. wp_step. by apply HQ.
Qed.

Lemma wp_Authenticate_invalid now token s (Q : error + (Us.User * Se.Session) → Store → Prop) :
  unique_rows (rows Se.Session s) = true →
  (∀ sess, sess ∈ rows Se.Session s → Se.TokenHash sess = HashToken token → (Se.ExpiresUnix sess ≤ now)%Z) →
  (∀ s', Q (inl ErrInvalidCredential) s') → wp (Authenticate now token) Q s.
Proof.
  intros Hs Hexp HQ. unfold Authenticate. do 2 wp_step. unfold GetSessionByTokenHash. do 2 wp_step.
  apply wp_only_key; [done|apply token_key|done|]. intros sess Hsess. cbn beta iota.
  apply bfilter_singleton_inv in Hsess as (Hin & Ht & _). apply eqb_eq_str in Ht.
  rewrite (proj2 (Z.leb_le _ _) (Hexp _ Hin Ht)). wp_step. unfold DeleteSession. wp_step; wp_step; done.
Qed.

(** C34. Logging in with the right password opens a session for the account: until it
    expires, thirty days later, the token authenticates as that account and changes
    nothing; from then on, or once the session is logged out, it authenticates as nobody.
    With a wrong password nothing changes and no token is issued. *)
Theorem Login_then_Authenticate now token session_id username password u s :
  unique_rows (rows Us.User s) = true → unique_rows (rows Se.Session s) = true →
  u ∈ rows Us.User s → Us.Username u = TrimSpace username → in_i64 (now + sessionTTL) →
  wp (Login now (inr token) session_id username password) (λ r s',
    if VerifyPassword (Us.PasswordHash u) password then
      match r with
      | inl _ => s' = s
      | inr st => st = mkSessionToken token (now + sessionTTL) u ∧
          (∀ now', (now' < now + sessionTTL)%Z →
             wp (Authenticate now' token) (λ r' s2, s2 = s' ∧ ∃ sess, r' = inr (u, sess)) s') ∧
          (∀ now', (now + sessionTTL ≤ now')%Z →
             wp (Authenticate now' token) (λ r' _, r' = inl ErrInvalidCredential) s') ∧
          (∀ now', wp (Logout session_id) (λ r' s2,
             r' = inr () ∧ wp (Authenticate now' token) (λ r' _, r' = inl ErrInvalidCredential) s2) s')
      end
    else r = inl ErrInvalidCredential ∧ s' = s) s.
Proof.
  intros Hu Hs Hin Hname Hi. unfold Login. wp_step. unfold GetUserByUsername. do 2 wp_step.
  apply (only_key_found _ u); [done|apply username_key|done|by rewrite Hname, eqb_refl_str|].
  cbn beta iota. wp_step. rewrite userFromEnt_id. cbn beta iota.
  destruct (VerifyPassword (Us.PasswordHash u) password); [|by wp_step].
  unfold issueSession. rewrite (i64_id _ Hi). wp_step. unfold CreateSession. wp_step. wp_step; [done|done|].
  cbn beta iota. wp_step. cbn beta iota. wp_step. split; [done|].
  assert (unique_rows (rows Se.Session (put_tbl t s)) = true) as Hu'.
  { rewrite rows_put, H1. by apply unique_app_one. }
  assert (row ∈ rows Se.Session (put_tbl t s)) as Hrow by (rewrite rows_put, H1; set_solver).
  assert (∀ x, x ∈ rows Se.Session (put_tbl t s) → Se.TokenHash x = HashToken token → x = row) as Hone.
  { intros x Hx Ht. destruct (unique_filter _ _ Hu' (token_key (HashToken token))) as [E|[y E]].
    - pose proof (bfilter_nil_inv _ _ _ E Hrow) as Hf. cbn in Hf. by rewrite eqb_refl_str in Hf.
    - apply bfilter_singleton_inv in E as (_ & _ & Hall). rewrite (Hall x), (Hall row); try done.
      + cbn. apply eqb_refl_str.
      + by rewrite Ht, eqb_refl_str. }
  split_and!.
  - intros now' Hlt. apply (wp_Authenticate_valid _ _ u row); [done..|]. split; [done|by exists row].
  - intros now' Hle. apply wp_Authenticate_invalid; [done| |done]. intros x Hx Ht. by rewrite (Hone x Hx Ht).
  - intros now'. unfold Logout, DeleteSession. wp_step.
    + exfalso. pose proof (bfilter_nil_inv _ _ _ H2 Hrow) as Hf. cbn in Hf. by rewrite eqb_refl_str in Hf.
    + split; [done|]. apply wp_Authenticate_invalid; [rewrite rows_put, H3; by apply unique_bfilter| |done].
      intros x Hx Ht. rewrite rows_put, H3 in Hx. apply elem_of_bfilter in Hx as [Hx Hno]. exfalso.
      rewrite (Hone x Hx Ht) in Hno. cbn in Hno. by rewrite eqb_refl_str in Hno.
Qed.
End auth.

(** ** Witnesses *)

(** A stand-in for the digests: the first bytes of the password and the salt, padded. *)
Fixpoint pad (n : nat) (s : string) : string :=
  match n, s with
  | 0, _ => ""
  | S n, EmptyString => String "." (pad n "")
  | S n, String c s => String c (pad n s)
  end.

Lemma pad_length n s : String.length (pad n s) = n.
Proof. revert s. induction n as [|n IH]; intros [|c s]; cbn; rewrite ?IH; done. Qed.

Definition toy_crypto : Crypto := {| Sum256 s := s; Key p salt n l := Some (pad l (p +:+ salt)) |}.

Lemma toy_laws : @CryptoLaws toy_crypto.
Proof. split. cbn. intros p salt n l k [= <-]. apply pad_length. Qed.

Definition ann_hash : string := from_option id "" (match HashPassword (Cr := toy_crypto) "salt" "pw" with inr s => Some s | inl _ => None end).

Lemma VerifyPassword_HashPassword_witness :
  HashPassword (Cr := toy_crypto) "salt" "pw" = inr ann_hash ∧
  VerifyPassword (Cr := toy_crypto) ann_hash "pw" = true ∧
  VerifyPassword (Cr := toy_crypto) ann_hash "wp" = false.
Proof.
  split_and!; [vm_compute; reflexivity| |vm_compute; reflexivity].
  refine (proj1 (VerifyPassword_HashPassword (Cr := toy_crypto) (CL := toy_laws) "salt" "pw" ann_hash _)).
  vm_compute. reflexivity.
Defined.

Definition ann : Us.User := Us.zero |> Us.set_ID "u1" |> Us.set_Username "ann" |> Us.set_DisplayName "Ann"
  |> Us.set_PasswordHash ann_hash |> Us.set_Role "admin".

Lemma Login_then_Authenticate_witness :
  let s := set_users (Eng := list_engine) [ann] empty_store in
  wp (Eng := list_engine) (Login (Cr := toy_crypto) 100 (inr "tok") "s1" " ann" "pw") (λ r s',
    match r with
    | inl _ => s' = s
    | inr st => st = mkSessionToken "tok" (100 + sessionTTL) ann ∧
        wp (Eng := list_engine) (Authenticate (Cr := toy_crypto) 200 "tok")
          (λ r' s2, s2 = s' ∧ ∃ sess, r' = inr (ann, sess)) s'
    end) s.
Proof.
  intros s.
  pose proof (Login_then_Authenticate (Cr := toy_crypto) (Eng := list_engine) 100 "tok" "s1" " ann" "pw" ann s
    eq_refl eq_refl) as H.
  eapply wp_mono; [apply H|].
  - by left.
  - vm_compute. reflexivity.
  - unfold in_i64, sessionTTL. lia.
  - intros r s'. replace (VerifyPassword (Cr := toy_crypto) (Us.PasswordHash ann) "pw") with true
      by (vm_compute; reflexivity).
    destruct r as [e|st]; [done|]. intros (-> & Hv & _). split; [done|]. apply Hv. unfold sessionTTL. lia.
Defined.
