(* ===== verification/Http.v ===== *)
(** * HTTP requests and replies ([internal/server/server.go], [net/http])

    What the handlers use of a request ([req_length] is its [ContentLength]) and the
    replies they write.  Header names are canonical keys, as [net/http] stores them. *)

From S2P Require Import Prelude GoStr GoText Sql Json JsonValue Models Schema Store Users Auth.

#[local] Open Scope go_scope.

Record http_request := mkRequest {
  req_path : gmap string string;
  req_query : gmap string (list string);
  req_headers : gmap string (list string);
  req_cookies : gmap string string;
  req_host : string;
  req_tls : bool;
  req_body : string;
  req_length : Z
}.

Definition PathValue (r : http_request) (name : string) : string := from_opt "" (req_path r !! name).

(** [r.URL.Query()[name]] and [r.URL.Query().Get(name)]. *)
Definition QueryValues (r : http_request) (name : string) : list string := from_opt [] (req_query r !! name).
Definition Query (r : http_request) (name : string) : string := from_opt "" (head (QueryValues r name)).

(** [Header.Get] and [Header.Values] of a canonical name. *)
Definition header_values (h : gmap string (list string)) (name : string) : list string :=
  from_opt [] (h !! name).
Definition header_get (h : gmap string (list string)) (name : string) : string :=
  from_opt "" (head (header_values h name)).

(** What a handler writes: [writeJSON] or [writeError]. *)
Inductive reply (B : Type) :=
| Reply (status : Z) (body : B)
| ErrorReply (status : Z) (message : string).
Arguments Reply {B} status body.
Arguments ErrorReply {B} status message.

Definition StatusOK : Z := 200.
Definition StatusCreated : Z := 201.
Definition StatusNoContent : Z := 204.
Definition StatusBadRequest : Z := 400.
Definition StatusUnauthorized : Z := 401.
Definition StatusForbidden : Z := 403.
Definition StatusNotFound : Z := 404.
Definition StatusConflict : Z := 409.
Definition StatusGone : Z := 410.
Definition StatusUnprocessableEntity : Z := 422.
Definition StatusTooManyRequests : Z := 429.
Definition StatusInternalServerError : Z := 500.
Definition StatusBadGateway : Z := 502.
Definition StatusServiceUnavailable : Z := 503.

Definition bearerToken (r : http_request) : string :=
  let header := header_get (req_headers r) "Authorization" in
  if HasPrefix header "Bearer " then TrimSpace (TrimPrefix header "Bearer ") else "".

Definition intQuery (r : http_request) (name : string) (fallback : Z) : Z :=
  let raw := TrimSpace (Query r name) in
  if raw =s "" then fallback else from_opt fallback (ParseInt raw).

(** The principal a handler runs for. *)
Record Principal := mkPrincipal { P_User : User.User; P_Session : Session.Session }.

Definition is_admin (p : Principal) : bool := EqualFold (User.Role (P_User p)) "admin".

(** * The bodies of HTTP requests ([internal/server])

    [decodeJSON] and its variants over the requests' bodies, and the request structs with
    their decoders.  A decoder of a stream reads the first value of the body and leaves
    the rest. *)

(** ** Decoding *)

Definition dec_uint32 : decoder Z := λ v a,
  match v with
  | JNum l =>
      match ParseInt l with
      | Some n => if (0 <=? n)%Z && (n <? 2 ^ 32)%Z && negb (HasPrefix l "-") then (n, true) else (a, false)
      | None => (a, false)
      end
  | JNull => (a, true)
  | _ => (a, false)
  end.

(** The first value of a stream: an object or array ends with its bracket, a scalar before
    the first byte that cannot continue it. *)
Fixpoint read_from (s : scanner) (b : builder) (src : string) : option json :=
  match src with
  | EmptyString => if jeof s then finish (stp s) b else None
  | String c src =>
      match jstep s c with
      | None => if jeof s then finish (stp s) b else None
      | Some (s', _) =>
          let b := build_step (stp s) (stp s') c b in
          match stp s' with EndTop => finish EndTop b | _ => read_from s' b src end
      end
  end.
Definition read_value (src : string) : option json := read_from jstart (mkBuilder [] "" None) src.

(** [DisallowUnknownFields]. *)
Definition known_members {A} (fields : list (field A)) (v : json) : bool :=
  match v with
  | JObj members => forallb (λ p, match find_field fields p.1 with Some _ => true | None => false end) members
  | _ => true
  end.

(** [None] is answered with "invalid json body". *)
Definition decodeJSON {A} (fields : list (field A)) (zero : A) (r : http_request) : option A :=
  match read_value (req_body r) with
  | None => None
  | Some v => let (a, ok) := dec_struct fields v zero in if ok && known_members fields v then Some a else None
  end.

Fixpoint blank_body (s : string) : bool :=
  match s with EmptyString => true | String c s => jspace c && blank_body s end.

(** A body without a value is the zero value. *)
Definition decodeOptionalJSON {A} (fields : list (field A)) (zero : A) (r : http_request) : option A :=
  if blank_body (req_body r) then Some zero else decodeJSON fields zero r.

(** A decoder whose error is ignored, when the request announces a body. *)
Definition decode_if_any {A} (fields : list (field A)) (zero : A) (r : http_request) : A :=
  if (0 <? req_length r)%Z
  then match read_value (req_body r) with None => zero | Some v => (dec_struct fields v zero).1 end
  else zero.

Definition two_values : string := "{" +:+ q "a" +:+ ":1} {" +:+ q "a" +:+ ":2}".
Example read_first : read_value two_values = Some (JObj [("a", JNum "1")]). Proof. reflexivity. Qed.
Example read_scalar : read_value " 12x" = Some (JNum "12"). Proof. reflexivity. Qed.
Example read_cut : read_value "{" = None. Proof. reflexivity. Qed.

(** ** The requests *)

Module authRequest.
Record authRequest := mk {
  Username : string;
  Password : string;
  DisplayName : string
}.
Definition zero : authRequest := mk "" "" "".
Definition set_Username (v : string) (r : authRequest) : authRequest := mk v (Password r) (DisplayName r).
Definition set_Password (v : string) (r : authRequest) : authRequest := mk (Username r) v (DisplayName r).
Definition set_DisplayName (v : string) (r : authRequest) : authRequest := mk (Username r) (Password r) v.
End authRequest.
Abbreviation authRequest := authRequest.authRequest.

Definition authRequest_fields : list (field authRequest) :=
  [("username", into authRequest.Username authRequest.set_Username dec_string);
   ("password", into authRequest.Password authRequest.set_Password dec_string);
   ("displayName", into authRequest.DisplayName authRequest.set_DisplayName dec_string)].

Module endpointRequest.
Record endpointRequest := mk {
  Kind : string;
  Provider : string;
  DisplayName : string;
  TargetPrefix : string;
  InboundEnabled : bool;
  OutboundEnabled : bool;
  AuthMode : string;
  ConfigJSON : string
}.
Definition zero : endpointRequest := mk "" "" "" "" false false "" "".
Definition set_Kind (v : string) (r : endpointRequest) : endpointRequest := mk v (Provider r) (DisplayName r) (TargetPrefix r) (InboundEnabled r) (OutboundEnabled r) (AuthMode r) (ConfigJSON r).
Definition set_Provider (v : string) (r : endpointRequest) : endpointRequest := mk (Kind r) v (DisplayName r) (TargetPrefix r) (InboundEnabled r) (OutboundEnabled r) (AuthMode r) (ConfigJSON r).
Definition set_DisplayName (v : string) (r : endpointRequest) : endpointRequest := mk (Kind r) (Provider r) v (TargetPrefix r) (InboundEnabled r) (OutboundEnabled r) (AuthMode r) (ConfigJSON r).
Definition set_TargetPrefix (v : string) (r : endpointRequest) : endpointRequest := mk (Kind r) (Provider r) (DisplayName r) v (InboundEnabled r) (OutboundEnabled r) (AuthMode r) (ConfigJSON r).
Definition set_InboundEnabled (v : bool) (r : endpointRequest) : endpointRequest := mk (Kind r) (Provider r) (DisplayName r) (TargetPrefix r) v (OutboundEnabled r) (AuthMode r) (ConfigJSON r).
Definition set_OutboundEnabled (v : bool) (r : endpointRequest) : endpointRequest := mk (Kind r) (Provider r) (DisplayName r) (TargetPrefix r) (InboundEnabled r) v (AuthMode r) (ConfigJSON r).
Definition set_AuthMode (v : string) (r : endpointRequest) : endpointRequest := mk (Kind r) (Provider r) (DisplayName r) (TargetPrefix r) (InboundEnabled r) (OutboundEnabled r) v (ConfigJSON r).
Definition set_ConfigJSON (v : string) (r : endpointRequest) : endpointRequest := mk (Kind r) (Provider r) (DisplayName r) (TargetPrefix r) (InboundEnabled r) (OutboundEnabled r) (AuthMode r) v.
End endpointRequest.
Abbreviation endpointRequest := endpointRequest.endpointRequest.

Definition endpointRequest_fields : list (field endpointRequest) :=
  [("kind", into endpointRequest.Kind endpointRequest.set_Kind dec_string);
   ("provider", into endpointRequest.Provider endpointRequest.set_Provider dec_string);
   ("displayName", into endpointRequest.DisplayName endpointRequest.set_DisplayName dec_string);
   ("targetPrefix", into endpointRequest.TargetPrefix endpointRequest.set_TargetPrefix dec_string);
   ("inboundEnabled", into endpointRequest.InboundEnabled endpointRequest.set_InboundEnabled dec_bool);
   ("outboundEnabled", into endpointRequest.OutboundEnabled endpointRequest.set_OutboundEnabled dec_bool);
   ("authMode", into endpointRequest.AuthMode endpointRequest.set_AuthMode dec_string);
   ("configJson", into endpointRequest.ConfigJSON endpointRequest.set_ConfigJSON dec_string)].

Module bindingSessionRequest.
Record bindingSessionRequest := mk {
  Method : string
}.
Definition zero : bindingSessionRequest := mk "".
Definition set_Method (v : string) (r : bindingSessionRequest) : bindingSessionRequest := mk v.
End bindingSessionRequest.
Abbreviation bindingSessionRequest := bindingSessionRequest.bindingSessionRequest.

Definition bindingSessionRequest_fields : list (field bindingSessionRequest) :=
  [("method", into bindingSessionRequest.Method bindingSessionRequest.set_Method dec_string)].

Module imChatAuthDecisionRequest.
Record imChatAuthDecisionRequest := mk {
  Target : string;
  ThreadID : string
}.
Definition zero : imChatAuthDecisionRequest := mk "" "".
Definition set_Target (v : string) (r : imChatAuthDecisionRequest) : imChatAuthDecisionRequest := mk v (ThreadID r).
Definition set_ThreadID (v : string) (r : imChatAuthDecisionRequest) : imChatAuthDecisionRequest := mk (Target r) v.
End imChatAuthDecisionRequest.
Abbreviation imChatAuthDecisionRequest := imChatAuthDecisionRequest.imChatAuthDecisionRequest.

Definition imChatAuthDecisionRequest_fields : list (field imChatAuthDecisionRequest) :=
  [("target", into imChatAuthDecisionRequest.Target imChatAuthDecisionRequest.set_Target dec_string);
   ("threadId", into imChatAuthDecisionRequest.ThreadID imChatAuthDecisionRequest.set_ThreadID dec_string)].

Module imChatBindRequest.
Record imChatBindRequest := mk {
  Key : string;
  Target : string;
  ThreadID : string
}.
Definition zero : imChatBindRequest := mk "" "" "".
Definition set_Key (v : string) (r : imChatBindRequest) : imChatBindRequest := mk v (Target r) (ThreadID r).
Definition set_Target (v : string) (r : imChatBindRequest) : imChatBindRequest := mk (Key r) v (ThreadID r).
Definition set_ThreadID (v : string) (r : imChatBindRequest) : imChatBindRequest := mk (Key r) (Target r) v.
End imChatBindRequest.
Abbreviation imChatBindRequest := imChatBindRequest.imChatBindRequest.

Definition imChatBindRequest_fields : list (field imChatBindRequest) :=
  [("key", into imChatBindRequest.Key imChatBindRequest.set_Key dec_string);
   ("target", into imChatBindRequest.Target imChatBindRequest.set_Target dec_string);
   ("threadId", into imChatBindRequest.ThreadID imChatBindRequest.set_ThreadID dec_string)].

Module imChatSubscriptionPatchRequest.
Record imChatSubscriptionPatchRequest := mk {
  ChatTitle : option string;
  Target : option string;
  ThreadID : option string;
  Subscribed : option bool;
  Verbose : option bool
}.
Definition zero : imChatSubscriptionPatchRequest := mk None None None None None.
Definition set_ChatTitle (v : option string) (r : imChatSubscriptionPatchRequest) : imChatSubscriptionPatchRequest := mk v (Target r) (ThreadID r) (Subscribed r) (Verbose r).
Definition set_Target (v : option string) (r : imChatSubscriptionPatchRequest) : imChatSubscriptionPatchRequest := mk (ChatTitle r) v (ThreadID r) (Subscribed r) (Verbose r).
Definition set_ThreadID (v : option string) (r : imChatSubscriptionPatchRequest) : imChatSubscriptionPatchRequest := mk (ChatTitle r) (Target r) v (Subscribed r) (Verbose r).
Definition set_Subscribed (v : option bool) (r : imChatSubscriptionPatchRequest) : imChatSubscriptionPatchRequest := mk (ChatTitle r) (Target r) (ThreadID r) v (Verbose r).
Definition set_Verbose (v : option bool) (r : imChatSubscriptionPatchRequest) : imChatSubscriptionPatchRequest := mk (ChatTitle r) (Target r) (ThreadID r) (Subscribed r) v.
End imChatSubscriptionPatchRequest.
Abbreviation imChatSubscriptionPatchRequest := imChatSubscriptionPatchRequest.imChatSubscriptionPatchRequest.

Definition imChatSubscriptionPatchRequest_fields : list (field imChatSubscriptionPatchRequest) :=
  [("chatTitle", into imChatSubscriptionPatchRequest.ChatTitle imChatSubscriptionPatchRequest.set_ChatTitle (dec_pointer "" dec_string));
   ("target", into imChatSubscriptionPatchRequest.Target imChatSubscriptionPatchRequest.set_Target (dec_pointer "" dec_string));
   ("threadId", into imChatSubscriptionPatchRequest.ThreadID imChatSubscriptionPatchRequest.set_ThreadID (dec_pointer "" dec_string));
   ("subscribed", into imChatSubscriptionPatchRequest.Subscribed imChatSubscriptionPatchRequest.set_Subscribed (dec_pointer false dec_bool));
   ("verbose", into imChatSubscriptionPatchRequest.Verbose imChatSubscriptionPatchRequest.set_Verbose (dec_pointer false dec_bool))].

Module endpointPatchRequest.
Record endpointPatchRequest := mk {
  DisplayName : option string;
  TargetPrefix : option string;
  InboundEnabled : option bool;
  OutboundEnabled : option bool;
  AuthMode : option string;
  ConfigJSON : option string
}.
Definition zero : endpointPatchRequest := mk None None None None None None.
Definition set_DisplayName (v : option string) (r : endpointPatchRequest) : endpointPatchRequest := mk v (TargetPrefix r) (InboundEnabled r) (OutboundEnabled r) (AuthMode r) (ConfigJSON r).
Definition set_TargetPrefix (v : option string) (r : endpointPatchRequest) : endpointPatchRequest := mk (DisplayName r) v (InboundEnabled r) (OutboundEnabled r) (AuthMode r) (ConfigJSON r).
Definition set_InboundEnabled (v : option bool) (r : endpointPatchRequest) : endpointPatchRequest := mk (DisplayName r) (TargetPrefix r) v (OutboundEnabled r) (AuthMode r) (ConfigJSON r).
Definition set_OutboundEnabled (v : option bool) (r : endpointPatchRequest) : endpointPatchRequest := mk (DisplayName r) (TargetPrefix r) (InboundEnabled r) v (AuthMode r) (ConfigJSON r).
Definition set_AuthMode (v : option string) (r : endpointPatchRequest) : endpointPatchRequest := mk (DisplayName r) (TargetPrefix r) (InboundEnabled r) (OutboundEnabled r) v (ConfigJSON r).
Definition set_ConfigJSON (v : option string) (r : endpointPatchRequest) : endpointPatchRequest := mk (DisplayName r) (TargetPrefix r) (InboundEnabled r) (OutboundEnabled r) (AuthMode r) v.
End endpointPatchRequest.
Abbreviation endpointPatchRequest := endpointPatchRequest.endpointPatchRequest.

Definition endpointPatchRequest_fields : list (field endpointPatchRequest) :=
  [("displayName", into endpointPatchRequest.DisplayName endpointPatchRequest.set_DisplayName (dec_pointer "" dec_string));
   ("targetPrefix", into endpointPatchRequest.TargetPrefix endpointPatchRequest.set_TargetPrefix (dec_pointer "" dec_string));
   ("inboundEnabled", into endpointPatchRequest.InboundEnabled endpointPatchRequest.set_InboundEnabled (dec_pointer false dec_bool));
   ("outboundEnabled", into endpointPatchRequest.OutboundEnabled endpointPatchRequest.set_OutboundEnabled (dec_pointer false dec_bool));
   ("authMode", into endpointPatchRequest.AuthMode endpointPatchRequest.set_AuthMode (dec_pointer "" dec_string));
   ("configJson", into endpointPatchRequest.ConfigJSON endpointPatchRequest.set_ConfigJSON (dec_pointer "" dec_string))].

Module channelRequest.
Record channelRequest := mk {
  Target : string;
  DisplayName : string;
  Visibility : string
}.
Definition zero : channelRequest := mk "" "" "".
Definition set_Target (v : string) (r : channelRequest) : channelRequest := mk v (DisplayName r) (Visibility r).
Definition set_DisplayName (v : string) (r : channelRequest) : channelRequest := mk (Target r) v (Visibility r).
Definition set_Visibility (v : string) (r : channelRequest) : channelRequest := mk (Target r) (DisplayName r) v.
End channelRequest.
Abbreviation channelRequest := channelRequest.channelRequest.

Definition channelRequest_fields : list (field channelRequest) :=
  [("target", into channelRequest.Target channelRequest.set_Target dec_string);
   ("displayName", into channelRequest.DisplayName channelRequest.set_DisplayName dec_string);
   ("visibility", into channelRequest.Visibility channelRequest.set_Visibility dec_string)].

Module channelPatchRequest.
Record channelPatchRequest := mk {
  DisplayName : option string;
  Visibility : option string
}.
Definition zero : channelPatchRequest := mk None None.
Definition set_DisplayName (v : option string) (r : channelPatchRequest) : channelPatchRequest := mk v (Visibility r).
Definition set_Visibility (v : option string) (r : channelPatchRequest) : channelPatchRequest := mk (DisplayName r) v.
End channelPatchRequest.
Abbreviation channelPatchRequest := channelPatchRequest.channelPatchRequest.

Definition channelPatchRequest_fields : list (field channelPatchRequest) :=
  [("displayName", into channelPatchRequest.DisplayName channelPatchRequest.set_DisplayName (dec_pointer "" dec_string));
   ("visibility", into channelPatchRequest.Visibility channelPatchRequest.set_Visibility (dec_pointer "" dec_string))].

Module channelMemberRequest.
Record channelMemberRequest := mk {
  MemberID : string;
  Username : string;
  DisplayName : string;
  Kind : string;
  Role : string
}.
Definition zero : channelMemberRequest := mk "" "" "" "" "".
Definition set_MemberID (v : string) (r : channelMemberRequest) : channelMemberRequest := mk v (Username r) (DisplayName r) (Kind r) (Role r).
Definition set_Username (v : string) (r : channelMemberRequest) : channelMemberRequest := mk (MemberID r) v (DisplayName r) (Kind r) (Role r).
Definition set_DisplayName (v : string) (r : channelMemberRequest) : channelMemberRequest := mk (MemberID r) (Username r) v (Kind r) (Role r).
Definition set_Kind (v : string) (r : channelMemberRequest) : channelMemberRequest := mk (MemberID r) (Username r) (DisplayName r) v (Role r).
Definition set_Role (v : string) (r : channelMemberRequest) : channelMemberRequest := mk (MemberID r) (Username r) (DisplayName r) (Kind r) v.
End channelMemberRequest.
Abbreviation channelMemberRequest := channelMemberRequest.channelMemberRequest.

Definition channelMemberRequest_fields : list (field channelMemberRequest) :=
  [("memberId", into channelMemberRequest.MemberID channelMemberRequest.set_MemberID dec_string);
   ("username", into channelMemberRequest.Username channelMemberRequest.set_Username dec_string);
   ("displayName", into channelMemberRequest.DisplayName channelMemberRequest.set_DisplayName dec_string);
   ("kind", into channelMemberRequest.Kind channelMemberRequest.set_Kind dec_string);
   ("role", into channelMemberRequest.Role channelMemberRequest.set_Role dec_string)].

Module channelMemberPatchRequest.
Record channelMemberPatchRequest := mk {
  Username : option string;
  DisplayName : option string;
  Role : option string
}.
Definition zero : channelMemberPatchRequest := mk None None None.
Definition set_Username (v : option string) (r : channelMemberPatchRequest) : channelMemberPatchRequest := mk v (DisplayName r) (Role r).
Definition set_DisplayName (v : option string) (r : channelMemberPatchRequest) : channelMemberPatchRequest := mk (Username r) v (Role r).
Definition set_Role (v : option string) (r : channelMemberPatchRequest) : channelMemberPatchRequest := mk (Username r) (DisplayName r) v.
End channelMemberPatchRequest.
Abbreviation channelMemberPatchRequest := channelMemberPatchRequest.channelMemberPatchRequest.

Definition channelMemberPatchRequest_fields : list (field channelMemberPatchRequest) :=
  [("username", into channelMemberPatchRequest.Username channelMemberPatchRequest.set_Username (dec_pointer "" dec_string));
   ("displayName", into channelMemberPatchRequest.DisplayName channelMemberPatchRequest.set_DisplayName (dec_pointer "" dec_string));
   ("role", into channelMemberPatchRequest.Role channelMemberPatchRequest.set_Role (dec_pointer "" dec_string))].

Module notificationRouteRequest.
Record notificationRouteRequest := mk {
  Target : string;
  ThreadID : string;
  EndpointID : string;
  EventKind : string;
  Preference : string;
  Enabled : option bool;
  ConfigJSON : string
}.
Definition zero : notificationRouteRequest := mk "" "" "" "" "" None "".
Definition set_Target (v : string) (r : notificationRouteRequest) : notificationRouteRequest := mk v (ThreadID r) (EndpointID r) (EventKind r) (Preference r) (Enabled r) (ConfigJSON r).
Definition set_ThreadID (v : string) (r : notificationRouteRequest) : notificationRouteRequest := mk (Target r) v (EndpointID r) (EventKind r) (Preference r) (Enabled r) (ConfigJSON r).
Definition set_EndpointID (v : string) (r : notificationRouteRequest) : notificationRouteRequest := mk (Target r) (ThreadID r) v (EventKind r) (Preference r) (Enabled r) (ConfigJSON r).
Definition set_EventKind (v : string) (r : notificationRouteRequest) : notificationRouteRequest := mk (Target r) (ThreadID r) (EndpointID r) v (Preference r) (Enabled r) (ConfigJSON r).
Definition set_Preference (v : string) (r : notificationRouteRequest) : notificationRouteRequest := mk (Target r) (ThreadID r) (EndpointID r) (EventKind r) v (Enabled r) (ConfigJSON r).
Definition set_Enabled (v : option bool) (r : notificationRouteRequest) : notificationRouteRequest := mk (Target r) (ThreadID r) (EndpointID r) (EventKind r) (Preference r) v (ConfigJSON r).
Definition set_ConfigJSON (v : string) (r : notificationRouteRequest) : notificationRouteRequest := mk (Target r) (ThreadID r) (EndpointID r) (EventKind r) (Preference r) (Enabled r) v.
End notificationRouteRequest.
Abbreviation notificationRouteRequest := notificationRouteRequest.notificationRouteRequest.

Definition notificationRouteRequest_fields : list (field notificationRouteRequest) :=
  [("target", into notificationRouteRequest.Target notificationRouteRequest.set_Target dec_string);
   ("threadId", into notificationRouteRequest.ThreadID notificationRouteRequest.set_ThreadID dec_string);
   ("endpointId", into notificationRouteRequest.EndpointID notificationRouteRequest.set_EndpointID dec_string);
   ("eventKind", into notificationRouteRequest.EventKind notificationRouteRequest.set_EventKind dec_string);
   ("preference", into notificationRouteRequest.Preference notificationRouteRequest.set_Preference dec_string);
   ("enabled", into notificationRouteRequest.Enabled notificationRouteRequest.set_Enabled (dec_pointer false dec_bool));
   ("configJson", into notificationRouteRequest.ConfigJSON notificationRouteRequest.set_ConfigJSON dec_string)].

Module notificationRoutePatchRequest.
Record notificationRoutePatchRequest := mk {
  Target : option string;
  ThreadID : option string;
  EndpointID : option string;
  EventKind : option string;
  Preference : option string;
  Enabled : option bool;
  ConfigJSON : option string
}.
Definition zero : notificationRoutePatchRequest := mk None None None None None None None.
Definition set_Target (v : option string) (r : notificationRoutePatchRequest) : notificationRoutePatchRequest := mk v (ThreadID r) (EndpointID r) (EventKind r) (Preference r) (Enabled r) (ConfigJSON r).
Definition set_ThreadID (v : option string) (r : notificationRoutePatchRequest) : notificationRoutePatchRequest := mk (Target r) v (EndpointID r) (EventKind r) (Preference r) (Enabled r) (ConfigJSON r).
Definition set_EndpointID (v : option string) (r : notificationRoutePatchRequest) : notificationRoutePatchRequest := mk (Target r) (ThreadID r) v (EventKind r) (Preference r) (Enabled r) (ConfigJSON r).
Definition set_EventKind (v : option string) (r : notificationRoutePatchRequest) : notificationRoutePatchRequest := mk (Target r) (ThreadID r) (EndpointID r) v (Preference r) (Enabled r) (ConfigJSON r).
Definition set_Preference (v : option string) (r : notificationRoutePatchRequest) : notificationRoutePatchRequest := mk (Target r) (ThreadID r) (EndpointID r) (EventKind r) v (Enabled r) (ConfigJSON r).
Definition set_Enabled (v : option bool) (r : notificationRoutePatchRequest) : notificationRoutePatchRequest := mk (Target r) (ThreadID r) (EndpointID r) (EventKind r) (Preference r) v (ConfigJSON r).
Definition set_ConfigJSON (v : option string) (r : notificationRoutePatchRequest) : notificationRoutePatchRequest := mk (Target r) (ThreadID r) (EndpointID r) (EventKind r) (Preference r) (Enabled r) v.
End notificationRoutePatchRequest.
Abbreviation notificationRoutePatchRequest := notificationRoutePatchRequest.notificationRoutePatchRequest.

Definition notificationRoutePatchRequest_fields : list (field notificationRoutePatchRequest) :=
  [("target", into notificationRoutePatchRequest.Target notificationRoutePatchRequest.set_Target (dec_pointer "" dec_string));
   ("threadId", into notificationRoutePatchRequest.ThreadID notificationRoutePatchRequest.set_ThreadID (dec_pointer "" dec_string));
   ("endpointId", into notificationRoutePatchRequest.EndpointID notificationRoutePatchRequest.set_EndpointID (dec_pointer "" dec_string));
   ("eventKind", into notificationRoutePatchRequest.EventKind notificationRoutePatchRequest.set_EventKind (dec_pointer "" dec_string));
   ("preference", into notificationRoutePatchRequest.Preference notificationRoutePatchRequest.set_Preference (dec_pointer "" dec_string));
   ("enabled", into notificationRoutePatchRequest.Enabled notificationRoutePatchRequest.set_Enabled (dec_pointer false dec_bool));
   ("configJson", into notificationRoutePatchRequest.ConfigJSON notificationRoutePatchRequest.set_ConfigJSON (dec_pointer "" dec_string))].

Module messageRequest.
Record messageRequest := mk {
  Target : string;
  ThreadID : string;
  Role : string;
  Content : string;
  Kind : string;
  ReplyToMessageID : string;
  AttachmentIDs : list string;
  SourceEndpointID : string;
  ExternalMessageID : string;
  MetadataJSON : string;
  RequestID : string
}.
Definition zero : messageRequest := mk "" "" "" "" "" "" [] "" "" "" "".
Definition set_Target (v : string) (r : messageRequest) : messageRequest := mk v (ThreadID r) (Role r) (Content r) (Kind r) (ReplyToMessageID r) (AttachmentIDs r) (SourceEndpointID r) (ExternalMessageID r) (MetadataJSON r) (RequestID r).
Definition set_ThreadID (v : string) (r : messageRequest) : messageRequest := mk (Target r) v (Role r) (Content r) (Kind r) (ReplyToMessageID r) (AttachmentIDs r) (SourceEndpointID r) (ExternalMessageID r) (MetadataJSON r) (RequestID r).
Definition set_Role (v : string) (r : messageRequest) : messageRequest := mk (Target r) (ThreadID r) v (Content r) (Kind r) (ReplyToMessageID r) (AttachmentIDs r) (SourceEndpointID r) (ExternalMessageID r) (MetadataJSON r) (RequestID r).
Definition set_Content (v : string) (r : messageRequest) : messageRequest := mk (Target r) (ThreadID r) (Role r) v (Kind r) (ReplyToMessageID r) (AttachmentIDs r) (SourceEndpointID r) (ExternalMessageID r) (MetadataJSON r) (RequestID r).
Definition set_Kind (v : string) (r : messageRequest) : messageRequest := mk (Target r) (ThreadID r) (Role r) (Content r) v (ReplyToMessageID r) (AttachmentIDs r) (SourceEndpointID r) (ExternalMessageID r) (MetadataJSON r) (RequestID r).
Definition set_ReplyToMessageID (v : string) (r : messageRequest) : messageRequest := mk (Target r) (ThreadID r) (Role r) (Content r) (Kind r) v (AttachmentIDs r) (SourceEndpointID r) (ExternalMessageID r) (MetadataJSON r) (RequestID r).
Definition set_AttachmentIDs (v : list string) (r : messageRequest) : messageRequest := mk (Target r) (ThreadID r) (Role r) (Content r) (Kind r) (ReplyToMessageID r) v (SourceEndpointID r) (ExternalMessageID r) (MetadataJSON r) (RequestID r).
Definition set_SourceEndpointID (v : string) (r : messageRequest) : messageRequest := mk (Target r) (ThreadID r) (Role r) (Content r) (Kind r) (ReplyToMessageID r) (AttachmentIDs r) v (ExternalMessageID r) (MetadataJSON r) (RequestID r).
Definition set_ExternalMessageID (v : string) (r : messageRequest) : messageRequest := mk (Target r) (ThreadID r) (Role r) (Content r) (Kind r) (ReplyToMessageID r) (AttachmentIDs r) (SourceEndpointID r) v (MetadataJSON r) (RequestID r).
Definition set_MetadataJSON (v : string) (r : messageRequest) : messageRequest := mk (Target r) (ThreadID r) (Role r) (Content r) (Kind r) (ReplyToMessageID r) (AttachmentIDs r) (SourceEndpointID r) (ExternalMessageID r) v (RequestID r).
Definition set_RequestID (v : string) (r : messageRequest) : messageRequest := mk (Target r) (ThreadID r) (Role r) (Content r) (Kind r) (ReplyToMessageID r) (AttachmentIDs r) (SourceEndpointID r) (ExternalMessageID r) (MetadataJSON r) v.
End messageRequest.
Abbreviation messageRequest := messageRequest.messageRequest.

Definition messageRequest_fields : list (field messageRequest) :=
  [("target", into messageRequest.Target messageRequest.set_Target dec_string);
   ("threadId", into messageRequest.ThreadID messageRequest.set_ThreadID dec_string);
   ("role", into messageRequest.Role messageRequest.set_Role dec_string);
   ("content", into messageRequest.Content messageRequest.set_Content dec_string);
   ("kind", into messageRequest.Kind messageRequest.set_Kind dec_string);
   ("replyToMessageId", into messageRequest.ReplyToMessageID messageRequest.set_ReplyToMessageID dec_string);
   ("attachmentIds", into messageRequest.AttachmentIDs messageRequest.set_AttachmentIDs (dec_slice "" dec_string));
   ("sourceEndpointId", into messageRequest.SourceEndpointID messageRequest.set_SourceEndpointID dec_string);
   ("externalMessageId", into messageRequest.ExternalMessageID messageRequest.set_ExternalMessageID dec_string);
   ("metadataJson", into messageRequest.MetadataJSON messageRequest.set_MetadataJSON dec_string);
   ("requestId", into messageRequest.RequestID messageRequest.set_RequestID dec_string)].

Module threadReadRequest.
Record threadReadRequest := mk {
  Target : string
}.
Definition zero : threadReadRequest := mk "".
Definition set_Target (v : string) (r : threadReadRequest) : threadReadRequest := mk v.
End threadReadRequest.
Abbreviation threadReadRequest := threadReadRequest.threadReadRequest.

Definition threadReadRequest_fields : list (field threadReadRequest) :=
  [("target", into threadReadRequest.Target threadReadRequest.set_Target dec_string)].

Module threadInboxReadRequest.
Record threadInboxReadRequest := mk {
  TargetPrefix : string
}.
Definition zero : threadInboxReadRequest := mk "".
Definition set_TargetPrefix (v : string) (r : threadInboxReadRequest) : threadInboxReadRequest := mk v.
End threadInboxReadRequest.
Abbreviation threadInboxReadRequest := threadInboxReadRequest.threadInboxReadRequest.

Definition threadInboxReadRequest_fields : list (field threadInboxReadRequest) :=
  [("targetPrefix", into threadInboxReadRequest.TargetPrefix threadInboxReadRequest.set_TargetPrefix dec_string)].

Module taskRequest.
Record taskRequest := mk {
  Summary : string;
  Description : string;
  State : string;
  Target : string;
  AssigneeID : string;
  BlockedReason : string
}.
Definition zero : taskRequest := mk "" "" "" "" "" "".
Definition set_Summary (v : string) (r : taskRequest) : taskRequest := mk v (Description r) (State r) (Target r) (AssigneeID r) (BlockedReason r).
Definition set_Description (v : string) (r : taskRequest) : taskRequest := mk (Summary r) v (State r) (Target r) (AssigneeID r) (BlockedReason r).
Definition set_State (v : string) (r : taskRequest) : taskRequest := mk (Summary r) (Description r) v (Target r) (AssigneeID r) (BlockedReason r).
Definition set_Target (v : string) (r : taskRequest) : taskRequest := mk (Summary r) (Description r) (State r) v (AssigneeID r) (BlockedReason r).
Definition set_AssigneeID (v : string) (r : taskRequest) : taskRequest := mk (Summary r) (Description r) (State r) (Target r) v (BlockedReason r).
Definition set_BlockedReason (v : string) (r : taskRequest) : taskRequest := mk (Summary r) (Description r) (State r) (Target r) (AssigneeID r) v.
End taskRequest.
Abbreviation taskRequest := taskRequest.taskRequest.

Definition taskRequest_fields : list (field taskRequest) :=
  [("summary", into taskRequest.Summary taskRequest.set_Summary dec_string);
   ("description", into taskRequest.Description taskRequest.set_Description dec_string);
   ("state", into taskRequest.State taskRequest.set_State dec_string);
   ("target", into taskRequest.Target taskRequest.set_Target dec_string);
   ("assigneeId", into taskRequest.AssigneeID taskRequest.set_AssigneeID dec_string);
   ("blockedReason", into taskRequest.BlockedReason taskRequest.set_BlockedReason dec_string)].

Module taskPatchRequest.
Record taskPatchRequest := mk {
  Summary : option string;
  Description : option string;
  State : option string;
  AssigneeID : option string;
  BlockedReason : option string
}.
Definition zero : taskPatchRequest := mk None None None None None.
Definition set_Summary (v : option string) (r : taskPatchRequest) : taskPatchRequest := mk v (Description r) (State r) (AssigneeID r) (BlockedReason r).
Definition set_Description (v : option string) (r : taskPatchRequest) : taskPatchRequest := mk (Summary r) v (State r) (AssigneeID r) (BlockedReason r).
Definition set_State (v : option string) (r : taskPatchRequest) : taskPatchRequest := mk (Summary r) (Description r) v (AssigneeID r) (BlockedReason r).
Definition set_AssigneeID (v : option string) (r : taskPatchRequest) : taskPatchRequest := mk (Summary r) (Description r) (State r) v (BlockedReason r).
Definition set_BlockedReason (v : option string) (r : taskPatchRequest) : taskPatchRequest := mk (Summary r) (Description r) (State r) (AssigneeID r) v.
End taskPatchRequest.
Abbreviation taskPatchRequest := taskPatchRequest.taskPatchRequest.

Definition taskPatchRequest_fields : list (field taskPatchRequest) :=
  [("summary", into taskPatchRequest.Summary taskPatchRequest.set_Summary (dec_pointer "" dec_string));
   ("description", into taskPatchRequest.Description taskPatchRequest.set_Description (dec_pointer "" dec_string));
   ("state", into taskPatchRequest.State taskPatchRequest.set_State (dec_pointer "" dec_string));
   ("assigneeId", into taskPatchRequest.AssigneeID taskPatchRequest.set_AssigneeID (dec_pointer "" dec_string));
   ("blockedReason", into taskPatchRequest.BlockedReason taskPatchRequest.set_BlockedReason (dec_pointer "" dec_string))].

Module taskCommentRequest.
Record taskCommentRequest := mk {
  Content : string;
  RequestID : string
}.
Definition zero : taskCommentRequest := mk "" "".
Definition set_Content (v : string) (r : taskCommentRequest) : taskCommentRequest := mk v (RequestID r).
Definition set_RequestID (v : string) (r : taskCommentRequest) : taskCommentRequest := mk (Content r) v.
End taskCommentRequest.
Abbreviation taskCommentRequest := taskCommentRequest.taskCommentRequest.

Definition taskCommentRequest_fields : list (field taskCommentRequest) :=
  [("content", into taskCommentRequest.Content taskCommentRequest.set_Content dec_string);
   ("requestId", into taskCommentRequest.RequestID taskCommentRequest.set_RequestID dec_string)].

Module reminderRequest.
Record reminderRequest := mk {
  Target : string;
  Title : string;
  Prompt : string;
  DelaySeconds : Z;
  FireAt : string;
  ScheduleKind : string;
  Schedule : string;
  Timezone : string;
  MsgRef : string
}.
Definition zero : reminderRequest := mk "" "" "" 0%Z "" "" "" "" "".
Definition set_Target (v : string) (r : reminderRequest) : reminderRequest := mk v (Title r) (Prompt r) (DelaySeconds r) (FireAt r) (ScheduleKind r) (Schedule r) (Timezone r) (MsgRef r).
Definition set_Title (v : string) (r : reminderRequest) : reminderRequest := mk (Target r) v (Prompt r) (DelaySeconds r) (FireAt r) (ScheduleKind r) (Schedule r) (Timezone r) (MsgRef r).
Definition set_Prompt (v : string) (r : reminderRequest) : reminderRequest := mk (Target r) (Title r) v (DelaySeconds r) (FireAt r) (ScheduleKind r) (Schedule r) (Timezone r) (MsgRef r).
Definition set_DelaySeconds (v : Z) (r : reminderRequest) : reminderRequest := mk (Target r) (Title r) (Prompt r) v (FireAt r) (ScheduleKind r) (Schedule r) (Timezone r) (MsgRef r).
Definition set_FireAt (v : string) (r : reminderRequest) : reminderRequest := mk (Target r) (Title r) (Prompt r) (DelaySeconds r) v (ScheduleKind r) (Schedule r) (Timezone r) (MsgRef r).
Definition set_ScheduleKind (v : string) (r : reminderRequest) : reminderRequest := mk (Target r) (Title r) (Prompt r) (DelaySeconds r) (FireAt r) v (Schedule r) (Timezone r) (MsgRef r).
Definition set_Schedule (v : string) (r : reminderRequest) : reminderRequest := mk (Target r) (Title r) (Prompt r) (DelaySeconds r) (FireAt r) (ScheduleKind r) v (Timezone r) (MsgRef r).
Definition set_Timezone (v : string) (r : reminderRequest) : reminderRequest := mk (Target r) (Title r) (Prompt r) (DelaySeconds r) (FireAt r) (ScheduleKind r) (Schedule r) v (MsgRef r).
Definition set_MsgRef (v : string) (r : reminderRequest) : reminderRequest := mk (Target r) (Title r) (Prompt r) (DelaySeconds r) (FireAt r) (ScheduleKind r) (Schedule r) (Timezone r) v.
End reminderRequest.
Abbreviation reminderRequest := reminderRequest.reminderRequest.

Definition reminderRequest_fields : list (field reminderRequest) :=
  [("target", into reminderRequest.Target reminderRequest.set_Target dec_string);
   ("title", into reminderRequest.Title reminderRequest.set_Title dec_string);
   ("prompt", into reminderRequest.Prompt reminderRequest.set_Prompt dec_string);
   ("delaySeconds", into reminderRequest.DelaySeconds reminderRequest.set_DelaySeconds dec_uint32);
   ("fireAt", into reminderRequest.FireAt reminderRequest.set_FireAt dec_string);
   ("scheduleKind", into reminderRequest.ScheduleKind reminderRequest.set_ScheduleKind dec_string);
   ("schedule", into reminderRequest.Schedule reminderRequest.set_Schedule dec_string);
   ("timezone", into reminderRequest.Timezone reminderRequest.set_Timezone dec_string);
   ("msgRef", into reminderRequest.MsgRef reminderRequest.set_MsgRef dec_string)].

Module reminderPatchRequest.
Record reminderPatchRequest := mk {
  Title : option string;
  DelaySeconds : option Z;
  FireAt : option string;
  ScheduleKind : option string;
  Schedule : option string;
  Timezone : option string
}.
Definition zero : reminderPatchRequest := mk None None None None None None.
Definition set_Title (v : option string) (r : reminderPatchRequest) : reminderPatchRequest := mk v (DelaySeconds r) (FireAt r) (ScheduleKind r) (Schedule r) (Timezone r).
Definition set_DelaySeconds (v : option Z) (r : reminderPatchRequest) : reminderPatchRequest := mk (Title r) v (FireAt r) (ScheduleKind r) (Schedule r) (Timezone r).
Definition set_FireAt (v : option string) (r : reminderPatchRequest) : reminderPatchRequest := mk (Title r) (DelaySeconds r) v (ScheduleKind r) (Schedule r) (Timezone r).
Definition set_ScheduleKind (v : option string) (r : reminderPatchRequest) : reminderPatchRequest := mk (Title r) (DelaySeconds r) (FireAt r) v (Schedule r) (Timezone r).
Definition set_Schedule (v : option string) (r : reminderPatchRequest) : reminderPatchRequest := mk (Title r) (DelaySeconds r) (FireAt r) (ScheduleKind r) v (Timezone r).
Definition set_Timezone (v : option string) (r : reminderPatchRequest) : reminderPatchRequest := mk (Title r) (DelaySeconds r) (FireAt r) (ScheduleKind r) (Schedule r) v.
End reminderPatchRequest.
Abbreviation reminderPatchRequest := reminderPatchRequest.reminderPatchRequest.

Definition reminderPatchRequest_fields : list (field reminderPatchRequest) :=
  [("title", into reminderPatchRequest.Title reminderPatchRequest.set_Title (dec_pointer "" dec_string));
   ("delaySeconds", into reminderPatchRequest.DelaySeconds reminderPatchRequest.set_DelaySeconds (dec_pointer 0%Z dec_uint32));
   ("fireAt", into reminderPatchRequest.FireAt reminderPatchRequest.set_FireAt (dec_pointer "" dec_string));
   ("scheduleKind", into reminderPatchRequest.ScheduleKind reminderPatchRequest.set_ScheduleKind (dec_pointer "" dec_string));
   ("schedule", into reminderPatchRequest.Schedule reminderPatchRequest.set_Schedule (dec_pointer "" dec_string));
   ("timezone", into reminderPatchRequest.Timezone reminderPatchRequest.set_Timezone (dec_pointer "" dec_string))].

Module snoozeReminderRequest.
Record snoozeReminderRequest := mk {
  DelaySeconds : Z
}.
Definition zero : snoozeReminderRequest := mk 0%Z.
Definition set_DelaySeconds (v : Z) (r : snoozeReminderRequest) : snoozeReminderRequest := mk v.
End snoozeReminderRequest.
Abbreviation snoozeReminderRequest := snoozeReminderRequest.snoozeReminderRequest.

Definition snoozeReminderRequest_fields : list (field snoozeReminderRequest) :=
  [("delaySeconds", into snoozeReminderRequest.DelaySeconds snoozeReminderRequest.set_DelaySeconds dec_uint32)].

Module cancelReminderRequest.
Record cancelReminderRequest := mk {
  CancelToken : string
}.
Definition zero : cancelReminderRequest := mk "".
Definition set_CancelToken (v : string) (r : cancelReminderRequest) : cancelReminderRequest := mk v.
End cancelReminderRequest.
Abbreviation cancelReminderRequest := cancelReminderRequest.cancelReminderRequest.

Definition cancelReminderRequest_fields : list (field cancelReminderRequest) :=
  [("cancelToken", into cancelReminderRequest.CancelToken cancelReminderRequest.set_CancelToken dec_string)].

Module proposeDecisionRequest.
Record proposeDecisionRequest := mk {
  Title : string;
  Body : string;
  SupersedesDecisionID : string
}.
Definition zero : proposeDecisionRequest := mk "" "" "".
Definition set_Title (v : string) (r : proposeDecisionRequest) : proposeDecisionRequest := mk v (Body r) (SupersedesDecisionID r).
Definition set_Body (v : string) (r : proposeDecisionRequest) : proposeDecisionRequest := mk (Title r) v (SupersedesDecisionID r).
Definition set_SupersedesDecisionID (v : string) (r : proposeDecisionRequest) : proposeDecisionRequest := mk (Title r) (Body r) v.
End proposeDecisionRequest.
Abbreviation proposeDecisionRequest := proposeDecisionRequest.proposeDecisionRequest.

Definition proposeDecisionRequest_fields : list (field proposeDecisionRequest) :=
  [("title", into proposeDecisionRequest.Title proposeDecisionRequest.set_Title dec_string);
   ("body", into proposeDecisionRequest.Body proposeDecisionRequest.set_Body dec_string);
   ("supersedesDecisionId", into proposeDecisionRequest.SupersedesDecisionID proposeDecisionRequest.set_SupersedesDecisionID dec_string)].

Module voteDecisionRequest.
Record voteDecisionRequest := mk {
  Decision : string;
  Reason : string
}.
Definition zero : voteDecisionRequest := mk "" "".
Definition set_Decision (v : string) (r : voteDecisionRequest) : voteDecisionRequest := mk v (Reason r).
Definition set_Reason (v : string) (r : voteDecisionRequest) : voteDecisionRequest := mk (Decision r) v.
End voteDecisionRequest.
Abbreviation voteDecisionRequest := voteDecisionRequest.voteDecisionRequest.

Definition voteDecisionRequest_fields : list (field voteDecisionRequest) :=
  [("decision", into voteDecisionRequest.Decision voteDecisionRequest.set_Decision dec_string);
   ("reason", into voteDecisionRequest.Reason voteDecisionRequest.set_Reason dec_string)].

Module retireDecisionRequest.
Record retireDecisionRequest := mk {
  Reason : string
}.
Definition zero : retireDecisionRequest := mk "".
Definition set_Reason (v : string) (r : retireDecisionRequest) : retireDecisionRequest := mk v.
End retireDecisionRequest.
Abbreviation retireDecisionRequest := retireDecisionRequest.retireDecisionRequest.

Definition retireDecisionRequest_fields : list (field retireDecisionRequest) :=
  [("reason", into retireDecisionRequest.Reason retireDecisionRequest.set_Reason dec_string)].

Module ratifyDecisionRequest.
Record ratifyDecisionRequest := mk {
  Force : bool
}.
Definition zero : ratifyDecisionRequest := mk false.
Definition set_Force (v : bool) (r : ratifyDecisionRequest) : ratifyDecisionRequest := mk v.
End ratifyDecisionRequest.
Abbreviation ratifyDecisionRequest := ratifyDecisionRequest.ratifyDecisionRequest.

Definition ratifyDecisionRequest_fields : list (field ratifyDecisionRequest) :=
  [("force", into ratifyDecisionRequest.Force ratifyDecisionRequest.set_Force dec_bool)].

Module daemonAgentControlRequest.
Record daemonAgentControlRequest := mk {
  Action : string;
  Reason : string;
  ComputerID : string;
  RuntimeProfileID : string;
  RequestID : string
}.
Definition zero : daemonAgentControlRequest := mk "" "" "" "" "".
Definition set_Action (v : string) (r : daemonAgentControlRequest) : daemonAgentControlRequest := mk v (Reason r) (ComputerID r) (RuntimeProfileID r) (RequestID r).
Definition set_Reason (v : string) (r : daemonAgentControlRequest) : daemonAgentControlRequest := mk (Action r) v (ComputerID r) (RuntimeProfileID r) (RequestID r).
Definition set_ComputerID (v : string) (r : daemonAgentControlRequest) : daemonAgentControlRequest := mk (Action r) (Reason r) v (RuntimeProfileID r) (RequestID r).
Definition set_RuntimeProfileID (v : string) (r : daemonAgentControlRequest) : daemonAgentControlRequest := mk (Action r) (Reason r) (ComputerID r) v (RequestID r).
Definition set_RequestID (v : string) (r : daemonAgentControlRequest) : daemonAgentControlRequest := mk (Action r) (Reason r) (ComputerID r) (RuntimeProfileID r) v.
End daemonAgentControlRequest.
Abbreviation daemonAgentControlRequest := daemonAgentControlRequest.daemonAgentControlRequest.

Definition daemonAgentControlRequest_fields : list (field daemonAgentControlRequest) :=
  [("action", into daemonAgentControlRequest.Action daemonAgentControlRequest.set_Action dec_string);
   ("reason", into daemonAgentControlRequest.Reason daemonAgentControlRequest.set_Reason dec_string);
   ("computerId", into daemonAgentControlRequest.ComputerID daemonAgentControlRequest.set_ComputerID dec_string);
   ("runtimeProfileId", into daemonAgentControlRequest.RuntimeProfileID daemonAgentControlRequest.set_RuntimeProfileID dec_string);
   ("requestId", into daemonAgentControlRequest.RequestID daemonAgentControlRequest.set_RequestID dec_string)].

Module daemonAgentDirectMessageRequest.
Record daemonAgentDirectMessageRequest := mk {
  Content : string;
  ReplyToMessageID : string;
  AttachmentIDs : list string;
  RequestID : string
}.
Definition zero : daemonAgentDirectMessageRequest := mk "" "" [] "".
Definition set_Content (v : string) (r : daemonAgentDirectMessageRequest) : daemonAgentDirectMessageRequest := mk v (ReplyToMessageID r) (AttachmentIDs r) (RequestID r).
Definition set_ReplyToMessageID (v : string) (r : daemonAgentDirectMessageRequest) : daemonAgentDirectMessageRequest := mk (Content r) v (AttachmentIDs r) (RequestID r).
Definition set_AttachmentIDs (v : list string) (r : daemonAgentDirectMessageRequest) : daemonAgentDirectMessageRequest := mk (Content r) (ReplyToMessageID r) v (RequestID r).
Definition set_RequestID (v : string) (r : daemonAgentDirectMessageRequest) : daemonAgentDirectMessageRequest := mk (Content r) (ReplyToMessageID r) (AttachmentIDs r) v.
End daemonAgentDirectMessageRequest.
Abbreviation daemonAgentDirectMessageRequest := daemonAgentDirectMessageRequest.daemonAgentDirectMessageRequest.

Definition daemonAgentDirectMessageRequest_fields : list (field daemonAgentDirectMessageRequest) :=
  [("content", into daemonAgentDirectMessageRequest.Content daemonAgentDirectMessageRequest.set_Content dec_string);
   ("replyToMessageId", into daemonAgentDirectMessageRequest.ReplyToMessageID daemonAgentDirectMessageRequest.set_ReplyToMessageID dec_string);
   ("attachmentIds", into daemonAgentDirectMessageRequest.AttachmentIDs daemonAgentDirectMessageRequest.set_AttachmentIDs (dec_slice "" dec_string));
   ("requestId", into daemonAgentDirectMessageRequest.RequestID daemonAgentDirectMessageRequest.set_RequestID dec_string)].

