(* ===== verification/Preview.v ===== *)
(** * Preview tunnels over HTTP ([internal/server/tunnels.go, tunnel_proxy.go])

    The REST handlers that open, approve, reject and close tunnels, and the public
    [/preview/<token>/] handler: who may pass, the headers that cross between server and
    daemon, and how the daemon's frames become a response.  The verdict of the rate
    limiter, which computes in floating point, is an argument.  [TunnelPump] has the other
    pumps and the bridge that calls them. *)
From S2P Require Import Prelude GoStr GoText JsonValue Sql Models Schema Store Users Tunnels Auth Proto Http.

Module Tn := TunnelRecord.
Module TnO := TunnelListOptions.
Module PH := daemonv1.ProxyHeader.
Module FR := daemonv1.ProxyFrame.

(** ** Tunnels by REST ([tunnels.go]) *)

Record createTunnelRequest := mkCreateTunnel {
  ct_ComputerID : string;
  ct_LocalPort : Z;
  ct_Label : string;
  ct_AccessPolicy : string;
  ct_TTLSeconds : Z
}.

Definition createTunnelRequest_fields : list (field createTunnelRequest) :=
  [("computerId", into ct_ComputerID
      (λ v r, mkCreateTunnel v (ct_LocalPort r) (ct_Label r) (ct_AccessPolicy r) (ct_TTLSeconds r)) dec_string);
   ("localPort", into ct_LocalPort
      (λ v r, mkCreateTunnel (ct_ComputerID r) v (ct_Label r) (ct_AccessPolicy r) (ct_TTLSeconds r)) dec_uint32);
   ("label", into ct_Label
      (λ v r, mkCreateTunnel (ct_ComputerID r) (ct_LocalPort r) v (ct_AccessPolicy r) (ct_TTLSeconds r)) dec_string);
   ("accessPolicy", into ct_AccessPolicy
      (λ v r, mkCreateTunnel (ct_ComputerID r) (ct_LocalPort r) (ct_Label r) v (ct_TTLSeconds r)) dec_string);
   ("ttlSeconds", into ct_TTLSeconds
      (λ v r, mkCreateTunnel (ct_ComputerID r) (ct_LocalPort r) (ct_Label r) (ct_AccessPolicy r) v) dec_uint32)].

(** A [tunnelActionRequest] is its reason. *)
Definition tunnelActionRequest_fields : list (field string) :=
  [("reason", into (λ reason : string, reason) (λ v _, v) dec_string)].

(** The reason in a body, empty when there is none. *)
Definition tunnel_reason (r : http_request) : string :=
  TrimSpace (decode_if_any tunnelActionRequest_fields "" r).

(** A body that cannot be decoded is answered at once, but the handler goes on: whatever
    it answers in the end comes after the header of the first answer. *)
Definition answered_first {B} (r : http_request) (rep : reply B) : reply B :=
  if (0 <? req_length r)%Z && negb (bool_decide (is_Some (decodeJSON tunnelActionRequest_fields "" r)))
  then ErrorReply StatusBadRequest "invalid json body" else rep.

Definition tunnelDefaultTTLSeconds : Z := 2 * 60 * 60.
Definition tunnelMaxTTLSeconds : Z := 24 * 60 * 60.

Definition clamp_ttl (ttl : Z) : Z :=
  let ttl := if (ttl =? 0)%Z then tunnelDefaultTTLSeconds else ttl in
  if (tunnelMaxTTLSeconds <? ttl)%Z then tunnelMaxTTLSeconds else ttl.

Definition populatePublicURL (r : http_request) (record : Tn.TunnelRecord) : Tn.TunnelRecord :=
  if Tn.Token record =s "" then record
  else
    let forwarded (name fallback : string) :=
      let v := TrimSpace (header_get (req_headers r) name) in if v <>s "" then v else fallback in
    let scheme := forwarded "X-Forwarded-Proto" (if req_tls r then "https" else "http") in
    let host := forwarded "X-Forwarded-Host" (req_host r) in
    Tn.set_PublicURL (scheme +:+ "://" +:+ host +:+ "/preview/" +:+ Tn.Token record +:+ "/") record.

Section tunnels.
Context {Eng : SqlEngine} {Uni : Unicode} {Cr : Crypto}.

Definition handleCreateTunnel (now : Z) (token : error + string) (id : string) (r : http_request)
    (p : Principal) : M (reply Tn.TunnelRecord) :=
  match decodeJSON createTunnelRequest_fields (mkCreateTunnel "" 0 "" "" 0) r with
  | None => mret (ErrorReply StatusBadRequest "invalid json body")
  | Some req =>
      let computerID := TrimSpace (ct_ComputerID req) in
      if (computerID =s "") || (ct_LocalPort req =? 0)%Z then
        mret (ErrorReply StatusBadRequest "computerId and localPort are required")
      else if negb (is_admin p) then
        mret (ErrorReply StatusForbidden "admin role required to create tunnels")
      else
        let policy := TrimSpace (ct_AccessPolicy req) in
        let policy := if policy =s "" then TunnelAccessPolicyMembers else policy in
        try (CreateTunnel now token id (Tn.zero
          |> Tn.set_ComputerID computerID
          |> Tn.set_LocalPort (ct_LocalPort req)
          |> Tn.set_Label (TrimSpace (ct_Label req))
          |> Tn.set_State TunnelStateActive
          |> Tn.set_AccessPolicy policy
          |> Tn.set_CreatorID (User.ID (P_User p))
          |> Tn.set_CreatorKind "human"
          |> Tn.set_ExpiresUnix (i64 (now + clamp_ttl (ct_TTLSeconds req)))
          |> Tn.set_ApprovedUnix now
          |> Tn.set_ApprovedBy (User.ID (P_User p)))) (λ res,
        mret match res with
        | inl ErrInvalid => ErrorReply StatusBadRequest "storage: invalid argument"
        | inl _ => ErrorReply StatusInternalServerError "create tunnel failed"
        | inr record => Reply StatusCreated (populatePublicURL r record)
        end)
  end.

Definition handleListTunnels (r : http_request) (p : Principal) : M (reply (list Tn.TunnelRecord)) :=
  try (ListTunnels (TnO.zero
    |> TnO.set_ComputerID (TrimSpace (Query r "computerId"))
    |> TnO.set_StateFilter (TrimSpace (Query r "state"))
    |> TnO.set_Limit (intQuery r "limit" 50))) (λ res,
  mret match res with
  | inl _ => ErrorReply StatusInternalServerError "list tunnels failed"
  | inr rows =>
      Reply StatusOK ((λ row, populatePublicURL r (Tn.set_Token "" row)) <$>
        bfilter (λ row, is_admin p || (Tn.CreatorID row =s User.ID (P_User p))) rows)
  end).

(** The transition a handler asks the store for. *)
Definition move (now : Z) (id toState actor reason onInvalid onError : string)
    (body : Tn.TunnelRecord → Tn.TunnelRecord) : M (reply Tn.TunnelRecord) :=
  try (UpdateTunnelState now id toState actor reason) (λ res,
  mret match res with
  | inl ErrNotFound => ErrorReply StatusNotFound "tunnel not found"
  | inl ErrInvalid => ErrorReply StatusConflict onInvalid
  | inl _ => ErrorReply StatusInternalServerError onError
  | inr updated => Reply StatusOK (body (Tn.set_Token "" updated))
  end).

Definition handleApproveTunnel (now : Z) (r : http_request) (p : Principal) : M (reply Tn.TunnelRecord) :=
  let id := TrimSpace (PathValue r "id") in
  if id =s "" then mret (ErrorReply StatusBadRequest "id is required")
  else if negb (is_admin p) then mret (ErrorReply StatusForbidden "admin role required to approve tunnels")
  else move now id TunnelStateActive (User.ID (P_User p)) "" "tunnel is not pending approval"
         "approve tunnel failed" (populatePublicURL r).

Definition handleRejectTunnel (now : Z) (r : http_request) (p : Principal) : M (reply Tn.TunnelRecord) :=
  let id := TrimSpace (PathValue r "id") in
  if id =s "" then mret (ErrorReply StatusBadRequest "id is required")
  else if negb (is_admin p) then mret (ErrorReply StatusForbidden "admin role required to reject tunnels")
  else
    rep ← move now id TunnelStateRejected (User.ID (P_User p)) (tunnel_reason r) "tunnel is not pending approval"
            "reject tunnel failed" (λ t, t);
    mret (answered_first r rep).

(** Here a tunnel gone since it was loaded is an internal error. *)
Definition handleCloseTunnel (now : Z) (r : http_request) (p : Principal) : M (reply Tn.TunnelRecord) :=
  let id := TrimSpace (PathValue r "id") in
  if id =s "" then mret (ErrorReply StatusBadRequest "id is required")
  else
    try (GetTunnel id) (λ res,
    match res with
    | inl ErrNotFound => mret (ErrorReply StatusNotFound "tunnel not found")
    | inl _ => mret (ErrorReply StatusInternalServerError "load tunnel failed")
    | inr current =>
        if negb (is_admin p) && (Tn.CreatorID current <>s User.ID (P_User p)) then
          mret (ErrorReply StatusForbidden "only the creator or an admin can close this tunnel")
        else
          try (UpdateTunnelState now id TunnelStateClosed (User.ID (P_User p)) (tunnel_reason r)) (λ res,
          mret (answered_first r match res with
          | inl ErrInvalid => ErrorReply StatusConflict "tunnel is already closed"
          | inl _ => ErrorReply StatusInternalServerError "close tunnel failed"
          | inr updated => Reply StatusOK (Tn.set_Token "" updated)
          end))
    end).

(** ** Who may pass ([tunnel_proxy.go]) *)

(** The token a preview request presents. *)
Definition preview_token (r : http_request) : string :=
  let token := bearerToken r in
  let token := if token =s "" then TrimSpace (Query r "access_token") else token in
  if token =s "" then from_opt "" (req_cookies r !! "nekode_session") else token.

Definition previewPrincipal (now : Z) (r : http_request) : M (option User.User) :=
  let token := preview_token r in
  if token =s "" then mret None
  else
    try (Authenticate now token) (λ res,
    mret match res with inl _ => None | inr (user, _) => Some user end).

(** The empty string lets the request pass. *)
Definition enforceTunnelACL (now : Z) (r : http_request) (record : Tn.TunnelRecord) : M string :=
  if Tn.AccessPolicy record =s TunnelAccessPolicyPublic then mret ""
  else if Tn.AccessPolicy record =s TunnelAccessPolicyPrivate then
    user ← previewPrincipal now r;
    mret match user with
         | None => "authentication required"
         | Some user =>
             if (User.ID user <>s Tn.CreatorID record) && negb (EqualFold (User.Role user) "admin")
             then "forbidden" else ""
         end
  else
    user ← previewPrincipal now r;
    mret match user with None => "authentication required" | Some _ => "" end.

(** [enabled] is whether the server has a registry, [allow] the rate limiter's verdict; a
    reply with a body is a request that goes on to [proxyOverTunnel]. *)
Definition handlePreviewProxy (now : Z) (enabled allow : bool) (r : http_request) : M (reply Tn.TunnelRecord) :=
  if negb enabled then mret (ErrorReply StatusServiceUnavailable "preview tunnels not enabled")
  else
    let token := TrimSpace (PathValue r "token") in
    if token =s "" then mret (ErrorReply StatusNotFound "token missing from path")
    else
      try (GetTunnelByToken token) (λ res,
      match res with
      | inl ErrNotFound => mret (ErrorReply StatusNotFound "tunnel not found")
      | inl _ => mret (ErrorReply StatusInternalServerError "tunnel lookup failed")
      | inr record =>
          if Tn.State record <>s TunnelStateActive then mret (ErrorReply StatusForbidden "tunnel is not active")
          else if (0 <? Tn.ExpiresUnix record)%Z && (Tn.ExpiresUnix record <=? now)%Z then
            mret (ErrorReply StatusGone "tunnel expired")
          else
            deny ← enforceTunnelACL now r record;
            if deny <>s "" then mret (ErrorReply StatusForbidden deny)
            else if negb allow then
              mret (ErrorReply StatusTooManyRequests "preview tunnel is rate-limited, retry shortly")
            else mret (Reply StatusOK record)
      end).

(** ** Only those who may pass *)

Context {Laws : SqlLaws}.

(** An account that presents a token of a session of its own that is still open. *)
Definition presented (now : Z) (r : http_request) (u : User.User) (s : Store) : Prop :=
  u ∈ rows User.User s ∧
  ∃ sess, sess ∈ rows Session.Session s ∧ Session.TokenHash sess = HashToken (preview_token r) ∧
    Session.UserID sess = User.ID u ∧ (now < Session.ExpiresUnix sess)%Z.

Lemma wp_previewPrincipal now r s (Q : error + option User.User → Store → Prop) :
  unique_rows (rows User.User s) = true → unique_rows (rows Session.Session s) = true →
  (∀ s', Q (inr None) s') → (∀ u, presented now r u s → Q (inr (Some u)) s) →
  wp (previewPrincipal now r) Q s.
Proof.
  intros Hu Hs Hno Hyes. unfold previewPrincipal. destruct (preview_token r =s ""); [by wp_step|].
  wp_step. apply wp_Authenticate; [done..|intros s'; by wp_step|]. intros u sess Hin Hsess Ht Hid Hexp.
  wp_step. apply Hyes. split; [done|by exists sess].
Qed.

Definition may_pass (now : Z) (r : http_request) (record : Tn.TunnelRecord) (s : Store) : Prop :=
  Tn.AccessPolicy record = TunnelAccessPolicyPublic ∨
  ∃ u, presented now r u s ∧
    (Tn.AccessPolicy record = TunnelAccessPolicyPrivate →
     User.ID u = Tn.CreatorID record ∨ EqualFold (User.Role u) "admin" = true).

Lemma wp_enforceTunnelACL now r record s (Q : error + string → Store → Prop) :
  unique_rows (rows User.User s) = true → unique_rows (rows Session.Session s) = true →
  (∀ deny s', deny ≠ "" → Q (inr deny) s') → (may_pass now r record s → Q (inr "") s) →
  wp (enforceTunnelACL now r record) Q s.
Proof.
  intros Hu Hs Hdeny Hpass. unfold enforceTunnelACL.
  destruct (Tn.AccessPolicy record =s TunnelAccessPolicyPublic) eqn:Hpub.
  { wp_step. apply Hpass. left. by apply eqb_eq_str. }
  destruct (Tn.AccessPolicy record =s TunnelAccessPolicyPrivate) eqn:Hpriv.
  - wp_step. apply wp_previewPrincipal; [done..|intros s'; wp_step; by apply Hdeny|].
    intros u Hpr. wp_step. destruct (_ && _) eqn:Ht; [by apply Hdeny|]. apply Hpass. right. exists u.
    split; [done|]. intros _. apply andb_false_iff in Ht as [Ht|Ht].
    + left. by apply negb_false_iff, eqb_eq_str in Ht.
    + right. by apply negb_false_iff in Ht.
  - wp_step. apply wp_previewPrincipal; [done..|intros s'; wp_step; by apply Hdeny|].
    intros u Hpr. wp_step. apply Hpass. right. exists u. split; [done|].
    intros Hp. rewrite Hp in Hpriv. by rewrite eqb_refl_str in Hpriv.
Qed.

Lemma tunnel_token_key token : key_test (λ r : Tn.TunnelRecord, Tn.Token r =s token).
Proof.
  intros a b Ha%eqb_eq_str Hb%eqb_eq_str. unfold clash. cbn. unfold TunnelRecord_unique.
  by rewrite Ha, Hb, eqb_refl_str, orb_true_r.
Qed.

(** C23. A preview request is only proxied to a tunnel of its token that is active and has
    not expired, and only if the tunnel is public or the request presents the token of
    an open session; a private tunnel asks for its creator's session or an
    administrator's.  The handler never fails without a reply. *)
Theorem handlePreviewProxy_guards now enabled allow r s :
  unique_rows (rows Tn.TunnelRecord s) = true → unique_rows (rows User.User s) = true →
  unique_rows (rows Session.Session s) = true →
  wp (handlePreviewProxy now enabled allow r) (λ res s',
    match res with
    | inl _ => False
    | inr (ErrorReply _ _) => True
    | inr (Reply _ record) =>
        enabled = true ∧ allow = true ∧
        (∃ row, row ∈ rows Tn.TunnelRecord s ∧ record = tunnelFromEnt row) ∧
        Tn.Token record = TrimSpace (PathValue r "token") ∧ Tn.State record = TunnelStateActive ∧
        ((Tn.ExpiresUnix record ≤ 0)%Z ∨ (now < Tn.ExpiresUnix record)%Z) ∧ may_pass now r record s
    end) s.
Proof.
  intros Ht Hu Hs. unfold handlePreviewProxy. destruct enabled; [|by wp_step]. cbn [negb].
  destruct (TrimSpace (PathValue r "token") =s ""); [by wp_step|]. wp_step. unfold GetTunnelByToken.
  do 2 wp_step. apply wp_only_key; [done|apply tunnel_token_key|intros _; cbn beta iota; by wp_step|].
  intros row Hrow. apply bfilter_singleton_inv in Hrow as (Hin & Htok & _). apply eqb_eq_str in Htok.
  cbn beta iota. wp_step. cbn beta iota.
  destruct (Tn.State (tunnelFromEnt row) <>s TunnelStateActive) eqn:Hst; [by wp_step|].
  apply negb_false_iff, eqb_eq_str in Hst.
  destruct (_ && _) eqn:Hexp; [by wp_step|]. wp_step.
  apply wp_enforceTunnelACL; [done..| |].
  - intros deny s' Hd%eqb_neq_str. rewrite Hd. cbn [negb]. by wp_step.
  - intros Hpass. rewrite (proj2 (eqb_eq_str "" "")) by done. cbn [negb]. destruct allow; cbn [negb]; wp_step; [|done].
    split_and!; try done; [by exists row|].
    apply andb_false_iff in Hexp as [He|He]; [left; by apply Z.ltb_ge in He|right; by apply Z.leb_gt in He].
Qed.

(** Over REST only an administrator's request reaches the store to approve a tunnel. *)
Lemma handleApproveTunnel_admin now r p s :
  is_admin p = false → TrimSpace (PathValue r "id") ≠ "" →
  wp (handleApproveTunnel now r p) (λ res s',
    res = inr (ErrorReply StatusForbidden "admin role required to approve tunnels") ∧ s' = s) s.
Proof.
  intros Hp Hid%eqb_neq_str. unfold handleApproveTunnel. rewrite Hid, Hp. by wp_step.
Qed.

End tunnels.

(** ** Headers *)

(** The bytes of a token (RFC 7230). *)
Definition token_byte (c : ascii) : bool :=
  between 48 57 c || between 65 90 c || between 97 122 c ||
  bool_decide (nat_of c ∈ [33; 35; 36; 37; 38; 39; 42; 43; 45; 46; 94; 95; 96; 124; 126]).

Fixpoint canonical_from (upper : bool) (s : string) : string :=
  match s with
  | EmptyString => ""
  | String c s =>
      String (if upper then upper_ascii c else lower_ascii c) (canonical_from (nat_of c =? 45) s)
  end.

(** [http.CanonicalHeaderKey]. *)
Definition CanonicalHeaderKey (s : string) : string :=
  if forallb token_byte (String.list_ascii_of_string s) then canonical_from true s else s.

Definition hopByHopHeaders : list string :=
  ["Connection"; "Keep-Alive"; "Proxy-Authenticate"; "Proxy-Authorization"; "Te"; "Trailer";
   "Transfer-Encoding"; "Upgrade"].

Definition is_hop (name : string) : bool := bool_decide (CanonicalHeaderKey name ∈ hopByHopHeaders).

(** The headers that go to the daemon: [header] in the order of one visit. *)
Definition headersToProto (header : list (string * list string)) (targetPort : Z) : list PH.ProxyHeader :=
  ((λ h, PH.zero |> PH.set_Name h.1 |> PH.set_Value h.2) <$>
     bfilter (λ h : string * list string, negb (is_hop h.1) ||
       (CanonicalHeaderKey h.1 =s "Connection") || (CanonicalHeaderKey h.1 =s "Upgrade")) header) ++
  [PH.zero |> PH.set_Name "X-Nekode-Tunnel-Port" |> PH.set_Value [FormatInt targetPort]].

(** [dst.Add] for every value. *)
Definition add_header (dst : gmap string (list string)) (name value : string) : gmap string (list string) :=
  let key := CanonicalHeaderKey name in <[key := from_opt [] (dst !! key) ++ [value]]> dst.

Definition applyResponseHeaders (dst : gmap string (list string)) (headers : list PH.ProxyHeader) :
    gmap string (list string) :=
  foldl (λ dst h, if is_hop (PH.Name h) then dst
                  else foldl (λ dst v, add_header dst (PH.Name h) v) dst (PH.Value h)) dst headers.

(** ** Responses *)

(** What a response writer holds: no status until the headers are written. *)
Record response := mkResponse {
  resp_status : option Z;
  resp_headers : gmap string (list string);
  resp_body : string
}.

(** One turn of [responder.Next], and whether the client takes the bytes of the frame. *)
Inductive next_frame := NextFrame (f : FR.ProxyFrame) (write_ok : bool) | NextNil | NextError.

(** [http.Error], without the headers it sets. *)
Definition http_error (status : Z) (message : string) (w : response) : response :=
  mkResponse (Some status) (resp_headers w) (resp_body w +:+ message +:+ String (byte 10) "").

Definition written (w : response) : bool := match resp_status w with Some _ => true | None => false end.

(** [true] is the return of an error.  A pump whose turns run out is still waiting. *)
Fixpoint pumpResponse (turns : list next_frame) (w : response) : option (bool * response) :=
  match turns with
  | [] => None
  | NextError :: _ => Some (true, w)
  | NextNil :: _ =>
      Some (false, if written w then w else http_error StatusBadGateway "daemon disconnected before responding" w)
  | NextFrame f ok :: turns =>
      let kind := FR.Kind f in
      if (kind =? daemonv1.ProxyFrameKind_PROXY_FRAME_KIND_RESPONSE_START)%Z then
        if written w then pumpResponse turns w
        else
          let status := if (FR.StatusCode f =? 0)%Z then StatusOK else FR.StatusCode f in
          pumpResponse turns
            (mkResponse (Some status) (applyResponseHeaders (resp_headers w) (FR.ResponseHeaders f)) (resp_body w))
      else if (kind =? daemonv1.ProxyFrameKind_PROXY_FRAME_KIND_RESPONSE_BODY)%Z then
        let w := mkResponse (Some (from_opt StatusOK (resp_status w))) (resp_headers w) (resp_body w) in
        if ok then pumpResponse turns (mkResponse (resp_status w) (resp_headers w) (resp_body w +:+ FR.BodyChunk f))
        else Some (true, w)
      else if (kind =? daemonv1.ProxyFrameKind_PROXY_FRAME_KIND_RESPONSE_END)%Z then
        Some (false,
          if written w then w
          else if FR.Error f <>s "" then http_error StatusBadGateway ("upstream error: " +:+ FR.Error f) w
          else mkResponse (Some StatusNoContent) (resp_headers w) (resp_body w))
      else if (kind =? daemonv1.ProxyFrameKind_PROXY_FRAME_KIND_CANCEL)%Z then
        Some (false, if written w then w else http_error StatusBadGateway "daemon cancelled the request" w)
      else pumpResponse turns w
  end.

(** ** Hop-by-hop headers stay behind *)

Definition no_hops (h : gmap string (list string)) : Prop := ∀ k v, h !! k = Some v → k ∉ hopByHopHeaders.

Lemma add_header_no_hops dst name value : is_hop name = false → no_hops dst → no_hops (add_header dst name value).
Proof.
  intros Hn%bool_decide_eq_false Hd k v. unfold add_header. rewrite lookup_insert_Some.
  intros [[<- _]|[_ Hk]]; [done|by apply (Hd k v)].
Qed.

Lemma applyResponseHeaders_no_hops dst headers : no_hops dst → no_hops (applyResponseHeaders dst headers).
Proof.
  unfold applyResponseHeaders. revert dst. induction headers as [|h headers IH]; intros dst Hd; [done|]. cbn [foldl].
  apply IH. destruct (is_hop (PH.Name h)) eqn:Hh; [done|].
  revert dst Hd. induction (PH.Value h) as [|v vs IHv]; intros dst Hd; [done|]. cbn [foldl].
  apply IHv, add_header_no_hops; done.
Qed.

Definition start_frame (status : Z) (headers : list PH.ProxyHeader) : FR.ProxyFrame :=
  FR.zero |> FR.set_Kind daemonv1.ProxyFrameKind_PROXY_FRAME_KIND_RESPONSE_START
          |> FR.set_StatusCode status |> FR.set_ResponseHeaders headers.
Definition body_frame (chunk : string) : FR.ProxyFrame :=
  FR.zero |> FR.set_Kind daemonv1.ProxyFrameKind_PROXY_FRAME_KIND_RESPONSE_BODY |> FR.set_BodyChunk chunk.
Definition end_frame (error : string) : FR.ProxyFrame :=
  FR.zero |> FR.set_Kind daemonv1.ProxyFrameKind_PROXY_FRAME_KIND_RESPONSE_END |> FR.set_Error error.

Lemma pump_bodies chunks rest w :
  written w = true →
  pumpResponse (((λ c, NextFrame (body_frame c) true) <$> chunks) ++ rest) w =
  pumpResponse rest (mkResponse (resp_status w) (resp_headers w) (resp_body w +:+ String.concat "" chunks)).
Proof.
  revert w. induction chunks as [|c chunks IH]; intros w Hw.
  - cbn. rewrite sapp_nil_r. by destruct w.
  - rewrite fmap_cons. cbn [app pumpResponse]. unfold written in Hw. destruct (resp_status w) as [st|] eqn:Hst; [|done].
    change (pumpResponse (((λ c, NextFrame (body_frame c) true) <$> chunks) ++ rest)
      (mkResponse (Some st) (resp_headers w) (resp_body w +:+ c)) = 
      pumpResponse rest (mkResponse (Some st) (resp_headers w) (resp_body w +:+ String.concat "" (c :: chunks)))).
    rewrite IH by done. cbn [resp_status resp_headers resp_body]. do 2 f_equal. rewrite <-sapp_assoc. f_equal.
    destruct chunks; cbn; by rewrite ?sapp_nil_r.
Qed.

(** A response the daemon sends as a start, chunks and an end reaches the client as
    its status (200 when it names none), its headers without the hop-by-hop ones, and
    the chunks in their order; a second start changes nothing. *)
Theorem pumpResponse_relays status headers chunks error :
  ∃ hs, no_hops hs ∧ hs = applyResponseHeaders ∅ headers ∧
  pumpResponse ([NextFrame (start_frame status headers) true] ++
                ((λ c, NextFrame (body_frame c) true) <$> chunks) ++ [NextFrame (end_frame error) true])
    (mkResponse None ∅ "") =
  Some (false, mkResponse (Some (if (status =? 0)%Z then StatusOK else status)) hs (String.concat "" chunks)).
Proof.
  exists (applyResponseHeaders ∅ headers). split_and!; [|done|].
  - apply applyResponseHeaders_no_hops. intros k v H. by apply lookup_empty_Some in H.
  - change (pumpResponse (((λ c, NextFrame (body_frame c) true) <$> chunks) ++ [NextFrame (end_frame error) true])
      (mkResponse (Some (if (status =? 0)%Z then StatusOK else status)) (applyResponseHeaders ∅ headers) "") = 
      Some (false, mkResponse (Some (if (status =? 0)%Z then StatusOK else status))
        (applyResponseHeaders ∅ headers) (String.concat "" chunks))).
    by rewrite pump_bodies.
Qed.

(** What identifies the visitor to this server goes on to the daemon's local port. *)
Example credentials_are_forwarded :
  PH.Name <$> headersToProto [("Cookie", ["nekode_session=s3cr3t"]); ("Authorization", ["Bearer s3cr3t"]);
                              ("Keep-Alive", ["timeout=5"])] 3000
  = ["Cookie"; "Authorization"; "X-Nekode-Tunnel-Port"].
Proof. vm_compute. reflexivity. Qed.

Definition preview_request : http_request :=
  mkRequest {[ "token" := "tok" ]} ∅ {[ "Authorization" := ["Bearer t1"] ]} ∅ "host" false "" 0.

Definition preview_store : @Store list_engine :=
  set_tunnels (Eng := list_engine) [tunnel_a |> Tn.set_State TunnelStateActive]
    (set_sessions (Eng := list_engine)
       [Session.zero |> Session.set_ID "s1" |> Session.set_TokenHash (HashToken (Cr := toy_crypto) "t1")
                     |> Session.set_UserID "u1" |> Session.set_ExpiresUnix 100]
       (set_users (Eng := list_engine) [ann] empty_store)).

Lemma handlePreviewProxy_guards_witness :
  (handlePreviewProxy (Eng := list_engine) (Cr := toy_crypto) 20 true true preview_request preview_store).1 =
    inr (Reply StatusOK (tunnelFromEnt (tunnel_a |> Tn.set_State TunnelStateActive))) ∧
  may_pass (Eng := list_engine) (Cr := toy_crypto) 20 preview_request
    (tunnelFromEnt (tunnel_a |> Tn.set_State TunnelStateActive)) preview_store.
Proof.
  split; [vm_compute; reflexivity|].
  pose proof (handlePreviewProxy_guards (Eng := list_engine) (Cr := toy_crypto) 20 true true preview_request
    preview_store eq_refl eq_refl eq_refl) as H. unfold wp in H.
  replace (handlePreviewProxy (Eng := list_engine) (Cr := toy_crypto) 20 true true preview_request preview_store)
    with (inr (A := error) (Reply StatusOK (tunnelFromEnt (tunnel_a |> Tn.set_State TunnelStateActive))), preview_store)
    in H by (vm_compute; reflexivity).
  apply H.
Defined.

(** A body that is not JSON is refused with 400, and the tunnel is rejected all the same. *)
Definition broken_reject : http_request :=
  mkRequest {[ "id" := "tun_1" ]} ∅ ∅ ∅ "" false "{" 1.
Definition an_admin : Principal := mkPrincipal (User.zero |> User.set_ID "u1" |> User.set_Role "admin") Session.zero.
Definition pending_store : @Store list_engine :=
  set_tunnels (Eng := list_engine)
    [Tn.zero |> Tn.set_ID "tun_1" |> Tn.set_State TunnelStatePending] empty_store.

Example refused_but_rejected :
  let (res, s) := handleRejectTunnel (Eng := list_engine) 20 broken_reject an_admin pending_store in
  res = inr (ErrorReply StatusBadRequest "invalid json body") ∧
  (Tn.State <$> rows Tn.TunnelRecord s) = [TunnelStateRejected].
Proof. vm_compute. auto. Qed.
