(* ===== verification/Media.v ===== *)
(** * Attachments on disk ([internal/immedia/media.go])

    The data directory as a map from paths to contents: uploads, their metadata, and how
    they are found again.  Failures of the file system are arguments; what
    [http.DetectContentType] makes of a content is the parameter [Sniffer]. *)
From S2P Require Import Prelude GoStr GoText Json JsonValue Sql Models Schema Store.

#[local] Open Scope go_scope.

Module At := Attachment.

(** [http.DetectContentType] of the first 512 bytes. *)
Class Sniffer := { DetectContentType : string → string }.

Definition DefaultMaxAttachmentBytes : Z := 32 * 1024 * 1024.

(** Paths are relative to the data directory. *)
Notation disk := (gmap string string).

Inductive media_error :=
| InvalidInput (reason : string)
| MediaTooLarge
| MediaStorage (e : error)
| MediaIO.

Record StoreInput := mkInput {
  in_Target : string;
  in_OwnerID : string;
  in_Filename : string;
  in_MimeType : string;
  in_Content : option string;
  in_MaxBytes : Z
}.

(** ** Names *)

(** [filepath.Base] of a slash-separated path. *)
Definition Base (value : string) : string :=
  if value =s "" then "."
  else match last (bfilter (λ e, e <>s "") (Split value "/")) with Some e => e | None => "/" end.

Definition unsafe_rune (rune : string) : bool :=
  match rune with String c "" => existsb (λ n, nat_of c =? n) [47; 92; 34; 13; 10; 0] | _ => false end.

Definition SafeFilename (value : string) : string :=
  let name := TrimSpace (Base value) in
  if (name =s "") || (name =s ".") || (name =s "/") then "attachment"
  else Join (bfilter (λ rune, negb (unsafe_rune rune)) (runes name)) "".

(** [filepath.Join("attachments", id, name)] of an id and a name without slashes. *)
Definition join_path (id name : string) : string :=
  if (name =s "") || (name =s ".") then "attachments/" +:+ id
  else if name =s ".." then "attachments"
  else "attachments/" +:+ id +:+ "/" +:+ name.

Definition MetadataPath (id : string) : error + string :=
  let id := TrimSpace id in
  if (id =s "") || contains_any id [47; 92] || HasPrefix id "." then inl ErrNotFound
  else inr (join_path id "metadata.json").

(** ** Media types *)

Section media.
Context {Uni : Unicode}.

Definition NormalizeMimeType (value : string) : string :=
  ToLower (TrimSpace (from_opt "" (head (Split value ";")))).

Definition IsInlineAttachment (mimeType : string) : bool :=
  let mimeType := NormalizeMimeType mimeType in
  HasPrefix mimeType "image/" || (mimeType =s "text/html") || (mimeType =s "text/plain").

Definition KindFromMimeType (mimeType : string) : string :=
  let mimeType := NormalizeMimeType mimeType in
  if HasPrefix mimeType "image/" then "image"
  else if HasPrefix mimeType "video/" then "video"
  else if HasPrefix mimeType "audio/" then "audio"
  else if (mimeType =s "text/html") || HasPrefix mimeType "text/" || (mimeType =s "application/pdf")
  then "document"
  else "file".

(** ** Metadata *)

Definition newline : string := String (byte 10) "".

(** The members [encoding/json] writes of an attachment: name and value, both encoded. *)
Definition attachment_members (a : At.Attachment) : list (string * string) :=
  let text name value := [(quote name, quote value)] in
  let number name value := [(quote name, FormatInt value)] in
  let unless (empty : bool) (l : list (string * string)) := if empty then [] else l in
  text "id" (At.ID a) ++ text "target" (At.Target a)
  ++ unless (At.OwnerID a =s "") (text "ownerId" (At.OwnerID a))
  ++ text "filename" (At.Filename a) ++ text "mimeType" (At.MimeType a)
  ++ number "sizeBytes" (At.SizeBytes a) ++ text "storageRef" (At.StorageRef a)
  ++ text "downloadUrl" (At.DownloadURL a)
  ++ unless (At.UploadURL a =s "") (text "uploadUrl" (At.UploadURL a))
  ++ unless (At.ExpiresTimeUnix a =? 0)%Z (number "expiresTimeUnix" (At.ExpiresTimeUnix a))
  ++ number "createdUnix" (At.CreatedUnix a).

(** [json.MarshalIndent(attachment, "", "  ")]. *)
Definition MarshalIndent (a : At.Attachment) : string :=
  "{" +:+ newline +:+ "  " +:+
  Join (map (λ m, m.1 +:+ ": " +:+ m.2) (attachment_members a)) ("," +:+ newline +:+ "  ") +:+
  newline +:+ "}".

Definition attachment_fields : list (field At.Attachment) :=
  [("id", into At.ID At.set_ID dec_string); ("target", into At.Target At.set_Target dec_string);
   ("ownerId", into At.OwnerID At.set_OwnerID dec_string);
   ("filename", into At.Filename At.set_Filename dec_string);
   ("mimeType", into At.MimeType At.set_MimeType dec_string);
   ("sizeBytes", into At.SizeBytes At.set_SizeBytes dec_int64);
   ("storageRef", into At.StorageRef At.set_StorageRef dec_string);
   ("downloadUrl", into At.DownloadURL At.set_DownloadURL dec_string);
   ("uploadUrl", into At.UploadURL At.set_UploadURL dec_string);
   ("expiresTimeUnix", into At.ExpiresTimeUnix At.set_ExpiresTimeUnix dec_int64);
   ("createdUnix", into At.CreatedUnix At.set_CreatedUnix dec_int64)].

Definition SaveMetadata (attachment : At.Attachment) (d : disk) : (error + unit) * disk :=
  match MetadataPath (At.ID attachment) with
  | inl e => (inl e, d)
  | inr path => (inr (), <[path := MarshalIndent attachment]> d)
  end.

Definition ReadMetadata (id : string) (d : disk) : error + At.Attachment :=
  match MetadataPath id with
  | inl e => inl e
  | inr path =>
      match d !! path with
      | None => inl ErrNotFound
      | Some data =>
          match JsonValue.Unmarshal (dec_struct attachment_fields) data At.zero with
          | (attachment, true) => if At.ID attachment =s "" then inl ErrNotFound else inr attachment
          | (_, false) => inl (ErrText "json")
          end
      end
  end.

(** The path of a content; [StorageRef] is slash-separated, as paths are here. *)
Definition ContentPath (attachment : At.Attachment) : string := At.StorageRef attachment.

(** ** Uploads *)

Context {Sn : Sniffer}.

(** [os.RemoveAll] of an attachment's directory. *)
Definition remove_dir (id : string) (d : disk) : disk :=
  filter (λ p, HasPrefix p.1 (join_path id "" +:+ "/") = false) d.

(** A file can be created where there is neither a file nor a directory. *)
Definition can_create (id path : string) (d : disk) : bool :=
  negb (bool_decide (is_Some (d !! path))) && (path <>s join_path id "") && (path <>s "attachments").

(** [id] and [now] are the ones drawn; [dir], [copied] and [saved] say whether the file
    system makes the directory, takes the content and takes the metadata. *)
Definition StoreMedia (dir copied saved : bool) (id : string) (now : Z) (input : StoreInput) (d : disk) :
    (media_error + At.Attachment) * disk :=
  let target := TrimSpace (in_Target input) in
  if target =s "" then (inl (InvalidInput "target is required"), d)
  else match in_Content input with
  | None => (inl (InvalidInput "content is required"), d)
  | Some content =>
      let maxBytes := if (in_MaxBytes input <=? 0)%Z then DefaultMaxAttachmentBytes else in_MaxBytes input in
      let filename := SafeFilename (in_Filename input) in
      let storageRef := join_path id filename in
      if negb dir then (inl MediaIO, d)
      else if negb (can_create id storageRef d) then (inl MediaIO, remove_dir id d)
      else if negb copied then (inl MediaIO, remove_dir id d)
      else if (maxBytes <? Z.of_nat (String.length content))%Z then (inl MediaTooLarge, remove_dir id d)
      else
        let d := (<[storageRef := content]> d : disk) in
        let mimeType := NormalizeMimeType (in_MimeType input) in
        let mimeType := if (mimeType =s "") || (mimeType =s "application/octet-stream")
                        then DetectContentType (stake 512 content) else mimeType in
        let mimeType := if mimeType =s "" then "application/octet-stream" else mimeType in
        let attachment := At.zero
          |> At.set_ID id
          |> At.set_Target target
          |> At.set_OwnerID (TrimSpace (in_OwnerID input))
          |> At.set_Filename filename
          |> At.set_MimeType mimeType
          |> At.set_SizeBytes (Z.of_nat (String.length content))
          |> At.set_StorageRef storageRef
          |> At.set_DownloadURL ("/api/attachments/" +:+ id +:+ "/content")
          |> At.set_CreatedUnix now in
        if negb saved then (inl MediaIO, remove_dir id d)
        else match SaveMetadata attachment d with
        | (inl e, d) => (inl (MediaStorage e), remove_dir id d)
        | (inr _, d) => (inr attachment, d)
        end
  end.

(** ** The attachments of a message ([Server.loadMessageAttachments]) *)

Fixpoint loadMessageAttachments_from (seen : list string) (target : string) (attachmentIDs : list string) (d : disk) :
    error + list At.Attachment :=
  match attachmentIDs with
  | [] => inr []
  | rawID :: attachmentIDs =>
      let id := TrimSpace rawID in
      if (id =s "") || bool_decide (id ∈ seen) then loadMessageAttachments_from seen target attachmentIDs d
      else match ReadMetadata id d with
      | inl e => inl e
      | inr attachment =>
          if (At.Target attachment <>s "") && (At.Target attachment <>s target)
          then inl (ErrText "attachment target mismatch")
          else match loadMessageAttachments_from (id :: seen) target attachmentIDs d with
          | inl e => inl e
          | inr attachments => inr (attachment :: attachments)
          end
      end
  end.

Definition loadMessageAttachments (target : string) (attachmentIDs : list string) (d : disk) :
    error + list At.Attachment :=
  loadMessageAttachments_from [] target attachmentIDs d.

End media.

(** ** Examples *)

Definition no_sniffer : Sniffer := {| DetectContentType _ := "text/plain; charset=utf-8" |}.

Definition upload (name content : string) : StoreInput :=
  mkInput "#general" "usr_1" name "text/plain" (Some content) 0.

Example safe_ex : SafeFilename ("../bad" +:+ String (byte 34) (String (byte 10) "name.txt")) = "badname.txt".
Proof. vm_compute. reflexivity. Qed.

Example upload_found :
  let '(res, d) := StoreMedia (Uni := ascii_unicode) (Sn := no_sniffer) true true true "att_1" 5 (upload "a.txt" "hello") ∅ in
  match res with
  | inr a => ReadMetadata "att_1" d = inr a ∧ d !! ContentPath a = Some "hello"
  | inl _ => False
  end.
Proof. vm_compute. split; reflexivity. Qed.

(** A file named as the metadata is replaced by it. *)
Example upload_replaced :
  let '(res, d) := StoreMedia (Uni := ascii_unicode) (Sn := no_sniffer) true true true "att_1" 5 (upload "metadata.json" "hello") ∅ in
  match res with
  | inr a => d !! ContentPath a = Some (MarshalIndent a)
  | inl _ => False
  end.
Proof. vm_compute. reflexivity. Qed.

(** A file whose name is only dots and quotes cannot be stored. *)
Example upload_dots :
  (StoreMedia (Uni := ascii_unicode) (Sn := no_sniffer) true true true "att_1" 5
     (upload (".." +:+ String (byte 34) "") "hello") ∅).1 = inl MediaIO.
Proof. vm_compute. reflexivity. Qed.
