(* ===== verification/HttpBase.v ===== *)
(** * The REST handlers: requests in, replies out ([internal/server/server.go])

    A handler is a computation of the RPC server's monad [R] that ends in a reply: it calls
    the store and the daemon bridge, and draws identifiers and clock readings, as the RPC
    handlers do.  Here are the middleware that authenticates a request, the helpers that
    read its query and body, the replies to the store's errors, and [leaves], the calculus
    of what a handler does not write. *)
From S2P Require Import Prelude GoStr GoText Sql Models Schema Store Frame Users Auth Events.
From S2P Require Import Proto Rpc RpcAgents Http.

#[local] Open Scope go_scope.

(** ** Queries and optional fields *)

(** [strconv.ParseBool]. *)
Definition ParseBool (s : string) : option bool :=
  if bool_decide (s ∈ ["1"; "t"; "T"; "TRUE"; "true"; "True"]) then Some true
  else if bool_decide (s ∈ ["0"; "f"; "F"; "FALSE"; "false"; "False"]) then Some false
  else None.

Definition boolQuery (r : http_request) (name : string) : bool :=
  match ParseBool (TrimSpace (Query r name)) with Some value => value | None => false end.

Definition optionalBoolQuery (r : http_request) (name : string) : option bool :=
  let raw := TrimSpace (Query r name) in if raw =s "" then None else ParseBool raw.

Definition optionalTrimmed (value : option string) : option string := TrimSpace <$> value.

Definition optionalStringValue (value : option string) : string :=
  match value with None => "" | Some value => TrimSpace value end.

Fixpoint firstTrimmed (values : list string) : string :=
  match values with
  | [] => ""
  | value :: values => let trimmed := TrimSpace value in if trimmed <>s "" then trimmed else firstTrimmed values
  end.

(** The first value that is not blank, untrimmed. *)
Fixpoint firstNonEmptyString (values : list string) : string :=
  match values with
  | [] => ""
  | value :: values => if TrimSpace value <>s "" then value else firstNonEmptyString values
  end.

(** ** Replies *)

Definition writeStorageError {B} (fallback : string) (err : error) : reply B :=
  match err with
  | ErrNotFound => ErrorReply StatusNotFound fallback
  | ErrConflict => ErrorReply StatusConflict fallback
  | ErrInvalidState => ErrorReply StatusBadRequest fallback
  | _ => ErrorReply StatusInternalServerError fallback
  end.

(** The reply to an error that the handler does not tell apart. *)
Definition internal {B} (message : string) : error → reply B :=
  λ _, ErrorReply StatusInternalServerError message.

(** [if errors.Is(err, e) { writeError(status, message) }] before [other]. *)
Definition on {B} (e : error) (status : Z) (message : string) (other : error → reply B) : error → reply B :=
  λ err, if bool_decide (err = e) then ErrorReply status message else other err.

Definition is_answered {B} (status : Z) (rep : reply B) : bool :=
  match rep with Reply s _ => (s =? status)%Z | ErrorReply s _ => (s =? status)%Z end.

Section base.
Context {Eng : SqlEngine} {PJ : ProtoJSON} {E : Env}.

(** A call of the store: its error ends the handler with a reply. *)
Definition attempt {A B} (m : M A) (onError : error → reply B) (k : A → R (reply B)) : R (reply B) :=
  r ← stored m;
  match r with
  | inl e => mret (onError e)
  | inr a => k a
  end.

(** A read of the store without an error of its own. *)
Definition read_or {A} (default : A) (m : M A) : R A :=
  r ← stored m;
  mret match r with inl _ => default | inr a => a end.

(** A call of the daemon bridge that records a mutation. *)
Definition record {B} (m : R (error + unit)) (message : string) (k : R (reply B)) : R (reply B) :=
  r ← m;
  match r with
  | inl _ => mret (ErrorReply StatusInternalServerError message)
  | inr _ => k
  end.

(** A body that cannot be decoded ends the handler. *)
Definition decoded {A B} (body : option A) (k : A → R (reply B)) : R (reply B) :=
  match body with
  | None => mret (ErrorReply StatusBadRequest "invalid json body")
  | Some req => k req
  end.

(** The status error of a call of the bridge as a value. *)
Definition caught {A} (m : R A) : R (rpc_error + A) := λ w, let (r, w') := m w in (inr r, w').

(** ** Who asks *)

Section auth.
Context {Cr : Crypto}.

(** The handler runs for the account of [token], or not at all. *)
Definition authenticated {B} (token : string) (next : Principal → R (reply B)) : R (reply B) :=
  if token =s "" then mret (ErrorReply StatusUnauthorized "bearer token is required")
  else
    now ← unixNow;
    attempt (Authenticate now token)
      (λ _, ErrorReply StatusUnauthorized "invalid bearer token")
      (λ us, next (mkPrincipal us.1 us.2)).

Definition requireAuth {B} (r : http_request) (next : Principal → R (reply B)) : R (reply B) :=
  authenticated (bearerToken r) next.

Definition query_token (r : http_request) : string :=
  let token := bearerToken r in
  let token := if token =s "" then TrimSpace (Query r "access_token") else token in
  if token =s "" then TrimSpace (Query r "token") else token.

Definition requireAuthOrQueryToken {B} (r : http_request) (next : Principal → R (reply B)) : R (reply B) :=
  authenticated (query_token r) next.

End auth.

(** ** What a handler leaves alone

    [leaves T m]: [m] does not write the table of [T], whatever its outcome. *)

Definition leaves (T : Type) `{!Table T} {A} (m : R A) : Prop :=
  ∀ w, get_tbl (R := T) (db (m w).2) = get_tbl (db w).

Section leaves.
Context {T : Type} `{!Table T}.

Lemma leaves_ret {A} (a : A) : leaves T (mret a : R A).
Proof. done. Qed.

Lemma leaves_raise {A} e : leaves T (raise (A := A) e).
Proof. done. Qed.

Lemma leaves_bind {A B} (m : R A) (k : A → R B) :
  leaves T m → (∀ a, leaves T (k a)) → leaves T (mbind k m).
Proof.
  intros Hm Hk w. unfold mbind, R_bind. specialize (Hm w). destruct (m w) as [[e|a] w']; cbn in *; [done|].
  by rewrite Hk.
Qed.

Lemma leaves_gets {A} (f : Server → A) : leaves T (gets f).
Proof. done. Qed.

Lemma leaves_modify f : leaves T (modify f).
Proof. done. Qed.

Lemma leaves_unixNow : leaves T unixNow.
Proof. done. Qed.

Lemma leaves_NewID p : leaves T (NewID p).
Proof. done. Qed.

Lemma leaves_begin me k : leaves T (begin me k).
Proof. done. Qed.

Lemma leaves_stored {A} (m : M A) : untouched T m → leaves T (stored m).
Proof. intros Hm w. unfold stored. specialize (Hm (db w)). by destruct (m (db w)). Qed.

Lemma leaves_caught {A} (m : R A) : leaves T m → leaves T (caught m).
Proof. intros Hm w. unfold caught. specialize (Hm w). by destruct (m w). Qed.

Lemma leaves_attempt {A B} (m : M A) f (k : A → R (reply B)) :
  untouched T m → (∀ a, leaves T (k a)) → leaves T (attempt m f k).
Proof. intros Hm Hk. apply leaves_bind; [by apply leaves_stored|]. intros [e|a]; [apply leaves_ret|apply Hk]. Qed.

Lemma leaves_read_or {A} (a : A) m : untouched T m → leaves T (read_or a m).
Proof. intros Hm. apply leaves_bind; [by apply leaves_stored|]. intros [e|x]; apply leaves_ret. Qed.

Lemma leaves_record {B} m s (k : R (reply B)) : leaves T m → leaves T k → leaves T (record m s k).
Proof. intros Hm Hk. apply leaves_bind; [done|]. intros [e|a]; [apply leaves_ret|done]. Qed.

Lemma leaves_decoded {A B} (body : option A) (k : A → R (reply B)) :
  (∀ a, leaves T (k a)) → leaves T (decoded body k).
Proof. intros Hk. destruct body; [apply Hk|apply leaves_ret]. Qed.

End leaves.
End base.

(** The loop that appends an event writes events only. *)
Lemma untouched_append_loop `{!SqlEngine} T `{!Table T} (Hap : Frame.apart T Models.CollaborationEvent) k row_id event :
  (∀ n s, get_tbl (R := T) (set_open_txs n s) = get_tbl s) →
  untouched T (append_loop k row_id event).
Proof.
  intros Ho. induction k as [|k IH]; [apply untouched_throw|]. cbn [append_loop].
  apply untouched_try.
  - apply untouched_tx; [exact Ho|]. apply untouched_bind; [solve_untouched|]. intros q.
    unfold insert_event. apply untouched_create, Hap.
  - intros [e|row]; [|apply untouched_ret]. destruct (IsConstraintError e); [exact IH|apply untouched_throw].
Qed.

#[export] Hint Extern 1 (untouched _ (append_loop _ _ _)) =>
  (apply untouched_append_loop; by intros ? ?) : frame.

Create HintDb leaves discriminated.

(** One rule of [leaves], by the computation's head, as [untouched_step]. *)
Ltac leaves_step :=
  cbv beta;
  lazymatch goal with
  | |- ?P (let x := ?v in @?b x) => generalize_let P v b
  | |- leaves _ (match ?x with _ => _ end) => destruct x
  | |- leaves _ (mbind _ _) => apply leaves_bind; [|intros]
  | |- leaves _ (mret _) => apply leaves_ret
  | |- leaves _ (raise _) => apply leaves_raise
  | |- leaves _ (gets _) => apply leaves_gets
  | |- leaves _ (modify _) => apply leaves_modify
  | |- leaves _ unixNow => apply leaves_unixNow
  | |- leaves _ (NewID _) => apply leaves_NewID
  | |- leaves _ (begin _ _) => apply leaves_begin
  | |- leaves _ (stored _) => apply leaves_stored; solve_untouched
  | |- leaves _ (caught _) => apply leaves_caught
  | |- leaves _ (attempt _ _ _) => apply leaves_attempt; [solve_untouched|intros]
  | |- leaves _ (read_or _ _) => apply leaves_read_or; solve_untouched
  | |- leaves _ (record _ _ _) => apply leaves_record
  | |- leaves _ (decoded _ _) => apply leaves_decoded; intros
  | |- leaves _ ?m => first [assumption | solve [auto with leaves nocore] | let h := head_of m in unfold h]
  end.

Ltac solve_leaves := repeat leaves_step.
