(* ===== verification/DaemonConfig.v ===== *)
(** * The daemon's configuration ([cmd/nekode-daemon/main.go])

    [loadConfig]: defaults and environment variables, overlaid by the install file, overlaid
    by the flags, then checked.  The host's name, its environment, the home directory and
    the files are a [Host]; [net/url]'s check of the server's URL is a parameter.  The
    texts of errors are left out: [config_fault] tells which check failed. *)
From S2P Require Import Prelude GoStr GoText Json JsonValue GoFlag Sql Models Schema Store HttpBase.

#[local] Open Scope go_scope.

(** ** Data *)

Module daemonConfig.
Record daemonConfig := mk {
  ConfigPath : string;
  ServerURL : string;
  Token : string;
  DaemonID : string;
  ComputerID : string;
  DisplayName : string;
  Hostname : string;
  HeartbeatInterval : Z;
  AgentID : string;
  RuntimeKind : string;
  Target : string;
  RunPollInterval : Z;
  RunTimeout : Z;
  MaxConcurrentRuns : Z;
  ExecutorCommand : string;
  ExecutorArgs : list string;
  Once : bool
}.
Definition zero : daemonConfig := mk "" "" "" "" "" "" "" 0%Z "" "" "" 0%Z 0%Z 0%Z "" [] false.
Definition set_ConfigPath (v : string) (r : daemonConfig) : daemonConfig := mk v (ServerURL r) (Token r) (DaemonID r) (ComputerID r) (DisplayName r) (Hostname r) (HeartbeatInterval r) (AgentID r) (RuntimeKind r) (Target r) (RunPollInterval r) (RunTimeout r) (MaxConcurrentRuns r) (ExecutorCommand r) (ExecutorArgs r) (Once r).
Definition set_ServerURL (v : string) (r : daemonConfig) : daemonConfig := mk (ConfigPath r) v (Token r) (DaemonID r) (ComputerID r) (DisplayName r) (Hostname r) (HeartbeatInterval r) (AgentID r) (RuntimeKind r) (Target r) (RunPollInterval r) (RunTimeout r) (MaxConcurrentRuns r) (ExecutorCommand r) (ExecutorArgs r) (Once r).
Definition set_Token (v : string) (r : daemonConfig) : daemonConfig := mk (ConfigPath r) (ServerURL r) v (DaemonID r) (ComputerID r) (DisplayName r) (Hostname r) (HeartbeatInterval r) (AgentID r) (RuntimeKind r) (Target r) (RunPollInterval r) (RunTimeout r) (MaxConcurrentRuns r) (ExecutorCommand r) (ExecutorArgs r) (Once r).
Definition set_DaemonID (v : string) (r : daemonConfig) : daemonConfig := mk (ConfigPath r) (ServerURL r) (Token r) v (ComputerID r) (DisplayName r) (Hostname r) (HeartbeatInterval r) (AgentID r) (RuntimeKind r) (Target r) (RunPollInterval r) (RunTimeout r) (MaxConcurrentRuns r) (ExecutorCommand r) (ExecutorArgs r) (Once r).
Definition set_ComputerID (v : string) (r : daemonConfig) : daemonConfig := mk (ConfigPath r) (ServerURL r) (Token r) (DaemonID r) v (DisplayName r) (Hostname r) (HeartbeatInterval r) (AgentID r) (RuntimeKind r) (Target r) (RunPollInterval r) (RunTimeout r) (MaxConcurrentRuns r) (ExecutorCommand r) (ExecutorArgs r) (Once r).
Definition set_DisplayName (v : string) (r : daemonConfig) : daemonConfig := mk (ConfigPath r) (ServerURL r) (Token r) (DaemonID r) (ComputerID r) v (Hostname r) (HeartbeatInterval r) (AgentID r) (RuntimeKind r) (Target r) (RunPollInterval r) (RunTimeout r) (MaxConcurrentRuns r) (ExecutorCommand r) (ExecutorArgs r) (Once r).
Definition set_Hostname (v : string) (r : daemonConfig) : daemonConfig := mk (ConfigPath r) (ServerURL r) (Token r) (DaemonID r) (ComputerID r) (DisplayName r) v (HeartbeatInterval r) (AgentID r) (RuntimeKind r) (Target r) (RunPollInterval r) (RunTimeout r) (MaxConcurrentRuns r) (ExecutorCommand r) (ExecutorArgs r) (Once r).
Definition set_HeartbeatInterval (v : Z) (r : daemonConfig) : daemonConfig := mk (ConfigPath r) (ServerURL r) (Token r) (DaemonID r) (ComputerID r) (DisplayName r) (Hostname r) v (AgentID r) (RuntimeKind r) (Target r) (RunPollInterval r) (RunTimeout r) (MaxConcurrentRuns r) (ExecutorCommand r) (ExecutorArgs r) (Once r).
Definition set_AgentID (v : string) (r : daemonConfig) : daemonConfig := mk (ConfigPath r) (ServerURL r) (Token r) (DaemonID r) (ComputerID r) (DisplayName r) (Hostname r) (HeartbeatInterval r) v (RuntimeKind r) (Target r) (RunPollInterval r) (RunTimeout r) (MaxConcurrentRuns r) (ExecutorCommand r) (ExecutorArgs r) (Once r).
Definition set_RuntimeKind (v : string) (r : daemonConfig) : daemonConfig := mk (ConfigPath r) (ServerURL r) (Token r) (DaemonID r) (ComputerID r) (DisplayName r) (Hostname r) (HeartbeatInterval r) (AgentID r) v (Target r) (RunPollInterval r) (RunTimeout r) (MaxConcurrentRuns r) (ExecutorCommand r) (ExecutorArgs r) (Once r).
Definition set_Target (v : string) (r : daemonConfig) : daemonConfig := mk (ConfigPath r) (ServerURL r) (Token r) (DaemonID r) (ComputerID r) (DisplayName r) (Hostname r) (HeartbeatInterval r) (AgentID r) (RuntimeKind r) v (RunPollInterval r) (RunTimeout r) (MaxConcurrentRuns r) (ExecutorCommand r) (ExecutorArgs r) (Once r).
Definition set_RunPollInterval (v : Z) (r : daemonConfig) : daemonConfig := mk (ConfigPath r) (ServerURL r) (Token r) (DaemonID r) (ComputerID r) (DisplayName r) (Hostname r) (HeartbeatInterval r) (AgentID r) (RuntimeKind r) (Target r) v (RunTimeout r) (MaxConcurrentRuns r) (ExecutorCommand r) (ExecutorArgs r) (Once r).
Definition set_RunTimeout (v : Z) (r : daemonConfig) : daemonConfig := mk (ConfigPath r) (ServerURL r) (Token r) (DaemonID r) (ComputerID r) (DisplayName r) (Hostname r) (HeartbeatInterval r) (AgentID r) (RuntimeKind r) (Target r) (RunPollInterval r) v (MaxConcurrentRuns r) (ExecutorCommand r) (ExecutorArgs r) (Once r).
Definition set_MaxConcurrentRuns (v : Z) (r : daemonConfig) : daemonConfig := mk (ConfigPath r) (ServerURL r) (Token r) (DaemonID r) (ComputerID r) (DisplayName r) (Hostname r) (HeartbeatInterval r) (AgentID r) (RuntimeKind r) (Target r) (RunPollInterval r) (RunTimeout r) v (ExecutorCommand r) (ExecutorArgs r) (Once r).
Definition set_ExecutorCommand (v : string) (r : daemonConfig) : daemonConfig := mk (ConfigPath r) (ServerURL r) (Token r) (DaemonID r) (ComputerID r) (DisplayName r) (Hostname r) (HeartbeatInterval r) (AgentID r) (RuntimeKind r) (Target r) (RunPollInterval r) (RunTimeout r) (MaxConcurrentRuns r) v (ExecutorArgs r) (Once r).
Definition set_ExecutorArgs (v : list string) (r : daemonConfig) : daemonConfig := mk (ConfigPath r) (ServerURL r) (Token r) (DaemonID r) (ComputerID r) (DisplayName r) (Hostname r) (HeartbeatInterval r) (AgentID r) (RuntimeKind r) (Target r) (RunPollInterval r) (RunTimeout r) (MaxConcurrentRuns r) (ExecutorCommand r) v (Once r).
Definition set_Once (v : bool) (r : daemonConfig) : daemonConfig := mk (ConfigPath r) (ServerURL r) (Token r) (DaemonID r) (ComputerID r) (DisplayName r) (Hostname r) (HeartbeatInterval r) (AgentID r) (RuntimeKind r) (Target r) (RunPollInterval r) (RunTimeout r) (MaxConcurrentRuns r) (ExecutorCommand r) (ExecutorArgs r) v.
End daemonConfig.

Module daemonConfigFile.
Record daemonConfigFile := mk {
  ServerURL : string;
  Token : string;
  DaemonID : string;
  ComputerID : string;
  DisplayName : string;
  Hostname : string;
  HeartbeatInterval : string;
  AgentID : string;
  RuntimeKind : string;
  Target : string;
  RunPollInterval : string;
  RunTimeout : string;
  MaxConcurrentRuns : Z;
  ExecutorCommand : string;
  ExecutorArgs : list string
}.
Definition zero : daemonConfigFile := mk "" "" "" "" "" "" "" "" "" "" "" "" 0%Z "" [].
Definition set_ServerURL (v : string) (r : daemonConfigFile) : daemonConfigFile := mk v (Token r) (DaemonID r) (ComputerID r) (DisplayName r) (Hostname r) (HeartbeatInterval r) (AgentID r) (RuntimeKind r) (Target r) (RunPollInterval r) (RunTimeout r) (MaxConcurrentRuns r) (ExecutorCommand r) (ExecutorArgs r).
Definition set_Token (v : string) (r : daemonConfigFile) : daemonConfigFile := mk (ServerURL r) v (DaemonID r) (ComputerID r) (DisplayName r) (Hostname r) (HeartbeatInterval r) (AgentID r) (RuntimeKind r) (Target r) (RunPollInterval r) (RunTimeout r) (MaxConcurrentRuns r) (ExecutorCommand r) (ExecutorArgs r).
Definition set_DaemonID (v : string) (r : daemonConfigFile) : daemonConfigFile := mk (ServerURL r) (Token r) v (ComputerID r) (DisplayName r) (Hostname r) (HeartbeatInterval r) (AgentID r) (RuntimeKind r) (Target r) (RunPollInterval r) (RunTimeout r) (MaxConcurrentRuns r) (ExecutorCommand r) (ExecutorArgs r).
Definition set_ComputerID (v : string) (r : daemonConfigFile) : daemonConfigFile := mk (ServerURL r) (Token r) (DaemonID r) v (DisplayName r) (Hostname r) (HeartbeatInterval r) (AgentID r) (RuntimeKind r) (Target r) (RunPollInterval r) (RunTimeout r) (MaxConcurrentRuns r) (ExecutorCommand r) (ExecutorArgs r).
Definition set_DisplayName (v : string) (r : daemonConfigFile) : daemonConfigFile := mk (ServerURL r) (Token r) (DaemonID r) (ComputerID r) v (Hostname r) (HeartbeatInterval r) (AgentID r) (RuntimeKind r) (Target r) (RunPollInterval r) (RunTimeout r) (MaxConcurrentRuns r) (ExecutorCommand r) (ExecutorArgs r).
Definition set_Hostname (v : string) (r : daemonConfigFile) : daemonConfigFile := mk (ServerURL r) (Token r) (DaemonID r) (ComputerID r) (DisplayName r) v (HeartbeatInterval r) (AgentID r) (RuntimeKind r) (Target r) (RunPollInterval r) (RunTimeout r) (MaxConcurrentRuns r) (ExecutorCommand r) (ExecutorArgs r).
Definition set_HeartbeatInterval (v : string) (r : daemonConfigFile) : daemonConfigFile := mk (ServerURL r) (Token r) (DaemonID r) (ComputerID r) (DisplayName r) (Hostname r) v (AgentID r) (RuntimeKind r) (Target r) (RunPollInterval r) (RunTimeout r) (MaxConcurrentRuns r) (ExecutorCommand r) (ExecutorArgs r).
Definition set_AgentID (v : string) (r : daemonConfigFile) : daemonConfigFile := mk (ServerURL r) (Token r) (DaemonID r) (ComputerID r) (DisplayName r) (Hostname r) (HeartbeatInterval r) v (RuntimeKind r) (Target r) (RunPollInterval r) (RunTimeout r) (MaxConcurrentRuns r) (ExecutorCommand r) (ExecutorArgs r).
Definition set_RuntimeKind (v : string) (r : daemonConfigFile) : daemonConfigFile := mk (ServerURL r) (Token r) (DaemonID r) (ComputerID r) (DisplayName r) (Hostname r) (HeartbeatInterval r) (AgentID r) v (Target r) (RunPollInterval r) (RunTimeout r) (MaxConcurrentRuns r) (ExecutorCommand r) (ExecutorArgs r).
Definition set_Target (v : string) (r : daemonConfigFile) : daemonConfigFile := mk (ServerURL r) (Token r) (DaemonID r) (ComputerID r) (DisplayName r) (Hostname r) (HeartbeatInterval r) (AgentID r) (RuntimeKind r) v (RunPollInterval r) (RunTimeout r) (MaxConcurrentRuns r) (ExecutorCommand r) (ExecutorArgs r).
Definition set_RunPollInterval (v : string) (r : daemonConfigFile) : daemonConfigFile := mk (ServerURL r) (Token r) (DaemonID r) (ComputerID r) (DisplayName r) (Hostname r) (HeartbeatInterval r) (AgentID r) (RuntimeKind r) (Target r) v (RunTimeout r) (MaxConcurrentRuns r) (ExecutorCommand r) (ExecutorArgs r).
Definition set_RunTimeout (v : string) (r : daemonConfigFile) : daemonConfigFile := mk (ServerURL r) (Token r) (DaemonID r) (ComputerID r) (DisplayName r) (Hostname r) (HeartbeatInterval r) (AgentID r) (RuntimeKind r) (Target r) (RunPollInterval r) v (MaxConcurrentRuns r) (ExecutorCommand r) (ExecutorArgs r).
Definition set_MaxConcurrentRuns (v : Z) (r : daemonConfigFile) : daemonConfigFile := mk (ServerURL r) (Token r) (DaemonID r) (ComputerID r) (DisplayName r) (Hostname r) (HeartbeatInterval r) (AgentID r) (RuntimeKind r) (Target r) (RunPollInterval r) (RunTimeout r) v (ExecutorCommand r) (ExecutorArgs r).
Definition set_ExecutorCommand (v : string) (r : daemonConfigFile) : daemonConfigFile := mk (ServerURL r) (Token r) (DaemonID r) (ComputerID r) (DisplayName r) (Hostname r) (HeartbeatInterval r) (AgentID r) (RuntimeKind r) (Target r) (RunPollInterval r) (RunTimeout r) (MaxConcurrentRuns r) v (ExecutorArgs r).
Definition set_ExecutorArgs (v : list string) (r : daemonConfigFile) : daemonConfigFile := mk (ServerURL r) (Token r) (DaemonID r) (ComputerID r) (DisplayName r) (Hostname r) (HeartbeatInterval r) (AgentID r) (RuntimeKind r) (Target r) (RunPollInterval r) (RunTimeout r) (MaxConcurrentRuns r) (ExecutorCommand r) v.
End daemonConfigFile.

Module Cfg := daemonConfig.
Module File := daemonConfigFile.

(** What reading a file gives. *)
Inductive read_result := Content (text : string) | NotExist | Unreadable.

Record Host := mkHost {
  hostname : string;
  Getenv : string → string;
  UserHomeDir : option string;
  ReadFile : string → read_result
}.

(** [url.ParseRequestURI]: whether it returns no error. *)
Class UrlLib := { ParseRequestURI : string → bool }.

Inductive config_fault :=
| ReadFault | ParseFault | HeartbeatFault | PollFault | TimeoutFault
| FlagFault (e : flag_error)
| UrlRequired | UrlInvalid | IdsRequired | HeartbeatNotPositive | PollNotPositive | TimeoutNotPositive | RunsNotPositive.

Section config.
Context {Fs : FloatScale} {Url : UrlLib}.

Definition defaultDaemonServerURL : string := "http://localhost:18790".
Definition second : Z := 1000000000.

(** ** The environment *)

Definition env (h : Host) (name fallback : string) : string :=
  let value := TrimSpace (Getenv h name) in if value =s "" then fallback else value.

Definition durationEnv (h : Host) (name : string) (fallback : Z) : Z :=
  let value := TrimSpace (Getenv h name) in
  if value =s "" then fallback else from_opt fallback (ParseDuration value).

Definition intEnv (h : Host) (name : string) (fallback : Z) : Z :=
  let value := TrimSpace (Getenv h name) in
  if value =s "" then fallback else from_opt fallback (ParseInt value).

Definition splitArgsEnv (h : Host) (name : string) : list string :=
  let value := TrimSpace (Getenv h name) in if value =s "" then [] else Fields value.

Definition defaultConfigPath (h : Host) : string :=
  match UserHomeDir h with None => "" | Some home => path_Join [home; ".nekode"; "daemon.json"] end.

Fixpoint firstConfigPathArg (args : list string) (fallback : string) : string :=
  match args with
  | [] => fallback
  | arg :: rest =>
      let cut := if HasPrefix arg "--config=" then Some (TrimPrefix arg "--config=") else None in
      match (if arg =s "--config" then head rest else None), cut with
      | Some path, _ => TrimSpace path
      | None, Some value => TrimSpace value
      | None, None => firstConfigPathArg rest fallback
      end
  end.

Definition env_config (h : Host) (args : list string) : Cfg.daemonConfig :=
  let host := hostname h in
  Cfg.zero
  |> Cfg.set_ConfigPath (firstConfigPathArg args (env h "NEKODE_DAEMON_CONFIG" (defaultConfigPath h)))
  |> Cfg.set_ServerURL (env h "NEKODE_DAEMON_SERVER_URL" (env h "NEKODE_SERVER_URL" defaultDaemonServerURL))
  |> Cfg.set_Token (env h "NEKODE_DAEMON_TOKEN" "")
  |> Cfg.set_DaemonID (env h "NEKODE_DAEMON_ID" ("daemon-" +:+ host))
  |> Cfg.set_ComputerID (env h "NEKODE_COMPUTER_ID" ("computer-" +:+ host))
  |> Cfg.set_DisplayName (env h "NEKODE_COMPUTER_NAME" host)
  |> Cfg.set_Hostname (env h "NEKODE_HOSTNAME" host)
  |> Cfg.set_HeartbeatInterval (30 * second)%Z
  |> Cfg.set_AgentID (env h "NEKODE_AGENT_ID" ("daemon-agent-" +:+ host))
  |> Cfg.set_RuntimeKind (env h "NEKODE_RUNTIME_KIND" "codex")
  |> Cfg.set_Target (env h "NEKODE_DAEMON_TARGET" "#general")
  |> Cfg.set_RunPollInterval (durationEnv h "NEKODE_RUN_POLL_INTERVAL" (5 * second)%Z)
  |> Cfg.set_RunTimeout (durationEnv h "NEKODE_RUN_TIMEOUT" (600 * second)%Z)
  |> Cfg.set_MaxConcurrentRuns (intEnv h "NEKODE_MAX_CONCURRENT_RUNS" 1)
  |> Cfg.set_ExecutorCommand (env h "NEKODE_EXECUTOR_COMMAND" "")
  |> Cfg.set_ExecutorArgs (splitArgsEnv h "NEKODE_EXECUTOR_ARGS").

(** ** The install file *)

Definition overlayString (dst value : string) : string :=
  let value := TrimSpace value in if value =s "" then dst else value.

(** A duration of the file replaces the one before it, unless it is blank. *)
Definition overlayDuration (dst : Z) (value : string) (fault : config_fault) : config_fault + Z :=
  if TrimSpace value =s "" then inr dst
  else match ParseDuration value with Some d => inr d | None => inl fault end.

Definition file_fields : list (field File.daemonConfigFile) :=
  [("serverUrl", into File.ServerURL File.set_ServerURL dec_string);
   ("token", into File.Token File.set_Token dec_string);
   ("daemonId", into File.DaemonID File.set_DaemonID dec_string);
   ("computerId", into File.ComputerID File.set_ComputerID dec_string);
   ("displayName", into File.DisplayName File.set_DisplayName dec_string);
   ("hostname", into File.Hostname File.set_Hostname dec_string);
   ("heartbeatInterval", into File.HeartbeatInterval File.set_HeartbeatInterval dec_string);
   ("agentId", into File.AgentID File.set_AgentID dec_string);
   ("runtimeKind", into File.RuntimeKind File.set_RuntimeKind dec_string);
   ("target", into File.Target File.set_Target dec_string);
   ("runPollInterval", into File.RunPollInterval File.set_RunPollInterval dec_string);
   ("runTimeout", into File.RunTimeout File.set_RunTimeout dec_string);
   ("maxConcurrentRuns", into File.MaxConcurrentRuns File.set_MaxConcurrentRuns dec_int64);
   ("executorCommand", into File.ExecutorCommand File.set_ExecutorCommand dec_string);
   ("executorArgs", into File.ExecutorArgs File.set_ExecutorArgs (dec_slice "" dec_string))].

(** The texts of the file over those of the environment. *)
Definition overlay (file : File.daemonConfigFile) (c : Cfg.daemonConfig) : Cfg.daemonConfig :=
  c
  |> Cfg.set_ServerURL (overlayString (Cfg.ServerURL c) (File.ServerURL file))
  |> Cfg.set_Token (overlayString (Cfg.Token c) (File.Token file))
  |> Cfg.set_DaemonID (overlayString (Cfg.DaemonID c) (File.DaemonID file))
  |> Cfg.set_ComputerID (overlayString (Cfg.ComputerID c) (File.ComputerID file))
  |> Cfg.set_DisplayName (overlayString (Cfg.DisplayName c) (File.DisplayName file))
  |> Cfg.set_Hostname (overlayString (Cfg.Hostname c) (File.Hostname file))
  |> Cfg.set_AgentID (overlayString (Cfg.AgentID c) (File.AgentID file))
  |> Cfg.set_RuntimeKind (overlayString (Cfg.RuntimeKind c) (File.RuntimeKind file))
  |> Cfg.set_Target (overlayString (Cfg.Target c) (File.Target file))
  |> Cfg.set_ExecutorCommand (overlayString (Cfg.ExecutorCommand c) (File.ExecutorCommand file))
  |> Cfg.set_ExecutorArgs (match File.ExecutorArgs file with [] => Cfg.ExecutorArgs c | args => args end).

Definition applyConfigFile (h : Host) (c : Cfg.daemonConfig) : config_fault + Cfg.daemonConfig :=
  if TrimSpace (Cfg.ConfigPath c) =s "" then inr c
  else match ReadFile h (Cfg.ConfigPath c) with
  | NotExist => inr c
  | Unreadable => inl ReadFault
  | Content text =>
      match Unmarshal (dec_struct file_fields) text File.zero with
      | (_, false) => inl ParseFault
      | (file, true) =>
          let c := overlay file c in
          match overlayDuration (Cfg.HeartbeatInterval c) (File.HeartbeatInterval file) HeartbeatFault with
          | inl e => inl e
          | inr heartbeat =>
              match overlayDuration (Cfg.RunPollInterval c) (File.RunPollInterval file) PollFault with
              | inl e => inl e
              | inr poll =>
                  match overlayDuration (Cfg.RunTimeout c) (File.RunTimeout file) TimeoutFault with
                  | inl e => inl e
                  | inr timeout =>
                      inr (c |> Cfg.set_HeartbeatInterval heartbeat |> Cfg.set_RunPollInterval poll
                             |> Cfg.set_RunTimeout timeout
                             |> Cfg.set_MaxConcurrentRuns
                                  (if (0 <? File.MaxConcurrentRuns file)%Z then File.MaxConcurrentRuns file
                                   else Cfg.MaxConcurrentRuns c))
                  end
              end
          end
      end
  end.

(** ** The flags *)

Definition duration_flag (name : string) (set : Z → Cfg.daemonConfig → Cfg.daemonConfig) : flag Cfg.daemonConfig :=
  mkFlag name false (λ v c, (λ d, set d c) <$> ParseDuration v).

Definition run_flags : list (flag Cfg.daemonConfig) :=
  [string_flag "config" Cfg.set_ConfigPath; string_flag "server-url" Cfg.set_ServerURL;
   string_flag "token" Cfg.set_Token; string_flag "daemon-id" Cfg.set_DaemonID;
   string_flag "computer-id" Cfg.set_ComputerID; string_flag "display-name" Cfg.set_DisplayName;
   string_flag "hostname" Cfg.set_Hostname; duration_flag "heartbeat-interval" Cfg.set_HeartbeatInterval;
   string_flag "agent-id" Cfg.set_AgentID; string_flag "runtime-kind" Cfg.set_RuntimeKind;
   string_flag "target" Cfg.set_Target; duration_flag "run-poll-interval" Cfg.set_RunPollInterval;
   duration_flag "run-timeout" Cfg.set_RunTimeout;
   mkFlag "max-concurrent-runs" false (λ v c, (λ n, Cfg.set_MaxConcurrentRuns n c) <$> ParseInt0 v);
   string_flag "executor-command" Cfg.set_ExecutorCommand;
   string_flag "executor-arg" (λ v c, Cfg.set_ExecutorArgs (Cfg.ExecutorArgs c ++ [v]) c);
   mkFlag "once" true (λ v c, (λ b, Cfg.set_Once b c) <$> ParseBool v)].

(** ** The whole *)

Definition normalizeDaemonServerURL (value : string) : string :=
  let value := TrimSpace value in
  if value =s "" then ""
  else if Contains value "://" then TrimRightByte "/" value
  else "http://" +:+ TrimRightByte "/" value.

(** The checks, in the order of the code. *)
Definition check_config (c : Cfg.daemonConfig) : config_fault + Cfg.daemonConfig :=
  if TrimSpace (Cfg.ServerURL c) =s "" then inl UrlRequired
  else if negb (ParseRequestURI (Cfg.ServerURL c)) then inl UrlInvalid
  else if (TrimSpace (Cfg.DaemonID c) =s "") || (TrimSpace (Cfg.ComputerID c) =s "") then inl IdsRequired
  else if (Cfg.HeartbeatInterval c <=? 0)%Z then inl HeartbeatNotPositive
  else if (Cfg.RunPollInterval c <=? 0)%Z then inl PollNotPositive
  else if (Cfg.RunTimeout c <=? 0)%Z then inl TimeoutNotPositive
  else if (Cfg.MaxConcurrentRuns c <=? 0)%Z then inl RunsNotPositive
  else inr c.

Definition loadConfig (h : Host) (args : list string) : config_fault + Cfg.daemonConfig :=
  match applyConfigFile h (env_config h args) with
  | inl e => inl e
  | inr c =>
      match parse_flags run_flags c args with
      | inl e => inl (FlagFault e)
      | inr c => check_config (c |> Cfg.set_ServerURL (normalizeDaemonServerURL (Cfg.ServerURL c)))
      end
  end.

End config.

(** ** What a loaded configuration satisfies *)

Section loaded.
Context {Fs : FloatScale} {Url : UrlLib}.

(** What the daemon's loop relies on: its tickers panic on an interval that is not
    positive, and every request names the computer. *)
Record usable (c : Cfg.daemonConfig) : Prop := {
  usable_url : TrimSpace (Cfg.ServerURL c) ≠ "" ∧ ParseRequestURI (Cfg.ServerURL c) = true
               ∧ (HasSuffix (Cfg.ServerURL c) "/" = false ∨ Cfg.ServerURL c = "http://");
  usable_ids : TrimSpace (Cfg.DaemonID c) ≠ "" ∧ TrimSpace (Cfg.ComputerID c) ≠ "";
  usable_intervals : (0 < Cfg.HeartbeatInterval c)%Z ∧ (0 < Cfg.RunPollInterval c)%Z ∧ (0 < Cfg.RunTimeout c)%Z;
  usable_runs : (0 < Cfg.MaxConcurrentRuns c)%Z
}.

Lemma check_config_inv c c' :
  check_config c = inr c' →
  c' = c ∧ TrimSpace (Cfg.ServerURL c) ≠ "" ∧ ParseRequestURI (Cfg.ServerURL c) = true
  ∧ TrimSpace (Cfg.DaemonID c) ≠ "" ∧ TrimSpace (Cfg.ComputerID c) ≠ ""
  ∧ (0 < Cfg.HeartbeatInterval c)%Z ∧ (0 < Cfg.RunPollInterval c)%Z ∧ (0 < Cfg.RunTimeout c)%Z
  ∧ (0 < Cfg.MaxConcurrentRuns c)%Z.
Proof.
  unfold check_config.
  destruct (String.eqb_spec (TrimSpace (Cfg.ServerURL c)) ""); [done|].
  destruct (ParseRequestURI _); [|done]. cbn [negb].
  destruct (String.eqb_spec (TrimSpace (Cfg.DaemonID c)) ""); [done|].
  destruct (String.eqb_spec (TrimSpace (Cfg.ComputerID c)) ""); [done|]. cbn [orb].
  destruct (Z.leb_spec (Cfg.HeartbeatInterval c) 0); [done|].
  destruct (Z.leb_spec (Cfg.RunPollInterval c) 0); [done|].
  destruct (Z.leb_spec (Cfg.RunTimeout c) 0); [done|].
  destruct (Z.leb_spec (Cfg.MaxConcurrentRuns c) 0); [done|].
  intros <-%(inj inr). done.
Qed.

Lemma HasPrefix_byte b c s : HasPrefix (String c s) (String b "") = if ascii_dec b c then true else false.
Proof. unfold HasPrefix. cbn [String.prefix]. destruct (ascii_dec b c); [by destruct s|done]. Qed.

Lemma trim_left_byte_head b s : HasPrefix (trim_left_byte b s) (String b "") = false.
Proof.
  induction s as [|c s IH]; [done|]. simpl. destruct (Ascii.eqb_spec c b) as [->|N]; [done|].
  rewrite HasPrefix_byte. by destruct (ascii_dec b c).
Qed.

Lemma TrimRightByte_suffix s : HasSuffix (TrimRightByte "/" s) "/" = false.
Proof. unfold HasSuffix, TrimRightByte. rewrite srev_involutive. apply (trim_left_byte_head "/"). Qed.

Lemma HasSuffix_app_last s t : t ≠ "" → HasSuffix (s +:+ t) "/" = HasSuffix t "/".
Proof.
  intros N. unfold HasSuffix. rewrite srev_app. destruct (String.rev t) as [|c r] eqn:E.
  - exfalso. apply N. apply (f_equal String.rev) in E. by rewrite srev_involutive in E.
  - change (HasPrefix (String c (r +:+ String.rev s)) "/" = HasPrefix (String c r) "/").
    by rewrite !HasPrefix_byte.
Qed.

Lemma normalized_suffix value :
  HasSuffix (normalizeDaemonServerURL value) "/" = false ∨ normalizeDaemonServerURL value = "http://".
Proof.
  unfold normalizeDaemonServerURL. cbn zeta. destruct (_ =s _); [by left|].
  destruct (Contains _ _); [left; apply TrimRightByte_suffix|].
  destruct (decide (TrimRightByte "/" (TrimSpace value) = "")) as [->|N]; [by right|].
  left. rewrite HasSuffix_app_last by done. apply TrimRightByte_suffix.
Qed.

(** Whatever the environment, the file and the flags say, a configuration that is accepted
    is one the daemon can run with. *)
Theorem loadConfig_usable h args c : loadConfig h args = inr c → usable c.
Proof.
  unfold loadConfig. destruct (applyConfigFile _ _) as [|file]; [done|].
  destruct (parse_flags _ _ _) as [|flags]; [done|]. cbn zeta. intros H.
  apply check_config_inv in H as (-> & U & P & D & Cid & Hb & Pl & Tm & Mx).
  split; [|by split..|done]. split_and!; [done|done|]. apply normalized_suffix.
Qed.

(** Without flags every text is the file's unless blank, else the environment's, else the
    default. *)
Lemma applyConfigFile_texts h c c' :
  applyConfigFile h c = inr c' →
  c' = c ∨ ∃ text file, ReadFile h (Cfg.ConfigPath c) = Content text
    ∧ Unmarshal (dec_struct file_fields) text File.zero = (file, true)
    ∧ Cfg.Token c' = overlayString (Cfg.Token c) (File.Token file)
    ∧ Cfg.ServerURL c' = overlayString (Cfg.ServerURL c) (File.ServerURL file)
    ∧ Cfg.AgentID c' = overlayString (Cfg.AgentID c) (File.AgentID file).
Proof.
  unfold applyConfigFile. destruct (_ =s _); [intros <-%(inj inr); by left|].
  destruct (ReadFile h (Cfg.ConfigPath c)) as [text| |]; [|intros <-%(inj inr); by left|done].
  destruct (Unmarshal _ _ _) as [file []] eqn:U; [|done]. cbn zeta.
  repeat match goal with |- match ?m with inl _ => _ | inr _ => _ end = _ → _ => destruct m; [done|] end.
  intros <-%(inj inr). right. by exists text, file.
Qed.

End loaded.

(** ** Examples *)

Section examples.
Local Existing Instance exact_scale.
Local Instance any_url : UrlLib := {| ParseRequestURI url := Contains url "://" |}.

Definition laptop : Host :=
  mkHost "laptop" (λ n, if n =s "NEKODE_DAEMON_TOKEN" then " from-env " else "") (Some "/home/ann")
    (λ path, if path =s "/home/ann/.nekode/daemon.json"
             then Content ("{" +:+ q "serverUrl" +:+ ": " +:+ q "nekode.example/" +:+ ", " +:+ q "token" +:+ ": " +:+ q "from-file"
                           +:+ ", " +:+ q "runTimeout" +:+ ": " +:+ q "1m30s" +:+ "}")
             else NotExist).

Definition laptop_config : Cfg.daemonConfig :=
  match loadConfig laptop ["--heartbeat-interval=10s"; "-once"] with inr c => c | inl _ => Cfg.zero end.

Example laptop_loaded :
  (Cfg.ServerURL laptop_config, Cfg.Token laptop_config, Cfg.DaemonID laptop_config, Cfg.Once laptop_config,
   [Cfg.HeartbeatInterval laptop_config; Cfg.RunTimeout laptop_config; Cfg.RunPollInterval laptop_config])
  = ("http://nekode.example", "from-file", "daemon-laptop", true, [10 * second; 90 * second; 5 * second]%Z).
Proof. vm_compute. reflexivity. Qed.

Lemma loadConfig_usable_witness :
  loadConfig laptop ["--heartbeat-interval=10s"; "-once"] = inr laptop_config ∧ usable laptop_config.
Proof.
  split; [vm_compute; reflexivity|].
  apply (loadConfig_usable laptop ["--heartbeat-interval=10s"; "-once"]). vm_compute. reflexivity.
Defined.

(** The flag package accepts [-config] as well as [--config]; only the second is looked at
    before the file is read, so with the first the file named is not the file read. *)
Example single_dash_config_not_read :
  sum_map id (λ c, (Cfg.ConfigPath c, Cfg.Token c)) (loadConfig laptop ["-config"; "/etc/other.json"])
  = inr ("/etc/other.json", "from-file").
Proof. vm_compute. reflexivity. Qed.

End examples.
