(* ===== verification/Daemon.v ===== *)
(** * Programs of the daemon ([cmd/nekode-daemon])

    The daemon's code is straight-line code between calls: it asks the server, the clock,
    the random source, the operating system and the supervisor's map of running processes,
    and goes on with the answer.  A function of it is a [prog], a tree whose nodes are these
    effects and whose branches are their answers; [traces] are the runs of a tree, with
    whatever answers the outside world gives.  [wp] is the calculus: a monitor watches the
    effects, says which are allowed and keeps a state of its own.

    Every call to the server carries the daemon's token, when there is one, and a timeout of
    ten seconds; both are part of the call, and a timeout is one of the errors it may return.
    What is only logged is left out. *)
From S2P Require Import Prelude GoStr GoText Sql Models Schema Store Proto Rpc GoFlag DaemonConfig.

#[local] Open Scope go_scope.

(** ** Effects *)

(** The error of a call: its text and [connect.CodeOf]. *)
Record call_error := mkCallError { error_text : string; CodeOf : code }.

(** A command as the supervisor makes it. *)
Record runtimeCommand := mkCommand {
  Command : string;
  Args : list string;
  Env : list string;
  Dir : string;
  Stdin : string
}.

(** How [exec.Cmd.Run] ends: the combined output, the error with the exit code of an
    [ExitError], and what the context says afterwards. *)
Record exec_error := mkExecError { exec_text : string; exit_status : option Z; exec_deadline : bool }.
Inductive ctx_error := CtxCanceled | CtxDeadlineExceeded.
Record exec_result := mkExec { exec_output : string; exec_failure : option exec_error; ctx_failure : option ctx_error }.

Inductive effect :=
| CallRegisterComputer (req : daemonv1.RegisterComputerRequest.RegisterComputerRequest)
| CallHeartbeatComputer (req : daemonv1.HeartbeatComputerRequest.HeartbeatComputerRequest)
| CallAcquireStartPermit (req : daemonv1.AcquireStartPermitRequest.AcquireStartPermitRequest)
| CallReleaseStartPermit (req : daemonv1.ReleaseStartPermitRequest.ReleaseStartPermitRequest)
| CallFetchAssignedRuns (req : daemonv1.FetchAssignedRunsRequest.FetchAssignedRunsRequest)
| CallGetLaunchPromptSnapshot (req : daemonv1.GetLaunchPromptSnapshotRequest.GetLaunchPromptSnapshotRequest)
| CallUpdateRunStatus (req : daemonv1.UpdateRunStatusRequest.UpdateRunStatusRequest)
| CallAppendRunStep (req : daemonv1.AppendRunStepRequest.AppendRunStepRequest)
| CallUpdateAgentStatus (req : daemonv1.UpdateAgentStatusRequest.UpdateAgentStatusRequest)
| CallSendMessage (req : daemonv1.SendMessageRequest.SendMessageRequest)
| CallLogActivity (req : daemonv1.LogActivityRequest.LogActivityRequest)
| CallAcknowledgeServerEvents (req : daemonv1.AcknowledgeServerEventsRequest.AcknowledgeServerEventsRequest)
| OpenReport
| SendReport (event : daemonv1.AgentRunEvent.AgentRunEvent)
| CloseAndRecvReport
| CloseReport
| ReadRandom
| ReadClock
| Exec (timeout : Z) (cmd : runtimeCommand)
| ReserveRun (runID : string)
| SetProcessCommand (runID : string) (cmd : runtimeCommand) (agentID : string)
| ReleaseRun (runID : string)
| CancelAgentRuns (agentID : string).

(** [ReadRandom] gives eight bytes in hexadecimal, or fails; the clock counts nanoseconds. *)
Definition answer (e : effect) : Type :=
  match e with
  | CallRegisterComputer _ => call_error + daemonv1.RegisterComputerResponse.RegisterComputerResponse
  | CallHeartbeatComputer _ => call_error + daemonv1.HeartbeatComputerResponse.HeartbeatComputerResponse
  | CallAcquireStartPermit _ => call_error + daemonv1.AcquireStartPermitResponse.AcquireStartPermitResponse
  | CallFetchAssignedRuns _ => call_error + daemonv1.FetchAssignedRunsResponse.FetchAssignedRunsResponse
  | CallGetLaunchPromptSnapshot _ => call_error + daemonv1.GetLaunchPromptSnapshotResponse.GetLaunchPromptSnapshotResponse
  | CallAppendRunStep _ => call_error + daemonv1.AppendRunStepResponse.AppendRunStepResponse
  | CallReleaseStartPermit _ | CallUpdateRunStatus _ | CallUpdateAgentStatus _ | CallSendMessage _
  | CallLogActivity _ | CallAcknowledgeServerEvents _ | OpenReport | SendReport _ => call_error + unit
  | CloseAndRecvReport | CloseReport => unit
  | ReadRandom => option string
  | ReadClock => Z
  | Exec _ _ => exec_result
  | ReserveRun _ => bool
  | SetProcessCommand _ _ _ | ReleaseRun _ => unit
  | CancelAgentRuns _ => nat
  end.

Inductive prog (A : Type) : Type :=
| Ret (a : A)
| Do (e : effect) (k : answer e → prog A).
Arguments Ret {A} a.
Arguments Do {A} e k.

Fixpoint prog_bind {A B} (f : A → prog B) (p : prog A) : prog B :=
  match p with
  | Ret a => f a
  | Do e k => Do e (λ x, prog_bind f (k x))
  end.

#[export] Instance prog_mret : MRet prog := λ A, Ret.
#[export] Instance prog_mbind : MBind prog := λ A B, prog_bind.

(** One effect, with its answer. *)
Definition perform (e : effect) : prog (answer e) := Do e Ret.

(** ** Runs *)

Inductive event := Event (e : effect) (x : answer e).

(** What may happen when a program runs: the events, in order, and its result. *)
Fixpoint traces {A} (p : prog A) (tr : list event) (a : A) : Prop :=
  match p with
  | Ret b => tr = [] ∧ b = a
  | Do e k => ∃ x tr', tr = Event e x :: tr' ∧ traces (k x) tr' a
  end.

(** The run of a program in a world that answers each effect by [h]. *)
Fixpoint play {A} (h : ∀ e, answer e) (p : prog A) : list event * A :=
  match p with
  | Ret a => ([], a)
  | Do e k => let (tr, a) := play h (k (h e)) in (Event e (h e) :: tr, a)
  end.

Lemma play_traces {A} h (p : prog A) : traces p (play h p).1 (play h p).2.
Proof.
  induction p as [a|e k IH]; simpl; [done|].
  specialize (IH (h e)). destruct (play h (k (h e))) as [tr a]. by exists (h e), tr.
Qed.

Lemma traces_bind {A B} (f : A → prog B) p tr b :
  traces (p ≫= f) tr b ↔ ∃ tr1 a tr2, tr = tr1 ++ tr2 ∧ traces p tr1 a ∧ traces (f a) tr2 b.
Proof.
  revert tr. induction p as [a|e k IH]; intros tr; simpl.
  - split; [intros H; by exists [], a, tr|]. by intros (? & ? & tr2 & -> & [-> <-] & H).
  - split.
    + intros (x & tr' & -> & H). apply (IH x) in H as (tr1 & a & tr2 & -> & H1 & H2).
      exists (Event e x :: tr1), a, tr2. split; [done|]. split; [by exists x, tr1|done].
    + intros (? & a & tr2 & -> & (x & tr1 & -> & H1) & H2). exists x, (tr1 ++ tr2).
      split; [done|]. apply (IH x). by exists tr1, a, tr2.
Qed.

(** ** Monitors *)

(** What watches a run: the effects it allows in a state, and how an effect with its answer
    changes the state. *)
Class Monitor (S : Type) := {
  allowed : S → effect → Prop;
  observe : S → ∀ e, answer e → S
}.

Section monitor.
Context {S : Type} {Mon : Monitor S}.

Fixpoint wp {A} (p : prog A) (post : A → S → Prop) (s : S) : Prop :=
  match p with
  | Ret a => post a s
  | Do e k => allowed s e ∧ ∀ x, wp (k x) post (observe s e x)
  end.

(** The state after a run, and that each of its effects was allowed. *)
Definition watch (s : S) (ev : event) : S := match ev with Event e x => observe s e x end.
Definition after (s : S) (tr : list event) : S := fold_left watch tr s.

Fixpoint follows (s : S) (tr : list event) : Prop :=
  match tr with
  | [] => True
  | Event e x :: tr => allowed s e ∧ follows (observe s e x) tr
  end.

Lemma wp_sound {A} (p : prog A) post s tr a :
  wp p post s → traces p tr a → follows s tr ∧ post a (after s tr).
Proof.
  revert tr s. induction p as [b|e k IH]; intros tr s W H; simpl in *; [by destruct H as [-> ->]|].
  destruct H as (x & tr' & -> & H). destruct W as [Al W]. destruct (IH x _ _ (W x) H) as [F P]. by repeat split.
Qed.

Lemma prog_wp_mono {A} (p : prog A) (post post' : A → S → Prop) s :
  wp p post s → (∀ a s', post a s' → post' a s') → wp p post' s.
Proof.
  intros W H. revert s W. induction p as [a|e k IH]; intros s W; simpl in *; [by apply H|].
  destruct W as [Al W]. split; [done|]. intros x. by apply IH.
Qed.

Lemma prog_wp_bind {A B} (p : prog A) (f : A → prog B) post s :
  wp p (λ a, wp (f a) post) s → wp (p ≫= f) post s.
Proof.
  revert s. induction p as [a|e k IH]; intros s W; [done|].
  destruct W as [Al W]. split; [done|]. intros x. by apply IH.
Qed.

Lemma prog_wp_ret {A} (a : A) (post : A → S → Prop) s : post a s → wp (mret a) post s.
Proof. done. Qed.

Lemma wp_perform e (post : answer e → S → Prop) s :
  allowed s e → (∀ x, post x (observe s e x)) → wp (perform e) post s.
Proof. by split. Qed.

(** An effect the monitor does not look at. *)
Definition quiet (e : effect) : Prop := ∀ s, allowed s e ∧ ∀ x, observe s e x = s.

Lemma wp_quiet e (post : answer e → S → Prop) s : quiet e → (∀ x, post x s) → wp (perform e) post s.
Proof. intros Q H. destruct (Q s) as [Al E]. split; [done|]. intros x. simpl. by rewrite E. Qed.

(** A program all of whose effects are quiet. *)
Fixpoint all_quiet {A} (p : prog A) : Prop :=
  match p with
  | Ret _ => True
  | Do e k => quiet e ∧ ∀ x, all_quiet (k x)
  end.

Lemma wp_all_quiet {A} (p : prog A) (post : A → S → Prop) s : all_quiet p → (∀ a, post a s) → wp p post s.
Proof.
  intros Q H. induction p as [a|e k IH]; [apply H|]. destruct Q as [Qe Q].
  destruct (Qe s) as [Al E]. split; [done|]. intros x. rewrite E. by apply IH.
Qed.

Lemma all_quiet_bind {A B} (p : prog A) (f : A → prog B) : all_quiet p → (∀ a, all_quiet (f a)) → all_quiet (p ≫= f).
Proof.
  intros Q H. induction p as [a|e k IH]; [apply H|]. destruct Q as [Qe Q]. split; [done|]. intros x. by apply IH.
Qed.

Lemma follows_app s tr1 tr2 : follows s (tr1 ++ tr2) ↔ follows s tr1 ∧ follows (after s tr1) tr2.
Proof.
  revert s. induction tr1 as [|[e x] tr1 IH]; intros s; simpl; [tauto|]. rewrite IH. unfold after. simpl. tauto.
Qed.

End monitor.

(** ** Identifiers and contexts ([main.go]) *)

(** What the linker and the compiler say of the binary. *)
Class Build := { Version : string; GOOS : string; GOARCH : string }.

Definition newRequestID (prefix : string) : prog string :=
  bytes ← perform ReadRandom;
  match bytes with
  | Some hex => mret (prefix +:+ "-" +:+ hex)
  | None => now ← perform ReadClock; mret (prefix +:+ "-" +:+ FormatInt now)
  end.

(** [time.Now().Unix()]. *)
Definition unix_now : prog Z := now ← perform ReadClock; mret (now / second)%Z.

Module Ctx := daemonv1.RequestContext.
Module Act := daemonv1.Actor.
Module Cli := daemonv1.ClientInfo.

Section build.
Context {B : Build}.

Definition requestContext (cfg : Cfg.daemonConfig) : prog (option Ctx.RequestContext) :=
  trace ← newRequestID "trace";
  mret (Some (Ctx.zero
    |> Ctx.set_TraceId trace
    |> Ctx.set_Actor (Some (Act.zero |> Act.set_ActorKind daemonv1.ActorKind_ACTOR_KIND_DAEMON
         |> Act.set_DaemonId (Cfg.DaemonID cfg) |> Act.set_DisplayName (Cfg.DisplayName cfg)))
    |> Ctx.set_Client (Some (Cli.zero |> Cli.set_Platform "daemon" |> Cli.set_Version Version |> Cli.set_Os GOOS)))).

(** The request id, the idempotency key and the context that most requests carry, drawn in
    this order. *)
Definition request_ids (cfg : Cfg.daemonConfig) (prefix : string) : prog (string * string * option Ctx.RequestContext) :=
  id ← newRequestID prefix;
  key ← newRequestID prefix;
  context ← requestContext cfg;
  mret (id, key, context).

End build.

(** A monitor that lets the daemon draw identifiers and look at the clock. *)
Class Watchful {S} (Mon : Monitor S) := {
  quiet_random : quiet ReadRandom;
  quiet_clock : quiet ReadClock
}.

Section ids.
Context {B : Build} {S : Type} {Mon : Monitor S} {W : Watchful Mon}.

Lemma newRequestID_quiet prefix : all_quiet (newRequestID prefix).
Proof.
  apply all_quiet_bind; [split; [apply quiet_random|done]|]. intros [hex|]; [done|].
  apply all_quiet_bind; [split; [apply quiet_clock|done]|done].
Qed.

Lemma unix_now_quiet : all_quiet unix_now.
Proof. apply all_quiet_bind; [split; [apply quiet_clock|done]|done]. Qed.

Lemma requestContext_quiet cfg : all_quiet (requestContext cfg).
Proof. apply all_quiet_bind; [apply newRequestID_quiet|done]. Qed.

Lemma request_ids_quiet cfg prefix : all_quiet (request_ids cfg prefix).
Proof.
  apply all_quiet_bind; [apply newRequestID_quiet|]. intros id.
  apply all_quiet_bind; [apply newRequestID_quiet|]. intros key.
  apply all_quiet_bind; [apply requestContext_quiet|done].
Qed.

End ids.
