(* ===== verification/DaemonRun.v ===== *)
(** * Executing a run ([cmd/nekode-daemon/supervisor.go, run_recorder.go])

    What the daemon does with one run: the start permit, the reports to the server, the
    command and its outcome, and the archive of the run.  [protocol] is the specification, a
    state machine over what the server sees; [executeRun] follows it whatever the server,
    the operating system and the network answer. *)
From S2P Require Import Prelude GoStr GoText Json JsonValue Sql Models Schema Store Proto Rpc.
From S2P Require Import RpcConv RuntimeCatalog RuntimeAdapter GoFlag DaemonConfig Daemon.

#[local] Open Scope go_scope.

Module Run := daemonv1.Run.
Module Lease := daemonv1.Lease.
Module Snap := daemonv1.LaunchPromptSnapshot.
Module Sect := daemonv1.LaunchPromptSnapshotSection.
Module Step := daemonv1.RunStep.
Module Acq := daemonv1.AcquireStartPermitRequest.
Module AcqP := daemonv1.AcquireStartPermitResponse.
Module Rel := daemonv1.ReleaseStartPermitRequest.
Module Upd := daemonv1.UpdateRunStatusRequest.
Module App := daemonv1.AppendRunStepRequest.
Module AppP := daemonv1.AppendRunStepResponse.
Module Sta := daemonv1.UpdateAgentStatusRequest.
Module Shot := daemonv1.AgentStatusSnapshot.
Module Log := daemonv1.LogActivityRequest.
Module Pro := daemonv1.GetLaunchPromptSnapshotRequest.
Module ProP := daemonv1.GetLaunchPromptSnapshotResponse.
Module Arc := daemonv1.AgentRunEvent.

(** ** Values *)

Definition newline : string := String (byte 10) "".

Definition maxRunDetailBytes : nat := 4096.

Definition truncateDetail (value : string) : string :=
  if String.length value <=? maxRunDetailBytes then value
  else stake maxRunDetailBytes value +:+ newline +:+ "...truncated...".

Definition nonEmptyRuntimeLines (lines : list string) : list string := bfilter (λ l, negb (TrimSpace l =s "")) lines.

Fixpoint firstNonZero (values : list Z) : Z :=
  match values with
  | [] => 0
  | v :: values => if (v =? 0)%Z then firstNonZero values else v
  end.

Definition commandStepID (step : option Step.RunStep) : string :=
  match step with None => "" | Some step => Step.StepId step end.

Definition completedTimeForStep (status now : Z) : Z :=
  if (status =? daemonv1.RunStepStatus_RUN_STEP_STATUS_RUNNING)%Z then 0 else now.

Definition presenceForActivity (state : Z) : Z :=
  if (state =? daemonv1.AgentActivityState_AGENT_ACTIVITY_STATE_WAITING)%Z then daemonv1.AgentPresence_AGENT_PRESENCE_IDLE
  else if (state =? daemonv1.AgentActivityState_AGENT_ACTIVITY_STATE_BLOCKED)%Z then daemonv1.AgentPresence_AGENT_PRESENCE_DEGRADED
  else daemonv1.AgentPresence_AGENT_PRESENCE_BUSY.

Definition severityForHealth (health : Z) : Z :=
  if (health =? daemonv1.AgentHealth_AGENT_HEALTH_OK)%Z then daemonv1.AgentStatusSeverity_AGENT_STATUS_SEVERITY_INFO
  else daemonv1.AgentStatusSeverity_AGENT_STATUS_SEVERITY_ERROR.

(** A run without an id, or one that is not queued, is left alone. *)
Definition shouldStartRun (run : option Run.Run) : bool :=
  match run with
  | None => false
  | Some run =>
      negb (TrimSpace (Run.RunId run) =s "")
      && ((Run.State run =? daemonv1.RunState_RUN_STATE_UNSPECIFIED)%Z
          || (Run.State run =? daemonv1.RunState_RUN_STATE_QUEUED)%Z)
  end.

(** The getters of a snapshot that may be nil. *)
Definition snap (get : Snap.LaunchPromptSnapshot → string) (snapshot : option Snap.LaunchPromptSnapshot) : string :=
  match snapshot with None => "" | Some s => get s end.

Definition runPrompt (run : Run.Run) : string :=
  GoStr.Join ((if Run.Summary run =s "" then [] else [Run.Summary run])
              ++ (if Run.TaskId run =s "" then [] else ["task_id=" +:+ Run.TaskId run])
              ++ (if Run.InputMessageId run =s "" then [] else ["input_message_id=" +:+ Run.InputMessageId run])) newline.

Definition profile_for (id agentID : string) : string := firstNonEmpty [id; "profile-" +:+ agentID].

Definition runCommandEnv (cfg : Cfg.daemonConfig) (run : Run.Run) (agentID : string)
    (snapshot : option Snap.LaunchPromptSnapshot) : list string :=
  ["NEKODE_RUN_ID=" +:+ Run.RunId run;
   "NEKODE_TASK_ID=" +:+ Run.TaskId run;
   "NEKODE_AGENT_ID=" +:+ agentID;
   "NEKODE_COMPUTER_ID=" +:+ Cfg.ComputerID cfg;
   "NEKODE_TARGET=" +:+ firstNonEmpty [Run.Target run; Cfg.Target cfg];
   "NEKODE_RUNTIME_PROFILE_ID=" +:+ profile_for (Run.RuntimeProfileId run) agentID]
  ++ (if snap Snap.SnapshotId snapshot =s "" then []
      else ["NEKODE_LAUNCH_PROMPT_SNAPSHOT_ID=" +:+ snap Snap.SnapshotId snapshot;
            "NEKODE_LAUNCH_PROMPT_HASH=" +:+ snap Snap.ContentHash snapshot;
            "NEKODE_LAUNCH_PROMPT_TEMPLATE_VERSION=" +:+ snap Snap.TemplateVersion snapshot]
           ++ (if snap Snap.Content snapshot =s "" then [] else ["NEKODE_LAUNCH_PROMPT=" +:+ snap Snap.Content snapshot])).

(** ** Summaries without secrets *)

Definition redacted_input : string := "<redacted runtime input>".

Definition isRedactedRuntimeArg (arg : string) : bool :=
  bool_decide (arg ∈ ["--system-message"; "--system-prompt"; "--append-system-prompt"; "--prompt"]).

Definition shouldRedactRuntimeValue (value : string) : bool :=
  Contains value newline || Contains value "task_id=" || Contains value "input_message_id=".

Fixpoint redact_parts (parts : list string) : list string :=
  match parts with
  | [] => []
  | part :: rest =>
      let keep := if shouldRedactRuntimeValue part then redacted_input else part in
      match rest with
      | [] => [keep]
      | _ :: rest' => if isRedactedRuntimeArg part then part :: redacted_input :: redact_parts rest' else keep :: redact_parts rest
      end
  end.

Definition runtimeCommandSummary (cmd : Daemon.runtimeCommand) : string :=
  GoStr.Join (redact_parts (Command cmd :: Args cmd)) " "
  +:+ (if Dir cmd =s "" then "" else " cwd=" +:+ Dir cmd)
  +:+ (if Stdin cmd =s "" then "" else " stdin=" +:+ redacted_input).

(** ** Running a command *)

Record run_error := mkRunError { run_text : string; is_deadline : bool }.
Record runtimeCommandResult := mkResult { Output : string; ExitCode : Z; Err : option run_error }.

Definition ctx_text (e : ctx_error) : run_error :=
  match e with
  | CtxCanceled => mkRunError "context canceled" false
  | CtxDeadlineExceeded => mkRunError "context deadline exceeded" true
  end.

(** [commandRunner.Run]. *)
Definition runner_Run (timeout : Z) (cmd : Daemon.runtimeCommand) : prog runtimeCommandResult :=
  if TrimSpace (Command cmd) =s "" then mret (mkResult "" (-1) (Some (mkRunError "runtime command is required" false)))
  else
    done ← perform (Exec timeout cmd);
    let err := (λ e, mkRunError (exec_text e) (exec_deadline e)) <$> exec_failure done in
    let code := match exec_failure done with Some e => from_opt 0%Z (exit_status e) | None => 0%Z end in
    mret (match ctx_failure done with
          | Some e => mkResult (exec_output done) (-1) (Some (ctx_text e))
          | None => mkResult (exec_output done) code err
          end).

Section run.
Context {Uni : Unicode} {Ord : MapOrder} {Fl : Floats} {B : Build}.

Definition runtimeFailureCategory (result : runtimeCommandResult) (detail : string) : string :=
  let lower := ToLower detail in
  if (ExitCode result =? -1)%Z || match Err result with Some e => is_deadline e | None => false end then "timeout"
  else if contains_one lower ["unknown option"; "unknown flag"; "invalid option"; "unexpected argument"] then "argv_contract"
  else if contains_one lower ["auth"; "login"; "unauthorized"; "permission denied"; "api key"] then "provider_auth"
  else if contains_one lower ["executable file not found"; "no such file"] then "missing_executable"
  else "runtime_exit".

(** The runtime type that a run makes up for the configured kind. *)
Definition run_type (kind : string) : RuntimeType :=
  RuntimeType.zero |> RuntimeType.set_Kind kind |> RuntimeType.set_DisplayName kind |> RuntimeType.set_Command kind
                   |> RuntimeType.set_Installed true |> RuntimeType.set_Healthy true.

Definition run_values (agentID : string) (snapshot : option Snap.LaunchPromptSnapshot) : gmap string string :=
  let values := {["display_name" := agentID]} in
  if snap Snap.Content snapshot =s "" then values else <["system_message" := snap Snap.Content snapshot]> values.

(** [None] of the arguments is the nil slice. *)
Definition runtimeCommand (cfg : Cfg.daemonConfig) (run : Run.Run) (agentID : string)
    (snapshot : option Snap.LaunchPromptSnapshot) : string + Daemon.runtimeCommand :=
  let env := runCommandEnv cfg run agentID snapshot in
  if negb (TrimSpace (Cfg.ExecutorCommand cfg) =s "") then
    inr (mkCommand (Cfg.ExecutorCommand cfg) (Cfg.ExecutorArgs cfg) env "" "")
  else
    let kind := firstNonEmpty [Cfg.RuntimeKind cfg; "codex"] in
    match BuildWrapCommand (DefaultInstanceTemplate (run_type kind)) (run_values agentID snapshot) with
    | inl err => inl err
    | inr wrapped =>
        let wrapped := WithRunPrompt wrapped (runPrompt run) in
        inr (mkCommand (WrapCommand.Command wrapped) (items (WrapCommand.Args wrapped)) (WrapCommand.Env wrapped ++ env)
               (WrapCommand.Dir wrapped) (WrapCommand.Stdin wrapped))
    end.

(** ** Calls to the server *)

Context (cfg : Cfg.daemonConfig).

(** The error of a call whose answer holds nothing else. *)
Definition error_of (x : call_error + unit) : option string := match x with inl e => Some (error_text e) | inr _ => None end.

Definition permit_request (run : Run.Run) (agentID : string) (ids : string * string * option Ctx.RequestContext) : Acq.AcquireStartPermitRequest :=
  let '(id, key, context) := ids in
  Acq.zero
  |> Acq.set_ComputerId (Cfg.ComputerID cfg) |> Acq.set_AgentId agentID
  |> Acq.set_RuntimeProfileId (profile_for (Run.RuntimeProfileId run) agentID)
  |> Acq.set_RequestId id |> Acq.set_IdempotencyKey key |> Acq.set_Context context
  |> Acq.set_PermitTtlSeconds (u32 (Z.max 60 (Z.quot (Cfg.RunTimeout cfg) second))).

Definition acquirePermit (run : Run.Run) (agentID : string) : prog (string + option Lease.Lease) :=
  ids ← request_ids cfg "permit";
  resp ← perform (CallAcquireStartPermit (permit_request run agentID ids));
  mret (match resp with
        | inl err => inl (error_text err)
        | inr resp =>
            if negb (AcqP.Granted resp) then inl ("start permit rejected: " +:+ AcqP.RejectionReason resp)
            else inr (AcqP.PermitLease resp)
        end).

Definition release_request (leaseID agentID : string) (ids : string * string * option Ctx.RequestContext) : Rel.ReleaseStartPermitRequest :=
  let '(id, key, context) := ids in
  Rel.zero |> Rel.set_LeaseId leaseID |> Rel.set_ComputerId (Cfg.ComputerID cfg) |> Rel.set_AgentId agentID
           |> Rel.set_RequestId id |> Rel.set_IdempotencyKey key |> Rel.set_Context context.

Definition releasePermit (leaseID agentID : string) : prog unit :=
  if TrimSpace leaseID =s "" then mret ()
  else
    ids ← request_ids cfg "permit-release";
    _ ← perform (CallReleaseStartPermit (release_request leaseID agentID ids));
    mret ().

Definition status_request (run : Run.Run) (agentID : string) (state : Z) (summary detail leaseID : string)
    (ids : string * string * option Ctx.RequestContext) : Upd.UpdateRunStatusRequest :=
  let '(id, key, context) := ids in
  Upd.zero |> Upd.set_RunId (Run.RunId run) |> Upd.set_AgentId agentID |> Upd.set_State state
           |> Upd.set_Summary summary |> Upd.set_Error detail
           |> Upd.set_RequestId id |> Upd.set_IdempotencyKey key |> Upd.set_Context context
           |> Upd.set_LeaseId (firstNonEmpty [leaseID; Run.LeaseId run]).

(** [None] is no error. *)
Definition updateRun (run : Run.Run) (agentID : string) (state : Z) (summary detail leaseID : string) : prog (option string) :=
  ids ← request_ids cfg "run-status";
  x ← perform (CallUpdateRunStatus (status_request run agentID state summary detail leaseID ids));
  mret (error_of x).

Definition step_request (run : Run.Run) (leaseID : string) (kind status : Z) (summary detail : string) (now : Z)
    (ids : string * string * option Ctx.RequestContext) : App.AppendRunStepRequest :=
  let '(id, key, context) := ids in
  App.zero
  |> App.set_Step (Some (Step.zero |> Step.set_RunId (Run.RunId run) |> Step.set_Kind kind |> Step.set_Status status
       |> Step.set_Summary summary |> Step.set_Detail (truncateDetail detail)
       |> Step.set_StartedTimeUnix now |> Step.set_CompletedTimeUnix (completedTimeForStep status now)))
  |> App.set_RequestId id |> App.set_IdempotencyKey key |> App.set_Context context
  |> App.set_LeaseId (firstNonEmpty [leaseID; Run.LeaseId run]).

(** [nil] when the call fails. *)
Definition appendStep (run : Run.Run) (leaseID : string) (kind status : Z) (summary detail : string) : prog (option Step.RunStep) :=
  now ← unix_now;
  ids ← request_ids cfg "run-step";
  x ← perform (CallAppendRunStep (step_request run leaseID kind status summary detail now ids));
  mret (match x with inl _ => None | inr resp => AppP.Step resp end).

(** When a status that is not refreshed expires. *)
Definition status_expiry (now : Z) : Z := i64 (now + Z.quot (i64 (2 * Cfg.HeartbeatInterval cfg)) second).

Definition run_status (run : Run.Run) (agentID : string) (state health : Z) (summary : string) (now : Z) : Shot.AgentStatusSnapshot :=
  Shot.zero
  |> Shot.set_AgentId agentID |> Shot.set_ComputerId (Cfg.ComputerID cfg)
  |> Shot.set_RuntimeProfileId (profile_for (Run.RuntimeProfileId run) agentID)
  |> Shot.set_Presence (presenceForActivity state) |> Shot.set_ActivityState state
  |> Shot.set_Health health |> Shot.set_Severity (severityForHealth health) |> Shot.set_Summary summary
  |> Shot.set_Target (firstNonEmpty [Run.Target run; Cfg.Target cfg])
  |> Shot.set_TaskId (Run.TaskId run) |> Shot.set_RunId (Run.RunId run)
  |> Shot.set_StartedTimeUnix (firstNonZero [Run.StartedTimeUnix run; now])
  |> Shot.set_UpdatedTimeUnix now |> Shot.set_ExpiresTimeUnix (status_expiry now).

(** [UpdateAgentStatus] with fresh identifiers. *)
Definition send_status (prefix : string) (status : Shot.AgentStatusSnapshot) : prog (option string) :=
  ids ← request_ids cfg prefix;
  let '(id, key, context) := ids in
  x ← perform (CallUpdateAgentStatus (Sta.zero |> Sta.set_Status (Some status) |> Sta.set_RequestId id
                 |> Sta.set_IdempotencyKey key |> Sta.set_Context context));
  mret (error_of x).

Definition reportRunAgentStatus (run : Run.Run) (agentID : string) (state health : Z) (summary : string) : prog (option string) :=
  now ← unix_now;
  send_status "agent-status" (run_status run agentID state health summary now).

Definition logActivity (target agentID kind summary detail runID stepID : string) : prog unit :=
  ids ← request_ids cfg "activity";
  let '(id, key, context) := ids in
  _ ← perform (CallLogActivity (Log.zero
        |> Log.set_Target (if TrimSpace target =s "" then "daemon" else target) |> Log.set_AgentId agentID
        |> Log.set_Kind kind |> Log.set_Summary summary |> Log.set_Detail (truncateDetail detail)
        |> Log.set_RunId runID |> Log.set_StepId stepID
        |> Log.set_RequestId id |> Log.set_IdempotencyKey key |> Log.set_Context context));
  mret ().

Definition snapshot_request (run : Run.Run) (agentID id : string) (context : option Ctx.RequestContext) : Pro.GetLaunchPromptSnapshotRequest :=
  Pro.zero |> Pro.set_RunId (Run.RunId run) |> Pro.set_AgentId agentID |> Pro.set_ComputerId (Cfg.ComputerID cfg)
           |> Pro.set_RuntimeProfileId (profile_for (Run.RuntimeProfileId run) agentID)
           |> Pro.set_RequestId id |> Pro.set_Context context.

(** A server without the method, or without a snapshot, is no error. *)
Definition loadLaunchPromptSnapshot (run : Run.Run) (agentID : string) : prog (string + option Snap.LaunchPromptSnapshot) :=
  id ← newRequestID "prompt-snapshot";
  context ← requestContext cfg;
  x ← perform (CallGetLaunchPromptSnapshot (snapshot_request run agentID id context));
  mret (match x with
        | inl err =>
            match CodeOf err with
            | Unimplemented | NotFound => inr None
            | _ => inl (error_text err)
            end
        | inr resp => if snap Snap.Content (ProP.Snapshot resp) =s "" then inr None else inr (ProP.Snapshot resp)
        end).

Definition logPromptSnapshotLoaded (target agentID : string) (snapshot : Snap.LaunchPromptSnapshot) (runID : string) : prog unit :=
  let detail := GoStr.Join (nonEmptyRuntimeLines
    ["snapshot_id=" +:+ Snap.SnapshotId snapshot;
     "content_hash=" +:+ Snap.ContentHash snapshot;
     "template_version=" +:+ Snap.TemplateVersion snapshot;
     "sections=" +:+ GoStr.Join (Sect.Name <$> Snap.Sections snapshot) ",";
     "redaction_summary=" +:+ Snap.RedactionSummary snapshot]) newline in
  logActivity target agentID "prompt_snapshot_loaded" "launch prompt snapshot loaded" detail runID "".

Definition failRun (run : Run.Run) (agentID leaseID summary detail : string) : prog unit :=
  let leaseID := firstNonEmpty [leaseID; Run.LeaseId run] in
  _ ← appendStep run leaseID daemonv1.RunStepKind_RUN_STEP_KIND_RESULT daemonv1.RunStepStatus_RUN_STEP_STATUS_FAILED summary detail;
  _ ← updateRun run agentID daemonv1.RunState_RUN_STATE_FAILED summary detail leaseID;
  _ ← reportRunAgentStatus run agentID daemonv1.AgentActivityState_AGENT_ACTIVITY_STATE_BLOCKED
        daemonv1.AgentHealth_AGENT_HEALTH_RUNTIME_ERROR summary;
  mret ().

(** ** The archive ([run_recorder.go])

    A recorder is the variable of [executeRun]: [None] is the nil pointer, which is also
    what closing leaves. *)

Record runRecorder := mkRecorder { rec_computerID : string; rec_agentID : string; rec_runID : string }.

Definition rec_send (r : runRecorder) (phase : Z) (summary payload : string) (exitCode : Z) (errMsg : string) : prog (option string) :=
  now ← perform ReadClock;
  x ← perform (SendReport (Arc.mk (rec_runID r) (rec_agentID r) (rec_computerID r) phase now summary payload exitCode errMsg));
  mret (error_of x).

Definition newRunRecorder (agentID runID summary : string) : prog (option runRecorder) :=
  if runID =s "" then mret None
  else
    stream ← perform OpenReport;
    match stream with
    | inl _ => mret None
    | inr _ =>
        let rec_ := mkRecorder (Cfg.ComputerID cfg) agentID runID in
        err ← rec_send rec_ daemonv1.AgentRunPhase_AGENT_RUN_PHASE_START summary "" 0 "";
        match err with
        | Some _ => _ ← perform CloseReport; mret None
        | None => mret (Some rec_)
        end
    end.

Definition recordToolEvent (r : option runRecorder) (phase : Z) (summary : string) (payload : list (string * wire)) : prog unit :=
  match r with
  | None => mret ()
  | Some r => _ ← rec_send r phase summary (wire_text (WMap payload)) 0 ""; mret ()
  end.

(** [closeRunRecorder] of [executeRun] and [closeWithEnd]. *)
Definition closeRunRecorder (r : option runRecorder) (summary : string) (exitCode : Z) (errMsg : string) : prog (option runRecorder) :=
  match r with
  | None => mret None
  | Some r =>
      _ ← rec_send r daemonv1.AgentRunPhase_AGENT_RUN_PHASE_END summary "" exitCode errMsg;
      _ ← perform CloseAndRecvReport;
      mret None
  end.

(** ** A run *)

(** From the command that was built to the end; the result is the recorder. *)
Definition run_command (run : Run.Run) (agentID target leaseID : string) (r : option runRecorder)
    (startStep : option Step.RunStep) (cmd : Daemon.runtimeCommand) : prog (option runRecorder) :=
  let runID := Run.RunId run in
  let step := appendStep run leaseID in
  let commandSummary := runtimeCommandSummary cmd in
  commandStep ← step daemonv1.RunStepKind_RUN_STEP_KIND_COMMAND daemonv1.RunStepStatus_RUN_STEP_STATUS_RUNNING
                  "runtime command running" commandSummary;
  _ ← match startStep with
      | Some s => logActivity target agentID "run_started" "daemon supervisor started run" "" runID (Step.StepId s)
      | None => mret ()
      end;
  _ ← logActivity target agentID "command_run" "runtime command running" commandSummary runID (commandStepID commandStep);
  _ ← recordToolEvent r daemonv1.AgentRunPhase_AGENT_RUN_PHASE_TOOL_CALL "runtime command running"
        [("command", WStr (Command cmd)); ("args", slice_wire WStr (copied (Args cmd)))];
  _ ← perform (SetProcessCommand runID cmd agentID);
  result ← runner_Run (Cfg.RunTimeout cfg) cmd;
  let detail := truncateDetail (Output result) in
  match Err result with
  | Some err =>
      let errDetail := run_text err +:+ (if detail =s "" then "" else newline +:+ detail) in
      let errDetail := "diagnostic_category=" +:+ runtimeFailureCategory result errDetail +:+ newline +:+ errDetail in
      _ ← match commandStep with
          | Some _ => _ ← step daemonv1.RunStepKind_RUN_STEP_KIND_COMMAND daemonv1.RunStepStatus_RUN_STEP_STATUS_FAILED
                           "runtime command failed" errDetail; mret ()
          | None => mret ()
          end;
      _ ← recordToolEvent r daemonv1.AgentRunPhase_AGENT_RUN_PHASE_ERROR "runtime command failed"
            [("exit_code", WInt (ExitCode result)); ("detail", WStr errDetail)];
      r ← closeRunRecorder r "runtime command failed" (RpcConv.i32 (ExitCode result)) (run_text err);
      _ ← failRun run agentID leaseID "runtime command failed" (run_text err);
      _ ← logActivity target agentID "run_failed" "runtime command failed" errDetail runID (commandStepID commandStep);
      mret r
  | None =>
      _ ← match commandStep with
          | Some _ => _ ← step daemonv1.RunStepKind_RUN_STEP_KIND_COMMAND daemonv1.RunStepStatus_RUN_STEP_STATUS_COMPLETED
                           "runtime command completed" detail; mret ()
          | None => mret ()
          end;
      _ ← recordToolEvent r daemonv1.AgentRunPhase_AGENT_RUN_PHASE_TOOL_RESULT "runtime command completed"
            [("exit_code", WInt (ExitCode result)); ("detail", WStr detail)];
      resultStep ← step daemonv1.RunStepKind_RUN_STEP_KIND_RESULT daemonv1.RunStepStatus_RUN_STEP_STATUS_COMPLETED
                     "run completed" detail;
      _ ← updateRun run agentID daemonv1.RunState_RUN_STATE_COMPLETED "runtime command completed" "" leaseID;
      _ ← reportRunAgentStatus run agentID daemonv1.AgentActivityState_AGENT_ACTIVITY_STATE_WAITING
            daemonv1.AgentHealth_AGENT_HEALTH_OK "run completed";
      r ← closeRunRecorder r "run completed" (RpcConv.i32 (ExitCode result)) "";
      _ ← logActivity target agentID "run_completed" "runtime command completed" detail runID (commandStepID resultStep);
      mret r
  end.

(** What happens once the permit is there. *)
Definition supervise (run : Run.Run) (agentID target leaseID : string) (r : option runRecorder) : prog (option runRecorder) :=
  let fail summary err :=
    r ← closeRunRecorder r summary 1 err;
    _ ← failRun run agentID leaseID summary err;
    mret r in
  _ ← reportRunAgentStatus run agentID daemonv1.AgentActivityState_AGENT_ACTIVITY_STATE_RUNNING_COMMAND
        daemonv1.AgentHealth_AGENT_HEALTH_OK "run started";
  err ← updateRun run agentID daemonv1.RunState_RUN_STATE_RUNNING "runtime command started" "" leaseID;
  match err with
  | Some err => fail "run status update failed" err
  | None =>
      startStep ← appendStep run leaseID daemonv1.RunStepKind_RUN_STEP_KIND_START
                    daemonv1.RunStepStatus_RUN_STEP_STATUS_COMPLETED "daemon supervisor started run" "";
      loaded ← loadLaunchPromptSnapshot run agentID;
      match loaded with
      | inl err => fail "load launch prompt snapshot failed" err
      | inr snapshot =>
          _ ← match snapshot with
              | Some s => logPromptSnapshotLoaded target agentID s (Run.RunId run)
              | None => mret ()
              end;
          match runtimeCommand cfg run agentID snapshot with
          | inl err => fail "build runtime command failed" err
          | inr cmd => run_command run agentID target leaseID r startStep cmd
          end
      end
  end.

(** The deferred calls run last: the permit is released, then the recorder is closed
    unless it is already. *)
Definition executeRun (run : Run.Run) : prog unit :=
  let agentID := firstNonEmpty [Run.AgentId run; Cfg.AgentID cfg] in
  let target := firstNonEmpty [Run.Target run; Cfg.Target cfg] in
  r ← newRunRecorder agentID (Run.RunId run) "run started";
  permit ← acquirePermit run agentID;
  r ← match permit with
      | inl err =>
          r ← closeRunRecorder r "start permit failed" 1 err;
          _ ← failRun run agentID "" "start permit failed" err;
          mret r
      | inr None => supervise run agentID target "" r
      | inr (Some lease) =>
          r ← supervise run agentID target (Lease.LeaseId lease) r;
          _ ← releasePermit (Lease.LeaseId lease) agentID;
          mret r
      end;
  _ ← closeRunRecorder r "run recorder closed without explicit end" 1 "no explicit closeRunRecorder call";
  mret ().

End run.

(** ** What a monitor does not see *)

Section quiet.
Context {B : Build} {S : Type} {Mon : Monitor S} {W : Watchful Mon} (cfg : Cfg.daemonConfig).

Lemma perform_quiet e : quiet e → all_quiet (perform e).
Proof. by split. Qed.

Lemma appendStep_quiet run leaseID kind status summary detail :
  (∀ req, quiet (CallAppendRunStep req)) → all_quiet (appendStep cfg run leaseID kind status summary detail).
Proof.
  intros Q. apply all_quiet_bind; [apply unix_now_quiet|intros now].
  apply all_quiet_bind; [apply request_ids_quiet|intros ids].
  apply all_quiet_bind; [by apply perform_quiet|done].
Qed.

Lemma send_status_quiet prefix status :
  (∀ req, quiet (CallUpdateAgentStatus req)) → all_quiet (send_status cfg prefix status).
Proof.
  intros Q. apply all_quiet_bind; [apply request_ids_quiet|intros [[id key] context]].
  apply all_quiet_bind; [by apply perform_quiet|done].
Qed.

Lemma reportRunAgentStatus_quiet run agentID state health summary :
  (∀ req, quiet (CallUpdateAgentStatus req)) → all_quiet (reportRunAgentStatus cfg run agentID state health summary).
Proof. intros Q. apply all_quiet_bind; [apply unix_now_quiet|intros now]. by apply send_status_quiet. Qed.

Lemma logActivity_quiet target agentID kind summary detail runID stepID :
  (∀ req, quiet (CallLogActivity req)) → all_quiet (logActivity cfg target agentID kind summary detail runID stepID).
Proof.
  intros Q. apply all_quiet_bind; [apply request_ids_quiet|intros [[id key] context]].
  apply all_quiet_bind; [by apply perform_quiet|done].
Qed.

Lemma loadLaunchPromptSnapshot_quiet run agentID :
  (∀ req, quiet (CallGetLaunchPromptSnapshot req)) → all_quiet (loadLaunchPromptSnapshot cfg run agentID).
Proof.
  intros Q. apply all_quiet_bind; [apply newRequestID_quiet|intros id].
  apply all_quiet_bind; [apply requestContext_quiet|intros context].
  apply all_quiet_bind; [by apply perform_quiet|done].
Qed.

Lemma rec_send_quiet r phase summary payload code err :
  (∀ ev, quiet (SendReport ev)) → all_quiet (rec_send r phase summary payload code err).
Proof.
  intros Q. apply all_quiet_bind; [apply perform_quiet, quiet_clock|intros now].
  apply all_quiet_bind; [by apply perform_quiet|done].
Qed.

Lemma closeRunRecorder_quiet r summary code err :
  (∀ ev, quiet (SendReport ev)) → quiet CloseAndRecvReport → all_quiet (closeRunRecorder r summary code err).
Proof.
  intros Q C. destruct r as [r|]; [|done]. apply all_quiet_bind; [by apply rec_send_quiet|intros _].
  apply all_quiet_bind; [by apply perform_quiet|done].
Qed.

Lemma newRunRecorder_quiet agentID runID summary :
  quiet OpenReport → (∀ ev, quiet (SendReport ev)) → quiet CloseReport → all_quiet (newRunRecorder cfg agentID runID summary).
Proof.
  intros O Q C. unfold newRunRecorder. destruct (_ =s _); [done|].
  apply all_quiet_bind; [by apply perform_quiet|]. intros [err|u]; [done|].
  apply all_quiet_bind; [by apply rec_send_quiet|]. intros [e|]; [|done].
  apply all_quiet_bind; [by apply perform_quiet|done].
Qed.

Lemma recordToolEvent_quiet `{!Floats} r phase summary payload :
  (∀ ev, quiet (SendReport ev)) → all_quiet (recordToolEvent r phase summary payload).
Proof.
  intros Q. destruct r as [r|]; [|done]. by apply all_quiet_bind; [apply rec_send_quiet|].
Qed.

(** The rules of the calls that are watched. *)

Lemma wp_updateRun run agentID state summary detail leaseID (post : option string → S → Prop) s :
  (∀ ids, let req := status_request run agentID state summary detail leaseID ids in
    allowed s (CallUpdateRunStatus req) ∧ ∀ x, post (error_of x) (observe s (CallUpdateRunStatus req) x)) →
  wp (updateRun cfg run agentID state summary detail leaseID) post s.
Proof.
  intros H. apply prog_wp_bind, wp_all_quiet; [apply request_ids_quiet|]. intros ids.
  destruct (H ids) as [Al Ob]. apply prog_wp_bind, wp_perform; [done|]. intros x. apply Ob.
Qed.

Lemma wp_failRun run agentID leaseID summary detail (post : unit → S → Prop) s :
  (∀ req, quiet (CallAppendRunStep req)) → (∀ req, quiet (CallUpdateAgentStatus req)) →
  (∀ ids, let req := status_request run agentID daemonv1.RunState_RUN_STATE_FAILED summary detail
                       (firstNonEmpty [leaseID; Run.LeaseId run]) ids in
    allowed s (CallUpdateRunStatus req) ∧ ∀ x, post () (observe s (CallUpdateRunStatus req) x)) →
  wp (failRun cfg run agentID leaseID summary detail) post s.
Proof.
  intros QS QA H. apply prog_wp_bind, wp_all_quiet; [by apply appendStep_quiet|]. intros _.
  apply prog_wp_bind, wp_updateRun. intros ids. destruct (H ids) as [Al Ob]. split; [done|]. intros x.
  apply prog_wp_bind, wp_all_quiet; [by apply reportRunAgentStatus_quiet|]. intros _. apply Ob.
Qed.

End quiet.

(** A program made of quiet parts. *)
Ltac quiet_part :=
  lazymatch goal with
  | |- all_quiet (mret _) => exact I
  | |- all_quiet (perform _) => apply perform_quiet
  | |- all_quiet (match ?x with _ => _ end) => destruct x
  | |- all_quiet (_ ≫= _) => apply all_quiet_bind; [|intros ?]
  | |- all_quiet unix_now => apply unix_now_quiet
  | |- all_quiet (newRequestID _) => apply newRequestID_quiet
  | |- all_quiet (requestContext _) => apply requestContext_quiet
  | |- all_quiet (request_ids _ _) => apply request_ids_quiet
  | |- all_quiet (appendStep _ _ _ _ _ _ _) => apply appendStep_quiet
  | |- all_quiet (send_status _ _ _) => apply send_status_quiet
  | |- all_quiet (reportRunAgentStatus _ _ _ _ _ _) => apply reportRunAgentStatus_quiet
  | |- all_quiet (logActivity _ _ _ _ _ _ _ _) => apply logActivity_quiet
  | |- all_quiet (logPromptSnapshotLoaded _ _ _ _ _) => unfold logPromptSnapshotLoaded; cbv zeta
  | |- all_quiet (loadLaunchPromptSnapshot _ _ _) => apply loadLaunchPromptSnapshot_quiet
  | |- all_quiet (rec_send _ _ _ _ _ _) => apply rec_send_quiet
  | |- all_quiet (closeRunRecorder _ _ _ _) => apply closeRunRecorder_quiet
  | |- all_quiet (newRunRecorder _ _ _ _) => apply newRunRecorder_quiet
  | |- all_quiet (recordToolEvent _ _ _ _) => apply recordToolEvent_quiet
  | |- all_quiet (updateRun _ _ _ _ _ _ _) => unfold updateRun
  | |- all_quiet (failRun _ _ _ _ _ _) => unfold failRun; cbv zeta
  | |- all_quiet (acquirePermit _ _ _) => unfold acquirePermit
  | |- all_quiet (releasePermit _ _ _) => unfold releasePermit
  end.
Ltac solve_quiet := solve [repeat first [quiet_part | done]].

(** ** The protocol of a run *)

(** Where a run stands for the server: the permit is asked for, refused or granted with a
    lease; the start is reported and acknowledged or not; the command ended, well or not; the
    outcome is reported; the lease is released. *)
Inductive phase :=
| Waiting
| Refused
| Permitted (lease : string)
| Unacknowledged (lease : string)
| Started (lease : string)
| Ended (lease : string) (ok : bool)
| Settled (lease : string)
| Over.

Definition lease_of (ph : phase) : string :=
  match ph with
  | Permitted l | Unacknowledged l | Started l | Ended l _ | Settled l => l
  | _ => ""
  end.

(** The state that may be reported next. *)
Definition reportable (ph : phase) (state : Z) : Prop :=
  match ph with
  | Permitted _ => state = daemonv1.RunState_RUN_STATE_RUNNING
  | Refused | Unacknowledged _ | Started _ | Ended _ false => state = daemonv1.RunState_RUN_STATE_FAILED
  | Ended _ true => state = daemonv1.RunState_RUN_STATE_COMPLETED
  | _ => False
  end.

Definition succeeded (done : exec_result) : bool :=
  match exec_failure done, ctx_failure done with None, None => true | _, _ => false end.

Definition granted_lease (x : call_error + AcqP.AcquireStartPermitResponse) : option string :=
  match x with
  | inr resp => if AcqP.Granted resp then Some match AcqP.PermitLease resp with Some l => Lease.LeaseId l | None => "" end
                else None
  | inl _ => None
  end.

(** Every report names the run and carries the lease; the command runs after the start was
    acknowledged, once, for as long as the configuration allows; the lease is released after
    the outcome was reported. *)
Definition protocol (cfg : Cfg.daemonConfig) (run : Run.Run) : Monitor phase := {|
  allowed ph e :=
    match e with
    | CallAcquireStartPermit req => ph = Waiting
    | CallUpdateRunStatus req =>
        reportable ph (Upd.State req) ∧ Upd.RunId req = Run.RunId run
        ∧ Upd.LeaseId req = firstNonEmpty [lease_of ph; Run.LeaseId run]
    | Exec timeout cmd => (∃ l, ph = Started l) ∧ timeout = Cfg.RunTimeout cfg
    | CallReleaseStartPermit req => ph = Settled (Rel.LeaseId req) ∧ TrimSpace (Rel.LeaseId req) ≠ ""
    | _ => True
    end;
  observe ph e :=
    match e return answer e → phase with
    | CallAcquireStartPermit _ => λ x, match granted_lease x with Some l => Permitted l | None => Refused end
    | CallUpdateRunStatus _ => λ x,
        match ph with
        | Permitted l => match x with inr _ => Started l | inl _ => Unacknowledged l end
        | ph => Settled (lease_of ph)
        end
    | Exec _ _ => λ x, Ended (lease_of ph) (succeeded x)
    | CallReleaseStartPermit _ => λ _, Over
    | _ => λ _, ph
    end
|}.

(** A run is over when its outcome is reported and no lease is left. *)
Definition finished_run (ph : phase) : Prop :=
  match ph with Over => True | Settled l => TrimSpace l = "" | _ => False end.

Section protocol.
Context {Uni : Unicode} {Ord : MapOrder} {Fl : Floats} {B : Build} (cfg : Cfg.daemonConfig) (run : Run.Run).

#[local] Instance watched : Monitor phase := protocol cfg run.
#[local] Instance protocol_watchful : Watchful watched.
Proof. by split; intros s. Qed.

Local Ltac unseen := apply wp_all_quiet; [solve_quiet|].

Lemma protocol_unseen :
  (∀ req, quiet (CallAppendRunStep req)) ∧
  (∀ req, quiet (CallUpdateAgentStatus req)) ∧
  (∀ req, quiet (CallLogActivity req)) ∧
  (∀ req, quiet (CallGetLaunchPromptSnapshot req)) ∧
  (∀ ev, quiet (SendReport ev)) ∧
  quiet OpenReport ∧ quiet CloseReport ∧
  quiet CloseAndRecvReport ∧
  (∀ id cmd agent, quiet (SetProcessCommand id cmd agent)).
Proof. by repeat split. Qed.

Lemma firstNonEmpty_again a b : firstNonEmpty [firstNonEmpty [a; b]; b] = firstNonEmpty [a; b].
Proof.
  simpl. destruct (String.eqb_spec (TrimSpace a) "") as [Ea|Ea]; simpl.
  - destruct (String.eqb_spec (TrimSpace b) "") as [Eb|Eb]; simpl; [done|].
    by rewrite (proj2 (String.eqb_neq _ _) Eb).
  - by rewrite (proj2 (String.eqb_neq _ _) Ea).
Qed.

Lemma failRun_settles leaseID agentID summary detail ph (post : unit → phase → Prop) :
  reportable ph daemonv1.RunState_RUN_STATE_FAILED → lease_of ph = leaseID →
  post () (Settled leaseID) →
  wp (failRun cfg run agentID leaseID summary detail) post ph.
Proof.
  intros R L P. destruct protocol_unseen as (? & ? & _). apply wp_failRun; [done..|].
  intros [[id key] context]. cbn -[firstNonEmpty]. rewrite firstNonEmpty_again, L. split; [done|].
  intros x. by destruct ph; simplify_eq/=.
Qed.

Lemma updateRun_settles leaseID agentID state summary detail ph (post : option string → phase → Prop) :
  reportable ph state → lease_of ph = leaseID → (∀ l, ph ≠ Permitted l) →
  (∀ err, post err (Settled leaseID)) →
  wp (updateRun cfg run agentID state summary detail leaseID) post ph.
Proof.
  intros R L N P. apply wp_updateRun. intros [[id key] context]. cbn -[firstNonEmpty]. rewrite L. split; [done|].
  intros x. destruct ph; simplify_eq/=; try apply P. by edestruct N.
Qed.

Lemma updateRun_starts leaseID agentID summary detail (post : option string → phase → Prop) :
  (∀ err, post err match err with Some _ => Unacknowledged leaseID | None => Started leaseID end) →
  wp (updateRun cfg run agentID daemonv1.RunState_RUN_STATE_RUNNING summary detail leaseID) post (Permitted leaseID).
Proof.
  intros P. apply wp_updateRun. intros [[id key] context]. cbn -[firstNonEmpty]. split; [done|].
  intros [e|u]; [apply (P (Some (error_text e)))|apply (P None)].
Qed.

(** A command that cannot be run leaves the start without an outcome. *)
Lemma runner_ends leaseID cmd (post : runtimeCommandResult → phase → Prop) :
  (∀ res, Err res = None → post res (Ended leaseID true)) →
  (∀ res e ph, Err res = Some e → ph = Started leaseID ∨ ph = Ended leaseID false → post res ph) →
  wp (runner_Run (Cfg.RunTimeout cfg) cmd) post (Started leaseID).
Proof.
  intros Ok Bad. unfold runner_Run. destruct (_ =s _); [eapply Bad; [done|by left]|].
  apply prog_wp_bind, wp_perform; [by split; [eexists|]|]. intros [out fail ctx]. cbn.
  destruct fail as [f|], ctx as [c|]; cbn; [eapply Bad; [done|by right]..|by apply Ok].
Qed.

(** The part of a run after a given phase ends with the outcome reported. *)
Definition settles {A} (leaseID : string) (p : prog A) (ph : phase) : Prop :=
  wp p (λ _ ph, ph = Settled leaseID) ph.

Lemma run_command_settles leaseID agentID target r startStep cmd :
  settles leaseID (run_command cfg run agentID target leaseID r startStep cmd) (Started leaseID).
Proof.
  destruct protocol_unseen as (QS & QA & QL & QP & QR & QO & QC & QX & QM).
  unfold settles, run_command. cbn zeta.
  apply prog_wp_bind. unseen. intros commandStep.
  apply prog_wp_bind. unseen. intros _.
  apply prog_wp_bind. unseen. intros _. apply prog_wp_bind. unseen. intros _. apply prog_wp_bind. unseen. intros _.
  apply prog_wp_bind. apply runner_ends.
  - intros res ->. apply prog_wp_bind. unseen. intros _.
    apply prog_wp_bind. unseen. intros _. apply prog_wp_bind. unseen. intros resultStep.
    apply prog_wp_bind. apply updateRun_settles; [done..|]. intros err.
    apply prog_wp_bind. unseen. intros _. apply prog_wp_bind. unseen. intros r'.
    apply prog_wp_bind. by unseen.
  - intros res e ph -> Hph. apply prog_wp_bind. unseen. intros _.
    apply prog_wp_bind. unseen. intros _. apply prog_wp_bind. unseen. intros r'.
    apply prog_wp_bind. apply failRun_settles; [by destruct Hph as [-> | ->]..|].
    apply prog_wp_bind. by unseen.
Qed.

Lemma supervise_settles leaseID agentID target r :
  settles leaseID (supervise cfg run agentID target leaseID r) (Permitted leaseID).
Proof.
  destruct protocol_unseen as (QS & QA & QL & QP & QR & QO & QC & QX & QM).
  assert (Fail : ∀ summary err ph,
    reportable ph daemonv1.RunState_RUN_STATE_FAILED → lease_of ph = leaseID →
    settles leaseID (r ← closeRunRecorder r summary 1 err;
                     _ ← failRun cfg run agentID leaseID summary err; mret r) ph).
  { intros summary err ph R L. apply prog_wp_bind. unseen. intros r'. by apply prog_wp_bind, failRun_settles. }
  unfold settles, supervise. apply prog_wp_bind. unseen. intros _.
  apply prog_wp_bind. apply updateRun_starts. intros [err|]; [by apply Fail|].
  apply prog_wp_bind. unseen. intros startStep.
  apply prog_wp_bind. unseen. intros [err|snapshot]; [by apply Fail|].
  apply prog_wp_bind. unseen. intros _.
  destruct (runtimeCommand cfg run agentID snapshot) as [err|cmd]; [by apply Fail|]. apply run_command_settles.
Qed.

Lemma executeRun_follows : wp (executeRun cfg run) (λ _, finished_run) Waiting.
Proof.
  destruct protocol_unseen as (QS & QA & QL & QP & QR & QO & QC & QX & QM).
  unfold executeRun. apply prog_wp_bind. unseen. intros r.
  apply prog_wp_bind, prog_wp_bind. unseen. intros ids. apply prog_wp_bind, wp_perform; [done|]. intros x.
  apply prog_wp_ret. cbn -[firstNonEmpty wp failRun supervise].
  assert (Close : ∀ r ph, finished_run ph →
    wp (r ← closeRunRecorder r "run recorder closed without explicit end" 1 "no explicit closeRunRecorder call"; mret ())
       (λ _ : unit, finished_run) ph).
  { intros r' ph F. apply prog_wp_bind. by unseen. }
  apply prog_wp_bind. destruct x as [err|resp]; cbn -[firstNonEmpty wp failRun supervise].
  - apply prog_wp_bind. unseen. intros r'. apply prog_wp_bind, failRun_settles; [done..|]. by apply Close.
  - destruct (AcqP.Granted resp); cbn -[firstNonEmpty wp failRun supervise].
    + destruct (AcqP.PermitLease resp) as [l|].
      * eapply prog_wp_bind, prog_wp_mono; [apply supervise_settles|]. intros r' ? ->.
        apply prog_wp_bind. unfold releasePermit.
        destruct (String.eqb_spec (TrimSpace (Lease.LeaseId l)) ""); [by apply Close|].
        apply prog_wp_bind. unseen. intros [[id key] context]. apply prog_wp_bind, wp_perform; [done|].
        intros ?. by apply Close.
      * eapply prog_wp_mono; [apply supervise_settles|]. intros r' ? ->. by apply Close.
    + apply prog_wp_bind. unseen. intros r'. apply prog_wp_bind, failRun_settles; [done..|]. by apply Close.
Qed.

End protocol.

(** ** What the protocol means for a run *)

(** The states a run reports, the commands it ran with their outcome, the leases it was
    granted and those it gave back. *)
Definition reported (ev : event) : list Z := match ev with Event (CallUpdateRunStatus req) _ => [Upd.State req] | _ => [] end.
Definition ran (ev : event) : list bool :=
  match ev with Event e x => match e return answer e → list bool with Exec _ _ => λ x, [succeeded x] | _ => λ _, [] end x end.
Definition granted (ev : event) : list string :=
  match ev with
  | Event e x =>
      match e return answer e → list string with
      | CallAcquireStartPermit _ => λ x, match granted_lease x with Some l => [l] | None => [] end
      | _ => λ _, []
      end x
  end.
Definition released (ev : event) : list string := match ev with Event (CallReleaseStartPermit req) _ => [Rel.LeaseId req] | _ => [] end.

Definition collect {A} (f : event → list A) (tr : list event) : list A := tr ≫= f.

Definition RUNNING : Z := daemonv1.RunState_RUN_STATE_RUNNING.
Definition COMPLETED : Z := daemonv1.RunState_RUN_STATE_COMPLETED.
Definition FAILED : Z := daemonv1.RunState_RUN_STATE_FAILED.

(** The reports that tell the truth about what was granted and ran. *)
Definition verdict (granted : list string) (ran : list bool) : list Z :=
  match granted, ran with
  | [], _ => [FAILED]
  | _, [true] => [RUNNING; COMPLETED]
  | _, _ => [RUNNING; FAILED]
  end.

(** The leases that have to be given back: a lease without an id is none. *)
Definition to_release (granted : list string) : list string := bfilter (λ l, negb (TrimSpace l =s "")) granted.

(** What is left to happen from a phase on. *)
Definition rest_of_run (ph : phase) (tr : list event) : Prop :=
  let states := collect reported tr in
  let commands := collect ran tr in
  let back := collect released tr in
  match ph with
  | Waiting =>
      states = verdict (collect granted tr) commands ∧ length (collect granted tr) ≤ 1 ∧ length commands ≤ 1
      ∧ (collect granted tr = [] → commands = []) ∧ back = to_release (collect granted tr)
  | Refused => states = [FAILED] ∧ commands = [] ∧ collect granted tr = [] ∧ back = []
  | Permitted l =>
      (∃ rest, states = RUNNING :: rest ∧ rest = [if bool_decide (commands = [true]) then COMPLETED else FAILED])
      ∧ length commands ≤ 1 ∧ collect granted tr = [] ∧ back = to_release [l]
  | Started l =>
      states = [if bool_decide (commands = [true]) then COMPLETED else FAILED]
      ∧ length commands ≤ 1 ∧ collect granted tr = [] ∧ back = to_release [l]
  | Unacknowledged l => states = [FAILED] ∧ commands = [] ∧ collect granted tr = [] ∧ back = to_release [l]
  | Ended l ok =>
      states = [if ok then COMPLETED else FAILED] ∧ commands = [] ∧ collect granted tr = [] ∧ back = to_release [l]
  | Settled l => states = [] ∧ commands = [] ∧ collect granted tr = [] ∧ back = to_release [l]
  | Over => states = [] ∧ commands = [] ∧ collect granted tr = [] ∧ back = []
  end.

Section outcome.
Context {Uni : Unicode} {Ord : MapOrder} {Fl : Floats} {B : Build} (cfg : Cfg.daemonConfig) (run : Run.Run).

#[local] Instance outcome_watched : Monitor phase := protocol cfg run.

Lemma to_release_blank l : TrimSpace l = "" → to_release [l] = [].
Proof. intros E. unfold to_release. simpl. by rewrite E. Qed.
Lemma to_release_one l : TrimSpace l ≠ "" → to_release [l] = [l].
Proof. intros E%String.eqb_neq. unfold to_release. simpl. by rewrite E. Qed.

(** An event that only matters to the archive and the activity log. *)
Lemma rest_of_run_skip ph ev tr :
  reported ev = [] → ran ev = [] → granted ev = [] → released ev = [] →
  rest_of_run ph tr → rest_of_run ph (ev :: tr).
Proof. intros E1 E2 E3 E4. unfold rest_of_run, collect. cbn [mbind list_bind]. by rewrite E1, E2, E3, E4. Qed.

Lemma follows_rest tr : ∀ ph, follows ph tr → finished_run (after ph tr) → rest_of_run ph tr.
Proof.
  induction tr as [|[e x] tr IH]; intros ph F E.
  - destruct ph; cbn in E; try done. unfold rest_of_run. by rewrite to_release_blank.
  - destruct F as [Al F]. specialize (IH _ F E). clear F E.
    destruct e; try (apply rest_of_run_skip; [done..|exact IH]).
    + cbn in Al. subst ph. cbn in IH. unfold rest_of_run, collect in *. cbn [mbind list_bind granted reported ran released app].
      destruct (granted_lease x) as [l|]; cbn in IH |- *.
      * destruct IH as ((rest & -> & ->) & L & -> & ->). cbn. repeat split; [|lia|done|done].
        destruct (tr ≫= ran) as [|b [|]]; cbn in *; [done| |lia]. by destruct b.
      * destruct IH as (-> & -> & -> & ->). cbn. repeat split; lia.
    + cbn in Al. destruct Al as [-> N]. cbn in IH. unfold rest_of_run, collect in *.
      cbn [mbind list_bind granted reported ran released app]. destruct IH as (-> & -> & -> & ->).
      by rewrite to_release_one.
    + cbn in Al. destruct Al as (R & _ & _). unfold rest_of_run, collect in *.
      cbn [mbind list_bind granted reported ran released app].
      destruct ph as [| |l|l|l|l []|l|]; cbn in R; try done; rewrite R; cbn in IH.
      all: try (destruct IH as (-> & -> & -> & ->); by repeat split; cbn; lia).
      destruct x as [err|u]; cbn in IH.
      * destruct IH as (-> & -> & -> & ->). cbn. repeat split; [by eexists|lia].
      * destruct IH as (-> & L & -> & ->). repeat split; [by eexists|done].
    + cbn in Al. destruct Al as [[l ->] _]. cbn in IH. unfold rest_of_run, collect in *.
      cbn [mbind list_bind granted reported ran released app]. destruct IH as (-> & -> & -> & ->). cbn.
      repeat split; [|lia]. by destruct (succeeded x).
Qed.

End outcome.

Section claims.
Context {Uni : Unicode} {Ord : MapOrder} {Fl : Floats} {B : Build} (cfg : Cfg.daemonConfig) (run : Run.Run).

(** C13. Every execution of a run follows the protocol to its end, whatever the server, the
    operating system and the network answer. *)
Theorem executeRun_refines tr :
  traces (executeRun cfg run) tr () →
  follows (Mon := protocol cfg run) Waiting tr ∧ finished_run (after (Mon := protocol cfg run) Waiting tr).
Proof. intros T. exact (wp_sound (Mon := protocol cfg run) _ _ _ _ _ (executeRun_follows cfg run) T). Qed.

(** C14. The server is told the truth, errors included: a run without a permit is reported as
    failed, a run whose command ended well as completed, any other as failed after it was
    reported as running.  The command runs at most once, and only with a permit; the lease of
    the permit, if it has one, is given back exactly once. *)
Theorem executeRun_verdict tr :
  traces (executeRun cfg run) tr () →
  collect reported tr = verdict (collect granted tr) (collect ran tr)
  ∧ length (collect ran tr) ≤ 1
  ∧ (collect granted tr = [] → collect ran tr = [])
  ∧ collect released tr = to_release (collect granted tr).
Proof.
  intros T. destruct (wp_sound (Mon := protocol cfg run) _ _ _ _ _ (executeRun_follows cfg run) T) as [F E].
  destruct (follows_rest cfg run tr Waiting F E) as (H1 & _ & H2 & H3 & H4). done.
Qed.

End claims.

(** ** The archive of a run *)

(** The stream of a run's archive: not opened, opened, its first event lost, recording, its
    last event sent, closed. *)
Inductive archive := Unopened | Opened | Lost | Recording | Closing | Closed.

Definition failure_text (done : exec_result) : string :=
  match ctx_failure done, exec_failure done with
  | Some e, _ => run_text (ctx_text e)
  | None, Some e => exec_text e
  | None, None => ""
  end.

(** The last event tells how the run ended: success only after a command that ended well, a
    command's failure with its text, and a failure before the command with an exit code that
    is not zero. *)
Definition end_of (ran : option exec_result) (exitCode : Z) (errMsg : string) : Prop :=
  match ran with
  | None => exitCode ≠ 0%Z
  | Some done => errMsg = failure_text done ∧ (succeeded done = true → exitCode = 0%Z)
  end.

(** The record of a branch that forgot to close the archive. *)
Definition safety_net : string := "run recorder closed without explicit end".

Definition archive_monitor (run : Run.Run) : Monitor (archive * option exec_result) := {|
  allowed s e :=
    match e with
    | OpenReport => s.1 = Unopened
    | SendReport ev =>
        Arc.RunId ev = Run.RunId run ∧ Arc.Summary ev ≠ safety_net
        ∧ (s.1 = Opened ∧ Arc.Phase ev = daemonv1.AgentRunPhase_AGENT_RUN_PHASE_START
           ∨ s.1 = Recording ∧ Arc.Phase ev ≠ daemonv1.AgentRunPhase_AGENT_RUN_PHASE_START
             ∧ (Arc.Phase ev = daemonv1.AgentRunPhase_AGENT_RUN_PHASE_END → end_of s.2 (Arc.ExitCode ev) (Arc.ErrorMessage ev)))
    | CloseReport => s.1 = Lost
    | CloseAndRecvReport => s.1 = Closing
    | Exec _ _ => s.2 = None
    | _ => True
    end;
  observe s e :=
    match e return answer e → archive * option exec_result with
    | OpenReport => λ x, (match x with inr _ => Opened | inl _ => Closed end, s.2)
    | SendReport ev => λ x,
        (match s.1, x with
         | Opened, inr _ => Recording
         | Opened, inl _ => Lost
         | a, _ => if (Arc.Phase ev =? daemonv1.AgentRunPhase_AGENT_RUN_PHASE_END)%Z then Closing else a
         end, s.2)
    | CloseReport | CloseAndRecvReport => λ _, (Closed, s.2)
    | Exec _ _ => λ x, (s.1, Some x)
    | _ => λ _, s
    end
|}.

Section archive.
Context {Uni : Unicode} {Ord : MapOrder} {Fl : Floats} {B : Build} (cfg : Cfg.daemonConfig) (run : Run.Run).

#[local] Instance archived : Monitor (archive * option exec_result) := archive_monitor run.
#[local] Instance archive_watchful : Watchful archived.
Proof. by split; intros s. Qed.

Local Ltac unseen := apply wp_all_quiet; [solve_quiet|].

Definition at_rest (a : archive) : Prop := a = Unopened ∨ a = Closed.

(** The recorder is there exactly while its stream records. *)
Definition tracks (r : option runRecorder) (a : archive) : Prop :=
  match r with
  | Some r => a = Recording ∧ rec_runID r = Run.RunId run
  | None => at_rest a
  end.

Lemma newRunRecorder_tracks agentID summary :
  summary ≠ safety_net →
  wp (newRunRecorder cfg agentID (Run.RunId run) summary) (λ r s, tracks r s.1 ∧ s.2 = None) (Unopened, None).
Proof.
  intros Sn. unfold newRunRecorder. destruct (_ =s _); [by split; [left|]|].
  apply prog_wp_bind, wp_perform; [done|]. intros [err|opened]; [by split; [right|]|].
  apply prog_wp_bind, prog_wp_bind. unseen. intros now. apply prog_wp_bind, wp_perform; [by split_and!; [|done|left]|].
  intros [err|sent]; apply prog_wp_ret; [|done].
  split; [done|]. intros x. by split; [right|].
Qed.

Lemma recordToolEvent_tracks r phase summary payload s :
  phase ≠ daemonv1.AgentRunPhase_AGENT_RUN_PHASE_START → phase ≠ daemonv1.AgentRunPhase_AGENT_RUN_PHASE_END →
  summary ≠ safety_net → tracks r s.1 → wp (recordToolEvent r phase summary payload) (λ _ s', s' = s) s.
Proof.
  intros N1 N2 Sn T. destruct r as [r|]; [|done]. destruct T as [T E]. destruct s as [a ran]. cbn in T. subst a.
  apply prog_wp_bind, prog_wp_bind. unseen. intros now. apply prog_wp_bind, wp_perform.
  - split_and!; [done|done|]. right. by split_and!.
  - intros x. cbn. by rewrite (proj2 (Z.eqb_neq _ _) N2).
Qed.

Lemma closeRunRecorder_tracks r summary exitCode errMsg s :
  summary ≠ safety_net → tracks r s.1 → end_of s.2 exitCode errMsg →
  wp (closeRunRecorder r summary exitCode errMsg) (λ r s', r = None ∧ at_rest s'.1 ∧ s'.2 = s.2) s.
Proof.
  intros Sn T E. destruct r as [r|]; [|done]. destruct T as [T I]. destruct s as [a ran]. cbn in T. subst a.
  apply prog_wp_bind, prog_wp_bind. unseen. intros now. apply prog_wp_bind, wp_perform.
  - split_and!; [done|done|]. right. by split_and!.
  - intros x. apply prog_wp_ret. apply prog_wp_bind, wp_perform; [done|]. intros ?. by split_and!; [|right|].
Qed.

(** The recorder closed, the rest does not look at the archive. *)
Definition closes {A} (p : prog A) (post : A → Prop) (s : archive * option exec_result) : Prop :=
  wp p (λ a s', post a ∧ at_rest s'.1) s.

Lemma runner_result cmd s :
  s.2 = None →
  wp (runner_Run (Cfg.RunTimeout cfg) cmd)
     (λ res s', s'.1 = s.1 ∧ match Err res with
                             | Some e => end_of s'.2 (RpcConv.i32 (ExitCode res)) (run_text e)
                             | None => end_of s'.2 (RpcConv.i32 (ExitCode res)) ""
                             end) s.
Proof.
  intros N. unfold runner_Run. destruct (_ =s _).
  - split; [done|]. cbn. by rewrite N.
  - apply prog_wp_bind, wp_perform; [done|]. intros [out fail ctx]. destruct s as [a ran].
    destruct ctx as [c|], fail as [f|]; by repeat split.
Qed.

Lemma run_command_closes agentID target leaseID r startStep cmd s :
  tracks r s.1 → s.2 = None →
  closes (run_command cfg run agentID target leaseID r startStep cmd) (λ r, r = None) s.
Proof.
  intros T N. unfold closes, run_command. cbn zeta.
  apply prog_wp_bind. unseen. intros commandStep.
  apply prog_wp_bind. unseen. intros _. apply prog_wp_bind. unseen. intros _.
  eapply prog_wp_bind, prog_wp_mono; [by apply recordToolEvent_tracks|]. intros _ ? ->.
  apply prog_wp_bind. unseen. intros _.
  eapply prog_wp_bind, prog_wp_mono; [by apply runner_result|]. intros res s' [E R]. rewrite <- E in T. clear E.
  destruct (Err res) as [e|].
  - apply prog_wp_bind. unseen. intros _.
    eapply prog_wp_bind, prog_wp_mono; [by apply recordToolEvent_tracks|]. intros _ ? ->.
    eapply prog_wp_bind, prog_wp_mono; [by apply closeRunRecorder_tracks|]. intros r' s'' (-> & A & _).
    apply prog_wp_bind. unseen. intros _. apply prog_wp_bind. by unseen.
  - apply prog_wp_bind. unseen. intros _.
    eapply prog_wp_bind, prog_wp_mono; [by apply recordToolEvent_tracks|]. intros _ ? ->.
    apply prog_wp_bind. unseen. intros resultStep.
    apply prog_wp_bind. unseen. intros _. apply prog_wp_bind. unseen. intros _.
    eapply prog_wp_bind, prog_wp_mono; [by apply closeRunRecorder_tracks|]. intros r' s'' (-> & A & _).
    apply prog_wp_bind. by unseen.
Qed.

Lemma setup_fails agentID leaseID r summary err s :
  summary ≠ safety_net → tracks r s.1 → s.2 = None →
  closes (r ← closeRunRecorder r summary 1 err; _ ← failRun cfg run agentID leaseID summary err; mret r)
    (λ r, r = None) s.
Proof.
  intros Sn T N. eapply prog_wp_bind, prog_wp_mono; [apply closeRunRecorder_tracks; [done|done|by rewrite N]|].
  intros r' s' (-> & A & _). apply prog_wp_bind. by unseen.
Qed.

Lemma supervise_closes agentID target leaseID r s :
  tracks r s.1 → s.2 = None → closes (supervise cfg run agentID target leaseID r) (λ r, r = None) s.
Proof.
  intros T N. unfold closes, supervise. apply prog_wp_bind. unseen. intros _.
  apply prog_wp_bind. unseen. intros [err|]; [by apply setup_fails|].
  apply prog_wp_bind. unseen. intros startStep.
  apply prog_wp_bind. unseen. intros [err|snapshot]; [by apply setup_fails|].
  apply prog_wp_bind. unseen. intros _.
  destruct (runtimeCommand cfg run agentID snapshot) as [err|cmd]; [by apply setup_fails|].
  by apply run_command_closes.
Qed.

Lemma executeRun_closes : closes (executeRun cfg run) (λ _, True) (Unopened, None).
Proof.
  unfold closes, executeRun. eapply prog_wp_bind, prog_wp_mono; [by apply newRunRecorder_tracks|]. intros r s [T N].
  apply prog_wp_bind. unseen. intros permit.
  assert (Done : ∀ s, at_rest s.1 →
    wp (r ← closeRunRecorder None "run recorder closed without explicit end" 1 "no explicit closeRunRecorder call"; mret ())
       (λ (_ : unit) s', True ∧ at_rest s'.1) s) by done.
  apply prog_wp_bind. destruct permit as [err|[lease|]].
  - eapply prog_wp_mono; [by apply setup_fails|]. intros r' s' [-> A]. by apply Done.
  - eapply prog_wp_bind, prog_wp_mono; [by apply supervise_closes|]. intros r' s' [-> A].
    apply prog_wp_bind. unseen. intros _. by apply Done.
  - eapply prog_wp_mono; [by apply supervise_closes|]. intros r' s' [-> A]. by apply Done.
Qed.

(** C31. The archive of a run has one beginning and one end, its stream is closed once whatever
    fails, and its last event tells how the run ended: the safety net of the deferred close
    never writes its record. *)
Theorem executeRun_archives tr :
  traces (executeRun cfg run) tr () →
  follows (Mon := archive_monitor run) (Unopened, None) tr
  ∧ at_rest (after (Mon := archive_monitor run) (Unopened, None) tr).1.
Proof.
  intros T. destruct (wp_sound (Mon := archive_monitor run) _ _ _ _ _ executeRun_closes T) as (F & _ & A). done.
Qed.

End archive.

(** ** What a summary shows *)

Section summary.
Context {Uni : Unicode} {Ord : MapOrder} (cfg : Cfg.daemonConfig).

Lemma run_values_trimmed agentID snapshot : trimmed_keys (run_values agentID snapshot).
Proof.
  intros k v. unfold run_values. destruct (_ =s _); rewrite ?lookup_insert_Some, ?lookup_singleton_Some.
  - by intros [<- _].
  - by intros [[<- _]|[_ [<- _]]].
Qed.

Lemma run_values_other agentID snapshot k :
  k ≠ "display_name" → k ≠ "system_message" → value_of (clean_values (run_values agentID snapshot)) k = "".
Proof.
  intros N1 N2. rewrite value_of_clean by apply run_values_trimmed. unfold value_of, run_values.
  destruct (_ =s _); rewrite ?lookup_insert_ne, lookup_singleton_ne by done; done.
Qed.

Lemma run_values_message agentID snapshot :
  TrimSpace (Snap.Content snapshot) ≠ "" →
  value_of (clean_values (run_values agentID (Some snapshot))) "system_message" = TrimSpace (Snap.Content snapshot).
Proof.
  intros N. rewrite value_of_clean by apply run_values_trimmed. unfold value_of, run_values. simpl.
  destruct (String.eqb_spec (Snap.Content snapshot) "") as [E|]; [by rewrite E in N|]. by rewrite lookup_insert_eq.
Qed.

(** The options of a run: the defaults, and the snapshot as the system message. *)
Lemma run_options kind agentID snapshot d :
  TrimSpace (Snap.Content snapshot) ≠ "" →
  check_options (default_options kind kind) (clean_values (run_values agentID (Some snapshot))) = inr d →
  value_of d "model" = defaultModel kind ∧ value_of d "reasoning_effort" = "medium" ∧ value_of d "workdir" = ""
  ∧ value_of d "session_id" = "" ∧ value_of d "system_message" = TrimSpace (Snap.Content snapshot).
Proof.
  intros N H. destruct (check_options_chosen _ _ _ (default_options_distinct kind kind) H) as [_ Mine].
  assert (At : ∀ i o, default_options kind kind !! i = Some o →
    value_of d (OptionSchema.Name o) = chosen o (clean_values (run_values agentID (Some snapshot)))).
  { intros i o Ho. by eapply Mine, list_elem_of_lookup_2. }
  assert (Def : ∀ i o, default_options kind kind !! i = Some o →
    OptionSchema.Name o ≠ "display_name" → OptionSchema.Name o ≠ "system_message" →
    value_of d (OptionSchema.Name o) = OptionSchema.Default o).
  { intros i o Ho N1 N2. rewrite (At i o Ho). unfold chosen. by rewrite run_values_other. }
  split_and!.
  - by apply (Def 1 _ eq_refl).
  - by apply (Def 2 _ eq_refl).
  - by apply (Def 3 _ eq_refl).
  - by apply (Def 4 _ eq_refl).
  - etransitivity; [exact (At 8 _ eq_refl)|]. unfold chosen. change (OptionSchema.Name _) with "system_message".
    rewrite run_values_message by done. by rewrite (proj2 (String.eqb_neq _ _) N).
Qed.

(** The arguments before and after the system message, and what goes to standard input. *)
Definition same_but_secret (l1 l2 : launch) : Prop :=
  let '(args1, dir1, stdin1, _) := l1 in
  let '(args2, dir2, stdin2, _) := l2 in
  dir1 = dir2 ∧ (stdin1 = "" ↔ stdin2 = "") ∧
  ∀ command more, redact_parts (command :: args1 ++ more) = redact_parts (command :: args2 ++ more).

Lemma redact_plain p parts :
  isRedactedRuntimeArg p = false → parts ≠ [] →
  redact_parts (p :: parts) = (if shouldRedactRuntimeValue p then redacted_input else p) :: redact_parts parts.
Proof. intros N Ne. destruct parts as [|q rest]; [done|]. cbn [redact_parts]. by rewrite N. Qed.

Lemma redact_secret option m1 m2 more :
  isRedactedRuntimeArg option = true → redact_parts (option :: m1 :: more) = redact_parts (option :: m2 :: more).
Proof. intros E. cbn [redact_parts]. by rewrite E. Qed.

(** Plain arguments in front keep two lists alike. *)
Lemma redact_same p l1 l2 :
  isRedactedRuntimeArg p = false → l1 ≠ [] → l2 ≠ [] → redact_parts l1 = redact_parts l2 →
  redact_parts (p :: l1) = redact_parts (p :: l2).
Proof. intros N N1 N2 E. by rewrite !redact_plain, E by done. Qed.

(** Whatever the command's name, since its first argument is no place for a secret. *)
Lemma redact_command p q l1 l2 :
  l1 ≠ [] → l2 ≠ [] → isRedactedRuntimeArg q = false → redact_parts l1 = redact_parts l2 →
  redact_parts (p :: q :: l1) = redact_parts (p :: q :: l2).
Proof.
  intros N1 N2 Q E. destruct (isRedactedRuntimeArg p) eqn:P.
  - cbn [redact_parts]. by rewrite P, E.
  - apply redact_same; [done..|]. by apply redact_same.
Qed.

Lemma defaultModel_known kind : defaultModel kind ∈ ["gpt-5.5"; "default"; ""].
Proof. unfold defaultModel. cbn zeta. destruct (_ =s _); [left|]. destruct (_ || _); [by right; left|by do 2 right; left]. Qed.

Lemma launch_hides kind d1 d2 m1 m2 build l1 l2 :
  m1 ≠ "" → m2 ≠ "" →
  (value_of d1 "model" = defaultModel kind ∧ value_of d1 "reasoning_effort" = "medium" ∧ value_of d1 "workdir" = ""
   ∧ value_of d1 "session_id" = "" ∧ value_of d1 "system_message" = m1) →
  (value_of d2 "model" = defaultModel kind ∧ value_of d2 "reasoning_effort" = "medium" ∧ value_of d2 "workdir" = ""
   ∧ value_of d2 "session_id" = "" ∧ value_of d2 "system_message" = m2) →
  build = buildCodexArgs ∨ build = buildClaudeArgs ∨ build = buildOpenCodeArgs ∨ build = buildGeminiArgs →
  build d1 = inr l1 → build d2 = inr l2 → same_but_secret l1 l2.
Proof.
  intros N1 N2 (M1 & E1 & W1 & S1 & Y1) (M2 & E2 & W2 & S2 & Y2) B H1 H2.
  apply String.eqb_neq in N1 as F1, N2 as F2. pose proof (defaultModel_known kind) as Dm.
  rewrite !elem_of_cons in Dm. destruct Dm as [Dm|[Dm|[Dm|Dm]]]; [..|by apply elem_of_nil in Dm];
    rewrite Dm in M1, M2;
    destruct B as [-> |[-> |[-> | ->]]];
    unfold buildCodexArgs, buildClaudeArgs, buildOpenCodeArgs, buildGeminiArgs in H1, H2;
    rewrite M1, W1, Y1, ?E1, ?S1 in H1; rewrite M2, W2, Y2, ?E2, ?S2 in H2;
    apply (inj inr) in H1 as <-; apply (inj inr) in H2 as <-; unfold RuntimeAdapter.flag; rewrite ?F1, ?F2;
    (split; [done|]; split; [done|]); intros command more; cbn [app String.eqb Ascii.eqb Bool.eqb].
  all: try reflexivity.
  all: apply redact_command; [done..|].
  all: repeat (apply redact_same; [done..|]).
  all: by apply redact_secret.
Qed.

Lemma summary_same c1 c2 :
  redact_parts (Command c1 :: Args c1) = redact_parts (Command c2 :: Args c2) → Dir c1 = Dir c2 →
  (Stdin c1 = "" ↔ Stdin c2 = "") → runtimeCommandSummary c1 = runtimeCommandSummary c2.
Proof.
  intros R D I. unfold runtimeCommandSummary. rewrite R, D. do 2 f_equal.
  destruct (String.eqb_spec (Stdin c1) ""), (String.eqb_spec (Stdin c2) ""); tauto.
Qed.

Lemma combinePrompt_not_empty a p : TrimSpace p ≠ "" → combinePrompt a p ≠ "".
Proof.
  intros N. unfold combinePrompt. cbn zeta. destruct (_ =s _); [done|].
  rewrite (proj2 (String.eqb_neq _ _) N). intros E. by destruct (TrimSpace a).
Qed.

(** A run's prompt does not tell two commands apart that a summary does not. *)
Lemma prompt_hides command kind env1 env2 more1 more2 dir prompt args1 args2 stdin1 stdin2 :
  same_but_secret (args1, dir, stdin1, env1) (args2, dir, stdin2, env2) →
  let command_of args stdin wrapenv env :=
    let wrapped := WithRunPrompt (WrapCommand.zero
      |> WrapCommand.set_Command command |> WrapCommand.set_Args (Some args) |> WrapCommand.set_Env wrapenv
      |> WrapCommand.set_Dir dir |> WrapCommand.set_Stdin stdin |> WrapCommand.set_Kind kind) prompt in
    mkCommand (WrapCommand.Command wrapped) (items (WrapCommand.Args wrapped)) (WrapCommand.Env wrapped ++ env)
      (WrapCommand.Dir wrapped) (WrapCommand.Stdin wrapped) in
  runtimeCommandSummary (command_of args1 stdin1 env1 more1) = runtimeCommandSummary (command_of args2 stdin2 env2 more2).
Proof.
  intros (_ & I & R). cbn zeta. unfold WithRunPrompt. cbn zeta. cbn [WrapCommand.Kind WrapCommand.set_Kind].
  destruct (String.eqb_spec (TrimSpace prompt) "") as [E|N].
  - apply summary_same; [|done|done]. specialize (R command []). by rewrite !app_nil_r in R.
  - destruct (_ || _).
    + apply summary_same; [specialize (R command []); by rewrite !app_nil_r in R|done|].
      assert (TrimSpace (TrimSpace prompt) ≠ "") by (by rewrite TrimSpace_idemp).
      split; intros H0; by apply combinePrompt_not_empty in H0.
    + by apply summary_same; [apply R| |].
Qed.

(** The summary that goes to the server's log of a run shows nothing of the launch prompt:
    two snapshots that differ in their content give the same summary. *)
Theorem summary_hides_snapshot run agentID s1 s2 c1 c2 :
  TrimSpace (Snap.Content s1) ≠ "" → TrimSpace (Snap.Content s2) ≠ "" →
  runtimeCommand cfg run agentID (Some s1) = inr c1 → runtimeCommand cfg run agentID (Some s2) = inr c2 →
  runtimeCommandSummary c1 = runtimeCommandSummary c2.
Proof.
  intros N1 N2. unfold runtimeCommand. destruct (negb _).
  - by intros <-%(inj inr) <-%(inj inr).
  - cbn zeta. set (kind := firstNonEmpty [Cfg.RuntimeKind cfg; "codex"]). unfold BuildWrapCommand. cbn zeta.
    destruct (TrimSpace (WrapSpec.Command _) =s ""); [done|].
    change (items (InstanceTemplate.Options (DefaultInstanceTemplate (run_type kind)))) with (default_options kind kind).
    change (InstanceTemplate.RuntimeKind (DefaultInstanceTemplate (run_type kind))) with kind.
    destruct (check_options _ (clean_values (run_values agentID (Some s1)))) as [|d1] eqn:O1; [done|].
    destruct (check_options _ (clean_values (run_values agentID (Some s2)))) as [|d2] eqn:O2; [done|].
    apply run_options in O1, O2; [|done..].
    destruct (negb (Contract.Kind _ =s "")).
    + destruct (negb (Contract.DirectRunSupported _)) eqn:D; [done|].
      destruct (contract_cases kind) as [C|(_ & build & Bb & [[C _]|(_ & _ & Bs)])];
        [by rewrite C in D|by rewrite C in D|]. rewrite Bb.
      destruct (build d1) as [|[[[args1 dir1] stdin1] env1]] eqn:L1; [done|].
      destruct (build d2) as [|[[[args2 dir2] stdin2] env2]] eqn:L2; [done|].
      pose proof (launch_hides kind d1 d2 _ _ build _ _ N1 N2 O1 O2 Bs L1 L2) as Same.
      destruct Same as (<- & Rest). intros <-%(inj inr) <-%(inj inr).
      apply (prompt_hides _ kind _ _ _ _ dir1 (runPrompt run) args1 args2 stdin1 stdin2). by split.
    + intros <-%(inj inr) <-%(inj inr). unfold valueOrDefault.
      destruct O1 as (_ & _ & -> & _), O2 as (_ & _ & -> & _). reflexivity.
Qed.

End summary.

(** ** Examples *)

Section examples.
Local Existing Instance ascii_unicode.
Local Existing Instance RpcPrompt.plain_order.
Local Existing Instance same_text.
Definition toy_build : Build := {| Version := "1.0"; GOOS := "linux"; GOARCH := "amd64" |}.
Local Existing Instance toy_build.

Definition desk_config : Cfg.daemonConfig :=
  Cfg.zero |> Cfg.set_ComputerID "desk" |> Cfg.set_DaemonID "d1" |> Cfg.set_AgentID "ann" |> Cfg.set_RuntimeKind "claude"
           |> Cfg.set_HeartbeatInterval (30 * second)%Z |> Cfg.set_RunTimeout (600 * second)%Z |> Cfg.set_MaxConcurrentRuns 1
           |> Cfg.set_RunPollInterval (5 * second)%Z.

Definition fix_login : Run.Run :=
  Run.zero |> Run.set_RunId "run-1" |> Run.set_Summary "fix the login, password is hunter2".

Definition launch_prompt : Snap.LaunchPromptSnapshot :=
  Snap.zero |> Snap.set_SnapshotId "snap-1" |> Snap.set_Content "Be careful with the staging key.".

(** A server that grants everything, and a runtime that ends with [done]. *)
Definition world (done : exec_result) (e : effect) : answer e :=
  match e return answer e with
  | CallRegisterComputer _ => inr daemonv1.RegisterComputerResponse.zero
  | CallHeartbeatComputer _ => inr daemonv1.HeartbeatComputerResponse.zero
  | CallAcquireStartPermit _ => inr (AcqP.zero |> AcqP.set_Granted true |> AcqP.set_PermitLease (Some (Lease.zero |> Lease.set_LeaseId "lease-1")))
  | CallFetchAssignedRuns _ => inr daemonv1.FetchAssignedRunsResponse.zero
  | CallGetLaunchPromptSnapshot _ => inr (ProP.zero |> ProP.set_Snapshot (Some launch_prompt))
  | CallAppendRunStep req => inr (AppP.zero |> AppP.set_Accepted true |> AppP.set_Step (App.Step req))
  | CallReleaseStartPermit _ | CallUpdateRunStatus _ | CallUpdateAgentStatus _ | CallSendMessage _
  | CallLogActivity _ | CallAcknowledgeServerEvents _ | OpenReport | SendReport _ => inr ()
  | CloseAndRecvReport | CloseReport => ()
  | ReadRandom => Some "0011223344556677"
  | ReadClock => 0%Z
  | Exec _ _ => done
  | ReserveRun _ => true
  | SetProcessCommand _ _ _ | ReleaseRun _ => ()
  | CancelAgentRuns _ => 0
  end.

Definition good_end : exec_result := mkExec "done" None None.
Definition bad_end : exec_result := mkExec "unauthorized" (Some (mkExecError "exit status 1" (Some 1%Z) false)) None.

Definition good_run : list event := (play (world good_end) (executeRun desk_config fix_login)).1.
Definition bad_run : list event := (play (world bad_end) (executeRun desk_config fix_login)).1.

Example good_run_reports : collect reported good_run = [RUNNING; COMPLETED] ∧ collect released good_run = ["lease-1"].
Proof. by vm_compute. Qed.
Example bad_run_reports : collect reported bad_run = [RUNNING; FAILED] ∧ collect released bad_run = ["lease-1"].
Proof. by vm_compute. Qed.

Lemma played done : traces (executeRun desk_config fix_login) (play (world done) (executeRun desk_config fix_login)).1 ().
Proof.
  pose proof (play_traces (world done) (executeRun desk_config fix_login)) as T.
  by destruct (play (world done) (executeRun desk_config fix_login)) as [tr []].
Qed.

Lemma executeRun_refines_witness :
  follows (Mon := protocol desk_config fix_login) Waiting bad_run
  ∧ finished_run (after (Mon := protocol desk_config fix_login) Waiting bad_run).
Proof. exact (executeRun_refines desk_config fix_login bad_run (played bad_end)). Defined.

Lemma executeRun_verdict_witness :
  collect reported bad_run = verdict (collect granted bad_run) (collect ran bad_run)
  ∧ collect ran bad_run = [false] ∧ collect granted bad_run = ["lease-1"].
Proof.
  split; [exact (proj1 (executeRun_verdict desk_config fix_login bad_run (played bad_end)))|].
  split; vm_compute; reflexivity.
Defined.

Lemma executeRun_archives_witness :
  follows (Mon := archive_monitor fix_login) (Unopened, None) good_run
  ∧ (after (Mon := archive_monitor fix_login) (Unopened, None) good_run).1 = Closed.
Proof.
  destruct (executeRun_archives desk_config fix_login good_run (played good_end)) as [F _].
  split; [exact F|vm_compute; reflexivity].
Defined.

Definition commanded (snapshot : Snap.LaunchPromptSnapshot) : Daemon.runtimeCommand :=
  match runtimeCommand desk_config fix_login "ann" (Some snapshot) with inr c => c | inl _ => mkCommand "" [] [] "" "" end.
Definition other_prompt : Snap.LaunchPromptSnapshot := launch_prompt |> Snap.set_Content "Nothing to see.".

Lemma summary_hides_snapshot_witness :
  runtimeCommandSummary (commanded launch_prompt) = runtimeCommandSummary (commanded other_prompt)
  ∧ commanded launch_prompt ≠ commanded other_prompt.
Proof.
  split.
  - apply (summary_hides_snapshot desk_config fix_login "ann" launch_prompt other_prompt).
    + vm_compute. discriminate.
    + vm_compute. discriminate.
    + vm_compute. reflexivity.
    + vm_compute. reflexivity.
  - vm_compute. discriminate.
Defined.

(** The prompt of a run that is its summary alone is not recognised as one: it stays in the
    summary of the command that is reported to the server. *)
Example run_prompt_shown : Contains (runtimeCommandSummary (commanded launch_prompt)) "hunter2" = true.
Proof. vm_compute. reflexivity. Qed.

(** And the archive's record of the command holds the arguments as they are. *)
Definition archived_payloads (ev : event) : list string := match ev with Event (SendReport a) _ => [Arc.PayloadJson a] | _ => [] end.
Example launch_prompt_archived :
  existsb (λ payload, Contains payload "staging key") (collect archived_payloads good_run) = true.
Proof. vm_compute. reflexivity. Qed.

(** A command that is stopped counts as one that timed out. *)
Example stopped_is_a_timeout :
  runtimeFailureCategory (mkResult "" (-1) (Some (ctx_text CtxCanceled))) "context canceled" = "timeout".
Proof. reflexivity. Qed.

End examples.
