(* ===== verification/DaemonSupervisor.v ===== *)
(** * The supervisor and its goroutines ([cmd/nekode-daemon/supervisor.go, main.go])

    What starts runs: the poll that every tick spawns as a goroutine of its own, and the
    stream of the server's events, handled one after the other.  They share the map of
    running processes; a step of the [system] is one effect of one goroutine, so any
    interleaving is a sequence of steps.  A goroutine that waits for a command stands at its
    [Exec].  And the daemon's session: registration, heartbeats, acknowledgements. *)
From S2P Require Import Prelude GoStr GoText Json JsonValue Sql Models Schema Store Proto Rpc RpcConv.
From S2P Require Import RuntimeCatalog RuntimeAdapter GoFlag DaemonConfig Daemon DaemonRun.

#[local] Open Scope go_scope.

Module Op := daemonv1.AgentControlOperation.
Module Msg := daemonv1.CollaborationMessage.
Module Ev := daemonv1.ServerEvent.
Module Fet := daemonv1.FetchAssignedRunsRequest.
Module FetP := daemonv1.FetchAssignedRunsResponse.
Module Sen := daemonv1.SendMessageRequest.
Module AckQ := daemonv1.AcknowledgeServerEventsRequest.
Module Cur := daemonv1.EventCursor.
Module Info := daemonv1.ComputerInfo.
Module Cap := daemonv1.Capability.
Module Reg := daemonv1.RegisterComputerRequest.
Module RegP := daemonv1.RegisterComputerResponse.
Module Hb := daemonv1.HeartbeatComputerRequest.
Module HbP := daemonv1.HeartbeatComputerResponse.
Module Sub := daemonv1.SubscribeServerEventsRequest.

(** ** The map of running processes *)

Record supervisedProcess := mkProcess {
  proc_RunID : string;
  proc_AgentID : string;
  proc_Command : string;
  proc_Args : list string;
  proc_StartedTimeUnix : Z;
  proc_cancel : bool
}.

Notation processes := (gmap string supervisedProcess).

Definition reserveRun (now : Z) (runID : string) (running : processes) : bool * processes :=
  match running !! runID with
  | Some _ => (false, running)
  | None => (true, <[runID := mkProcess runID "" "" [] now false]> running)
  end.

Definition setProcessCommand (runID : string) (cmd : Daemon.runtimeCommand) (agentID : string) (running : processes) : processes :=
  match running !! runID with
  | None => running
  | Some p => <[runID := mkProcess (proc_RunID p) agentID (Command cmd) (Args cmd) (proc_StartedTimeUnix p) true]> running
  end.

Definition releaseRun (runID : string) (running : processes) : processes := delete runID running.

(** The processes a cancellation for the agent reaches. *)
Definition cancels (agentID : string) (p : supervisedProcess) : bool :=
  negb (negb (agentID =s "") && negb (proc_AgentID p =s "") && negb (proc_AgentID p =s agentID)) && proc_cancel p.

Definition cancelAgentRuns (agentID : string) (running : processes) : nat :=
  length (bfilter (cancels agentID) (map_to_list running).*2).

Section supervisor.
Context {Uni : Unicode} {Ord : MapOrder} {Fl : Floats} {B : Build} (cfg : Cfg.daemonConfig).

(** ** Control of an agent *)

Definition healthForControlState (state : Z) : Z :=
  if (state =? daemonv1.AgentControlState_AGENT_CONTROL_STATE_FAILED)%Z
     || (state =? daemonv1.AgentControlState_AGENT_CONTROL_STATE_UNSUPPORTED)%Z
  then daemonv1.AgentHealth_AGENT_HEALTH_RUNTIME_ERROR
  else daemonv1.AgentHealth_AGENT_HEALTH_OK.

(** The name of an action ([String] of the generated enum). *)
Definition action_name (action : Z) : string :=
  if (action =? daemonv1.AgentControlAction_AGENT_CONTROL_ACTION_UNSPECIFIED)%Z then "AGENT_CONTROL_ACTION_UNSPECIFIED"
  else if (action =? daemonv1.AgentControlAction_AGENT_CONTROL_ACTION_TERMINATE)%Z then "AGENT_CONTROL_ACTION_TERMINATE"
  else if (action =? daemonv1.AgentControlAction_AGENT_CONTROL_ACTION_RESTART)%Z then "AGENT_CONTROL_ACTION_RESTART"
  else if (action =? daemonv1.AgentControlAction_AGENT_CONTROL_ACTION_RESTART_RESET_SESSION)%Z then "AGENT_CONTROL_ACTION_RESTART_RESET_SESSION"
  else if (action =? daemonv1.AgentControlAction_AGENT_CONTROL_ACTION_RESTART_FULL_RESET)%Z then "AGENT_CONTROL_ACTION_RESTART_FULL_RESET"
  else if (action =? daemonv1.AgentControlAction_AGENT_CONTROL_ACTION_CUSTOM)%Z then "AGENT_CONTROL_ACTION_CUSTOM"
  else FormatInt action.

Definition restarts (action : Z) : bool :=
  (action =? daemonv1.AgentControlAction_AGENT_CONTROL_ACTION_RESTART)%Z
  || (action =? daemonv1.AgentControlAction_AGENT_CONTROL_ACTION_RESTART_RESET_SESSION)%Z
  || (action =? daemonv1.AgentControlAction_AGENT_CONTROL_ACTION_RESTART_FULL_RESET)%Z.

Definition reportControlStatus (op : Op.AgentControlOperation) (controlState activityState : Z) (summary : string) : prog (option string) :=
  now ← unix_now;
  let agentID := firstNonEmpty [Op.AgentId op; Cfg.AgentID cfg] in
  let health := healthForControlState controlState in
  send_status cfg "agent-control-status" (Shot.zero
    |> Shot.set_AgentId agentID |> Shot.set_ComputerId (Cfg.ComputerID cfg)
    |> Shot.set_RuntimeProfileId (profile_for (Op.RuntimeProfileId op) agentID)
    |> Shot.set_Presence (presenceForActivity activityState) |> Shot.set_ActivityState activityState
    |> Shot.set_Health health |> Shot.set_Severity (severityForHealth health)
    |> Shot.set_Summary summary |> Shot.set_Detail (Op.Reason op) |> Shot.set_Target (Cfg.Target cfg)
    |> Shot.set_OperationId (Op.OperationId op)
    |> Shot.set_StartedTimeUnix (firstNonZero [Op.CreatedTimeUnix op; now])
    |> Shot.set_UpdatedTimeUnix now |> Shot.set_ExpiresTimeUnix (status_expiry cfg now)).

(** The error is [None] when there is none. *)
Definition executeControl (op : option Op.AgentControlOperation) : prog (option string) :=
  match op with
  | None => mret None
  | Some op =>
      if Op.OperationId op =s "" then mret None
      else
        let agentID := firstNonEmpty [Op.AgentId op; Cfg.AgentID cfg] in
        let action := Op.Action op in
        let operation canceled := "operation=" +:+ Op.OperationId op +:+ " canceled_runs=" +:+ FormatInt (Z.of_nat canceled) in
        if (action =? daemonv1.AgentControlAction_AGENT_CONTROL_ACTION_TERMINATE)%Z then
          canceled ← perform (CancelAgentRuns agentID);
          _ ← logActivity cfg (Cfg.Target cfg) agentID "agent_control_terminate" "terminate requested" (operation canceled) "" "";
          reportControlStatus op daemonv1.AgentControlState_AGENT_CONTROL_STATE_COMPLETED
            daemonv1.AgentActivityState_AGENT_ACTIVITY_STATE_WAITING "terminate completed"
        else if restarts action then
          canceled ← perform (CancelAgentRuns agentID);
          _ ← logActivity cfg (Cfg.Target cfg) agentID "agent_control_restart" "restart requested"
                (operation canceled +:+ " action=" +:+ action_name action) "" "";
          err ← reportControlStatus op daemonv1.AgentControlState_AGENT_CONTROL_STATE_RUNNING
                  daemonv1.AgentActivityState_AGENT_ACTIVITY_STATE_RESTARTING "restart running";
          match err with
          | Some err => mret (Some err)
          | None => reportControlStatus op daemonv1.AgentControlState_AGENT_CONTROL_STATE_COMPLETED
                      daemonv1.AgentActivityState_AGENT_ACTIVITY_STATE_WAITING "restart completed"
          end
        else
          _ ← logActivity cfg (Cfg.Target cfg) agentID "agent_control_unsupported" "unsupported control requested"
                (action_name action) "" "";
          reportControlStatus op daemonv1.AgentControlState_AGENT_CONTROL_STATE_UNSUPPORTED
            daemonv1.AgentActivityState_AGENT_ACTIVITY_STATE_BLOCKED "control unsupported"
  end.

(** ** Runs of every origin *)

(** A run reserved, executed and released; whether it was reserved. *)
Definition reserved_run (run : Run.Run) : prog bool :=
  ok ← perform (ReserveRun (Run.RunId run));
  if ok : bool then
    _ ← executeRun cfg run;
    _ ← perform (ReleaseRun (Run.RunId run));
    mret true
  else mret false.

Definition sendDirectMessageReceipt (message : Msg.CollaborationMessage) (agentID : string) : prog (option string) :=
  ids ← request_ids cfg "direct-receipt";
  let '(id, key, context) := ids in
  x ← perform (CallSendMessage (Sen.zero
        |> Sen.set_Target (Msg.Target message) |> Sen.set_Role "assistant"
        |> Sen.set_Content ("Processed direct message " +:+ Msg.MessageId message)
        |> Sen.set_ReplyToMessageId (Msg.MessageId message)
        |> Sen.set_RequestId id |> Sen.set_IdempotencyKey key |> Sen.set_Context context
        |> Sen.set_Sender (Some (Act.zero |> Act.set_ActorKind daemonv1.ActorKind_ACTOR_KIND_AGENT
             |> Act.set_AgentId agentID |> Act.set_DisplayName agentID))));
  mret (error_of x).

(** The run made of a direct message. *)
Definition direct_run (message : Msg.CollaborationMessage) : Run.Run :=
  let agentID := firstNonEmpty [Msg.AggregateId message; Cfg.AgentID cfg] in
  Run.zero
  |> Run.set_RunId ("direct-" +:+ Msg.MessageId message) |> Run.set_Target (Msg.Target message)
  |> Run.set_AgentId agentID |> Run.set_ComputerId (Cfg.ComputerID cfg)
  |> Run.set_RuntimeProfileId ("profile-" +:+ agentID) |> Run.set_State daemonv1.RunState_RUN_STATE_QUEUED
  |> Run.set_InputMessageId (Msg.MessageId message) |> Run.set_Summary (Msg.Content message).

(** The receipt is sent before the run is released. *)
Definition executeDirectMessage (message : option Msg.CollaborationMessage) : prog (option string) :=
  match message with
  | None => mret None
  | Some message =>
      if Msg.MessageId message =s "" then mret None
      else
        let run := direct_run message in
        ok ← perform (ReserveRun (Run.RunId run));
        if ok : bool then
          _ ← executeRun cfg run;
          err ← sendDirectMessageReceipt message (Run.AgentId run);
          _ ← perform (ReleaseRun (Run.RunId run));
          mret err
        else mret None
  end.

Definition handleServerEvent (event : option Ev.ServerEvent) : prog (option string) :=
  match event ≫= Ev.Payload with
  | Some (daemonv1.ServerEvent_AgentControl op) => executeControl (Some op)
  | Some (daemonv1.ServerEvent_Message message) => executeDirectMessage (Some message)
  | Some (daemonv1.ServerEvent_Run run) =>
      if shouldStartRun (Some run) then _ ← reserved_run run; mret None else mret None
  | _ => mret None
  end.

Definition poll_request (id : string) : Fet.FetchAssignedRunsRequest :=
  Fet.zero |> Fet.set_ComputerId (Cfg.ComputerID cfg) |> Fet.set_Limit (u32 (Cfg.MaxConcurrentRuns cfg)) |> Fet.set_RequestId id.

Fixpoint poll_runs (runs : list Run.Run) : prog unit :=
  match runs with
  | [] => mret ()
  | run :: runs =>
      if shouldStartRun (Some run) then _ ← reserved_run run; poll_runs runs else poll_runs runs
  end.

Definition pollOnce : prog (option string) :=
  id ← newRequestID "fetch-runs";
  resp ← perform (CallFetchAssignedRuns (poll_request id));
  match resp with
  | inl err => mret (Some ("fetch assigned runs: " +:+ error_text err))
  | inr resp => _ ← poll_runs (FetP.Runs resp); mret None
  end.

(** ** The session ([main.go]) *)

Definition ackServerEvent (event : option Ev.ServerEvent) : prog (option string) :=
  match event with
  | None => mret None
  | Some event =>
      if Ev.EventId event =s "" then mret None
      else
        ids ← request_ids cfg "event-ack";
        let '(id, key, context) := ids in
        x ← perform (CallAcknowledgeServerEvents (AckQ.zero
              |> AckQ.set_DaemonId (Cfg.DaemonID cfg) |> AckQ.set_ComputerId (Cfg.ComputerID cfg)
              |> AckQ.set_EventIds [Ev.EventId event]
              |> AckQ.set_Cursor (Some (Cur.zero |> Cur.set_Sequence (Ev.Sequence event) |> Cur.set_ServerId (Ev.AggregateId event)))
              |> AckQ.set_RequestId id |> AckQ.set_IdempotencyKey key |> AckQ.set_Context context));
        mret (error_of x)
  end.

(** One event of [streamServerEvents]: acknowledged unless its handling failed. *)
Definition event_turn (event : option Ev.ServerEvent) : prog unit :=
  err ← handleServerEvent event;
  match err with
  | Some _ => mret ()
  | None => _ ← ackServerEvent event; mret ()
  end.

(** A goroutine that [pollSupervisor] spawns. *)
Definition poll_turn : prog unit := _ ← pollOnce; mret ().

Definition lease_id (lease : option Lease.Lease) : string := match lease with None => "" | Some l => Lease.LeaseId l end.

Definition computerInfo (lease : option Lease.Lease) (status now : Z) : Info.ComputerInfo :=
  Info.zero
  |> Info.set_DaemonId (Cfg.DaemonID cfg) |> Info.set_ComputerId (Cfg.ComputerID cfg)
  |> Info.set_DisplayName (Cfg.DisplayName cfg) |> Info.set_Hostname (Cfg.Hostname cfg)
  |> Info.set_Os GOOS |> Info.set_Arch GOARCH |> Info.set_Version Version |> Info.set_Status status
  |> Info.set_LastSeenUnix now |> Info.set_LeaseId (lease_id lease)
  |> Info.set_Capabilities [Cap.mk "heartbeat" "daemon liveness reporting" true;
                            Cap.mk "agent_status" "agent status reporting" true].

Definition agentStatus (state : Z) (summary : string) (now : Z) : Shot.AgentStatusSnapshot :=
  Shot.zero
  |> Shot.set_AgentId (Cfg.AgentID cfg) |> Shot.set_ComputerId (Cfg.ComputerID cfg)
  |> Shot.set_RuntimeProfileId ("profile-" +:+ Cfg.AgentID cfg)
  |> Shot.set_Presence daemonv1.AgentPresence_AGENT_PRESENCE_ONLINE |> Shot.set_ActivityState state
  |> Shot.set_Health daemonv1.AgentHealth_AGENT_HEALTH_OK
  |> Shot.set_Severity daemonv1.AgentStatusSeverity_AGENT_STATUS_SEVERITY_INFO
  |> Shot.set_Summary summary |> Shot.set_Target (Cfg.Target cfg)
  |> Shot.set_StartedTimeUnix now |> Shot.set_UpdatedTimeUnix now |> Shot.set_ExpiresTimeUnix (status_expiry cfg now).

Definition reportStatus (state : Z) (summary : string) : prog (option string) :=
  now ← unix_now;
  err ← send_status cfg "status" (agentStatus state summary now);
  mret (option_map (λ e, "update agent status: " +:+ e) err).

(** [inventory] is what [runtimeadapter.ComputerInventory] finds on the computer.  The
    result is the new lease. *)
Definition register (inventory : daemonv1.ComputerInventory.ComputerInventory) (lease : option Lease.Lease)
    : prog (string + option Lease.Lease) :=
  now ← unix_now;
  ids ← request_ids cfg "register";
  let '(id, key, context) := ids in
  resp ← perform (CallRegisterComputer (Reg.zero
           |> Reg.set_Info (Some (computerInfo lease daemonv1.ComputerStatus_COMPUTER_STATUS_ONLINE now))
           |> Reg.set_Inventory (Some inventory) |> Reg.set_RequestId id |> Reg.set_IdempotencyKey key |> Reg.set_Context context));
  mret (match resp with
        | inl err => inl ("register computer: " +:+ error_text err)
        | inr resp => if RegP.Accepted resp then inr (RegP.Lease resp) else inl "register computer was not accepted"
        end).

Definition heartbeat (lease : option Lease.Lease) : prog (string + option Lease.Lease) :=
  now ← unix_now;
  now' ← unix_now;
  ids ← request_ids cfg "heartbeat";
  let '(id, key, context) := ids in
  resp ← perform (CallHeartbeatComputer (Hb.zero
           |> Hb.set_Info (Some (computerInfo lease daemonv1.ComputerStatus_COMPUTER_STATUS_ONLINE now'))
           |> Hb.set_LeaseId (lease_id lease) |> Hb.set_RequestId id |> Hb.set_IdempotencyKey key
           |> Hb.set_AgentStatuses [agentStatus daemonv1.AgentActivityState_AGENT_ACTIVITY_STATE_WAITING "daemon heartbeat" now]
           |> Hb.set_Context context |> Hb.set_InventoryVersion "daemon-minimal-v1"));
  mret (match resp with
        | inl err => inl ("heartbeat computer: " +:+ error_text err)
        | inr resp => if HbP.Accepted resp then inr (HbP.Lease resp) else inl "heartbeat was not accepted"
        end).

(** [runDaemon] up to the loop: the error or the lease to go on with. *)
Definition start (inventory : daemonv1.ComputerInventory.ComputerInventory) : prog (string + option Lease.Lease) :=
  registered ← register inventory None;
  match registered with
  | inl err => mret (inl err)
  | inr lease =>
      err ← reportStatus daemonv1.AgentActivityState_AGENT_ACTIVITY_STATE_WAITING "daemon registered";
      match err with
      | Some err => mret (inl err)
      | None => if Cfg.Once cfg then heartbeat lease else mret (inr lease)
      end
  end.

(** What the daemon subscribes to. *)
Definition subscription (lease : option Lease.Lease) (id : string) : Sub.SubscribeServerEventsRequest :=
  Sub.zero
  |> Sub.set_DaemonId (Cfg.DaemonID cfg) |> Sub.set_ComputerId (Cfg.ComputerID cfg) |> Sub.set_IncludeAllAgents true
  |> Sub.set_RequestId id |> Sub.set_LeaseId (lease_id lease)
  |> Sub.set_Kinds [daemonv1.ServerEventKind_SERVER_EVENT_KIND_AGENT_CONTROL;
                    daemonv1.ServerEventKind_SERVER_EVENT_KIND_MESSAGE;
                    daemonv1.ServerEventKind_SERVER_EVENT_KIND_RUN_ASSIGNED].

End supervisor.

(** ** The system *)

(** Which run a command belongs to, as its environment says. *)
Fixpoint run_of_env (env : list string) : option string :=
  match env with
  | [] => None
  | v :: env => if HasPrefix v "NEKODE_RUN_ID=" then Some (TrimPrefix v "NEKODE_RUN_ID=") else run_of_env env
  end.
Definition command_run (cmd : Daemon.runtimeCommand) : option string := run_of_env (Env cmd).

(** How an effect is answered: by the map of processes under its mutex, or by the world. *)
Definition serve (running : processes) (e : effect) : answer e → processes → Prop :=
  match e return answer e → processes → Prop with
  | ReserveRun id => λ ok running', ∃ now, reserveRun now id running = (ok, running')
  | SetProcessCommand id cmd agentID => λ _ running', running' = setProcessCommand id cmd agentID running
  | ReleaseRun id => λ _ running', running' = releaseRun id running
  | CancelAgentRuns agentID => λ n running', n = cancelAgentRuns agentID running ∧ running' = running
  | _ => λ _ running', running' = running
  end.

(** One effect of one goroutine. *)
Inductive goroutine_step : processes → prog unit → processes → prog unit → Prop :=
| one_effect running e k x running' : serve running e x running' → goroutine_step running (Do e k) running' (k x).

(** The goroutine of the event stream and those of the polls. *)
Record system := mkSystem { running : processes; stream : prog unit; polls : list (prog unit) }.

Section system.
Context {Uni : Unicode} {Ord : MapOrder} {Fl : Floats} {B : Build} (cfg : Cfg.daemonConfig).

(** The stream and any poll go on; a tick spawns a poll; the stream takes its next event when
    it is done with the one before. *)
Inductive step : system → system → Prop :=
| step_stream r p ps r' p' : goroutine_step r p r' p' → step (mkSystem r p ps) (mkSystem r' p' ps)
| step_poll r s ps i p r' p' :
    ps !! i = Some p → goroutine_step r p r' p' → step (mkSystem r s ps) (mkSystem r' s (<[i := p']> ps))
| step_tick r s ps : step (mkSystem r s ps) (mkSystem r s (ps ++ [poll_turn cfg]))
| step_event r ps event : step (mkSystem r (Ret ()) ps) (mkSystem r (event_turn cfg event) ps).

Definition daemon_start : system := mkSystem ∅ (Ret ()) [].
Definition reachable (s : system) : Prop := rtc step daemon_start s.

(** The run whose command a goroutine executes. *)
Definition command_at (p : prog unit) : option string :=
  match p with Do (Exec _ cmd) _ => command_run cmd | _ => None end.
Definition executing (p : prog unit) (runID : string) : Prop := command_at p = Some runID.

End system.

(** ** Who holds which run *)

(** A goroutine holds the runs it reserved and did not release.  It runs commands only of
    runs it holds, and only the stream cancels, when it holds none. *)
Definition holder (may_cancel : bool) : Monitor (gset string) := {|
  allowed held e :=
    match e with
    | Exec _ cmd => ∃ id, command_run cmd = Some id ∧ id ∈ held
    | ReleaseRun id => id ∈ held
    | CancelAgentRuns _ => may_cancel = true ∧ held = ∅
    | _ => True
    end;
  observe held e :=
    match e return answer e → gset string with
    | ReserveRun id => λ ok, if ok then {[id]} ∪ held else held
    | ReleaseRun id => λ _, held ∖ {[id]}
    | _ => λ _, held
    end
|}.

(** The runs in the map are those the goroutines hold, each held by one. *)
Definition owned (r : processes) (hs : list (gset string)) : Prop :=
  (∀ id, is_Some (r !! id) ↔ ∃ i h, hs !! i = Some h ∧ id ∈ h)
  ∧ ∀ i j hi hj id, hs !! i = Some hi → hs !! j = Some hj → id ∈ hi → id ∈ hj → i = j.

Lemma owned_same r r' hs i h :
  hs !! i = Some h → (∀ id, is_Some (r' !! id) ↔ is_Some (r !! id)) → owned r hs → owned r' (<[i := h]> hs).
Proof. intros Hi D [O1 O2]. rewrite list_insert_id by done. split; [|done]. intros id. by rewrite D. Qed.

Lemma owned_reserve r hs i h id p :
  hs !! i = Some h → r !! id = None → owned r hs → owned (<[id := p]> r) (<[i := {[id]} ∪ h]> hs).
Proof.
  intros Hi N [O1 O2]. assert (L : i < length hs) by by eapply lookup_lt_Some.
  assert (Free : ∀ j hj, hs !! j = Some hj → id ∉ hj).
  { intros j hj Hj Hin. destruct (proj2 (O1 id)) as [q Hq]; [by exists j, hj|]. congruence. }
  split.
  - intros id'. destruct (decide (id = id')) as [<-|Ne].
    + rewrite lookup_insert_eq. split; [intros _|by eexists]. exists i, ({[id]} ∪ h).
      rewrite list_lookup_insert_eq by done. set_solver.
    + rewrite lookup_insert_ne by done. rewrite O1. split; intros (j & hj & Hj & Hin).
      * destruct (decide (i = j)) as [<-|]; [exists i, ({[id]} ∪ h)|exists j, hj].
        -- rewrite list_lookup_insert_eq by done. split; [done|]. set_solver.
        -- by rewrite list_lookup_insert_ne by done.
      * apply list_lookup_insert_Some in Hj as [(<- & <- & _)|[? Hj]]; [exists i, h|by exists j, hj].
        split; [done|]. set_solver.
  - intros j k hj hk id' Hj Hk Ij Ik.
    apply list_lookup_insert_Some in Hj as [(<- & <- & _)|[Nj Hj]], Hk as [(<- & <- & _)|[Nk Hk]]; [done|..].
    + apply elem_of_union in Ij as [->%elem_of_singleton|Ij]; [by destruct (Free _ _ Hk)|]. by eapply O2.
    + apply elem_of_union in Ik as [->%elem_of_singleton|Ik]; [by destruct (Free _ _ Hj)|]. by eapply O2.
    + by eapply O2.
Qed.

Lemma owned_release r hs i h id :
  hs !! i = Some h → id ∈ h → owned r hs → owned (delete id r) (<[i := h ∖ {[id]}]> hs).
Proof.
  intros Hi Hid [O1 O2]. assert (L : i < length hs) by by eapply lookup_lt_Some. split.
  - intros id'. destruct (decide (id = id')) as [<-|Ne].
    + rewrite lookup_delete_eq. split; [by intros [? ?]|]. intros (j & hj & Hj & Hin).
      apply list_lookup_insert_Some in Hj as [(<- & <- & _)|[N Hj]]; [set_solver|].
      by destruct (N (O2 _ _ _ _ _ Hi Hj Hid Hin)).
    + rewrite lookup_delete_ne by done. rewrite O1. split; intros (j & hj & Hj & Hin).
      * destruct (decide (i = j)) as [<-|]; [exists i, (h ∖ {[id]})|exists j, hj].
        -- rewrite list_lookup_insert_eq by done. split; [done|]. set_solver.
        -- by rewrite list_lookup_insert_ne by done.
      * apply list_lookup_insert_Some in Hj as [(<- & <- & _)|[? Hj]]; [exists i, h|by exists j, hj].
        split; [done|]. set_solver.
  - intros j k hj hk id' Hj Hk Ij Ik.
    assert (Sub : ∀ j hj, <[i := h ∖ {[id]}]> hs !! j = Some hj → ∃ h', hs !! j = Some h' ∧ hj ⊆ h').
    { intros j' hj' Hj'. apply list_lookup_insert_Some in Hj' as [(<- & <- & _)|[? Hj']]; [exists h|by exists hj'].
      split; [done|]. set_solver. }
    destruct (Sub _ _ Hj) as (h1 & H1 & S1), (Sub _ _ Hk) as (h2 & H2 & S2).
    eapply O2; [exact H1|exact H2|by apply S1|by apply S2].
Qed.

(** The map and what a goroutine holds move together. *)
Lemma serve_owned b r e x r' hs i h :
  hs !! i = Some h → @allowed _ (holder b) h e → serve r e x r' → owned r hs →
  owned r' (<[i := @observe _ (holder b) h e x]> hs).
Proof.
  intros Hi Al Sv O. destruct e; cbn in Sv; try (subst r'; by eapply owned_same).
  - destruct Sv as [now Sv]. unfold reserveRun in Sv. cbn. destruct (r !! runID) eqn:L; injection Sv as <- <-.
    + by eapply owned_same.
    + by apply owned_reserve.
  - subst r'. cbn. eapply owned_same; [done| |done]. intros id. unfold setProcessCommand.
    destruct (r !! runID) eqn:L; [|done]. destruct (decide (runID = id)) as [<-|].
    + rewrite lookup_insert_eq, L. split; by eexists.
    + by rewrite lookup_insert_ne.
  - subst r'. cbn. by apply owned_release.
  - destruct Sv as [_ ->]. by eapply owned_same.
Qed.

(** ** Goroutines that hold what they run *)

Section well_held.
Context {Uni : Unicode} {Ord : MapOrder} {Fl : Floats} {B : Build} (cfg : Cfg.daemonConfig) (b : bool).

#[local] Instance held_by : Monitor (gset string) := holder b.
#[local] Instance held_watchful : Watchful held_by.
Proof. by split; intros s. Qed.

Local Ltac unseen := apply wp_all_quiet; [solve_quiet|].

Lemma prefix_app a x : String.prefix a (a +:+ x) = true.
Proof. induction a as [|c a IH]; [by destruct x|]. unfold String.app. simpl. by destruct (ascii_dec c c). Qed.

Lemma run_of_env_head id env : run_of_env (("NEKODE_RUN_ID=" +:+ id) :: env) = Some id.
Proof.
  cbn [run_of_env]. unfold HasPrefix, TrimPrefix, HasPrefix. rewrite prefix_app. f_equal.
  unfold sdrop, String.app. simpl. rewrite Nat.sub_0_r. apply substring_all.
Qed.

Definition names_no_run (v : string) : Prop := HasPrefix v "NEKODE_RUN_ID=" = false.

Lemma run_of_env_skip env env' : Forall names_no_run env → run_of_env (env ++ env') = run_of_env env'.
Proof. induction 1 as [|v env N F IH]; [done|]. cbn [run_of_env app]. by rewrite N. Qed.

Lemma wrapped_env kind values w :
  BuildWrapCommand (DefaultInstanceTemplate (run_type kind)) values = inr w → Forall names_no_run (WrapCommand.Env w).
Proof.
  unfold BuildWrapCommand. cbn zeta. change (WrapSpec.Env _) with (@nil string).
  destruct (TrimSpace (WrapSpec.Command _) =s ""); [done|].
  change (InstanceTemplate.RuntimeKind (DefaultInstanceTemplate (run_type kind))) with kind.
  destruct (check_options _ _) as [|d]; [done|]. destruct (negb (Contract.Kind _ =s "")); [|by intros <-%(inj inr)].
  destruct (negb (Contract.DirectRunSupported _)) eqn:D; [done|].
  destruct (contract_cases kind) as [C|(_ & build & Bb & [[C _]|(_ & _ & Bs)])]; [by rewrite C in D|by rewrite C in D|].
  rewrite Bb. destruct Bs as [-> |[-> |[-> | ->]]]; intros <-%(inj inr); by repeat constructor.
Qed.

Lemma runtimeCommand_run run agentID snapshot cmd :
  runtimeCommand cfg run agentID snapshot = inr cmd → command_run cmd = Some (Run.RunId run).
Proof.
  unfold runtimeCommand, command_run. destruct (negb _); [intros <-%(inj inr); apply run_of_env_head|].
  cbn zeta. destruct (BuildWrapCommand _ _) as [|w] eqn:Bw; [done|]. intros <-%(inj inr). cbn [Env].
  apply wrapped_env in Bw. rewrite run_of_env_skip; [apply run_of_env_head|].
  unfold WithRunPrompt. cbn zeta. by destruct (_ =s _); [|destruct (_ || _)].
Qed.

Lemma runner_held timeout cmd id h :
  command_run cmd = Some id → id ∈ h → wp (runner_Run timeout cmd) (λ _ h', h' = h) h.
Proof.
  intros C H. unfold runner_Run. destruct (_ =s _); [done|]. apply prog_wp_bind, wp_perform; [by exists id|done].
Qed.

Lemma run_command_held run agentID target leaseID r startStep cmd h :
  command_run cmd = Some (Run.RunId run) → Run.RunId run ∈ h →
  wp (run_command cfg run agentID target leaseID r startStep cmd) (λ _ h', h' = h) h.
Proof.
  intros C H. unfold run_command. cbn zeta.
  apply prog_wp_bind. unseen. intros step. apply prog_wp_bind. unseen. intros _. apply prog_wp_bind. unseen. intros _.
  apply prog_wp_bind. unseen. intros _. apply prog_wp_bind. unseen. intros _.
  eapply prog_wp_bind, prog_wp_mono; [by eapply runner_held|]. intros res ? ->. by unseen.
Qed.

Lemma supervise_held run agentID target leaseID r h :
  Run.RunId run ∈ h → wp (supervise cfg run agentID target leaseID r) (λ _ h', h' = h) h.
Proof.
  intros H. unfold supervise. apply prog_wp_bind. unseen. intros _.
  apply prog_wp_bind. unseen. intros [err|]; [by unseen|].
  apply prog_wp_bind. unseen. intros step. apply prog_wp_bind. unseen. intros [err|snapshot]; [by unseen|].
  apply prog_wp_bind. unseen. intros _. destruct (runtimeCommand cfg run agentID snapshot) as [err|cmd] eqn:C; [by unseen|].
  apply run_command_held; [by eapply runtimeCommand_run|done].
Qed.

Lemma executeRun_held run h : Run.RunId run ∈ h → wp (executeRun cfg run) (λ _ h', h' = h) h.
Proof.
  intros H. unfold executeRun. apply prog_wp_bind. unseen. intros r. apply prog_wp_bind. unseen. intros [err|[lease|]].
  - by unseen.
  - apply prog_wp_bind, prog_wp_bind. eapply prog_wp_mono; [by apply supervise_held|]. intros r' ? ->. unseen. intros ?. by unseen.
  - apply prog_wp_bind. eapply prog_wp_mono; [by apply supervise_held|]. intros r' ? ->. by unseen.
Qed.

(** What is reserved is held until it is given back. *)
Definition gives_back {A} (p : prog A) : Prop := wp p (λ _ h, h = ∅) ∅.

Lemma reserved_run_held run : gives_back (reserved_run cfg run).
Proof.
  unfold gives_back, reserved_run. apply prog_wp_bind, wp_perform; [done|]. intros [|]; [|done].
  eapply prog_wp_bind, prog_wp_mono; [apply executeRun_held; set_solver|]. intros _ ? ->.
  apply prog_wp_bind, wp_perform; [cbn; set_solver|]. intros ?. apply prog_wp_ret. cbn. set_solver.
Qed.

Lemma executeDirectMessage_held message : gives_back (executeDirectMessage cfg message).
Proof.
  unfold gives_back, executeDirectMessage. destruct message as [message|]; [|done]. destruct (_ =s _); [done|].
  cbn zeta. apply prog_wp_bind, wp_perform; [done|]. intros [|]; [|done].
  eapply prog_wp_bind, prog_wp_mono; [apply executeRun_held; set_solver|]. intros _ ? ->.
  apply prog_wp_bind. unfold sendDirectMessageReceipt. unseen. intros err.
  apply prog_wp_bind, wp_perform; [cbn; set_solver|]. intros ?. apply prog_wp_ret. cbn. set_solver.
Qed.

Lemma pollOnce_held : gives_back (pollOnce cfg).
Proof.
  unfold gives_back, pollOnce. apply prog_wp_bind. unseen. intros id.
  apply prog_wp_bind, wp_perform; [done|]. intros [err|resp]; [done|].
  apply prog_wp_bind. induction (FetP.Runs resp) as [|run runs IH]; [done|]. cbn [poll_runs].
  destruct (shouldStartRun _); [|exact IH]. eapply prog_wp_bind, prog_wp_mono; [apply reserved_run_held|]. by intros ? ? ->.
Qed.

End well_held.

Section guards.
Context {Uni : Unicode} {Ord : MapOrder} {Fl : Floats} {B : Build} (cfg : Cfg.daemonConfig).

(** The goroutine keeps to what it holds and ends holding nothing. *)
Definition well_held (may_cancel : bool) (p : prog unit) (held : gset string) : Prop :=
  wp (Mon := holder may_cancel) p (λ _ h, h = ∅) held.

Lemma poll_turn_guarded b : well_held b (poll_turn cfg) ∅.
Proof. eapply prog_wp_bind, prog_wp_mono; [apply pollOnce_held|]. by intros ? ? ->. Qed.

#[local] Instance stream_held : Monitor (gset string) := holder true.
#[local] Instance stream_watchful : Watchful stream_held.
Proof. by split; intros s. Qed.

Local Ltac unseen := apply wp_all_quiet; [solve_quiet|].

Lemma executeControl_held op : gives_back true (executeControl cfg op).
Proof.
  unfold gives_back, executeControl. destruct op as [op|]; [|done]. destruct (_ =s _); [done|]. cbn zeta.
  assert (Status : ∀ c a s, all_quiet (reportControlStatus cfg op c a s)).
  { intros c a s. unfold reportControlStatus. cbn zeta. solve_quiet. }
  destruct (_ =? _)%Z; [|destruct (restarts _)].
  - apply prog_wp_bind, wp_perform; [done|]. intros n. apply prog_wp_bind. unseen. intros _. by apply wp_all_quiet.
  - apply prog_wp_bind, wp_perform; [done|]. intros n. apply prog_wp_bind. unseen. intros _.
    apply prog_wp_bind, wp_all_quiet; [apply Status|]. intros [err|]; [done|]. by apply wp_all_quiet.
  - apply prog_wp_bind. unseen. intros _. by apply wp_all_quiet.
Qed.

Lemma handleServerEvent_held event : gives_back true (handleServerEvent cfg event).
Proof.
  unfold gives_back, handleServerEvent. destruct (event ≫= Ev.Payload) as [[]|]; try done.
  all: first [apply executeControl_held | apply executeDirectMessage_held | idtac].
  destruct (shouldStartRun _); [|done]. eapply prog_wp_bind, prog_wp_mono; [apply reserved_run_held|]. by intros ? ? ->.
Qed.

Lemma event_turn_guarded event : well_held true (event_turn cfg event) ∅.
Proof.
  unfold well_held, event_turn. eapply prog_wp_bind, prog_wp_mono; [apply handleServerEvent_held|]. intros [err|] ? ->; [done|].
  apply prog_wp_bind. unfold ackServerEvent. by unseen.
Qed.

End guards.

(** ** The system keeps to its map *)

(** The goroutines, that of the stream first. *)
Definition goroutines (s : system) : list (prog unit) := stream s :: polls s.

Definition is_stream (i : nat) : bool := match i with 0 => true | _ => false end.

(** What each goroutine holds accounts for the map. *)
Definition accounted (s : system) (hs : list (gset string)) : Prop :=
  length hs = length (goroutines s) ∧ owned (running s) hs
  ∧ ∀ i p h, goroutines s !! i = Some p → hs !! i = Some h → well_held (is_stream i) p h.

Section invariant.
Context {Uni : Unicode} {Ord : MapOrder} {Fl : Floats} {B : Build} (cfg : Cfg.daemonConfig).

(** One effect of one goroutine. *)
Lemma effect_accounted s hs i p p' r' :
  accounted s hs → goroutines s !! i = Some p → goroutine_step (running s) p r' p' →
  ∃ hs', accounted (mkSystem r' (hd (Ret ()) (<[i := p']> (goroutines s))) (tl (<[i := p']> (goroutines s)))) hs'.
Proof.
  intros (L & O & G) Hi St. assert (Li : i < length hs) by (rewrite L; by eapply lookup_lt_Some).
  destruct (lookup_lt_is_Some_2 _ _ Li) as [h Hh]. pose proof (G _ _ _ Hi Hh) as W.
  inversion St as [r e k x r'' Sv E1 E2 E3 E4]; subst. destruct W as [Al W].
  exists (<[i := @observe _ (holder (is_stream i)) h e x]> hs).
  assert (Eta : ∀ l : list (prog unit), length l ≠ 0 → hd (Ret ()) l :: tl l = l) by by intros [].
  set (gs := <[i := k x]> (goroutines s)). assert (Gs : goroutines (mkSystem r' (hd (Ret ()) gs) (tl gs)) = gs).
  { apply Eta. subst gs. by rewrite length_insert. }
  unfold accounted. rewrite Gs. subst gs. clear Gs Eta. rewrite !length_insert. split_and!; [done|by eapply serve_owned|].
  intros j q hq Hj Hq.
  apply list_lookup_insert_Some in Hj as [(<- & <- & _)|[N Hj]], Hq as [(? & <- & _)|[N' Hq]]; try done.
  - apply W.
  - by eapply G.
Qed.

Lemma step_accounted s s' hs : accounted s hs → step cfg s s' → ∃ hs', accounted s' hs'.
Proof.
  intros A St. destruct St as [r p ps r' p' St|r s ps i p r' p' Hi St|r s ps|r ps event].
  - exact (effect_accounted _ _ 0 _ _ _ A eq_refl St).
  - exact (effect_accounted _ _ (S i) _ _ _ A Hi St).
  - destruct A as (L & [O1 O2] & G). exists (hs ++ [∅]). unfold accounted, goroutines in *. cbn [running stream polls] in *.
    assert (Here : ∀ i h id, (hs ++ [∅]) !! i = Some h → id ∈ h → hs !! i = Some h).
    { intros i h id Hi Hin. apply lookup_app_Some in Hi as [Hi|[_ Hi]]; [done|].
      apply list_lookup_singleton_Some in Hi as [_ <-]. set_solver. }
    split_and!.
    + rewrite length_app, L. simpl. rewrite length_app. simpl. lia.
    + split.
      * intros id. rewrite O1. split; intros (i & h & Hi & Hin); exists i, h; [|by eauto].
        split; [by apply lookup_app_l_Some|done].
      * intros i j hi hj id Hi Hj Ii Ij. eapply O2; [by eapply Here|by eapply Here|done|done].
    + intros i p h Hi Hh. change (s :: ps ++ [poll_turn cfg]) with ((s :: ps) ++ [poll_turn cfg]) in Hi.
      apply lookup_app_Some in Hi as [Hi|[Le Hi]], Hh as [Hh|[Le' Hh]].
      * by eapply G.
      * apply lookup_lt_Some in Hi. lia.
      * apply lookup_lt_Some in Hh. lia.
      * apply list_lookup_singleton_Some in Hi as [_ <-], Hh as [_ <-]. apply poll_turn_guarded.
  - destruct A as (L & O & G). exists hs. split_and!; [done|done|]. intros i p h Hi Hh.
    destruct i as [|i]; [|by apply (G (S i))]. injection Hi as <-.
    pose proof (G 0 _ _ eq_refl Hh) as ->. apply event_turn_guarded.
Qed.

Lemma reachable_accounted s : reachable cfg s → ∃ hs, accounted s hs.
Proof.
  intros R. cut (∀ s0, rtc (step cfg) s0 s → (∃ hs, accounted s0 hs) → ∃ hs, accounted s hs).
  { intros H. apply (H daemon_start R). exists [∅]. split_and!; [done| |].
    - split.
      + intros id. cbn. rewrite lookup_empty. split; [by intros [? ?]|].
        intros (i & h & Hi & Hin). apply list_lookup_singleton_Some in Hi as [_ <-]. set_solver.
      + intros i j hi hj id Hi Hj _ _. apply list_lookup_singleton_Some in Hi as [-> _], Hj as [-> _]. done.
    - intros [|i] p h Hi Hh; [|done]. by injection Hi as <-; injection Hh as <-. }
  clear R. induction 1 as [|x y z St _ IH]; [done|]. intros [hs A]. apply IH. by eapply step_accounted.
Qed.

(** A goroutine that executes a command of a run holds the run. *)
Lemma executing_held b p id h : well_held b p h → executing p id → id ∈ h.
Proof.
  unfold executing, command_at. intros G C. destruct p as [|[] k]; try done.
  destruct G as [(id' & C' & H) _]. by replace id with id' by congruence.
Qed.

(** C15. However the stream and the polls interleave, at most one goroutine executes the command
    of a run; the run is then in the map of running processes; and when no goroutine has
    anything left to do the map is empty, so no run stays reserved. *)
Theorem one_process_per_run s :
  reachable cfg s →
  (∀ i j p p' id, goroutines s !! i = Some p → goroutines s !! j = Some p' →
     executing p id → executing p' id → i = j)
  ∧ (∀ p id, p ∈ goroutines s → executing p id → is_Some (running s !! id))
  ∧ (Forall (λ p, p = Ret ()) (goroutines s) → running s = ∅).
Proof.
  intros (hs & L & [O1 O2] & G)%reachable_accounted.
  assert (At : ∀ i p, goroutines s !! i = Some p → ∃ h, hs !! i = Some h ∧ well_held (is_stream i) p h).
  { intros i p Hi. destruct (lookup_lt_is_Some_2 hs i) as [h Hh]; [rewrite L; by eapply lookup_lt_Some|]. by eauto. }
  split_and!.
  - intros i j p p' id Hi Hj Xi Xj. destruct (At i p Hi) as (hi & Hhi & Gi), (At j p' Hj) as (hj & Hhj & Gj).
    eapply O2; [exact Hhi|exact Hhj|by eapply executing_held|by eapply executing_held].
  - intros p id [i Hi]%list_elem_of_lookup X. destruct (At i p Hi) as (h & Hh & Gh).
    apply O1. exists i, h. split; [done|]. by eapply executing_held.
  - intros F. apply map_empty. intros id. apply eq_None_not_Some. intros (i & h & Hh & Hin)%O1.
    destruct (lookup_lt_is_Some_2 (goroutines s) i) as [p Hp]; [rewrite <- L; by eapply lookup_lt_Some|].
    pose proof (Forall_lookup_1 _ _ _ _ F Hp) as ->. pose proof (G _ _ _ Hp Hh) as ->. set_solver.
Qed.

(** A control does not reach a run that the stream started: while the stream executes its
    command, no goroutine cancels anything; the event waits until the command has ended. *)
Theorem stream_runs_not_cancelled s agentID k id :
  reachable cfg s → executing (stream s) id → ∀ p, p ∈ goroutines s → p ≠ Do (CancelAgentRuns agentID) k.
Proof.
  intros (hs & L & O & G)%reachable_accounted X p [i Hi]%list_elem_of_lookup ->.
  destruct (lookup_lt_is_Some_2 hs i) as [h Hh]; [rewrite L; by eapply lookup_lt_Some|].
  destruct (G _ _ _ Hi Hh) as [[Str ->] _]. destruct i as [|i]; [|done].
  injection Hi as Hi. by rewrite Hi in X.
Qed.

End invariant.

(** ** Driving a goroutine to its command *)

(** The answer of the map, or of a world. *)
Definition answered (h : ∀ e, answer e) (e : effect) (r : processes) : answer e * processes :=
  match e return answer e * processes with
  | ReserveRun id => reserveRun (h ReadClock) id r
  | SetProcessCommand id cmd agentID => ((), setProcessCommand id cmd agentID r)
  | ReleaseRun id => ((), releaseRun id r)
  | CancelAgentRuns agentID => (cancelAgentRuns agentID r, r)
  | e => (h e, r)
  end.

Lemma answered_serve h e r : serve r e (answered h e r).1 (answered h e r).2.
Proof. destruct e; try done. cbn. exists (h ReadClock). by destruct (reserveRun _ _ _). Qed.

Fixpoint to_command (h : ∀ e, answer e) (r : processes) (p : prog unit) : processes * prog unit :=
  match p with
  | Ret _ => (r, p)
  | Do e k =>
      match e with
      | Exec _ _ => (r, p)
      | _ => to_command h (answered h e r).2 (k (answered h e r).1)
      end
  end.

(** Effects of one goroutine in a row. *)
Inductive goroutine_steps : processes → prog unit → processes → prog unit → Prop :=
| steps_refl r p : goroutine_steps r p r p
| steps_one r p r' p' r'' p'' : goroutine_step r p r' p' → goroutine_steps r' p' r'' p'' → goroutine_steps r p r'' p''.

Lemma to_command_steps h p : ∀ r, goroutine_steps r p (to_command h r p).1 (to_command h r p).2.
Proof.
  induction p as [a|e k IH]; intros r; [constructor|].
  destruct e; try constructor; (eapply steps_one; [constructor; apply (answered_serve h)|apply IH]).
Qed.

Section drive.
Context {Uni : Unicode} {Ord : MapOrder} {Fl : Floats} {B : Build} (cfg : Cfg.daemonConfig).

Lemma drive_stream r p r' p' ps : goroutine_steps r p r' p' → reachable cfg (mkSystem r p ps) → reachable cfg (mkSystem r' p' ps).
Proof.
  intros St. induction St as [|r p r1 p1 r' p' St _ IH]; [done|]. intros R. apply IH.
  eapply rtc_r; [exact R|]. by constructor.
Qed.

Lemma drive_poll r s ps1 p ps2 r' p' :
  goroutine_steps r p r' p' → reachable cfg (mkSystem r s (ps1 ++ p :: ps2)) → reachable cfg (mkSystem r' s (ps1 ++ p' :: ps2)).
Proof.
  intros St. induction St as [|r p r1 p1 r' p' St _ IH]; [done|]. intros R. apply IH.
  eapply rtc_r; [exact R|]. replace (ps1 ++ p1 :: ps2) with (<[length ps1 := p1]> (ps1 ++ p :: ps2)).
  - eapply step_poll; [|exact St]. by apply list_lookup_middle.
  - by rewrite insert_app_r_alt, Nat.sub_diag by done.
Qed.

Lemma tick r s ps : reachable cfg (mkSystem r s ps) → reachable cfg (mkSystem r s (ps ++ [poll_turn cfg])).
Proof. intros R. eapply rtc_r; [exact R|]. apply step_tick. Qed.

Lemma next_event r ps event : reachable cfg (mkSystem r (Ret ()) ps) → reachable cfg (mkSystem r (event_turn cfg event) ps).
Proof. intros R. eapply rtc_r; [exact R|]. apply step_event. Qed.

End drive.

(** ** Examples *)

Section examples.
Local Existing Instance ascii_unicode.
Local Existing Instance RpcPrompt.plain_order.
Local Existing Instance same_text.
Local Existing Instance toy_build.

(** A server that has one run for the daemon. *)
Definition assigns (run : Run.Run) (e : effect) : answer e :=
  match e return answer e with
  | CallFetchAssignedRuns _ => inr (FetP.zero |> FetP.set_Runs [run])
  | e => world good_end e
  end.

Definition queued (id : string) : Run.Run :=
  fix_login |> Run.set_RunId id |> Run.set_AgentId "ann" |> Run.set_State daemonv1.RunState_RUN_STATE_QUEUED.

Definition run_event (id : string) : Ev.ServerEvent :=
  Ev.zero |> Ev.set_EventId ("event-" +:+ id) |> Ev.set_Payload (Some (daemonv1.ServerEvent_Run (queued id))).

(** A poll, and another after it, each up to its command. *)
Definition first_poll : processes * prog unit := to_command (assigns (queued "run-1")) ∅ (poll_turn desk_config).
Definition second_poll : processes * prog unit := to_command (assigns (queued "run-2")) first_poll.1 (poll_turn desk_config).
Definition two_runs : system := mkSystem second_poll.1 (Ret ()) [first_poll.2; second_poll.2].

Lemma two_runs_reachable : reachable desk_config two_runs.
Proof.
  apply (drive_poll desk_config first_poll.1 _ [first_poll.2] (poll_turn desk_config) []); [apply to_command_steps|].
  apply (tick desk_config _ _ [first_poll.2]).
  apply (drive_poll desk_config ∅ _ [] (poll_turn desk_config) []); [apply to_command_steps|].
  exact (tick desk_config _ _ [] (rtc_refl _ _)).
Qed.

(** The daemon may run one command at a time, and runs two. *)
Example two_commands_at_once :
  Cfg.MaxConcurrentRuns desk_config = 1%Z ∧ reachable desk_config two_runs
  ∧ executing first_poll.2 "run-1" ∧ executing second_poll.2 "run-2".
Proof.
  split; [done|]. split; [apply two_runs_reachable|]. split; vm_compute; reflexivity.
Qed.

(** Two polls that got the same run: the second has nothing to do. *)
Definition late_poll : processes * prog unit := to_command (assigns (queued "run-1")) first_poll.1 (poll_turn desk_config).
Definition one_run : system := mkSystem late_poll.1 (Ret ()) [first_poll.2; late_poll.2].

Lemma one_run_reachable : reachable desk_config one_run.
Proof.
  apply (drive_poll desk_config first_poll.1 _ [first_poll.2] (poll_turn desk_config) []); [apply to_command_steps|].
  apply (tick desk_config _ _ [first_poll.2]).
  apply (drive_poll desk_config ∅ _ [] (poll_turn desk_config) []); [apply to_command_steps|].
  exact (tick desk_config _ _ [] (rtc_refl _ _)).
Qed.

Lemma one_process_per_run_witness :
  executing first_poll.2 "run-1" ∧ late_poll.2 = Ret () ∧ is_Some (running one_run !! "run-1").
Proof.
  assert (X : executing first_poll.2 "run-1") by (vm_compute; reflexivity).
  split; [exact X|]. split; [vm_compute; reflexivity|].
  destruct (one_process_per_run desk_config one_run one_run_reachable) as (_ & H & _).
  exact (H first_poll.2 "run-1" (list_elem_of_lookup_2 (goroutines one_run) 1 first_poll.2 eq_refl) X).
Defined.

(** The stream got a run as an event, and a poll came by. *)
Definition streamed : processes * prog unit := to_command (world good_end) ∅ (event_turn desk_config (Some (run_event "run-1"))).
Definition busy_stream : system := mkSystem streamed.1 streamed.2 [poll_turn desk_config].

Lemma busy_stream_reachable : reachable desk_config busy_stream.
Proof.
  assert (R : reachable desk_config (mkSystem streamed.1 streamed.2 [])).
  { refine (drive_stream desk_config ∅ (event_turn desk_config (Some (run_event "run-1"))) _ _ [] (to_command_steps _ _ _) _).
    apply next_event, rtc_refl. }
  exact (tick desk_config _ _ _ R).
Qed.

Lemma stream_runs_not_cancelled_witness :
  executing (stream busy_stream) "run-1" ∧ ∀ p, p ∈ goroutines busy_stream → p ≠ Do (CancelAgentRuns "ann") (λ _, Ret ()).
Proof.
  assert (X : executing (stream busy_stream) "run-1") by (vm_compute; reflexivity).
  split; [exact X|].
  exact (stream_runs_not_cancelled desk_config busy_stream "ann" (λ _, Ret ()) "run-1" busy_stream_reachable X).
Defined.

(** A control that comes before the command started cancels nothing, and the run goes on. *)
Definition reserved : processes := (reserveRun 0 "run-1" ∅).2.
Example reserved_run_not_cancelled :
  cancelAgentRuns "ann" reserved = 0 ∧ cancelAgentRuns "ann" first_poll.1 = 1.
Proof. by vm_compute. Qed.

(** A control without an agent cancels every running command. *)
Example control_of_no_agent : cancelAgentRuns "" two_runs.(running) = 2 ∧ cancelAgentRuns "bob" two_runs.(running) = 0.
Proof. by vm_compute. Qed.

End examples.
