(* ===== verification/TunnelPump.v ===== *)
(** * The server's end of a preview request ([internal/server/tunnel_proxy.go])

    What goes to the daemon: the frame that starts a request and those of its body; and the
    answer to a WebSocket upgrade.  [Preview] has the guards of a request and the answer to
    any other.  A pump reads and sends turn by turn; a turn is what a read gave and whether
    the stream took the frame, and a pump whose turns run out is still at work. *)
From S2P Require Import Prelude GoStr GoText JsonValue Sql Models Schema Store Users Tunnels Auth Proto TunnelRegistry Http Preview.

#[local] Open Scope go_scope.

(** ** A pump *)

Inductive read_end := More | Eof | ReadError (text : string).

(** [expired] is [ctx.Err() != nil] before the read; [taken] whether the stream took the
    frame. *)
Record read_turn := mkRead { expired : bool; chunk : string; ending : read_end; taken : bool }.

Inductive pump_end := Waiting | Expired | NotTaken | AtEof | ReadFailed (text : string).

(** The loop of every pump of a tunnel: the frames that the stream took, and how it ended. *)
Fixpoint pump (frame : string → FR.ProxyFrame) (turns : list read_turn) : list FR.ProxyFrame * pump_end :=
  match turns with
  | [] => ([], Waiting)
  | t :: turns =>
      if expired t then ([], Expired)
      else if (chunk t <>s "") && negb (taken t) then ([], NotTaken)
      else
        let sent := if chunk t =s "" then [] else [frame (chunk t)] in
        match ending t with
        | Eof => (sent, AtEof)
        | ReadError text => (sent, ReadFailed text)
        | More => let (frames, e) := pump frame turns in (sent ++ frames, e)
        end
  end.

(** The bytes that went out. *)
Fixpoint pumped (turns : list read_turn) : string :=
  match turns with
  | [] => ""
  | t :: turns =>
      if expired t then ""
      else if (chunk t <>s "") && negb (taken t) then ""
      else chunk t +:+ match ending t with More => pumped turns | _ => "" end
  end.

(** A last frame, sent once the loop is over. *)
Definition finished_by (last : list FR.ProxyFrame) (sent : list FR.ProxyFrame * pump_end) : list FR.ProxyFrame * pump_end :=
  (sent.1 ++ match sent.2 with Waiting => [] | _ => last end, sent.2).

Definition frame_of (tunnelID requestID : string) (kind : Z) : FR.ProxyFrame :=
  FR.zero |> FR.set_TunnelId tunnelID |> FR.set_RequestId requestID |> FR.set_Kind kind.

(** ** The request *)

Definition requestPath (token uri : string) : string :=
  let path := TrimPrefix uri ("/preview/" +:+ token) in
  let path := if path =s "" then "/" else path in
  if HasPrefix path "/" then path else "/" +:+ path.

(** [header] is the request's, in the order of one visit of the map. *)
Definition request_start (record : Tn.TunnelRecord) (requestID method uri remote : string)
    (header : list (string * list string)) : FR.ProxyFrame :=
  frame_of (Tn.ID record) requestID daemonv1.ProxyFrameKind_PROXY_FRAME_KIND_REQUEST_START
  |> FR.set_Method method |> FR.set_Path (requestPath (Tn.Token record) uri)
  |> FR.set_RequestHeaders (headersToProto header (Tn.LocalPort record)) |> FR.set_RemoteAddr remote.

Definition request_body (tunnelID requestID bytes : string) : FR.ProxyFrame :=
  frame_of tunnelID requestID daemonv1.ProxyFrameKind_PROXY_FRAME_KIND_REQUEST_BODY |> FR.set_BodyChunk bytes.
Definition request_end (tunnelID requestID : string) : FR.ProxyFrame :=
  frame_of tunnelID requestID daemonv1.ProxyFrameKind_PROXY_FRAME_KIND_REQUEST_END.

(** [last] is whether the stream takes the deferred frame. *)
Definition streamRequestBody (tunnelID requestID : string) (turns : list read_turn) (last : bool) : list FR.ProxyFrame * pump_end :=
  finished_by (if last then [request_end tunnelID requestID] else []) (pump (request_body tunnelID requestID) turns).

(** ** The answer to an upgrade *)

Section upgrade.
Context {Uni : Unicode}.

Definition isWebSocketUpgradeHTTP (header : gmap string (list string)) : bool :=
  EqualFold (header_get header "Upgrade") "websocket"
  && existsb (λ v, Contains (ToLower v) "upgrade") (header_values header "Connection").

Fixpoint drainAsBody (turns : list next_frame) (w : response) : option (bool * response) :=
  match turns with
  | [] => None
  | NextError :: _ => Some (true, w)
  | NextNil :: _ => Some (false, w)
  | NextFrame f ok :: turns =>
      let kind := FR.Kind f in
      if (kind =? daemonv1.ProxyFrameKind_PROXY_FRAME_KIND_RESPONSE_BODY)%Z then
        if ok then drainAsBody turns (mkResponse (Some (from_opt StatusOK (resp_status w))) (resp_headers w) (resp_body w +:+ FR.BodyChunk f))
        else Some (true, w)
      else if (kind =? daemonv1.ProxyFrameKind_PROXY_FRAME_KIND_RESPONSE_END)%Z
              || (kind =? daemonv1.ProxyFrameKind_PROXY_FRAME_KIND_CANCEL)%Z then Some (false, w)
      else drainAsBody turns w
  end.

Definition StatusSwitchingProtocols : Z := 101.

(** The first frame that starts a response, with the turns after it. *)
Inductive first_start := StartError | StartNil | StartFrame (f : FR.ProxyFrame) (rest : list next_frame).
Fixpoint await_start (turns : list next_frame) : option first_start :=
  match turns with
  | [] => None
  | NextError :: _ => Some StartError
  | NextNil :: _ => Some StartNil
  | NextFrame f _ :: turns =>
      if (FR.Kind f =? daemonv1.ProxyFrameKind_PROXY_FRAME_KIND_RESPONSE_START)%Z then Some (StartFrame f turns)
      else await_start turns
  end.

Definition crlf : string := String (byte 13) (String (byte 10) "").

(** What is written to the visitor's connection for the 101. *)
Definition handshake (f : FR.ProxyFrame) : string :=
  "HTTP/1.1 " +:+ FormatInt (FR.StatusCode f) +:+ " Switching Protocols" +:+ crlf
  +:+ Join (concat ((λ h : PH.ProxyHeader,
        if is_hop (PH.Name h) && negb (EqualFold (PH.Name h) "Upgrade") && negb (EqualFold (PH.Name h) "Connection")
        then [] else (λ v, PH.Name h +:+ ": " +:+ v +:+ crlf) <$> PH.Value h) <$> FR.ResponseHeaders f)) ""
  +:+ crlf.

(** After the 101: the bytes written to the visitor's connection, and whether the pump
    returned an error. *)
Fixpoint relay_down (turns : list next_frame) (bytes : string) : option (bool * string) :=
  match turns with
  | [] => None
  | NextError :: _ => Some (true, bytes)
  | NextNil :: _ => Some (false, bytes)
  | NextFrame f ok :: turns =>
      let kind := FR.Kind f in
      if (kind =? daemonv1.ProxyFrameKind_PROXY_FRAME_KIND_RESPONSE_BODY)%Z then
        if ok then relay_down turns (bytes +:+ FR.BodyChunk f) else Some (true, bytes)
      else if (kind =? daemonv1.ProxyFrameKind_PROXY_FRAME_KIND_RESPONSE_END)%Z
              || (kind =? daemonv1.ProxyFrameKind_PROXY_FRAME_KIND_CANCEL)%Z then Some (false, bytes)
      else relay_down turns bytes
  end.

(** How an upgrade ends: with an answer, or switched, with all that was written to the
    visitor's connection and the frame that tells the daemon.  [None] is still waiting. *)
Inductive upgrade_end :=
| Answered (failed : bool) (w : response)
| Switched (failed : bool) (bytes : string) (told : list FR.ProxyFrame).

(** [hijacker] is whether the connection can be taken over, [hijacked] whether that went
    well, [flushed] whether the handshake was written, [last] whether the stream takes the
    last frame. *)
Definition pumpWebSocket (hijacker hijacked flushed last : bool) (tunnelID requestID : string)
    (turns : list next_frame) (w : response) : option upgrade_end :=
  if negb hijacker then Some (Answered true (http_error StatusInternalServerError "websocket upgrade not supported on this server" w))
  else match await_start turns with
  | None => None
  | Some StartError => Some (Answered true w)
  | Some StartNil => Some (Answered false (http_error StatusBadGateway "daemon disconnected before responding" w))
  | Some (StartFrame f rest) =>
      if negb (FR.StatusCode f =? StatusSwitchingProtocols)%Z then
        (λ x : bool * response, Answered x.1 x.2) <$>
          drainAsBody rest (mkResponse (Some (FR.StatusCode f)) (applyResponseHeaders (resp_headers w) (FR.ResponseHeaders f)) (resp_body w))
      else if negb hijacked then Some (Answered true (http_error StatusInternalServerError "hijack failed" w))
      else if negb flushed then Some (Switched true "" [])
      else
        (λ x : bool * string, Switched x.1 (handshake f +:+ x.2) (if last then [request_end tunnelID requestID] else [])) <$>
          relay_down rest ""
  end.

(** ** The whole bridge *)

(** What becomes of a request that may pass: an answer at once, or the frame that starts it
    and how it is relayed. *)
Inductive bridged :=
| Refused (w : response)
| Plain (start : FR.ProxyFrame) (answer : option (bool * response)) (body : list FR.ProxyFrame * pump_end)
| Upgraded (start : FR.ProxyFrame) (answer : option upgrade_end).

(** [registered] is [Register]'s answer, [sent] that of the stream to the first frame; the
    turns are those of the responder and of the request's body.  The [Method], the
    [RequestURI] and the [RemoteAddr] of the request come on their own, its headers in the
    order of one visit. *)
Definition proxyOverTunnel (record : Tn.TunnelRecord) (registered : registry_error + string) (sent : option string)
    (method uri remote : string) (header : list (string * list string)) (hijacker hijacked flushed last : bool)
    (turns : list next_frame) (body : list read_turn) (w : response) : bridged :=
  match registered with
  | inl ErrNoDaemon => Refused (http_error StatusBadGateway "daemon not connected" w)
  | inl _ => Refused (http_error StatusInternalServerError "tunnel dispatch failed" w)
  | inr requestID =>
      let start := request_start record requestID method uri remote header in
      match sent with
      | Some err => Refused (http_error StatusBadGateway ("tunnel stream send failed: " +:+ err) w)
      | None =>
          if isWebSocketUpgradeHTTP (list_to_map header)
          then Upgraded start (pumpWebSocket hijacker hijacked flushed last (Tn.ID record) requestID turns w)
          else Plain start (pumpResponse turns w) (streamRequestBody (Tn.ID record) requestID body last)
      end
  end.

(** A frame that starts no response leaves an upgrade waiting. *)
Lemma await_start_waits frames :
  Forall (λ f, FR.Kind f ≠ daemonv1.ProxyFrameKind_PROXY_FRAME_KIND_RESPONSE_START) frames →
  await_start ((λ f, NextFrame f true) <$> frames) = None.
Proof. induction 1 as [|f frames N F IH]; [done|]. cbn. by rewrite (proj2 (Z.eqb_neq _ _) N). Qed.

End upgrade.

(** ** What a pump sends *)

Lemma pump_frames frame turns :
  ∃ chunks, (pump frame turns).1 = frame <$> chunks ∧ Join chunks "" = pumped turns.
Proof.
  induction turns as [|t turns (chunks & E & J)]; [by exists []|]. cbn.
  destruct (expired t); [by exists []|]. destruct (negb (chunk t =s "") && _); [by exists []|].
  destruct (String.eqb_spec (chunk t) "") as [C|C].
  - rewrite C. destruct (ending t); [|by exists []..]. destruct (pump frame turns) as [fs e]. by exists chunks.
  - destruct (ending t); [|by exists [chunk t]; rewrite sapp_nil_r..].
    destruct (pump frame turns) as [fs e]. cbn in E. subst fs. exists (chunk t :: chunks). split; [done|].
    rewrite <- J. destruct chunks; cbn; by rewrite ?sapp_nil_r.
Qed.
