(* ===== verification/DaemonTunnel.v ===== *)
(** * The daemon's end of a preview request ([cmd/nekode-daemon/tunnel_proxy.go])

    Every request of a tunnel is a goroutine that asks the local service and sends frames
    back; its body comes from the stream's receiving loop through a buffer of its own.  A
    buffer is shared by pointer: a pointer is a position in [cells].  What the local service
    answers is a function of the request it gets. *)
From stdpp Require Import pretty.
From S2P Require Import Prelude GoStr GoText JsonValue Sql Models Schema Store Users Tunnels Auth Proto Http Preview.
From S2P Require Import TunnelPump.

#[local] Open Scope go_scope.

(** [strconv.Quote], which asks the tables of Unicode what is printable. *)
Class Quoter := { Quote : string → string }.

(** ** The port *)

Definition tunnelTargetPortHeader : string := "X-Nekode-Tunnel-Port".

Fixpoint uint32_from (acc : Z) (s : string) : string + Z :=
  match s with
  | EmptyString => inr acc
  | String c s =>
      match decimal_digit c with
      | None => inl "invalid syntax"
      | Some d => let n := (acc * 10 + d)%Z in if (2 ^ 32 <=? n)%Z then inl "value out of range" else uint32_from n s
      end
  end.

(** [strconv.ParseUint(s, 10, 32)], its error as the word that ends the text. *)
Definition ParseUint32 (s : string) : string + Z := if s =s "" then inl "invalid syntax" else uint32_from 0 s.

Definition is_port_header (h : PH.ProxyHeader) : bool := CanonicalHeaderKey (PH.Name h) =s tunnelTargetPortHeader.

Section daemon.
Context {Uni : Unicode} {Qu : Quoter}.

Definition port_of (v : string) : string + Z :=
  match ParseUint32 v with
  | inl word => inl ("invalid " +:+ tunnelTargetPortHeader +:+ ": strconv.ParseUint: parsing " +:+ Quote v +:+ ": " +:+ word)
  | inr port => if (port =? 0)%Z || (65535 <? port)%Z then inl ("port " +:+ FormatInt port +:+ " out of range") else inr port
  end.

Fixpoint extractTargetPort (headers : list PH.ProxyHeader) : string + Z :=
  match headers with
  | [] => inl ("missing " +:+ tunnelTargetPortHeader +:+ " header")
  | h :: headers =>
      if negb (is_port_header h) then extractTargetPort headers
      else match PH.Value h with [] => extractTargetPort headers | v :: _ => port_of v end
  end.

Definition isWebSocketUpgrade (headers : list PH.ProxyHeader) : bool :=
  existsb (λ h, (CanonicalHeaderKey (PH.Name h) =s "Upgrade") && existsb (λ v, EqualFold v "websocket") (PH.Value h)) headers
  && existsb (λ h, (CanonicalHeaderKey (PH.Name h) =s "Connection") && existsb (λ v, Contains (ToLower v) "upgrade") (PH.Value h)) headers.

(** ** The local service *)

(** The request it gets; its body is read from the buffer. *)
Record local_request := mkLocal { local_method : string; local_url : string; local_header : gmap string (list string) }.

Definition forwarded_header (headers : list PH.ProxyHeader) : gmap string (list string) :=
  foldl (λ dst h, if is_port_header h then dst else foldl (λ dst v, add_header dst (PH.Name h) v) dst (PH.Value h)) ∅ headers.

Definition local_request_of (start : FR.ProxyFrame) (port : Z) : local_request :=
  mkLocal (FR.Method start) ("http://127.0.0.1:" +:+ FormatInt port +:+ FR.Path start) (forwarded_header (FR.RequestHeaders start)).

(** What becomes of it: a request that cannot be built, an error of [httpClient.Do], or an
    answer with its headers in the order of one visit and its body read turn by turn. *)
Inductive upstream :=
| BuildError (text : string)
| DoError (text : string)
| Upstream (status : Z) (header : list (string * list string)) (turns : list read_turn).

Definition responseHeadersToProto (header : list (string * list string)) : list PH.ProxyHeader :=
  (λ h, PH.zero |> PH.set_Name h.1 |> PH.set_Value h.2) <$> header.

(** ** Frames of a response *)

Definition response_start (tunnelID requestID : string) (status : Z) (header : list (string * list string)) : FR.ProxyFrame :=
  frame_of tunnelID requestID daemonv1.ProxyFrameKind_PROXY_FRAME_KIND_RESPONSE_START
  |> FR.set_StatusCode status |> FR.set_ResponseHeaders (responseHeadersToProto header).
Definition response_body (tunnelID requestID bytes : string) : FR.ProxyFrame :=
  frame_of tunnelID requestID daemonv1.ProxyFrameKind_PROXY_FRAME_KIND_RESPONSE_BODY |> FR.set_BodyChunk bytes.
Definition response_end (tunnelID requestID : string) : FR.ProxyFrame :=
  frame_of tunnelID requestID daemonv1.ProxyFrameKind_PROXY_FRAME_KIND_RESPONSE_END.
Definition sendEndErr (tunnelID requestID message : string) : FR.ProxyFrame :=
  response_end tunnelID requestID |> FR.set_Error message.

(** The last frame of a response, after how its pump ended; a pump that was cancelled or
    whose frame was not taken sends none. *)
Definition last_frames (tunnelID requestID : string) (e : pump_end) : list FR.ProxyFrame :=
  match e with
  | AtEof => [response_end tunnelID requestID]
  | ReadFailed text => [sendEndErr tunnelID requestID ("upstream read: " +:+ text)]
  | _ => []
  end.

(** A plain request: the frames the stream took; [started] is whether it took the first
    frame of the response, [last] the last one.  The flag is whether the goroutine returned. *)
Definition handleHTTP (serve : local_request → upstream) (start : FR.ProxyFrame) (port : Z) (started last : bool)
    : list FR.ProxyFrame * bool :=
  let requestID := FR.RequestId start in
  let tunnelID := FR.TunnelId start in
  let failed message := (if last then [sendEndErr tunnelID requestID message] else [], true) in
  match serve (local_request_of start port) with
  | BuildError text => failed ("build request: " +:+ text)
  | DoError text => failed ("upstream dial: " +:+ text)
  | Upstream status header turns =>
      if negb started then ([], true)
      else
        let (frames, e) := pump (response_body tunnelID requestID) turns in
        (response_start tunnelID requestID status header :: frames ++ (if last then last_frames tunnelID requestID e else []),
         match e with Waiting => false | _ => true end)
  end.

(** ** WebSocket upgrades *)

(** The request written to the local service's connection. *)
Definition upgrade_request (start : FR.ProxyFrame) (port : Z) : string :=
  FR.Method start +:+ " " +:+ FR.Path start +:+ " HTTP/1.1" +:+ crlf
  +:+ "Host: 127.0.0.1:" +:+ FormatInt port +:+ crlf
  +:+ Join (concat ((λ h : PH.ProxyHeader,
        if is_port_header h || (CanonicalHeaderKey (PH.Name h) =s "Host") then []
        else (λ v, PH.Name h +:+ ": " +:+ v +:+ crlf) <$> PH.Value h) <$> FR.RequestHeaders start)) ""
  +:+ crlf.

(** What the service's connection gives: an error, or the head of its answer and what is
    read after it. *)
Inductive socket :=
| SocketError (message : string)
| Socket (status : Z) (header : list (string * list string)) (turns : list read_turn).

(** The relay's loops do not look at the context. *)
Definition unchecked (t : read_turn) : read_turn := mkRead false (chunk t) (ending t) (taken t).

(** [up_done] is whether the other direction, from the request's body to the connection,
    has returned; the goroutine waits for both. *)
Definition handleWebSocket (dial : Z → string → socket) (start : FR.ProxyFrame) (port : Z) (started up_done last : bool)
    : list FR.ProxyFrame * bool :=
  let requestID := FR.RequestId start in
  let tunnelID := FR.TunnelId start in
  match dial port (upgrade_request start port) with
  | SocketError message => (if last then [sendEndErr tunnelID requestID message] else [], true)
  | Socket status header turns =>
      if negb started then ([], true)
      else
        let (frames, e) := pump (response_body tunnelID requestID) (unchecked <$> turns) in
        let down_done := match e with Waiting => false | _ => true end in
        let returned := if (status =? StatusSwitchingProtocols)%Z then down_done && up_done else down_done in
        (response_start tunnelID requestID status header :: frames
           ++ (if returned && last then [response_end tunnelID requestID] else []), returned)
  end.

Definition handleUpstream (serve : local_request → upstream) (dial : Z → string → socket) (start : FR.ProxyFrame)
    (started up_done last : bool) : list FR.ProxyFrame * bool :=
  match extractTargetPort (FR.RequestHeaders start) with
  | inl err => (if last then [sendEndErr (FR.TunnelId start) (FR.RequestId start) err] else [], true)
  | inr port =>
      if isWebSocketUpgrade (FR.RequestHeaders start) then handleWebSocket dial start port started up_done last
      else handleHTTP serve start port started last
  end.

End daemon.

(** ** Request bodies *)

Record requestBody := mkBody { buf : string; closed : bool }.
Definition newRequestBody : requestBody := mkBody "" false.

Definition body_write (bytes : string) (r : requestBody) : requestBody :=
  if closed r then r else mkBody (buf r +:+ bytes) false.
Definition body_close (r : requestBody) : requestBody := mkBody (buf r) true.

(** A read of at most [n] bytes, and whether it is the end; [None] waits. *)
Definition Read (n : nat) (r : requestBody) : option (string * bool * requestBody) :=
  if buf r =s "" then if closed r then Some ("", true, r) else None
  else Some (stake n (buf r), false, mkBody (sdrop n (buf r)) (closed r)).

(** The bodies of a stream, and the goroutines whose contexts can be cancelled: a goroutine
    is named by its body. *)
Record proxy := mkProxy { cells : list requestBody; bodies : gmap string nat; cancels : gmap string nat; stopped : list nat }.
Definition newRequestBodyMux : proxy := mkProxy [] ∅ ∅ [].

Definition put_cells v p := mkProxy v (bodies p) (cancels p) (stopped p).

Definition mux_open (id : string) (p : proxy) : proxy :=
  mkProxy (cells p ++ [newRequestBody]) (<[id := length (cells p)]> (bodies p)) (cancels p) (stopped p).
Definition mux_write (id bytes : string) (p : proxy) : proxy :=
  match bodies p !! id with Some a => put_cells (alter (body_write bytes) a (cells p)) p | None => p end.
Definition mux_close (id : string) (p : proxy) : proxy :=
  match bodies p !! id with
  | Some a => mkProxy (alter body_close a (cells p)) (delete id (bodies p)) (cancels p) (stopped p)
  | None => p
  end.
(** A stream that ends closes the bodies that are open and cancels every goroutine. *)
Definition closeAll (p : proxy) : proxy :=
  mkProxy (imap (λ a b, if bool_decide (a ∈ (map_to_list (bodies p)).*2) then body_close b else b) (cells p))
    ∅ (cancels p) (seq 0 (length (cells p))).

Definition trackCancel (id : string) (a : nat) (p : proxy) : proxy := mkProxy (cells p) (bodies p) (<[id := a]> (cancels p)) (stopped p).
Definition untrackCancel (id : string) (p : proxy) : proxy := mkProxy (cells p) (bodies p) (delete id (cancels p)) (stopped p).
Definition cancel (id : string) (p : proxy) : proxy :=
  mkProxy (cells p) (bodies p) (delete id (cancels p))
    (match cancels p !! id with Some a => a :: stopped p | None => stopped p end).

(** One turn of [serveOne]; the goroutine of a start runs on its own. *)
Definition dispatch (f : FR.ProxyFrame) (p : proxy) : proxy :=
  let kind := FR.Kind f in
  let id := FR.RequestId f in
  if (kind =? daemonv1.ProxyFrameKind_PROXY_FRAME_KIND_REQUEST_START)%Z then mux_open id p
  else if (kind =? daemonv1.ProxyFrameKind_PROXY_FRAME_KIND_REQUEST_BODY)%Z then mux_write id (FR.BodyChunk f) p
  else if (kind =? daemonv1.ProxyFrameKind_PROXY_FRAME_KIND_REQUEST_END)%Z then mux_close id p
  else if (kind =? daemonv1.ProxyFrameKind_PROXY_FRAME_KIND_CANCEL)%Z then mux_close id (cancel id p)
  else p.

(** What happens to the bodies of a stream, in order: a frame is received; the goroutine of
    a body reads from it, closes it (the deferred [Close], or [net/http] once it has no use
    for it), or keeps its context's cancellation in the map; the stream is lost. *)
Inductive happening :=
| Received (f : FR.ProxyFrame)
| ReadBody (a n : nat)
| CloseBody (a : nat)
| Track (id : string) (a : nat)
| Untrack (id : string)
| StreamLost.

(** The bodies after it, and what a read gave; [None] waits or names no body. *)
Definition happen (h : happening) (p : proxy) : option (proxy * option (nat * string * bool)) :=
  match h with
  | Received f => Some (dispatch f p, None)
  | ReadBody a n => b ← cells p !! a; '(bytes, eof, b) ← Read n b; Some (put_cells (<[a := b]> (cells p)) p, Some (a, bytes, eof))
  | CloseBody a => Some (put_cells (alter body_close a (cells p)) p, None)
  | Track id a => Some (trackCancel id a p, None)
  | Untrack id => Some (untrackCancel id p, None)
  | StreamLost => Some (closeAll p, None)
  end.

Fixpoint happens (hs : list happening) (p : proxy) : option (proxy * list (nat * string * bool)) :=
  match hs with
  | [] => Some (p, [])
  | h :: hs =>
      '(p, read) ← happen h p;
      '(p, reads) ← happens hs p;
      Some (p, match read with Some r => r :: reads | None => reads end)
  end.

(** ** A body arrives in order *)

(** What was read from a body, and whether its end was. *)
Fixpoint got (a : nat) (reads : list (nat * string * bool)) : string :=
  match reads with
  | [] => ""
  | (a', bytes, _) :: reads => if a' =? a then bytes +:+ got a reads else got a reads
  end.
Definition reached_end (a : nat) (reads : list (nat * string * bool)) : bool :=
  existsb (λ r : nat * string * bool, (r.1.1 =? a) && r.2) reads.

Definition received (hs : list happening) : list FR.ProxyFrame :=
  omap (λ h, match h with Received f => Some f | _ => None end) hs.

Definition ends_body (f : FR.ProxyFrame) : bool :=
  (FR.Kind f =? daemonv1.ProxyFrameKind_PROXY_FRAME_KIND_REQUEST_END)%Z
  || (FR.Kind f =? daemonv1.ProxyFrameKind_PROXY_FRAME_KIND_CANCEL)%Z.

(** The bytes that frames carry for a request, up to its end. *)
Fixpoint body_of (id : string) (frames : list FR.ProxyFrame) : string :=
  match frames with
  | [] => ""
  | f :: frames =>
      if negb (FR.RequestId f =s id) then body_of id frames
      else if (FR.Kind f =? daemonv1.ProxyFrameKind_PROXY_FRAME_KIND_REQUEST_BODY)%Z then FR.BodyChunk f +:+ body_of id frames
      else if ends_body f then ""
      else body_of id frames
  end.

(** A body that still takes bytes, the only one of its request; and one that does not. *)
Definition filling (id : string) (a : nat) (b : requestBody) (p : proxy) : Prop :=
  cells p !! a = Some b ∧ closed b = false ∧ bodies p !! id = Some a ∧ ∀ id', bodies p !! id' = Some a → id' = id.
Definition shut (a : nat) (b : requestBody) (p : proxy) : Prop := cells p !! a = Some b ∧ closed b = true.

Lemma alter_shut f a a' b (l : list requestBody) :
  (∀ b, closed b = true → f b = b) → l !! a = Some b → closed b = true → alter f a' l !! a = Some b.
Proof.
  intros F C S. destruct (decide (a' = a)) as [->|N]; [|by rewrite list_lookup_alter_ne].
  rewrite list_lookup_alter_eq, C. cbn. by rewrite F.
Qed.

Lemma write_shut bytes b : closed b = true → body_write bytes b = b.
Proof. intros S. unfold body_write. by rewrite S. Qed.
Lemma close_shut b : closed b = true → body_close b = b.
Proof. destruct b as [bytes []]; [done|discriminate]. Qed.

Lemma close_cells a f b (l : list requestBody) :
  (∀ b, closed b = true → f b = b) → l !! a = Some b → closed b = true → ∀ ids : list nat,
  imap (λ i c, if bool_decide (i ∈ ids) then f c else c) l !! a = Some b.
Proof. intros F C S ids. rewrite list_lookup_imap, C. cbn. by destruct (bool_decide _); rewrite ?F. Qed.

Lemma dispatch_shut a b p f : shut a b p → shut a b (dispatch f p).
Proof.
  intros [C S]. split; [|done]. unfold dispatch. cbn zeta.
  destruct (_ =? _)%Z; [by apply lookup_app_l_Some|].
  destruct (_ =? _)%Z; [unfold mux_write; destruct (bodies p !! _); [by apply alter_shut; [apply write_shut|..]|done]|].
  destruct (_ =? _)%Z; [unfold mux_close; destruct (bodies p !! _); [by apply alter_shut; [apply close_shut|..]|done]|].
  destruct (_ =? _)%Z; [|done]. unfold mux_close. cbn. destruct (bodies p !! _); [by apply alter_shut; [apply close_shut|..]|done].
Qed.

Lemma take_and_drop n s : stake n s +:+ sdrop n s = s.
Proof.
  unfold stake, sdrop. revert s. induction n as [|n IH]; intros [|c s]; [done|by rewrite Nat.sub_0_r, substring_all|done|].
  cbn [String.substring String.length Nat.sub].
  change (String c (String.substring 0 n s +:+ String.substring n (String.length s - n) s) = String c s). by rewrite IH.
Qed.

(** A read takes from the front. *)
Lemma Read_front n b bytes eof b' :
  Read n b = Some (bytes, eof, b') → bytes +:+ buf b' = buf b ∧ closed b' = closed b ∧ (eof = true → bytes = "" ∧ buf b = "" ∧ closed b = true).
Proof.
  unfold Read. destruct (String.eqb_spec (buf b) "") as [E|N].
  - destruct (closed b) eqn:S; [|done]. intros [= <- <- <-]. by rewrite E.
  - intros [= <- <- <-]. cbn. split_and!; [apply take_and_drop|done|done].
Qed.

Lemma happens_shut hs a b p p' reads :
  shut a b p → happens hs p = Some (p', reads) →
  ∃ b', shut a b' p' ∧ got a reads +:+ buf b' = buf b ∧ (reached_end a reads = true → buf b' = "").
Proof.
  revert b p reads. induction hs as [|h hs IH]; intros b p reads Sh; cbn [happens]; [intros [= <- <-]; by exists b|].
  intros ([p1 r] & H & ([p2 rs] & Hs & [= <- <-])%bind_Some)%bind_Some.
  assert (Same : shut a b p1 → r = None → ∃ b', shut a b' p2 ∧
    got a (match r with Some r => r :: rs | None => rs end) +:+ buf b' = buf b
    ∧ (reached_end a (match r with Some r => r :: rs | None => rs end) = true → buf b' = "")).
  { intros Sh1 ->. by eapply IH. }
  destruct h as [f|a' n|a'|id a'|id|]; cbn in H.
  - injection H as <- <-. apply Same; [by apply dispatch_shut|done].
  - apply bind_Some in H as (c & C & ([[bytes eof] c'] & R & [= <- <-])%bind_Some).
    apply Read_front in R as (F & S & Z). cbn. destruct (Nat.eqb_spec a' a) as [->|N].
    + destruct Sh as [Cb Sb]. replace c with b in * by congruence.
      assert (Sh1 : shut a c' (put_cells (<[a := c']> (cells p)) p)).
      { split; [|by rewrite S]. apply list_lookup_insert_eq. by eapply lookup_lt_Some. }
      destruct (IH c' _ _ Sh1 Hs) as (b' & Sh' & G & Re).
      exists b'. split; [done|]. rewrite <- sapp_assoc, G, F. split; [done|]. cbn.
      destruct eof; [|exact Re]. intros _. destruct (Z eq_refl) as (-> & E & _). change (buf c' = buf b) in F. rewrite F, E in G.
      by destruct (got a rs).
    + destruct Sh as [Cb Sb]. eapply IH; [|exact Hs]. split; [|done]. cbn. by rewrite list_lookup_insert_ne.
  - injection H as <- <-. apply Same; [|done]. destruct Sh. split; [|done]. by apply alter_shut; [apply close_shut|..].
  - injection H as <- <-. by apply Same.
  - injection H as <- <-. by apply Same.
  - injection H as <- <-. apply Same; [|done]. destruct Sh. split; [|done]. by apply close_cells; [apply close_shut|..].
Qed.

(** What a frame does to a body that takes bytes. *)
Lemma dispatch_filling id a b p f :
  filling id a b p → (FR.RequestId f = id → FR.Kind f ≠ daemonv1.ProxyFrameKind_PROXY_FRAME_KIND_REQUEST_START) →
  if negb (FR.RequestId f =s id) then filling id a b (dispatch f p)
  else if (FR.Kind f =? daemonv1.ProxyFrameKind_PROXY_FRAME_KIND_REQUEST_BODY)%Z then
    filling id a (mkBody (buf b +:+ FR.BodyChunk f) false) (dispatch f p)
  else if ends_body f then shut a (body_close b) (dispatch f p)
  else filling id a b (dispatch f p).
Proof.
  intros (C & O & M & U) N. pose proof (lookup_lt_Some _ _ _ C) as L. unfold dispatch, ends_body. cbn zeta.
  assert (Away : ∀ a', bodies p !! FR.RequestId f = Some a' → FR.RequestId f ≠ id → a' ≠ a).
  { intros a' E Ne ->. by apply Ne, U. }
  assert (Closing : ∀ q, cells q = cells p → bodies q = bodies p → FR.RequestId f ≠ id → filling id a b (mux_close (FR.RequestId f) q)).
  { intros q E1 E2 Ne. unfold mux_close. rewrite E2. destruct (bodies p !! FR.RequestId f) as [a'|] eqn:E; [|unfold filling; by rewrite E1, E2].
    unfold filling. cbn [cells bodies]. rewrite E1. split_and!; [by rewrite list_lookup_alter_ne by eauto|done|by rewrite lookup_delete_ne|].
    intros id'. rewrite lookup_delete_Some. intros [_ H]. by apply U. }
  assert (Shutting : ∀ q, cells q = cells p → bodies q = bodies p → FR.RequestId f = id → shut a (body_close b) (mux_close (FR.RequestId f) q)).
  { intros q E1 E2 ->. unfold mux_close. rewrite E2, M. split; [|done]. cbn. by rewrite E1, list_lookup_alter_eq, C. }
  destruct (String.eqb_spec (FR.RequestId f) id) as [E|Ne]; cbn [negb].
  - rewrite (proj2 (Z.eqb_neq _ _) (N E)).
    destruct (_ =? daemonv1.ProxyFrameKind_PROXY_FRAME_KIND_REQUEST_BODY)%Z.
    + unfold mux_write. rewrite E, M. split_and!; [|done..]. cbn. rewrite list_lookup_alter_eq, C. cbn. unfold body_write. by rewrite O.
    + destruct (_ =? daemonv1.ProxyFrameKind_PROXY_FRAME_KIND_REQUEST_END)%Z; [by apply Shutting|].
      destruct (_ =? daemonv1.ProxyFrameKind_PROXY_FRAME_KIND_CANCEL)%Z; [by apply Shutting|done].
  - destruct (_ =? daemonv1.ProxyFrameKind_PROXY_FRAME_KIND_REQUEST_START)%Z.
    { split_and!; [by apply lookup_app_l_Some|done|by cbn; rewrite lookup_insert_ne|].
      intros id'. cbn. rewrite lookup_insert_Some. intros [[<- E]|[_ H]]; [lia|by apply U]. }
    destruct (_ =? daemonv1.ProxyFrameKind_PROXY_FRAME_KIND_REQUEST_BODY)%Z.
    { unfold mux_write. destruct (bodies p !! FR.RequestId f) as [a'|] eqn:E; [|done]. split_and!; [|done..]. cbn.
      by rewrite list_lookup_alter_ne by eauto. }
    destruct (_ =? daemonv1.ProxyFrameKind_PROXY_FRAME_KIND_REQUEST_END)%Z; [by apply Closing|].
    destruct (_ =? daemonv1.ProxyFrameKind_PROXY_FRAME_KIND_CANCEL)%Z; [by apply Closing|done].
Qed.

(** A frame that ends the body of the request. *)
Definition ender (id : string) (f : FR.ProxyFrame) : bool := (FR.RequestId f =s id) && ends_body f.

Lemma happens_filling hs id a b p p' reads :
  filling id a b p →
  (∀ f, f ∈ received hs → FR.RequestId f = id → FR.Kind f ≠ daemonv1.ProxyFrameKind_PROXY_FRAME_KIND_REQUEST_START) →
  CloseBody a ∉ hs → StreamLost ∉ hs → happens hs p = Some (p', reads) →
  ∃ b', got a reads +:+ buf b' = buf b +:+ body_of id (received hs)
    ∧ (reached_end a reads = true → buf b' = "" ∧ existsb (ender id) (received hs) = true).
Proof.
  revert b p reads. induction hs as [|h hs IH]; intros b p reads Fi St Cl Lo; cbn [happens].
  { intros [= <- <-]. exists b. cbn. by rewrite sapp_nil_r. }
  apply not_elem_of_cons in Cl as [Cl1 Cl], Lo as [Lo1 Lo].
  intros ([p1 r] & H & ([p2 rs] & Hs & [= <- <-])%bind_Some)%bind_Some.
  destruct h as [f|a' n|a'|id' a'|id'|]; cbn in H; try done.
  - injection H as <- <-. assert (St' : ∀ f, f ∈ received hs → FR.RequestId f = id → FR.Kind f ≠ daemonv1.ProxyFrameKind_PROXY_FRAME_KIND_REQUEST_START).
    { intros g Hg. apply St. by right. }
    assert (St0 : f ∈ received (Received f :: hs)) by left.
    pose proof (dispatch_filling id a b p f Fi (St f St0)) as D.
    change (received (Received f :: hs)) with (f :: received hs). cbn [body_of existsb]. unfold ender at 1.
    destruct (FR.RequestId f =s id) eqn:E; cbn [negb andb] in *; [|by eapply IH].
    destruct (_ =? daemonv1.ProxyFrameKind_PROXY_FRAME_KIND_REQUEST_BODY)%Z.
    + destruct (IH _ _ _ D St' Cl Lo Hs) as (b' & G & Re). exists b'. cbn [buf] in G. rewrite G, sapp_assoc. split; [done|].
      intros R. destruct (Re R) as [-> ->]. by rewrite orb_true_r.
    + destruct (ends_body f) eqn:Ef; [|by eapply IH].
      destruct (happens_shut _ _ _ _ _ _ D Hs) as (b' & _ & G & Re). exists b'. rewrite G, sapp_nil_r. split; [done|].
      intros R. by split; [apply Re|].
  - apply bind_Some in H as (c & C & ([[bytes eof] c'] & R & [= <- <-])%bind_Some).
    apply Read_front in R as (F & S & Z). destruct Fi as (Cb & O & M & U). cbn. destruct (Nat.eqb_spec a' a) as [->|N].
    + assert (c = b) as -> by congruence.
      assert (Fi' : filling id a c' (put_cells (<[a := c']> (cells p)) p)).
      { split_and!; [|by rewrite S|done..]. apply list_lookup_insert_eq. by eapply lookup_lt_Some. }
      destruct (IH _ _ _ Fi' St Cl Lo Hs) as (b' & G & Re). exists b'. split.
      * rewrite <- sapp_assoc, G, sapp_assoc, F. done.
      * cbn. destruct eof; [|exact Re]. destruct (Z eq_refl) as (_ & _ & X). congruence.
    + eapply IH; [|exact St|exact Cl|exact Lo|exact Hs]. split_and!; [|done..]. cbn. by rewrite list_lookup_insert_ne.
  - injection H as <- <-. assert (a' ≠ a) by congruence. eapply IH; [|exact St|exact Cl|exact Lo|exact Hs]. destruct Fi as (Cb & O & M & U).
    split_and!; [|done..]. cbn. by rewrite list_lookup_alter_ne.
  - injection H as <- <-. exact (IH b (trackCancel id' a' p) _ Fi St Cl Lo Hs).
  - injection H as <- <-. exact (IH b (untrackCancel id' p) _ Fi St Cl Lo Hs).
Qed.

(** Bodies are never where there is none. *)
Definition bounded (p : proxy) : Prop := ∀ id a, bodies p !! id = Some a → a < length (cells p).

Lemma dispatch_bounded f p : bounded p → bounded (dispatch f p).
Proof.
  intros Bd. assert (Shrink : ∀ id q, cells q = cells p → bodies q = bodies p → bounded (mux_close id q)).
  { intros id q E1 E2 id' a. unfold mux_close. rewrite E2. destruct (bodies p !! id); cbn; rewrite ?length_alter, E1.
    - rewrite lookup_delete_Some. intros [_ H]. by eapply Bd.
    - rewrite E2. apply Bd. }
  unfold dispatch. cbn zeta. destruct (_ =? _)%Z.
  { intros id a. cbn. rewrite lookup_insert_Some, length_app. cbn. intros [[_ <-]|[_ H%Bd]]; lia. }
  destruct (_ =? _)%Z; [intros id a; unfold mux_write; destruct (bodies p !! FR.RequestId f); cbn; rewrite ?length_alter; apply Bd|].
  destruct (_ =? _)%Z; [by apply Shrink|]. destruct (_ =? _)%Z; [by apply Shrink|done].
Qed.

Lemma happens_bounded hs p p' reads : bounded p → happens hs p = Some (p', reads) → bounded p'.
Proof.
  revert p reads. induction hs as [|h hs IH]; intros p reads Bd; cbn [happens]; [by intros [= <- _]|].
  intros ([p1 r] & H & ([p2 rs] & Hs & [= <- _])%bind_Some)%bind_Some. eapply IH; [|exact Hs]. clear IH Hs.
  destruct h as [f|a' n|a'|id' a'|id'|]; cbn in H.
  - injection H as <- _. by apply dispatch_bounded.
  - apply bind_Some in H as (c & C & ([[bytes eof] c'] & R & [= <- _])%bind_Some). intros id a. cbn. rewrite length_insert. apply Bd.
  - injection H as <- _. intros id a. cbn. rewrite length_alter. apply Bd.
  - by injection H as <- _.
  - by injection H as <- _.
  - injection H as <- _. intros id a. cbn. by rewrite lookup_empty.
Qed.

(** ** From the visitor to the local service *)

Definition about (id : string) (f : FR.ProxyFrame) : bool := FR.RequestId f =s id.

Lemma body_of_about id frames : body_of id (bfilter (about id) frames) = body_of id frames.
Proof.
  induction frames as [|f frames IH]; [done|]. cbn. unfold about at 1. destruct (_ =s _) eqn:E; cbn [body_of]; rewrite ?E; cbn [negb]; by rewrite IH.
Qed.

Lemma body_of_prefix id l1 l2 : ∃ rest, body_of id l1 +:+ rest = body_of id (l1 ++ l2).
Proof.
  induction l1 as [|f l1 [rest IH]]; [by exists (body_of id l2)|]. cbn [body_of app].
  destruct (negb _); [by exists rest|]. destruct (_ =? _)%Z; [exists rest; by rewrite <- sapp_assoc, IH|].
  destruct (ends_body f); [by exists ""|by exists rest].
Qed.

Lemma body_of_chunks tunnelID id chunks rest :
  body_of id ((request_body tunnelID id <$> chunks) ++ rest) = Join chunks "" +:+ body_of id rest.
Proof.
  induction chunks as [|c chunks IH]; [done|]. cbn -[String.eqb Join]. rewrite eqb_refl_str. cbn [negb]. rewrite IH, sapp_assoc.
  f_equal. destruct chunks; cbn; by rewrite ?sapp_nil_r.
Qed.

Lemma no_ender_in_chunks tunnelID id chunks : existsb (ender id) (request_body tunnelID id <$> chunks) = false.
Proof. induction chunks as [|c chunks IH]; [done|]. cbn -[String.eqb]. unfold ender at 1. cbn -[String.eqb]. by rewrite andb_false_r. Qed.

(** The frames of a body: chunks, and the end once the loop is over. *)
Lemma streamRequestBody_shape tunnelID id turns :
  ∃ chunks last, (streamRequestBody tunnelID id turns true).1 = (request_body tunnelID id <$> chunks) ++ last
    ∧ Join chunks "" = pumped turns ∧ (last = [] ∨ last = [request_end tunnelID id]).
Proof.
  destruct (pump_frames (request_body tunnelID id) turns) as (chunks & E & J).
  exists chunks, (match (pump (request_body tunnelID id) turns).2 with Waiting => [] | _ => [request_end tunnelID id] end).
  split_and!; [unfold streamRequestBody, finished_by; cbn [fst]; by rewrite E|done|].
  destruct (pump _ _).2; [by left|by right..].
Qed.

(** Only the last frame ends it. *)
Lemma ended_is_all tunnelID id chunks last frames l3 :
  last = [] ∨ last = [request_end tunnelID id] → (request_body tunnelID id <$> chunks) ++ last = frames ++ l3 →
  existsb (ender id) frames = true → l3 = [].
Proof.
  intros La Pre En. destruct l3 as [|f l4 _] using rev_ind; [done|]. exfalso.
  pose proof (no_ender_in_chunks tunnelID id chunks) as N. rewrite app_assoc in Pre.
  assert (Short : existsb (ender id) (frames ++ l4) = false).
  { destruct La as [-> | ->]; rewrite ?app_nil_r in Pre.
    - rewrite Pre, existsb_app in N. by apply orb_false_iff in N as [N _].
    - by apply app_inj_tail in Pre as [<- _]. }
  rewrite existsb_app, En in Short. discriminate.
Qed.

Lemma ender_about id frames : existsb (ender id) (bfilter (about id) frames) = existsb (ender id) frames.
Proof.
  induction frames as [|f frames IH]; [done|]. cbn. unfold about at 1, ender at 2.
  destruct (_ =s _) eqn:E; cbn [existsb andb orb]; [|done]. unfold ender at 1. by rewrite E, IH.
Qed.


(** ** From the local service to the visitor *)

(** The server's turns over frames that all reach the visitor. *)
Definition delivered (frames : list FR.ProxyFrame) : list next_frame := (λ f, NextFrame f true) <$> frames.
Lemma delivered_app l1 l2 : delivered (l1 ++ l2) = delivered l1 ++ delivered l2.
Proof. apply fmap_app. Qed.

Definition no_response : response := mkResponse None ∅ "".

(** What the visitor is to see of the service. *)
Definition seen (u : upstream) : response :=
  let failed message := http_error StatusBadGateway ("upstream error: " +:+ message) no_response in
  match u with
  | BuildError text => failed ("build request: " +:+ text)
  | DoError text => failed ("upstream dial: " +:+ text)
  | Upstream status header turns =>
      mkResponse (Some (if (status =? 0)%Z then StatusOK else status))
        (applyResponseHeaders ∅ (responseHeadersToProto header)) (pumped turns)
  end.

(** The request is not cancelled, and the stream takes every frame. *)
Definition undisturbed (u : upstream) : Prop :=
  match u with Upstream _ _ turns => Forall (λ t, expired t = false ∧ taken t = true) turns | _ => True end.

Lemma pumpResponse_body tunnelID id turns frames e rest w :
  written w = true → pump (response_body tunnelID id) turns = (frames, e) →
  pumpResponse (delivered frames ++ rest) w =
  pumpResponse rest (mkResponse (resp_status w) (resp_headers w) (resp_body w +:+ pumped turns)).
Proof.
  revert frames w. induction turns as [|t turns IH]; intros frames w Wr; cbn [pump pumped].
  { intros [= <- <-]. rewrite sapp_nil_r. by destruct w. }
  destruct (expired t); [intros [= <- <-]; rewrite sapp_nil_r; by destruct w|].
  destruct (negb (chunk t =s "") && negb (taken t)); [intros [= <- <-]; rewrite sapp_nil_r; by destruct w|].
  assert (Turn : ∀ rest, pumpResponse (delivered (if chunk t =s "" then [] else [response_body tunnelID id (chunk t)]) ++ rest) w
    = pumpResponse rest (mkResponse (resp_status w) (resp_headers w) (resp_body w +:+ chunk t))).
  { intros r. destruct (String.eqb_spec (chunk t) "") as [-> |N]; [rewrite sapp_nil_r; by destruct w|].
    unfold written in Wr. cbn. by destruct (resp_status w). }
  destruct (ending t); [|intros [= <- <-]; by rewrite Turn, sapp_nil_r..].
  destruct (pump _ turns) as [fs e'] eqn:P. intros [= <- <-]. rewrite delivered_app, <- app_assoc.
  rewrite Turn, (IH fs (mkResponse (resp_status w) (resp_headers w) (resp_body w +:+ chunk t)) Wr eq_refl).
  cbn [resp_status resp_headers resp_body]. by rewrite sapp_assoc.
Qed.

Lemma pumpResponse_whole tunnelID id status header turns frames e last :
  pump (response_body tunnelID id) turns = (frames, e) →
  FR.Kind last = daemonv1.ProxyFrameKind_PROXY_FRAME_KIND_RESPONSE_END →
  pumpResponse (delivered (response_start tunnelID id status header :: frames) ++ delivered [last]) no_response =
  Some (false, seen (Upstream status header turns)).
Proof.
  intros P K. set (w := mkResponse (Some (if (status =? 0)%Z then StatusOK else status))
                          (applyResponseHeaders ∅ (responseHeadersToProto header)) "").
  change (pumpResponse (delivered frames ++ delivered [last]) w = Some (false, seen (Upstream status header turns))).
  rewrite (pumpResponse_body _ _ _ _ _ _ w eq_refl P). cbn [delivered fmap list_fmap pumpResponse]. by rewrite K.
Qed.

Lemma undisturbed_pump frame turns frames e :
  Forall (λ t, expired t = false ∧ taken t = true) turns → pump frame turns = (frames, e) →
  e = Waiting ∨ e = AtEof ∨ ∃ text, e = ReadFailed text.
Proof.
  intros F. revert frames. induction F as [|t turns [X T] F IH]; intros frames; cbn [pump]; [intros [= _ <-]; by left|].
  rewrite X, T, andb_false_r. destruct (ending t) as [| |text]; [|intros [= _ <-]; by right; left|intros [= _ <-]; right; right; by exists text].
  destruct (pump _ turns) as [fs e']. intros [= _ <-]. by apply (IH fs).
Qed.

Section relay.
Context {Uni : Unicode} {Qu : Quoter}.

Lemma port_header_last header port :
  Forall (λ h : string * list string, CanonicalHeaderKey h.1 ≠ tunnelTargetPortHeader) header →
  extractTargetPort (headersToProto header port) = port_of (FormatInt port).
Proof.
  intros F. unfold headersToProto. induction F as [|[name values] header N F IH]; [done|]. cbn [bfilter fst].
  destruct (_ || _ || _); [|exact IH]. cbn -[String.eqb bfilter]. unfold is_port_header at 1. cbn -[String.eqb bfilter].
  cbn [fst] in N. by rewrite (proj2 (String.eqb_neq _ _) N).
Qed.

Lemma digit_of_char d : (d < 10)%N → decimal_digit (pretty_N_char d) = Some (Z.of_N d).
Proof.
  intros L. assert (d = 0 ∨ d = 1 ∨ d = 2 ∨ d = 3 ∨ d = 4 ∨ d = 5 ∨ d = 6 ∨ d = 7 ∨ d = 8 ∨ d = 9)%N as H by lia.
  by repeat (destruct H as [-> |H]; [done|]); subst d.
Qed.

(** Reading what was printed. *)
Lemma uint32_of_digits x : (x < 2 ^ 32)%N → ∀ s, uint32_from 0 (pretty_N_go x s) = uint32_from (Z.of_N x) s.
Proof.
  induction (N.lt_wf_0 x) as [x _ IH]; intros L s. assert (x = 0 ∨ 0 < x)%N as [-> |P] by lia; [done|].
  assert (D : (x / 10 < x)%N) by by apply N.div_lt. rewrite pretty_N_go_step, IH by (done || lia). cbn [uint32_from].
  assert (M : (x mod 10 < 10)%N) by by apply N.mod_lt. rewrite digit_of_char by done. cbn zeta.
  replace (Z.of_N (x / 10) * 10 + Z.of_N (x mod 10))%Z with (Z.of_N x)
    by (rewrite (N.div_mod x 10) at 1 by done; lia).
  by rewrite (proj2 (Z.leb_gt _ _)) by lia.
Qed.

Lemma port_of_port port : (1 ≤ port ≤ 65535)%Z → port_of (FormatInt port) = inr port.
Proof.
  intros R. destruct port as [|p|p]; [lia| |lia]. unfold port_of, ParseUint32.
  change (FormatInt (Zpos p)) with (pretty_N_go (Npos p) "").
  pose proof (uint32_of_digits (Npos p) ltac:(lia) "") as U. cbn [uint32_from] in U.
  destruct (String.eqb_spec (pretty_N_go (Npos p) "") "") as [E|_]; [rewrite E in U; cbn in U; by injection U as ?; lia|].
  rewrite U. rewrite (proj2 (Z.eqb_neq _ _)), (proj2 (Z.ltb_ge _ _)) by lia. done.
Qed.

End relay.

(** ** Examples *)

Section examples.
Local Existing Instance ascii_unicode.
Local Instance toy_quoter : Quoter := {| Quote := λ s, q s |}.

(** A service that greets, in two reads, whoever asks at port 3000. *)
Definition greeter (r : local_request) : upstream :=
  if HasPrefix (local_url r) "http://127.0.0.1:3000/"
  then Upstream 200 [("Content-Type", ["text/plain"]); ("Connection", ["close"])]
         [mkRead false "hello, " More true; mkRead false "world" Eof true]
  else DoError "connection refused".
Definition no_socket (port : Z) (request : string) : socket := SocketError "ws dial: connection refused".

Definition shop : Tn.TunnelRecord := Tn.zero |> Tn.set_ID "tun_1" |> Tn.set_Token "tok" |> Tn.set_LocalPort 3000.
Definition visit : list (string * list string) := [("Accept", ["*/*"])].
Definition answered : list FR.ProxyFrame :=
  (handleUpstream greeter no_socket (request_start shop "r1" "GET" "/preview/tok/cart?id=1" "10.0.0.9" visit) true true true).1.


(** A visitor names the port: the daemon takes the first header of the name, and the
    server's own comes last. *)
Example visitor_picks_the_port :
  extractTargetPort (headersToProto [("X-Nekode-Tunnel-Port", ["22"]); ("Accept", ["*/*"])] 3000) = inr 22%Z.
Proof. reflexivity. Qed.

(** An answer that breaks off looks complete to the visitor. *)
Definition broken (r : local_request) : upstream := Upstream 200 [] [mkRead false "half" (ReadError "unexpected EOF") true].
Example broken_answer_looks_whole :
  pumpResponse (delivered (handleHTTP broken (request_start shop "r1" "GET" "/preview/tok/" "" []) 3000 true true).1) no_response
  = Some (false, mkResponse (Some 200%Z) ∅ "half").
Proof. vm_compute. reflexivity. Qed.

(** A body that breaks off too: the service reads an end. *)
Definition upload : list FR.ProxyFrame := (streamRequestBody "tun_1" "r1" [mkRead false "half" (ReadError "client gone") true] true).1.
Example broken_upload_looks_whole :
  snd <$> happens (Received (request_start shop "r1" "POST" "/preview/tok/" "" []) :: (Received <$> upload) ++ [ReadBody 0 10; ReadBody 0 10])
            newRequestBodyMux = Some [(0, "half", false); (0, "", true)].
Proof. vm_compute. reflexivity. Qed.

(** An upgrade of a service that is not there is never answered: the server waits for a
    frame that starts a response, and the daemon's only frame is an end. *)
Definition upgrade_visit : list (string * list string) := [("Upgrade", ["websocket"]); ("Connection", ["Upgrade"])].
Example refused_upgrade_waits :
  let frames := (handleUpstream greeter no_socket (request_start shop "r1" "GET" "/preview/tok/" "" upgrade_visit) true false true).1 in
  frames = [sendEndErr "tun_1" "r1" "ws dial: connection refused"]
  ∧ pumpWebSocket true true true true "tun_1" "r1" (delivered frames) no_response = None.
Proof. vm_compute. by split. Qed.

(** Two requests whose frames alternate, with a read in between. *)
Definition frames_of (id : string) (chunks : list string) : list FR.ProxyFrame :=
  (streamRequestBody "tun_1" id (((λ c, mkRead false c More true) <$> chunks) ++ [mkRead false "" Eof true]) true).1.
Definition mixed : list happening :=
  [Received (request_body "tun_1" "r1" "ab"); Received (request_start shop "r2" "POST" "/preview/tok/" "" []); ReadBody 0 1;
   Received (request_body "tun_1" "r2" "xyz"); Received (request_body "tun_1" "r1" "cd"); Received (request_end "tun_1" "r1");
   ReadBody 0 10; ReadBody 1 2; ReadBody 0 10].
Definition mixed_reads : list (nat * string * bool) := [(0, "a", false); (0, "bcd", false); (1, "xy", false); (0, "", true)].
Definition post : FR.ProxyFrame := request_start shop "r1" "POST" "/preview/tok/" "" [].
Definition mixed_end : proxy := from_opt newRequestBodyMux (fst <$> happens (Received post :: mixed) newRequestBodyMux).


End examples.
