(* ===== verification/TunnelSocket.v ===== *)
(** * A WebSocket through a tunnel ([internal/server/tunnel_proxy.go], [cmd/nekode-daemon/tunnel_proxy.go])

    After the 101 four loops run at once, two in the server and two in the daemon, over two
    connections and the stream between them.  A step is one turn of one loop, or something
    that the visitor or the local service does; a connection keeps what was written and not
    read yet.  Frames do not get lost and the stream holds: a stream that is lost ends both
    halves.  The context of a hijacked request does not end when the visitor leaves, and
    neither half cancels the other's. *)
From S2P Require Import Prelude GoStr GoText Sql Models Schema Store Proto Http Preview TunnelPump DaemonTunnel.

(** What is on the stream. *)
Inductive up_frame := UpBody (bytes : string) | UpEnd.
Inductive down_frame := DownBody (bytes : string) | DownEnd.

Record socket_state := mkSocket {
  visitor_wrote : string;           (* all that the visitor wrote, ever *)
  visitor_unread : string;          (* what the server has not read of it *)
  visitor_closed : bool;
  visitor_got : string;
  client_to_daemon : bool;          (* the server's loops are running *)
  daemon_to_client : bool;
  up_wire : list up_frame;
  body : requestBody;
  to_service : bool;                (* the daemon's loops are running *)
  from_service : bool;
  ended : bool;                     (* the daemon sent its last frame *)
  down_wire : list down_frame;
  service_wrote : string;
  service_unread : string;
  service_closed : bool;
  service_got : string;
  visitor_lost : bool;              (* a write to the visitor, or to the service, failed *)
  service_lost : bool
}.

Definition switched : socket_state :=
  mkSocket "" "" false "" true true [] newRequestBody true true false [] "" "" false "" false false.

(** The setters that the steps use. *)
Definition visitor_side s unread got lost :=
  mkSocket (visitor_wrote s) unread (visitor_closed s) got (client_to_daemon s) (daemon_to_client s) (up_wire s) (body s)
    (to_service s) (from_service s) (ended s) (down_wire s) (service_wrote s) (service_unread s) (service_closed s)
    (service_got s) lost (service_lost s).
Definition server_loops s up down up_frames down_frames :=
  mkSocket (visitor_wrote s) (visitor_unread s) (visitor_closed s) (visitor_got s) up down up_frames (body s)
    (to_service s) (from_service s) (ended s) down_frames (service_wrote s) (service_unread s) (service_closed s)
    (service_got s) (visitor_lost s) (service_lost s).
Definition daemon_loops s up down over b up_frames down_frames :=
  mkSocket (visitor_wrote s) (visitor_unread s) (visitor_closed s) (visitor_got s) (client_to_daemon s) (daemon_to_client s)
    up_frames b up down over down_frames (service_wrote s) (service_unread s) (service_closed s)
    (service_got s) (visitor_lost s) (service_lost s).
Definition service_side s unread got lost :=
  mkSocket (visitor_wrote s) (visitor_unread s) (visitor_closed s) (visitor_got s) (client_to_daemon s) (daemon_to_client s)
    (up_wire s) (body s) (to_service s) (from_service s) (ended s) (down_wire s) (service_wrote s) unread (service_closed s)
    got (visitor_lost s) lost.

(** ** Turns of the loops *)

(** The server: [pumpWebSocket] and the goroutine it starts.  When the loop towards the
    visitor is over, the connection is closed and the end of the request is sent. *)
Inductive server_turn : socket_state → socket_state → Prop :=
| read_visitor s bytes rest :
    client_to_daemon s = true → visitor_unread s = bytes +:+ rest → bytes ≠ "" →
    server_turn s (server_loops (visitor_side s rest (visitor_got s) (visitor_lost s))
                     true (daemon_to_client s) (up_wire s ++ [UpBody bytes]) (down_wire s))
| read_visitor_end s :
    client_to_daemon s = true → (visitor_unread s = "" ∧ visitor_closed s = true) ∨ daemon_to_client s = false →
    server_turn s (server_loops s false (daemon_to_client s) (up_wire s) (down_wire s))
| write_visitor s bytes rest :
    daemon_to_client s = true → down_wire s = DownBody bytes :: rest →
    server_turn s (server_loops (visitor_side s (visitor_unread s) (visitor_got s +:+ bytes) (visitor_lost s))
                     (client_to_daemon s) true (up_wire s) rest)
| write_visitor_fails s bytes rest :
    daemon_to_client s = true → down_wire s = DownBody bytes :: rest → visitor_closed s = true →
    server_turn s (server_loops (visitor_side s (visitor_unread s) (visitor_got s) true)
                     (client_to_daemon s) false (up_wire s ++ [UpEnd]) rest)
| read_response_end s rest :
    daemon_to_client s = true → down_wire s = DownEnd :: rest →
    server_turn s (server_loops s (client_to_daemon s) false (up_wire s ++ [UpEnd]) rest).

(** The daemon: [serveOne], the two goroutines of [handleWebSocket], and their wait. *)
Inductive daemon_turn : socket_state → socket_state → Prop :=
| receive_body s bytes rest :
    up_wire s = UpBody bytes :: rest →
    daemon_turn s (daemon_loops s (to_service s) (from_service s) (ended s) (body_write bytes (body s)) rest (down_wire s))
| receive_end s rest :
    up_wire s = UpEnd :: rest →
    daemon_turn s (daemon_loops s (to_service s) (from_service s) (ended s) (body_close (body s)) rest (down_wire s))
| write_service s n bytes b :
    to_service s = true → Read n (body s) = Some (bytes, false, b) →
    daemon_turn s (daemon_loops (service_side s (service_unread s) (service_got s +:+ bytes) (service_lost s))
                     true (from_service s) (ended s) b (up_wire s) (down_wire s))
| write_service_fails s n bytes b :
    to_service s = true → Read n (body s) = Some (bytes, false, b) → service_closed s = true →
    daemon_turn s (daemon_loops (service_side s (service_unread s) (service_got s) true)
                     false (from_service s) (ended s) b (up_wire s) (down_wire s))
| read_body_end s n b :
    to_service s = true → Read n (body s) = Some ("", true, b) →
    daemon_turn s (daemon_loops s false (from_service s) (ended s) b (up_wire s) (down_wire s))
| read_service s bytes rest :
    from_service s = true → service_unread s = bytes +:+ rest → bytes ≠ "" →
    daemon_turn s (daemon_loops (service_side s rest (service_got s) (service_lost s))
                     (to_service s) true (ended s) (body s) (up_wire s) (down_wire s ++ [DownBody bytes]))
| read_service_end s :
    from_service s = true → service_unread s = "" → service_closed s = true →
    daemon_turn s (daemon_loops s (to_service s) false (ended s) (body s) (up_wire s) (down_wire s))
| both_done s :
    to_service s = false → from_service s = false → ended s = false →
    daemon_turn s (daemon_loops s false false true (body s) (up_wire s) (down_wire s ++ [DownEnd])).

(** What the two ends do. *)
Inductive outside : socket_state → socket_state → Prop :=
| visitor_writes s bytes :
    visitor_closed s = false →
    outside s (mkSocket (visitor_wrote s +:+ bytes) (visitor_unread s +:+ bytes) false (visitor_got s) (client_to_daemon s)
      (daemon_to_client s) (up_wire s) (body s) (to_service s) (from_service s) (ended s) (down_wire s) (service_wrote s)
      (service_unread s) (service_closed s) (service_got s) (visitor_lost s) (service_lost s))
| visitor_closes s :
    outside s (mkSocket (visitor_wrote s) (visitor_unread s) true (visitor_got s) (client_to_daemon s)
      (daemon_to_client s) (up_wire s) (body s) (to_service s) (from_service s) (ended s) (down_wire s) (service_wrote s)
      (service_unread s) (service_closed s) (service_got s) (visitor_lost s) (service_lost s))
| service_writes s bytes :
    service_closed s = false →
    outside s (mkSocket (visitor_wrote s) (visitor_unread s) (visitor_closed s) (visitor_got s) (client_to_daemon s)
      (daemon_to_client s) (up_wire s) (body s) (to_service s) (from_service s) (ended s) (down_wire s)
      (service_wrote s +:+ bytes) (service_unread s +:+ bytes) false (service_got s) (visitor_lost s) (service_lost s))
| service_closes s :
    outside s (mkSocket (visitor_wrote s) (visitor_unread s) (visitor_closed s) (visitor_got s) (client_to_daemon s)
      (daemon_to_client s) (up_wire s) (body s) (to_service s) (from_service s) (ended s) (down_wire s) (service_wrote s)
      (service_unread s) true (service_got s) (visitor_lost s) (service_lost s)).

Definition turn (s s' : socket_state) : Prop := server_turn s s' ∨ daemon_turn s s'.
Definition socket_step (s s' : socket_state) : Prop := turn s s' ∨ outside s s'.
Definition relayed (s : socket_state) : Prop := rtc socket_step switched s.

(** ** Bytes stay in order *)

Fixpoint up_bytes (frames : list up_frame) : string :=
  match frames with [] => "" | UpBody bytes :: frames => bytes +:+ up_bytes frames | UpEnd :: _ => "" end.
Fixpoint down_bytes (frames : list down_frame) : string :=
  match frames with [] => "" | DownBody bytes :: frames => bytes +:+ down_bytes frames | DownEnd :: _ => "" end.

Lemma up_bytes_app l bytes : UpEnd ∉ l → up_bytes (l ++ [UpBody bytes]) = up_bytes l +:+ bytes.
Proof.
  induction l as [|[b|] l IH]; intros N; [by cbn; rewrite sapp_nil_r| |by destruct N; left].
  apply not_elem_of_cons in N as [_ N]. cbn. by rewrite IH, sapp_assoc.
Qed.
Lemma down_bytes_app l bytes : DownEnd ∉ l → down_bytes (l ++ [DownBody bytes]) = down_bytes l +:+ bytes.
Proof.
  induction l as [|[b|] l IH]; intros N; [by cbn; rewrite sapp_nil_r| |by destruct N; left].
  apply not_elem_of_cons in N as [_ N]. cbn. by rewrite IH, sapp_assoc.
Qed.

(** While no write has failed the loops that end a half are running and nothing is lost. *)
Definition flowing (s : socket_state) : Prop :=
  (daemon_to_client s = true ∧ to_service s = true ∧ closed (body s) = false ∧ ended s = false
   ∧ UpEnd ∉ up_wire s ∧ DownEnd ∉ down_wire s)
  ∧ service_got s +:+ buf (body s) +:+ up_bytes (up_wire s) +:+ visitor_unread s = visitor_wrote s
  ∧ visitor_got s +:+ down_bytes (down_wire s) +:+ service_unread s = service_wrote s.
Definition none_lost (s : socket_state) : Prop := visitor_lost s = false ∧ service_lost s = false.

Lemma server_turn_flowing s s' : server_turn s s' → none_lost s' → none_lost s ∧ (flowing s → flowing s').
Proof.
  intros T [N1 N2]. destruct T as [s bytes rest Ru Un Ne|s Ru En|s bytes rest Ru W|s bytes rest Ru W Cl|s rest Ru W]; cbn in N1, N2; try done;
    (split; [by split|]); intros ((D & S & O & E & U & Dn) & Up & Down).
  - split; [|split]; cbn.
    + split_and!; [done..| |done]. rewrite elem_of_app, list_elem_of_singleton. by intros [?|?].
    + rewrite up_bytes_app, <- Up, Un by done. by rewrite !sapp_assoc.
    + done.
  - rewrite W in Dn, Down. apply not_elem_of_cons in Dn as [_ Dn]. split; [|split]; cbn; [by split_and!|done|].
    rewrite <- Down. cbn. by rewrite !sapp_assoc.
  - rewrite W in Dn. destruct Dn. left.
Qed.

Lemma daemon_turn_flowing s s' : daemon_turn s s' → none_lost s' → none_lost s ∧ (flowing s → flowing s').
Proof.
  intros T [N1 N2].
  destruct T as [s bytes rest W|s rest W|s n bytes b Ru R|s n bytes b Ru R Cl|s n b Ru R|s bytes rest Ru Un Ne|s Ru Un Cl|s D1 D2 D3];
    cbn in N1, N2; try done; (split; [by split|]); intros ((D & S & O & E & U & Dn) & Up & Down).
  - rewrite W in U, Up. apply not_elem_of_cons in U as [_ U]. unfold body_write. rewrite O.
    split; [|split]; cbn; [by split_and!| |done]. rewrite <- Up. cbn. by rewrite !sapp_assoc.
  - rewrite W in U. destruct U. left.
  - apply Read_front in R as (F & Sh & _). split; [|split]; cbn; [by rewrite Sh; split_and!| |done].
    rewrite <- Up, <- F. by rewrite !sapp_assoc.
  - apply Read_front in R as (_ & _ & X). destruct (X eq_refl) as (_ & _ & Y). congruence.
  - split; [|split]; cbn; [|done|].
    + split_and!; [done..|]. rewrite elem_of_app, list_elem_of_singleton. by intros [?|?].
    + rewrite down_bytes_app, <- Down, Un by done. by rewrite !sapp_assoc.
  - congruence.
Qed.

Lemma outside_flowing s s' : outside s s' → none_lost s' → none_lost s ∧ (flowing s → flowing s').
Proof.
  intros T [N1 N2]. destruct T; cbn in N1, N2; (split; [by split|]); intros (Fl & Up & Down); (split; [exact Fl|]); split; cbn; try done.
  - rewrite <- Up. by rewrite !sapp_assoc.
  - rewrite <- Down. by rewrite !sapp_assoc.
Qed.

Lemma relayed_flowing s : relayed s → none_lost s → flowing s.
Proof.
  intros R. pattern s. revert s R. apply rtc_ind_r.
  - intros _. split; [|done]. split_and!; [done..| |]; apply not_elem_of_nil.
  - intros s s' _ [[T|T]|T] IH N.
    + destruct (server_turn_flowing _ _ T N) as [N' F]. by apply F, IH.
    + destruct (daemon_turn_flowing _ _ T N) as [N' F]. by apply F, IH.
    + destruct (outside_flowing _ _ T N) as [N' F]. by apply F, IH.
Qed.

(** C32. As long as no write fails, each byte that the visitor or the service wrote has arrived
    or is on its way, in order: what the service got, the request's body, the stream and
    the visitor's connection hold together what the visitor wrote, and likewise back. *)
Theorem socket_bytes_in_order s :
  relayed s → visitor_lost s = false → service_lost s = false →
  service_got s +:+ buf (body s) +:+ up_bytes (up_wire s) +:+ visitor_unread s = visitor_wrote s
  ∧ visitor_got s +:+ down_bytes (down_wire s) +:+ service_unread s = service_wrote s.
Proof. intros R N1 N2. by destruct (relayed_flowing s R (conj N1 N2)) as (_ & H). Qed.

(** A WebSocket ends only when a write fails: until then neither half sends its last frame,
    even when the visitor and the service have both closed their connections, for the
    server waits for the daemon's last frame and the daemon for the server's. *)
Theorem socket_never_ends s :
  relayed s → visitor_lost s = false → service_lost s = false →
  ended s = false ∧ daemon_to_client s = true ∧ UpEnd ∉ up_wire s ∧ DownEnd ∉ down_wire s.
Proof. intros R N1 N2. destruct (relayed_flowing s R (conj N1 N2)) as ((H1 & H2 & H3 & H4 & H5 & H6) & _). done. Qed.

(** ** Examples *)

(** The service and the visitor close, and the loops that read from them end. *)
Definition hung : socket_state :=
  mkSocket "" "" true "" false true [] newRequestBody true false false [] "" "" true "" false false.

Lemma hung_relayed : relayed hung.
Proof.
  eapply rtc_l; [right; apply service_closes|]. eapply rtc_l; [right; apply visitor_closes|].
  eapply rtc_l; [left; right; by apply read_service_end|].
  eapply rtc_l; [left; left; by apply read_visitor_end; [|left]|]. apply rtc_refl.
Qed.

(** Nothing can happen any more, and the goroutines of both halves stay. *)
Example both_closed_and_stuck : relayed hung ∧ ∀ s, ¬ turn hung s.
Proof.
  split; [apply hung_relayed|]. intros s [T|T]; inversion T; subst; try discriminate.
  all: unfold Read in *; cbn in *; try discriminate.
Qed.

Lemma socket_never_ends_witness : ended hung = false ∧ daemon_to_client hung = true ∧ visitor_closed hung = true ∧ service_closed hung = true.
Proof.
  destruct (socket_never_ends hung hung_relayed eq_refl eq_refl) as (H1 & H2 & _). by split_and!.
Defined.

(** A greeting on its way. *)
Definition greeting : socket_state :=
  mkSocket "hi there" "there" false "" true true [UpBody "hi "] newRequestBody true true false [] "" "" false "" false false.
Lemma greeting_relayed : relayed greeting.
Proof.
  eapply rtc_l; [right; by apply (visitor_writes switched "hi there")|].
  eapply rtc_l; [left; left; by eapply (read_visitor _ "hi " "there")|]. apply rtc_refl.
Qed.

Lemma socket_bytes_in_order_witness :
  service_got greeting +:+ buf (body greeting) +:+ up_bytes (up_wire greeting) +:+ visitor_unread greeting = "hi there".
Proof. exact (proj1 (socket_bytes_in_order greeting greeting_relayed eq_refl eq_refl)). Defined.
