(* ===== verification/ServerConfig.v ===== *)
(** * The server's configuration ([internal/config], [cmd/nekode/main.go])

    [Load]: defaults and environment variables, checked; [serve]: the flags over them,
    checked again; and the server's id, kept in a file.  The host is that of [DaemonConfig].
    The texts of errors are left out: [server_fault] tells which check failed. *)
From S2P Require Import Prelude GoStr GoText Json JsonValue GoFlag Sql Models Schema Store HttpBase DaemonConfig.

#[local] Open Scope go_scope.

(** ** Data *)

Module Config.
Record Config := mk {
  Addr : string;
  DaemonTransport : string;
  DaemonRPCURL : string;
  BaseURL : string;
  WebDistDir : string;
  DataDir : string;
  DBType : string;
  DBDSN : string;
  LegacyDBPath : string;
  CacheDriver : string;
  CacheDir : string;
  CacheTTL : Z;
  CacheKeyVersion : string;
  CacheRedisAddr : string;
  CacheRedisUser : string;
  CacheRedisPass : string;
  CacheRedisDB : Z;
  BootstrapAdminUsername : string;
  BootstrapAdminPassword : string;
  BootstrapAdminName : string;
  BootstrapDisableWeb : bool
}.
Definition zero : Config := mk "" "" "" "" "" "" "" "" "" "" "" 0%Z "" "" "" "" 0%Z "" "" "" false.
Definition set_Addr (v : string) (r : Config) : Config := mk v (DaemonTransport r) (DaemonRPCURL r) (BaseURL r) (WebDistDir r) (DataDir r) (DBType r) (DBDSN r) (LegacyDBPath r) (CacheDriver r) (CacheDir r) (CacheTTL r) (CacheKeyVersion r) (CacheRedisAddr r) (CacheRedisUser r) (CacheRedisPass r) (CacheRedisDB r) (BootstrapAdminUsername r) (BootstrapAdminPassword r) (BootstrapAdminName r) (BootstrapDisableWeb r).
Definition set_DaemonTransport (v : string) (r : Config) : Config := mk (Addr r) v (DaemonRPCURL r) (BaseURL r) (WebDistDir r) (DataDir r) (DBType r) (DBDSN r) (LegacyDBPath r) (CacheDriver r) (CacheDir r) (CacheTTL r) (CacheKeyVersion r) (CacheRedisAddr r) (CacheRedisUser r) (CacheRedisPass r) (CacheRedisDB r) (BootstrapAdminUsername r) (BootstrapAdminPassword r) (BootstrapAdminName r) (BootstrapDisableWeb r).
Definition set_DaemonRPCURL (v : string) (r : Config) : Config := mk (Addr r) (DaemonTransport r) v (BaseURL r) (WebDistDir r) (DataDir r) (DBType r) (DBDSN r) (LegacyDBPath r) (CacheDriver r) (CacheDir r) (CacheTTL r) (CacheKeyVersion r) (CacheRedisAddr r) (CacheRedisUser r) (CacheRedisPass r) (CacheRedisDB r) (BootstrapAdminUsername r) (BootstrapAdminPassword r) (BootstrapAdminName r) (BootstrapDisableWeb r).
Definition set_BaseURL (v : string) (r : Config) : Config := mk (Addr r) (DaemonTransport r) (DaemonRPCURL r) v (WebDistDir r) (DataDir r) (DBType r) (DBDSN r) (LegacyDBPath r) (CacheDriver r) (CacheDir r) (CacheTTL r) (CacheKeyVersion r) (CacheRedisAddr r) (CacheRedisUser r) (CacheRedisPass r) (CacheRedisDB r) (BootstrapAdminUsername r) (BootstrapAdminPassword r) (BootstrapAdminName r) (BootstrapDisableWeb r).
Definition set_WebDistDir (v : string) (r : Config) : Config := mk (Addr r) (DaemonTransport r) (DaemonRPCURL r) (BaseURL r) v (DataDir r) (DBType r) (DBDSN r) (LegacyDBPath r) (CacheDriver r) (CacheDir r) (CacheTTL r) (CacheKeyVersion r) (CacheRedisAddr r) (CacheRedisUser r) (CacheRedisPass r) (CacheRedisDB r) (BootstrapAdminUsername r) (BootstrapAdminPassword r) (BootstrapAdminName r) (BootstrapDisableWeb r).
Definition set_DataDir (v : string) (r : Config) : Config := mk (Addr r) (DaemonTransport r) (DaemonRPCURL r) (BaseURL r) (WebDistDir r) v (DBType r) (DBDSN r) (LegacyDBPath r) (CacheDriver r) (CacheDir r) (CacheTTL r) (CacheKeyVersion r) (CacheRedisAddr r) (CacheRedisUser r) (CacheRedisPass r) (CacheRedisDB r) (BootstrapAdminUsername r) (BootstrapAdminPassword r) (BootstrapAdminName r) (BootstrapDisableWeb r).
Definition set_DBType (v : string) (r : Config) : Config := mk (Addr r) (DaemonTransport r) (DaemonRPCURL r) (BaseURL r) (WebDistDir r) (DataDir r) v (DBDSN r) (LegacyDBPath r) (CacheDriver r) (CacheDir r) (CacheTTL r) (CacheKeyVersion r) (CacheRedisAddr r) (CacheRedisUser r) (CacheRedisPass r) (CacheRedisDB r) (BootstrapAdminUsername r) (BootstrapAdminPassword r) (BootstrapAdminName r) (BootstrapDisableWeb r).
Definition set_DBDSN (v : string) (r : Config) : Config := mk (Addr r) (DaemonTransport r) (DaemonRPCURL r) (BaseURL r) (WebDistDir r) (DataDir r) (DBType r) v (LegacyDBPath r) (CacheDriver r) (CacheDir r) (CacheTTL r) (CacheKeyVersion r) (CacheRedisAddr r) (CacheRedisUser r) (CacheRedisPass r) (CacheRedisDB r) (BootstrapAdminUsername r) (BootstrapAdminPassword r) (BootstrapAdminName r) (BootstrapDisableWeb r).
Definition set_LegacyDBPath (v : string) (r : Config) : Config := mk (Addr r) (DaemonTransport r) (DaemonRPCURL r) (BaseURL r) (WebDistDir r) (DataDir r) (DBType r) (DBDSN r) v (CacheDriver r) (CacheDir r) (CacheTTL r) (CacheKeyVersion r) (CacheRedisAddr r) (CacheRedisUser r) (CacheRedisPass r) (CacheRedisDB r) (BootstrapAdminUsername r) (BootstrapAdminPassword r) (BootstrapAdminName r) (BootstrapDisableWeb r).
Definition set_CacheDriver (v : string) (r : Config) : Config := mk (Addr r) (DaemonTransport r) (DaemonRPCURL r) (BaseURL r) (WebDistDir r) (DataDir r) (DBType r) (DBDSN r) (LegacyDBPath r) v (CacheDir r) (CacheTTL r) (CacheKeyVersion r) (CacheRedisAddr r) (CacheRedisUser r) (CacheRedisPass r) (CacheRedisDB r) (BootstrapAdminUsername r) (BootstrapAdminPassword r) (BootstrapAdminName r) (BootstrapDisableWeb r).
Definition set_CacheDir (v : string) (r : Config) : Config := mk (Addr r) (DaemonTransport r) (DaemonRPCURL r) (BaseURL r) (WebDistDir r) (DataDir r) (DBType r) (DBDSN r) (LegacyDBPath r) (CacheDriver r) v (CacheTTL r) (CacheKeyVersion r) (CacheRedisAddr r) (CacheRedisUser r) (CacheRedisPass r) (CacheRedisDB r) (BootstrapAdminUsername r) (BootstrapAdminPassword r) (BootstrapAdminName r) (BootstrapDisableWeb r).
Definition set_CacheTTL (v : Z) (r : Config) : Config := mk (Addr r) (DaemonTransport r) (DaemonRPCURL r) (BaseURL r) (WebDistDir r) (DataDir r) (DBType r) (DBDSN r) (LegacyDBPath r) (CacheDriver r) (CacheDir r) v (CacheKeyVersion r) (CacheRedisAddr r) (CacheRedisUser r) (CacheRedisPass r) (CacheRedisDB r) (BootstrapAdminUsername r) (BootstrapAdminPassword r) (BootstrapAdminName r) (BootstrapDisableWeb r).
Definition set_CacheKeyVersion (v : string) (r : Config) : Config := mk (Addr r) (DaemonTransport r) (DaemonRPCURL r) (BaseURL r) (WebDistDir r) (DataDir r) (DBType r) (DBDSN r) (LegacyDBPath r) (CacheDriver r) (CacheDir r) (CacheTTL r) v (CacheRedisAddr r) (CacheRedisUser r) (CacheRedisPass r) (CacheRedisDB r) (BootstrapAdminUsername r) (BootstrapAdminPassword r) (BootstrapAdminName r) (BootstrapDisableWeb r).
Definition set_CacheRedisAddr (v : string) (r : Config) : Config := mk (Addr r) (DaemonTransport r) (DaemonRPCURL r) (BaseURL r) (WebDistDir r) (DataDir r) (DBType r) (DBDSN r) (LegacyDBPath r) (CacheDriver r) (CacheDir r) (CacheTTL r) (CacheKeyVersion r) v (CacheRedisUser r) (CacheRedisPass r) (CacheRedisDB r) (BootstrapAdminUsername r) (BootstrapAdminPassword r) (BootstrapAdminName r) (BootstrapDisableWeb r).
Definition set_CacheRedisUser (v : string) (r : Config) : Config := mk (Addr r) (DaemonTransport r) (DaemonRPCURL r) (BaseURL r) (WebDistDir r) (DataDir r) (DBType r) (DBDSN r) (LegacyDBPath r) (CacheDriver r) (CacheDir r) (CacheTTL r) (CacheKeyVersion r) (CacheRedisAddr r) v (CacheRedisPass r) (CacheRedisDB r) (BootstrapAdminUsername r) (BootstrapAdminPassword r) (BootstrapAdminName r) (BootstrapDisableWeb r).
Definition set_CacheRedisPass (v : string) (r : Config) : Config := mk (Addr r) (DaemonTransport r) (DaemonRPCURL r) (BaseURL r) (WebDistDir r) (DataDir r) (DBType r) (DBDSN r) (LegacyDBPath r) (CacheDriver r) (CacheDir r) (CacheTTL r) (CacheKeyVersion r) (CacheRedisAddr r) (CacheRedisUser r) v (CacheRedisDB r) (BootstrapAdminUsername r) (BootstrapAdminPassword r) (BootstrapAdminName r) (BootstrapDisableWeb r).
Definition set_CacheRedisDB (v : Z) (r : Config) : Config := mk (Addr r) (DaemonTransport r) (DaemonRPCURL r) (BaseURL r) (WebDistDir r) (DataDir r) (DBType r) (DBDSN r) (LegacyDBPath r) (CacheDriver r) (CacheDir r) (CacheTTL r) (CacheKeyVersion r) (CacheRedisAddr r) (CacheRedisUser r) (CacheRedisPass r) v (BootstrapAdminUsername r) (BootstrapAdminPassword r) (BootstrapAdminName r) (BootstrapDisableWeb r).
Definition set_BootstrapAdminUsername (v : string) (r : Config) : Config := mk (Addr r) (DaemonTransport r) (DaemonRPCURL r) (BaseURL r) (WebDistDir r) (DataDir r) (DBType r) (DBDSN r) (LegacyDBPath r) (CacheDriver r) (CacheDir r) (CacheTTL r) (CacheKeyVersion r) (CacheRedisAddr r) (CacheRedisUser r) (CacheRedisPass r) (CacheRedisDB r) v (BootstrapAdminPassword r) (BootstrapAdminName r) (BootstrapDisableWeb r).
Definition set_BootstrapAdminPassword (v : string) (r : Config) : Config := mk (Addr r) (DaemonTransport r) (DaemonRPCURL r) (BaseURL r) (WebDistDir r) (DataDir r) (DBType r) (DBDSN r) (LegacyDBPath r) (CacheDriver r) (CacheDir r) (CacheTTL r) (CacheKeyVersion r) (CacheRedisAddr r) (CacheRedisUser r) (CacheRedisPass r) (CacheRedisDB r) (BootstrapAdminUsername r) v (BootstrapAdminName r) (BootstrapDisableWeb r).
Definition set_BootstrapAdminName (v : string) (r : Config) : Config := mk (Addr r) (DaemonTransport r) (DaemonRPCURL r) (BaseURL r) (WebDistDir r) (DataDir r) (DBType r) (DBDSN r) (LegacyDBPath r) (CacheDriver r) (CacheDir r) (CacheTTL r) (CacheKeyVersion r) (CacheRedisAddr r) (CacheRedisUser r) (CacheRedisPass r) (CacheRedisDB r) (BootstrapAdminUsername r) (BootstrapAdminPassword r) v (BootstrapDisableWeb r).
Definition set_BootstrapDisableWeb (v : bool) (r : Config) : Config := mk (Addr r) (DaemonTransport r) (DaemonRPCURL r) (BaseURL r) (WebDistDir r) (DataDir r) (DBType r) (DBDSN r) (LegacyDBPath r) (CacheDriver r) (CacheDir r) (CacheTTL r) (CacheKeyVersion r) (CacheRedisAddr r) (CacheRedisUser r) (CacheRedisPass r) (CacheRedisDB r) (BootstrapAdminUsername r) (BootstrapAdminPassword r) (BootstrapAdminName r) v.
End Config.


Module Srv := Config.

Definition DefaultAddr : string := ":18790".
Definition DefaultBaseURL : string := "http://localhost:18790".
Definition DefaultDBType : string := "sqlite".

Inductive server_fault :=
| HomeFault | TtlFault | RedisDBFault | DisableWebFault
| ServeFlagFault (e : flag_error)
| AddrRequired | TransportUnknown | RpcUrlInvalid | DataDirRequired | BaseUrlInvalid
| SqliteRequired | DsnRequired | DbTypeUnknown | BadgerDirRequired | RedisAddrRequired | CacheDriverUnknown
| TtlNegative | KeyVersionRequired.

Section server.
Context {Fs : FloatScale} {Url : UrlLib} {Uni : Unicode}.

(** ** The environment *)

Definition normalizeDBType (value : string) : string :=
  let v := ToLower (TrimSpace value) in
  if bool_decide (v ∈ [""; "sqlite"; "sqlite3"]) then "sqlite"
  else if bool_decide (v ∈ ["postgres"; "postgresql"]) then "postgres"
  else v.

Definition normalizeCacheDriver (value : string) : string :=
  let v := ToLower (TrimSpace value) in
  if bool_decide (v ∈ [""; "badger"]) then "badger"
  else if bool_decide (v ∈ ["none"; "off"; "disabled"]) then "none"
  else v.

Definition normalizeDaemonTransport (value : string) : string :=
  let v := ToLower (TrimSpace value) in
  if bool_decide (v ∈ [""; "connect"; "connect-rpc"; "connectrpc"]) then "connect" else v.

(** A variable that is not blank has to parse. *)
Definition parsed_env {A} (h : Host) (name : string) (fallback : A) (parse : string → option A) (fault : server_fault) : server_fault + A :=
  let value := TrimSpace (Getenv h name) in
  if value =s "" then inr fallback else match parse value with Some v => inr v | None => inl fault end.
Definition durationEnv (h : Host) (name : string) (fallback : Z) (fault : server_fault) : server_fault + Z :=
  parsed_env h name fallback ParseDuration fault.
Definition intEnv (h : Host) (name : string) (fallback : Z) (fault : server_fault) : server_fault + Z :=
  parsed_env h name fallback ParseInt fault.
Definition boolEnv (h : Host) (name : string) (fallback : bool) (fault : server_fault) : server_fault + bool :=
  parsed_env h name fallback ParseBool fault.

Definition text_config (h : Host) (home : string) : Srv.Config :=
  let get name := TrimSpace (Getenv h name) in
  Srv.zero
  |> Srv.set_Addr (env h "NEKODE_ADDR" DefaultAddr)
  |> Srv.set_DaemonTransport (env h "NEKODE_DAEMON_TRANSPORT" "connect")
  |> Srv.set_DaemonRPCURL (get "NEKODE_DAEMON_RPC_URL")
  |> Srv.set_BaseURL (env h "NEKODE_BASE_URL" DefaultBaseURL)
  |> Srv.set_WebDistDir (get "NEKODE_WEB_DIST_DIR")
  |> Srv.set_DataDir (env h "NEKODE_DATA_DIR" (path_Join [home; ".nekode"]))
  |> Srv.set_DBType (env h "NEKODE_DB_TYPE" DefaultDBType)
  |> Srv.set_DBDSN (get "NEKODE_DB_DSN")
  |> Srv.set_LegacyDBPath (get "NEKODE_DB_PATH")
  |> Srv.set_CacheDriver (env h "NEKODE_CACHE_DRIVER" "badger")
  |> Srv.set_CacheDir (get "NEKODE_CACHE_DIR")
  |> Srv.set_CacheKeyVersion (env h "NEKODE_CACHE_KEY_VERSION" "v1")
  |> Srv.set_CacheRedisAddr (get "NEKODE_CACHE_REDIS_ADDR")
  |> Srv.set_CacheRedisUser (get "NEKODE_CACHE_REDIS_USERNAME")
  |> Srv.set_CacheRedisPass (get "NEKODE_CACHE_REDIS_PASSWORD")
  |> Srv.set_BootstrapAdminUsername (get "NEKODE_BOOTSTRAP_ADMIN_USERNAME")
  |> Srv.set_BootstrapAdminPassword (get "NEKODE_BOOTSTRAP_ADMIN_PASSWORD")
  |> Srv.set_BootstrapAdminName (get "NEKODE_BOOTSTRAP_ADMIN_NAME").

(** The paths that follow from others. *)
Definition derived (c : Srv.Config) : Srv.Config :=
  let dsn := if (Srv.DBDSN c =s "") && negb (Srv.LegacyDBPath c =s "") then Srv.LegacyDBPath c else Srv.DBDSN c in
  let dsn := if (dsn =s "") && (normalizeDBType (Srv.DBType c) =s "sqlite") then path_Join [Srv.DataDir c; "nekode.db"] else dsn in
  c |> Srv.set_DBDSN dsn
    |> Srv.set_CacheDir (if Srv.CacheDir c =s "" then path_Join [Srv.DataDir c; "cache"] else Srv.CacheDir c)
    |> Srv.set_DaemonTransport (normalizeDaemonTransport (Srv.DaemonTransport c)).

Definition blank (s : string) : bool := TrimSpace s =s "".

Definition database_fault (c : Srv.Config) : option server_fault :=
  let db := normalizeDBType (Srv.DBType c) in
  if db =s "sqlite" then if blank (Srv.DBDSN c) then Some SqliteRequired else None
  else if (db =s "postgres") || (db =s "mysql") then if blank (Srv.DBDSN c) then Some DsnRequired else None
  else Some DbTypeUnknown.

Definition cache_fault (c : Srv.Config) : option server_fault :=
  let cache := normalizeCacheDriver (Srv.CacheDriver c) in
  if cache =s "badger" then if blank (Srv.CacheDir c) then Some BadgerDirRequired else None
  else if cache =s "redis" then if blank (Srv.CacheRedisAddr c) then Some RedisAddrRequired else None
  else if cache =s "none" then None
  else Some CacheDriverUnknown.

(** The checks, in the order of the code; [None] is no error. *)
Definition Validate (c : Srv.Config) : option server_fault :=
  if blank (Srv.Addr c) then Some AddrRequired
  else if negb (normalizeDaemonTransport (Srv.DaemonTransport c) =s "connect") then Some TransportUnknown
  else if negb (blank (Srv.DaemonRPCURL c)) && negb (ParseRequestURI (Srv.DaemonRPCURL c)) then Some RpcUrlInvalid
  else if blank (Srv.DataDir c) then Some DataDirRequired
  else if negb (ParseRequestURI (Srv.BaseURL c)) then Some BaseUrlInvalid
  else match database_fault c with
  | Some fault => Some fault
  | None =>
      match cache_fault c with
      | Some fault => Some fault
      | None =>
          if (Srv.CacheTTL c <? 0)%Z then Some TtlNegative
          else if blank (Srv.CacheKeyVersion c) then Some KeyVersionRequired
          else None
      end
  end.

Definition checked (c : Srv.Config) : server_fault + Srv.Config :=
  match Validate c with Some fault => inl fault | None => inr c end.

Definition Load (h : Host) : server_fault + Srv.Config :=
  match UserHomeDir h with
  | None => inl HomeFault
  | Some home =>
      match durationEnv h "NEKODE_CACHE_TTL" (300 * second)%Z TtlFault with
      | inl fault => inl fault
      | inr ttl =>
          match intEnv h "NEKODE_CACHE_REDIS_DB" 0 RedisDBFault with
          | inl fault => inl fault
          | inr db =>
              match boolEnv h "NEKODE_BOOTSTRAP_DISABLE_WEB" false DisableWebFault with
              | inl fault => inl fault
              | inr web =>
                  checked (derived (text_config h home |> Srv.set_CacheTTL ttl |> Srv.set_CacheRedisDB db
                                    |> Srv.set_BootstrapDisableWeb web))
              end
          end
      end
  end.

(** ** The flags *)

Definition serve_flags : list (flag Srv.Config) :=
  [string_flag "addr" Srv.set_Addr; string_flag "daemon-transport" Srv.set_DaemonTransport;
   string_flag "daemon-rpc-url" Srv.set_DaemonRPCURL; string_flag "base-url" Srv.set_BaseURL;
   string_flag "web-dist-dir" Srv.set_WebDistDir; string_flag "data-dir" Srv.set_DataDir;
   string_flag "db-type" Srv.set_DBType; string_flag "db-dsn" Srv.set_DBDSN;
   string_flag "cache-driver" Srv.set_CacheDriver; string_flag "cache-dir" Srv.set_CacheDir].

(** The configuration that [serve] goes on with. *)
Definition serve_config (h : Host) (args : list string) : server_fault + Srv.Config :=
  match Load h with
  | inl fault => inl fault
  | inr c =>
      match parse_flags serve_flags c args with
      | inl e => inl (ServeFlagFault e)
      | inr c => checked c
      end
  end.

Definition DatabaseType (c : Srv.Config) : string := normalizeDBType (Srv.DBType c).

(** The command of [run]. *)
Inductive command := Serve (args : list string) | ShowVersion | ShowUsage | UnknownCommand (name : string).
Definition run_command (args : list string) : command :=
  match args with
  | [] => Serve []
  | name :: args =>
      if name =s "serve" then Serve args
      else if name =s "version" then ShowVersion
      else if bool_decide (name ∈ ["help"; "-h"; "--help"]) then ShowUsage
      else UnknownCommand name
  end.

(** ** The server's id *)

Definition server_id_path (c : Srv.Config) : string := path_Join [Srv.DataDir c; "server_id"].

Definition newline : string := String (byte 10) "".

(** [made] and [written] are whether the directory and the file could be written; the new
    file is the second part. *)
Definition ServerID (h : Host) (c : Srv.Config) (id : string) (made written : bool) : option (string * option string) :=
  let create := if made && written then Some (id, Some (id +:+ newline)) else None in
  match ReadFile h (server_id_path c) with
  | Content text => if TrimSpace text =s "" then create else Some (TrimSpace text, None)
  | NotExist => create
  | Unreadable => None
  end.

(** ** What a configuration satisfies *)

(** What opening the database and the cache, and listening, rely on. *)
Record servable (c : Srv.Config) : Prop := {
  servable_addr : TrimSpace (Srv.Addr c) ≠ "" ∧ TrimSpace (Srv.DataDir c) ≠ "";
  servable_urls : ParseRequestURI (Srv.BaseURL c) = true
                  ∧ (TrimSpace (Srv.DaemonRPCURL c) = "" ∨ ParseRequestURI (Srv.DaemonRPCURL c) = true);
  servable_database : DatabaseType c ∈ ["sqlite"; "postgres"; "mysql"] ∧ TrimSpace (Srv.DBDSN c) ≠ "";
  servable_cache : normalizeCacheDriver (Srv.CacheDriver c) ∈ ["badger"; "redis"; "none"] ∧ (0 ≤ Srv.CacheTTL c)%Z
                   ∧ (normalizeCacheDriver (Srv.CacheDriver c) = "badger" → TrimSpace (Srv.CacheDir c) ≠ "")
                   ∧ (normalizeCacheDriver (Srv.CacheDriver c) = "redis" → TrimSpace (Srv.CacheRedisAddr c) ≠ "")
}.

Lemma blank_false s : blank s = false → TrimSpace s ≠ "".
Proof. apply String.eqb_neq. Qed.

Lemma database_fault_none c :
  database_fault c = None → DatabaseType c ∈ ["sqlite"; "postgres"; "mysql"] ∧ TrimSpace (Srv.DBDSN c) ≠ "".
Proof.
  unfold database_fault, DatabaseType. cbn zeta.
  destruct (String.eqb_spec (normalizeDBType (Srv.DBType c)) "sqlite") as [-> |_].
  - destruct (blank _) eqn:E; [done|]. split; [left|by apply blank_false].
  - destruct (_ || _) eqn:D; [|done]. destruct (blank _) eqn:E; [done|]. split; [|by apply blank_false].
    apply orb_true_iff in D as [->%eqb_eq_str| ->%eqb_eq_str]; rewrite !elem_of_cons; auto.
Qed.

Lemma cache_fault_none c :
  cache_fault c = None →
  let driver := normalizeCacheDriver (Srv.CacheDriver c) in
  driver ∈ ["badger"; "redis"; "none"] ∧ (driver = "badger" → TrimSpace (Srv.CacheDir c) ≠ "")
  ∧ (driver = "redis" → TrimSpace (Srv.CacheRedisAddr c) ≠ "").
Proof.
  unfold cache_fault. cbn zeta. destruct (String.eqb_spec (normalizeCacheDriver (Srv.CacheDriver c)) "badger") as [-> |_].
  { destruct (blank _) eqn:E; [done|]. intros _. split; [left|]. split; [intros _; by apply blank_false|done]. }
  destruct (String.eqb_spec (normalizeCacheDriver (Srv.CacheDriver c)) "redis") as [-> |_].
  { destruct (blank _) eqn:E; [done|]. intros _. split; [right; left|]. split; [done|]. intros _. by apply blank_false. }
  destruct (String.eqb_spec (normalizeCacheDriver (Srv.CacheDriver c)) "none") as [-> |_]; [|done].
  intros _. split; [by do 2 right; left|done].
Qed.

Lemma checked_servable c c' : checked c = inr c' → c = c' ∧ servable c'.
Proof.
  unfold checked. destruct (Validate c) eqn:V; [done|]. intros <-%(inj inr). split; [done|]. revert V. unfold Validate.
  destruct (blank (Srv.Addr c)) eqn:A; [done|]. destruct (negb (_ =s _)); [done|].
  destruct (negb (blank _) && _) eqn:R; [done|]. destruct (blank (Srv.DataDir c)) eqn:D; [done|].
  destruct (ParseRequestURI (Srv.BaseURL c)) eqn:U; [|done]. cbn [negb].
  destruct (database_fault c) eqn:Db; [done|]. destruct (cache_fault c) eqn:Ca; [done|].
  destruct (Z.ltb_spec (Srv.CacheTTL c) 0); [done|]. intros _.
  apply database_fault_none in Db. apply cache_fault_none in Ca as (Ca1 & Ca2 & Ca3).
  split; [by split; apply blank_false| |done|by split_and!]. split; [done|].
  apply andb_false_iff in R as [R%negb_false_iff|R%negb_false_iff]; [left; by apply eqb_eq_str|by right].
Qed.

(** Whatever the environment and the flags say, a configuration that is accepted is one the
    server can start with. *)
Theorem serve_config_servable h args c : serve_config h args = inr c → servable c.
Proof.
  unfold serve_config. destruct (Load h) as [|c0]; [done|]. destruct (parse_flags _ _ _) as [|c1]; [done|].
  intros H. by apply checked_servable in H as [_ H].
Qed.

(** A server keeps its id: once the file holds one, without blanks around it, it is read
    back and not replaced. *)
Theorem ServerID_stable h c id made written given file h' id' made' written' :
  ServerID h c id made written = Some (given, Some file) → TrimSpace (given +:+ newline) = given → given ≠ "" →
  ReadFile h' (server_id_path c) = Content file → ServerID h' c id' made' written' = Some (given, None).
Proof.
  intros H T N R. unfold ServerID. rewrite R.
  assert (E : file = given +:+ newline).
  { unfold ServerID in H. destruct (ReadFile h (server_id_path c)); [destruct (_ =s _)| |];
      destruct (made && written); try done; by injection H as <- <-. }
  subst file. rewrite T. by rewrite (proj2 (String.eqb_neq _ _) N).
Qed.

End server.

(** ** Examples *)

Section examples.
Local Existing Instance exact_scale.
Local Existing Instance ascii_unicode.
Local Instance schemed_url : UrlLib := {| ParseRequestURI url := Contains url "://" |}.

Definition box : Host := mkHost "box" (λ _, "") (Some "/root") (λ _, NotExist).
Definition moved : Srv.Config := match serve_config box ["--data-dir"; "/data"] with inr c => c | inl _ => Srv.zero end.

Lemma serve_config_servable_witness : serve_config box ["--data-dir"; "/data"] = inr moved ∧ servable moved.
Proof. split; [vm_compute; reflexivity|]. apply (serve_config_servable box ["--data-dir"; "/data"]). vm_compute. reflexivity. Defined.

(** The flag of the data directory moves neither the database nor the cache. *)
Example data_dir_flag_leaves_database :
  (Srv.DataDir moved, Srv.DBDSN moved, Srv.CacheDir moved) = ("/data", "/root/.nekode/nekode.db", "/root/.nekode/cache").
Proof. vm_compute. reflexivity. Qed.

(** The flag of the database's type leaves the path of the SQLite file as its DSN. *)
Example db_type_flag_keeps_dsn :
  sum_map id (λ c, (DatabaseType c, Srv.DBDSN c)) (serve_config box ["--db-type=postgres"])
  = inr ("postgres", "/root/.nekode/nekode.db").
Proof. vm_compute. reflexivity. Qed.

Definition box_with_id : Host := mkHost "box" (λ _, "") (Some "/root") (λ path, if path =s "/data/server_id" then Content ("srv_1" +:+ String (byte 10) "") else NotExist).
Lemma ServerID_stable_witness : ServerID box_with_id moved "srv_2" true true = Some ("srv_1", None).
Proof.
  apply (ServerID_stable box moved "srv_1" true true "srv_1" ("srv_1" +:+ String (byte 10) ""));
    [vm_compute; reflexivity|vm_compute; reflexivity|discriminate|vm_compute; reflexivity].
Defined.

End examples.
