(* ===== verification/Enrollment.v ===== *)
(** * Enrollment of daemons ([internal/server/daemon_enrollment.go, connect_auth.go])

    A daemon connects with a token that the server keeps as a hash, one file per
    enrollment.  An install code, good for an hour and until the daemon first connects,
    exchanges for a new token.  The directory is a map from file names to their contents;
    every operation holds the store's mutex and is one step.  Whether the file system
    lets a file be written, and the random bytes, are arguments. *)
From S2P Require Import Prelude GoStr GoText Json JsonValue Base64 Sql Models Proto Rpc Http.

Module daemonEnrollment.
Record daemonEnrollment := mk {
  ID : string;
  TokenHash : string;
  TokenPrefix : string;
  InstallCodeHash : string;
  InstallCodePrefix : string;
  InstallCodeExpiry : Z;
  InstallCodeUsed : Z;
  DisplayName : string;
  ComputerID : string;
  DaemonID : string;
  Hostname : string;
  CreatedUnix : Z;
  ExpiresUnix : Z;
  ConnectedUnix : Z;
  LastHeartbeatUnix : Z;
  RevokedUnix : Z;
  Status : string
}.
Definition zero : daemonEnrollment := mk "" "" "" "" "" 0%Z 0%Z "" "" "" "" 0%Z 0%Z 0%Z 0%Z 0%Z "".
Definition set_ID (v : string) (r : daemonEnrollment) : daemonEnrollment := mk v (TokenHash r) (TokenPrefix r) (InstallCodeHash r) (InstallCodePrefix r) (InstallCodeExpiry r) (InstallCodeUsed r) (DisplayName r) (ComputerID r) (DaemonID r) (Hostname r) (CreatedUnix r) (ExpiresUnix r) (ConnectedUnix r) (LastHeartbeatUnix r) (RevokedUnix r) (Status r).
Definition set_TokenHash (v : string) (r : daemonEnrollment) : daemonEnrollment := mk (ID r) v (TokenPrefix r) (InstallCodeHash r) (InstallCodePrefix r) (InstallCodeExpiry r) (InstallCodeUsed r) (DisplayName r) (ComputerID r) (DaemonID r) (Hostname r) (CreatedUnix r) (ExpiresUnix r) (ConnectedUnix r) (LastHeartbeatUnix r) (RevokedUnix r) (Status r).
Definition set_TokenPrefix (v : string) (r : daemonEnrollment) : daemonEnrollment := mk (ID r) (TokenHash r) v (InstallCodeHash r) (InstallCodePrefix r) (InstallCodeExpiry r) (InstallCodeUsed r) (DisplayName r) (ComputerID r) (DaemonID r) (Hostname r) (CreatedUnix r) (ExpiresUnix r) (ConnectedUnix r) (LastHeartbeatUnix r) (RevokedUnix r) (Status r).
Definition set_InstallCodeHash (v : string) (r : daemonEnrollment) : daemonEnrollment := mk (ID r) (TokenHash r) (TokenPrefix r) v (InstallCodePrefix r) (InstallCodeExpiry r) (InstallCodeUsed r) (DisplayName r) (ComputerID r) (DaemonID r) (Hostname r) (CreatedUnix r) (ExpiresUnix r) (ConnectedUnix r) (LastHeartbeatUnix r) (RevokedUnix r) (Status r).
Definition set_InstallCodePrefix (v : string) (r : daemonEnrollment) : daemonEnrollment := mk (ID r) (TokenHash r) (TokenPrefix r) (InstallCodeHash r) v (InstallCodeExpiry r) (InstallCodeUsed r) (DisplayName r) (ComputerID r) (DaemonID r) (Hostname r) (CreatedUnix r) (ExpiresUnix r) (ConnectedUnix r) (LastHeartbeatUnix r) (RevokedUnix r) (Status r).
Definition set_InstallCodeExpiry (v : Z) (r : daemonEnrollment) : daemonEnrollment := mk (ID r) (TokenHash r) (TokenPrefix r) (InstallCodeHash r) (InstallCodePrefix r) v (InstallCodeUsed r) (DisplayName r) (ComputerID r) (DaemonID r) (Hostname r) (CreatedUnix r) (ExpiresUnix r) (ConnectedUnix r) (LastHeartbeatUnix r) (RevokedUnix r) (Status r).
Definition set_InstallCodeUsed (v : Z) (r : daemonEnrollment) : daemonEnrollment := mk (ID r) (TokenHash r) (TokenPrefix r) (InstallCodeHash r) (InstallCodePrefix r) (InstallCodeExpiry r) v (DisplayName r) (ComputerID r) (DaemonID r) (Hostname r) (CreatedUnix r) (ExpiresUnix r) (ConnectedUnix r) (LastHeartbeatUnix r) (RevokedUnix r) (Status r).
Definition set_DisplayName (v : string) (r : daemonEnrollment) : daemonEnrollment := mk (ID r) (TokenHash r) (TokenPrefix r) (InstallCodeHash r) (InstallCodePrefix r) (InstallCodeExpiry r) (InstallCodeUsed r) v (ComputerID r) (DaemonID r) (Hostname r) (CreatedUnix r) (ExpiresUnix r) (ConnectedUnix r) (LastHeartbeatUnix r) (RevokedUnix r) (Status r).
Definition set_ComputerID (v : string) (r : daemonEnrollment) : daemonEnrollment := mk (ID r) (TokenHash r) (TokenPrefix r) (InstallCodeHash r) (InstallCodePrefix r) (InstallCodeExpiry r) (InstallCodeUsed r) (DisplayName r) v (DaemonID r) (Hostname r) (CreatedUnix r) (ExpiresUnix r) (ConnectedUnix r) (LastHeartbeatUnix r) (RevokedUnix r) (Status r).
Definition set_DaemonID (v : string) (r : daemonEnrollment) : daemonEnrollment := mk (ID r) (TokenHash r) (TokenPrefix r) (InstallCodeHash r) (InstallCodePrefix r) (InstallCodeExpiry r) (InstallCodeUsed r) (DisplayName r) (ComputerID r) v (Hostname r) (CreatedUnix r) (ExpiresUnix r) (ConnectedUnix r) (LastHeartbeatUnix r) (RevokedUnix r) (Status r).
Definition set_Hostname (v : string) (r : daemonEnrollment) : daemonEnrollment := mk (ID r) (TokenHash r) (TokenPrefix r) (InstallCodeHash r) (InstallCodePrefix r) (InstallCodeExpiry r) (InstallCodeUsed r) (DisplayName r) (ComputerID r) (DaemonID r) v (CreatedUnix r) (ExpiresUnix r) (ConnectedUnix r) (LastHeartbeatUnix r) (RevokedUnix r) (Status r).
Definition set_CreatedUnix (v : Z) (r : daemonEnrollment) : daemonEnrollment := mk (ID r) (TokenHash r) (TokenPrefix r) (InstallCodeHash r) (InstallCodePrefix r) (InstallCodeExpiry r) (InstallCodeUsed r) (DisplayName r) (ComputerID r) (DaemonID r) (Hostname r) v (ExpiresUnix r) (ConnectedUnix r) (LastHeartbeatUnix r) (RevokedUnix r) (Status r).
Definition set_ExpiresUnix (v : Z) (r : daemonEnrollment) : daemonEnrollment := mk (ID r) (TokenHash r) (TokenPrefix r) (InstallCodeHash r) (InstallCodePrefix r) (InstallCodeExpiry r) (InstallCodeUsed r) (DisplayName r) (ComputerID r) (DaemonID r) (Hostname r) (CreatedUnix r) v (ConnectedUnix r) (LastHeartbeatUnix r) (RevokedUnix r) (Status r).
Definition set_ConnectedUnix (v : Z) (r : daemonEnrollment) : daemonEnrollment := mk (ID r) (TokenHash r) (TokenPrefix r) (InstallCodeHash r) (InstallCodePrefix r) (InstallCodeExpiry r) (InstallCodeUsed r) (DisplayName r) (ComputerID r) (DaemonID r) (Hostname r) (CreatedUnix r) (ExpiresUnix r) v (LastHeartbeatUnix r) (RevokedUnix r) (Status r).
Definition set_LastHeartbeatUnix (v : Z) (r : daemonEnrollment) : daemonEnrollment := mk (ID r) (TokenHash r) (TokenPrefix r) (InstallCodeHash r) (InstallCodePrefix r) (InstallCodeExpiry r) (InstallCodeUsed r) (DisplayName r) (ComputerID r) (DaemonID r) (Hostname r) (CreatedUnix r) (ExpiresUnix r) (ConnectedUnix r) v (RevokedUnix r) (Status r).
Definition set_RevokedUnix (v : Z) (r : daemonEnrollment) : daemonEnrollment := mk (ID r) (TokenHash r) (TokenPrefix r) (InstallCodeHash r) (InstallCodePrefix r) (InstallCodeExpiry r) (InstallCodeUsed r) (DisplayName r) (ComputerID r) (DaemonID r) (Hostname r) (CreatedUnix r) (ExpiresUnix r) (ConnectedUnix r) (LastHeartbeatUnix r) v (Status r).
Definition set_Status (v : string) (r : daemonEnrollment) : daemonEnrollment := mk (ID r) (TokenHash r) (TokenPrefix r) (InstallCodeHash r) (InstallCodePrefix r) (InstallCodeExpiry r) (InstallCodeUsed r) (DisplayName r) (ComputerID r) (DaemonID r) (Hostname r) (CreatedUnix r) (ExpiresUnix r) (ConnectedUnix r) (LastHeartbeatUnix r) (RevokedUnix r) v.
End daemonEnrollment.
Abbreviation daemonEnrollment := daemonEnrollment.daemonEnrollment.

Module daemonEnrollmentCreate.
Record daemonEnrollmentCreate := mk {
  DisplayName : string;
  ComputerID : string;
  Hostname : string;
  ExpiresUnix : Z
}.
Definition zero : daemonEnrollmentCreate := mk "" "" "" 0%Z.
Definition set_DisplayName (v : string) (r : daemonEnrollmentCreate) : daemonEnrollmentCreate := mk v (ComputerID r) (Hostname r) (ExpiresUnix r).
Definition set_ComputerID (v : string) (r : daemonEnrollmentCreate) : daemonEnrollmentCreate := mk (DisplayName r) v (Hostname r) (ExpiresUnix r).
Definition set_Hostname (v : string) (r : daemonEnrollmentCreate) : daemonEnrollmentCreate := mk (DisplayName r) (ComputerID r) v (ExpiresUnix r).
Definition set_ExpiresUnix (v : Z) (r : daemonEnrollmentCreate) : daemonEnrollmentCreate := mk (DisplayName r) (ComputerID r) (Hostname r) v.
End daemonEnrollmentCreate.
Abbreviation daemonEnrollmentCreate := daemonEnrollmentCreate.daemonEnrollmentCreate.

Module daemonEnrollmentResponse.
Record daemonEnrollmentResponse := mk {
  ID : string;
  TokenPrefix : string;
  Token : string;
  InstallCommand : string;
  InstallScriptURL : string;
  StatusURL : string;
  DisplayName : string;
  ComputerID : string;
  DaemonID : string;
  Hostname : string;
  CreatedUnix : Z;
  ExpiresUnix : Z;
  ConnectedUnix : Z;
  LastHeartbeatUnix : Z;
  RevokedUnix : Z;
  Status : string
}.
Definition zero : daemonEnrollmentResponse := mk "" "" "" "" "" "" "" "" "" "" 0%Z 0%Z 0%Z 0%Z 0%Z "".
Definition set_ID (v : string) (r : daemonEnrollmentResponse) : daemonEnrollmentResponse := mk v (TokenPrefix r) (Token r) (InstallCommand r) (InstallScriptURL r) (StatusURL r) (DisplayName r) (ComputerID r) (DaemonID r) (Hostname r) (CreatedUnix r) (ExpiresUnix r) (ConnectedUnix r) (LastHeartbeatUnix r) (RevokedUnix r) (Status r).
Definition set_TokenPrefix (v : string) (r : daemonEnrollmentResponse) : daemonEnrollmentResponse := mk (ID r) v (Token r) (InstallCommand r) (InstallScriptURL r) (StatusURL r) (DisplayName r) (ComputerID r) (DaemonID r) (Hostname r) (CreatedUnix r) (ExpiresUnix r) (ConnectedUnix r) (LastHeartbeatUnix r) (RevokedUnix r) (Status r).
Definition set_Token (v : string) (r : daemonEnrollmentResponse) : daemonEnrollmentResponse := mk (ID r) (TokenPrefix r) v (InstallCommand r) (InstallScriptURL r) (StatusURL r) (DisplayName r) (ComputerID r) (DaemonID r) (Hostname r) (CreatedUnix r) (ExpiresUnix r) (ConnectedUnix r) (LastHeartbeatUnix r) (RevokedUnix r) (Status r).
Definition set_InstallCommand (v : string) (r : daemonEnrollmentResponse) : daemonEnrollmentResponse := mk (ID r) (TokenPrefix r) (Token r) v (InstallScriptURL r) (StatusURL r) (DisplayName r) (ComputerID r) (DaemonID r) (Hostname r) (CreatedUnix r) (ExpiresUnix r) (ConnectedUnix r) (LastHeartbeatUnix r) (RevokedUnix r) (Status r).
Definition set_InstallScriptURL (v : string) (r : daemonEnrollmentResponse) : daemonEnrollmentResponse := mk (ID r) (TokenPrefix r) (Token r) (InstallCommand r) v (StatusURL r) (DisplayName r) (ComputerID r) (DaemonID r) (Hostname r) (CreatedUnix r) (ExpiresUnix r) (ConnectedUnix r) (LastHeartbeatUnix r) (RevokedUnix r) (Status r).
Definition set_StatusURL (v : string) (r : daemonEnrollmentResponse) : daemonEnrollmentResponse := mk (ID r) (TokenPrefix r) (Token r) (InstallCommand r) (InstallScriptURL r) v (DisplayName r) (ComputerID r) (DaemonID r) (Hostname r) (CreatedUnix r) (ExpiresUnix r) (ConnectedUnix r) (LastHeartbeatUnix r) (RevokedUnix r) (Status r).
Definition set_DisplayName (v : string) (r : daemonEnrollmentResponse) : daemonEnrollmentResponse := mk (ID r) (TokenPrefix r) (Token r) (InstallCommand r) (InstallScriptURL r) (StatusURL r) v (ComputerID r) (DaemonID r) (Hostname r) (CreatedUnix r) (ExpiresUnix r) (ConnectedUnix r) (LastHeartbeatUnix r) (RevokedUnix r) (Status r).
Definition set_ComputerID (v : string) (r : daemonEnrollmentResponse) : daemonEnrollmentResponse := mk (ID r) (TokenPrefix r) (Token r) (InstallCommand r) (InstallScriptURL r) (StatusURL r) (DisplayName r) v (DaemonID r) (Hostname r) (CreatedUnix r) (ExpiresUnix r) (ConnectedUnix r) (LastHeartbeatUnix r) (RevokedUnix r) (Status r).
Definition set_DaemonID (v : string) (r : daemonEnrollmentResponse) : daemonEnrollmentResponse := mk (ID r) (TokenPrefix r) (Token r) (InstallCommand r) (InstallScriptURL r) (StatusURL r) (DisplayName r) (ComputerID r) v (Hostname r) (CreatedUnix r) (ExpiresUnix r) (ConnectedUnix r) (LastHeartbeatUnix r) (RevokedUnix r) (Status r).
Definition set_Hostname (v : string) (r : daemonEnrollmentResponse) : daemonEnrollmentResponse := mk (ID r) (TokenPrefix r) (Token r) (InstallCommand r) (InstallScriptURL r) (StatusURL r) (DisplayName r) (ComputerID r) (DaemonID r) v (CreatedUnix r) (ExpiresUnix r) (ConnectedUnix r) (LastHeartbeatUnix r) (RevokedUnix r) (Status r).
Definition set_CreatedUnix (v : Z) (r : daemonEnrollmentResponse) : daemonEnrollmentResponse := mk (ID r) (TokenPrefix r) (Token r) (InstallCommand r) (InstallScriptURL r) (StatusURL r) (DisplayName r) (ComputerID r) (DaemonID r) (Hostname r) v (ExpiresUnix r) (ConnectedUnix r) (LastHeartbeatUnix r) (RevokedUnix r) (Status r).
Definition set_ExpiresUnix (v : Z) (r : daemonEnrollmentResponse) : daemonEnrollmentResponse := mk (ID r) (TokenPrefix r) (Token r) (InstallCommand r) (InstallScriptURL r) (StatusURL r) (DisplayName r) (ComputerID r) (DaemonID r) (Hostname r) (CreatedUnix r) v (ConnectedUnix r) (LastHeartbeatUnix r) (RevokedUnix r) (Status r).
Definition set_ConnectedUnix (v : Z) (r : daemonEnrollmentResponse) : daemonEnrollmentResponse := mk (ID r) (TokenPrefix r) (Token r) (InstallCommand r) (InstallScriptURL r) (StatusURL r) (DisplayName r) (ComputerID r) (DaemonID r) (Hostname r) (CreatedUnix r) (ExpiresUnix r) v (LastHeartbeatUnix r) (RevokedUnix r) (Status r).
Definition set_LastHeartbeatUnix (v : Z) (r : daemonEnrollmentResponse) : daemonEnrollmentResponse := mk (ID r) (TokenPrefix r) (Token r) (InstallCommand r) (InstallScriptURL r) (StatusURL r) (DisplayName r) (ComputerID r) (DaemonID r) (Hostname r) (CreatedUnix r) (ExpiresUnix r) (ConnectedUnix r) v (RevokedUnix r) (Status r).
Definition set_RevokedUnix (v : Z) (r : daemonEnrollmentResponse) : daemonEnrollmentResponse := mk (ID r) (TokenPrefix r) (Token r) (InstallCommand r) (InstallScriptURL r) (StatusURL r) (DisplayName r) (ComputerID r) (DaemonID r) (Hostname r) (CreatedUnix r) (ExpiresUnix r) (ConnectedUnix r) (LastHeartbeatUnix r) v (Status r).
Definition set_Status (v : string) (r : daemonEnrollmentResponse) : daemonEnrollmentResponse := mk (ID r) (TokenPrefix r) (Token r) (InstallCommand r) (InstallScriptURL r) (StatusURL r) (DisplayName r) (ComputerID r) (DaemonID r) (Hostname r) (CreatedUnix r) (ExpiresUnix r) (ConnectedUnix r) (LastHeartbeatUnix r) (RevokedUnix r) v.
End daemonEnrollmentResponse.
Abbreviation daemonEnrollmentResponse := daemonEnrollmentResponse.daemonEnrollmentResponse.

#[local] Open Scope go_scope.

Module En := daemonEnrollment.
Module Ec := daemonEnrollmentCreate.
Module Er := daemonEnrollmentResponse.
Module Ci := daemonv1.ComputerInfo.

(** ** The directory of enrollments *)

Inductive enroll_error := ErrEnrollmentNotFound | ErrFile | ErrRandom.

(** A file that cannot be read or decoded is [None]. *)
Notation directory := (gmap string (option daemonEnrollment)).

(** A daemon's token and an install code; [random] is what [rand.Read] gives. *)
Definition newDaemonEnrollmentToken (random : option string) : option string :=
  option_map (λ bytes, "ndt_" +:+ EncodeToString bytes) random.
Definition newDaemonInstallCode (random : option string) : option string :=
  option_map (λ bytes, "ndi_" +:+ EncodeToString bytes) random.

Definition daemonInstallCodeTTL : Z := 3600.

Definition daemonInstallCodeExpiry (now enrollmentExpiry : Z) : Z :=
  let expires := i64 (now + daemonInstallCodeTTL) in
  if (0 <? enrollmentExpiry)%Z && (enrollmentExpiry <? expires)%Z then enrollmentExpiry else expires.

Definition tokenPrefix (token : string) : string :=
  let token := TrimSpace token in if String.length token <=? 12 then token else stake 12 token.

(** The name of an enrollment's file, without its extension. *)
Definition path (id : string) : option string :=
  let id := TrimSpace id in
  if (id =s "") || contains_any id [47; 92] || HasPrefix id "." then None else Some id.

Definition getLocked (id : string) (dir : directory) : enroll_error + daemonEnrollment :=
  match path id with
  | None => inl ErrEnrollmentNotFound
  | Some name =>
      match dir !! name with
      | None => inl ErrEnrollmentNotFound
      | Some None => inl ErrFile
      | Some (Some enrollment) => if En.ID enrollment =s "" then inl ErrEnrollmentNotFound else inr enrollment
      end
  end.

(** [written]: the file system lets the new file be written and renamed. *)
Definition save (written : bool) (enrollment : daemonEnrollment) (dir : directory) : (enroll_error + unit) * directory :=
  if negb written then (inl ErrFile, dir)
  else match path (En.ID enrollment) with
  | None => (inl ErrEnrollmentNotFound, dir)
  | Some name => (inr (), <[name := Some enrollment]> dir)
  end.

(** [save], and what is returned when it succeeds. *)
Definition saved {A} (written : bool) (enrollment : daemonEnrollment) (a : A) (dir : directory) :
    (enroll_error + A) * directory :=
  match save written enrollment dir with
  | (inl err, dir) => (inl err, dir)
  | (inr _, dir) => (inr a, dir)
  end.

Section enrollment.
Context {Sha : Sha256}.

Definition hashDaemonEnrollmentToken (token : string) : string := Sum256_hex token.

Definition create (written : bool) (random1 random2 : option string) (fresh_id : string) (now : Z)
    (req : daemonEnrollmentCreate) (dir : directory) : (enroll_error + daemonEnrollment * string * string) * directory :=
  match newDaemonEnrollmentToken random1, newDaemonInstallCode random2 with
  | Some token, Some installCode =>
      let enrollment := En.mk fresh_id (hashDaemonEnrollmentToken token) (tokenPrefix token)
        (hashDaemonEnrollmentToken installCode) (tokenPrefix installCode)
        (daemonInstallCodeExpiry now (Ec.ExpiresUnix req)) 0
        (TrimSpace (Ec.DisplayName req)) (TrimSpace (Ec.ComputerID req)) "" (TrimSpace (Ec.Hostname req))
        now (Ec.ExpiresUnix req) 0 0 0 "pending" in
      let enrollment := if En.ComputerID enrollment =s ""
        then En.set_ComputerID ("computer-" +:+ En.ID enrollment) enrollment else enrollment in
      saved written enrollment (enrollment, token, installCode) dir
  | _, _ => (inl ErrRandom, dir)
  end.

Definition expired (now expires : Z) : bool := (0 <? expires)%Z && (expires <=? now)%Z.

(** The entries of the directory, in the order of their names. *)
Definition authenticate (now : Z) (token : string) (dir : directory) : enroll_error + daemonEnrollment :=
  let token := TrimSpace token in
  if token =s "" then inl ErrEnrollmentNotFound
  else
    let hash := hashDaemonEnrollmentToken token in
    let admits (name : string) : option daemonEnrollment :=
      match getLocked name dir with
      | inl _ => None
      | inr enrollment =>
          if expired now (En.ExpiresUnix enrollment) then None
          else if En.TokenHash enrollment =s hash then Some enrollment else None
      end in
    match head (omap admits (fst <$> canonical (map_to_list dir))) with
    | Some enrollment => inr enrollment
    | None => inl ErrEnrollmentNotFound
    end.

Definition consumeInstallCode (written : bool) (random : option string) (now : Z) (id code : string) (dir : directory) :
    (enroll_error + daemonEnrollment * string) * directory :=
  let code := TrimSpace code in
  if code =s "" then (inl ErrEnrollmentNotFound, dir)
  else match getLocked id dir with
  | inl err => (inl err, dir)
  | inr enrollment =>
      if (En.Status enrollment <>s "") && (En.Status enrollment <>s "pending") then (inl ErrEnrollmentNotFound, dir)
      else if expired now (En.ExpiresUnix enrollment) then (inl ErrEnrollmentNotFound, dir)
      else if expired now (En.InstallCodeExpiry enrollment) then (inl ErrEnrollmentNotFound, dir)
      else if En.InstallCodeHash enrollment =s "" then (inl ErrEnrollmentNotFound, dir)
      else if En.InstallCodeHash enrollment <>s hashDaemonEnrollmentToken code then (inl ErrEnrollmentNotFound, dir)
      else match newDaemonEnrollmentToken random with
      | None => (inl ErrRandom, dir)
      | Some token =>
          let enrollment := En.set_TokenHash (hashDaemonEnrollmentToken token) enrollment in
          let enrollment := En.set_TokenPrefix (tokenPrefix token) enrollment in
          saved written enrollment (enrollment, token) dir
      end
  end.

Definition revoke (written : bool) (now : Z) (id : string) (dir : directory) :
    (enroll_error + daemonEnrollment) * directory :=
  match getLocked id dir with
  | inl err => (inl err, dir)
  | inr enrollment =>
      let enrollment := En.set_Status "revoked" enrollment in
      let enrollment := En.set_RevokedUnix now enrollment in
      let enrollment := En.set_TokenHash "" enrollment in
      let enrollment := En.set_InstallCodeHash "" enrollment in
      let enrollment := En.set_InstallCodeUsed now enrollment in
      saved written enrollment enrollment dir
  end.

(** The fields that a computer's description replaces. *)
Definition describe (info : Ci.ComputerInfo) (enrollment : daemonEnrollment) : daemonEnrollment :=
  let enrollment := if TrimSpace (Ci.ComputerId info) <>s ""
    then En.set_ComputerID (TrimSpace (Ci.ComputerId info)) enrollment else enrollment in
  let enrollment := if TrimSpace (Ci.DaemonId info) <>s ""
    then En.set_DaemonID (TrimSpace (Ci.DaemonId info)) enrollment else enrollment in
  if TrimSpace (Ci.Hostname info) <>s ""
  then En.set_Hostname (TrimSpace (Ci.Hostname info)) enrollment else enrollment.

(** A connection, before the install code is burnt. *)
Definition connect (now : Z) (info : option Ci.ComputerInfo) (heartbeat : bool) (enrollment : daemonEnrollment) :
    daemonEnrollment :=
  let enrollment := En.set_Status "connected" enrollment in
  let enrollment := if (En.ConnectedUnix enrollment =? 0)%Z then En.set_ConnectedUnix now enrollment else enrollment in
  let enrollment := if heartbeat then En.set_LastHeartbeatUnix now enrollment else enrollment in
  match info with Some info => describe info enrollment | None => enrollment end.

Definition burn_code (now : Z) (enrollment : daemonEnrollment) : daemonEnrollment :=
  if (En.InstallCodeUsed enrollment =? 0)%Z
  then En.set_InstallCodeHash "" (En.set_InstallCodeUsed now enrollment) else enrollment.

Definition markConnected (written : bool) (now : Z) (id : string) (info : option Ci.ComputerInfo) (heartbeat : bool)
    (dir : directory) : (enroll_error + unit) * directory :=
  match getLocked id dir with
  | inl err => (inl err, dir)
  | inr enrollment => save written (burn_code now (connect now info heartbeat enrollment)) dir
  end.

(** ** The interceptor of the daemons' RPC ([connect_auth.go]) *)

(** The token of the first [Authorization] header that bears one. *)
Fixpoint bearer_of (values : list string) : string :=
  match values with
  | [] => ""
  | value :: values =>
      let '(scheme, token, ok) := Cut (TrimSpace value) " " in
      if ok && EqualFold scheme "Bearer" then TrimSpace token else bearer_of values
  end.
Definition bearerTokenFromHeader (header : gmap string (list string)) : string :=
  bearer_of (header_values header "Authorization").

Definition authenticateDaemonConnect (now : Z) (header : gmap string (list string)) (dir : directory) :
    rpc_error + daemonEnrollment :=
  match authenticate now (bearerTokenFromHeader header) dir with
  | inr enrollment => inr enrollment
  | inl ErrEnrollmentNotFound => inl (Status Unauthenticated "invalid daemon enrollment token")
  | inl _ => inl (Status Unauthenticated "daemon enrollment unavailable")
  end.

(** The requests that bring a computer's description. *)
Inductive introduction :=
| Stream
| RegisterComputer (info : option Ci.ComputerInfo)
| HeartbeatComputer (info : option Ci.ComputerInfo)
| SyncComputerInventory (info : option Ci.ComputerInfo)
| OtherRequest.

(** A failure to mark is logged. *)
Definition markDaemonEnrollmentConnected (written : bool) (now : Z) (enrollmentID : string) (req : introduction)
    (dir : directory) : directory :=
  if TrimSpace enrollmentID =s "" then dir
  else match req with
  | Stream => (markConnected written now enrollmentID None false dir).2
  | RegisterComputer info => (markConnected written now enrollmentID info true dir).2
  | HeartbeatComputer info => (markConnected written now enrollmentID info true dir).2
  | SyncComputerInventory info => (markConnected written now enrollmentID info false dir).2
  | OtherRequest => dir
  end.

(** ** The operations as one type *)

Inductive enroll_op :=
| OpCreate (random1 random2 : option string) (fresh_id : string) (req : daemonEnrollmentCreate)
| OpConsume (random : option string) (id code : string)
| OpRevoke (id : string)
| OpMark (id : string) (req : introduction).

Definition enroll_step (written : bool) (now : Z) (o : enroll_op) (dir : directory) : directory :=
  match o with
  | OpCreate random1 random2 fresh_id req => (create written random1 random2 fresh_id now req dir).2
  | OpConsume random id code => (consumeInstallCode written random now id code dir).2
  | OpRevoke id => (revoke written now id dir).2
  | OpMark id req => markDaemonEnrollmentConnected written now id req dir
  end.

Definition enroll_run (ops : list (bool * Z * enroll_op)) (dir : directory) : directory :=
  foldl (λ dir '(written, now, o), enroll_step written now o dir) dir ops.

End enrollment.

(** ** Words of the shell ([shellQuote]) *)

Definition plain_char (c : ascii) : bool :=
  between 65 90 c || between 97 122 c || between 48 57 c ||
  existsb (λ n, nat_of c =? n) [64; 37; 95; 43; 61; 58; 44; 46; 47; 45].

Fixpoint all_chars (f : ascii → bool) (s : string) : bool :=
  match s with EmptyString => true | String c s => f c && all_chars f s end.

Definition single_quote : string := String (byte 39) "".

Definition shellQuote (value : string) : string :=
  if value =s "" then single_quote +:+ single_quote
  else if all_chars plain_char value then value
  else single_quote +:+ ReplaceAll value single_quote (single_quote +:+ "\" +:+ single_quote +:+ single_quote) +:+ single_quote.

(** ** Links ([net/url]) *)

Definition upper_hex (n : nat) : ascii := Ascii.ascii_of_nat (if n <? 10 then 48 + n else 55 + n).
Definition percent (c : ascii) : string :=
  String (byte 37) (String (upper_hex (nat_of c / 16)) (String (upper_hex (nat_of c mod 16)) "")).

Definition unreserved (c : ascii) : bool :=
  between 65 90 c || between 97 122 c || between 48 57 c || existsb (λ n, nat_of c =? n) [45; 95; 46; 126].

Fixpoint PathEscape (s : string) : string :=
  match s with
  | EmptyString => ""
  | String c s =>
      (if unreserved c || existsb (λ n, nat_of c =? n) [36; 38; 43; 58; 61; 64] then String c "" else percent c) +:+
      PathEscape s
  end.

Fixpoint QueryEscape (s : string) : string :=
  match s with
  | EmptyString => ""
  | String c s =>
      (if unreserved c then String c "" else if nat_of c =? 32 then "+" else percent c) +:+ QueryEscape s
  end.

Definition DefaultBaseURL : string := "http://localhost:18790".

(** The text before the first comma. *)
Definition first_item (s : string) : string :=
  let '(item, _, found) := Cut s "," in if found then TrimSpace item else s.

Section links.
Context {Uni : Unicode}.

Definition deriveExternalBase (r : http_request) : string :=
  let host := TrimSpace (header_get (req_headers r) "X-Forwarded-Host") in
  let host := if host =s "" then TrimSpace (req_host r) else host in
  if host =s "" then ""
  else
    let scheme := TrimSpace (ToLower (header_get (req_headers r) "X-Forwarded-Proto")) in
    let scheme := if scheme =s "" then (if req_tls r then "https" else "http") else scheme in
    let scheme := first_item scheme in
    let host := first_item host in
    if (scheme <>s "http") && (scheme <>s "https") then "" else scheme +:+ "://" +:+ host.

Definition absoluteURL (baseURL : string) (r : http_request) (pathValue : string) : string :=
  let pathValue := TrimSpace pathValue in
  if HasPrefix pathValue "http://" || HasPrefix pathValue "https://" then pathValue
  else
    let pathValue := if negb (HasPrefix pathValue "/") then "/" +:+ pathValue else pathValue in
    let base := TrimRightByte (byte 47) (TrimSpace baseURL) in
    let derived := if (base =s "") || (base =s DefaultBaseURL) then deriveExternalBase r else "" in
    if derived <>s "" then derived +:+ pathValue
    else (if base =s "" then DefaultBaseURL else base) +:+ pathValue.

Definition daemonInstallScriptURL (enrollment : daemonEnrollment) (installCode platform : string) : string :=
  "/api/daemon/enrollments/" +:+ PathEscape (En.ID enrollment) +:+ "/install.sh?" +:+
  "code=" +:+ QueryEscape installCode +:+
  (if TrimSpace platform <>s "" then "&platform=" +:+ QueryEscape (TrimSpace platform) else "").

Definition daemonInstallCommand (baseURL : string) (r : http_request) (enrollment : daemonEnrollment)
    (installCode : string) : string :=
  "sudo bash -c " +:+ dq +:+ "$(curl -fsSL " +:+
  shellQuote (absoluteURL baseURL r (daemonInstallScriptURL enrollment installCode "linux")) +:+ ")" +:+ dq.

Definition daemonEnrollmentResponse_of (baseURL : string) (r : http_request) (enrollment : daemonEnrollment)
    (token installCode : string) : daemonEnrollmentResponse :=
  let resp := Er.mk (En.ID enrollment) (En.TokenPrefix enrollment) token "" ""
    ("/api/daemon/enrollments/" +:+ PathEscape (En.ID enrollment)) (En.DisplayName enrollment)
    (En.ComputerID enrollment) (En.DaemonID enrollment) (En.Hostname enrollment) (En.CreatedUnix enrollment)
    (En.ExpiresUnix enrollment) (En.ConnectedUnix enrollment) (En.LastHeartbeatUnix enrollment)
    (En.RevokedUnix enrollment) (En.Status enrollment) in
  if installCode <>s "" then
    let resp := Er.set_InstallScriptURL
      (absoluteURL baseURL r (daemonInstallScriptURL enrollment installCode "linux")) resp in
    Er.set_InstallCommand (daemonInstallCommand baseURL r enrollment installCode) resp
  else resp.

End links.

(** ** Revocation is final *)

(** A digest is never empty: 64 hexadecimal digits. *)
Class Sha256Laws `{!Sha256} : Prop := { digest_not_empty s : Sum256_hex s ≠ "" }.

(** Every file holds the enrollment it is named after. *)
Definition directory_ok (dir : directory) : Prop :=
  ∀ name e, dir !! name = Some (Some e) → path (En.ID e) = Some name.

(** The file [name] holds an enrollment that [P] holds of. *)
Definition holds (P : daemonEnrollment → Prop) (name : string) (dir : directory) : Prop :=
  ∃ e, dir !! name = Some (Some e) ∧ P e.

Definition no_code (e : daemonEnrollment) : Prop := En.InstallCodeHash e = "".
Definition dead (e : daemonEnrollment) : Prop := En.TokenHash e = "" ∧ no_code e.

(** An operation that does not enroll anew under the name. *)
Definition spares (name : string) (o : enroll_op) : Prop :=
  match o with OpCreate _ _ fresh_id _ => path fresh_id ≠ Some name | _ => True end.

Lemma getLocked_inr id dir e :
  getLocked id dir = inr e → ∃ name, path id = Some name ∧ dir !! name = Some (Some e).
Proof.
  unfold getLocked. destruct (path id) as [name|]; [|done]. destruct (dir !! name) as [[e'|]|] eqn:E; [|done..].
  destruct (_ =s ""); [done|]. intros [= <-]. by exists name.
Qed.

Lemma saved_snd {A} written e (a : A) dir : (saved written e a dir).2 = (save written e dir).2.
Proof. unfold saved. by destruct (save written e dir) as [[] ?]. Qed.

Lemma path_name id name : path id = Some name → TrimSpace id = name.
Proof. unfold path. destruct (_ || _); congruence. Qed.

(** What an operation may write: a fresh enrollment, or a change [Q] of what a file holds. *)
Inductive writes (Q : daemonEnrollment → daemonEnrollment → Prop) (o : enroll_op) (dir : directory) : directory → Prop :=
| writes_nothing : writes Q o dir dir
| writes_new name e : path (En.ID e) = Some name → (match o with OpCreate _ _ id _ => path id = Some name | _ => False end) →
    writes Q o dir (<[name := Some e]> dir)
| writes_change name e e' : dir !! name = Some (Some e) → path (En.ID e') = Some name → Q e e' →
    writes Q o dir (<[name := Some e']> dir).

(** A change keeps the identifier, never brings back an install code, and gives a token
    only in exchange for one. *)
Definition change (e e' : daemonEnrollment) : Prop :=
  En.ID e' = En.ID e ∧ (no_code e → no_code e') ∧ (dead e → dead e').

Section revocation.
Context {Sha : Sha256} {Laws : Sha256Laws}.

Lemma save_change written e e' name o dir :
  directory_ok dir → dir !! name = Some (Some e) → change e e' → writes change o dir (save written e' dir).2.
Proof.
  intros Hd He Hc. unfold save. destruct written; cbn; [|constructor].
  assert (path (En.ID e') = Some name) as Hp by (destruct Hc as [-> _]; by apply Hd).
  rewrite Hp. cbn. by eapply writes_change.
Qed.

Lemma describe_same info e :
  (En.ID (describe info e), En.TokenHash (describe info e), En.InstallCodeHash (describe info e),
   En.InstallCodeUsed (describe info e)) = (En.ID e, En.TokenHash e, En.InstallCodeHash e, En.InstallCodeUsed e).
Proof. unfold describe. by repeat case_match. Qed.

Lemma connect_same now info heartbeat e :
  let e' := connect now info heartbeat e in
  (En.ID e', En.TokenHash e', En.InstallCodeHash e', En.InstallCodeUsed e') =
  (En.ID e, En.TokenHash e, En.InstallCodeHash e, En.InstallCodeUsed e).
Proof.
  unfold connect. cbv zeta. destruct info as [info|]; [rewrite describe_same|];
    by destruct heartbeat, (_ =? 0)%Z.
Qed.

Lemma markConnected_writes written now id info heartbeat o dir :
  directory_ok dir → writes change o dir (markConnected written now id info heartbeat dir).2.
Proof.
  intros Hd. unfold markConnected. destruct (getLocked id dir) as [|e] eqn:E; [constructor|].
  apply getLocked_inr in E as (name & _ & He). eapply save_change; [done..|].
  pose proof (connect_same now info heartbeat e) as Hs. cbv zeta in Hs. injection Hs as H1 H2 H3 H4.
  unfold change, dead, no_code, burn_code. destruct (_ =? 0)%Z; cbn; rewrite ?H1, ?H2, ?H3; naive_solver.
Qed.

Lemma enroll_step_writes written now o dir :
  directory_ok dir → writes change o dir (enroll_step written now o dir).
Proof.
  intros Hd. destruct o as [r1 r2 id req|r id code|id|id req]; cbn [enroll_step].
  - unfold create. destruct (newDaemonEnrollmentToken r1), (newDaemonInstallCode r2); try constructor.
    rewrite saved_snd. unfold save. destruct written; cbn [negb]; [|constructor].
    match goal with |- context [path (En.ID ?e)] => set (e0 := e) end.
    assert (En.ID e0 = id) as Hid by (subst e0; cbn; by destruct (_ =s "")). clearbody e0. rewrite Hid.
    destruct (path id) as [name|] eqn:Hp; [|constructor]. apply writes_new; [congruence|done].
  - unfold consumeInstallCode. destruct (_ =s ""); [constructor|]. destruct (getLocked id dir) as [|e] eqn:E; [constructor|].
    apply getLocked_inr in E as (name & _ & He). destruct (_ && _); [constructor|].
    do 2 (destruct (expired _ _); [constructor|]). destruct (En.InstallCodeHash e =s "") eqn:Hc; [constructor|].
    destruct (_ <>s _); [constructor|]. destruct (newDaemonEnrollmentToken r); [|constructor].
    rewrite saved_snd. eapply save_change; [done..|]. reflect_bools. unfold change, dead, no_code. naive_solver.
  - unfold revoke. destruct (getLocked id dir) as [|e] eqn:E; [constructor|].
    apply getLocked_inr in E as (name & _ & He). rewrite saved_snd. by eapply save_change.
  - unfold markDaemonEnrollmentConnected. destruct (_ =s ""); [constructor|].
    destruct req; try apply markConnected_writes; done || constructor.
Qed.

Lemma writes_ok o dir dir' : directory_ok dir → writes change o dir dir' → directory_ok dir'.
Proof.
  intros Hd [|name e Hp _|name e e' He Hp _]; [done|..]; intros name' e0;
    (destruct (decide (name = name')) as [->|]; [rewrite lookup_insert_eq; congruence|rewrite lookup_insert_ne by done; apply Hd]).
Qed.

(** A property that changes keep is kept of the file [name]. *)
Lemma holds_step P name written now o dir :
  (∀ e e', change e e' → P e → P e') → directory_ok dir → spares name o → holds P name dir →
  directory_ok (enroll_step written now o dir) ∧ holds P name (enroll_step written now o dir).
Proof.
  intros HP Hd Ho (e & He & Pe). pose proof (enroll_step_writes written now o dir Hd) as Hw.
  split; [by eapply writes_ok|]. destruct Hw as [|name' e1 Hp Hn|name' e1 e2 He1 Hp Hc]; [by exists e|..].
  - destruct o; try done. exists e. split; [|done]. rewrite lookup_insert_ne; [done|]. intros ->. by apply Ho.
  - destruct (decide (name' = name)) as [->|Hne].
    + exists e2. rewrite lookup_insert_eq. split; [done|]. apply (HP e1); [done|]. congruence.
    + exists e. by rewrite lookup_insert_ne.
Qed.

Lemma holds_run P name ops dir :
  (∀ e e', change e e' → P e → P e') → directory_ok dir → Forall (λ o, spares name o.2) ops → holds P name dir →
  directory_ok (enroll_run ops dir) ∧ holds P name (enroll_run ops dir).
Proof.
  intros HP Hd Ho. revert dir Hd. induction Ho as [|[[written now] o] ops Hs _ IH]; intros dir Hd Hh; [done|].
  cbn. destruct (holds_step P name written now o dir HP Hd Hs Hh). by apply IH.
Qed.

Lemma authenticate_inr now token dir e :
  authenticate now token dir = inr e →
  ∃ name, dir !! name = Some (Some e) ∧ En.TokenHash e = hashDaemonEnrollmentToken (TrimSpace token) ∧
    expired now (En.ExpiresUnix e) = false.
Proof.
  unfold authenticate. destruct (_ =s ""); [done|].
  match goal with |- context [omap ?f ?l] => destruct (omap f l) as [|x r] eqn:E end; [done|]. cbn. intros [= <-].
  assert (x ∈ x :: r) as Hx by apply list_elem_of_here. rewrite <-E in Hx.
  apply list_elem_of_omap in Hx as (name & _ & Ha).
  destruct (getLocked name dir) as [|e'] eqn:Eg; [done|]. destruct (expired _ _) eqn:Ex; [done|].
  destruct (En.TokenHash e' =s _) eqn:Eh; [|done]. injection Ha as ->. reflect_bools.
  apply getLocked_inr in Eg as (name' & _ & He). by exists name'.
Qed.

Lemma dead_change e e' : change e e' → dead e → dead e'.
Proof. intros (_ & _ & H). exact H. Qed.

Lemma no_code_change e e' : change e e' → no_code e → no_code e'.
Proof. intros (_ & H & _). exact H. Qed.

(** An enrollment without an install code gives no token for any code. *)
Lemma consume_no_code written random now id code name dir :
  path id = Some name → holds no_code name dir →
  consumeInstallCode written random now id code dir = (inl ErrEnrollmentNotFound, dir).
Proof.
  intros Hp (e & He & Hc). unfold consumeInstallCode, getLocked. rewrite Hp, He. destruct (_ =s ""); [done|].
  destruct (En.ID e =s ""); [done|]. destruct (_ && _); [done|].
  do 2 (destruct (expired _ _); [done|]). unfold no_code in Hc. by rewrite Hc.
Qed.

(** C22. A revoked enrollment lets nobody in any more: whatever happens in the directory
    afterwards, requests of its daemon that were under way included, no token is its token
    and no install code gives it a new one. *)
Theorem revoked_for_good now id name e dir dir' ops now' token written random code :
  directory_ok dir → path id = Some name → revoke true now id dir = (inr e, dir') →
  Forall (λ o, spares name o.2) ops →
  (∀ e', authenticate now' token (enroll_run ops dir') = inr e' → path (En.ID e') ≠ Some name) ∧
  consumeInstallCode written random now' id code (enroll_run ops dir') =
    (inl ErrEnrollmentNotFound, enroll_run ops dir').
Proof.
  intros Hd Hp Hr Ho. assert (directory_ok dir' ∧ holds dead name dir') as [Hd' Hh].
  { pose proof (enroll_step_writes true now (OpRevoke id) dir Hd) as Hw. cbn in Hw. rewrite Hr in Hw. cbn in Hw.
    split; [by eapply writes_ok|]. unfold revoke, getLocked in Hr. rewrite Hp in Hr.
    destruct (dir !! name) as [[e0|]|] eqn:He; [|done..]. destruct (_ =s ""); [done|].
    unfold saved, save in Hr. cbn -[path] in Hr. rewrite (Hd _ _ He) in Hr. injection Hr as <- <-.
    eexists. rewrite lookup_insert_eq. by split. }
  destruct (holds_run dead name ops dir' dead_change Hd' Ho Hh) as [Hd2 (e2 & He2 & Ht & Hc)]. split.
  - intros e' Ha Hn. apply authenticate_inr in Ha as (name' & He' & Hh' & _).
    apply Hd2 in He' as Hn'. assert (name' = name) as -> by congruence. rewrite He2 in He'. injection He' as <-.
    rewrite Ht in Hh'. symmetry in Hh'. by apply digest_not_empty in Hh'.
  - apply (consume_no_code _ _ _ _ _ name); [done|]. by exists e2.
Qed.

(** Once a daemon connected, the install code of its enrollment is worth nothing. *)
Lemma code_burns id name dir now info heartbeat ops now' written random code :
  directory_ok dir → path id = Some name →
  (∀ e, dir !! name = Some (Some e) → En.InstallCodeUsed e = 0%Z ∨ no_code e) →
  (markConnected true now id info heartbeat dir).1 = inr () →
  Forall (λ o, spares name o.2) ops →
  let dir' := enroll_run ops (markConnected true now id info heartbeat dir).2 in
  consumeInstallCode written random now' id code dir' = (inl ErrEnrollmentNotFound, dir').
Proof.
  intros Hd Hp Hu Hm Ho dir'. apply (consume_no_code _ _ _ _ _ name); [done|].
  pose proof (markConnected_writes true now id info heartbeat (OpRevoke id) dir Hd) as Hw.
  apply (holds_run no_code name ops _ no_code_change); [by eapply writes_ok|done|].
  clear Hw dir'. revert Hm. unfold markConnected, getLocked. rewrite Hp.
  destruct (dir !! name) as [[e|]|] eqn:He; [|done..]. destruct (_ =s ""); [done|].
  pose proof (connect_same now info heartbeat e) as Hs. cbv zeta in Hs. injection Hs as H1 _ H2 H3.
  unfold burn_code.
  rewrite H3. unfold save. destruct (Hu e eq_refl) as [E|E]; cbn -[path].
  - rewrite E. cbn -[path]. rewrite H1, (Hd _ _ He). intros _. eexists. cbn. rewrite lookup_insert_eq. by split.
  - destruct (_ =? 0)%Z; cbn -[path]; rewrite H1, (Hd _ _ He); intros _; eexists; cbn; rewrite lookup_insert_eq;
      (split; [done|]); unfold no_code in *; cbn; congruence.
Qed.

End revocation.

(** ** A quoted word is read as it was written *)

(** How a shell reads one word of plain characters, single quotes and escapes; [None] when
    the text is not one word. *)
Fixpoint sh_word (quoted : bool) (s : string) : option string :=
  match s with
  | EmptyString => if quoted then None else Some ""
  | String c s =>
      if quoted then
        if nat_of c =? 39 then sh_word false s else option_map (String c) (sh_word true s)
      else if nat_of c =? 39 then sh_word true s
      else if nat_of c =? 92 then
        match s with String d s => option_map (String d) (sh_word false s) | EmptyString => None end
      else if plain_char c then option_map (String c) (sh_word false s)
      else None
  end.

Lemma sh_word_plain s : all_chars plain_char s = true → sh_word false s = Some s.
Proof.
  induction s as [|c s IH]; [done|]. cbn [all_chars]. intros [Hc Hs]%andb_true_iff.
  assert (nat_of c ≠ 39 ∧ nat_of c ≠ 92) as [H1%Nat.eqb_neq H2%Nat.eqb_neq].
  { split; intros E; revert Hc; unfold plain_char, between; rewrite E; done. }
  cbn [sh_word]. by rewrite H1, H2, Hc, (IH Hs).
Qed.

Definition escaped_quote : string := single_quote +:+ "\" +:+ single_quote +:+ single_quote.

Lemma sh_word_quoted s fuel :
  String.length s ≤ fuel →
  sh_word true (replace_all fuel s single_quote escaped_quote +:+ single_quote) = Some s.
Proof.
  revert fuel. induction s as [|c s IH]; intros fuel Hf; [by destruct fuel|].
  destruct fuel as [|fuel]; cbn in Hf; [lia|]. cbn [replace_all].
  destruct (HasPrefix (String c s) single_quote) eqn:Hp.
  - assert (c = byte 39) as ->.
    { unfold HasPrefix in Hp. change (String.prefix single_quote (String c s)) with
        (if Ascii.ascii_dec (byte 39) c then String.prefix "" s else false) in Hp.
      by destruct (Ascii.ascii_dec (byte 39) c). }
    change (sdrop (String.length single_quote) (String (byte 39) s)) with (sdrop 1 (String (byte 39) s)).
    assert (sdrop 1 (String (byte 39) s) = s) as -> by (unfold sdrop; cbn; rewrite Nat.sub_0_r; apply substring_all).
    rewrite <-sapp_assoc. change (option_map (String (byte 39))
      (sh_word true (replace_all fuel s single_quote escaped_quote +:+ single_quote)) = Some (String (byte 39) s)).
    by rewrite IH by lia.
  - change (String c ?t +:+ ?u) with (String c (t +:+ u)). cbn [sh_word].
    destruct (nat_of c =? 39) eqn:E.
    + exfalso. apply Nat.eqb_eq in E. assert (c = byte 39) as ->.
      { rewrite <-(Ascii.ascii_nat_embedding c). change (Ascii.nat_of_ascii c) with (nat_of c). by rewrite E. }
      revert Hp. vm_compute. by destruct s.
    + by rewrite IH by lia.
Qed.

(** The links of the install command stand in a shell's command line: whatever characters
    they have, a quoted link is one word and nothing else. *)
Lemma shellQuote_one_word value : sh_word false (shellQuote value) = Some value.
Proof.
  unfold shellQuote. destruct (value =s "") eqn:E; reflect_bools; [by subst|].
  destruct (all_chars plain_char value) eqn:Hp; [by apply sh_word_plain|].
  change (sh_word true (ReplaceAll value single_quote escaped_quote +:+ single_quote) = Some value).
  unfold ReplaceAll. by apply sh_word_quoted.
Qed.

(** ** Examples *)

#[local] Instance tagged_sha : Sha256 := {| Sum256_hex s := "#" +:+ s |}.
#[local] Instance tagged_sha_laws : Sha256Laws.
Proof. by constructor. Qed.

Definition enrolled : directory :=
  (create true (Some "abc") (Some "def") "den_1" 100 (Ec.set_DisplayName "mac" Ec.zero) ∅).2.
Definition token_of (bytes : string) : string := "ndt_" +:+ EncodeToString bytes.

Example token_admits :
  (λ e, (En.ID e, En.Status e, En.ComputerID e)) <$>
    match authenticate 200 (token_of "abc") enrolled with inr e => Some e | inl _ => None end =
  Some ("den_1", "pending", "computer-den_1").
Proof. vm_compute. reflexivity. Qed.

(** An installation replaces the token. *)
Example installed :
  let '(res, dir) := consumeInstallCode true (Some "xyz") 300 "den_1" ("ndi_" +:+ EncodeToString "def") enrolled in
  (match res with inr (_, token) => token =s token_of "xyz" | inl _ => false end,
   match authenticate 301 (token_of "abc") dir with inr _ => true | inl _ => false end,
   match authenticate 301 (token_of "xyz") dir with inr _ => true | inl _ => false end) = (true, false, true).
Proof. vm_compute. reflexivity. Qed.

(** A request that was let in before the revocation ends after it, and the enrollment
    counts as connected again. *)
Example revoked_shows_connected :
  let dir := (revoke true 400 "den_1" enrolled).2 in
  match getLocked "den_1" (markDaemonEnrollmentConnected true 401 "den_1" (HeartbeatComputer None) dir) with
  | inr e => Some (En.Status e, En.RevokedUnix e)
  | inl _ => None
  end = Some ("connected", 400%Z).
Proof. vm_compute. reflexivity. Qed.

Lemma enrolled_ok : directory_ok enrolled.
Proof.
  unfold enrolled. intros name e.
  match goal with |- ?d !! _ = _ → _ => set (dir := d) end.
  assert (∃ e1, dir = {["den_1" := Some e1]} ∧ path (En.ID e1) = Some "den_1") as (e1 & -> & He1)
    by (eexists; by vm_compute).
  intros (<- & [= <-])%lookup_singleton_Some. done.
Qed.

Lemma revoked_for_good_witness :
  let dir := enroll_run [(true, 401%Z, OpMark "den_1" (HeartbeatComputer None))] (revoke true 400 "den_1" enrolled).2 in
  (∀ e', authenticate 402 (token_of "abc") dir = inr e' → path (En.ID e') ≠ Some "den_1") ∧
  consumeInstallCode true (Some "new") 402 "den_1" ("ndi_" +:+ EncodeToString "def") dir = (inl ErrEnrollmentNotFound, dir).
Proof.
  intros dir. destruct (revoke true 400 "den_1" enrolled) as [[|e] dir'] eqn:E; [vm_compute in E; discriminate|].
  apply (revoked_for_good 400 "den_1" "den_1" e enrolled dir' [(true, 401%Z, OpMark "den_1" (HeartbeatComputer None))]
    402 (token_of "abc") true (Some "new") ("ndi_" +:+ EncodeToString "def")).
  - apply enrolled_ok.
  - reflexivity.
  - exact E.
  - repeat constructor.
Defined.
