(* ===== verification/ImPolicy.v ===== *)
(** * Group policies of IM endpoints ([internal/impolicy/policy.go])

    The configuration of an endpoint is a JSON document: defaults, and overrides per
    conversation, given as a list or as an object keyed by conversation.  [Resolve]
    merges them into the policy of one conversation.  A [json.RawMessage] is the value
    its text denotes; a nil map and an empty one are the same here, as the code only
    looks at their length.  The order of the overrides of an object is the order in
    which Go visits a map, the parameter [MapOrder]. *)
From S2P Require Import Prelude GoStr Sql Json JsonValue.
#[local] Open Scope go_scope.

Definition GroupModeMention := "mention".
Definition GroupModeAlways := "always".
Definition GroupModeDisabled := "disabled".

(** Each error wraps [ErrInvalidPolicy]; the text of the syntax error is left out. *)
Inductive policy_error :=
| InvalidConfigJSON
| ToolPolicyNotObject
| GroupsNotArrayOrObject
| UnsupportedGroupMode (mode : string)
| GroupUnsupportedMode (i : nat) (mode : string)
| GroupConversationRequired (i : nat).

Module GroupOverride.
Record GroupOverride := mk {
  ConversationID : string;
  DisplayName : string;
  Target : string;
  ThreadID : string;
  GroupMode : string;
  AgentProfileID : string;
  SystemPromptID : string;
  SystemPrompt : string;
  ToolPolicyID : string;
  ToolPolicy : gmap string json;
  AllowedTools : list string;
  DisabledTools : list string;
  DefaultTarget : string;
  DefaultThreadID : string;
  DefaultAgentName : string
}.
Definition zero : GroupOverride := mk "" "" "" "" "" "" "" "" "" ∅ [] [] "" "" "".
Definition set_ConversationID (v : string) (r : GroupOverride) : GroupOverride := mk v (DisplayName r) (Target r) (ThreadID r) (GroupMode r) (AgentProfileID r) (SystemPromptID r) (SystemPrompt r) (ToolPolicyID r) (ToolPolicy r) (AllowedTools r) (DisabledTools r) (DefaultTarget r) (DefaultThreadID r) (DefaultAgentName r).
Definition set_DisplayName (v : string) (r : GroupOverride) : GroupOverride := mk (ConversationID r) v (Target r) (ThreadID r) (GroupMode r) (AgentProfileID r) (SystemPromptID r) (SystemPrompt r) (ToolPolicyID r) (ToolPolicy r) (AllowedTools r) (DisabledTools r) (DefaultTarget r) (DefaultThreadID r) (DefaultAgentName r).
Definition set_Target (v : string) (r : GroupOverride) : GroupOverride := mk (ConversationID r) (DisplayName r) v (ThreadID r) (GroupMode r) (AgentProfileID r) (SystemPromptID r) (SystemPrompt r) (ToolPolicyID r) (ToolPolicy r) (AllowedTools r) (DisabledTools r) (DefaultTarget r) (DefaultThreadID r) (DefaultAgentName r).
Definition set_ThreadID (v : string) (r : GroupOverride) : GroupOverride := mk (ConversationID r) (DisplayName r) (Target r) v (GroupMode r) (AgentProfileID r) (SystemPromptID r) (SystemPrompt r) (ToolPolicyID r) (ToolPolicy r) (AllowedTools r) (DisabledTools r) (DefaultTarget r) (DefaultThreadID r) (DefaultAgentName r).
Definition set_GroupMode (v : string) (r : GroupOverride) : GroupOverride := mk (ConversationID r) (DisplayName r) (Target r) (ThreadID r) v (AgentProfileID r) (SystemPromptID r) (SystemPrompt r) (ToolPolicyID r) (ToolPolicy r) (AllowedTools r) (DisabledTools r) (DefaultTarget r) (DefaultThreadID r) (DefaultAgentName r).
Definition set_AgentProfileID (v : string) (r : GroupOverride) : GroupOverride := mk (ConversationID r) (DisplayName r) (Target r) (ThreadID r) (GroupMode r) v (SystemPromptID r) (SystemPrompt r) (ToolPolicyID r) (ToolPolicy r) (AllowedTools r) (DisabledTools r) (DefaultTarget r) (DefaultThreadID r) (DefaultAgentName r).
Definition set_SystemPromptID (v : string) (r : GroupOverride) : GroupOverride := mk (ConversationID r) (DisplayName r) (Target r) (ThreadID r) (GroupMode r) (AgentProfileID r) v (SystemPrompt r) (ToolPolicyID r) (ToolPolicy r) (AllowedTools r) (DisabledTools r) (DefaultTarget r) (DefaultThreadID r) (DefaultAgentName r).
Definition set_SystemPrompt (v : string) (r : GroupOverride) : GroupOverride := mk (ConversationID r) (DisplayName r) (Target r) (ThreadID r) (GroupMode r) (AgentProfileID r) (SystemPromptID r) v (ToolPolicyID r) (ToolPolicy r) (AllowedTools r) (DisabledTools r) (DefaultTarget r) (DefaultThreadID r) (DefaultAgentName r).
Definition set_ToolPolicyID (v : string) (r : GroupOverride) : GroupOverride := mk (ConversationID r) (DisplayName r) (Target r) (ThreadID r) (GroupMode r) (AgentProfileID r) (SystemPromptID r) (SystemPrompt r) v (ToolPolicy r) (AllowedTools r) (DisabledTools r) (DefaultTarget r) (DefaultThreadID r) (DefaultAgentName r).
Definition set_ToolPolicy (v : gmap string json) (r : GroupOverride) : GroupOverride := mk (ConversationID r) (DisplayName r) (Target r) (ThreadID r) (GroupMode r) (AgentProfileID r) (SystemPromptID r) (SystemPrompt r) (ToolPolicyID r) v (AllowedTools r) (DisabledTools r) (DefaultTarget r) (DefaultThreadID r) (DefaultAgentName r).
Definition set_AllowedTools (v : list string) (r : GroupOverride) : GroupOverride := mk (ConversationID r) (DisplayName r) (Target r) (ThreadID r) (GroupMode r) (AgentProfileID r) (SystemPromptID r) (SystemPrompt r) (ToolPolicyID r) (ToolPolicy r) v (DisabledTools r) (DefaultTarget r) (DefaultThreadID r) (DefaultAgentName r).
Definition set_DisabledTools (v : list string) (r : GroupOverride) : GroupOverride := mk (ConversationID r) (DisplayName r) (Target r) (ThreadID r) (GroupMode r) (AgentProfileID r) (SystemPromptID r) (SystemPrompt r) (ToolPolicyID r) (ToolPolicy r) (AllowedTools r) v (DefaultTarget r) (DefaultThreadID r) (DefaultAgentName r).
Definition set_DefaultTarget (v : string) (r : GroupOverride) : GroupOverride := mk (ConversationID r) (DisplayName r) (Target r) (ThreadID r) (GroupMode r) (AgentProfileID r) (SystemPromptID r) (SystemPrompt r) (ToolPolicyID r) (ToolPolicy r) (AllowedTools r) (DisabledTools r) v (DefaultThreadID r) (DefaultAgentName r).
Definition set_DefaultThreadID (v : string) (r : GroupOverride) : GroupOverride := mk (ConversationID r) (DisplayName r) (Target r) (ThreadID r) (GroupMode r) (AgentProfileID r) (SystemPromptID r) (SystemPrompt r) (ToolPolicyID r) (ToolPolicy r) (AllowedTools r) (DisabledTools r) (DefaultTarget r) v (DefaultAgentName r).
Definition set_DefaultAgentName (v : string) (r : GroupOverride) : GroupOverride := mk (ConversationID r) (DisplayName r) (Target r) (ThreadID r) (GroupMode r) (AgentProfileID r) (SystemPromptID r) (SystemPrompt r) (ToolPolicyID r) (ToolPolicy r) (AllowedTools r) (DisabledTools r) (DefaultTarget r) (DefaultThreadID r) v.
End GroupOverride.
Abbreviation GroupOverride := GroupOverride.GroupOverride.

Module Config.
Record Config := mk {
  GroupMode : string;
  DefaultTarget : string;
  DefaultThreadID : string;
  DefaultAgentName : string;
  AgentProfileID : string;
  SystemPromptID : string;
  SystemPrompt : string;
  ToolPolicyID : string;
  ToolPolicy : gmap string json;
  AllowedTools : list string;
  DisabledTools : list string;
  Groups : list GroupOverride.GroupOverride
}.
Definition zero : Config := mk "" "" "" "" "" "" "" "" ∅ [] [] [].
Definition set_GroupMode (v : string) (r : Config) : Config := mk v (DefaultTarget r) (DefaultThreadID r) (DefaultAgentName r) (AgentProfileID r) (SystemPromptID r) (SystemPrompt r) (ToolPolicyID r) (ToolPolicy r) (AllowedTools r) (DisabledTools r) (Groups r).
Definition set_DefaultTarget (v : string) (r : Config) : Config := mk (GroupMode r) v (DefaultThreadID r) (DefaultAgentName r) (AgentProfileID r) (SystemPromptID r) (SystemPrompt r) (ToolPolicyID r) (ToolPolicy r) (AllowedTools r) (DisabledTools r) (Groups r).
Definition set_DefaultThreadID (v : string) (r : Config) : Config := mk (GroupMode r) (DefaultTarget r) v (DefaultAgentName r) (AgentProfileID r) (SystemPromptID r) (SystemPrompt r) (ToolPolicyID r) (ToolPolicy r) (AllowedTools r) (DisabledTools r) (Groups r).
Definition set_DefaultAgentName (v : string) (r : Config) : Config := mk (GroupMode r) (DefaultTarget r) (DefaultThreadID r) v (AgentProfileID r) (SystemPromptID r) (SystemPrompt r) (ToolPolicyID r) (ToolPolicy r) (AllowedTools r) (DisabledTools r) (Groups r).
Definition set_AgentProfileID (v : string) (r : Config) : Config := mk (GroupMode r) (DefaultTarget r) (DefaultThreadID r) (DefaultAgentName r) v (SystemPromptID r) (SystemPrompt r) (ToolPolicyID r) (ToolPolicy r) (AllowedTools r) (DisabledTools r) (Groups r).
Definition set_SystemPromptID (v : string) (r : Config) : Config := mk (GroupMode r) (DefaultTarget r) (DefaultThreadID r) (DefaultAgentName r) (AgentProfileID r) v (SystemPrompt r) (ToolPolicyID r) (ToolPolicy r) (AllowedTools r) (DisabledTools r) (Groups r).
Definition set_SystemPrompt (v : string) (r : Config) : Config := mk (GroupMode r) (DefaultTarget r) (DefaultThreadID r) (DefaultAgentName r) (AgentProfileID r) (SystemPromptID r) v (ToolPolicyID r) (ToolPolicy r) (AllowedTools r) (DisabledTools r) (Groups r).
Definition set_ToolPolicyID (v : string) (r : Config) : Config := mk (GroupMode r) (DefaultTarget r) (DefaultThreadID r) (DefaultAgentName r) (AgentProfileID r) (SystemPromptID r) (SystemPrompt r) v (ToolPolicy r) (AllowedTools r) (DisabledTools r) (Groups r).
Definition set_ToolPolicy (v : gmap string json) (r : Config) : Config := mk (GroupMode r) (DefaultTarget r) (DefaultThreadID r) (DefaultAgentName r) (AgentProfileID r) (SystemPromptID r) (SystemPrompt r) (ToolPolicyID r) v (AllowedTools r) (DisabledTools r) (Groups r).
Definition set_AllowedTools (v : list string) (r : Config) : Config := mk (GroupMode r) (DefaultTarget r) (DefaultThreadID r) (DefaultAgentName r) (AgentProfileID r) (SystemPromptID r) (SystemPrompt r) (ToolPolicyID r) (ToolPolicy r) v (DisabledTools r) (Groups r).
Definition set_DisabledTools (v : list string) (r : Config) : Config := mk (GroupMode r) (DefaultTarget r) (DefaultThreadID r) (DefaultAgentName r) (AgentProfileID r) (SystemPromptID r) (SystemPrompt r) (ToolPolicyID r) (ToolPolicy r) (AllowedTools r) v (Groups r).
Definition set_Groups (v : list GroupOverride.GroupOverride) (r : Config) : Config := mk (GroupMode r) (DefaultTarget r) (DefaultThreadID r) (DefaultAgentName r) (AgentProfileID r) (SystemPromptID r) (SystemPrompt r) (ToolPolicyID r) (ToolPolicy r) (AllowedTools r) (DisabledTools r) v.
End Config.
Abbreviation Config := Config.Config.

Module EffectivePolicy.
Record EffectivePolicy := mk {
  EndpointID : string;
  Provider : string;
  ConversationID : string;
  Matched : bool;
  GroupMode : string;
  Target : string;
  ThreadID : string;
  AgentProfileID : string;
  SystemPromptID : string;
  SystemPrompt : string;
  ToolPolicyID : string;
  ToolPolicy : gmap string json;
  AllowedTools : list string;
  DisabledTools : list string;
  DefaultAgentName : string
}.
Definition zero : EffectivePolicy := mk "" "" "" false "" "" "" "" "" "" "" ∅ [] [] "".
Definition set_EndpointID (v : string) (r : EffectivePolicy) : EffectivePolicy := mk v (Provider r) (ConversationID r) (Matched r) (GroupMode r) (Target r) (ThreadID r) (AgentProfileID r) (SystemPromptID r) (SystemPrompt r) (ToolPolicyID r) (ToolPolicy r) (AllowedTools r) (DisabledTools r) (DefaultAgentName r).
Definition set_Provider (v : string) (r : EffectivePolicy) : EffectivePolicy := mk (EndpointID r) v (ConversationID r) (Matched r) (GroupMode r) (Target r) (ThreadID r) (AgentProfileID r) (SystemPromptID r) (SystemPrompt r) (ToolPolicyID r) (ToolPolicy r) (AllowedTools r) (DisabledTools r) (DefaultAgentName r).
Definition set_ConversationID (v : string) (r : EffectivePolicy) : EffectivePolicy := mk (EndpointID r) (Provider r) v (Matched r) (GroupMode r) (Target r) (ThreadID r) (AgentProfileID r) (SystemPromptID r) (SystemPrompt r) (ToolPolicyID r) (ToolPolicy r) (AllowedTools r) (DisabledTools r) (DefaultAgentName r).
Definition set_Matched (v : bool) (r : EffectivePolicy) : EffectivePolicy := mk (EndpointID r) (Provider r) (ConversationID r) v (GroupMode r) (Target r) (ThreadID r) (AgentProfileID r) (SystemPromptID r) (SystemPrompt r) (ToolPolicyID r) (ToolPolicy r) (AllowedTools r) (DisabledTools r) (DefaultAgentName r).
Definition set_GroupMode (v : string) (r : EffectivePolicy) : EffectivePolicy := mk (EndpointID r) (Provider r) (ConversationID r) (Matched r) v (Target r) (ThreadID r) (AgentProfileID r) (SystemPromptID r) (SystemPrompt r) (ToolPolicyID r) (ToolPolicy r) (AllowedTools r) (DisabledTools r) (DefaultAgentName r).
Definition set_Target (v : string) (r : EffectivePolicy) : EffectivePolicy := mk (EndpointID r) (Provider r) (ConversationID r) (Matched r) (GroupMode r) v (ThreadID r) (AgentProfileID r) (SystemPromptID r) (SystemPrompt r) (ToolPolicyID r) (ToolPolicy r) (AllowedTools r) (DisabledTools r) (DefaultAgentName r).
Definition set_ThreadID (v : string) (r : EffectivePolicy) : EffectivePolicy := mk (EndpointID r) (Provider r) (ConversationID r) (Matched r) (GroupMode r) (Target r) v (AgentProfileID r) (SystemPromptID r) (SystemPrompt r) (ToolPolicyID r) (ToolPolicy r) (AllowedTools r) (DisabledTools r) (DefaultAgentName r).
Definition set_AgentProfileID (v : string) (r : EffectivePolicy) : EffectivePolicy := mk (EndpointID r) (Provider r) (ConversationID r) (Matched r) (GroupMode r) (Target r) (ThreadID r) v (SystemPromptID r) (SystemPrompt r) (ToolPolicyID r) (ToolPolicy r) (AllowedTools r) (DisabledTools r) (DefaultAgentName r).
Definition set_SystemPromptID (v : string) (r : EffectivePolicy) : EffectivePolicy := mk (EndpointID r) (Provider r) (ConversationID r) (Matched r) (GroupMode r) (Target r) (ThreadID r) (AgentProfileID r) v (SystemPrompt r) (ToolPolicyID r) (ToolPolicy r) (AllowedTools r) (DisabledTools r) (DefaultAgentName r).
Definition set_SystemPrompt (v : string) (r : EffectivePolicy) : EffectivePolicy := mk (EndpointID r) (Provider r) (ConversationID r) (Matched r) (GroupMode r) (Target r) (ThreadID r) (AgentProfileID r) (SystemPromptID r) v (ToolPolicyID r) (ToolPolicy r) (AllowedTools r) (DisabledTools r) (DefaultAgentName r).
Definition set_ToolPolicyID (v : string) (r : EffectivePolicy) : EffectivePolicy := mk (EndpointID r) (Provider r) (ConversationID r) (Matched r) (GroupMode r) (Target r) (ThreadID r) (AgentProfileID r) (SystemPromptID r) (SystemPrompt r) v (ToolPolicy r) (AllowedTools r) (DisabledTools r) (DefaultAgentName r).
Definition set_ToolPolicy (v : gmap string json) (r : EffectivePolicy) : EffectivePolicy := mk (EndpointID r) (Provider r) (ConversationID r) (Matched r) (GroupMode r) (Target r) (ThreadID r) (AgentProfileID r) (SystemPromptID r) (SystemPrompt r) (ToolPolicyID r) v (AllowedTools r) (DisabledTools r) (DefaultAgentName r).
Definition set_AllowedTools (v : list string) (r : EffectivePolicy) : EffectivePolicy := mk (EndpointID r) (Provider r) (ConversationID r) (Matched r) (GroupMode r) (Target r) (ThreadID r) (AgentProfileID r) (SystemPromptID r) (SystemPrompt r) (ToolPolicyID r) (ToolPolicy r) v (DisabledTools r) (DefaultAgentName r).
Definition set_DisabledTools (v : list string) (r : EffectivePolicy) : EffectivePolicy := mk (EndpointID r) (Provider r) (ConversationID r) (Matched r) (GroupMode r) (Target r) (ThreadID r) (AgentProfileID r) (SystemPromptID r) (SystemPrompt r) (ToolPolicyID r) (ToolPolicy r) (AllowedTools r) v (DefaultAgentName r).
Definition set_DefaultAgentName (v : string) (r : EffectivePolicy) : EffectivePolicy := mk (EndpointID r) (Provider r) (ConversationID r) (Matched r) (GroupMode r) (Target r) (ThreadID r) (AgentProfileID r) (SystemPromptID r) (SystemPrompt r) (ToolPolicyID r) (ToolPolicy r) (AllowedTools r) (DisabledTools r) v.
End EffectivePolicy.
Abbreviation EffectivePolicy := EffectivePolicy.EffectivePolicy.

Module G := GroupOverride.
Module Cf := Config.
Module Ep := EffectivePolicy.

Definition group_fields `{!Floats} : list (field GroupOverride) :=
  [("conversation_id", into G.ConversationID G.set_ConversationID dec_string);
   ("display_name", into G.DisplayName G.set_DisplayName dec_string);
   ("target", into G.Target G.set_Target dec_string);
   ("thread_id", into G.ThreadID G.set_ThreadID dec_string);
   ("group_mode", into G.GroupMode G.set_GroupMode dec_string);
   ("agent_profile_id", into G.AgentProfileID G.set_AgentProfileID dec_string);
   ("system_prompt_id", into G.SystemPromptID G.set_SystemPromptID dec_string);
   ("system_prompt", into G.SystemPrompt G.set_SystemPrompt dec_string);
   ("tool_policy_id", into G.ToolPolicyID G.set_ToolPolicyID dec_string);
   ("tool_policy", into G.ToolPolicy G.set_ToolPolicy (dec_map JNull dec_dyn));
   ("allowed_tools", into G.AllowedTools G.set_AllowedTools (dec_slice "" dec_string));
   ("disabled_tools", into G.DisabledTools G.set_DisabledTools (dec_slice "" dec_string));
   ("default_target", into G.DefaultTarget G.set_DefaultTarget dec_string);
   ("default_thread_id", into G.DefaultThreadID G.set_DefaultThreadID dec_string);
   ("default_agent_name", into G.DefaultAgentName G.set_DefaultAgentName dec_string)].

Section policy.
Context {Uni : Unicode} {Fl : Floats} {Ord : MapOrder}.

Definition stringValue (raw : gmap string json) (key fallback : string) : string :=
  match raw !! key with
  | None => fallback
  | Some value =>
      let (out, ok) := dec_string value "" in
      if ok then let out := TrimSpace out in if out =s "" then fallback else out else fallback
  end.

Definition stringSliceValue (raw : gmap string json) (key : string) : list string :=
  match raw !! key with
  | None => []
  | Some value =>
      let (values, ok) := dec_slice "" dec_string value [] in
      if ok then cleanStrings values else []
  end.

Definition validGroupMode (value : string) : bool :=
  let v := TrimSpace (ToLower value) in
  (v =s "") || (v =s GroupModeMention) || (v =s GroupModeAlways) || (v =s GroupModeDisabled).

Definition Normalize (g : GroupOverride) : GroupOverride :=
  let g := G.set_ConversationID (TrimSpace (G.ConversationID g)) g in
  let g := G.set_DisplayName (TrimSpace (G.DisplayName g)) g in
  let g := G.set_Target (TrimSpace (G.Target g)) g in
  let g := G.set_ThreadID (TrimSpace (G.ThreadID g)) g in
  let g := G.set_GroupMode (TrimSpace (ToLower (G.GroupMode g))) g in
  let g := G.set_AgentProfileID (TrimSpace (G.AgentProfileID g)) g in
  let g := G.set_SystemPromptID (TrimSpace (G.SystemPromptID g)) g in
  let g := G.set_SystemPrompt (TrimSpace (G.SystemPrompt g)) g in
  let g := G.set_ToolPolicyID (TrimSpace (G.ToolPolicyID g)) g in
  let g := G.set_AllowedTools (cleanStrings (G.AllowedTools g)) g in
  let g := G.set_DisabledTools (cleanStrings (G.DisabledTools g)) g in
  let g := G.set_DefaultTarget (TrimSpace (G.DefaultTarget g)) g in
  let g := G.set_DefaultThreadID (TrimSpace (G.DefaultThreadID g)) g in
  G.set_DefaultAgentName (TrimSpace (G.DefaultAgentName g)) g.

Definition normalizeGroups (groups : list GroupOverride) : list GroupOverride := Normalize <$> groups.

(** An override of an object without a conversation takes its key. *)
Definition keyed_group (entry : string * GroupOverride) : GroupOverride :=
  let (conversationID, group) := entry in
  if TrimSpace (G.ConversationID group) =s "" then G.set_ConversationID conversationID group else group.

Definition parseGroups (raw : json) : policy_error + list GroupOverride :=
  match raw with
  | JNull => inr []
  | JArr _ =>
      let (groups, ok) := dec_slice G.zero (dec_struct group_fields) raw [] in
      if ok then inr (normalizeGroups groups) else inl GroupsNotArrayOrObject
  | _ =>
      let (keyed, ok) := dec_map G.zero (dec_struct group_fields) raw ∅ in
      if ok then inr (normalizeGroups (keyed_group <$> visit (map_to_list keyed)))
      else inl GroupsNotArrayOrObject
  end.

Fixpoint validate_groups (i : nat) (groups : list GroupOverride) : option policy_error :=
  match groups with
  | [] => None
  | group :: groups =>
      let group := Normalize group in
      if (G.GroupMode group <>s "") && negb (validGroupMode (G.GroupMode group))
      then Some (GroupUnsupportedMode i (G.GroupMode group))
      else if G.ConversationID group =s "" then Some (GroupConversationRequired i)
      else validate_groups (S i) groups
  end.

(** [None] is no error. *)
Definition Validate (cfg : Config) : option policy_error :=
  if negb (validGroupMode (Cf.GroupMode cfg)) then Some (UnsupportedGroupMode (Cf.GroupMode cfg))
  else validate_groups 0 (Cf.Groups cfg).

Definition parse_tool_policy (raw : gmap string json) : option (gmap string json) :=
  match raw !! "tool_policy" with
  | None => Some ∅
  | Some value => let (m, ok) := dec_map JNull dec_dyn value ∅ in if ok then Some m else None
  end.

Definition parse_groups_field (raw : gmap string json) : policy_error + list GroupOverride :=
  match raw !! "groups" with None => inr [] | Some value => parseGroups value end.

Definition ParseConfig (rawConfig : string) : policy_error + Config :=
  let rawConfig := TrimSpace rawConfig in
  let rawConfig := if rawConfig =s "" then "{}" else rawConfig in
  let (raw, ok) := Unmarshal (dec_map JNull dec_any) rawConfig ∅ in
  if negb ok then inl InvalidConfigJSON else
  let cfg := Cf.set_GroupMode (ToLower (stringValue raw "group_mode" GroupModeMention)) Cf.zero in
  let cfg := Cf.set_DefaultTarget (stringValue raw "default_target" "") cfg in
  let cfg := Cf.set_DefaultThreadID (stringValue raw "default_thread_id" "") cfg in
  let cfg := Cf.set_DefaultAgentName (stringValue raw "default_agent_name" "") cfg in
  let cfg := Cf.set_AgentProfileID (stringValue raw "agent_profile_id" "") cfg in
  let cfg := Cf.set_SystemPromptID (stringValue raw "system_prompt_id" "") cfg in
  let cfg := Cf.set_SystemPrompt (stringValue raw "system_prompt" "") cfg in
  let cfg := Cf.set_ToolPolicyID (stringValue raw "tool_policy_id" "") cfg in
  let cfg := Cf.set_AllowedTools (stringSliceValue raw "allowed_tools") cfg in
  let cfg := Cf.set_DisabledTools (stringSliceValue raw "disabled_tools") cfg in
  match parse_tool_policy raw with
  | None => inl ToolPolicyNotObject
  | Some toolPolicy =>
      let cfg := Cf.set_ToolPolicy toolPolicy cfg in
      match parse_groups_field raw with
      | inl err => inl err
      | inr groups =>
          let cfg := Cf.set_Groups groups cfg in
          match Validate cfg with Some err => inl err | None => inr cfg end
      end
  end.

Definition or_else (value fallback : string) : string := if value =s "" then fallback else value.

(** The body of [Resolve]'s loop for the override it stops at, already normalised. *)
Definition apply_group (group : GroupOverride) (policy : EffectivePolicy) : EffectivePolicy :=
  let policy := Ep.set_Matched true policy in
  let policy := Ep.set_Target (G.Target group) policy in
  let policy := Ep.set_ThreadID (G.ThreadID group) policy in
  let policy := Ep.set_GroupMode (or_else (G.GroupMode group) (Ep.GroupMode policy)) policy in
  let policy := Ep.set_AgentProfileID (or_else (G.AgentProfileID group) (Ep.AgentProfileID policy)) policy in
  let policy := Ep.set_SystemPromptID (or_else (G.SystemPromptID group) (Ep.SystemPromptID policy)) policy in
  let policy := Ep.set_SystemPrompt (or_else (G.SystemPrompt group) (Ep.SystemPrompt policy)) policy in
  let policy := Ep.set_ToolPolicyID (or_else (G.ToolPolicyID group) (Ep.ToolPolicyID policy)) policy in
  let policy := if 0 <? size (G.ToolPolicy group) then Ep.set_ToolPolicy (G.ToolPolicy group) policy else policy in
  let policy := if 0 <? length (G.AllowedTools group)
    then Ep.set_AllowedTools (cleanStrings (G.AllowedTools group)) policy else policy in
  let policy := if 0 <? length (G.DisabledTools group)
    then Ep.set_DisabledTools (cleanStrings (G.DisabledTools group)) policy else policy in
  let policy := if (G.DefaultTarget group <>s "") && (Ep.Target policy =s "")
    then Ep.set_Target (G.DefaultTarget group) policy else policy in
  let policy := if (G.DefaultThreadID group <>s "") && (Ep.ThreadID policy =s "")
    then Ep.set_ThreadID (G.DefaultThreadID group) policy else policy in
  Ep.set_DefaultAgentName (G.DefaultAgentName group) policy.

Fixpoint apply_groups (conversationID : string) (groups : list GroupOverride) (policy : EffectivePolicy) : EffectivePolicy :=
  match groups with
  | [] => policy
  | group :: groups =>
      let group := Normalize group in
      if G.ConversationID group <>s conversationID then apply_groups conversationID groups policy
      else apply_group group policy
  end.

Definition defaults (endpointID provider conversationID : string) (cfg : Config) : EffectivePolicy :=
  Ep.mk (TrimSpace endpointID) (TrimSpace provider) conversationID false (Cf.GroupMode cfg)
    (Cf.DefaultTarget cfg) (Cf.DefaultThreadID cfg) (Cf.AgentProfileID cfg) (Cf.SystemPromptID cfg)
    (Cf.SystemPrompt cfg) (Cf.ToolPolicyID cfg) (Cf.ToolPolicy cfg)
    (cleanStrings (Cf.AllowedTools cfg)) (cleanStrings (Cf.DisabledTools cfg)) (Cf.DefaultAgentName cfg).

Definition Resolve (endpointID provider rawConfig conversationID : string) : policy_error + EffectivePolicy :=
  match ParseConfig rawConfig with
  | inl err => inl err
  | inr cfg =>
      let conversationID := TrimSpace conversationID in
      inr (apply_groups conversationID (Cf.Groups cfg) (defaults endpointID provider conversationID cfg))
  end.

End policy.

(** ** What [Resolve] promises *)

Definition known_mode (mode : string) : Prop :=
  mode = GroupModeMention ∨ mode = GroupModeAlways ∨ mode = GroupModeDisabled.

(** A list of names as the code keeps them. *)
Definition clean (l : list string) : Prop := NoDup l ∧ ∀ x, x ∈ l → trimmed x ∧ x ≠ "".

(** The policies the rest of the program is given. *)
Record policy_ok (p : EffectivePolicy) : Prop := {
  ok_mode : known_mode (Ep.GroupMode p);
  ok_texts : Forall trimmed [Ep.EndpointID p; Ep.Provider p; Ep.ConversationID p; Ep.Target p; Ep.ThreadID p;
    Ep.AgentProfileID p; Ep.SystemPromptID p; Ep.SystemPrompt p; Ep.ToolPolicyID p; Ep.DefaultAgentName p];
  ok_allowed : clean (Ep.AllowedTools p);
  ok_disabled : clean (Ep.DisabledTools p)
}.

Lemma trimmed_empty : trimmed "".
Proof. done. Qed.

#[export] Hint Resolve trimmed_empty TrimSpace_trimmed : nekode.

Lemma clean_cleanStrings l : clean (cleanStrings l).
Proof.
  split; [apply NoDup_cleanStrings|]. intros x. rewrite elem_of_cleanStrings.
  intros [? (y & -> & _)%list_elem_of_fmap]. auto with nekode.
Qed.

#[export] Hint Resolve clean_cleanStrings : nekode.

Lemma or_else_trimmed a b : trimmed a → trimmed b → trimmed (or_else a b).
Proof. unfold or_else. by destruct (a =s ""). Qed.

Section policy_lemmas.
Context {Uni : Unicode} {UniL : UnicodeLaws} {Fl : Floats} {Ord : MapOrder}.

Lemma stringValue_trimmed raw key fallback : trimmed fallback → trimmed (stringValue raw key fallback).
Proof.
  unfold stringValue. intros Hf. destruct (raw !! key) as [v|]; [|done].
  destruct (dec_string v "") as [out []]; [|done]. destruct (TrimSpace out =s ""); auto with nekode.
Qed.

Lemma stringValue_nonempty raw key fallback : fallback ≠ "" → stringValue raw key fallback ≠ "".
Proof.
  unfold stringValue. intros Hf. destruct (raw !! key) as [v|]; [|done].
  destruct (dec_string v "") as [out []]; [|done]. destruct (TrimSpace out =s "") eqn:E; [done|].
  by apply eqb_neq_str in E.
Qed.

Lemma stringSliceValue_clean raw key : clean (stringSliceValue raw key).
Proof.
  unfold stringSliceValue. destruct (raw !! key) as [v|]; [|exact (clean_cleanStrings [])].
  destruct (dec_slice "" dec_string v []) as [l []]; [auto with nekode|exact (clean_cleanStrings [])].
Qed.

(** A mode that is already lower case and trimmed is valid only if it is known. *)
Lemma validGroupMode_known mode :
  ToLower mode = mode → trimmed mode → mode ≠ "" → validGroupMode mode = true → known_mode mode.
Proof.
  unfold validGroupMode, known_mode. intros -> Ht Hn. rewrite Ht.
  rewrite !orb_true_iff, !eqb_eq_str. tauto.
Qed.

Lemma Normalize_mode g : let mode := G.GroupMode (Normalize g) in ToLower mode = mode ∧ trimmed mode.
Proof.
  cbn. split; [|auto with nekode]. by rewrite ToLower_TrimSpace, ToLower_idemp.
Qed.

Lemma validate_groups_mode i groups g :
  validate_groups i groups = None → g ∈ groups →
  G.GroupMode (Normalize g) = "" ∨ known_mode (G.GroupMode (Normalize g)).
Proof.
  revert i. induction groups as [|h groups IH]; intros i; cbn -[Normalize]; [by inversion 2|].
  destruct ((_ <>s "") && _) eqn:E; [done|]. destruct (G.ConversationID (Normalize h) =s ""); [done|].
  intros Hv [->|Hg]%elem_of_cons; [|by eapply IH].
  destruct (Normalize_mode h) as [Hl Ht].
  apply andb_false_iff in E as [E|E]; apply negb_false_iff in E; reflect_bools; [by left|].
  destruct (decide (G.GroupMode (Normalize h) = "")); [by left|right]. by apply validGroupMode_known.
Qed.

(** A configuration that parsed. *)
Record config_ok (cfg : Config) : Prop := {
  cfg_mode : known_mode (Cf.GroupMode cfg);
  cfg_texts : Forall trimmed [Cf.DefaultTarget cfg; Cf.DefaultThreadID cfg; Cf.DefaultAgentName cfg;
    Cf.AgentProfileID cfg; Cf.SystemPromptID cfg; Cf.SystemPrompt cfg; Cf.ToolPolicyID cfg];
  cfg_groups : ∀ g, g ∈ Cf.Groups cfg →
    G.GroupMode (Normalize g) = "" ∨ known_mode (G.GroupMode (Normalize g))
}.

Lemma ParseConfig_ok rawConfig cfg : ParseConfig rawConfig = inr cfg → config_ok cfg.
Proof.
  unfold ParseConfig. set (text := if _ =s "" then _ else _). clearbody text.
  destruct (Unmarshal _ text ∅) as [raw []]; cbn beta iota; [|done].
  destruct (parse_tool_policy raw) as [tools|]; [|done].
  destruct (parse_groups_field raw) as [|groups]; [done|].
  unfold Validate. cbn -[stringValue stringSliceValue validGroupMode].
  destruct (validGroupMode _) eqn:Em; [|done]. cbn.
  destruct (validate_groups 0 groups) eqn:Eg; [done|]. intros [= <-]. constructor; cbn.
  - apply validGroupMode_known; [apply ToLower_idemp|..|done].
    + apply ToLower_trimmed, stringValue_trimmed. done.
    + intros E%ToLower_nonempty. revert E. by apply stringValue_nonempty.
  - repeat constructor; apply stringValue_trimmed, trimmed_empty.
  - intros g. by apply (validate_groups_mode 0).
Qed.

Lemma apply_group_ok g p :
  policy_ok p → G.GroupMode (Normalize g) = "" ∨ known_mode (G.GroupMode (Normalize g)) →
  policy_ok (apply_group (Normalize g) p).
Proof.
  intros [Hm Ht Ha Hd] Hg. unfold apply_group. cbv zeta.
  assert (∀ s, trimmed (TrimSpace s)) as T by auto with nekode.
  decompose_Forall_hyps.
  repeat match goal with |- context [if ?b then _ else _] => destruct b end;
    (constructor; cbn;
     [ unfold or_else; destruct (_ =s "") eqn:E; [done|]; reflect_bools; destruct Hg as [Hg|Hg]; done
     | repeat constructor; auto using or_else_trimmed
     | auto with nekode | auto with nekode ]).
Qed.

(** Whatever the configuration of an endpoint says, a policy that [Resolve] returns
    has one of the three group modes, trimmed texts, and tool lists without blanks and
    repetitions. *)
Theorem Resolve_well_formed endpointID provider rawConfig conversationID p :
  Resolve endpointID provider rawConfig conversationID = inr p → policy_ok p.
Proof.
  unfold Resolve. destruct (ParseConfig rawConfig) as [|cfg] eqn:E; [done|]. intros [= <-].
  apply ParseConfig_ok in E as [Hm Ht Hg].
  assert (policy_ok (defaults endpointID provider (TrimSpace conversationID) cfg)) as Hp.
  { decompose_Forall_hyps. constructor; cbn; auto with nekode. repeat constructor; auto with nekode. }
  revert Hp Hg. generalize (Cf.Groups cfg), (defaults endpointID provider (TrimSpace conversationID) cfg).
  intros groups. induction groups as [|g groups IH]; intros p Hp Hg; cbn [apply_groups]; [done|].
  destruct (_ <>s _); [apply IH; [done|]; intros h Hh; apply Hg; by right|].
  apply apply_group_ok; [done|]. apply Hg. by left.
Qed.

End policy_lemmas.

(** ** The order in which Go visits the overrides *)

Lemma validate_groups_cons `{!Unicode} i g groups :
  validate_groups i (g :: groups) = None ↔ validate_groups 0 [g] = None ∧ validate_groups (S i) groups = None.
Proof.
  cbn [validate_groups]. cbv zeta. destruct (_ && _); [by split; [|intros []]|].
  destruct (G.ConversationID (Normalize g) =s ""); [by split; [|intros []]|]. by split; [|intros []].
Qed.

Lemma validate_groups_None `{!Unicode} i groups :
  validate_groups i groups = None ↔ Forall (λ g, validate_groups 0 [g] = None) groups.
Proof.
  revert i. induction groups as [|g groups IH]; intros i; [split; [constructor|done]|].
  by rewrite validate_groups_cons, Forall_cons, (IH (S i)).
Qed.

Lemma Normalize_conversation `{!Unicode} g : G.ConversationID (Normalize (Normalize g)) = G.ConversationID (Normalize g).
Proof. apply TrimSpace_idemp. Qed.

(** At most one override can apply, so their order does not matter. *)
Lemma apply_groups_perm `{!Unicode} conversationID groups groups' p :
  groups ≡ₚ groups' → NoDup (G.ConversationID ∘ Normalize <$> groups) →
  apply_groups conversationID groups p = apply_groups conversationID groups' p.
Proof.
  induction 1 as [|g l l' Hl IH|g h l|l1 l2 l3 H1 IH1 H2 IH2]; intros Hd; cbn [apply_groups].
  - done.
  - apply NoDup_cons in Hd as [_ Hd]. by rewrite (IH Hd).
  - apply NoDup_cons in Hd as [Hd _]. destruct (G.ConversationID (Normalize g) <>s _) eqn:Eg, (G.ConversationID (Normalize h) <>s _) eqn:Eh;
      [done..|]. reflect_bools. destruct Hd. apply elem_of_cons; left. unfold compose. by rewrite Eg, Eh.
  - rewrite IH1 by done. apply IH2. by rewrite <-H1.
Qed.

Section orders.
Context {Uni : Unicode} {Fl : Floats}.
Variables O1 O2 : MapOrder.

Lemma parse_groups_perm raw :
  match @parse_groups_field _ _ O1 raw, @parse_groups_field _ _ O2 raw with
  | inr l1, inr l2 => l1 ≡ₚ l2
  | inl e1, inl e2 => e1 = e2
  | _, _ => False
  end.
Proof.
  unfold parse_groups_field. destruct (raw !! "groups") as [v|]; [|done].
  destruct v; cbn -[dec_map dec_slice]; try done;
    match goal with |- context [let (_, _) := ?d in _] => destruct d as [? []] end; try done.
  unfold normalizeGroups. by rewrite !visit_perm.
Qed.

Lemma ParseConfig_perm rawConfig cfg :
  @ParseConfig _ _ O1 rawConfig = inr cfg →
  ∃ groups, @ParseConfig _ _ O2 rawConfig = inr (Cf.set_Groups groups cfg) ∧ Cf.Groups cfg ≡ₚ groups.
Proof.
  unfold ParseConfig. set (text := if _ =s "" then _ else _). clearbody text.
  destruct (Unmarshal _ text ∅) as [raw []]; cbn beta iota; [|done].
  destruct (parse_tool_policy raw) as [tools|]; [|done]. pose proof (parse_groups_perm raw) as Hp.
  destruct (@parse_groups_field _ _ O1 raw) as [|l1]; [done|].
  destruct (@parse_groups_field _ _ O2 raw) as [|l2]; [done|].
  unfold Validate. cbn -[stringValue stringSliceValue validGroupMode].
  destruct (validGroupMode _); [|done]. cbn -[stringValue stringSliceValue].
  destruct (validate_groups 0 l1) eqn:E1; [done|]. intros [= <-].
  apply validate_groups_None in E1. rewrite Hp in E1. apply validate_groups_None with (i := 0) in E1.
  rewrite E1. by exists l2.
Qed.


End orders.

(** ** Concrete configurations *)

Definition member (k v : string) : string := q k +:+ ":" +:+ v.
Definition in_order : MapOrder := {| visit A l := l; visit_perm A l := reflexivity l |}.
Definition in_reverse : MapOrder := {| visit A l := rev l; visit_perm A l := Permutation_sym (Permutation_rev l) |}.

Definition sample_config : string :=
  "{" +:+ member "group_mode" (q " Always") +:+ "," +:+ member "default_target" (q "#general") +:+ ","
  +:+ member "allowed_tools" ("[" +:+ q "search" +:+ "," +:+ q " search " +:+ "," +:+ q "shell" +:+ "]") +:+ ","
  +:+ member "groups" ("{" +:+ member "oc_1" ("{" +:+ member "group_mode" (q "disabled") +:+ "}") +:+ "}") +:+ "}".

Definition sample_policy : EffectivePolicy :=
  Ep.mk "ep" "feishu" "oc_2" false "always" "#general" "" "" "" "" "" ∅ ["search"; "shell"] [] "".

Lemma Resolve_well_formed_witness :
  @Resolve ascii_unicode same_text in_order " ep" "feishu" sample_config "oc_2" = inr sample_policy ∧ policy_ok sample_policy.
Proof.
  assert (@Resolve ascii_unicode same_text in_order " ep" "feishu" sample_config "oc_2" = inr sample_policy) as E
    by (vm_compute; reflexivity).
  split; [exact E|]. exact (Resolve_well_formed (Uni := ascii_unicode) (Fl := same_text) _ _ _ _ _ E).
Defined.


(** A conversation with an override that names no target has no target, although the
    endpoint has a default one that every other conversation gets. *)
Example override_hides_defaults :
  match @Resolve ascii_unicode same_text in_order "ep" "feishu" sample_config "oc_1" with
  | inr p => Ep.Target p = "" ∧ Ep.GroupMode p = "disabled"
  | inl _ => False
  end.
Proof. vm_compute. done. Qed.

(** Two keys of the same conversation: the policy depends on the order of the visit. *)
Definition twice_config : string :=
  "{" +:+ member "groups"
    ("{" +:+ member "oc_1" ("{" +:+ member "group_mode" (q "disabled") +:+ "}") +:+ ","
     +:+ member " oc_1" ("{" +:+ member "group_mode" (q "always") +:+ "}") +:+ "}") +:+ "}".

Example same_conversation_twice :
  @Resolve ascii_unicode same_text in_order "ep" "feishu" twice_config "oc_1" ≠
  @Resolve ascii_unicode same_text in_reverse "ep" "feishu" twice_config "oc_1".
Proof. vm_compute. discriminate. Qed.
