(* ===== verification/ImAdapter.v ===== *)
(** * Providers of instant messengers ([internal/imadapter/registry.go, capabilities.go])

    What each provider can do, the fields of its configuration, and the two operations
    on a stored configuration: [ValidateConfig] and [RedactConfig], which hides the
    values of sensitive fields before an endpoint leaves the server.  A pointer to a
    capability is an [option]; how [fmt] prints a number is the parameter [Sprinter]. *)
From S2P Require Import Prelude GoStr GoText Sql Json JsonValue.
#[local] Open Scope go_scope.

Module TextCapability.
Record TextCapability := mk {
  Scope : string
}.
End TextCapability.
Abbreviation TextCapability := TextCapability.TextCapability.

Module FormattingCapability.
Record FormattingCapability := mk {
  Scope : string;
  Mode : string
}.
End FormattingCapability.
Abbreviation FormattingCapability := FormattingCapability.FormattingCapability.

Module QuickRepliesCapability.
Record QuickRepliesCapability := mk {
  Scope : string;
  MaxItems : Z
}.
End QuickRepliesCapability.
Abbreviation QuickRepliesCapability := QuickRepliesCapability.QuickRepliesCapability.

Module InlineButtonsCapability.
Record InlineButtonsCapability := mk {
  Scope : string;
  Callback : bool;
  MaxItems : Z
}.
End InlineButtonsCapability.
Abbreviation InlineButtonsCapability := InlineButtonsCapability.InlineButtonsCapability.

Module NativeCommandsCapability.
Record NativeCommandsCapability := mk {
  Scope : string;
  ConfiguredBy : string
}.
End NativeCommandsCapability.
Abbreviation NativeCommandsCapability := NativeCommandsCapability.NativeCommandsCapability.

Module MessageEditCapability.
Record MessageEditCapability := mk {
  Scope : string
}.
End MessageEditCapability.
Abbreviation MessageEditCapability := MessageEditCapability.MessageEditCapability.

Module ReactionsCapability.
Record ReactionsCapability := mk {
  Scope : string
}.
End ReactionsCapability.
Abbreviation ReactionsCapability := ReactionsCapability.ReactionsCapability.

Module ThreadsCapability.
Record ThreadsCapability := mk {
  Scope : string;
  ProviderModel : string
}.
End ThreadsCapability.
Abbreviation ThreadsCapability := ThreadsCapability.ThreadsCapability.

Module MediaUploadCapability.
Record MediaUploadCapability := mk {
  Scope : string;
  MaxBytes : Z
}.
End MediaUploadCapability.
Abbreviation MediaUploadCapability := MediaUploadCapability.MediaUploadCapability.

Module MentionsCapability.
Record MentionsCapability := mk {
  Scope : string
}.
End MentionsCapability.
Abbreviation MentionsCapability := MentionsCapability.MentionsCapability.

Module InteractionCapabilities.
Record InteractionCapabilities := mk {
  Text : option TextCapability.TextCapability;
  Formatting : option FormattingCapability.FormattingCapability;
  QuickReplies : option QuickRepliesCapability.QuickRepliesCapability;
  InlineButtons : option InlineButtonsCapability.InlineButtonsCapability;
  NativeCommands : option NativeCommandsCapability.NativeCommandsCapability;
  MessageEdit : option MessageEditCapability.MessageEditCapability;
  Reactions : option ReactionsCapability.ReactionsCapability;
  Threads : option ThreadsCapability.ThreadsCapability;
  MediaUpload : option MediaUploadCapability.MediaUploadCapability;
  Mentions : option MentionsCapability.MentionsCapability
}.
Definition zero : InteractionCapabilities := mk None None None None None None None None None None.
Definition set_Text (v : option TextCapability.TextCapability) (r : InteractionCapabilities) : InteractionCapabilities := mk v (Formatting r) (QuickReplies r) (InlineButtons r) (NativeCommands r) (MessageEdit r) (Reactions r) (Threads r) (MediaUpload r) (Mentions r).
Definition set_Formatting (v : option FormattingCapability.FormattingCapability) (r : InteractionCapabilities) : InteractionCapabilities := mk (Text r) v (QuickReplies r) (InlineButtons r) (NativeCommands r) (MessageEdit r) (Reactions r) (Threads r) (MediaUpload r) (Mentions r).
Definition set_QuickReplies (v : option QuickRepliesCapability.QuickRepliesCapability) (r : InteractionCapabilities) : InteractionCapabilities := mk (Text r) (Formatting r) v (InlineButtons r) (NativeCommands r) (MessageEdit r) (Reactions r) (Threads r) (MediaUpload r) (Mentions r).
Definition set_InlineButtons (v : option InlineButtonsCapability.InlineButtonsCapability) (r : InteractionCapabilities) : InteractionCapabilities := mk (Text r) (Formatting r) (QuickReplies r) v (NativeCommands r) (MessageEdit r) (Reactions r) (Threads r) (MediaUpload r) (Mentions r).
Definition set_NativeCommands (v : option NativeCommandsCapability.NativeCommandsCapability) (r : InteractionCapabilities) : InteractionCapabilities := mk (Text r) (Formatting r) (QuickReplies r) (InlineButtons r) v (MessageEdit r) (Reactions r) (Threads r) (MediaUpload r) (Mentions r).
Definition set_MessageEdit (v : option MessageEditCapability.MessageEditCapability) (r : InteractionCapabilities) : InteractionCapabilities := mk (Text r) (Formatting r) (QuickReplies r) (InlineButtons r) (NativeCommands r) v (Reactions r) (Threads r) (MediaUpload r) (Mentions r).
Definition set_Reactions (v : option ReactionsCapability.ReactionsCapability) (r : InteractionCapabilities) : InteractionCapabilities := mk (Text r) (Formatting r) (QuickReplies r) (InlineButtons r) (NativeCommands r) (MessageEdit r) v (Threads r) (MediaUpload r) (Mentions r).
Definition set_Threads (v : option ThreadsCapability.ThreadsCapability) (r : InteractionCapabilities) : InteractionCapabilities := mk (Text r) (Formatting r) (QuickReplies r) (InlineButtons r) (NativeCommands r) (MessageEdit r) (Reactions r) v (MediaUpload r) (Mentions r).
Definition set_MediaUpload (v : option MediaUploadCapability.MediaUploadCapability) (r : InteractionCapabilities) : InteractionCapabilities := mk (Text r) (Formatting r) (QuickReplies r) (InlineButtons r) (NativeCommands r) (MessageEdit r) (Reactions r) (Threads r) v (Mentions r).
Definition set_Mentions (v : option MentionsCapability.MentionsCapability) (r : InteractionCapabilities) : InteractionCapabilities := mk (Text r) (Formatting r) (QuickReplies r) (InlineButtons r) (NativeCommands r) (MessageEdit r) (Reactions r) (Threads r) (MediaUpload r) v.
End InteractionCapabilities.
Abbreviation InteractionCapabilities := InteractionCapabilities.InteractionCapabilities.

Module Field.
Record Field := mk {
  Name : string;
  Label : string;
  Type_ : string;
  Required : bool;
  Sensitive : bool;
  Description : string;
  Placeholder : string;
  Options : list string
}.
End Field.
Abbreviation Field := Field.Field.

Module BindingMethod.
Record BindingMethod := mk {
  Method : string;
  DisplayName : string;
  Description : string
}.
End BindingMethod.
Abbreviation BindingMethod := BindingMethod.BindingMethod.

Module SetupMethod.
Record SetupMethod := mk {
  Method : string;
  DisplayName : string;
  Description : string;
  Primary : bool
}.
End SetupMethod.
Abbreviation SetupMethod := SetupMethod.SetupMethod.

Module ProviderSchema.
Record ProviderSchema := mk {
  Provider : string;
  DisplayName : string;
  Transport : string;
  Description : string;
  Canonical : bool;
  Availability : string;
  RuntimeStatus : string;
  Source : string;
  Notes : list string;
  SupportsWebhook : bool;
  SupportsPolling : bool;
  SupportsStreaming : bool;
  SupportsMedia : bool;
  BindingTargets : list string;
  BindingMethods : list BindingMethod.BindingMethod;
  SetupMethods : list SetupMethod.SetupMethod;
  SetupHints : list string;
  Fields : list Field.Field;
  InteractionCapabilities : option InteractionCapabilities.InteractionCapabilities
}.
Definition zero : ProviderSchema := mk "" "" "" "" false "" "" "" [] false false false false [] [] [] [] [] None.
Definition set_Provider (v : string) (r : ProviderSchema) : ProviderSchema := mk v (DisplayName r) (Transport r) (Description r) (Canonical r) (Availability r) (RuntimeStatus r) (Source r) (Notes r) (SupportsWebhook r) (SupportsPolling r) (SupportsStreaming r) (SupportsMedia r) (BindingTargets r) (BindingMethods r) (SetupMethods r) (SetupHints r) (Fields r) (InteractionCapabilities r).
Definition set_DisplayName (v : string) (r : ProviderSchema) : ProviderSchema := mk (Provider r) v (Transport r) (Description r) (Canonical r) (Availability r) (RuntimeStatus r) (Source r) (Notes r) (SupportsWebhook r) (SupportsPolling r) (SupportsStreaming r) (SupportsMedia r) (BindingTargets r) (BindingMethods r) (SetupMethods r) (SetupHints r) (Fields r) (InteractionCapabilities r).
Definition set_Transport (v : string) (r : ProviderSchema) : ProviderSchema := mk (Provider r) (DisplayName r) v (Description r) (Canonical r) (Availability r) (RuntimeStatus r) (Source r) (Notes r) (SupportsWebhook r) (SupportsPolling r) (SupportsStreaming r) (SupportsMedia r) (BindingTargets r) (BindingMethods r) (SetupMethods r) (SetupHints r) (Fields r) (InteractionCapabilities r).
Definition set_Description (v : string) (r : ProviderSchema) : ProviderSchema := mk (Provider r) (DisplayName r) (Transport r) v (Canonical r) (Availability r) (RuntimeStatus r) (Source r) (Notes r) (SupportsWebhook r) (SupportsPolling r) (SupportsStreaming r) (SupportsMedia r) (BindingTargets r) (BindingMethods r) (SetupMethods r) (SetupHints r) (Fields r) (InteractionCapabilities r).
Definition set_Canonical (v : bool) (r : ProviderSchema) : ProviderSchema := mk (Provider r) (DisplayName r) (Transport r) (Description r) v (Availability r) (RuntimeStatus r) (Source r) (Notes r) (SupportsWebhook r) (SupportsPolling r) (SupportsStreaming r) (SupportsMedia r) (BindingTargets r) (BindingMethods r) (SetupMethods r) (SetupHints r) (Fields r) (InteractionCapabilities r).
Definition set_Availability (v : string) (r : ProviderSchema) : ProviderSchema := mk (Provider r) (DisplayName r) (Transport r) (Description r) (Canonical r) v (RuntimeStatus r) (Source r) (Notes r) (SupportsWebhook r) (SupportsPolling r) (SupportsStreaming r) (SupportsMedia r) (BindingTargets r) (BindingMethods r) (SetupMethods r) (SetupHints r) (Fields r) (InteractionCapabilities r).
Definition set_RuntimeStatus (v : string) (r : ProviderSchema) : ProviderSchema := mk (Provider r) (DisplayName r) (Transport r) (Description r) (Canonical r) (Availability r) v (Source r) (Notes r) (SupportsWebhook r) (SupportsPolling r) (SupportsStreaming r) (SupportsMedia r) (BindingTargets r) (BindingMethods r) (SetupMethods r) (SetupHints r) (Fields r) (InteractionCapabilities r).
Definition set_Source (v : string) (r : ProviderSchema) : ProviderSchema := mk (Provider r) (DisplayName r) (Transport r) (Description r) (Canonical r) (Availability r) (RuntimeStatus r) v (Notes r) (SupportsWebhook r) (SupportsPolling r) (SupportsStreaming r) (SupportsMedia r) (BindingTargets r) (BindingMethods r) (SetupMethods r) (SetupHints r) (Fields r) (InteractionCapabilities r).
Definition set_Notes (v : list string) (r : ProviderSchema) : ProviderSchema := mk (Provider r) (DisplayName r) (Transport r) (Description r) (Canonical r) (Availability r) (RuntimeStatus r) (Source r) v (SupportsWebhook r) (SupportsPolling r) (SupportsStreaming r) (SupportsMedia r) (BindingTargets r) (BindingMethods r) (SetupMethods r) (SetupHints r) (Fields r) (InteractionCapabilities r).
Definition set_SupportsWebhook (v : bool) (r : ProviderSchema) : ProviderSchema := mk (Provider r) (DisplayName r) (Transport r) (Description r) (Canonical r) (Availability r) (RuntimeStatus r) (Source r) (Notes r) v (SupportsPolling r) (SupportsStreaming r) (SupportsMedia r) (BindingTargets r) (BindingMethods r) (SetupMethods r) (SetupHints r) (Fields r) (InteractionCapabilities r).
Definition set_SupportsPolling (v : bool) (r : ProviderSchema) : ProviderSchema := mk (Provider r) (DisplayName r) (Transport r) (Description r) (Canonical r) (Availability r) (RuntimeStatus r) (Source r) (Notes r) (SupportsWebhook r) v (SupportsStreaming r) (SupportsMedia r) (BindingTargets r) (BindingMethods r) (SetupMethods r) (SetupHints r) (Fields r) (InteractionCapabilities r).
Definition set_SupportsStreaming (v : bool) (r : ProviderSchema) : ProviderSchema := mk (Provider r) (DisplayName r) (Transport r) (Description r) (Canonical r) (Availability r) (RuntimeStatus r) (Source r) (Notes r) (SupportsWebhook r) (SupportsPolling r) v (SupportsMedia r) (BindingTargets r) (BindingMethods r) (SetupMethods r) (SetupHints r) (Fields r) (InteractionCapabilities r).
Definition set_SupportsMedia (v : bool) (r : ProviderSchema) : ProviderSchema := mk (Provider r) (DisplayName r) (Transport r) (Description r) (Canonical r) (Availability r) (RuntimeStatus r) (Source r) (Notes r) (SupportsWebhook r) (SupportsPolling r) (SupportsStreaming r) v (BindingTargets r) (BindingMethods r) (SetupMethods r) (SetupHints r) (Fields r) (InteractionCapabilities r).
Definition set_BindingTargets (v : list string) (r : ProviderSchema) : ProviderSchema := mk (Provider r) (DisplayName r) (Transport r) (Description r) (Canonical r) (Availability r) (RuntimeStatus r) (Source r) (Notes r) (SupportsWebhook r) (SupportsPolling r) (SupportsStreaming r) (SupportsMedia r) v (BindingMethods r) (SetupMethods r) (SetupHints r) (Fields r) (InteractionCapabilities r).
Definition set_BindingMethods (v : list BindingMethod.BindingMethod) (r : ProviderSchema) : ProviderSchema := mk (Provider r) (DisplayName r) (Transport r) (Description r) (Canonical r) (Availability r) (RuntimeStatus r) (Source r) (Notes r) (SupportsWebhook r) (SupportsPolling r) (SupportsStreaming r) (SupportsMedia r) (BindingTargets r) v (SetupMethods r) (SetupHints r) (Fields r) (InteractionCapabilities r).
Definition set_SetupMethods (v : list SetupMethod.SetupMethod) (r : ProviderSchema) : ProviderSchema := mk (Provider r) (DisplayName r) (Transport r) (Description r) (Canonical r) (Availability r) (RuntimeStatus r) (Source r) (Notes r) (SupportsWebhook r) (SupportsPolling r) (SupportsStreaming r) (SupportsMedia r) (BindingTargets r) (BindingMethods r) v (SetupHints r) (Fields r) (InteractionCapabilities r).
Definition set_SetupHints (v : list string) (r : ProviderSchema) : ProviderSchema := mk (Provider r) (DisplayName r) (Transport r) (Description r) (Canonical r) (Availability r) (RuntimeStatus r) (Source r) (Notes r) (SupportsWebhook r) (SupportsPolling r) (SupportsStreaming r) (SupportsMedia r) (BindingTargets r) (BindingMethods r) (SetupMethods r) v (Fields r) (InteractionCapabilities r).
Definition set_Fields (v : list Field.Field) (r : ProviderSchema) : ProviderSchema := mk (Provider r) (DisplayName r) (Transport r) (Description r) (Canonical r) (Availability r) (RuntimeStatus r) (Source r) (Notes r) (SupportsWebhook r) (SupportsPolling r) (SupportsStreaming r) (SupportsMedia r) (BindingTargets r) (BindingMethods r) (SetupMethods r) (SetupHints r) v (InteractionCapabilities r).
Definition set_InteractionCapabilities (v : option InteractionCapabilities.InteractionCapabilities) (r : ProviderSchema) : ProviderSchema := mk (Provider r) (DisplayName r) (Transport r) (Description r) (Canonical r) (Availability r) (RuntimeStatus r) (Source r) (Notes r) (SupportsWebhook r) (SupportsPolling r) (SupportsStreaming r) (SupportsMedia r) (BindingTargets r) (BindingMethods r) (SetupMethods r) (SetupHints r) (Fields r) v.
End ProviderSchema.
Abbreviation ProviderSchema := ProviderSchema.ProviderSchema.

Definition ProviderTelegram := "telegram".
Definition ProviderQQ := "qq".
Definition ProviderQQBot := "qqbot".
Definition ProviderFeishu := "feishu".
Definition ProviderWeixin := "weixin".
Definition ProviderWeCom := "wecom".
Definition ProviderSlack := "slack".
Definition ProviderDiscord := "discord".
Definition ProviderDingTalk := "dingtalk".
Definition ProviderWeibo := "weibo".
Definition ProviderLine := "line".
Definition ProviderMax := "max".
Definition ProviderTerminal := "terminal".
Definition ProviderServerChan := "serverchan".
Definition BindingMethodQRCode := "qr_code".
Definition SetupMethodManual := "manual".
Definition FieldString := "string".
Definition FieldBoolean := "boolean".
Definition FieldSelect := "select".
Definition FieldJSON := "json".
Definition ScopeAll := "all".
Definition ScopeDM := "dm".
Definition ScopeGroup := "group".

Definition basicTextCapabilities (formatMode : string) (maxMediaBytes : Z) : option InteractionCapabilities :=
  let caps := InteractionCapabilities.set_Text (Some (TextCapability.mk ScopeAll)) InteractionCapabilities.zero in
  let caps := InteractionCapabilities.set_Formatting (Some (FormattingCapability.mk ScopeAll formatMode)) caps in
  let caps := if (0 <? maxMediaBytes)%Z
    then InteractionCapabilities.set_MediaUpload (Some (MediaUploadCapability.mk ScopeAll maxMediaBytes)) caps else caps in
  Some caps.

Definition TelegramCapabilities : option InteractionCapabilities :=
  Some (InteractionCapabilities.mk
    (Some (TextCapability.mk ScopeAll))
    (Some (FormattingCapability.mk "dm,group" "markdown"))
    (Some (QuickRepliesCapability.mk "dm,group" 8%Z))
    (Some (InlineButtonsCapability.mk "dm,group" true 0%Z))
    (Some (NativeCommandsCapability.mk ScopeAll "provider"))
    (Some (MessageEditCapability.mk "dm,group"))
    (Some (ReactionsCapability.mk "dm,group"))
    (Some (ThreadsCapability.mk ScopeGroup "topic"))
    (Some (MediaUploadCapability.mk "dm,group" 52428800%Z))
    (Some (MentionsCapability.mk ScopeGroup))).

Definition QQCapabilities : option InteractionCapabilities :=
  Some (InteractionCapabilities.mk
    (Some (TextCapability.mk ScopeAll))
    (Some (FormattingCapability.mk "dm,group" "plain"))
    (Some (QuickRepliesCapability.mk "dm,group" 5%Z))
    None
    None
    None
    None
    None
    (Some (MediaUploadCapability.mk "dm,group" 10485760%Z))
    (Some (MentionsCapability.mk ScopeGroup))).

Definition FeishuCapabilities : option InteractionCapabilities :=
  Some (InteractionCapabilities.mk
    (Some (TextCapability.mk ScopeAll))
    (Some (FormattingCapability.mk "dm,group" "markdown"))
    None
    None
    None
    None
    None
    None
    (Some (MediaUploadCapability.mk "dm,group" 10485760%Z))
    (Some (MentionsCapability.mk ScopeGroup))).

Definition WeixinCapabilities : option InteractionCapabilities :=
  Some (InteractionCapabilities.mk
    (Some (TextCapability.mk ScopeAll))
    (Some (FormattingCapability.mk ScopeAll "plain"))
    None
    None
    None
    None
    None
    None
    (Some (MediaUploadCapability.mk ScopeAll 5242880%Z))
    None).

Definition ServerChanCapabilities : option InteractionCapabilities :=
  Some (InteractionCapabilities.mk
    (Some (TextCapability.mk ScopeAll))
    (Some (FormattingCapability.mk ScopeAll "plain"))
    None
    None
    None
    None
    None
    None
    None
    None).

Definition SlackCapabilities : option InteractionCapabilities :=
  Some (InteractionCapabilities.mk
    (Some (TextCapability.mk ScopeAll))
    (Some (FormattingCapability.mk ScopeAll "markdown"))
    None
    None
    None
    None
    None
    (Some (ThreadsCapability.mk ScopeAll "thread_ts"))
    (Some (MediaUploadCapability.mk ScopeAll 104857600%Z))
    (Some (MentionsCapability.mk ScopeGroup))).

Definition DiscordCapabilities : option InteractionCapabilities :=
  Some (InteractionCapabilities.mk
    (Some (TextCapability.mk ScopeAll))
    (Some (FormattingCapability.mk ScopeAll "markdown"))
    None
    None
    None
    (Some (MessageEditCapability.mk ScopeAll))
    (Some (ReactionsCapability.mk ScopeAll))
    (Some (ThreadsCapability.mk ScopeGroup "thread"))
    (Some (MediaUploadCapability.mk ScopeAll 26214400%Z))
    (Some (MentionsCapability.mk ScopeGroup))).

Definition DingTalkCapabilities : option InteractionCapabilities :=
  Some (InteractionCapabilities.mk
    (Some (TextCapability.mk ScopeAll))
    (Some (FormattingCapability.mk ScopeAll "markdown"))
    (Some (QuickRepliesCapability.mk ScopeAll 5%Z))
    None
    None
    (Some (MessageEditCapability.mk ScopeAll))
    None
    None
    (Some (MediaUploadCapability.mk ScopeAll 20971520%Z))
    (Some (MentionsCapability.mk ScopeGroup))).

Definition WeComCapabilities : option InteractionCapabilities :=
  Some (InteractionCapabilities.mk
    (Some (TextCapability.mk ScopeAll))
    (Some (FormattingCapability.mk ScopeAll "markdown"))
    None
    None
    None
    None
    None
    None
    (Some (MediaUploadCapability.mk ScopeAll 20971520%Z))
    (Some (MentionsCapability.mk ScopeGroup))).

Definition WeiboCapabilities : option InteractionCapabilities :=
  basicTextCapabilities "plain" 0%Z.

Definition QQBotCapabilities : option InteractionCapabilities :=
  Some (InteractionCapabilities.mk
    (Some (TextCapability.mk ScopeAll))
    (Some (FormattingCapability.mk ScopeAll "markdown"))
    None
    None
    None
    None
    None
    None
    (Some (MediaUploadCapability.mk ScopeAll 20971520%Z))
    (Some (MentionsCapability.mk ScopeGroup))).

Definition LineCapabilities : option InteractionCapabilities :=
  Some (InteractionCapabilities.mk
    (Some (TextCapability.mk ScopeAll))
    None
    (Some (QuickRepliesCapability.mk ScopeAll 13%Z))
    None
    None
    None
    None
    None
    (Some (MediaUploadCapability.mk ScopeAll 10485760%Z))
    None).

Definition MaxCapabilities : option InteractionCapabilities :=
  Some (InteractionCapabilities.mk
    (Some (TextCapability.mk ScopeAll))
    (Some (FormattingCapability.mk ScopeAll "markdown"))
    None
    None
    None
    None
    None
    None
    (Some (MediaUploadCapability.mk ScopeAll 52428800%Z))
    None).

Definition TerminalCapabilities : option InteractionCapabilities :=
  Some (InteractionCapabilities.mk
    (Some (TextCapability.mk ScopeAll))
    (Some (FormattingCapability.mk ScopeAll "plain"))
    (Some (QuickRepliesCapability.mk ScopeAll 10%Z))
    None
    None
    None
    None
    None
    None
    None).

Definition groupModeField : Field :=
  Field.mk "group_mode" "Group mode" FieldSelect false false "How group chats trigger the agent." "" ["mention"; "always"; "disabled"].

Definition requireSubscriptionField : Field :=
  Field.mk "require_subscription" "Require chat subscription" FieldBoolean false false "Require /subscribe and operator approval before inbound messages from a chat are accepted." "" [].

Definition defaultBindingTargets : list string := ["channel"; "thread"; "agent"; "default_target"].

Definition telegramSchema : ProviderSchema :=
  ProviderSchema.mk
    ProviderTelegram
    "Telegram"
    "webhook"
    "Telegram Bot API channel. Nekode uses webhook updates with Telegram secret-token validation plus Bot API sendMessage delivery."
    true
    "runtime"
    "implemented_not_live_smoked"
    "Nekode runtime aligned with Stella plugins/channels/telegram."
    ["Requires operator bot token and public webhook live smoke before production-ready claims."]
    true
    true
    true
    true
    defaultBindingTargets
    []
    []
    ["Create a Telegram bot with BotFather and paste the bot token."; "Configure Telegram setWebhook to POST to /api/im/telegram/<endpoint_id>/webhook and set the secret_token."; "Optional channel_id can route notifications to a default chat; otherwise replies use the source chat."]
    [(Field.mk "token" "Bot token" FieldString true true "Telegram Bot API token." "" []);
     (Field.mk "secret_token" "Webhook secret token" FieldString true true "Expected X-Telegram-Bot-Api-Secret-Token header." "" []);
     (Field.mk "bot_username" "Bot username" FieldString false false "Bot username without @, used for mention-mode group filtering." "" []);
     (Field.mk "default_target" "Default target" FieldString false false "Default Nekode target for inbound Telegram messages." "" []);
     (Field.mk "default_thread_id" "Default thread ID" FieldString false false "Optional Nekode thread for inbound Telegram messages." "" []);
     (Field.mk "channel_id" "Default chat/channel ID" FieldString false false "Optional chat ID or @channel for notifications." "" []);
     groupModeField;
     (Field.mk "enable_notify" "Enable notifications" FieldBoolean false false "Allow Nekode notifications to use this endpoint." "" [])]
    TelegramCapabilities.

Definition qqSchema : ProviderSchema :=
  ProviderSchema.mk
    ProviderQQ
    "QQ"
    "websocket"
    "QQ Bot channel using Tencent BotGo WebSocket receive and C2C/group send semantics adapted from Stella's QQ channel."
    true
    "runtime"
    "implemented_not_live_smoked"
    "Fork-adapted from Stella plugins/channels/qq with Tencent BotGo."
    ["Requires QQ bot app credentials and sandbox/live WebSocket smoke."]
    false
    false
    true
    true
    defaultBindingTargets
    []
    []
    ["Create a QQ bot application and configure its App ID/App Secret."; "Group routing uses mention mode by default."]
    [(Field.mk "app_id" "App ID" FieldString true false "QQ bot app ID." "" []);
     (Field.mk "app_secret" "App secret" FieldString true true "QQ bot app secret." "" []);
     (Field.mk "default_target" "Default target" FieldString false false "Default Nekode target for inbound QQ messages." "" []);
     (Field.mk "default_thread_id" "Default thread ID" FieldString false false "Optional Nekode thread for inbound QQ messages." "" []);
     (Field.mk "default_target_id" "Default QQ target ID" FieldString false false "Optional qq:group:<id> or qq:c2c:<id> target for outbound notifications." "" []);
     groupModeField;
     (Field.mk "enable_notify" "Enable notifications" FieldBoolean false false "Allow Nekode notifications to use this endpoint." "" [])]
    QQCapabilities.

Definition feishuSchema : ProviderSchema :=
  ProviderSchema.mk
    ProviderFeishu
    "Feishu"
    "webhook"
    "Feishu/Lark bot channel. Nekode uses plain event callbacks with verification-token challenge handling plus OpenAPI Message.Create delivery."
    true
    "runtime"
    "implemented_not_live_smoked"
    "Nekode runtime aligned with Stella plugins/channels/feishu."
    ["Encrypted callbacks are rejected until the encrypt_key path is fully adapted and tested."]
    true
    false
    true
    true
    defaultBindingTargets
    []
    []
    ["Create a Feishu app, enable bot events, and subscribe to im.message.receive_v1."; "Set the event request URL to /api/im/feishu/<endpoint_id>/callback and configure the verification token."; "Optional default_receive_id can route notifications to a chat_id/open_id/union_id; otherwise replies use the source chat."]
    [(Field.mk "app_id" "App ID" FieldString true false "Feishu bot app ID." "" []);
     (Field.mk "app_secret" "App secret" FieldString true true "Feishu bot app secret." "" []);
     (Field.mk "verification_token" "Verification token" FieldString true true "Expected token in Feishu URL verification and callback payloads." "" []);
     (Field.mk "encrypt_key" "Encrypt key" FieldString false true "Reserved Feishu event encrypt key; encrypted callbacks are not enabled in this thin runtime yet." "" []);
     (Field.mk "default_target" "Default target" FieldString false false "Default Nekode target for inbound Feishu messages." "" []);
     (Field.mk "default_thread_id" "Default thread ID" FieldString false false "Optional Nekode thread for inbound Feishu messages." "" []);
     (Field.mk "default_receive_id" "Default receive ID" FieldString false false "Optional chat_id/open_id/union_id for outbound notifications." "" []);
     (Field.mk "default_receive_id_type" "Default receive ID type" FieldSelect false false "Feishu receive_id_type for the default receive ID." "" ["chat_id"; "open_id"; "union_id"; "user_id"]);
     groupModeField;
     (Field.mk "tenant_key" "Tenant key" FieldString false false "Optional tenant key override." "" []);
     (Field.mk "auto_provision" "Auto provision members" FieldBoolean false false "Create users for tenant members when supported." "" []);
     (Field.mk "groups" "Per-group overrides" FieldJSON false false "Optional per-chat group mode, prompt, and tool policy overrides." "" []);
     (Field.mk "enable_notify" "Enable notifications" FieldBoolean false false "Allow Nekode notifications to use this endpoint." "" [])]
    FeishuCapabilities.

Definition weixinSchema : ProviderSchema :=
  ProviderSchema.mk
    ProviderWeixin
    "WeChat (iLink)"
    "ilink"
    "Personal WeChat channel through the iLink bot gateway. Nekode keeps weixin scoped to the original iLink flow; enterprise WeChat is configured as WeCom."
    true
    "runtime"
    "implemented_not_live_smoked"
    "iLink QR binding and bot messaging through github.com/lib-x/ilink, aligned with cc-connect's weixin setup flow."
    ["Provider id is weixin; wechat is accepted as a legacy alias."; "Use WeCom for enterprise WeChat / WeChat Work. Legacy official_account config is still accepted by the backend but is no longer the primary setup surface."]
    false
    true
    false
    true
    defaultBindingTargets
    [(BindingMethod.mk BindingMethodQRCode "QR code" "Start an iLink QR session that the operator scans in WeChat.")]
    [(SetupMethod.mk BindingMethodQRCode "Scan QR" "Create the endpoint and immediately start an iLink QR binding session." true); (SetupMethod.mk SetupMethodManual "Existing token" "Paste an existing iLink bot token when one has already been issued." false)]
    ["Use Scan QR for the normal personal WeChat iLink setup."; "Use Existing token only when migrating an already-issued iLink bot token."; "Enterprise WeChat / WeChat Work should be added as WeCom, not WeChat (iLink)."]
    [(Field.mk "bot_token" "iLink bot token" FieldString false true "Filled after QR binding for lib-x iLink mode." "" []);
     (Field.mk "bot_id" "iLink bot ID" FieldString false false "Filled after QR binding for iLink mode." "" []);
     (Field.mk "user_id" "iLink user ID" FieldString false false "Filled after QR binding for iLink mode." "" []);
     (Field.mk "base_url" "iLink base URL" FieldString false false "Optional iLink API base URL override." "" []);
     (Field.mk "cdn_base_url" "iLink CDN base URL" FieldString false false "Optional iLink CDN base URL override." "" []);
     (Field.mk "default_target" "Default target" FieldString false false "Default Nekode target for inbound WeChat messages." "" []);
     (Field.mk "default_thread_id" "Default thread ID" FieldString false false "Optional Nekode thread for inbound WeChat messages." "" []);
     (Field.mk "enable_notify" "Enable notifications" FieldBoolean false false "Allow Nekode notifications to use this endpoint." "" [])]
    WeixinCapabilities.

Definition terminalSchema : ProviderSchema :=
  ProviderSchema.mk
    ProviderTerminal
    "Terminal"
    "local"
    "Local terminal channel for development smoke tests and manual operator input."
    true
    "runtime"
    "local_smoked"
    "Nekode local channel using the Stella channel boundary shape."
    ["Local development provider; external provider live smoke does not apply."]
    false
    false
    true
    false
    defaultBindingTargets
    []
    []
    ["Use Terminal as a local IM channel for development and integration smoke tests."; "No external provider credentials are required."]
    [(Field.mk "session_id" "Session ID" FieldString false false "Optional stable terminal session ID." "" []);
     (Field.mk "operator_id" "Operator ID" FieldString false false "Optional stable local operator identity." "" []);
     (Field.mk "operator" "Operator name" FieldString false false "Optional display name for local input." "" []);
     (Field.mk "target" "Default target" FieldString false false "Optional Nekode target hint for terminal input." "" []);
     (Field.mk "thread_id" "Default thread ID" FieldString false false "Optional Nekode thread hint for terminal input." "" []);
     (Field.mk "enable_notify" "Enable notifications" FieldBoolean false false "Allow Nekode notifications to use this endpoint." "" [])]
    TerminalCapabilities.

Definition serverChanSchema : ProviderSchema :=
  ProviderSchema.mk
    ProviderServerChan
    "ServerChan"
    "polling"
    "ServerChan Bot channel using bot-go polling receive and sendMessage delivery adapted from Nekobot's ServerChan runtime."
    true
    "runtime"
    "implemented_not_live_smoked"
    "Fork-adapted from Nekobot pkg/channels/serverchan."
    ["Requires operator-owned ServerChan Bot token and live send/poll smoke before production-ready claims."; "ServerChan is treated as an IM provider with polling receive; it does not use the generic QR binding capability."]
    false
    true
    false
    false
    defaultBindingTargets
    []
    []
    ["Create or reuse a ServerChan Bot token and paste bot_token."; "Optional default_chat_id can route notifications; replies use the source chat when present."; "Use allow_from to restrict accepted user/chat IDs when exposing polling receive."]
    [(Field.mk "bot_token" "Bot token" FieldString true true "ServerChan Bot token." "" []);
     (Field.mk "default_target" "Default target" FieldString false false "Default Nekode target for inbound ServerChan messages." "" []);
     (Field.mk "default_thread_id" "Default thread ID" FieldString false false "Optional Nekode thread for inbound ServerChan messages." "" []);
     (Field.mk "default_chat_id" "Default chat ID" FieldString false false "Optional ServerChan chat ID for outbound notifications." "" []);
     (Field.mk "allow_from" "Allowed IDs" FieldJSON false false ("Optional array of user/chat IDs allowed to send inbound messages; use [" +:+ dq +:+ "*" +:+ dq +:+ "] to allow all.") "" []);
     (Field.mk "api_base_url" "API base URL" FieldString false false "Optional ServerChan-compatible API base URL for tests or private gateways." "" []);
     (Field.mk "enable_notify" "Enable notifications" FieldBoolean false false "Allow Nekode notifications to use this endpoint." "" [])]
    ServerChanCapabilities.

Definition slackSchema : ProviderSchema :=
  ProviderSchema.mk
    ProviderSlack
    "Slack"
    "socket_mode"
    "Slack bot using Socket Mode with bot and app-level tokens, mirroring cc-connect's Slack setup surface."
    true
    "catalog"
    "reference_only"
    "Configuration fields and setup flow borrowed from cc-connect platform/slack and docs/slack.md."
    ["Nekode exposes Slack as a configurable endpoint schema; receive/send runtime is not wired yet."]
    false
    false
    false
    true
    defaultBindingTargets
    []
    []
    ["Create a Slack app, enable Socket Mode, and add bot/app-level tokens."; "Subscribe to app_mention events and invite the bot to channels where it should respond."]
    [(Field.mk "bot_token" "Bot token" FieldString true true "Slack Bot User OAuth token." "xoxb-..." []);
     (Field.mk "app_token" "App token" FieldString true true "Slack app-level Socket Mode token." "xapp-..." []);
     (Field.mk "allow_from" "Allowed users/channels" FieldString false false "Optional comma-separated Slack user/channel IDs; empty or * allows all." "" []);
     (Field.mk "share_session_in_channel" "Share session in channel" FieldBoolean false false "Use one agent session per channel instead of per channel/user pair." "" []);
     (Field.mk "enable_notify" "Enable notifications" FieldBoolean false false "Allow Nekode notifications to use this endpoint once runtime support exists." "" [])]
    SlackCapabilities.

Definition discordSchema : ProviderSchema :=
  ProviderSchema.mk
    ProviderDiscord
    "Discord"
    "gateway"
    "Discord bot over the Gateway API with optional thread isolation and card-style progress, based on cc-connect's Discord platform."
    true
    "catalog"
    "reference_only"
    "Configuration fields and setup flow borrowed from cc-connect platform/discord and docs/discord.md."
    ["Nekode exposes Discord as a configurable endpoint schema; receive/send runtime is not wired yet."]
    false
    false
    false
    true
    defaultBindingTargets
    []
    []
    ["Create a Discord application and bot, enable Message Content Intent, and paste the bot token."; "Invite the bot to the target server with message, thread, and attachment permissions."]
    [(Field.mk "token" "Bot token" FieldString true true "Discord bot token." "" []);
     (Field.mk "allow_from" "Allowed users/channels" FieldString false false "Optional comma-separated Discord IDs; empty or * allows all." "" []);
     (Field.mk "guild_id" "Guild ID" FieldString false false "Optional server ID for faster command registration." "" []);
     (Field.mk "group_reply_all" "Reply to all channel messages" FieldBoolean false false "Respond without requiring an explicit mention." "" []);
     (Field.mk "share_session_in_channel" "Share session in channel" FieldBoolean false false "Use one agent session per channel." "" []);
     (Field.mk "thread_isolation" "Thread isolation" FieldBoolean false false "Create or reuse a Discord thread for each agent session." "" []);
     (Field.mk "respond_to_at_everyone_and_here" "Respond to @everyone/@here" FieldBoolean false false "Allow broad mentions to trigger the bot." "" []);
     (Field.mk "progress_style" "Progress style" FieldSelect false false "How intermediate progress is displayed." "" ["legacy"; "compact"; "card"]);
     (Field.mk "proxy" "Proxy URL" FieldString false false "Optional HTTP proxy for Discord API traffic." "" []);
     (Field.mk "proxy_username" "Proxy username" FieldString false false "Optional proxy username." "" []);
     (Field.mk "proxy_password" "Proxy password" FieldString false true "Optional proxy password." "" []);
     (Field.mk "enable_notify" "Enable notifications" FieldBoolean false false "Allow Nekode notifications to use this endpoint once runtime support exists." "" [])]
    DiscordCapabilities.

Definition dingTalkSchema : ProviderSchema :=
  ProviderSchema.mk
    ProviderDingTalk
    "DingTalk"
    "stream"
    "DingTalk stream robot channel using client_id/client_secret and optional AI card settings."
    true
    "catalog"
    "reference_only"
    "Configuration fields and setup flow borrowed from cc-connect platform/dingtalk and docs/dingtalk.md."
    ["Nekode exposes DingTalk as a configurable endpoint schema; receive/send runtime is not wired yet."]
    false
    false
    false
    true
    defaultBindingTargets
    []
    []
    ["Create a DingTalk stream robot and paste client_id/client_secret."; "robot_code defaults to client_id when omitted; agent_id/card settings are optional for richer notifications."]
    [(Field.mk "client_id" "Client ID" FieldString true false "DingTalk robot client_id." "" []);
     (Field.mk "client_secret" "Client secret" FieldString true true "DingTalk robot client_secret." "" []);
     (Field.mk "robot_code" "Robot code" FieldString false false "Optional robot code; falls back to client_id in cc-connect." "" []);
     (Field.mk "agent_id" "Agent ID" FieldString false false "Optional work-notification agent ID." "" []);
     (Field.mk "allow_from" "Allowed users" FieldString false false "Optional comma-separated DingTalk user IDs; empty or * allows all." "" []);
     (Field.mk "share_session_in_channel" "Share session in group" FieldBoolean false false "Use one agent session per conversation." "" []);
     (Field.mk "card_template_id" "AI card template ID" FieldString false false "Optional DingTalk AI card template ID." "" []);
     (Field.mk "card_template_key" "AI card template key" FieldString false false "Template content key; defaults to content in cc-connect." "" []);
     (Field.mk "card_throttle_ms" "Card throttle ms" FieldString false false "Optional card update throttle in milliseconds." "" []);
     (Field.mk "enable_notify" "Enable notifications" FieldBoolean false false "Allow Nekode notifications to use this endpoint once runtime support exists." "" [])]
    DingTalkCapabilities.

Definition weComSchema : ProviderSchema :=
  ProviderSchema.mk
    ProviderWeCom
    "WeChat Work"
    "websocket"
    "WeChat Work channel covering cc-connect's smart bot WebSocket mode and app callback mode settings."
    true
    "runtime"
    "callback_app_implemented"
    "Configuration fields and setup flow borrowed from cc-connect platform/wecom and docs/wecom.md."
    ["Callback app mode is wired for encrypted callback receive and app message send."; "Smart-bot WebSocket credentials are still reference-only until the long-connection runtime is adapted."]
    true
    false
    true
    true
    defaultBindingTargets
    []
    []
    ["For smart bot mode, fill bot_id and bot_secret."; "For app callback mode, fill corp_id, corp_secret, agent_id, callback_token, and callback_aes_key."]
    [(Field.mk "mode" "Mode" FieldSelect false false "Select app callback runtime or cc-connect's smart bot WebSocket style." "" ["callback_app"; "websocket_bot"]);
     (Field.mk "bot_id" "Bot ID" FieldString false false "WeChat Work smart bot ID." "" []);
     (Field.mk "bot_secret" "Bot secret" FieldString false true "WeChat Work smart bot secret." "" []);
     (Field.mk "corp_id" "Corp ID" FieldString false false "Enterprise corp_id for app callback mode." "" []);
     (Field.mk "corp_secret" "Corp secret" FieldString false true "Enterprise app secret." "" []);
     (Field.mk "agent_id" "Agent ID" FieldString false false "Enterprise app agent ID." "" []);
     (Field.mk "callback_token" "Callback token" FieldString false true "Token for callback signature verification." "" []);
     (Field.mk "callback_aes_key" "Callback AES key" FieldString false true "EncodingAESKey for callback encryption." "" []);
     (Field.mk "callback_path" "Callback path" FieldString false false "Webhook callback path." "/wecom/callback" []);
     (Field.mk "api_base_url" "API base URL" FieldString false false "Optional WeChat Work API base URL." "https://qyapi.weixin.qq.com" []);
     (Field.mk "default_target" "Default target" FieldString false false "Default Nekode target for inbound WeChat Work messages." "" []);
     (Field.mk "default_thread_id" "Default thread ID" FieldString false false "Optional Nekode thread for inbound WeChat Work messages." "" []);
     (Field.mk "default_user_id" "Default user ID" FieldString false false "Optional WeChat Work user ID for outbound notifications without a source message." "" []);
     (Field.mk "allow_from" "Allowed users" FieldString false false "Optional comma-separated user IDs; empty or * allows all." "" []);
     (Field.mk "enable_markdown" "Enable markdown" FieldBoolean false false "Send markdown app messages instead of plain text." "" []);
     (Field.mk "enable_notify" "Enable notifications" FieldBoolean false false "Allow Nekode notifications to use this endpoint once runtime support exists." "" [])]
    WeComCapabilities.

Definition weiboSchema : ProviderSchema :=
  ProviderSchema.mk
    ProviderWeibo
    "Weibo Open IM"
    "websocket"
    "Weibo Open IM channel using app_id/app_secret token exchange, based on cc-connect's Weibo runtime."
    true
    "catalog"
    "reference_only"
    "Configuration fields and setup flow borrowed from cc-connect platform/weibo and docs/weibo.md."
    ["Nekode exposes Weibo as a configurable endpoint schema; receive/send runtime is not wired yet."]
    false
    false
    true
    false
    defaultBindingTargets
    []
    []
    ["Create a Weibo Open IM app and paste app_id/app_secret."; "Use token_endpoint only for compatible private or test gateways."]
    [(Field.mk "app_id" "App ID" FieldString true false "Weibo Open IM app_id." "" []);
     (Field.mk "app_secret" "App secret" FieldString true true "Weibo Open IM app_secret." "" []);
     (Field.mk "token_endpoint" "Token endpoint" FieldString false false "Optional token endpoint override." "" []);
     (Field.mk "allow_from" "Allowed users" FieldString false false "Optional comma-separated Weibo user IDs; empty or * allows all." "" []);
     (Field.mk "enable_notify" "Enable notifications" FieldBoolean false false "Allow Nekode notifications to use this endpoint once runtime support exists." "" [])]
    WeiboCapabilities.

Definition qqBotSchema : ProviderSchema :=
  ProviderSchema.mk
    ProviderQQBot
    "QQ Bot Official"
    "websocket"
    "Official QQ Bot API v2 gateway channel, distinct from Nekode's current QQ BotGo schema."
    false
    "catalog"
    "reference_only"
    "Configuration fields and setup flow borrowed from cc-connect platform/qqbot and docs/qqbot.md."
    ["Use provider qq for Nekode's current QQ BotGo runtime. qqbot is catalog-only until the official API v2 runtime is wired."]
    false
    false
    true
    true
    defaultBindingTargets
    []
    []
    ["Create an official QQ bot application and paste AppID/AppSecret."; "Enable sandbox only when the bot has not been published."]
    [(Field.mk "app_id" "App ID" FieldString true false "Official QQ Bot AppID." "" []);
     (Field.mk "app_secret" "App secret" FieldString true true "Official QQ Bot AppSecret." "" []);
     (Field.mk "sandbox" "Sandbox mode" FieldBoolean false false "Use the QQ Bot sandbox gateway/API base." "" []);
     (Field.mk "allow_from" "Allowed users/groups" FieldString false false "Optional comma-separated IDs; empty or * allows all." "" []);
     (Field.mk "share_session_in_channel" "Share session in group" FieldBoolean false false "Use one agent session per group." "" []);
     (Field.mk "markdown_support" "Markdown support" FieldBoolean false false "Enable markdown message payloads where supported." "" []);
     (Field.mk "intents" "Gateway intents" FieldString false false "Optional integer gateway intents override." "" []);
     (Field.mk "enable_notify" "Enable notifications" FieldBoolean false false "Allow Nekode notifications to use this endpoint once runtime support exists." "" [])]
    QQBotCapabilities.

Definition lineSchema : ProviderSchema :=
  ProviderSchema.mk
    ProviderLine
    "LINE"
    "webhook"
    "LINE Messaging API channel using channel secret/token and local callback server settings."
    true
    "catalog"
    "reference_only"
    "Configuration fields and setup flow borrowed from cc-connect platform/line."
    ["Nekode exposes LINE as a configurable endpoint schema; receive/send runtime is not wired yet."]
    true
    false
    false
    true
    defaultBindingTargets
    []
    []
    ["Create a LINE Messaging API channel and paste channel_secret/channel_token."; "Expose the callback path publicly and configure it in the LINE Developers console."]
    [(Field.mk "channel_secret" "Channel secret" FieldString true true "LINE channel secret." "" []);
     (Field.mk "channel_token" "Channel token" FieldString true true "LINE channel access token." "" []);
     (Field.mk "port" "Callback port" FieldString false false "Local callback server port used by cc-connect." "8080" []);
     (Field.mk "callback_path" "Callback path" FieldString false false "Webhook callback path." "/callback" []);
     (Field.mk "allow_from" "Allowed users/groups" FieldString false false "Optional comma-separated LINE IDs; empty or * allows all." "" []);
     (Field.mk "enable_notify" "Enable notifications" FieldBoolean false false "Allow Nekode notifications to use this endpoint once runtime support exists." "" [])]
    LineCapabilities.

Definition maxSchema : ProviderSchema :=
  ProviderSchema.mk
    ProviderMax
    "MAX"
    "polling_or_webhook"
    "MAX bot channel supporting long-poll and optional webhook settings from cc-connect."
    true
    "catalog"
    "reference_only"
    "Configuration fields and setup flow borrowed from cc-connect platform/max and docs/max-webhook.md."
    ["Nekode exposes MAX as a configurable endpoint schema; receive/send runtime is not wired yet."; "cc-connect notes that long-polling is best for personal/low-traffic bots after MAX's 2026-05-11 throttling change."]
    true
    true
    false
    true
    defaultBindingTargets
    []
    []
    ["Paste the MAX bot token. Omit webhook_url to use long-polling in cc-connect."; "If webhook_url is set, also configure webhook_listen/path/secret and a public TLS reverse proxy."]
    [(Field.mk "token" "Bot token" FieldString true true "MAX bot token." "" []);
     (Field.mk "allow_from" "Allowed users" FieldString false false "Optional comma-separated MAX user IDs; empty or * allows all." "*" []);
     (Field.mk "api_base" "API base URL" FieldString false false "Optional MAX-compatible API base URL." "" []);
     (Field.mk "webhook_url" "Webhook URL" FieldString false false "Public HTTPS URL that receives MAX updates." "" []);
     (Field.mk "webhook_listen" "Webhook listen address" FieldString false false "Local address to bind for webhook mode." "127.0.0.1:8090" []);
     (Field.mk "webhook_path" "Webhook path" FieldString false false "Webhook path; must match webhook_url." "/webhook" []);
     (Field.mk "webhook_secret" "Webhook secret" FieldString false true "Shared webhook secret checked on incoming requests." "" []);
     (Field.mk "webhook_resubscribe_interval" "Webhook resubscribe interval" FieldString false false "How often to refresh the MAX webhook subscription." "5m" []);
     (Field.mk "enable_notify" "Enable notifications" FieldBoolean false false "Allow Nekode notifications to use this endpoint once runtime support exists." "" [])]
    MaxCapabilities.

Definition providerSchemas : list ProviderSchema :=
  [telegramSchema; qqSchema; feishuSchema; weixinSchema; terminalSchema; serverChanSchema; slackSchema; discordSchema; dingTalkSchema; weComSchema; weiboSchema; qqBotSchema; lineSchema; maxSchema].


(** The text [fmt.Sprint] gives a number that [encoding/json] decoded. *)
Class Sprinter := { sprint_number : string → string }.

Section registry.
Context {Uni : Unicode} {Spr : Sprinter} {Fl : Floats}.

(** [fmt.Sprint] of a value decoded into an [any]. *)
Fixpoint Sprint (v : json) : string :=
  match v with
  | JNull => "<nil>"
  | JBool b => if b then "true" else "false"
  | JNum l => sprint_number l
  | JStr s => s
  | JArr items => "[" +:+ Join (map Sprint items) " " +:+ "]"
  | JObj members =>
      "map[" +:+ Join (map (λ p, p.1 +:+ ":" +:+ p.2) (canonical (map (λ p, (p.1, Sprint p.2)) members))) " " +:+ "]"
  end.

Definition CanonicalProvider (provider : string) : string :=
  let provider := ToLower (TrimSpace provider) in
  if provider =s "wechat" then ProviderWeixin else provider.

Definition schemaHasField (schema : ProviderSchema) (name : string) : bool :=
  existsb (λ field, Field.Name field =s name) (ProviderSchema.Fields schema).

Definition withDefaultSetupMethods (schema : ProviderSchema) : ProviderSchema :=
  let schema := if length (ProviderSchema.SetupMethods schema) =? 0
    then ProviderSchema.set_SetupMethods
      [SetupMethod.mk SetupMethodManual "Manual input" "Enter provider credentials directly." true] schema
    else schema in
  if negb (schemaHasField schema "require_subscription")
  then ProviderSchema.set_Fields (ProviderSchema.Fields schema ++ [requireSubscriptionField]) schema
  else schema.

Definition ListProviders : list ProviderSchema := withDefaultSetupMethods <$> providerSchemas.

Definition GetProvider (provider : string) : option ProviderSchema :=
  let provider := CanonicalProvider provider in
  option_map withDefaultSetupMethods
    (List.find (λ schema, ProviderSchema.Provider schema =s provider) providerSchemas).

Definition SupportsBindingMethod (provider method : string) : bool :=
  match GetProvider provider with
  | None => false
  | Some schema =>
      let method := ToLower (TrimSpace method) in
      existsb (λ m, BindingMethod.Method m =s method) (ProviderSchema.BindingMethods schema)
  end.

(** ** Stored configurations *)

Inductive config_error :=
| UnsupportedProvider (provider : string)
| InvalidConfig
| MissingField (provider field : string)
| UnsupportedMode (provider mode : string).

(** [None] is an error. *)
Definition decodeConfig (rawConfig : string) : option (gmap string json) :=
  let rawConfig := TrimSpace rawConfig in
  if rawConfig =s "" then Some ∅ else option_map (from_opt ∅) (decode_any_map rawConfig).

Definition configString (config : gmap string json) (key : string) : string :=
  match config !! key with None | Some JNull => "" | Some value => TrimSpace (Sprint value) end.

(** The first of [fields] that has no text. *)
Definition missing_of (provider : string) (config : gmap string json) (fields : list string) : option config_error :=
  option_map (MissingField provider) (List.find (λ field, configString config field =s "") fields).

Definition validateWeixinConfig (config : gmap string json) : option config_error :=
  let mode := configString config "mode" in
  let mode := if mode =s "" then "ilink" else mode in
  if mode =s "ilink" then None
  else if mode =s "official_account" then missing_of ProviderWeixin config ["app_id"; "app_secret"; "token"]
  else Some (UnsupportedMode ProviderWeixin mode).

Definition canonicalWeComMode (mode : string) : string :=
  let mode := ToLower (TrimSpace mode) in
  if mode =s "websocket" then "websocket_bot"
  else if (mode =s "callback") || (mode =s "webhook") || (mode =s "callback_app") then "callback_app"
  else mode.

Definition validateWeComConfig (config : gmap string json) : option config_error :=
  let mode := canonicalWeComMode (configString config "mode") in
  let mode := if mode =s "" then "callback_app" else mode in
  if mode =s "websocket_bot" then missing_of ProviderWeCom config ["bot_id"; "bot_secret"]
  else if mode =s "callback_app"
  then missing_of ProviderWeCom config ["corp_id"; "corp_secret"; "agent_id"; "callback_token"; "callback_aes_key"]
  else Some (UnsupportedMode ProviderWeCom mode).

(** A required field that the configuration lacks, or whose text is blank. *)
Definition lacks (config : gmap string json) (field : Field) : bool :=
  Field.Required field &&
  match config !! Field.Name field with None => true | Some value => TrimSpace (Sprint value) =s "" end.

(** [None] is no error. *)
Definition ValidateConfig (provider rawConfig : string) : option config_error :=
  match GetProvider provider with
  | None => Some (UnsupportedProvider provider)
  | Some schema =>
      match decodeConfig rawConfig with
      | None => Some InvalidConfig
      | Some config =>
          if ProviderSchema.Provider schema =s ProviderWeixin then validateWeixinConfig config
          else if ProviderSchema.Provider schema =s ProviderWeCom then validateWeComConfig config
          else option_map (λ field, MissingField (ProviderSchema.Provider schema) (Field.Name field))
            (List.find (lacks config) (ProviderSchema.Fields schema))
      end
  end.

Definition normalizedObjectJSON (rawConfig : string) : option string :=
  option_map (λ config, encode_any_map (Some config)) (decodeConfig rawConfig).

Definition sensitive (schema : ProviderSchema) (key : string) : bool :=
  existsb (λ field, Field.Sensitive field && (Field.Name field =s key)) (ProviderSchema.Fields schema).

(** The loop that overwrites values in place; every key is visited once. *)
Definition redact_members (schema : ProviderSchema) (config : gmap string json) : gmap string json :=
  map_imap (λ key value,
    Some (if sensitive schema key && (TrimSpace (Sprint value) <>s "") then JStr "***" else value)) config.

(** [None] is an error. *)
Definition RedactConfig (provider rawConfig : string) : option string :=
  match GetProvider provider with
  | None => normalizedObjectJSON rawConfig
  | Some schema => option_map (λ config, encode_any_map (Some (redact_members schema config))) (decodeConfig rawConfig)
  end.

(** ** What is hidden *)

(** Two configurations that only differ in what their sensitive fields hold. *)
Definition same_but_secrets (schema : ProviderSchema) (c1 c2 : gmap string json) : Prop :=
  ∀ key, c1 !! key = c2 !! key ∨
    sensitive schema key = true ∧
    ∃ v1 v2, c1 !! key = Some v1 ∧ c2 !! key = Some v2 ∧ TrimSpace (Sprint v1) ≠ "" ∧ TrimSpace (Sprint v2) ≠ "".


Lemma CanonicalProvider_idemp `{!UnicodeLaws} provider :
  CanonicalProvider (CanonicalProvider provider) = CanonicalProvider provider.
Proof.
  unfold CanonicalProvider at 2. destruct (_ =s "wechat") eqn:E; unfold CanonicalProvider.
  - rewrite E. reflexivity.
  - autorewrite with nekode. by rewrite E.
Qed.

End registry.

(** ** Concrete configurations *)

Definition plain_numbers : Sprinter := {| sprint_number l := l |}.

Definition telegram_config (token : string) : string :=
  "{" +:+ q "token" +:+ ":" +:+ q token +:+ "," +:+ q "channel_id" +:+ ":42}".


Example redacted :
  @RedactConfig ascii_unicode plain_numbers same_text "telegram" (telegram_config "123:abc") =
  Some ("{" +:+ q "channel_id" +:+ ":42," +:+ q "token" +:+ ":" +:+ q "***" +:+ "}").
Proof. vm_compute. reflexivity. Qed.

(** The legacy mode of WeChat endpoints needs a secret that the schema does not declare,
    so it stays readable. *)
Definition official_account : string :=
  "{" +:+ q "mode" +:+ ":" +:+ q "official_account" +:+ "," +:+ q "app_id" +:+ ":" +:+ q "wx" +:+ ","
  +:+ q "app_secret" +:+ ":" +:+ q "s3cret" +:+ "," +:+ q "token" +:+ ":" +:+ q "tok" +:+ "}".

Example official_account_secret_stays :
  @ValidateConfig ascii_unicode plain_numbers same_text "weixin" official_account = None ∧
  option_map (λ s, Contains s "s3cret") (@RedactConfig ascii_unicode plain_numbers same_text "weixin" official_account)
  = Some true.
Proof. vm_compute. done. Qed.

(** A required field may be [null]. *)
Example null_is_not_missing :
  @ValidateConfig ascii_unicode plain_numbers same_text "discord" ("{" +:+ q "token" +:+ ":null}") = None.
Proof. vm_compute. done. Qed.
