(* ===== verification/ImBinding.v ===== *)
(** * Binding sessions of IM endpoints ([internal/imbinding/session.go])

    A binding session is what an operator starts to link an endpoint to an account of
    the messenger, by scanning a QR code.  Sessions live in a map of the process, under
    one mutex: each operation is one step.  A pending session expires when it is looked
    at too late. *)
From S2P Require Import Prelude GoStr GoText Sql Models Json JsonValue ImAdapter.
#[local] Open Scope go_scope.

Module Session.
Record Session := mk {
  ID : string;
  EndpointID : string;
  Provider : string;
  Method : string;
  Status : string;
  QRPayload : string;
  QRImageURL : string;
  ExpiresUnix : Z;
  CreatedUnix : Z;
  UpdatedUnix : Z;
  Detail : string
}.
Definition zero : Session := mk "" "" "" "" "" "" "" 0%Z 0%Z 0%Z "".
Definition set_ID (v : string) (r : Session) : Session := mk v (EndpointID r) (Provider r) (Method r) (Status r) (QRPayload r) (QRImageURL r) (ExpiresUnix r) (CreatedUnix r) (UpdatedUnix r) (Detail r).
Definition set_EndpointID (v : string) (r : Session) : Session := mk (ID r) v (Provider r) (Method r) (Status r) (QRPayload r) (QRImageURL r) (ExpiresUnix r) (CreatedUnix r) (UpdatedUnix r) (Detail r).
Definition set_Provider (v : string) (r : Session) : Session := mk (ID r) (EndpointID r) v (Method r) (Status r) (QRPayload r) (QRImageURL r) (ExpiresUnix r) (CreatedUnix r) (UpdatedUnix r) (Detail r).
Definition set_Method (v : string) (r : Session) : Session := mk (ID r) (EndpointID r) (Provider r) v (Status r) (QRPayload r) (QRImageURL r) (ExpiresUnix r) (CreatedUnix r) (UpdatedUnix r) (Detail r).
Definition set_Status (v : string) (r : Session) : Session := mk (ID r) (EndpointID r) (Provider r) (Method r) v (QRPayload r) (QRImageURL r) (ExpiresUnix r) (CreatedUnix r) (UpdatedUnix r) (Detail r).
Definition set_QRPayload (v : string) (r : Session) : Session := mk (ID r) (EndpointID r) (Provider r) (Method r) (Status r) v (QRImageURL r) (ExpiresUnix r) (CreatedUnix r) (UpdatedUnix r) (Detail r).
Definition set_QRImageURL (v : string) (r : Session) : Session := mk (ID r) (EndpointID r) (Provider r) (Method r) (Status r) (QRPayload r) v (ExpiresUnix r) (CreatedUnix r) (UpdatedUnix r) (Detail r).
Definition set_ExpiresUnix (v : Z) (r : Session) : Session := mk (ID r) (EndpointID r) (Provider r) (Method r) (Status r) (QRPayload r) (QRImageURL r) v (CreatedUnix r) (UpdatedUnix r) (Detail r).
Definition set_CreatedUnix (v : Z) (r : Session) : Session := mk (ID r) (EndpointID r) (Provider r) (Method r) (Status r) (QRPayload r) (QRImageURL r) (ExpiresUnix r) v (UpdatedUnix r) (Detail r).
Definition set_UpdatedUnix (v : Z) (r : Session) : Session := mk (ID r) (EndpointID r) (Provider r) (Method r) (Status r) (QRPayload r) (QRImageURL r) (ExpiresUnix r) (CreatedUnix r) v (Detail r).
Definition set_Detail (v : string) (r : Session) : Session := mk (ID r) (EndpointID r) (Provider r) (Method r) (Status r) (QRPayload r) (QRImageURL r) (ExpiresUnix r) (CreatedUnix r) (UpdatedUnix r) v.
End Session.
Abbreviation Session := Session.Session.

Module Patch.
Record Patch := mk {
  Status : string;
  QRPayload : string;
  QRImageURL : string;
  ExpiresUnix : Z;
  Detail : string
}.
Definition zero : Patch := mk "" "" "" 0%Z "".
Definition set_Status (v : string) (r : Patch) : Patch := mk v (QRPayload r) (QRImageURL r) (ExpiresUnix r) (Detail r).
Definition set_QRPayload (v : string) (r : Patch) : Patch := mk (Status r) v (QRImageURL r) (ExpiresUnix r) (Detail r).
Definition set_QRImageURL (v : string) (r : Patch) : Patch := mk (Status r) (QRPayload r) v (ExpiresUnix r) (Detail r).
Definition set_ExpiresUnix (v : Z) (r : Patch) : Patch := mk (Status r) (QRPayload r) (QRImageURL r) v (Detail r).
Definition set_Detail (v : string) (r : Patch) : Patch := mk (Status r) (QRPayload r) (QRImageURL r) (ExpiresUnix r) v.
End Patch.
Abbreviation Patch := Patch.Patch.

Module Se := Session.
Module Pa := Patch.
Module Ie := InteractionEndpoint.

Definition MethodQRCode := BindingMethodQRCode.
Definition StatusPending := "pending".
Definition StatusScanned := "scanned".
Definition StatusBound := "bound".
Definition StatusExpired := "expired".
Definition StatusFailed := "failed".

Inductive binding_error := ErrEndpointUnsupported | ErrInvalidStatus | ErrSessionNotFound.

(** Durations are nanoseconds. *)
Definition Second : Z := 1000000000.
Record Store := mkStore { sessions : gmap string Session; ttl : Z }.
Definition set_sessions (m : gmap string Session) (s : Store) : Store := mkStore m (ttl s).

Definition NewStore (ttl : Z) : Store := mkStore ∅ (if (ttl <=? 0)%Z then 5 * 60 * Second else ttl)%Z.

Definition validStatus (status : string) : bool :=
  (status =s StatusPending) || (status =s StatusScanned) || (status =s StatusBound) ||
  (status =s StatusExpired) || (status =s StatusFailed).

Section binding.
Context {Uni : Unicode}.

(** An operation: its result and the store after it. *)
Definition op : Type := (binding_error + Session) * Store.

Definition put (session : Session) (s : Store) : Store :=
  set_sessions (<[Se.ID session := session]> (sessions s)) s.

Definition Create (fresh_id : string) (now : Z) (endpoint : InteractionEndpoint) (method : string) (s : Store) : op :=
  let method := ToLower (TrimSpace method) in
  let method := if method =s "" then MethodQRCode else method in
  if negb (EqualFold (Ie.Kind endpoint) "im") || negb (SupportsBindingMethod (Ie.Provider endpoint) method)
  then (inl ErrEndpointUnsupported, s)
  else
    let session := Se.mk fresh_id (Ie.ID endpoint) (Ie.Provider endpoint) method StatusPending
      ("nekode://im-bind/" +:+ fresh_id) "" (i64 (now + ttl s / Second)) now now
      "Waiting for provider adapter QR ticket." in
    (inr session, put session s).

Definition getLocked (now : Z) (endpoint : InteractionEndpoint) (sessionID : string) (s : Store) : op :=
  let sessionID := TrimSpace sessionID in
  match sessions s !! sessionID with
  | None => (inl ErrSessionNotFound, s)
  | Some session =>
      if Se.EndpointID session <>s Ie.ID endpoint then (inl ErrSessionNotFound, s)
      else if (Se.Status session =s StatusPending) && (Se.ExpiresUnix session <=? now)%Z then
        let session := Se.set_Status StatusExpired session in
        let session := Se.set_Detail "Binding session expired." session in
        let session := Se.set_UpdatedUnix now session in
        (inr session, put session s)
      else (inr session, s)
  end.

Definition apply_patch (now : Z) (patch : Patch) (session : Session) : binding_error + Session :=
  let status := ToLower (TrimSpace (Pa.Status patch)) in
  if (status <>s "") && negb (validStatus status) then inl ErrInvalidStatus
  else
    let session := if status <>s "" then Se.set_Status status session else session in
    let session := if TrimSpace (Pa.QRPayload patch) <>s ""
      then Se.set_QRPayload (TrimSpace (Pa.QRPayload patch)) session else session in
    let session := if TrimSpace (Pa.QRImageURL patch) <>s ""
      then Se.set_QRImageURL (TrimSpace (Pa.QRImageURL patch)) session else session in
    let session := if (0 <? Pa.ExpiresUnix patch)%Z
      then Se.set_ExpiresUnix (Pa.ExpiresUnix patch) session else session in
    let session := if TrimSpace (Pa.Detail patch) <>s ""
      then Se.set_Detail (TrimSpace (Pa.Detail patch)) session else session in
    inr (Se.set_UpdatedUnix now session).

(** The code reads the clock twice under the mutex, in [getLocked] and at the end. *)
Definition Update (now now' : Z) (endpoint : InteractionEndpoint) (sessionID : string) (patch : Patch) (s : Store) : op :=
  match getLocked now endpoint sessionID s with
  | (inl err, s) => (inl err, s)
  | (inr session, s) =>
      match apply_patch now' patch session with
      | inl err => (inl err, s)
      | inr session => (inr session, put session s)
      end
  end.

Definition Get (now : Z) (endpoint : InteractionEndpoint) (sessionID : string) (s : Store) : op :=
  getLocked now endpoint sessionID s.

Definition Cancel (now now' : Z) (endpoint : InteractionEndpoint) (sessionID : string) (s : Store) : op :=
  match getLocked now endpoint sessionID s with
  | (inl err, s) => (inl err, s)
  | (inr session, s) =>
      let session := Se.set_Status StatusFailed session in
      let session := Se.set_Detail "Binding session canceled." session in
      let session := Se.set_UpdatedUnix now' session in
      (inr session, put session s)
  end.

(** ** Runs of the store *)

Inductive binding_op :=
| OCreate (fresh_id : string) (method : string)
| OUpdate (sessionID : string) (patch : Patch)
| OGet (sessionID : string)
| OCancel (sessionID : string).

Definition run_op (now now' : Z) (endpoint : InteractionEndpoint) (o : binding_op) (s : Store) : op :=
  match o with
  | OCreate fresh_id method => Create fresh_id now endpoint method s
  | OUpdate sessionID patch => Update now now' endpoint sessionID patch s
  | OGet sessionID => Get now endpoint sessionID s
  | OCancel sessionID => Cancel now now' endpoint sessionID s
  end.

(** A drawn identifier is new: 96 random bits. *)
Definition draws_new (o : binding_op) (s : Store) : Prop :=
  match o with OCreate fresh_id _ => sessions s !! fresh_id = None | _ => True end.

(** What holds of every session under its key. *)
Record session_ok (id : string) (session : Session) : Prop := {
  ok_id : Se.ID session = id;
  ok_status : validStatus (Se.Status session) = true;
  ok_method : SupportsBindingMethod (Se.Provider session) (Se.Method session) = true
}.

Definition sessions_ok (s : Store) : Prop := map_Forall session_ok (sessions s).

(** What an operation for an endpoint may do to the session of a key: nothing to one of
    another endpoint, and never give one another endpoint, provider, method or birth. *)
Definition session_step (endpointID : string) (old new : option Session) : Prop :=
  old = new ∨
  (∃ n, old = None ∧ new = Some n ∧ Se.EndpointID n = endpointID) ∨
  (∃ o n, old = Some o ∧ new = Some n ∧ Se.EndpointID o = endpointID ∧
    (Se.EndpointID n, Se.Provider n, Se.Method n, Se.CreatedUnix n) =
    (Se.EndpointID o, Se.Provider o, Se.Method o, Se.CreatedUnix o)).

End binding.

Section binding_lemmas.
Context {Uni : Unicode}.

(** [put] of a session that is in the store under its own key. *)
Definition replaces (o n : Session) : Prop :=
  (Se.ID n, Se.EndpointID n, Se.Provider n, Se.Method n, Se.CreatedUnix n) =
  (Se.ID o, Se.EndpointID o, Se.Provider o, Se.Method o, Se.CreatedUnix o) ∧
  validStatus (Se.Status n) = true.

(** One step of the store, whatever the result handed out. *)
Definition store_step (endpointID : string) (s s' : Store) : Prop :=
  sessions_ok s' ∧ ttl s' = ttl s ∧ ∀ id, session_step endpointID (sessions s !! id) (sessions s' !! id).

Lemma store_step_refl e s : sessions_ok s → store_step e s s.
Proof. intros Hs. unfold store_step. split_and!; [done..|]. by left. Qed.

Lemma session_step_trans e a b c : session_step e a b → session_step e b c → session_step e a c.
Proof. unfold session_step. naive_solver congruence. Qed.

Lemma store_step_trans e s s' s'' : store_step e s s' → store_step e s' s'' → store_step e s s''.
Proof. intros (? & ? & H1) (? & ? & H2). unfold store_step. split_and!; [done|congruence|]. eauto using session_step_trans. Qed.

Lemma put_step e id o n s :
  sessions_ok s → sessions s !! id = Some o → Se.EndpointID o = e → replaces o n → store_step e s (put n s).
Proof.
  intros Hs Ho He [[= Hi Hend Hp Hm Hc] Hv]. pose proof (Hs id o Ho) as [Hid Hst Hsup].
  unfold store_step. split_and!; [|done|].
  - apply map_Forall_insert_2; [|done]. constructor; [done|done|]. by rewrite Hp, Hm.
  - intros k. unfold put. cbn. rewrite Hi, Hid. destruct (decide (id = k)) as [<-|Hk].
    + rewrite lookup_insert_eq. right; right. exists o, n. split_and!; try done. congruence.
    + rewrite lookup_insert_ne by done. by left.
Qed.

(** What [getLocked] returns is in the store it leaves, under the endpoint. *)
Lemma getLocked_spec now endpoint sessionID s res s' :
  sessions_ok s → getLocked now endpoint sessionID s = (res, s') →
  store_step (Ie.ID endpoint) s s' ∧
  match res with
  | inl err => err = ErrSessionNotFound ∧ s' = s
  | inr session =>
      sessions s' !! TrimSpace sessionID = Some session ∧ Se.EndpointID session = Ie.ID endpoint ∧
      (Se.Status session = StatusPending → (now < Se.ExpiresUnix session)%Z)
  end.
Proof.
  unfold getLocked. intros Hs. destruct (sessions s !! TrimSpace sessionID) as [o|] eqn:Ho; cbv zeta.
  2: { intros [= <- <-]. split; [by apply store_step_refl|done]. }
  destruct (Se.EndpointID o <>s Ie.ID endpoint) eqn:Ee; [intros [= <- <-]; split; [by apply store_step_refl|done]|].
  reflect_bools. destruct ((Se.Status o =s StatusPending) && _) eqn:Ex; intros [= <- <-].
  - split.
    + eapply put_step; [done..|]. by split.
    + cbn. rewrite (ok_id _ _ (Hs _ _ Ho)), lookup_insert_eq. split_and!; [done..|]. discriminate.
  - split; [by apply store_step_refl|]. split_and!; [done..|]. intros Hp.
    apply andb_false_iff in Ex as [Ex|Ex]; reflect_bools; [done|lia].
Qed.

Lemma apply_patch_replaces now patch o n :
  validStatus (Se.Status o) = true → apply_patch now patch o = inr n → replaces o n.
Proof.
  unfold apply_patch. cbv zeta. intros Ho. destruct ((_ <>s "") && _) eqn:E; [done|]. intros [= <-].
  assert (∀ b (f : Session → Session) x, replaces o x → replaces o (f x) → replaces o (if b : bool then f x else x)) as T
    by (intros []; done).
  assert (replaces o (if ToLower (TrimSpace (Pa.Status patch)) <>s ""
    then Se.set_Status (ToLower (TrimSpace (Pa.Status patch))) o else o)) as H0.
  { destruct (_ <>s "") eqn:En; [|done]. split; [done|]. cbn. cbn in E. by apply negb_false_iff in E. }
  revert H0. generalize (if ToLower (TrimSpace (Pa.Status patch)) <>s "" then Se.set_Status
    (ToLower (TrimSpace (Pa.Status patch))) o else o). intros x Hx.
  repeat match goal with |- context [if ?b then _ else _] => destruct b end; done.
Qed.

(** Whatever operations run on the binding sessions, each session keeps a valid
    status, the endpoint, provider and method it was created with, a method its provider
    supports; an operation for one endpoint leaves the sessions of the others alone; and
    no operation hands out a pending session whose time is up, unless a patch made it
    pending again. *)
Theorem binding_ops_keep_sessions now now' endpoint o s res s' :
  sessions_ok s → draws_new o s → run_op now now' endpoint o s = (res, s') →
  store_step (Ie.ID endpoint) s s' ∧
  match res, o with
  | inr session, OGet _ => Se.Status session = StatusPending → (now < Se.ExpiresUnix session)%Z
  | inr session, OCancel _ => Se.Status session = StatusFailed
  | inr session, OCreate _ _ => Se.Status session = StatusPending
  | _, _ => True
  end.
Proof.
  intros Hs Hd. destruct o as [fresh method|id patch|id|id]; cbn [run_op draws_new] in *.
  - unfold Create. cbv zeta. set (m := if _ =s "" then _ else _).
    destruct (_ || _) eqn:E; intros [= <- <-]; [split; [by apply store_step_refl|done]|].
    split; [|done]. reflect_bools. unfold store_step. split_and!; [|done|].
    + apply map_Forall_insert_2; [|done]. by constructor.
    + intros k. cbn. destruct (decide (fresh = k)) as [<-|Hk].
      * rewrite lookup_insert_eq, Hd. right; left. by eexists.
      * rewrite lookup_insert_ne by done. by left.
  - unfold Update. destruct (getLocked now endpoint id s) as [[err|x] s1] eqn:Eg; intros [= <- <-] ||
      destruct (apply_patch now' patch x) as [err|n] eqn:Ea; try intros [= <- <-];
      apply getLocked_spec in Eg as [H1 H2]; try done.
    split; [|done]. destruct H2 as (Hx & He & _). eapply store_step_trans; [done|].
    destruct H1 as (H1 & _). eapply put_step; [done..|]. eapply apply_patch_replaces; [|done].
    apply (ok_status _ _ (H1 _ _ Hx)).
  - unfold Get. intros Eg. apply getLocked_spec in Eg as [H1 H2]; [|done]. split; [done|].
    destruct res; [done|]. tauto.
  - unfold Cancel. destruct (getLocked now endpoint id s) as [[err|x] s1] eqn:Eg; intros [= <- <-];
      apply getLocked_spec in Eg as [H1 H2]; try done.
    split; [|done]. destruct H2 as (Hx & He & _). eapply store_step_trans; [done|].
    destruct H1 as (H1 & _). by eapply put_step.
Qed.

End binding_lemmas.

(** ** A concrete session *)

Definition weixin_endpoint : InteractionEndpoint := Ie.set_ID "ep" (Ie.set_Kind "IM" (Ie.set_Provider "wechat" Ie.zero)).

Definition one_session : Store :=
  (Create (Uni := ascii_unicode) "ibs_1" 1000 weixin_endpoint "" (NewStore 0)).2.

Lemma binding_ops_keep_sessions_witness :
  store_step (Uni := ascii_unicode) "ep" one_session
    (Get 1400 weixin_endpoint "ibs_1" one_session).2 ∧
  match (Get 1400 weixin_endpoint "ibs_1" one_session).1 with
  | inr session => Se.Status session = StatusExpired
  | inl _ => False
  end.
Proof.
  split; [|vm_compute; reflexivity].
  refine (proj1 (binding_ops_keep_sessions (Uni := ascii_unicode) 1400 0 weixin_endpoint (OGet "ibs_1")
    one_session _ _ _ _ (surjective_pairing _))); [|done].
  apply map_Forall_insert_2; [|apply map_Forall_empty]. constructor; vm_compute; reflexivity.
Defined.

(** An expired session can still be completed: [Update] accepts any status over it. *)
Example expired_session_is_bound :
  match (Update (Uni := ascii_unicode) 1400 1400 weixin_endpoint "ibs_1" (Pa.set_Status "bound" Pa.zero) one_session).1 with
  | inr session => Se.Status session = StatusBound
  | inl _ => False
  end.
Proof. vm_compute. reflexivity. Qed.
