(* ===== verification/ImInbound.v ===== *)
(** * Inbound messages of messengers ([internal/iminbound/types.go, internal/imadapter/dedupe.go])

    The form every provider's messages are brought into, what makes one valid, the draft
    the coordinator stores, and the cache that drops repeated deliveries.  [Normalize]
    also rewrites the content blocks its caller holds, which are shared by pointer; it
    is idempotent, so the callers see the blocks they would have computed.  A nil slice
    and an empty one are the same here. *)
From S2P Require Import Prelude GoStr GoText Sql Json JsonValue.
#[local] Open Scope go_scope.

(** ** The data *)

Module RawEvent.
Record RawEvent := mk {
  EndpointID : string;
  EndpointKind : string;
  Provider : string;
  ExternalMessageID : string;
  ReceivedUnix : Z;
  Headers : gmap string (list string);
  Body : string;
  Metadata : gmap string wire
}.
Definition zero : RawEvent := mk "" "" "" "" 0%Z ∅ "" ∅.
Definition set_EndpointID (v : string) (r : RawEvent) : RawEvent := mk v (EndpointKind r) (Provider r) (ExternalMessageID r) (ReceivedUnix r) (Headers r) (Body r) (Metadata r).
Definition set_EndpointKind (v : string) (r : RawEvent) : RawEvent := mk (EndpointID r) v (Provider r) (ExternalMessageID r) (ReceivedUnix r) (Headers r) (Body r) (Metadata r).
Definition set_Provider (v : string) (r : RawEvent) : RawEvent := mk (EndpointID r) (EndpointKind r) v (ExternalMessageID r) (ReceivedUnix r) (Headers r) (Body r) (Metadata r).
Definition set_ExternalMessageID (v : string) (r : RawEvent) : RawEvent := mk (EndpointID r) (EndpointKind r) (Provider r) v (ReceivedUnix r) (Headers r) (Body r) (Metadata r).
Definition set_ReceivedUnix (v : Z) (r : RawEvent) : RawEvent := mk (EndpointID r) (EndpointKind r) (Provider r) (ExternalMessageID r) v (Headers r) (Body r) (Metadata r).
Definition set_Headers (v : gmap string (list string)) (r : RawEvent) : RawEvent := mk (EndpointID r) (EndpointKind r) (Provider r) (ExternalMessageID r) (ReceivedUnix r) v (Body r) (Metadata r).
Definition set_Body (v : string) (r : RawEvent) : RawEvent := mk (EndpointID r) (EndpointKind r) (Provider r) (ExternalMessageID r) (ReceivedUnix r) (Headers r) v (Metadata r).
Definition set_Metadata (v : gmap string wire) (r : RawEvent) : RawEvent := mk (EndpointID r) (EndpointKind r) (Provider r) (ExternalMessageID r) (ReceivedUnix r) (Headers r) (Body r) v.
End RawEvent.
Abbreviation RawEvent := RawEvent.RawEvent.

Module Sender.
Record Sender := mk {
  ExternalID : string;
  CandidateIDs : list string;
  DisplayName : string;
  Username : string;
  Kind : string
}.
Definition zero : Sender := mk "" [] "" "" "".
Definition set_ExternalID (v : string) (r : Sender) : Sender := mk v (CandidateIDs r) (DisplayName r) (Username r) (Kind r).
Definition set_CandidateIDs (v : list string) (r : Sender) : Sender := mk (ExternalID r) v (DisplayName r) (Username r) (Kind r).
Definition set_DisplayName (v : string) (r : Sender) : Sender := mk (ExternalID r) (CandidateIDs r) v (Username r) (Kind r).
Definition set_Username (v : string) (r : Sender) : Sender := mk (ExternalID r) (CandidateIDs r) (DisplayName r) v (Kind r).
Definition set_Kind (v : string) (r : Sender) : Sender := mk (ExternalID r) (CandidateIDs r) (DisplayName r) (Username r) v.
End Sender.
Abbreviation Sender := Sender.Sender.

Module Conversation.
Record Conversation := mk {
  ExternalID : string;
  DisplayName : string;
  IsGroup : bool;
  TargetHint : string;
  ThreadID : string;
  ExternalThreadID : string;
  RootMessageID : string
}.
Definition zero : Conversation := mk "" "" false "" "" "" "".
Definition set_ExternalID (v : string) (r : Conversation) : Conversation := mk v (DisplayName r) (IsGroup r) (TargetHint r) (ThreadID r) (ExternalThreadID r) (RootMessageID r).
Definition set_DisplayName (v : string) (r : Conversation) : Conversation := mk (ExternalID r) v (IsGroup r) (TargetHint r) (ThreadID r) (ExternalThreadID r) (RootMessageID r).
Definition set_IsGroup (v : bool) (r : Conversation) : Conversation := mk (ExternalID r) (DisplayName r) v (TargetHint r) (ThreadID r) (ExternalThreadID r) (RootMessageID r).
Definition set_TargetHint (v : string) (r : Conversation) : Conversation := mk (ExternalID r) (DisplayName r) (IsGroup r) v (ThreadID r) (ExternalThreadID r) (RootMessageID r).
Definition set_ThreadID (v : string) (r : Conversation) : Conversation := mk (ExternalID r) (DisplayName r) (IsGroup r) (TargetHint r) v (ExternalThreadID r) (RootMessageID r).
Definition set_ExternalThreadID (v : string) (r : Conversation) : Conversation := mk (ExternalID r) (DisplayName r) (IsGroup r) (TargetHint r) (ThreadID r) v (RootMessageID r).
Definition set_RootMessageID (v : string) (r : Conversation) : Conversation := mk (ExternalID r) (DisplayName r) (IsGroup r) (TargetHint r) (ThreadID r) (ExternalThreadID r) v.
End Conversation.
Abbreviation Conversation := Conversation.Conversation.

Module ContentBlock.
Record ContentBlock := mk {
  Type_ : string;
  Text : string;
  AttachmentID : string;
  ExternalURL : string;
  Filename : string;
  MimeType : string;
  SizeBytes : Z;
  Metadata : gmap string wire
}.
Definition zero : ContentBlock := mk "" "" "" "" "" "" 0%Z ∅.
Definition set_Type_ (v : string) (r : ContentBlock) : ContentBlock := mk v (Text r) (AttachmentID r) (ExternalURL r) (Filename r) (MimeType r) (SizeBytes r) (Metadata r).
Definition set_Text (v : string) (r : ContentBlock) : ContentBlock := mk (Type_ r) v (AttachmentID r) (ExternalURL r) (Filename r) (MimeType r) (SizeBytes r) (Metadata r).
Definition set_AttachmentID (v : string) (r : ContentBlock) : ContentBlock := mk (Type_ r) (Text r) v (ExternalURL r) (Filename r) (MimeType r) (SizeBytes r) (Metadata r).
Definition set_ExternalURL (v : string) (r : ContentBlock) : ContentBlock := mk (Type_ r) (Text r) (AttachmentID r) v (Filename r) (MimeType r) (SizeBytes r) (Metadata r).
Definition set_Filename (v : string) (r : ContentBlock) : ContentBlock := mk (Type_ r) (Text r) (AttachmentID r) (ExternalURL r) v (MimeType r) (SizeBytes r) (Metadata r).
Definition set_MimeType (v : string) (r : ContentBlock) : ContentBlock := mk (Type_ r) (Text r) (AttachmentID r) (ExternalURL r) (Filename r) v (SizeBytes r) (Metadata r).
Definition set_SizeBytes (v : Z) (r : ContentBlock) : ContentBlock := mk (Type_ r) (Text r) (AttachmentID r) (ExternalURL r) (Filename r) (MimeType r) v (Metadata r).
Definition set_Metadata (v : gmap string wire) (r : ContentBlock) : ContentBlock := mk (Type_ r) (Text r) (AttachmentID r) (ExternalURL r) (Filename r) (MimeType r) (SizeBytes r) v.
End ContentBlock.
Abbreviation ContentBlock := ContentBlock.ContentBlock.

Module Message.
Record Message := mk {
  EndpointID : string;
  EndpointKind : string;
  Provider : string;
  ExternalMessageID : string;
  ReceivedUnix : Z;
  Conversation : Conversation.Conversation;
  Sender : Sender.Sender;
  Content : list ContentBlock.ContentBlock;
  AttachmentIDs : list string;
  Metadata : gmap string wire
}.
Definition zero : Message := mk "" "" "" "" 0%Z Conversation.zero Sender.zero [] [] ∅.
Definition set_EndpointID (v : string) (r : Message) : Message := mk v (EndpointKind r) (Provider r) (ExternalMessageID r) (ReceivedUnix r) (Conversation r) (Sender r) (Content r) (AttachmentIDs r) (Metadata r).
Definition set_EndpointKind (v : string) (r : Message) : Message := mk (EndpointID r) v (Provider r) (ExternalMessageID r) (ReceivedUnix r) (Conversation r) (Sender r) (Content r) (AttachmentIDs r) (Metadata r).
Definition set_Provider (v : string) (r : Message) : Message := mk (EndpointID r) (EndpointKind r) v (ExternalMessageID r) (ReceivedUnix r) (Conversation r) (Sender r) (Content r) (AttachmentIDs r) (Metadata r).
Definition set_ExternalMessageID (v : string) (r : Message) : Message := mk (EndpointID r) (EndpointKind r) (Provider r) v (ReceivedUnix r) (Conversation r) (Sender r) (Content r) (AttachmentIDs r) (Metadata r).
Definition set_ReceivedUnix (v : Z) (r : Message) : Message := mk (EndpointID r) (EndpointKind r) (Provider r) (ExternalMessageID r) v (Conversation r) (Sender r) (Content r) (AttachmentIDs r) (Metadata r).
Definition set_Conversation (v : Conversation.Conversation) (r : Message) : Message := mk (EndpointID r) (EndpointKind r) (Provider r) (ExternalMessageID r) (ReceivedUnix r) v (Sender r) (Content r) (AttachmentIDs r) (Metadata r).
Definition set_Sender (v : Sender.Sender) (r : Message) : Message := mk (EndpointID r) (EndpointKind r) (Provider r) (ExternalMessageID r) (ReceivedUnix r) (Conversation r) v (Content r) (AttachmentIDs r) (Metadata r).
Definition set_Content (v : list ContentBlock.ContentBlock) (r : Message) : Message := mk (EndpointID r) (EndpointKind r) (Provider r) (ExternalMessageID r) (ReceivedUnix r) (Conversation r) (Sender r) v (AttachmentIDs r) (Metadata r).
Definition set_AttachmentIDs (v : list string) (r : Message) : Message := mk (EndpointID r) (EndpointKind r) (Provider r) (ExternalMessageID r) (ReceivedUnix r) (Conversation r) (Sender r) (Content r) v (Metadata r).
Definition set_Metadata (v : gmap string wire) (r : Message) : Message := mk (EndpointID r) (EndpointKind r) (Provider r) (ExternalMessageID r) (ReceivedUnix r) (Conversation r) (Sender r) (Content r) (AttachmentIDs r) v.
End Message.
Abbreviation Message := Message.Message.

Module Draft.
Record Draft := mk {
  Target : string;
  ThreadID : string;
  Role : string;
  Content : string;
  ReplyToMessageID : string;
  SourceEndpointID : string;
  ExternalMessageID : string;
  ReceivedUnix : Z;
  MetadataJSON : string;
  AttachmentIDs : list string;
  Sender : Sender.Sender
}.
Definition zero : Draft := mk "" "" "" "" "" "" "" 0%Z "" [] Sender.zero.
Definition set_Target (v : string) (r : Draft) : Draft := mk v (ThreadID r) (Role r) (Content r) (ReplyToMessageID r) (SourceEndpointID r) (ExternalMessageID r) (ReceivedUnix r) (MetadataJSON r) (AttachmentIDs r) (Sender r).
Definition set_ThreadID (v : string) (r : Draft) : Draft := mk (Target r) v (Role r) (Content r) (ReplyToMessageID r) (SourceEndpointID r) (ExternalMessageID r) (ReceivedUnix r) (MetadataJSON r) (AttachmentIDs r) (Sender r).
Definition set_Role (v : string) (r : Draft) : Draft := mk (Target r) (ThreadID r) v (Content r) (ReplyToMessageID r) (SourceEndpointID r) (ExternalMessageID r) (ReceivedUnix r) (MetadataJSON r) (AttachmentIDs r) (Sender r).
Definition set_Content (v : string) (r : Draft) : Draft := mk (Target r) (ThreadID r) (Role r) v (ReplyToMessageID r) (SourceEndpointID r) (ExternalMessageID r) (ReceivedUnix r) (MetadataJSON r) (AttachmentIDs r) (Sender r).
Definition set_ReplyToMessageID (v : string) (r : Draft) : Draft := mk (Target r) (ThreadID r) (Role r) (Content r) v (SourceEndpointID r) (ExternalMessageID r) (ReceivedUnix r) (MetadataJSON r) (AttachmentIDs r) (Sender r).
Definition set_SourceEndpointID (v : string) (r : Draft) : Draft := mk (Target r) (ThreadID r) (Role r) (Content r) (ReplyToMessageID r) v (ExternalMessageID r) (ReceivedUnix r) (MetadataJSON r) (AttachmentIDs r) (Sender r).
Definition set_ExternalMessageID (v : string) (r : Draft) : Draft := mk (Target r) (ThreadID r) (Role r) (Content r) (ReplyToMessageID r) (SourceEndpointID r) v (ReceivedUnix r) (MetadataJSON r) (AttachmentIDs r) (Sender r).
Definition set_ReceivedUnix (v : Z) (r : Draft) : Draft := mk (Target r) (ThreadID r) (Role r) (Content r) (ReplyToMessageID r) (SourceEndpointID r) (ExternalMessageID r) v (MetadataJSON r) (AttachmentIDs r) (Sender r).
Definition set_MetadataJSON (v : string) (r : Draft) : Draft := mk (Target r) (ThreadID r) (Role r) (Content r) (ReplyToMessageID r) (SourceEndpointID r) (ExternalMessageID r) (ReceivedUnix r) v (AttachmentIDs r) (Sender r).
Definition set_AttachmentIDs (v : list string) (r : Draft) : Draft := mk (Target r) (ThreadID r) (Role r) (Content r) (ReplyToMessageID r) (SourceEndpointID r) (ExternalMessageID r) (ReceivedUnix r) (MetadataJSON r) v (Sender r).
Definition set_Sender (v : Sender.Sender) (r : Draft) : Draft := mk (Target r) (ThreadID r) (Role r) (Content r) (ReplyToMessageID r) (SourceEndpointID r) (ExternalMessageID r) (ReceivedUnix r) (MetadataJSON r) (AttachmentIDs r) v.
End Draft.
Abbreviation Draft := Draft.Draft.

Module Ev := RawEvent.
Module Sn := Sender.
Module Cv := Conversation.
Module Cb := ContentBlock.
Module Ms := Message.
Module Dr := Draft.

Definition ContentTypeText := "text".
Definition ContentTypeImage := "image".
Definition ContentTypeFile := "file".
Definition ContentTypeAudio := "audio".
Definition ContentTypeVideo := "video".
Definition ContentTypeSticker := "sticker".
Definition ContentTypeLocation := "location".
Definition ContentTypeReaction := "reaction".
Definition ContentTypeUnknown := "unknown".

(** ** Normalisation *)

Definition NormalizeConversation (c : Conversation) : Conversation :=
  let c := Cv.set_ExternalID (TrimSpace (Cv.ExternalID c)) c in
  let c := Cv.set_DisplayName (TrimSpace (Cv.DisplayName c)) c in
  let c := Cv.set_TargetHint (TrimSpace (Cv.TargetHint c)) c in
  let c := Cv.set_ThreadID (TrimSpace (Cv.ThreadID c)) c in
  let c := Cv.set_ExternalThreadID (TrimSpace (Cv.ExternalThreadID c)) c in
  Cv.set_RootMessageID (TrimSpace (Cv.RootMessageID c)) c.

Definition NormalizeSender (s : Sender) : Sender :=
  let s := Sn.set_ExternalID (TrimSpace (Sn.ExternalID s)) s in
  let s := Sn.set_DisplayName (TrimSpace (Sn.DisplayName s)) s in
  let s := Sn.set_Username (TrimSpace (Sn.Username s)) s in
  let s := Sn.set_Kind (TrimSpace (Sn.Kind s)) s in
  let s := Sn.set_CandidateIDs (cleanStrings (Sn.ExternalID s :: Sn.CandidateIDs s)) s in
  match Sn.CandidateIDs s with
  | first :: _ => if Sn.ExternalID s =s "" then Sn.set_ExternalID first s else s
  | [] => s
  end.

Definition NormalizeBlock (b : ContentBlock) : ContentBlock :=
  let b := if Cb.Type_ b =s "" then Cb.set_Type_ ContentTypeText b else b in
  let b := Cb.set_Text (TrimSpace (Cb.Text b)) b in
  let b := Cb.set_AttachmentID (TrimSpace (Cb.AttachmentID b)) b in
  let b := Cb.set_ExternalURL (TrimSpace (Cb.ExternalURL b)) b in
  let b := Cb.set_Filename (TrimSpace (Cb.Filename b)) b in
  Cb.set_MimeType (TrimSpace (Cb.MimeType b)) b.

Definition Normalize (now : Z) (m : Message) : Message :=
  let m := Ms.set_EndpointID (TrimSpace (Ms.EndpointID m)) m in
  let m := Ms.set_EndpointKind (TrimSpace (Ms.EndpointKind m)) m in
  let m := Ms.set_Provider (TrimSpace (Ms.Provider m)) m in
  let m := Ms.set_ExternalMessageID (TrimSpace (Ms.ExternalMessageID m)) m in
  let m := if (Ms.ReceivedUnix m =? 0)%Z then Ms.set_ReceivedUnix now m else m in
  let m := Ms.set_Conversation (NormalizeConversation (Ms.Conversation m)) m in
  let m := Ms.set_Sender (NormalizeSender (Ms.Sender m)) m in
  let m := Ms.set_AttachmentIDs (cleanStrings (Ms.AttachmentIDs m)) m in
  Ms.set_Content (map NormalizeBlock (Ms.Content m)) m.

(** ** Validity *)

Inductive block_error :=
| RequiresText (type : string)
| RequiresAttachment (type : string)
| UnknownIsEmpty
| UnsupportedType (type : string).

Inductive problem :=
| Required (what : string)
| ContentProblem (i : nat) (err : block_error).

Definition ValidateBlock (b : ContentBlock) : option block_error :=
  let b := NormalizeBlock b in
  let type := Cb.Type_ b in
  let among (l : list string) := existsb (String.eqb type) l in
  if among [ContentTypeText; ContentTypeReaction; ContentTypeLocation] then
    if Cb.Text b =s "" then Some (RequiresText type) else None
  else if among [ContentTypeImage; ContentTypeFile; ContentTypeAudio; ContentTypeVideo; ContentTypeSticker] then
    if (Cb.AttachmentID b =s "") && (Cb.ExternalURL b =s "") then Some (RequiresAttachment type) else None
  else if among [ContentTypeUnknown] then
    if (Cb.Text b =s "") && (Cb.AttachmentID b =s "") && (Cb.ExternalURL b =s "") && (size (Cb.Metadata b) =? 0)
    then Some UnknownIsEmpty else None
  else Some (UnsupportedType type).

Fixpoint block_problems (i : nat) (blocks : list ContentBlock) : list problem :=
  match blocks with
  | [] => []
  | b :: blocks =>
      match ValidateBlock b with Some err => [ContentProblem i err] | None => [] end ++ block_problems (S i) blocks
  end.

Definition required (missing : bool) (what : string) : list problem := if missing then [Required what] else [].

(** The problems the error lists; [] is no error. *)
Definition Validate (now : Z) (m : Message) : list problem :=
  let m := Normalize now m in
  required (Ms.EndpointID m =s "") "endpoint_id" ++
  required (Ms.ExternalMessageID m =s "") "external_message_id" ++
  required (Cv.ExternalID (Ms.Conversation m) =s "") "conversation.external_id" ++
  required (Sn.ExternalID (Ms.Sender m) =s "") "sender.external_id" ++
  required ((length (Ms.Content m) =? 0) && (length (Ms.AttachmentIDs m) =? 0)) "content or attachment_ids" ++
  block_problems 0 (Ms.Content m).

Definition DedupeKey (m : Message) : string :=
  let endpoint := TrimSpace (Ms.EndpointID m) in
  let external := TrimSpace (Ms.ExternalMessageID m) in
  if (endpoint =s "") || (external =s "") then "" else endpoint +:+ ":" +:+ external.

(** ** The draft of a message *)

Definition block_part (b : ContentBlock) : list string :=
  if Cb.Text b <>s "" then [Cb.Text b]
  else
    let label := Cb.Type_ b in
    let label := if Cb.Filename b <>s "" then label +:+ ": " +:+ Cb.Filename b else label in
    if label <>s "" then ["[" +:+ label +:+ "]"] else [].

Definition newline : string := String (byte 10) "".

Definition Text (now : Z) (m : Message) : string :=
  let m := Normalize now m in
  let parts := flat_map block_part (Ms.Content m) in
  match parts, Ms.AttachmentIDs m with
  | [], [_] => "[attachment]"
  | [], _ :: _ => "[" +:+ FormatInt (Z.of_nat (length (Ms.AttachmentIDs m))) +:+ " attachments]"
  | _, _ => Join parts newline
  end.

Definition AllAttachmentIDs (now : Z) (m : Message) : list string :=
  let m := Normalize now m in
  cleanStrings (Ms.AttachmentIDs m ++ map Cb.AttachmentID (Ms.Content m)).

Definition conversation_wire (c : Conversation) : wire :=
  WStruct ([("external_id", WStr (Cv.ExternalID c))] ++ str_field "display_name" (Cv.DisplayName c) ++
    [("is_group", WBool (Cv.IsGroup c))] ++ str_field "target_hint" (Cv.TargetHint c) ++
    str_field "thread_id" (Cv.ThreadID c) ++ str_field "external_thread_id" (Cv.ExternalThreadID c) ++
    str_field "root_message_id" (Cv.RootMessageID c)).

Definition sender_wire (s : Sender) : wire :=
  WStruct ([("external_id", WStr (Sn.ExternalID s))] ++ list_field "candidate_ids" (Sn.CandidateIDs s) ++
    str_field "display_name" (Sn.DisplayName s) ++ str_field "username" (Sn.Username s) ++
    str_field "kind" (Sn.Kind s)).

Definition block_wire (b : ContentBlock) : wire :=
  WStruct ([("type", WStr (Cb.Type_ b))] ++ str_field "text" (Cb.Text b) ++
    str_field "attachment_id" (Cb.AttachmentID b) ++ str_field "external_url" (Cb.ExternalURL b) ++
    str_field "filename" (Cb.Filename b) ++ str_field "mime_type" (Cb.MimeType b) ++
    int_field "size_bytes" (Cb.SizeBytes b) ++ map_field "metadata" (Cb.Metadata b)).

(** The member [im] of the metadata of a message.  A message without blocks has a nil
    slice of them. *)
Definition im_wire (m : Message) : wire :=
  WMap [("endpoint_id", WStr (Ms.EndpointID m)); ("endpoint_kind", WStr (Ms.EndpointKind m));
        ("provider", WStr (Ms.Provider m)); ("external_message_id", WStr (Ms.ExternalMessageID m));
        ("received_unix", WInt (Ms.ReceivedUnix m)); ("conversation", conversation_wire (Ms.Conversation m));
        ("sender", sender_wire (Ms.Sender m)); ("content", match Ms.Content m with [] => WJson JNull | blocks => WList (map block_wire blocks) end)].

Definition metadata_members (m : Message) : gmap string wire :=
  <["im" := im_wire m]> (filter (λ p, TrimSpace p.1 ≠ "") (Ms.Metadata m)).

Definition MetadataJSON `{!Floats} (now : Z) (m : Message) : string :=
  wire_text (WMap (map_to_list (metadata_members (Normalize now m)))).

(** The draft of a message, or the problems of an invalid one. *)
Definition Draft_ `{!Floats} (now : Z) (m : Message) : list problem + Draft :=
  let m := Normalize now m in
  match Validate now m with
  | [] => inr (Dr.mk (Cv.TargetHint (Ms.Conversation m)) (Cv.ThreadID (Ms.Conversation m)) "user" (Text now m)
      (Cv.RootMessageID (Ms.Conversation m)) (Ms.EndpointID m) (Ms.ExternalMessageID m) (Ms.ReceivedUnix m)
      (MetadataJSON now m) (AllAttachmentIDs now m) (Ms.Sender m))
  | problems => inl problems
  end.

(** ** The cache of seen messages

    Times are in nanoseconds. *)

Definition DefaultDedupeTTL : Z := 60 * 1000000000.

Record DedupeCache := mkCache { TTL : Z; seen : gmap string Z }.

Definition cache_ttl (c : DedupeCache) : Z := if (TTL c <=? 0)%Z then DefaultDedupeTTL else TTL c.

(** [true]: the message was seen, and is to be dropped. *)
Definition MarkSeen (now : Z) (message : Message) (c : DedupeCache) : bool * DedupeCache :=
  let key := DedupeKey message in
  if key =s "" then (false, c)
  else
    let seen' := filter (λ p, ¬ (cache_ttl c < now - p.2)%Z) (seen c) in
    match seen' !! key with
    | Some _ => (true, mkCache (TTL c) seen')
    | None => (false, mkCache (TTL c) (<[key := now]> seen'))
    end.

Definition Forget (message : Message) (c : DedupeCache) : DedupeCache :=
  let key := DedupeKey message in
  if key =s "" then c else mkCache (TTL c) (delete key (seen c)).

(** ** Normal forms *)

#[local] Arguments TrimSpace : simpl never.
#[local] Arguments cleanStrings : simpl never.

Lemma NormalizeConversation_idemp c : NormalizeConversation (NormalizeConversation c) = NormalizeConversation c.
Proof. destruct c. unfold NormalizeConversation. cbn. by rewrite !TrimSpace_idemp. Qed.

Lemma NormalizeBlock_idemp b : NormalizeBlock (NormalizeBlock b) = NormalizeBlock b.
Proof.
  destruct b as [type text att url file mime sz meta]. unfold NormalizeBlock. cbn.
  destruct (type =s "") eqn:E; cbn; [|rewrite E; cbn]; by rewrite !TrimSpace_idemp.
Qed.

(** The candidates of a normalised sender start with its identifier. *)
Lemma NormalizeSender_candidates s :
  let n := NormalizeSender s in
  Sn.ExternalID n = from_opt "" (head (Sn.CandidateIDs n)) ∧ trimmed (Sn.ExternalID n) ∧
  cleanStrings (Sn.CandidateIDs n) = Sn.CandidateIDs n.
Proof.
  unfold NormalizeSender. cbn. set (l := cleanStrings (TrimSpace (Sn.ExternalID s) :: Sn.CandidateIDs s)).
  assert (cleanStrings l = l) as Hl by apply cleanStrings_idemp.
  assert (∀ x, x ∈ l → trimmed x ∧ x ≠ "") as Hx.
  { intros x [? (y & -> & _)%list_elem_of_fmap]%elem_of_cleanStrings. split; [apply TrimSpace_trimmed|done]. }
  destruct (TrimSpace (Sn.ExternalID s) =s "") eqn:E; reflect_bools.
  - destruct l as [|first l'] eqn:El; cbn; [split_and!; [done|apply TrimSpace_trimmed|done]|].
    split_and!; [done| |done]. apply Hx. by left.
  - assert (head l = Some (TrimSpace (Sn.ExternalID s))) as Hh.
    { subst l. unfold cleanStrings. cbn. rewrite TrimSpace_idemp. by apply eqb_neq_str in E as ->. }
    destruct l as [|first l'] eqn:El; [done|]. injection Hh as ->. cbn. split_and!; [done|apply TrimSpace_trimmed|done].
Qed.

Lemma cleanStrings_double x l : cleanStrings (x :: x :: l) = cleanStrings (x :: l).
Proof.
  unfold cleanStrings. cbn. destruct (TrimSpace x =s ""); [done|].
  rewrite (bool_decide_false (_ ∈ [])) by (by intros ?%elem_of_nil). f_equal.
  rewrite bool_decide_true; [done|]. by left.
Qed.

Lemma NormalizeSender_idemp s : NormalizeSender (NormalizeSender s) = NormalizeSender s.
Proof.
  destruct (NormalizeSender_candidates s) as (Hh & Ht & Hc). revert Hh Ht Hc.
  assert (Forall trimmed [Sn.DisplayName (NormalizeSender s); Sn.Username (NormalizeSender s); Sn.Kind (NormalizeSender s)]) as Hf.
  { unfold NormalizeSender. cbn. repeat case_match; cbn; repeat constructor; apply TrimSpace_trimmed. }
  generalize dependent (NormalizeSender s). intros n Hf Hh Ht Hc. decompose_Forall_hyps.
  destruct n as [ext cand disp user kind]. cbn in *. unfold NormalizeSender. cbn.
  unfold trimmed in *. rewrite Ht. repeat match goal with H : TrimSpace _ = _ |- _ => rewrite H; clear H end.
  destruct cand as [|first cand]; cbn in Hh; subst ext; [done|].
  rewrite cleanStrings_double, Hc.
  by destruct (first =s "").
Qed.

Lemma Normalize_idemp now m : Normalize now (Normalize now m) = Normalize now m.
Proof.
  destruct m as [e k p x recv cv sn ct att meta]. unfold Normalize. cbn.
  destruct (recv =? 0)%Z eqn:E; cbn; [destruct (now =? 0)%Z eqn:E'|rewrite E]; cbn;
    rewrite !TrimSpace_idemp, NormalizeConversation_idemp, NormalizeSender_idemp, cleanStrings_idemp, map_map,
      (map_ext _ NormalizeBlock NormalizeBlock_idemp);
    lazy -[TrimSpace cleanStrings NormalizeConversation NormalizeSender NormalizeBlock map]; reflexivity.
Qed.

(** ** Keys *)

Lemma DedupeKey_Normalize now m : DedupeKey (Normalize now m) = DedupeKey m.
Proof.
  destruct m as [e k p x recv cv sn ct att meta]. unfold DedupeKey, Normalize. cbn.
  destruct (recv =? 0)%Z; cbn; by rewrite !TrimSpace_idemp.
Qed.

(** Endpoint identifiers are drawn by the store and have no colon: then messages with the
    same key are deliveries of the same message. *)
Lemma DedupeKey_inj m m' :
  DedupeKey m ≠ "" → DedupeKey m = DedupeKey m' →
  no_colon (TrimSpace (Ms.EndpointID m)) = true → no_colon (TrimSpace (Ms.EndpointID m')) = true →
  TrimSpace (Ms.EndpointID m) = TrimSpace (Ms.EndpointID m') ∧
  TrimSpace (Ms.ExternalMessageID m) = TrimSpace (Ms.ExternalMessageID m').
Proof.
  unfold DedupeKey. destruct (_ || _); [done|]. intros _. destruct (_ || _).
  - intros E. destruct (TrimSpace (Ms.EndpointID m)); discriminate E.
  - intros E H1 H2. by apply colon_split in E.
Qed.

(** ** The cache lets one delivery through *)

Inductive cache_event :=
| Mark (now : Z) (m : Message)
| Drop (m : Message).

Definition cache_step (e : cache_event) (c : DedupeCache) : DedupeCache :=
  match e with Mark now m => (MarkSeen now m c).2 | Drop m => Forget m c end.

Definition cache_run (events : list cache_event) (c : DedupeCache) : DedupeCache :=
  foldl (λ c e, cache_step e c) c events.

(** An event that leaves the mark of [key] alone until the time [last]. *)
Definition quiet (key : string) (last : Z) (e : cache_event) : Prop :=
  match e with Mark now _ => (now ≤ last)%Z | Drop m => DedupeKey m ≠ key end.

Lemma MarkSeen_ttl now m c : TTL (MarkSeen now m c).2 = TTL c.
Proof. unfold MarkSeen. cbv zeta. destruct (_ =s ""); [done|]. by case_match. Qed.

Lemma MarkSeen_keeps now m c key t :
  seen c !! key = Some t → (now - t ≤ cache_ttl c)%Z → seen (MarkSeen now m c).2 !! key = Some t.
Proof.
  intros Hk Ht. unfold MarkSeen. cbv zeta. destruct (_ =s ""); [done|].
  assert (filter (λ p : string * Z, ¬ (cache_ttl c < now - p.2)%Z) (seen c) !! key = Some t) as Hf.
  { apply map_lookup_filter_Some. split; [done|]. cbn. lia. }
  case_match eqn:E; cbn; [done|]. rewrite lookup_insert_ne; [done|]. intros E'. congruence.
Qed.

Lemma quiet_keeps key last t events c :
  seen c !! key = Some t → (last - t ≤ cache_ttl c)%Z → Forall (quiet key last) events →
  seen (cache_run events c) !! key = Some t ∧ cache_ttl (cache_run events c) = cache_ttl c.
Proof.
  intros Hk Ht Hq. revert c Hk Ht. induction Hq as [|e events He _ IH]; intros c Hk Ht; [done|].
  cbn. assert (cache_ttl (cache_step e c) = cache_ttl c) as Httl.
  { destruct e as [now m|m]; cbn; unfold cache_ttl; [by rewrite MarkSeen_ttl|]. unfold Forget. cbv zeta. by destruct (_ =s ""). }
  rewrite <-Httl. apply IH; [|by rewrite Httl].
  destruct e as [now m|m]; cbn in He |- *.
  - apply MarkSeen_keeps; [done|lia].
  - unfold Forget. cbv zeta. destruct (_ =s ""); [done|]. cbn. by rewrite lookup_delete_ne.
Qed.

(** Of the deliveries of a message within the lifetime of its mark only the first is
    let through, whatever other messages come in between, unless its mark is forgotten:
    the coordinator does that when it could not store the message. *)
Theorem dedupe_once now now' m m' events c :
  DedupeKey m ≠ "" → DedupeKey m' = DedupeKey m →
  (MarkSeen now m c).1 = false → (now' - now ≤ cache_ttl c)%Z →
  Forall (quiet (DedupeKey m) now') events →
  (MarkSeen now' m' (cache_run events (MarkSeen now m c).2)).1 = true.
Proof.
  intros Hk Hk' Hfirst Ht Hq.
  assert (seen (MarkSeen now m c).2 !! DedupeKey m = Some now) as Hm.
  { revert Hfirst. unfold MarkSeen. cbv zeta. apply eqb_neq_str in Hk as ->. case_match; cbn; [done|].
    intros _. apply lookup_insert_eq. }
  assert (cache_ttl (MarkSeen now m c).2 = cache_ttl c) as Httl by (unfold cache_ttl; by rewrite MarkSeen_ttl).
  destruct (quiet_keeps _ _ _ events _ Hm ltac:(rewrite Httl; exact Ht) Hq) as [Hs Hc].
  unfold MarkSeen at 1. cbv zeta. rewrite Hk'. apply eqb_neq_str in Hk as ->.
  set (c' := cache_run _ _) in *.
  assert (filter (λ p : string * Z, ¬ (cache_ttl c' < now' - p.2)%Z) (seen c') !! DedupeKey m = Some now) as ->.
  { apply map_lookup_filter_Some. split; [done|]. cbn. rewrite Hc, Httl. lia. }
  done.
Qed.

Definition sample_message (endpoint external : string) : Message :=
  Ms.set_EndpointID endpoint (Ms.set_ExternalMessageID external Ms.zero).

Lemma dedupe_once_witness :
  (MarkSeen 30 (sample_message "ep" " m1")
    (cache_run [Mark 10 (sample_message "ep" "m2"); Drop (sample_message "ep" "m2")]
      (MarkSeen 0 (sample_message "ep" "m1") (mkCache 0 ∅)).2)).1 = true.
Proof.
  apply dedupe_once; [vm_compute; discriminate|vm_compute; reflexivity|vm_compute; reflexivity|vm_compute; discriminate|].
  repeat constructor; vm_compute; discriminate.
Defined.
