(* ===== verification/ImNormalize.v ===== *)
(** * Inbound normalisation ([internal/imadapter/normalize.go])

    What each provider's webhook or poll delivers, decoded and brought into the common
    form of [ImInbound].  The nested anonymous structs of the code are flattened into one
    record per payload.  A slice element that an earlier duplicate of a member left
    behind is taken to be gone.  RFC 3339 times ([time.Parse]) are a parameter. *)
From S2P Require Import Prelude GoStr GoText Sql Json JsonValue ImAdapter ImInbound.
#[local] Open Scope go_scope.

(** [time.Parse(time.RFC3339, value)], as the second it names. *)
Class Rfc3339 := { ParseRFC3339 : string → option Z }.

(** The payloads, their nested structs flattened. *)
Module TelegramDocument.
Record TelegramDocument := mk {
  FileID : string;
  FileName : string;
  MimeType : string;
  FileSize : Z
}.
Definition zero : TelegramDocument := mk "" "" "" 0%Z.
Definition set_FileID (v : string) (r : TelegramDocument) : TelegramDocument := mk v (FileName r) (MimeType r) (FileSize r).
Definition set_FileName (v : string) (r : TelegramDocument) : TelegramDocument := mk (FileID r) v (MimeType r) (FileSize r).
Definition set_MimeType (v : string) (r : TelegramDocument) : TelegramDocument := mk (FileID r) (FileName r) v (FileSize r).
Definition set_FileSize (v : Z) (r : TelegramDocument) : TelegramDocument := mk (FileID r) (FileName r) (MimeType r) v.
End TelegramDocument.
Abbreviation TelegramDocument := TelegramDocument.TelegramDocument.

Module TelegramPayload.
Record TelegramPayload := mk {
  UpdateID : Z;
  MessageID : Z;
  Date : Z;
  Text : string;
  Caption : string;
  ChatID : Z;
  ChatType : string;
  ChatTitle : string;
  ChatUsername : string;
  FromID : Z;
  FromUsername : string;
  FirstName : string;
  LastName : string;
  Photo : list json;
  Document : option TelegramDocument.TelegramDocument
}.
Definition zero : TelegramPayload := mk 0%Z 0%Z 0%Z "" "" 0%Z "" "" "" 0%Z "" "" "" [] None.
Definition set_UpdateID (v : Z) (r : TelegramPayload) : TelegramPayload := mk v (MessageID r) (Date r) (Text r) (Caption r) (ChatID r) (ChatType r) (ChatTitle r) (ChatUsername r) (FromID r) (FromUsername r) (FirstName r) (LastName r) (Photo r) (Document r).
Definition set_MessageID (v : Z) (r : TelegramPayload) : TelegramPayload := mk (UpdateID r) v (Date r) (Text r) (Caption r) (ChatID r) (ChatType r) (ChatTitle r) (ChatUsername r) (FromID r) (FromUsername r) (FirstName r) (LastName r) (Photo r) (Document r).
Definition set_Date (v : Z) (r : TelegramPayload) : TelegramPayload := mk (UpdateID r) (MessageID r) v (Text r) (Caption r) (ChatID r) (ChatType r) (ChatTitle r) (ChatUsername r) (FromID r) (FromUsername r) (FirstName r) (LastName r) (Photo r) (Document r).
Definition set_Text (v : string) (r : TelegramPayload) : TelegramPayload := mk (UpdateID r) (MessageID r) (Date r) v (Caption r) (ChatID r) (ChatType r) (ChatTitle r) (ChatUsername r) (FromID r) (FromUsername r) (FirstName r) (LastName r) (Photo r) (Document r).
Definition set_Caption (v : string) (r : TelegramPayload) : TelegramPayload := mk (UpdateID r) (MessageID r) (Date r) (Text r) v (ChatID r) (ChatType r) (ChatTitle r) (ChatUsername r) (FromID r) (FromUsername r) (FirstName r) (LastName r) (Photo r) (Document r).
Definition set_ChatID (v : Z) (r : TelegramPayload) : TelegramPayload := mk (UpdateID r) (MessageID r) (Date r) (Text r) (Caption r) v (ChatType r) (ChatTitle r) (ChatUsername r) (FromID r) (FromUsername r) (FirstName r) (LastName r) (Photo r) (Document r).
Definition set_ChatType (v : string) (r : TelegramPayload) : TelegramPayload := mk (UpdateID r) (MessageID r) (Date r) (Text r) (Caption r) (ChatID r) v (ChatTitle r) (ChatUsername r) (FromID r) (FromUsername r) (FirstName r) (LastName r) (Photo r) (Document r).
Definition set_ChatTitle (v : string) (r : TelegramPayload) : TelegramPayload := mk (UpdateID r) (MessageID r) (Date r) (Text r) (Caption r) (ChatID r) (ChatType r) v (ChatUsername r) (FromID r) (FromUsername r) (FirstName r) (LastName r) (Photo r) (Document r).
Definition set_ChatUsername (v : string) (r : TelegramPayload) : TelegramPayload := mk (UpdateID r) (MessageID r) (Date r) (Text r) (Caption r) (ChatID r) (ChatType r) (ChatTitle r) v (FromID r) (FromUsername r) (FirstName r) (LastName r) (Photo r) (Document r).
Definition set_FromID (v : Z) (r : TelegramPayload) : TelegramPayload := mk (UpdateID r) (MessageID r) (Date r) (Text r) (Caption r) (ChatID r) (ChatType r) (ChatTitle r) (ChatUsername r) v (FromUsername r) (FirstName r) (LastName r) (Photo r) (Document r).
Definition set_FromUsername (v : string) (r : TelegramPayload) : TelegramPayload := mk (UpdateID r) (MessageID r) (Date r) (Text r) (Caption r) (ChatID r) (ChatType r) (ChatTitle r) (ChatUsername r) (FromID r) v (FirstName r) (LastName r) (Photo r) (Document r).
Definition set_FirstName (v : string) (r : TelegramPayload) : TelegramPayload := mk (UpdateID r) (MessageID r) (Date r) (Text r) (Caption r) (ChatID r) (ChatType r) (ChatTitle r) (ChatUsername r) (FromID r) (FromUsername r) v (LastName r) (Photo r) (Document r).
Definition set_LastName (v : string) (r : TelegramPayload) : TelegramPayload := mk (UpdateID r) (MessageID r) (Date r) (Text r) (Caption r) (ChatID r) (ChatType r) (ChatTitle r) (ChatUsername r) (FromID r) (FromUsername r) (FirstName r) v (Photo r) (Document r).
Definition set_Photo (v : list json) (r : TelegramPayload) : TelegramPayload := mk (UpdateID r) (MessageID r) (Date r) (Text r) (Caption r) (ChatID r) (ChatType r) (ChatTitle r) (ChatUsername r) (FromID r) (FromUsername r) (FirstName r) (LastName r) v (Document r).
Definition set_Document (v : option TelegramDocument.TelegramDocument) (r : TelegramPayload) : TelegramPayload := mk (UpdateID r) (MessageID r) (Date r) (Text r) (Caption r) (ChatID r) (ChatType r) (ChatTitle r) (ChatUsername r) (FromID r) (FromUsername r) (FirstName r) (LastName r) (Photo r) v.
End TelegramPayload.
Abbreviation TelegramPayload := TelegramPayload.TelegramPayload.

Module QQAttachment.
Record QQAttachment := mk {
  URL : string;
  Filename : string;
  ContentType : string;
  Size : Z
}.
Definition zero : QQAttachment := mk "" "" "" 0%Z.
Definition set_URL (v : string) (r : QQAttachment) : QQAttachment := mk v (Filename r) (ContentType r) (Size r).
Definition set_Filename (v : string) (r : QQAttachment) : QQAttachment := mk (URL r) v (ContentType r) (Size r).
Definition set_ContentType (v : string) (r : QQAttachment) : QQAttachment := mk (URL r) (Filename r) v (Size r).
Definition set_Size (v : Z) (r : QQAttachment) : QQAttachment := mk (URL r) (Filename r) (ContentType r) v.
End QQAttachment.
Abbreviation QQAttachment := QQAttachment.QQAttachment.

Module QQPayload.
Record QQPayload := mk {
  ID : string;
  Content : string;
  AuthorID : string;
  AuthorUsername : string;
  GroupID : string;
  ChannelID : string;
  Timestamp : string;
  Attachments : list QQAttachment.QQAttachment
}.
Definition zero : QQPayload := mk "" "" "" "" "" "" "" [].
Definition set_ID (v : string) (r : QQPayload) : QQPayload := mk v (Content r) (AuthorID r) (AuthorUsername r) (GroupID r) (ChannelID r) (Timestamp r) (Attachments r).
Definition set_Content (v : string) (r : QQPayload) : QQPayload := mk (ID r) v (AuthorID r) (AuthorUsername r) (GroupID r) (ChannelID r) (Timestamp r) (Attachments r).
Definition set_AuthorID (v : string) (r : QQPayload) : QQPayload := mk (ID r) (Content r) v (AuthorUsername r) (GroupID r) (ChannelID r) (Timestamp r) (Attachments r).
Definition set_AuthorUsername (v : string) (r : QQPayload) : QQPayload := mk (ID r) (Content r) (AuthorID r) v (GroupID r) (ChannelID r) (Timestamp r) (Attachments r).
Definition set_GroupID (v : string) (r : QQPayload) : QQPayload := mk (ID r) (Content r) (AuthorID r) (AuthorUsername r) v (ChannelID r) (Timestamp r) (Attachments r).
Definition set_ChannelID (v : string) (r : QQPayload) : QQPayload := mk (ID r) (Content r) (AuthorID r) (AuthorUsername r) (GroupID r) v (Timestamp r) (Attachments r).
Definition set_Timestamp (v : string) (r : QQPayload) : QQPayload := mk (ID r) (Content r) (AuthorID r) (AuthorUsername r) (GroupID r) (ChannelID r) v (Attachments r).
Definition set_Attachments (v : list QQAttachment.QQAttachment) (r : QQPayload) : QQPayload := mk (ID r) (Content r) (AuthorID r) (AuthorUsername r) (GroupID r) (ChannelID r) (Timestamp r) v.
End QQPayload.
Abbreviation QQPayload := QQPayload.QQPayload.

Module FeishuMention.
Record FeishuMention := mk {
  Key : string;
  OpenID : string;
  UnionID : string;
  UserID : string;
  Name : string
}.
Definition zero : FeishuMention := mk "" "" "" "" "".
Definition set_Key (v : string) (r : FeishuMention) : FeishuMention := mk v (OpenID r) (UnionID r) (UserID r) (Name r).
Definition set_OpenID (v : string) (r : FeishuMention) : FeishuMention := mk (Key r) v (UnionID r) (UserID r) (Name r).
Definition set_UnionID (v : string) (r : FeishuMention) : FeishuMention := mk (Key r) (OpenID r) v (UserID r) (Name r).
Definition set_UserID (v : string) (r : FeishuMention) : FeishuMention := mk (Key r) (OpenID r) (UnionID r) v (Name r).
Definition set_Name (v : string) (r : FeishuMention) : FeishuMention := mk (Key r) (OpenID r) (UnionID r) (UserID r) v.
End FeishuMention.
Abbreviation FeishuMention := FeishuMention.FeishuMention.

Module FeishuPayload.
Record FeishuPayload := mk {
  EventID : string;
  OpenID : string;
  UnionID : string;
  UserID : string;
  SenderType : string;
  MessageID : string;
  CreateTime : string;
  RootID : string;
  ChatID : string;
  ChatType : string;
  MessageType : string;
  Content : string;
  Mentions : option (list FeishuMention.FeishuMention);
  Metadata : gmap string string
}.
Definition zero : FeishuPayload := mk "" "" "" "" "" "" "" "" "" "" "" "" None ∅.
Definition set_EventID (v : string) (r : FeishuPayload) : FeishuPayload := mk v (OpenID r) (UnionID r) (UserID r) (SenderType r) (MessageID r) (CreateTime r) (RootID r) (ChatID r) (ChatType r) (MessageType r) (Content r) (Mentions r) (Metadata r).
Definition set_OpenID (v : string) (r : FeishuPayload) : FeishuPayload := mk (EventID r) v (UnionID r) (UserID r) (SenderType r) (MessageID r) (CreateTime r) (RootID r) (ChatID r) (ChatType r) (MessageType r) (Content r) (Mentions r) (Metadata r).
Definition set_UnionID (v : string) (r : FeishuPayload) : FeishuPayload := mk (EventID r) (OpenID r) v (UserID r) (SenderType r) (MessageID r) (CreateTime r) (RootID r) (ChatID r) (ChatType r) (MessageType r) (Content r) (Mentions r) (Metadata r).
Definition set_UserID (v : string) (r : FeishuPayload) : FeishuPayload := mk (EventID r) (OpenID r) (UnionID r) v (SenderType r) (MessageID r) (CreateTime r) (RootID r) (ChatID r) (ChatType r) (MessageType r) (Content r) (Mentions r) (Metadata r).
Definition set_SenderType (v : string) (r : FeishuPayload) : FeishuPayload := mk (EventID r) (OpenID r) (UnionID r) (UserID r) v (MessageID r) (CreateTime r) (RootID r) (ChatID r) (ChatType r) (MessageType r) (Content r) (Mentions r) (Metadata r).
Definition set_MessageID (v : string) (r : FeishuPayload) : FeishuPayload := mk (EventID r) (OpenID r) (UnionID r) (UserID r) (SenderType r) v (CreateTime r) (RootID r) (ChatID r) (ChatType r) (MessageType r) (Content r) (Mentions r) (Metadata r).
Definition set_CreateTime (v : string) (r : FeishuPayload) : FeishuPayload := mk (EventID r) (OpenID r) (UnionID r) (UserID r) (SenderType r) (MessageID r) v (RootID r) (ChatID r) (ChatType r) (MessageType r) (Content r) (Mentions r) (Metadata r).
Definition set_RootID (v : string) (r : FeishuPayload) : FeishuPayload := mk (EventID r) (OpenID r) (UnionID r) (UserID r) (SenderType r) (MessageID r) (CreateTime r) v (ChatID r) (ChatType r) (MessageType r) (Content r) (Mentions r) (Metadata r).
Definition set_ChatID (v : string) (r : FeishuPayload) : FeishuPayload := mk (EventID r) (OpenID r) (UnionID r) (UserID r) (SenderType r) (MessageID r) (CreateTime r) (RootID r) v (ChatType r) (MessageType r) (Content r) (Mentions r) (Metadata r).
Definition set_ChatType (v : string) (r : FeishuPayload) : FeishuPayload := mk (EventID r) (OpenID r) (UnionID r) (UserID r) (SenderType r) (MessageID r) (CreateTime r) (RootID r) (ChatID r) v (MessageType r) (Content r) (Mentions r) (Metadata r).
Definition set_MessageType (v : string) (r : FeishuPayload) : FeishuPayload := mk (EventID r) (OpenID r) (UnionID r) (UserID r) (SenderType r) (MessageID r) (CreateTime r) (RootID r) (ChatID r) (ChatType r) v (Content r) (Mentions r) (Metadata r).
Definition set_Content (v : string) (r : FeishuPayload) : FeishuPayload := mk (EventID r) (OpenID r) (UnionID r) (UserID r) (SenderType r) (MessageID r) (CreateTime r) (RootID r) (ChatID r) (ChatType r) (MessageType r) v (Mentions r) (Metadata r).
Definition set_Mentions (v : option (list FeishuMention.FeishuMention)) (r : FeishuPayload) : FeishuPayload := mk (EventID r) (OpenID r) (UnionID r) (UserID r) (SenderType r) (MessageID r) (CreateTime r) (RootID r) (ChatID r) (ChatType r) (MessageType r) (Content r) v (Metadata r).
Definition set_Metadata (v : gmap string string) (r : FeishuPayload) : FeishuPayload := mk (EventID r) (OpenID r) (UnionID r) (UserID r) (SenderType r) (MessageID r) (CreateTime r) (RootID r) (ChatID r) (ChatType r) (MessageType r) (Content r) (Mentions r) v.
End FeishuPayload.
Abbreviation FeishuPayload := FeishuPayload.FeishuPayload.

Module MediaItem.
Record MediaItem := mk {
  Text : string;
  URL : string;
  MediaID : string;
  Format : string;
  FileName : string;
  Len : string
}.
Definition zero : MediaItem := mk "" "" "" "" "" "".
Definition set_Text (v : string) (r : MediaItem) : MediaItem := mk v (URL r) (MediaID r) (Format r) (FileName r) (Len r).
Definition set_URL (v : string) (r : MediaItem) : MediaItem := mk (Text r) v (MediaID r) (Format r) (FileName r) (Len r).
Definition set_MediaID (v : string) (r : MediaItem) : MediaItem := mk (Text r) (URL r) v (Format r) (FileName r) (Len r).
Definition set_Format (v : string) (r : MediaItem) : MediaItem := mk (Text r) (URL r) (MediaID r) v (FileName r) (Len r).
Definition set_FileName (v : string) (r : MediaItem) : MediaItem := mk (Text r) (URL r) (MediaID r) (Format r) v (Len r).
Definition set_Len (v : string) (r : MediaItem) : MediaItem := mk (Text r) (URL r) (MediaID r) (Format r) (FileName r) v.
End MediaItem.
Abbreviation MediaItem := MediaItem.MediaItem.

Module ChatItem.
Record ChatItem := mk {
  Type_ : Z;
  TextItem : option MediaItem.MediaItem;
  ImageItem : option MediaItem.MediaItem;
  VoiceItem : option MediaItem.MediaItem;
  FileItem : option MediaItem.MediaItem;
  VideoItem : option MediaItem.MediaItem
}.
Definition zero : ChatItem := mk 0%Z None None None None None.
Definition set_Type_ (v : Z) (r : ChatItem) : ChatItem := mk v (TextItem r) (ImageItem r) (VoiceItem r) (FileItem r) (VideoItem r).
Definition set_TextItem (v : option MediaItem.MediaItem) (r : ChatItem) : ChatItem := mk (Type_ r) v (ImageItem r) (VoiceItem r) (FileItem r) (VideoItem r).
Definition set_ImageItem (v : option MediaItem.MediaItem) (r : ChatItem) : ChatItem := mk (Type_ r) (TextItem r) v (VoiceItem r) (FileItem r) (VideoItem r).
Definition set_VoiceItem (v : option MediaItem.MediaItem) (r : ChatItem) : ChatItem := mk (Type_ r) (TextItem r) (ImageItem r) v (FileItem r) (VideoItem r).
Definition set_FileItem (v : option MediaItem.MediaItem) (r : ChatItem) : ChatItem := mk (Type_ r) (TextItem r) (ImageItem r) (VoiceItem r) v (VideoItem r).
Definition set_VideoItem (v : option MediaItem.MediaItem) (r : ChatItem) : ChatItem := mk (Type_ r) (TextItem r) (ImageItem r) (VoiceItem r) (FileItem r) v.
End ChatItem.
Abbreviation ChatItem := ChatItem.ChatItem.

Module WeixinPayload.
Record WeixinPayload := mk {
  Seq : Z;
  MessageID : Z;
  CreateTime : Z;
  CreateTimeMs : Z;
  FromUserID : string;
  SessionID : string;
  GroupID : string;
  ContextToken : string;
  ItemList : list ChatItem.ChatItem;
  OfficialCreateTime : Z
}.
Definition zero : WeixinPayload := mk 0%Z 0%Z 0%Z 0%Z "" "" "" "" [] 0%Z.
Definition set_Seq (v : Z) (r : WeixinPayload) : WeixinPayload := mk v (MessageID r) (CreateTime r) (CreateTimeMs r) (FromUserID r) (SessionID r) (GroupID r) (ContextToken r) (ItemList r) (OfficialCreateTime r).
Definition set_MessageID (v : Z) (r : WeixinPayload) : WeixinPayload := mk (Seq r) v (CreateTime r) (CreateTimeMs r) (FromUserID r) (SessionID r) (GroupID r) (ContextToken r) (ItemList r) (OfficialCreateTime r).
Definition set_CreateTime (v : Z) (r : WeixinPayload) : WeixinPayload := mk (Seq r) (MessageID r) v (CreateTimeMs r) (FromUserID r) (SessionID r) (GroupID r) (ContextToken r) (ItemList r) (OfficialCreateTime r).
Definition set_CreateTimeMs (v : Z) (r : WeixinPayload) : WeixinPayload := mk (Seq r) (MessageID r) (CreateTime r) v (FromUserID r) (SessionID r) (GroupID r) (ContextToken r) (ItemList r) (OfficialCreateTime r).
Definition set_FromUserID (v : string) (r : WeixinPayload) : WeixinPayload := mk (Seq r) (MessageID r) (CreateTime r) (CreateTimeMs r) v (SessionID r) (GroupID r) (ContextToken r) (ItemList r) (OfficialCreateTime r).
Definition set_SessionID (v : string) (r : WeixinPayload) : WeixinPayload := mk (Seq r) (MessageID r) (CreateTime r) (CreateTimeMs r) (FromUserID r) v (GroupID r) (ContextToken r) (ItemList r) (OfficialCreateTime r).
Definition set_GroupID (v : string) (r : WeixinPayload) : WeixinPayload := mk (Seq r) (MessageID r) (CreateTime r) (CreateTimeMs r) (FromUserID r) (SessionID r) v (ContextToken r) (ItemList r) (OfficialCreateTime r).
Definition set_ContextToken (v : string) (r : WeixinPayload) : WeixinPayload := mk (Seq r) (MessageID r) (CreateTime r) (CreateTimeMs r) (FromUserID r) (SessionID r) (GroupID r) v (ItemList r) (OfficialCreateTime r).
Definition set_ItemList (v : list ChatItem.ChatItem) (r : WeixinPayload) : WeixinPayload := mk (Seq r) (MessageID r) (CreateTime r) (CreateTimeMs r) (FromUserID r) (SessionID r) (GroupID r) (ContextToken r) v (OfficialCreateTime r).
Definition set_OfficialCreateTime (v : Z) (r : WeixinPayload) : WeixinPayload := mk (Seq r) (MessageID r) (CreateTime r) (CreateTimeMs r) (FromUserID r) (SessionID r) (GroupID r) (ContextToken r) (ItemList r) v.
End WeixinPayload.
Abbreviation WeixinPayload := WeixinPayload.WeixinPayload.

Module WeComPayload.
Record WeComPayload := mk {
  MessageID : Z;
  CreateTime : Z;
  FromUserID : string;
  SessionID : string;
  ChatID : string;
  ChatType : string;
  ItemList : list ChatItem.ChatItem;
  WeComCreateTime : Z;
  MsgType : string;
  AgentID : Z
}.
Definition zero : WeComPayload := mk 0%Z 0%Z "" "" "" "" [] 0%Z "" 0%Z.
Definition set_MessageID (v : Z) (r : WeComPayload) : WeComPayload := mk v (CreateTime r) (FromUserID r) (SessionID r) (ChatID r) (ChatType r) (ItemList r) (WeComCreateTime r) (MsgType r) (AgentID r).
Definition set_CreateTime (v : Z) (r : WeComPayload) : WeComPayload := mk (MessageID r) v (FromUserID r) (SessionID r) (ChatID r) (ChatType r) (ItemList r) (WeComCreateTime r) (MsgType r) (AgentID r).
Definition set_FromUserID (v : string) (r : WeComPayload) : WeComPayload := mk (MessageID r) (CreateTime r) v (SessionID r) (ChatID r) (ChatType r) (ItemList r) (WeComCreateTime r) (MsgType r) (AgentID r).
Definition set_SessionID (v : string) (r : WeComPayload) : WeComPayload := mk (MessageID r) (CreateTime r) (FromUserID r) v (ChatID r) (ChatType r) (ItemList r) (WeComCreateTime r) (MsgType r) (AgentID r).
Definition set_ChatID (v : string) (r : WeComPayload) : WeComPayload := mk (MessageID r) (CreateTime r) (FromUserID r) (SessionID r) v (ChatType r) (ItemList r) (WeComCreateTime r) (MsgType r) (AgentID r).
Definition set_ChatType (v : string) (r : WeComPayload) : WeComPayload := mk (MessageID r) (CreateTime r) (FromUserID r) (SessionID r) (ChatID r) v (ItemList r) (WeComCreateTime r) (MsgType r) (AgentID r).
Definition set_ItemList (v : list ChatItem.ChatItem) (r : WeComPayload) : WeComPayload := mk (MessageID r) (CreateTime r) (FromUserID r) (SessionID r) (ChatID r) (ChatType r) v (WeComCreateTime r) (MsgType r) (AgentID r).
Definition set_WeComCreateTime (v : Z) (r : WeComPayload) : WeComPayload := mk (MessageID r) (CreateTime r) (FromUserID r) (SessionID r) (ChatID r) (ChatType r) (ItemList r) v (MsgType r) (AgentID r).
Definition set_MsgType (v : string) (r : WeComPayload) : WeComPayload := mk (MessageID r) (CreateTime r) (FromUserID r) (SessionID r) (ChatID r) (ChatType r) (ItemList r) (WeComCreateTime r) v (AgentID r).
Definition set_AgentID (v : Z) (r : WeComPayload) : WeComPayload := mk (MessageID r) (CreateTime r) (FromUserID r) (SessionID r) (ChatID r) (ChatType r) (ItemList r) (WeComCreateTime r) (MsgType r) v.
End WeComPayload.
Abbreviation WeComPayload := WeComPayload.WeComPayload.

Module TerminalPayload.
Record TerminalPayload := mk {
  ID : string;
  MessageID : string;
  SessionID : string;
  OperatorID : string;
  Operator : string;
  OperatorName : string;
  Text : string;
  Target : string;
  ThreadID : string
}.
Definition zero : TerminalPayload := mk "" "" "" "" "" "" "" "" "".
Definition set_ID (v : string) (r : TerminalPayload) : TerminalPayload := mk v (MessageID r) (SessionID r) (OperatorID r) (Operator r) (OperatorName r) (Text r) (Target r) (ThreadID r).
Definition set_MessageID (v : string) (r : TerminalPayload) : TerminalPayload := mk (ID r) v (SessionID r) (OperatorID r) (Operator r) (OperatorName r) (Text r) (Target r) (ThreadID r).
Definition set_SessionID (v : string) (r : TerminalPayload) : TerminalPayload := mk (ID r) (MessageID r) v (OperatorID r) (Operator r) (OperatorName r) (Text r) (Target r) (ThreadID r).
Definition set_OperatorID (v : string) (r : TerminalPayload) : TerminalPayload := mk (ID r) (MessageID r) (SessionID r) v (Operator r) (OperatorName r) (Text r) (Target r) (ThreadID r).
Definition set_Operator (v : string) (r : TerminalPayload) : TerminalPayload := mk (ID r) (MessageID r) (SessionID r) (OperatorID r) v (OperatorName r) (Text r) (Target r) (ThreadID r).
Definition set_OperatorName (v : string) (r : TerminalPayload) : TerminalPayload := mk (ID r) (MessageID r) (SessionID r) (OperatorID r) (Operator r) v (Text r) (Target r) (ThreadID r).
Definition set_Text (v : string) (r : TerminalPayload) : TerminalPayload := mk (ID r) (MessageID r) (SessionID r) (OperatorID r) (Operator r) (OperatorName r) v (Target r) (ThreadID r).
Definition set_Target (v : string) (r : TerminalPayload) : TerminalPayload := mk (ID r) (MessageID r) (SessionID r) (OperatorID r) (Operator r) (OperatorName r) (Text r) v (ThreadID r).
Definition set_ThreadID (v : string) (r : TerminalPayload) : TerminalPayload := mk (ID r) (MessageID r) (SessionID r) (OperatorID r) (Operator r) (OperatorName r) (Text r) (Target r) v.
End TerminalPayload.
Abbreviation TerminalPayload := TerminalPayload.TerminalPayload.

Module ServerChanPayload.
Record ServerChanPayload := mk {
  UpdateID : Z;
  MessageID : Z;
  MessageChatID : Z;
  Text : string;
  Date : Z;
  ChatID : Z;
  ChatType : string;
  FromID : Z;
  FromUsername : string;
  FirstName : string;
  LastName : string
}.
Definition zero : ServerChanPayload := mk 0%Z 0%Z 0%Z "" 0%Z 0%Z "" 0%Z "" "" "".
Definition set_UpdateID (v : Z) (r : ServerChanPayload) : ServerChanPayload := mk v (MessageID r) (MessageChatID r) (Text r) (Date r) (ChatID r) (ChatType r) (FromID r) (FromUsername r) (FirstName r) (LastName r).
Definition set_MessageID (v : Z) (r : ServerChanPayload) : ServerChanPayload := mk (UpdateID r) v (MessageChatID r) (Text r) (Date r) (ChatID r) (ChatType r) (FromID r) (FromUsername r) (FirstName r) (LastName r).
Definition set_MessageChatID (v : Z) (r : ServerChanPayload) : ServerChanPayload := mk (UpdateID r) (MessageID r) v (Text r) (Date r) (ChatID r) (ChatType r) (FromID r) (FromUsername r) (FirstName r) (LastName r).
Definition set_Text (v : string) (r : ServerChanPayload) : ServerChanPayload := mk (UpdateID r) (MessageID r) (MessageChatID r) v (Date r) (ChatID r) (ChatType r) (FromID r) (FromUsername r) (FirstName r) (LastName r).
Definition set_Date (v : Z) (r : ServerChanPayload) : ServerChanPayload := mk (UpdateID r) (MessageID r) (MessageChatID r) (Text r) v (ChatID r) (ChatType r) (FromID r) (FromUsername r) (FirstName r) (LastName r).
Definition set_ChatID (v : Z) (r : ServerChanPayload) : ServerChanPayload := mk (UpdateID r) (MessageID r) (MessageChatID r) (Text r) (Date r) v (ChatType r) (FromID r) (FromUsername r) (FirstName r) (LastName r).
Definition set_ChatType (v : string) (r : ServerChanPayload) : ServerChanPayload := mk (UpdateID r) (MessageID r) (MessageChatID r) (Text r) (Date r) (ChatID r) v (FromID r) (FromUsername r) (FirstName r) (LastName r).
Definition set_FromID (v : Z) (r : ServerChanPayload) : ServerChanPayload := mk (UpdateID r) (MessageID r) (MessageChatID r) (Text r) (Date r) (ChatID r) (ChatType r) v (FromUsername r) (FirstName r) (LastName r).
Definition set_FromUsername (v : string) (r : ServerChanPayload) : ServerChanPayload := mk (UpdateID r) (MessageID r) (MessageChatID r) (Text r) (Date r) (ChatID r) (ChatType r) (FromID r) v (FirstName r) (LastName r).
Definition set_FirstName (v : string) (r : ServerChanPayload) : ServerChanPayload := mk (UpdateID r) (MessageID r) (MessageChatID r) (Text r) (Date r) (ChatID r) (ChatType r) (FromID r) (FromUsername r) v (LastName r).
Definition set_LastName (v : string) (r : ServerChanPayload) : ServerChanPayload := mk (UpdateID r) (MessageID r) (MessageChatID r) (Text r) (Date r) (ChatID r) (ChatType r) (FromID r) (FromUsername r) (FirstName r) v.
End ServerChanPayload.
Abbreviation ServerChanPayload := ServerChanPayload.ServerChanPayload.

Module TgD := TelegramDocument.
Module Tg := TelegramPayload.
Module QqA := QQAttachment.
Module Qq := QQPayload.
Module FsM := FeishuMention.
Module Fs := FeishuPayload.
Module Mi := MediaItem.
Module Ci := ChatItem.
Module Wx := WeixinPayload.
Module Wc := WeComPayload.
Module Te := TerminalPayload.
Module Sc := ServerChanPayload.

(** ** Decoding *)

(** A slice that is [None] when nil. *)
Definition dec_nilable {A} (zero : A) (d : decoder A) : decoder (option (list A)) := λ v a,
  match v with
  | JNull => (None, true)
  | JArr _ => let (l, ok) := dec_slice zero d v (from_opt [] a) in (Some l, ok)
  | _ => (a, false)
  end.

Section decoding.
Context {Fl : Floats}.

(** A [map[string]any] whose value is kept as an object, [JNull] when nil. *)
Definition dec_object : decoder json := λ v a,
  match v with
  | JObj members => (JObj (match a with JObj old => old ++ members | _ => members end), numbers_ok v)
  | JNull => (JNull, true)
  | _ => (a, false)
  end.

Definition document_fields : list (field TelegramDocument) :=
  [("file_id", into TgD.FileID TgD.set_FileID dec_string);
   ("file_name", into TgD.FileName TgD.set_FileName dec_string);
   ("mime_type", into TgD.MimeType TgD.set_MimeType dec_string);
   ("file_size", into TgD.FileSize TgD.set_FileSize dec_int64)].

Definition telegram_fields : list (field TelegramPayload) :=
  [("update_id", into Tg.UpdateID Tg.set_UpdateID dec_int64);
   ("Message", dec_struct [("message_id", into Tg.MessageID Tg.set_MessageID dec_int64);
   ("date", into Tg.Date Tg.set_Date dec_int64); ("Text", into Tg.Text Tg.set_Text dec_string);
   ("Caption", into Tg.Caption Tg.set_Caption dec_string);
   ("Chat", dec_struct [("ID", into Tg.ChatID Tg.set_ChatID dec_int64);
   ("Type", into Tg.ChatType Tg.set_ChatType dec_string);
   ("Title", into Tg.ChatTitle Tg.set_ChatTitle dec_string);
   ("Username", into Tg.ChatUsername Tg.set_ChatUsername dec_string)]);
   ("From", dec_struct [("ID", into Tg.FromID Tg.set_FromID dec_int64);
   ("Username", into Tg.FromUsername Tg.set_FromUsername dec_string);
   ("first_name", into Tg.FirstName Tg.set_FirstName dec_string);
   ("last_name", into Tg.LastName Tg.set_LastName dec_string)]);
   ("Photo", into Tg.Photo Tg.set_Photo (dec_slice JNull dec_object));
   ("Document", into Tg.Document Tg.set_Document (dec_pointer TgD.zero (dec_struct document_fields)))])].

Definition qq_attachment_fields : list (field QQAttachment) :=
  [("url", into QqA.URL QqA.set_URL dec_string); ("filename", into QqA.Filename QqA.set_Filename dec_string);
   ("content_type", into QqA.ContentType QqA.set_ContentType dec_string);
   ("size", into QqA.Size QqA.set_Size dec_int64)].

Definition qq_fields : list (field QQPayload) :=
  [("id", into Qq.ID Qq.set_ID dec_string); ("content", into Qq.Content Qq.set_Content dec_string);
   ("author", dec_struct [("id", into Qq.AuthorID Qq.set_AuthorID dec_string);
   ("username", into Qq.AuthorUsername Qq.set_AuthorUsername dec_string)]);
   ("group_id", into Qq.GroupID Qq.set_GroupID dec_string);
   ("channel_id", into Qq.ChannelID Qq.set_ChannelID dec_string);
   ("timestamp", into Qq.Timestamp Qq.set_Timestamp dec_string);
   ("attachments", into Qq.Attachments Qq.set_Attachments (dec_slice QqA.zero (dec_struct qq_attachment_fields)))].

Definition mention_fields : list (field FeishuMention) :=
  [("key", into FsM.Key FsM.set_Key dec_string);
   ("id", dec_struct [("open_id", into FsM.OpenID FsM.set_OpenID dec_string);
   ("union_id", into FsM.UnionID FsM.set_UnionID dec_string);
   ("user_id", into FsM.UserID FsM.set_UserID dec_string)]);
   ("name", into FsM.Name FsM.set_Name dec_string)].

Definition feishu_fields : list (field FeishuPayload) :=
  [("header", dec_struct [("event_id", into Fs.EventID Fs.set_EventID dec_string)]);
   ("event", dec_struct [("sender", dec_struct [("sender_id", dec_struct [("open_id", into Fs.OpenID Fs.set_OpenID dec_string);
   ("union_id", into Fs.UnionID Fs.set_UnionID dec_string);
   ("user_id", into Fs.UserID Fs.set_UserID dec_string)]);
   ("sender_type", into Fs.SenderType Fs.set_SenderType dec_string)]);
   ("message", dec_struct [("message_id", into Fs.MessageID Fs.set_MessageID dec_string);
   ("create_time", into Fs.CreateTime Fs.set_CreateTime dec_string);
   ("root_id", into Fs.RootID Fs.set_RootID dec_string);
   ("chat_id", into Fs.ChatID Fs.set_ChatID dec_string);
   ("chat_type", into Fs.ChatType Fs.set_ChatType dec_string);
   ("message_type", into Fs.MessageType Fs.set_MessageType dec_string);
   ("content", into Fs.Content Fs.set_Content dec_string);
   ("mentions", into Fs.Mentions Fs.set_Mentions (dec_nilable FsM.zero (dec_struct mention_fields)));
   ("metadata", into Fs.Metadata Fs.set_Metadata (dec_map "" dec_string))])])].

Definition weixin_item_fields : list (field ChatItem) :=
  [("type", into Ci.Type_ Ci.set_Type_ dec_int64);
   ("text_item", into Ci.TextItem Ci.set_TextItem (dec_pointer Mi.zero (dec_struct [("text", into Mi.Text Mi.set_Text dec_string)])));
   ("image_item", into Ci.ImageItem Ci.set_ImageItem (dec_pointer Mi.zero (dec_struct [("url", into Mi.URL Mi.set_URL dec_string);
   ("media_id", into Mi.MediaID Mi.set_MediaID dec_string)])));
   ("voice_item", into Ci.VoiceItem Ci.set_VoiceItem (dec_pointer Mi.zero (dec_struct [("text", into Mi.Text Mi.set_Text dec_string);
   ("media_id", into Mi.MediaID Mi.set_MediaID dec_string);
   ("format", into Mi.Format Mi.set_Format dec_string)])));
   ("file_item", into Ci.FileItem Ci.set_FileItem (dec_pointer Mi.zero (dec_struct [("file_name", into Mi.FileName Mi.set_FileName dec_string);
   ("len", into Mi.Len Mi.set_Len dec_string); ("media_id", into Mi.MediaID Mi.set_MediaID dec_string)])));
   ("video_item", into Ci.VideoItem Ci.set_VideoItem (dec_pointer Mi.zero (dec_struct [("media_id", into Mi.MediaID Mi.set_MediaID dec_string)])))].

Definition wecom_item_fields : list (field ChatItem) :=
  [("type", into Ci.Type_ Ci.set_Type_ dec_int64);
   ("text_item", into Ci.TextItem Ci.set_TextItem (dec_pointer Mi.zero (dec_struct [("text", into Mi.Text Mi.set_Text dec_string)])));
   ("image_item", into Ci.ImageItem Ci.set_ImageItem (dec_pointer Mi.zero (dec_struct [("url", into Mi.URL Mi.set_URL dec_string);
   ("media_id", into Mi.MediaID Mi.set_MediaID dec_string)])));
   ("voice_item", into Ci.VoiceItem Ci.set_VoiceItem (dec_pointer Mi.zero (dec_struct [("text", into Mi.Text Mi.set_Text dec_string);
   ("media_id", into Mi.MediaID Mi.set_MediaID dec_string);
   ("format", into Mi.Format Mi.set_Format dec_string)])));
   ("file_item", into Ci.FileItem Ci.set_FileItem (dec_pointer Mi.zero (dec_struct [("file_name", into Mi.FileName Mi.set_FileName dec_string);
   ("media_id", into Mi.MediaID Mi.set_MediaID dec_string)])));
   ("video_item", into Ci.VideoItem Ci.set_VideoItem (dec_pointer Mi.zero (dec_struct [("media_id", into Mi.MediaID Mi.set_MediaID dec_string)])))].

Definition weixin_fields : list (field WeixinPayload) :=
  [("seq", into Wx.Seq Wx.set_Seq dec_int64); ("message_id", into Wx.MessageID Wx.set_MessageID dec_int64);
   ("create_time", into Wx.CreateTime Wx.set_CreateTime dec_int64);
   ("create_time_ms", into Wx.CreateTimeMs Wx.set_CreateTimeMs dec_int64);
   ("from_user_id", into Wx.FromUserID Wx.set_FromUserID dec_string);
   ("session_id", into Wx.SessionID Wx.set_SessionID dec_string);
   ("group_id", into Wx.GroupID Wx.set_GroupID dec_string);
   ("context_token", into Wx.ContextToken Wx.set_ContextToken dec_string);
   ("item_list", into Wx.ItemList Wx.set_ItemList (dec_slice Ci.zero (dec_struct weixin_item_fields)));
   ("official_account", dec_struct [("create_time", into Wx.OfficialCreateTime Wx.set_OfficialCreateTime dec_int64)])].

Definition wecom_fields : list (field WeComPayload) :=
  [("message_id", into Wc.MessageID Wc.set_MessageID dec_int64);
   ("create_time", into Wc.CreateTime Wc.set_CreateTime dec_int64);
   ("from_user_id", into Wc.FromUserID Wc.set_FromUserID dec_string);
   ("session_id", into Wc.SessionID Wc.set_SessionID dec_string);
   ("chat_id", into Wc.ChatID Wc.set_ChatID dec_string);
   ("chat_type", into Wc.ChatType Wc.set_ChatType dec_string);
   ("item_list", into Wc.ItemList Wc.set_ItemList (dec_slice Ci.zero (dec_struct wecom_item_fields)));
   ("wecom", dec_struct [("create_time", into Wc.WeComCreateTime Wc.set_WeComCreateTime dec_int64);
   ("msg_type", into Wc.MsgType Wc.set_MsgType dec_string);
   ("agent_id", into Wc.AgentID Wc.set_AgentID dec_int64)])].

Definition terminal_fields : list (field TerminalPayload) :=
  [("id", into Te.ID Te.set_ID dec_string); ("message_id", into Te.MessageID Te.set_MessageID dec_string);
   ("session_id", into Te.SessionID Te.set_SessionID dec_string);
   ("operator_id", into Te.OperatorID Te.set_OperatorID dec_string);
   ("operator", into Te.Operator Te.set_Operator dec_string);
   ("operator_name", into Te.OperatorName Te.set_OperatorName dec_string);
   ("text", into Te.Text Te.set_Text dec_string); ("target", into Te.Target Te.set_Target dec_string);
   ("thread_id", into Te.ThreadID Te.set_ThreadID dec_string)].

Definition serverchan_fields : list (field ServerChanPayload) :=
  [("update_id", into Sc.UpdateID Sc.set_UpdateID dec_int64);
   ("message", dec_struct [("message_id", into Sc.MessageID Sc.set_MessageID dec_int64);
   ("chat_id", into Sc.MessageChatID Sc.set_MessageChatID dec_int64);
   ("text", into Sc.Text Sc.set_Text dec_string); ("date", into Sc.Date Sc.set_Date dec_int64);
   ("chat", dec_struct [("id", into Sc.ChatID Sc.set_ChatID dec_int64);
   ("type", into Sc.ChatType Sc.set_ChatType dec_string)]);
   ("from", dec_struct [("id", into Sc.FromID Sc.set_FromID dec_int64);
   ("username", into Sc.FromUsername Sc.set_FromUsername dec_string);
   ("first_name", into Sc.FirstName Sc.set_FirstName dec_string);
   ("last_name", into Sc.LastName Sc.set_LastName dec_string)])])].

End decoding.

(** ** Small readings *)

Definition formatInt (value : Z) : string := if (value =? 0)%Z then "" else FormatInt value.

Definition unixFromRFC3339 `{!Rfc3339} (value : string) : Z :=
  let value := TrimSpace value in
  if value =s "" then 0%Z else from_opt 0%Z (ParseRFC3339 value).

Definition unixFromMillisString (value : string) : Z :=
  let value := TrimSpace value in
  if value =s "" then 0%Z
  else match ParseInt value with
  | None => 0%Z
  | Some parsed => if (parsed <=? 0)%Z then 0%Z else (parsed / 1000)%Z
  end.

Definition unixFromMaybeMillis (value : string) : Z :=
  let value := TrimSpace value in
  if value =s "" then 0%Z
  else match ParseInt value with
  | None => 0%Z
  | Some parsed =>
      if (parsed <=? 0)%Z then 0%Z else if (9999999999 <? parsed)%Z then (parsed / 1000)%Z else parsed
  end.

(** The calls of [cleanMetadata] pass strings only. *)
Definition cleanMetadata (values : list (string * string)) : gmap string wire :=
  list_to_map (omap (λ p, if TrimSpace p.2 =s "" then None else Some (p.1, WStr (TrimSpace p.2))) values).

(** *** Mentions of Feishu *)

Definition remove_keys (text : string) (mentions : list FeishuMention) : string :=
  foldl (λ text mention, if FsM.Key mention <>s "" then ReplaceAll text (FsM.Key mention) "" else text)
    text mentions.

Fixpoint drop_digits (s : string) : string :=
  match s with
  | String c s' => if between 48 57 c then drop_digits s' else s
  | EmptyString => EmptyString
  end.

Definition user_key : string := "@_user_".

(** The loop of [StripFeishuMentions]; every round shortens the text, so its length is
    fuel enough. *)
Fixpoint strip_user_keys (fuel : nat) (text : string) : string :=
  match fuel with
  | 0 => text
  | S fuel =>
      match Index text user_key with
      | None => text
      | Some start =>
          strip_user_keys fuel
            (stake start text +:+ drop_digits (sdrop (start + String.length user_key) text))
      end
  end.

Definition StripFeishuMentions (text : string) (mentions : list FeishuMention) : string :=
  let text := remove_keys text mentions in
  TrimSpace (strip_user_keys (String.length text) text).

Section normalize.
Context {Uni : Unicode} {Fl : Floats} {Rfc : Rfc3339}.

Definition placeholderForType (messageType : string) : string :=
  let type := ToLower (TrimSpace messageType) in
  if type =s "" then "[message]" else "[" +:+ type +:+ "]".

(** [content[key].(string)], the empty string when it is not one. *)
Definition string_of (content : gmap string json) (key : string) : string :=
  match content !! key with Some (JStr s) => s | _ => "" end.

Definition feishuContentText (messageType raw : string) : string :=
  let raw := TrimSpace raw in
  if raw =s "" then placeholderForType messageType
  else match decode_any_map raw with
  | None => raw
  | Some content =>
      let content := from_opt ∅ content in
      if string_of content "text" <>s "" then string_of content "text"
      else match List.find (λ key, string_of content key <>s "") ["file_name"; "name"; "image_key"; "file_key"] with
      | Some key => placeholderForType messageType +:+ ": " +:+ string_of content key
      | None => placeholderForType messageType
      end
  end.

Definition mapFeishuContentType (messageType text : string) : string :=
  let type := ToLower (TrimSpace messageType) in
  let media (t : string) := if text <>s "" then ContentTypeUnknown else t in
  if (type =s "text") || (type =s "post") then ContentTypeText
  else if type =s "image" then media ContentTypeImage
  else if type =s "file" then media ContentTypeFile
  else if type =s "audio" then media ContentTypeAudio
  else if (type =s "media") || (type =s "video") then media ContentTypeVideo
  else if type =s "sticker" then media ContentTypeSticker
  else if type =s "location" then ContentTypeLocation
  else ContentTypeUnknown.

(** ** The providers

    [now] is the clock of the normaliser, which is also the one messages without a time
    fall back to. *)

Inductive normalize_error :=
| UnsupportedIMProvider (provider : string)
| BadPayload
| InvalidMessage (problems : list problem).

Definition baseMessage (now : Z) (event : RawEvent) (provider : string) : Message :=
  Ms.mk (TrimSpace (Ev.EndpointID event)) "im" provider (TrimSpace (Ev.ExternalMessageID event))
    (if (Ev.ReceivedUnix event =? 0)%Z then now else Ev.ReceivedUnix event) Cv.zero Sn.zero [] []
    {["provider" := WStr provider]}.

Definition normalizeAndValidate (now : Z) (msg : Message) : normalize_error + Message :=
  let msg := Normalize now msg in
  match Validate now msg with [] => inr msg | problems => inl (InvalidMessage problems) end.

(** The identifier and the time of the payload are only used when the event has none, and
    when the payload has one. *)
Definition default_id (id : string) (msg : Message) : Message :=
  if Ms.ExternalMessageID msg =s "" then Ms.set_ExternalMessageID id msg else msg.
Definition prefer_time (ts : Z) (msg : Message) : Message :=
  if (0 <? ts)%Z then Ms.set_ReceivedUnix ts msg else msg.

(** [json.Unmarshal] of the body, and the rest of the handler. *)
Definition with_payload {A} (fields : list (field A)) (zero : A) (event : RawEvent)
    (k : A → normalize_error + Message) : normalize_error + Message :=
  let (payload, ok) := Unmarshal (dec_struct fields) (Ev.Body event) zero in
  if ok then k payload else inl BadPayload.

Definition text_block (text : string) : ContentBlock := Cb.set_Type_ ContentTypeText (Cb.set_Text text Cb.zero).
Definition unknown_block (text : string) (metadata : gmap string wire) : ContentBlock :=
  Cb.set_Type_ ContentTypeUnknown (Cb.set_Text text (Cb.set_Metadata metadata Cb.zero)).

(** A sender with first and last name; the user name stands in for a blank display name. *)
Definition named_sender (id first_name last_name username : string) : Sender :=
  let display := TrimSpace (first_name +:+ " " +:+ last_name) in
  Sn.mk id [] (if display =s "" then username else display) username "human".

Definition group_chat (type : string) : bool := (type =s "group") || (type =s "supergroup").

Definition normalizeTelegram (now : Z) (event : RawEvent) : normalize_error + Message :=
  with_payload telegram_fields Tg.zero event (λ payload,
    let msg := baseMessage now event ProviderTelegram in
    let msg := default_id (firstNonEmpty [formatInt (Tg.MessageID payload); formatInt (Tg.UpdateID payload)]) msg in
    let msg := prefer_time (Tg.Date payload) msg in
    let msg := Ms.set_Conversation
      (Cv.set_ExternalID (formatInt (Tg.ChatID payload))
        (Cv.set_DisplayName (firstNonEmpty [Tg.ChatTitle payload; Tg.ChatUsername payload])
          (Cv.set_IsGroup (group_chat (Tg.ChatType payload)) Cv.zero))) msg in
    let msg := Ms.set_Sender (named_sender (formatInt (Tg.FromID payload)) (Tg.FirstName payload)
      (Tg.LastName payload) (Tg.FromUsername payload)) msg in
    let text := firstNonEmpty [Tg.Text payload; Tg.Caption payload] in
    let msg := Ms.set_Content
      ((if text <>s "" then [text_block text] else []) ++
       match last (Tg.Photo payload) with
       | Some photo => [unknown_block "[image]" {["telegram_photo" := WJson photo]}]
       | None => []
       end ++
       match Tg.Document payload with
       | Some doc =>
           [Cb.set_Filename (TgD.FileName doc) (Cb.set_MimeType (TgD.MimeType doc) (Cb.set_SizeBytes (TgD.FileSize doc)
             (unknown_block ("[file: " +:+ firstNonEmpty [TgD.FileName doc; TgD.FileID doc] +:+ "]")
               {["telegram_file_id" := WStr (TgD.FileID doc)]})))]
       | None => []
       end) msg in
    normalizeAndValidate now msg).

Definition qq_block (attachment : QQAttachment) : ContentBlock :=
  let type := QqA.ContentType attachment in
  let blockType :=
    if HasPrefix type "image/" then ContentTypeImage
    else if HasPrefix type "video/" then ContentTypeVideo
    else if HasPrefix type "audio/" then ContentTypeAudio
    else ContentTypeFile in
  Cb.mk blockType "" "" (QqA.URL attachment) (QqA.Filename attachment) type (QqA.Size attachment) ∅.

Definition normalizeQQ (now : Z) (event : RawEvent) : normalize_error + Message :=
  with_payload qq_fields Qq.zero event (λ payload,
    let msg := baseMessage now event ProviderQQ in
    let msg := default_id (Qq.ID payload) msg in
    let msg := prefer_time (unixFromRFC3339 (Qq.Timestamp payload)) msg in
    let chatID := firstNonEmpty [Qq.GroupID payload; Qq.ChannelID payload; Qq.AuthorID payload] in
    let msg := Ms.set_Conversation
      (Cv.set_ExternalID chatID (Cv.set_IsGroup (Qq.GroupID payload <>s "") Cv.zero)) msg in
    let msg := Ms.set_Sender (Sn.mk (Qq.AuthorID payload) [] (Qq.AuthorUsername payload) "" "human") msg in
    let msg := Ms.set_Content
      ((if TrimSpace (Qq.Content payload) <>s "" then [text_block (Qq.Content payload)] else []) ++
       map qq_block (Qq.Attachments payload)) msg in
    normalizeAndValidate now msg).

Definition mention_wire (m : FeishuMention) : wire :=
  WStruct [("key", WStr (FsM.Key m));
    ("id", WStruct [("open_id", WStr (FsM.OpenID m)); ("union_id", WStr (FsM.UnionID m)); ("user_id", WStr (FsM.UserID m))]);
    ("name", WStr (FsM.Name m))].

Definition normalizeFeishu (now : Z) (event : RawEvent) : normalize_error + Message :=
  with_payload feishu_fields Fs.zero event (λ payload,
    let msg := baseMessage now event ProviderFeishu in
    let msg := default_id (firstNonEmpty [Fs.MessageID payload; Fs.EventID payload]) msg in
    let msg := prefer_time (unixFromMillisString (Fs.CreateTime payload)) msg in
    let group := Fs.ChatType payload =s "group" in
    let text := feishuContentText (Fs.MessageType payload) (Fs.Content payload) in
    let text := if group then StripFeishuMentions text (from_opt [] (Fs.Mentions payload)) else text in
    let msg := Ms.set_Conversation
      (Cv.set_ExternalID (Fs.ChatID payload) (Cv.set_IsGroup group
        (Cv.set_ExternalThreadID (Fs.RootID payload) (Cv.set_RootMessageID (Fs.RootID payload) Cv.zero)))) msg in
    let ids := [Fs.UnionID payload; Fs.OpenID payload; Fs.UserID payload] in
    let msg := Ms.set_Sender
      (Sn.mk (firstNonEmpty ids) ids "" "" (firstNonEmpty [Fs.SenderType payload; "human"])) msg in
    let msg := Ms.set_Content
      [Cb.set_Type_ (mapFeishuContentType (Fs.MessageType payload) text) (Cb.set_Text text Cb.zero)] msg in
    let metadata := <["mentions" :=
      match Fs.Mentions payload with Some l => WList (map mention_wire l) | None => WJson JNull end]> (Ms.Metadata msg) in
    let msg := Ms.set_Metadata (<["message_type" := WStr (Fs.MessageType payload)]> metadata) msg in
    normalizeAndValidate now msg).

(** The body of the loops of [normalizeWeixin] and [normalizeWeCom] over the items. *)
Definition item_block (item : ChatItem) : list ContentBlock :=
  match Ci.TextItem item, Ci.ImageItem item, Ci.VoiceItem item, Ci.FileItem item, Ci.VideoItem item with
  | text, image, voice, file, video =>
      if match text with Some t => TrimSpace (Mi.Text t) <>s "" | None => false end
      then match text with Some t => [text_block (Mi.Text t)] | None => [] end
      else match image, voice, file, video with
      | Some i, _, _, _ =>
          [Cb.mk (if TrimSpace (Mi.URL i) =s "" then ContentTypeUnknown else ContentTypeImage) "[image]" ""
            (Mi.URL i) "" "" 0 (cleanMetadata [("media_id", Mi.MediaID i)])]
      | None, Some v, _, _ =>
          [unknown_block (firstNonEmpty [Mi.Text v; "[voice]"])
            (cleanMetadata [("media_id", Mi.MediaID v); ("format", Mi.Format v)])]
      | None, None, Some f, _ =>
          [Cb.set_Filename (Mi.FileName f) (unknown_block ("[file: " +:+ Mi.FileName f +:+ "]")
            (cleanMetadata [("media_id", Mi.MediaID f); ("len", Mi.Len f)]))]
      | None, None, None, Some v => [unknown_block "[video]" (cleanMetadata [("media_id", Mi.MediaID v)])]
      | None, None, None, None => []
      end
  end.

Definition normalizeWeixin (now : Z) (event : RawEvent) : normalize_error + Message :=
  with_payload weixin_fields Wx.zero event (λ payload,
    let msg := baseMessage now event ProviderWeixin in
    let msg := default_id (firstNonEmpty [formatInt (Wx.MessageID payload); formatInt (Wx.Seq payload)]) msg in
    let msg := prefer_time (unixFromMaybeMillis (firstNonEmpty [formatInt (Wx.CreateTimeMs payload);
      formatInt (Wx.CreateTime payload); formatInt (Wx.OfficialCreateTime payload)])) msg in
    let chatID := firstNonEmpty [Wx.GroupID payload; Wx.SessionID payload; Wx.FromUserID payload] in
    let msg := Ms.set_Conversation
      (Cv.set_ExternalID chatID (Cv.set_IsGroup (Wx.GroupID payload <>s "") Cv.zero)) msg in
    let msg := Ms.set_Sender (Sn.mk (Wx.FromUserID payload) [] "" "" "human") msg in
    let msg := Ms.set_Content (flat_map item_block (Wx.ItemList payload)) msg in
    let msg := Ms.set_Metadata (<["context_token" := WStr (Wx.ContextToken payload)]> (Ms.Metadata msg)) msg in
    normalizeAndValidate now msg).

Definition normalizeWeCom (now : Z) (event : RawEvent) : normalize_error + Message :=
  with_payload wecom_fields Wc.zero event (λ payload,
    let msg := baseMessage now event ProviderWeCom in
    let msg := default_id (formatInt (Wc.MessageID payload)) msg in
    let msg := prefer_time (unixFromMaybeMillis
      (firstNonEmpty [formatInt (Wc.CreateTime payload); formatInt (Wc.WeComCreateTime payload)])) msg in
    let chatID := firstNonEmpty [Wc.ChatID payload; Wc.SessionID payload; Wc.FromUserID payload] in
    let msg := Ms.set_Conversation
      (Cv.set_ExternalID chatID (Cv.set_IsGroup (Wc.ChatType payload =s "group") Cv.zero)) msg in
    let msg := Ms.set_Sender (Sn.mk (Wc.FromUserID payload) [] "" "" "human") msg in
    let msg := Ms.set_Content (flat_map item_block (Wc.ItemList payload)) msg in
    let metadata := <["message_type" := WStr (Wc.MsgType payload)]> (Ms.Metadata msg) in
    let msg := Ms.set_Metadata (<["agent_id" := WInt (Wc.AgentID payload)]> metadata) msg in
    normalizeAndValidate now msg).

Definition normalizeTerminal (now : Z) (event : RawEvent) : normalize_error + Message :=
  with_payload terminal_fields Te.zero event (λ payload,
    let msg := baseMessage now event ProviderTerminal in
    let msg := default_id (firstNonEmpty [Te.MessageID payload; Te.ID payload]) msg in
    let msg := Ms.set_Conversation
      (Cv.set_ExternalID (firstNonEmpty [Te.SessionID payload; "local"])
        (Cv.set_TargetHint (Te.Target payload) (Cv.set_ThreadID (Te.ThreadID payload) Cv.zero))) msg in
    let msg := Ms.set_Sender
      (Sn.mk (firstNonEmpty [Te.OperatorID payload; Te.Operator payload; "terminal"]) []
        (firstNonEmpty [Te.OperatorName payload; Te.Operator payload]) "" "human") msg in
    let msg := Ms.set_Content [text_block (Te.Text payload)] msg in
    normalizeAndValidate now msg).

Definition normalizeServerChan (now : Z) (event : RawEvent) : normalize_error + Message :=
  with_payload serverchan_fields Sc.zero event (λ payload,
    let msg := baseMessage now event ProviderServerChan in
    let msg := default_id (firstNonEmpty [formatInt (Sc.MessageID payload); formatInt (Sc.UpdateID payload)]) msg in
    let msg := prefer_time (Sc.Date payload) msg in
    let chatID := if (Sc.ChatID payload =? 0)%Z then Sc.MessageChatID payload else Sc.ChatID payload in
    let userID := if (Sc.FromID payload =? 0)%Z then chatID else Sc.FromID payload in
    let msg := Ms.set_Conversation
      (Cv.set_ExternalID (formatInt chatID) (Cv.set_IsGroup (group_chat (Sc.ChatType payload)) Cv.zero)) msg in
    let msg := Ms.set_Sender (named_sender (formatInt userID) (Sc.FirstName payload) (Sc.LastName payload)
      (Sc.FromUsername payload)) msg in
    let msg := Ms.set_Content [text_block (Sc.Text payload)] msg in
    normalizeAndValidate now msg).

Definition NormalizeInbound (now : Z) (event : RawEvent) : normalize_error + Message :=
  let provider := CanonicalProvider (firstNonEmpty [Ev.Provider event; Ev.EndpointKind event]) in
  if provider =s ProviderTelegram then normalizeTelegram now event
  else if provider =s ProviderQQ then normalizeQQ now event
  else if provider =s ProviderFeishu then normalizeFeishu now event
  else if provider =s ProviderWeixin then normalizeWeixin now event
  else if provider =s ProviderWeCom then normalizeWeCom now event
  else if provider =s ProviderTerminal then normalizeTerminal now event
  else if provider =s ProviderServerChan then normalizeServerChan now event
  else inl (UnsupportedIMProvider (Ev.Provider event)).

End normalize.

(** ** Every message that comes out is valid *)

#[local] Arguments TrimSpace : simpl never.

Definition known_provider (p : string) : Prop :=
  p ∈ [ProviderTelegram; ProviderQQ; ProviderFeishu; ProviderWeixin; ProviderWeCom; ProviderTerminal; ProviderServerChan].

(** What the event itself determines of its message. *)
Record of_event (event : RawEvent) (provider : string) (m : Message) : Prop := {
  of_endpoint : Ms.EndpointID m = TrimSpace (Ev.EndpointID event);
  of_kind : Ms.EndpointKind m = "im";
  of_provider : Ms.Provider m = provider;
  of_id : TrimSpace (Ev.ExternalMessageID event) ≠ "" → Ms.ExternalMessageID m = TrimSpace (Ev.ExternalMessageID event)
}.

Lemma default_id_of event p id now :
  of_event event p (default_id id (baseMessage now event p)).
Proof.
  unfold default_id. cbn. destruct (_ =s "") eqn:E; constructor; cbn; try done. by apply eqb_eq_str in E as ->.
Qed.

Lemma of_event_Normalize event p now m :
  trimmed p → of_event event p m → of_event event p (Normalize now m).
Proof.
  intros Hp [He Hk Hpr Hid]. destruct m as [e k q x recv cv sn ct att meta]. cbn in *. subst.
  unfold Normalize. cbn. destruct (recv =? 0)%Z; constructor; cbn; try done; try apply TrimSpace_idemp.
  all: intros H; by rewrite (Hid H), TrimSpace_idemp.
Qed.

Lemma of_event_same event p m n :
  Ms.EndpointID n = Ms.EndpointID m → Ms.EndpointKind n = Ms.EndpointKind m → Ms.Provider n = Ms.Provider m →
  Ms.ExternalMessageID n = Ms.ExternalMessageID m → of_event event p m → of_event event p n.
Proof. intros E1 E2 E3 E4 [? ? ? Hid]. constructor; [congruence..|]. intros H. by rewrite E4, Hid. Qed.

Lemma of_event_time event p ts m : of_event event p m → of_event event p (prefer_time ts m).
Proof. intros H. unfold prefer_time. destruct (0 <? ts)%Z; [|done]. by apply (of_event_same _ _ m). Qed.

(** The setters between the identifier and the end of a normaliser keep what the event
    determines. *)
Ltac solve_of_event :=
  repeat match goal with
  | |- of_event _ _ (Ms.set_Conversation _ ?m) => apply (of_event_same _ _ m); [reflexivity..|]
  | |- of_event _ _ (Ms.set_Sender _ ?m) => apply (of_event_same _ _ m); [reflexivity..|]
  | |- of_event _ _ (Ms.set_Content _ ?m) => apply (of_event_same _ _ m); [reflexivity..|]
  | |- of_event _ _ (Ms.set_Metadata _ ?m) => apply (of_event_same _ _ m); [reflexivity..|]
  | |- of_event _ _ (prefer_time _ ?m) => apply of_event_time
  end; apply default_id_of.

Section normalize_lemmas.
Context {Uni : Unicode} {Fl : Floats} {Rfc : Rfc3339}.

Definition outcome_ok (now : Z) (event : RawEvent) (m : Message) : Prop :=
  Normalize now m = m ∧ Validate now m = [] ∧ ∃ p, known_provider p ∧ of_event event p m.

Lemma normalizeAndValidate_ok now event p msg m :
  known_provider p → of_event event p msg → normalizeAndValidate now msg = inr m → outcome_ok now event m.
Proof.
  unfold normalizeAndValidate. cbv zeta. intros Hp Ho H.
  destruct (Validate now (Normalize now msg)) eqn:E; [|done]. injection H as <-.
  split_and!; [apply Normalize_idemp|done|]. exists p. split; [done|]. apply of_event_Normalize; [|done].
  revert Hp. unfold known_provider. rewrite !elem_of_cons, elem_of_nil. intuition subst; vm_compute; reflexivity.
Qed.

Lemma with_payload_ok {A} (fields : list (field A)) zero event now k m :
  (∀ payload, k payload = inr m → outcome_ok now event m) →
  with_payload fields zero event k = inr m → outcome_ok now event m.
Proof. unfold with_payload. intros Hk. destruct (Unmarshal _ _ _) as [payload []]; [apply Hk|done]. Qed.

Lemma NormalizeInbound_outcome now event m : NormalizeInbound now event = inr m → outcome_ok now event m.
Proof.
  unfold NormalizeInbound. cbv zeta.
  repeat match goal with |- context [if ?b then _ else _] => destruct b end; try done;
    apply with_payload_ok; intros payload; cbv zeta;
    (match goal with |- context [baseMessage _ _ ?p] => apply (normalizeAndValidate_ok _ _ p) end;
     [unfold known_provider; set_solver|solve_of_event]).
Qed.

(** Whatever a provider delivers, a message that the normaliser lets through is in
    normal form and valid, is of the endpoint that received it, and carries the external
    identifier of the event when the event has one. *)
Theorem NormalizeInbound_valid now event m :
  NormalizeInbound now event = inr m → outcome_ok now event m.
Proof. apply NormalizeInbound_outcome. Qed.

End normalize_lemmas.

(** ** Mentions *)

Lemma slength_drop_digits s : String.length (drop_digits s) ≤ String.length s.
Proof. induction s as [|c s IH]; cbn; [done|]. destruct (between 48 57 c); cbn; lia. Qed.

(** The loop ends, and when it does no key of a user is left. *)
Lemma strip_user_keys_ends fuel text :
  String.length text ≤ fuel → Index (strip_user_keys fuel text) user_key = None.
Proof.
  revert text. induction fuel as [|fuel IH]; intros text H; cbn [strip_user_keys].
  - by destruct text; [|cbn in H; lia].
  - destruct (Index text user_key) as [start|] eqn:E; [|done]. apply IH. apply Index_bound in E.
    change (String.length user_key) with 7 in *. rewrite slength_app, slength_stake by lia.
    pose proof (slength_drop_digits (sdrop (start + 7) text)) as Hd. rewrite slength_sdrop in Hd. lia.
Qed.

(** The loop of [StripFeishuMentions] ends for every text, and what it returns has no
    key of a mentioned user left. *)
Theorem StripFeishuMentions_strips text mentions :
  Index (StripFeishuMentions text mentions) "@_user_" = None.
Proof. unfold StripFeishuMentions. cbv zeta. by apply Index_TrimSpace, strip_user_keys_ends. Qed.

Example strip_ex :
  StripFeishuMentions "@_user_12 @_user_@_user_1 hi @Bot"
    [FsM.set_Key "@Bot" FsM.zero] = "hi".
Proof. vm_compute. reflexivity. Qed.

(** ** A concrete delivery *)

Definition no_times : Rfc3339 := {| ParseRFC3339 _ := None |}.

Definition update (text : string) : string :=
  "{" +:+ q "update_id" +:+ ":7," +:+ q "message" +:+ ":{" +:+ q "message_id" +:+ ":3," +:+ q "date" +:+ ":1700000000,"
  +:+ q "text" +:+ ":" +:+ q text +:+ "," +:+ q "chat" +:+ ":{" +:+ q "id" +:+ ":-5," +:+ q "type" +:+ ":" +:+ q "group" +:+ "},"
  +:+ q "from" +:+ ":{" +:+ q "id" +:+ ":9," +:+ q "first_name" +:+ ":" +:+ q "Ann" +:+ "}}}".

Definition telegram_event (text : string) : RawEvent :=
  Ev.mk " ep" "" "Telegram" "" 0 ∅ (update text) ∅.

Definition telegram_message : Message :=
  Ms.mk "ep" "im" "telegram" "3" 1700000000 (Cv.mk "-5" "" true "" "" "" "") (Sn.mk "9" ["9"] "Ann" "" "human")
    [text_block "hello"] [] {["provider" := WStr "telegram"]}.

Lemma NormalizeInbound_valid_witness :
  NormalizeInbound (Uni := ascii_unicode) (Fl := same_text) (Rfc := no_times) 5 (telegram_event " hello ")
    = inr telegram_message ∧
  outcome_ok 5 (telegram_event " hello ") telegram_message.
Proof.
  assert (NormalizeInbound (Uni := ascii_unicode) (Fl := same_text) (Rfc := no_times) 5 (telegram_event " hello ")
    = inr telegram_message) as E by (vm_compute; reflexivity).
  split; [exact E|].
  exact (NormalizeInbound_valid (Uni := ascii_unicode) (Fl := same_text) (Rfc := no_times) _ _ _ E).
Defined.

(** A message without text is refused. *)
Example blank_message :
  NormalizeInbound (Uni := ascii_unicode) (Fl := same_text) (Rfc := no_times) 5 (telegram_event " ")
  = inl (InvalidMessage [Required "content or attachment_ids"]).
Proof. vm_compute. reflexivity. Qed.
