(* ===== verification/ImRender.v ===== *)
(** * Outbound rendering ([internal/imadapter/render.go, provider_runtime.go, telegram_rich.go])

    What a message or a running answer becomes on the way to a messenger: the text, cut
    into pieces of the provider's length at line ends and between runes, one frame per
    piece, and the buttons of Telegram with the data that comes back from them.  How
    [fmt] prints the seconds of a duration, a [float64], is the parameter [Seconds]. *)

From S2P Require Import Prelude GoStr GoText Sql Json JsonValue ImAdapter ImInbound.

#[local] Open Scope go_scope.

Module StreamState.
Record StreamState := mk {
  Text : string;
  ActiveTool : string;
  StartedUnix : Z;
  UpdatedUnix : Z;
  Done : bool
}.
Definition zero : StreamState := mk "" "" 0%Z 0%Z false.
Definition set_Text (v : string) (r : StreamState) : StreamState := mk v (ActiveTool r) (StartedUnix r) (UpdatedUnix r) (Done r).
Definition set_ActiveTool (v : string) (r : StreamState) : StreamState := mk (Text r) v (StartedUnix r) (UpdatedUnix r) (Done r).
Definition set_StartedUnix (v : Z) (r : StreamState) : StreamState := mk (Text r) (ActiveTool r) v (UpdatedUnix r) (Done r).
Definition set_UpdatedUnix (v : Z) (r : StreamState) : StreamState := mk (Text r) (ActiveTool r) (StartedUnix r) v (Done r).
Definition set_Done (v : bool) (r : StreamState) : StreamState := mk (Text r) (ActiveTool r) (StartedUnix r) (UpdatedUnix r) v.
End StreamState.
Abbreviation StreamState := StreamState.StreamState.

Module ProviderRawEventInput.
Record ProviderRawEventInput := mk {
  EndpointID : string;
  ExternalMessageID : string;
  ReceivedUnix : Z;
  Headers : gmap string (list string);
  Body : string;
  Metadata : gmap string wire
}.
Definition zero : ProviderRawEventInput := mk "" "" 0%Z ∅ "" ∅.
Definition set_EndpointID (v : string) (r : ProviderRawEventInput) : ProviderRawEventInput := mk v (ExternalMessageID r) (ReceivedUnix r) (Headers r) (Body r) (Metadata r).
Definition set_ExternalMessageID (v : string) (r : ProviderRawEventInput) : ProviderRawEventInput := mk (EndpointID r) v (ReceivedUnix r) (Headers r) (Body r) (Metadata r).
Definition set_ReceivedUnix (v : Z) (r : ProviderRawEventInput) : ProviderRawEventInput := mk (EndpointID r) (ExternalMessageID r) v (Headers r) (Body r) (Metadata r).
Definition set_Headers (v : gmap string (list string)) (r : ProviderRawEventInput) : ProviderRawEventInput := mk (EndpointID r) (ExternalMessageID r) (ReceivedUnix r) v (Body r) (Metadata r).
Definition set_Body (v : string) (r : ProviderRawEventInput) : ProviderRawEventInput := mk (EndpointID r) (ExternalMessageID r) (ReceivedUnix r) (Headers r) v (Metadata r).
Definition set_Metadata (v : gmap string wire) (r : ProviderRawEventInput) : ProviderRawEventInput := mk (EndpointID r) (ExternalMessageID r) (ReceivedUnix r) (Headers r) (Body r) v.
End ProviderRawEventInput.
Abbreviation ProviderRawEventInput := ProviderRawEventInput.ProviderRawEventInput.

Module OutboundRenderInput.
Record OutboundRenderInput := mk {
  Provider : string;
  ConversationID : string;
  ReplyToExternalMessageID : string;
  Text : string;
  Silent : bool;
  Stream : option StreamState.StreamState;
  StreamID : string;
  SequenceStart : Z
}.
Definition zero : OutboundRenderInput := mk "" "" "" "" false None "" 0%Z.
Definition set_Provider (v : string) (r : OutboundRenderInput) : OutboundRenderInput := mk v (ConversationID r) (ReplyToExternalMessageID r) (Text r) (Silent r) (Stream r) (StreamID r) (SequenceStart r).
Definition set_ConversationID (v : string) (r : OutboundRenderInput) : OutboundRenderInput := mk (Provider r) v (ReplyToExternalMessageID r) (Text r) (Silent r) (Stream r) (StreamID r) (SequenceStart r).
Definition set_ReplyToExternalMessageID (v : string) (r : OutboundRenderInput) : OutboundRenderInput := mk (Provider r) (ConversationID r) v (Text r) (Silent r) (Stream r) (StreamID r) (SequenceStart r).
Definition set_Text (v : string) (r : OutboundRenderInput) : OutboundRenderInput := mk (Provider r) (ConversationID r) (ReplyToExternalMessageID r) v (Silent r) (Stream r) (StreamID r) (SequenceStart r).
Definition set_Silent (v : bool) (r : OutboundRenderInput) : OutboundRenderInput := mk (Provider r) (ConversationID r) (ReplyToExternalMessageID r) (Text r) v (Stream r) (StreamID r) (SequenceStart r).
Definition set_Stream (v : option StreamState.StreamState) (r : OutboundRenderInput) : OutboundRenderInput := mk (Provider r) (ConversationID r) (ReplyToExternalMessageID r) (Text r) (Silent r) v (StreamID r) (SequenceStart r).
Definition set_StreamID (v : string) (r : OutboundRenderInput) : OutboundRenderInput := mk (Provider r) (ConversationID r) (ReplyToExternalMessageID r) (Text r) (Silent r) (Stream r) v (SequenceStart r).
Definition set_SequenceStart (v : Z) (r : OutboundRenderInput) : OutboundRenderInput := mk (Provider r) (ConversationID r) (ReplyToExternalMessageID r) (Text r) (Silent r) (Stream r) (StreamID r) v.
End OutboundRenderInput.
Abbreviation OutboundRenderInput := OutboundRenderInput.OutboundRenderInput.

Module OutboundFrame.
Record OutboundFrame := mk {
  Provider : string;
  TargetID : string;
  TargetKind : string;
  ReplyToExternalMessageID : string;
  Text : string;
  Sequence : Z;
  Done : bool;
  Silent : bool;
  ParseMode : string;
  StreamID : string;
  StreamState : Z;
  Metadata : gmap string wire
}.
Definition zero : OutboundFrame := mk "" "" "" "" "" 0%Z false false "" "" 0%Z ∅.
Definition set_Provider (v : string) (r : OutboundFrame) : OutboundFrame := mk v (TargetID r) (TargetKind r) (ReplyToExternalMessageID r) (Text r) (Sequence r) (Done r) (Silent r) (ParseMode r) (StreamID r) (StreamState r) (Metadata r).
Definition set_TargetID (v : string) (r : OutboundFrame) : OutboundFrame := mk (Provider r) v (TargetKind r) (ReplyToExternalMessageID r) (Text r) (Sequence r) (Done r) (Silent r) (ParseMode r) (StreamID r) (StreamState r) (Metadata r).
Definition set_TargetKind (v : string) (r : OutboundFrame) : OutboundFrame := mk (Provider r) (TargetID r) v (ReplyToExternalMessageID r) (Text r) (Sequence r) (Done r) (Silent r) (ParseMode r) (StreamID r) (StreamState r) (Metadata r).
Definition set_ReplyToExternalMessageID (v : string) (r : OutboundFrame) : OutboundFrame := mk (Provider r) (TargetID r) (TargetKind r) v (Text r) (Sequence r) (Done r) (Silent r) (ParseMode r) (StreamID r) (StreamState r) (Metadata r).
Definition set_Text (v : string) (r : OutboundFrame) : OutboundFrame := mk (Provider r) (TargetID r) (TargetKind r) (ReplyToExternalMessageID r) v (Sequence r) (Done r) (Silent r) (ParseMode r) (StreamID r) (StreamState r) (Metadata r).
Definition set_Sequence (v : Z) (r : OutboundFrame) : OutboundFrame := mk (Provider r) (TargetID r) (TargetKind r) (ReplyToExternalMessageID r) (Text r) v (Done r) (Silent r) (ParseMode r) (StreamID r) (StreamState r) (Metadata r).
Definition set_Done (v : bool) (r : OutboundFrame) : OutboundFrame := mk (Provider r) (TargetID r) (TargetKind r) (ReplyToExternalMessageID r) (Text r) (Sequence r) v (Silent r) (ParseMode r) (StreamID r) (StreamState r) (Metadata r).
Definition set_Silent (v : bool) (r : OutboundFrame) : OutboundFrame := mk (Provider r) (TargetID r) (TargetKind r) (ReplyToExternalMessageID r) (Text r) (Sequence r) (Done r) v (ParseMode r) (StreamID r) (StreamState r) (Metadata r).
Definition set_ParseMode (v : string) (r : OutboundFrame) : OutboundFrame := mk (Provider r) (TargetID r) (TargetKind r) (ReplyToExternalMessageID r) (Text r) (Sequence r) (Done r) (Silent r) v (StreamID r) (StreamState r) (Metadata r).
Definition set_StreamID (v : string) (r : OutboundFrame) : OutboundFrame := mk (Provider r) (TargetID r) (TargetKind r) (ReplyToExternalMessageID r) (Text r) (Sequence r) (Done r) (Silent r) (ParseMode r) v (StreamState r) (Metadata r).
Definition set_StreamState (v : Z) (r : OutboundFrame) : OutboundFrame := mk (Provider r) (TargetID r) (TargetKind r) (ReplyToExternalMessageID r) (Text r) (Sequence r) (Done r) (Silent r) (ParseMode r) (StreamID r) v (Metadata r).
Definition set_Metadata (v : gmap string wire) (r : OutboundFrame) : OutboundFrame := mk (Provider r) (TargetID r) (TargetKind r) (ReplyToExternalMessageID r) (Text r) (Sequence r) (Done r) (Silent r) (ParseMode r) (StreamID r) (StreamState r) v.
End OutboundFrame.
Abbreviation OutboundFrame := OutboundFrame.OutboundFrame.

Module TelegramInlineButton.
Record TelegramInlineButton := mk {
  Text : string;
  CallbackData : string;
  URL : string
}.
Definition zero : TelegramInlineButton := mk "" "" "".
Definition set_Text (v : string) (r : TelegramInlineButton) : TelegramInlineButton := mk v (CallbackData r) (URL r).
Definition set_CallbackData (v : string) (r : TelegramInlineButton) : TelegramInlineButton := mk (Text r) v (URL r).
Definition set_URL (v : string) (r : TelegramInlineButton) : TelegramInlineButton := mk (Text r) (CallbackData r) v.
End TelegramInlineButton.
Abbreviation TelegramInlineButton := TelegramInlineButton.TelegramInlineButton.

Module St := StreamState.
Module Ri := ProviderRawEventInput.
Module In := OutboundRenderInput.
Module Fr := OutboundFrame.
Module Bt := TelegramInlineButton.

Definition TelegramMaxMessageLen : Z := 4000.
Definition QQMaxMessageLen : Z := 3500.
Definition ServerChanMaxMessageLen : Z := 4000.
Definition telegramParseModeMarkdownV2 := "MarkdownV2".
Definition serverChanParseModeMarkdown := "markdown".
Definition qqStreamStateGenerating : Z := 1.
Definition qqStreamStateDone : Z := 10.
Definition typingCursor := " ▍".

(** [fmt.Sprintf] with [%.1f] of [Duration.Seconds()]; a duration is in nanoseconds. *)
Class Seconds := { seconds_text : Z → string }.

(** ** Raw events *)

Definition providerRawEvent (provider : string) (input : ProviderRawEventInput) : RawEvent :=
  Ev.mk (TrimSpace (Ri.EndpointID input)) "im" provider (TrimSpace (Ri.ExternalMessageID input))
    (Ri.ReceivedUnix input) (Ri.Headers input) (Ri.Body input) (Ri.Metadata input).

Definition TelegramRawEvent := providerRawEvent ProviderTelegram.
Definition QQRawEvent := providerRawEvent ProviderQQ.
Definition FeishuRawEvent := providerRawEvent ProviderFeishu.
Definition WeChatRawEvent := providerRawEvent ProviderWeixin.
Definition WeComRawEvent := providerRawEvent ProviderWeCom.
Definition ServerChanRawEvent := providerRawEvent ProviderServerChan.

(** ** Cutting text *)

(** The greatest position up to [n] that is 0 or where a rune starts. *)
Fixpoint rune_start_before (n : nat) (s : string) : nat :=
  match n with
  | 0 => 0
  | S m =>
      match String.get n s with
      | Some c => if RuneStart c then n else rune_start_before m s
      | None => n
      end
  end.

Definition truncateUTF8 (value : string) (maxLen : Z) : string :=
  if (Z.of_nat (String.length value) <=? maxLen)%Z then value
  else if (maxLen <=? 3)%Z then stake (Z.to_nat maxLen) value
  else stake (rune_start_before (Z.to_nat (maxLen - 3)) value) value +:+ "...".

Definition lf : ascii := byte 10.
Definition two_lines : string := newline +:+ newline.

Definition RenderStream `{!Seconds} (state : StreamState) (maxLen : Z) : string :=
  let text := St.Text state in
  let text := if (TrimSpace text =s "") && (St.ActiveTool state =s "") then "Thinking..." else text in
  let text := if (St.ActiveTool state <>s "") && negb (St.Done state)
    then TrimRightByte lf text +:+ two_lines +:+ St.ActiveTool state else text in
  let text :=
    if St.Done state && (0 <? St.StartedUnix state)%Z && (St.StartedUnix state <=? St.UpdatedUnix state)%Z
    then TrimRightByte lf text +:+ two_lines +:+ "Response time: " +:+
      seconds_text (i64 (i64 (St.UpdatedUnix state - St.StartedUnix state) * 1000000000)) +:+ "s"
    else text in
  let text := if negb (St.Done state) then text +:+ typingCursor else text in
  if (maxLen <=? 0)%Z then text else truncateUTF8 text maxLen.

(** Where [splitProviderMessage] cuts what is left: after the last line end if there is
    one past the start, else at the length, and never inside a rune unless a rune fills
    the whole piece. *)
Definition cut_point (maxLen : nat) (rest : string) : nat :=
  let cutAt := match LastIndexByte (stake maxLen rest) lf with Some (S n) => S (S n) | _ => maxLen end in
  let cutAt := rune_start_before cutAt rest in
  if cutAt =? 0 then maxLen else cutAt.

(** Every round shortens the rest, so its length is fuel enough. *)
Fixpoint split_loop (fuel maxLen : nat) (rest : string) : list string :=
  match fuel with
  | 0 => []
  | S fuel =>
      if maxLen <? String.length rest then
        let cutAt := cut_point maxLen rest in
        TrimSpace (stake cutAt rest) :: split_loop fuel maxLen (TrimSpace (sdrop cutAt rest))
      else if rest <>s "" then [rest] else []
  end.

Definition splitProviderMessage (text : string) (maxLen : Z) : list string :=
  if TrimSpace text =s "" then ["(empty response)"]
  else if (maxLen <=? 0)%Z || (Z.of_nat (String.length text) <=? maxLen)%Z then [text]
  else split_loop (S (String.length text)) (Z.to_nat maxLen) text.

(** ** Frames *)

Definition outboundText `{!Seconds} (input : OutboundRenderInput) (maxLen : Z) : string :=
  match In.Stream input with
  | Some state => RenderStream state maxLen
  | None => let text := TrimSpace (In.Text input) in if text =s "" then "(empty response)" else text
  end.

Definition done (input : OutboundRenderInput) : bool :=
  match In.Stream input with None => true | Some state => St.Done state end.

Definition qqTarget (conversationID : string) : string * string :=
  if HasPrefix conversationID "qq:group:" then ("group", TrimPrefix conversationID "qq:group:")
  else if HasPrefix conversationID "qq:c2c:" then ("c2c", TrimPrefix conversationID "qq:c2c:")
  else if HasPrefix conversationID "group:" then ("group", TrimPrefix conversationID "group:")
  else ("c2c", conversationID).

(** One frame per chunk, numbered from [first] in 32 bits. *)
Fixpoint frames_from (i : Z) (frame : Z → string → OutboundFrame) (chunks : list string) : list OutboundFrame :=
  match chunks with
  | [] => []
  | chunk :: chunks => frame i chunk :: frames_from (i + 1) frame chunks
  end.

Section render.
Context {Uni : Unicode} {Sec : Seconds}.

Definition RenderTelegramOutbound (input : OutboundRenderInput) : list OutboundFrame :=
  frames_from 0
    (λ i chunk, Fr.mk ProviderTelegram (TrimSpace (In.ConversationID input)) "chat"
      (TrimSpace (In.ReplyToExternalMessageID input)) chunk (u32 (i + 1)) (done input) (In.Silent input)
      telegramParseModeMarkdownV2 "" 0 ∅)
    (splitProviderMessage (outboundText input TelegramMaxMessageLen) TelegramMaxMessageLen).

Definition RenderQQOutbound (input : OutboundRenderInput) : list OutboundFrame :=
  let (targetKind, targetID) := qqTarget (TrimSpace (In.ConversationID input)) in
  let sequenceStart := if (In.SequenceStart input =? 0)%Z then 100%Z else In.SequenceStart input in
  let streamState := match In.Stream input with
    | None => 0%Z
    | Some state => if St.Done state then qqStreamStateDone else qqStreamStateGenerating
    end in
  frames_from 0
    (λ i chunk, Fr.mk ProviderQQ targetID targetKind
      (TrimSpace (In.ReplyToExternalMessageID input)) chunk (u32 (sequenceStart + u32 i)) (done input) (In.Silent input)
      "" (TrimSpace (In.StreamID input)) streamState ∅)
    (splitProviderMessage (outboundText input QQMaxMessageLen) QQMaxMessageLen).

Definition RenderServerChanOutbound (input : OutboundRenderInput) : list OutboundFrame :=
  frames_from 0
    (λ i chunk, Fr.mk ProviderServerChan (TrimPrefix (TrimSpace (In.ConversationID input)) "serverchan:") "chat"
      (TrimSpace (In.ReplyToExternalMessageID input)) chunk (u32 (i + 1)) (done input) (In.Silent input)
      serverChanParseModeMarkdown "" 0 ∅)
    (splitProviderMessage (outboundText input ServerChanMaxMessageLen) ServerChanMaxMessageLen).

(** [None] is the error for a provider without outbound rendering. *)
Definition RenderProviderOutbound (input : OutboundRenderInput) : option (list OutboundFrame) :=
  let provider := CanonicalProvider (In.Provider input) in
  if provider =s ProviderTelegram then Some (RenderTelegramOutbound input)
  else if provider =s ProviderQQ then Some (RenderQQOutbound input)
  else if provider =s ProviderServerChan then Some (RenderServerChanOutbound input)
  else None.

(** ** Telegram's buttons *)

Definition button_wire (b : TelegramInlineButton) : wire :=
  WStruct ([("text", WStr (Bt.Text b))] ++ str_field "callback_data" (Bt.CallbackData b) ++ str_field "url" (Bt.URL b)).

(** The text of a [TelegramInlineKeyboard]. *)
Definition keyboard_text `{!Floats} (buttons : list (list TelegramInlineButton)) : string :=
  wire_text (WStruct [("inline_keyboard", WList (map (λ row, WList (map button_wire row)) buttons))]).

(** The keyboard goes on the last frame. *)
Fixpoint on_last {A} (f : A → A) (l : list A) : list A :=
  match l with [] => [] | [x] => [f x] | x :: l => x :: on_last f l end.

Definition RenderTelegramRichOutbound `{!Floats} (input : OutboundRenderInput)
    (buttons : list (list TelegramInlineButton)) : list OutboundFrame :=
  let frames := RenderTelegramOutbound input in
  if length buttons =? 0 then frames
  else on_last (Fr.set_Metadata {["reply_markup" := WStr (keyboard_text buttons)]}) frames.

Definition action_button (i : nat) (action : string) : TelegramInlineButton :=
  Bt.mk action ("action_" +:+ FormatInt (Z.of_nat i)) "".

(** Rows of two. *)
Fixpoint pairs (i : nat) (actions : list string) : list (list TelegramInlineButton) :=
  match actions with
  | [] => []
  | [a] => [[action_button i a]]
  | a :: b :: actions => [action_button i a; action_button (S i) b] :: pairs (S (S i)) actions
  end.

Definition BuildActionButtons (actions : list string) : list (list TelegramInlineButton) :=
  if length actions =? 0 then []
  else if length actions <=? 3 then [imap action_button actions]
  else pairs 0 actions.

Definition BuildTaskCommandButtons (taskID : string) : list (list TelegramInlineButton) :=
  [[Bt.mk "Claim" ("task_claim_" +:+ taskID) ""; Bt.mk "Status" ("task_status_" +:+ taskID) ""]].

Definition ParseTelegramCallbackData (data : string) : string * gmap string string :=
  match Split data "_" with
  | [] => ("", ∅)
  | actionType :: args =>
      (actionType,
       if actionType =s "action" then match args with index :: _ => {["index" := index]} | [] => ∅ end
       else if actionType =s "task" then
         match args with
         | command :: id :: more => <["task_id" := Join (id :: more) "_"]> {["command" := command]}
         | _ => ∅
         end
       else ∅)
  end.

End render.

(** ** White space and what surrounds it *)

(** A run of white space. *)
Inductive blank : string → Prop :=
| blank_nil : blank ""
| blank_1 a s : space1 a = true → blank s → blank (String a s)
| blank_2 a b s : space2 a b = true → blank s → blank (String a (String b s))
| blank_3 a b c s : space3 a b c = true → blank s → blank (String a (String b (String c s))).

#[local] Hint Constructors blank : core.

Lemma blank_app s t : blank s → blank t → blank (s +:+ t).
Proof. induction 1 as [|a s H _ IH|a b s H _ IH|a b c s H _ IH]; intros Ht; [done|..].
  - by apply blank_1, IH.
  - by apply blank_2, IH.
  - by apply blank_3, IH.
Qed.

(** What [trim_with] drops has any property that holds of the empty string and is kept by
    putting white space in front. *)
Lemma trim_with_drops (B : string → Prop) sp2 sp3 :
  B "" → (∀ a s, space1 a = true → B s → B (String a s)) →
  (∀ a b s, sp2 a b = true → B s → B (String a (String b s))) →
  (∀ a b c s, sp3 a b c = true → B s → B (String a (String b (String c s)))) →
  ∀ s, ∃ w, B w ∧ s = w +:+ trim_with sp2 sp3 s.
Proof.
  intros H0 H1 H2 H3 s. remember (String.length s) as n eqn:Hn. revert s Hn.
  induction n as [n IH] using lt_wf_ind. intros s ->.
  destruct s as [|a s1]; [by exists ""|]. cbn [trim_with]. destruct (space1 a) eqn:E1.
  { destruct (IH (String.length s1) ltac:(cbn; lia) s1 eq_refl) as (w & Hw & E). exists (String a w).
    split; [auto|]. by rewrite E at 1. }
  destruct s1 as [|b s2]; [by exists ""|]. destruct (sp2 a b) eqn:E2.
  { destruct (IH (String.length s2) ltac:(cbn; lia) s2 eq_refl) as (w & Hw & E). exists (String a (String b w)).
    split; [auto|]. by rewrite E at 1. }
  destruct s2 as [|c s3]; [by exists ""|]. destruct (sp3 a b c) eqn:E3; [|by exists ""].
  destruct (IH (String.length s3) ltac:(cbn; lia) s3 eq_refl) as (w & Hw & E). exists (String a (String b (String c w))).
  split; [auto|]. by rewrite E at 1.
Qed.

Lemma TrimSpace_split s : ∃ w v, blank w ∧ blank v ∧ s = w +:+ TrimSpace s +:+ v.
Proof.
  destruct (trim_with_drops blank space2 space3) with (s := s) as (w & Hw & E); [auto..|].
  change (s = w +:+ trim_left s) in E. unfold TrimSpace. set (t := trim_left s) in *. clearbody t.
  destruct (trim_with_drops (λ w, blank (String.rev w)) (λ a b, space2 b a) (λ a b c, space3 c b a))
    with (s := String.rev t) as (v & Hv & E').
  - done.
  - intros a x Ha Hx. change (String a x) with (String a "" +:+ x). rewrite srev_app. apply blank_app; cbn; auto.
  - intros a b x Ha Hx. change (String a (String b x)) with (String a (String b "") +:+ x). rewrite srev_app.
    apply blank_app; cbn; auto.
  - intros a b c x Ha Hx. change (String a (String b (String c x))) with (String a (String b (String c "")) +:+ x).
    rewrite srev_app. apply blank_app; cbn; auto.
  - exists w, (String.rev v). split_and!; [done..|]. rewrite E at 1. f_equal.
    unfold trim_right. rewrite <-srev_app, <-E', srev_involutive. done.
Qed.

(** ** Cutting loses nothing but white space *)

(** [cut s l]: the pieces [l] are [s], with white space between, before and after them. *)
Inductive cut : string → list string → Prop :=
| cut_end v : blank v → cut v []
| cut_piece w c s l : blank w → cut s l → cut (w +:+ c +:+ s) (c :: l).

Lemma cut_before w s l : blank w → cut s l → cut (w +:+ s) l.
Proof.
  intros Hw [v Hv|x c t m Hx Ht]; [constructor; by apply blank_app|]. rewrite sapp_assoc.
  constructor; [by apply blank_app|done].
Qed.

Lemma cut_after s l v : cut s l → blank v → cut (s +:+ v) l.
Proof.
  induction 1 as [u Hu|w c s l Hw _ IH]; intros Hv; [constructor; by apply blank_app|].
  rewrite <-!sapp_assoc. constructor; auto.
Qed.

Lemma cut_TrimSpace s l : cut (TrimSpace s) l → cut s l.
Proof.
  intros H. destruct (TrimSpace_split s) as (w & v & Hw & Hv & E). rewrite E.
  apply cut_before; [done|]. by apply cut_after.
Qed.

Lemma stake_sdrop n s : n ≤ String.length s → stake n s +:+ sdrop n s = s.
Proof.
  unfold stake, sdrop. revert s. induction n as [|n IH]; intros s H.
  - rewrite Nat.sub_0_r, substring_all. by destruct s.
  - destruct s as [|c s]; [cbn in H; lia|]. cbn in H. cbn [String.length Nat.sub String.substring].
    change (String c (String.substring 0 n s +:+ String.substring n (String.length s - n) s) = String c s).
    f_equal. apply IH. lia.
Qed.

Lemma slength_TrimSpace s : String.length (TrimSpace s) ≤ String.length s.
Proof. destruct (TrimSpace_split s) as (w & v & _ & _ & E). rewrite E at 2. rewrite !slength_app. lia. Qed.

Lemma rune_start_before_le n s : rune_start_before n s ≤ n.
Proof.
  induction n as [|n IH]; [done|]. cbn [rune_start_before]. destruct (String.get (S n) s) as [c|]; [|done].
  destruct (RuneStart c); lia.
Qed.

Lemma LastIndexByte_lt s b n : LastIndexByte s b = Some n → n < String.length s.
Proof.
  revert n. induction s as [|c s IH]; intros n; cbn; [done|].
  destruct (LastIndexByte s b) as [m|]; [intros [= <-]; specialize (IH m eq_refl); lia|].
  destruct (Ascii.eqb c b); [intros [= <-]; lia|done].
Qed.

Lemma cut_point_bounds maxLen rest :
  0 < maxLen → maxLen < String.length rest → 0 < cut_point maxLen rest ≤ maxLen.
Proof.
  intros H0 H. unfold cut_point. set (at1 := match LastIndexByte _ _ with Some _ => _ | None => _ end).
  assert (at1 ≤ maxLen) as H1.
  { subst at1. destruct (LastIndexByte (stake maxLen rest) lf) as [[|n]|] eqn:E; [done| |done].
    apply LastIndexByte_lt in E. rewrite slength_stake in E; lia. }
  pose proof (rune_start_before_le at1 rest) as H2. cbv zeta.
  destruct (rune_start_before at1 rest =? 0) eqn:E; [lia|]. apply Nat.eqb_neq in E. lia.
Qed.

Lemma split_loop_spec fuel maxLen rest :
  0 < maxLen → String.length rest < fuel →
  cut rest (split_loop fuel maxLen rest) ∧ Forall (λ c, String.length c ≤ maxLen) (split_loop fuel maxLen rest).
Proof.
  intros H0. revert rest. induction fuel as [|fuel IH]; intros rest H; [lia|]. cbn [split_loop].
  destruct (maxLen <? String.length rest) eqn:E.
  - apply Nat.ltb_lt in E. pose proof (cut_point_bounds maxLen rest H0 E) as Hc. cbv zeta.
    set (n := cut_point maxLen rest) in *. destruct (IH (TrimSpace (sdrop n rest))) as [IH1 IH2].
    { pose proof (slength_TrimSpace (sdrop n rest)) as Ht. rewrite slength_sdrop in Ht. lia. }
    split.
    + destruct (TrimSpace_split (stake n rest)) as (w & v & Hw & Hv & Es). apply cut_TrimSpace in IH1.
      rewrite <-(stake_sdrop n rest) at 1 by lia. rewrite Es at 1. rewrite <-!sapp_assoc.
      constructor; [done|]. by apply cut_before.
    + constructor; [|done]. pose proof (slength_TrimSpace (stake n rest)) as Ht.
      rewrite slength_stake in Ht; lia.
  - apply Nat.ltb_ge in E. destruct (rest =s "") eqn:Er; cbn; [apply eqb_eq_str in Er as ->; by repeat constructor|].
    split; [|by repeat constructor]. rewrite <-(sapp_nil_r rest) at 1. change rest with ("" +:+ rest) at 1.
    rewrite <-sapp_assoc. by repeat constructor.
Qed.

(** C36. Cutting a text for a messenger ends, gives pieces of at most the messenger's
    length, and loses nothing but white space between the pieces. *)
Theorem splitProviderMessage_pieces text maxLen :
  (0 < maxLen)%Z → TrimSpace text ≠ "" →
  cut text (splitProviderMessage text maxLen) ∧
  Forall (λ chunk, (Z.of_nat (String.length chunk) ≤ maxLen)%Z) (splitProviderMessage text maxLen).
Proof.
  intros H0 Ht. unfold splitProviderMessage. apply eqb_neq_str in Ht as ->.
  destruct (maxLen <=? 0)%Z eqn:E0; [lia|]. cbn [orb].
  destruct (Z.of_nat (String.length text) <=? maxLen)%Z eqn:E.
  - split; [|constructor; [lia|done]]. rewrite <-(sapp_nil_r text) at 1. change text with ("" +:+ text) at 1.
    rewrite <-sapp_assoc. by repeat constructor.
  - destruct (split_loop_spec (S (String.length text)) (Z.to_nat maxLen) text) as [H1 H2]; [lia..|].
    split; [done|]. eapply Forall_impl; [exact H2|]. cbn. lia.
Qed.

Lemma splitProviderMessage_pieces_witness :
  cut ("ab" +:+ newline +:+ "cdé") (splitProviderMessage ("ab" +:+ newline +:+ "cdé") 4) ∧
  splitProviderMessage ("ab" +:+ newline +:+ "cdé") 4 = ["ab"; "cdé"].
Proof.
  split; [|vm_compute; reflexivity].
  refine (proj1 (splitProviderMessage_pieces ("ab" +:+ newline +:+ "cdé") 4 _ _)); [lia|vm_compute; discriminate].
Defined.

(** ** Buttons come back *)

Lemma Split_cons s c : ∃ x l, Split s c = x :: l.
Proof. destruct s as [|d s]; cbn; [by do 2 eexists|]. destruct (Ascii.eqb d c), (Split s c); by do 2 eexists. Qed.

Lemma Join_Split s c : Join (Split s c) (String c "") = s.
Proof.
  induction s as [|d s IH]; [done|]. cbn [Split]. destruct (Split_cons s c) as (x & l & E). rewrite E in *.
  destruct (Ascii.eqb d c) eqn:Ed.
  - apply Ascii.eqb_eq in Ed as ->. change (String c (Join (x :: l) (String c "")) = String c s). by rewrite IH.
  - rewrite <-IH. by destruct l.
Qed.

(** The data of each button of a task come back from Telegram as the button's command
    and the task's identifier, whatever characters the identifier has. *)
Theorem task_buttons_come_back taskID row button :
  row ∈ BuildTaskCommandButtons taskID → button ∈ row →
  ∃ command, command ∈ ["claim"; "status"] ∧
    ParseTelegramCallbackData (Bt.CallbackData button) = ("task", <["task_id" := taskID]> {["command" := command]}).
Proof.
  intros [->|?%elem_of_nil]%elem_of_cons; [|done]. destruct (Split_cons taskID "_") as (x & l & E).
  assert (Join (x :: l) "_" = taskID) as J by (rewrite <-E; apply Join_Split).
  intros [->|[->|?%elem_of_nil]%elem_of_cons]%elem_of_cons; [| |done];
    [exists "claim"|exists "status"]; (split; [set_solver|]); unfold ParseTelegramCallbackData; cbn [Bt.CallbackData].
  - change (Split ("task_claim_" +:+ taskID) "_") with ("task" :: "claim" :: Split taskID "_").
    rewrite E. cbn -[Join]. by rewrite J.
  - change (Split ("task_status_" +:+ taskID) "_") with ("task" :: "status" :: Split taskID "_").
    rewrite E. cbn -[Join]. by rewrite J.
Qed.

Lemma task_buttons_come_back_witness :
  ∃ command, command ∈ ["claim"; "status"] ∧
    ParseTelegramCallbackData "task_status_t_1" = ("task", <["task_id" := "t_1"]> {["command" := command]}).
Proof.
  refine (task_buttons_come_back "t_1"
    [Bt.mk "Claim" "task_claim_t_1" ""; Bt.mk "Status" "task_status_t_1" ""] (Bt.mk "Status" "task_status_t_1" "") _ _).
  - apply list_elem_of_here.
  - apply list_elem_of_further, list_elem_of_here.
Defined.

(** * Planning interactions ([internal/imadapter/planner.go])

    How a choice, a question, a status, a mention or a task's action is shown by a
    provider: with what the provider's capabilities allow, or else as text.  Upper case
    beyond ASCII is the parameter [UpperCase]. *)

Module RichContent.
Record RichContent := mk {
  Type_ : string;
  Elements : list (gmap string string);
  Metadata : gmap string wire
}.
Definition zero : RichContent := mk "" [] ∅.
Definition set_Type_ (v : string) (r : RichContent) : RichContent := mk v (Elements r) (Metadata r).
Definition set_Elements (v : list (gmap string string)) (r : RichContent) : RichContent := mk (Type_ r) v (Metadata r).
Definition set_Metadata (v : gmap string wire) (r : RichContent) : RichContent := mk (Type_ r) (Elements r) v.
End RichContent.
Abbreviation RichContent := RichContent.RichContent.

Module InteractionPlan.
Record InteractionPlan := mk {
  Intent : string;
  Provider : string;
  RenderMode : string;
  RichContent : option RichContent.RichContent;
  FallbackText : string
}.
Definition zero : InteractionPlan := mk "" "" "" None "".
Definition set_Intent (v : string) (r : InteractionPlan) : InteractionPlan := mk v (Provider r) (RenderMode r) (RichContent r) (FallbackText r).
Definition set_Provider (v : string) (r : InteractionPlan) : InteractionPlan := mk (Intent r) v (RenderMode r) (RichContent r) (FallbackText r).
Definition set_RenderMode (v : string) (r : InteractionPlan) : InteractionPlan := mk (Intent r) (Provider r) v (RichContent r) (FallbackText r).
Definition set_RichContent (v : option RichContent.RichContent) (r : InteractionPlan) : InteractionPlan := mk (Intent r) (Provider r) (RenderMode r) v (FallbackText r).
Definition set_FallbackText (v : string) (r : InteractionPlan) : InteractionPlan := mk (Intent r) (Provider r) (RenderMode r) (RichContent r) v.
End InteractionPlan.
Abbreviation InteractionPlan := InteractionPlan.InteractionPlan.

Module ChooseActionRequest.
Record ChooseActionRequest := mk {
  Prompt : string;
  Actions : list string
}.
Definition zero : ChooseActionRequest := mk "" [].
Definition set_Prompt (v : string) (r : ChooseActionRequest) : ChooseActionRequest := mk v (Actions r).
Definition set_Actions (v : list string) (r : ChooseActionRequest) : ChooseActionRequest := mk (Prompt r) v.
End ChooseActionRequest.
Abbreviation ChooseActionRequest := ChooseActionRequest.ChooseActionRequest.

Module RequestConfigRequest.
Record RequestConfigRequest := mk {
  Prompt : string;
  Fields : list string;
  Examples : gmap string string
}.
Definition zero : RequestConfigRequest := mk "" [] ∅.
Definition set_Prompt (v : string) (r : RequestConfigRequest) : RequestConfigRequest := mk v (Fields r) (Examples r).
Definition set_Fields (v : list string) (r : RequestConfigRequest) : RequestConfigRequest := mk (Prompt r) v (Examples r).
Definition set_Examples (v : gmap string string) (r : RequestConfigRequest) : RequestConfigRequest := mk (Prompt r) (Fields r) v.
End RequestConfigRequest.
Abbreviation RequestConfigRequest := RequestConfigRequest.RequestConfigRequest.

Module AcknowledgeStatusRequest.
Record AcknowledgeStatusRequest := mk {
  RunID : string;
  Status : string;
  Message : string;
  CanEdit : bool
}.
Definition zero : AcknowledgeStatusRequest := mk "" "" "" false.
Definition set_RunID (v : string) (r : AcknowledgeStatusRequest) : AcknowledgeStatusRequest := mk v (Status r) (Message r) (CanEdit r).
Definition set_Status (v : string) (r : AcknowledgeStatusRequest) : AcknowledgeStatusRequest := mk (RunID r) v (Message r) (CanEdit r).
Definition set_Message (v : string) (r : AcknowledgeStatusRequest) : AcknowledgeStatusRequest := mk (RunID r) (Status r) v (CanEdit r).
Definition set_CanEdit (v : bool) (r : AcknowledgeStatusRequest) : AcknowledgeStatusRequest := mk (RunID r) (Status r) (Message r) v.
End AcknowledgeStatusRequest.
Abbreviation AcknowledgeStatusRequest := AcknowledgeStatusRequest.AcknowledgeStatusRequest.

Module MentionAgentRequest.
Record MentionAgentRequest := mk {
  AgentName : string;
  ChannelID : string;
  IsGroup : bool
}.
Definition zero : MentionAgentRequest := mk "" "" false.
Definition set_AgentName (v : string) (r : MentionAgentRequest) : MentionAgentRequest := mk v (ChannelID r) (IsGroup r).
Definition set_ChannelID (v : string) (r : MentionAgentRequest) : MentionAgentRequest := mk (AgentName r) v (IsGroup r).
Definition set_IsGroup (v : bool) (r : MentionAgentRequest) : MentionAgentRequest := mk (AgentName r) (ChannelID r) v.
End MentionAgentRequest.
Abbreviation MentionAgentRequest := MentionAgentRequest.MentionAgentRequest.

Module SendTaskActionRequest.
Record SendTaskActionRequest := mk {
  TaskID : string;
  Action : string;
  Metadata : gmap string wire
}.
Definition zero : SendTaskActionRequest := mk "" "" ∅.
Definition set_TaskID (v : string) (r : SendTaskActionRequest) : SendTaskActionRequest := mk v (Action r) (Metadata r).
Definition set_Action (v : string) (r : SendTaskActionRequest) : SendTaskActionRequest := mk (TaskID r) v (Metadata r).
Definition set_Metadata (v : gmap string wire) (r : SendTaskActionRequest) : SendTaskActionRequest := mk (TaskID r) (Action r) v.
End SendTaskActionRequest.
Abbreviation SendTaskActionRequest := SendTaskActionRequest.SendTaskActionRequest.

Module Rc := RichContent.
Module Pl := InteractionPlan.
Module Ca := ChooseActionRequest.
Module Rq := RequestConfigRequest.
Module As := AcknowledgeStatusRequest.
Module Ma := MentionAgentRequest.
Module Sa := SendTaskActionRequest.
Module Ic := InteractionCapabilities.

Definition IntentChooseAction := "choose_action".
Definition IntentRequestConfig := "request_config".
Definition IntentAcknowledgeStatus := "acknowledge_status".
Definition IntentMentionAgent := "mention_agent".
Definition IntentSendTaskAction := "send_task_action".

(** [strings.ToUpper]. *)
Class UpperCase := { upper_unicode : string → string }.
Definition ToUpper `{!UpperCase} (s : string) : string :=
  if is_ascii s then smap upper_ascii s else upper_unicode s.

(** ** Helpers *)

Definition inScope (scope targets : string) : bool :=
  (scope =s ScopeAll) ||
  existsb (λ item, existsb (λ target, TrimSpace item =s TrimSpace target) (Split targets ",")) (Split scope ",").

Definition toButtonElements (actions : list string) : list (gmap string string) :=
  imap (λ i action, <["callback" := "action_" +:+ FormatInt (Z.of_nat i)]> {["label" := action]}) actions.

Fixpoint numbered (i : Z) (items : list string) : string :=
  match items with
  | [] => ""
  | item :: items => FormatInt i +:+ ". " +:+ item +:+ newline +:+ numbered (i + 1) items
  end.

Definition formatNumberedList (prompt : string) (items : list string) : string :=
  prompt +:+ newline +:+ numbered 1 items.

Definition config_line (examples : gmap string string) (field : string) : string :=
  "- " +:+ field +:+
  match examples !! field with Some example => " (example: " +:+ example +:+ ")" | None => "" end +:+ newline.

Definition formatConfigRequest (prompt : string) (fields : list string) (examples : gmap string string) : string :=
  prompt +:+ newline +:+ newline +:+ "Required fields:" +:+ newline +:+ Join (map (config_line examples) fields) "".

Definition formatTaskCommand (taskID action : string) : string := "/task " +:+ action +:+ " " +:+ taskID.

Section planner.
Context {Uni : Unicode} {Up : UpperCase}.

Definition formatStatusLine (runID status message : string) : string :=
  "[" +:+ runID +:+ "] " +:+ ToUpper status +:+ ": " +:+ message.

(** The map [NewInteractionPlanner] builds. *)
Definition capabilities : gmap string InteractionCapabilities :=
  foldl (λ m schema,
    match ProviderSchema.InteractionCapabilities schema with
    | Some caps => <[ProviderSchema.Provider schema := caps]> m
    | None => m
    end) ∅ ListProviders.

(** The plan of a known provider; [None] is the error for an unknown one. *)
Definition plan_for (intent provider : string)
    (render : InteractionCapabilities → option RichContent * string) : option InteractionPlan :=
  match capabilities !! CanonicalProvider provider with
  | None => None
  | Some caps =>
      match render caps with
      | (Some rich, _) => Some (Pl.mk intent (CanonicalProvider provider) "rich" (Some rich) "")
      | (None, text) => Some (Pl.mk intent (CanonicalProvider provider) "fallback" None text)
      end
  end.

(** Rich content if the capability is there and reaches the targets. *)
Definition rich_if {C} (cap : option C) (scope : C → string) (targets : string) (also : bool)
    (rich : RichContent) : option RichContent :=
  match cap with
  | Some c => if inScope (scope c) targets && also then Some rich else None
  | None => None
  end.

Definition PlanChooseAction (provider : string) (req : ChooseActionRequest) : option InteractionPlan :=
  plan_for IntentChooseAction provider (λ caps,
    (rich_if (Ic.InlineButtons caps) InlineButtonsCapability.Scope "dm,group" true
       (Rc.mk "inline_buttons" (toButtonElements (Ca.Actions req)) {["prompt" := WStr (Ca.Prompt req)]}),
     formatNumberedList (Ca.Prompt req) (Ca.Actions req))).

Definition PlanRequestConfig (provider : string) (req : RequestConfigRequest) : option InteractionPlan :=
  plan_for IntentRequestConfig provider (λ _,
    (None, formatConfigRequest (Rq.Prompt req) (Rq.Fields req) (Rq.Examples req))).

Definition PlanAcknowledgeStatus (provider : string) (req : AcknowledgeStatusRequest) : option InteractionPlan :=
  plan_for IntentAcknowledgeStatus provider (λ caps,
    (rich_if (Ic.MessageEdit caps) MessageEditCapability.Scope "dm,group" (As.CanEdit req)
       (Rc.mk "status_card" []
          (<["run_id" := WStr (As.RunID req)]> (<["status" := WStr (As.Status req)]>
            (<["message" := WStr (As.Message req)]> {["editable" := WBool true]})))),
     formatStatusLine (As.RunID req) (As.Status req) (As.Message req))).

Definition PlanMentionAgent (provider : string) (req : MentionAgentRequest) : option InteractionPlan :=
  plan_for IntentMentionAgent provider (λ caps,
    (rich_if (Ic.Mentions caps) MentionsCapability.Scope "group" (Ma.IsGroup req)
       (Rc.mk "mention" []
          (<["agent_name" := WStr (Ma.AgentName req)]> {["channel_id" := WStr (Ma.ChannelID req)]})),
     "@" +:+ Ma.AgentName req)).

Definition PlanSendTaskAction (provider : string) (req : SendTaskActionRequest) : option InteractionPlan :=
  plan_for IntentSendTaskAction provider (λ caps,
    (rich_if (Ic.NativeCommands caps) NativeCommandsCapability.Scope "all" true
       (Rc.mk "command" [] (<["task_id" := WStr (Sa.TaskID req)]> {["action" := WStr (Sa.Action req)]})),
     formatTaskCommand (Sa.TaskID req) (Sa.Action req))).

(** ** Every plan is rich or text, never both *)

Definition plan_ok (p : InteractionPlan) : Prop :=
  (Pl.RenderMode p = "rich" ∧ is_Some (Pl.RichContent p) ∧ Pl.FallbackText p = "") ∨
  (Pl.RenderMode p = "fallback" ∧ Pl.RichContent p = None).

Lemma plan_for_ok intent provider render p : plan_for intent provider render = Some p → plan_ok p.
Proof.
  unfold plan_for. destruct (capabilities !! _) as [caps|]; [|done].
  destruct (render caps) as [[rich|] text]; intros [= <-]; [left; cbn; split_and!; [done|by eexists|done]|by right].
Qed.

(** Buttons are only planned for a provider that can call back from a chat. *)
Lemma PlanChooseAction_rich provider req p :
  PlanChooseAction provider req = Some p → Pl.RenderMode p = "rich" →
  ∃ caps b, capabilities !! CanonicalProvider provider = Some caps ∧ Ic.InlineButtons caps = Some b ∧
    inScope (InlineButtonsCapability.Scope b) "dm,group" = true.
Proof.
  unfold PlanChooseAction, plan_for, rich_if. destruct (capabilities !! _) as [caps|]; [|done].
  destruct (Ic.InlineButtons caps) as [b|] eqn:Eb; [|intros [= <-]; done].
  destruct (inScope _ _) eqn:Es; cbn [andb]; intros [= <-]; [|done]. intros _. by exists caps, b.
Qed.

End planner.

Definition ascii_upper : UpperCase := {| upper_unicode := smap upper_ascii |}.

Example telegram_buttons :
  option_map Pl.RenderMode (PlanChooseAction (Uni := ascii_unicode) "Telegram" (Ca.mk "Pick" ["Yes"; "No"]))
  = Some "rich".
Proof. vm_compute. reflexivity. Qed.
Example wechat_list :
  option_map Pl.FallbackText (PlanChooseAction (Uni := ascii_unicode) "wechat" (Ca.mk "Pick" ["Yes"; "No"]))
  = Some ("Pick" +:+ newline +:+ "1. Yes" +:+ newline +:+ "2. No" +:+ newline).
Proof. vm_compute. reflexivity. Qed.
