(* ===== verification/ImCoord.v ===== *)
(** * The coordinator of inbound messages ([internal/imcoord/types.go, coordinator.go], [internal/imauth])

    What becomes of a draft: it is dropped when it is invalid, older than the process or
    already seen; it needs an approved subscription where the endpoint requires one; a
    slash command is answered, and anything else is stored as a message, in the turn the
    session's queue gives it.  [Handle] is split at the queue ([SessionQueue]):
    [handle_begin] runs up to it, [message_body] is the function the queue runs, and
    [handle_end] what follows when the queue answers.  The clock readings and the drawn
    tokens and identifiers of a call are the record [Draws]; the loader of attachments,
    which reads files, is the parameter [Loader]. *)
From S2P Require Import Prelude GoStr GoText Sql Json JsonValue.
From S2P Require Import Models Schema Store Frame Endpoints ImChats Messages ImInbound.
#[local] Open Scope go_scope.
Module MsgS := Models.Message.
Module IeS := Models.InteractionEndpoint.

Definition NewToken_text (random : string) : string := "nk_" +:+ random.
Definition HashToken `{!Sha256} (token : string) : string := "sha256:" +:+ Sum256_hex (TrimSpace token).
Definition TokenPrefix (token : string) : string :=
  let token := TrimSpace token in if String.length token <=? 10 then token else stake 10 token.

(** ** Drafts *)

Definition normalizedJSON (raw : string) : string :=
  let raw := TrimSpace raw in
  if raw =s "" then "{}" else from_opt raw (Compact raw).

Definition normalizeDraft (d : Draft) : Draft :=
  let d := Dr.set_Target (TrimSpace (Dr.Target d)) d in
  let d := Dr.set_ThreadID (TrimSpace (Dr.ThreadID d)) d in
  let d := Dr.set_Role (TrimSpace (Dr.Role d)) d in
  let d := if Dr.Role d =s "" then Dr.set_Role "user" d else d in
  let d := Dr.set_Content (TrimSpace (Dr.Content d)) d in
  let d := Dr.set_ReplyToMessageID (TrimSpace (Dr.ReplyToMessageID d)) d in
  let d := Dr.set_SourceEndpointID (TrimSpace (Dr.SourceEndpointID d)) d in
  let d := Dr.set_ExternalMessageID (TrimSpace (Dr.ExternalMessageID d)) d in
  let d := if (Dr.ReceivedUnix d <? 0)%Z then Dr.set_ReceivedUnix 0 d else d in
  let d := Dr.set_MetadataJSON (normalizedJSON (Dr.MetadataJSON d)) d in
  let d := Dr.set_AttachmentIDs (cleanStrings (Dr.AttachmentIDs d)) d in
  Dr.set_Sender (NormalizeSender (Dr.Sender d)) d.

(** The problems the error joins; [] is no error. *)
Definition validateDraft (d : Draft) : list string :=
  let d := normalizeDraft d in
  let check (bad : bool) (text : string) := if bad then [text] else [] in
  check (Dr.Target d =s "") "target is required" ++
  check (Dr.SourceEndpointID d =s "") "source endpoint id is required" ++
  check (Dr.ExternalMessageID d =s "") "external message id is required" ++
  check (Sn.ExternalID (Dr.Sender d) =s "") "sender external id is required" ++
  check ((Dr.Content d =s "") && (length (Dr.AttachmentIDs d) =? 0)) "content or attachments are required" ++
  check (negb (Valid (Dr.MetadataJSON d))) "metadata json must be valid".

Definition SessionKey (d : Draft) : string :=
  let d := normalizeDraft d in
  if Dr.ThreadID d <>s "" then Dr.Target d +:+ ":" +:+ Dr.ThreadID d
  else if Sn.ExternalID (Dr.Sender d) <>s ""
  then Dr.Target d +:+ ":" +:+ Dr.SourceEndpointID d +:+ ":" +:+ Sn.ExternalID (Dr.Sender d)
  else Dr.Target d +:+ ":" +:+ Dr.SourceEndpointID d.

Definition draftToMessage (d : Draft) (attachments : list Att.Attachment) : MsgS.Message :=
  let d := normalizeDraft d in
  MsgS.mk "" (Dr.Target d) (Dr.ThreadID d) (Dr.Role d) (Dr.Content d) (Dr.ReplyToMessageID d) "" ""
    (Sn.DisplayName (Dr.Sender d)) "endpoint" (Dr.SourceEndpointID d) (Dr.ExternalMessageID d)
    (Dr.MetadataJSON d) attachments (Dr.SourceEndpointID d +:+ ":" +:+ Dr.ExternalMessageID d) 0 "".

Definition draftDedupeMessage (d : Draft) : Message :=
  Ms.set_EndpointID (Dr.SourceEndpointID d) (Ms.set_ExternalMessageID (Dr.ExternalMessageID d) Ms.zero).

(** ** Commands *)

Section commands.
Context {Uni : Unicode}.

Definition normalizeCommand (command : string) : string :=
  let c := ToLower (TrimSpace command) in
  if c =s "/sub" then "/subscribe"
  else if c =s "/unsub" then "/unsubscribe"
  else if c =s "/v" then "/verbose"
  else if c =s "/h" then "/help"
  else c.

Definition parseCommand (content : string) : string * string :=
  let content := TrimSpace content in
  if negb (HasPrefix content "/") then ("", "")
  else let '(command, args, _) := Cut content " " in (normalizeCommand command, TrimSpace args).

(** ** The policy of a chat *)

Record chatPolicy := mkPolicy {
  RequireSubscription : bool;
  Provider : string;
  DefaultTarget : string;
  DefaultThreadID : string
}.
Definition no_policy : chatPolicy := mkPolicy false "" "" "".

Record chatIdentity := mkIdentity {
  ConversationID : string;
  ExternalThreadID : string;
  ChatTitle : string
}.

Definition boolConfig (raw : gmap string json) (key : string) (fallback : bool) : bool :=
  match raw !! key with
  | Some (JBool b) => b
  | Some (JStr s) =>
      let v := ToLower (TrimSpace s) in
      if (v =s "1") || (v =s "true") || (v =s "yes") || (v =s "on") then true
      else if (v =s "0") || (v =s "false") || (v =s "no") || (v =s "off") then false
      else fallback
  | _ => fallback
  end.

Definition stringConfig (raw : gmap string json) (key : string) : string :=
  match raw !! key with Some (JStr s) => TrimSpace s | _ => "" end.

(** A configuration that does not decode counts as far as it does. *)
Definition chatPolicyFromEndpoint (endpoint : IeS.InteractionEndpoint) : chatPolicy :=
  let raw : gmap string json :=
    if TrimSpace (IeS.ConfigJSON endpoint) <>s ""
    then (Unmarshal (dec_map JNull dec_any) (IeS.ConfigJSON endpoint) ∅).1 else ∅ in
  mkPolicy (boolConfig raw "require_subscription" false || boolConfig raw "chat_auth_required" false ||
            boolConfig raw "require_chat_authorization" false)
    (TrimSpace (IeS.Provider endpoint)) (stringConfig raw "default_target") (stringConfig raw "default_thread_id").

Definition conversation_fields : list (field chatIdentity) :=
  [("external_id", into ConversationID (λ v i, mkIdentity v (ExternalThreadID i) (ChatTitle i)) dec_string);
   ("display_name", into ChatTitle (λ v i, mkIdentity (ConversationID i) (ExternalThreadID i) v) dec_string);
   ("external_thread_id", into ExternalThreadID (λ v i, mkIdentity (ConversationID i) v (ChatTitle i)) dec_string)].

Definition chatIdentityFromDraft (d : Draft) : chatIdentity :=
  let raw := (Unmarshal (dec_struct [("im", dec_struct [("conversation", dec_struct conversation_fields)])])
    (Dr.MetadataJSON d) (mkIdentity "" "" "")).1 in
  let conversation := TrimSpace (ConversationID raw) in
  let title := TrimSpace (ChatTitle raw) in
  mkIdentity (if conversation =s "" then TrimSpace (Sn.ExternalID (Dr.Sender d)) else conversation)
    (TrimSpace (ExternalThreadID raw))
    (if title =s "" then TrimSpace (Sn.DisplayName (Dr.Sender d)) else title).

Definition applySubscriptionRoute (d : Draft) (sub : Sb.IMChatSubscription) : Draft :=
  let d := if TrimSpace (Sb.Target sub) <>s "" then Dr.set_Target (TrimSpace (Sb.Target sub)) d else d in
  if TrimSpace (Sb.ThreadID sub) <>s "" then Dr.set_ThreadID (TrimSpace (Sb.ThreadID sub)) d else d.

End commands.

(** ** The coordinator *)

Inductive coord_error :=
| ErrInvalidDraft (problems : list string)
| ErrAborted
| ErrStaleDraft
| ErrUnauthorizedChat
| ErrAuthToken
| ErrStore (e : error)
| ErrLoad
| ErrContext.

Definition is_conflict (e : coord_error) : bool :=
  match e with ErrStore ErrConflict => true | _ => false end.

Record Result := mkResult {
  HandledCommand : bool;
  Command : string;
  CommandArgs : string;
  SessionKeyOf : string;
  StoredMessage : MsgS.Message;
  Response : string
}.
Definition no_result : Result := mkResult false "" "" "" MsgS.zero "".
Definition answer (command args key response : string) : Result :=
  mkResult true command args key MsgS.zero response.

(** What a call reads and draws: the clock at the mark and at the expiry of a key in
    nanoseconds, at writes in seconds, the token of the generator and that of
    [imauth.NewToken] ("" when it fails), a fresh identifier, and whether the session has
    an active message to abort. *)
Record Draws := mkDraws {
  at_mark : Z;
  at_expiry : Z;
  at_write : Z;
  token1 : string;
  token2 : string;
  fresh : string;
  aborted : bool
}.

Class Loader := {
  loadAttachments : string → list string → option (list Att.Attachment)
}.

Record Coordinator `{!SqlEngine} := mkCoord { store : Store; dedupe : DedupeCache }.
Arguments mkCoord {_} _ _.
Arguments store {_} _.
Arguments dedupe {_} _.

Section coordinator.
Context {Eng : SqlEngine} {Uni : Unicode} {Txt : TextLib} {Sha : Sha256} {Ld : Loader}.

(** The start of the process in nanoseconds; [None] is the zero time. *)
Variable startedAt : option Z.

Definition isStale (d : Draft) : bool :=
  match startedAt with
  | None => false
  | Some t =>
      negb (Dr.ReceivedUnix d =? 0)%Z && (Dr.ReceivedUnix d * 1000000000 <? t - 2 * 1000000000)%Z
  end.

Definition resolveChatPolicy (d : Draft) :
    M (chatPolicy * chatIdentity * Sb.IMChatSubscription * option coord_error) :=
  let identity := chatIdentityFromDraft d in
  try (GetInteractionEndpoint (Dr.SourceEndpointID d)) (λ res,
    match res with
    | inl ErrNotFound => mret (no_policy, identity, Sb.zero, None)
    | inl e => mret (no_policy, identity, Sb.zero, Some (ErrStore e))
    | inr endpoint =>
        let policy := chatPolicyFromEndpoint endpoint in
        if negb (RequireSubscription policy) then mret (policy, identity, Sb.zero, None)
        else
          try (GetIMChatSubscription (Dr.SourceEndpointID d) (ConversationID identity) (ExternalThreadID identity))
            (λ res,
              mret (match res with
                    | inl ErrNotFound => (policy, identity, Sb.zero, Some ErrUnauthorizedChat)
                    | inl e => (policy, identity, Sb.zero, Some (ErrStore e))
                    | inr sub =>
                        if negb (Sb.Subscribed sub) then (policy, identity, sub, Some ErrUnauthorizedChat)
                        else (policy, identity, sub, None)
                    end))
    end).

Definition handleSubscribe (draws : Draws) (d : Draft) (key : string) (identity : chatIdentity)
    (policy : chatPolicy) : M (Result * option coord_error) :=
  let token := TrimSpace (token1 draws) in
  let token := if token =s "" then token2 draws else token in
  if token =s "" then mret (no_result, Some ErrAuthToken)
  else
    let identity := if ConversationID identity =s "" then chatIdentityFromDraft d else identity in
    let expires := ((at_expiry draws + 600 * 1000000000) / 1000000000)%Z in
    try (CreateIMChatAuthRequest (at_write draws) (fresh draws)
      (Rq.mk "" (Dr.SourceEndpointID d) (Provider policy) (ConversationID identity) (ExternalThreadID identity)
        (ChatTitle identity) (Sn.ExternalID (Dr.Sender d)) (HashToken token) (TokenPrefix token)
        IMChatAuthRequestStatusPending (firstNonEmpty [Dr.Target d; DefaultTarget policy])
        (firstNonEmpty [Dr.ThreadID d; DefaultThreadID policy]) expires "" 0 0 0))
      (λ res, mret (match res with
        | inl e => (no_result, Some (ErrStore e))
        | inr _ =>
            (answer "/subscribe" "" key
               ("Authorization request created. Approve it in Nekode or bind with key: " +:+ token +:+
                ". This key expires in 10 minutes."), None)
        end)).

Definition handleCommand (draws : Draws) (d : Draft) (key command args : string) (identity : chatIdentity)
    (sub : Sb.IMChatSubscription) (policy : chatPolicy) : M (Result * option coord_error) :=
  let reply (text : string) := (answer command args key text, None) in
  let patched (patch : SbPatch.IMChatSubscriptionPatch) (text : string) :=
    try (UpdateIMChatSubscription (at_write draws) (Sb.ID sub) patch) (λ res,
      mret (match res with inl e => (no_result, Some (ErrStore e)) | inr _ => reply text end)) in
  if command =s "/subscribe" then handleSubscribe draws d key identity policy
  else if command =s "/unsubscribe" then
    if Sb.ID sub =s "" then mret (reply "This chat is not subscribed.")
    else patched (SbPatch.set_Subscribed (Some false) SbPatch.zero)
      "Unsubscribed. Send /subscribe to request access again."
  else if command =s "/verbose" then
    if Sb.ID sub =s "" then mret (reply "Please /subscribe first.")
    else
      let verbose := negb (Sb.Verbose sub) in
      patched (SbPatch.set_Verbose (Some verbose) SbPatch.zero)
        (if verbose then "Verbose mode: on." else "Verbose mode: off.")
  else if command =s "/help" then
    mret (reply "Commands: /subscribe, /unsubscribe, /verbose, /new, /agent <name>, /abort, /help.")
  else if command =s "/abort" then
    mret (reply (if aborted draws then "Aborted." else "No active message to abort."))
  else if command =s "/new" then mret (reply "New session requested.")
  else if command =s "/agent" then
    mret (reply (if args =s "" then "Agent routing requires an agent name or id." else "Agent routing requested."))
  else mret (reply "Unsupported command.").

(** ** Handling a draft *)

Inductive begun :=
| Finished (result : Result) (err : option coord_error)
| Queued (d : Draft) (key : string).

(** A computation of the store as a step of the coordinator. *)
Definition on_store {A} (m : M A) (w : Coordinator) : (error + A) * Coordinator :=
  let (res, s) := m (store w) in (res, mkCoord s (dedupe w)).

(** The computations of the coordinator catch every error themselves. *)
Definition finished (res : error + Result * option coord_error) : begun :=
  match res with inl e => Finished no_result (Some (ErrStore e)) | inr (r, err) => Finished r err end.

Definition forget (d : Draft) (w : Coordinator) : Coordinator :=
  mkCoord (store w) (Forget (draftDedupeMessage d) (dedupe w)).

Definition authorization_required : string :=
  "Authorization required. Send /subscribe in this chat, then approve the pending request in Nekode.".

(** From the resolved policy to the queue. *)
Definition dispatch (draws : Draws) (d : Draft) (policy : chatPolicy) (identity : chatIdentity)
    (sub : Sb.IMChatSubscription) (authErr : option coord_error) : M begun :=
  let key := SessionKey d in
  let (command, args) := parseCommand (Dr.Content d) in
  let command_or_queue (d : Draft) (key : string) : M begun :=
    if command <>s "" then
      res ← handleCommand draws d key command args identity sub policy;
      mret (Finished res.1 res.2)
    else mret (Queued d key) in
  if RequireSubscription policy then
    if command =s "/subscribe" then
      res ← handleSubscribe draws d key identity policy; mret (Finished res.1 res.2)
    else match authErr with
    | Some e => mret (Finished (answer command args key authorization_required) (Some e))
    | None => let d := applySubscriptionRoute d sub in command_or_queue d (SessionKey d)
    end
  else command_or_queue d key.

(** [Handle] up to the queue. *)
Definition handle_begin (draws : Draws) (draft : Draft) (w : Coordinator) : begun * Coordinator :=
  let d := normalizeDraft draft in
  match validateDraft d with
  | _ :: _ as problems => (Finished no_result (Some (ErrInvalidDraft problems)), w)
  | [] =>
      if isStale d then (Finished no_result (Some ErrStaleDraft), w)
      else
        let (was_seen, cache) := MarkSeen (at_mark draws) (draftDedupeMessage d) (dedupe w) in
        let w := mkCoord (store w) cache in
        if was_seen then (Finished no_result (Some (ErrStore ErrConflict)), w)
        else
          match on_store (resolveChatPolicy d) w with
          | (inl e, w) => (Finished no_result (Some (ErrStore e)), forget d w)
          | (inr (policy, identity, sub, authErr), w) =>
              match authErr with
              | Some ErrUnauthorizedChat | None =>
                  let (res, w) := on_store (dispatch draws d policy identity sub authErr) w in
                  (match res with inr b => b | inl e => Finished no_result (Some (ErrStore e)) end, w)
              | Some e => (Finished no_result (Some e), forget d w)
              end
          end
  end.

Definition createMessage (draws : Draws) (d : Draft) : M (coord_error + MsgS.Message) :=
  let attachments :=
    if length (Dr.AttachmentIDs d) =? 0 then Some [] else loadAttachments (Dr.Target d) (Dr.AttachmentIDs d) in
  match attachments with
  | None => mret (inl ErrLoad)
  | Some attachments =>
      try (CreateMessage (at_write draws) (fresh draws) (draftToMessage d attachments)) (λ res,
        mret (match res with inl e => inl (ErrStore e) | inr m => inr m end))
  end.

(** What the queue runs; [cancelled] is whether its context is done when it starts. *)
Definition message_body (draws : Draws) (cancelled : bool) (d : Draft) (key : string) (w : Coordinator) :
    (coord_error + Result) * Coordinator :=
  if cancelled then (inl ErrAborted, w)
  else
    match on_store (createMessage draws d) w with
    | (inr (inr message), w) => (inr (mkResult false "" "" key message ""), w)
    | (inr (inl e), w) => (inl e, if is_conflict e then w else forget d w)
    | (inl e, w) => (inl (ErrStore e), w)
    end.

(** What follows the queue's answer. *)
Definition handle_end (d : Draft) (answered : coord_error + Result) (w : Coordinator) :
    (Result * option coord_error) * Coordinator :=
  match answered with
  | inr result => ((result, None), w)
  | inl e => ((no_result, Some e), if is_conflict e then w else forget d w)
  end.

(** A call whose turn in the queue comes at once. *)
Definition Handle (draws : Draws) (cancelled : bool) (draft : Draft) (w : Coordinator) :
    (Result * option coord_error) * Coordinator :=
  match handle_begin draws draft w with
  | (Finished result err, w) => ((result, err), w)
  | (Queued d key, w) =>
      let (answered, w) := message_body draws cancelled d key w in handle_end d answered w
  end.

End coordinator.

(** ** Who is let in *)

Section safety.
Context {Eng : SqlEngine} {Laws : SqlLaws} {Uni : Unicode} {Txt : TextLib} {Sha : Sha256} {Ld : Loader}.
Variable startedAt : option Z.

#[local] Arguments TrimSpace : simpl never.

(** The subscription of the chat a draft comes from. *)
Definition subscription_of (d : Draft) (sub : Sb.IMChatSubscription) (s : Store) : Prop :=
  let identity := chatIdentityFromDraft d in
  bfilter (has_chat (TrimSpace (Dr.SourceEndpointID d)) (TrimSpace (ConversationID identity))
    (TrimSpace (ExternalThreadID identity))) (rows Sb.IMChatSubscription s) = [sub].

(** Where the endpoint of a draft requires it, the draft's chat has a subscription that is
    in force, and [routed] is the draft sent where the subscription says. *)
Definition authorized (d routed : Draft) (s : Store) : Prop :=
  ∀ endpoint, bfilter (λ r, IeS.ID r =s Dr.SourceEndpointID d) (rows IeS.InteractionEndpoint s) = [endpoint] →
  RequireSubscription (chatPolicyFromEndpoint endpoint) = true →
  ∃ sub, subscription_of d sub s ∧ Sb.Subscribed sub = true ∧ routed = applySubscriptionRoute d sub.

Lemma wp_GetIMChatSubscription e c x s (Q : error + Sb.IMChatSubscription → Store → Prop) :
  (∀ sub, bfilter (has_chat (TrimSpace e) (TrimSpace c) (TrimSpace x)) (rows Sb.IMChatSubscription s) = [sub] → Q (inr sub) s) →
  (∀ err, Q (inl err) s) → wp (GetIMChatSubscription e c x) Q s.
Proof.
  intros H1 H2. unfold GetIMChatSubscription. wp_steps; eauto.
  match goal with |- Q (inr (imChatSubscriptionFromEnt ?r)) s => destruct r end. by apply H1.
Qed.

Lemma wp_GetInteractionEndpoint id s (Q : error + IeS.InteractionEndpoint → Store → Prop) :
  (∀ endpoint, bfilter (λ r, IeS.ID r =s id) (rows IeS.InteractionEndpoint s) = [endpoint] → Q (inr endpoint) s) →
  (bfilter (λ r, IeS.ID r =s id) (rows IeS.InteractionEndpoint s) = [] → Q (inl ErrNotFound) s) →
  (∀ err, err ≠ ErrNotFound → Q (inl err) s) → wp (GetInteractionEndpoint id) Q s.
Proof.
  intros H1 H2 H3. unfold GetInteractionEndpoint. wp_steps; cbn; eauto.
  match goal with |- Q (inr (endpointFromEnt ?r)) s => destruct r end. by apply H1.
Qed.

(** What the resolved policy of a draft says. *)
Definition resolved (d : Draft) (s : Store) (policy : chatPolicy) (sub : Sb.IMChatSubscription)
    (authErr : option coord_error) : Prop :=
  (authErr = None → RequireSubscription policy = true → subscription_of d sub s ∧ Sb.Subscribed sub = true) ∧
  (authErr = Some ErrUnauthorizedChat → RequireSubscription policy = true) ∧
  (authErr = None → RequireSubscription policy = false → authorized d d s).

Lemma resolve_spec d s :
  wp (resolveChatPolicy d) (λ res s', s' = s ∧
    match res with
    | inr (policy, _, sub, authErr) => resolved d s policy sub authErr
    | inl _ => True
    end) s.
Proof.
  unfold resolveChatPolicy. cbv zeta. apply wp_try, wp_GetInteractionEndpoint.
  - intros endpoint He. destruct (RequireSubscription (chatPolicyFromEndpoint endpoint)) eqn:Er; cbn [negb].
    + apply wp_try, wp_GetIMChatSubscription.
      * intros sub Hs. apply wp_ret. split; [done|]. destruct (Sb.Subscribed sub) eqn:Es; cbn [negb].
        -- split_and!; [|done|congruence]. by split.
        -- by split_and!.
      * intros err. apply wp_ret. split; [done|]. by destruct err; split_and!.
    + apply wp_ret. split; [done|]. split_and!; [congruence|done|]. intros _ _ e He' Hr. congruence.
  - intros Hn. apply wp_ret. split; [done|]. split_and!; [done..|]. intros _ _ e He' Hr. congruence.
  - intros err Hne. destruct err; try done; (apply wp_ret; split; [done|]; by split_and!).
Qed.

Lemma dispatch_spec draws d policy identity sub authErr s b s' :
  dispatch draws d policy identity sub authErr s = (inr b, s') →
  match b with
  | Finished _ _ => True
  | Queued routed key =>
      s' = s ∧ (parseCommand (Dr.Content d)).1 = "" ∧ key = SessionKey routed ∧
      (if RequireSubscription policy then authErr = None ∧ routed = applySubscriptionRoute d sub else routed = d)
  end.
Proof.
  unfold dispatch. destruct (parseCommand (Dr.Content d)) as [command args]. cbv zeta.
  assert (∀ A (m : M A) (k : A → Result * option coord_error) b s',
    (res ← m; mret (Finished (k res).1 (k res).2)) s = (inr b, s') → ∃ r e, b = Finished r e) as F.
  { intros A m k b0 s0. unfold mbind, M_bind. destruct (m s) as [[?|?] ?]; [done|]. intros [= <- _]. by do 2 eexists. }
  assert (∀ routed key b s', (if command <>s "" then
      res ← handleCommand draws routed key command args identity sub policy; mret (Finished res.1 res.2)
    else mret (Queued routed key)) s = (inr b, s') →
    (∃ r e, b = Finished r e) ∨ b = Queued routed key ∧ s' = s ∧ command = "") as G.
  { intros routed key b0 s0. destruct (command <>s "") eqn:E.
    - intros H. left. exact (F _ _ (λ x, x) _ _ H).
    - intros [= <- <-]. right. by reflect_bools. }
  destruct (RequireSubscription policy).
  - destruct (command =s "/subscribe"); [intros H; destruct (F _ _ (λ x, x) _ _ H) as (? & ? & ->); done|].
    destruct authErr as [e|]; [intros [= <- _]; done|].
    intros [(? & ? & ->)|(-> & -> & ->)]%G; done.
  - intros [(? & ? & ->)|(-> & -> & ->)]%G; done.
Qed.

Lemma dispatch_untouched draws d policy identity sub authErr :
  untouched MessageRow (dispatch draws d policy identity sub authErr).
Proof. solve_untouched. Qed.

(** A draft that reaches the queue is valid, fresh, new to the cache and authorised, and
    nothing was written yet. *)
Lemma handle_begin_queued draws draft w routed key w' :
  handle_begin startedAt draws draft w = (Queued routed key, w') →
  store w' = store w ∧ validateDraft (normalizeDraft draft) = [] ∧ isStale startedAt (normalizeDraft draft) = false ∧
  (MarkSeen (at_mark draws) (draftDedupeMessage (normalizeDraft draft)) (dedupe w)).1 = false ∧
  dedupe w' = (MarkSeen (at_mark draws) (draftDedupeMessage (normalizeDraft draft)) (dedupe w)).2 ∧
  authorized (normalizeDraft draft) routed (store w) ∧ (parseCommand (Dr.Content (normalizeDraft draft))).1 = "".
Proof.
  unfold handle_begin. set (d := normalizeDraft draft). cbv zeta. destruct (validateDraft d) as [|p l]; [|done].
  destruct (isStale startedAt d); [done|].
  destruct (MarkSeen (at_mark draws) (draftDedupeMessage d) (dedupe w)) as [[] cache]; [done|].
  pose proof (resolve_spec d (store w)) as Hr. unfold wp in Hr. unfold on_store at 1. cbn [store dedupe].
  destruct (resolveChatPolicy d (store w)) as [[e|[[[policy identity] sub] authErr]] s]; cbn [fst snd] in Hr; [done|].
  destruct Hr as [-> (H1 & H2 & H3)].
  assert (match authErr with Some ErrUnauthorizedChat | None => True | Some _ => False end →
    (let (res, w0) := on_store (dispatch draws d policy identity sub authErr) (mkCoord (store w) cache) in
     (match res with inr b => b | inl e => Finished no_result (Some (ErrStore e)) end, w0)) = (Queued routed key, w') →
    store w' = store w ∧ [] = @nil string ∧ false = false ∧ false = false ∧ dedupe w' = cache ∧
    authorized d routed (store w) ∧ (parseCommand (Dr.Content d)).1 = "") as G.
  { intros Ha. unfold on_store. cbn [store dedupe].
    destruct (dispatch draws d policy identity sub authErr (store w)) as [[e|b] s] eqn:Ed; [done|]. intros [= -> <-].
    apply dispatch_spec in Ed as (-> & Hc & _ & Hp). split_and!; try done.
    destruct (RequireSubscription policy) eqn:Er.
    - destruct Hp as [-> ->]. intros e He _. destruct (H1 eq_refl eq_refl) as [Hs Hsub]. by exists sub.
    - subst routed. destruct authErr as [[]|]; try done; [|by apply H3]. specialize (H2 eq_refl). congruence. }
  destruct authErr as [[]|]; try done; by apply G.
Qed.

Lemma handle_begin_untouched draws draft w :
  get_tbl (R := MessageRow) (store (handle_begin startedAt draws draft w).2) = get_tbl (store w).
Proof.
  unfold handle_begin. set (d := normalizeDraft draft). cbv zeta. destruct (validateDraft d) as [|p l]; [|done].
  destruct (isStale startedAt d); [done|].
  destruct (MarkSeen (at_mark draws) (draftDedupeMessage d) (dedupe w)) as [[] cache]; [done|].
  pose proof (resolve_spec d (store w)) as Hr. unfold wp in Hr. unfold on_store at 1. cbn [store dedupe].
  destruct (resolveChatPolicy d (store w)) as [[e|[[[policy identity] sub] authErr]] s]; cbn [fst snd] in Hr;
    destruct Hr as [-> _]; [done|].
  pose proof (dispatch_untouched draws d policy identity sub authErr (store w)) as Hu.
  destruct authErr as [[]|]; try done; unfold on_store; cbn [store dedupe];
    destruct (dispatch _ _ _ _ _ _ _); done.
Qed.


(** ** Repeated deliveries *)

Definition draft_key (d : Draft) : string := DedupeKey (draftDedupeMessage (normalizeDraft d)).

Lemma validateDraft_key d : validateDraft d = [] → DedupeKey (draftDedupeMessage d) ≠ "".
Proof.
  unfold validateDraft, DedupeKey. cbv zeta. set (n := normalizeDraft d).
  change (Ms.EndpointID (draftDedupeMessage d)) with (Dr.SourceEndpointID d).
  change (Ms.ExternalMessageID (draftDedupeMessage d)) with (Dr.ExternalMessageID d).
  assert (Dr.SourceEndpointID n = TrimSpace (Dr.SourceEndpointID d) ∧
          Dr.ExternalMessageID n = TrimSpace (Dr.ExternalMessageID d)) as [<- <-].
  { subst n. destruct d. unfold normalizeDraft. cbn. repeat case_match; cbn; done. }
  intros H. apply app_eq_nil in H as [_ H]. apply app_eq_nil in H as [H1 H]. apply app_eq_nil in H as [H2 _].
  destruct (Dr.SourceEndpointID n =s "") eqn:E1; [done|]. destruct (Dr.ExternalMessageID n =s "") eqn:E2; [done|].
  cbn [orb]. apply eqb_neq_str in E1. by destruct (Dr.SourceEndpointID n).
Qed.

Lemma MarkSeen_marked now m c key t :
  seen c !! key = Some t → (now - t ≤ cache_ttl c)%Z → DedupeKey m = key → key ≠ "" → (MarkSeen now m c).1 = true.
Proof.
  intros Hk Ht Hm Hn. unfold MarkSeen. cbv zeta. rewrite Hm. apply eqb_neq_str in Hn as ->.
  assert (filter (λ p : string * Z, ¬ (cache_ttl c < now - p.2)%Z) (seen c) !! key = Some t) as ->; [|done].
  apply map_lookup_filter_Some. split; [done|]. cbn. lia.
Qed.

(** The mark of [key] is in the cache, with its lifetime. *)
Definition marked (key : string) (t ttl : Z) (w : Coordinator) : Prop :=
  seen (dedupe w) !! key = Some t ∧ cache_ttl (dedupe w) = ttl.

Lemma forget_marked d key t ttl w :
  DedupeKey (draftDedupeMessage d) ≠ key → marked key t ttl w → marked key t ttl (forget d w).
Proof.
  intros Hne [Hk Ht]. unfold marked, forget, Forget. cbn [dedupe]. cbv zeta.
  destruct (_ =s ""); [done|]. cbn. by rewrite lookup_delete_ne.
Qed.

Lemma on_store_dedupe {A} (m : M A) w : dedupe (on_store m w).2 = dedupe w.
Proof. unfold on_store. by destruct (m (store w)). Qed.

Lemma route_key d sub : DedupeKey (draftDedupeMessage (applySubscriptionRoute d sub)) = DedupeKey (draftDedupeMessage d).
Proof. destruct d. unfold applySubscriptionRoute. by repeat case_match. Qed.

Lemma begin_queued_key draws draft w routed key w' :
  handle_begin startedAt draws draft w = (Queued routed key, w') →
  DedupeKey (draftDedupeMessage routed) = draft_key draft.
Proof.
  unfold handle_begin, draft_key. set (d := normalizeDraft draft). cbv zeta. destruct (validateDraft d); [|done].
  destruct (isStale startedAt d); [done|]. destruct (MarkSeen _ _ _) as [[] cache]; [done|].
  destruct (on_store (resolveChatPolicy d) _) as [[e|[[[policy identity] sub] authErr]] w1]; [done|].
  assert (∀ w1, (let (res, w0) := on_store (dispatch draws d policy identity sub authErr) w1 in
     (match res with inr b => b | inl e => Finished no_result (Some (ErrStore e)) end, w0)) = (Queued routed key, w') →
    DedupeKey (draftDedupeMessage routed) = DedupeKey (draftDedupeMessage d)) as G.
  { intros w2. unfold on_store. destruct (dispatch _ _ _ _ _ _ _) as [[e|b] s] eqn:Ed; [done|]. intros [= -> _].
    apply dispatch_spec in Ed as (_ & _ & _ & Hp). destruct (RequireSubscription policy); [|by subst].
    destruct Hp as [_ ->]. apply route_key. }
  destruct authErr as [[]|]; try done; apply G.
Qed.

(** Up to the queue a call either finds its own mark, or sets it and may take it back. *)
Lemma begin_marks draws draft key t ttl w :
  key ≠ "" → marked key t ttl w → (at_mark draws - t ≤ ttl)%Z →
  marked key t ttl (handle_begin startedAt draws draft w).2 ∧
  (draft_key draft = key → ∃ r e, (handle_begin startedAt draws draft w).1 = Finished r (Some e) ∧
    store (handle_begin startedAt draws draft w).2 = store w).
Proof.
  intros Hn [Hk Ht] Hle. unfold handle_begin, draft_key. set (d := normalizeDraft draft). cbv zeta.
  destruct (validateDraft d); [|split; [done|]; cbn; eauto].
  destruct (isStale startedAt d); [split; [done|]; cbn; eauto|]. subst ttl.
  pose proof (MarkSeen_keeps (at_mark draws) (draftDedupeMessage d) _ _ _ Hk Hle) as Hkeep.
  pose proof (MarkSeen_ttl (at_mark draws) (draftDedupeMessage d) (dedupe w)) as Httl.
  pose proof (λ H, MarkSeen_marked (at_mark draws) (draftDedupeMessage d) _ _ _ Hk Hle H Hn) as Hseen.
  destruct (MarkSeen _ _ _) as [b cache]; cbn [fst snd] in *.
  assert (marked key t (cache_ttl (dedupe w)) (mkCoord (store w) cache)) as Hm
    by (split; [done|]; unfold cache_ttl; cbn; by rewrite Httl).
  destruct b; [split; [done|]; cbn; eauto|].
  assert (DedupeKey (draftDedupeMessage d) ≠ key) as Hne by (intros H; by specialize (Hseen H)).
  split; [|done]. pose proof (on_store_dedupe (resolveChatPolicy d) (mkCoord (store w) cache)) as Hd.
  destruct (on_store (resolveChatPolicy d) _) as [[e|[[[policy identity] sub] authErr]] w1]; cbn [snd] in Hd;
    assert (marked key t (cache_ttl (dedupe w)) w1) as Hm1 by (unfold marked; by rewrite Hd);
    [by apply forget_marked|].
  pose proof (on_store_dedupe (dispatch draws d policy identity sub authErr) w1) as Hd2.
  destruct authErr as [[]|]; try (by apply forget_marked);
    destruct (on_store (dispatch _ _ _ _ _ _) w1) as [res w2]; cbn [snd] in *; unfold marked; by rewrite Hd2.
Qed.

Lemma message_body_marked draws cancelled routed skey key t ttl w :
  DedupeKey (draftDedupeMessage routed) ≠ key → marked key t ttl w →
  marked key t ttl (message_body draws cancelled routed skey w).2.
Proof.
  intros Hne Hm. unfold message_body. destruct cancelled; [done|].
  pose proof (on_store_dedupe (createMessage draws routed) w) as Hd.
  destruct (on_store (createMessage draws routed) w) as [[e|[e|msg]] w1]; cbn [snd] in *;
    assert (marked key t ttl w1) as Hm1 by (unfold marked; by rewrite Hd); try done.
  cbn. destruct (is_conflict e); [done|]. by apply forget_marked.
Qed.

Lemma handle_end_marked routed answered key t ttl w :
  DedupeKey (draftDedupeMessage routed) ≠ key → marked key t ttl w → marked key t ttl (handle_end routed answered w).2.
Proof.
  intros Hne Hm. destruct answered as [e|r]; [|done]. cbn. destruct (is_conflict e); [done|]. by apply forget_marked.
Qed.

Lemma Handle_marked draws cancelled draft key t ttl w :
  key ≠ "" → marked key t ttl w → (at_mark draws - t ≤ ttl)%Z →
  marked key t ttl (Handle startedAt draws cancelled draft w).2 ∧
  (draft_key draft = key → (∃ r e, (Handle startedAt draws cancelled draft w).1 = (r, Some e)) ∧
    store (Handle startedAt draws cancelled draft w).2 = store w).
Proof.
  intros Hn Hm Hle. unfold Handle. destruct (begin_marks draws draft key t ttl w Hn Hm Hle) as [H1 H2].
  destruct (handle_begin startedAt draws draft w) as [[r e|routed skey] w1] eqn:E; cbn [fst snd] in *.
  - split; [done|]. intros (? & ? & [= -> ->] & Hs)%H2. eauto.
  - assert (DedupeKey (draftDedupeMessage routed) ≠ key) as Hne.
    { rewrite (begin_queued_key _ _ _ _ _ _ E). intros H. destruct (H2 H) as (? & ? & ? & _). done. }
    pose proof (message_body_marked draws cancelled routed skey key t ttl w1 Hne H1) as Hb.
    destruct (message_body draws cancelled routed skey w1) as [answered w2]. split; [by apply handle_end_marked|].
    intros H. destruct (H2 H) as (? & ? & ? & _). done.
Qed.

(** A call without an error leaves its mark. *)
Lemma Handle_marks draws cancelled draft w r w' :
  Handle startedAt draws cancelled draft w = ((r, None), w') →
  draft_key draft ≠ "" ∧ marked (draft_key draft) (at_mark draws) (cache_ttl (dedupe w)) w'.
Proof.
  intros H. assert (validateDraft (normalizeDraft draft) = []) as Hv.
  { revert H. unfold Handle, handle_begin. cbv zeta. by destruct (validateDraft (normalizeDraft draft)). }
  pose proof (validateDraft_key _ Hv) as Hk. split; [done|]. revert H.
  unfold Handle, handle_begin, draft_key. set (d := normalizeDraft draft) in *. cbv zeta. rewrite Hv.
  destruct (isStale startedAt d); [done|].
  destruct (MarkSeen (at_mark draws) (draftDedupeMessage d) (dedupe w)) as [[] cache] eqn:Em; [done|].
  assert (marked (DedupeKey (draftDedupeMessage d)) (at_mark draws) (cache_ttl (dedupe w)) (mkCoord (store w) cache)) as Hm.
  { revert Em. unfold MarkSeen. cbv zeta. apply eqb_neq_str in Hk as ->. case_match; [done|]. intros [= <-].
    split; [apply lookup_insert_eq|done]. }
  pose proof (on_store_dedupe (resolveChatPolicy d) (mkCoord (store w) cache)) as Hd.
  destruct (on_store (resolveChatPolicy d) _) as [[e|[[[policy identity] sub] authErr]] w1]; [done|]. cbn [snd] in Hd.
  pose proof (on_store_dedupe (dispatch draws d policy identity sub authErr) w1) as Hd2.
  destruct authErr as [[]|]; try done;
    destruct (on_store (dispatch _ _ _ _ _ _) w1) as [[e|[r0 e0|routed skey]] w2]; cbn [snd] in *; try done;
    [intros [= _ _ <-]; unfold marked; by rewrite Hd2, Hd| |intros [= _ _ <-]; unfold marked; by rewrite Hd2, Hd|];
    unfold message_body; (destruct cancelled; [done|]);
    pose proof (on_store_dedupe (createMessage draws routed) w2) as Hd3;
    destruct (on_store (createMessage draws routed) w2) as [[e|[e|msg]] w3]; try done;
    intros [= _ <-]; unfold marked; cbn [snd] in Hd3; by rewrite Hd3, Hd2, Hd.
Qed.

(** Calls one after the other. *)
Record attempt := mkAttempt { a_draws : Draws; a_cancelled : bool; a_draft : Draft }.

Definition attempt_on (w : Coordinator) (a : attempt) : Coordinator :=
  (Handle startedAt (a_draws a) (a_cancelled a) (a_draft a) w).2.


End safety.

(** ** Concrete calls *)

#[local] Existing Instance list_engine.
#[local] Existing Instance list_engine_laws.
#[local] Existing Instance ascii_unicode.
#[local] Existing Instance no_text.

Definition copy_sum : Sha256 := {| Sum256_hex s := s |}.
Definition no_files : Loader := {| loadAttachments _ _ := None |}.
#[local] Existing Instance copy_sum.
#[local] Existing Instance no_files.

Definition seconds (n : Z) : Z := n * 1000000000.
Definition draws_at (n : Z) (id : string) : Draws := mkDraws (seconds n) (seconds n) n ("key-" +:+ id) "" id false.
Definition sample_draft (id content : string) : Draft :=
  Dr.mk "#ops" "" "" content "" "ep" id 0 "" [] (Sn.set_ExternalID "u1" Sn.zero).
Definition no_state : Coordinator := mkCoord empty_store (mkCache 0 ∅).
Definition messages_of (w : Coordinator) : list string := MessageRow.Content <$> rows MessageRow (store w).

Definition locked_endpoint : IeS.InteractionEndpoint :=
  IeS.set_ID "ep" (IeS.set_ConfigJSON ("{" +:+ q "require_subscription" +:+ ":" +:+ q "yes" +:+ "}") IeS.zero).
Definition locked_state : Coordinator := mkCoord (set_endpoints [locked_endpoint] empty_store) (mkCache 0 ∅).


(** An endpoint that requires subscriptions stores nothing from a stranger. *)
Example stranger_is_refused :
  let res := Handle None (draws_at 5 "a") false (sample_draft "m1" "hello") locked_state in
  res.1.2 = Some ErrUnauthorizedChat ∧ messages_of res.2 = [].
Proof. vm_compute. done. Qed.

Definition first_call := Handle None (draws_at 5 "a") false (sample_draft "m1" "hello") no_state.
Definition other_calls : list attempt := [mkAttempt (draws_at 20 "b") false (sample_draft "m2" "there")].


(** A redelivery a minute later is stored a second time: nothing but the cache tells that
    it was stored before. *)
Example late_redelivery_is_stored_again :
  let w1 := (Handle None (draws_at 5 "a") false (sample_draft "m1" "hello") no_state).2 in
  messages_of (Handle None (draws_at 66 "b") false (sample_draft "m1" "hello") w1).2 = ["hello"; "hello"].
Proof. vm_compute. reflexivity. Qed.

(** A command that fails is not forgotten: its redelivery is dropped as a duplicate. *)
Example failed_command_is_lost :
  let w1 := (Handle None (draws_at 5 "a") false (sample_draft "m1" "/subscribe") no_state).2 in
  let failed := Handle None (draws_at 6 "a") false (sample_draft "m2" "/sub") w1 in
  failed.1.2 = Some (ErrStore ErrConflict) ∧
  (Handle None (draws_at 7 "b") false (sample_draft "m2" "/sub") failed.2).1.2 = Some (ErrStore ErrConflict) ∧
  length (rows Rq.IMChatAuthRequest (store (Handle None (draws_at 7 "b") false (sample_draft "m2" "/sub") failed.2).2)) = 1.
Proof. vm_compute. done. Qed.
