(* ===== verification/HttpRooms.v ===== *)
(** * Rooms, messages and the inbox over REST ([internal/server/server.go])

    Who may read and manage a room, the handlers of rooms and members, and the handlers of
    messages, saved messages and threads. *)
From S2P Require Import Prelude GoStr GoText Json JsonValue Sql Models Schema Store Frame.
From S2P Require Import Proto Rpc RpcConv RpcAgents RpcMessages.
From S2P Require Import Users Auth Channels Tasks Messages Threads Http Media HttpBase.

#[local] Open Scope go_scope.

(** ** Who may do what in a room *)

(** The package's [isPrivateChannel]: a room that is not stored is private by its name. *)
Definition isPrivateName `{!Unicode} (target : string) : bool :=
  let name := ToLower (TrimPrefix (TrimSpace target) "#") in
  HasPrefix name "private-" || HasPrefix name "priv-".

Definition canManageChannels (user : User.User) : bool :=
  EqualFold (User.Role user) "owner" || EqualFold (User.Role user) "admin".

Definition pathChannelTarget (r : http_request) : string :=
  let target := TrimSpace (PathValue r "target") in
  if target =s "" then "" else "#" +:+ TrimPrefix target "#".

Section rooms.
Context {Eng : SqlEngine} {Uni : Unicode} {Txt : TextLib} {Ord : MapOrder} {Fl : Floats} {PJ : ProtoJSON} {E : Env}.

Definition isPrivateChannel (target : string) : M bool :=
  try (GetChannel target) (λ res,
  mret match res with
       | inr channel => Sum.Visibility channel =s "private"
       | inl _ => isPrivateName target
       end).

(** The first member that is this account. *)
Fixpoint member_role (userID : string) (members : list Mem.ChannelMember) : option string :=
  match members with
  | [] => None
  | member :: members =>
      if (Mem.Kind member =s "human") && (Mem.MemberID member =s userID) then Some (Mem.Role member)
      else member_role userID members
  end.

(** The role an account has where no list of members decides it. *)
Definition open_role (target : string) : M string :=
  private ← isPrivateChannel target;
  mret (if private : bool then "" else "member").

Definition channelRoleFor (user : User.User) (target : string) : M string :=
  if canManageChannels user then mret "admin"
  else
    try (Channels.ListChannelMembers target 200) (λ res,
    match res with
    | inl _ => open_role target
    | inr members =>
        match member_role (User.ID user) members with
        | Some role => mret role
        | None => if 0 <? length members then mret "" else open_role target
        end
    end).

Definition canReadChannel (user : User.User) (target : string) : M bool :=
  private ← isPrivateChannel target;
  if negb private then mret true
  else
    role ← channelRoleFor user target;
    mret (role <>s "").

Definition canManageChannel (user : User.User) (target : string) : M bool :=
  role ← channelRoleFor user target;
  mret (role =s "admin").

Definition channelMembers (target : string) : M (list Mem.ChannelMember) :=
  try (Channels.ListChannelMembers target 200) (λ res,
  match res with
  | inl ErrNotFound => mret []
  | inl e => throw e
  | inr persisted => mret persisted
  end).

Definition decorateChannelSummary (user : User.User) (channel : Sum.ChannelSummary) : M Sum.ChannelSummary :=
  role ← channelRoleFor user (Sum.Target channel);
  let channel := channel |> Sum.set_CurrentUserRole role |> Sum.set_Joined (role <>s "") in
  try (channelMembers (Sum.Target channel)) (λ res,
  mret match res with
       | inl _ => channel
       | inr members => Sum.set_MemberCount (Z.of_nat (length members)) channel
       end).

(** ** The list of rooms *)

(** Appends what [show] shows of each element until there are [limit]; the flag says that
    there are. *)
Fixpoint collect {A} (show : A → M (option Sum.ChannelSummary)) (limit : nat) (out : list Sum.ChannelSummary) (l : list A) :
    M (list Sum.ChannelSummary * bool) :=
  match l with
  | [] => mret (out, false)
  | x :: l =>
      shown ← show x;
      match shown with
      | None => collect show limit out l
      | Some channel =>
          let out := out ++ [channel] in
          if limit <=? length out then mret (out, true) else collect show limit out l
      end
  end.

Definition show_persisted (user : User.User) (joinedOnly : bool) (channel : Sum.ChannelSummary) :
    M (option Sum.ChannelSummary) :=
  channel ← decorateChannelSummary user channel;
  mret (if negb (Sum.Joined channel) && (Sum.Visibility channel =s "private") then None
        else if joinedOnly && negb (Sum.Joined channel) then None
        else Some channel).

(** A room that only messages or tasks know of. *)
Definition show_target (user : User.User) (joinedOnly : bool) (target : string) : M (option Sum.ChannelSummary) :=
  role ← channelRoleFor user target;
  let joined := role <>s "" in
  if joinedOnly && negb joined then mret None
  else
    private ← isPrivateChannel target;
    let visibility := if private : bool then "private" else "public" in
    if negb joined && (visibility =s "private") then mret None
    else
      members ← channelMembers target;
      mret (Some (Sum.zero
        |> Sum.set_Target target
        |> Sum.set_DisplayName (TrimPrefix target "#")
        |> Sum.set_ChannelType "channel"
        |> Sum.set_Visibility visibility
        |> Sum.set_Joined joined
        |> Sum.set_MemberCount (Z.of_nat (length members))
        |> Sum.set_CurrentUserRole role)).

Fixpoint unseen_rooms (seen : list string) (targets : list string) : list string :=
  match targets with
  | [] => []
  | target :: targets =>
      if bool_decide (target ∈ seen) || negb (HasPrefix target "#") then unseen_rooms seen targets
      else target :: unseen_rooms (target :: seen) targets
  end.

Definition channelSummaries (user : User.User) (joinedOnly : bool) (limit : Z) : M (list Sum.ChannelSummary) :=
  let limit := if (limit <=? 0)%Z || (200 <? limit)%Z then 100%Z else limit in
  persisted ← Channels.ListChannels (ChannelListOptions.zero
    |> ChannelListOptions.set_JoinedOnly joinedOnly
    |> ChannelListOptions.set_UserID (User.ID user)
    |> ChannelListOptions.set_Limit limit);
  '(out, full) ← collect (show_persisted user joinedOnly) (Z.to_nat limit) [] persisted;
  if full : bool then mret out
  else
    messageTargets ← Messages.ListMessageTargets limit;
    taskTargets ← Tasks.ListTaskTargets limit;
    let targets := unseen_rooms (Sum.Target <$> persisted) (messageTargets ++ taskTargets) in
    '(out, _) ← collect (show_target user joinedOnly) (Z.to_nat limit) out targets;
    mret out.

(** ** Handlers of rooms and members *)

Definition handleListChannels (r : http_request) (p : Principal) : R (reply (list Sum.ChannelSummary)) :=
  attempt (channelSummaries (P_User p) (boolQuery r "joinedOnly") (intQuery r "limit" 100))
    (internal "list channels failed")
    (λ channels, mret (Reply StatusOK channels)).

Definition handleCreateChannel (r : http_request) (p : Principal) : R (reply Sum.ChannelSummary) :=
  let principal := P_User p in
  if negb (canManageChannels principal) then mret (ErrorReply StatusForbidden "admin role required")
  else decoded (decodeJSON channelRequest_fields channelRequest.zero r) (λ req,
    now ← unixNow;
    id ← NewID "chn";
    attempt (Channels.CreateChannel now id (Sum.zero
      |> Sum.set_Target (channelRequest.Target req)
      |> Sum.set_DisplayName (channelRequest.DisplayName req)
      |> Sum.set_ChannelType "channel"
      |> Sum.set_Visibility (channelRequest.Visibility req)
      |> Sum.set_CreatedByUserID (User.ID principal)))
    (writeStorageError "create channel failed") (λ channel,
    now ← unixNow;
    id ← NewID "chm";
    attempt (Channels.UpsertChannelMember now id (Mem.zero
      |> Mem.set_Target (Sum.Target channel)
      |> Mem.set_MemberID (User.ID principal)
      |> Mem.set_Username (User.Username principal)
      |> Mem.set_DisplayName (firstNonEmptyString [User.DisplayName principal; User.Username principal; "Admin"])
      |> Mem.set_Kind "human"
      |> Mem.set_Role "admin"))
    (writeStorageError "create channel owner member failed") (λ _,
    mret (Reply StatusCreated (channel
      |> Sum.set_MemberCount 1
      |> Sum.set_CurrentUserRole "admin"
      |> Sum.set_Joined true))))).

(** The guard of the handlers that change a room. *)
Definition for_manager {B} (p : Principal) (target : string) (k : R (reply B)) : R (reply B) :=
  may ← read_or false (canManageChannel (P_User p) target);
  if negb may then mret (ErrorReply StatusForbidden "channel admin role required") else k.

Definition handleUpdateChannel (r : http_request) (p : Principal) : R (reply Sum.ChannelSummary) :=
  let target := pathChannelTarget r in
  for_manager p target (
  decoded (decodeJSON channelPatchRequest_fields channelPatchRequest.zero r) (λ req,
    now ← unixNow;
    attempt (Channels.UpdateChannel now target (ChannelPatch.zero
      |> ChannelPatch.set_DisplayName (channelPatchRequest.DisplayName req)
      |> ChannelPatch.set_Visibility (channelPatchRequest.Visibility req)))
    (writeStorageError "update channel failed") (λ channel,
    channel ← read_or channel (decorateChannelSummary (P_User p) channel);
    mret (Reply StatusOK channel)))).

Definition handleDeleteChannel (r : http_request) (p : Principal) : R (reply unit) :=
  let target := pathChannelTarget r in
  for_manager p target (
  attempt (Channels.DeleteChannel target) (writeStorageError "delete channel failed") (λ _,
  mret (Reply StatusOK ()))).

Definition handleListChannelMembers (r : http_request) (p : Principal) : R (reply (list Mem.ChannelMember)) :=
  let target := pathChannelTarget r in
  if target =s "" then mret (ErrorReply StatusBadRequest "target is required")
  else
    may ← read_or false (canReadChannel (P_User p) target);
    if negb may then mret (ErrorReply StatusForbidden "channel membership is private")
    else
      attempt (channelMembers target) (writeStorageError "list channel members failed") (λ members,
      mret (Reply StatusOK members)).

Definition findStoredChannelMember (target kind memberID : string) : M (option Mem.ChannelMember) :=
  let kind := ToLower (TrimSpace kind) in
  let kind := if kind =s "" then "human" else kind in
  let memberID := TrimSpace memberID in
  try (Channels.ListChannelMembers target 200) (λ res,
  mret match res with
       | inl _ => None
       | inr members => List.find (λ member, EqualFold (Mem.Kind member) kind && (Mem.MemberID member =s memberID)) members
       end).

Definition membership_metadata (operation : string) (member : Mem.ChannelMember) : string :=
  encode (JObj [("kind", JStr "channel_membership"); ("operation", JStr operation);
    ("memberId", JStr (Mem.MemberID member)); ("memberKind", JStr (Mem.Kind member)); ("role", JStr (Mem.Role member))]).

Definition membership_note (operation : string) (member : Mem.ChannelMember) : Msg.Message :=
  let display := firstNonEmptyString [Mem.DisplayName member; Mem.Username member; Mem.MemberID member] in
  let action := if operation =s "member_removed" then "left" else "joined" in
  Msg.zero
    |> Msg.set_Target (Mem.Target member)
    |> Msg.set_Role "system"
    |> Msg.set_Content (display +:+ " " +:+ action +:+ " " +:+ Mem.Target member +:+ " as " +:+ Mem.Role member +:+ ".")
    |> Msg.set_SenderDisplayName "Nekode"
    |> Msg.set_SenderKind "system"
    |> Msg.set_MetadataJSON (membership_metadata operation member).

Definition recordChannelMembershipSystemMessage (operation : string) (member : Mem.ChannelMember) : R (error + unit) :=
  now ← unixNow;
  id ← NewID "msg";
  and_then (stored (Messages.CreateMessage now id (membership_note operation member))) (λ message,
  RecordMessageMutation message daemonv1.EventOperation_EVENT_OPERATION_APPENDED).

(** The note, and its error as the handlers answer it. *)
Definition with_note {B} (operation : string) (member : Mem.ChannelMember) (k : R (reply B)) : R (reply B) :=
  noted ← recordChannelMembershipSystemMessage operation member;
  match noted with
  | inl e => mret (writeStorageError "record channel member system message failed" e)
  | inr _ => k
  end.

Definition handleUpsertChannelMember (r : http_request) (p : Principal) : R (reply Mem.ChannelMember) :=
  let target := pathChannelTarget r in
  for_manager p target (
  decoded (decodeJSON channelMemberRequest_fields channelMemberRequest.zero r) (λ req,
    existed ← read_or None
      (findStoredChannelMember target (channelMemberRequest.Kind req) (channelMemberRequest.MemberID req));
    now ← unixNow;
    id ← NewID "chm";
    attempt (Channels.UpsertChannelMember now id (Mem.zero
      |> Mem.set_Target target
      |> Mem.set_MemberID (channelMemberRequest.MemberID req)
      |> Mem.set_Username (channelMemberRequest.Username req)
      |> Mem.set_DisplayName (channelMemberRequest.DisplayName req)
      |> Mem.set_Kind (channelMemberRequest.Kind req)
      |> Mem.set_Role (channelMemberRequest.Role req)))
    (writeStorageError "upsert channel member failed") (λ member,
    match existed with
    | Some _ => mret (Reply StatusCreated member)
    | None => with_note "member_added" member (mret (Reply StatusCreated member))
    end))).

Definition handleUpdateChannelMember (r : http_request) (p : Principal) : R (reply Mem.ChannelMember) :=
  let target := pathChannelTarget r in
  for_manager p target (
  decoded (decodeJSON channelMemberPatchRequest_fields channelMemberPatchRequest.zero r) (λ req,
    now ← unixNow;
    attempt (Channels.UpdateChannelMember now target (PathValue r "kind") (PathValue r "memberID") (ChannelMemberPatch.zero
      |> ChannelMemberPatch.set_Username (channelMemberPatchRequest.Username req)
      |> ChannelMemberPatch.set_DisplayName (channelMemberPatchRequest.DisplayName req)
      |> ChannelMemberPatch.set_Role (channelMemberPatchRequest.Role req)))
    (writeStorageError "update channel member failed") (λ member,
    mret (Reply StatusOK member)))).

Definition handleDeleteChannelMember (r : http_request) (p : Principal) : R (reply unit) :=
  let target := pathChannelTarget r in
  for_manager p target (
  found ← read_or None (findStoredChannelMember target (PathValue r "kind") (PathValue r "memberID"));
  let member := from_opt Mem.zero found in
  attempt (Channels.DeleteChannelMember target (PathValue r "kind") (PathValue r "memberID"))
    (writeStorageError "delete channel member failed") (λ _,
  if Mem.MemberID member <>s "" then with_note "member_removed" member (mret (Reply StatusOK ()))
  else mret (Reply StatusOK ()))).

(** ** Handlers of messages *)

Definition handleListMessages (r : http_request) : R (reply (list Msg.Message)) :=
  let target := TrimSpace (Query r "target") in
  if target =s "" then mret (ErrorReply StatusBadRequest "target is required")
  else
    attempt (Messages.ListMessages target (TrimSpace (Query r "threadId")) (intQuery r "limit" 50))
      (internal "list messages failed") (λ messages,
    mret (Reply StatusOK messages)).

Definition handleSearchMessages (r : http_request) : R (reply (list Msg.Message)) :=
  attempt (Messages.SearchMessages (SrOpts.zero
    |> SrOpts.set_Query (TrimSpace (Query r "q"))
    |> SrOpts.set_Target (TrimSpace (Query r "target"))
    |> SrOpts.set_SenderHandle (TrimSpace (Query r "sender"))
    |> SrOpts.set_HasAttachment (boolQuery r "hasAttachment")
    |> SrOpts.set_Sort (TrimSpace (Query r "sort"))
    |> SrOpts.set_Limit (intQuery r "limit" 50)))
  (internal "search messages failed") (λ messages,
  mret (Reply StatusOK messages)).

(** What the store is asked to keep, and the mutation that is recorded of it. *)
Definition post_message (message : Msg.Message) (onError : string) : R (reply Msg.Message) :=
  now ← unixNow;
  id ← NewID "msg";
  attempt (Messages.CreateMessage now id message)
    (on ErrConflict StatusConflict "duplicate request id" (internal onError)) (λ message,
  record (RecordMessageMutation message daemonv1.EventOperation_EVENT_OPERATION_APPENDED)
    "append message event failed"
    (mret (Reply StatusCreated message))).

Definition error_text (e : error) : string :=
  match e with ErrNotFound => "not found" | ErrText message => message | _ => "" end.

(** The message a request's author sends. *)
Definition message_of (user : User.User) (req : messageRequest.messageRequest) (attachments : list Att.Attachment) : Msg.Message :=
  let role := TrimSpace (messageRequest.Role req) in
  Msg.zero
    |> Msg.set_Target (TrimSpace (messageRequest.Target req))
    |> Msg.set_ThreadID (TrimSpace (messageRequest.ThreadID req))
    |> Msg.set_Role (if role =s "" then "user" else role)
    |> Msg.set_Content (TrimSpace (messageRequest.Content req))
    |> Msg.set_Kind (TrimSpace (messageRequest.Kind req))
    |> Msg.set_ReplyToMessageID (TrimSpace (messageRequest.ReplyToMessageID req))
    |> Msg.set_SenderUserID (User.ID user)
    |> Msg.set_SenderDisplayName (User.DisplayName user)
    |> Msg.set_SenderKind "human"
    |> Msg.set_SourceEndpointID (TrimSpace (messageRequest.SourceEndpointID req))
    |> Msg.set_ExternalMessageID (TrimSpace (messageRequest.ExternalMessageID req))
    |> Msg.set_MetadataJSON (normalizedJSON (messageRequest.MetadataJSON req))
    |> Msg.set_Attachments attachments
    |> Msg.set_RequestID (TrimSpace (messageRequest.RequestID req)).

Definition handleCreateMessage (d : disk) (r : http_request) (p : Principal) : R (reply Msg.Message) :=
  decoded (decodeJSON messageRequest_fields messageRequest.zero r) (λ req,
  let target := TrimSpace (messageRequest.Target req) in
  if (target =s "") || (TrimSpace (messageRequest.Content req) =s "")
  then mret (ErrorReply StatusBadRequest "target and content are required")
  else match loadMessageAttachments target (messageRequest.AttachmentIDs req) d with
  | inl e =>
      mret (ErrorReply (if bool_decide (e = ErrNotFound) then StatusNotFound else StatusBadRequest) (error_text e))
  | inr attachments => post_message (message_of (P_User p) req attachments) "create message failed"
  end).

Definition handleSaveMessage (r : http_request) (p : Principal) : R (reply Sv.SavedMessage) :=
  let target := TrimSpace (Query r "target") in
  if target =s "" then mret (ErrorReply StatusBadRequest "target is required")
  else
    now ← unixNow;
    id ← NewID "sav";
    attempt (Messages.SaveMessage now id target (PathValue r "id") (User.ID (P_User p)) "")
      (on ErrNotFound StatusNotFound "message not found" (internal "save message failed")) (λ saved,
    mret (Reply StatusOK saved)).

(** [None] is the answer that nothing was removed. *)
Definition handleUnsaveMessage (r : http_request) (p : Principal) : R (reply (option Sv.SavedMessage)) :=
  let target := TrimSpace (Query r "target") in
  if target =s "" then mret (ErrorReply StatusBadRequest "target is required")
  else
    attempt (Messages.UnsaveMessage target (PathValue r "id") (User.ID (P_User p)) "")
      (λ e, if bool_decide (e = ErrNotFound) then Reply StatusOK None else internal "unsave message failed" e) (λ saved,
    mret (Reply StatusOK (Some saved))).

Definition handleListSavedMessages (r : http_request) (p : Principal) : R (reply (option (list Sv.SavedMessage))) :=
  attempt (Messages.ListSavedMessagesWithOptions (SvOpts.zero
    |> SvOpts.set_Target (TrimSpace (Query r "target"))
    |> SvOpts.set_UserID (User.ID (P_User p))
    |> SvOpts.set_Query (TrimSpace (Query r "q"))
    |> SvOpts.set_HasAttachment (boolQuery r "hasAttachment")
    |> SvOpts.set_Limit (intQuery r "limit" 50)))
  (internal "list saved messages failed") (λ saved,
  mret (Reply StatusOK saved)).

(** ** Handlers of the thread inbox *)

Definition handleListThreadInbox (r : http_request) (p : Principal) : R (reply (list It.ThreadInboxItem)) :=
  attempt (Threads.ListThreadInbox (User.ID (P_User p)) (TrimSpace (Query r "targetPrefix")) (intQuery r "limit" 100))
    (internal "list thread inbox failed") (λ items,
  mret (Reply StatusOK items)).

Definition handleMarkThreadRead (r : http_request) (p : Principal) : R (reply unit) :=
  decoded (decodeJSON threadReadRequest_fields threadReadRequest.zero r) (λ req,
  let target := TrimSpace (threadReadRequest.Target req) in
  let threadID := TrimSpace (PathValue r "threadID") in
  if (target =s "") || (threadID =s "")
  then mret (ErrorReply StatusBadRequest "target and threadId are required")
  else
    now ← unixNow;
    id ← NewID "trs";
    attempt (Threads.MarkThreadRead now id (User.ID (P_User p)) target threadID)
      (on ErrNotFound StatusNotFound "thread not found" (internal "mark thread read failed")) (λ _,
    mret (Reply StatusOK ()))).

(** The identifier drawn for a thread's row is named after the thread. *)
Definition handleMarkThreadInboxRead (r : http_request) (p : Principal) : R (reply unit) :=
  decoded (decodeJSON threadInboxReadRequest_fields threadInboxReadRequest.zero r) (λ req,
    now ← unixNow;
    id ← NewID "trs";
    attempt (Threads.MarkThreadInboxRead now (λ key, id +:+ key) (User.ID (P_User p))
               (TrimSpace (threadInboxReadRequest.TargetPrefix req)))
      (internal "mark thread inbox read failed") (λ _,
    mret (Reply StatusOK ()))).

End rooms.
