(* ===== verification/HttpWork.v ===== *)
(** * Tasks, reminders, routes, decisions and runs over REST
    ([internal/server/server.go, memory.go])

    The handlers of the work that rooms share: tasks with their comments and timeline,
    reminders and their schedules, notification routes, decisions with their votes, and the
    archive of agent runs. *)
From S2P Require Import Prelude GoStr GoText Sql Models Schema Store.
From S2P Require Import Proto Rpc RpcConv RpcAgents RpcTasks RpcMessages RpcReminders.
From S2P Require Import Users Channels Tasks Messages Reminders Routes Endpoints Decisions AgentRuns.
From S2P Require Import Http HttpBase HttpRooms.

#[local] Open Scope go_scope.

Module Tk := Models.Task.
Module Tp := TaskPatch.
Module Rm := Models.Reminder.
Module Rmp := ReminderPatch.
Module Nr := NotificationRoute.
Module Cd := Models.ChannelDecision.

(** [int64Query]. *)
Definition int64Query (r : http_request) (name : string) (fallback : Z) : Z :=
  let raw := TrimSpace (Query r name) in
  if raw =s "" then fallback else from_opt fallback (ParseInt raw).

(** [uint32(intQuery(...))]. *)
Definition u32 (n : Z) : Z := (n mod 2 ^ 32)%Z.

Section work.
Context {Eng : SqlEngine} {Uni : Unicode} {Txt : TextLib} {PJ : ProtoJSON} {E : Env} {Tm : TimeLib}.

(** ** Tasks *)

Definition handleListTasks (r : http_request) : R (reply (list Tk.Task)) :=
  attempt (Tasks.ListTasks (TrimSpace (Query r "state")) (TrimSpace (Query r "target")) (intQuery r "limit" 100))
    (on ErrInvalidState StatusBadRequest "invalid task state" (internal "list tasks failed")) (λ tasks,
  mret (Reply StatusOK tasks)).

Definition handleCreateTask (r : http_request) (p : Principal) : R (reply Tk.Task) :=
  decoded (decodeJSON taskRequest_fields taskRequest.zero r) (λ req,
  let summary := TrimSpace (taskRequest.Summary req) in
  let target := TrimSpace (taskRequest.Target req) in
  if (summary =s "") || (target =s "") then mret (ErrorReply StatusBadRequest "summary and target are required")
  else
    now ← unixNow;
    id ← NewID "tsk";
    attempt (Tasks.CreateTask now id (Tk.zero
      |> Tk.set_Summary summary
      |> Tk.set_Description (TrimSpace (taskRequest.Description req))
      |> Tk.set_State (TrimSpace (taskRequest.State req))
      |> Tk.set_Target target
      |> Tk.set_AssigneeID (TrimSpace (taskRequest.AssigneeID req))
      |> Tk.set_CreatedByUserID (User.ID (P_User p))
      |> Tk.set_BlockedReason (TrimSpace (taskRequest.BlockedReason req))))
    (on ErrInvalidState StatusBadRequest "invalid task state" (internal "create task failed")) (λ task,
    record (RecordTaskMutation task daemonv1.EventOperation_EVENT_OPERATION_CREATED) "append task event failed"
      (mret (Reply StatusCreated task)))).

Definition handleUpdateTask (r : http_request) : R (reply Tk.Task) :=
  decoded (decodeJSON taskPatchRequest_fields taskPatchRequest.zero r) (λ req,
  let patch := Tp.zero
    |> Tp.set_Summary (optionalTrimmed (taskPatchRequest.Summary req))
    |> Tp.set_Description (optionalTrimmed (taskPatchRequest.Description req))
    |> Tp.set_State (optionalTrimmed (taskPatchRequest.State req))
    |> Tp.set_AssigneeID (optionalTrimmed (taskPatchRequest.AssigneeID req))
    |> Tp.set_BlockedReason (optionalTrimmed (taskPatchRequest.BlockedReason req)) in
  now ← unixNow;
  attempt (Tasks.UpdateTask now (PathValue r "id") patch)
    (on ErrNotFound StatusNotFound "task not found"
    (on ErrInvalidState StatusBadRequest "invalid task state" (internal "update task failed"))) (λ task,
  let operation := match taskPatchRequest.State req with
                   | Some _ => daemonv1.EventOperation_EVENT_OPERATION_STATE_CHANGED
                   | None => daemonv1.EventOperation_EVENT_OPERATION_UPDATED
                   end in
  record (RecordTaskMutation task operation) "append task event failed" (mret (Reply StatusOK task)))).

(** The task of the path, or an answer. *)
Definition with_task {B} (r : http_request) (k : Tk.Task → R (reply B)) : R (reply B) :=
  attempt (Tasks.GetTask (TrimSpace (PathValue r "id")))
    (on ErrNotFound StatusNotFound "task not found" (internal "get task failed")) k.

Definition handleListTaskComments (r : http_request) : R (reply (list Msg.Message)) :=
  with_task r (λ _,
  attempt (Messages.ListTaskComments (TrimSpace (PathValue r "id")) (intQuery r "limit" 100))
    (internal "list task comments failed") (λ messages,
  mret (Reply StatusOK messages))).

Definition handleCreateTaskComment (r : http_request) (p : Principal) : R (reply Msg.Message) :=
  decoded (decodeJSON taskCommentRequest_fields taskCommentRequest.zero r) (λ req,
  let content := TrimSpace (taskCommentRequest.Content req) in
  if content =s "" then mret (ErrorReply StatusBadRequest "content is required")
  else with_task r (λ task,
  post_message (Msg.zero
    |> Msg.set_Target (Tk.Target task)
    |> Msg.set_ThreadID (Tk.ID task)
    |> Msg.set_Role "user"
    |> Msg.set_Content content
    |> Msg.set_SenderUserID (User.ID (P_User p))
    |> Msg.set_SenderDisplayName (User.DisplayName (P_User p))
    |> Msg.set_SenderKind "human"
    |> Msg.set_MetadataJSON "{}"
    |> Msg.set_RequestID (TrimSpace (taskCommentRequest.RequestID req))) "create task comment failed")).

(** What the bridge lists, and the reply to its error. *)
Definition bridged {A B} (m : R A) (message : string) (k : A → B) : R (reply B) :=
  res ← caught m;
  mret match res with
       | inl _ => ErrorReply StatusInternalServerError message
       | inr a => Reply StatusOK (k a)
       end.

(** The cursor of a query of the bridge's events. *)
Definition event_cursor (target aggregateID : string) (sequence : Z) (serverID : string) : Cur.EventCursor :=
  Cur.zero
    |> Cur.set_Target target
    |> Cur.set_AggregateId aggregateID
    |> Cur.set_Sequence sequence
    |> Cur.set_ProtocolVersion protocolVersion
    |> Cur.set_ServerId serverID.

Definition handleTaskTimeline (r : http_request) : R (reply EsP.ListEventsSinceResponse) :=
  let taskID := TrimSpace (PathValue r "id") in
  with_task r (λ _,
  serverID ← gets serverID;
  bridged (RpcMessages.ListEventsSince (EsQ.zero
    |> EsQ.set_Cursor (Some (event_cursor "" taskID (int64Query r "sequence" 0) serverID))
    |> EsQ.set_Limit (u32 (intQuery r "limit" 100))))
    "list task timeline failed" (λ resp, resp)).

(** ** Schedules of reminders *)

Definition normalizeReminderScheduleKindForHTTP (value : string) : string :=
  let value := ToLower (TrimSpace value) in
  if value =s "reminder_schedule_kind_cron" then "cron"
  else if value =s "reminder_schedule_kind_every" then "every"
  else if value =s "reminder_schedule_kind_at" then "at"
  else if value =s "reminder_schedule_kind_rrule" then "rrule"
  else if value =s "reminder_schedule_kind_natural" then "natural"
  else value.

Definition validReminderScheduleKindForHTTP (value : string) : bool :=
  bool_decide (normalizeReminderScheduleKindForHTTP value ∈ ["cron"; "every"; "at"; "rrule"; "natural"]).

Definition parseFireAt (value : string) : string + Z :=
  let value := TrimSpace value in
  if value =s "" then inl "fireAt is required"
  else
    match match ParseInt value with Some unix => if (0 <? unix)%Z then Some unix else None | None => None end with
    | Some unix => inr unix
    | None =>
        match parse_layouts fire_at_layouts value with
        | Some unix => inr unix
        | None => inl "fireAt must be unix seconds or RFC3339 time"
        end
    end.

Definition reminderSchedulePlanFromInput (delaySeconds : Z) (fireAt scheduleKind schedule timezone : string) :
    R (string + reminderPlan) :=
  if (0 <? delaySeconds)%Z then
    next ← unix_in delaySeconds;
    mret (inr (mkPlan "at" (delay_text delaySeconds) next "" "" (TrimSpace timezone)))
  else if TrimSpace fireAt <>s "" then
    mret match parseFireAt fireAt with
         | inl e => inl e
         | inr nextRun => inr (mkPlan "at" (TrimSpace fireAt) nextRun "" "" (TrimSpace timezone))
         end
  else
    let schedule := TrimSpace schedule in
    if schedule =s "" then mret (inl "schedule is required")
    else
      let kind := normalizeReminderScheduleKindForHTTP scheduleKind in
      let kind := if kind =s "" then "natural" else kind in
      if negb (validReminderScheduleKindForHTTP kind) then mret (inl "invalid reminder schedule kind")
      else
        let plan next := mkPlan kind schedule next (if kind =s "rrule" then schedule else "") schedule (TrimSpace timezone) in
        mret (if kind =s "at" then match parseFireAt schedule with
                                   | inl e => inl e
                                   | inr nextRun => inr (plan nextRun)
                                   end
              else inr (plan 0%Z)).

(** ** Reminders *)

Definition human (p : Principal) (detail : string) : actor := mkActor "human" (User.ID (P_User p)) detail.

Definition handleListReminders (r : http_request) : R (reply (list Rm.Reminder)) :=
  attempt (Reminders.ListReminders (TrimSpace (Query r "target")) (QueryValues r "status")
             (boolQuery r "includeCanceled") (intQuery r "limit" 100))
    (on ErrInvalidState StatusBadRequest "invalid reminder status" (internal "list reminders failed")) (λ reminders,
  mret (Reply StatusOK reminders)).

Definition recorded_reminder (status : Z) (reminder : Rm.Reminder) (operation : Z) : R (reply Rm.Reminder) :=
  record (RecordReminderMutation reminder operation) "append reminder event failed" (mret (Reply status reminder)).

Definition handleCreateReminder (r : http_request) (p : Principal) : R (reply Rm.Reminder) :=
  decoded (decodeJSON reminderRequest_fields reminderRequest.zero r) (λ req,
  let target := TrimSpace (reminderRequest.Target req) in
  if target =s "" then mret (ErrorReply StatusBadRequest "target is required")
  else
    plan ← reminderSchedulePlanFromInput (reminderRequest.DelaySeconds req) (reminderRequest.FireAt req)
             (reminderRequest.ScheduleKind req) (reminderRequest.Schedule req) (reminderRequest.Timezone req);
    match plan with
    | inl e => mret (ErrorReply StatusBadRequest e)
    | inr plan =>
        let prompt := TrimSpace (reminderRequest.Prompt req) in
        let title := TrimSpace (reminderRequest.Title req) in
        let title := if title =s "" then prompt else title in
        if title =s "" then mret (ErrorReply StatusBadRequest "title or prompt is required")
        else
          token ← NewID "rtk";
          now ← unixNow;
          id ← NewID "rem";
          event_id ← NewID "rev";
          attempt (Reminders.CreateReminder now id event_id (Rm.zero
            |> Rm.set_Target target
            |> Rm.set_ScheduleKind (planKind plan)
            |> Rm.set_Schedule (planSchedule plan)
            |> Rm.set_Prompt prompt
            |> Rm.set_Enabled true
            |> Rm.set_NextRunUnix (planNextRunUnix plan)
            |> Rm.set_Title title
            |> Rm.set_Status "active"
            |> Rm.set_MsgRef (TrimSpace (reminderRequest.MsgRef req))
            |> Rm.set_RecurrenceRule (planRecurrenceRule plan)
            |> Rm.set_RecurrenceDescription (planRecurrenceDescription plan)
            |> Rm.set_RecurrenceTimezone (planRecurrenceTimezone plan)
            |> Rm.set_CancelToken token) (human p "created"))
          (on ErrInvalidState StatusBadRequest "invalid reminder schedule" (internal "create reminder failed")) (λ created,
          recorded_reminder StatusCreated created daemonv1.EventOperation_EVENT_OPERATION_CREATED)
    end).

Definition handleCancelReminder (r : http_request) (p : Principal) : R (reply Rm.Reminder) :=
  decoded (decodeJSON cancelReminderRequest_fields cancelReminderRequest.zero r) (λ req,
  let reminderID := TrimSpace (PathValue r "id") in
  attempt (Reminders.GetReminder reminderID)
    (on ErrNotFound StatusNotFound "reminder not found" (internal "get reminder failed")) (λ current,
  let token := TrimSpace (cancelReminderRequest.CancelToken req) in
  if (Rm.CancelToken current <>s "") && (token <>s "") && (Rm.CancelToken current <>s token)
  then mret (ErrorReply StatusForbidden "invalid cancel token")
  else
    now ← unixNow;
    event_id ← NewID "rev";
    attempt (Reminders.CancelReminder now event_id reminderID (human p "canceled"))
      (internal "cancel reminder failed") (λ updated,
    recorded_reminder StatusOK updated daemonv1.EventOperation_EVENT_OPERATION_CANCELED))).

Definition handleSnoozeReminder (r : http_request) (p : Principal) : R (reply Rm.Reminder) :=
  decoded (decodeJSON snoozeReminderRequest_fields snoozeReminderRequest.zero r) (λ req,
  let delay := snoozeReminderRequest.DelaySeconds req in
  if (delay =? 0)%Z then mret (ErrorReply StatusBadRequest "delaySeconds is required")
  else
    nextRun ← unix_in delay;
    now ← unixNow;
    event_id ← NewID "rev";
    attempt (Reminders.SnoozeReminder now event_id (TrimSpace (PathValue r "id")) nextRun (delay_text delay) (human p "snoozed"))
      (on ErrNotFound StatusNotFound "reminder not found" (internal "snooze reminder failed")) (λ updated,
    recorded_reminder StatusOK updated daemonv1.EventOperation_EVENT_OPERATION_UPDATED)).

(** The patch of a request: its text of an error, or the patch. *)
Definition reminder_patch (req : reminderPatchRequest.reminderPatchRequest) : R (string + Rmp.ReminderPatch) :=
  let patch := Rmp.set_Title (optionalTrimmed (reminderPatchRequest.Title req)) Rmp.zero in
  match reminderPatchRequest.DelaySeconds req, reminderPatchRequest.FireAt req,
        reminderPatchRequest.Schedule req, reminderPatchRequest.ScheduleKind req with
  | None, None, None, None =>
      mret (inr match reminderPatchRequest.Timezone req with
                | Some timezone => Rmp.set_RecurrenceTimezone (Some (TrimSpace timezone)) patch
                | None => patch
                end)
  | _, _, _, _ =>
      plan ← reminderSchedulePlanFromInput (from_opt 0%Z (reminderPatchRequest.DelaySeconds req))
        (optionalStringValue (reminderPatchRequest.FireAt req))
        (optionalStringValue (reminderPatchRequest.ScheduleKind req))
        (optionalStringValue (reminderPatchRequest.Schedule req))
        (optionalStringValue (reminderPatchRequest.Timezone req));
      mret match plan with
           | inl e => inl e
           | inr plan => inr (patch
               |> Rmp.set_ScheduleKind (Some (planKind plan))
               |> Rmp.set_Schedule (Some (planSchedule plan))
               |> Rmp.set_NextRunUnix (Some (planNextRunUnix plan))
               |> Rmp.set_RecurrenceRule (Some (planRecurrenceRule plan))
               |> Rmp.set_RecurrenceDescription (Some (planRecurrenceDescription plan))
               |> Rmp.set_RecurrenceTimezone (Some (planRecurrenceTimezone plan)))
           end
  end.

Definition handleUpdateReminder (r : http_request) (p : Principal) : R (reply Rm.Reminder) :=
  decoded (decodeJSON reminderPatchRequest_fields reminderPatchRequest.zero r) (λ req,
  patch ← reminder_patch req;
  match patch with
  | inl e => mret (ErrorReply StatusBadRequest e)
  | inr patch =>
      now ← unixNow;
      event_id ← NewID "rev";
      attempt (Reminders.UpdateReminder now event_id (TrimSpace (PathValue r "id")) patch (human p "updated"))
        (on ErrNotFound StatusNotFound "reminder not found"
        (on ErrInvalidState StatusBadRequest "invalid reminder update" (internal "update reminder failed"))) (λ updated,
      recorded_reminder StatusOK updated daemonv1.EventOperation_EVENT_OPERATION_UPDATED)
  end).

Definition handleReminderLog (r : http_request) : R (reply (list ReminderEvent.ReminderEvent)) :=
  attempt (Reminders.ListReminderEvents (TrimSpace (PathValue r "id")) (intQuery r "limit" 100))
    (on ErrNotFound StatusNotFound "reminder not found" (internal "list reminder log failed")) (λ events,
  mret (Reply StatusOK events)).

(** ** Notification routes *)

Definition handleListNotificationRoutes (r : http_request) : R (reply (list Nr.NotificationRoute)) :=
  attempt (Routes.ListNotificationRoutes (Routes.Opts.zero
    |> Routes.Opts.set_Target (TrimSpace (Query r "target"))
    |> Routes.Opts.set_ThreadID (TrimSpace (Query r "threadId"))
    |> Routes.Opts.set_EndpointID (TrimSpace (Query r "endpointId"))
    |> Routes.Opts.set_EventKind (TrimSpace (Query r "eventKind"))
    |> Routes.Opts.set_Enabled (optionalBoolQuery r "enabled")
    |> Routes.Opts.set_Limit (intQuery r "limit" 100)))
  (on ErrInvalidState StatusBadRequest "invalid notification route filter" (internal "list notification routes failed")) (λ routes,
  mret (Reply StatusOK routes)).

Definition handleCreateNotificationRoute (r : http_request) : R (reply Nr.NotificationRoute) :=
  decoded (decodeJSON notificationRouteRequest_fields notificationRouteRequest.zero r) (λ req,
  let route := Nr.zero
    |> Nr.set_Target (TrimSpace (notificationRouteRequest.Target req))
    |> Nr.set_ThreadID (TrimSpace (notificationRouteRequest.ThreadID req))
    |> Nr.set_EndpointID (TrimSpace (notificationRouteRequest.EndpointID req))
    |> Nr.set_EventKind (TrimSpace (notificationRouteRequest.EventKind req))
    |> Nr.set_Preference (TrimSpace (notificationRouteRequest.Preference req))
    |> Nr.set_Enabled (from_opt true (notificationRouteRequest.Enabled req))
    |> Nr.set_ConfigJSON (normalizedJSON (notificationRouteRequest.ConfigJSON req)) in
  if (Nr.Target route =s "") || (Nr.EndpointID route =s "")
  then mret (ErrorReply StatusBadRequest "target and endpointId are required")
  else
    attempt (Endpoints.GetInteractionEndpoint (Nr.EndpointID route))
      (on ErrNotFound StatusBadRequest "endpointId must reference an existing endpoint"
      (internal "get interaction endpoint failed")) (λ _,
    now ← unixNow;
    id ← NewID "nroute";
    attempt (Routes.CreateNotificationRoute now id route)
      (on ErrConflict StatusConflict "notification route already exists"
      (on ErrInvalidState StatusBadRequest "invalid notification route"
      (internal "create notification route failed"))) (λ created,
    mret (Reply StatusCreated created)))).

Definition handleResolveNotificationRoutes (r : http_request) : R (reply (list Nr.NotificationRoute)) :=
  attempt (Routes.ResolveNotificationRoutes (Routes.Res.zero
    |> Routes.Res.set_Target (TrimSpace (Query r "target"))
    |> Routes.Res.set_ThreadID (TrimSpace (Query r "threadId"))
    |> Routes.Res.set_EventKind (TrimSpace (Query r "eventKind"))
    |> Routes.Res.set_Limit (intQuery r "limit" 100)))
  (on ErrInvalidState StatusBadRequest "target and valid eventKind are required"
  (internal "resolve notification routes failed")) (λ routes,
  mret (Reply StatusOK routes)).

Definition handleUpdateNotificationRoute (r : http_request) : R (reply Nr.NotificationRoute) :=
  decoded (decodeJSON notificationRoutePatchRequest_fields notificationRoutePatchRequest.zero r) (λ req,
  let patch := Routes.Rp.zero
    |> Routes.Rp.set_Target (optionalTrimmed (notificationRoutePatchRequest.Target req))
    |> Routes.Rp.set_ThreadID (optionalTrimmed (notificationRoutePatchRequest.ThreadID req))
    |> Routes.Rp.set_EndpointID (optionalTrimmed (notificationRoutePatchRequest.EndpointID req))
    |> Routes.Rp.set_EventKind (optionalTrimmed (notificationRoutePatchRequest.EventKind req))
    |> Routes.Rp.set_Preference (optionalTrimmed (notificationRoutePatchRequest.Preference req))
    |> Routes.Rp.set_Enabled (notificationRoutePatchRequest.Enabled req)
    |> Routes.Rp.set_ConfigJSON (optionalTrimmed (notificationRoutePatchRequest.ConfigJSON req)) in
  now ← unixNow;
  attempt (Routes.UpdateNotificationRoute now (PathValue r "id") patch)
    (on ErrNotFound StatusNotFound "notification route not found"
    (on ErrConflict StatusConflict "notification route already exists"
    (on ErrInvalidState StatusBadRequest "invalid notification route update"
    (internal "update notification route failed")))) (λ updated,
  mret (Reply StatusOK updated))).

Definition handleDeleteNotificationRoute (r : http_request) : R (reply unit) :=
  attempt (Routes.DeleteNotificationRoute (PathValue r "id"))
    (on ErrNotFound StatusNotFound "notification route not found" (internal "delete notification route failed")) (λ _,
  mret (Reply StatusOK ())).

(** ** Decisions ([memory.go]) *)

(** A decision of a room the account may read, or an answer. *)
Definition loadDecisionWithChannelGuard {B} (p : Principal) (id : string) (k : Cd.ChannelDecision → R (reply B)) : R (reply B) :=
  if id =s "" then mret (ErrorReply StatusBadRequest "decision id is required")
  else
    attempt (Decisions.GetDecision id)
      (on ErrNotFound StatusNotFound "decision not found" (internal "load decision failed")) (λ current,
    may ← read_or false (canReadChannel (P_User p) (Cd.Target current));
    if negb may then mret (ErrorReply StatusForbidden "channel is private") else k current).

(** The guard of the handlers of a room's decisions. *)
Definition for_reader {B} (p : Principal) (target : string) (k : R (reply B)) : R (reply B) :=
  if target =s "" then mret (ErrorReply StatusBadRequest "target is required")
  else
    may ← read_or false (canReadChannel (P_User p) target);
    if negb may then mret (ErrorReply StatusForbidden "channel is private") else k.

Definition status_filter (r : http_request) : list string :=
  let raw := TrimSpace (Query r "status") in
  if raw =s "" then [] else bfilter (λ entry, entry <>s "") (TrimSpace <$> Split raw ",").

Definition handleListChannelDecisions (r : http_request) (p : Principal) : R (reply (list Cd.ChannelDecision)) :=
  let target := pathChannelTarget r in
  for_reader p target (
  attempt (Decisions.ListDecisions (Decisions.O.zero
    |> Decisions.O.set_Target target
    |> Decisions.O.set_StatusFilter (status_filter r)
    |> Decisions.O.set_Limit (intQuery r "limit" 100)))
  (internal "list decisions failed") (λ rows,
  mret (Reply StatusOK rows))).

Definition handleProposeChannelDecision (r : http_request) (p : Principal) : R (reply Cd.ChannelDecision) :=
  let target := pathChannelTarget r in
  for_reader p target (
  decoded (decodeJSON proposeDecisionRequest_fields proposeDecisionRequest.zero r) (λ req,
  let title := TrimSpace (proposeDecisionRequest.Title req) in
  let body := TrimSpace (proposeDecisionRequest.Body req) in
  if (title =s "") || (body =s "") then mret (ErrorReply StatusBadRequest "title and body are required")
  else
    now ← unixNow;
    id ← NewID "dec";
    attempt (Decisions.CreateDecision now id (Cd.zero
      |> Cd.set_Target target
      |> Cd.set_Title title
      |> Cd.set_Body body
      |> Cd.set_Status DecisionStatusProposed
      |> Cd.set_ProposerID (User.ID (P_User p))
      |> Cd.set_ProposerKind "human"
      |> Cd.set_SupersedesDecisionID (TrimSpace (proposeDecisionRequest.SupersedesDecisionID req))))
    (on ErrInvalid StatusBadRequest "storage: invalid argument" (internal "create decision failed")) (λ decision,
    mret (Reply StatusCreated decision)))).

Definition handleVoteChannelDecision (r : http_request) (p : Principal) :
    R (reply (Cd.ChannelDecision * ChannelDecisionVote.ChannelDecisionVote)) :=
  let id := TrimSpace (PathValue r "id") in
  loadDecisionWithChannelGuard p id (λ _,
  decoded (decodeJSON voteDecisionRequest_fields voteDecisionRequest.zero r) (λ req,
  t1 ← unixNow;
  t2 ← unixNow;
  t3 ← unixNow;
  vote_id ← NewID "vot";
  attempt (Decisions.UpsertDecisionVote t1 t2 t3 vote_id (V.zero
    |> V.set_DecisionID id
    |> V.set_VoterID (User.ID (P_User p))
    |> V.set_VoterKind "human"
    |> V.set_Decision (TrimSpace (voteDecisionRequest.Decision req))
    |> V.set_Reason (TrimSpace (voteDecisionRequest.Reason req))))
  (on ErrNotFound StatusNotFound "decision not found"
  (on ErrInvalid StatusBadRequest "decision is not open for voting or vote value is invalid" (internal "vote failed"))) (λ res,
  mret (Reply StatusOK res)))).

Definition StatusPreconditionFailed : Z := 412.

Definition handleRatifyChannelDecision (r : http_request) (p : Principal) : R (reply Cd.ChannelDecision) :=
  let id := TrimSpace (PathValue r "id") in
  loadDecisionWithChannelGuard p id (λ current,
  let req := decode_if_any ratifyDecisionRequest_fields ratifyDecisionRequest.zero r in
  let force := ratifyDecisionRequest.Force req in
  if Cd.Status current <>s DecisionStatusProposed then mret (ErrorReply StatusConflict "decision is not proposed")
  else if force && negb (is_admin p) then mret (ErrorReply StatusForbidden "admin role required to force ratify")
  else if negb force && negb ((2 <=? Cd.ApproveCount current)%Z && (Cd.RejectCount current =? 0)%Z)
  then mret (ErrorReply StatusPreconditionFailed "quorum not met")
  else
    now ← unixNow;
    attempt (Decisions.ForceRatifyDecision now id) (internal "ratify failed") (λ ratified,
    mret (Reply StatusOK ratified))).

Definition handleRetireChannelDecision (r : http_request) (p : Principal) : R (reply Cd.ChannelDecision) :=
  let id := TrimSpace (PathValue r "id") in
  loadDecisionWithChannelGuard p id (λ current,
  let req := decode_if_any retireDecisionRequest_fields retireDecisionRequest.zero r in
  if (Cd.Status current <>s DecisionStatusProposed) && (Cd.Status current <>s DecisionStatusRatified)
  then mret (ErrorReply StatusConflict "decision is already closed")
  else
    now ← unixNow;
    attempt (Decisions.RetireDecision now id (User.ID (P_User p)) (TrimSpace (retireDecisionRequest.Reason req)))
      (internal "retire failed") (λ retired,
    mret (Reply StatusOK retired))).

Definition handleListDecisionVotes (r : http_request) (p : Principal) : R (reply (list ChannelDecisionVote.ChannelDecisionVote)) :=
  let id := TrimSpace (PathValue r "id") in
  loadDecisionWithChannelGuard p id (λ _,
  attempt (Decisions.ListDecisionVotes id) (internal "list votes failed") (λ votes,
  mret (Reply StatusOK votes))).

(** ** Agent runs *)

Definition handleListAgentRuns (r : http_request) : R (reply (list AgentRun.AgentRun)) :=
  attempt (AgentRuns.ListAgentRuns (LsOpts.zero
    |> LsOpts.set_AgentID (TrimSpace (Query r "agentId"))
    |> LsOpts.set_ComputerID (TrimSpace (Query r "computerId"))
    |> LsOpts.set_Limit (intQuery r "limit" 50)))
  (internal "list runs failed") (λ rows,
  mret (Reply StatusOK rows)).

Definition handleGetAgentRun (r : http_request) :
    R (reply (AgentRun.AgentRun * list Models.AgentRunEvent.AgentRunEvent)) :=
  let id := TrimSpace (PathValue r "id") in
  if id =s "" then mret (ErrorReply StatusBadRequest "run id is required")
  else
    let include := (Query r "events" =s "1") || (Query r "events" =s "true") in
    attempt (AgentRuns.GetAgentRun id include)
      (on ErrNotFound StatusNotFound "run not found" (internal "get run failed")) (λ run,
    mret (Reply StatusOK run)).

Definition handleSearchAgentRuns (r : http_request) : R (reply (list AgentRunSearchHit.AgentRunSearchHit)) :=
  let query := TrimSpace (Query r "q") in
  if query =s "" then mret (ErrorReply StatusBadRequest "q is required")
  else
    attempt (AgentRuns.SearchAgentRuns (SeOpts.zero
      |> SeOpts.set_Query query
      |> SeOpts.set_AgentID (TrimSpace (Query r "agentId"))
      |> SeOpts.set_ComputerID (TrimSpace (Query r "computerId"))
      |> SeOpts.set_Limit (intQuery r "limit" 50)))
    (internal "search runs failed") (λ hits,
    mret (Reply StatusOK hits)).

End work.
