(* ===== verification/ImChannels.v ===== *)
(** * Webhooks of the messengers ([internal/imchannels])

    What the webhook handlers of Telegram, Feishu, Weixin official accounts and WeCom make
    of a request: the configuration of the endpoint, the check of the request's secret or
    signature, the event they build, and what they do with the coordinator's result.  Their
    common parts are modelled once.  The digests, the cipher and the XML decoder of the
    standard library are parameters; the text of an error is left out. *)
From S2P Require Import Prelude GoStr GoText Base64 Sql Json JsonValue Models Schema Store.
From S2P Require Import Messages ImInbound ImAdapter ImNormalize ImCoord.

#[local] Open Scope go_scope.

Module EpS := Models.InteractionEndpoint.
Module MgC := Models.Message.

(** [sha1.Sum], in hexadecimal digits. *)
Class Sha1 := { Sha1_hex : string → string }.

(** ** Common parts *)

Inductive webhook_error :=
| UnauthorizedWebhook
| EncryptedUnsupported
| BadRequest
| BadEvent (e : normalize_error)
| BadDraft (problems : list problem)
| Coordinated (e : coord_error).

Inductive webhook_result :=
| Accepted (message : MgC.Message)
| Ignored (reason : string)
| Challenge (challenge : string)
| EchoBack (echo : string).

Section common.
Context {Uni : Unicode} {Spr : Sprinter} {Fl : Floats}.

(** The configuration of an endpoint; [None] is an error. *)
Definition raw_config (endpoint : EpS.InteractionEndpoint) : option (gmap string json) :=
  if TrimSpace (EpS.ConfigJSON endpoint) =s "" then Some ∅
  else option_map (from_opt ∅) (decode_any_map (EpS.ConfigJSON endpoint)).

Definition stringValue (values : gmap string json) (key : string) : string :=
  match values !! key with None | Some JNull => "" | Some value => TrimSpace (Sprint value) end.

(** [subtleConstantTimeCompare]: the time it takes is not modelled. *)
Definition ConstantTimeCompare (a b : string) : bool := a =s b.

Definition apply_defaults (defaultTarget defaultThreadID : string) (msg : Message) : Message :=
  let c := Ms.Conversation msg in
  let c := if Cv.TargetHint c =s "" then Cv.set_TargetHint defaultTarget c else c in
  let c := if Cv.ThreadID c =s "" then Cv.set_ThreadID defaultThreadID c else c in
  Ms.set_Conversation c msg.

Definition raw_event (provider endpointID externalMessageID : string) (received : Z)
    (headers : gmap string (list string)) (body : string) (metadata : gmap string wire) : RawEvent :=
  Ev.mk (TrimSpace endpointID) "im" provider (TrimSpace externalMessageID) received headers body metadata.

(** The digest of the parts of a signature, sorted. *)
Definition sorted_digest `{!Sha1} (parts : list string) : string :=
  Sha1_hex (Join (sort_with String.leb (TrimSpace <$> parts)) "").

Section deliver.
Context {Eng : SqlEngine} {Txt : TextLib} {Sha : Sha256} {Ld : Loader}.

(** The start of the process, for stale drafts. *)
Variable startedAt : option Z.

(** A normalised message goes to the coordinator as a draft. *)
Definition deliver (draws : Draws) (cancelled : bool) (now : Z) (msg : Message) (w : Coordinator) :
    (webhook_error + webhook_result) * Coordinator :=
  match Draft_ now msg with
  | inl problems => (inl (BadDraft problems), w)
  | inr draft =>
      let '(result, err, w) := Handle startedAt draws cancelled draft w in
      (match err with
       | None => inr (Accepted (StoredMessage result))
       | Some (ErrStore ErrConflict) => inr (Ignored "duplicate")
       | Some ErrStaleDraft => inr (Ignored "stale")
       | Some e => inl (Coordinated e)
       end, w)
  end.

(** From the event to the coordinator: [ignored] is the reason to drop a message. *)
Definition receive `{!Rfc3339} (draws : Draws) (cancelled : bool) (now : Z) (event : RawEvent)
    (configured : Message → Message) (ignored : Message → option string) (w : Coordinator) :
    (webhook_error + webhook_result) * Coordinator :=
  match NormalizeInbound now event with
  | inl e => (inl (BadEvent e), w)
  | inr msg =>
      let msg := configured msg in
      match ignored msg with
      | Some reason => (inr (Ignored reason), w)
      | None => deliver draws cancelled now msg w
      end
  end.

End deliver.
End common.

(** ** Telegram ([telegram/telegram.go]) *)

Module Telegram.
Record Config := mkConfig {
  EndpointID : string;
  Token : string;
  SecretToken : string;
  BotUsername : string;
  DefaultTarget : string;
  DefaultThreadID : string;
  GroupMode : string;
  DefaultChatID : string;
  APIBaseURL : string
}.

Definition SecretTokenHeader : string := "X-Telegram-Bot-Api-Secret-Token".

Definition normalizeBotUsername (value : string) : string := TrimPrefix (TrimSpace value) "@".

Section telegram.
Context {Uni : Unicode} {Spr : Sprinter} {Fl : Floats}.

Definition ConfigFromEndpoint (endpoint : EpS.InteractionEndpoint) : option Config :=
  match raw_config endpoint with
  | None => None
  | Some raw =>
      let value := stringValue raw in
      Some (mkConfig (EpS.ID endpoint) (value "token") (firstNonEmpty [value "secret_token"; value "webhook_secret"])
        (normalizeBotUsername (value "bot_username")) (value "default_target") (value "default_thread_id")
        (firstNonEmpty [ToLower (value "group_mode"); "mention"]) (value "channel_id") (value "api_base_url"))
  end.

Definition normalize (c : Config) : Config :=
  let mode := ToLower (TrimSpace (GroupMode c)) in
  mkConfig (TrimSpace (EndpointID c)) (TrimSpace (Token c)) (TrimSpace (SecretToken c))
    (normalizeBotUsername (BotUsername c)) (TrimSpace (DefaultTarget c)) (TrimSpace (DefaultThreadID c))
    (if mode =s "" then "mention" else mode) (TrimSpace (DefaultChatID c)) (TrimSpace (APIBaseURL c)).

(** [headers.Get] of the header that carries the secret. *)
Definition presented_secret (headers : gmap string (list string)) : string :=
  from_opt "" (head (from_opt [] (headers !! SecretTokenHeader))).

(** An endpoint without a secret takes every request. *)
Definition verifySecret (c : Config) (headers : gmap string (list string)) : bool :=
  (SecretToken c =s "") || ConstantTimeCompare (presented_secret headers) (SecretToken c).

Definition applyConfig (msg : Message) (c : Config) : Message :=
  apply_defaults (DefaultTarget c) (DefaultThreadID c) msg.

Definition shouldIgnore (now : Z) (msg : Message) (c : Config) : option string :=
  if negb (Cv.IsGroup (Ms.Conversation msg)) then None
  else if GroupMode c =s "disabled" then Some "group disabled"
  else if GroupMode c =s "always" then None
  else if BotUsername c =s "" then None
  else if Contains (ToLower (Text now msg)) ("@" +:+ ToLower (BotUsername c)) then None
  else Some "group mention required".

Context {Eng : SqlEngine} {Txt : TextLib} {Sha : Sha256} {Ld : Loader} {Rfc : Rfc3339}.

(** [Webhook.Handle]; [now] is its clock in seconds. *)
Definition Handle (startedAt : option Z) (draws : Draws) (cancelled : bool) (now : Z) (config : Config)
    (headers : gmap string (list string)) (body : string) (w : Coordinator) :
    (webhook_error + webhook_result) * Coordinator :=
  let cfg := normalize config in
  if negb (verifySecret cfg headers) then (inl UnauthorizedWebhook, w)
  else
    receive startedAt draws cancelled now
      (raw_event ProviderTelegram (EndpointID cfg) "" now headers (TrimSpace body) {["transport" := WStr "webhook"]})
      (λ msg, applyConfig msg cfg) (λ msg, shouldIgnore now msg cfg) w.

End telegram.
End Telegram.

(** ** Feishu ([feishu/feishu.go]) *)

Module Feishu.
Record Config := mkConfig {
  EndpointID : string;
  AppID : string;
  AppSecret : string;
  VerificationToken : string;
  EncryptKey : string;
  DefaultTarget : string;
  DefaultThreadID : string;
  DefaultReceiveID : string;
  DefaultReceiveType : string;
  GroupMode : string;
  APIBaseURL : string
}.

Module envelope.
Record envelope := mk {
  Challenge : string;
  Token : string;
  Type_ : string;
  Encrypt : string;
  HeaderToken : string;
  EventID : string;
  EventType : string;
  TenantKey : string
}.
Definition zero : envelope := mk "" "" "" "" "" "" "" "".
Definition set_Challenge v e := mk v (Token e) (Type_ e) (Encrypt e) (HeaderToken e) (EventID e) (EventType e) (TenantKey e).
Definition set_Token v e := mk (Challenge e) v (Type_ e) (Encrypt e) (HeaderToken e) (EventID e) (EventType e) (TenantKey e).
Definition set_Type_ v e := mk (Challenge e) (Token e) v (Encrypt e) (HeaderToken e) (EventID e) (EventType e) (TenantKey e).
Definition set_Encrypt v e := mk (Challenge e) (Token e) (Type_ e) v (HeaderToken e) (EventID e) (EventType e) (TenantKey e).
Definition set_HeaderToken v e := mk (Challenge e) (Token e) (Type_ e) (Encrypt e) v (EventID e) (EventType e) (TenantKey e).
Definition set_EventID v e := mk (Challenge e) (Token e) (Type_ e) (Encrypt e) (HeaderToken e) v (EventType e) (TenantKey e).
Definition set_EventType v e := mk (Challenge e) (Token e) (Type_ e) (Encrypt e) (HeaderToken e) (EventID e) v (TenantKey e).
Definition set_TenantKey v e := mk (Challenge e) (Token e) (Type_ e) (Encrypt e) (HeaderToken e) (EventID e) (EventType e) v.
End envelope.

Definition header_fields : list (field envelope.envelope) :=
  [("token", into envelope.HeaderToken envelope.set_HeaderToken dec_string);
   ("event_id", into envelope.EventID envelope.set_EventID dec_string);
   ("event_type", into envelope.EventType envelope.set_EventType dec_string);
   ("tenant_key", into envelope.TenantKey envelope.set_TenantKey dec_string)].

Definition envelope_fields : list (field envelope.envelope) :=
  [("challenge", into envelope.Challenge envelope.set_Challenge dec_string);
   ("token", into envelope.Token envelope.set_Token dec_string);
   ("type", into envelope.Type_ envelope.set_Type_ dec_string);
   ("encrypt", into envelope.Encrypt envelope.set_Encrypt dec_string);
   ("header", dec_struct header_fields)].

Definition parseEnvelope (body : string) : option envelope.envelope :=
  let (env, ok) := JsonValue.Unmarshal (dec_struct envelope_fields) body envelope.zero in
  if ok then Some env else None.

Definition token_of (e : envelope.envelope) : string := firstNonEmpty [envelope.Token e; envelope.HeaderToken e].

Section feishu.
Context {Uni : Unicode} {Spr : Sprinter} {Fl : Floats}.

Definition ConfigFromEndpoint (endpoint : EpS.InteractionEndpoint) : option Config :=
  match raw_config endpoint with
  | None => None
  | Some raw =>
      let value := stringValue raw in
      Some (mkConfig (EpS.ID endpoint) (value "app_id") (value "app_secret") (value "verification_token")
        (value "encrypt_key") (value "default_target") (value "default_thread_id")
        (firstNonEmpty [value "default_receive_id"; value "default_chat_id"]) (value "default_receive_id_type")
        (firstNonEmpty [ToLower (value "group_mode"); "mention"]) (value "api_base_url"))
  end.

Definition normalize (c : Config) : Config :=
  let mode := ToLower (TrimSpace (GroupMode c)) in
  mkConfig (TrimSpace (EndpointID c)) (TrimSpace (AppID c)) (TrimSpace (AppSecret c)) (TrimSpace (VerificationToken c))
    (TrimSpace (EncryptKey c)) (TrimSpace (DefaultTarget c)) (TrimSpace (DefaultThreadID c))
    (TrimSpace (DefaultReceiveID c)) (TrimSpace (DefaultReceiveType c))
    (if mode =s "" then "mention" else mode) (TrimSpace (APIBaseURL c)).

(** An endpoint without a verification token takes every request. *)
Definition verifyToken (c : Config) (token : string) : bool :=
  (VerificationToken c =s "") || ConstantTimeCompare token (VerificationToken c).

Definition applyConfig (msg : Message) (c : Config) : Message :=
  apply_defaults (DefaultTarget c) (DefaultThreadID c) msg.

Definition hasFeishuMention (value : option wire) : bool :=
  match value with
  | Some (WList (_ :: _)) | Some (WJson (JArr (_ :: _))) => true
  | _ => false
  end.

Definition shouldIgnore (msg : Message) (c : Config) : option string :=
  if negb (Cv.IsGroup (Ms.Conversation msg)) then None
  else if GroupMode c =s "disabled" then Some "group disabled"
  else if GroupMode c =s "always" then None
  else if hasFeishuMention (Ms.Metadata msg !! "mentions") then None
  else Some "group mention required".

Context {Eng : SqlEngine} {Txt : TextLib} {Sha : Sha256} {Ld : Loader} {Rfc : Rfc3339}.

(** [Callback.Handle]. *)
Definition Handle (startedAt : option Z) (draws : Draws) (cancelled : bool) (now : Z) (config : Config)
    (headers : gmap string (list string)) (body : string) (w : Coordinator) :
    (webhook_error + webhook_result) * Coordinator :=
  let cfg := normalize config in
  let body := TrimSpace body in
  if body =s "" then (inl BadRequest, w)
  else match parseEnvelope body with
  | None => (inl BadRequest, w)
  | Some env =>
      if envelope.Encrypt env <>s "" then (inl EncryptedUnsupported, w)
      else if negb (verifyToken cfg (token_of env)) then (inl UnauthorizedWebhook, w)
      else if (envelope.Challenge env <>s "") || (envelope.Type_ env =s "url_verification")
      then (inr (Challenge (envelope.Challenge env)), w)
      else
        receive startedAt draws cancelled now
          (raw_event ProviderFeishu (EndpointID cfg) "" now headers body
            (<["transport" := WStr "webhook"]> (<["event_type" := WStr (envelope.EventType env)]>
              {["tenant_key" := WStr (envelope.TenantKey env)]})))
          (λ msg, applyConfig msg cfg) (λ msg, shouldIgnore msg cfg) w
  end.

End feishu.
End Feishu.

(** ** Weixin official accounts ([weixin/wechat.go]) *)

Module Weixin.
Record Config := mkConfig {
  EndpointID : string;
  Mode : string;
  BotToken : string;
  BotID : string;
  UserID : string;
  BaseURL : string;
  CDNBaseURL : string;
  AppID : string;
  AppSecret : string;
  Token : string;
  DefaultTarget : string;
  DefaultThreadID : string;
  APIBaseURL : string;
  AccessToken : string
}.

Record Query := mkQuery { Signature : string; Timestamp : string; Nonce : string; Echo : string }.

Record officialXMLMessage := mkOfficial {
  ToUserName : string;
  FromUserName : string;
  CreateTime : Z;
  MsgType : string;
  Content : string;
  MsgID : string;
  MediaID : string;
  PicURL : string;
  Format : string;
  Recognition : string;
  Title : string;
  Description : string;
  URL : string;
  Event : string;
  EventKey : string;
  Encrypt : string
}.

(** [xml.Unmarshal] into an [officialXMLMessage]. *)
Class Xml := { unmarshal_official : string → option officialXMLMessage }.

Section weixin.
Context {Uni : Unicode} {Spr : Sprinter} {Fl : Floats} {S1 : Sha1} {Xm : Xml}.

Definition ConfigFromEndpoint (endpoint : EpS.InteractionEndpoint) : option Config :=
  match raw_config endpoint with
  | None => None
  | Some raw =>
      let value := stringValue raw in
      Some (mkConfig (EpS.ID endpoint) (firstNonEmpty [value "mode"; "ilink"]) (value "bot_token") (value "bot_id")
        (value "user_id") (value "base_url") (value "cdn_base_url") (value "app_id")
        (firstNonEmpty [value "app_secret"; value "app_secret_ref"])
        (firstNonEmpty [value "token"; value "webhook_token"; value "token_ref"])
        (value "default_target") (value "default_thread_id") (value "api_base_url") (value "access_token"))
  end.

Definition normalize (c : Config) : Config :=
  let mode := ToLower (TrimSpace (Mode c)) in
  mkConfig (TrimSpace (EndpointID c)) (if mode =s "" then "ilink" else mode) (TrimSpace (BotToken c))
    (TrimSpace (BotID c)) (TrimSpace (UserID c)) (TrimSpace (BaseURL c)) (TrimSpace (CDNBaseURL c))
    (TrimSpace (AppID c)) (TrimSpace (AppSecret c)) (TrimSpace (Token c)) (TrimSpace (DefaultTarget c))
    (TrimSpace (DefaultThreadID c)) (TrimSpace (APIBaseURL c)) (TrimSpace (AccessToken c)).

Definition VerifySignature (token : string) (query : Query) : bool :=
  if (TrimSpace token =s "") || (TrimSpace (Signature query) =s "") || (TrimSpace (Timestamp query) =s "") ||
     (TrimSpace (Nonce query) =s "")
  then false
  else ConstantTimeCompare (ToLower (TrimSpace (Signature query)))
         (sorted_digest [token; Timestamp query; Nonce query]).

Definition VerifyURL (config : Config) (query : Query) : webhook_error + string :=
  let cfg := normalize config in
  if negb (VerifySignature (Token cfg) query) then inl UnauthorizedWebhook else inr (Echo query).

Definition ParseOfficialAccountXML (body : string) : option officialXMLMessage :=
  match unmarshal_official (TrimSpace body) with
  | None => None
  | Some m =>
      if (TrimSpace (FromUserName m) =s "") || (TrimSpace (ToUserName m) =s "") || (TrimSpace (MsgType m) =s "")
      then None else Some m
  end.

(** A text of ASCII digits as an [int64] that wraps around; any other text is zero. *)
Fixpoint digits_value (out : Z) (s : string) : Z :=
  match s with
  | EmptyString => out
  | String c s =>
      if between 48 57 c then digits_value (i64 (out * 10 + (Z.of_nat (nat_of c) - 48))) s else 0%Z
  end.
Definition parseInt64OrZero (value : string) : Z := digits_value 0 (TrimSpace value).

Definition WText (members : list (string * string)) : wire := WMap ((λ m, (m.1, WStr m.2)) <$> members).

Definition item_of (m : officialXMLMessage) : list (string * wire) :=
  let kind := ToLower (TrimSpace (MsgType m)) in
  let item (n : Z) name members := [("type", WInt n); (name, WText members)] in
  if kind =s "text" then item 1%Z "text_item" [("text", Content m)]
  else if kind =s "image" then item 2%Z "image_item" [("url", PicURL m); ("media_id", MediaID m)]
  else if kind =s "voice" then
    item 3%Z "voice_item" [("text", firstNonEmpty [Recognition m; "[voice]"]); ("media_id", MediaID m); ("format", Format m)]
  else if (kind =s "video") || (kind =s "shortvideo") then item 5%Z "video_item" [("media_id", MediaID m)]
  else if kind =s "link" then item 1%Z "text_item" [("text", firstNonEmpty [Title m; Description m; URL m])]
  else if kind =s "event" then
    item 1%Z "text_item" [("text", "[event: " +:+ firstNonEmpty [Event m; EventKey m; "unknown"] +:+ "]")]
  else item 0%Z "text_item" [("text", "[" +:+ kind +:+ "]")].

(** The payload for the normaliser, and the identifier of the message. *)
Definition ToNormalizerJSON (m : officialXMLMessage) : string * string :=
  let messageID := firstNonEmpty [MsgID m; FormatInt (CreateTime m)] in
  (wire_text (WMap
     [("message_id", WInt (parseInt64OrZero messageID)); ("from_user_id", WStr (FromUserName m));
      ("session_id", WStr (FromUserName m)); ("item_list", WList [WMap (item_of m)]);
      ("official_account", WMap
        [("to_user_name", WStr (ToUserName m)); ("create_time", WInt (CreateTime m)); ("msg_type", WStr (MsgType m))])]),
   messageID).

Definition applyConfig (msg : Message) (c : Config) : Message :=
  apply_defaults (DefaultTarget c) (DefaultThreadID c) msg.

Context {Eng : SqlEngine} {Txt : TextLib} {Sha : Sha256} {Ld : Loader} {Rfc : Rfc3339}.

(** [Webhook.Handle]. *)
Definition Handle (startedAt : option Z) (draws : Draws) (cancelled : bool) (now : Z) (config : Config)
    (query : Query) (body : string) (w : Coordinator) : (webhook_error + webhook_result) * Coordinator :=
  let cfg := normalize config in
  if negb (VerifySignature (Token cfg) query) then (inl UnauthorizedWebhook, w)
  else if (Echo query =s "") && (TrimSpace body =s "") then (inr (Ignored "empty callback"), w)
  else if TrimSpace body =s "" then (inr (EchoBack (Echo query)), w)
  else match ParseOfficialAccountXML body with
  | None => (inl BadRequest, w)
  | Some official =>
      if TrimSpace (Encrypt official) <>s "" then (inl BadRequest, w)
      else
        let (eventBody, externalMessageID) := ToNormalizerJSON official in
        receive startedAt draws cancelled now
          (raw_event ProviderWeixin (EndpointID cfg) externalMessageID now ∅ eventBody
            (<["transport" := WStr "official_account_callback"]> {["mode" := WStr (Mode cfg)]}))
          (λ msg, applyConfig msg cfg) (λ _, None) w
  end.

End weixin.
End Weixin.

(** ** WeCom ([wecom/wecom.go]) *)

Module WeCom.
Record Config := mkConfig {
  EndpointID : string;
  Mode : string;
  CorpID : string;
  CorpSecret : string;
  AgentID : string;
  CallbackToken : string;
  CallbackAESKey : string;
  DefaultTarget : string;
  DefaultThreadID : string;
  DefaultUserID : string;
  APIBaseURL : string;
  AccessToken : string;
  AllowFrom : string;
  EnableMarkdown : bool
}.

Record Query := mkQuery { MsgSignature : string; Timestamp : string; Nonce : string; Echo : string }.

Record callbackMessage := mkCallback {
  ToUserName : string;
  FromUserName : string;
  CreateTime : Z;
  MsgType : string;
  Content : string;
  PicURL : string;
  MediaID : string;
  FileName : string;
  Format : string;
  MsgID : Z;
  MsgAgentID : Z
}.

(** [xml.Unmarshal] into an [encryptedEnvelope], of which only [Encrypt] is used, and into
    a [callbackMessage]. *)
Class Xml := {
  unmarshal_envelope : string → option string;
  unmarshal_callback : string → option callbackMessage
}.

(** [cipher.NewCBCDecrypter] of AES: key, initial vector, whole blocks. *)
Class Aes := { CBCDecrypt : string → string → string → string }.
Class AesLaws `{!Aes} : Prop := {
  decrypt_length key iv data : String.length (CBCDecrypt key iv data) = String.length data
}.

Definition BlockSize : nat := 16.

Definition decodeAESKey (value : string) : option string :=
  let value := TrimSpace value in
  if negb (String.length value =? 43) then None
  else match DecodeString (value +:+ "=") with
  | None => None
  | Some key => if String.length key =? 32 then Some key else None
  end.

Definition last_byte (data : string) : nat :=
  match String.get (String.length data - 1) data with Some c => nat_of c | None => 0 end.

Definition pkcs7Unpad (data : string) (blockSize : nat) : option string :=
  let len := String.length data in
  if (len =? 0) || negb (len mod blockSize =? 0) then None
  else
    let pad := last_byte data in
    if (pad =? 0) || (blockSize <? pad) || (len <? pad) then None
    else if forallb (λ c, nat_of c =? pad) (String.list_ascii_of_string (sdrop (len - pad) data))
    then Some (stake (len - pad) data) else None.

(** [binary.BigEndian.Uint32]. *)
Definition big_endian (s : string) : Z :=
  fold_left (λ n c, n * 256 + Z.of_nat (nat_of c))%Z (String.list_ascii_of_string s) 0%Z.

Definition decryptPayload `{!Aes} (encodingAESKey receiveID encrypted : string) : option string :=
  match decodeAESKey encodingAESKey, DecodeString (TrimSpace encrypted) with
  | Some key, Some ciphertext =>
      let len := String.length ciphertext in
      if (len <? BlockSize) || negb (len mod BlockSize =? 0) then None
      else match pkcs7Unpad (CBCDecrypt key (stake BlockSize key) ciphertext) BlockSize with
      | None => None
      | Some plain =>
          if String.length plain <? 20 then None
          else
            let msgLen := big_endian (stake 4 (sdrop 16 plain)) in
            if (Z.of_nat (String.length plain) <? 20 + msgLen)%Z then None
            else
              let msg := stake (Z.to_nat msgLen) (sdrop 20 plain) in
              let gotReceiveID := TrimSpace (sdrop (20 + Z.to_nat msgLen) plain) in
              if (receiveID <>s "") && (gotReceiveID <>s "") && (gotReceiveID <>s TrimSpace receiveID)
              then None else Some msg
      end
  | _, _ => None
  end.

(** Removes from the text each ["<@"] up to the next [">"]; the fuel is its length. *)
Fixpoint strip_mentions (fuel : nat) (text : string) : string :=
  match fuel with
  | 0 => text
  | S fuel =>
      match Index text "<@" with
      | None => text
      | Some start =>
          match Index (sdrop start text) ">" with
          | None => text
          | Some stop => strip_mentions fuel (TrimSpace (stake start text +:+ sdrop (start + stop + 1) text))
          end
      end
  end.
Definition StripAtMentions (text : string) : string :=
  TrimSpace (strip_mentions (String.length text) (TrimSpace text)).

Definition allowFrom (allowList userID : string) : bool :=
  let allowList := TrimSpace allowList in
  (allowList =s "") || (allowList =s "*") ||
  existsb (λ item, TrimSpace item =s TrimSpace userID) (Split allowList ",").

Section wecom.
Context {Uni : Unicode} {Spr : Sprinter} {Fl : Floats} {S1 : Sha1} {Xm : Xml} {Ae : Aes}.

Definition boolValue (values : gmap string json) (key : string) : bool :=
  let value := ToLower (stringValue values key) in
  (value =s "true") || (value =s "1") || (value =s "yes") || (value =s "on").

Definition ConfigFromEndpoint (endpoint : EpS.InteractionEndpoint) : option Config :=
  match raw_config endpoint with
  | None => None
  | Some raw =>
      let value := stringValue raw in
      Some (mkConfig (EpS.ID endpoint) (firstNonEmpty [value "mode"; "callback_app"]) (value "corp_id")
        (value "corp_secret") (value "agent_id") (value "callback_token") (value "callback_aes_key")
        (value "default_target") (value "default_thread_id") (value "default_user_id") (value "api_base_url")
        (value "access_token") (value "allow_from") (boolValue raw "enable_markdown"))
  end.

Definition canonicalMode (mode : string) : string :=
  let mode := ToLower (TrimSpace mode) in
  if mode =s "websocket" then "websocket_bot"
  else if (mode =s "callback") || (mode =s "webhook") then "callback_app"
  else mode.

Definition normalize (c : Config) : Config :=
  let mode := canonicalMode (Mode c) in
  mkConfig (TrimSpace (EndpointID c)) (if mode =s "" then "callback_app" else mode) (TrimSpace (CorpID c))
    (TrimSpace (CorpSecret c)) (TrimSpace (AgentID c)) (TrimSpace (CallbackToken c)) (TrimSpace (CallbackAESKey c))
    (TrimSpace (DefaultTarget c)) (TrimSpace (DefaultThreadID c)) (TrimSpace (DefaultUserID c))
    (TrimSpace (APIBaseURL c)) (TrimSpace (AccessToken c)) (TrimSpace (AllowFrom c)) (EnableMarkdown c).

(** [echo] is the encrypted part. *)
Definition verifySignature (token : string) (query : Query) : bool :=
  if (TrimSpace (MsgSignature query) =s "") || (TrimSpace (Timestamp query) =s "") ||
     (TrimSpace (Nonce query) =s "") || (TrimSpace (Echo query) =s "")
  then false
  else ConstantTimeCompare (ToLower (TrimSpace (MsgSignature query)))
         (sorted_digest [token; Timestamp query; Nonce query; Echo query]).

Definition VerifyURL (config : Config) (query : Query) : webhook_error + string :=
  let cfg := normalize config in
  if negb (verifySignature (CallbackToken cfg) query) then inl UnauthorizedWebhook
  else match decryptPayload (CallbackAESKey cfg) (CorpID cfg) (Echo query) with
       | None => inl BadRequest
       | Some plain => inr plain
       end.

Definition item_of (m : callbackMessage) : list (string * wire) :=
  let kind := ToLower (TrimSpace (MsgType m)) in
  let item (n : Z) name members := [("type", WInt n); (name, Weixin.WText members)] in
  if kind =s "text" then item 1%Z "text_item" [("text", StripAtMentions (Content m))]
  else if kind =s "image" then item 2%Z "image_item" [("url", PicURL m); ("media_id", MediaID m)]
  else if kind =s "voice" then item 3%Z "voice_item" [("text", "[voice]"); ("media_id", MediaID m); ("format", Format m)]
  else if kind =s "file" then item 4%Z "file_item" [("file_name", FileName m); ("media_id", MediaID m)]
  else if kind =s "video" then item 5%Z "video_item" [("media_id", MediaID m)]
  else item 0%Z "text_item" [("text", "[" +:+ kind +:+ "]")].

Definition ToNormalizerJSON (m : callbackMessage) : string * string :=
  (wire_text (WMap
     [("message_id", WInt (MsgID m)); ("from_user_id", WStr (FromUserName m)); ("session_id", WStr (FromUserName m));
      ("item_list", WList [WMap (item_of m)]);
      ("wecom", WMap
        [("to_user_name", WStr (ToUserName m)); ("create_time", WInt (CreateTime m)); ("msg_type", WStr (MsgType m));
         ("agent_id", WInt (MsgAgentID m))])]),
   FormatInt (MsgID m)).

Definition applyConfig (msg : Message) (c : Config) : Message :=
  apply_defaults (DefaultTarget c) (DefaultThreadID c) msg.

Context {Eng : SqlEngine} {Txt : TextLib} {Sha : Sha256} {Ld : Loader} {Rfc : Rfc3339}.

(** [Webhook.Handle]. *)
Definition Handle (startedAt : option Z) (draws : Draws) (cancelled : bool) (now : Z) (config : Config)
    (query : Query) (body : string) (w : Coordinator) : (webhook_error + webhook_result) * Coordinator :=
  let cfg := normalize config in
  let body := TrimSpace body in
  if body =s "" then (inr (Ignored "empty callback"), w)
  else match unmarshal_envelope body with
  | None => (inl BadRequest, w)
  | Some encrypted =>
      let query := mkQuery (MsgSignature query) (Timestamp query) (Nonce query) encrypted in
      if negb (verifySignature (CallbackToken cfg) query) then (inl UnauthorizedWebhook, w)
      else match decryptPayload (CallbackAESKey cfg) (CorpID cfg) encrypted ≫= unmarshal_callback with
      | None => (inl BadRequest, w)
      | Some msg =>
          if (FromUserName msg =s "") || (MsgType msg =s "") then (inl BadRequest, w)
          else if negb (allowFrom (AllowFrom cfg) (FromUserName msg)) then (inr (Ignored "sender not allowed"), w)
          else
            let (eventBody, externalMessageID) := ToNormalizerJSON msg in
            receive startedAt draws cancelled now
              (raw_event ProviderWeCom (EndpointID cfg) externalMessageID now ∅ eventBody
                (<["transport" := WStr "callback_app"]> {["mode" := WStr (Mode cfg)]}))
              (λ msg, applyConfig msg cfg) (λ _, None) w
      end
  end.

End wecom.
End WeCom.
