(* ===== verification/HttpIm.v ===== *)
(** * Endpoints, chats and QR bindings over REST
    ([internal/server/server.go], [internal/imchannels/weixin/binding.go])

    The handlers of interaction endpoints, of the requests and subscriptions of chats, and
    of the sessions that bind an endpoint by a QR code.  What the iLink service answers is
    an argument of the handlers that ask it. *)

From S2P Require Import Prelude GoStr GoText Sql Json JsonValue Models Schema Store Users Endpoints.
From S2P Require Import ImChats Proto Rpc RpcAgents ImPolicy ImAdapter ImBinding ImInbound.
From S2P Require Import ImNormalize ImRender ImCoord ImChannels Http HttpBase.

#[local] Open Scope go_scope.

Module Ie := InteractionEndpoint.
Module Req := IMChatAuthRequest.
Module Iep := InteractionEndpointPatch.
Module Sub := IMChatSubscription.
Module Bs := ImBinding.Session.

(** ** Texts of errors *)

(** [%q] of a printable text. *)
Definition quoted (s : string) : string := dq +:+ s +:+ dq.

(** The texts without what the JSON decoder adds of its own. *)
Definition config_error_text (e : config_error) : string :=
  match e with
  | UnsupportedProvider provider => "unsupported IM provider " +:+ quoted provider
  | InvalidConfig => "invalid config JSON"
  | MissingField provider field => provider +:+ ": missing required config field " +:+ field
  | UnsupportedMode provider mode => provider +:+ ": unsupported mode " +:+ quoted mode
  end.

Definition policy_error_text (e : policy_error) : string :=
  "invalid im group policy: " +:+
  match e with
  | InvalidConfigJSON => "invalid config JSON"
  | ToolPolicyNotObject => "tool_policy must be an object"
  | GroupsNotArrayOrObject => "groups must be an array or object"
  | UnsupportedGroupMode mode => "unsupported group_mode " +:+ quoted mode
  | GroupUnsupportedMode i mode => "groups[" +:+ FormatInt (Z.of_nat i) +:+ "] unsupported group_mode " +:+ quoted mode
  | GroupConversationRequired i => "groups[" +:+ FormatInt (Z.of_nat i) +:+ "] conversation_id is required"
  end.

Section endpoints.
Context {Eng : SqlEngine} {Uni : Unicode} {Spr : Sprinter} {Fl : Floats} {Ord : MapOrder} {Sha : Sha256}.
Context {PJ : ProtoJSON} {E : Env}.

Definition is_im (endpoint : Ie.InteractionEndpoint) : bool := EqualFold (Ie.Kind endpoint) "im".

(** A configuration that [RedactConfig] refuses is shown as it is. *)
Definition redactInteractionEndpoint (endpoint : Ie.InteractionEndpoint) : Ie.InteractionEndpoint :=
  if negb (is_im endpoint) then endpoint
  else match RedactConfig (Ie.Provider endpoint) (Ie.ConfigJSON endpoint) with
       | Some redacted => Ie.set_ConfigJSON redacted endpoint
       | None => endpoint
       end.

Definition interactionEndpointConfigValue (endpoint : Ie.InteractionEndpoint) (key : string) : string :=
  match decode_any_map (Rpc.normalizedJSON (Ie.ConfigJSON endpoint)) with
  | Some (Some config) => configString config key
  | _ => ""
  end.

Definition canonicalWeComEndpointMode (mode : string) : string :=
  let mode := ToLower (TrimSpace mode) in
  if (mode =s "") || (mode =s "callback") || (mode =s "webhook") || (mode =s "callback_app") then "callback_app"
  else if mode =s "websocket" then "websocket_bot"
  else mode.

(** ** Endpoints *)

(** The endpoint of a path, or an answer. *)
Definition with_endpoint {B} (id : string) (k : Ie.InteractionEndpoint → R (reply B)) : R (reply B) :=
  attempt (Endpoints.GetInteractionEndpoint id)
    (on ErrNotFound StatusNotFound "interaction endpoint not found" (internal "read interaction endpoint failed")) k.

Definition handleListInteractionEndpoints (r : http_request) : R (reply (list Ie.InteractionEndpoint)) :=
  attempt (Endpoints.ListInteractionEndpoints (intQuery r "limit" 100))
    (internal "list interaction endpoints failed") (λ endpoints,
  mret (Reply StatusOK (redactInteractionEndpoint <$> endpoints))).

Definition handleListIMProviders : R (reply (list ProviderSchema.ProviderSchema)) :=
  mret (Reply StatusOK ListProviders).

Definition handleCreateInteractionEndpoint (r : http_request) : R (reply Ie.InteractionEndpoint) :=
  decoded (decodeJSON endpointRequest_fields endpointRequest.zero r) (λ req,
  let endpoint := Ie.zero
    |> Ie.set_Kind (TrimSpace (endpointRequest.Kind req))
    |> Ie.set_Provider (TrimSpace (endpointRequest.Provider req))
    |> Ie.set_DisplayName (TrimSpace (endpointRequest.DisplayName req))
    |> Ie.set_TargetPrefix (TrimSpace (endpointRequest.TargetPrefix req))
    |> Ie.set_InboundEnabled (endpointRequest.InboundEnabled req)
    |> Ie.set_OutboundEnabled (endpointRequest.OutboundEnabled req)
    |> Ie.set_AuthMode (TrimSpace (endpointRequest.AuthMode req))
    |> Ie.set_ConfigJSON (Rpc.normalizedJSON (endpointRequest.ConfigJSON req)) in
  if (Ie.Kind endpoint =s "") || (Ie.Provider endpoint =s "") || (Ie.DisplayName endpoint =s "")
  then mret (ErrorReply StatusBadRequest "kind, provider, and displayName are required")
  else
    let endpoint := endpoint |> when (Ie.TargetPrefix endpoint =s "") (Ie.set_TargetPrefix "#") in
    let endpoint := endpoint |> when (Ie.AuthMode endpoint =s "") (Ie.set_AuthMode "bearer") in
    let endpoint := endpoint |> when (is_im endpoint) (Ie.set_Provider (CanonicalProvider (Ie.Provider endpoint))) in
    match if is_im endpoint then ValidateConfig (Ie.Provider endpoint) (Ie.ConfigJSON endpoint) else None with
    | Some e => mret (ErrorReply StatusBadRequest (config_error_text e))
    | None =>
        now ← unixNow;
        id ← NewID "iep";
        attempt (Endpoints.CreateInteractionEndpoint now id endpoint)
          (on ErrConflict StatusConflict "interaction endpoint already exists"
          (internal "create interaction endpoint failed")) (λ created,
        mret (Reply StatusCreated (redactInteractionEndpoint created)))
    end).

(** The configuration of a patch: [inl] is refused, [None] leaves the stored one. *)
Definition patched_config (endpoint : Ie.InteractionEndpoint) (config : option string) : config_error + option string :=
  match config with
  | Some text =>
      if is_im endpoint then
        if Contains text (quoted "***") then inr None
        else match ValidateConfig (Ie.Provider endpoint) text with Some e => inl e | None => inr config end
      else inr config
  | None => inr None
  end.

Definition handleUpdateInteractionEndpoint (r : http_request) : R (reply Ie.InteractionEndpoint) :=
  decoded (decodeJSON endpointPatchRequest_fields endpointPatchRequest.zero r) (λ req,
  with_endpoint (PathValue r "id") (λ endpoint,
  match patched_config endpoint (optionalTrimmed (endpointPatchRequest.ConfigJSON req)) with
  | inl e => mret (ErrorReply StatusBadRequest (config_error_text e))
  | inr config =>
      now ← unixNow;
      attempt (Endpoints.UpdateInteractionEndpoint now (Ie.ID endpoint) (Iep.zero
        |> Iep.set_DisplayName (optionalTrimmed (endpointPatchRequest.DisplayName req))
        |> Iep.set_TargetPrefix (optionalTrimmed (endpointPatchRequest.TargetPrefix req))
        |> Iep.set_InboundEnabled (endpointPatchRequest.InboundEnabled req)
        |> Iep.set_OutboundEnabled (endpointPatchRequest.OutboundEnabled req)
        |> Iep.set_AuthMode (optionalTrimmed (endpointPatchRequest.AuthMode req))
        |> Iep.set_ConfigJSON config))
      (on ErrNotFound StatusNotFound "interaction endpoint not found"
      (on ErrConflict StatusConflict "interaction endpoint already exists"
      (on ErrInvalidState StatusBadRequest "invalid interaction endpoint update"
      (internal "update interaction endpoint failed")))) (λ updated,
      mret (Reply StatusOK (redactInteractionEndpoint updated)))
  end)).

Definition handleDeleteInteractionEndpoint (r : http_request) : R (reply unit) :=
  attempt (Endpoints.DeleteInteractionEndpoint (PathValue r "id"))
    (on ErrNotFound StatusNotFound "interaction endpoint not found"
    (on ErrConflict StatusConflict "interaction endpoint is still referenced by notification routes or deliveries"
    (internal "delete interaction endpoint failed"))) (λ _,
  mret (Reply StatusOK ())).

(** ** The test of an endpoint *)

Record check := mkCheck { check_name : string; check_ok : bool; check_detail : string }.

Record endpoint_test := mkTest {
  test_ready : bool;
  test_summary : string;
  test_checks : list check;
  test_endpoint : option Ie.InteractionEndpoint
}.

Definition test_of (endpoint : Ie.InteractionEndpoint) : endpoint_test :=
  let checks :=
    [mkCheck "schema" ((Ie.Kind endpoint <>s "") && (Ie.Provider endpoint <>s "")) "";
     mkCheck "inbound" (Ie.InboundEnabled endpoint) "";
     mkCheck "outbound" (Ie.OutboundEnabled endpoint) ""] in
  let no_runtime detail := [mkCheck "provider_config" true ""; mkCheck "provider_runtime" false detail] in
  if negb (is_im endpoint) then
    mkTest true "Endpoint metadata is reachable. No external provider runtime was exercised." checks (Some endpoint)
  else match ValidateConfig (Ie.Provider endpoint) (Ie.ConfigJSON endpoint) with
  | Some e =>
      mkTest false (config_error_text e) (checks ++ [mkCheck "provider_config" false (config_error_text e)]) None
  | None =>
      let redacted := Some (redactInteractionEndpoint endpoint) in
      if (CanonicalProvider (Ie.Provider endpoint) =s ProviderWeCom) &&
         (canonicalWeComEndpointMode (interactionEndpointConfigValue endpoint "mode") <>s "callback_app") then
        mkTest false "WeChat Work smart-bot WebSocket mode is reference-only until its long-connection runtime is wired. Use callback_app for the wired runtime."
          (checks ++ no_runtime "Only callback_app mode has receive/send runtime in Nekode.") redacted
      else if match GetProvider (Ie.Provider endpoint) with
              | Some schema => (ProviderSchema.Availability schema =s "catalog") ||
                               (ProviderSchema.RuntimeStatus schema =s "reference_only")
              | None => false
              end then
        mkTest false "Endpoint configuration matches the provider schema, but this provider is catalog-only until its runtime is wired."
          (checks ++ no_runtime "Catalog-only provider; no receive/send runtime is registered.") redacted
      else
        mkTest true "Endpoint configuration is valid. Provider receive/send runtime still requires its platform smoke task."
          (checks ++ no_runtime "Not a live provider send/receive test.") redacted
  end.

Definition handleTestInteractionEndpoint (r : http_request) : R (reply endpoint_test) :=
  with_endpoint (PathValue r "id") (λ endpoint, mret (Reply StatusOK (test_of endpoint))).

Definition handleGetIMEffectivePolicy (r : http_request) : R (reply EffectivePolicy.EffectivePolicy) :=
  let endpointID := TrimSpace (Query r "endpointId") in
  let conversationID := TrimSpace (Query r "conversationId") in
  if (endpointID =s "") || (conversationID =s "")
  then mret (ErrorReply StatusBadRequest "endpointId and conversationId are required")
  else with_endpoint endpointID (λ endpoint,
    if negb (is_im endpoint) then mret (ErrorReply StatusBadRequest "interaction endpoint is not an IM endpoint")
    else mret match Resolve (Ie.ID endpoint) (Ie.Provider endpoint) (Ie.ConfigJSON endpoint) conversationID with
              | inl e => ErrorReply StatusBadRequest (policy_error_text e)
              | inr policy => Reply StatusOK policy
              end).

(** ** Requests and subscriptions of chats *)

Definition handleListIMChatAuthRequests (r : http_request) : R (reply (list Req.IMChatAuthRequest)) :=
  now ← unixNow;
  attempt (ImChats.ListIMChatAuthRequests now (RqOpts.zero
    |> RqOpts.set_EndpointID (TrimSpace (Query r "endpointId"))
    |> RqOpts.set_Status (TrimSpace (Query r "status"))
    |> RqOpts.set_IncludeExpired (boolQuery r "includeExpired")
    |> RqOpts.set_Limit (intQuery r "limit" 100)))
  (internal "list IM chat auth requests failed") (λ requests,
  mret (Reply StatusOK requests)).

Inductive approve_error := Expired | Resolved | ApproveStore (e : error).

Definition imChatAuthRequestExpired (now : Z) (request : Req.IMChatAuthRequest) : bool :=
  (0 <? Req.ExpiresUnix request)%Z && (Req.ExpiresUnix request <=? now)%Z.

(** What the store is asked to approve a request with. *)
Definition subscription_for (authRequest : Req.IMChatAuthRequest) (endpoint : Ie.InteractionEndpoint) (target threadID : string) :
    Sub.IMChatSubscription :=
  Sub.zero
    |> Sub.set_EndpointID (Req.EndpointID authRequest)
    |> Sub.set_Provider (HttpBase.firstTrimmed [Ie.Provider endpoint; Req.Provider authRequest])
    |> Sub.set_ConversationID (Req.ConversationID authRequest)
    |> Sub.set_ExternalThreadID (Req.ExternalThreadID authRequest)
    |> Sub.set_ChatTitle (Req.ChatTitle authRequest)
    |> Sub.set_Target (HttpBase.firstTrimmed [target; Req.RequestedTarget authRequest;
                         interactionEndpointConfigValue endpoint "default_target"])
    |> Sub.set_ThreadID (HttpBase.firstTrimmed [threadID; Req.RequestedThreadID authRequest;
                           interactionEndpointConfigValue endpoint "default_thread_id"])
    |> Sub.set_SenderExternalID (Req.SenderExternalID authRequest)
    |> Sub.set_AuthorizedByRequestID (Req.ID authRequest)
    |> Sub.set_Subscribed true
    |> Sub.set_Verbose false.

Definition approveIMChatAuthRequest (p : Principal) (authRequest : Req.IMChatAuthRequest) (target threadID : string) :
    R (approve_error + (Req.IMChatAuthRequest * Sub.IMChatSubscription)) :=
  if Req.Status authRequest <>s IMChatAuthRequestStatusPending then mret (inl Resolved)
  else
    now ← unixNow;
    if imChatAuthRequestExpired now authRequest then
      now ← unixNow;
      res ← stored (ImChats.UpdateIMChatAuthRequestStatus now (Req.ID authRequest)
                      IMChatAuthRequestStatusExpired (User.ID (P_User p)));
      mret match res with inl e => inl (ApproveStore e) | inr _ => inl Expired end
    else
      res ← stored (Endpoints.GetInteractionEndpoint (Req.EndpointID authRequest));
      match res with
      | inl e => mret (inl (ApproveStore e))
      | inr endpoint =>
          if negb (is_im endpoint) then mret (inl (ApproveStore ErrInvalidState))
          else
            now ← unixNow;
            id ← NewID "imsub";
            res ← stored (ImChats.ApproveIMChatAuthRequest now id (Req.ID authRequest) (User.ID (P_User p))
                            (subscription_for authRequest endpoint target threadID));
            mret match res with
                 | inl ErrInvalidState => inl Resolved
                 | inl e => inl (ApproveStore e)
                 | inr granted => inr granted
                 end
      end.

(** How both handlers that approve a request answer. *)
Definition approved (p : Principal) (authRequest : Req.IMChatAuthRequest) (target threadID failed : string) :
    R (reply (Req.IMChatAuthRequest * Sub.IMChatSubscription)) :=
  res ← approveIMChatAuthRequest p authRequest target threadID;
  mret match res with
       | inl Expired => ErrorReply StatusConflict "IM chat auth request expired"
       | inl Resolved => ErrorReply StatusConflict "IM chat auth request is already resolved"
       | inl (ApproveStore e) => writeStorageError failed e
       | inr granted => Reply StatusOK granted
       end.

Definition read_request_error {B} : error → reply B :=
  on ErrNotFound StatusNotFound "IM chat auth request not found" (internal "read IM chat auth request failed").

Definition handleApproveIMChatAuthRequest (r : http_request) (p : Principal) :
    R (reply (Req.IMChatAuthRequest * Sub.IMChatSubscription)) :=
  decoded (decodeOptionalJSON imChatAuthDecisionRequest_fields imChatAuthDecisionRequest.zero r) (λ req,
  attempt (ImChats.GetIMChatAuthRequest (PathValue r "id")) read_request_error (λ authRequest,
  approved p authRequest (imChatAuthDecisionRequest.Target req) (imChatAuthDecisionRequest.ThreadID req)
    "approve IM chat auth request failed")).

(** The flag of the answer says that the request had expired. *)
Definition handleRejectIMChatAuthRequest (r : http_request) (p : Principal) : R (reply (bool * Req.IMChatAuthRequest)) :=
  attempt (ImChats.GetIMChatAuthRequest (PathValue r "id")) read_request_error (λ authRequest,
  if Req.Status authRequest <>s IMChatAuthRequestStatusPending
  then mret (ErrorReply StatusConflict "IM chat auth request is already resolved")
  else
    now ← unixNow;
    let late := imChatAuthRequestExpired now authRequest in
    now ← unixNow;
    attempt (ImChats.UpdateIMChatAuthRequestStatus now (Req.ID authRequest)
               (if late then IMChatAuthRequestStatusExpired else IMChatAuthRequestStatusRejected) (User.ID (P_User p)))
      (writeStorageError (if late then "expire IM chat auth request failed" else "reject IM chat auth request failed"))
      (λ request, mret (Reply (if late then StatusConflict else StatusOK) (late, request)))).

Definition handleBindIMChatAuthRequest (r : http_request) (p : Principal) :
    R (reply (Req.IMChatAuthRequest * Sub.IMChatSubscription)) :=
  decoded (decodeJSON imChatBindRequest_fields imChatBindRequest.zero r) (λ req,
  let key := TrimSpace (imChatBindRequest.Key req) in
  if key =s "" then mret (ErrorReply StatusBadRequest "key is required")
  else attempt (ImChats.GetIMChatAuthRequestByTokenHash (ImCoord.HashToken key)) read_request_error (λ authRequest,
    approved p authRequest (imChatBindRequest.Target req) (imChatBindRequest.ThreadID req)
      "bind IM chat auth request failed")).

Definition handleListIMChatSubscriptions (r : http_request) : R (reply (list Sub.IMChatSubscription)) :=
  let provider := TrimSpace (Query r "provider") in
  attempt (ImChats.ListIMChatSubscriptions (SbOpts.zero
    |> SbOpts.set_EndpointID (TrimSpace (Query r "endpointId"))
    |> SbOpts.set_Provider (if provider <>s "" then CanonicalProvider provider else provider)
    |> SbOpts.set_Subscribed (optionalBoolQuery r "subscribed")
    |> SbOpts.set_Limit (intQuery r "limit" 100)))
  (internal "list IM chat subscriptions failed") (λ subscriptions,
  mret (Reply StatusOK subscriptions)).

Definition handleUpdateIMChatSubscription (r : http_request) : R (reply Sub.IMChatSubscription) :=
  decoded (decodeJSON imChatSubscriptionPatchRequest_fields imChatSubscriptionPatchRequest.zero r) (λ req,
  now ← unixNow;
  attempt (ImChats.UpdateIMChatSubscription now (PathValue r "id") (SbPatch.zero
    |> SbPatch.set_ChatTitle (optionalTrimmed (imChatSubscriptionPatchRequest.ChatTitle req))
    |> SbPatch.set_Target (optionalTrimmed (imChatSubscriptionPatchRequest.Target req))
    |> SbPatch.set_ThreadID (optionalTrimmed (imChatSubscriptionPatchRequest.ThreadID req))
    |> SbPatch.set_Subscribed (imChatSubscriptionPatchRequest.Subscribed req)
    |> SbPatch.set_Verbose (imChatSubscriptionPatchRequest.Verbose req)))
  (writeStorageError "update IM chat subscription failed") (λ subscription,
  mret (Reply StatusOK subscription))).

End endpoints.

(** * Binding an endpoint by a QR code
    ([internal/server/server.go], [internal/imchannels/weixin/binding.go])

    The handlers of binding sessions.  The sessions live in the process ([ImBinding]), so
    the handlers thread them beside the database; what the iLink service answers is a
    parameter. *)

Record ILinkQRCodeResponse := mkQRCode { QRCode : string; QRCodeImgContent : string }.

Record ILinkQRCodeStatusResponse := mkQRStatus {
  QRStatus : string;
  BotToken : string;
  ILinkBotID : string;
  ILinkUserID : string;
  BaseURL : string
}.

(** The iLink service during one request: an error's text or an answer. *)
Class ILink := {
  GetQRCode : Weixin.Config → string + ILinkQRCodeResponse;
  GetQRCodeStatus : Weixin.Config → string → string + ILinkQRCodeStatusResponse
}.

Record BindingUpdate := mkUpdate { U_Session : Session; U_ConfigJSON : string; U_Bound : bool }.

(** How a poll ends.  An assignment to a nil map panics. *)
Inductive poll_outcome := Polled (update : BindingUpdate) | PollFailed (session : Session) | PollPanics.

Section bind.
Context {Eng : SqlEngine} {Uni : Unicode} {Spr : Sprinter} {Fl : Floats} {PJ : ProtoJSON} {E : Env} {Il : ILink}.

Definition binding_error_text (e : binding_error) : string :=
  match e with
  | ErrEndpointUnsupported => "endpoint does not support binding method"
  | ErrInvalidStatus => "invalid binding session status"
  | ErrSessionNotFound => "binding session not found"
  end.

(** ** The sessions of Weixin endpoints *)

Definition is_ilink (cfg : Weixin.Config) : bool := Weixin.Mode cfg =s "ilink".

Definition SupportsILinkBinding (endpoint : InteractionEndpoint) : bool :=
  match Weixin.ConfigFromEndpoint endpoint with
  | None => false
  | Some cfg => is_ilink (Weixin.normalize cfg)
  end.

Definition qrImageURL (value : string) : string :=
  let value := TrimSpace value in
  if (value =s "") || HasPrefix value "data:" || HasPrefix value "http://" || HasPrefix value "https://"
  then value else "data:image/png;base64," +:+ value.

Definition terminalBindingStatus (status : string) : bool :=
  let status := ToLower (TrimSpace status) in
  (status =s StatusBound) || (status =s StatusExpired) || (status =s StatusFailed).

Definition mapILinkQRStatus (status : ILinkQRCodeStatusResponse) : string :=
  let value := ToLower (TrimSpace (QRStatus status)) in
  if TrimSpace (BotToken status) <>s "" then StatusBound
  else if Contains value "scan" then StatusScanned
  else if Contains value "expire" then StatusExpired
  else if Contains value "fail" || Contains value "cancel" || Contains value "reject" then StatusFailed
  else StatusPending.

Definition set_text (key value : string) (config : gmap string json) : gmap string json :=
  if TrimSpace value <>s "" then <[key := JStr (TrimSpace value)]> config else config.

(** [None] is an error, [Some None] the panic. *)
Definition mergeILinkBindingConfig (rawConfig : string) (status : ILinkQRCodeStatusResponse) : option (option string) :=
  match if TrimSpace rawConfig <>s "" then decode_any_map rawConfig else Some (Some ∅) with
  | None => None
  | Some None => Some None
  | Some (Some config) =>
      let config := <["mode" := JStr "ilink"]> config in
      let config := <["bot_token" := JStr (TrimSpace (BotToken status))]> config in
      let config := set_text "bot_id" (ILinkBotID status) config in
      let config := set_text "user_id" (ILinkUserID status) config in
      let config := set_text "base_url" (BaseURL status) config in
      Some (Some (encode_any_map (Some config)))
  end.

(** An operation of the session store that reads the clock twice. *)
Definition update_session (endpoint : InteractionEndpoint) (id : string) (patch : Patch) (s : ImBinding.Store) : R op :=
  now ← unixNow;
  now' ← unixNow;
  mret (Update now now' endpoint id patch s).

(** [inl None]: the configuration cannot be read. *)
Definition StartILinkBindingSession (endpoint : InteractionEndpoint) (session : Session) (s : ImBinding.Store) :
    R ((option binding_error + Session) * ImBinding.Store) :=
  match Weixin.normalize <$> Weixin.ConfigFromEndpoint endpoint with
  | None => mret (inl None, s)
  | Some cfg =>
      if negb (is_ilink cfg) then mret (inl (Some ErrEndpointUnsupported), s)
      else
        let patched patch :=
          res ← update_session endpoint (Se.ID session) patch s;
          mret (match res.1 with inl e => inl (Some e) | inr updated => inr updated end, res.2) in
        match GetQRCode cfg with
        | inl text => patched (Pa.mk StatusFailed "" "" 0 text)
        | inr qr =>
            now ← unixNow;
            patched (Pa.mk StatusPending (TrimSpace (QRCode qr)) (qrImageURL (QRCodeImgContent qr))
                       (i64 (now + 300)) "Waiting for Weixin QR scan.")
        end
  end.

Definition PollILinkBindingSession (endpoint : InteractionEndpoint) (session : Session) (s : ImBinding.Store) :
    R (poll_outcome * ImBinding.Store) :=
  match Weixin.normalize <$> Weixin.ConfigFromEndpoint endpoint with
  | None => mret (PollFailed session, s)
  | Some cfg =>
      if negb (is_ilink cfg) || (Se.QRPayload session =s "") || terminalBindingStatus (Se.Status session)
      then mret (Polled (mkUpdate session "" false), s)
      else match GetQRCodeStatus cfg (Se.QRPayload session) with
      | inl text =>
          res ← update_session endpoint (Se.ID session) (Pa.mk StatusFailed "" "" 0 text) s;
          mret (PollFailed match res.1 with inl _ => session | inr updated => updated end, res.2)
      | inr status =>
          let state := mapILinkQRStatus status in
          let detail :=
            if state =s StatusScanned then "Weixin QR scanned; waiting for authorization."
            else "Waiting for Weixin QR scan." in
          let patched patch config bound :=
            res ← update_session endpoint (Se.ID session) patch s;
            mret (match res.1 with
                  | inl _ => PollFailed session
                  | inr updated => Polled (mkUpdate updated config bound)
                  end, res.2) in
          if TrimSpace (BotToken status) <>s "" then
            match mergeILinkBindingConfig (EpS.ConfigJSON endpoint) status with
            | None => mret (PollFailed session, s)
            | Some None => mret (PollPanics, s)
            | Some (Some config) =>
                patched (Pa.mk StatusBound "" "" 0 "Weixin QR binding completed.") config true
            end
          else patched (Pa.mk state "" "" 0 detail) "" false
      end
  end.

(** ** The handlers

    [None] is a handler that panics: the connection is dropped. *)

Definition outcome : Type := option (reply Session) * ImBinding.Store.

Definition readBindingEndpoint (r : http_request) (s : ImBinding.Store) (k : InteractionEndpoint → R outcome) : R outcome :=
  res ← stored (Endpoints.GetInteractionEndpoint (PathValue r "id"));
  match res with
  | inl ErrNotFound => mret (Some (ErrorReply StatusNotFound "interaction endpoint not found"), s)
  | inl _ => mret (Some (ErrorReply StatusInternalServerError "read interaction endpoint failed"), s)
  | inr endpoint =>
      if negb (is_im endpoint)
      then mret (Some (ErrorReply StatusBadRequest "interaction endpoint is not an IM endpoint"), s)
      else k endpoint
  end.

Definition is_weixin (endpoint : InteractionEndpoint) : bool :=
  CanonicalProvider (EpS.Provider endpoint) =s ProviderWeixin.

Definition handleCreateBindingSession (fresh_id : string) (r : http_request) (s : ImBinding.Store) : R outcome :=
  readBindingEndpoint r s (λ endpoint,
  match decodeJSON bindingSessionRequest_fields bindingSessionRequest.zero r with
  | None => mret (Some (ErrorReply StatusBadRequest "invalid json body"), s)
  | Some req =>
      let method := ToLower (TrimSpace (bindingSessionRequest.Method req)) in
      let method := if method =s "" then MethodQRCode else method in
      if is_weixin endpoint && (method =s MethodQRCode) && negb (SupportsILinkBinding endpoint)
      then mret (Some (ErrorReply StatusUnprocessableEntity "weixin QR binding requires mode=ilink"), s)
      else
        now ← unixNow;
        match Create fresh_id now endpoint method s with
        | (inl ErrEndpointUnsupported, s) =>
            mret (Some (ErrorReply StatusUnprocessableEntity "binding method is not available for this endpoint"), s)
        | (inl _, s) => mret (Some (ErrorReply StatusInternalServerError "create binding session failed"), s)
        | (inr session, s) =>
            if is_weixin endpoint then
              started ← StartILinkBindingSession endpoint session s;
              mret (Some match started.1 with
                         | inl e => ErrorReply StatusBadGateway (from_option binding_error_text "" e)
                         | inr updated => Reply StatusCreated updated
                         end, started.2)
            else mret (Some (Reply StatusCreated session), s)
        end
  end).

(** The reply shows [session] unless the poll has an updated one. *)
Definition shown (session updated : Session) : Session := if Se.ID updated <>s "" then updated else session.

Definition handleGetBindingSession (r : http_request) (s : ImBinding.Store) : R outcome :=
  readBindingEndpoint r s (λ endpoint,
  now ← unixNow;
  match Get now endpoint (PathValue r "sessionID") s with
  | (inl ErrSessionNotFound, s) => mret (Some (ErrorReply StatusNotFound "binding session not found"), s)
  | (inl _, s) => mret (Some (ErrorReply StatusInternalServerError "read binding session failed"), s)
  | (inr session, s) =>
      if negb (is_weixin endpoint) then mret (Some (Reply StatusOK session), s)
      else
        polled ← PollILinkBindingSession endpoint session s;
        let s := polled.2 in
        match polled.1 with
        | PollPanics => mret (None, s)
        | PollFailed updated => mret (Some (Reply StatusOK (shown session updated)), s)
        | Polled update =>
            let session := shown session (U_Session update) in
            if U_Bound update && (U_ConfigJSON update <>s "") then
              now ← unixNow;
              res ← stored (Endpoints.UpdateInteractionEndpoint now (EpS.ID endpoint)
                              (Iep.set_ConfigJSON (Some (U_ConfigJSON update)) Iep.zero));
              mret (Some match res with
                         | inl _ => ErrorReply StatusInternalServerError "persist weixin binding failed"
                         | inr _ => Reply StatusOK session
                         end, s)
            else mret (Some (Reply StatusOK session), s)
        end
  end).

Definition handleCancelBindingSession (r : http_request) (s : ImBinding.Store) : R outcome :=
  readBindingEndpoint r s (λ endpoint,
  now ← unixNow;
  now' ← unixNow;
  match Cancel now now' endpoint (PathValue r "sessionID") s with
  | (inl ErrSessionNotFound, s) => mret (Some (ErrorReply StatusNotFound "binding session not found"), s)
  | (inl _, s) => mret (Some (ErrorReply StatusInternalServerError "cancel binding session failed"), s)
  | (inr session, s) => mret (Some (Reply StatusOK session), s)
  end).

End bind.

(** A configuration [null] is valid for Weixin, and the answer that completes its binding
    makes the handler panic: such an endpoint can never be bound. *)
Example null_config_is_valid :
  ValidateConfig (Uni := ascii_unicode) (Spr := plain_numbers) (Fl := same_text) ProviderWeixin "null" = None ∧
  mergeILinkBindingConfig (Fl := same_text) "null" (mkQRStatus "confirmed" "token" "" "" "") = Some None.
Proof. split; vm_compute; reflexivity. Qed.
