(* ===== verification/HttpBridge.v ===== *)
(** * The daemon bridge over REST ([internal/server/bridge.go])

    The console's view of the daemon RPC server: the methods of the bridge that routes under
    [/api/daemon] call, the stream of server events, and the routes of enrollments.  The
    bridge and the enrollments are there whenever the server has a store, so the answers
    503 of a server without one do not occur. *)
From S2P Require Import Prelude GoStr GoText Json JsonValue Sql Models Schema Store RuntimeCatalog AgentInstances.
From S2P Require Import Proto RpcText Rpc RpcConv RpcAgents RpcTasks RpcMessages RpcReminders.
From S2P Require Import Users Messages Http HttpBase HttpWork Enrollment.

#[local] Open Scope go_scope.

Module BrA := daemonv1.Actor.
Module BrX := daemonv1.RequestContext.
Module BrC := daemonAgentControlRequest.
Module BrD := daemonAgentDirectMessageRequest.
Module BrS := daemonv1.AgentStatusSnapshot.
Module BrE := daemonv1.CollaborationEvent.

Definition StatusAccepted : Z := 202.

Definition daemonAgentHTTPStatus (err : rpc_error) : Z :=
  match err with
  | Status InvalidArgument _ => StatusBadRequest
  | Status AlreadyExists _ => StatusConflict
  | Status NotFound _ => StatusNotFound
  | Status FailedPrecondition _ => StatusConflict
  | Status _ _ => StatusInternalServerError
  end.

Definition daemonAgentErrorMessage (err : rpc_error) : string := match err with Status _ message => message end.

Definition daemonAgentControlAction `{!Unicode} (value : string) : option Z :=
  let value := ToLower (TrimSpace value) in
  if bool_decide (value ∈ ["terminate"; "agent_control_action_terminate"])
  then Some daemonv1.AgentControlAction_AGENT_CONTROL_ACTION_TERMINATE
  else if bool_decide (value ∈ ["restart"; "agent_control_action_restart"])
  then Some daemonv1.AgentControlAction_AGENT_CONTROL_ACTION_RESTART
  else if bool_decide (value ∈ ["restart_reset_session"; "agent_control_action_restart_reset_session"])
  then Some daemonv1.AgentControlAction_AGENT_CONTROL_ACTION_RESTART_RESET_SESSION
  else if bool_decide (value ∈ ["restart_full_reset"; "agent_control_action_restart_full_reset"])
  then Some daemonv1.AgentControlAction_AGENT_CONTROL_ACTION_RESTART_FULL_RESET
  else None.

Definition agentStatusNeedsAttention (status : BrS.AgentStatusSnapshot) : bool :=
  (negb (BrS.Health status =? daemonv1.AgentHealth_AGENT_HEALTH_OK)%Z &&
   negb (BrS.Health status =? daemonv1.AgentHealth_AGENT_HEALTH_UNSPECIFIED)%Z) ||
  bool_decide (BrS.Presence status ∈
    [daemonv1.AgentPresence_AGENT_PRESENCE_STALE; daemonv1.AgentPresence_AGENT_PRESENCE_OFFLINE;
     daemonv1.AgentPresence_AGENT_PRESENCE_DEGRADED]).

(** ** Cursors of events *)

Definition cursorString (sequence : Z) (target aggregateID : string) : string :=
  let scope := TrimSpace target in
  let scope := if scope =s "" then TrimSpace aggregateID else scope in
  if scope =s "" then FormatInt sequence else scope +:+ ":" +:+ FormatInt sequence.

Definition sequenceFromCursor (cursor : string) : Z :=
  let cursor := TrimSpace cursor in
  let raw := match LastIndexByte cursor ":" with
             | Some idx => if S idx <? String.length cursor then sdrop (S idx) cursor else cursor
             | None => cursor
             end in
  from_opt 0%Z (ParseInt raw).

Definition eventCursorFromRequest (r : http_request) (serverID : string) : Cur.EventCursor :=
  event_cursor (TrimSpace (Query r "target")) (TrimSpace (Query r "aggregateId")) (int64Query r "sequence" 0) serverID
    |> Cur.set_Cursor (TrimSpace (Query r "cursor")).

Section bridge.
Context {Eng : SqlEngine} {Uni : Unicode} {Txt : TextLib} {Fl : Floats} {Ord : MapOrder} {PJ : ProtoJSON} {E : Env}.

(** ** Agents *)

(** The account as an actor. *)
Definition human_actor (p : Principal) : BrA.Actor :=
  BrA.zero
    |> BrA.set_ActorKind daemonv1.ActorKind_ACTOR_KIND_HUMAN
    |> BrA.set_UserId (User.ID (P_User p))
    |> BrA.set_DisplayName (firstNonEmptyString [User.DisplayName (P_User p); User.Username (P_User p); "User"]).

Definition daemonHTTPContext (p : Principal) : R BrX.RequestContext :=
  trace ← NewID "trace";
  mret (BrX.zero |> BrX.set_TraceId trace |> BrX.set_Actor (Some (human_actor p))).

(** How the answer of the bridge, or its status error, is written. *)
Definition agent_reply {A} (status : Z) (m : R A) : R (reply A) :=
  res ← caught m;
  mret match res with
       | inl err => ErrorReply (daemonAgentHTTPStatus err) (daemonAgentErrorMessage err)
       | inr resp => Reply status resp
       end.

Definition handleControlDaemonAgent (r : http_request) (p : Principal) : R (reply CaP.ControlAgentResponse) :=
  let agentID := TrimSpace (PathValue r "agentID") in
  decoded (decodeJSON daemonAgentControlRequest_fields BrC.zero r) (λ req,
  match daemonAgentControlAction (BrC.Action req) with
  | Some action =>
      if agentID =s "" then mret (ErrorReply StatusBadRequest "agentID and valid action are required")
      else
        drawn ← NewID "ctlreq";
        let requestID := firstNonEmptyString [TrimSpace (BrC.RequestID req); drawn] in
        ctx ← daemonHTTPContext p;
        agent_reply StatusAccepted (RpcAgents.ControlAgent (CaQ.zero
          |> CaQ.set_AgentId agentID
          |> CaQ.set_ComputerId (TrimSpace (BrC.ComputerID req))
          |> CaQ.set_RuntimeProfileId (TrimSpace (BrC.RuntimeProfileID req))
          |> CaQ.set_Action action
          |> CaQ.set_Reason (TrimSpace (BrC.Reason req))
          |> CaQ.set_RequestId requestID
          |> CaQ.set_IdempotencyKey requestID
          |> CaQ.set_Context (Some ctx)))
  | None => mret (ErrorReply StatusBadRequest "agentID and valid action are required")
  end).

Definition handleSendDaemonAgentDirectMessage (r : http_request) (p : Principal) :
    R (reply DmP.SendAgentDirectMessageResponse) :=
  let agentID := TrimSpace (PathValue r "agentID") in
  decoded (decodeJSON daemonAgentDirectMessageRequest_fields BrD.zero r) (λ req,
  let content := TrimSpace (BrD.Content req) in
  if (agentID =s "") || (content =s "") then mret (ErrorReply StatusBadRequest "agentID and content are required")
  else
    drawn ← NewID "dmreq";
    let requestID := firstNonEmptyString [TrimSpace (BrD.RequestID req); drawn] in
    ctx ← daemonHTTPContext p;
    agent_reply StatusCreated (RpcMessages.SendAgentDirectMessage (DmQ.zero
      |> DmQ.set_AgentId agentID
      |> DmQ.set_Content content
      |> DmQ.set_RequestId requestID
      |> DmQ.set_IdempotencyKey requestID
      |> DmQ.set_AttachmentIds (BrD.AttachmentIDs req)
      |> DmQ.set_ReplyToMessageId (TrimSpace (BrD.ReplyToMessageID req))
      |> DmQ.set_Context (Some ctx)
      |> DmQ.set_Sender (Some (human_actor p))))).

Definition handleDaemonAgentStatuses (r : http_request) : R (reply (list BrS.AgentStatusSnapshot * option Cur.EventCursor)) :=
  bridged (RpcAgents.ListAgentStatuses (LsQ.zero
    |> LsQ.set_AgentId (TrimSpace (Query r "agentId"))
    |> LsQ.set_Target (TrimSpace (Query r "target"))
    |> LsQ.set_Limit (u32 (intQuery r "limit" 100))))
    "list daemon agent statuses failed" (λ resp, (LsP.Statuses resp, LsP.NextCursor resp)).

Definition handleDaemonActivity (r : http_request) : R (reply (list Act.ActivityRecord * option Cur.EventCursor)) :=
  bridged (RpcAgents.ListActivity (LiQ.zero
    |> LiQ.set_Target (TrimSpace (Query r "target"))
    |> LiQ.set_AgentId (TrimSpace (Query r "agentId"))
    |> LiQ.set_Limit (u32 (intQuery r "limit" 100))))
    "list daemon activity failed" (λ resp, (LiP.Activities resp, LiP.NextCursor resp)).

Definition handleDaemonRuns (r : http_request) : R (reply (list daemonv1.Run.Run * option Cur.EventCursor)) :=
  bridged (RpcTasks.ListRuns (LrQ.zero
    |> LrQ.set_Target (TrimSpace (Query r "target"))
    |> LrQ.set_TaskId (TrimSpace (Query r "taskId"))
    |> LrQ.set_AgentId (TrimSpace (Query r "agentId"))
    |> LrQ.set_Limit (u32 (intQuery r "limit" 100))))
    "list daemon runs failed" (λ resp, (LrP.Runs resp, LrP.NextCursor resp)).

Definition handleDaemonEvents (r : http_request) : R (reply EsP.ListEventsSinceResponse) :=
  serverID ← gets serverID;
  bridged (RpcMessages.ListEventsSince (EsQ.zero
    |> EsQ.set_Cursor (Some (event_cursor (TrimSpace (Query r "target")) (TrimSpace (Query r "aggregateId"))
                               (int64Query r "sequence" 0) serverID))
    |> EsQ.set_Limit (u32 (intQuery r "limit" 100))))
    "list daemon events failed" (λ resp, resp).

(** What the console shows of the bridge, without the members that repeat the
    configuration; an error of a list leaves it empty. *)
Record daemon_info := mkInfo {
  info_serverID : string;
  info_serverName : string;
  info_serverTimeUnix : Z;
  info_health : string;
  info_agentStatusCount : nat;
  info_runCount : nat;
  info_activityCount : nat
}.

Definition listed {A B} (m : R A) (k : A → list B) : R (list B) :=
  res ← caught m;
  mret match res with inl _ => [] | inr resp => k resp end.

Definition handleDaemonInfo : R (reply daemon_info) :=
  statuses ← listed (RpcAgents.ListAgentStatuses (LsQ.set_Limit 200 LsQ.zero)) LsP.Statuses;
  runs ← listed (RpcTasks.ListRuns (LrQ.set_Limit 200 LrQ.zero)) LrP.Runs;
  activities ← listed (RpcAgents.ListActivity (LiQ.set_Limit 200 LiQ.zero)) LiP.Activities;
  serverID ← gets serverID;
  serverName ← gets serverName;
  now ← unixNow;
  mret (Reply StatusOK (mkInfo serverID serverName now
    (if existsb agentStatusNeedsAttention statuses then "degraded"
     else match statuses with [] => "idle" | _ => "ok" end)
    (length statuses) (length runs) (length activities))).

(** *** Inventories and the agents made from them *)

Definition handleDaemonInventory (r : http_request) : R (reply (list ComputerInventorySnapshot)) :=
  snapshots ← ListComputerInventories (intQuery r "limit" 100);
  mret (Reply StatusOK snapshots).

Definition CreateAgentInstanceInput_fields : list (field CreateAgentInstanceInput) :=
  [("computerId", into In.ComputerID In.set_ComputerID dec_string);
   ("runtimeId", into In.RuntimeID In.set_RuntimeID dec_string);
   ("templateId", into In.TemplateID In.set_TemplateID dec_string);
   ("displayName", into In.DisplayName In.set_DisplayName dec_string);
   ("name", into In.Name In.set_Name dec_string);
   ("target", into In.Target In.set_Target dec_string);
   ("options", into In.Options In.set_Options (dec_map "" dec_string))].

(** A member that the input does not know is ignored here. *)
Definition decode_input (r : http_request) : option CreateAgentInstanceInput :=
  match read_value (req_body r) with
  | None => None
  | Some v => let (input, ok) := dec_struct CreateAgentInstanceInput_fields v In.zero in if ok then Some input else None
  end.

Definition handleCreateDaemonAgent (r : http_request) : R (reply CreateAgentInstanceResult) :=
  decoded (decode_input r) (λ input, agent_reply StatusCreated (CreateAgentInstance input)).

(** The presets of runtimes; of a preset's capabilities the names that are not empty. *)
Definition runtimePresetResponses (presets : list RuntimePreset.RuntimePreset) : list (RuntimePreset.RuntimePreset * list string) :=
  (λ p, (p, bfilter (λ n, n <>s "") (daemonv1.Capability.Name <$> RuntimePreset.Capabilities p))) <$> presets.

Definition handleListRuntimePresets (r : http_request)
    : R (reply (list (RuntimePreset.RuntimePreset * list string))) :=
  mret (Reply StatusOK (runtimePresetResponses
    (RuntimeCatalog.List (boolQuery r "includeExperimental") (TrimSpace (Query r "kindPrefix")) (u32 (intQuery r "limit" 200))))).

(** ** The stream of server events *)

Inductive sse :=
| SseEvent (id : string) (event : BrE.CollaborationEvent)
| SseError
| SsePing (serverTimeUnix : Z).

(** What ends the wait of a turn that found nothing. *)
Inductive wake := Tick | Done.

(** The cursor behind an event: its scope is the one of the request. *)
Definition cursor_behind (cursor : Cur.EventCursor) (serverID : string) (event : BrE.CollaborationEvent) : Cur.EventCursor :=
  event_cursor (Cur.Target cursor) (Cur.AggregateId cursor) (BrE.Sequence event) serverID
    |> Cur.set_Cursor (cursorString (BrE.Sequence event) (Cur.Target cursor) (Cur.AggregateId cursor)).

(** One turn of the loop: [None] is an error. *)
Definition events_turn (limit : Z) (cursor : Cur.EventCursor) : R (option (list BrE.CollaborationEvent * Cur.EventCursor)) :=
  serverID ← gets serverID;
  res ← caught (RpcMessages.ListEventsSince (EsQ.zero |> EsQ.set_Cursor (Some cursor) |> EsQ.set_Limit limit));
  mret match res with
       | inl _ => None
       | inr resp =>
           Some (EsP.Events resp, foldl (λ cursor event, cursor_behind cursor serverID event) cursor (EsP.Events resp))
       end.

(** The loop: a turn that wrote events is followed by the next one at once, one that found
    none waits for the ticker or the end of the request.  [turns] bounds the number of turns,
    [wakes] are the ends of the waits; a stream that is still open when they run out has
    written what is returned. *)
Fixpoint events_loop (turns : nat) (wakes : list wake) (limit : Z) (cursor : Cur.EventCursor) : R (list sse) :=
  match turns with
  | O => mret []
  | S turns =>
      turn ← events_turn limit cursor;
      match turn with
      | None => mret [SseError]
      | Some ([], cursor) =>
          match wakes with
          | Tick :: wakes =>
              now ← unixNow;
              rest ← events_loop turns wakes limit cursor;
              mret (SsePing now :: rest)
          | _ => mret []
          end
      | Some (events, cursor) =>
          rest ← events_loop turns wakes limit cursor;
          mret (((λ event, SseEvent (BrE.EventId event) event) <$> events) ++ rest)
      end
  end.

Definition event_limit (r : http_request) : Z :=
  let limit := u32 (intQuery r "limit" 100) in
  if (limit =? 0)%Z || (200 <? limit)%Z then 100%Z else limit.

Definition first_cursor (r : http_request) (serverID : string) : Cur.EventCursor :=
  let cursor := eventCursorFromRequest r serverID in
  if (Cur.Sequence cursor =? 0)%Z then Cur.set_Sequence (sequenceFromCursor (Cur.Cursor cursor)) cursor else cursor.

Definition handleServerEvents (turns : nat) (wakes : list wake) (r : http_request) : R (reply (list sse)) :=
  serverID ← gets serverID;
  written ← events_loop turns wakes (event_limit r) (first_cursor r serverID);
  mret (Reply StatusOK written).

End bridge.

(** ** Enrollments

    The directory of enrollments is a store of its own; [written] says whether the file
    system takes a file. *)
Module EnC := Enrollment.daemonEnrollmentCreate.

Definition daemonEnrollmentCreate_fields : list (field daemonEnrollmentCreate) :=
  [("displayName", into EnC.DisplayName EnC.set_DisplayName dec_string);
   ("computerId", into EnC.ComputerID EnC.set_ComputerID dec_string);
   ("hostname", into EnC.Hostname EnC.set_Hostname dec_string);
   ("expiresUnix", into EnC.ExpiresUnix EnC.set_ExpiresUnix dec_int64)].

Inductive script_kind := Sh | Ps1.

(** The script of an installation, up to its text: what it is rendered from. *)
Record install_script := mkScript { script_of : script_kind; script_enrollment : daemonEnrollment; script_token : string }.

Section enrollments.
Context {Uni : Unicode} {Sha : Sha256}.

Variable baseURL : string.
Variable written : bool.
Variable now : Z.

(** [now] is the clock of the check, [now'] the one of the store. *)
Definition handleCreateDaemonEnrollment (random1 random2 : option string) (fresh_id : string) (now' : Z)
    (r : http_request) (dir : directory) : reply daemonEnrollmentResponse * directory :=
  match decodeJSON daemonEnrollmentCreate_fields EnC.zero r with
  | None => (ErrorReply StatusBadRequest "invalid json body", dir)
  | Some req =>
      if (0 <? EnC.ExpiresUnix req)%Z && (EnC.ExpiresUnix req <=? now)%Z
      then (ErrorReply StatusBadRequest "expiresUnix must be in the future", dir)
      else match Enrollment.create written random1 random2 fresh_id now' req dir with
      | (inl _, dir) => (ErrorReply StatusInternalServerError "create daemon enrollment failed", dir)
      | (inr (enrollment, token, installCode), dir) =>
          (Reply StatusCreated (daemonEnrollmentResponse_of baseURL r enrollment token installCode), dir)
      end
  end.

(** How both handlers of one enrollment answer. *)
Definition enrollment_reply (r : http_request) (failed : string) (res : enroll_error + daemonEnrollment) :
    reply daemonEnrollmentResponse :=
  match res with
  | inl ErrEnrollmentNotFound => ErrorReply StatusNotFound "daemon enrollment not found"
  | inl _ => ErrorReply StatusInternalServerError failed
  | inr enrollment => Reply StatusOK (daemonEnrollmentResponse_of baseURL r enrollment "" "")
  end.

Definition handleGetDaemonEnrollment (r : http_request) (dir : directory) : reply daemonEnrollmentResponse :=
  enrollment_reply r "get daemon enrollment failed" (Enrollment.getLocked (PathValue r "id") dir).

Definition handleRevokeDaemonEnrollment (r : http_request) (dir : directory) :
    reply daemonEnrollmentResponse * directory :=
  let res := Enrollment.revoke written now (PathValue r "id") dir in
  (enrollment_reply r "revoke daemon enrollment failed" res.1, res.2).

Definition handleDaemonEnrollmentInstallScript (kind : script_kind) (random : option string) (r : http_request)
    (dir : directory) : reply install_script * directory :=
  match Enrollment.consumeInstallCode written random now (PathValue r "id") (Query r "code") dir with
  | (inl ErrEnrollmentNotFound, dir) => (ErrorReply StatusNotFound "daemon install code not found", dir)
  | (inl _, dir) => (ErrorReply StatusInternalServerError "create daemon install script failed", dir)
  | (inr (enrollment, token), dir) => (Reply StatusOK (mkScript kind enrollment token), dir)
  end.

End enrollments.

Example cursor_ex :
  cursorString 7 " #ops " "t1" = "#ops:7" ∧ sequenceFromCursor "#ops:7" = 7%Z ∧
  sequenceFromCursor "7" = 7%Z ∧ sequenceFromCursor "#ops:" = 0%Z.
Proof. vm_compute. auto. Qed.
