(* ===== verification/HttpPublic.v ===== *)
(** * The webhook routes ([internal/server/server.go])

    The only routes under [/api] that change the store without a session: a request names
    an endpoint, whose provider's webhook ([ImChannels]) decides what becomes of it. *)

From S2P Require Import Prelude GoStr GoText Sql Json JsonValue Models Schema Store Users Endpoints.
From S2P Require Import Messages Proto Rpc RpcAgents Auth Media ImAdapter ImInbound.
From S2P Require Import ImNormalize ImCoord ImChannels Http HttpBase.

#[local] Open Scope go_scope.

Inductive hook_answer :=
| HookOk (ignored : bool) (reason messageID : string)
| HookChallenge (challenge : string)
| HookText (text : string).

Section hooks.
Context {Eng : SqlEngine} {Uni : Unicode} {Spr : Sprinter} {Fl : Floats} {Txt : TextLib} {Sha : Sha256} {Ld : Loader}.
Context {Rfc : Rfc3339} {S1 : Sha1} {WxXml : Weixin.Xml} {WcXml : WeCom.Xml} {Ae : WeCom.Aes}.

(** The start of the process, what the call draws, whether its context is done, and the
    clock in seconds. *)
Variable startedAt : option Z.
Variable draws : Draws.
Variable cancelled : bool.
Variable now : Z.

(** [io.LimitReader(r.Body, 1<<20)]. *)
Definition limited_body (r : http_request) : string :=
  if (Z.of_nat (String.length (req_body r)) <=? 2 ^ 20)%Z then req_body r
  else stake (Z.to_nat (2 ^ 20)) (req_body r).

(** How every webhook route begins. *)
Definition hook_endpoint (provider wrong : string) (r : http_request) (w : Coordinator)
    (k : EpS.InteractionEndpoint → Coordinator → reply hook_answer * Coordinator) : reply hook_answer * Coordinator :=
  let endpointID := TrimSpace (PathValue r "endpointID") in
  if endpointID =s "" then (ErrorReply StatusBadRequest "endpointID is required", w)
  else match on_store (GetInteractionEndpoint endpointID) w with
  | (inl ErrNotFound, w) => (ErrorReply StatusNotFound "interaction endpoint not found", w)
  | (inl _, w) => (ErrorReply StatusInternalServerError "read interaction endpoint failed", w)
  | (inr endpoint, w) =>
      if negb (EqualFold (EpS.Kind endpoint) "im") || negb (EqualFold (EpS.Provider endpoint) provider)
      then (ErrorReply StatusBadRequest wrong, w)
      else if negb (EpS.InboundEnabled endpoint)
      then (ErrorReply StatusForbidden "interaction endpoint inbound is disabled", w)
      else k endpoint w
  end.

(** How a webhook's result is answered; [unauthorized] is the provider's text, and a
    refused request that has no text of its own here is answered with the error's. *)
Definition hook_reply (unauthorized : string) (res : webhook_error + webhook_result) : reply hook_answer :=
  match res with
  | inl UnauthorizedWebhook => ErrorReply StatusUnauthorized unauthorized
  | inl EncryptedUnsupported => ErrorReply StatusBadRequest "encrypted feishu callbacks are not supported yet"
  | inl _ => ErrorReply StatusBadRequest ""
  | inr (Accepted message) => Reply StatusOK (HookOk false "" (MgC.ID message))
  | inr (Ignored reason) => Reply StatusOK (HookOk true reason "")
  | inr (Challenge challenge) =>
      if challenge <>s "" then Reply StatusOK (HookChallenge challenge) else Reply StatusOK (HookOk false "" "")
  | inr (EchoBack _) => Reply StatusOK (HookOk false "" "")
  end.

Definition answered (unauthorized : string) (res : (webhook_error + webhook_result) * Coordinator) :
    reply hook_answer * Coordinator := (hook_reply unauthorized res.1, res.2).

Definition handleTelegramWebhook (r : http_request) (w : Coordinator) : reply hook_answer * Coordinator :=
  hook_endpoint ProviderTelegram "interaction endpoint is not a Telegram IM endpoint" r w (λ endpoint w,
  match Telegram.ConfigFromEndpoint endpoint with
  | None => (ErrorReply StatusBadRequest "", w)
  | Some cfg => answered "invalid telegram webhook secret"
      (Telegram.Handle startedAt draws cancelled now cfg (req_headers r) (limited_body r) w)
  end).

Definition handleFeishuCallback (r : http_request) (w : Coordinator) : reply hook_answer * Coordinator :=
  hook_endpoint ProviderFeishu "interaction endpoint is not a Feishu IM endpoint" r w (λ endpoint w,
  match Feishu.ConfigFromEndpoint endpoint with
  | None => (ErrorReply StatusBadRequest "", w)
  | Some cfg => answered "invalid feishu verification token"
      (Feishu.Handle startedAt draws cancelled now cfg (req_headers r) (limited_body r) w)
  end).

(** The answer to the request that verifies the address of a callback. *)
Definition verified (unauthorized : string) (res : webhook_error + string) : reply hook_answer :=
  match res with
  | inl UnauthorizedWebhook => ErrorReply StatusUnauthorized unauthorized
  | inl _ => ErrorReply StatusBadRequest ""
  | inr echo => Reply StatusOK (HookText echo)
  end.

Definition handleWeComCallback (get : bool) (r : http_request) (w : Coordinator) : reply hook_answer * Coordinator :=
  hook_endpoint ProviderWeCom "interaction endpoint is not a WeChat Work IM endpoint" r w (λ endpoint w,
  match WeCom.ConfigFromEndpoint endpoint with
  | None => (ErrorReply StatusBadRequest "", w)
  | Some cfg =>
      if negb (EqualFold (WeCom.Mode cfg) "callback_app")
      then (ErrorReply StatusUnprocessableEntity "wecom callback requires mode=callback_app", w)
      else
        let query := WeCom.mkQuery (Query r "msg_signature") (Query r "timestamp") (Query r "nonce") (Query r "echostr") in
        let unauthorized := "invalid wecom callback signature" in
        if get then (verified unauthorized (WeCom.VerifyURL cfg query), w)
        else answered unauthorized (WeCom.Handle startedAt draws cancelled now cfg query (limited_body r) w)
  end).

Definition handleWeChatCallback (get : bool) (r : http_request) (w : Coordinator) : reply hook_answer * Coordinator :=
  hook_endpoint ProviderWeixin "interaction endpoint is not a WeChat official account endpoint" r w (λ endpoint w,
  match Weixin.ConfigFromEndpoint endpoint with
  | None => (ErrorReply StatusBadRequest "", w)
  | Some cfg =>
      let query := Weixin.mkQuery (Query r "signature") (Query r "timestamp") (Query r "nonce") (Query r "echostr") in
      let unauthorized := "invalid wechat callback signature" in
      if get then (verified unauthorized (Weixin.VerifyURL cfg query), w)
      else answered unauthorized (Weixin.Handle startedAt draws cancelled now cfg query (limited_body r) w)
  end).

End hooks.

(** * Accounts, sessions and attachments over REST ([internal/server/server.go])

    The routes that set a server up, open and close sessions, and keep uploaded files.  The
    file system is the map of [Media]; the parts of a multipart form are an argument. *)

Module AcB := authRequest.
Module AcA := Models.Attachment.

(** [validateCredentials]: the text of the error. *)
Definition validateCredentials (username password : string) : option string :=
  if TrimSpace username =s "" then Some "username is required"
  else if String.length password <? 8 then Some "password must be at least 8 characters"
  else None.

(** What the configuration says of the first account. *)
Record bootstrap_config := mkBootstrap {
  BootstrapAdminUsername : string;
  BootstrapAdminPassword : string;
  BootstrapAdminName : string;
  BootstrapDisableWeb : bool
}.

Section accounts.
Context {Eng : SqlEngine} {Cr : Crypto} {PJ : ProtoJSON} {E : Env}.

Variable cfg : bootstrap_config.

(** ** Setting up *)

(** A start-up that fails is [Some] error. *)
Definition BootstrapFromEnvironment (salt : string) (token : error + string) : R (option error) :=
  let username := TrimSpace (BootstrapAdminUsername cfg) in
  let password := BootstrapAdminPassword cfg in
  if (username =s "") || (TrimSpace password =s "") then mret None
  else match validateCredentials username password with
  | Some message => mret (Some (ErrText message))
  | None =>
      now ← unixNow;
      record_id ← NewID "idem";
      user_id ← NewID "usr";
      session_id ← NewID "ses";
      res ← stored (Auth.Bootstrap now salt record_id user_id token session_id username password
                      (TrimSpace (BootstrapAdminName cfg)));
      mret match res with
           | inl e => if bool_decide (e = ErrBootstrapClosed) then None else Some e
           | inr _ => None
           end
  end.

Record setup_status := mkSetup { initialized : bool; webSetupEnabled : bool; bootstrapMethods : list string }.

(** The status of the setup, without the identity and directory of the server. *)
Definition handleSetupStatus : R (reply setup_status) :=
  attempt Auth.Initialized (internal "setup status failed") (λ initialized,
  let web := negb (BootstrapDisableWeb cfg) in
  mret (Reply StatusOK (mkSetup initialized web ("env" :: if web then ["web"] else [])))).

Definition handleBootstrap (salt : string) (token : error + string) (r : http_request) : R (reply SessionToken) :=
  if BootstrapDisableWeb cfg then
    attempt Auth.Initialized (internal "setup status failed") (λ initialized : bool,
    mret (if initialized then ErrorReply StatusConflict "already_initialized"
          else ErrorReply StatusForbidden "web setup is disabled"))
  else decoded (decodeJSON authRequest_fields AcB.zero r) (λ req,
  match validateCredentials (AcB.Username req) (AcB.Password req) with
  | Some message => mret (ErrorReply StatusBadRequest message)
  | None =>
      now ← unixNow;
      record_id ← NewID "idem";
      user_id ← NewID "usr";
      session_id ← NewID "ses";
      attempt (Auth.Bootstrap now salt record_id user_id token session_id (AcB.Username req) (AcB.Password req)
                 (AcB.DisplayName req))
        (on ErrBootstrapClosed StatusConflict "already_initialized" (internal "bootstrap failed")) (λ session,
      mret (Reply StatusCreated session))
  end).

(** ** Sessions *)

Definition handleLogin (token : error + string) (r : http_request) : R (reply SessionToken) :=
  decoded (decodeJSON authRequest_fields AcB.zero r) (λ req,
  now ← unixNow;
  session_id ← NewID "ses";
  attempt (Auth.Login now token session_id (AcB.Username req) (AcB.Password req))
    (on ErrInvalidCredential StatusUnauthorized "invalid username or password" (internal "login failed")) (λ session,
  mret (Reply StatusOK session))).

Definition handleLogout (p : Principal) : R (reply unit) :=
  attempt (Auth.Logout (Models.Session.ID (P_Session p))) (internal "logout failed") (λ _,
  mret (Reply StatusOK ())).

Definition handleMe (p : Principal) : R (reply User.User) := mret (Reply StatusOK (P_User p)).

End accounts.

(** ** Attachments *)

Section attachments.
Context {Uni : Unicode} {Sn : Sniffer}.

Definition StatusRequestEntityTooLarge : Z := 413.

(** The file of a form: its name, its declared type and its content. *)
Record form_file := mkFormFile { file_name : string; file_type : string; file_content : string }.

(** What [net/http] reads of the form; [None] is an error. *)
Record upload_form := mkForm { form_target : string; form_file_of : option form_file }.

Definition handleUploadAttachment (dir copied saved : bool) (id : string) (now : Z) (form : option upload_form)
    (p : Principal) (d : disk) : reply AcA.Attachment * disk :=
  match form with
  | None => (ErrorReply StatusBadRequest "invalid multipart attachment upload", d)
  | Some form =>
      let target := TrimSpace (form_target form) in
      if target =s "" then (ErrorReply StatusBadRequest "target is required", d)
      else match form_file_of form with
      | None => (ErrorReply StatusBadRequest "file is required", d)
      | Some file =>
          match StoreMedia dir copied saved id now
                  (mkInput target (User.ID (P_User p)) (file_name file) (file_type file) (Some (file_content file))
                     DefaultMaxAttachmentBytes) d with
          | (inl (InvalidInput message), d) => (ErrorReply StatusBadRequest message, d)
          | (inl MediaTooLarge, d) => (ErrorReply StatusRequestEntityTooLarge "attachment exceeds maximum size", d)
          | (inl _, d) => (ErrorReply StatusInternalServerError "save attachment metadata failed", d)
          | (inr attachment, d) => (Reply StatusCreated attachment, d)
          end
      end
  end.

Definition readAttachmentForRequest {B} (r : http_request) (d : disk) (k : AcA.Attachment → reply B) : reply B :=
  match ReadMetadata (PathValue r "id") d with
  | inl ErrNotFound => ErrorReply StatusNotFound "attachment not found"
  | inl _ => ErrorReply StatusInternalServerError "read attachment failed"
  | inr attachment => k attachment
  end.

Definition handleGetAttachment (r : http_request) (d : disk) : reply AcA.Attachment :=
  readAttachmentForRequest r d (Reply StatusOK).

(** The headers and the content that [http.ServeContent] gets. *)
Record download := mkDownload { ContentType : string; ContentDisposition : string; content : string }.

Definition handleDownloadAttachment (r : http_request) (d : disk) : reply download :=
  readAttachmentForRequest r d (λ attachment,
  match d !! ContentPath attachment with
  | None => ErrorReply StatusNotFound "attachment content not found"
  | Some content =>
      let disposition := if IsInlineAttachment (AcA.MimeType attachment) then "inline" else "attachment" in
      Reply StatusOK (mkDownload (AcA.MimeType attachment)
        (disposition +:+ "; filename=" +:+ JsonValue.q (ReplaceAll (AcA.Filename attachment) Json.dq "")) content)
  end).

End attachments.
