(* ===== verification/HttpServer.v ===== *)
(** * The server: its routes and what they share ([internal/server/server.go, tunnels.go])

    [route] has a constructor per handler that [Server.routes] registers, with what the
    handler draws from outside; [serve] is the dispatch, with the guard of each route.  A
    site is all the state that requests share: the daemon RPC server with its database, the
    dedupe cache of the IM coordinator, the uploaded files, the enrollments and the binding
    sessions.  A handler runs as one step.  Not routed here: the static answers (health,
    version, protocol, management scripts, the console) and the relay behind a preview. *)

From S2P Require Import Prelude GoStr GoText Json JsonValue Sql Models Schema Store Frame Proto RpcText.
From S2P Require Import Rpc RpcConv RpcAgents RpcTasks RpcMessages RpcReminders RpcServer Users Auth.
From S2P Require Import Messages ImAdapter ImBinding ImInbound ImNormalize ImCoord ImChannels Http Media.
From S2P Require Import HttpBase Enrollment Preview HttpRooms HttpWork HttpPublic HttpIm HttpBridge.

#[local] Open Scope go_scope.

(** ** Routes *)

Inductive public_route :=
| PSetupStatus
| PBootstrap (salt : string) (token : error + string)
| PLogin (token : error + string)
| PTelegram
| PFeishu
| PWeCom (get : bool)
| PWeChat (get : bool)
| PPreview (allow : bool)
| PInstallScript (kind : script_kind) (random : option string)
| PServerEvents (turns : nat) (wakes : list wake).

Inductive account_route :=
| ALogout | AMe
| AListIMProviders | AGetIMEffectivePolicy | AListIMChatAuthRequests | AApproveIMChatAuthRequest
| ARejectIMChatAuthRequest | ABindIMChatAuthRequest | AListIMChatSubscriptions | AUpdateIMChatSubscription
| AListInteractionEndpoints | ACreateInteractionEndpoint | AUpdateInteractionEndpoint
| ADeleteInteractionEndpoint | ATestInteractionEndpoint
| ACreateBindingSession (fresh_id : string) | AGetBindingSession | ACancelBindingSession
| AListNotificationRoutes | ACreateNotificationRoute | AResolveNotificationRoutes | AUpdateNotificationRoute
| ADeleteNotificationRoute
| AUploadAttachment (dir copied saved : bool) (id : string) (form : option upload_form)
| AGetAttachment | ADownloadAttachment
| AListChannels | ACreateChannel | AUpdateChannel | ADeleteChannel
| AListChannelMembers | AUpsertChannelMember | AUpdateChannelMember | ADeleteChannelMember
| AListMessages | ASearchMessages | AListSavedMessages | ACreateMessage | ASaveMessage | AUnsaveMessage
| AListThreadInbox | AMarkThreadRead | AMarkThreadInboxRead
| AListTasks | ACreateTask | AListTaskComments | ACreateTaskComment | ATaskTimeline | AUpdateTask
| AListReminders | ACreateReminder | AReminderLog | ACancelReminder | ASnoozeReminder | AUpdateReminder
| AListChannelDecisions | AProposeChannelDecision | AVoteChannelDecision | ARatifyChannelDecision
| ARetireChannelDecision | AListDecisionVotes
| AListAgentRuns | ASearchAgentRuns | AGetAgentRun
| ACreateTunnel (token : error + string) (id : string) | AListTunnels | AApproveTunnel | ARejectTunnel | ACloseTunnel
| AListRuntimePresets | ADaemonInventory | ACreateDaemonAgent
| ADaemonInfo | ADaemonAgentStatuses | ADaemonActivity | ADaemonRuns | ADaemonEvents
| AControlDaemonAgent | ASendDaemonAgentDirectMessage
| ACreateDaemonEnrollment (random1 random2 : option string) (fresh_id : string)
| AGetDaemonEnrollment | ARevokeDaemonEnrollment.

Inductive route := Public (q : public_route) | Account (q : account_route) | Daemon (q : RpcServer.request).

(** What a request is answered with; a handler that panics answers nothing. *)
Inductive answer :=
| Answered (B : Type) (rep : reply B)
| RpcAnswer (res : rpc_error + unit)
| Panicked.
Arguments Answered {B} rep.

Definition reply_status {B} (rep : reply B) : Z := match rep with Reply s _ => s | ErrorReply s _ => s end.
Definition answer_status (a : answer) : option Z := match a with Answered rep => Some (reply_status rep) | _ => None end.

(** ** The site *)

Section site.
Context {Eng : SqlEngine}.

Record Site := mkSite {
  world : World;
  inbound : DedupeCache;
  files : Media.disk;
  directory_of : directory;
  bindings : ImBinding.Store
}.

Definition set_world (w : World) (s : Site) : Site := mkSite w (inbound s) (files s) (directory_of s) (bindings s).
Definition set_inbound (c : DedupeCache) (s : Site) : Site := mkSite (world s) c (files s) (directory_of s) (bindings s).
Definition set_files (d : Media.disk) (s : Site) : Site := mkSite (world s) (inbound s) d (directory_of s) (bindings s).
Definition set_directory (d : directory) (s : Site) : Site := mkSite (world s) (inbound s) (files s) d (bindings s).
Definition set_bindings (b : ImBinding.Store) (s : Site) : Site := mkSite (world s) (inbound s) (files s) (directory_of s) b.

(** The database of a site. *)
Definition site_db (s : Site) : Store.Store := db (world s).

(** A request as a step of the site. *)
Definition step : Type := Site → answer * Site.

Context {E : Env}.

(** A computation on the daemon RPC server and the database, whose result is a reply. *)
Definition replying {B} (m : R (reply B)) : step := λ s,
  match m (world s) with
  | (inr rep, w) => (Answered rep, set_world w s)
  | (inl err, w) => (RpcAnswer (inl err), set_world w s)
  end.

(** A transaction of the store that makes its own reply. *)
Definition storing {B} (m : Z → M (reply B)) : R (reply B) :=
  now ← unixNow;
  attempt (m now) (internal "") mret.

(** What the clock says next, for an operation outside the database. *)
Definition timed (k : Z → step) : step := λ s,
  let (now, w) := unixNow (world s) in
  match now with inr now => k now (set_world w s) | inl err => (RpcAnswer (inl err), set_world w s) end.

Definition on_bindings (m : ImBinding.Store → R outcome) : step := λ s,
  match m (bindings s) (world s) with
  | (inr (Some rep, b), w) => (Answered rep, set_bindings b (set_world w s))
  | (inr (None, b), w) => (Panicked, set_bindings b (set_world w s))
  | (inl err, w) => (RpcAnswer (inl err), set_world w s)
  end.

Definition on_files {B} (f : Media.disk → reply B * Media.disk) : step := λ s,
  let (rep, d) := f (files s) in (Answered rep, set_files d s).

Definition on_directory {B} (f : directory → reply B * directory) : step := λ s,
  let (rep, d) := f (directory_of s) in (Answered rep, set_directory d s).

Definition on_coordinator {B} (f : Coordinator → reply B * Coordinator) : step := λ s,
  let (rep, c) := f (mkCoord (site_db s) (inbound s)) in
  let w := world s in
  (Answered rep, set_inbound (dedupe c) (set_world (mkWorld (srv w) (store c) (draws w) (executed w)) s)).

End site.

(** ** The dispatch *)

Section serve.
Context {Eng : SqlEngine} {Uni : Unicode} {Spr : Sprinter} {Fl : Floats} {Ord : MapOrder} {Sha : Sha256}
        {Txt : TextLib} {Tm : TimeLib} {Cr : Crypto} {Sn : Sniffer} {Ld : Loader} {Rfc : Rfc3339}
        {S1 : Sha1} {WxXml : Weixin.Xml} {WcXml : WeCom.Xml} {Ae : WeCom.Aes} {PJ : ProtoJSON} {E : Env} {Il : ILink}.

(** The configuration, the start of the process, and what the outside world does during a
    request: whether files are written, whether the request is cancelled, and what the
    coordinator draws. *)
Record Conf := mkConf {
  bootstrap : bootstrap_config;
  base_url : string;
  startedAt : option Z;
  written : bool;
  cancelled : bool;
  coord_draws : Draws
}.
Variable c : Conf.

(** The account behind a token, or the answer that there is none. *)
Definition guarded (who : R (reply Principal)) (next : Principal → step) : step := λ s,
  match who (world s) with
  | (inr (Reply _ p), w) => next p (set_world w s)
  | (inr (ErrorReply status message), w) => (Answered (B := unit) (ErrorReply status message), set_world w s)
  | (inl err, w) => (RpcAnswer (inl err), set_world w s)
  end.

Definition account_of (r : http_request) : R (reply Principal) :=
  HttpBase.requireAuth r (λ p, mret (Reply StatusOK p)).

Definition account_or_query (r : http_request) : R (reply Principal) :=
  HttpBase.requireAuthOrQueryToken r (λ p, mret (Reply StatusOK p)).

(** *** Public routes *)

Definition serve_public (q : public_route) (r : http_request) : step :=
  match q with
  | PSetupStatus => replying (handleSetupStatus (bootstrap c))
  | PBootstrap salt token => replying (handleBootstrap (bootstrap c) salt token r)
  | PLogin token => replying (handleLogin token r)
  | PTelegram => timed (λ now, on_coordinator (handleTelegramWebhook (startedAt c) (coord_draws c) (cancelled c) now r))
  | PFeishu => timed (λ now, on_coordinator (handleFeishuCallback (startedAt c) (coord_draws c) (cancelled c) now r))
  | PWeCom get =>
      timed (λ now, on_coordinator (handleWeComCallback (startedAt c) (coord_draws c) (cancelled c) now get r))
  | PWeChat get =>
      timed (λ now, on_coordinator (handleWeChatCallback (startedAt c) (coord_draws c) (cancelled c) now get r))
  | PPreview allow => replying (storing (λ now, handlePreviewProxy now true allow r))
  | PInstallScript kind random =>
      timed (λ now, on_directory (handleDaemonEnrollmentInstallScript (written c) now kind random r))
  | PServerEvents turns wakes =>
      guarded (account_or_query r) (λ _, replying (handleServerEvents turns wakes r))
  end.

(** *** Routes of an account *)

Definition serve_account (q : account_route) (r : http_request) (p : Principal) : step :=
  match q with
  | ALogout => replying (handleLogout p)
  | AMe => replying (handleMe p)
  | AListIMProviders => replying handleListIMProviders
  | AGetIMEffectivePolicy => replying (handleGetIMEffectivePolicy r)
  | AListIMChatAuthRequests => replying (handleListIMChatAuthRequests r)
  | AApproveIMChatAuthRequest => replying (handleApproveIMChatAuthRequest r p)
  | ARejectIMChatAuthRequest => replying (handleRejectIMChatAuthRequest r p)
  | ABindIMChatAuthRequest => replying (handleBindIMChatAuthRequest r p)
  | AListIMChatSubscriptions => replying (handleListIMChatSubscriptions r)
  | AUpdateIMChatSubscription => replying (handleUpdateIMChatSubscription r)
  | AListInteractionEndpoints => replying (handleListInteractionEndpoints r)
  | ACreateInteractionEndpoint => replying (handleCreateInteractionEndpoint r)
  | AUpdateInteractionEndpoint => replying (handleUpdateInteractionEndpoint r)
  | ADeleteInteractionEndpoint => replying (handleDeleteInteractionEndpoint r)
  | ATestInteractionEndpoint => replying (handleTestInteractionEndpoint r)
  | ACreateBindingSession fresh_id => on_bindings (handleCreateBindingSession fresh_id r)
  | AGetBindingSession => on_bindings (handleGetBindingSession r)
  | ACancelBindingSession => on_bindings (handleCancelBindingSession r)
  | AListNotificationRoutes => replying (handleListNotificationRoutes r)
  | ACreateNotificationRoute => replying (handleCreateNotificationRoute r)
  | AResolveNotificationRoutes => replying (handleResolveNotificationRoutes r)
  | AUpdateNotificationRoute => replying (handleUpdateNotificationRoute r)
  | ADeleteNotificationRoute => replying (handleDeleteNotificationRoute r)
  | AUploadAttachment dir copied saved id form =>
      timed (λ now, on_files (handleUploadAttachment dir copied saved id now form p))
  | AGetAttachment => on_files (λ d, (handleGetAttachment r d, d))
  | ADownloadAttachment => on_files (λ d, (handleDownloadAttachment r d, d))
  | AListChannels => replying (handleListChannels r p)
  | ACreateChannel => replying (handleCreateChannel r p)
  | AUpdateChannel => replying (handleUpdateChannel r p)
  | ADeleteChannel => replying (handleDeleteChannel r p)
  | AListChannelMembers => replying (handleListChannelMembers r p)
  | AUpsertChannelMember => replying (handleUpsertChannelMember r p)
  | AUpdateChannelMember => replying (handleUpdateChannelMember r p)
  | ADeleteChannelMember => replying (handleDeleteChannelMember r p)
  | AListMessages => replying (handleListMessages r)
  | ASearchMessages => replying (handleSearchMessages r)
  | AListSavedMessages => replying (handleListSavedMessages r p)
  | ACreateMessage => λ s, replying (handleCreateMessage (files s) r p) s
  | ASaveMessage => replying (handleSaveMessage r p)
  | AUnsaveMessage => replying (handleUnsaveMessage r p)
  | AListThreadInbox => replying (handleListThreadInbox r p)
  | AMarkThreadRead => replying (handleMarkThreadRead r p)
  | AMarkThreadInboxRead => replying (handleMarkThreadInboxRead r p)
  | AListTasks => replying (handleListTasks r)
  | ACreateTask => replying (handleCreateTask r p)
  | AListTaskComments => replying (handleListTaskComments r)
  | ACreateTaskComment => replying (handleCreateTaskComment r p)
  | ATaskTimeline => replying (handleTaskTimeline r)
  | AUpdateTask => replying (handleUpdateTask r)
  | AListReminders => replying (handleListReminders r)
  | ACreateReminder => replying (handleCreateReminder r p)
  | AReminderLog => replying (handleReminderLog r)
  | ACancelReminder => replying (handleCancelReminder r p)
  | ASnoozeReminder => replying (handleSnoozeReminder r p)
  | AUpdateReminder => replying (handleUpdateReminder r p)
  | AListChannelDecisions => replying (handleListChannelDecisions r p)
  | AProposeChannelDecision => replying (handleProposeChannelDecision r p)
  | AVoteChannelDecision => replying (handleVoteChannelDecision r p)
  | ARatifyChannelDecision => replying (handleRatifyChannelDecision r p)
  | ARetireChannelDecision => replying (handleRetireChannelDecision r p)
  | AListDecisionVotes => replying (handleListDecisionVotes r p)
  | AListAgentRuns => replying (handleListAgentRuns r)
  | ASearchAgentRuns => replying (handleSearchAgentRuns r)
  | AGetAgentRun => replying (handleGetAgentRun r)
  | ACreateTunnel token id => replying (storing (λ now, handleCreateTunnel now token id r p))
  | AListTunnels => replying (storing (λ _, Preview.handleListTunnels r p))
  | AApproveTunnel => replying (storing (λ now, Preview.handleApproveTunnel now r p))
  | ARejectTunnel => replying (storing (λ now, Preview.handleRejectTunnel now r p))
  | ACloseTunnel => replying (storing (λ now, Preview.handleCloseTunnel now r p))
  | AListRuntimePresets => replying (handleListRuntimePresets r)
  | ADaemonInventory => replying (handleDaemonInventory r)
  | ACreateDaemonAgent => replying (handleCreateDaemonAgent r)
  | ADaemonInfo => replying handleDaemonInfo
  | ADaemonAgentStatuses => replying (handleDaemonAgentStatuses r)
  | ADaemonActivity => replying (handleDaemonActivity r)
  | ADaemonRuns => replying (handleDaemonRuns r)
  | ADaemonEvents => replying (handleDaemonEvents r)
  | AControlDaemonAgent => replying (handleControlDaemonAgent r p)
  | ASendDaemonAgentDirectMessage => replying (handleSendDaemonAgentDirectMessage r p)
  | ACreateDaemonEnrollment random1 random2 fresh_id =>
      timed (λ now, timed (λ now', on_directory
        (handleCreateDaemonEnrollment (base_url c) (written c) now random1 random2 fresh_id now' r)))
  | AGetDaemonEnrollment => on_directory (λ d, (handleGetDaemonEnrollment (base_url c) r d, d))
  | ARevokeDaemonEnrollment => timed (λ now, on_directory (handleRevokeDaemonEnrollment (base_url c) (written c) now r))
  end.

(** *** Calls of daemons ([connect_auth.go]) *)

(** What a call brings of the computer; the steps of the process itself are no calls. *)
Definition introduction_of (q : RpcServer.request) : option introduction :=
  match q with
  | rRegisterComputer req => Some (RegisterComputer (daemonv1.RegisterComputerRequest.Info req))
  | rHeartbeatComputer req => Some (HeartbeatComputer (daemonv1.HeartbeatComputerRequest.Info req))
  | rSyncComputerInventory req => Some (SyncComputerInventory (daemonv1.SyncComputerInventoryRequest.Info req))
  | rReportAgentRun _ | rSubscribeServerEvents _ | rSubscribeActivity _ => Some Stream
  | rSubscriptionTick _ _ _ | rOutboundDeliveryStatus _ _ _ _ _ | rListComputerInventories _
  | rCreateAgentInstance _ | rRestart => None
  | _ => Some OtherRequest
  end.

(** The mark of a connection reads the clock of its own. *)
Definition mark (id : string) (intro : introduction) (k : Site → answer * Site) : step :=
  timed (λ now s, k (set_directory (markDaemonEnrollmentConnected (written c) now id intro (directory_of s)) s)).

Definition serve_daemon (q : RpcServer.request) (r : http_request) : step :=
  match introduction_of q with
  | None => λ s, (RpcAnswer (inl (Status Unimplemented "")), s)
  | Some intro =>
      timed (λ now s,
      match authenticateDaemonConnect now (req_headers r) (directory_of s) with
      | inl err => (RpcAnswer (inl err), s)
      | inr enrollment =>
          let id := En.ID enrollment in
          let run s := let (res, w) := RpcServer.serve q (world s) in (res, set_world w s) in
          match intro with
          | Stream => mark id Stream (λ s, let (res, s) := run s in (RpcAnswer res, s)) s
          | _ =>
              match run s with
              | (inl err, s) => (RpcAnswer (inl err), s)
              | (inr _, s) => mark id intro (λ s, (RpcAnswer (inr ()), s)) s
              end
          end
      end)
  end.

Definition serve (q : route) (r : http_request) : step :=
  match q with
  | Public q => serve_public q r
  | Account q => guarded (account_of r) (serve_account q r)
  | Daemon q => serve_daemon q r
  end.

End serve.

(** * A small server for the examples

    Instances of everything the server takes from outside, each as simple as it can be, and
    a site with two accounts and a private room. *)

Module Toy.
#[export] Existing Instance list_engine.
#[export] Existing Instance ascii_unicode.
#[export] Existing Instance plain_numbers.
#[export] Existing Instance same_text.
#[export] Existing Instance RpcPrompt.plain_order.
#[export] Existing Instance copy_sum.
#[export] Existing Instance no_text.
#[export] Existing Instance no_time.
#[export] Existing Instance toy_crypto.
#[export] Existing Instance no_sniffer.
#[export] Existing Instance no_files.
#[export] Existing Instance no_times.
#[export] Existing Instance RpcServer.wire.
#[export] Existing Instance counting.
#[export] Instance copy_sha1 : Sha1 := {| Sha1_hex s := s |}.
#[export] Instance no_official : Weixin.Xml := {| Weixin.unmarshal_official _ := None |}.
#[export] Instance no_callback : WeCom.Xml :=
  {| WeCom.unmarshal_envelope _ := None; WeCom.unmarshal_callback _ := None |}.
#[export] Instance no_cipher : WeCom.Aes := {| WeCom.CBCDecrypt _ _ data := data |}.
#[export] Instance no_ilink : ILink :=
  {| GetQRCode _ := inl "unreachable"; GetQRCodeStatus _ _ := inl "unreachable" |}.

Definition conf : Conf :=
  mkConf (mkBootstrap "" "" "" false) "" None true false (mkDraws 0 0 0 "" "" "" false).

(** Ann administers the server; Bob is a member of the room #ops. *)
Definition ann : User.User := User.zero |> User.set_ID "u1" |> User.set_Username "ann" |> User.set_DisplayName "Ann"
  |> User.set_PasswordHash "x" |> User.set_Role "admin".
Definition bob : User.User := User.zero |> User.set_ID "u2" |> User.set_Username "bob" |> User.set_DisplayName "Bob"
  |> User.set_PasswordHash "y" |> User.set_Role "user".
Definition session (id user : string) : Models.Session :=
  Models.Session.zero |> Models.Session.set_ID ("s-" +:+ id) |> Models.Session.set_TokenHash (Auth.HashToken id)
                      |> Models.Session.set_UserID user |> Models.Session.set_ExpiresUnix 5000.
Definition ops : Models.ChannelRow :=
  ChannelRow.zero |> ChannelRow.set_ID "c1" |> ChannelRow.set_Target "#ops" |> ChannelRow.set_DisplayName "ops" |> ChannelRow.set_Visibility "private".
Definition bob_in_ops : Models.ChannelMemberRow :=
  ChannelMemberRow.zero |> ChannelMemberRow.set_ID "m1" |> ChannelMemberRow.set_Target "#ops"
    |> ChannelMemberRow.set_Kind "human" |> ChannelMemberRow.set_MemberID "u2" |> ChannelMemberRow.set_DisplayName "Bob" |> ChannelMemberRow.set_Role "member".

Definition store : Store.Store :=
  set_channel_members [bob_in_ops] (set_channels [ops]
    (Store.set_sessions [session "t1" "u1"; session "t2" "u2"] (set_users [ann; bob] empty_store))).

Definition site : Site :=
  mkSite (RpcServer.start "srv" store) (mkCache 0 ∅) ∅ ∅ (NewStore 0).

(** A request with a token and path values. *)
Definition request (token : string) (path : gmap string string) (body : string) : http_request :=
  mkRequest path ∅ {[ "Authorization" := ["Bearer " +:+ token] ]} ∅ "" false body (Z.of_nat (String.length body)).
End Toy.
