(* ===== verification/HttpMoves.v ===== *)
(** * What requests do to the database, up to a relation

    A fact such as "rooms are left alone" or "the rows stay valid" is a preorder between the
    database before and after.  Whatever the preorder, it passes from the transactions of the
    store to the handlers that run them, to the steps of the site, to the coordinator and its
    webhooks and to the calls of daemons: these are the rules, once for all of them. *)

From S2P Require Import Prelude GoStr GoText Json JsonValue Sql Models Schema Store Frame Proto RpcText.
From S2P Require Import Rpc RpcConv RpcAgents RpcTasks RpcMessages RpcReminders RpcMemory RpcServer Users.
From S2P Require Import Auth Channels Messages Threads AgentRuns ImAdapter ImBinding ImInbound ImNormalize.
From S2P Require Import ImCoord ImChannels Http Media HttpBase Enrollment Preview HttpRooms HttpWork.
From S2P Require Import HttpPublic HttpIm HttpBridge HttpServer.

#[local] Open Scope go_scope.

Section moves.
Context {Eng : SqlEngine} {Uni : Unicode} {Spr : Sprinter} {Fl : Floats} {Ord : MapOrder} {Sha : Sha256}
        {Txt : TextLib} {Tm : TimeLib} {Cr : Crypto} {Sn : Sniffer} {Ld : Loader} {Rfc : Rfc3339}
        {S1 : Sha1} {WxXml : Weixin.Xml} {WcXml : WeCom.Xml} {Ae : WeCom.Aes} {PJ : ProtoJSON} {E : Env} {Il : ILink}.

Context (rel : relation Store.Store) `{!PreOrder rel}.

(** A transaction, a handler, a step of the site and a call of the coordinator within the
    relation. *)
Definition txn {A} (m : M A) : Prop := ∀ s, rel s (m s).2.
Definition via {A} (m : R A) : Prop := ∀ w, rel (db w) (db (m w).2).
Definition moves (m : step) : Prop := ∀ s, rel (site_db s) (site_db (m s).2).
Definition goes (w w' : Coordinator) : Prop := rel (store w) (store w').

(** ** Handlers *)

Lemma via_ret {A} (a : A) : via (mret a : R A).
Proof. by intros w. Qed.

Lemma via_raise {A} e : via (raise (A := A) e).
Proof. by intros w. Qed.

Lemma via_bind {A B} (m : R A) (k : A → R B) : via m → (∀ a, via (k a)) → via (mbind k m).
Proof.
  intros Hm Hk w. unfold mbind, R_bind. specialize (Hm w). destruct (m w) as [[e|a] w']; cbn in *; [done|].
  etransitivity; [exact Hm|apply Hk].
Qed.

Lemma via_gets {A} (f : Server → A) : via (gets f).
Proof. by intros w. Qed.

Lemma via_modify f : via (modify f).
Proof. by intros w. Qed.

Lemma via_unixNow : via unixNow.
Proof. by intros w. Qed.

Lemma via_NewID p : via (NewID p).
Proof. by intros w. Qed.

Lemma via_begin me k : via (begin me k).
Proof. by intros w. Qed.

(** A handler that does not see the database. *)
Lemma via_blind {A} (m : R A) : (∀ w, db (m w).2 = db w) → via m.
Proof. intros Hm w. by rewrite Hm. Qed.

Lemma via_stored {A} (m : M A) : txn m → via (stored m).
Proof. intros Hm w. unfold stored. specialize (Hm (db w)). by destruct (m (db w)). Qed.

Lemma via_caught {A} (m : R A) : via m → via (caught m).
Proof. intros Hm w. unfold caught. specialize (Hm w). by destruct (m w). Qed.

Lemma via_attempt {A B} (m : M A) f (k : A → R (reply B)) : txn m → (∀ a, via (k a)) → via (attempt m f k).
Proof. intros Hm Hk. apply via_bind; [by apply via_stored|]. intros [e|a]; [apply via_ret|apply Hk]. Qed.

Lemma via_read_or {A} (a : A) m : txn m → via (read_or a m).
Proof. intros Hm. apply via_bind; [by apply via_stored|]. intros [e|x]; apply via_ret. Qed.

Lemma via_record {B} m s (k : R (reply B)) : via m → via k → via (record m s k).
Proof. intros Hm Hk. apply via_bind; [done|]. intros [e|a]; [apply via_ret|done]. Qed.

Lemma via_decoded {A B} (body : option A) (k : A → R (reply B)) : (∀ a, via (k a)) → via (decoded body k).
Proof. intros Hk. destruct body; [apply Hk|apply via_ret]. Qed.

Lemma via_storing {B} (m : Z → M (reply B)) : (∀ now, txn (m now)) → via (storing m).
Proof. intros Hm. apply via_bind; [apply via_unixNow|]. intros now. apply via_attempt; [apply Hm|]. intros a. apply via_ret. Qed.

(** ** Steps of the site *)

Lemma moves_replying {B} (m : R (reply B)) : via m → moves (replying m).
Proof.
  intros Hm s. specialize (Hm (world s)). unfold replying, site_db.
  by destruct (m (world s)) as [[e|rep] w].
Qed.

Lemma moves_timed k : (∀ now, moves (k now)) → moves (timed k).
Proof.
  intros Hk s. unfold timed. cbn. set (s' := set_world _ s). change (site_db s) with (site_db s'). apply Hk.
Qed.

Lemma moves_directory {B} (f : directory → reply B * directory) : moves (on_directory f).
Proof. intros s. unfold on_directory. by destruct (f (directory_of s)). Qed.

Lemma moves_files {B} (f : Media.disk → reply B * Media.disk) : moves (on_files f).
Proof. intros s. unfold on_files. by destruct (f (files s)). Qed.

Lemma moves_bindings (m : ImBinding.Store → R outcome) : (∀ b, via (m b)) → moves (on_bindings m).
Proof.
  intros Hm s. specialize (Hm (bindings s) (world s)). unfold on_bindings, site_db.
  by destruct (m (bindings s) (world s)) as [[e|[[rep|] b]] w].
Qed.

Lemma moves_coordinator {B} (f : Coordinator → reply B * Coordinator) :
  (∀ w, goes w (f w).2) → moves (on_coordinator f).
Proof.
  intros Hf s. specialize (Hf (mkCoord (db (world s)) (inbound s))). unfold on_coordinator, site_db.
  by destruct (f _) as [rep w].
Qed.

Lemma moves_guarded who next : via who → (∀ p, moves (next p)) → moves (guarded who next).
Proof.
  intros Hw Hk s. specialize (Hw (world s)). unfold guarded.
  destruct (who (world s)) as [[e|[st p|st m]] w]; cbn in *; [exact Hw| |exact Hw].
  etransitivity; [exact Hw|]. apply (Hk p (set_world w s)).
Qed.

Lemma moves_mark c id intro k : moves k → moves (mark c id intro k).
Proof.
  intros Hk. apply moves_timed. intros now s. set (s' := set_directory _ s).
  change (site_db s) with (site_db s'). apply Hk.
Qed.

(** A call of a daemon, if the methods of its RPC server stay within the relation. *)
Lemma moves_daemon c q r : via (RpcServer.serve q) → moves (serve_daemon c q r).
Proof.
  intros Hq. unfold serve_daemon. destruct (introduction_of q) as [intro|]; [|by intros s]. apply moves_timed. intros now s.
  destruct (authenticateDaemonConnect _ _ _) as [e|enrollment]; [done|]. cbv zeta.
  set (run := λ s : Site, let (res, w) := RpcServer.serve q (world s) in (res, set_world w s)).
  assert (∀ s, rel (site_db s) (site_db (run s).2)) as Hrun.
  { intros s1. specialize (Hq (world s1)). unfold run, site_db. by destruct (RpcServer.serve q (world s1)). }
  change (let (res, w) := RpcServer.serve q (world s) in (res, set_world w s)) with (run s) in *.
  assert (∀ intro, rel (site_db s) (site_db (match run s with
    | (inl err, s) => (RpcAnswer (inl err), s)
    | (inr _, s) => mark c (En.ID enrollment) intro (λ s, (RpcAnswer (inr ()), s)) s
    end).2)) as Hunary.
  { intros i. specialize (Hrun s). destruct (run s) as [[e|a] s1]; [exact Hrun|].
    etransitivity; [exact Hrun|]. apply moves_mark. by intros s2. }
  destruct intro; try apply Hunary.
  apply moves_mark. intros s1. specialize (Hrun s1). unfold run in *. by destruct (RpcServer.serve q (world s1)).
Qed.

(** ** The coordinator, if its transactions stay within the relation *)

#[local] Instance goes_preorder : PreOrder goes.
Proof. split; [by intros w; unfold goes|]. intros w1 w2 w3 H1 H2. unfold goes in *. by etransitivity. Qed.

Lemma on_store_goes {A} (m : M A) w : txn m → goes w (ImCoord.on_store m w).2.
Proof. intros Hm. specialize (Hm (store w)). unfold goes, ImCoord.on_store. by destruct (m (store w)). Qed.

(** [w] and [w'] differ outside the store. *)
Ltac same_store := unfold goes; reflexivity.

Section coordinator.
Hypothesis resolve_txn : ∀ d, txn (resolveChatPolicy d).
Hypothesis dispatch_txn : ∀ draws d policy identity sub err, txn (dispatch draws d policy identity sub err).
Hypothesis create_txn : ∀ draws d, txn (createMessage draws d).
Hypothesis endpoint_txn : ∀ id, txn (Endpoints.GetInteractionEndpoint id).

Lemma handle_begin_goes startedAt draws draft w : goes w (handle_begin startedAt draws draft w).2.
Proof.
  unfold handle_begin. set (d := normalizeDraft draft). cbv zeta. destruct (validateDraft d); [|same_store].
  destruct (isStale startedAt d); [same_store|].
  destruct (MarkSeen (at_mark draws) (draftDedupeMessage d) (dedupe w)) as [[] cache]; [same_store|].
  pose proof (on_store_goes _ (mkCoord (store w) cache) (resolve_txn d)) as H1.
  destruct (ImCoord.on_store (resolveChatPolicy d) (mkCoord (store w) cache)) as [[e|[[[policy identity] sub] err]] w1];
    [exact H1|]. cbn [snd] in H1.
  assert (∀ refusal, goes w (ImCoord.on_store (dispatch draws d policy identity sub refusal) w1).2) as H2
    by (intros refusal; etransitivity; [exact H1|by apply on_store_goes]).
  destruct err as [[]|]; cbn [snd]; try exact H1.
  - specialize (H2 (Some ErrUnauthorizedChat)). by destruct (ImCoord.on_store (dispatch draws d policy identity sub _) w1).
  - specialize (H2 None). by destruct (ImCoord.on_store (dispatch draws d policy identity sub _) w1).
Qed.

Lemma handle_end_goes d answered w : goes w (handle_end d answered w).2.
Proof. unfold handle_end. destruct answered as [e|r]; [|same_store]. destruct (is_conflict e); same_store. Qed.

Lemma message_body_goes draws cancelled d key w :
  goes w (ImCoord.on_store (createMessage draws d) w).2 → goes w (message_body draws cancelled d key w).2.
Proof.
  intros H. unfold message_body. destruct cancelled; [same_store|].
  destruct (ImCoord.on_store (createMessage draws d) w) as [[e|[e|m]] w1]; cbn [snd] in *; try exact H.
  destruct (is_conflict e); exact H.
Qed.

Lemma Handle_goes startedAt draws cancelled draft w : goes w (ImCoord.Handle startedAt draws cancelled draft w).2.
Proof.
  unfold ImCoord.Handle. pose proof (handle_begin_goes startedAt draws draft w) as H1.
  destruct (handle_begin startedAt draws draft w) as [[r e|d key] w1]; [exact H1|]. cbn [snd] in H1.
  pose proof (message_body_goes draws cancelled d key w1 (on_store_goes _ w1 (create_txn draws d))) as H2.
  destruct (message_body draws cancelled d key w1) as [a w2]. cbn [snd] in H2.
  etransitivity; [exact H1|]. etransitivity; [exact H2|]. apply handle_end_goes.
Qed.

Lemma receive_goes startedAt draws cancelled now event configured ignored w :
  goes w (receive startedAt draws cancelled now event configured ignored w).2.
Proof.
  unfold receive. destruct (NormalizeInbound now event) as [e|msg]; [same_store|]. cbv zeta.
  destruct (ignored (configured msg)); [same_store|]. unfold deliver.
  destruct (Draft_ now (configured msg)) as [e|draft]; [same_store|].
  pose proof (Handle_goes startedAt draws cancelled draft w) as H.
  by destruct (ImCoord.Handle startedAt draws cancelled draft w) as [[r e] w'].
Qed.

(** Settles a webhook: all it does to the store is to receive. *)
Ltac webhook :=
  cbv zeta;
  repeat first
    [ same_store
    | progress cbn [answered fst snd]
    | apply receive_goes
    | match goal with
      | |- goes _ (match ?x with _ => _ end).2 => destruct x
      | |- goes _ (let (_, _) := ?x in _).2 => destruct x
      end ].

Lemma hook_endpoint_goes provider wrong r w k :
  (∀ endpoint w, goes w (k endpoint w).2) → goes w (hook_endpoint provider wrong r w k).2.
Proof.
  intros Hk. unfold hook_endpoint. cbv zeta. destruct (_ =s ""); [same_store|].
  pose proof (on_store_goes _ w (endpoint_txn (TrimSpace (PathValue r "endpointID")))) as H.
  destruct (ImCoord.on_store _ w) as [[e|endpoint] w1]; cbn [snd] in H.
  - destruct e; exact H.
  - destruct (_ || _); [exact H|]. destruct (negb _); [exact H|]. etransitivity; [exact H|apply Hk].
Qed.

Lemma telegram_goes startedAt draws cancelled now r w :
  goes w (handleTelegramWebhook startedAt draws cancelled now r w).2.
Proof.
  apply hook_endpoint_goes. intros endpoint w1. destruct (Telegram.ConfigFromEndpoint endpoint); [|same_store].
  unfold Telegram.Handle. webhook.
Qed.

Lemma feishu_goes startedAt draws cancelled now r w :
  goes w (handleFeishuCallback startedAt draws cancelled now r w).2.
Proof.
  apply hook_endpoint_goes. intros endpoint w1. destruct (Feishu.ConfigFromEndpoint endpoint); [|same_store].
  unfold Feishu.Handle. webhook.
Qed.

Lemma wecom_goes startedAt draws cancelled now get r w :
  goes w (handleWeComCallback startedAt draws cancelled now get r w).2.
Proof.
  apply hook_endpoint_goes. intros endpoint w1. destruct (WeCom.ConfigFromEndpoint endpoint); [|same_store].
  unfold WeCom.Handle. destruct (negb _); [same_store|]. destruct get; webhook.
Qed.

Lemma wechat_goes startedAt draws cancelled now get r w :
  goes w (handleWeChatCallback startedAt draws cancelled now get r w).2.
Proof.
  apply hook_endpoint_goes. intros endpoint w1. destruct (Weixin.ConfigFromEndpoint endpoint); [|same_store].
  unfold Weixin.Handle. destruct get; webhook.
Qed.
End coordinator.
End moves.

(** ** Automation

    One rule of [via], by the computation's head; [solve_txn] is what settles a transaction.
    Loops are looked up among the lemmas of [via], everything else is unfolded. *)
Create HintDb via discriminated.

Ltac via_step solve_txn :=
  cbv beta;
  lazymatch goal with
  | |- ?P (let x := ?v in @?b x) => generalize_let P v b
  | |- via _ (match ?x with _ => _ end) => destruct x
  | |- via _ (mbind _ _) => apply via_bind; [exact _| |intros]
  | |- via _ (mret _) => apply via_ret; exact _
  | |- via _ (raise _) => apply via_raise; exact _
  | |- via _ (gets _) => apply via_gets; exact _
  | |- via _ (modify _) => apply via_modify; exact _
  | |- via _ unixNow => apply via_unixNow; exact _
  | |- via _ (NewID _) => apply via_NewID; exact _
  | |- via _ (begin _ _) => apply via_begin; exact _
  | |- via _ (stored _) => apply via_stored; solve_txn
  | |- via _ (caught _) => apply via_caught
  | |- via _ (attempt _ _ _) => apply via_attempt; [exact _|solve_txn|intros]
  | |- via _ (read_or _ _) => apply via_read_or; [exact _|solve_txn]
  | |- via _ (record _ _ _) => apply via_record; [exact _| |]
  | |- via _ (decoded _ _) => apply via_decoded; [exact _|intros]
  | |- via _ (storing _) => apply via_storing; [exact _|intros; solve_txn]
  | |- via _ ?m =>
      first [ assumption
            | solve [auto with via nocore]
            | let h := head_of m in unfold h
            | apply via_blind; [exact _|reflexivity] ]
  end.

(** A step of the site, up to its handler. *)
Ltac moves_step :=
  first [ apply moves_timed; intros | apply moves_directory; exact _ | apply moves_files; exact _
        | apply moves_bindings; intros | apply moves_replying ].

(** * What leaves the rooms alone ([internal/server])

    No request but those of the room handlers writes rooms or their members: not the other
    routes of accounts, not the public ones with their webhooks, and no method of the
    daemon RPC server. *)

Section rooms_frame.
Context {Eng : SqlEngine} {Uni : Unicode} {Spr : Sprinter} {Fl : Floats} {Ord : MapOrder} {Sha : Sha256}
        {Txt : TextLib} {Tm : TimeLib} {Cr : Crypto} {Sn : Sniffer} {Ld : Loader} {Rfc : Rfc3339}
        {S1 : Sha1} {WxXml : Weixin.Xml} {WcXml : WeCom.Xml} {Ae : WeCom.Aes} {PJ : ProtoJSON} {E : Env} {Il : ILink}.

(** ** Loops that only read leave every table alone *)

Section reads.
Context {T : Type} `{!Table T}.

Lemma search_hits_reads opts l : untouched T (search_hits opts l).
Proof. induction l as [|e l IH]; cbn [search_hits]; solve_untouched. Qed.

Lemma scan_page_reads opts limit page saved : untouched T (scan_page opts limit page saved).
Proof. revert saved. induction page as [|e l IH]; intros saved; cbn [scan_page]; solve_untouched; apply IH. Qed.

#[local] Hint Resolve search_hits_reads scan_page_reads : frame.

Lemma scan_pages_reads fuel opts limit size offset saved : untouched T (scan_pages fuel opts limit size offset saved).
Proof.
  revert offset saved. induction fuel as [|fuel IH]; intros offset saved; cbn [scan_pages]; solve_untouched; apply IH.
Qed.

Lemma saved_messages_reads opts : untouched T (ListSavedMessagesWithOptions opts).
Proof. unfold ListSavedMessagesWithOptions. repeat untouched_step. intros s. apply scan_pages_reads. Qed.

Lemma collect_reads {A} (show : A → M (option Sum.ChannelSummary)) limit out l :
  (∀ x, untouched T (show x)) → untouched T (collect show limit out l).
Proof.
  intros Hs. revert out. induction l as [|x l IH]; intros out; cbn [collect]; solve_untouched; first [apply Hs | apply IH].
Qed.

#[local] Hint Resolve saved_messages_reads : frame.

Lemma channelSummaries_reads u joined limit : untouched T (channelSummaries u joined limit).
Proof.
  assert (∀ c, untouched T (show_persisted u joined c)) as H1 by (intros c; solve_untouched).
  assert (∀ t, untouched T (show_target u joined t)) as H2 by (intros t; solve_untouched).
  unfold channelSummaries;
    repeat first [apply (collect_reads _ _ _ _ H1) | apply (collect_reads _ _ _ _ H2) | untouched_step].
Qed.
End reads.

#[local] Hint Extern 1 (untouched _ (search_hits _ _)) => (apply search_hits_reads) : frame.
#[local] Hint Extern 1 (untouched _ (ListSavedMessagesWithOptions _)) => (apply saved_messages_reads) : frame.
#[local] Hint Extern 1 (untouched _ (channelSummaries _ _ _)) => (apply channelSummaries_reads) : frame.

(** ** The tables of rooms *)

(** The rows of rooms and of members, of a database and of a site. *)
Definition rooms_of (s : Store.Store) : tbl ChannelRow * tbl ChannelMemberRow := (get_tbl s, get_tbl s).
Definition rooms (s : Site) : tbl ChannelRow * tbl ChannelMemberRow := rooms_of (site_db s).

Definition same_rooms (s s' : Store.Store) : Prop := rooms_of s' = rooms_of s.

#[export] Instance same_rooms_preorder : PreOrder same_rooms.
Proof. split; [done|]. intros s1 s2 s3 H1 H2. unfold same_rooms in *. congruence. Qed.

Definition spares_rooms {A} (m : M A) : Prop := txn same_rooms m.
Definition leaves_rooms {A} (m : R A) : Prop := via same_rooms m.

Lemma spares_both {A} (m : M A) : untouched ChannelRow m → untouched ChannelMemberRow m → spares_rooms m.
Proof. intros H1 H2 s. unfold same_rooms, rooms_of. by rewrite H1, H2. Qed.

Ltac solve_spares := apply spares_both; solve_untouched.
Ltac solve_rooms := repeat via_step ltac:(solve [solve_spares]).

Lemma enqueue_routes_rooms msg routes seen deliveries : leaves_rooms (enqueue_routes msg routes seen deliveries).
Proof.
  revert seen deliveries. unfold leaves_rooms. induction routes as [|route l IH]; intros seen deliveries;
    cbn [enqueue_routes]; solve_rooms; apply IH.
Qed.

Lemma report_loop_rooms stream persisted dropped : leaves_rooms (report_loop stream persisted dropped).
Proof.
  revert persisted dropped. unfold leaves_rooms. induction stream as [| |event rest IH]; intros persisted dropped;
    cbn [report_loop]; solve_rooms; apply IH.
Qed.

Lemma events_loop_rooms turns wakes limit cursor : leaves_rooms (events_loop turns wakes limit cursor).
Proof.
  revert wakes cursor. unfold leaves_rooms. induction turns as [|turns IH]; intros wakes cursor;
    cbn [events_loop]; solve_rooms; apply IH.
Qed.

#[local] Hint Extern 1 (via same_rooms (enqueue_routes _ _ _ _)) => (apply enqueue_routes_rooms) : via.
#[local] Hint Extern 1 (via same_rooms (report_loop _ _ _)) => (apply report_loop_rooms) : via.
#[local] Hint Extern 1 (via same_rooms (events_loop _ _ _ _)) => (apply events_loop_rooms) : via.

(** No method of the daemon RPC server writes rooms or members. *)
Lemma rpc_rooms q : leaves_rooms (RpcServer.serve q).
Proof. unfold leaves_rooms. destruct q; cbn [RpcServer.serve]; solve_rooms. Qed.

(** ** Requests that are not about rooms *)

(** The routes that are about one room, and the one that makes a room. *)
Definition room_route (q : account_route) : bool :=
  match q with
  | AUpdateChannel | ADeleteChannel | AUpsertChannelMember | AUpdateChannelMember | ADeleteChannelMember => true
  | _ => false
  end.
Definition makes_room (q : account_route) : bool := match q with ACreateChannel => true | _ => false end.

Lemma account_of_rooms r : leaves_rooms (account_of r).
Proof. unfold leaves_rooms, account_of. solve_rooms. Qed.

Lemma account_quiet c q r p : room_route q = false → makes_room q = false → moves same_rooms (serve_account c q r p).
Proof.
  intros H1 H2. destruct q; try done; cbn [serve_account]; repeat moves_step; try (solve_rooms; fail).
  intros s. apply moves_replying. solve_rooms.
Qed.

Lemma public_quiet c q r : moves same_rooms (serve_public c q r).
Proof.
  destruct q; cbn [serve_public]; repeat moves_step; try (solve_rooms; fail).
  1-4: apply moves_coordinator; intros w;
    first [apply telegram_goes | apply feishu_goes | apply wecom_goes | apply wechat_goes];
    first [exact _ | intros; solve_spares].
  apply moves_guarded; [exact _|unfold account_or_query; solve_rooms|]. intros p. moves_step. solve_rooms.
Qed.

Lemma daemon_quiet c q r : moves same_rooms (serve_daemon c q r).
Proof. apply moves_daemon; [exact _|apply rpc_rooms]. Qed.

End rooms_frame.

#[export] Hint Extern 1 (untouched _ (search_hits _ _)) => (apply search_hits_reads) : frame.
#[export] Hint Extern 1 (untouched _ (ListSavedMessagesWithOptions _)) => (apply saved_messages_reads) : frame.
#[export] Hint Extern 1 (untouched _ (channelSummaries _ _ _)) => (apply channelSummaries_reads) : frame.
