(* ===== verification/HttpGuard.v ===== *)
(** * Who may do what on the server ([internal/server])

    What a request of any kind, from anybody, can and cannot do to the site of [HttpServer]:
    the routes of accounts are closed to everybody else, and rooms and their members change
    only by the hand of those who manage them. *)

From S2P Require Import Prelude GoStr GoText Json JsonValue Sql Models Schema Store Frame WellFormed.
From S2P Require Import Events Proto RpcText Rpc RpcConv RpcAgents RpcTasks RpcMessages RpcReminders.
From S2P Require Import RpcMemory RpcServer Users Auth Channels Messages Threads AgentRuns ImAdapter.
From S2P Require Import ImBinding ImInbound ImNormalize ImCoord ImChannels Http Media HttpBase Enrollment.
From S2P Require Import Preview HttpRooms HttpWork HttpPublic HttpIm HttpBridge HttpServer HttpMoves.

#[local] Open Scope go_scope.

Section guard.
Context {Eng : SqlEngine} {Uni : Unicode} {Spr : Sprinter} {Fl : Floats} {Ord : MapOrder} {Sha : Sha256}
        {Txt : TextLib} {Tm : TimeLib} {Cr : Crypto} {Sn : Sniffer} {Ld : Loader} {Rfc : Rfc3339}
        {S1 : Sha1} {WxXml : Weixin.Xml} {WcXml : WeCom.Xml} {Ae : WeCom.Aes} {PJ : ProtoJSON} {E : Env} {Il : ILink}.

(** ** Who changes rooms *)

Context {Laws : SqlLaws}.

(** The account behind [token] when the clock shows [now]. *)
Definition holds_session (now : Z) (token : string) (p : Principal) (d : Store.Store) : Prop :=
  P_User p ∈ rows User.User d ∧ P_Session p ∈ rows Models.Session d ∧
  Models.Session.TokenHash (P_Session p) = Auth.HashToken token ∧
  Models.Session.UserID (P_Session p) = User.ID (P_User p) ∧ (now < Models.Session.ExpiresUnix (P_Session p))%Z.

(** An administrator of the room: an owner or administrator of the server, or a member of
    the room with the role. *)
Definition room_admin (u : User.User) (target : string) (d : Store.Store) : Prop :=
  canManageChannels u = true ∨
  ∃ row, row ∈ rows ChannelMemberRow d ∧ ChannelMemberRow.Target row = normalizeChannelTarget target ∧
    ChannelMemberRow.Kind row = "human" ∧ ChannelMemberRow.MemberID row = User.ID u ∧
    ChannelMemberRow.Role row = "admin".

Lemma elem_of_window {A} off lim (l : list A) x : x ∈ window off lim l → x ∈ l.
Proof.
  assert (∀ k (l : list A), x ∈ drop k l → x ∈ l) as Hd.
  { intros k l0 H. rewrite <-(take_drop k l0). apply elem_of_app. by right. }
  unfold window. destruct lim as [n|]; [|apply Hd].
  intros (i & Hi & _)%elem_of_take. apply (Hd off). by eapply list_elem_of_lookup_2.
Qed.

Lemma member_role_found id members role :
  member_role id members = Some role →
  ∃ m, m ∈ members ∧ Mem.Kind m = "human" ∧ Mem.MemberID m = id ∧ Mem.Role m = role.
Proof.
  induction members as [|m members IH]; [done|]. cbn [member_role].
  destruct (_ && _) eqn:Em.
  - intros [= <-]. apply andb_prop in Em as [E1%eqb_eq_str E2%eqb_eq_str]. exists m. split; [constructor|done].
  - intros H. destruct (IH H) as (m' & Hm & ?). exists m'. split; [by constructor|done].
Qed.

Lemma wp_open_role target s (Q : error + string → Store.Store → Prop) :
  (∀ role, role ≠ "admin" → Q (inr role) s) → (∀ e, Q (inl e) s) → wp (open_role target) Q s.
Proof.
  intros H1 H2. unfold open_role, isPrivateChannel. do 2 wp_step. apply wp_GetChannel.
  - intros e. cbn beta iota. wp_step. cbn beta iota. wp_step. apply H1. by destruct (isPrivateName target).
  - intros ch _ _. cbn beta iota. wp_step. cbn beta iota. wp_step. apply H1. by destruct (_ =s _).
Qed.

Lemma canManageChannel_admin u target d :
  wp (canManageChannel u target) (λ res d', d' = d ∧ (res = inr true → room_admin u target d)) d.
Proof.
  unfold canManageChannel, channelRoleFor. wp_step. destruct (canManageChannels u) eqn:Hu.
  { wp_step. wp_step. split; [done|]. intros _. by left. }
  wp_step. unfold Channels.ListChannelMembers. wp_step. wp_step; cbn beta iota.
  2: { apply wp_open_role; [intros role Hr; cbn beta iota; wp_step|done]. split; [done|]. intros [= He].
       apply eqb_eq_str in He. done. }
  wp_step. wp_step. wp_step. cbn beta iota.
  destruct (member_role (User.ID u) _) as [role|] eqn:Em.
  - wp_step. wp_step. split; [done|]. intros [= ->%eqb_eq_str]. right.
    apply member_role_found in Em as (m & Hm & Hk & Hid & Hr).
    apply list_elem_of_fmap in Hm as (row & -> & Hrow). apply elem_of_window in Hrow.
    rewrite H0 in Hrow. apply elem_of_bfilter in Hrow as [Hrow Ht]. apply eqb_eq_str in Ht.
    exists row. done.
  - destruct (_ <? _).
    + wp_step. wp_step. done.
    + apply wp_open_role; [intros role Hr; cbn beta iota; wp_step|done]. split; [done|]. intros [= He].
      apply eqb_eq_str in He. done.
Qed.

(** The account a request of an account's route runs for. *)
Lemma account_of_spec r s :
  unique_rows (rows User.User (site_db s)) = true → unique_rows (rows Models.Session (site_db s)) = true →
  match account_of r (world s) with
  | (inr (Reply _ p), w) => db w = site_db s ∧ srv w = srv (world s) ∧
                            holds_session (clock_at (draws (world s))) (bearerToken r) p (site_db s)
  | (inr (ErrorReply status _), w) => status = StatusUnauthorized ∧ srv w = srv (world s)
  | (inl _, _) => False
  end.
Proof.
  intros Hu Hs. unfold account_of, HttpBase.requireAuth, authenticated.
  destruct (bearerToken r =s ""); [done|]. unfold attempt, stored, unixNow, mbind, R_bind. cbn [db srv].
  assert (wp (Authenticate (clock_at (draws (world s))) (bearerToken r)) (λ res d,
    match res with
    | inl _ => True
    | inr us => d = site_db s ∧
        holds_session (clock_at (draws (world s))) (bearerToken r) (mkPrincipal us.1 us.2) (site_db s)
    end) (site_db s)) as H.
  { apply wp_Authenticate; [done..|]. intros u sess ?????. split; [done|]. by repeat split. }
  unfold wp, site_db in *. destruct (Authenticate _ _ (db (world s))) as [[e|us] d]; cbn in *; [done|].
  by destruct H as [-> H].
Qed.

(** A handler behind the guard of a manager changes rooms only for one. *)
Lemma for_manager_rooms {B} p target (k : R (reply B)) w :
  room_admin (P_User p) target (db w) ∨
  rooms_of (db (for_manager p target k w).2) = rooms_of (db w).
Proof.
  unfold for_manager, read_or, stored, mbind, R_bind. pose proof (canManageChannel_admin (P_User p) target (db w)) as H.
  unfold wp in H. destruct (canManageChannel (P_User p) target (db w)) as [[e|[]] d]; cbn in *; destruct H as [-> H].
  - by right.
  - left. by apply H.
  - by right.
Qed.


(** What authenticating writes: an expired session is deleted. *)
Lemma Authenticate_writes now token d :
  wp (Authenticate now token) (λ _ d', ∃ t, d' = put_tbl (R := Models.Session) t d) d.
Proof.
  assert (∃ t, d = put_tbl (R := Models.Session) t d) as Hd by (exists (get_tbl d); by destruct d).
  unfold Authenticate, GetSessionByTokenHash, DeleteSession, GetUser. wp_steps; try done; eauto.
Qed.

(** The site as a refused request leaves it: an expired session may be gone, and readings
    of the clock are used up. *)
Definition refused (s s' : Site) : Prop :=
  (∃ t, site_db s' = put_tbl (R := Models.Session) t (site_db s)) ∧ srv (world s') = srv (world s) ∧
  executed (world s') = executed (world s) ∧ inbound s' = inbound s ∧ files s' = files s ∧
  directory_of s' = directory_of s ∧ bindings s' = bindings s.

Lemma account_of_writes r w :
  let w' := (account_of r w).2 in
  (∃ t, db w' = put_tbl (R := Models.Session) t (db w)) ∧ srv w' = srv w ∧ executed w' = executed w.
Proof.
  assert (∃ t, db w = put_tbl (R := Models.Session) t (db w)) as Hd by (exists (get_tbl (db w)); by destruct (db w)).
  unfold account_of, HttpBase.requireAuth, authenticated. destruct (bearerToken r =s ""); [done|].
  pose proof (Authenticate_writes (clock_at (draws w)) (bearerToken r) (db w)) as H.
  unfold wp in H. unfold attempt, stored, unixNow, mbind, R_bind. cbn [db].
  destruct (Authenticate _ _ (db w)) as [[e|us] d]; done.
Qed.


End guard.

(** ** Examples *)

Section examples.
Import Toy.

Definition remove_bob (token : string) : http_request :=
  request token (<["target" := "ops"]> (<["kind" := "human"]> {[ "memberID" := "u2" ]})) "".

Example bob_may_not : rooms (serve conf (Account ADeleteChannelMember) (remove_bob "t2") site).2 = rooms site.
Proof. vm_compute. reflexivity. Qed.



End examples.

(** * Every request leaves the database well formed ([internal/server], [internal/daemonrpc])

    The whole site is typed by the schema: whatever request arrives, over the console's API,
    a webhook or the daemon RPC, and however it ends, the rows of every table stay apart by
    their keys and valid field by field. *)

Section form.
Context {Eng : SqlEngine} {Laws : SqlLaws} {Uni : Unicode} {Spr : Sprinter} {Fl : Floats} {Ord : MapOrder} {Sha : Sha256}
        {Txt : TextLib} {Tm : TimeLib} {Cr : Crypto} {Sn : Sniffer} {Ld : Loader} {Rfc : Rfc3339}
        {S1 : Sha1} {WxXml : Weixin.Xml} {WcXml : WeCom.Xml} {Ae : WeCom.Aes} {PJ : ProtoJSON} {E : Env} {Il : ILink}.


(** The database stays well formed. *)
Definition form_kept (s s' : Store.Store) : Prop := well_formed s → well_formed s'.

#[export] Instance form_kept_preorder : PreOrder form_kept.
Proof. split; [by intros s Hs|]. intros s1 s2 s3 H1 H2 H. auto. Qed.

Lemma keeps_txn {A} (m : M A) : keeps_form m → txn form_kept m.
Proof. intros H s. exact (H s). Qed.

Ltac solve_kept := apply keeps_txn; solve_keeps.
Ltac solve_formed := repeat via_step ltac:(solve [solve_kept]).

(** The loops, by induction; everything else is unfolded. *)
Lemma append_loop_form k row_id event : keeps_form (append_loop k row_id event).
Proof. induction k as [|k IH]; cbn [append_loop]; solve_keeps. Qed.

Lemma search_hits_form opts l : keeps_form (search_hits opts l).
Proof. induction l as [|e l IH]; cbn [search_hits]; solve_keeps. Qed.

Lemma scan_page_form opts limit page saved : keeps_form (scan_page opts limit page saved).
Proof. revert saved. induction page as [|e l IH]; intros saved; cbn [scan_page]; solve_keeps; apply IH. Qed.

#[local] Hint Resolve append_loop_form search_hits_form scan_page_form : form.

Lemma scan_pages_form fuel opts limit size offset saved : keeps_form (scan_pages fuel opts limit size offset saved).
Proof.
  revert offset saved. induction fuel as [|fuel IH]; intros offset saved; cbn [scan_pages]; solve_keeps; apply IH.
Qed.
#[local] Hint Resolve scan_pages_form : form.

Lemma collect_form {A} (show : A → M (option Sum.ChannelSummary)) limit out l :
  (∀ x, keeps_form (show x)) → keeps_form (collect show limit out l).
Proof.
  intros Hs. revert out. induction l as [|x l IH]; intros out; cbn [collect]; solve_keeps; first [apply Hs | apply IH].
Qed.

Lemma saved_messages_form opts : keeps_form (ListSavedMessagesWithOptions opts).
Proof. unfold ListSavedMessagesWithOptions. repeat keeps_step. intros s Hs. by apply scan_pages_form. Qed.
#[local] Hint Resolve saved_messages_form : form.

Lemma channelSummaries_form u joined limit : keeps_form (channelSummaries u joined limit).
Proof.
  assert (∀ c, keeps_form (show_persisted u joined c)) as H1 by (intros c; solve_keeps).
  assert (∀ t, keeps_form (show_target u joined t)) as H2 by (intros t; solve_keeps).
  unfold channelSummaries; repeat first [apply (collect_form _ _ _ _ H1) | apply (collect_form _ _ _ _ H2) | keeps_step].
Qed.
#[local] Hint Resolve channelSummaries_form : form.

Lemma enqueue_routes_form msg routes seen deliveries : via form_kept (enqueue_routes msg routes seen deliveries).
Proof.
  revert seen deliveries. induction routes as [|route l IH]; intros seen deliveries; cbn [enqueue_routes];
    solve_formed; apply IH.
Qed.

Lemma report_loop_form stream persisted dropped : via form_kept (report_loop stream persisted dropped).
Proof.
  revert persisted dropped. induction stream as [| |event rest IH]; intros persisted dropped; cbn [report_loop];
    solve_formed; apply IH.
Qed.

Lemma events_loop_form turns wakes limit cursor : via form_kept (events_loop turns wakes limit cursor).
Proof.
  revert wakes cursor. induction turns as [|turns IH]; intros wakes cursor; cbn [events_loop];
    solve_formed; apply IH.
Qed.

#[local] Hint Resolve enqueue_routes_form report_loop_form events_loop_form : via.

(** Every method of the daemon RPC server. *)
Lemma rpc_form q : via form_kept (RpcServer.serve q).
Proof. destruct q; cbn [RpcServer.serve]; solve_formed. Qed.

Lemma account_form c q r p : moves form_kept (serve_account c q r p).
Proof.
  destruct q; cbn [serve_account]; repeat moves_step; try (solve_formed; fail).
  intros s. apply moves_replying. solve_formed.
Qed.

Lemma public_form c q r : moves form_kept (serve_public c q r).
Proof.
  destruct q; cbn [serve_public]; repeat moves_step; try (solve_formed; fail).
  1-4: apply moves_coordinator; intros w;
    first [apply telegram_goes | apply feishu_goes | apply wecom_goes | apply wechat_goes];
    first [exact _ | intros; solve_kept].
  apply moves_guarded; [exact _|unfold account_or_query; solve_formed|]. intros p. moves_step. solve_formed.
Qed.

Definition formed (s : Site) : Prop := well_formed (site_db s).

Lemma serve_form c q r : moves form_kept (serve c q r).
Proof.
  destruct q as [p|a|q]; cbn [serve]; [apply public_form| |apply moves_daemon; [exact _|apply rpc_form]].
  apply moves_guarded; [exact _|unfold account_of; solve_formed|]. intros p. apply account_form.
Qed.


End form.

(** ** An example: two edits of a task, the second one to nothing *)

Section examples.
Import Toy.

Definition member (k v : string) : string := quoted k +:+ ":" +:+ quoted v.

(** Ann creates a task and takes its summary away, a daemon nobody enrolled reports, and a
    stranger lists the messages. *)
Definition busy_day : list (route * http_request) :=
  [(Account ACreateTask, request "t1" ∅ ("{" +:+ member "summary" "release" +:+ "," +:+ member "target" "#ops" +:+ "}"));
   (Account AUpdateTask, request "t1" {[ "id" := "tsk_2" ]} ("{" +:+ member "summary" " " +:+ "}"));
   (Account AListMessages, request "guess" ∅ "")].

Definition summaries (s : Site) : list string := Models.Task.Summary <$> rows Models.Task (site_db s).

Lemma site_formed : formed site.
Proof. repeat split; try reflexivity; intros r Hr; repeat (apply elem_of_cons in Hr as [->|Hr]; [reflexivity|]); by apply elem_of_nil in Hr. Qed.


End examples.
