(* ===== verification/HttpAuthors.v ===== *)
(** * Who may write what in the history of messages ([internal/server])

    No request changes or deletes a message: the history only grows.  What a request adds to
    it names its author truthfully: an account writes as itself, a webhook as the endpoint of
    its path once its credentials are checked, the server as the system. *)
From S2P Require Import Prelude GoStr GoText Json JsonValue Sql Models Schema Store Frame.
From S2P Require Import Proto RpcText Rpc RpcConv RpcAgents RpcTasks RpcMessages RpcReminders RpcMemory RpcServer.
From S2P Require Import Users Auth Channels Messages Threads AgentRuns ImAdapter ImBinding ImInbound ImNormalize ImCoord ImChannels.
From S2P Require Import Http Media HttpBase Enrollment Preview HttpRooms HttpWork HttpPublic HttpIm.
From S2P Require Import HttpBridge HttpServer HttpMoves HttpGuard.

#[local] Open Scope go_scope.

Section authors.
Context {Eng : SqlEngine} {Laws : SqlLaws} {Uni : Unicode} {Spr : Sprinter} {Fl : Floats} {Ord : MapOrder} {Sha : Sha256}
        {Txt : TextLib} {Tm : TimeLib} {Cr : Crypto} {Sn : Sniffer} {Ld : Loader} {Rfc : Rfc3339}
        {S1 : Sha1} {WxXml : Weixin.Xml} {WcXml : WeCom.Xml} {Ae : WeCom.Aes} {PJ : ProtoJSON} {E : Env} {Il : ILink}.

(** To the messages only some are added, at the end, that fulfil [P]. *)
Definition adds (P : Mw.MessageRow → Prop) (s s' : Store.Store) : Prop :=
  ∃ new, rows Mw.MessageRow s' = rows Mw.MessageRow s ++ new ∧ Forall P new.

#[export] Instance adds_preorder P : PreOrder (adds P).
Proof.
  split.
  - intros s. exists []. by rewrite app_nil_r.
  - intros s1 s2 s3 (l1 & H1 & P1) (l2 & H2 & P2). exists (l1 ++ l2).
    by rewrite H2, H1, app_assoc, Forall_app.
Qed.

Lemma adds_weaken (P Q : Mw.MessageRow → Prop) s s' : (∀ m, P m → Q m) → adds P s s' → adds Q s s'.
Proof. intros H (l & Hl & HP). exists l. split; [done|]. by eapply Forall_impl. Qed.

Lemma quiet_adds P {A} (m : M A) : untouched Mw.MessageRow m → txn (adds P) m.
Proof. intros H s. exists []. rewrite app_nil_r. split; [|done]. unfold rows. by rewrite H. Qed.

(** The row of a message. *)
Definition row_of (m : Msg.Message) (id attachments : string) (created : Z) : Mw.MessageRow :=
  Mw.mk id (Msg.Target m) (Msg.ThreadID m) (Msg.Role m) (Msg.Content m) (Msg.ReplyToMessageID m)
    (Msg.SenderUserID m) (Msg.SenderAgentID m) (Msg.SenderDisplayName m) (Msg.SenderKind m)
    (Msg.SourceEndpointID m) (Msg.ExternalMessageID m) (Msg.MetadataJSON m) attachments
    (Msg.RequestID m) created (Decisions.normalizeMessageKind (Msg.Kind m)).

Lemma create_adds P now id m :
  (∀ id attachments created, P (row_of m id attachments created)) → txn (adds P) (Messages.CreateMessage now id m).
Proof.
  intros HP s. change (wp (Messages.CreateMessage now id m) (λ _ s', adds P s s') s).
  unfold Messages.CreateMessage. wp_steps; try reflexivity.
  eexists [_]. rewrite rows_put. split; [eassumption|]. constructor; [apply HP|constructor].
Qed.

Ltac solve_adds :=
  idtac;
  lazymatch goal with
  | |- txn _ (Messages.CreateMessage _ _ _) => apply create_adds; intros
  | |- _ => apply quiet_adds; solve [solve_untouched]
  end.
Ltac solve_posts := repeat via_step ltac:(solve_adds).

Lemma enqueue_routes_posts P msg routes seen deliveries : via (adds P) (enqueue_routes msg routes seen deliveries).
Proof.
  revert seen deliveries. induction routes as [|route l IH]; intros seen deliveries; cbn [enqueue_routes];
    solve_posts; apply IH.
Qed.

Lemma report_loop_posts P stream persisted dropped : via (adds P) (report_loop stream persisted dropped).
Proof.
  revert persisted dropped. induction stream as [| |event rest IH]; intros persisted dropped; cbn [report_loop];
    solve_posts; apply IH.
Qed.

Lemma events_loop_posts P turns wakes limit cursor : via (adds P) (events_loop turns wakes limit cursor).
Proof.
  revert wakes cursor. induction turns as [|turns IH]; intros wakes cursor; cbn [events_loop];
    solve_posts; apply IH.
Qed.

#[local] Hint Resolve enqueue_routes_posts report_loop_posts events_loop_posts : via.

(** ** Accounts *)

(** The account wrote it, in its own name; or the server did, about members of a room. *)
Definition by_account (p : Principal) (m : Mw.MessageRow) : Prop :=
  (Mw.SenderKind m = "human" ∧ Mw.SenderUserID m = User.ID (P_User p) ∧ Mw.SenderAgentID m = "") ∨
  (Mw.SenderKind m = "system" ∧ Mw.Role m = "system").

Lemma account_posts c q r p : moves (adds (by_account p)) (serve_account c q r p).
Proof.
  destruct q; cbn [serve_account]; repeat moves_step; try (solve_posts; fail).
  3: intros s; apply moves_replying.
  all: solve_posts; first [left; by split_and! | right; by split].
Qed.

(** ** Daemons *)

(** The calls that send a message. *)
Definition sends (q : RpcServer.request) : bool :=
  match q with rSendMessage _ | rSendAgentDirectMessage _ => true | _ => false end.

Lemma rpc_posts q : via (adds (λ _, sends q = true)) (RpcServer.serve q).
Proof. destruct q; cbn [RpcServer.serve]; solve_posts; reflexivity. Qed.

(** ** Webhooks *)

(** A message of the endpoint. *)
Definition by_endpoint (id : string) (m : Mw.MessageRow) : Prop :=
  Mw.SenderKind m = "endpoint" ∧ Mw.SourceEndpointID m = id.

Definition source (d : Draft) : string := TrimSpace (Dr.SourceEndpointID d).

Lemma source_normalized d : Dr.SourceEndpointID (normalizeDraft d) = source d.
Proof. destruct d. unfold normalizeDraft, source. cbn. by repeat case_match. Qed.

Lemma source_routed d sub : source (applySubscriptionRoute d sub) = source d.
Proof. destruct d. unfold applySubscriptionRoute, source. by repeat case_match. Qed.

Lemma source_twice d : source (normalizeDraft d) = source d.
Proof. unfold source at 1. rewrite source_normalized. apply TrimSpace_idemp. Qed.

(** A message that reaches the queue still is of its endpoint. *)
Lemma begin_queued_source startedAt draws draft w routed key w' :
  handle_begin startedAt draws draft w = (Queued routed key, w') → source routed = source draft.
Proof.
  unfold handle_begin. rewrite <-(source_twice draft). set (d := normalizeDraft draft). cbv zeta. destruct (validateDraft d); [|done].
  destruct (isStale startedAt d); [done|]. destruct (MarkSeen _ _ _) as [[] cache]; [done|].
  destruct (ImCoord.on_store (resolveChatPolicy d) _) as [[e|[[[policy identity] sub] authErr]] w1]; [done|].
  assert (∀ w1, (let (res, w0) := ImCoord.on_store (dispatch draws d policy identity sub authErr) w1 in
     (match res with inr b => b | inl e => Finished no_result (Some (ErrStore e)) end, w0)) = (Queued routed key, w') →
    source routed = source d) as G.
  { intros w2. unfold ImCoord.on_store. destruct (dispatch _ _ _ _ _ _ _) as [[e|b] s] eqn:Ed; [done|]. intros [= -> _].
    apply dispatch_spec in Ed as (_ & _ & _ & Hp). destruct (RequireSubscription policy); [|by subst].
    destruct Hp as [_ ->]. apply source_routed. }
  destruct authErr as [[]|]; try done; apply G.
Qed.

Lemma createMessage_adds draws d : txn (adds (by_endpoint (source d))) (createMessage draws d).
Proof.
  intros s. unfold createMessage. cbv zeta.
  match goal with |- context [match ?x with Some _ => _ | None => _ end] => destruct x as [attachments|] end; [|reflexivity].
  unfold try. pose proof (create_adds (by_endpoint (source d)) (at_write draws) (fresh draws) (draftToMessage d attachments)) as H.
  specialize (H ltac:(intros; split; [done|apply source_normalized]) s).
  by destruct (Messages.CreateMessage _ _ _ s).
Qed.

Lemma Handle_adds startedAt draws cancelled draft w :
  goes (adds (by_endpoint (source draft))) w (ImCoord.Handle startedAt draws cancelled draft w).2.
Proof.
  unfold ImCoord.Handle. pose proof (handle_begin_untouched startedAt draws draft w) as H1.
  destruct (handle_begin startedAt draws draft w) as [[r e|d key] w1] eqn:Eb; cbn [snd] in H1.
  { exists []. rewrite app_nil_r. split; [|done]. unfold rows. cbn [snd]. by rewrite H1. }
  apply begin_queued_source in Eb. rewrite <-Eb.
  pose proof (message_body_goes (adds (by_endpoint (source d))) draws cancelled d key w1
    (on_store_goes _ _ w1 (createMessage_adds draws d))) as H2.
  destruct (message_body draws cancelled d key w1) as [a w2]. cbn [snd] in H2.
  unfold goes in *. destruct H2 as (new & Hn & HP). pose proof (handle_end_goes eq d a w2) as H3. unfold goes in H3.
  exists new. split; [|exact HP]. rewrite <-H3, Hn. unfold rows. by rewrite H1.
Qed.

Lemma Normalize_endpoint now m : Ms.EndpointID (Normalize now m) = TrimSpace (Ms.EndpointID m).
Proof. destruct m. unfold Normalize. cbn [Ms.set_EndpointKind Ms.set_EndpointID Ms.ReceivedUnix Ms.set_Provider Ms.set_ExternalMessageID]. by destruct (_ =? 0)%Z. Qed.

Lemma Draft_source now m d : Draft_ now m = inr d → source d = TrimSpace (Ms.EndpointID m).
Proof.
  unfold Draft_. cbv zeta. destruct (Validate now _); [|done]. intros <-%(inj inr). unfold source.
  change (TrimSpace (Ms.EndpointID (Normalize now m)) = TrimSpace (Ms.EndpointID m)).
  by rewrite Normalize_endpoint, TrimSpace_idemp.
Qed.

Lemma receive_adds startedAt draws cancelled now event configured ignored w :
  (∀ m, Ms.EndpointID (configured m) = Ms.EndpointID m) →
  goes (adds (by_endpoint (TrimSpace (Ev.EndpointID event)))) w
    (receive startedAt draws cancelled now event configured ignored w).2.
Proof.
  intros Hc. unfold receive. destruct (NormalizeInbound now event) as [e|msg] eqn:En; [unfold goes; reflexivity|]. cbv zeta.
  destruct (ignored (configured msg)); [unfold goes; reflexivity|]. unfold deliver.
  destruct (Draft_ now (configured msg)) as [e|draft] eqn:Ed; [unfold goes; reflexivity|].
  assert (source draft = TrimSpace (Ev.EndpointID event)) as <-.
  { apply NormalizeInbound_outcome in En as (_ & _ & p & _ & [He _ _ _]).
    by rewrite (Draft_source _ _ _ Ed), Hc, He, TrimSpace_idemp. }
  pose proof (Handle_adds startedAt draws cancelled draft w) as H.
  by destruct (ImCoord.Handle startedAt draws cancelled draft w) as [[r e] w'].
Qed.

(** *** What a webhook checks *)

(** The requests that deliver something; the others verify the address of a callback. *)
Definition delivers (q : public_route) : option string :=
  match q with
  | PTelegram => Some ProviderTelegram
  | PFeishu => Some ProviderFeishu
  | PWeCom false => Some ProviderWeCom
  | PWeChat false => Some ProviderWeixin
  | _ => None
  end.

Definition weixin_query (r : http_request) : Weixin.Query :=
  Weixin.mkQuery (Query r "signature") (Query r "timestamp") (Query r "nonce") (Query r "echostr").

(** The request carries what the configuration of the endpoint asks for: the secret of
    Telegram, the token of Feishu, the signature of Weixin, and the one of WeCom, which
    covers the encrypted message. *)
Definition credentials (q : public_route) (r : http_request) (endpoint : EpS.InteractionEndpoint) : Prop :=
  match q with
  | PTelegram => ∃ cfg, Telegram.ConfigFromEndpoint endpoint = Some cfg ∧
      Telegram.verifySecret (Telegram.normalize cfg) (req_headers r) = true
  | PFeishu => ∃ cfg env, Feishu.ConfigFromEndpoint endpoint = Some cfg ∧
      Feishu.parseEnvelope (TrimSpace (limited_body r)) = Some env ∧
      Feishu.verifyToken (Feishu.normalize cfg) (Feishu.token_of env) = true
  | PWeChat _ => ∃ cfg, Weixin.ConfigFromEndpoint endpoint = Some cfg ∧
      Weixin.VerifySignature (Weixin.Token (Weixin.normalize cfg)) (weixin_query r) = true
  | PWeCom _ => ∃ cfg encrypted, WeCom.ConfigFromEndpoint endpoint = Some cfg ∧
      WeCom.unmarshal_envelope (TrimSpace (limited_body r)) = Some encrypted ∧
      WeCom.verifySignature (WeCom.CallbackToken (WeCom.normalize cfg))
        (WeCom.mkQuery (Query r "msg_signature") (Query r "timestamp") (Query r "nonce") encrypted) = true
  | _ => False
  end.

(** The endpoint of the path takes the request: it is of the provider, enabled for inbound
    messages, and the request carries its credentials. *)
Definition admits (q : public_route) (r : http_request) (s : Store.Store) (endpoint : EpS.InteractionEndpoint) : Prop :=
  endpoint ∈ rows EpS.InteractionEndpoint s ∧ EpS.ID endpoint = TrimSpace (PathValue r "endpointID") ∧
  EpS.InboundEnabled endpoint = true ∧
  (∃ provider, delivers q = Some provider ∧ EqualFold (EpS.Provider endpoint) provider = true) ∧
  credentials q r endpoint.

Definition by_hook (q : public_route) (r : http_request) (s : Store.Store) (m : Mw.MessageRow) : Prop :=
  ∃ endpoint, admits q r s endpoint ∧ by_endpoint (EpS.ID endpoint) m.

(** [hook_endpoint] hands on an endpoint that is there, of the provider, and enabled. *)
Lemma hook_endpoint_adds P provider wrong r w k :
  (∀ endpoint, endpoint ∈ rows EpS.InteractionEndpoint (store w) → EpS.ID endpoint = TrimSpace (PathValue r "endpointID") →
     EpS.InboundEnabled endpoint = true → EqualFold (EpS.Provider endpoint) provider = true →
     goes (adds P) w (k endpoint w).2) →
  goes (adds P) w (hook_endpoint provider wrong r w k).2.
Proof.
  intros Hk. unfold hook_endpoint. cbv zeta. destruct (_ =s ""); [unfold goes; reflexivity|].
  set (id := TrimSpace (PathValue r "endpointID")) in *.
  assert (wp (Endpoints.GetInteractionEndpoint id) (λ res s', s' = store w ∧
    match res with inr e => e ∈ rows EpS.InteractionEndpoint (store w) ∧ EpS.ID e = id | inl _ => True end) (store w)) as H.
  { apply wp_GetInteractionEndpoint; [|done..]. intros e He. split; [done|].
    assert (e ∈ bfilter (λ r, EpS.ID r =s id) (rows EpS.InteractionEndpoint (store w))) as Hin by (rewrite He; by left).
    apply elem_of_bfilter in Hin as [Hin ?%eqb_eq_str]. done. }
  unfold wp in H. unfold ImCoord.on_store.
  destruct (Endpoints.GetInteractionEndpoint id (store w)) as [[e|endpoint] s']; cbn [fst snd] in H; destruct H as [-> H].
  - destruct e; unfold goes; reflexivity.
  - destruct H as [Hin Hid]. destruct w as [ws wd]. cbn [store dedupe] in *.
    destruct (EqualFold (EpS.Provider endpoint) provider) eqn:Hp; [|rewrite orb_true_r; unfold goes; reflexivity].
    destruct (negb (EqualFold (EpS.Kind endpoint) "im")); [unfold goes; reflexivity|]. cbn [negb orb].
    destruct (EpS.InboundEnabled endpoint) eqn:Hi; [|unfold goes; reflexivity]. cbn [negb].
    by apply Hk.
Qed.

Lemma receive_hook q r endpoint w startedAt draws cancelled now event configured ignored :
  admits q r (store w) endpoint → TrimSpace (Ev.EndpointID event) = EpS.ID endpoint →
  (∀ m, Ms.EndpointID (configured m) = Ms.EndpointID m) →
  goes (adds (by_hook q r (store w))) w (receive startedAt draws cancelled now event configured ignored w).2.
Proof.
  intros Ha He Hc. eapply adds_weaken; [|apply (receive_adds _ _ _ _ _ _ _ _ Hc)].
  intros m Hm. exists endpoint. split; [exact Ha|]. by rewrite <-He.
Qed.

(** The identifier of an endpoint as a webhook passes it on. *)
Lemma raw_event_endpoint provider id external received headers body metadata trimmed :
  id = TrimSpace trimmed →
  TrimSpace (Ev.EndpointID (raw_event provider (TrimSpace id) external received headers body metadata)) = id.
Proof. intros ->. cbn [raw_event Ev.EndpointID]. by rewrite !TrimSpace_idemp. Qed.

(** Settles the branches that receive nothing, up to the one that does. *)
Ltac hooked := first [unfold goes; reflexivity | idtac].

Lemma telegram_adds startedAt draws cancelled now r w :
  goes (adds (by_hook PTelegram r (store w))) w (handleTelegramWebhook startedAt draws cancelled now r w).2.
Proof.
  apply hook_endpoint_adds. intros endpoint Hin Hid Hen Hp.
  destruct (Telegram.ConfigFromEndpoint endpoint) as [cfg|] eqn:Hcfg; hooked.
  assert (Telegram.EndpointID cfg = EpS.ID endpoint) as Hc.
  { revert Hcfg. unfold Telegram.ConfigFromEndpoint. destruct (raw_config endpoint); [|done]. by intros <-%(inj Some). }
  unfold Telegram.Handle. cbv zeta. destruct (Telegram.verifySecret (Telegram.normalize cfg) (req_headers r)) eqn:Hv; hooked.
  change (Telegram.EndpointID (Telegram.normalize cfg)) with (TrimSpace (Telegram.EndpointID cfg)). rewrite Hc.
  apply (receive_hook _ _ endpoint); [|by eapply raw_event_endpoint|done].
  split_and!; [done..|by exists ProviderTelegram|by exists cfg].
Qed.

Lemma feishu_adds startedAt draws cancelled now r w :
  goes (adds (by_hook PFeishu r (store w))) w (handleFeishuCallback startedAt draws cancelled now r w).2.
Proof.
  apply hook_endpoint_adds. intros endpoint Hin Hid Hen Hp.
  destruct (Feishu.ConfigFromEndpoint endpoint) as [cfg|] eqn:Hcfg; hooked.
  assert (Feishu.EndpointID cfg = EpS.ID endpoint) as Hc.
  { revert Hcfg. unfold Feishu.ConfigFromEndpoint. destruct (raw_config endpoint); [|done]. by intros <-%(inj Some). }
  unfold Feishu.Handle. cbv zeta. destruct (_ =s ""); hooked.
  destruct (Feishu.parseEnvelope _) as [env|] eqn:Henv; hooked. destruct (_ <>s ""); hooked.
  destruct (Feishu.verifyToken (Feishu.normalize cfg) (Feishu.token_of env)) eqn:Hv; hooked. cbn [negb].
  destruct (_ || _); hooked.
  change (Feishu.EndpointID (Feishu.normalize cfg)) with (TrimSpace (Feishu.EndpointID cfg)). rewrite Hc.
  apply (receive_hook _ _ endpoint); [|by eapply raw_event_endpoint|done].
  split_and!; [done..|by exists ProviderFeishu|by exists cfg, env].
Qed.

Lemma wechat_adds startedAt draws cancelled now r w :
  goes (adds (by_hook (PWeChat false) r (store w))) w (handleWeChatCallback startedAt draws cancelled now false r w).2.
Proof.
  apply hook_endpoint_adds. intros endpoint Hin Hid Hen Hp.
  destruct (Weixin.ConfigFromEndpoint endpoint) as [cfg|] eqn:Hcfg; hooked.
  assert (Weixin.EndpointID cfg = EpS.ID endpoint) as Hc.
  { revert Hcfg. unfold Weixin.ConfigFromEndpoint. destruct (raw_config endpoint); [|done]. by intros <-%(inj Some). }
  cbv zeta. change (Weixin.mkQuery _ _ _ _) with (weixin_query r). unfold Weixin.Handle. cbv zeta.
  destruct (Weixin.VerifySignature (Weixin.Token (Weixin.normalize cfg)) (weixin_query r)) eqn:Hv; hooked. cbn [negb].
  destruct (_ && _); hooked. destruct (_ =s ""); hooked.
  destruct (Weixin.ParseOfficialAccountXML _) as [official|]; hooked. destruct (_ <>s ""); hooked.
  destruct (Weixin.ToNormalizerJSON official) as [body external].
  change (Weixin.EndpointID (Weixin.normalize cfg)) with (TrimSpace (Weixin.EndpointID cfg)). rewrite Hc.
  apply (receive_hook _ _ endpoint); [|by eapply raw_event_endpoint|done].
  split_and!; [done..|by exists ProviderWeixin|by exists cfg].
Qed.

Lemma wecom_adds startedAt draws cancelled now r w :
  goes (adds (by_hook (PWeCom false) r (store w))) w (handleWeComCallback startedAt draws cancelled now false r w).2.
Proof.
  apply hook_endpoint_adds. intros endpoint Hin Hid Hen Hp.
  destruct (WeCom.ConfigFromEndpoint endpoint) as [cfg|] eqn:Hcfg; hooked.
  assert (WeCom.EndpointID cfg = EpS.ID endpoint) as Hc.
  { revert Hcfg. unfold WeCom.ConfigFromEndpoint. destruct (raw_config endpoint); [|done]. by intros <-%(inj Some). }
  destruct (negb (EqualFold (WeCom.Mode cfg) "callback_app")); hooked.
  cbv zeta. unfold WeCom.Handle. cbv zeta. destruct (_ =s ""); hooked.
  destruct (WeCom.unmarshal_envelope _) as [encrypted|] eqn:Henv; hooked.
  match goal with |- context [WeCom.verifySignature ?t ?q] => destruct (WeCom.verifySignature t q) eqn:Hv end; hooked. cbn [negb].
  destruct (WeCom.decryptPayload _ _ _ ≫= _) as [msg|]; hooked. destruct (_ || _); hooked.
  destruct (negb (WeCom.allowFrom _ _)); hooked. destruct (WeCom.ToNormalizerJSON msg) as [body external].
  change (WeCom.EndpointID (WeCom.normalize cfg)) with (TrimSpace (WeCom.EndpointID cfg)). rewrite Hc.
  apply (receive_hook _ _ endpoint); [|by eapply raw_event_endpoint|done].
  split_and!; [done..|by exists ProviderWeCom|by exists cfg, encrypted].
Qed.

(** ** Requests *)

(** The author of a message a request adds. *)
Definition signed (q : route) (r : http_request) (s : Site) (m : Mw.MessageRow) : Prop :=
  match q with
  | Account _ => ∃ p, holds_session (clock_at (draws (world s))) (bearerToken r) p (site_db s) ∧ by_account p m
  | Public q => by_hook q r (site_db s) m
  | Daemon q => sends q = true ∧
      ∃ enrollment, authenticateDaemonConnect (clock_at (draws (world s))) (req_headers r) (directory_of s) = inr enrollment
  end.

(** A webhook at the time it arrives. *)
Lemma hook_adds {B} (P : Store.Store → Mw.MessageRow → Prop) (f : Z → Coordinator → reply B * Coordinator) s :
  (∀ now w, goes (adds (P (store w))) w (f now w).2) →
  adds (P (site_db s)) (site_db s) (site_db (timed (λ now, on_coordinator (f now)) s).2).
Proof.
  intros Hf. unfold timed. cbn. set (now := clock_at _).
  specialize (Hf now (mkCoord (site_db s) (inbound s))). unfold on_coordinator. cbn [site_db set_world world inbound db] in *.
  by destruct (f now _).
Qed.

Lemma public_adds c q r s : adds (by_hook q r (site_db s)) (site_db s) (site_db (serve_public c q r s).2).
Proof.
  set (P := by_hook q r (site_db s)).
  assert (∀ m : step, moves (adds P) m → adds P (site_db s) (site_db (m s).2)) as Hm by (intros m H; apply H).
  destruct q as [| | | | |get|get| | |]; cbn [serve_public].
  all: try (apply Hm; repeat moves_step; solve_posts; fail).
  - apply (hook_adds (by_hook PTelegram r)). intros now w. apply telegram_adds.
  - apply (hook_adds (by_hook PFeishu r)). intros now w. apply feishu_adds.
  - destruct get; [|apply (hook_adds (by_hook (PWeCom false) r)); intros now w; apply wecom_adds].
    apply Hm, moves_timed. intros now. apply moves_coordinator. intros w. apply hook_endpoint_adds.
    intros endpoint _ _ _ _. destruct (WeCom.ConfigFromEndpoint endpoint); hooked. destruct (negb _); hooked.
  - destruct get; [|apply (hook_adds (by_hook (PWeChat false) r)); intros now w; apply wechat_adds].
    apply Hm, moves_timed. intros now. apply moves_coordinator. intros w. apply hook_endpoint_adds.
    intros endpoint _ _ _ _. destruct (Weixin.ConfigFromEndpoint endpoint); hooked.
  - apply Hm, moves_guarded; [exact _|unfold account_or_query; solve_posts|]. intros p. moves_step. solve_posts.
Qed.

Lemma daemon_adds c q r s : adds (signed (Daemon q) r s) (site_db s) (site_db (serve_daemon c q r s).2).
Proof.
  pose proof (moves_daemon (adds (λ _, sends q = true)) c q r (rpc_posts q) s) as H.
  destruct (authenticateDaemonConnect (clock_at (draws (world s))) (req_headers r) (directory_of s)) as [e|en] eqn:Ha.
  - unfold serve_daemon. destruct (introduction_of q); [|reflexivity]. unfold timed. cbn. by rewrite Ha.
  - eapply adds_weaken; [|exact H]. intros m Hs. split; [exact Hs|by exists en].
Qed.

(** C11. The history of messages only grows, whatever is requested: no request changes or
    deletes a message, and each one it adds is signed.  A route of accounts adds only messages
    of the account whose open session the request's token names, or notes of the server about
    members; a webhook only messages of the endpoint in its path, which is enabled and of the
    provider, and whose credentials the request carries; a daemon's call adds only if it is one
    of the two that send messages and its enrollment is accepted; nothing else adds any. *)
Theorem messages_are_signed c q r s :
  unique_rows (rows User.User (site_db s)) = true → unique_rows (rows Models.Session (site_db s)) = true →
  adds (signed q r s) (site_db s) (site_db (serve c q r s).2).
Proof.
  intros Hu Hs. destruct q as [q|a|q]; cbn [serve]; [apply public_adds| |apply daemon_adds].
  pose proof (account_of_spec r s Hu Hs) as Hwho.
  assert (via (adds (λ _, False)) (account_of r)) as Hvia by (unfold account_of; solve_posts).
  specialize (Hvia (world s)). unfold guarded. destruct (account_of r (world s)) as [[e|[st p|st m]] w]; [done| |].
  - destruct Hwho as (Hd & _ & Hp). pose proof (account_posts c a r p (set_world w s)) as H. unfold site_db in H, Hd |- *.
    cbn [set_world world] in H. rewrite Hd in H. eapply adds_weaken; [|exact H]. intros m Hm. by exists p.
  - eapply adds_weaken; [|exact Hvia]. done.
Qed.

End authors.

(** ** Examples: Ann writes, and so does a chat behind a bot with a secret *)

Section examples.
Import Toy.

Definition member (k v : string) : string := quoted k +:+ ":" +:+ v.

Definition post (token : string) : http_request :=
  request token ∅ ("{" +:+ member "target" (quoted "#ops") +:+ "," +:+ member "content" (quoted "hi") +:+ "}").

Definition bot : EpS.InteractionEndpoint :=
  InteractionEndpoint.zero |> InteractionEndpoint.set_ID "tg" |> InteractionEndpoint.set_Kind "im"
    |> InteractionEndpoint.set_Provider "telegram" |> InteractionEndpoint.set_DisplayName "bot"
    |> InteractionEndpoint.set_InboundEnabled true
    |> InteractionEndpoint.set_ConfigJSON ("{" +:+ member "secret_token" (quoted "s3") +:+ "," +:+ member "default_target" (quoted "#ops") +:+ "}").

Definition bot_site : Site :=
  set_world (RpcServer.start "srv" (set_endpoints [bot] store)) site.

Definition update : string :=
  "{" +:+ member "update_id" "1" +:+ "," +:+
  member "message" ("{" +:+ member "message_id" "7" +:+ "," +:+ member "date" "900" +:+ "," +:+
    member "chat" ("{" +:+ member "id" "5" +:+ "," +:+ member "type" (quoted "private") +:+ "}") +:+ "," +:+
    member "from" ("{" +:+ member "id" "9" +:+ "}") +:+ "," +:+ member "text" (quoted "hello") +:+ "}") +:+ "}".

Definition telegram (secret : string) : http_request :=
  mkRequest {[ "endpointID" := "tg" ]} ∅ {[ Telegram.SecretTokenHeader := [secret] ]} ∅ "" false update
    (Z.of_nat (String.length update)).

Definition said (s : Site) : list (string * string * string) :=
  (λ m, (Mw.SenderKind m, Mw.SenderUserID m +:+ Mw.SourceEndpointID m, Mw.Content m)) <$> rows Mw.MessageRow (site_db s).

Example ann_writes : said (serve conf (Account ACreateMessage) (post "t1") bot_site).2 = [("human", "u1", "hi")].
Proof. vm_compute. reflexivity. Qed.

Example not_without_the_secret : said (serve conf (Public PTelegram) (telegram "") bot_site).2 = [].
Proof. vm_compute. reflexivity. Qed.

Lemma messages_are_signed_witness :
  said (serve conf (Public PTelegram) (telegram "s3") bot_site).2 = [("endpoint", "tg", "hello")] ∧
  adds (signed (Public PTelegram) (telegram "s3") bot_site) (site_db bot_site)
    (site_db (serve conf (Public PTelegram) (telegram "s3") bot_site).2).
Proof.
  split; [vm_compute; reflexivity|].
  apply (messages_are_signed conf (Public PTelegram) (telegram "s3") bot_site); reflexivity.
Defined.

End examples.
