(* ===== verification/HttpEvents.v ===== *)
(** * What the stream of server events delivers ([internal/server/bridge.go])

    A client that keeps [/api/server-events] open gets every event of its scope behind its
    cursor, once and in order.  Each turn of the loop reads the store anew, so the rules are
    about the turns of one stream over stores that other callers append to; the stream of one
    store follows. *)
From S2P Require Import Prelude GoStr GoText Json JsonValue Sql Models Schema Store Frame.
From S2P Require Import Messages Events Proto RpcText Rpc RpcConv RpcMessages Http HttpBase HttpWork HttpBridge HttpServer.

#[local] Open Scope go_scope.

Module Ev := Models.CollaborationEvent.

(** ** Sorted lists *)

Lemma bfilter_sorted {A} (R : A → A → Prop) (p : A → bool) l :
  StronglySorted R l → StronglySorted R (bfilter p l).
Proof.
  induction 1 as [|x l Hl IH Hx]; simpl; [constructor|]. destruct (p x); [|done].
  constructor; [done|]. rewrite Forall_forall in Hx |- *.
  intros y [Hy _]%elem_of_bfilter. by apply Hx.
Qed.

Lemma seqZ_sorted n : ∀ m, StronglySorted Z.lt (seqZ m (Z.of_nat n)).
Proof.
  induction n as [|n IH]; intros m; [constructor|].
  rewrite Nat2Z.inj_succ, seqZ_cons by lia. replace (Z.pred (Z.succ (Z.of_nat n))) with (Z.of_nat n) by lia.
  constructor; [apply IH|]. rewrite Forall_forall. intros y Hy%elem_of_seqZ. lia.
Qed.

Lemma fmap_sorted {A} (f : A → Z) l :
  StronglySorted Z.lt (f <$> l) → StronglySorted (λ a b, (f a < f b)%Z) l.
Proof.
  induction l as [|x l IH]; simpl; [constructor|]. intros [H1 H2]%StronglySorted_inv.
  constructor; [by apply IH|]. rewrite Forall_forall in H2. apply Forall_forall.
  intros y Hy. apply H2. by apply list_elem_of_fmap_2.
Qed.

Lemma increasing_inj {A} (f : A → Z) l a b :
  StronglySorted (λ a b, (f a < f b)%Z) l → a ∈ l → b ∈ l → f a = f b → a = b.
Proof.
  induction 1 as [|x l _ IH Hx]; [by intros ?%elem_of_nil|]. rewrite Forall_forall in Hx.
  intros [->|Ha]%elem_of_cons [->|Hb]%elem_of_cons Hf; [done| | |by apply IH].
  - specialize (Hx _ Hb). lia.
  - specialize (Hx _ Ha). lia.
Qed.

(** In an increasing list, what is above the last of a prefix is the rest. *)
Lemma above_the_last {A} (f : A → Z) l1 x l2 :
  StronglySorted (λ a b, (f a < f b)%Z) ((l1 ++ [x]) ++ l2) →
  bfilter (λ e, (f x <? f e)%Z) ((l1 ++ [x]) ++ l2) = l2.
Proof.
  intros (H12 & H1 & _)%StronglySorted_app. rewrite bfilter_app, bfilter_none; simpl.
  - apply bfilter_all. intros y Hy. apply Z.ltb_lt. apply H12; [|done]. apply elem_of_app. right. by left.
  - intros y [Hy| ->%list_elem_of_singleton]%elem_of_app; [|apply Z.ltb_irrefl].
    apply Z.ltb_ge. apply StronglySorted_app in H1 as (H1 & _ & _).
    apply Z.lt_le_incl, H1; [done|by left].
Qed.

Section stream.
Context {Eng : SqlEngine} {Laws : SqlLaws}.
Context {Uni : Unicode} {Txt : TextLib} {Ord : MapOrder} {PJ : ProtoJSON} {E : Env}.

(** The events a cursor has not passed: those of its server, target and aggregate above its
    number. *)
Definition wanted (serverID : string) (cursor : Cur.EventCursor) (e : Models.CollaborationEvent) : bool :=
  (Ev.ServerID e =s serverID) && (Cur.Sequence cursor <? Ev.Sequence e)%Z &&
  (if Cur.Target cursor <>s "" then Ev.Target e =s Cur.Target cursor else true) &&
  (if Cur.AggregateId cursor <>s "" then Ev.AggregateID e =s Cur.AggregateId cursor else true).

(** They, in the order they were written. *)
Definition pending (serverID : string) (cursor : Cur.EventCursor) (s : Store) : list Models.CollaborationEvent :=
  bfilter (wanted serverID cursor) (rows CollaborationEvent s).

Lemma rows_increase serverID s :
  gap_free s →
  StronglySorted (λ a b, (Ev.Sequence a < Ev.Sequence b)%Z) (bfilter (λ r, Ev.ServerID r =s serverID) (rows CollaborationEvent s)).
Proof. intros Hg. apply fmap_sorted. specialize (Hg serverID). unfold sequences in Hg. rewrite Hg. apply seqZ_sorted. Qed.

Lemma pending_increases serverID cursor s :
  gap_free s → StronglySorted (λ a b, (Ev.Sequence a < Ev.Sequence b)%Z) (pending serverID cursor s).
Proof.
  intros Hg. pose proof (bfilter_sorted _ (wanted serverID cursor) _ (rows_increase serverID s Hg)) as H.
  rewrite bfilter_bfilter in H. unfold pending. erewrite bfilter_ext; [exact H|].
  intros e _. unfold wanted. by destruct (_ =s _).
Qed.

(** The query reads them by number, which is the order they were written in. *)
Lemma ListCollaborationEvents_pending serverID cursor limit s :
  gap_free s →
  ListCollaborationEvents serverID (Cur.Target cursor) (Cur.AggregateId cursor) (Cur.Sequence cursor) limit s =
  (inr (take (Z.to_nat (bounded_limit limit 200 100)) (pending serverID cursor s)), s).
Proof.
  intros Hg.
  assert (wp (ListCollaborationEvents serverID (Cur.Target cursor) (Cur.AggregateId cursor) (Cur.Sequence cursor) limit)
    (λ r s', r = inr (take (Z.to_nat (bounded_limit limit 200 100)) (pending serverID cursor s)) ∧ s' = s) s) as H.
  { unfold ListCollaborationEvents. wp_step. wp_step. wp_step. split; [|done]. f_equal.
    rewrite (list_fmap_ext _ id) by (intros; apply collaborationEventFromEnt_id). rewrite list_fmap_id.
    unfold window. f_equal. cbn [drop].
    pose proof (pending_increases serverID cursor s Hg) as Hi. symmetry.
    apply (sorted_by_unique [AscZ Ev.Sequence]); [|by symmetry| |done].
    - intros a b Ha Hb H1 H2. apply (increasing_inj _ _ _ _ Hi Ha Hb).
      cbn in H1, H2. destruct (Z.ltb_spec (Ev.Sequence a) (Ev.Sequence b)),
        (Z.ltb_spec (Ev.Sequence b) (Ev.Sequence a)); first [lia|done].
    - eapply StronglySorted_weaken; [|exact Hi]. intros a b Hab. cbn.
      by rewrite (proj2 (Z.ltb_lt _ _) Hab). }
  unfold wp in H. destruct (ListCollaborationEvents _ _ _ _ _ _). cbn in H. by destruct H as [-> ->].
Qed.

(** *** One turn *)

(** The cursor of a turn that wrote the events. *)
Definition behind (serverID : string) (cursor : Cur.EventCursor) (events : list Models.CollaborationEvent) :
    Cur.EventCursor :=
  foldl (λ cursor event, cursor_behind cursor serverID event) cursor (collaborationEventToProto <$> events).

Definition batch (limit : Z) : nat := Z.to_nat (bounded_limit limit 200 100).

Lemma events_turn_reads limit cursor w :
  gap_free (db w) →
  let events := take (batch limit) (pending (serverID (srv w)) cursor (db w)) in
  events_turn limit cursor w =
  (inr (Some (collaborationEventToProto <$> events, behind (serverID (srv w)) cursor events)), w).
Proof.
  intros Hg events. unfold events_turn, caught, ListEventsSince, or_status, stored, gets.
  unfold mbind, R_bind, mret, R_ret. cbn -[ListCollaborationEvents bounded_limit].
  rewrite ListCollaborationEvents_pending by done.
  cbn -[bounded_limit behind]. replace (bounded_limit (bounded_limit limit 200 100) 200 100) with (bounded_limit limit 200 100).
  - by destruct w.
  - unfold bounded_limit. destruct (_ || _) eqn:H; [done|by rewrite H].
Qed.

Lemma sequence_of_proto e : BrE.Sequence (collaborationEventToProto e) = Ev.Sequence e.
Proof.
  unfold collaborationEventToProto.
  repeat match goal with |- context [match ?x with Some _ => _ | None => _ end] => destruct x end; reflexivity.
Qed.

Lemma behind_snoc serverID cursor events e :
  behind serverID cursor (events ++ [e]) = cursor_behind (behind serverID cursor events) serverID (collaborationEventToProto e).
Proof. unfold behind. by rewrite fmap_app, foldl_app. Qed.

Lemma behind_scope serverID cursor events :
  Cur.Target (behind serverID cursor events) = Cur.Target cursor ∧
  Cur.AggregateId (behind serverID cursor events) = Cur.AggregateId cursor.
Proof. induction events as [|e events IH] using rev_ind; [done|]. by rewrite behind_snoc. Qed.

(** What was pending is what the turn wrote and what is pending behind it, also in a store
    to which events were added since. *)
Lemma pending_behind serverID cursor s s' n :
  gap_free s' → rows CollaborationEvent s `prefix_of` rows CollaborationEvent s' →
  let events := take n (pending serverID cursor s) in
  pending serverID cursor s' = events ++ pending serverID (behind serverID cursor events) s'.
Proof.
  intros Hg [rs Hrs] events. destruct events as [|x l _] eqn:He using rev_ind; [done|].
  pose proof (pending_increases serverID cursor s' Hg) as Hi.
  assert (pending serverID cursor s' =
    (l ++ [x]) ++ drop n (pending serverID cursor s) ++ bfilter (wanted serverID cursor) rs) as Hp.
  { rewrite app_assoc, <-He. subst events. rewrite take_drop. unfold pending. by rewrite Hrs, bfilter_app. }
  assert (pending serverID (behind serverID cursor (l ++ [x])) s' =
    bfilter (λ e, (Ev.Sequence x <? Ev.Sequence e)%Z) (pending serverID cursor s')) as ->.
  { unfold pending at 2. rewrite bfilter_bfilter. apply bfilter_ext. intros e _.
    destruct (behind_scope serverID cursor l) as [Ht Ha].
    assert (x ∈ pending serverID cursor s') as Hx by (rewrite Hp; set_solver).
    apply elem_of_bfilter in Hx as [_ Hx]. unfold wanted in Hx |- *. rewrite behind_snoc. cbn.
    rewrite sequence_of_proto, Ht, Ha.
    destruct (Z.ltb_spec (Cur.Sequence cursor) (Ev.Sequence x)); [|by rewrite andb_false_r in Hx].
    destruct (Z.ltb_spec (Ev.Sequence x) (Ev.Sequence e)).
    - rewrite (proj2 (Z.ltb_lt (Cur.Sequence cursor) (Ev.Sequence e))) by lia. by rewrite !andb_true_r.
    - by rewrite !andb_false_r. }
  rewrite Hp in Hi |- *. by rewrite above_the_last.
Qed.

(** *** Whole streams *)

(** The turns of a stream that stays open, each over the world it finds: between two turns
    other callers change it.  [None] is a turn that failed. *)
Fixpoint turns_over (limit : Z) (cursor : Cur.EventCursor) (ws : list World) :
    option (list BrE.CollaborationEvent * Cur.EventCursor) :=
  match ws with
  | [] => Some ([], cursor)
  | w :: ws =>
      match (events_turn limit cursor w).1 with
      | inr (Some (events, cursor)) =>
          match turns_over limit cursor ws with
          | Some (rest, cursor) => Some (events ++ rest, cursor)
          | None => None
          end
      | _ => None
      end
  end.

(** [w] is a later world of the same server: to the events of [w0] others were added. *)
Definition earlier (w w0 : World) : Prop :=
  serverID (srv w0) = serverID (srv w) ∧ gap_free (db w0) ∧
  rows CollaborationEvent (db w0) `prefix_of` rows CollaborationEvent (db w).

(** C21. A stream of server events that is open while other callers append to the log misses
    no event, repeats none and keeps their order: over any worlds it finds in its turns, what
    it has written and what is still pending behind its cursor make up, in this order, the
    events of its scope in the world reached. *)
Theorem stream_misses_nothing limit cursor ws w :
  gap_free (db w) → Forall (earlier w) ws →
  ∃ written cursor',
    turns_over limit cursor ws = Some (collaborationEventToProto <$> written, cursor') ∧
    pending (serverID (srv w)) cursor (db w) = written ++ pending (serverID (srv w)) cursor' (db w).
Proof.
  intros Hg Hws. revert cursor. induction Hws as [|w0 ws (Hs & Hg0 & Hp) _ IH]; intros cursor; cbn [turns_over].
  - by exists [], cursor.
  - rewrite events_turn_reads, Hs by done. cbn [fst].
    set (events := take _ _). destruct (IH (behind (serverID (srv w)) cursor events)) as (written & cursor' & -> & Hw).
    exists (events ++ written), cursor'. split; [by rewrite fmap_app|].
    rewrite <-app_assoc, <-Hw. by apply pending_behind.
Qed.

Lemma batch_positive limit : 0 < batch limit.
Proof. unfold batch, bounded_limit. destruct (_ || _) eqn:H; [lia|]. reflect_bools. lia. Qed.

(** What the stream writes of an event. *)
Definition event_line (e : Models.CollaborationEvent) : sse :=
  SseEvent (BrE.EventId (collaborationEventToProto e)) (collaborationEventToProto e).

Definition is_ping (line : sse) : bool := match line with SsePing _ => true | _ => false end.

Lemma events_loop_writes limit turns : ∀ wakes cursor w,
  gap_free (db w) → length (pending (serverID (srv w)) cursor (db w)) ≤ turns →
  ∃ pings w',
    events_loop turns wakes limit cursor w =
    (inr ((event_line <$> pending (serverID (srv w)) cursor (db w)) ++ pings), w') ∧
    forallb is_ping pings = true ∧ srv w' = srv w ∧ db w' = db w.
Proof.
  induction turns as [|turns IH]; intros wakes cursor w Hg Hn; cbn [events_loop].
  { exists [], w. by destruct (pending _ _ _); [|cbn in Hn; lia]. }
  unfold mbind, R_bind. rewrite events_turn_reads by done.
  pose proof (pending_behind (serverID (srv w)) cursor (db w) (db w) (batch limit) Hg) as Hp.
  specialize (Hp ltac:(reflexivity)). cbv zeta in Hp.
  set (events := take _ _) in *. destruct events as [|e rest] eqn:He; cbn [fmap list_fmap].
  - assert (pending (serverID (srv w)) cursor (db w) = []) as Hnil.
    { apply (f_equal length) in He. subst events. rewrite length_take in He. cbn in He.
      pose proof (batch_positive limit). destruct (pending _ _ _); [done|]. cbn in He. lia. }
    destruct wakes as [|[] wakes]; [by rewrite Hnil; exists [], w| |by rewrite Hnil; exists [], w].
    cbn -[pending]. edestruct (IH wakes cursor) as (pings & w' & -> & ? & ? & ?); [exact Hg|cbn; rewrite Hnil; cbn; lia|].
    cbn -[pending]. rewrite Hnil. eexists (_ :: pings), w'. done.
  - set (cursor' := behind _ _ _) in *.
    destruct (IH wakes cursor' w) as (pings & w' & -> & ? & ? & ?); [done| |].
    { rewrite Hp, length_app in Hn. cbn [length] in Hn. lia. }
    exists pings, w'. split; [|done]. rewrite Hp, fmap_app, <-app_assoc. cbn -[pending].
    do 3 f_equal. by rewrite <-list_fmap_compose.
Qed.

(** C20. The stream a request opens on [/api/server-events] writes every event of the request's
    target and aggregate above its cursor, each once and in the order they happened, then
    nothing but pings, and changes nothing: however the events are split into batches, as many
    turns as there are events are enough. *)
Theorem handleServerEvents_delivers turns wakes r w :
  let events := pending (serverID (srv w)) (first_cursor r (serverID (srv w))) (db w) in
  gap_free (db w) → length events ≤ turns →
  ∃ pings w',
    handleServerEvents turns wakes r w = (inr (Reply StatusOK ((event_line <$> events) ++ pings)), w') ∧
    forallb is_ping pings = true ∧ srv w' = srv w ∧ db w' = db w.
Proof.
  intros events Hg Hn.
  destruct (events_loop_writes (event_limit r) turns wakes (first_cursor r (serverID (srv w))) w Hg Hn)
    as (pings & w' & He & H).
  exists pings, w'. split; [|exact H].
  unfold handleServerEvents, mbind, R_bind, gets. by rewrite He.
Qed.

End stream.

(** ** An example: a log of three events, two of them of one room *)

Section examples.
Import Toy.

Definition toy_event (n : Z) (id target : string) : Models.CollaborationEvent :=
  Ev.zero |> Ev.set_ServerID "srv" |> Ev.set_Sequence n |> Ev.set_EventID id |> Ev.set_Target target |> Ev.set_Kind "task".

Definition toy_log : list Models.CollaborationEvent :=
  [toy_event 1 "e1" "#ops"; toy_event 2 "e2" "#dev"; toy_event 3 "e3" "#ops"].

(** The world after the first [n] of them. *)
Definition toy_world (n : nat) : World :=
  RpcServer.start "srv" (set_collaboration_events (take n toy_log) Toy.store).

Lemma toy_gap_free n : n ≤ 3 → gap_free (db (toy_world n)).
Proof.
  intros Hn server. assert (sequences server (db (toy_world n)) =
    if "srv" =s server then Ev.Sequence <$> take n toy_log else []) as ->.
  { unfold sequences. destruct ("srv" =s server) eqn:H; [f_equal; apply bfilter_all|rewrite bfilter_none; [done|]];
      intros x Hx%elem_of_take; destruct Hx as (i & Hx%list_elem_of_lookup_2 & _);
      unfold toy_log in Hx; rewrite !elem_of_cons, elem_of_nil in Hx; by destruct Hx as [->|[->|[->|[]]]]. }
  destruct ("srv" =s server), n as [|[|[|[|n]]]]; first [reflexivity|lia].
Qed.

Definition toy_cursor : Cur.EventCursor := event_cursor "#ops" "" 0 "srv".

Lemma stream_misses_nothing_witness :
  Forall (earlier (toy_world 3)) [toy_world 0; toy_world 1; toy_world 3] ∧
  ∃ written cursor',
    turns_over 1 toy_cursor [toy_world 0; toy_world 1; toy_world 3] =
      Some (collaborationEventToProto <$> written, cursor') ∧
    pending "srv" toy_cursor (db (toy_world 3)) = written ++ pending "srv" cursor' (db (toy_world 3)).
Proof.
  assert (Forall (earlier (toy_world 3)) [toy_world 0; toy_world 1; toy_world 3]) as H.
  { repeat constructor; try (by apply toy_gap_free; lia); by apply prefix_cut || by eexists. }
  split; [exact H|].
  refine (stream_misses_nothing 1 toy_cursor _ (toy_world 3) _ H). apply toy_gap_free. lia.
Defined.

Example stream_written :
  turns_over 1 toy_cursor [toy_world 0; toy_world 1; toy_world 3] =
  Some ([collaborationEventToProto (toy_event 1 "e1" "#ops"); collaborationEventToProto (toy_event 3 "e3" "#ops")],
        cursor_behind toy_cursor "srv" (collaborationEventToProto (toy_event 3 "e3" "#ops"))).
Proof. vm_compute. reflexivity. Qed.

Definition toy_request : http_request :=
  mkRequest ∅ {[ "target" := ["#ops"] ]} ∅ ∅ "" false "" 0.

Lemma handleServerEvents_delivers_witness :
  ∃ pings w',
    handleServerEvents 3 [Tick; Tick; Done] toy_request (toy_world 3) =
      (inr (Reply StatusOK ([event_line (toy_event 1 "e1" "#ops"); event_line (toy_event 3 "e3" "#ops")] ++ pings)), w') ∧
    forallb is_ping pings = true ∧ srv w' = srv (toy_world 3) ∧ db w' = db (toy_world 3).
Proof.
  refine (handleServerEvents_delivers 3 [Tick; Tick; Done] toy_request (toy_world 3) _ _).
  - apply toy_gap_free. lia.
  - vm_compute. lia.
Defined.

End examples.
